(* ===== verification/_CoqProject ===== *)
-Q . S2P
Prelude.v
Memory.v
Lib.v
Filesystem.v
Copies.v
Machine.v
Pic.v
Screen.v
Paging.v
Rtc.v
Terminal.v
LineEditor.v
Syscall.v
FileTable.v
Processes.v
ProcessTable.v
Pit.v
Scheduling.v
Idt.v
Kernel.v
User.v
Session.v
Sample.v
FileCalls.v
Programs.v
Blink.v
Fish.v
Dialog.v
Grep.v
Syserr.v
Emulate.v
Invariant.v
UserCalls.v
System.v
