(* ===== verification/Prelude.v ===== *)
(** * MarvelOS: a verification development

    MarvelOS is a small 32-bit x86 kernel (src/student-distrib): three text
    terminals on one display, each with a shell, six process slots, a read-only
    file system in a boot module, and ten system calls.  This library models the
    kernel's C code and inline assembly, and the user programs of src/syscalls, as
    executable Rocq functions and proves what they do.

    ** How the code is modelled

    A C function is a function in the state and error monad [ST] of this file.  A
    statement either gives a value and a new state or fails: a NULL dereference
    ([NullDeref]), an access outside an array ([OutOfBounds]), an access to an
    unmapped address ([PageFault]), a division by zero, or a loop that runs for
    more than 2^32 iterations ([Diverges]).  C integers are [Z] with the
    conversions [u8], [u16], [u32], [s8], [s32] written where the code has them.
    A global variable is a lens on the state record [machine] of file Machine;
    pointers are addresses, and every access to memory goes through the page
    tables that the code itself builds ([translate]).  Pointers into the kernel's
    own tables ([PCB_ptrs], [fdt], [fops_pointer]) are slot numbers or tags.

    Loops are [loop], with a bound of 2^32 iterations that a proof must show to
    suffice, or [for_] for counting loops.  [wp c Q s] is total correctness: [c]
    returns from [s], and [Q] holds of the result.  No theorem is of the form "if
    it returns" about one call: each gives the result, or the failure, of the call.

    The literals and local arrays that C puts on the kernel stack are the
    [local_array]s of file Machine.  A busy wait ([while (!flag);]) is [spin]: it
    serves the interrupts of the machine's list of future interrupts until its
    condition holds, and fails with [Diverges] when the list ends.  Port output is
    recorded in [trace]; port input is read from a function of the machine.

    ** The files, and the code they model

    - Memory: bytes, words and blocks of memory behind an interface [ByteMem]
      (a translation of addresses that may fail) and its laws, with aliasing.
    - Lib (lib.c: memset ... itoa), over [ByteMem].
    - Filesystem (filesystem.c), over [ByteMem], with the abstract image
      [fs_image] of a file system and its representation [fs_rep].
    - Copies: rules, over [ByteMem], for what the copying routines of lib.c and
      filesystem.c may write, whatever they copy.
    - Machine (types and globals of the headers; ports; address translation).
    - Pic (i8259.c), Rtc (RTC.c), Paging (paging.c, paging_asm.S).
    - Screen (lib.c: printf, puts, putc, KBputc, the cursor), with the abstract
      teletype [tty].
    - Terminal (terminal.c) and LineEditor: its refinement of a line editor.
    - Syscall (systemcall.c, systemcall_asm.S), and on top of it FileTable (the
      descriptor table), Processes (the parts of sys_execute) and ProcessTable
      (the stacks of processes of the terminals).
    - Pit (pit.c) and Scheduling (the threads, and the steps that concern processes).
    - Idt (idt_init.c) and Kernel (kernel.c): interrupt table and boot.
    - User (src/syscalls: ece391support.c, ece391syscall.S): the memory that user
      code sees, the programs' library and the system call wrappers; Session: a
      program at work on its terminal, and what each wrapper does there; Sample: a
      concrete such state; FileCalls: sequences of file calls; Programs (the mains
      of the other files of src/syscalls), Dialog (programs that read lines from
      the keyboard), Grep (ece391grep.c), Syserr (ece391syserr.c), and Blink and
      Fish (src/fish: blink.S, fish.c).
    - Emulate (src/syscalls/ece391emulate.c): the second implementation of the
      system call interface, for programs that run under Linux. The Linux kernel and
      the C library are the class [Linux]; a state is the memory of the process with
      Linux's state, and the file's static variables.

    - Invariant, UserCalls and System: the parts together.  Invariant has the
      invariant of the whole kernel, and the keyboard and the clock; UserCalls the
      system calls, for any arguments whose buffers are the program's own; System
      the exceptions, the transition system [event] and its theorems.

    ** The theorems

    - The system as a whole: from the boot on, every sequence of completed timer,
      keyboard and clock interrupts, system calls, exceptions and user stores keeps
      [Invariant.kernel_ok] (C1): the live processes are those on the
      terminals' stacks, each has its own frame, the disk is intact, the console is
      well formed, and user code reaches its own frame and the video pages only.  The
      steps are the runs that return, each without an interrupt in the middle; a tick
      that finds no slot for a shell that is due and runs that fail are not among
      them.  That the interrupts return is C2, and the calls have
      theorems of their own.  The kernel's initialisation (C7).  An exception ends the
      program that raised it, and no other (C6).
    - Processes: sys_execute pushes a process (C3), refuses without effect
      (C27), sys_halt pops it (C20), and the two are inverse
      (C4).  The scheduler takes the threads in turn while each
      has a program (C5) and starts the shells
      (C28).
    - Terminals: the keyboard handler refines the line editor
      (C19), a read returns the edited line (C18), switching
      keeps the screens (C24), writing refines the teletype
      (C23).
    - Files: read_data is a slice of the contents (C21), successive
      reads give consecutive pieces (C26), sys_open and sys_close
      implement a descriptor table (C25, C37).
    - Paging: the isolation of processes (C22), and the map
      that the boot establishes ([Paging.init_paging_map]).
    - Library routines: the word-at-a-time code is the byte-at-a-time reference
      ([Lib.memset_fills_block], [Lib.memmove_any_overlap]), and the number routine
      (C33).
    - Programs: no sequence of file calls, but for the descriptor 8 and reads of the
      keyboard, makes the kernel fail on a disk of files and directories
      (C12); cat prints the file (C11), ls the directory
      (C14), grep the lines of text files that match (C8), the tests of syserr pass (C13),
      hello and the shell answer what the user types (C10, C9), the records
      of the animation are a list of blinkers (C16) that tick (C17) and
      that the frames fill (C15), and the programs'
      library agrees with the kernel's but for the signs of a comparison
      (C34).
    - Emulation: a command is split into the vector that the child is started with
      (C29), whose emulated arguments are the words of the command
      joined by single spaces (C30, C31), and the directory is read entry by
      entry (C32) between its opening and closing
      ([Emulate.directory_lifecycle]).
    - Defects that the model shows: C36, C38,
      C40, C39.

    ** Bounds and fuel

    [LOOP_BOUND] is 2^32: a loop with a 32-bit counter that needs more never ends.
    [for_] and the [rep] instructions recurse on a number of iterations computed
    before the loop.  [spin] recurses on the list of future interrupts.

    ** Not modelled

    - Interrupts between two instructions of a kernel function.  Only the gates of
      the exceptions mask interrupts (idt_init.c); those of the devices and of the
      system calls are trap gates, so the processor can take an interrupt within a
      handler or a call, except where the code masks them itself.  In the model a
      kernel function runs without interruption, except that a system call is
      interrupted where it waits, by the keyboard and the clock.  The timer's switch
      away from a waiting read, and back, is in the transition system of file System,
      where a read is two steps.  What the theorems say of a call thus holds for runs
      that no interrupt divides: a tick in the middle of sys_execute, for one, can lead
      to a state that no sequence of steps gives.
    - boot.S and x86_desc.S (segment registers, the initial stack, static tables),
      the register saving of the assembly wrappers, debug.h (compiled out).
    - The TLB ([clearTLB] is recorded only), the accessed and dirty bits.
    - What a program does after the processor refused one of its accesses: the
      model stops with [PageFault] where the processor would call the kernel's
      page fault handler.  A call that hands the processor to another program
      (halt, execute) returns to its caller with the value [elsewhere] gives.
    - The mangled stack of sigtest's handlers (signals are never delivered).
    - The operations of Linux that ece391emulate.c calls, and the copy of the support
      library in src/fish (the same code as in src/syscalls). *)

From Stdlib Require Export ZArith Lia.
From stdpp Require Export base numbers list gmap option.

#[global] Open Scope Z_scope.
#[global] Set Default Goal Selector "!".

(** ** Fixed-width integers

    C integers are [Z]; [u8], [u16], [u32] and [s8], [s32] are the conversions
    to the unsigned and signed types of types.h. *)

Definition u8 (x : Z) : Z := x `mod` 2 ^ 8.

Definition u16 (x : Z) : Z := x `mod` 2 ^ 16.

Definition u32 (x : Z) : Z := x `mod` 2 ^ 32.

Definition s8 (x : Z) : Z := if u8 x <? 2 ^ 7 then u8 x else u8 x - 2 ^ 8.

Definition s32 (x : Z) : Z := if u32 x <? 2 ^ 31 then u32 x else u32 x - 2 ^ 32.

Lemma u8_range x : 0 <= u8 x < 256.
Proof. apply Z.mod_pos_bound. lia. Qed.

Lemma u32_range x : 0 <= u32 x < 2 ^ 32.
Proof. apply Z.mod_pos_bound. lia. Qed.

Lemma u8_small x : 0 <= x < 256 -> u8 x = x.
Proof. intros. unfold u8. apply Z.mod_small. lia. Qed.

Lemma u32_small x : 0 <= x < 2 ^ 32 -> u32 x = x.
Proof. intros. unfold u32. by apply Z.mod_small. Qed.

Lemma s32_small x : - 2 ^ 31 <= x < 2 ^ 31 -> s32 x = x.
Proof.
  intros. unfold s32, u32.
  destruct (decide (0 <= x)).
  - rewrite Z.mod_small by lia. destruct (Z.ltb_spec x (2 ^ 31)); lia.
  - replace (x `mod` 2 ^ 32) with (x + 2 ^ 32)
      by (apply (Z.mod_unique_pos _ _ (-1)); lia).
    destruct (Z.ltb_spec (x + 2 ^ 32) (2 ^ 31)); lia.
Qed.

(** [s8] separates bytes: the signed comparison of lib.c distinguishes exactly
    the bytes that differ. *)
Lemma s8_inj x y : 0 <= x < 256 -> 0 <= y < 256 -> s8 x = s8 y -> x = y.
Proof.
  intros ? ?. unfold s8. rewrite !u8_small by lia.
  destruct (Z.ltb_spec x (2 ^ 7)), (Z.ltb_spec y (2 ^ 7)); lia.
Qed.

Create HintDb word.
#[export] Hint Resolve u8_range u32_range : word.
Create Rewrite HintDb word.
#[export] Hint Rewrite u8_small u32_small s32_small using lia : word.

(** ** Failures, and the state and error monad

    A C statement runs in a state [S]; it returns a value and a new state, or
    it fails: a NULL dereference, an access outside an array object, an access
    to an unmapped page, a division by zero, or a loop that exceeds [2 ^ 32]
    iterations. *)

Inductive fault := NullDeref | OutOfBounds | PageFault | DivideError | Diverges.

#[export] Instance fault_eq_dec : EqDecision fault.
Proof. solve_decision. Defined.

Inductive result (A : Type) :=
| Ok (a : A)
| Fail (f : fault).
Arguments Ok {A} a.
Arguments Fail {A} f.

Definition ST (S A : Type) : Type := S -> result (A * S).

#[export] Instance ST_ret S : MRet (ST S) := fun A a s => Ok (a, s).

#[export] Instance ST_bind S : MBind (ST S) := fun A B k c s =>
  match c s with
  | Ok (a, s') => k a s'
  | Fail f => Fail f
  end.

Definition fail {S A} (f : fault) : ST S A := fun _ => Fail f.

Definition gets {S A} (g : S -> A) : ST S A := fun s => Ok (g s, s).

Definition modify {S} (g : S -> S) : ST S unit := fun s => Ok (tt, g s).

Definition when {S} (b : bool) (c : ST S unit) : ST S unit :=
  if b then c else mret tt.

Definition of_option {S A} (f : fault) (o : option A) : ST S A :=
  match o with
  | Some a => mret a
  | None => fail f
  end.

(** [seq c k]: the statement sequence [c; k]. *)
Notation "c ';;;' k" := (mbind (M := ST _) (fun _ : unit => k) c)
  (at level 100, right associativity, only parsing).

Lemma bind_ok {S A B} (c : ST S A) (k : A -> ST S B) s a s' :
  c s = Ok (a, s') -> (c ≫= k) s = k a s'.
Proof. intros H. unfold mbind, ST_bind. by rewrite H. Qed.

Lemma bind_fail {S A B} (c : ST S A) (k : A -> ST S B) s f :
  c s = Fail f -> (c ≫= k) s = Fail f.
Proof. intros H. unfold mbind, ST_bind. by rewrite H. Qed.

Lemma bind_inv {S A B} (c : ST S A) (k : A -> ST S B) s b s'' :
  (c ≫= k) s = Ok (b, s'') -> exists a s', c s = Ok (a, s') /\ k a s' = Ok (b, s'').
Proof.
  unfold mbind, ST_bind. destruct (c s) as [[a s']|f]; [|done]. eauto.
Qed.

Lemma run_assoc {S A B C} (c : ST S A) (d : A -> ST S B) (k : B -> ST S C) s :
  (c ≫= (fun a => d a ≫= k)) s = ((c ≫= d) ≫= k) s.
Proof. unfold mbind, ST_bind. by destruct (c s) as [[a s']|]. Qed.

Lemma bind_ret_r {S A} (c : ST S A) s : (c ≫= mret) s = c s.
Proof. unfold mbind, ST_bind. by destruct (c s) as [[a s']|]. Qed.

(** ** Total-correctness triples

    [wp c Q s]: from state [s], [c] returns (it neither fails nor runs out of
    its loop bound) with a value and a state that satisfy [Q]. *)

Definition wp {S A} (c : ST S A) (Q : A -> S -> Prop) (s : S) : Prop :=
  match c s with
  | Ok (a, s') => Q a s'
  | Fail _ => False
  end.

Lemma wp_ret {S A} (a : A) (Q : A -> S -> Prop) s : wp (mret a) Q s <-> Q a s.
Proof. done. Qed.

Lemma wp_bind {S A B} (c : ST S A) (k : A -> ST S B) Q s :
  wp (c ≫= k) Q s <-> wp c (fun a => wp (k a) Q) s.
Proof. unfold wp, mbind, ST_bind. by destruct (c s) as [[a s']|]. Qed.

Lemma wp_gets {S A} (g : S -> A) Q s : wp (gets g) Q s <-> Q (g s) s.
Proof. done. Qed.

Lemma wp_modify {S} (g : S -> S) Q s : wp (modify g) Q s <-> Q tt (g s).
Proof. done. Qed.

Lemma wp_mono {S A} (c : ST S A) (P Q : A -> S -> Prop) s :
  wp c P s -> (forall a s', P a s' -> Q a s') -> wp c Q s.
Proof. unfold wp. destruct (c s) as [[a s']|]; eauto. Qed.

(** Two statements as a block. *)
Lemma wp_seq_assoc {S B} (c d : ST S unit) (k : ST S B) Q s :
  wp ((c ;;; d) ;;; k) Q s -> wp (c ;;; d ;;; k) Q s.
Proof. rewrite !wp_bind. intros H. eapply wp_mono; [exact H|]. intros [] s'. by rewrite wp_bind. Qed.

Lemma wp_run {S A} (c : ST S A) Q s a s' : c s = Ok (a, s') -> Q a s' -> wp c Q s.
Proof. intros H ?. unfold wp. by rewrite H. Qed.

Lemma wp_inv {S A} (c : ST S A) (Q : A -> S -> Prop) s :
  wp c Q s -> exists a s', c s = Ok (a, s') /\ Q a s'.
Proof. unfold wp. destruct (c s) as [[a s']|]; [eauto|done]. Qed.

Create Rewrite HintDb wp.
#[export] Hint Rewrite @wp_ret @wp_bind @wp_gets @wp_modify : wp.

(** ** Loops

    [loop p step x] runs [step] from the loop variables [x] until it leaves the
    loop with [inr], at most [p] times.  The bound is a binary number and the
    recursion follows it, so [p = 2 ^ 32] costs nothing: a loop that needs more
    iterations than a 32-bit counter has values does not terminate. *)

Fixpoint loop_n {S X R} (p : positive) (step : X -> ST S (X + R)) (x : X) : ST S (X + R) :=
  match p with
  | xH => step x
  | xO q =>
      r ← loop_n q step x;
      match r with inl x' => loop_n q step x' | inr v => mret (inr v) end
  | xI q =>
      r ← step x;
      match r with
      | inl x' =>
          r' ← loop_n q step x';
          match r' with inl x'' => loop_n q step x'' | inr v => mret (inr v) end
      | inr v => mret (inr v)
      end
  end.

Definition LOOP_BOUND : positive := Eval cbv in (2 ^ 32)%positive.

Definition loop {S X R} (step : X -> ST S (X + R)) (x : X) : ST S R :=
  r ← loop_n LOOP_BOUND step x;
  match r with inl _ => fail Diverges | inr v => mret v end.

(** [for_ n i body]: [for (k = i; k < i + n; k++) body(k)]. *)
Fixpoint for_ {S} (n : nat) (i : Z) (body : Z -> ST S unit) : ST S unit :=
  match n with
  | O => mret tt
  | Datatypes.S n' => body i ;;; for_ n' (i + 1) body
  end.

(** A counting loop whose body updates the local variable [x]. *)
Fixpoint for_var {S X} (n : nat) (i : Z) (x : X) (body : Z -> X -> ST S X) : ST S X :=
  match n with
  | O => mret x
  | Datatypes.S n' => x' ← body i x; for_var n' (i + 1) x' body
  end.

(** The rule of total correctness, with a bound [k] on the iterations left that
    may depend on more than the state. *)
Section bounded_loops.
Context {S X R : Type} (step : X -> ST S (X + R)) (I : Z -> X -> S -> Prop) (Q : R -> S -> Prop).
Hypothesis Hstep : forall k x s, I k x s ->
  wp (step x) (fun r s' =>
    match r with
    | inl x' => exists k', I k' x' s' /\ 0 <= k' < k
    | inr v => Q v s'
    end) s.

(** After [p] iterations either the loop is left or the bound dropped by [p]. *)
Lemma wp_loop_n p k x s :
  I k x s ->
  wp (loop_n p step x) (fun r s' =>
    match r with
    | inl x' => exists k', I k' x' s' /\ 0 <= k' /\ k' + Z.pos p <= k
    | inr v => Q v s'
    end) s.
Proof using Hstep.
  revert k x s. induction p as [q IH|q IH|]; intros k x s HI; simpl.
  - apply wp_bind. eapply wp_mono; [by eapply Hstep|]. intros [x1|v] s1; [|done].
    intros (k1 & HI1 & Hk1). apply wp_bind. eapply wp_mono; [by eapply IH|].
    intros [x2|v] s2; [|done]. intros (k2 & HI2 & ? & ?).
    eapply wp_mono; [by eapply IH|]. intros [x3|v] s3; [|done].
    intros (k3 & ? & ? & ?). exists k3. split; [done|]. lia.
  - apply wp_bind. eapply wp_mono; [by eapply IH|].
    intros [x2|v] s2; [|done]. intros (k2 & HI2 & ? & ?).
    eapply wp_mono; [by eapply IH|]. intros [x3|v] s3; [|done].
    intros (k3 & ? & ? & ?). exists k3. split; [done|]. lia.
  - eapply wp_mono; [by eapply Hstep|]. intros [x1|v] s1; [|done].
    intros (k1 & HI1 & Hk1). exists k1. split; [done|]. lia.
Qed.

Lemma wp_loop_bound k x s : I k x s -> k < 2 ^ 32 -> wp (loop step x) Q s.
Proof using Hstep.
  intros HI Hk. unfold loop. apply wp_bind.
  eapply wp_mono; [by apply (wp_loop_n LOOP_BOUND k)|].
  intros [x'|v] s'; [|done]. intros (k' & _ & ? & Hle).
  change (Z.pos LOOP_BOUND) with (2 ^ 32) in Hle. lia.
Qed.
End bounded_loops.

(** The same with a measure of the loop variables and the state. *)
Section loops.
Context {S X R : Type} (step : X -> ST S (X + R)).
Context (I : X -> S -> Prop) (mu : X -> S -> Z) (Q : R -> S -> Prop).
Hypothesis Hstep : forall x s, I x s ->
  wp (step x) (fun r s' =>
    match r with
    | inl x' => I x' s' /\ 0 <= mu x' s' < mu x s
    | inr v => Q v s'
    end) s.

Lemma wp_loop x s : I x s -> mu x s < 2 ^ 32 -> wp (loop step x) Q s.
Proof using Hstep.
  intros HI Hmu. eapply (wp_loop_bound step (fun k x s => I x s /\ mu x s = k)); [|by split|done].
  clear x s HI Hmu. intros k x s [HI <-]. eapply wp_mono; [by apply Hstep|].
  intros [x'|v] s'; [|done]. intros [? ?]. by exists (mu x' s').
Qed.
End loops.

Lemma loop_exit {S X R} (step : X -> ST S (X + R)) x s v s' :
  step x s = Ok (inr v, s') -> loop step x s = Ok (v, s').
Proof.
  intros Hstep. unfold loop. rewrite (bind_ok _ _ _ (inr v) s'); [done|].
  assert (forall p, loop_n p step x s = Ok (inr v, s')) as Hall; [|apply Hall].
  induction p as [q IH|q IH|]; simpl; [by rewrite (bind_ok _ _ _ _ _ Hstep)|by rewrite (bind_ok _ _ _ _ _ IH)|done].
Qed.

(** The rule for a loop that may also fail: [Q] of its result, success or failure. *)
Section loop_results.
Context {S X R : Type} (step : X -> ST S (X + R)) (I : Z -> X -> S -> Prop) (Q : result (R * S) -> Prop).
Hypothesis Hstep : forall k x s, I k x s ->
  match step x s with
  | Ok (inl x', s') => exists k', I k' x' s' /\ 0 <= k' < k
  | Ok (inr v, s') => Q (Ok (v, s'))
  | Fail f => Q (Fail f)
  end.

Definition advanced (p : positive) (k : Z) (r : result ((X + R) * S)) : Prop :=
  match r with
  | Ok (inl x', s') => exists k', I k' x' s' /\ 0 <= k' /\ k' + Z.pos p <= k
  | Ok (inr v, s') => Q (Ok (v, s'))
  | Fail f => Q (Fail f)
  end.

Lemma advanced_next p q k (c : ST S (X + R)) (d : X -> ST S (X + R)) s :
  advanced p k (c s) -> (forall k' x s', I k' x s' -> advanced q k' (d x s')) ->
  advanced (p + q) k ((r ← c; match r with inl x => d x | inr v => mret (inr v) end) s).
Proof using Type.
  intros Hc Hd. unfold mbind, ST_bind. destruct (c s) as [[[x|v] s1]|f]; [|done|done].
  destruct Hc as (k1 & HI & ? & ?). specialize (Hd k1 x s1 HI). destruct (d x s1) as [[[y|v] s2]|f]; [|done|done].
  destruct Hd as (k2 & ? & ? & ?). exists k2. split; [done|lia].
Qed.

Lemma loop_n_advanced p k x s : I k x s -> advanced p k (loop_n p step x s).
Proof using Hstep.
  assert (forall k x s, I k x s -> advanced 1 k (step x s)) as Hone.
  { clear p k x s. intros k x s HI. pose proof (Hstep k x s HI) as Hs. unfold advanced.
    destruct (step x s) as [[[y|v] s1]|f]; [|done|done]. destruct Hs as (k1 & ? & ?). exists k1. split; [done|lia]. }
  revert k x s. induction p as [q IH|q IH|]; intros k x s HI; cbn [loop_n]; [| |by apply Hone].
  - replace (q~1)%positive with (1 + (q + q))%positive by lia. apply advanced_next; [by apply Hone|].
    intros k1 x1 s1 H1. apply advanced_next; [by apply IH|exact IH].
  - replace (q~0)%positive with (q + q)%positive by lia. apply advanced_next; [by apply IH|exact IH].
Qed.

Lemma loop_result k x s : I k x s -> k < 2 ^ 32 -> Q (loop step x s).
Proof using Hstep.
  intros HI Hk. pose proof (loop_n_advanced LOOP_BOUND k x s HI) as Ha. unfold loop, mbind, ST_bind.
  destruct (loop_n LOOP_BOUND step x s) as [[[y|v] s1]|f]; [|done|done].
  destruct Ha as (k1 & _ & ? & Hle). change (Z.pos LOOP_BOUND) with (2 ^ 32) in Hle. lia.
Qed.
End loop_results.

(** A loop that always goes on does not terminate. *)
Lemma loop_diverges {S X R} (step : X -> ST S (X + R)) (I : X -> S -> Prop) x s :
  (forall x s, I x s -> exists x' s', step x s = Ok (inl x', s') /\ I x' s') -> I x s -> loop step x s = Fail Diverges.
Proof.
  intros Hstep HI. unfold loop.
  assert (forall p x s, I x s -> exists x' s', loop_n p step x s = Ok (inl x', s') /\ I x' s') as Hall.
  { clear x s HI. induction p as [q IH|q IH|]; intros x s HI; cbn [loop_n]; [| |by apply Hstep].
    - destruct (Hstep x s HI) as (x1 & s1 & E1 & H1). destruct (IH x1 s1 H1) as (x2 & s2 & E2 & H2).
      rewrite (bind_ok _ _ _ _ _ E1), (bind_ok _ _ _ _ _ E2). by apply IH.
    - destruct (IH x s HI) as (x1 & s1 & E1 & H1). rewrite (bind_ok _ _ _ _ _ E1). by apply IH. }
  destruct (Hall LOOP_BOUND x s HI) as (x' & s' & E & _). by rewrite (bind_ok _ _ _ _ _ E).
Qed.

(** Two loops that run in step, followed by [k1] and [k2], have the same effect:
    as long as one goes on so does the other, from related variables and in the
    same state, and where they stop the rests have the same result. *)
Section simulation.
Context {S X Y R1 R2 A : Type} (step1 : X -> ST S (X + R1)) (step2 : Y -> ST S (Y + R2)).
Context (rel : X -> Y -> Prop) (k1 : R1 -> ST S A) (k2 : R2 -> ST S A).

Definition finish {Z R} (k : R -> ST S A) (r : result ((Z + R) * S)) : result (A * S) :=
  match r with
  | Ok (inr v, s) => k v s
  | Ok (inl _, _) => Fail Diverges
  | Fail f => Fail f
  end.

Definition agree (r1 : result ((X + R1) * S)) (r2 : result ((Y + R2) * S)) : Prop :=
  match r1, r2 with
  | Ok (inl x, s1), Ok (inl y, s2) => s1 = s2 /\ rel x y
  | Ok (inl _, _), _ | _, Ok (inl _, _) => False
  | _, _ => finish k1 r1 = finish k2 r2
  end.

Hypothesis Hstep : forall x y s, rel x y -> agree (step1 x s) (step2 y s).

Definition and_then {Z R} (c : ST S (Z + R)) (d : Z -> ST S (Z + R)) : ST S (Z + R) :=
  r ← c; match r with inl x => d x | inr v => mret (inr v) end.

Lemma agree_next c1 c2 d1 d2 s :
  agree (c1 s) (c2 s) -> (forall x y s', rel x y -> agree (d1 x s') (d2 y s')) ->
  agree (and_then c1 d1 s) (and_then c2 d2 s).
Proof using Type.
  intros Hc Hd. unfold and_then, mbind, ST_bind. destruct (c1 s) as [[[x|v] s1]|f], (c2 s) as [[[y|w] s2]|g]; try done.
  destruct Hc as [-> Hxy]. by apply Hd.
Qed.

Lemma loop_n_agree p x y s : rel x y -> agree (loop_n p step1 x s) (loop_n p step2 y s).
Proof using Hstep.
  revert x y s. induction p as [q IH|q IH|]; intros x y s Hxy; cbn [loop_n]; [|by apply agree_next; auto|by apply Hstep].
  apply agree_next; [by apply Hstep|]. intros x1 y1 s1 H1. by apply agree_next; auto.
Qed.

Lemma loop_simulation x y s : rel x y -> (loop step1 x ≫= k1) s = (loop step2 y ≫= k2) s.
Proof using Hstep.
  intros Hxy. pose proof (loop_n_agree LOOP_BOUND x y s Hxy) as H. revert H. unfold loop.
  generalize (loop_n LOOP_BOUND step1 x), (loop_n LOOP_BOUND step2 y). intros c1 c2 H.
  unfold mbind, ST_bind. destruct (c1 s) as [[[]]|], (c2 s) as [[[]]|]; try done.
Qed.
End simulation.

(** The rule for counting loops. *)
Lemma wp_for {S} (I : Z -> S -> Prop) (body : Z -> ST S unit) n i s :
  I i s ->
  (forall k s', i <= k < i + Z.of_nat n -> I k s' -> wp (body k) (fun _ => I (k + 1)) s') ->
  wp (for_ n i body) (fun _ => I (i + Z.of_nat n)) s.
Proof.
  revert i s. induction n as [|n IH]; intros i s HI Hbody; simpl.
  - apply wp_ret. by rewrite Z.add_0_r.
  - apply wp_bind. eapply wp_mono; [apply Hbody; [lia|done]|].
    intros [] s' HI'. replace (i + Z.of_nat (Datatypes.S n)) with (i + 1 + Z.of_nat n) by lia.
    apply IH; [done|]. intros k s2 Hk. apply Hbody. lia.
Qed.

Lemma wp_for_var {S X} (I : Z -> X -> S -> Prop) (body : Z -> X -> ST S X) n i x s :
  I i x s ->
  (forall k x' s', i <= k < i + Z.of_nat n -> I k x' s' -> wp (body k x') (I (k + 1)) s') ->
  wp (for_var n i x body) (I (i + Z.of_nat n)) s.
Proof.
  revert i x s. induction n as [|n IH]; intros i x s HI Hbody; simpl.
  - apply wp_ret. by rewrite Z.add_0_r.
  - apply wp_bind. eapply wp_mono; [apply Hbody; [lia|done]|].
    intros x' s' HI'. replace (i + Z.of_nat (Datatypes.S n)) with (i + 1 + Z.of_nat n) by lia.
    apply IH; [done|]. intros k x2 s2 Hk. apply Hbody. lia.
Qed.

(** ** Lists indexed by C integers *)

(** [l[i]], if [i] is inside the array. *)
Definition at_ {A} (l : list A) (i : Z) : option A :=
  if 0 <=? i then l !! Z.to_nat i else None.

Definition upd {A} (l : list A) (i : Z) (v : A) : list A := <[Z.to_nat i := v]> l.

Definition in_range {A} (l : list A) (i : Z) : bool :=
  (0 <=? i) && (i <? Z.of_nat (length l)).

Lemma at_Some {A} (l : list A) i : 0 <= i < Z.of_nat (length l) -> exists v, at_ l i = Some v.
Proof.
  intros. unfold at_. destruct (Z.leb_spec 0 i); [|lia].
  apply lookup_lt_is_Some_2. lia.
Qed.

Lemma at_inv {A} (l : list A) i v : at_ l i = Some v -> 0 <= i < Z.of_nat (length l).
Proof.
  unfold at_. destruct (Z.leb_spec 0 i); [|done]. intros ?%lookup_lt_Some. lia.
Qed.

Lemma at_lookup {A} (l : list A) i v : at_ l i = Some v -> l !! Z.to_nat i = Some v.
Proof. unfold at_. by destruct (0 <=? i). Qed.

Lemma at_None {A} (l : list A) i : ~ (0 <= i < Z.of_nat (length l)) -> at_ l i = None.
Proof.
  intros. unfold at_. destruct (Z.leb_spec 0 i); [|done]. apply lookup_ge_None_2. lia.
Qed.

Lemma at_upd_eq {A} (l : list A) i v :
  0 <= i < Z.of_nat (length l) -> at_ (upd l i v) i = Some v.
Proof.
  intros. unfold at_, upd. destruct (Z.leb_spec 0 i); [|lia].
  apply list_lookup_insert_eq. lia.
Qed.

Lemma at_upd_ne {A} (l : list A) i j v : i <> j -> 0 <= i -> at_ (upd l i v) j = at_ l j.
Proof.
  intros. unfold at_, upd. destruct (Z.leb_spec 0 j); [|done].
  apply list_lookup_insert_ne. lia.
Qed.

Lemma upd_upd {A} (l : list A) i x y : upd (upd l i x) i y = upd l i y.
Proof. apply list_insert_insert_eq. Qed.

Lemma upd_same {A} (l : list A) i x : at_ l i = Some x -> upd l i x = l.
Proof. unfold at_, upd. destruct (0 <=? i); [|done]. apply list_insert_id. Qed.

Lemma length_upd {A} (l : list A) i v : length (upd l i v) = length l.
Proof. apply length_insert. Qed.

Lemma in_range_spec {A} (l : list A) i :
  in_range l i = true <-> 0 <= i < Z.of_nat (length l).
Proof. unfold in_range. rewrite andb_true_iff, Z.leb_le, Z.ltb_lt. lia. Qed.

#[export] Hint Rewrite @length_upd : word.

(** ** Lenses: C variables of a state

    A global variable of the kernel is a lens on the machine state.  [rd] and
    [wr] are its use and its assignment, [rd_at] and [wr_at] those of an
    element of a global array; an index outside the array fails. *)

Record lens (S A : Type) := Lens { get : S -> A; set : A -> S -> S }.
Arguments Lens {S A} get set.
Arguments get {S A} l s : simpl never.
Arguments set {S A} l a s : simpl never.

Definition lcomp {S A B} (l1 : lens S A) (l2 : lens A B) : lens S B :=
  Lens (fun s => get l2 (get l1 s)) (fun b s => set l1 (set l2 b (get l1 s)) s).

(** The laws of assignment. *)
Record lens_ok {S A} (l : lens S A) : Prop := {
  get_set : forall a s, get l (set l a s) = a;
  set_set : forall a b s, set l b (set l a s) = set l b s;
  set_get : forall s, set l (get l s) s = s
}.

Lemma lcomp_ok {S A B} (l1 : lens S A) (l2 : lens A B) :
  lens_ok l1 -> lens_ok l2 -> lens_ok (lcomp l1 l2).
Proof.
  intros [H1 H2 H3] [H4 H5 H6]. split; intros; unfold get, set, lcomp in *; simpl in *.
  - by rewrite H1, H4.
  - by rewrite H1, H5, H2.
  - by rewrite H6, H3.
Qed.

Definition rd {S A} (l : lens S A) : ST S A := gets (get l).

Definition wr {S A} (l : lens S A) (a : A) : ST S unit := modify (set l a).

Definition rd_at {S A} (l : lens S (list A)) (i : Z) : ST S A :=
  a ← rd l; of_option OutOfBounds (at_ a i).

Definition wr_at {S A} (l : lens S (list A)) (i : Z) (v : A) : ST S unit :=
  a ← rd l;
  if in_range a i then wr l (upd a i v) else fail OutOfBounds.

Lemma rd_run {S A} (l : lens S A) s : rd l s = Ok (get l s, s).
Proof. done. Qed.

Lemma wr_run {S A} (l : lens S A) a s : wr l a s = Ok (tt, set l a s).
Proof. done. Qed.

Lemma rd_at_run {S A} (l : lens S (list A)) i s v :
  at_ (get l s) i = Some v -> rd_at l i s = Ok (v, s).
Proof. intros H. unfold rd_at, rd, mbind, ST_bind, gets. by rewrite H. Qed.

Lemma rd_at_oob {S A} (l : lens S (list A)) i s :
  at_ (get l s) i = None -> rd_at l i s = Fail OutOfBounds.
Proof. intros H. unfold rd_at, rd, mbind, ST_bind, gets. by rewrite H. Qed.

Lemma wr_at_run {S A} (l : lens S (list A)) i v s :
  0 <= i < Z.of_nat (length (get l s)) ->
  wr_at l i v s = Ok (tt, set l (upd (get l s) i v) s).
Proof.
  intros H%in_range_spec. unfold wr_at, rd, mbind, ST_bind, gets. by rewrite H.
Qed.

Lemma wr_at_oob {S A} (l : lens S (list A)) i v s :
  ~ (0 <= i < Z.of_nat (length (get l s))) -> wr_at l i v s = Fail OutOfBounds.
Proof.
  intros H. unfold wr_at, rd, mbind, ST_bind, gets.
  destruct (in_range (get l s) i) eqn:E; [|done]. by apply in_range_spec in E.
Qed.

Lemma wp_rd {S A} (l : lens S A) Q s : wp (rd l) Q s <-> Q (get l s) s.
Proof. done. Qed.

Lemma wp_wr {S A} (l : lens S A) a Q s : wp (wr l a) Q s <-> Q tt (set l a s).
Proof. done. Qed.

Lemma wp_rd_at {S A} (l : lens S (list A)) i (Q : A -> S -> Prop) s :
  0 <= i < Z.of_nat (length (get l s)) ->
  (forall v, at_ (get l s) i = Some v -> Q v s) -> wp (rd_at l i) Q s.
Proof.
  intros [v Hv]%at_Some HQ. eapply wp_run; [by apply rd_at_run|]. by apply HQ.
Qed.

Lemma wp_wr_at {S A} (l : lens S (list A)) i v (Q : unit -> S -> Prop) s :
  0 <= i < Z.of_nat (length (get l s)) ->
  Q tt (set l (upd (get l s) i v) s) -> wp (wr_at l i v) Q s.
Proof. intros. by eapply wp_run; [apply wr_at_run|]. Qed.

#[export] Hint Rewrite @wp_rd @wp_wr : wp.

(** [lsimpl] evaluates a read of a variable after assignments; distinct
    variables are distinct record fields, so each step is a conversion. *)
Ltac lsimpl_step l1 l2 v s :=
  first
    [ change (get l1 (set l2 v s)) with v
    | change (get l1 (set l2 v s)) with (get l1 s) ].

Ltac lsimpl :=
  repeat match goal with
  | |- context [get ?l1 (set ?l2 ?v ?s)] => lsimpl_step l1 l2 v s
  end.

Ltac lsimpl_in H :=
  repeat match type of H with
  | context [get ?l1 (set ?l2 ?v ?s)] =>
      first
        [ change (get l1 (set l2 v s)) with v in H
        | change (get l1 (set l2 v s)) with (get l1 s) in H ]
  end.
