(* ===== verification/Memory.v ===== *)
(** * Byte-addressed memory

    The interface through which every C pointer of the kernel is used.  A
    memory maps an address (a virtual address, or the abstract address of a
    local array) to a cell, or to nothing when the page is not mapped, and
    holds a byte in each cell.  The library routines (file Lib) and the file
    system (file Filesystem) are written and verified against this interface;
    the flat memory below and the paged memory of file Machine implement it. *)

From S2P Require Import Prelude.

Class ByteMem (M : Type) := {
  cell : M -> Z -> option Z;
  peek : M -> Z -> Z;
  poke : M -> Z -> Z -> M
}.

Class ByteMemLaws (M : Type) `{ByteMem M} := {
  peek_range m c : 0 <= peek m c < 256;
  peek_poke_eq m c v : peek (poke m c v) c = u8 v;
  peek_poke_ne m c c' v : c <> c' -> peek (poke m c v) c' = peek m c';
  cell_poke m c v a : cell (poke m c v) a = cell m a;
  poke_comm m c c' v v' :
    c <> c' -> poke (poke m c v) c' v' = poke (poke m c' v') c v
}.

#[export] Hint Resolve peek_range : word.

(** ** Accesses *)
Section accesses.
Context {M : Type} `{ByteMem M}.

(** A byte load and a byte store through a pointer. *)
Definition ld8 (a : Z) : ST M Z := fun m =>
  match cell m a with
  | Some c => Ok (peek m c, m)
  | None => Fail PageFault
  end.

Definition st8 (a v : Z) : ST M unit := fun m =>
  match cell m a with
  | Some c => Ok (tt, poke m c (u8 v))
  | None => Fail PageFault
  end.

(** Little-endian 32-bit load and store. *)
Definition ld32 (a : Z) : ST M Z :=
  b0 ← ld8 a; b1 ← ld8 (a + 1); b2 ← ld8 (a + 2); b3 ← ld8 (a + 3);
  mret (b0 + 2 ^ 8 * b1 + 2 ^ 16 * b2 + 2 ^ 24 * b3).

Definition st32 (a v : Z) : ST M unit :=
  st8 a v ;;; st8 (a + 1) (Z.shiftr v 8) ;;;
  st8 (a + 2) (Z.shiftr v 16) ;;; st8 (a + 3) (Z.shiftr v 24).

(** The content of memory: the byte at an address, and a list of bytes laid
    out from an address. *)
Definition load (m : M) (a : Z) : option Z := peek m <$> cell m a.

Definition bytes_at (m : M) (a : Z) (l : list Z) : Prop :=
  forall i v, l !! i = Some v -> load m (a + Z.of_nat i) = Some v.

Definition mapped (m : M) (a n : Z) : Prop :=
  forall i, 0 <= i < n -> exists c, cell m (a + i) = Some c.

Definition injective (m : M) (a n : Z) : Prop :=
  forall i j c, 0 <= i < n -> 0 <= j < n ->
    cell m (a + i) = Some c -> cell m (a + j) = Some c -> i = j.

(** [n] bytes from [a] and [k] bytes from [b] share no cell. *)
Definition separate (m : M) (a n b k : Z) : Prop :=
  forall i j c, 0 <= i < n -> 0 <= j < k ->
    cell m (a + i) = Some c -> cell m (b + j) <> Some c.

(** [m'] is [m] except for the cells of the [n] bytes from [a]. *)
Definition frame (m m' : M) (a n : Z) : Prop :=
  (forall b, cell m' b = cell m b) /\
  (forall c, (forall i, 0 <= i < n -> cell m (a + i) <> Some c) -> peek m' c = peek m c).

(** The reference semantics of block writes: [l] stored from [a] upwards. *)
Fixpoint write_bytes (m : M) (a : Z) (l : list Z) : M :=
  match l with
  | [] => m
  | v :: l' =>
      match cell m a with
      | Some c => write_bytes (poke m c (u8 v)) (a + 1) l'
      | None => write_bytes m (a + 1) l'
      end
  end.

(** The [n] bytes from [a]. *)
Definition read_bytes (m : M) (a : Z) (n : nat) : list Z :=
  (fun i => default 0 (load m (a + Z.of_nat i))) <$> seq 0 n.
End accesses.

Section access_lemmas.
Context {M : Type} `{ByteMemLaws M}.
Implicit Types (m : M) (a b n : Z) (l : list Z).

Lemma ld8_run m a v : load m a = Some v -> ld8 a m = Ok (v, m).
Proof.
  unfold load, ld8. destruct (cell m a) as [c|]; simpl; [|done]. by intros [= ->].
Qed.

Lemma ld8_fault m a : load m a = None -> ld8 a m = Fail PageFault.
Proof. unfold load, ld8. by destruct (cell m a). Qed.

Lemma st8_run m a c v : cell m a = Some c -> st8 a v m = Ok (tt, poke m c (u8 v)).
Proof. intros Hc. unfold st8. by rewrite Hc. Qed.

Lemma load_range m a v : load m a = Some v -> 0 <= v < 256.
Proof.
  unfold load. destruct (cell m a); simpl; [|done]. intros [= <-]. apply peek_range.
Qed.

Lemma load_cell m a c : cell m a = Some c -> load m a = Some (peek m c).
Proof. intros Hc. unfold load. by rewrite Hc. Qed.

Lemma load_poke_eq m a c v : cell m a = Some c -> load (poke m c v) a = Some (u8 v).
Proof. intros Hc. unfold load. rewrite cell_poke, Hc. simpl. by rewrite peek_poke_eq. Qed.

Lemma load_poke_ne m a c v : cell m a <> Some c -> load (poke m c v) a = load m a.
Proof.
  intros Hc. unfold load. rewrite cell_poke. destruct (cell m a); [|done].
  simpl. rewrite peek_poke_ne; congruence.
Qed.

Lemma mapped_sub m a n i k : mapped m a n -> 0 <= i -> i + k <= n -> mapped m (a + i) k.
Proof.
  intros Hm ? ? j ?. destruct (Hm (i + j)) as [c Hc]; [lia|]. exists c. by rewrite <- Z.add_assoc.
Qed.

Lemma mapped_load m a n i :
  mapped m a n -> 0 <= i < n -> exists v, load m (a + i) = Some v /\ 0 <= v < 256.
Proof.
  intros Hm ?. destruct (Hm i) as [c Hc]; [done|]. exists (peek m c).
  split; [by apply load_cell|apply peek_range].
Qed.

Lemma bytes_at_mapped m a l : bytes_at m a l -> mapped m a (Z.of_nat (length l)).
Proof.
  intros Hb i ?. destruct (lookup_lt_is_Some_2 l (Z.to_nat i)) as [v Hv]; [lia|].
  apply Hb in Hv. rewrite Z2Nat.id in Hv by lia. unfold load in Hv.
  destruct (cell m (a + i)) as [c|]; [by exists c|done].
Qed.

Lemma bytes_at_cons m a v l :
  bytes_at m a (v :: l) <-> load m a = Some v /\ bytes_at m (a + 1) l.
Proof.
  split.
  - intros Hb. split.
    + specialize (Hb 0%nat v). rewrite Z.add_0_r in Hb. by apply Hb.
    + intros i w Hi. specialize (Hb (S i) w Hi).
      by replace (a + 1 + Z.of_nat i) with (a + Z.of_nat (S i)) by lia.
  - intros [Hv Hb] [|i] w; simpl.
    + intros [= ->]. by rewrite Z.add_0_r.
    + intros Hi. replace (a + Z.of_nat (S i)) with (a + 1 + Z.of_nat i) by lia. by apply Hb.
Qed.

Lemma bytes_at_app m a l1 l2 :
  bytes_at m a (l1 ++ l2) <->
  bytes_at m a l1 /\ bytes_at m (a + Z.of_nat (length l1)) l2.
Proof.
  revert a. induction l1 as [|v l1 IH]; intros a; simpl.
  - rewrite Z.add_0_r. split; [|tauto]. intros ?. split; [|done]. by intros [|i] w.
  - rewrite !bytes_at_cons, IH.
    replace (a + 1 + Z.of_nat (length l1)) with (a + Z.of_nat (S (length l1))) by lia. tauto.
Qed.

Lemma length_read_bytes m a k : length (read_bytes m a k) = k.
Proof. unfold read_bytes. by rewrite length_fmap, length_seq. Qed.

Lemma read_bytes_lookup m a k i :
  (i < k)%nat -> read_bytes m a k !! i = Some (default 0 (load m (a + Z.of_nat i))).
Proof.
  intros. unfold read_bytes. rewrite list_lookup_fmap, lookup_seq_lt by done. done.
Qed.

Lemma bytes_at_read m a k :
  mapped m a (Z.of_nat k) -> bytes_at m a (read_bytes m a k).
Proof.
  intros Hm i v Hi. assert (i < k)%nat.
  { apply lookup_lt_Some in Hi. by rewrite length_read_bytes in Hi. }
  rewrite read_bytes_lookup in Hi by done. injection Hi as <-.
  destruct (mapped_load m a (Z.of_nat k) (Z.of_nat i)) as (w & Hw & _); [done|lia|].
  by rewrite Hw.
Qed.

Lemma read_bytes_eq m a l :
  bytes_at m a l -> read_bytes m a (length l) = l.
Proof.
  intros Hb. apply list_eq. intros i. destruct (decide (i < length l)%nat).
  - rewrite read_bytes_lookup by done.
    destruct (lookup_lt_is_Some_2 l i) as [v Hv]; [done|]. by rewrite Hv, (Hb i v Hv).
  - rewrite !lookup_ge_None_2; [done| |]; rewrite ?length_read_bytes; lia.
Qed.

Lemma read_bytes_S m a k :
  read_bytes m a (S k) = default 0 (load m a) :: read_bytes m (a + 1) k.
Proof.
  unfold read_bytes. simpl. rewrite Z.add_0_r. f_equal.
  rewrite <- fmap_S_seq, <- list_fmap_compose. apply list_fmap_ext. intros i x _. simpl.
  by replace (a + Z.of_nat (S x)) with (a + 1 + Z.of_nat x) by lia.
Qed.

Lemma read_bytes_app m a j k :
  read_bytes m a (j + k) = read_bytes m a j ++ read_bytes m (a + Z.of_nat j) k.
Proof.
  revert a. induction j as [|j IH]; intros a; [by rewrite Z.add_0_r|].
  rewrite Nat.add_succ_l, !read_bytes_S, IH. simpl. do 3 f_equal. lia.
Qed.

Lemma frame_refl m a n : frame m m a n.
Proof. done. Qed.

Lemma frame_trans m1 m2 m3 a n : frame m1 m2 a n -> frame m2 m3 a n -> frame m1 m3 a n.
Proof.
  intros [Hc1 Hp1] [Hc2 Hp2]. split.
  - intros b. by rewrite Hc2.
  - intros c Hc. rewrite Hp2; [by apply Hp1|]. intros i Hi. rewrite Hc1. by apply Hc.
Qed.

Lemma frame_weaken m m' a n i k :
  frame m m' (a + i) k -> 0 <= i -> i + k <= n -> frame m m' a n.
Proof.
  intros [Hc Hp] ? ?. split; [done|]. intros c Hn. apply Hp. intros j ?.
  rewrite <- Z.add_assoc. apply Hn. lia.
Qed.

Lemma frame_load m m' a n b :
  frame m m' a n -> (forall i c, 0 <= i < n -> cell m (a + i) = Some c -> cell m b <> Some c) ->
  load m' b = load m b.
Proof.
  intros [Hc Hp] Hs. unfold load. rewrite Hc. destruct (cell m b) as [c|] eqn:E; [|done].
  simpl. rewrite Hp; [done|]. intros i Hi Hci. by apply (Hs i c Hi Hci).
Qed.

Lemma frame_bytes_at m m' a n b l :
  frame m m' a n -> separate m a n b (Z.of_nat (length l)) ->
  bytes_at m b l -> bytes_at m' b l.
Proof.
  intros Hf Hs Hb i v Hi. rewrite (frame_load m m' a n); [by apply Hb|done|].
  intros j c Hj Hc. apply (Hs j (Z.of_nat i) c Hj); [|done].
  apply lookup_lt_Some in Hi. lia.
Qed.

Lemma frame_read_bytes m m' a n b k :
  frame m m' a n -> separate m a n b (Z.of_nat k) -> read_bytes m' b k = read_bytes m b k.
Proof.
  intros Hf Hs. apply list_eq. intros i. destruct (decide (i < k)%nat).
  - rewrite !read_bytes_lookup by done. f_equal. f_equal.
    apply (frame_load m m' a n); [done|]. intros j c Hj Hc. apply (Hs j (Z.of_nat i) c Hj); [lia|done].
  - rewrite !lookup_ge_None_2; [done| |]; rewrite ?length_read_bytes; lia.
Qed.

Lemma poke_frame m a c v : cell m a = Some c -> frame m (poke m c v) a 1.
Proof.
  intros Hc. split; [apply cell_poke|]. intros c' Hn. apply peek_poke_ne.
  intros ->. apply (Hn 0); [lia|]. by rewrite Z.add_0_r.
Qed.

Lemma write_bytes_frame m a l : frame m (write_bytes m a l) a (Z.of_nat (length l)).
Proof.
  revert m a. induction l as [|v l IH]; intros m a; simpl; [apply frame_refl|].
  destruct (cell m a) as [c|] eqn:Hc.
  - eapply frame_trans.
    + apply (frame_weaken _ _ a _ 0 1); [rewrite Z.add_0_r; by apply poke_frame|lia|lia].
    + apply (frame_weaken _ _ a _ 1 (Z.of_nat (length l))); [apply IH|lia|lia].
  - apply (frame_weaken _ _ a _ 1 (Z.of_nat (length l))); [apply IH|lia|lia].
Qed.

Lemma cell_write_bytes m a l b : cell (write_bytes m a l) b = cell m b.
Proof. apply (write_bytes_frame m a l). Qed.

(** Bytes written are bytes read back. *)
Lemma bytes_at_write m a l :
  mapped m a (Z.of_nat (length l)) -> injective m a (Z.of_nat (length l)) ->
  (forall i v, l !! i = Some v -> 0 <= v < 256) ->
  bytes_at (write_bytes m a l) a l.
Proof.
  revert m a. induction l as [|v l IH]; intros m a Hm Hi Hl; [by intros [|i] w|].
  destruct (Hm 0) as [c Hc]; [simpl; lia|]. rewrite Z.add_0_r in Hc.
  simpl. rewrite Hc. apply bytes_at_cons. split.
  - rewrite (frame_load (poke m c (u8 v)) _ (a + 1) (Z.of_nat (length l))); [|apply write_bytes_frame|].
    + rewrite (load_poke_eq m a c) by done. f_equal. rewrite u8_small by apply u8_range. apply u8_small. by apply (Hl 0%nat).
    + intros i c' ? Hc'. rewrite !cell_poke in *. intros Hcc. simplify_eq.
      assert (1 + i = 0); [|lia]. apply (Hi (1 + i) 0 c); simpl; [lia|lia| |].
      * by rewrite Z.add_assoc.
      * by rewrite Z.add_0_r.
  - apply IH.
    + intros i ?. rewrite cell_poke. destruct (Hm (1 + i)) as [c' Hc']; [simpl; lia|].
      exists c'. by rewrite <- Z.add_assoc.
    + intros i j c' ? ?. rewrite !cell_poke, <- !Z.add_assoc. intros Hc1 Hc2.
      assert (1 + i = 1 + j); [|lia]. by apply (Hi _ _ c'); simpl; [lia|lia| |].
    + intros i w. apply (Hl (S i)).
Qed.

Lemma write_bytes_app m a l1 l2 :
  write_bytes m a (l1 ++ l2) =
  write_bytes (write_bytes m a l1) (a + Z.of_nat (length l1)) l2.
Proof.
  revert m a. induction l1 as [|v l1 IH]; intros m a; simpl; [by rewrite Z.add_0_r|].
  replace (a + Z.of_nat (S (length l1))) with (a + 1 + Z.of_nat (length l1)) by lia.
  destruct (cell m a); apply IH.
Qed.

Lemma write_bytes_u8 m a l : write_bytes m a (u8 <$> l) = write_bytes m a l.
Proof.
  revert m a. induction l as [|v l IH]; intros m a; simpl; [done|].
  rewrite (u8_small (u8 v)) by apply u8_range. by destruct (cell m a); rewrite IH.
Qed.

(** The cell of a written byte. *)
Lemma peek_write_bytes m a l i v c :
  mapped m a (Z.of_nat (length l)) -> injective m a (Z.of_nat (length l)) ->
  (forall j w, l !! j = Some w -> 0 <= w < 256) ->
  l !! i = Some v -> cell m (a + Z.of_nat i) = Some c -> peek (write_bytes m a l) c = v.
Proof.
  intros Hm Hi Hl Hv Hc. pose proof (bytes_at_write m a l Hm Hi Hl i v Hv) as Hload.
  unfold load in Hload. rewrite cell_write_bytes, Hc in Hload. by injection Hload.
Qed.

Lemma read_bytes_range m a k j w : read_bytes m a k !! j = Some w -> 0 <= w < 256.
Proof.
  intros Hj. pose proof (lookup_lt_Some _ _ _ Hj) as Hl. rewrite length_read_bytes in Hl.
  rewrite read_bytes_lookup in Hj by done. injection Hj as <-.
  destruct (load m _) eqn:E; simpl; [by eapply load_range|lia].
Qed.

(** A store outside a block commutes with a block write. *)
Lemma write_bytes_poke_comm m c v a l :
  (forall i, 0 <= i < Z.of_nat (length l) -> cell m (a + i) <> Some c) ->
  write_bytes (poke m c v) a l = poke (write_bytes m a l) c v.
Proof.
  revert m a. induction l as [|w l IH]; intros m a Hn; simpl; [done|].
  assert (forall m', (forall b, cell m' b = cell m b) ->
    forall i, 0 <= i < Z.of_nat (length l) -> cell m' (a + 1 + i) <> Some c) as Hn'.
  { intros m' Hm' i ?. rewrite Hm', <- Z.add_assoc. apply Hn. simpl. lia. }
  rewrite cell_poke. destruct (cell m a) as [c'|] eqn:Hc; [|apply IH; by apply Hn'].
  assert (c <> c').
  { intros ->. apply (Hn 0); [simpl; lia|]. by rewrite Z.add_0_r. }
  rewrite poke_comm by done. apply IH, Hn'. intros b. apply cell_poke.
Qed.

Lemma st8_write m a v : mapped m a 1 -> st8 a v m = Ok (tt, write_bytes m a [v]).
Proof.
  intros Hm. destruct (Hm 0) as [c Hc]; [lia|]. rewrite Z.add_0_r in Hc.
  simpl. rewrite Hc. by apply st8_run.
Qed.
End access_lemmas.

(** ** The flat memory

    Every address is its own cell: the memory seen with paging disabled, and
    the memory on which the routines are evaluated. *)

Abbreviation flat := (gmap Z Z).

#[export] Instance flat_mem : ByteMem flat := {|
  cell := fun _ a => Some a;
  peek := fun m c => u8 (default 0 (m !! c));
  poke := fun m c v => <[c := u8 v]> m
|}.

#[export] Instance flat_laws : ByteMemLaws flat.
Proof.
  split; simpl.
  - intros m c. apply u8_range.
  - intros m c v. rewrite lookup_insert_eq. simpl. apply u8_small, u8_range.
  - intros m c c' v ?. by rewrite lookup_insert_ne.
  - done.
  - intros m c c' v v' ?. by apply insert_insert_ne.
Qed.

(** A flat memory that holds [l] from [a] on. *)
Definition flat_of (a : Z) (l : list Z) : flat := write_bytes (∅ : flat) a l.

Lemma flat_mapped (m : flat) a n : mapped m a n.
Proof. intros i _. by exists (a + i). Qed.

Lemma flat_injective (m : flat) a n : injective m a n.
Proof. intros i j c _ _. simpl. intros [= <-] [= ?]. lia. Qed.

Lemma flat_separate (m : flat) a n b k : a + n <= b \/ b + k <= a -> separate m a n b k.
Proof. intros ? i j c ? ?. simpl. intros [= <-] [= ?]. lia. Qed.

#[export] Hint Resolve flat_mapped flat_injective : word.
