(* ===== verification/Lib.v ===== *)
(** * lib.c: memory and string routines

    The inline-assembly block routines (memset, memcpy, memmove, ...) are
    translated instruction by instruction: their registers are the loop
    variables, [rep stosl]/[rep movsl]/[rep movsb] are the loops below.  The
    theorems show that the word-at-a-time code is the byte-at-a-time reference
    semantics of file Memory, and what the string routines compute. *)

From S2P Require Import Prelude Memory.

Section routines.
Context {M : Type} `{ByteMem M}.

(** ** The x86 string instructions, direction flag clear *)

Fixpoint rep_stosl (ecx : nat) (edi eax : Z) : ST M Z :=
  match ecx with
  | O => mret edi
  | S ecx' => st32 edi eax ;;; rep_stosl ecx' (edi + 4) eax
  end.

Fixpoint rep_stosw (ecx : nat) (edi eax : Z) : ST M Z :=
  match ecx with
  | O => mret edi
  | S ecx' => st8 edi eax ;;; st8 (edi + 1) (Z.shiftr eax 8) ;;; rep_stosw ecx' (edi + 2) eax
  end.

Fixpoint rep_movsl (ecx : nat) (esi edi : Z) : ST M (Z * Z) :=
  match ecx with
  | O => mret (esi, edi)
  | S ecx' => v ← ld32 esi; st32 edi v ;;; rep_movsl ecx' (esi + 4) (edi + 4)
  end.

(** [rep movsb]; [d] is 1 after [cld] and -1 after [std]. *)
Fixpoint rep_movsb (ecx : nat) (d esi edi : Z) : ST M unit :=
  match ecx with
  | O => mret tt
  | S ecx' => v ← ld8 esi; st8 edi v ;;; rep_movsb ecx' d (esi + d) (edi + d)
  end.

(** ** memset *)

Definition memset_top (al : Z) (r : Z * Z) : ST M ((Z * Z) + (Z * Z)) :=
  let '(edi, ecx) := r in
  if ecx =? 0 then mret (inr (edi, ecx))
  else if Z.land edi 3 =? 0 then mret (inr (edi, ecx))
  else st8 edi al ;;; mret (inl (edi + 1, ecx - 1)).

Definition memset_bottom (al : Z) (r : Z * Z) : ST M ((Z * Z) + unit) :=
  let '(edi, edx) := r in
  if edx =? 0 then mret (inr tt)
  else st8 edi al ;;; mret (inl (edi + 1, edx - 1)).

Definition memset (s c n : Z) : ST M Z :=
  let c := Z.land c 255 in
  let eax := u32 (Z.lor (Z.lor (Z.lor (Z.shiftl c 24) (Z.shiftl c 16)) (Z.shiftl c 8)) c) in
  r ← loop (memset_top eax) (s, u32 n);
  let '(edi, ecx) := r in
  if ecx =? 0 then mret s
  else
    let edx := Z.land ecx 3 in
    edi ← rep_stosl (Z.to_nat (Z.shiftr ecx 2)) edi eax;
    loop (memset_bottom eax) (edi, edx) ;;;
    mret s.

Definition memset_word (s c n : Z) : ST M Z :=
  edi ← rep_stosw (Z.to_nat (u32 n)) s c; mret s.

Definition memset_dword (s c n : Z) : ST M Z :=
  edi ← rep_stosl (Z.to_nat (u32 n)) s c; mret s.

(** ** memcpy *)

Definition memcpy_top (r : Z * Z * Z) : ST M ((Z * Z * Z) + (Z * Z * Z)) :=
  let '(esi, edi, ecx) := r in
  if ecx =? 0 then mret (inr (esi, edi, ecx))
  else if Z.land edi 3 =? 0 then mret (inr (esi, edi, ecx))
  else al ← ld8 esi; st8 edi al ;;; mret (inl (esi + 1, edi + 1, ecx - 1)).

Definition memcpy_bottom (r : Z * Z * Z) : ST M ((Z * Z * Z) + unit) :=
  let '(esi, edi, edx) := r in
  if edx =? 0 then mret (inr tt)
  else al ← ld8 esi; st8 edi al ;;; mret (inl (esi + 1, edi + 1, edx - 1)).

Definition memcpy (dest src n : Z) : ST M Z :=
  r ← loop memcpy_top (src, dest, u32 n);
  let '(esi, edi, ecx) := r in
  if ecx =? 0 then mret dest
  else
    let edx := Z.land ecx 3 in
    r ← rep_movsl (Z.to_nat (Z.shiftr ecx 2)) esi edi;
    let '(esi, edi) := r in
    loop memcpy_bottom (esi, edi, edx) ;;;
    mret dest.

(** ** memmove *)

Definition memmove (dest src n : Z) : ST M Z :=
  let ecx := u32 n in
  (if dest <=? src
   then rep_movsb (Z.to_nat ecx) 1 src dest
   else rep_movsb (Z.to_nat ecx) (-1) (src + ecx - 1) (dest + ecx - 1)) ;;;
  mret dest.

(** ** Strings *)

Definition strlen_step (s len : Z) : ST M (Z + Z) :=
  c ← ld8 (s + len); mret (if c =? 0 then inr len else inl (len + 1)).

Definition strlen (s : Z) : ST M Z := loop (strlen_step s) 0.

Definition strrev_step (s : Z) (r : Z * Z) : ST M ((Z * Z) + unit) :=
  let '(beg, end_) := r in
  if beg <? end_ then
    tmp ← ld8 (s + end_);
    c ← ld8 (s + beg);
    st8 (s + end_) c ;;;
    st8 (s + beg) tmp ;;;
    mret (inl (beg + 1, end_ - 1))
  else mret (inr tt).

Definition strrev (s : Z) : ST M Z :=
  n ← strlen s;
  loop (strrev_step s) (0, s32 (n - 1)) ;;;
  mret s.

(** [for (i = 0; i < n; i++)]; [fuel] counts the iterations left. *)
Fixpoint strncmp_loop (fuel : nat) (s1 s2 : Z) : ST M Z :=
  match fuel with
  | O => mret 0
  | S fuel' =>
      a ← ld8 s1; b ← ld8 s2;
      if negb (s8 a =? s8 b) || (s8 a =? 0) then mret (s8 a - s8 b)
      else strncmp_loop fuel' (s1 + 1) (s2 + 1)
  end.

Definition strncmp (s1 s2 n : Z) : ST M Z := strncmp_loop (Z.to_nat n) s1 s2.

Definition strcpy_step (dest src i : Z) : ST M (Z + Z) :=
  c ← ld8 (src + i);
  if c =? 0 then mret (inr i) else st8 (dest + i) c ;;; mret (inl (i + 1)).

Definition strcpy (dest src : Z) : ST M Z :=
  i ← loop (strcpy_step dest src) 0;
  st8 (dest + i) 0 ;;;
  mret dest.

Definition strncpy_step (dest src n i : Z) : ST M (Z + Z) :=
  c ← ld8 (src + i);
  if negb (c =? 0) && (i <? n) then st8 (dest + i) c ;;; mret (inl (i + 1))
  else mret (inr i).

Definition strncpy_pad (dest n i : Z) : ST M (Z + unit) :=
  if i <? n then st8 (dest + i) 0 ;;; mret (inl (i + 1)) else mret (inr tt).

Definition strncpy (dest src n : Z) : ST M Z :=
  i ← loop (strncpy_step dest src n) 0;
  loop (strncpy_pad dest n) i ;;;
  mret dest.

(** ** Numbers *)

(** The static table of itoa, with its terminating NUL. *)
Definition lookup_table : list Z :=
  [48; 49; 50; 51; 52; 53; 54; 55; 56; 57; 65; 66; 67; 68; 69; 70; 71; 72; 73;
   74; 75; 76; 77; 78; 79; 80; 81; 82; 83; 84; 85; 86; 87; 88; 89; 90; 0].

Definition itoa_step (radix : Z) (r : Z * Z) : ST M ((Z * Z) + Z) :=
  let '(newval, newbuf) := r in
  if 0 <? newval then
    if u32 radix =? 0 then fail DivideError
    else
      d ← of_option OutOfBounds (at_ lookup_table (newval `mod` u32 radix));
      st8 newbuf d ;;;
      mret (inl (newval / u32 radix, newbuf + 1))
  else mret (inr newbuf).

Definition itoa (value buf radix : Z) : ST M Z :=
  if value =? 0 then st8 buf 48 ;;; st8 (buf + 1) 0 ;;; mret buf
  else
    newbuf ← loop (itoa_step radix) (value, buf);
    st8 newbuf 0 ;;;
    strrev buf.
End routines.

(** ** Reference functions *)

(** The C string in a list of bytes: the bytes before the first NUL. *)
Fixpoint cstr (l : list Z) : list Z :=
  match l with
  | [] => []
  | c :: l' => if c =? 0 then [] else c :: cstr l'
  end.

(** The first NUL of [l], or its first [n] bytes, are inside [l]. *)
Definition covers (l : list Z) (n : nat) : Prop := 0 ∈ l \/ (n <= length l)%nat.

(** The result of strncmp on the bytes of its two arguments. *)
Fixpoint compare_bytes (n : nat) (l1 l2 : list Z) : Z :=
  match n, l1, l2 with
  | S n', a :: l1', b :: l2' =>
      if decide (a = b /\ a <> 0) then compare_bytes n' l1' l2' else s8 a - s8 b
  | _, _, _ => 0
  end.

(** The value of a string of digits, most significant first. *)
Definition digit_value (c : Z) : Z := if c <=? 57 then c - 48 else c - 55.

Definition digits_value (radix : Z) (l : list Z) : Z :=
  fold_left (fun acc c => acc * radix + digit_value c) l 0.

(** The digits itoa stores, least significant first. *)
Fixpoint digits_lsb (fuel : nat) (radix v : Z) : list Z :=
  match fuel with
  | O => []
  | S fuel' =>
      if 0 <? v then default 0 (at_ lookup_table (v `mod` radix)) :: digits_lsb fuel' radix (v / radix)
      else []
  end.

Definition digits (radix v : Z) : list Z :=
  if v =? 0 then [48] else rev (digits_lsb 32 radix v).

(** Memory [m] with [k] copies of the byte [b] stored from [s]. *)
Definition filled {M} `{ByteMem M} (m : M) (s b k : Z) : M :=
  write_bytes m s (replicate (Z.to_nat k) b).

(** [cur] is [l] with its first [k] and last [k] bytes exchanged: the state of
    strrev after [k] iterations. *)
Definition reversing (l : list Z) (k : nat) (cur : list Z) : Prop :=
  length cur = length l /\ (2 * k <= length l + 1)%nat /\
  forall p, cur !! p = if decide (p < k \/ length l - k <= p)%nat then rev l !! p else l !! p.

(** ** Block writes *)

Section block_lemmas.
Context {M : Type} `{ByteMemLaws M}.
Implicit Types (m : M) (a b s n : Z) (l : list Z).

Lemma u8_byte0 b0 b1 b2 b3 :
  0 <= b0 < 256 -> u8 (b0 + 2 ^ 8 * b1 + 2 ^ 16 * b2 + 2 ^ 24 * b3) = b0.
Proof.
  intros. unfold u8. replace (b0 + 2 ^ 8 * b1 + 2 ^ 16 * b2 + 2 ^ 24 * b3)
    with (b0 + (b1 + 2 ^ 8 * b2 + 2 ^ 16 * b3) * 2 ^ 8) by ring.
  rewrite Z_mod_plus_full. by apply Z.mod_small.
Qed.

Lemma shiftr_word b0 x k : 0 <= b0 < 2 ^ k -> 0 <= k -> Z.shiftr (b0 + 2 ^ k * x) k = x.
Proof.
  intros. rewrite Z.shiftr_div_pow2 by done.
  rewrite Z.mul_comm, Z.div_add by lia. rewrite Z.div_small by done. lia.
Qed.

(** The four bytes of a word built from four bytes. *)
Lemma word_bytes b0 b1 b2 b3 :
  0 <= b0 < 256 -> 0 <= b1 < 256 -> 0 <= b2 < 256 -> 0 <= b3 < 256 ->
  let v := b0 + 2 ^ 8 * b1 + 2 ^ 16 * b2 + 2 ^ 24 * b3 in
  u8 v = b0 /\ u8 (Z.shiftr v 8) = b1 /\ u8 (Z.shiftr v 16) = b2 /\ u8 (Z.shiftr v 24) = b3.
Proof.
  intros. subst v. split; [by apply u8_byte0|].
  replace (b0 + 2 ^ 8 * b1 + 2 ^ 16 * b2 + 2 ^ 24 * b3)
    with (b0 + 2 ^ 8 * (b1 + 2 ^ 8 * b2 + 2 ^ 16 * b3 + 2 ^ 24 * 0)) by ring.
  rewrite shiftr_word by lia. split; [by apply u8_byte0|].
  replace (b0 + 2 ^ 8 * (b1 + 2 ^ 8 * b2 + 2 ^ 16 * b3 + 2 ^ 24 * 0))
    with (b0 + 2 ^ 8 * b1 + 2 ^ 16 * (b2 + 2 ^ 8 * b3 + 2 ^ 16 * 0 + 2 ^ 24 * 0)) by ring.
  rewrite shiftr_word by lia. split; [by apply u8_byte0|].
  replace (b0 + 2 ^ 8 * b1 + 2 ^ 16 * (b2 + 2 ^ 8 * b3 + 2 ^ 16 * 0 + 2 ^ 24 * 0))
    with (b0 + 2 ^ 8 * b1 + 2 ^ 16 * b2 + 2 ^ 24 * b3) by ring.
  rewrite shiftr_word by lia. by apply u8_small.
Qed.

Lemma st32_write m a v :
  mapped m a 4 ->
  st32 a v m = Ok (tt, write_bytes m a [v; Z.shiftr v 8; Z.shiftr v 16; Z.shiftr v 24]).
Proof.
  intros Hm. destruct (Hm 0) as [c0 H0']; [lia|]. destruct (Hm 1) as [c1 H1']; [lia|].
  destruct (Hm 2) as [c2 H2']; [lia|]. destruct (Hm 3) as [c3 H3']; [lia|].
  rewrite Z.add_0_r in H0'. unfold st32.
  rewrite (bind_ok _ _ _ tt _ (st8_run m a c0 v H0')).
  erewrite bind_ok; [|apply st8_run; by rewrite cell_poke].
  erewrite bind_ok; [|apply st8_run; by rewrite !cell_poke].
  simpl. rewrite H0', !cell_poke, H1'. rewrite !cell_poke.
  replace (a + 1 + 1) with (a + 2) by lia. replace (a + 2 + 1) with (a + 3) by lia.
  rewrite H2', !cell_poke, H3'. apply st8_run. by rewrite !cell_poke.
Qed.

Lemma ld32_run m a b0 b1 b2 b3 :
  bytes_at m a [b0; b1; b2; b3] ->
  ld32 a m = Ok (b0 + 2 ^ 8 * b1 + 2 ^ 16 * b2 + 2 ^ 24 * b3, m).
Proof.
  rewrite !bytes_at_cons. intros (H0' & H1' & H2' & H3' & _). unfold ld32.
  rewrite (bind_ok _ _ _ _ _ (ld8_run _ _ _ H0')), (bind_ok _ _ _ _ _ (ld8_run _ _ _ H1')).
  replace (a + 2) with (a + 1 + 1) by lia. rewrite (bind_ok _ _ _ _ _ (ld8_run _ _ _ H2')).
  replace (a + 3) with (a + 1 + 1 + 1) by lia. by rewrite (bind_ok _ _ _ _ _ (ld8_run _ _ _ H3')).
Qed.

Lemma mapped_write m a l b n : mapped m b n -> mapped (write_bytes m a l) b n.
Proof. intros Hm i Hi. rewrite cell_write_bytes. by apply Hm. Qed.

(** A step of a byte loop that fills [a] with [l]: the next byte of [l]. *)
Lemma write_bytes_snoc m a l v :
  mapped m (a + Z.of_nat (length l)) 1 ->
  st8 (a + Z.of_nat (length l)) v (write_bytes m a l) = Ok (tt, write_bytes m a (l ++ [v])).
Proof.
  intros Hm. rewrite write_bytes_app. apply st8_write. by apply mapped_write.
Qed.

Lemma take_S_lookup l k v :
  l !! k = Some v -> take (S k) l = take k l ++ [v].
Proof. apply take_S_r. Qed.

(** ** memset *)

Section memset_proof.
Context (m : M) (s n al : Z) (b : Z).
Hypothesis Hmap : mapped m s n.

Lemma filled_step k :
  u8 al = u8 b -> 0 <= k < n -> st8 (s + k) al (filled m s b k) = Ok (tt, filled m s b (k + 1)).
Proof.
  intros Hal ?. unfold filled.
  replace (Z.to_nat (k + 1)) with (Z.to_nat k + 1)%nat by lia.
  rewrite replicate_add. simpl.
  assert (s + k = s + Z.of_nat (length (replicate (Z.to_nat k) b))) as ->
    by (rewrite length_replicate; lia).
  rewrite write_bytes_snoc.
  - do 2 f_equal. rewrite !write_bytes_app. rewrite <- (write_bytes_u8 _ _ [b]).
    rewrite <- (write_bytes_u8 _ _ [al]). simpl. by rewrite Hal.
  - rewrite length_replicate, Z2Nat.id by lia. by apply (mapped_sub m s n k 1); [|lia|lia].
Qed.

Lemma memset_bottom_run k :
  u8 al = u8 b -> n < 2 ^ 32 -> 0 <= k <= n ->
  loop (memset_bottom al) (s + k, n - k) (filled m s b k) = Ok (tt, filled m s b n).
Proof.
  intros Hal Hn Hk.
  assert (wp (loop (memset_bottom al) (s + k, n - k)) (fun _ m' => m' = filled m s b n) (filled m s b k))
    as Hwp.
  { apply (wp_loop _ (fun r m' => exists j, 0 <= j <= n /\ r = (s + j, n - j) /\ m' = filled m s b j)
             (fun r _ => snd r)); simpl.
    - intros r m' (j & Hj & -> & ->). simpl.
      destruct (Z.eqb_spec (n - j) 0); [apply wp_ret; f_equal; lia|].
      apply wp_bind. eapply wp_run; [apply filled_step; [done|lia]|].
      apply wp_ret. split; [|simpl; lia]. exists (j + 1). split; [lia|]. split; [|done].
      f_equal; lia.
    - by exists k.
    - lia. }
  apply wp_inv in Hwp as ([] & m' & -> & ->). done.
Qed.

Lemma memset_top_run :
  u8 al = u8 b -> n < 2 ^ 32 -> 0 <= n ->
  exists k, 0 <= k <= n /\
    loop (memset_top al) (s, n) m = Ok ((s + k, n - k), filled m s b k).
Proof.
  intros Hal Hn Hn0.
  assert (wp (loop (memset_top al) (s, n))
    (fun r m' => exists k, 0 <= k <= n /\ r = (s + k, n - k) /\ m' = filled m s b k) m) as Hwp.
  { apply (wp_loop _ (fun r m' => exists j, 0 <= j <= n /\ r = (s + j, n - j) /\ m' = filled m s b j)
             (fun r _ => snd r)); simpl.
    - intros r m' (j & Hj & -> & ->). simpl.
      destruct (Z.eqb_spec (n - j) 0); [apply wp_ret; eauto|].
      destruct (_ =? 0); [apply wp_ret; eauto|].
      apply wp_bind. eapply wp_run; [apply filled_step; [done|lia]|].
      apply wp_ret. split; [|simpl; lia]. exists (j + 1). split; [lia|]. split; [|done].
      f_equal; lia.
    - exists 0. split; [lia|]. split; [f_equal; lia|done].
    - lia. }
  apply wp_inv in Hwp as (r & m' & Hr & k & Hk & -> & ->). eauto.
Qed.
End memset_proof.

Lemma rep_stosl_run m s n eax b k j :
  mapped m s n -> (forall i, In i [0; 8; 16; 24] -> u8 (Z.shiftr eax i) = u8 b) ->
  0 <= k -> k + 4 * Z.of_nat j <= n ->
  rep_stosl j (s + k) eax (filled m s b k) =
  Ok (s + k + 4 * Z.of_nat j, filled m s b (k + 4 * Z.of_nat j)).
Proof.
  intros Hm Heax. revert k. induction j as [|j IH]; intros k Hk Hkj.
  { simpl. unfold mret, ST_ret. do 2 f_equal; [lia|f_equal; lia]. }
  simpl. erewrite bind_ok.
  2:{ apply st32_write. unfold filled. apply mapped_write.
      by apply (mapped_sub m s n k 4); [|lia|lia]. }
  replace (write_bytes (filled m s b k) (s + k) _) with (filled m s b (k + 4)).
  - replace (s + k + 4) with (s + (k + 4)) by lia. rewrite IH by lia.
    do 2 f_equal; [lia|f_equal; lia].
  - unfold filled. replace (Z.to_nat (k + 4)) with (Z.to_nat k + 4)%nat by lia.
    rewrite replicate_add, write_bytes_app, length_replicate, Z2Nat.id by lia.
    rewrite <- (write_bytes_u8 _ _ (replicate 4 b)). symmetry.
    rewrite <- write_bytes_u8. simpl.
    rewrite (Heax 8), (Heax 16), (Heax 24) by (simpl; tauto).
    specialize (Heax 0). rewrite Z.shiftr_0_r in Heax. by rewrite Heax by (simpl; tauto).
Qed.

(** The register image [c<<24 | c<<16 | c<<8 | c] holds four times the byte. *)
Lemma fill_word c i :
  0 <= c < 256 -> In i [0; 8; 16; 24] ->
  u8 (Z.shiftr (u32 (Z.lor (Z.lor (Z.lor (Z.shiftl c 24) (Z.shiftl c 16)) (Z.shiftl c 8)) c)) i) = c.
Proof.
  intros Hc Hi.
  assert (forallb (fun k => forallb (fun j =>
    let c := Z.of_nat k in
    u8 (Z.shiftr (u32 (Z.lor (Z.lor (Z.lor (Z.shiftl c 24) (Z.shiftl c 16)) (Z.shiftl c 8)) c)) j) =? c)
    [0; 8; 16; 24]) (List.seq 0 256) = true) as Hall by (vm_compute; reflexivity).
  rewrite forallb_forall in Hall. specialize (Hall (Z.to_nat c)).
  rewrite in_seq, forallb_forall in Hall. specialize (Hall ltac:(lia) i Hi).
  rewrite Z2Nat.id in Hall by lia. by apply Z.eqb_eq in Hall.
Qed.

Lemma land_3 x : Z.land x 3 = x `mod` 4.
Proof. change 3 with (Z.ones 2). by rewrite Z.land_ones. Qed.

Lemma land_255 x : Z.land x 255 = u8 x.
Proof. change 255 with (Z.ones 8). by rewrite Z.land_ones. Qed.

Lemma split4 x : 0 <= x -> x = 4 * Z.shiftr x 2 + Z.land x 3 /\ 0 <= Z.land x 3 < 4 /\ 0 <= Z.shiftr x 2.
Proof.
  intros. rewrite land_3, Z.shiftr_div_pow2 by lia. change (2 ^ 2) with 4.
  pose proof (Z.div_mod x 4). pose proof (Z.mod_pos_bound x 4).
  pose proof (Z.div_pos x 4). lia.
Qed.

(** memset is the byte-wise fill. *)
Lemma memset_run m s c n :
  0 <= n < 2 ^ 32 -> mapped m s n ->
  memset s c n m = Ok (s, filled m s (u8 c) n).
Proof.
  intros Hn Hm. unfold memset. rewrite land_255, (u32_small n) by lia.
  set (eax := u32 _).
  assert (forall i, In i [0; 8; 16; 24] -> u8 (Z.shiftr eax i) = u8 (u8 c)) as Heax.
  { intros i Hi. subst eax. rewrite fill_word; [|apply u8_range|done].
    symmetry. apply u8_small, u8_range. }
  assert (u8 eax = u8 (u8 c)) as Hal.
  { rewrite <- (Heax 0) by (simpl; tauto). by rewrite Z.shiftr_0_r. }
  destruct (memset_top_run m s n eax (u8 c)) as (k & Hk & Htop); [done|done|lia|lia|].
  rewrite (bind_ok _ _ _ _ _ Htop).
  destruct (Z.eqb_spec (n - k) 0); [unfold mret, ST_ret; do 3 f_equal; lia|].
  destruct (split4 (n - k)) as (Hsplit & ? & ?); [lia|].
  erewrite bind_ok; [|apply (rep_stosl_run m s n); [done|done|lia|lia]].
  set (k' := k + 4 * _).
  assert (Z.land (n - k) 3 = n - k') as -> by (subst k'; lia).
  replace (s + k + 4 * _) with (s + k') by (subst k'; lia).
  erewrite bind_ok; [|apply memset_bottom_run; [done|done|lia|subst k'; lia]].
  done.
Qed.

(** ** memcpy *)

Section memcpy_proof.
Context (m : M) (d s n : Z).
Hypothesis Hd : mapped m d n.
Hypothesis Hs : mapped m s n.
Hypothesis Hsep : separate m d n s n.
Hypothesis Hn : 0 <= n < 2 ^ 32.

Local Definition src_bytes (k : Z) : list Z := read_bytes m s (Z.to_nat k).

(** [k] bytes have been copied. *)
Local Definition copied (k : Z) : M := write_bytes m d (src_bytes k).

Lemma copied_frame k : 0 <= k <= n -> frame m (copied k) d n.
Proof.
  intros. unfold copied. apply (frame_weaken _ _ d n 0 k); [|lia|lia].
  rewrite Z.add_0_r. replace k with (Z.of_nat (length (src_bytes k))) at 2; [apply write_bytes_frame|].
  unfold src_bytes. rewrite length_read_bytes. lia.
Qed.

Lemma copied_read k j :
  0 <= k <= n -> 0 <= j -> j + k <= n ->
  bytes_at (copied k) (s + k) (read_bytes m (s + k) (Z.to_nat j)).
Proof.
  intros. apply (frame_bytes_at m _ d n); [by apply copied_frame| |].
  - intros i i' c ? Hi' Hc. rewrite length_read_bytes in Hi'. rewrite <- Z.add_assoc.
    apply (Hsep i); [done|lia|done].
  - apply bytes_at_read. rewrite Z2Nat.id by done. by apply (mapped_sub m s n k j); [|lia|lia].
Qed.

Lemma copied_app k j :
  0 <= k -> 0 <= j ->
  write_bytes (copied k) (d + k) (read_bytes m (s + k) (Z.to_nat j)) = copied (k + j).
Proof.
  intros. unfold copied, src_bytes. rewrite Z2Nat.inj_add, read_bytes_app, write_bytes_app by done.
  rewrite length_read_bytes, Z2Nat.id by done. done.
Qed.

Lemma copied_byte k :
  0 <= k < n ->
  exists v, ld8 (s + k) (copied k) = Ok (v, copied k) /\
            st8 (d + k) v (copied k) = Ok (tt, copied (k + 1)).
Proof.
  intros. pose proof (copied_read k 1 ltac:(lia) ltac:(lia) ltac:(lia)) as Hr.
  pose proof (copied_app k 1 ltac:(lia) ltac:(lia)) as Ha.
  change (Z.to_nat 1) with 1%nat in *. rewrite read_bytes_S in Hr, Ha.
  set (v := default 0 _) in *. exists v. split.
  - apply ld8_run. apply bytes_at_cons in Hr. tauto.
  - rewrite st8_write; [by rewrite <- Ha|]. unfold copied. apply mapped_write.
    by apply (mapped_sub m d n k 1); [|lia|lia].
Qed.

Lemma memcpy_top_run :
  exists k, 0 <= k <= n /\
    loop memcpy_top (s, d, n) m = Ok ((s + k, d + k, n - k), copied k).
Proof.
  assert (wp (loop memcpy_top (s, d, n)) (fun r m' =>
    exists k, 0 <= k <= n /\ r = (s + k, d + k, n - k) /\ m' = copied k) m) as Hwp.
  { apply (wp_loop _ (fun r m' => exists k, 0 <= k <= n /\ r = (s + k, d + k, n - k) /\ m' = copied k)
             (fun r _ => snd r)); simpl.
    - intros r m' (k & Hk & -> & ->). simpl.
      destruct (Z.eqb_spec (n - k) 0); [apply wp_ret; eauto|].
      destruct (_ =? 0); [apply wp_ret; eauto|].
      destruct (copied_byte k) as (v & Hv & Hst); [lia|].
      apply wp_bind. eapply wp_run; [done|]. apply wp_bind. eapply wp_run; [done|].
      apply wp_ret. split; [|simpl; lia]. exists (k + 1). split; [lia|]. split; [|done].
      by rewrite <- !Z.add_assoc, Z.sub_add_distr.
    - exists 0. split; [lia|]. split; [|done].
      by rewrite !Z.add_0_r, Z.sub_0_r.
    - lia. }
  apply wp_inv in Hwp as (r & m' & Hr & k & Hk & -> & ->). eauto.
Qed.

Lemma memcpy_bottom_run k :
  0 <= k <= n ->
  loop memcpy_bottom (s + k, d + k, n - k) (copied k) = Ok (tt, copied n).
Proof.
  intros Hk.
  assert (wp (loop memcpy_bottom (s + k, d + k, n - k)) (fun _ m' => m' = copied n) (copied k)) as Hwp.
  { apply (wp_loop _ (fun r m' => exists k, 0 <= k <= n /\ r = (s + k, d + k, n - k) /\ m' = copied k)
             (fun r _ => snd r)); simpl.
    - intros r m' (j & Hj & -> & ->). simpl.
      destruct (Z.eqb_spec (n - j) 0); [apply wp_ret; f_equal; lia|].
      destruct (copied_byte j) as (v & Hv & Hst); [lia|].
      apply wp_bind. eapply wp_run; [done|]. apply wp_bind. eapply wp_run; [done|].
      apply wp_ret. split; [|simpl; lia]. exists (j + 1). split; [lia|]. split; [|done].
      by rewrite <- !Z.add_assoc, Z.sub_add_distr.
    - by exists k.
    - lia. }
  apply wp_inv in Hwp as ([] & m' & -> & ->). done.
Qed.

Lemma rep_movsl_run k j :
  0 <= k -> k + 4 * Z.of_nat j <= n ->
  rep_movsl j (s + k) (d + k) (copied k) =
  Ok ((s + k + 4 * Z.of_nat j, d + k + 4 * Z.of_nat j), copied (k + 4 * Z.of_nat j)).
Proof.
  revert k. induction j as [|j IH]; intros k Hk Hkj.
  { simpl. by rewrite !Z.add_0_r. }
  pose proof (copied_read k 4 ltac:(lia) ltac:(lia) ltac:(lia)) as Hr.
  pose proof (copied_app k 4 ltac:(lia) ltac:(lia)) as Ha.
  change (Z.to_nat 4) with 4%nat in *. rewrite !read_bytes_S in Hr, Ha.
  change (read_bytes m _ 0) with (@nil Z) in Hr, Ha.
  simpl. erewrite bind_ok; [|apply ld32_run; exact Hr].
  erewrite bind_ok.
  2:{ apply st32_write. unfold copied. apply mapped_write. by apply (mapped_sub m d n k 4); [|lia|lia]. }
  replace (write_bytes _ _ _) with (copied (k + 4)).
  - replace (s + k + 4) with (s + (k + 4)) by lia. replace (d + k + 4) with (d + (k + 4)) by lia.
    rewrite IH by lia.
    assert (k + 4 + 4 * Z.of_nat j = k + 4 * Z.of_nat (S j)) as E by lia.
    rewrite <- !Z.add_assoc in *. by rewrite E.
  - rewrite <- Ha. symmetry. rewrite <- write_bytes_u8. f_equal. simpl.
    rewrite !bytes_at_cons in Hr. destruct Hr as (R0 & R1 & R2 & R3 & _).
    apply load_range in R0, R1, R2, R3.
    edestruct word_bytes as (E0 & E1 & E2 & E3); [exact R0|exact R1|exact R2|exact R3|].
    by rewrite E0, E1, E2, E3.
Qed.
End memcpy_proof.

(** The word-at-a-time memcpy is the byte-wise copy. *)
Lemma memcpy_run m d s n :
  0 <= n < 2 ^ 32 -> mapped m d n -> mapped m s n -> separate m d n s n ->
  memcpy d s n m = Ok (d, write_bytes m d (read_bytes m s (Z.to_nat n))).
Proof.
  intros Hn Hd Hs Hsep. unfold memcpy. rewrite u32_small by done.
  destruct (memcpy_top_run m d s n) as (k & Hk & Htop); [done..|].
  rewrite (bind_ok _ _ _ _ _ Htop).
  destruct (Z.eqb_spec (n - k) 0).
  { unfold mret, ST_ret, copied, src_bytes. by replace k with n by lia. }
  destruct (split4 (n - k)) as (Hsplit & ? & ?); [lia|].
  erewrite bind_ok; [|apply (rep_movsl_run m d s n); [done..|lia|lia]].
  set (k' := k + 4 * _).
  assert (Z.land (n - k) 3 = n - k') as -> by (subst k'; lia).
  replace (s + k + 4 * _) with (s + k') by (subst k'; lia).
  replace (d + k + 4 * _) with (d + k') by (subst k'; lia).
  erewrite bind_ok; [|apply memcpy_bottom_run; [done..|subst k'; lia]].
  done.
Qed.
End block_lemmas.

(** ** memmove *)

Section memmove_proof.
Context {M : Type} `{ByteMemLaws M}.
Context (m : M) (d s : Z) (n : nat).
Hypothesis Hd : mapped m d (Z.of_nat n).
Hypothesis Hs : mapped m s (Z.of_nat n).
(** A cell is in both blocks only through the same address: the two blocks are
    mapped by the same pages. *)
Hypothesis Hco : forall i j c, 0 <= i < Z.of_nat n -> 0 <= j < Z.of_nat n ->
  cell m (d + i) = Some c -> cell m (s + j) = Some c -> d + i = s + j.
Hypothesis Hinj : injective m d (Z.of_nat n).

Local Definition block : list Z := read_bytes m s n.

Lemma block_lookup i :
  (i < n)%nat -> exists v, block !! i = Some v /\ load m (s + Z.of_nat i) = Some v.
Proof.
  intros. destruct (mapped_load m s (Z.of_nat n) (Z.of_nat i)) as (v & Hv & _); [done|lia|].
  exists v. split; [|done]. unfold block. by rewrite read_bytes_lookup, Hv.
Qed.

(** Ascending copy, destination at or below the source. *)
Lemma movsb_up k j :
  d <= s -> (k + j = n)%nat ->
  rep_movsb j 1 (s + Z.of_nat k) (d + Z.of_nat k) (write_bytes m d (take k block)) =
  Ok (tt, write_bytes m d block).
Proof.
  intros Hle. revert k. induction j as [|j IH]; intros k Hk; simpl.
  { rewrite take_ge; [done|]. unfold block. rewrite length_read_bytes. lia. }
  destruct (block_lookup k) as (v & Hv & Hload); [lia|].
  assert (length (take k block) = k) as Hlen.
  { rewrite length_take. unfold block. rewrite length_read_bytes. lia. }
  erewrite bind_ok.
  2:{ apply ld8_run. erewrite frame_load; [exact Hload|apply write_bytes_frame|].
      intros i c Hi Hc Hc'. rewrite Hlen in Hi.
      assert (d + i = s + Z.of_nat k); [by apply (Hco _ _ c); [lia|lia| |]|lia]. }
  erewrite bind_ok.
  2:{ rewrite <- Hlen at 1. apply write_bytes_snoc. rewrite Hlen.
      by apply (mapped_sub m d (Z.of_nat n)); [|lia|lia]. }
  rewrite <- (take_S_r _ _ _ Hv).
  replace (s + Z.of_nat k + 1) with (s + Z.of_nat (S k)) by lia.
  replace (d + Z.of_nat k + 1) with (d + Z.of_nat (S k)) by lia.
  apply IH. lia.
Qed.

(** Descending copy, destination above the source. *)
Lemma movsb_down k :
  s < d -> (k <= n)%nat ->
  rep_movsb k (-1) (s + Z.of_nat k - 1) (d + Z.of_nat k - 1)
    (write_bytes m (d + Z.of_nat k) (drop k block)) =
  Ok (tt, write_bytes m d block).
Proof.
  intros Hlt. induction k as [|k IH]; intros Hk; simpl; [by rewrite Z.add_0_r|].
  destruct (block_lookup k) as (v & Hv & Hload); [lia|].
  assert (length (drop (S k) block) = n - S k)%nat as Hlen.
  { rewrite length_drop. unfold block. rewrite length_read_bytes. lia. }
  replace (s + Z.of_nat (S k) - 1) with (s + Z.of_nat k) by lia.
  replace (d + Z.of_nat (S k) - 1) with (d + Z.of_nat k) by lia.
  erewrite bind_ok.
  2:{ apply ld8_run. erewrite frame_load; [exact Hload|apply write_bytes_frame|].
      intros i c Hi Hc Hc'. rewrite Hlen in Hi. rewrite <- Z.add_assoc in Hc.
      assert (d + (Z.of_nat (S k) + i) = s + Z.of_nat k); [|lia].
      by apply (Hco _ _ c); [lia|lia| |]. }
  destruct (Hd (Z.of_nat k)) as [c Hc]; [lia|].
  erewrite bind_ok; [|apply st8_run; by rewrite cell_write_bytes].
  replace (s + Z.of_nat k + -1) with (s + Z.of_nat k - 1) by lia.
  replace (d + Z.of_nat k + -1) with (d + Z.of_nat k - 1) by lia.
  rewrite <- IH by lia. f_equal. rewrite (drop_S _ _ _ Hv). simpl. rewrite Hc.
  replace (d + Z.of_nat (S k)) with (d + Z.of_nat k + 1) by lia.
  symmetry. apply write_bytes_poke_comm. intros i Hi Hc'.
  rewrite Hlen in Hi. rewrite <- !Z.add_assoc in Hc'.
  assert (Z.of_nat k + (1 + i) = Z.of_nat k); [by apply (Hinj _ _ c); [lia|lia| |]|lia].
Qed.

(** memmove copies the block, whatever the overlap. *)
Lemma memmove_run :
  Z.of_nat n < 2 ^ 32 ->
  memmove d s (Z.of_nat n) m = Ok (d, write_bytes m d (read_bytes m s n)).
Proof.
  intros Hn. unfold memmove. rewrite u32_small, Nat2Z.id by lia.
  destruct (Z.leb_spec d s).
  - erewrite bind_ok; [|pose proof (movsb_up 0 n) as Hup; rewrite !Z.add_0_r in Hup;
                        apply Hup; [done|lia]]. done.
  - erewrite bind_ok; [|pose proof (movsb_down n) as Hdown; rewrite drop_ge in Hdown;
                        [apply Hdown; [done|lia]|unfold block; by rewrite length_read_bytes]].
    done.
Qed.
End memmove_proof.

(** ** Strings *)

Section string_lemmas.
Context {M : Type} `{ByteMemLaws M}.
Implicit Types (m : M) (a s : Z) (n : nat) (l : list Z).

Lemma bytes_at_lookup m a l i v :
  bytes_at m a l -> at_ l i = Some v -> ld8 (a + i) m = Ok (v, m).
Proof.
  intros Hb Hv. pose proof (at_inv _ _ _ Hv). unfold at_ in Hv.
  destruct (Z.leb_spec 0 i); [|done]. apply ld8_run. apply Hb in Hv. by rewrite Z2Nat.id in Hv.
Qed.

(** strlen returns the length of the string. *)
Lemma strlen_run m s l :
  bytes_at m s (l ++ [0]) -> 0 ∉ l -> Z.of_nat (length l) < 2 ^ 32 ->
  strlen s m = Ok (Z.of_nat (length l), m).
Proof.
  intros Hb Hl Hlen.
  assert (wp (strlen s) (fun r m' => r = Z.of_nat (length l) /\ m' = m) m) as Hwp.
  { apply (wp_loop _ (fun i m' => 0 <= i <= Z.of_nat (length l) /\ m' = m)
             (fun i _ => Z.of_nat (length l) - i)); simpl; [|split; [lia|done]|lia].
    intros i m' [Hi ->]. destruct (at_Some (l ++ [0]) i) as [v Hv].
    { rewrite length_app. simpl. lia. }
    apply wp_bind. eapply wp_run; [by eapply bytes_at_lookup|]. apply wp_ret.
    unfold at_ in Hv. destruct (Z.leb_spec 0 i); [|lia].
    destruct (decide (i = Z.of_nat (length l))) as [->|].
    - rewrite Nat2Z.id, lookup_app_r, Nat.sub_diag in Hv by done. injection Hv as <-. done.
    - rewrite lookup_app_l in Hv by lia. destruct (Z.eqb_spec v 0); [|split; [split; [lia|done]|lia]].
      subst v. destruct Hl. by eapply list_elem_of_lookup_2. }
  apply wp_inv in Hwp as (r & m' & -> & -> & ->). done.
Qed.

Lemma cstr_no_nul l : 0 ∉ cstr l.
Proof.
  induction l as [|c l IH]; simpl; [apply not_elem_of_nil|].
  destruct (Z.eqb_spec c 0); [apply not_elem_of_nil|]. rewrite elem_of_cons. intros [?|?]; [lia|done].
Qed.

Lemma covers_cons c l n : covers (c :: l) (S n) -> c <> 0 -> covers l n.
Proof.
  unfold covers. rewrite elem_of_cons. simpl. intros [[?|?]|?] ?; [lia|by left|right; lia].
Qed.

Lemma covers_nil n : covers [] n -> n = O.
Proof. intros [?%not_elem_of_nil|?]; [done|simpl in *; lia]. Qed.

Lemma strncmp_run m s1 s2 n l1 l2 :
  bytes_at m s1 l1 -> bytes_at m s2 l2 -> covers l1 n -> covers l2 n ->
  strncmp s1 s2 (Z.of_nat n) m = Ok (compare_bytes n l1 l2, m).
Proof.
  unfold strncmp. rewrite Nat2Z.id.
  revert s1 s2 l1 l2. induction n as [|n IH]; intros s1 s2 l1 l2 H1' H2' C1 C2; [done|].
  destruct l1 as [|a l1]; [by apply covers_nil in C1|].
  destruct l2 as [|b l2]; [by apply covers_nil in C2|].
  apply bytes_at_cons in H1' as [Ha H1']. apply bytes_at_cons in H2' as [Hb H2'].
  pose proof (load_range _ _ _ Ha). pose proof (load_range _ _ _ Hb).
  simpl. rewrite (bind_ok _ _ _ _ _ (ld8_run _ _ _ Ha)), (bind_ok _ _ _ _ _ (ld8_run _ _ _ Hb)).
  assert (s8 a = 0 <-> a = 0) as Hz.
  { split; [|by intros ->]. intros E. by apply s8_inj; [done|lia|]. }
  destruct (Z.eqb_spec (s8 a) (s8 b)) as [E|E]; simpl.
  - apply s8_inj in E as ->; [|done|done]. destruct (Z.eqb_spec (s8 b) 0).
    + rewrite decide_False by tauto. done.
    + rewrite decide_True by tauto. apply IH; [done|done| |].
      * eapply covers_cons; [done|tauto].
      * eapply covers_cons; [done|tauto].
  - rewrite decide_False; [done|]. intros [-> _]. done.
Qed.

(** It is zero exactly when the two strings agree on their first [n] bytes. *)
Lemma compare_bytes_0 n l1 l2 :
  covers l1 n -> covers l2 n ->
  (forall v, v ∈ l1 -> 0 <= v < 256) -> (forall v, v ∈ l2 -> 0 <= v < 256) ->
  compare_bytes n l1 l2 = 0 <-> take n (cstr l1) = take n (cstr l2).
Proof.
  revert l1 l2. induction n as [|n IH]; intros l1 l2 C1 C2 R1 R2; [done|].
  destruct l1 as [|a l1]; [by apply covers_nil in C1|].
  destruct l2 as [|b l2]; [by apply covers_nil in C2|]. simpl.
  assert (0 <= a < 256) by (apply R1; left). assert (0 <= b < 256) by (apply R2; left).
  case_decide as E.
  - destruct E as [-> Hb]. destruct (Z.eqb_spec b 0); [done|]. simpl. rewrite IH.
    + split; [by intros ->|by intros [= ?]].
    + by eapply covers_cons.
    + by eapply covers_cons.
    + intros. apply R1. by right.
    + intros. apply R2. by right.
  - split.
    + intros E'. assert (a = b) as -> by (apply s8_inj; [done|done|lia]).
      destruct (Z.eqb_spec b 0); [done|tauto].
    + destruct (Z.eqb_spec a 0), (Z.eqb_spec b 0); subst; simpl; try done.
      intros [= ->]. tauto.
Qed.

Lemma length_cstr l : (length (cstr l) <= length l)%nat.
Proof. induction l as [|c l IH]; simpl; [lia|]. destruct (c =? 0); simpl; lia. Qed.

Lemma length_cstr_nul l : 0 ∈ l -> (length (cstr l) < length l)%nat.
Proof.
  induction l as [|c l IH]; simpl; [by intros ?%not_elem_of_nil|].
  rewrite elem_of_cons. intros Hc. destruct (Z.eqb_spec c 0); simpl; [lia|].
  destruct Hc as [?|Hc]; [lia|]. specialize (IH Hc). lia.
Qed.

Lemma cstr_lookup l i : (i < length (cstr l))%nat -> cstr l !! i = l !! i.
Proof.
  revert i. induction l as [|c l IH]; intros i; simpl; [lia|].
  destruct (c =? 0); simpl; [lia|]. destruct i as [|i]; simpl; [done|]. intros. apply IH. lia.
Qed.

Lemma cstr_end l : (length (cstr l) < length l)%nat -> l !! length (cstr l) = Some 0.
Proof.
  induction l as [|c l IH]; simpl; [lia|].
  destruct (Z.eqb_spec c 0); simpl; [by subst|]. intros. apply IH. lia.
Qed.

(** The byte a copy loop reads at index [i], up to and including the NUL. *)
Lemma cstr_read l n i :
  covers l n -> (i <= length (cstr l))%nat -> (i < n)%nat ->
  exists v, l !! i = Some v /\
    (v = 0 <-> i = length (cstr l)) /\ ((i < length (cstr l))%nat -> cstr l !! i = Some v).
Proof.
  intros Hc Hi Hn. pose proof (length_cstr l).
  destruct (decide (i = length (cstr l))) as [->|].
  - exists 0. split; [|split; [done|lia]]. apply cstr_end.
    destruct Hc; [by apply length_cstr_nul|lia].
  - destruct (lookup_lt_is_Some_2 l i) as [v Hv]; [lia|]. exists v. split; [done|].
    rewrite <- cstr_lookup in Hv by lia. split; [|done].
    split; [|lia]. intros ->. by apply list_elem_of_lookup_2, cstr_no_nul in Hv.
Qed.

(** A store into a block whose content is known. *)
Lemma st8_bytes_at m s l i v :
  bytes_at m s l -> injective m s (Z.of_nat (length l)) -> (i < length l)%nat -> 0 <= v < 256 ->
  exists m', st8 (s + Z.of_nat i) v m = Ok (tt, m') /\
    bytes_at m' s (<[i:=v]> l) /\ frame m m' (s + Z.of_nat i) 1.
Proof.
  intros Hb Hinj Hi Hv. destruct (bytes_at_mapped _ _ _ Hb (Z.of_nat i)) as [c Hc]; [lia|].
  exists (poke m c v). rewrite (st8_run _ _ _ _ Hc), u8_small by done.
  split; [done|]. split; [|by apply poke_frame].
  intros j w. destruct (decide (i = j)) as [->|].
  - rewrite list_lookup_insert_eq by done. intros [= <-].
    rewrite (load_poke_eq _ _ _ _ Hc). by rewrite u8_small.
  - rewrite list_lookup_insert_ne by done. intros Hw. pose proof (lookup_lt_Some _ _ _ Hw).
    rewrite load_poke_ne; [by apply Hb|]. intros Hc'.
    assert (Z.of_nat i = Z.of_nat j); [by apply (Hinj _ _ c); [lia|lia| |]|lia].
Qed.

Lemma frame_injective m m' a k b j : frame m m' a k -> injective m b j -> injective m' b j.
Proof. intros [Hc _] Hi x y c Hx Hy. rewrite !Hc. by apply Hi. Qed.

(** ** strncpy *)
Lemma strncpy_run m d s n l :
  bytes_at m s l -> covers l (S n) -> mapped m d (Z.of_nat n) ->
  separate m d (Z.of_nat n) s (Z.of_nat (length l)) -> Z.of_nat n < 2 ^ 32 ->
  let str := take n (cstr l) in
  strncpy d s (Z.of_nat n) m =
  Ok (d, write_bytes m d (str ++ replicate (n - length str) 0)).
Proof.
  intros Hb Hcov Hd Hsep Hn str.
  assert (length str = Nat.min n (length (cstr l))) as Hlen by apply length_take.
  assert (wp (loop (strncpy_step d s (Z.of_nat n)) 0)
    (fun i m' => i = Z.of_nat (length str) /\ m' = write_bytes m d str) m) as Hcopy.
  { apply (wp_loop _ (fun i m' => exists k, i = Z.of_nat k /\ (k <= length str)%nat /\
             m' = write_bytes m d (take k str)) (fun i _ => Z.of_nat (length str) - i));
      simpl; [|by exists O; split_and!; [|lia|]|lia].
    intros _ _ (k & -> & Hk & ->).
    destruct (cstr_read l (S n) k) as (v & Hv & Hv0 & Hstr); [done|lia|lia|].
    apply wp_bind. eapply wp_run.
    { apply ld8_run. erewrite frame_load; [by apply Hb|apply write_bytes_frame|].
      rewrite length_take. intros j c Hj Hc. apply (Hsep j (Z.of_nat k)); [lia| |done].
      apply lookup_lt_Some in Hv. lia. }
    destruct (decide (k = length str)) as [->|].
    - rewrite take_ge by done.
      assert (negb (v =? 0) && (Z.of_nat (length str) <? Z.of_nat n) = false) as ->; [|done].
      destruct (Z.eqb_spec v 0), (Z.ltb_spec (Z.of_nat (length str)) (Z.of_nat n)); try done. lia.
    - assert (v <> 0) by (intros ->; lia).
      destruct (Z.eqb_spec v 0); [done|]. destruct (Z.ltb_spec (Z.of_nat k) (Z.of_nat n)); [|lia]. simpl.
      apply wp_bind. eapply wp_run.
      { assert (Z.of_nat k = Z.of_nat (length (take k str))) as Hk' by (rewrite length_take; lia).
        rewrite Hk'. apply write_bytes_snoc. rewrite <- Hk'.
        by apply (mapped_sub m d (Z.of_nat n)); [|lia|lia]. }
      apply wp_ret. split; [|lia]. exists (S k). split_and!; [lia|lia|].
      rewrite (take_S_r _ _ v); [done|]. unfold str. rewrite lookup_take_lt by lia. apply Hstr. lia. }
  assert (wp (loop (strncpy_pad d (Z.of_nat n)) (Z.of_nat (length str)))
    (fun _ m' => m' = write_bytes m d (str ++ replicate (n - length str) 0)) (write_bytes m d str)) as Hpad.
  { apply (wp_loop _ (fun i m' => exists k, i = Z.of_nat (length str + k) /\ (length str + k <= n)%nat /\
             m' = write_bytes m d (str ++ replicate k 0)) (fun i _ => Z.of_nat n - i)); simpl.
    - intros _ _ (k & -> & Hk & ->). unfold strncpy_pad.
      destruct (Z.ltb_spec (Z.of_nat (length str + k)) (Z.of_nat n)).
      + apply wp_bind. eapply wp_run.
        { assert (Z.of_nat (length str + k) = Z.of_nat (length (str ++ replicate k 0))) as Hk'
            by (rewrite length_app, length_replicate; lia).
          rewrite Hk'. apply write_bytes_snoc. rewrite <- Hk'.
          by apply (mapped_sub m d (Z.of_nat n)); [|lia|lia]. }
        apply wp_ret. split; [|lia]. exists (k + 1)%nat. split_and!; [lia|lia|].
        by rewrite replicate_add, app_assoc.
      + apply wp_ret. by replace k with (n - length str)%nat by lia.
    - exists O. split_and!; [lia|lia|]. by rewrite app_nil_r.
    - lia. }
  apply wp_inv in Hcopy as (i & m1 & Hrun & -> & ->).
  apply wp_inv in Hpad as ([] & m2 & Hrun2 & ->).
  unfold strncpy. rewrite (bind_ok _ _ _ _ _ Hrun). by rewrite (bind_ok _ _ _ _ _ Hrun2).
Qed.

(** ** strrev *)
Lemma rev_lookup (l : list Z) i :
  (i < length l)%nat -> rev l !! i = l !! (length l - 1 - i)%nat.
Proof.
  intros. rewrite rev_alt. change (rev_append l []) with (reverse l).
  rewrite reverse_lookup by done. f_equal. lia.
Qed.

Lemma reversing_0 l : reversing l 0 l.
Proof.
  split_and!; [done|lia|]. intros p. case_decide; [|done].
  rewrite (lookup_ge_None_2 l), (lookup_ge_None_2 (rev l)); [done|rewrite length_rev; lia|lia].
Qed.

Lemma reversing_end l k cur : reversing l k cur -> (length l <= 2 * k + 1)%nat -> cur = rev l.
Proof.
  intros (Hlc & Hk & Hp) ?. apply list_eq. intros p. rewrite Hp. case_decide; [done|].
  assert (p = length l - 1 - p)%nat as E by lia.
  rewrite rev_lookup by lia. by rewrite E at 1.
Qed.

Lemma reversing_swap l k cur :
  reversing l k cur -> (2 * k + 1 < length l)%nat ->
  exists v w, cur !! k = Some v /\ cur !! (length l - 1 - k)%nat = Some w /\
    reversing l (S k) (<[k:=w]> (<[(length l - 1 - k)%nat:=v]> cur)).
Proof.
  intros (Hlc & Hk & Hp) Hlt. set (n := length l) in *.
  destruct (lookup_lt_is_Some_2 cur k) as [v Hv]; [lia|].
  destruct (lookup_lt_is_Some_2 cur (n - 1 - k)%nat) as [w Hw]; [lia|].
  exists v, w. split; [done|]. split; [done|]. split_and!; [by rewrite !length_insert|lia|].
  intros p. rewrite list_lookup_insert, list_lookup_insert, length_insert.
  rewrite Hp, decide_False in Hw by lia. rewrite Hp, decide_False in Hv by lia.
  repeat case_decide; try lia.
  - assert (p = k) as -> by lia. rewrite rev_lookup by (fold n; lia). done.
  - assert (p = n - 1 - k)%nat as -> by lia. rewrite rev_lookup by (fold n; lia). fold n.
    by replace (n - 1 - (n - 1 - k))%nat with k by lia.
  - rewrite Hp. by rewrite decide_True by lia.
  - rewrite Hp. by rewrite decide_False by lia.
Qed.

Lemma ld8_block m s l i v :
  bytes_at m s (l ++ [0]) -> l !! i = Some v ->
  ld8 (s + Z.of_nat i) m = Ok (v, m) /\ 0 <= v < 256.
Proof.
  intros Hb Hv. assert (load m (s + Z.of_nat i) = Some v) as Hld.
  { apply Hb. rewrite lookup_app_l by (by eapply lookup_lt_Some). done. }
  split; [by apply ld8_run|by eapply load_range].
Qed.

(** One iteration of strrev exchanges two bytes. *)
Lemma strrev_step_run m s l k cur :
  reversing l k cur -> (2 * k + 1 < length l)%nat ->
  bytes_at m s (cur ++ [0]) -> injective m s (Z.of_nat (length l) + 1) ->
  exists m' cur', strrev_step s (Z.of_nat k, Z.of_nat (length l - 1 - k)) m =
      Ok (inl (Z.of_nat k + 1, Z.of_nat (length l - 1 - k) - 1), m') /\
    reversing l (S k) cur' /\ bytes_at m' s (cur' ++ [0]) /\ frame m m' s (Z.of_nat (length l)).
Proof.
  intros Hrev Hlt Hb Hinj. set (n := length l) in *.
  destruct (reversing_swap _ _ _ Hrev Hlt) as (v & w & Hv & Hw & Hrev'). fold n in Hw, Hrev'.
  destruct Hrev as (Hlc & _ & _). fold n in Hlc.
  assert (length (cur ++ [0]) = S n) as Hlen by (rewrite length_app; simpl; lia).
  replace (Z.of_nat n + 1) with (Z.of_nat (length (cur ++ [0]))) in Hinj by lia.
  destruct (ld8_block _ _ _ _ _ Hb Hv) as [Hlv Hvr], (ld8_block _ _ _ _ _ Hb Hw) as [Hlw Hwr].
  destruct (st8_bytes_at m s _ (n - 1 - k)%nat v Hb) as (m1 & Hst1 & Hb1 & Hf1); [done|lia|done|].
  destruct (st8_bytes_at m1 s _ k w Hb1) as (m2 & Hst2 & Hb2 & Hf2);
    [by rewrite length_insert; eapply frame_injective|rewrite length_insert; lia|done|].
  exists m2, (<[k:=w]> (<[(n - 1 - k)%nat:=v]> cur)). split_and!; [|done| |].
  - simpl. destruct (Z.ltb_spec (Z.of_nat k) (Z.of_nat (n - 1 - k))); [|lia].
    rewrite (bind_ok _ _ _ _ _ Hlw), (bind_ok _ _ _ _ _ Hlv), (bind_ok _ _ _ _ _ Hst1).
    by rewrite (bind_ok _ _ _ _ _ Hst2).
  - by rewrite !insert_app_l in Hb2 by (rewrite ?length_insert; lia).
  - eapply frame_trans.
    + apply (frame_weaken _ _ s _ (Z.of_nat (n - 1 - k)) 1); [done|lia|lia].
    + apply (frame_weaken _ _ s _ (Z.of_nat k) 1); [done|lia|lia].
Qed.

Lemma strrev_run m s l :
  bytes_at m s (l ++ [0]) -> 0 ∉ l ->
  injective m s (Z.of_nat (length l) + 1) -> Z.of_nat (length l) < 2 ^ 31 ->
  exists m', strrev s m = Ok (s, m') /\ bytes_at m' s (rev l ++ [0]) /\
    frame m m' s (Z.of_nat (length l)).
Proof.
  intros Hb Hl Hinj Hlen.
  assert (wp (loop (strrev_step s) (0, Z.of_nat (length l) - 1)) (fun _ m' =>
    bytes_at m' s (rev l ++ [0]) /\ frame m m' s (Z.of_nat (length l))) m) as Hwp.
  { apply (wp_loop _ (fun r m' => exists k cur, r = (Z.of_nat k, Z.of_nat (length l) - 1 - Z.of_nat k) /\
             reversing l k cur /\ bytes_at m' s (cur ++ [0]) /\ frame m m' s (Z.of_nat (length l)))
             (fun r _ => snd r + 1)); simpl.
    - intros _ m' (k & cur & -> & Hrev & Hcur & Hf). simpl.
      destruct (decide (2 * k + 1 < length l)%nat) as [Hlt|Hge].
      + destruct (strrev_step_run m' s l k cur) as (m2 & cur2 & Hrun & Hrev2 & Hb2 & Hf2);
          [done|done|done|by eapply frame_injective|].
        replace (Z.of_nat (length l) - 1 - Z.of_nat k) with (Z.of_nat (length l - 1 - k)) by lia.
        eapply wp_run; [exact Hrun|]. split; [|simpl; lia].
        exists (S k), cur2. split_and!; [f_equal; lia|done|done|by eapply frame_trans].
      + destruct (Z.ltb_spec (Z.of_nat k) (Z.of_nat (length l) - 1 - Z.of_nat k)); [lia|].
        apply wp_ret. rewrite <- (reversing_end _ _ _ Hrev) by lia. done.
    - exists O, l. split_and!; [f_equal; lia|apply reversing_0|done|apply frame_refl].
    - lia. }
  apply wp_inv in Hwp as ([] & m' & Hrun & Hres & Hfr).
  exists m'. split; [|done]. unfold strrev.
  rewrite (bind_ok _ _ _ _ _ (strlen_run m s l Hb Hl ltac:(lia))).
  rewrite s32_small by lia. by rewrite (bind_ok _ _ _ _ _ Hrun).
Qed.
End string_lemmas.

(** ** itoa *)

Section itoa_lemmas.
Context {M : Type} `{ByteMemLaws M}.
Implicit Types (m : M) (radix v buf : Z).

Lemma digit_char d :
  0 <= d < 36 ->
  exists c, at_ lookup_table d = Some c /\ 48 <= c < 256 /\ digit_value c = d.
Proof.
  intros Hd.
  assert (forallb (fun k => match at_ lookup_table (Z.of_nat k) with
    | Some c => (48 <=? c) && (c <? 256) && (digit_value c =? Z.of_nat k) | None => false end)
    (List.seq 0 36) = true) as Hall by (vm_compute; reflexivity).
  rewrite forallb_forall in Hall. specialize (Hall (Z.to_nat d)).
  rewrite in_seq, Z2Nat.id in Hall by lia. specialize (Hall ltac:(lia)).
  destruct (at_ lookup_table d) as [c|]; [|done]. exists c.
  rewrite !andb_true_iff, Z.leb_le, Z.ltb_lt, Z.eqb_eq in Hall. split_and!; [done|lia..].
Qed.

Lemma digits_lsb_range fuel radix v c :
  2 <= radix <= 36 -> c ∈ digits_lsb fuel radix v -> 48 <= c < 256.
Proof.
  intros Hr. revert v. induction fuel as [|fuel IH]; intros v; simpl; [by intros ?%not_elem_of_nil|].
  destruct (0 <? v); [|by intros ?%not_elem_of_nil]. rewrite elem_of_cons. intros [->|Hc]; [|by eapply IH].
  pose proof (Z.mod_pos_bound v radix ltac:(lia)).
  destruct (digit_char (v `mod` radix)) as (d & -> & ? & _); [lia|]. done.
Qed.

Lemma length_digits_lsb fuel radix v : (length (digits_lsb fuel radix v) <= fuel)%nat.
Proof.
  revert v. induction fuel as [|fuel IH]; intros v; simpl; [lia|].
  destruct (0 <? v); simpl; [|lia]. specialize (IH (v / radix)). lia.
Qed.

(** Dividing by a radix of at least two halves the bound. *)
Lemma div_radix radix v k :
  2 <= radix -> 0 <= v < 2 ^ (k + 1) -> 0 <= k -> 0 <= v / radix < 2 ^ k.
Proof.
  intros Hr Hv Hk. rewrite Z.pow_add_r in Hv by lia. split; [apply Z.div_pos; lia|].
  apply Z.div_lt_upper_bound; [lia|]. nia.
Qed.

Lemma digits_lsb_value fuel radix v :
  2 <= radix <= 36 -> 0 <= v < 2 ^ Z.of_nat fuel ->
  foldr (fun c acc => acc * radix + digit_value c) 0 (digits_lsb fuel radix v) = v.
Proof.
  intros Hr. revert v. induction fuel as [|fuel IH]; intros v Hv; simpl.
  { change (2 ^ Z.of_nat 0) with 1 in Hv. lia. }
  destruct (Z.ltb_spec 0 v); simpl; [|lia].
  pose proof (Z.mod_pos_bound v radix ltac:(lia)).
  destruct (digit_char (v `mod` radix)) as (c & -> & _ & Hc); [lia|]. simpl. rewrite Hc.
  rewrite IH.
  - pose proof (Z.div_mod v radix ltac:(lia)). lia.
  - apply div_radix; [lia| |lia]. by replace (Z.of_nat fuel + 1) with (Z.of_nat (S fuel)) by lia.
Qed.

(** Reading the digits back gives the number. *)
Lemma digits_value_digits radix v :
  2 <= radix <= 36 -> 0 <= v < 2 ^ 32 -> digits_value radix (digits radix v) = v.
Proof.
  intros Hr Hv. unfold digits. destruct (Z.eqb_spec v 0) as [->|]; [done|].
  unfold digits_value. rewrite <- fold_left_rev_right, rev_involutive.
  rewrite <- (digits_lsb_value 32 radix v) at 2 by (done || lia). done.
Qed.

Lemma digits_range radix v c :
  2 <= radix <= 36 -> c ∈ digits radix v -> 48 <= c < 256.
Proof.
  intros Hr. unfold digits. destruct (v =? 0).
  - rewrite list_elem_of_singleton. lia.
  - rewrite list_elem_of_In, <- in_rev, <- list_elem_of_In. by apply digits_lsb_range.
Qed.

Lemma digits_lsb_nonempty fuel radix v :
  0 < v -> (0 < fuel)%nat -> (1 <= length (digits_lsb fuel radix v))%nat.
Proof. intros. destruct fuel; simpl; [lia|]. destruct (Z.ltb_spec 0 v); simpl; lia. Qed.

Lemma length_digits radix v : 0 <= v -> (1 <= length (digits radix v) <= 32)%nat.
Proof.
  intros. unfold digits. destruct (Z.eqb_spec v 0); [simpl; lia|].
  rewrite length_rev. split; [apply digits_lsb_nonempty; lia|apply length_digits_lsb].
Qed.

(** A number below [radix ^ k] has at most [k] digits. *)
Lemma digits_lsb_bound fuel radix v k :
  2 <= radix -> 0 <= v < radix ^ Z.of_nat k -> (length (digits_lsb fuel radix v) <= k)%nat.
Proof.
  intros Hr. revert v k. induction fuel as [|fuel IH]; intros v k Hv; simpl; [lia|].
  destruct (Z.ltb_spec 0 v); [|simpl; lia].
  destruct k as [|k]; [change (radix ^ Z.of_nat 0) with 1 in Hv; lia|]. simpl.
  apply le_n_S, IH. rewrite Nat2Z.inj_succ, Z.pow_succ_r in Hv by lia.
  split; [apply Z.div_pos; lia|apply Z.div_lt_upper_bound; lia].
Qed.

Lemma digits_bound radix v k :
  2 <= radix -> 0 <= v < radix ^ Z.of_nat k -> (1 <= k)%nat -> (length (digits radix v) <= k)%nat.
Proof.
  intros. unfold digits. destruct (v =? 0); [simpl; lia|]. rewrite length_rev. by apply digits_lsb_bound.
Qed.

(** Leading zeros do not change the value. *)
Lemma digits_value_zeros radix k l : digits_value radix (replicate k 48 ++ l) = digits_value radix l.
Proof.
  unfold digits_value. rewrite fold_left_app. f_equal. induction k as [|k IH]; [done|]. exact IH.
Qed.

(** The division loop stores the digits, least significant first. *)
Lemma itoa_loop_run m v buf radix :
  2 <= radix <= 36 -> 0 <= v < 2 ^ 32 -> mapped m buf 33 ->
  let ds := digits_lsb 32 radix v in
  loop (itoa_step radix) (v, buf) m =
  Ok (buf + Z.of_nat (length ds), write_bytes m buf ds).
Proof.
  intros Hr Hv Hm ds.
  assert (wp (loop (itoa_step radix) (v, buf)) (fun nb m' =>
    nb = buf + Z.of_nat (length ds) /\ m' = write_bytes m buf ds) m) as Hwp.
  { apply (wp_loop _ (fun r m' => exists fuel pre x, r = (x, buf + Z.of_nat (length pre)) /\
             ds = pre ++ digits_lsb fuel radix x /\ (fuel + length pre = 32)%nat /\
             0 <= x < 2 ^ Z.of_nat fuel /\ m' = write_bytes m buf pre) (fun r _ => fst r)); simpl.
    - intros _ _ (fuel & pre & x & -> & Hds & Hf & Hx & ->). simpl.
      destruct (Z.ltb_spec 0 x).
      + destruct fuel as [|fuel]; [change (2 ^ Z.of_nat 0) with 1 in Hx; lia|].
        rewrite (u32_small radix) by lia. destruct (Z.eqb_spec radix 0); [lia|].
        pose proof (Z.mod_pos_bound x radix ltac:(lia)).
        destruct (digit_char (x `mod` radix)) as (c & Hc & Hcr & _); [lia|].
        simpl in Hds. destruct (Z.ltb_spec 0 x); [|lia]. rewrite Hc in Hds. simpl in Hds.
        rewrite Hc. apply wp_bind. apply wp_ret. apply wp_bind. eapply wp_run.
        { apply write_bytes_snoc. by apply (mapped_sub m buf 33); [|lia|lia]. }
        apply wp_ret. assert (0 <= x / radix < 2 ^ Z.of_nat fuel).
        { apply div_radix; [lia| |lia]. by replace (Z.of_nat fuel + 1) with (Z.of_nat (S fuel)) by lia. }
        split; [|simpl; split; [lia|apply Z.div_lt; lia]].
        exists fuel, (pre ++ [c]), (x / radix). rewrite length_app. simpl. split_and!; try done; try lia.
        * f_equal. lia.
        * by rewrite <- app_assoc.
      + apply wp_ret. assert (ds = pre) as ->; [|done]. rewrite Hds.
        destruct fuel; simpl; [by rewrite app_nil_r|]. destruct (Z.ltb_spec 0 x); [lia|]. by rewrite app_nil_r.
    - exists 32%nat, [], v. split_and!; try done; try (simpl; lia). by rewrite Z.add_0_r.
    - lia. }
  apply wp_inv in Hwp as (nb & m' & -> & -> & ->). done.
Qed.

Lemma itoa_run m v buf radix :
  2 <= radix <= 36 -> 0 <= v < 2 ^ 32 -> mapped m buf 33 -> injective m buf 33 ->
  exists m', itoa v buf radix m = Ok (buf, m') /\
    bytes_at m' buf (digits radix v ++ [0]) /\ frame m m' buf 33.
Proof.
  intros Hr Hv Hm Hinj. unfold itoa, digits. destruct (Z.eqb_spec v 0) as [->|Hv0].
  - exists (write_bytes m buf [48; 0]). split_and!.
    + pose proof (write_bytes_snoc m buf [] 48) as Hst. rewrite Z.add_0_r in Hst.
      rewrite (bind_ok _ _ _ _ _ (Hst ltac:(intros i ?; apply Hm; lia))).
      pose proof (write_bytes_snoc m buf [48] 0) as Hst2.
      by rewrite (bind_ok _ _ _ _ _ (Hst2 ltac:(by apply (mapped_sub m buf 33); [|simpl; lia|simpl; lia]))).
    + apply bytes_at_write.
      * intros i ?. apply Hm. simpl in *. lia.
      * intros i j c ? ?. simpl in *. apply Hinj; lia.
      * intros [|[|]] w; simpl; [|by intros [= <-]|done]. by intros [= <-].
    + apply (frame_weaken _ _ buf _ 0 2); [rewrite Z.add_0_r; apply (write_bytes_frame m buf [48; 0])|lia|lia].
  - pose proof (length_digits_lsb 32 radix v) as Hlen.
    assert (forall c, c ∈ digits_lsb 32 radix v -> 48 <= c < 256) as Hrange
      by (intros c; by apply digits_lsb_range).
    rewrite (bind_ok _ _ _ _ _ (itoa_loop_run m v buf radix Hr Hv Hm)).
    generalize dependent (digits_lsb 32 radix v). intros ds Hlen Hrange.
    erewrite bind_ok; [|apply write_bytes_snoc; by apply (mapped_sub m buf 33); [|lia|lia]].
    set (m1 := write_bytes m buf (ds ++ [0])).
    assert (frame m m1 buf 33) as Hf1.
    { apply (frame_weaken _ _ buf _ 0 (Z.of_nat (length (ds ++ [0])))); [|lia|rewrite length_app; simpl; lia].
      rewrite Z.add_0_r. apply write_bytes_frame. }
    assert (0 ∉ ds) as H0ds by (intros Hc%Hrange; lia).
    destruct (strrev_run m1 buf ds) as (m' & Hrun & Hb & Hf); [|done| |lia|].
    + apply bytes_at_write.
      * intros i ?. apply Hm. rewrite length_app in *. simpl in *. lia.
      * intros i j c ? ?. rewrite length_app in *. simpl in *. apply Hinj; lia.
      * intros i w Hw%list_elem_of_lookup_2. rewrite elem_of_app, list_elem_of_singleton in Hw.
        destruct Hw as [Hw%Hrange|]; lia.
    + eapply frame_injective; [done|]. intros i j c ? ?. apply Hinj; lia.
    + exists m'. split_and!; [done|done|]. eapply frame_trans; [done|].
      apply (frame_weaken _ _ buf _ 0 (Z.of_nat (length ds))); [by rewrite Z.add_0_r|lia|lia].
Qed.
End itoa_lemmas.


(** ** Properties *)

(** [memmove] leaves at the destination the bytes that were at the source before
    the call, whatever the overlap of the two blocks, and changes no other byte. *)
Theorem memmove_any_overlap {M} `{ByteMemLaws M} (m : M) d s n :
  Z.of_nat n < 2 ^ 32 -> mapped m d (Z.of_nat n) -> mapped m s (Z.of_nat n) ->
  injective m d (Z.of_nat n) ->
  (forall i j c, 0 <= i < Z.of_nat n -> 0 <= j < Z.of_nat n ->
     cell m (d + i) = Some c -> cell m (s + j) = Some c -> d + i = s + j) ->
  exists m', memmove d s (Z.of_nat n) m = Ok (d, m') /\
    bytes_at m' d (read_bytes m s n) /\ frame m m' d (Z.of_nat n).
Proof.
  intros Hn Hd Hs Hinj Hco. eexists. split; [by apply memmove_run|].
  pose proof (length_read_bytes m s n) as Hlen. split.
  - apply bytes_at_write; rewrite ?Hlen; [done..|]. apply read_bytes_range.
  - rewrite <- Hlen at 2. apply write_bytes_frame.
Qed.

(** Two bytes moved up by one. *)
Lemma memmove_any_overlap_witness :
  exists m', memmove 101 100 2 (flat_of 100 [7; 8; 9]) = Ok (101, m') /\
    bytes_at m' 101 [7; 8] /\ frame (flat_of 100 [7; 8; 9]) m' 101 2.
Proof.
  assert (read_bytes (flat_of 100 [7; 8; 9]) 100 2 = [7; 8]) as Hr by reflexivity.
  destruct (memmove_any_overlap (flat_of 100 [7; 8; 9]) 101 100 2) as (m' & Hrun & Hb & Hf);
    [done|apply flat_mapped|apply flat_mapped|apply flat_injective| |].
  - intros i j c _ _ Hi Hj. simpl in *. congruence.
  - exists m'. rewrite Hr in Hb. exact (conj Hrun (conj Hb Hf)).
Defined.

(** [memset] stores the low byte of [c] in each of the [n] bytes from [s], for
    every alignment and length, and changes no other byte. *)
Theorem memset_fills_block {M} `{ByteMemLaws M} (m : M) s c n :
  0 <= n < 2 ^ 32 -> mapped m s n -> injective m s n ->
  exists m', memset s c n m = Ok (s, m') /\
    bytes_at m' s (replicate (Z.to_nat n) (u8 c)) /\ frame m m' s n.
Proof.
  intros Hn Hs Hinj. eexists. split; [by apply memset_run|]. unfold filled.
  assert (Z.of_nat (length (replicate (Z.to_nat n) (u8 c))) = n) as Hlen by (rewrite length_replicate; lia).
  split.
  - apply bytes_at_write; rewrite ?Hlen; [done..|].
    intros i v [-> _]%lookup_replicate. apply u8_range.
  - rewrite <- Hlen at 2. apply write_bytes_frame.
Qed.

Lemma memset_fills_block_witness :
  exists m', memset 101 0x1FF 6 (∅ : flat) = Ok (101, m') /\
    bytes_at m' 101 (replicate 6 255) /\ frame (∅ : flat) m' 101 6.
Proof.
  apply (memset_fills_block (∅ : flat) 101 0x1FF 6); [lia|apply flat_mapped|apply flat_injective].
Defined.

(** Strncmp returns zero exactly when the two strings agree on their first [n]
    characters, reading no byte beyond the terminators. *)
Theorem strncmp_zero_iff_equal {M} `{ByteMemLaws M} (m : M) s1 s2 n l1 l2 :
  bytes_at m s1 l1 -> bytes_at m s2 l2 -> covers l1 n -> covers l2 n ->
  exists r, strncmp s1 s2 (Z.of_nat n) m = Ok (r, m) /\
    (r = 0 <-> take n (cstr l1) = take n (cstr l2)).
Proof.
  intros H1 H2 C1 C2. eexists. split; [by apply strncmp_run|].
  apply compare_bytes_0; [done..| |];
    intros v [i Hi]%list_elem_of_lookup_1; eapply load_range; eauto.
Qed.

Lemma strncmp_zero_iff_equal_witness :
  exists r, strncmp 100 104 32 (flat_of 100 [108; 115; 0; 9; 108; 115; 0; 7]) =
      Ok (r, flat_of 100 [108; 115; 0; 9; 108; 115; 0; 7]) /\
    (r = 0 <-> take 32 (cstr [108; 115; 0]) = take 32 (cstr [108; 115; 0])).
Proof.
  apply (strncmp_zero_iff_equal (flat_of 100 [108; 115; 0; 9; 108; 115; 0; 7]) 100 104 32).
  - intros i v Hi. destruct i as [|[|[|i]]]; simpl in Hi; try discriminate; injection Hi as <-; reflexivity.
  - intros i v Hi. destruct i as [|[|[|i]]]; simpl in Hi; try discriminate; injection Hi as <-; reflexivity.
  - left. set_solver.
  - left. set_solver.
Defined.

(** Strncpy copies the string up to [n] characters and fills the rest of the
    [n] bytes with NUL. *)
Theorem strncpy_copies_and_pads {M} `{ByteMemLaws M} (m : M) d s n l :
  bytes_at m s l -> covers l (S n) -> mapped m d (Z.of_nat n) -> injective m d (Z.of_nat n) ->
  separate m d (Z.of_nat n) s (Z.of_nat (length l)) -> Z.of_nat n < 2 ^ 32 ->
  let str := take n (cstr l) in
  exists m', strncpy d s (Z.of_nat n) m = Ok (d, m') /\
    bytes_at m' d (str ++ replicate (n - length str) 0) /\ frame m m' d (Z.of_nat n).
Proof.
  intros Hl Hc Hd Hinj Hsep Hn str. eexists. split; [by apply strncpy_run|]. fold str.
  assert (Z.of_nat (length (str ++ replicate (n - length str) 0)) = Z.of_nat n) as Hlen.
  { rewrite length_app, length_replicate. unfold str. rewrite length_take. lia. }
  split.
  - apply bytes_at_write; rewrite ?Hlen; [done..|].
    intros i v [Hi|[_ Hi]]%lookup_app_Some; [|apply lookup_replicate in Hi as [-> _]; lia].
    unfold str in Hi. apply lookup_take_Some in Hi as [Hi _].
    rewrite cstr_lookup in Hi by (by eapply lookup_lt_Some). eapply load_range, Hl, Hi.
  - rewrite <- Hlen at 1. apply write_bytes_frame.
Qed.

Lemma strncpy_copies_and_pads_witness :
  exists m', strncpy 200 100 4 (flat_of 100 [97; 98; 0]) = Ok (200, m') /\
    bytes_at m' 200 [97; 98; 0; 0] /\ frame (flat_of 100 [97; 98; 0]) m' 200 4.
Proof.
  apply (strncpy_copies_and_pads (flat_of 100 [97; 98; 0]) 200 100 4 [97; 98; 0]).
  - intros i v Hi. destruct i as [|[|[|i]]]; simpl in Hi; try discriminate; injection Hi as <-; reflexivity.
  - left. set_solver.
  - apply flat_mapped.
  - apply flat_injective.
  - apply flat_separate. simpl. lia.
  - done.
Defined.

(** C33: itoa prints a number in any radix from 2 to 36: the string stored in the
    buffer consists of digits, reading it back gives the number, and at most 33
    bytes of the buffer change. *)
Theorem itoa_round_trip {M} `{ByteMemLaws M} (m : M) v buf radix :
  2 <= radix <= 36 -> 0 <= v < 2 ^ 32 -> mapped m buf 33 -> injective m buf 33 ->
  exists m' ds, itoa v buf radix m = Ok (buf, m') /\
    bytes_at m' buf (ds ++ [0]) /\ (0 ∉ ds) /\ digits_value radix ds = v /\ frame m m' buf 33.
Proof.
  intros Hr Hv Hm Hi. destruct (itoa_run m v buf radix Hr Hv Hm Hi) as (m' & Hrun & Hb & Hf).
  exists m', (digits radix v). split_and!; try done; [|by apply digits_value_digits].
  intros Hnul. apply digits_range in Hnul; [lia|done].
Qed.

Lemma itoa_round_trip_witness :
  exists m' ds, itoa 391 100 16 (∅ : flat) = Ok (100, m') /\
    bytes_at m' 100 (ds ++ [0]) /\ (0 ∉ ds) /\ digits_value 16 ds = 391 /\ frame (∅ : flat) m' 100 33.
Proof.
  apply (itoa_round_trip (∅ : flat) 391 100 16); [lia|lia|apply flat_mapped|apply flat_injective].
Defined.
