(* ===== verification/Filesystem.v ===== *)
(** * filesystem.c: the read-only file system

    The file system is a memory image: a boot block (directory), one block per
    inode, and data blocks.  The functions of filesystem.c are translated over
    the memory interface of file Memory; the two global pointers of the C file
    are the record [fs_globals].  The abstract specification is a list of
    directory entries and a list of file contents ([fs_image]); [fs_rep] says
    that a memory holds the image, and the theorems show that the functions
    compute on memory what the specification says on the lists. *)

From S2P Require Import Prelude Memory Lib.

(** ** Data *)

Definition ERROR_VAL : Z := -1.
Definition MAX_FILENAME_LENGTH : Z := 32.
Definition FILESYSTEM_BLOCKSIZE : Z := 4096.
Definition NUM_DATABLOCKS_PER_INODE : Z := 1023.
Definition NUM_RESERVED_DENTRY : Z := 6.
Definition MAX_NUM_DIRECTORY_ENTRIES : Z := 63.

Record inode_t := Inode { length_ : Z; dataBlocks : list Z }.

Record dentry_t := Dentry {
  fileName : list Z;
  fileType : Z;
  inodeNum : Z;
  reserved24 : list Z
}.

(** The globals [fileSysBootBlock] and [bootMemAddr]. *)
Record fs_globals := FsGlobals { fileSysBootBlock : Z; bootMemAddr : Z }.

Section code.
Context {M : Type} `{ByteMem M}.
Implicit Types (g : fs_globals).

(** ** Reading the packed structures through a pointer *)

Fixpoint rd_bytes (n : nat) (a : Z) : ST M (list Z) :=
  match n with
  | O => mret []
  | S n' => b ← ld8 a; l ← rd_bytes n' (a + 1); mret (b :: l)
  end.

Fixpoint rd_words (n : nat) (a : Z) : ST M (list Z) :=
  match n with
  | O => mret []
  | S n' => v ← ld32 a; l ← rd_words n' (a + 4); mret (v :: l)
  end.

Definition rd_dentry (a : Z) : ST M dentry_t :=
  name ← rd_bytes 32 a;
  ty ← ld32 (a + 32);
  ino ← ld32 (a + 36);
  res ← rd_words 6 (a + 40);
  mret (Dentry name ty ino res).

Definition rd_inode (a : Z) : ST M inode_t :=
  len ← ld32 a;
  blocks ← rd_words 1023 (a + 4);
  mret (Inode len blocks).

(** Fields of the boot block. *)
Definition numDirectories g : ST M Z := ld32 (fileSysBootBlock g).
Definition numInodes g : ST M Z := ld32 (fileSysBootBlock g + 4).
Definition fileDirectory g (i : Z) : Z := fileSysBootBlock g + 64 + 64 * i.

(** ** The functions *)

Definition strlenFile_step (s maxStrLen len : Z) : ST M (Z + Z) :=
  c ← ld8 (s + len);
  if negb (c =? 0) && (len <? maxStrLen) then mret (inl (len + 1)) else mret (inr len).

Definition strlenFile (s maxStrLen : Z) : ST M Z := loop (strlenFile_step s maxStrLen) 0.

Definition strcpyFile_step (rd_src : Z -> ST M Z) (dest maxStrLen i : Z) : ST M (Z + Z) :=
  c ← rd_src i;
  if negb (c =? 0) && (i <? maxStrLen)
  then st8 (dest + i) c ;;; mret (inl (i + 1))
  else mret (inr i).

(** The source of strcpyFile is given as the read of its byte [i]: the only
    caller passes an array inside a local structure. *)
Definition strcpyFile (dest : Z) (rd_src : Z -> ST M Z) (maxStrLen : Z) : ST M Z :=
  loop (strcpyFile_step rd_src dest maxStrLen) 0.

(** The out-parameter [dentry] is its NULL test and the structure it receives. *)
Definition read_dentry_by_name_step g (fname i : Z) : ST M (Z + (Z * option dentry_t)) :=
  nd ← numDirectories g;
  if i <? nd then
    c ← strncmp fname (fileDirectory g i) MAX_FILENAME_LENGTH;
    if c =? 0 then
      d ← rd_dentry (fileDirectory g i);
      mret (inr (0, Some d))
    else mret (inl (i + 1))
  else mret (inr (ERROR_VAL, None)).

Definition read_dentry_by_name g (fname : Z) (dentry_null : bool) : ST M (Z * option dentry_t) :=
  if dentry_null then mret (ERROR_VAL, None)
  else loop (read_dentry_by_name_step g fname) 0.

Definition read_dentry_by_index g (index : Z) (dentry_null : bool) : ST M (Z * option dentry_t) :=
  if dentry_null then mret (ERROR_VAL, None)
  else
    nd ← numDirectories g;
    if (nd <=? index) || (index <? 0) then mret (ERROR_VAL, None)
    else d ← rd_dentry (fileDirectory g index); mret (0, Some d).

Definition read_data_step g (fileInode : inode_t) (buf copyLength : Z) (r : Z * Z * Z)
  : ST M ((Z * Z * Z) + Z) :=
  let '(dataBlockIndex, dataBlockOffset, bytesCopied) := r in
  if bytesCopied <? copyLength then
    ni ← numInodes g;
    block ← of_option OutOfBounds (at_ (dataBlocks fileInode) dataBlockIndex);
    let copy_start :=
      u32 (bootMemAddr g + FILESYSTEM_BLOCKSIZE * (ni + 1 + block) + dataBlockOffset) in
    let copy_len :=
      Z.min (FILESYSTEM_BLOCKSIZE - dataBlockOffset) (copyLength - bytesCopied) in
    memcpy (buf + bytesCopied) copy_start copy_len ≫= fun _ =>
    mret (inl (dataBlockIndex + 1, 0, bytesCopied + copy_len))
  else mret (inr bytesCopied).

Definition read_data g (inode offset buf length : Z) : ST M Z :=
  if buf =? 0 then mret ERROR_VAL
  else
    ni ← numInodes g;
    if (ni <=? inode) || (inode <? 0) then mret ERROR_VAL
    else if length <? 0 then mret ERROR_VAL
    else
      fileInode ← rd_inode (u32 (bootMemAddr g + FILESYSTEM_BLOCKSIZE * (inode + 1)));
      if offset =? length_ fileInode then mret 0
      else if (offset <? 0) || (length_ fileInode <? offset) then mret ERROR_VAL
      else
        let dataBlockIndex := offset / FILESYSTEM_BLOCKSIZE in
        let dataBlockOffset := offset `mod` FILESYSTEM_BLOCKSIZE in
        let copyLength := Z.min length (length_ fileInode - offset) in
        n ← loop (read_data_step g fileInode buf copyLength) (dataBlockIndex, dataBlockOffset, 0);
        mret (s32 n).

Definition fileReadIdx g (index buf nbytes : Z) : ST M Z :=
  r ← read_dentry_by_index g index false;
  match r with
  | (0, Some dentry) => read_data g (inodeNum dentry) 0 buf (u32 nbytes)
  | _ => mret ERROR_VAL
  end.
End code.

(** The operations with a constant result. *)
Definition fileOpen (filename : Z) : Z := 0.
Definition fileWrite (fd buf nbytes : Z) : Z := ERROR_VAL.
Definition fileClose (fd : Z) : Z := 0.
Definition directoryOpen (filename : Z) : Z := 0.
Definition directoryWrite (fd buf nbytes : Z) : Z := ERROR_VAL.
Definition directoryClose (fd : Z) : Z := 0.

(** [fileSysInit]: both globals become the start of the module. *)
Definition fileSysInit (mod_start : Z) : fs_globals := FsGlobals mod_start mod_start.

(** ** Abstract specification *)

(** A file system is its directory and the contents of its inodes. *)
Record fs_image := FsImage {
  im_dir : list dentry_t;
  im_files : list (list Z)
}.

(** The specified result of a read: the bytes from [offset], at most [n]. *)
Definition file_slice (content : list Z) (offset n : Z) : list Z :=
  take (Z.to_nat n) (drop (Z.to_nat offset) content).

(** The first directory entry with a given name. *)
Definition dir_find (name : list Z) (dir : list dentry_t) : option dentry_t :=
  snd <$> list_find (fun d => take 32 (cstr name) = take 32 (cstr (fileName d))) dir.

Definition le32 (v : Z) : list Z :=
  [u8 v; u8 (Z.shiftr v 8); u8 (Z.shiftr v 16); u8 (Z.shiftr v 24)].

Section representation.
Context {M : Type} `{ByteMem M}.

Definition word_at (m : M) (a v : Z) : Prop := bytes_at m a (le32 v) /\ 0 <= v < 2 ^ 32.

Definition words_at (m : M) (a : Z) (l : list Z) : Prop :=
  forall i v, l !! i = Some v -> word_at m (a + 4 * Z.of_nat i) v.

Record dentry_at (m : M) (a : Z) (d : dentry_t) : Prop := {
  da_name : bytes_at m a (fileName d);
  da_length : length (fileName d) = 32%nat;
  da_type : word_at m (a + 32) (fileType d);
  da_inode : word_at m (a + 36) (inodeNum d);
  da_reserved : words_at m (a + 40) (reserved24 d);
  da_reserved_length : length (reserved24 d) = 6%nat
}.

(** [size] bytes from [bootMemAddr] hold the image [im]. *)
Record fs_rep (m : M) (g : fs_globals) (size : Z) (im : fs_image) : Prop := {
  fr_base : bootMemAddr g = fileSysBootBlock g;
  fr_bounds : 0 <= fileSysBootBlock g /\ fileSysBootBlock g + size <= 2 ^ 32;
  fr_header : 4096 <= size;
  fr_ndir : word_at m (fileSysBootBlock g) (Z.of_nat (length (im_dir im)));
  fr_ndir_max : Z.of_nat (length (im_dir im)) <= MAX_NUM_DIRECTORY_ENTRIES;
  fr_ninode : word_at m (fileSysBootBlock g + 4) (Z.of_nat (length (im_files im)));
  fr_dir : forall i d, im_dir im !! i = Some d -> dentry_at m (fileDirectory g (Z.of_nat i)) d;
  fr_file : forall i c, im_files im !! i = Some c ->
    exists blocks,
      length blocks = 1023%nat /\
      Z.of_nat (length c) <= FILESYSTEM_BLOCKSIZE * NUM_DATABLOCKS_PER_INODE /\
      FILESYSTEM_BLOCKSIZE * (Z.of_nat i + 2) <= size /\
      (let a := bootMemAddr g + FILESYSTEM_BLOCKSIZE * (Z.of_nat i + 1) in
       word_at m a (Z.of_nat (length c)) /\ words_at m (a + 4) blocks) /\
      forall k b, blocks !! k = Some b -> Z.of_nat k * FILESYSTEM_BLOCKSIZE < Z.of_nat (length c) ->
        let a := FILESYSTEM_BLOCKSIZE * (Z.of_nat (length (im_files im)) + 1 + b) in
        0 <= b /\ a + FILESYSTEM_BLOCKSIZE <= size /\
        bytes_at m (bootMemAddr g + a)
          (file_slice c (Z.of_nat k * FILESYSTEM_BLOCKSIZE) FILESYSTEM_BLOCKSIZE)
}.
End representation.

(** ** Reading the structures *)

Section structure_lemmas.
Context {M : Type} `{ByteMemLaws M}.
Implicit Types (m : M) (a v : Z) (l : list Z).

Lemma le32_value v :
  0 <= v < 2 ^ 32 ->
  u8 v + 2 ^ 8 * u8 (Z.shiftr v 8) + 2 ^ 16 * u8 (Z.shiftr v 16) + 2 ^ 24 * u8 (Z.shiftr v 24) = v.
Proof.
  intros Hv. unfold u8. rewrite !Z.shiftr_div_pow2 by lia.
  change (2 ^ 16) with (2 ^ 8 * 2 ^ 8). change (2 ^ 24) with (2 ^ 8 * 2 ^ 8 * 2 ^ 8).
  change (2 ^ 32) with (2 ^ 8 * 2 ^ 8 * 2 ^ 8 * 2 ^ 8) in Hv.
  rewrite <- !Z.div_div by lia.
  assert (v / 2 ^ 8 / 2 ^ 8 / 2 ^ 8 < 2 ^ 8) by (repeat (apply Z.div_lt_upper_bound; [lia|]); lia).
  assert (0 <= v / 2 ^ 8 / 2 ^ 8 / 2 ^ 8) by (repeat (apply Z.div_pos; [|lia]); lia).
  rewrite (Z.mod_small (_ / _ / _ / _)) by lia.
  pose proof (Z.div_mod v (2 ^ 8)). pose proof (Z.div_mod (v / 2 ^ 8) (2 ^ 8)).
  pose proof (Z.div_mod (v / 2 ^ 8 / 2 ^ 8) (2 ^ 8)). lia.
Qed.

Lemma ld32_word m a v : word_at m a v -> ld32 a m = Ok (v, m).
Proof. intros [Hb Hv]. rewrite (ld32_run _ _ _ _ _ _ Hb). by rewrite le32_value. Qed.

Lemma frame_word m m' b n a v :
  frame m m' b n -> separate m b n a 4 -> word_at m a v -> word_at m' a v.
Proof. intros Hf Hs [Hb Hv]. split; [|done]. by eapply frame_bytes_at. Qed.

Lemma rd_bytes_run m a l : bytes_at m a l -> rd_bytes (length l) a m = Ok (l, m).
Proof.
  revert a. induction l as [|v l IH]; intros a Hb; [done|].
  apply bytes_at_cons in Hb as [Hv Hb]. simpl.
  rewrite (bind_ok _ _ _ _ _ (ld8_run _ _ _ Hv)). by rewrite (bind_ok _ _ _ _ _ (IH _ Hb)).
Qed.

Lemma rd_words_run m a l : words_at m a l -> rd_words (length l) a m = Ok (l, m).
Proof.
  revert a. induction l as [|v l IH]; intros a Hw; [done|].
  assert (word_at m a v) as Hv.
  { replace a with (a + 4 * Z.of_nat 0) by lia. by apply Hw. }
  assert (words_at m (a + 4) l) as Hl.
  { intros i w Hi. replace (a + 4 + 4 * Z.of_nat i) with (a + 4 * Z.of_nat (S i)) by lia. by apply Hw. }
  simpl. rewrite (bind_ok _ _ _ _ _ (ld32_word _ _ _ Hv)). by rewrite (bind_ok _ _ _ _ _ (IH _ Hl)).
Qed.

Lemma rd_dentry_run m a d : dentry_at m a d -> rd_dentry a m = Ok (d, m).
Proof.
  intros [Hn Hl Ht Hi Hr Hrl]. unfold rd_dentry.
  rewrite <- Hl at 1. rewrite (bind_ok _ _ _ _ _ (rd_bytes_run _ _ _ Hn)).
  rewrite (bind_ok _ _ _ _ _ (ld32_word _ _ _ Ht)), (bind_ok _ _ _ _ _ (ld32_word _ _ _ Hi)).
  rewrite <- Hrl at 1. rewrite (bind_ok _ _ _ _ _ (rd_words_run _ _ _ Hr)). by destruct d.
Qed.

Lemma rd_inode_run m a len blocks :
  word_at m a len -> words_at m (a + 4) blocks -> length blocks = 1023%nat ->
  rd_inode a m = Ok (Inode len blocks, m).
Proof.
  intros Hl Hb Hlen. unfold rd_inode. rewrite (bind_ok _ _ _ _ _ (ld32_word _ _ _ Hl)).
  rewrite <- Hlen at 1. by rewrite (bind_ok _ _ _ _ _ (rd_words_run _ _ _ Hb)).
Qed.
End structure_lemmas.

(** ** Slices *)

Lemma length_file_slice c o n :
  0 <= o -> 0 <= n -> Z.of_nat (length (file_slice c o n)) = Z.min n (Z.max 0 (Z.of_nat (length c) - o)).
Proof. intros. unfold file_slice. rewrite length_take, length_drop. lia. Qed.

(** A slice inside a slice. *)
Lemma file_slice_sub c o n o' n' :
  0 <= o -> 0 <= o' -> 0 <= n' -> o' + n' <= n ->
  file_slice (file_slice c o n) o' n' = file_slice c (o + o') n'.
Proof.
  intros. unfold file_slice. rewrite skipn_firstn_comm, take_take, drop_drop.
  f_equal; [lia|f_equal; lia].
Qed.

Lemma file_slice_split c o n k :
  0 <= o -> 0 <= k <= n ->
  file_slice c o n = file_slice c o k ++ file_slice c (o + k) (n - k).
Proof.
  intros. unfold file_slice.
  replace (Z.to_nat n) with (Z.to_nat k + Z.to_nat (n - k))%nat by lia.
  rewrite <- take_take_drop, drop_drop. do 2 f_equal. f_equal. lia.
Qed.

(** ** read_data *)

Section read_data_proof.
Context {M : Type} `{ByteMemLaws M}.
Context (m : M) (g : fs_globals) (size : Z) (im : fs_image).
Hypothesis Hrep : fs_rep m g size im.

(** A memory that differs from [m] outside the image still has its inode
    count and data blocks. *)
Lemma rep_ninode m' b n :
  frame m m' b n -> separate m b n (bootMemAddr g) size ->
  numInodes g m' = Ok (Z.of_nat (length (im_files im)), m').
Proof.
  intros Hf Hs. destruct Hrep. apply ld32_word. eapply frame_word; [done| |done].
  intros i j c Hi Hj. rewrite <- Z.add_assoc, <- fr_base0. apply Hs; lia.
Qed.

Lemma rep_block i c blocks k b :
  im_files im !! i = Some c -> length blocks = 1023%nat ->
  (forall k b, blocks !! k = Some b -> Z.of_nat k * FILESYSTEM_BLOCKSIZE < Z.of_nat (length c) ->
     let a := FILESYSTEM_BLOCKSIZE * (Z.of_nat (length (im_files im)) + 1 + b) in
     0 <= b /\ a + FILESYSTEM_BLOCKSIZE <= size /\
     bytes_at m (bootMemAddr g + a)
       (file_slice c (Z.of_nat k * FILESYSTEM_BLOCKSIZE) FILESYSTEM_BLOCKSIZE)) ->
  blocks !! k = Some b ->
  forall o n, 0 <= o -> 0 <= n -> o + n <= FILESYSTEM_BLOCKSIZE ->
    Z.of_nat k * FILESYSTEM_BLOCKSIZE + o + n <= Z.of_nat (length c) -> 0 < n ->
    let a := bootMemAddr g + FILESYSTEM_BLOCKSIZE * (Z.of_nat (length (im_files im)) + 1 + b) + o in
    u32 a = a /\ bootMemAddr g <= a /\ a + n <= bootMemAddr g + size /\
    bytes_at m a (file_slice c (Z.of_nat k * FILESYSTEM_BLOCKSIZE + o) n).
Proof.
  intros Hc Hlen Hblocks Hb o n Ho Hn Hon Hend Hn0 a.
  destruct (Hblocks k b Hb ltac:(lia)) as (Hb0 & Hsz & Hbytes).
  destruct Hrep. unfold FILESYSTEM_BLOCKSIZE in *. split_and!; try lia.
  - apply u32_small. lia.
  - rewrite (file_slice_split _ _ _ o) in Hbytes by lia.
    apply bytes_at_app in Hbytes as [_ Hbytes].
    rewrite length_file_slice in Hbytes by lia.
    rewrite Z.min_l in Hbytes by lia.
    rewrite (file_slice_split _ _ _ n) in Hbytes by lia.
    by apply bytes_at_app in Hbytes as [Hbytes _].
Qed.

Section loop.
Context (c : list Z) (blocks : list Z) (i : nat) (buf offset L : Z).
Hypothesis Hc : im_files im !! i = Some c.
Hypothesis Hlen : length blocks = 1023%nat.
Hypothesis Hmax : Z.of_nat (length c) <= FILESYSTEM_BLOCKSIZE * NUM_DATABLOCKS_PER_INODE.
Hypothesis Hblocks :
  forall k b, blocks !! k = Some b -> Z.of_nat k * FILESYSTEM_BLOCKSIZE < Z.of_nat (length c) ->
   let a := FILESYSTEM_BLOCKSIZE * (Z.of_nat (length (im_files im)) + 1 + b) in
   0 <= b /\ a + FILESYSTEM_BLOCKSIZE <= size /\
   bytes_at m (bootMemAddr g + a)
     (file_slice c (Z.of_nat k * FILESYSTEM_BLOCKSIZE) FILESYSTEM_BLOCKSIZE).
Hypothesis HL : 0 <= offset /\ 0 <= L /\ offset + L <= Z.of_nat (length c).
Hypothesis Hbuf : mapped m buf L.
Hypothesis Hsep : separate m buf L (bootMemAddr g) size.

(** [k] bytes of the slice are in the buffer. *)
Local Definition partial (k : Z) : M := write_bytes m buf (file_slice c offset k).

Lemma partial_frame k : 0 <= k <= L -> frame m (partial k) buf L.
Proof.
  intros. apply (frame_weaken _ _ buf _ 0 k); [|lia|lia]. rewrite Z.add_0_r.
  replace k with (Z.of_nat (length (file_slice c offset k))) at 2;
    [apply write_bytes_frame|rewrite length_file_slice; lia].
Qed.

(** One iteration copies the rest of a block, or the rest of the request. *)
Lemma read_data_iter idx off k :
  0 <= k < L -> 0 <= off < FILESYSTEM_BLOCKSIZE -> idx * FILESYSTEM_BLOCKSIZE + off = offset + k ->
  let n := Z.min (FILESYSTEM_BLOCKSIZE - off) (L - k) in
  read_data_step g (Inode (Z.of_nat (length c)) blocks) buf L (idx, off, k) (partial k) =
  Ok (inl (idx + 1, 0, k + n), partial (k + n)).
Proof.
  intros Hk Hoff Hidx n. unfold FILESYSTEM_BLOCKSIZE, NUM_DATABLOCKS_PER_INODE in *.
  assert (0 <= idx < 1023) by lia.
  destruct (at_Some blocks idx) as [b Hb]; [lia|].
  pose proof Hb as Hb'. unfold at_ in Hb'. destruct (Z.leb_spec 0 idx); [|lia].
  destruct (rep_block i c blocks (Z.to_nat idx) b Hc Hlen Hblocks Hb' off n)
    as (Hu & Hlo & Hhi & Hbytes); unfold FILESYSTEM_BLOCKSIZE in *; [lia..|].
  rewrite Z2Nat.id in Hbytes by lia. rewrite Hidx in Hbytes.
  pose proof (partial_frame k ltac:(lia)) as Hf.
  simpl. destruct (Z.ltb_spec k L); [|lia].
  rewrite (bind_ok _ _ _ _ _ (rep_ninode _ _ _ Hf Hsep)), Hb. simpl.
  unfold FILESYSTEM_BLOCKSIZE. rewrite (bind_ok _ _ _ b _ eq_refl). fold n. rewrite Hu.
  set (src := bootMemAddr g + _ + off) in *.
  assert (separate m buf L src n) as Hsep'.
  { intros x y cc ? ?. replace (src + y) with (bootMemAddr g + (src - bootMemAddr g + y)) by lia.
    apply Hsep; lia. }
  assert (length (file_slice c (offset + k) n) = Z.to_nat n) as Hsl.
  { apply Nat2Z.inj. rewrite length_file_slice by lia. lia. }
  assert (bytes_at (partial k) src (file_slice c (offset + k) n)) as Hsrc.
  { eapply frame_bytes_at; [exact Hf| |done]. rewrite Hsl, Z2Nat.id by lia. done. }
  erewrite bind_ok; [|apply memcpy_run].
  - unfold mret, ST_ret. do 2 f_equal. rewrite <- Hsl, (read_bytes_eq _ _ _ Hsrc). unfold partial.
    rewrite (file_slice_split c offset (k + n) k), write_bytes_app by lia.
    rewrite length_file_slice by lia. do 3 f_equal; [lia|]. f_equal. lia.
  - destruct Hrep. lia.
  - intros x ?. destruct (Hbuf (k + x)) as [cc Hcc]; [lia|]. exists cc.
    rewrite (proj1 Hf). by rewrite <- Z.add_assoc.
  - replace n with (Z.of_nat (length (file_slice c (offset + k) n))) by lia. by apply bytes_at_mapped.
  - intros x y cc ? ?. rewrite !(proj1 Hf), <- Z.add_assoc. apply Hsep'; lia.
Qed.

Lemma read_data_loop_run :
  loop (read_data_step g (Inode (Z.of_nat (length c)) blocks) buf L)
    (offset / FILESYSTEM_BLOCKSIZE, offset `mod` FILESYSTEM_BLOCKSIZE, 0) m =
  Ok (L, partial L).
Proof.
  pose proof (Z.div_mod offset FILESYSTEM_BLOCKSIZE ltac:(done)) as Hdm.
  pose proof (Z.mod_pos_bound offset FILESYSTEM_BLOCKSIZE ltac:(done)) as Hmod.
  assert (wp (loop (read_data_step g (Inode (Z.of_nat (length c)) blocks) buf L)
    (offset / FILESYSTEM_BLOCKSIZE, offset `mod` FILESYSTEM_BLOCKSIZE, 0))
    (fun k m' => k = L /\ m' = partial L) m) as Hwp.
  { apply (wp_loop _ (fun r m' => exists idx off k, r = (idx, off, k) /\ 0 <= k <= L /\
             0 <= off < FILESYSTEM_BLOCKSIZE /\
             (k < L -> idx * FILESYSTEM_BLOCKSIZE + off = offset + k) /\ m' = partial k)
             (fun r _ => L - snd r)).
    - intros _ _ (idx & off & k & -> & Hk & Hoff & Hidx & ->).
      destruct (decide (k = L)) as [->|].
      + unfold read_data_step. rewrite Z.ltb_irrefl. by apply wp_ret.
      + eapply wp_run; [apply read_data_iter; [lia|done|apply Hidx; lia]|].
        simpl. unfold FILESYSTEM_BLOCKSIZE in *. split; [|lia].
        eexists _, _, _. split_and!; [reflexivity|lia..|done].
    - eexists _, _, _. split_and!; [reflexivity|lia..| |]; [lia|done].
    - simpl. destruct Hrep. unfold FILESYSTEM_BLOCKSIZE, NUM_DATABLOCKS_PER_INODE in *. lia. }
  apply wp_inv in Hwp as (k & m' & -> & -> & ->). done.
Qed.
End loop.

(** read_data returns the slice of the file. *)
Lemma read_data_run inode c offset buf n :
  at_ (im_files im) inode = Some c -> 0 <= offset <= Z.of_nat (length c) ->
  buf <> 0 -> 0 <= n ->
  let out := file_slice c offset n in
  mapped m buf (Z.of_nat (length out)) ->
  separate m buf (Z.of_nat (length out)) (bootMemAddr g) size ->
  read_data g inode offset buf n m = Ok (Z.of_nat (length out), write_bytes m buf out).
Proof.
  intros Hat Ho Hb Hn out Hbuf Hsep. pose proof (at_inv _ _ _ Hat) as Hr.
  unfold at_ in Hat. destruct (Z.leb_spec 0 inode); [|lia].
  destruct Hrep as [? ? ? ? ? Hni ? Hfile].
  destruct (Hfile _ _ Hat) as (blocks & Hlen & Hmax & Hsz & [Hw Hws] & Hblocks).
  rewrite Z2Nat.id in * by lia. unfold read_data.
  destruct (Z.eqb_spec buf 0); [done|]. rewrite (bind_ok _ _ _ _ _ (ld32_word _ _ _ Hni)).
  destruct (Z.leb_spec (Z.of_nat (length (im_files im))) inode); [lia|].
  destruct (Z.ltb_spec inode 0); [lia|]. simpl. destruct (Z.ltb_spec n 0); [lia|].
  rewrite u32_small by (unfold FILESYSTEM_BLOCKSIZE in *; lia).
  rewrite (bind_ok _ _ _ _ _ (rd_inode_run _ _ _ _ Hw Hws Hlen)). simpl.
  destruct (Z.eqb_spec offset (Z.of_nat (length c))) as [->|].
  { subst out. unfold file_slice. rewrite Nat2Z.id, drop_all, take_nil. done. }
  destruct (Z.ltb_spec offset 0); [lia|]. destruct (Z.ltb_spec (Z.of_nat (length c)) offset); [lia|]. simpl.
  set (L := Z.min n _) in *.
  assert (Z.of_nat (length out) = L) as HL by (subst out L; rewrite length_file_slice; lia).
  assert (out = file_slice c offset L) as Hout.
  { subst out L. unfold file_slice. rewrite <- (firstn_all (drop (Z.to_nat offset) c)) at 1.
    rewrite take_take, length_drop. f_equal. lia. }
  rewrite HL in *.
  rewrite (bind_ok _ _ _ _ _ (read_data_loop_run c blocks (Z.to_nat inode) buf offset L
    Hat Hlen Hmax Hblocks ltac:(lia) Hbuf Hsep)).
  unfold partial. rewrite <- Hout. unfold mret, ST_ret. do 2 f_equal. apply s32_small.
  unfold FILESYSTEM_BLOCKSIZE, NUM_DATABLOCKS_PER_INODE in *. lia.
Qed.

(** The refusals. *)
Lemma read_data_no_inode inode offset buf n :
  0 <= inode -> at_ (im_files im) inode = None -> read_data g inode offset buf n m = Ok (ERROR_VAL, m).
Proof using H0 Hrep.
  intros Hi Hnone. pose proof Hrep as [? ? ? ? ? Hni ? _]. unfold read_data.
  destruct (Z.eqb_spec buf 0); [done|]. rewrite (bind_ok _ _ _ _ _ (ld32_word _ _ _ Hni)).
  destruct (Z.leb_spec (Z.of_nat (length (im_files im))) inode); [done|].
  destruct (at_Some (im_files im) inode) as [c Hc]; [lia|congruence].
Qed.

(** What is decided once the length of the file is read. *)
Lemma read_data_length inode c offset buf n :
  at_ (im_files im) inode = Some c -> buf <> 0 -> 0 <= n ->
  (offset = Z.of_nat (length c) -> read_data g inode offset buf n m = Ok (0, m)) /\
  (Z.of_nat (length c) < offset -> read_data g inode offset buf n m = Ok (ERROR_VAL, m)).
Proof using H0 Hrep.
  intros Hat Hb Hn. pose proof (at_inv _ _ _ Hat). pose proof Hrep as [? ? ? ? ? Hni ? Hfile]. unfold read_data.
  destruct (Z.eqb_spec buf 0); [done|]. rewrite (bind_ok _ _ _ _ _ (ld32_word _ _ _ Hni)).
  destruct (Z.leb_spec (Z.of_nat (length (im_files im))) inode); [lia|].
  destruct (Z.ltb_spec inode 0); [lia|]. destruct (Z.ltb_spec n 0); [lia|]. cbn [orb].
  unfold at_ in Hat. destruct (Z.leb_spec 0 inode); [|lia].
  destruct (Hfile _ _ Hat) as (blocks & Hlen & Hmax & Hsz & [Hw Hws] & _).
  rewrite Z2Nat.id in * by lia. unfold FILESYSTEM_BLOCKSIZE, NUM_DATABLOCKS_PER_INODE in *.
  rewrite u32_small by lia. rewrite (bind_ok _ _ _ _ _ (rd_inode_run _ _ _ _ Hw Hws Hlen)).
  cbn [length_]. split; intros Hlt.
  - by rewrite Hlt, Z.eqb_refl.
  - destruct (Z.eqb_spec offset (Z.of_nat (length c))); [lia|]. destruct (Z.ltb_spec offset 0); [lia|].
    destruct (Z.ltb_spec (Z.of_nat (length c)) offset); [done|lia].
Qed.

Lemma read_data_at_end inode c buf n :
  at_ (im_files im) inode = Some c -> buf <> 0 -> 0 <= n ->
  read_data g inode (Z.of_nat (length c)) buf n m = Ok (0, m).
Proof using H0 Hrep. intros Hat Hb Hn. by apply (read_data_length inode c). Qed.

Lemma read_data_beyond inode c offset buf n :
  at_ (im_files im) inode = Some c -> buf <> 0 -> 0 <= n -> Z.of_nat (length c) < offset ->
  read_data g inode offset buf n m = Ok (ERROR_VAL, m).
Proof using H0 Hrep. intros Hat Hb Hn Hlt. by apply (read_data_length inode c). Qed.
End read_data_proof.


(** ** Memories that agree on the image *)

Section transfer.
Context {M N : Type} `{ByteMem M} `{ByteMem N}.
Context (m : M) (m' : N) (g : fs_globals) (size : Z) (im : fs_image).
Hypothesis Hload : forall a, bootMemAddr g <= a < bootMemAddr g + size -> load m' a = load m a.

Lemma image_bytes a l :
  bootMemAddr g <= a -> a + Z.of_nat (length l) <= bootMemAddr g + size ->
  bytes_at m a l -> bytes_at m' a l.
Proof using Hload.
  intros ? ? Hb i v Hi. pose proof (lookup_lt_Some _ _ _ Hi). rewrite Hload by lia. by apply Hb.
Qed.

Lemma image_word a v :
  bootMemAddr g <= a -> a + 4 <= bootMemAddr g + size -> word_at m a v -> word_at m' a v.
Proof using Hload. intros ? ? [Hb Hv]. split; [|done]. apply image_bytes; [done|simpl; lia|done]. Qed.

Lemma image_words a l :
  bootMemAddr g <= a -> a + 4 * Z.of_nat (length l) <= bootMemAddr g + size ->
  words_at m a l -> words_at m' a l.
Proof using Hload.
  intros Ha Hl Hw i v Hi. pose proof (lookup_lt_Some _ _ _ Hi). apply image_word; [lia|lia|by apply Hw].
Qed.

Lemma image_dentry a d :
  bootMemAddr g <= a -> a + 64 <= bootMemAddr g + size -> dentry_at m a d -> dentry_at m' a d.
Proof using Hload.
  intros ? ? []. split; try done.
  - apply image_bytes; [done|lia|done].
  - apply image_word; [lia|lia|done].
  - apply image_word; [lia|lia|done].
  - apply image_words; [lia|lia|done].
Qed.

Lemma fs_rep_transfer : fs_rep m g size im -> fs_rep m' g size im.
Proof using Hload.
  intros Hrep. destruct Hrep as [Hbase Hbounds Hhdr Hnd Hndm Hni Hdir Hfile].
  split; try done.
  - rewrite <- Hbase. apply image_word; [lia|lia|by rewrite Hbase].
  - rewrite <- Hbase. apply image_word; [lia|lia|by rewrite Hbase].
  - intros i d Hi. pose proof (lookup_lt_Some _ _ _ Hi). unfold fileDirectory, MAX_NUM_DIRECTORY_ENTRIES in *.
    rewrite <- Hbase. apply image_dentry; [lia|lia|]. rewrite Hbase. by apply Hdir.
  - intros i c Hi. destruct (Hfile i c Hi) as (blocks & Hlen & Hmax & Hsz & [Hw Hws] & Hbl).
    exists blocks. unfold FILESYSTEM_BLOCKSIZE in *. split_and!; try done.
    + apply image_word; [lia|lia|done].
    + apply image_words; [lia|lia|done].
    + intros k blk Hk Hin. destruct (Hbl k blk Hk Hin) as (Hpos & Hend & Hb).
      split_and!; [done|done|]. apply image_bytes; [lia| |done].
      rewrite length_file_slice by lia. lia.
Qed.
End transfer.

(** The image survives writes elsewhere. *)
Lemma fs_rep_frame {M} `{ByteMemLaws M} (m m' : M) g size im b n :
  fs_rep m g size im -> frame m m' b n -> separate m b n (bootMemAddr g) size -> fs_rep m' g size im.
Proof.
  intros Hrep Hf Hsep. apply (fs_rep_transfer m); [|done]. intros a Ha.
  apply (frame_load m m' b n); [done|]. intros i c Hi Hc.
  replace a with (bootMemAddr g + (a - bootMemAddr g)) by lia. by apply (Hsep i); [|lia|].
Qed.

(** ** Directory lookup *)

Section directory.
Context {M : Type} `{ByteMemLaws M}.
Context (m : M) (g : fs_globals) (size : Z) (im : fs_image).
Hypothesis Hrep : fs_rep m g size im.

Lemma numDirectories_run : numDirectories g m = Ok (Z.of_nat (length (im_dir im)), m).
Proof using H0 Hrep. apply ld32_word, Hrep. Qed.

Lemma entry_run i d : im_dir im !! i = Some d -> rd_dentry (fileDirectory g (Z.of_nat i)) m = Ok (d, m).
Proof using H0 Hrep. intros Hi. by apply rd_dentry_run, Hrep. Qed.

(** An entry matches when the first 32 characters of the names agree. *)
Definition matches (name : list Z) (d : dentry_t) : Prop :=
  take 32 (cstr name) = take 32 (cstr (fileName d)).

#[export] Instance matches_dec name d : Decision (matches name d).
Proof. unfold matches. apply _. Defined.

Lemma strncmp_entry fname name i d :
  bytes_at m fname name -> covers name 32 -> im_dir im !! i = Some d ->
  exists r, strncmp fname (fileDirectory g (Z.of_nat i)) MAX_FILENAME_LENGTH m = Ok (r, m) /\
    (r = 0 <-> matches name d).
Proof using H0 Hrep.
  intros Hn Hc Hi. destruct (fr_dir _ _ _ _ Hrep i d Hi) as [Hb Hl _ _ _ _].
  eexists. split.
  - unfold MAX_FILENAME_LENGTH. change 32 with (Z.of_nat 32).
    apply strncmp_run; [exact Hn|exact Hb|done|right; lia].
  - apply compare_bytes_0; [done|right; lia| |];
      intros v [k Hk]%list_elem_of_lookup_1; eapply load_range; eauto.
Qed.

(** The search from entry [i] on. *)
Lemma by_name_loop fname name :
  bytes_at m fname name -> covers name 32 ->
  loop (read_dentry_by_name_step g fname) 0 m =
  Ok (match dir_find name (im_dir im) with Some d => (0, Some d) | None => (ERROR_VAL, None) end, m).
Proof using H0 Hrep.
  intros Hn Hc.
  assert (wp (loop (read_dentry_by_name_step g fname) 0) (fun r m' => m' = m /\
    r = match dir_find name (im_dir im) with Some d => (0, Some d) | None => (ERROR_VAL, None) end) m) as Hwp.
  { apply (wp_loop _ (fun k m' => m' = m /\ exists i, k = Z.of_nat i /\ (i <= length (im_dir im))%nat /\
              forall j d, (j < i)%nat -> im_dir im !! j = Some d -> ~ matches name d)
              (fun k _ => Z.of_nat (length (im_dir im)) - k)).
    - intros _ m' (-> & i & -> & Hi & Hbefore). unfold read_dentry_by_name_step.
      apply wp_bind. eapply wp_run; [apply numDirectories_run|].
      destruct (Z.ltb_spec (Z.of_nat i) (Z.of_nat (length (im_dir im)))).
      + destruct (lookup_lt_is_Some_2 (im_dir im) i ltac:(lia)) as [d Hd].
        destruct (strncmp_entry fname name i d Hn Hc Hd) as (r & Hrun & Hr).
        apply wp_bind. eapply wp_run; [exact Hrun|].
        destruct (Z.eqb_spec r 0) as [E|E].
        * apply wp_bind. eapply wp_run; [by apply entry_run|]. apply wp_ret. split; [done|].
          unfold dir_find. rewrite (proj2 (list_find_Some _ _ i d)); [done|].
          split_and!; [done|by apply Hr|]. intros j y Hj Hlt. by apply (Hbefore j).
        * apply wp_ret. split; [|lia]. split; [done|]. exists (S i). split_and!; [lia|lia|].
          intros j d' Hj Hd'. destruct (decide (j = i)) as [->|]; [|apply (Hbefore j); [lia|done]].
          replace d' with d by congruence. by rewrite <- Hr.
      + apply wp_ret. split; [done|]. unfold dir_find.
        rewrite (proj2 (list_find_None _ _)); [done|]. apply Forall_lookup. intros j d Hd.
        apply (Hbefore j); [|done]. pose proof (lookup_lt_Some _ _ _ Hd). lia.
    - split; [done|]. exists 0%nat. split_and!; [done|lia|lia].
    - destruct Hrep. unfold MAX_NUM_DIRECTORY_ENTRIES in *. lia. }
  apply wp_inv in Hwp as (r & m' & -> & -> & ->). done.
Qed.

Lemma read_dentry_by_index_run index :
  0 <= index ->
  read_dentry_by_index g index false m =
  Ok (match at_ (im_dir im) index with Some d => (0, Some d) | None => (ERROR_VAL, None) end, m).
Proof using H0 Hrep.
  intros Hi. unfold read_dentry_by_index. rewrite (bind_ok _ _ _ _ _ numDirectories_run).
  destruct (Z.leb_spec (Z.of_nat (length (im_dir im))) index).
  { rewrite at_None by lia. done. }
  destruct (Z.ltb_spec index 0); [lia|]. simpl.
  destruct (at_Some (im_dir im) index) as [d Hd]; [lia|]. rewrite Hd.
  unfold at_ in Hd. destruct (Z.leb_spec 0 index); [|lia].
  pose proof (entry_run _ _ Hd) as He. rewrite Z2Nat.id in He by lia.
  by rewrite (bind_ok _ _ _ _ _ He).
Qed.
End directory.


(** ** A concrete image

    One regular file named hi with two characters, at 0x10000. *)

Definition hi_dentry : dentry_t := Dentry ([104; 105] ++ replicate 30 0) 2 0 (replicate 6 0).

Definition hi_image : fs_image := FsImage [hi_dentry] [[72; 105]].

Definition hi_globals : fs_globals := fileSysInit 0x10000.

Definition hi_memory : flat :=
  list_to_map [(0x10000, 1); (0x10004, 1); (0x10040, 104); (0x10041, 105); (0x10060, 2);
               (0x11000, 2); (0x12000, 72); (0x12001, 105)].

Lemma flat_bytes (m : flat) a l : read_bytes m a (length l) = l -> bytes_at m a l.
Proof.
  intros Hl i v Hi. pose proof (lookup_lt_Some _ _ _ Hi). rewrite <- Hl in Hi.
  rewrite read_bytes_lookup in Hi by done. injection Hi as <-. reflexivity.
Qed.

Lemma flat_words (m : flat) a n :
  forallb (fun i => bool_decide (read_bytes m (a + 4 * Z.of_nat i) 4 = le32 0)) (seq 0 n) = true ->
  words_at m a (replicate n 0).
Proof.
  intros Hall i v [-> Hi]%lookup_replicate. split; [|lia]. apply flat_bytes.
  rewrite forallb_forall in Hall. eapply bool_decide_eq_true_1, Hall, in_seq. lia.
Qed.

Lemma hi_rep : fs_rep hi_memory hi_globals 0x3000 hi_image.
Proof.
  split; try done; try (simpl; lia).
  - split; [apply flat_bytes; vm_compute; reflexivity|simpl; lia].
  - split; [apply flat_bytes; vm_compute; reflexivity|simpl; lia].
  - intros [|i] d Hd; [|done]. injection Hd as <-.
    split; try done; try (apply flat_bytes; vm_compute; reflexivity).
    + split; [apply flat_bytes; vm_compute; reflexivity|simpl; lia].
    + split; [apply flat_bytes; vm_compute; reflexivity|simpl; lia].
    + apply flat_words. vm_compute. reflexivity.
  - intros [|i] c Hc; [|done]. injection Hc as <-. exists (replicate 1023 0).
    split_and!; [done|done|done| |].
    + split; [split; [apply flat_bytes; vm_compute; reflexivity|simpl; lia]|].
      apply flat_words. vm_compute. reflexivity.
    + intros k b [-> Hk]%lookup_replicate Hlt. unfold FILESYSTEM_BLOCKSIZE in *. simpl in Hlt.
      assert (k = 0%nat) as -> by lia. split_and!; [lia|simpl; lia|].
      apply flat_bytes. vm_compute. reflexivity.
Qed.

(** ** Properties *)

(** C21: read_data implements the specified slice of the file: from any offset
    inside the file it returns the number of bytes up to the length asked for or
    the end of the file, stores exactly those bytes of the contents, block by
    block, and changes neither the file system nor memory outside the buffer. *)
Theorem read_data_refines_slice {M} `{ByteMemLaws M} (m : M) g size im inode c offset buf n :
  fs_rep m g size im -> at_ (im_files im) inode = Some c -> 0 <= offset <= Z.of_nat (length c) ->
  (forall v, v ∈ c -> 0 <= v < 256) -> buf <> 0 -> 0 <= n ->
  let out := file_slice c offset n in
  mapped m buf (Z.of_nat (length out)) -> injective m buf (Z.of_nat (length out)) ->
  separate m buf (Z.of_nat (length out)) (bootMemAddr g) size ->
  exists m', read_data g inode offset buf n m = Ok (Z.of_nat (length out), m') /\
    bytes_at m' buf out /\ frame m m' buf (Z.of_nat (length out)) /\ fs_rep m' g size im.
Proof.
  intros Hrep Hat Ho Hc Hb Hn out Hmap Hinj Hsep. eexists. split; [by eapply read_data_run|].
  pose proof (write_bytes_frame m buf out) as Hf. split_and!; [|exact Hf|by eapply fs_rep_frame].
  apply bytes_at_write; [done..|]. intros i v Hi. apply Hc.
  unfold out, file_slice in Hi. apply lookup_take_Some in Hi as [Hi _].
  rewrite lookup_drop in Hi. by eapply list_elem_of_lookup_2.
Qed.

Lemma read_data_refines_slice_witness :
  exists m', read_data hi_globals 0 1 0x20000 10 hi_memory = Ok (1, m') /\
    bytes_at m' 0x20000 [105] /\ frame hi_memory m' 0x20000 1 /\ fs_rep m' hi_globals 0x3000 hi_image.
Proof.
  apply (read_data_refines_slice hi_memory hi_globals 0x3000 hi_image 0 [72; 105] 1 0x20000 10).
  - apply hi_rep.
  - reflexivity.
  - simpl. lia.
  - set_unfold. lia.
  - done.
  - lia.
  - apply flat_mapped.
  - apply flat_injective.
  - apply flat_separate. simpl. lia.
Defined.

(** [read_data] refuses a null buffer, an inode number outside the table and an
    offset beyond the end of the file with -1, and returns 0 at the end of the
    file; memory is unchanged in each case. *)
Theorem read_data_errors {M} `{ByteMemLaws M} (m : M) g size im inode offset buf n :
  fs_rep m g size im -> 0 <= inode -> 0 <= offset -> 0 <= n ->
  (buf = 0 \/ at_ (im_files im) inode = None -> read_data g inode offset buf n m = Ok (ERROR_VAL, m)) /\
  (forall c, buf <> 0 -> at_ (im_files im) inode = Some c ->
    (Z.of_nat (length c) < offset -> read_data g inode offset buf n m = Ok (ERROR_VAL, m)) /\
    (offset = Z.of_nat (length c) -> read_data g inode offset buf n m = Ok (0, m))).
Proof.
  intros Hrep Hi Ho Hn. split.
  - intros [->|Hnone]; [done|]. by eapply read_data_no_inode.
  - intros c Hb Hat. split; intros Hlt; [by eapply read_data_beyond|].
    subst offset. by eapply read_data_at_end.
Qed.

Lemma read_data_errors_witness :
  read_data hi_globals 7 0 0x20000 10 hi_memory = Ok (ERROR_VAL, hi_memory) /\
  read_data hi_globals 0 3 0x20000 10 hi_memory = Ok (ERROR_VAL, hi_memory) /\
  read_data hi_globals 0 2 0x20000 10 hi_memory = Ok (0, hi_memory).
Proof.
  split_and!.
  - apply (read_data_errors hi_memory hi_globals 0x3000 hi_image 7 0 0x20000 10 hi_rep); [lia..|by right].
  - apply (proj2 (read_data_errors hi_memory hi_globals 0x3000 hi_image 0 3 0x20000 10 hi_rep
      ltac:(lia) ltac:(lia) ltac:(lia)) [72; 105]); [done|done|simpl; lia].
  - apply (proj2 (read_data_errors hi_memory hi_globals 0x3000 hi_image 0 2 0x20000 10 hi_rep
      ltac:(lia) ltac:(lia) ltac:(lia)) [72; 105]); [done|done|simpl; lia].
Defined.

(** [read_dentry_by_name] returns the first directory entry whose name agrees
    with the argument on its first 32 characters, and -1 when there is none or
    when the result pointer is null. *)
Theorem read_dentry_by_name_finds_first {M} `{ByteMemLaws M} (m : M) g size im fname name :
  fs_rep m g size im -> bytes_at m fname name -> covers name 32 ->
  read_dentry_by_name g fname true m = Ok ((ERROR_VAL, None), m) /\
  match dir_find name (im_dir im) with
  | Some d => read_dentry_by_name g fname false m = Ok ((0, Some d), m) /\ d ∈ im_dir im /\ matches name d
  | None => read_dentry_by_name g fname false m = Ok ((ERROR_VAL, None), m) /\
      forall d, d ∈ im_dir im -> ~ matches name d
  end.
Proof.
  intros Hrep Hn Hc. split; [done|]. pose proof (by_name_loop m g size im Hrep fname name Hn Hc) as Hrun.
  unfold dir_find in *. destruct (list_find _ _) as [[i d]|] eqn:E; simpl in *.
  - apply list_find_Some in E as (Hi & Hm & _). split_and!; [exact Hrun|by eapply list_elem_of_lookup_2|exact Hm].
  - apply list_find_None in E. split; [exact Hrun|]. intros d Hd.
    by apply (proj1 (Forall_forall _ _) E), list_elem_of_In.
Qed.

Lemma read_dentry_by_name_finds_first_witness :
  read_dentry_by_name hi_globals 0x10040 false hi_memory = Ok ((0, Some hi_dentry), hi_memory).
Proof.
  pose proof (proj2 (read_dentry_by_name_finds_first hi_memory hi_globals 0x3000 hi_image 0x10040
    (fileName hi_dentry) hi_rep (flat_bytes _ _ _ eq_refl) (or_intror (le_n 32)))) as Hfind.
  exact (proj1 Hfind).
Defined.
