(* ===== verification/Copies.v ===== *)
(** * What the copying routines may write

    A run of a routine that is given a buffer changes the cells of the buffer only,
    whatever the memory and the file system hold: the rules of this file give that
    from the routine's text, without a functional description of what it copies.
    They serve the calls of user programs in file System, where nothing is known of
    the data, and only the buffers are constrained. *)

From S2P Require Import Prelude Memory Lib Filesystem.

Section copies.
Context {M : Type} `{ByteMem M} `{!ByteMemLaws M}.
Implicit Types (m : M).

(** Every run of [c] writes within the [n] bytes from [a], and ends with a value
    of which [Q] holds. *)
Definition writes (a n : Z) {A} (c : ST M A) (Q : A -> Prop) : Prop :=
  forall m v m', c m = Ok (v, m') -> frame m m' a n /\ Q v.

Section rules.
Context (a n : Z).

Lemma writes_ret {A} (v : A) (Q : A -> Prop) : Q v -> writes a n (mret v) Q.
Proof. intros HQ m w m' [= <- <-]. by split. Qed.

Lemma writes_fail {A} f (Q : A -> Prop) : writes a n (fail f) Q.
Proof. by intros m w m' E. Qed.

Lemma writes_bind {A B} (c : ST M A) (k : A -> ST M B) P Q :
  writes a n c P -> (forall v, P v -> writes a n (k v) Q) -> writes a n (c ≫= k) Q.
Proof.
  intros Hc Hk m w m'' E. apply bind_inv in E as (v & m' & E1 & E2).
  destruct (Hc _ _ _ E1) as [H1 HP]. destruct (Hk _ HP _ _ _ E2) as [H2 HQ].
  split; [by eapply frame_trans|done].
Qed.

Lemma writes_weaken {A} (c : ST M A) (P Q : A -> Prop) : writes a n c P -> (forall v, P v -> Q v) -> writes a n c Q.
Proof. intros Hc HPQ m v m' E. destruct (Hc _ _ _ E). auto. Qed.

Lemma writes_of_option {A} f (o : option A) : writes a n (of_option f o) (fun _ => True).
Proof. destruct o; [by apply writes_ret|apply writes_fail]. Qed.

Lemma writes_ld8 x : writes a n (ld8 x) (fun _ => True).
Proof. intros m v m' E. unfold ld8 in E. destruct (cell m x); [|done]. injection E as _ <-. done. Qed.

Lemma writes_ld32 x : writes a n (ld32 x) (fun _ => True).
Proof. unfold ld32. repeat (eapply writes_bind; [apply writes_ld8|intros ? _]). by apply writes_ret. Qed.

Lemma writes_st8 x v : a <= x < a + n -> writes a n (st8 x v) (fun _ => True).
Proof.
  intros Hx m [] m' E. unfold st8 in E. destruct (cell m x) as [c|] eqn:Hc; [|done]. injection E as <-.
  split; [|done]. apply (frame_weaken m _ a n (x - a) 1); [|lia..].
  replace (a + (x - a)) with x by lia. by apply poke_frame.
Qed.

Lemma writes_st32 x v : a <= x -> x + 4 <= a + n -> writes a n (st32 x v) (fun _ => True).
Proof. intros H1 H2. unfold st32. repeat (eapply writes_bind; [apply writes_st8; lia|intros ? _]). apply writes_st8. lia. Qed.

Lemma writes_loop {X R} (I : X -> Prop) (step : X -> ST M (X + R)) x (Q : R -> Prop) :
  (forall x, I x -> writes a n (step x) (fun r => match r with inl x' => I x' | inr v => Q v end)) ->
  I x -> writes a n (loop step x) Q.
Proof.
  intros Hs HI. unfold loop.
  eapply (writes_bind _ _ (fun r => match r with inl x' => I x' | inr v => Q v end));
    [|intros [?|?] HQ; [apply writes_fail|by apply writes_ret]].
  revert x HI. generalize LOOP_BOUND. intros p. induction p as [q IH|q IH|]; intros x HI; cbn [loop_n]; [| |by apply Hs].
  - eapply writes_bind; [by apply Hs|]. intros [x1|v1] H1; [|by apply writes_ret].
    eapply writes_bind; [by apply IH|]. intros [x2|v2] H2; [by apply IH|by apply writes_ret].
  - eapply writes_bind; [by apply IH|]. intros [x1|v1] H1; [by apply IH|by apply writes_ret].
Qed.

(** *** Copies *)

Lemma writes_rep_movsl k s d :
  a <= d -> d + 4 * Z.of_nat k <= a + n -> writes a n (rep_movsl k s d) (fun r => snd r = d + 4 * Z.of_nat k).
Proof.
  revert s d. induction k as [|k IH]; intros s d H1 H2; cbn [rep_movsl]; [apply writes_ret; simpl; lia|].
  eapply writes_bind; [apply writes_ld32|intros v _]. eapply writes_bind; [apply writes_st32; lia|intros _ _].
  eapply writes_weaken; [apply IH; lia|]. intros r ->. lia.
Qed.

Lemma writes_memcpy d s k : 0 <= k < 2 ^ 32 -> a <= d -> d + k <= a + n -> writes a n (memcpy d s k) (fun _ => True).
Proof.
  intros Hk H1 H2. unfold memcpy. rewrite u32_small by done.
  eapply (writes_bind _ _ (fun r : Z * Z * Z => let '(_, edi, ecx) := r in a <= edi /\ edi + ecx <= a + n /\ 0 <= ecx)).
  { apply (writes_loop (fun r : Z * Z * Z => let '(_, edi, ecx) := r in a <= edi /\ edi + ecx <= a + n /\ 0 <= ecx)); [|lia].
    intros [[esi edi] ecx] HI. unfold memcpy_top. destruct (Z.eqb_spec ecx 0); [by apply writes_ret|].
    destruct (_ =? 0); [by apply writes_ret|]. eapply writes_bind; [apply writes_ld8|intros al _].
    eapply writes_bind; [apply writes_st8; lia|intros _ _]. apply writes_ret. lia. }
  intros [[esi edi] ecx] (Hd & Hle & Hc). destruct (ecx =? 0); [by apply writes_ret|].
  pose proof (Z.land_ones ecx 2 ltac:(lia)) as Hm. change (Z.ones 2) with 3 in Hm. change (2 ^ 2) with 4 in Hm.
  pose proof (Z.shiftr_div_pow2 ecx 2 ltac:(lia)) as Hq. change (2 ^ 2) with 4 in Hq. cbv zeta. rewrite Hm, Hq.
  assert (Z.of_nat (Z.to_nat (ecx / 4)) = ecx / 4) as Hn by (apply Z2Nat.id, Z.div_pos; lia).
  pose proof (Z.div_mod ecx 4 ltac:(lia)). pose proof (Z.mod_pos_bound ecx 4 ltac:(lia)).
  eapply writes_bind; [apply writes_rep_movsl; lia|]. intros [esi' edi'] Hr. cbn [snd] in Hr.
  eapply (writes_bind _ _ (fun _ => True)); [|by intros _ _; apply writes_ret].
  apply (writes_loop (fun r : Z * Z * Z => let '(_, edi, edx) := r in a <= edi /\ edi + edx <= a + n /\ 0 <= edx)); [|lia].
  intros [[si di] dx] HI. unfold memcpy_bottom. destruct (Z.eqb_spec dx 0); [by apply writes_ret|].
  eapply writes_bind; [apply writes_ld8|intros al _].
  eapply writes_bind; [apply writes_st8; lia|intros _ _]. apply writes_ret. lia.
Qed.

Lemma writes_strncpy d s k : a <= d -> d + k <= a + n -> writes a n (strncpy d s k) (fun _ => True).
Proof.
  intros H1 H2. unfold strncpy. eapply (writes_bind _ _ (fun i => 0 <= i)).
  { apply (writes_loop (fun i => 0 <= i)); [|done]. intros i Hi. unfold strncpy_step.
    eapply writes_bind; [apply writes_ld8|intros c _].
    destruct (negb (c =? 0)), (Z.ltb_spec i k); cbn [andb]; try by apply writes_ret.
    eapply writes_bind; [apply writes_st8; lia|intros _ _]. apply writes_ret. lia. }
  intros i0 Hi0. eapply (writes_bind _ _ (fun _ => True)); [|by intros _ _; apply writes_ret].
  apply (writes_loop (fun i => 0 <= i)); [|done]. intros i Hi. unfold strncpy_pad.
  destruct (Z.ltb_spec i k); [|by apply writes_ret].
  eapply writes_bind; [apply writes_st8; lia|intros _ _]. apply writes_ret. lia.
Qed.

Lemma writes_strcpyFile d rd_src k :
  a <= d -> d + k <= a + n -> (forall i, writes a n (rd_src i) (fun _ => True)) ->
  writes a n (strcpyFile d rd_src k) (fun _ => True).
Proof.
  intros H1 H2 Hsrc. apply (writes_loop (fun i => 0 <= i)); [|done]. intros i Hi. unfold strcpyFile_step.
  eapply writes_bind; [apply Hsrc|intros c _].
  destruct (negb (c =? 0)), (Z.ltb_spec i k); cbn [andb]; try by apply writes_ret.
  eapply writes_bind; [apply writes_st8; lia|intros _ _]. apply writes_ret. lia.
Qed.

(** *** The file system *)

Lemma writes_rd_bytes k x : writes a n (rd_bytes k x) (fun _ => True).
Proof.
  revert x. induction k as [|k IH]; intros x; cbn [rd_bytes]; [by apply writes_ret|].
  eapply writes_bind; [apply writes_ld8|intros v _]. eapply writes_bind; [apply IH|intros l _]. by apply writes_ret.
Qed.

Lemma writes_rd_words k x : writes a n (rd_words k x) (fun _ => True).
Proof.
  revert x. induction k as [|k IH]; intros x; cbn [rd_words]; [by apply writes_ret|].
  eapply writes_bind; [apply writes_ld32|intros v _]. eapply writes_bind; [apply IH|intros l _]. by apply writes_ret.
Qed.

Lemma writes_read_dentry_by_index g i b : writes a n (read_dentry_by_index g i b) (fun _ => True).
Proof.
  unfold read_dentry_by_index, numDirectories. destruct b; [by apply writes_ret|].
  eapply writes_bind; [apply writes_ld32|intros nd _]. destruct (_ || _); [by apply writes_ret|].
  eapply (writes_bind _ _ (fun _ => True)); [|by intros d _; apply writes_ret]. unfold rd_dentry.
  eapply writes_bind; [apply writes_rd_bytes|intros ? _].
  do 2 (eapply writes_bind; [apply writes_ld32|intros ? _]).
  eapply writes_bind; [apply writes_rd_words|intros ? _]. by apply writes_ret.
Qed.

Lemma writes_read_data g ino pos buf k :
  k < 2 ^ 32 -> a <= buf -> buf + k <= a + n -> writes a n (read_data g ino pos buf k) (fun _ => True).
Proof.
  intros Hk H1 H2. unfold read_data, numInodes. destruct (buf =? 0); [by apply writes_ret|].
  eapply writes_bind; [apply writes_ld32|intros ni _]. destruct (_ || _); [by apply writes_ret|].
  destruct (Z.ltb_spec k 0); [by apply writes_ret|].
  eapply (writes_bind _ _ (fun _ => True)).
  { unfold rd_inode. eapply writes_bind; [apply writes_ld32|intros len _].
    eapply writes_bind; [apply writes_rd_words|intros ? _]. by apply writes_ret. }
  intros inode _. destruct (Z.eqb_spec pos (length_ inode)); [by apply writes_ret|].
  destruct (Z.ltb_spec pos 0), (Z.ltb_spec (length_ inode) pos); cbn [orb]; try by apply writes_ret.
  set (len := Z.min k (length_ inode - pos)). assert (0 <= len <= k) as Hlen by lia.
  eapply (writes_bind _ _ (fun _ => True)); [|by intros r _; apply writes_ret].
  apply (writes_loop (fun r : Z * Z * Z => let '(_, off, copied) := r in 0 <= off < 4096 /\ 0 <= copied)).
  - intros [[i off] copied] [Hoff Hcop]. unfold read_data_step, numInodes.
    destruct (Z.ltb_spec copied len); [|by apply writes_ret].
    eapply writes_bind; [apply writes_ld32|intros ni' _]. eapply writes_bind; [apply writes_of_option|intros block _].
    cbv zeta. unfold FILESYSTEM_BLOCKSIZE in *.
    eapply writes_bind; [apply writes_memcpy; lia|intros ? _]. apply writes_ret. lia.
  - split; [apply Z.mod_pos_bound; done|lia].
Qed.
End rules.
End copies.
