(* ===== verification/Machine.v ===== *)
(** * The machine: global variables of the kernel, and the hardware it drives

    The data structures of lib.h, paging.h and systemcall.h, the global
    variables of the kernel as lenses on one state record, the address
    translation through the page tables, and the port instructions.  Every
    handler of the kernel is a [K] computation: it changes this state or fails. *)

From S2P Require Import Prelude Memory Lib Filesystem.

(** ** Constants *)

Definition VIDEO : Z := 0xB8000.
Definition NUM_TERMINALS : Z := 3.
Definition MAX_PROCESSES : Z := 6.
Definition FOUR_KB : Z := 0x1000.
Definition MAX_NUM_FDT_ENTRIES : Z := 8.
Definition ARG_SIZE : Z := 128.
Definition NUM_THREADS : Z := 3.
Definition EIGHT_MB : Z := 0x800000.
Definition FOUR_MB : Z := 0x400000.
Definition EIGHT_KB : Z := 0x2000.
Definition PDE_PTE_ADDRESS_SHIFT : Z := 12.

(** ** Structures *)

(** The bit fields of a page directory entry. *)
Record pde_desc_t := Pde {
  pde_present : Z;
  pde_read_write_permissions : Z;
  pde_user_supervisor : Z;
  pde_write_through : Z;
  pde_cache_disable : Z;
  pde_accessed : Z;
  pde_reserved_2 : Z;
  pde_page_size : Z;
  pde_reserved_1 : Z;
  pde_open_bits : Z;
  pde_page_table_address : Z
}.

(** The bit fields of a page table entry. *)
Record pte_desc_t := Pte {
  pte_pt_present : Z;
  pte_pt_read_write_permissions : Z;
  pte_pt_user_supervisor : Z;
  pte_pt_write_through : Z;
  pte_pt_cache_disable : Z;
  pte_pt_accessed : Z;
  pte_pt_dirty : Z;
  pte_pt_reserved_1 : Z;
  pte_pt_global : Z;
  pte_pt_open_bits : Z;
  pte_physical_address : Z
}.

(** A [fops_table_t*]: NULL or one of the five tables. *)
Inductive fops_ptr :=
| FOPS_NULL | STDIN_FOPS | STDOUT_FOPS | REGFILE_FOPS | DIRECTORY_FOPS | RTC_FOPS.

(** The functions a table can point to. *)
Inductive open_fn := OPEN_NULL | OPEN_terminal | OPEN_file | OPEN_directory | OPEN_RTC.
Inductive close_fn := CLOSE_NULL | CLOSE_terminal | CLOSE_file | CLOSE_directory | CLOSE_RTC.
Inductive read_fn := READ_NULL | READ_terminal | READ_dummy | READ_file | READ_directory | READ_RTC.
Inductive write_fn := WRITE_NULL | WRITE_terminal | WRITE_dummy | WRITE_file | WRITE_directory | WRITE_RTC.

Record fops_table_t := FopsTable {
  ft_open : open_fn; ft_close : close_fn; ft_read : read_fn; ft_write : write_fn
}.

#[export] Instance fops_ptr_eq_dec : EqDecision fops_ptr.
Proof. solve_decision. Defined.

Record file_descriptor_entry_t := FdEntry {
  fd_fops : fops_ptr;
  fd_inodeNum_ : Z;
  fd_pos : Z;
  fd_flg : Z
}.

(** A process control block; its array [arg_ptr] is in memory, at
    [pcb_arg_ptr]. *)
Record PCB_t := Pcb {
  pcb_pid : Z;
  pcb_parent_pid : Z;
  pcb_pde : pde_desc_t;
  pcb_esp : Z;
  pcb_ebp : Z;
  pcb_exception_flag : Z;
  pcb_parent_terminal : Z;
  pcb_process_fdt : list file_descriptor_entry_t
}.

(** An entry of the IDT, and a segment descriptor of the GDT. *)
Record idt_desc_t := IdtDesc {
  d_idt_offset_15_00 : Z;
  d_idt_seg_selector : Z;
  d_idt_reserved4 : Z;
  d_idt_reserved3 : Z;
  d_idt_reserved2 : Z;
  d_idt_reserved1 : Z;
  d_idt_size : Z;
  d_idt_reserved0 : Z;
  d_idt_dpl : Z;
  d_idt_present : Z;
  d_idt_offset_31_16 : Z
}.

Record seg_desc_t := SegDesc {
  e_seg_lim_15_00 : Z;
  e_base_15_00 : Z;
  e_base_23_16 : Z;
  e_seg_type : Z;
  e_seg_sys : Z;
  e_seg_dpl : Z;
  e_seg_present : Z;
  e_seg_lim_19_16 : Z;
  e_seg_avail : Z;
  e_seg_reserved : Z;
  e_seg_opsize : Z;
  e_seg_granularity : Z;
  e_base_31_24 : Z
}.

(** The code and data whose link-time addresses the kernel stores in descriptors. *)
Inductive symbol :=
| SYM_eh (n : Z) | SYM_PITwrapper | SYM_KBhandler | SYM_RTChandler | SYM_syscall | SYM_ldt | SYM_tss.

(** Port accesses and TLB flushes, and the hardware interrupts. *)
Inductive io_event := Outb (port v : Z) | Inb (port v : Z) | FlushTLB.

Inductive irq := IrqKeyboard | IrqRTC.

#[export] Instance io_event_eq_dec : EqDecision io_event.
Proof. solve_decision. Defined.

(** ** The state *)

Record screen_t := Screen {
  s_screen_x : list Z;
  s_screen_y : list Z;
  s_currentTerminal : Z
}.

Record keyboard_t := Keyboard {
  k_KBbuf : list (list Z);
  k_buf_loc : list Z;
  k_capsFlag : Z;
  k_shiftFlagL : Z;
  k_shiftFlagR : Z;
  k_ctrlFlagL : Z;
  k_ctrlFlagR : Z;
  k_altFlagL : Z;
  k_altFlagR : Z;
  k_readWaiting : list Z;
  k_readReady : list Z
}.

(** [PCB_ptrs[i]] is NULL or [(PCB_t* )(EIGHT_MB - (j + 1) * EIGHT_KB)], represented
    by [j]; [pcbs] are the structures at these six addresses, which outlive their
    pointers.  [fdt] is NULL or the address of the [process_fdt] of structure [j]. *)
Record process_t := Process {
  p_PCB_ptrs : list (option Z);
  p_pcbs : list PCB_t;
  p_cur_pid : Z;
  p_fdt : option Z;
  p_eax_val : Z;
  p_fops_tables : list fops_table_t;
  p_tss_esp0 : Z
}.

Record scheduler_t := Scheduler {
  t_curThread : Z;
  t_shellStarted : list Z;
  t_ESPstore : list Z;
  t_EBPstore : list Z;
  t_PIDstore : list Z
}.

(** The paging structures and their link-time addresses, CR3, bit 4 of CR4 and
    bit 31 of CR0. *)
Record paging_t := Paging {
  g_page_directory : list pde_desc_t;
  g_kernel_page_table : list pte_desc_t;
  g_user_page_table : list pte_desc_t;
  g_kernel_page_table_addr : Z;
  g_page_directory_addr : Z;
  g_user_page_table_addr : Z;
  g_cr3 : Z;
  g_mixed_sizes : bool;
  g_paging_enabled : bool
}.

Record irq_state_t := IrqState {
  i_master_mask : Z;
  i_slave_mask : Z;
  i_RTC_read_flag : list Z
}.

(** The descriptor tables, the fields of the TSS that the kernel sets besides
    [esp0], the descriptor registers, and the link-time addresses. *)
Record descriptors_t := Descriptors {
  x_idt : list idt_desc_t;
  x_ldt_desc_ptr : seg_desc_t;
  x_tss_desc_ptr : seg_desc_t;
  x_tss_ss0 : Z;
  x_tss_ldt_segment_selector : Z;
  x_idtr_loaded : bool;
  x_ldtr : Z;
  x_task_register : Z;
  x_sym_addr : symbol -> Z
}.

(** The history of port accesses (latest first); the devices, as the value that
    a read of a port returns after a history; the interrupts that arrive while
    the kernel busy-waits; the interrupt flag; the stack registers. *)
Record hardware_t := Hardware {
  h_trace : list io_event;
  h_device : list io_event -> Z -> Z;
  h_pending : list irq;
  h_eflags_if : bool;
  h_cpu_esp : Z;
  h_cpu_ebp : Z
}.

(** The whole state; [mem] is the physical memory. *)
Record machine := Machine {
  m_mem : flat;
  m_fs_ptrs : fs_globals;
  m_scr : screen_t;
  m_kbd : keyboard_t;
  m_prc : process_t;
  m_sch : scheduler_t;
  m_pag : paging_t;
  m_irqc : irq_state_t;
  m_dsc : descriptors_t;
  m_hw : hardware_t
}.

(** ** Variables *)

Definition present : lens pde_desc_t Z :=
  Lens pde_present
    (fun v r => Pde v (pde_read_write_permissions r) (pde_user_supervisor r)
    (pde_write_through r) (pde_cache_disable r) (pde_accessed r) (pde_reserved_2 r)
    (pde_page_size r) (pde_reserved_1 r) (pde_open_bits r) (pde_page_table_address r)).

Definition read_write_permissions : lens pde_desc_t Z :=
  Lens pde_read_write_permissions
    (fun v r => Pde (pde_present r) v (pde_user_supervisor r) (pde_write_through r)
    (pde_cache_disable r) (pde_accessed r) (pde_reserved_2 r) (pde_page_size r)
    (pde_reserved_1 r) (pde_open_bits r) (pde_page_table_address r)).

Definition user_supervisor : lens pde_desc_t Z :=
  Lens pde_user_supervisor
    (fun v r => Pde (pde_present r) (pde_read_write_permissions r) v (pde_write_through r)
    (pde_cache_disable r) (pde_accessed r) (pde_reserved_2 r) (pde_page_size r)
    (pde_reserved_1 r) (pde_open_bits r) (pde_page_table_address r)).

Definition write_through : lens pde_desc_t Z :=
  Lens pde_write_through
    (fun v r => Pde (pde_present r) (pde_read_write_permissions r) (pde_user_supervisor r) v
    (pde_cache_disable r) (pde_accessed r) (pde_reserved_2 r) (pde_page_size r)
    (pde_reserved_1 r) (pde_open_bits r) (pde_page_table_address r)).

Definition cache_disable : lens pde_desc_t Z :=
  Lens pde_cache_disable
    (fun v r => Pde (pde_present r) (pde_read_write_permissions r) (pde_user_supervisor r)
    (pde_write_through r) v (pde_accessed r) (pde_reserved_2 r) (pde_page_size r)
    (pde_reserved_1 r) (pde_open_bits r) (pde_page_table_address r)).

Definition accessed : lens pde_desc_t Z :=
  Lens pde_accessed
    (fun v r => Pde (pde_present r) (pde_read_write_permissions r) (pde_user_supervisor r)
    (pde_write_through r) (pde_cache_disable r) v (pde_reserved_2 r) (pde_page_size r)
    (pde_reserved_1 r) (pde_open_bits r) (pde_page_table_address r)).

Definition reserved_2 : lens pde_desc_t Z :=
  Lens pde_reserved_2
    (fun v r => Pde (pde_present r) (pde_read_write_permissions r) (pde_user_supervisor r)
    (pde_write_through r) (pde_cache_disable r) (pde_accessed r) v (pde_page_size r)
    (pde_reserved_1 r) (pde_open_bits r) (pde_page_table_address r)).

Definition page_size : lens pde_desc_t Z :=
  Lens pde_page_size
    (fun v r => Pde (pde_present r) (pde_read_write_permissions r) (pde_user_supervisor r)
    (pde_write_through r) (pde_cache_disable r) (pde_accessed r) (pde_reserved_2 r) v
    (pde_reserved_1 r) (pde_open_bits r) (pde_page_table_address r)).

Definition reserved_1 : lens pde_desc_t Z :=
  Lens pde_reserved_1
    (fun v r => Pde (pde_present r) (pde_read_write_permissions r) (pde_user_supervisor r)
    (pde_write_through r) (pde_cache_disable r) (pde_accessed r) (pde_reserved_2 r)
    (pde_page_size r) v (pde_open_bits r) (pde_page_table_address r)).

Definition open_bits : lens pde_desc_t Z :=
  Lens pde_open_bits
    (fun v r => Pde (pde_present r) (pde_read_write_permissions r) (pde_user_supervisor r)
    (pde_write_through r) (pde_cache_disable r) (pde_accessed r) (pde_reserved_2 r)
    (pde_page_size r) (pde_reserved_1 r) v (pde_page_table_address r)).

Definition page_table_address : lens pde_desc_t Z :=
  Lens pde_page_table_address
    (fun v r => Pde (pde_present r) (pde_read_write_permissions r) (pde_user_supervisor r)
    (pde_write_through r) (pde_cache_disable r) (pde_accessed r) (pde_reserved_2 r)
    (pde_page_size r) (pde_reserved_1 r) (pde_open_bits r) v).

Definition pt_present : lens pte_desc_t Z :=
  Lens pte_pt_present
    (fun v r => Pte v (pte_pt_read_write_permissions r) (pte_pt_user_supervisor r)
    (pte_pt_write_through r) (pte_pt_cache_disable r) (pte_pt_accessed r) (pte_pt_dirty r)
    (pte_pt_reserved_1 r) (pte_pt_global r) (pte_pt_open_bits r) (pte_physical_address r)).

Definition pt_read_write_permissions : lens pte_desc_t Z :=
  Lens pte_pt_read_write_permissions
    (fun v r => Pte (pte_pt_present r) v (pte_pt_user_supervisor r) (pte_pt_write_through r)
    (pte_pt_cache_disable r) (pte_pt_accessed r) (pte_pt_dirty r) (pte_pt_reserved_1 r)
    (pte_pt_global r) (pte_pt_open_bits r) (pte_physical_address r)).

Definition pt_user_supervisor : lens pte_desc_t Z :=
  Lens pte_pt_user_supervisor
    (fun v r => Pte (pte_pt_present r) (pte_pt_read_write_permissions r) v
    (pte_pt_write_through r) (pte_pt_cache_disable r) (pte_pt_accessed r) (pte_pt_dirty r)
    (pte_pt_reserved_1 r) (pte_pt_global r) (pte_pt_open_bits r) (pte_physical_address r)).

Definition pt_write_through : lens pte_desc_t Z :=
  Lens pte_pt_write_through
    (fun v r => Pte (pte_pt_present r) (pte_pt_read_write_permissions r)
    (pte_pt_user_supervisor r) v (pte_pt_cache_disable r) (pte_pt_accessed r) (pte_pt_dirty r)
    (pte_pt_reserved_1 r) (pte_pt_global r) (pte_pt_open_bits r) (pte_physical_address r)).

Definition pt_cache_disable : lens pte_desc_t Z :=
  Lens pte_pt_cache_disable
    (fun v r => Pte (pte_pt_present r) (pte_pt_read_write_permissions r)
    (pte_pt_user_supervisor r) (pte_pt_write_through r) v (pte_pt_accessed r) (pte_pt_dirty r)
    (pte_pt_reserved_1 r) (pte_pt_global r) (pte_pt_open_bits r) (pte_physical_address r)).

Definition pt_accessed : lens pte_desc_t Z :=
  Lens pte_pt_accessed
    (fun v r => Pte (pte_pt_present r) (pte_pt_read_write_permissions r)
    (pte_pt_user_supervisor r) (pte_pt_write_through r) (pte_pt_cache_disable r) v
    (pte_pt_dirty r) (pte_pt_reserved_1 r) (pte_pt_global r) (pte_pt_open_bits r)
    (pte_physical_address r)).

Definition pt_dirty : lens pte_desc_t Z :=
  Lens pte_pt_dirty
    (fun v r => Pte (pte_pt_present r) (pte_pt_read_write_permissions r)
    (pte_pt_user_supervisor r) (pte_pt_write_through r) (pte_pt_cache_disable r)
    (pte_pt_accessed r) v (pte_pt_reserved_1 r) (pte_pt_global r) (pte_pt_open_bits r)
    (pte_physical_address r)).

Definition pt_reserved_1 : lens pte_desc_t Z :=
  Lens pte_pt_reserved_1
    (fun v r => Pte (pte_pt_present r) (pte_pt_read_write_permissions r)
    (pte_pt_user_supervisor r) (pte_pt_write_through r) (pte_pt_cache_disable r)
    (pte_pt_accessed r) (pte_pt_dirty r) v (pte_pt_global r) (pte_pt_open_bits r)
    (pte_physical_address r)).

Definition pt_global : lens pte_desc_t Z :=
  Lens pte_pt_global
    (fun v r => Pte (pte_pt_present r) (pte_pt_read_write_permissions r)
    (pte_pt_user_supervisor r) (pte_pt_write_through r) (pte_pt_cache_disable r)
    (pte_pt_accessed r) (pte_pt_dirty r) (pte_pt_reserved_1 r) v (pte_pt_open_bits r)
    (pte_physical_address r)).

Definition pt_open_bits : lens pte_desc_t Z :=
  Lens pte_pt_open_bits
    (fun v r => Pte (pte_pt_present r) (pte_pt_read_write_permissions r)
    (pte_pt_user_supervisor r) (pte_pt_write_through r) (pte_pt_cache_disable r)
    (pte_pt_accessed r) (pte_pt_dirty r) (pte_pt_reserved_1 r) (pte_pt_global r) v
    (pte_physical_address r)).

Definition physical_address : lens pte_desc_t Z :=
  Lens pte_physical_address
    (fun v r => Pte (pte_pt_present r) (pte_pt_read_write_permissions r)
    (pte_pt_user_supervisor r) (pte_pt_write_through r) (pte_pt_cache_disable r)
    (pte_pt_accessed r) (pte_pt_dirty r) (pte_pt_reserved_1 r) (pte_pt_global r)
    (pte_pt_open_bits r) v).

Definition idt_offset_15_00 : lens idt_desc_t Z :=
  Lens d_idt_offset_15_00
    (fun v r => IdtDesc v (d_idt_seg_selector r) (d_idt_reserved4 r) (d_idt_reserved3 r)
    (d_idt_reserved2 r) (d_idt_reserved1 r) (d_idt_size r) (d_idt_reserved0 r) (d_idt_dpl r)
    (d_idt_present r) (d_idt_offset_31_16 r)).

Definition idt_seg_selector : lens idt_desc_t Z :=
  Lens d_idt_seg_selector
    (fun v r => IdtDesc (d_idt_offset_15_00 r) v (d_idt_reserved4 r) (d_idt_reserved3 r)
    (d_idt_reserved2 r) (d_idt_reserved1 r) (d_idt_size r) (d_idt_reserved0 r) (d_idt_dpl r)
    (d_idt_present r) (d_idt_offset_31_16 r)).

Definition idt_reserved4 : lens idt_desc_t Z :=
  Lens d_idt_reserved4
    (fun v r => IdtDesc (d_idt_offset_15_00 r) (d_idt_seg_selector r) v (d_idt_reserved3 r)
    (d_idt_reserved2 r) (d_idt_reserved1 r) (d_idt_size r) (d_idt_reserved0 r) (d_idt_dpl r)
    (d_idt_present r) (d_idt_offset_31_16 r)).

Definition idt_reserved3 : lens idt_desc_t Z :=
  Lens d_idt_reserved3
    (fun v r => IdtDesc (d_idt_offset_15_00 r) (d_idt_seg_selector r) (d_idt_reserved4 r) v
    (d_idt_reserved2 r) (d_idt_reserved1 r) (d_idt_size r) (d_idt_reserved0 r) (d_idt_dpl r)
    (d_idt_present r) (d_idt_offset_31_16 r)).

Definition idt_reserved2 : lens idt_desc_t Z :=
  Lens d_idt_reserved2
    (fun v r => IdtDesc (d_idt_offset_15_00 r) (d_idt_seg_selector r) (d_idt_reserved4 r)
    (d_idt_reserved3 r) v (d_idt_reserved1 r) (d_idt_size r) (d_idt_reserved0 r) (d_idt_dpl r)
    (d_idt_present r) (d_idt_offset_31_16 r)).

Definition idt_reserved1 : lens idt_desc_t Z :=
  Lens d_idt_reserved1
    (fun v r => IdtDesc (d_idt_offset_15_00 r) (d_idt_seg_selector r) (d_idt_reserved4 r)
    (d_idt_reserved3 r) (d_idt_reserved2 r) v (d_idt_size r) (d_idt_reserved0 r) (d_idt_dpl r)
    (d_idt_present r) (d_idt_offset_31_16 r)).

Definition idt_size : lens idt_desc_t Z :=
  Lens d_idt_size
    (fun v r => IdtDesc (d_idt_offset_15_00 r) (d_idt_seg_selector r) (d_idt_reserved4 r)
    (d_idt_reserved3 r) (d_idt_reserved2 r) (d_idt_reserved1 r) v (d_idt_reserved0 r)
    (d_idt_dpl r) (d_idt_present r) (d_idt_offset_31_16 r)).

Definition idt_reserved0 : lens idt_desc_t Z :=
  Lens d_idt_reserved0
    (fun v r => IdtDesc (d_idt_offset_15_00 r) (d_idt_seg_selector r) (d_idt_reserved4 r)
    (d_idt_reserved3 r) (d_idt_reserved2 r) (d_idt_reserved1 r) (d_idt_size r) v (d_idt_dpl r)
    (d_idt_present r) (d_idt_offset_31_16 r)).

Definition idt_dpl : lens idt_desc_t Z :=
  Lens d_idt_dpl
    (fun v r => IdtDesc (d_idt_offset_15_00 r) (d_idt_seg_selector r) (d_idt_reserved4 r)
    (d_idt_reserved3 r) (d_idt_reserved2 r) (d_idt_reserved1 r) (d_idt_size r)
    (d_idt_reserved0 r) v (d_idt_present r) (d_idt_offset_31_16 r)).

Definition idt_present : lens idt_desc_t Z :=
  Lens d_idt_present
    (fun v r => IdtDesc (d_idt_offset_15_00 r) (d_idt_seg_selector r) (d_idt_reserved4 r)
    (d_idt_reserved3 r) (d_idt_reserved2 r) (d_idt_reserved1 r) (d_idt_size r)
    (d_idt_reserved0 r) (d_idt_dpl r) v (d_idt_offset_31_16 r)).

Definition idt_offset_31_16 : lens idt_desc_t Z :=
  Lens d_idt_offset_31_16
    (fun v r => IdtDesc (d_idt_offset_15_00 r) (d_idt_seg_selector r) (d_idt_reserved4 r)
    (d_idt_reserved3 r) (d_idt_reserved2 r) (d_idt_reserved1 r) (d_idt_size r)
    (d_idt_reserved0 r) (d_idt_dpl r) (d_idt_present r) v).

Definition seg_lim_15_00 : lens seg_desc_t Z :=
  Lens e_seg_lim_15_00
    (fun v r => SegDesc v (e_base_15_00 r) (e_base_23_16 r) (e_seg_type r) (e_seg_sys r)
    (e_seg_dpl r) (e_seg_present r) (e_seg_lim_19_16 r) (e_seg_avail r) (e_seg_reserved r)
    (e_seg_opsize r) (e_seg_granularity r) (e_base_31_24 r)).

Definition base_15_00 : lens seg_desc_t Z :=
  Lens e_base_15_00
    (fun v r => SegDesc (e_seg_lim_15_00 r) v (e_base_23_16 r) (e_seg_type r) (e_seg_sys r)
    (e_seg_dpl r) (e_seg_present r) (e_seg_lim_19_16 r) (e_seg_avail r) (e_seg_reserved r)
    (e_seg_opsize r) (e_seg_granularity r) (e_base_31_24 r)).

Definition base_23_16 : lens seg_desc_t Z :=
  Lens e_base_23_16
    (fun v r => SegDesc (e_seg_lim_15_00 r) (e_base_15_00 r) v (e_seg_type r) (e_seg_sys r)
    (e_seg_dpl r) (e_seg_present r) (e_seg_lim_19_16 r) (e_seg_avail r) (e_seg_reserved r)
    (e_seg_opsize r) (e_seg_granularity r) (e_base_31_24 r)).

Definition seg_type : lens seg_desc_t Z :=
  Lens e_seg_type
    (fun v r => SegDesc (e_seg_lim_15_00 r) (e_base_15_00 r) (e_base_23_16 r) v (e_seg_sys r)
    (e_seg_dpl r) (e_seg_present r) (e_seg_lim_19_16 r) (e_seg_avail r) (e_seg_reserved r)
    (e_seg_opsize r) (e_seg_granularity r) (e_base_31_24 r)).

Definition seg_sys : lens seg_desc_t Z :=
  Lens e_seg_sys
    (fun v r => SegDesc (e_seg_lim_15_00 r) (e_base_15_00 r) (e_base_23_16 r) (e_seg_type r) v
    (e_seg_dpl r) (e_seg_present r) (e_seg_lim_19_16 r) (e_seg_avail r) (e_seg_reserved r)
    (e_seg_opsize r) (e_seg_granularity r) (e_base_31_24 r)).

Definition seg_dpl : lens seg_desc_t Z :=
  Lens e_seg_dpl
    (fun v r => SegDesc (e_seg_lim_15_00 r) (e_base_15_00 r) (e_base_23_16 r) (e_seg_type r)
    (e_seg_sys r) v (e_seg_present r) (e_seg_lim_19_16 r) (e_seg_avail r) (e_seg_reserved r)
    (e_seg_opsize r) (e_seg_granularity r) (e_base_31_24 r)).

Definition seg_present : lens seg_desc_t Z :=
  Lens e_seg_present
    (fun v r => SegDesc (e_seg_lim_15_00 r) (e_base_15_00 r) (e_base_23_16 r) (e_seg_type r)
    (e_seg_sys r) (e_seg_dpl r) v (e_seg_lim_19_16 r) (e_seg_avail r) (e_seg_reserved r)
    (e_seg_opsize r) (e_seg_granularity r) (e_base_31_24 r)).

Definition seg_lim_19_16 : lens seg_desc_t Z :=
  Lens e_seg_lim_19_16
    (fun v r => SegDesc (e_seg_lim_15_00 r) (e_base_15_00 r) (e_base_23_16 r) (e_seg_type r)
    (e_seg_sys r) (e_seg_dpl r) (e_seg_present r) v (e_seg_avail r) (e_seg_reserved r)
    (e_seg_opsize r) (e_seg_granularity r) (e_base_31_24 r)).

Definition seg_avail : lens seg_desc_t Z :=
  Lens e_seg_avail
    (fun v r => SegDesc (e_seg_lim_15_00 r) (e_base_15_00 r) (e_base_23_16 r) (e_seg_type r)
    (e_seg_sys r) (e_seg_dpl r) (e_seg_present r) (e_seg_lim_19_16 r) v (e_seg_reserved r)
    (e_seg_opsize r) (e_seg_granularity r) (e_base_31_24 r)).

Definition seg_reserved : lens seg_desc_t Z :=
  Lens e_seg_reserved
    (fun v r => SegDesc (e_seg_lim_15_00 r) (e_base_15_00 r) (e_base_23_16 r) (e_seg_type r)
    (e_seg_sys r) (e_seg_dpl r) (e_seg_present r) (e_seg_lim_19_16 r) (e_seg_avail r) v
    (e_seg_opsize r) (e_seg_granularity r) (e_base_31_24 r)).

Definition seg_opsize : lens seg_desc_t Z :=
  Lens e_seg_opsize
    (fun v r => SegDesc (e_seg_lim_15_00 r) (e_base_15_00 r) (e_base_23_16 r) (e_seg_type r)
    (e_seg_sys r) (e_seg_dpl r) (e_seg_present r) (e_seg_lim_19_16 r) (e_seg_avail r)
    (e_seg_reserved r) v (e_seg_granularity r) (e_base_31_24 r)).

Definition seg_granularity : lens seg_desc_t Z :=
  Lens e_seg_granularity
    (fun v r => SegDesc (e_seg_lim_15_00 r) (e_base_15_00 r) (e_base_23_16 r) (e_seg_type r)
    (e_seg_sys r) (e_seg_dpl r) (e_seg_present r) (e_seg_lim_19_16 r) (e_seg_avail r)
    (e_seg_reserved r) (e_seg_opsize r) v (e_base_31_24 r)).

Definition base_31_24 : lens seg_desc_t Z :=
  Lens e_base_31_24
    (fun v r => SegDesc (e_seg_lim_15_00 r) (e_base_15_00 r) (e_base_23_16 r) (e_seg_type r)
    (e_seg_sys r) (e_seg_dpl r) (e_seg_present r) (e_seg_lim_19_16 r) (e_seg_avail r)
    (e_seg_reserved r) (e_seg_opsize r) (e_seg_granularity r) v).

Definition fops_pointer : lens file_descriptor_entry_t (fops_ptr) :=
  Lens fd_fops
    (fun v r => FdEntry v (fd_inodeNum_ r) (fd_pos r) (fd_flg r)).

Definition fd_inodeNum : lens file_descriptor_entry_t Z :=
  Lens fd_inodeNum_
    (fun v r => FdEntry (fd_fops r) v (fd_pos r) (fd_flg r)).

Definition file_position : lens file_descriptor_entry_t Z :=
  Lens fd_pos
    (fun v r => FdEntry (fd_fops r) (fd_inodeNum_ r) v (fd_flg r)).

Definition flags : lens file_descriptor_entry_t Z :=
  Lens fd_flg
    (fun v r => FdEntry (fd_fops r) (fd_inodeNum_ r) (fd_pos r) v).

Definition pid : lens PCB_t Z :=
  Lens pcb_pid
    (fun v r => Pcb v (pcb_parent_pid r) (pcb_pde r) (pcb_esp r) (pcb_ebp r)
    (pcb_exception_flag r) (pcb_parent_terminal r) (pcb_process_fdt r)).

Definition parent_pid : lens PCB_t Z :=
  Lens pcb_parent_pid
    (fun v r => Pcb (pcb_pid r) v (pcb_pde r) (pcb_esp r) (pcb_ebp r) (pcb_exception_flag r)
    (pcb_parent_terminal r) (pcb_process_fdt r)).

Definition pde : lens PCB_t (pde_desc_t) :=
  Lens pcb_pde
    (fun v r => Pcb (pcb_pid r) (pcb_parent_pid r) v (pcb_esp r) (pcb_ebp r)
    (pcb_exception_flag r) (pcb_parent_terminal r) (pcb_process_fdt r)).

Definition esp : lens PCB_t Z :=
  Lens pcb_esp
    (fun v r => Pcb (pcb_pid r) (pcb_parent_pid r) (pcb_pde r) v (pcb_ebp r)
    (pcb_exception_flag r) (pcb_parent_terminal r) (pcb_process_fdt r)).

Definition ebp : lens PCB_t Z :=
  Lens pcb_ebp
    (fun v r => Pcb (pcb_pid r) (pcb_parent_pid r) (pcb_pde r) (pcb_esp r) v
    (pcb_exception_flag r) (pcb_parent_terminal r) (pcb_process_fdt r)).

Definition exception_flag : lens PCB_t Z :=
  Lens pcb_exception_flag
    (fun v r => Pcb (pcb_pid r) (pcb_parent_pid r) (pcb_pde r) (pcb_esp r) (pcb_ebp r) v
    (pcb_parent_terminal r) (pcb_process_fdt r)).

Definition parent_terminal : lens PCB_t Z :=
  Lens pcb_parent_terminal
    (fun v r => Pcb (pcb_pid r) (pcb_parent_pid r) (pcb_pde r) (pcb_esp r) (pcb_ebp r)
    (pcb_exception_flag r) v (pcb_process_fdt r)).

Definition process_fdt : lens PCB_t (list file_descriptor_entry_t) :=
  Lens pcb_process_fdt
    (fun v r => Pcb (pcb_pid r) (pcb_parent_pid r) (pcb_pde r) (pcb_esp r) (pcb_ebp r)
    (pcb_exception_flag r) (pcb_parent_terminal r) v).

Definition mem : lens machine (flat) :=
  Lens m_mem
    (fun v r => Machine v (m_fs_ptrs r) (m_scr r) (m_kbd r) (m_prc r) (m_sch r) (m_pag r)
    (m_irqc r) (m_dsc r) (m_hw r)).

Definition fs_ptrs : lens machine (fs_globals) :=
  Lens m_fs_ptrs
    (fun v r => Machine (m_mem r) v (m_scr r) (m_kbd r) (m_prc r) (m_sch r) (m_pag r) (m_irqc r)
    (m_dsc r) (m_hw r)).

Definition scr : lens machine (screen_t) :=
  Lens m_scr
    (fun v r => Machine (m_mem r) (m_fs_ptrs r) v (m_kbd r) (m_prc r) (m_sch r) (m_pag r)
    (m_irqc r) (m_dsc r) (m_hw r)).

Definition kbd : lens machine (keyboard_t) :=
  Lens m_kbd
    (fun v r => Machine (m_mem r) (m_fs_ptrs r) (m_scr r) v (m_prc r) (m_sch r) (m_pag r)
    (m_irqc r) (m_dsc r) (m_hw r)).

Definition prc : lens machine (process_t) :=
  Lens m_prc
    (fun v r => Machine (m_mem r) (m_fs_ptrs r) (m_scr r) (m_kbd r) v (m_sch r) (m_pag r)
    (m_irqc r) (m_dsc r) (m_hw r)).

Definition sch : lens machine (scheduler_t) :=
  Lens m_sch
    (fun v r => Machine (m_mem r) (m_fs_ptrs r) (m_scr r) (m_kbd r) (m_prc r) v (m_pag r)
    (m_irqc r) (m_dsc r) (m_hw r)).

Definition pag : lens machine (paging_t) :=
  Lens m_pag
    (fun v r => Machine (m_mem r) (m_fs_ptrs r) (m_scr r) (m_kbd r) (m_prc r) (m_sch r) v
    (m_irqc r) (m_dsc r) (m_hw r)).

Definition irqc : lens machine (irq_state_t) :=
  Lens m_irqc
    (fun v r => Machine (m_mem r) (m_fs_ptrs r) (m_scr r) (m_kbd r) (m_prc r) (m_sch r)
    (m_pag r) v (m_dsc r) (m_hw r)).

Definition dsc : lens machine (descriptors_t) :=
  Lens m_dsc
    (fun v r => Machine (m_mem r) (m_fs_ptrs r) (m_scr r) (m_kbd r) (m_prc r) (m_sch r)
    (m_pag r) (m_irqc r) v (m_hw r)).

Definition hw : lens machine (hardware_t) :=
  Lens m_hw
    (fun v r => Machine (m_mem r) (m_fs_ptrs r) (m_scr r) (m_kbd r) (m_prc r) (m_sch r)
    (m_pag r) (m_irqc r) (m_dsc r) v).

Definition screen_x : lens machine (list Z) :=
  lcomp scr (Lens s_screen_x
    (fun v r => Screen v (s_screen_y r) (s_currentTerminal r))).

Definition screen_y : lens machine (list Z) :=
  lcomp scr (Lens s_screen_y
    (fun v r => Screen (s_screen_x r) v (s_currentTerminal r))).

Definition currentTerminal : lens machine Z :=
  lcomp scr (Lens s_currentTerminal
    (fun v r => Screen (s_screen_x r) (s_screen_y r) v)).

Definition KBbuf : lens machine (list (list Z)) :=
  lcomp kbd (Lens k_KBbuf
    (fun v r => Keyboard v (k_buf_loc r) (k_capsFlag r) (k_shiftFlagL r) (k_shiftFlagR r)
    (k_ctrlFlagL r) (k_ctrlFlagR r) (k_altFlagL r) (k_altFlagR r) (k_readWaiting r)
    (k_readReady r))).

Definition buf_loc : lens machine (list Z) :=
  lcomp kbd (Lens k_buf_loc
    (fun v r => Keyboard (k_KBbuf r) v (k_capsFlag r) (k_shiftFlagL r) (k_shiftFlagR r)
    (k_ctrlFlagL r) (k_ctrlFlagR r) (k_altFlagL r) (k_altFlagR r) (k_readWaiting r)
    (k_readReady r))).

Definition capsFlag : lens machine Z :=
  lcomp kbd (Lens k_capsFlag
    (fun v r => Keyboard (k_KBbuf r) (k_buf_loc r) v (k_shiftFlagL r) (k_shiftFlagR r)
    (k_ctrlFlagL r) (k_ctrlFlagR r) (k_altFlagL r) (k_altFlagR r) (k_readWaiting r)
    (k_readReady r))).

Definition shiftFlagL : lens machine Z :=
  lcomp kbd (Lens k_shiftFlagL
    (fun v r => Keyboard (k_KBbuf r) (k_buf_loc r) (k_capsFlag r) v (k_shiftFlagR r)
    (k_ctrlFlagL r) (k_ctrlFlagR r) (k_altFlagL r) (k_altFlagR r) (k_readWaiting r)
    (k_readReady r))).

Definition shiftFlagR : lens machine Z :=
  lcomp kbd (Lens k_shiftFlagR
    (fun v r => Keyboard (k_KBbuf r) (k_buf_loc r) (k_capsFlag r) (k_shiftFlagL r) v
    (k_ctrlFlagL r) (k_ctrlFlagR r) (k_altFlagL r) (k_altFlagR r) (k_readWaiting r)
    (k_readReady r))).

Definition ctrlFlagL : lens machine Z :=
  lcomp kbd (Lens k_ctrlFlagL
    (fun v r => Keyboard (k_KBbuf r) (k_buf_loc r) (k_capsFlag r) (k_shiftFlagL r)
    (k_shiftFlagR r) v (k_ctrlFlagR r) (k_altFlagL r) (k_altFlagR r) (k_readWaiting r)
    (k_readReady r))).

Definition ctrlFlagR : lens machine Z :=
  lcomp kbd (Lens k_ctrlFlagR
    (fun v r => Keyboard (k_KBbuf r) (k_buf_loc r) (k_capsFlag r) (k_shiftFlagL r)
    (k_shiftFlagR r) (k_ctrlFlagL r) v (k_altFlagL r) (k_altFlagR r) (k_readWaiting r)
    (k_readReady r))).

Definition altFlagL : lens machine Z :=
  lcomp kbd (Lens k_altFlagL
    (fun v r => Keyboard (k_KBbuf r) (k_buf_loc r) (k_capsFlag r) (k_shiftFlagL r)
    (k_shiftFlagR r) (k_ctrlFlagL r) (k_ctrlFlagR r) v (k_altFlagR r) (k_readWaiting r)
    (k_readReady r))).

Definition altFlagR : lens machine Z :=
  lcomp kbd (Lens k_altFlagR
    (fun v r => Keyboard (k_KBbuf r) (k_buf_loc r) (k_capsFlag r) (k_shiftFlagL r)
    (k_shiftFlagR r) (k_ctrlFlagL r) (k_ctrlFlagR r) (k_altFlagL r) v (k_readWaiting r)
    (k_readReady r))).

Definition readWaiting : lens machine (list Z) :=
  lcomp kbd (Lens k_readWaiting
    (fun v r => Keyboard (k_KBbuf r) (k_buf_loc r) (k_capsFlag r) (k_shiftFlagL r)
    (k_shiftFlagR r) (k_ctrlFlagL r) (k_ctrlFlagR r) (k_altFlagL r) (k_altFlagR r) v
    (k_readReady r))).

Definition readReady : lens machine (list Z) :=
  lcomp kbd (Lens k_readReady
    (fun v r => Keyboard (k_KBbuf r) (k_buf_loc r) (k_capsFlag r) (k_shiftFlagL r)
    (k_shiftFlagR r) (k_ctrlFlagL r) (k_ctrlFlagR r) (k_altFlagL r) (k_altFlagR r)
    (k_readWaiting r) v)).

Definition PCB_ptrs : lens machine (list (option Z)) :=
  lcomp prc (Lens p_PCB_ptrs
    (fun v r => Process v (p_pcbs r) (p_cur_pid r) (p_fdt r) (p_eax_val r) (p_fops_tables r)
    (p_tss_esp0 r))).

Definition pcbs : lens machine (list PCB_t) :=
  lcomp prc (Lens p_pcbs
    (fun v r => Process (p_PCB_ptrs r) v (p_cur_pid r) (p_fdt r) (p_eax_val r) (p_fops_tables r)
    (p_tss_esp0 r))).

Definition cur_pid : lens machine Z :=
  lcomp prc (Lens p_cur_pid
    (fun v r => Process (p_PCB_ptrs r) (p_pcbs r) v (p_fdt r) (p_eax_val r) (p_fops_tables r)
    (p_tss_esp0 r))).

Definition fdt : lens machine (option Z) :=
  lcomp prc (Lens p_fdt
    (fun v r => Process (p_PCB_ptrs r) (p_pcbs r) (p_cur_pid r) v (p_eax_val r)
    (p_fops_tables r) (p_tss_esp0 r))).

Definition eax_val : lens machine Z :=
  lcomp prc (Lens p_eax_val
    (fun v r => Process (p_PCB_ptrs r) (p_pcbs r) (p_cur_pid r) (p_fdt r) v (p_fops_tables r)
    (p_tss_esp0 r))).

Definition fops_tables : lens machine (list fops_table_t) :=
  lcomp prc (Lens p_fops_tables
    (fun v r => Process (p_PCB_ptrs r) (p_pcbs r) (p_cur_pid r) (p_fdt r) (p_eax_val r) v
    (p_tss_esp0 r))).

Definition tss_esp0 : lens machine Z :=
  lcomp prc (Lens p_tss_esp0
    (fun v r => Process (p_PCB_ptrs r) (p_pcbs r) (p_cur_pid r) (p_fdt r) (p_eax_val r)
    (p_fops_tables r) v)).

Definition curThread : lens machine Z :=
  lcomp sch (Lens t_curThread
    (fun v r => Scheduler v (t_shellStarted r) (t_ESPstore r) (t_EBPstore r) (t_PIDstore r))).

Definition shellStarted : lens machine (list Z) :=
  lcomp sch (Lens t_shellStarted
    (fun v r => Scheduler (t_curThread r) v (t_ESPstore r) (t_EBPstore r) (t_PIDstore r))).

Definition ESPstore : lens machine (list Z) :=
  lcomp sch (Lens t_ESPstore
    (fun v r => Scheduler (t_curThread r) (t_shellStarted r) v (t_EBPstore r) (t_PIDstore r))).

Definition EBPstore : lens machine (list Z) :=
  lcomp sch (Lens t_EBPstore
    (fun v r => Scheduler (t_curThread r) (t_shellStarted r) (t_ESPstore r) v (t_PIDstore r))).

Definition PIDstore : lens machine (list Z) :=
  lcomp sch (Lens t_PIDstore
    (fun v r => Scheduler (t_curThread r) (t_shellStarted r) (t_ESPstore r) (t_EBPstore r) v)).

Definition page_directory : lens machine (list pde_desc_t) :=
  lcomp pag (Lens g_page_directory
    (fun v r => Paging v (g_kernel_page_table r) (g_user_page_table r)
    (g_kernel_page_table_addr r) (g_page_directory_addr r) (g_user_page_table_addr r) (g_cr3 r)
    (g_mixed_sizes r) (g_paging_enabled r))).

Definition kernel_page_table : lens machine (list pte_desc_t) :=
  lcomp pag (Lens g_kernel_page_table
    (fun v r => Paging (g_page_directory r) v (g_user_page_table r) (g_kernel_page_table_addr r)
    (g_page_directory_addr r) (g_user_page_table_addr r) (g_cr3 r) (g_mixed_sizes r)
    (g_paging_enabled r))).

Definition user_page_table : lens machine (list pte_desc_t) :=
  lcomp pag (Lens g_user_page_table
    (fun v r => Paging (g_page_directory r) (g_kernel_page_table r) v
    (g_kernel_page_table_addr r) (g_page_directory_addr r) (g_user_page_table_addr r) (g_cr3 r)
    (g_mixed_sizes r) (g_paging_enabled r))).

Definition kernel_page_table_addr : lens machine Z :=
  lcomp pag (Lens g_kernel_page_table_addr
    (fun v r => Paging (g_page_directory r) (g_kernel_page_table r) (g_user_page_table r) v
    (g_page_directory_addr r) (g_user_page_table_addr r) (g_cr3 r) (g_mixed_sizes r)
    (g_paging_enabled r))).

Definition page_directory_addr : lens machine Z :=
  lcomp pag (Lens g_page_directory_addr
    (fun v r => Paging (g_page_directory r) (g_kernel_page_table r) (g_user_page_table r)
    (g_kernel_page_table_addr r) v (g_user_page_table_addr r) (g_cr3 r) (g_mixed_sizes r)
    (g_paging_enabled r))).

Definition user_page_table_addr : lens machine Z :=
  lcomp pag (Lens g_user_page_table_addr
    (fun v r => Paging (g_page_directory r) (g_kernel_page_table r) (g_user_page_table r)
    (g_kernel_page_table_addr r) (g_page_directory_addr r) v (g_cr3 r) (g_mixed_sizes r)
    (g_paging_enabled r))).

Definition cr3 : lens machine Z :=
  lcomp pag (Lens g_cr3
    (fun v r => Paging (g_page_directory r) (g_kernel_page_table r) (g_user_page_table r)
    (g_kernel_page_table_addr r) (g_page_directory_addr r) (g_user_page_table_addr r) v
    (g_mixed_sizes r) (g_paging_enabled r))).

Definition mixed_sizes : lens machine bool :=
  lcomp pag (Lens g_mixed_sizes
    (fun v r => Paging (g_page_directory r) (g_kernel_page_table r) (g_user_page_table r)
    (g_kernel_page_table_addr r) (g_page_directory_addr r) (g_user_page_table_addr r) (g_cr3 r)
    v (g_paging_enabled r))).

Definition paging_enabled : lens machine bool :=
  lcomp pag (Lens g_paging_enabled
    (fun v r => Paging (g_page_directory r) (g_kernel_page_table r) (g_user_page_table r)
    (g_kernel_page_table_addr r) (g_page_directory_addr r) (g_user_page_table_addr r) (g_cr3 r)
    (g_mixed_sizes r) v)).

Definition master_mask : lens machine Z :=
  lcomp irqc (Lens i_master_mask
    (fun v r => IrqState v (i_slave_mask r) (i_RTC_read_flag r))).

Definition slave_mask : lens machine Z :=
  lcomp irqc (Lens i_slave_mask
    (fun v r => IrqState (i_master_mask r) v (i_RTC_read_flag r))).

Definition RTC_read_flag : lens machine (list Z) :=
  lcomp irqc (Lens i_RTC_read_flag
    (fun v r => IrqState (i_master_mask r) (i_slave_mask r) v)).

Definition idt : lens machine (list idt_desc_t) :=
  lcomp dsc (Lens x_idt
    (fun v r => Descriptors v (x_ldt_desc_ptr r) (x_tss_desc_ptr r) (x_tss_ss0 r)
    (x_tss_ldt_segment_selector r) (x_idtr_loaded r) (x_ldtr r) (x_task_register r)
    (x_sym_addr r))).

Definition ldt_desc_ptr : lens machine (seg_desc_t) :=
  lcomp dsc (Lens x_ldt_desc_ptr
    (fun v r => Descriptors (x_idt r) v (x_tss_desc_ptr r) (x_tss_ss0 r)
    (x_tss_ldt_segment_selector r) (x_idtr_loaded r) (x_ldtr r) (x_task_register r)
    (x_sym_addr r))).

Definition tss_desc_ptr : lens machine (seg_desc_t) :=
  lcomp dsc (Lens x_tss_desc_ptr
    (fun v r => Descriptors (x_idt r) (x_ldt_desc_ptr r) v (x_tss_ss0 r)
    (x_tss_ldt_segment_selector r) (x_idtr_loaded r) (x_ldtr r) (x_task_register r)
    (x_sym_addr r))).

Definition tss_ss0 : lens machine Z :=
  lcomp dsc (Lens x_tss_ss0
    (fun v r => Descriptors (x_idt r) (x_ldt_desc_ptr r) (x_tss_desc_ptr r) v
    (x_tss_ldt_segment_selector r) (x_idtr_loaded r) (x_ldtr r) (x_task_register r)
    (x_sym_addr r))).

Definition tss_ldt_segment_selector : lens machine Z :=
  lcomp dsc (Lens x_tss_ldt_segment_selector
    (fun v r => Descriptors (x_idt r) (x_ldt_desc_ptr r) (x_tss_desc_ptr r) (x_tss_ss0 r) v
    (x_idtr_loaded r) (x_ldtr r) (x_task_register r) (x_sym_addr r))).

Definition idtr_loaded : lens machine bool :=
  lcomp dsc (Lens x_idtr_loaded
    (fun v r => Descriptors (x_idt r) (x_ldt_desc_ptr r) (x_tss_desc_ptr r) (x_tss_ss0 r)
    (x_tss_ldt_segment_selector r) v (x_ldtr r) (x_task_register r) (x_sym_addr r))).

Definition ldtr : lens machine Z :=
  lcomp dsc (Lens x_ldtr
    (fun v r => Descriptors (x_idt r) (x_ldt_desc_ptr r) (x_tss_desc_ptr r) (x_tss_ss0 r)
    (x_tss_ldt_segment_selector r) (x_idtr_loaded r) v (x_task_register r) (x_sym_addr r))).

Definition task_register : lens machine Z :=
  lcomp dsc (Lens x_task_register
    (fun v r => Descriptors (x_idt r) (x_ldt_desc_ptr r) (x_tss_desc_ptr r) (x_tss_ss0 r)
    (x_tss_ldt_segment_selector r) (x_idtr_loaded r) (x_ldtr r) v (x_sym_addr r))).

Definition sym_addr : lens machine (symbol -> Z) :=
  lcomp dsc (Lens x_sym_addr
    (fun v r => Descriptors (x_idt r) (x_ldt_desc_ptr r) (x_tss_desc_ptr r) (x_tss_ss0 r)
    (x_tss_ldt_segment_selector r) (x_idtr_loaded r) (x_ldtr r) (x_task_register r) v)).

Definition trace : lens machine (list io_event) :=
  lcomp hw (Lens h_trace
    (fun v r => Hardware v (h_device r) (h_pending r) (h_eflags_if r) (h_cpu_esp r)
    (h_cpu_ebp r))).

Definition device : lens machine (list io_event -> Z -> Z) :=
  lcomp hw (Lens h_device
    (fun v r => Hardware (h_trace r) v (h_pending r) (h_eflags_if r) (h_cpu_esp r) (h_cpu_ebp r))).

Definition pending : lens machine (list irq) :=
  lcomp hw (Lens h_pending
    (fun v r => Hardware (h_trace r) (h_device r) v (h_eflags_if r) (h_cpu_esp r) (h_cpu_ebp r))).

Definition eflags_if : lens machine bool :=
  lcomp hw (Lens h_eflags_if
    (fun v r => Hardware (h_trace r) (h_device r) (h_pending r) v (h_cpu_esp r) (h_cpu_ebp r))).

Definition cpu_esp : lens machine Z :=
  lcomp hw (Lens h_cpu_esp
    (fun v r => Hardware (h_trace r) (h_device r) (h_pending r) (h_eflags_if r) v (h_cpu_ebp r))).

Definition cpu_ebp : lens machine Z :=
  lcomp hw (Lens h_cpu_ebp
    (fun v r => Hardware (h_trace r) (h_device r) (h_pending r) (h_eflags_if r) (h_cpu_esp r) v)).

(** ** Kernel computations *)

Abbreviation K := (ST machine).

(** Fields of an element of an array of structures: [a[i].f]. *)
Definition rd_field {A B} (a : lens machine (list A)) (i : Z) (f : lens A B) : K B :=
  x ← rd_at a i; mret (get f x).

Definition wr_field {A B} (a : lens machine (list A)) (i : Z) (f : lens A B) (v : B) : K unit :=
  x ← rd_at a i; wr_at a i (set f v x).

(** [PCB_ptrs[i]], dereferenced. *)
Definition pcb_slot (i : Z) : K Z :=
  p ← rd_at PCB_ptrs i; of_option NullDeref p.

Definition rd_pcb {B} (i : Z) (f : lens PCB_t B) : K B := j ← pcb_slot i; rd_field pcbs j f.

Definition wr_pcb {B} (i : Z) (f : lens PCB_t B) (v : B) : K unit :=
  j ← pcb_slot i; wr_field pcbs j f v.

(** [PCB_ptrs[cur_pid]->parent_terminal]. *)
Definition cur_terminal : K Z := p ← rd cur_pid; rd_pcb p parent_terminal.

(** [fdt[i].f] through the global pointer [fdt]. *)
Definition rd_fdt {B} (i : Z) (f : lens file_descriptor_entry_t B) : K B :=
  p ← rd fdt; j ← of_option NullDeref p;
  l ← rd_field pcbs j process_fdt;
  e ← of_option OutOfBounds (at_ l i); mret (get f e).

Definition wr_fdt {B} (i : Z) (f : lens file_descriptor_entry_t B) (v : B) : K unit :=
  p ← rd fdt; j ← of_option NullDeref p;
  l ← rd_field pcbs j process_fdt;
  e ← of_option OutOfBounds (at_ l i);
  wr_field pcbs j process_fdt (upd l i (set f v e)).

(** ** Address translation

    The x86 walk of the two-level page tables with 4 MB and 4 KB pages.
    Addresses from [2 ^ 32] on name local arrays of the running C function,
    objects that no pointer of the program reaches by arithmetic. *)

Definition walk (g : paging_t) (a : Z) : option (Z * pde_desc_t * option pte_desc_t) :=
  if negb (g_cr3 g =? g_page_directory_addr g) then None
  else
  d ← at_ (g_page_directory g) (Z.shiftr a 22);
  if pde_present d =? 0 then None
  else if (pde_page_size d =? 1) && g_mixed_sizes g then
    Some (Z.shiftl (Z.shiftr (pde_page_table_address d) 10) 22 + a `mod` 2 ^ 22, d, None)
  else
    let base := Z.shiftl (pde_page_table_address d) PDE_PTE_ADDRESS_SHIFT in
    let table :=
      if base =? g_kernel_page_table_addr g then g_kernel_page_table g
      else if base =? g_user_page_table_addr g then g_user_page_table g else [] in
    t ← at_ table (Z.shiftr a 12 `mod` 2 ^ 10);
    if pte_pt_present t =? 0 then None
    else Some (Z.shiftl (pte_physical_address t) 12 + a `mod` 2 ^ 12, d, Some t).

(** The physical address of a supervisor access. *)
Definition translate (g : paging_t) (a : Z) : option Z :=
  if 2 ^ 32 <=? a then Some a
  else if g_paging_enabled g then (fun r => fst (fst r)) <$> walk g (u32 a)
  else Some (u32 a).

(** A memory seen through the page tables. *)
Record vmem := VMem { vm_phys : flat; vm_paging : paging_t }.

#[export] Instance vmem_mem : ByteMem vmem := {|
  cell := fun m a => translate (vm_paging m) a;
  peek := fun m c => peek (vm_phys m) c;
  poke := fun m c v => VMem (poke (vm_phys m) c v) (vm_paging m)
|}.

#[export] Instance vmem_laws : ByteMemLaws vmem.
Proof.
  split.
  - intros m c. apply (peek_range (M := flat)).
  - intros m c v. apply (peek_poke_eq (M := flat)).
  - intros m c c' v. apply (peek_poke_ne (M := flat)).
  - done.
  - intros [m g] c c' v v' Hne. change (VMem (poke (poke m c v) c' v') g = VMem (poke (poke m c' v') c v) g).
    f_equal. by apply poke_comm.
Qed.

Definition view (s : machine) : vmem := VMem (get mem s) (get pag s).

(** A library routine run on the memory of the machine. *)
Definition vm {A} (c : ST vmem A) : K A := fun s =>
  match c (view s) with
  | Ok (a, m) => Ok (a, set mem (vm_phys m) s)
  | Fail f => Fail f
  end.

(** The first byte of local array number [n] of the running function. *)
Definition local_array (n : Z) : Z := 2 ^ 32 + 0x10000 * n.

(** ** Instructions *)

Definition outb (data port : Z) : K unit :=
  modify (fun s => set trace (Outb port (u8 data) :: get trace s) s).

Definition inb (port : Z) : K Z := fun s =>
  let v := u8 (get device s (get trace s) port) in
  Ok (v, set trace (Inb port v :: get trace s) s).

Definition clearTLB : K unit := modify (fun s => set trace (FlushTLB :: get trace s) s).

Definition cli_and_save : K bool := f ← rd eflags_if; wr eflags_if false ;;; mret f.

Definition restore_flags (f : bool) : K unit := wr eflags_if f.

Definition sti : K unit := wr eflags_if true.

(** A busy wait: interrupts are served until [cond] holds.  A wait that
    outlasts the interrupts, or that waits with interrupts masked, never ends. *)
Fixpoint spin_on (irqs : list irq) (serve : irq -> K unit) (cond : K bool) : K unit :=
  b ← cond;
  if (b : bool) then mret tt
  else
    match irqs with
    | [] => fail Diverges
    | i :: rest =>
        f ← rd eflags_if;
        if (f : bool) then wr pending rest ;;; serve i ;;; spin_on rest serve cond
        else fail Diverges
    end.

Definition spin (serve : irq -> K unit) (cond : K bool) : K unit :=
  irqs ← rd pending; spin_on irqs serve cond.

(** ** Lemmas *)

Lemma vm_run {A} (c : ST vmem A) s a m :
  c (view s) = Ok (a, m) -> vm c s = Ok (a, set mem (vm_phys m) s).
Proof. intros H. unfold vm. by rewrite H. Qed.

(** A routine that does not write leaves the state alone. *)
Lemma vm_pure {A} (c : ST vmem A) s a :
  c (view s) = Ok (a, view s) -> vm c s = Ok (a, s).
Proof. intros H. rewrite (vm_run _ _ _ _ H). by destruct s. Qed.

Lemma wp_vm {A} (c : ST vmem A) Q s :
  wp (vm c) Q s <-> wp c (fun a m => Q a (set mem (vm_phys m) s)) (view s).
Proof. unfold wp, vm. by destruct (c (view s)) as [[a m]|]. Qed.

Lemma outb_run v p s : outb v p s = Ok (tt, set trace (Outb p (u8 v) :: get trace s) s).
Proof. done. Qed.

Lemma set_trace_same s : set trace (get trace s) s = s.
Proof. by destruct s as [? ? ? ? ? ? ? ? ? []]. Qed.

Lemma clearTLB_run s : clearTLB s = Ok (tt, set trace (FlushTLB :: get trace s) s).
Proof. done. Qed.

(** [PCB_ptrs[i]] points to the structure of process [i]. *)
Definition pcb_valid (s : machine) (i : Z) : Prop :=
  at_ (get PCB_ptrs s) i = Some (Some i) /\ 0 <= i < Z.of_nat (length (get pcbs s)).

Lemma rd_pcb_run {B} s i (f : lens PCB_t B) p :
  at_ (get PCB_ptrs s) i = Some (Some i) -> at_ (get pcbs s) i = Some p ->
  rd_pcb i f s = Ok (get f p, s).
Proof.
  intros Hp Hq. unfold rd_pcb, pcb_slot. rewrite bind_ok with (a := i) (s' := s).
  - unfold rd_field. by rewrite (bind_ok _ _ _ _ _ (rd_at_run _ _ _ _ Hq)).
  - by rewrite (bind_ok _ _ _ _ _ (rd_at_run _ _ _ _ Hp)).
Qed.

(** ** The state at boot

    The globals before [entry] runs: those without an initialiser are zero.
    The arguments are what the loader and the hardware decide: the contents of
    the memory (the structures at the six PCB addresses included), the addresses
    the linker gives the two page tables, the devices, and the stack registers. *)

Definition zero_pde : pde_desc_t := Pde 0 0 0 0 0 0 0 0 0 0 0.
Definition zero_pte : pte_desc_t := Pte 0 0 0 0 0 0 0 0 0 0 0.
Definition zero_fd : file_descriptor_entry_t := FdEntry FOPS_NULL 0 0 0.
Definition zero_pcb : PCB_t := Pcb 0 0 zero_pde 0 0 0 0 (replicate 8 zero_fd).
Definition zero_fops : fops_table_t := FopsTable OPEN_NULL CLOSE_NULL READ_NULL WRITE_NULL.

Definition zero_idt : idt_desc_t := IdtDesc 0 0 0 0 0 0 0 0 0 0 0.
Definition zero_seg : seg_desc_t := SegDesc 0 0 0 0 0 0 0 0 0 0 0 0 0.

(** Where the linker puts the paging structures and the symbols. *)
Record layout := Layout {
  at_page_directory : Z;
  at_kernel_page_table : Z;
  at_user_page_table : Z;
  at_symbol : symbol -> Z
}.

Definition boot_state (ram : flat) (stale : list PCB_t) (ly : layout)
    (dev : list io_event -> Z -> Z) (irqs : list irq) (sp bp : Z) : machine :=
  Machine ram (FsGlobals 0 0)
    (Screen [0; 0; 0] [0; 0; 0] 0)
    (Keyboard (replicate 3 (replicate 128 0)) [0; 0; 0] 0 0 0 0 0 0 0 [0; 0; 0] [0; 0; 0])
    (Process (replicate 6 None) stale 0 None 0 (replicate 5 zero_fops) 0)
    (Scheduler 0 [0; 0; 0] [0; 0; 0] [0; 0; 0] [0; 0; 0])
    (Paging (replicate 1024 zero_pde) (replicate 1024 zero_pte) (replicate 1024 zero_pte)
      (at_kernel_page_table ly) (at_page_directory ly) (at_user_page_table ly) 0 false false)
    (IrqState 0 0 [0; 0; 0])
    (Descriptors (replicate 256 zero_idt) zero_seg zero_seg 0 0 false 0 0 (at_symbol ly))
    (Hardware [] dev irqs false sp bp).

Definition demo_layout : layout := Layout 0x500000 0x501000 0x502000 (fun _ => 0x400000).

(** A small concrete state: process [0] runs on terminal 0, paging is off. *)
Definition one_process (ram : flat) : machine :=
  set PCB_ptrs (Some 0 :: replicate 5 None)
    (set fdt (Some 0) (boot_state ram (replicate 6 zero_pcb) demo_layout (fun _ _ => 0) [] 0x7FFFF0 0x7FFFF8)).
