(* ===== verification/Pic.v ===== *)
(** * i8259.c: the interrupt controllers

    The two mask bytes and the port writes of i8259.c.  The theorems read the
    two bytes as one predicate on IRQ lines ([irq_masked]) and show that
    enabling and disabling change one line only. *)

From S2P Require Import Prelude Memory Lib Filesystem Machine.

(** ** Constants of i8259.h *)

Definition MASTER_8259_PORT : Z := 0x20.
Definition SLAVE_8259_PORT : Z := 0xA0.
Definition MASTER_8259_PORT_DATA : Z := 0x21.
Definition SLAVE_8259_PORT_DATA : Z := 0xA1.
Definition NUM_IRQS_PER_PIC : Z := 8.
Definition SLAVE_IRQ_PIN_ON_MASTER : Z := 2.
Definition IRQ_MAX : Z := 15.
Definition ICW1 : Z := 0x11.
Definition ICW2_MASTER : Z := 0x20.
Definition ICW2_SLAVE : Z := 0x28.
Definition ICW3_MASTER : Z := 0x04.
Definition ICW3_SLAVE : Z := 0x02.
Definition ICW4 : Z := 0x01.
Definition EOI : Z := 0x60.
Definition MASK_BYTE_HIGH : Z := 0xFF.

(** ** Operations *)

Definition i8259_init : K unit :=
  outb ICW1 MASTER_8259_PORT ;;;
  outb ICW1 SLAVE_8259_PORT ;;;
  outb ICW2_MASTER MASTER_8259_PORT_DATA ;;;
  outb ICW2_SLAVE SLAVE_8259_PORT_DATA ;;;
  outb ICW3_MASTER MASTER_8259_PORT_DATA ;;;
  outb ICW3_SLAVE SLAVE_8259_PORT_DATA ;;;
  outb ICW4 MASTER_8259_PORT_DATA ;;;
  outb ICW4 SLAVE_8259_PORT_DATA ;;;
  wr master_mask MASK_BYTE_HIGH ;;;
  wr slave_mask MASK_BYTE_HIGH ;;;
  outb MASK_BYTE_HIGH MASTER_8259_PORT_DATA ;;;
  outb MASK_BYTE_HIGH SLAVE_8259_PORT_DATA.

Definition disable_irq (irq_num : Z) : K unit :=
  if (irq_num <? 0) || (IRQ_MAX <? irq_num) then mret tt
  else if irq_num <? NUM_IRQS_PER_PIC then
    m ← rd master_mask;
    wr master_mask (u8 (Z.lor m (Z.shiftl 1 irq_num))) ;;;
    m ← rd master_mask; outb m MASTER_8259_PORT_DATA
  else
    let irq_num := irq_num - NUM_IRQS_PER_PIC in
    m ← rd slave_mask;
    wr slave_mask (u8 (Z.lor m (Z.shiftl 1 irq_num))) ;;;
    m ← rd slave_mask; outb m SLAVE_8259_PORT_DATA.

Definition enable_irq (irq_num : Z) : K unit :=
  if (irq_num <? 0) || (IRQ_MAX <? irq_num) then mret tt
  else if irq_num <? NUM_IRQS_PER_PIC then
    m ← rd master_mask;
    wr master_mask (u8 (Z.land m (Z.lnot (Z.shiftl 1 irq_num)))) ;;;
    m ← rd master_mask; outb m MASTER_8259_PORT_DATA
  else
    let irq_num := irq_num - NUM_IRQS_PER_PIC in
    m ← rd slave_mask;
    wr slave_mask (u8 (Z.land m (Z.lnot (Z.shiftl 1 irq_num)))) ;;;
    m ← rd slave_mask; outb m SLAVE_8259_PORT_DATA.

Definition send_eoi (irq_num : Z) : K unit :=
  if (irq_num <? 0) || (IRQ_MAX <? irq_num) then mret tt
  else if irq_num <? NUM_IRQS_PER_PIC then
    let port_output := u8 (Z.lor irq_num EOI) in
    outb port_output MASTER_8259_PORT
  else
    let port_output := u8 (Z.lor SLAVE_IRQ_PIN_ON_MASTER EOI) in
    outb port_output MASTER_8259_PORT ;;;
    let irq_num := irq_num - NUM_IRQS_PER_PIC in
    let port_output := u8 (Z.lor irq_num EOI) in
    outb port_output SLAVE_8259_PORT.

(** ** Specification *)

(** Line [n] is masked. *)
Definition irq_masked (s : machine) (n : Z) : bool :=
  if n <? 8 then Z.testbit (get master_mask s) n else Z.testbit (get slave_mask s) (n - 8).

(** The data port of the controller of line [n] and the mask it must hold. *)
Definition pic_port (n : Z) : Z := if n <? 8 then MASTER_8259_PORT_DATA else SLAVE_8259_PORT_DATA.

Definition pic_mask (s : machine) (n : Z) : Z :=
  if n <? 8 then get master_mask s else get slave_mask s.

Definition masks_ok (s : machine) : Prop :=
  0 <= get master_mask s < 256 /\ 0 <= get slave_mask s < 256.

(** ** Lemmas *)

Lemma testbit_u8 x n : 0 <= n < 8 -> Z.testbit (u8 x) n = Z.testbit x n.
Proof. intros. unfold u8. by rewrite Z.mod_pow2_bits_low by lia. Qed.

Lemma testbit_bit i n : 0 <= i -> 0 <= n -> Z.testbit (Z.shiftl 1 i) n = (n =? i).
Proof.
  intros. rewrite Z.shiftl_1_l. destruct (Z.eqb_spec n i) as [->|].
  - by apply Z.pow2_bits_true.
  - apply Z.pow2_bits_false. done.
Qed.

Lemma testbit_set m i n :
  0 <= i < 8 -> 0 <= n < 8 ->
  Z.testbit (u8 (Z.lor m (Z.shiftl 1 i))) n = if n =? i then true else Z.testbit m n.
Proof.
  intros. rewrite testbit_u8, Z.lor_spec, testbit_bit by lia.
  destruct (n =? i); [apply orb_true_r|apply orb_false_r].
Qed.

Lemma testbit_clear m i n :
  0 <= i < 8 -> 0 <= n < 8 ->
  Z.testbit (u8 (Z.land m (Z.lnot (Z.shiftl 1 i)))) n = if n =? i then false else Z.testbit m n.
Proof.
  intros. rewrite testbit_u8, Z.land_spec, Z.lnot_spec, testbit_bit by lia.
  destruct (n =? i); [apply andb_false_r|apply andb_true_r].
Qed.

(** What enabling ([b = false]) or disabling ([b = true]) line [i] does. *)
Definition sets_line (c : K unit) (s : machine) (i : Z) (b : bool) : Prop :=
  wp c (fun _ s' =>
    (forall n, 0 <= n <= IRQ_MAX -> irq_masked s' n = if n =? i then b else irq_masked s n) /\
    (masks_ok s -> masks_ok s') /\
    get trace s' = Outb (pic_port i) (pic_mask s' i) :: get trace s) s.

Section lines.
Context (s : machine) (i : Z).
Hypothesis Hi : 0 <= i <= IRQ_MAX.

(** A write of the mask byte of line [i]. *)
Lemma mask_write (l : lens machine Z) f b p :
  (l = master_mask /\ i < 8 /\ p = MASTER_8259_PORT_DATA) \/
  (l = slave_mask /\ 8 <= i /\ p = SLAVE_8259_PORT_DATA) ->
  (forall m n, 0 <= n < 8 ->
     Z.testbit (u8 (f m)) n = if n =? i `mod` 8 then b else Z.testbit m n) ->
  sets_line (m ← rd l; wr l (u8 (f m)) ;;; m ← rd l; outb m p) s i b.
Proof using Hi.
  unfold IRQ_MAX in Hi. intros Hl Hf. unfold sets_line. autorewrite with wp.
  unfold outb. autorewrite with wp. lsimpl.
  unfold irq_masked, pic_port, pic_mask, masks_ok, IRQ_MAX.
  destruct Hl as [(-> & Hi8 & ->)|(-> & Hi8 & ->)]; lsimpl; rewrite (u8_small (u8 _)) by apply u8_range.
  - rewrite Z.mod_small in Hf by lia. destruct (Z.ltb_spec i 8); [|lia].
    split_and!; [|intros [? ?]; split; [apply u8_range|done]|done].
    intros n Hn. destruct (Z.ltb_spec n 8); [apply Hf; lia|]. destruct (Z.eqb_spec n i); [lia|done].
  - replace (i `mod` 8) with (i - 8) in Hf by (apply (Z.mod_unique_pos _ _ 1); lia).
    destruct (Z.ltb_spec i 8); [lia|].
    split_and!; [|intros [? ?]; split; [done|apply u8_range]|done].
    intros n Hn. destruct (Z.ltb_spec n 8); [destruct (Z.eqb_spec n i); [lia|done]|].
    rewrite Hf by lia. destruct (Z.eqb_spec n i), (Z.eqb_spec (n - 8) (i - 8)); try done; lia.
Qed.

Lemma irq_valid : (i <? 0) || (IRQ_MAX <? i) = false.
Proof using Hi. destruct (Z.ltb_spec i 0), (Z.ltb_spec IRQ_MAX i); try done; lia. Qed.

Lemma irq_low : i < 8 -> i `mod` 8 = i.
Proof using Hi. intros. apply Z.mod_small. lia. Qed.

Lemma irq_high : 8 <= i -> i `mod` 8 = i - 8.
Proof using Hi. unfold IRQ_MAX in Hi. intros. symmetry. apply (Z.mod_unique_pos _ _ 1); lia. Qed.

Lemma disable_irq_line : sets_line (disable_irq i) s i true.
Proof using Hi.
  unfold disable_irq. rewrite irq_valid. unfold IRQ_MAX in Hi.
  destruct (Z.ltb_spec i NUM_IRQS_PER_PIC) as [H8|H8]; unfold NUM_IRQS_PER_PIC in *.
  - apply (mask_write _ (fun m => Z.lor m (Z.shiftl 1 i))); [by left|].
    intros. rewrite irq_low by done. apply testbit_set; lia.
  - apply (mask_write _ (fun m => Z.lor m (Z.shiftl 1 (i - 8)))); [by right|].
    intros. rewrite irq_high by done. apply testbit_set; lia.
Qed.

Lemma enable_irq_line : sets_line (enable_irq i) s i false.
Proof using Hi.
  unfold enable_irq. rewrite irq_valid. unfold IRQ_MAX in Hi.
  destruct (Z.ltb_spec i NUM_IRQS_PER_PIC) as [H8|H8]; unfold NUM_IRQS_PER_PIC in *.
  - apply (mask_write _ (fun m => Z.land m (Z.lnot (Z.shiftl 1 i)))); [by left|].
    intros. rewrite irq_low by done. apply testbit_clear; lia.
  - apply (mask_write _ (fun m => Z.land m (Z.lnot (Z.shiftl 1 (i - 8))))); [by right|].
    intros. rewrite irq_high by done. apply testbit_clear; lia.
Qed.
End lines.

(** An end-of-interrupt only appends port writes. *)
Lemma send_eoi_run n s : exists evs, send_eoi n s = Ok (tt, set trace (evs ++ get trace s) s).
Proof.
  unfold send_eoi. destruct (_ || _).
  { exists []. simpl. by rewrite set_trace_same. }
  destruct (_ <? _); [by eexists [_]|]. by eexists [_; _].
Qed.

(** ** Properties *)

(** disable_irq and enable_irq mask and unmask exactly the line asked for, on
    the controller that owns it, by one write of the new mask to its data port;
    a line number outside 0 to 15 changes nothing. *)
Theorem irq_lines_independent s i :
  (0 <= i <= IRQ_MAX -> sets_line (disable_irq i) s i true /\ sets_line (enable_irq i) s i false) /\
  (~ (0 <= i <= IRQ_MAX) ->
     disable_irq i s = Ok (tt, s) /\ enable_irq i s = Ok (tt, s) /\ send_eoi i s = Ok (tt, s)).
Proof.
  split; [intros Hi; split; [by apply disable_irq_line|by apply enable_irq_line]|].
  intros Hi. assert ((i <? 0) || (IRQ_MAX <? i) = true) as E.
  { destruct (Z.ltb_spec i 0), (Z.ltb_spec IRQ_MAX i); try done; lia. }
  unfold disable_irq, enable_irq, send_eoi. by rewrite E.
Qed.

Lemma irq_lines_independent_witness :
  sets_line (disable_irq 9) (one_process ∅) 9 true /\ enable_irq 16 (one_process ∅) = Ok (tt, one_process ∅).
Proof.
  split.
  - assert (0 <= 9 <= IRQ_MAX) as Hi by (unfold IRQ_MAX; lia).
    exact (proj1 (proj1 (irq_lines_independent (one_process ∅) 9) Hi)).
  - assert (~ (0 <= 16 <= IRQ_MAX)) as Hi by (unfold IRQ_MAX; lia).
    exact (proj1 (proj2 (proj2 (irq_lines_independent (one_process ∅) 16) Hi))).
Defined.

(** The command words of the two controllers, in the order they are written. *)
Definition init_words : list io_event :=
  [Outb 0xA1 0xFF; Outb 0x21 0xFF; Outb 0xA1 0x01; Outb 0x21 0x01; Outb 0xA1 0x02; Outb 0x21 0x04;
   Outb 0xA1 0x28; Outb 0x21 0x20; Outb 0xA0 0x11; Outb 0x20 0x11].

(** i8259_init writes the four command words to both controllers and leaves
    every line masked. *)
Theorem i8259_init_masks_all s :
  exists s', i8259_init s = Ok (tt, s') /\ get trace s' = init_words ++ get trace s /\
    forall n, 0 <= n <= IRQ_MAX -> irq_masked s' n = true.
Proof.
  eexists. split; [reflexivity|]. split; [reflexivity|]. unfold IRQ_MAX. intros n Hn.
  assert (forall k, 0 <= k < 8 -> Z.testbit 255 k = true) as Hones
    by (intros; apply (Z.ones_spec_low 8); lia).
  unfold irq_masked. destruct (Z.ltb_spec n 8).
  - match goal with |- Z.testbit ?x n = true => change x with 255 end. apply Hones. lia.
  - match goal with |- Z.testbit ?x _ = true => change x with 255 end. apply Hones. lia.
Qed.

(** Send_eoi acknowledges a line of the first controller with one specific
    end of interrupt, and a line of the second controller with one on each. *)
Theorem send_eoi_acknowledges s i :
  0 <= i <= IRQ_MAX ->
  send_eoi i s = Ok (tt, set trace
    ((if i <? 8 then [Outb 0x20 (0x60 + i)] else [Outb 0xA0 (0x60 + (i - 8)); Outb 0x20 0x62])
       ++ get trace s) s).
Proof.
  unfold IRQ_MAX. intros Hi.
  assert (i = 0 \/ i = 1 \/ i = 2 \/ i = 3 \/ i = 4 \/ i = 5 \/ i = 6 \/ i = 7 \/ i = 8 \/ i = 9 \/ i = 10 \/
    i = 11 \/ i = 12 \/ i = 13 \/ i = 14 \/ i = 15) as Hcases by lia.
  repeat destruct Hcases as [->|Hcases]; try reflexivity. subst i. reflexivity.
Qed.

Lemma send_eoi_acknowledges_witness :
  send_eoi 8 (one_process ∅) = Ok (tt, set trace [Outb 0xA0 0x60; Outb 0x20 0x62] (one_process ∅)).
Proof. apply (send_eoi_acknowledges (one_process ∅) 8). unfold IRQ_MAX. lia. Defined.
