(* ===== verification/Screen.v ===== *)
(** * lib.c: the text screen, and formatted output

    The VGA page at [VIDEO] shows the current terminal; the three pages after
    it hold the screens of the three terminals.  [putc] writes to the page of
    the calling process's terminal and to the display when that terminal is
    shown; [KBputc] echoes a key on the display. *)

From S2P Require Import Prelude Memory Lib Filesystem Machine.

(** ** Constants *)

Definition NUM_COLS : Z := 80.
Definition NUM_ROWS : Z := 25.
Definition ATTRIB : Z := 7.
Definition VGA_ADDRESS : Z := 0x3d4.
Definition VGA_DATA : Z := 0x3d5.
Definition CURS_HI : Z := 0x0e.
Definition CURS_LO : Z := 0x0f.

(** ASCII codes of the character constants used below. *)
Definition ch_newline : Z := 10.
Definition ch_return : Z := 13.
Definition ch_space : Z := 32.
Definition ch_percent : Z := 37.
Definition ch_sharp : Z := 35.
Definition ch_minus : Z := 45.
Definition ch_0 : Z := 48.
Definition ch_x : Z := 120.
Definition ch_u : Z := 117.
Definition ch_d : Z := 100.
Definition ch_c : Z := 99.
Definition ch_s : Z := 115.

(** ** Operations *)

(** A byte store by the kernel. *)
Definition store (a v : Z) : K unit := vm (st8 a v).

Definition load8 (a : Z) : K Z := vm (ld8 a).

(** [l[i]++] and [l[i]--] on an array of ints. *)
Definition incr_at (l : lens machine (list Z)) (i : Z) : K unit :=
  v ← rd_at l i; wr_at l i (v + 1).

Definition decr_at (l : lens machine (list Z)) (i : Z) : K unit :=
  v ← rd_at l i; wr_at l i (v - 1).

Definition set_cursor (x y : Z) : K unit :=
  let pos := u16 (y * NUM_COLS + x) in
  outb CURS_LO VGA_ADDRESS ;;;
  outb (u8 (Z.land pos 0xff)) VGA_DATA ;;;
  outb CURS_HI VGA_ADDRESS ;;;
  outb (u8 (Z.land (Z.shiftr pos 8) 0xff)) VGA_DATA.

(** The page of terminal [t]. *)
Definition terminal_page (t : Z) : Z := VIDEO + (t + 1) * FOUR_KB.

Definition text_shift_up (terminalNum : Z) : K unit :=
  vm (memmove (terminal_page terminalNum) (terminal_page terminalNum + Z.shiftl NUM_COLS 1)
        (Z.shiftl (NUM_COLS * (NUM_ROWS - 1)) 1)) ≫= fun _ =>
  ct ← rd currentTerminal;
  (if terminalNum =? ct
   then vm (memmove VIDEO (VIDEO + Z.shiftl NUM_COLS 1) (Z.shiftl (NUM_COLS * (NUM_ROWS - 1)) 1))
        ≫= fun _ => mret tt
   else mret tt) ;;;
  for_ 80 0 (fun k =>
    let i := NUM_COLS - 1 - k in
    store (terminal_page terminalNum + Z.shiftl (i + NUM_COLS * (NUM_ROWS - 1)) 1) ch_space ;;;
    ct ← rd currentTerminal;
    when (terminalNum =? ct)
      (store (VIDEO + Z.shiftl (i + NUM_COLS * (NUM_ROWS - 1)) 1) ch_space)).

Definition back_char : K unit :=
  ct ← rd currentTerminal;
  x ← rd_at screen_x ct;
  if x =? 0 then
    y ← rd_at screen_y ct;
    if y =? 0 then mret tt
    else decr_at screen_y ct ;;; wr_at screen_x ct (NUM_COLS - 1)
  else
    decr_at screen_x ct ;;;
    x ← rd_at screen_x ct; y ← rd_at screen_y ct;
    set_cursor x y.

(** Both put functions advance the cursor of a terminal and scroll it. *)
Definition KBputc (c : Z) : K unit :=
  ct ← rd currentTerminal;
  (if (c =? ch_newline) || (c =? ch_return) then
     incr_at screen_y ct ;;; wr_at screen_x ct 0
   else
     y ← rd_at screen_y ct; x ← rd_at screen_x ct;
     store (VIDEO + Z.shiftl (NUM_COLS * y + x) 1) c ;;;
     store (VIDEO + Z.shiftl (NUM_COLS * y + x) 1 + 1) ATTRIB ;;;
     incr_at screen_x ct ;;;
     x ← rd_at screen_x ct; wr_at screen_x ct (Z.rem x NUM_COLS) ;;;
     x ← rd_at screen_x ct;
     when (x =? 0) (incr_at screen_y ct)) ;;;
  y ← rd_at screen_y ct;
  when (NUM_ROWS <=? y) (text_shift_up ct ;;; decr_at screen_y ct) ;;;
  x ← rd_at screen_x ct; y ← rd_at screen_y ct;
  set_cursor x y.

Definition erase_char : K unit := back_char ;;; KBputc ch_space ;;; back_char.

Definition clear : K unit :=
  ct ← rd currentTerminal;
  wr_at screen_y ct 0 ;;; wr_at screen_x ct 0 ;;;
  for_ 2000 0 (fun i =>
    store (VIDEO + Z.shiftl i 1) ch_space ;;;
    store (VIDEO + Z.shiftl i 1 + 1) ATTRIB) ;;;
  x ← rd_at screen_x ct; y ← rd_at screen_y ct;
  set_cursor x y.

Definition putc (c : Z) : K unit :=
  process_terminal ← cur_terminal;
  (if (c =? ch_newline) || (c =? ch_return) then
     incr_at screen_y process_terminal ;;; wr_at screen_x process_terminal 0
   else
     y ← rd_at screen_y process_terminal; x ← rd_at screen_x process_terminal;
     let off := Z.shiftl (NUM_COLS * y + x) 1 in
     store (terminal_page process_terminal + off) c ;;;
     store (terminal_page process_terminal + off + 1) ATTRIB ;;;
     ct ← rd currentTerminal;
     when (process_terminal =? ct)
       (store (VIDEO + off) c ;;; store (VIDEO + off + 1) ATTRIB) ;;;
     incr_at screen_x process_terminal ;;;
     x ← rd_at screen_x process_terminal;
     wr_at screen_x process_terminal (Z.rem x NUM_COLS) ;;;
     x ← rd_at screen_x process_terminal;
     when (x =? 0) (incr_at screen_y process_terminal)) ;;;
  y ← rd_at screen_y process_terminal;
  when (NUM_ROWS <=? y) (text_shift_up process_terminal ;;; decr_at screen_y process_terminal) ;;;
  ct ← rd currentTerminal;
  if process_terminal =? ct then
    x ← rd_at screen_x process_terminal; y ← rd_at screen_y process_terminal;
    set_cursor x y
  else mret tt.

Definition test_interrupts : K unit :=
  for_ 2000 0 (fun i =>
    v ← load8 (VIDEO + Z.shiftl i 1); store (VIDEO + Z.shiftl i 1) (v + 1)).

Definition puts_step (s index : Z) : K (Z + Z) :=
  c ← load8 (s + index);
  if c =? 0 then mret (inr index) else putc c ;;; mret (inl (index + 1)).

Definition puts (s : Z) : K Z := loop (puts_step s) 0.

(** ** printf

    The arguments after the format are the words above it on the stack, here a
    list; [conv_buf] is a local array. *)

Definition conv_buf : Z := local_array 0.

(** The next argument word. *)
Definition next_arg (args : list Z) : K (Z * list Z) :=
  match args with
  | v :: rest => mret (v, rest)
  | [] => fail OutOfBounds
  end.

Definition pad_step (i : Z) : K (Z + unit) :=
  if i <? 8 then store (conv_buf + i) ch_0 ;;; mret (inl (i + 1)) else mret (inr tt).

(** [%#x]: the address of the padded number in [conv_buf]. *)
Definition format_hex_alternate (v : Z) : K Z :=
  vm (itoa v (conv_buf + 8) 16) ≫= fun _ =>
  starting_index ← vm (strlen (conv_buf + 8));
  loop pad_step starting_index ;;;
  mret (conv_buf + starting_index).

(** [%d]: the address of the number in [conv_buf]. *)
Definition format_signed (v : Z) : K Z :=
  (if s32 v <? 0
   then store conv_buf ch_minus ;;; vm (itoa (u32 (- s32 v)) (conv_buf + 1) 10)
   else vm (itoa (u32 (s32 v)) conv_buf 10)) ≫= fun _ =>
  mret conv_buf.

(** The conversion after a percent sign, at [buf]; [alternate] after a sharp.
    Returns the position of the conversion character and the arguments left. *)
Definition printf_conv_step (r : Z * bool * list Z)
  : K ((Z * bool * list Z) + (Z * list Z)) :=
  let '(buf, alternate, args) := r in
  c ← load8 buf;
  if c =? ch_percent then putc ch_percent ;;; mret (inr (buf, args))
  else if c =? ch_sharp then mret (inl (buf + 1, true, args))
  else if c =? ch_x then
    a ← next_arg args;
    let '(v, rest) := a in
    p ← (if (alternate : bool) then format_hex_alternate (u32 v)
         else vm (itoa (u32 v) conv_buf 16) ≫= fun _ => mret conv_buf);
    puts p ≫= fun _ => mret (inr (buf, rest))
  else if c =? ch_u then
    a ← next_arg args;
    let '(v, rest) := a in
    vm (itoa (u32 v) conv_buf 10) ≫= fun _ =>
    puts conv_buf ≫= fun _ => mret (inr (buf, rest))
  else if c =? ch_d then
    a ← next_arg args;
    let '(v, rest) := a in
    p ← format_signed v; puts p ≫= fun _ => mret (inr (buf, rest))
  else if c =? ch_c then
    a ← next_arg args;
    let '(v, rest) := a in
    putc (u8 v) ;;; mret (inr (buf, rest))
  else if c =? ch_s then
    a ← next_arg args;
    let '(v, rest) := a in
    puts v ≫= fun _ => mret (inr (buf, rest))
  else mret (inr (buf, args)).

Definition printf_step (r : Z * list Z) : K ((Z * list Z) + Z) :=
  let '(buf, args) := r in
  c ← load8 buf;
  if c =? 0 then mret (inr buf)
  else if c =? ch_percent then
    r ← loop printf_conv_step (buf + 1, false, args);
    let '(buf, args) := r in
    mret (inl (buf + 1, args))
  else putc c ;;; mret (inl (buf + 1, args)).

Definition printf (format : Z) (args : list Z) : K Z :=
  buf ← loop printf_step (format, args);
  mret (buf - format).

(** ** Specification *)

(** The byte at a physical address. *)
Definition byte (s : machine) (a : Z) : Z := peek (get mem s) a.

(** The text pages are mapped at their physical addresses. *)
Definition video_mapped (s : machine) : Prop :=
  forall a, VIDEO <= a < VIDEO + 4 * FOUR_KB -> translate (get pag s) a = Some a.

(** The cursors are inside the screen and a terminal is shown. *)
Record screen_ok (s : machine) : Prop := {
  so_x : length (get screen_x s) = 3%nat;
  so_y : length (get screen_y s) = 3%nat;
  so_ct : 0 <= get currentTerminal s < NUM_TERMINALS;
  so_xr : forall i v, at_ (get screen_x s) i = Some v -> 0 <= v < NUM_COLS;
  so_yr : forall i v, at_ (get screen_y s) i = Some v -> 0 <= v < NUM_ROWS
}.

(** The port inputs of a history. *)
Fixpoint inputs (tr : list io_event) : list io_event :=
  match tr with
  | [] => []
  | Inb port v :: tr' => Inb port v :: inputs tr'
  | _ :: tr' => inputs tr'
  end.

(** Only cursors, port outputs, and the bytes of [R] differ. *)
Record screen_frame (R : Z -> Prop) (s0 s : machine) : Prop := {
  sf_kbd : get kbd s = get kbd s0;
  sf_prc : get prc s = get prc s0;
  sf_sch : get sch s = get sch s0;
  sf_pag : get pag s = get pag s0;
  sf_irqc : get irqc s = get irqc s0;
  sf_fs : get fs_ptrs s = get fs_ptrs s0;
  sf_device : get device s = get device s0;
  sf_pending : get pending s = get pending s0;
  sf_if : get eflags_if s = get eflags_if s0;
  sf_ct : get currentTerminal s = get currentTerminal s0;
  sf_inputs : inputs (get trace s) = inputs (get trace s0);
  sf_mem : forall a, ~ R a -> byte s a = byte s0 a
}.

(** The bytes that output on terminal [t] may change: its page, and the display
    when [t] is shown. *)
Definition screen_cells (s : machine) (t a : Z) : Prop :=
  terminal_page t <= a < terminal_page t + FOUR_KB \/
  (t = get currentTerminal s /\ VIDEO <= a < VIDEO + FOUR_KB).

(** During output on terminal [t] started in [s0]: the cursor of [t] is [(x, y)]. *)
Record output_inv (t : Z) (s0 : machine) (x y : Z) (s : machine) : Prop := {
  oi_frame : screen_frame (screen_cells s0 t) s0 s;
  oi_lx : length (get screen_x s) = 3%nat;
  oi_ly : length (get screen_y s) = 3%nat;
  oi_x : at_ (get screen_x s) t = Some x;
  oi_y : at_ (get screen_y s) t = Some y;
  oi_ox : forall i, i <> t -> at_ (get screen_x s) i = at_ (get screen_x s0) i;
  oi_oy : forall i, i <> t -> at_ (get screen_y s) i = at_ (get screen_y s0) i
}.

(** *** The abstract teletype

    A terminal is a cursor and 2000 character cells, in reading order. *)
Record tty := Tty { tty_x : Z; tty_y : Z; tty_cell : Z -> Z }.

Definition tty_write (c : Z) (a : tty) : tty :=
  Tty (tty_x a) (tty_y a)
    (fun pos => if pos =? NUM_COLS * tty_y a + tty_x a then u8 c else tty_cell a pos).

(** The cursor moves right, and at the end of a row to the next row. *)
Definition tty_advance (a : tty) : tty :=
  if tty_x a =? NUM_COLS - 1 then Tty 0 (tty_y a + 1) (tty_cell a)
  else Tty (tty_x a + 1) (tty_y a) (tty_cell a).

Definition tty_newline (a : tty) : tty := Tty 0 (tty_y a + 1) (tty_cell a).

(** Below the last row the text moves up one row and a blank row appears. *)
Definition tty_scroll (a : tty) : tty :=
  if NUM_ROWS <=? tty_y a then
    Tty (tty_x a) (tty_y a - 1)
      (fun pos => if pos <? NUM_COLS * (NUM_ROWS - 1) then tty_cell a (pos + NUM_COLS) else ch_space)
  else a.

Definition tty_put (c : Z) (a : tty) : tty :=
  tty_scroll
    (if (c =? ch_newline) || (c =? ch_return) then tty_newline a
     else tty_advance (tty_write c a)).

(** The text page at [p] shows the cells [f]. *)
Definition shows (s : machine) (p : Z) (f : Z -> Z) : Prop :=
  forall pos, 0 <= pos < NUM_COLS * NUM_ROWS -> byte s (p + 2 * pos) = f pos.

(** The text pages of terminal [t]. *)
Definition page_of (s : machine) (t p : Z) : Prop :=
  p = terminal_page t \/ (t = get currentTerminal s /\ p = VIDEO).

(** ** Lemmas *)

Lemma screen_frame_refl R s : screen_frame R s s.
Proof. done. Qed.

Lemma screen_frame_trans R s1 s2 s3 :
  screen_frame R s1 s2 -> screen_frame R s2 s3 -> screen_frame R s1 s3.
Proof.
  intros [] []. split; try congruence.
  intros a Ha. transitivity (byte s2 a); auto.
Qed.

Lemma screen_frame_mono (R R' : Z -> Prop) s1 s2 :
  (forall a, R a -> R' a) -> screen_frame R s1 s2 -> screen_frame R' s1 s2.
Proof. intros HR []. split; eauto. Qed.

Lemma store_run s a v :
  translate (get pag s) a = Some a ->
  store a v s = Ok (tt, set mem (poke (get mem s) a (u8 v)) s).
Proof.
  intros Ht. unfold store. by erewrite vm_run; [|apply st8_run; exact Ht].
Qed.

Lemma byte_set_mem s a v b :
  byte (set mem (poke (get mem s) a v) s) b = if decide (a = b) then u8 v else byte s b.
Proof.
  unfold byte. lsimpl. case_decide as E; [subst|]; [apply peek_poke_eq|by apply peek_poke_ne].
Qed.

(** *** Stored blocks *)

(** Bytes stored from [buf] on. *)
Definition write_out (buf : Z) (l : list Z) (s : machine) : machine :=
  set mem (vm_phys (write_bytes (view s) buf l)) s.

Lemma write_bytes_paging (m : vmem) a l : vm_paging (write_bytes m a l) = vm_paging m.
Proof.
  revert m a. induction l as [|v l IH]; intros m a; simpl; [done|].
  destruct (translate (vm_paging m) a); by rewrite IH.
Qed.

Lemma write_out_view buf l s : view (write_out buf l s) = write_bytes (view s) buf l.
Proof.
  unfold write_out, view at 1. lsimpl. change (get pag s) with (vm_paging (view s)).
  rewrite <- (write_bytes_paging (view s) buf l). by destruct (write_bytes _ _ _).
Qed.

Lemma write_out_snoc buf l c s :
  write_out (buf + Z.of_nat (length l)) [c] (write_out buf l s) = write_out buf (l ++ [c]) s.
Proof.
  unfold write_out at 1. rewrite write_out_view. unfold write_out. by rewrite write_bytes_app.
Qed.

Lemma store_out a c s : mapped (view s) a 1 -> store a c s = Ok (tt, write_out a [c] s).
Proof. intros H. unfold store. by erewrite vm_run; [|apply st8_write]. Qed.

(** A stored byte is read back. *)
Lemma store_read a c s :
  mapped (view s) a 1 -> 0 <= c < 256 -> load8 a (write_out a [c] s) = Ok (c, write_out a [c] s).
Proof.
  intros Hm Hc. unfold load8. apply vm_pure. rewrite write_out_view. apply ld8_run.
  destruct (Hm 0) as [cl Hcl]; [lia|]. rewrite Z.add_0_r in Hcl. cbn [write_bytes]. rewrite Hcl.
  rewrite load_poke_eq by done. by rewrite !u8_small by (try apply u8_range; lia).
Qed.

Lemma mapped_write_out a n buf l s : mapped (view s) a n -> mapped (view (write_out buf l s)) a n.
Proof.
  intros H i Hi. destruct (H i Hi) as [c Hc]. exists c. by rewrite write_out_view, cell_write_bytes.
Qed.

(** Only the local arrays of C functions differ. *)
Record locals_only (s s' : machine) : Prop := {
  lo_mem : s' = set mem (get mem s') s;
  lo_byte : forall c, ~ (2 ^ 32 <= c < 2 ^ 33) -> byte s' c = byte s c
}.

(** No address below [2 ^ 32] reaches a local array. *)
Definition locals_apart (s : machine) : Prop :=
  forall a c, a < 2 ^ 32 -> translate (get pag s) a = Some c -> c < 2 ^ 32.

Lemma locals_refl s : locals_only s s.
Proof. split; [by destruct s|done]. Qed.

Lemma locals_trans s1 s2 s3 : locals_only s1 s2 -> locals_only s2 s3 -> locals_only s1 s3.
Proof.
  intros [E1 H1] [E2 H2]. split; [rewrite E2, E1; reflexivity|]. intros c Hc. by rewrite H2, H1.
Qed.

Lemma locals_pag s s' : locals_only s s' -> get pag s' = get pag s.
Proof. intros [-> _]. done. Qed.

Lemma locals_load s s' a :
  locals_only s s' -> locals_apart s -> a < 2 ^ 32 -> load (view s') a = load (view s) a.
Proof.
  intros H Hap Ha. unfold load. change (cell (view s') a) with (translate (get pag s') a).
  change (cell (view s) a) with (translate (get pag s) a). rewrite (locals_pag _ _ H).
  destruct (translate (get pag s) a) as [c|] eqn:E; [|done]. simpl. f_equal.
  change (byte s' c = byte s c). apply (lo_byte _ _ H). apply Hap in E; lia.
Qed.

Lemma locals_bytes s s' a l :
  locals_only s s' -> locals_apart s -> a + Z.of_nat (length l) <= 2 ^ 32 ->
  bytes_at (view s) a l -> bytes_at (view s') a l.
Proof.
  intros H Hap Ha Hb i v Hi. rewrite (locals_load s s'); [by apply Hb|done|done|].
  apply lookup_lt_Some in Hi. lia.
Qed.

Lemma write_out_locals a l s :
  2 ^ 32 <= a -> a + Z.of_nat (length l) <= 2 ^ 33 -> locals_only s (write_out a l s).
Proof.
  intros Ha Hl. split; [done|]. intros c Hc. unfold byte, write_out. lsimpl.
  change (peek (write_bytes (view s) a l) c = peek (view s) c).
  apply (write_bytes_frame (view s) a l). intros i Hi.
  change (translate (get pag s) (a + i) <> Some c). unfold translate.
  destruct (Z.leb_spec (2 ^ 32) (a + i)); [|lia]. intros [= ?]. lia.
Qed.

Lemma locals_frame s s' : locals_only s s' -> frame (view s) (view s') (2 ^ 32) (2 ^ 32).
Proof.
  intros H. split.
  - intros b. change (translate (get pag s') b = translate (get pag s) b). by rewrite (locals_pag _ _ H).
  - intros c Hc. apply (lo_byte _ _ H). intros Hr. apply (Hc (c - 2 ^ 32)); [lia|].
    change (translate (get pag s) (2 ^ 32 + (c - 2 ^ 32)) = Some c). unfold translate.
    destruct (Z.leb_spec (2 ^ 32) (2 ^ 32 + (c - 2 ^ 32))); [|lia]. f_equal. lia.
Qed.

Lemma locals_separate s a n :
  locals_apart s -> a + n <= 2 ^ 32 -> separate (view s) (2 ^ 32) (2 ^ 32) a n.
Proof.
  intros Hap Ha i j c Hi Hj H1 H2. change (translate (get pag s) (2 ^ 32 + i) = Some c) in H1.
  change (translate (get pag s) (a + j) = Some c) in H2. apply Hap in H2; [|lia].
  unfold translate in H1. destruct (Z.leb_spec (2 ^ 32) (2 ^ 32 + i)); [injection H1; lia|lia].
Qed.

Lemma locals_fs s s' size im :
  locals_only s s' -> locals_apart s -> fs_rep (view s) (get fs_ptrs s) size im ->
  fs_rep (view s') (get fs_ptrs s') size im.
Proof.
  intros H Hap Hrep. rewrite (lo_mem _ _ H). change (fs_rep (view (set mem (get mem s') s)) (get fs_ptrs s) size im).
  rewrite <- (lo_mem _ _ H). eapply fs_rep_frame; [exact Hrep|by apply locals_frame|].
  apply locals_separate; [done|]. pose proof (fr_bounds _ _ _ _ Hrep). rewrite (fr_base _ _ _ _ Hrep). lia.
Qed.

(** *** Output *)

Section output.
Context (t : Z) (s0 : machine).
Hypothesis Hok : screen_ok s0.
Hypothesis Hvid : video_mapped s0.
Hypothesis Ht : 0 <= t < NUM_TERMINALS.

Lemma output_start x y :
  at_ (get screen_x s0) t = Some x -> at_ (get screen_y s0) t = Some y ->
  output_inv t s0 x y s0.
Proof using Hok. destruct Hok. split; [apply screen_frame_refl|done..]. Qed.

(** A step that only changes bytes of the terminal. *)
Lemma output_mem x y s s' :
  output_inv t s0 x y s -> screen_frame (screen_cells s0 t) s s' ->
  get screen_x s' = get screen_x s -> get screen_y s' = get screen_y s ->
  output_inv t s0 x y s'.
Proof using Type.
  intros [] Hf Hx Hy. split; rewrite ?Hx, ?Hy; [|done..]. by eapply screen_frame_trans.
Qed.

Lemma screen_cells_range s a :
  screen_cells s t a -> VIDEO <= a < VIDEO + 4 * FOUR_KB.
Proof using Ht. unfold screen_cells, terminal_page, FOUR_KB, NUM_TERMINALS in *. lia. Qed.

Lemma output_store x y s a v (Q : unit -> machine -> Prop) :
  output_inv t s0 x y s -> screen_cells s0 t a ->
  (forall s', output_inv t s0 x y s' ->
     (forall b, byte s' b = if decide (a = b) then u8 v else byte s b) -> Q tt s') ->
  wp (store a v) Q s.
Proof using Hvid Ht.
  intros Hinv Ha HQ. eapply wp_run.
  - apply store_run. rewrite (sf_pag _ _ _ (oi_frame _ _ _ _ _ Hinv)).
    apply Hvid. by apply (screen_cells_range s0).
  - assert (forall b, byte (set mem (poke (get mem s) a (u8 v)) s) b =
      if decide (a = b) then u8 v else byte s b) as Hb.
    { intros b. rewrite byte_set_mem, (u8_small (u8 v)) by apply u8_range. done. }
    apply HQ; [|done]. eapply output_mem; [done| |done|done].
    split; try done. intros b Hn. rewrite Hb. rewrite decide_False; [done|]. by intros ->.
Qed.

Lemma output_wr_x x y s x' (Q : unit -> machine -> Prop) :
  output_inv t s0 x y s ->
  (forall s', output_inv t s0 x' y s' -> (forall b, byte s' b = byte s b) -> Q tt s') ->
  wp (wr_at screen_x t x') Q s.
Proof using Ht.
  unfold NUM_TERMINALS in Ht. intros [] HQ. apply wp_wr_at; [lia|]. apply HQ; [|done]. split; lsimpl.
  - eapply screen_frame_trans; [done|]. done.
  - by rewrite length_upd.
  - done.
  - apply at_upd_eq. lia.
  - done.
  - intros i ?. rewrite at_upd_ne by (done || lia). auto.
  - done.
Qed.

Lemma output_wr_y x y s y' (Q : unit -> machine -> Prop) :
  output_inv t s0 x y s ->
  (forall s', output_inv t s0 x y' s' -> (forall b, byte s' b = byte s b) -> Q tt s') ->
  wp (wr_at screen_y t y') Q s.
Proof using Ht.
  unfold NUM_TERMINALS in Ht. intros [] HQ. apply wp_wr_at; [lia|]. apply HQ; [|done]. split; lsimpl.
  - eapply screen_frame_trans; [done|]. done.
  - done.
  - by rewrite length_upd.
  - done.
  - apply at_upd_eq. lia.
  - done.
  - intros i ?. rewrite at_upd_ne by (done || lia). auto.
Qed.

Lemma output_rd_x x y s (Q : Z -> machine -> Prop) :
  output_inv t s0 x y s -> Q x s -> wp (rd_at screen_x t) Q s.
Proof using Type. intros [] HQ. eapply wp_run; [by apply rd_at_run|done]. Qed.

Lemma output_rd_y x y s (Q : Z -> machine -> Prop) :
  output_inv t s0 x y s -> Q y s -> wp (rd_at screen_y t) Q s.
Proof using Type. intros [] HQ. eapply wp_run; [by apply rd_at_run|done]. Qed.

Lemma output_set_cursor x y s a b (Q : unit -> machine -> Prop) :
  output_inv t s0 x y s ->
  (forall s', output_inv t s0 x y s' -> (forall c, byte s' c = byte s c) -> Q tt s') ->
  wp (set_cursor a b) Q s.
Proof using Type.
  intros Hinv HQ. unfold set_cursor, outb. autorewrite with wp. apply HQ; [|done].
  eapply output_mem; [exact Hinv| |done|done]. done.
Qed.

(** The memory after the block move of a scroll. *)
Definition scrolled (s : machine) (d : Z) : vmem :=
  write_bytes (view s) d (read_bytes (view s) (d + 160) 3840).

Lemma scrolled_frame s d : frame (view s) (scrolled s d) d 3840.
Proof using Type.
  pose proof (write_bytes_frame (view s) d (read_bytes (view s) (d + 160) 3840)) as Hf.
  by rewrite length_read_bytes in Hf.
Qed.

Lemma scrolled_byte s d b :
  (forall a, d <= a < d + 4000 -> cell (view s) a = Some a) ->
  peek (scrolled s d) b = if decide (d <= b < d + 3840) then byte s (b + 160) else byte s b.
Proof using Type.
  intros Hcell. pose proof (scrolled_frame s d) as [_ Hp]. case_decide as Hd.
  - apply (peek_write_bytes (view s) d (read_bytes (view s) (d + 160) 3840) (Z.to_nat (b - d)));
      rewrite ?length_read_bytes.
    + intros i ?. exists (d + i). apply Hcell. lia.
    + intros i j c ? ? H1 H2. rewrite Hcell in H1, H2 by lia. injection H1 as <-. injection H2. lia.
    + apply read_bytes_range.
    + rewrite read_bytes_lookup, Z2Nat.id by lia. unfold load.
      replace (d + 160 + (b - d)) with (b + 160) by lia. by rewrite Hcell by lia.
    + rewrite Z2Nat.id by lia. replace (d + (b - d)) with b by lia. apply Hcell. lia.
  - apply Hp. intros i ?. rewrite Hcell by lia. intros [= ?]. lia.
Qed.

Lemma scroll_memmove_run s d :
  (forall a, d <= a < d + 4000 -> cell (view s) a = Some a) ->
  memmove d (d + 160) 3840 (view s) = Ok (d, scrolled s d).
Proof using Type.
  intros Hcell. apply (memmove_run (view s) d (d + 160) 3840); [| | | |done].
  - intros i ?. exists (d + i). apply Hcell. lia.
  - intros i ?. exists (d + 160 + i). apply Hcell. lia.
  - intros i j c ? ? H1 H2. rewrite Hcell in H1, H2 by lia. injection H1 as <-. injection H2. lia.
  - intros i j c ? ? H1 H2. rewrite Hcell in H1, H2 by lia. injection H1 as <-. injection H2. lia.
Qed.

Lemma byte_vm s m a : byte (set mem (vm_phys m) s) a = peek m a.
Proof using Type. done. Qed.

#[local] Opaque scrolled.

(** Scrolling rows up: a block move inside a page. *)
Lemma output_memmove x y s d (Q : Z -> machine -> Prop) :
  output_inv t s0 x y s ->
  (forall a, d <= a < d + 4000 -> screen_cells s0 t a) ->
  (forall s', output_inv t s0 x y s' ->
     (forall b, byte s' b = if decide (d <= b < d + 3840) then byte s (b + 160) else byte s b) -> Q d s') ->
  wp (vm (memmove d (d + 160) 3840)) Q s.
Proof using Hvid Ht.
  intros Hinv Hcells HQ.
  assert (forall a, d <= a < d + 4000 -> cell (view s) a = Some a) as Hcell.
  { intros a ?. unfold cell, view. simpl. rewrite (sf_pag _ _ _ (oi_frame _ _ _ _ _ Hinv)).
    apply Hvid. by apply (screen_cells_range s0), Hcells. }
  eapply wp_run; [apply vm_run; by apply scroll_memmove_run|].
  apply HQ.
  - eapply output_mem; [done| |done|done]. split; try done.
    intros a Ha. rewrite byte_vm, scrolled_byte, decide_False; [done| |done].
    intros ?. apply Ha, Hcells. lia.
  - intros b. rewrite byte_vm. by apply scrolled_byte.
Qed.

Lemma page_cells p a : page_of s0 t p -> p <= a < p + FOUR_KB -> screen_cells s0 t a.
Proof using Type. intros [Hp|[Hc Hp]] Ha; unfold screen_cells; rewrite Hp in Ha; auto. Qed.

Lemma page_disjoint p q : page_of s0 t p -> page_of s0 t q -> p = q \/ p + FOUR_KB <= q \/ q + FOUR_KB <= p.
Proof using Ht. unfold page_of, terminal_page, FOUR_KB, NUM_TERMINALS in *. lia. Qed.

Lemma shiftl1 i : Z.shiftl i 1 = 2 * i.
Proof using Type. rewrite Z.shiftl_mul_pow2 by lia. lia. Qed.

(** A byte store, for what a page shows. *)
Lemma shows_store s s' p q off v f :
  page_of s0 t p -> page_of s0 t q -> 0 <= off < FOUR_KB ->
  (forall b, byte s' b = if decide (q + off = b) then v else byte s b) ->
  shows s p f ->
  shows s' p (fun pos => if decide (p = q /\ 2 * pos = off) then v else f pos).
Proof using Ht.
  intros Hp Hq Hoff Hb Hs pos Hpos. pose proof (page_disjoint p q Hp Hq).
  unfold NUM_COLS, NUM_ROWS, FOUR_KB in *. rewrite Hb. repeat case_decide; try lia. by apply Hs.
Qed.

Lemma shows_ext s p f g :
  shows s p f -> (forall pos, 0 <= pos < NUM_COLS * NUM_ROWS -> f pos = g pos) -> shows s p g.
Proof using Type. intros Hs Hfg pos Hpos. rewrite <- Hfg by done. by apply Hs. Qed.

Lemma shows_same s s' p f : shows s p f -> (forall b, byte s' b = byte s b) -> shows s' p f.
Proof using Type. intros Hs Hb pos Hpos. rewrite Hb. by apply Hs. Qed.

(** What a page shows after the block move. *)
Lemma shows_move s s' p q f :
  page_of s0 t p -> page_of s0 t q ->
  (forall b, byte s' b = if decide (q <= b < q + 3840) then byte s (b + 160) else byte s b) ->
  shows s p f ->
  shows s' p (fun pos => if decide (p = q /\ pos < 1920) then f (pos + 80) else f pos).
Proof using Ht.
  intros Hp Hq Hb Hs pos Hpos. pose proof (page_disjoint p q Hp Hq).
  unfold shows, NUM_COLS, NUM_ROWS, FOUR_KB in *. rewrite Hb. repeat case_decide; try lia.
  - replace (p + 2 * pos + 160) with (p + 2 * (pos + 80)) by lia. apply Hs. lia.
  - by apply Hs.
Qed.

(** Blanking the bottom row, from the right. *)
Lemma output_blank_row x y s p f (Q : unit -> machine -> Prop) :
  output_inv t s0 x y s -> page_of s0 t p -> shows s p f ->
  (forall s', output_inv t s0 x y s' ->
     shows s' p (fun pos => if pos <? 1920 then f pos else ch_space) -> Q tt s') ->
  wp (for_ 80 0 (fun k =>
    let i := NUM_COLS - 1 - k in
    store (terminal_page t + Z.shiftl (i + NUM_COLS * (NUM_ROWS - 1)) 1) ch_space ;;;
    ct ← rd currentTerminal;
    when (t =? ct) (store (VIDEO + Z.shiftl (i + NUM_COLS * (NUM_ROWS - 1)) 1) ch_space))) Q s.
Proof using Hvid Ht.
  intros Hinv Hp Hs HQ.
  eapply wp_mono; [apply (wp_for (fun k s' => output_inv t s0 x y s' /\
    shows s' p (fun pos => if decide (2000 - k <= pos) then ch_space else f pos)))|].
  - split; [done|]. eapply shows_ext; [done|]. unfold NUM_COLS, NUM_ROWS. intros. by rewrite decide_False by lia.
  - intros k s1 Hk [Hinv1 Hs1]. cbv beta zeta. rewrite shiftl1. unfold NUM_COLS, NUM_ROWS.
    apply wp_bind. eapply output_store; [done|apply (page_cells (terminal_page t)); [by left|unfold FOUR_KB; lia]|].
    intros s2 Hinv2 Hb2. autorewrite with wp.
    assert (page_of s0 t (terminal_page t)) as Hpt by by left.
    eassert (shows s2 p _) as Hs2
      by (eapply shows_store; [exact Hp|exact Hpt| |exact Hb2|exact Hs1]; unfold FOUR_KB; lia).
    rewrite (sf_ct _ _ _ (oi_frame _ _ _ _ _ Hinv2)). unfold when.
    destruct (Z.eqb_spec t (get currentTerminal s0)) as [E|E].
    + assert (page_of s0 t VIDEO) as Hpv by by right.
      eapply output_store; [done|apply (page_cells VIDEO); [done|unfold FOUR_KB; lia]|].
      intros s3 Hinv3 Hb3. split; [done|].
      eassert (shows s3 p _) as Hs3
        by (eapply shows_store; [exact Hp|exact Hpv| |exact Hb3|exact Hs2]; unfold FOUR_KB; lia).
      eapply shows_ext; [done|]. intros pos ?. change (u8 ch_space) with ch_space.
      repeat case_decide; try done; destruct Hp as [->|[? ->]]; exfalso; lia.
    + apply wp_ret. split; [done|]. eapply shows_ext; [done|]. intros pos ?.
      change (u8 ch_space) with ch_space.
      repeat case_decide; try done; destruct Hp as [->|[? ->]]; exfalso; try lia; done.
  - intros [] s' [Hinv' Hs']. apply HQ; [done|]. eapply shows_ext; [done|].
    unfold NUM_COLS, NUM_ROWS. intros pos ?. simpl. case_decide; destruct (Z.ltb_spec pos 1920); try done; lia.
Qed.

Lemma output_shift_up x y s p f (Q : unit -> machine -> Prop) :
  output_inv t s0 x y s -> page_of s0 t p -> shows s p f ->
  (forall s', output_inv t s0 x y s' ->
     shows s' p (fun pos => if pos <? 1920 then f (pos + 80) else ch_space) -> Q tt s') ->
  wp (text_shift_up t) Q s.
Proof using Hvid Ht.
  intros Hinv Hp Hs HQ. unfold text_shift_up.
  change (Z.shiftl NUM_COLS 1) with 160. change (Z.shiftl (NUM_COLS * (NUM_ROWS - 1)) 1) with 3840.
  assert (page_of s0 t (terminal_page t)) as Hpt by by left.
  apply wp_bind. eapply output_memmove; [done|intros a ?; apply (page_cells (terminal_page t)); [done|unfold FOUR_KB; lia]|].
  intros s1 Hinv1 Hb1. pose proof (shows_move _ _ _ _ _ Hp Hpt Hb1 Hs) as Hs1.
  rewrite wp_bind, wp_rd, wp_bind. rewrite (sf_ct _ _ _ (oi_frame _ _ _ _ _ Hinv1)).
  destruct (Z.eqb_spec t (get currentTerminal s0)) as [E|E].
  - assert (page_of s0 t VIDEO) as Hpv by by right.
    apply wp_bind. eapply output_memmove; [done|intros a ?; apply (page_cells VIDEO); [done|unfold FOUR_KB; lia]|].
    intros s2 Hinv2 Hb2. apply wp_ret. pose proof (shows_move _ _ _ _ _ Hp Hpv Hb2 Hs1) as Hs2.
    eapply output_blank_row; [done|exact Hp|exact Hs2|]. intros s3 Hinv3 Hs3. apply HQ; [done|].
    eapply shows_ext; [exact Hs3|]. intros pos ?. simpl. destruct (Z.ltb_spec pos 1920); [|done].
    assert (terminal_page t <> VIDEO) by (unfold terminal_page, VIDEO, FOUR_KB, NUM_TERMINALS in *; lia).
    destruct Hp as [->|[? ->]]; repeat case_decide; try done; exfalso; lia.
  - apply wp_ret. eapply output_blank_row; [done|exact Hp|exact Hs1|]. intros s3 Hinv3 Hs3. apply HQ; [done|].
    eapply shows_ext; [exact Hs3|]. intros pos ?. simpl. destruct (Z.ltb_spec pos 1920); [|done].
    destruct Hp as [->|[? ->]]; [|done]. rewrite decide_True; [done|]. split; [done|lia].
Qed.

(** Page [p] shows the teletype [a], whose cursor is the cursor of [t]. *)
Definition on_tty (p : Z) (a : tty) (s : machine) : Prop :=
  output_inv t s0 (tty_x a) (tty_y a) s /\ shows s p (tty_cell a).

Lemma output_incr_x x y s (Q : unit -> machine -> Prop) :
  output_inv t s0 x y s ->
  (forall s', output_inv t s0 (x + 1) y s' -> (forall b, byte s' b = byte s b) -> Q tt s') ->
  wp (incr_at screen_x t) Q s.
Proof using Ht.
  intros Hinv HQ. unfold incr_at. apply wp_bind. eapply output_rd_x; [exact Hinv|].
  by eapply output_wr_x.
Qed.

Lemma output_incr_y x y s (Q : unit -> machine -> Prop) :
  output_inv t s0 x y s ->
  (forall s', output_inv t s0 x (y + 1) s' -> (forall b, byte s' b = byte s b) -> Q tt s') ->
  wp (incr_at screen_y t) Q s.
Proof using Ht.
  intros Hinv HQ. unfold incr_at. apply wp_bind. eapply output_rd_y; [exact Hinv|].
  by eapply output_wr_y.
Qed.

Lemma output_scroll p a s (Q : unit -> machine -> Prop) :
  page_of s0 t p -> on_tty p a s -> (forall s', on_tty p (tty_scroll a) s' -> Q tt s') ->
  wp (when (NUM_ROWS <=? tty_y a) (text_shift_up t ;;; decr_at screen_y t)) Q s.
Proof using Hvid Ht.
  intros Hp [Hinv Hs] HQ. unfold tty_scroll in HQ. destruct (NUM_ROWS <=? tty_y a); simpl.
  - apply wp_bind. eapply output_shift_up; [exact Hinv|exact Hp|exact Hs|].
    intros s1 Hinv1 Hs1. unfold decr_at. apply wp_bind. eapply output_rd_y; [exact Hinv1|].
    eapply output_wr_y; [exact Hinv1|]. intros s2 Hinv2 Hb2. apply HQ. split; [exact Hinv2|].
    eapply shows_same; [exact Hs1|exact Hb2].
  - by apply HQ.
Qed.

(** The new-line branch of both put functions. *)
Lemma output_newline p a s (Q : unit -> machine -> Prop) :
  on_tty p a s -> (forall s', on_tty p (tty_newline a) s' -> Q tt s') ->
  wp (incr_at screen_y t ;;; wr_at screen_x t 0) Q s.
Proof using Ht.
  intros [Hinv Hs] HQ. apply wp_bind. eapply output_incr_y; [exact Hinv|].
  intros s1 Hinv1 Hb1. eapply output_wr_x; [exact Hinv1|]. intros s2 Hinv2 Hb2.
  apply HQ. split; [exact Hinv2|]. do 2 (eapply shows_same; [|eassumption]). exact Hs.
Qed.

(** The cursor motion of both put functions. *)
Lemma output_advance p a s (Q : unit -> machine -> Prop) :
  0 <= tty_x a < NUM_COLS -> on_tty p a s -> (forall s', on_tty p (tty_advance a) s' -> Q tt s') ->
  wp (incr_at screen_x t ;;;
      x ← rd_at screen_x t; wr_at screen_x t (Z.rem x NUM_COLS) ;;;
      x ← rd_at screen_x t; when (x =? 0) (incr_at screen_y t)) Q s.
Proof using Ht.
  intros Hx [Hinv Hs] HQ. unfold NUM_COLS in *. apply wp_bind. eapply output_incr_x; [exact Hinv|].
  intros s1 Hinv1 Hb1. apply wp_bind. eapply output_rd_x; [exact Hinv1|].
  apply wp_bind. eapply output_wr_x; [exact Hinv1|]. intros s2 Hinv2 Hb2.
  apply wp_bind. eapply output_rd_x; [exact Hinv2|]. cbv beta.
  assert (shows s2 p (tty_cell a)) as Hs2 by (do 2 (eapply shows_same; [|eassumption]); exact Hs).
  unfold tty_advance, NUM_COLS in HQ. destruct (Z.eqb_spec (tty_x a) (80 - 1)) as [E|E].
  - rewrite E in *. change (Z.rem (80 - 1 + 1) 80) with 0 in *. simpl.
    eapply output_incr_y; [exact Hinv2|]. intros s3 Hinv3 Hb3. apply HQ. split; [exact Hinv3|].
    by eapply shows_same.
  - rewrite Z.rem_small in * by lia. destruct (Z.eqb_spec (tty_x a + 1) 0); [lia|]. simpl.
    apply wp_ret, HQ. split; [exact Hinv2|exact Hs2].
Qed.

(** Character [c] and its attribute at offset [off] of the page [q]. *)
Lemma output_glyph p q x y s f c off (Q : unit -> machine -> Prop) :
  page_of s0 t p -> page_of s0 t q -> output_inv t s0 x y s -> shows s p f ->
  0 <= off < NUM_COLS * NUM_ROWS ->
  (forall s', output_inv t s0 x y s' ->
     shows s' p (fun pos => if decide (p = q /\ pos = off) then u8 c else f pos) -> Q tt s') ->
  wp (store (q + Z.shiftl off 1) c ;;; store (q + Z.shiftl off 1 + 1) ATTRIB) Q s.
Proof using Hvid Ht.
  intros Hp Hq Hinv Hs Hoff HQ. unfold NUM_COLS, NUM_ROWS in Hoff. rewrite shiftl1.
  apply wp_bind. eapply output_store; [exact Hinv|apply (page_cells q); [exact Hq|unfold FOUR_KB; lia]|].
  intros s1 Hinv1 Hb1.
  eassert (shows s1 p _) as Hs1
    by (eapply shows_store; [exact Hp|exact Hq| |exact Hb1|exact Hs]; unfold FOUR_KB; lia).
  rewrite <- Z.add_assoc.
  eapply output_store; [exact Hinv1|apply (page_cells q); [exact Hq|unfold FOUR_KB; lia]|].
  intros s2 Hinv2 Hb2.
  eassert (shows s2 p _) as Hs2
    by (eapply shows_store; [exact Hp|exact Hq| |exact Hb2|exact Hs1]; unfold FOUR_KB; lia).
  apply HQ; [exact Hinv2|]. eapply shows_ext; [exact Hs2|]. intros pos ?. simpl.
  repeat case_decide; try done; lia.
Qed.
End output.

(** ** The put functions refine the teletype *)

Definition tty_ok (a : tty) : Prop := 0 <= tty_x a < NUM_COLS /\ 0 <= tty_y a < NUM_ROWS.

Lemma tty_put_ok c a : tty_ok a -> tty_ok (tty_put c a).
Proof.
  intros [Hx Hy]. unfold tty_put, tty_scroll, tty_newline, tty_advance, tty_write, tty_ok, NUM_COLS, NUM_ROWS in *.
  destruct a as [x y f]; simpl in *. destruct (_ || _); simpl;
    [|destruct (Z.eqb_spec x (80 - 1)); simpl];
    match goal with |- context [25 <=? ?v] => destruct (Z.leb_spec 25 v) end; simpl; lia.
Qed.

Section putting.
Context (t : Z) (s0 : machine) (p : Z).
Hypothesis Hvid : video_mapped s0.
Hypothesis Ht : 0 <= t < NUM_TERMINALS.
Hypothesis Hp : page_of s0 t p.

(** What follows the glyph or the new line: scrolling. *)
Lemma put_tail a s (k : K unit) (Q : unit -> machine -> Prop) :
  on_tty t s0 p a s ->
  (forall s', on_tty t s0 p (tty_scroll a) s' -> wp k Q s') ->
  wp (y ← rd_at screen_y t;
      when (NUM_ROWS <=? y) (text_shift_up t ;;; decr_at screen_y t) ;;; k) Q s.
Proof using Hvid Ht Hp.
  intros [Hinv Hs] HQ. apply wp_bind. eapply output_rd_y; [exact Hinv|]. apply wp_bind.
  eapply (output_scroll t s0 Hvid Ht p a); [exact Hp|by split|exact HQ].
Qed.

(** [set_cursor] at the position of the cursor. *)
Lemma put_cursor a s (Q : unit -> machine -> Prop) :
  on_tty t s0 p a s -> (forall s', on_tty t s0 p a s' -> Q tt s') ->
  wp (x ← rd_at screen_x t; y ← rd_at screen_y t; set_cursor x y) Q s.
Proof using Type.
  intros [Hinv Hs] HQ. apply wp_bind. eapply output_rd_x; [exact Hinv|].
  apply wp_bind. eapply output_rd_y; [exact Hinv|]. eapply output_set_cursor; [exact Hinv|].
  intros s1 Hinv1 Hb. apply HQ. split; [done|]. by eapply shows_same.
Qed.

(** The rest of a put function after the glyph of [c] is written. *)
Lemma put_advance c a s f (Q : unit -> machine -> Prop) :
  tty_ok a -> output_inv t s0 (tty_x a) (tty_y a) s -> shows s p f ->
  (forall pos, 0 <= pos < NUM_COLS * NUM_ROWS -> f pos = tty_cell (tty_write c a) pos) ->
  (forall s', on_tty t s0 p (tty_advance (tty_write c a)) s' -> Q tt s') ->
  wp (incr_at screen_x t ;;;
      x ← rd_at screen_x t; wr_at screen_x t (Z.rem x NUM_COLS) ;;;
      x ← rd_at screen_x t; when (x =? 0) (incr_at screen_y t)) Q s.
Proof using Ht.
  intros [Hx Hy] Hinv Hs Hf HQ.
  eapply (output_advance t s0 Ht p (tty_write c a)); [done| |exact HQ].
  split; [done|]. by eapply shows_ext.
Qed.
End putting.

(** [putc] by a process of terminal [t], on the page of [t] and on the display
    when [t] is shown. *)
Lemma putc_tty c t s p a :
  video_mapped s -> 0 <= t < NUM_TERMINALS -> cur_terminal s = Ok (t, s) ->
  page_of s t p -> tty_ok a -> on_tty t s p a s ->
  wp (putc c) (fun _ => on_tty t s p (tty_put c a)) s.
Proof.
  intros Hvid Ht Hcur Hp Ha [Hinv Hs].
  unfold putc. apply wp_bind. eapply wp_run; [exact Hcur|]. apply wp_bind.
  assert (forall s1 a1, on_tty t s p a1 s1 ->
    wp (y ← rd_at screen_y t;
        when (NUM_ROWS <=? y) (text_shift_up t ;;; decr_at screen_y t) ;;;
        ct ← rd currentTerminal;
        if t =? ct then x ← rd_at screen_x t; y ← rd_at screen_y t; set_cursor x y else mret tt)
      (fun _ => on_tty t s p (tty_scroll a1)) s1) as Htail.
  { intros s1 a1 Hs1. eapply (put_tail t s p Hvid Ht Hp); [exact Hs1|]. intros s2 Hs2.
    rewrite wp_bind, wp_rd. destruct (_ =? _); [|by apply wp_ret].
    eapply put_cursor; [exact Hs2|done]. }
  unfold tty_put. destruct (_ || _).
  { eapply (output_newline t s Ht p a); [by split|]. intros s1 Hs1. by apply Htail. }
  destruct Ha as [Hx Hy]. pose proof (conj Hx Hy : tty_ok a) as Ha.
  unfold NUM_COLS, NUM_ROWS in Hx, Hy.
  apply wp_bind. eapply output_rd_y; [exact Hinv|]. apply wp_bind. eapply output_rd_x; [exact Hinv|].
  cbv zeta. apply wp_seq_assoc, wp_bind.
  assert (page_of s t (terminal_page t)) as Hpt by by left.
  assert (terminal_page t <> VIDEO) by (unfold terminal_page, VIDEO, FOUR_KB, NUM_TERMINALS in *; lia).
  eapply (output_glyph t s Hvid Ht p); [exact Hp|exact Hpt|exact Hinv|exact Hs|unfold NUM_COLS, NUM_ROWS; lia|].
  intros s1 Hinv1 Hs1. rewrite wp_bind, wp_rd, wp_bind.
  rewrite (sf_ct _ _ _ (oi_frame _ _ _ _ _ Hinv1)).
  destruct (Z.eqb_spec t (get currentTerminal s)) as [E|E]; unfold when.
  - assert (page_of s t VIDEO) as Hpv by by right.
    eapply (output_glyph t s Hvid Ht p); [exact Hp|exact Hpv|exact Hinv1|exact Hs1|unfold NUM_COLS, NUM_ROWS; lia|].
    intros s2 Hinv2 Hs2. eapply (put_advance t s p Ht c); [exact Ha|exact Hinv2|exact Hs2| |intros s3 Hs3; by apply Htail].
    intros pos ?. simpl. destruct (Z.eqb_spec pos (NUM_COLS * tty_y a + tty_x a)) as [Epos|Epos].
    + destruct Hp as [->|[? ->]]; repeat case_decide; solve [done|exfalso; intuition].
    + repeat case_decide; solve [done|exfalso; intuition].
  - apply wp_ret. eapply (put_advance t s p Ht c); [exact Ha|exact Hinv1|exact Hs1| |intros s3 Hs3; by apply Htail].
    intros pos ?. simpl. destruct Hp as [->|[? ->]]; [|done].
    destruct (Z.eqb_spec pos (NUM_COLS * tty_y a + tty_x a)); repeat case_decide; solve [done|exfalso; intuition].
Qed.

(** [KBputc] on the display. *)
Lemma KBputc_tty c s a :
  video_mapped s -> 0 <= get currentTerminal s < NUM_TERMINALS -> tty_ok a ->
  on_tty (get currentTerminal s) s VIDEO a s ->
  wp (KBputc c) (fun _ => on_tty (get currentTerminal s) s VIDEO (tty_put c a)) s.
Proof.
  intros Hvid Ht Ha [Hinv Hs]. unfold KBputc. rewrite wp_bind, wp_rd. apply wp_bind.
  set (t := get currentTerminal s) in *.
  assert (page_of s t VIDEO) as Hpv by by right.
  assert (forall s1 a1, on_tty t s VIDEO a1 s1 ->
    wp (y ← rd_at screen_y t;
        when (NUM_ROWS <=? y) (text_shift_up t ;;; decr_at screen_y t) ;;;
        x ← rd_at screen_x t; y ← rd_at screen_y t; set_cursor x y)
      (fun _ => on_tty t s VIDEO (tty_scroll a1)) s1) as Htail.
  { intros s1 a1 Hs1. eapply (put_tail t s VIDEO Hvid Ht Hpv); [exact Hs1|]. intros s2 Hs2.
    eapply put_cursor; [exact Hs2|done]. }
  unfold tty_put. destruct (_ || _).
  { eapply (output_newline t s Ht VIDEO a); [by split|]. intros s1 Hs1. by apply Htail. }
  destruct Ha as [Hx Hy]. pose proof (conj Hx Hy : tty_ok a) as Ha.
  unfold NUM_COLS, NUM_ROWS in Hx, Hy.
  apply wp_bind. eapply output_rd_y; [exact Hinv|]. apply wp_bind. eapply output_rd_x; [exact Hinv|].
  apply wp_seq_assoc, wp_bind.
  eapply (output_glyph t s Hvid Ht VIDEO); [exact Hpv|exact Hpv|exact Hinv|exact Hs|unfold NUM_COLS, NUM_ROWS; lia|].
  intros s1 Hinv1 Hs1. eapply (put_advance t s VIDEO Ht c); [exact Ha|exact Hinv1|exact Hs1| |intros s3 Hs3; by apply Htail].
  intros pos ?. simpl. destruct (Z.eqb_spec pos (NUM_COLS * tty_y a + tty_x a)); repeat case_decide; solve [done|exfalso; intuition].
Qed.

(** ** Sequences of characters *)

Lemma cur_terminal_prc s s0 t :
  get prc s = get prc s0 -> cur_terminal s0 = Ok (t, s0) -> cur_terminal s = Ok (t, s).
Proof.
  intros Hprc Hs0. unfold cur_terminal, rd_pcb, pcb_slot, rd_field in *.
  unfold rd_at, rd, gets, mbind, ST_bind in *.
  change (get cur_pid s) with (p_cur_pid (get prc s)). change (get cur_pid s0) with (p_cur_pid (get prc s0)) in Hs0.
  change (get PCB_ptrs s) with (p_PCB_ptrs (get prc s)). change (get PCB_ptrs s0) with (p_PCB_ptrs (get prc s0)) in Hs0.
  rewrite Hprc. destruct (at_ (p_PCB_ptrs _) _) as [[j|]|]; try discriminate.
  unfold of_option, mret, ST_ret in *. cbv beta iota in *.
  change (get pcbs s) with (p_pcbs (get prc s)). change (get pcbs s0) with (p_pcbs (get prc s0)) in Hs0.
  rewrite Hprc. destruct (at_ (p_pcbs (get prc s0)) j); [|discriminate]. by injection Hs0 as ->.
Qed.

Lemma output_inv_trans t s0 s s' x y x' y' :
  output_inv t s0 x y s -> output_inv t s x' y' s' -> output_inv t s0 x' y' s'.
Proof.
  intros [Hf ? ? ? ? Hox Hoy] [Hf' ? ? ? ? Hox' Hoy']. split; try done.
  - eapply screen_frame_trans; [exact Hf|]. eapply screen_frame_mono; [|exact Hf'].
    intros a [?|[-> ?]]; [by left|right]. by rewrite (sf_ct _ _ _ Hf).
  - intros i ?. by rewrite Hox', Hox.
  - intros i ?. by rewrite Hoy', Hoy.
Qed.

Lemma video_mapped_frame R s0 s : screen_frame R s0 s -> video_mapped s0 -> video_mapped s.
Proof. intros Hf Hv a Ha. rewrite (sf_pag _ _ _ Hf). by apply Hv. Qed.

Section sequence.
Context (t : Z) (s0 : machine) (p : Z).
Hypothesis Hvid : video_mapped s0.
Hypothesis Ht : 0 <= t < NUM_TERMINALS.
Hypothesis Hcur : cur_terminal s0 = Ok (t, s0).
Hypothesis Hp : page_of s0 t p.

(** One more character of a sequence. *)
Lemma putc_next c a s (Q : unit -> machine -> Prop) :
  tty_ok a -> on_tty t s0 p a s ->
  (forall s', on_tty t s0 p (tty_put c a) s' -> Q tt s') -> wp (putc c) Q s.
Proof using Hvid Ht Hcur Hp.
  intros Ha [Hinv Hs] HQ. pose proof (oi_frame _ _ _ _ _ Hinv) as Hf.
  assert (page_of s t p) as Hp' by (unfold page_of; by rewrite (sf_ct _ _ _ Hf)).
  eapply wp_mono; [apply (putc_tty c t s p a); try done|].
  - by eapply video_mapped_frame.
  - eapply cur_terminal_prc; [apply (sf_prc _ _ _ Hf)|done].
  - split; [|done]. destruct Hinv. split; try done.
  - intros [] s' [Hinv' Hs']. apply HQ. split; [|done]. by eapply output_inv_trans.
Qed.

(** Bytes outside the pages of the terminal are still there. *)
Lemma on_tty_load a s b q :
  on_tty t s0 p a s -> translate (get pag s0) b = Some q -> ~ screen_cells s0 t q ->
  load8 b s = Ok (byte s0 q, s).
Proof using Type.
  intros [Hinv _] Hb Hn. pose proof (oi_frame _ _ _ _ _ Hinv) as Hf.
  apply vm_pure. apply ld8_run. unfold load. change (cell (view s) b) with (translate (get pag s) b).
  rewrite (sf_pag _ _ _ Hf), Hb. change (Some (byte s q) = Some (byte s0 q)).
  by rewrite (sf_mem _ _ _ Hf).
Qed.
End sequence.

(** A sequence of characters on the teletype. *)
Definition tty_puts (l : list Z) (a : tty) : tty := fold_left (fun a c => tty_put c a) l a.

Lemma tty_puts_ok l a : tty_ok a -> tty_ok (tty_puts l a).
Proof. revert a. induction l as [|c l IH]; intros a Ha; [done|]. by apply IH, tty_put_ok. Qed.

Lemma tty_puts_take_S l k c a :
  l !! k = Some c -> tty_puts (take (S k) l) a = tty_put c (tty_puts (take k l) a).
Proof. intros Hk. unfold tty_puts. by rewrite (take_S_r _ _ _ Hk), fold_left_app. Qed.

(** The bytes [l] are at [b], where output on terminal [t] does not reach. *)
Definition safe_bytes (t b : Z) (l : list Z) (s : machine) : Prop :=
  forall i c, l !! i = Some c -> exists q,
    translate (get pag s) (b + Z.of_nat i) = Some q /\ ~ screen_cells s t q /\ byte s q = c.

Lemma safe_load t p s0 a s b l i c :
  on_tty t s0 p a s -> safe_bytes t b l s0 -> l !! i = Some c ->
  load8 (b + Z.of_nat i) s = Ok (c, s).
Proof.
  intros Hs Hl Hi. destruct (Hl i c Hi) as (q & Htr & Hn & <-). by eapply on_tty_load.
Qed.

Lemma puts_run t s p a b l :
  video_mapped s -> 0 <= t < NUM_TERMINALS -> cur_terminal s = Ok (t, s) -> page_of s t p ->
  tty_ok a -> on_tty t s p a s ->
  safe_bytes t b (l ++ [0]) s -> (forall i c, l !! i = Some c -> c <> 0) -> Z.of_nat (length l) < 2 ^ 32 - 1 ->
  wp (puts b) (fun n s' => n = Z.of_nat (length l) /\ on_tty t s p (tty_puts l a) s') s.
Proof.
  intros Hvid Ht Hcur Hp Ha Hs Hl Hnz Hlen. unfold puts.
  apply (wp_loop _ (fun k s' => exists i, k = Z.of_nat i /\ (i <= length l)%nat /\
            on_tty t s p (tty_puts (take i l) a) s') (fun k _ => Z.of_nat (length l) - k)).
  - intros _ s1 (i & -> & Hi & Hs1). unfold puts_step.
    destruct (decide (i = length l)) as [->|Hne].
    + apply wp_bind. eapply wp_run; [eapply safe_load; [exact Hs1|exact Hl|by apply list_lookup_middle]|].
      apply wp_ret. rewrite take_ge in Hs1 by lia. done.
    + destruct (lookup_lt_is_Some_2 l i ltac:(lia)) as [c Hc].
      apply wp_bind. eapply wp_run; [eapply safe_load; [exact Hs1|exact Hl|by apply lookup_app_l_Some]|].
      destruct (Z.eqb_spec c 0); [by edestruct Hnz|]. apply wp_bind.
      eapply (putc_next t s p Hvid Ht Hcur Hp); [by apply tty_puts_ok|exact Hs1|].
      intros s2 Hs2. apply wp_ret. split; [|lia]. exists (S i). split_and!; [lia..|].
      by rewrite (tty_puts_take_S _ _ _ _ Hc).
  - exists 0%nat. split_and!; [done|lia|done].
  - lia.
Qed.

(** *** Echoing keys *)

(** The cursor one cell back, and the erased character. *)
Definition tty_back (a : tty) : tty :=
  if tty_x a =? 0 then
    if tty_y a =? 0 then a else Tty (NUM_COLS - 1) (tty_y a - 1) (tty_cell a)
  else Tty (tty_x a - 1) (tty_y a) (tty_cell a).

Definition tty_erase (a : tty) : tty := tty_write ch_space (tty_back a).

Definition tty_clear : tty := Tty 0 0 (fun _ => ch_space).

Lemma tty_back_ok a : tty_ok a -> tty_ok (tty_back a).
Proof.
  intros [Hx Hy]. unfold tty_back, tty_ok, NUM_COLS, NUM_ROWS in *.
  destruct (Z.eqb_spec (tty_x a) 0); [destruct (Z.eqb_spec (tty_y a) 0)|]; simpl; lia.
Qed.

Lemma tty_erase_ok a : tty_ok a -> tty_ok (tty_erase a).
Proof. intros Ha. apply (tty_back_ok a Ha). Qed.

(** A blank written over the last character and the cursor moved back on it. *)
Lemma tty_back_put a :
  tty_ok a -> tty_back (tty_put ch_space (tty_back a)) = tty_erase a.
Proof.
  intros [Hx Hy]. unfold tty_erase.
  assert (0 <= tty_x (tty_back a) < 79 /\ 0 <= tty_y (tty_back a) < 25 \/
          a = Tty 0 0 (tty_cell a) /\ tty_back a = a \/
          tty_x (tty_back a) = 79 /\ 0 <= tty_y (tty_back a) < 24) as Hb.
  { unfold tty_back, NUM_COLS, NUM_ROWS in *. destruct a as [x y f]; simpl in *.
    destruct (Z.eqb_spec x 0) as [->|]; [destruct (Z.eqb_spec y 0) as [->|]|]; simpl; [by right; left|lia|lia]. }
  assert (0 <= tty_x (tty_back a) < 79 /\ 0 <= tty_y (tty_back a) < 25 \/
          tty_x (tty_back a) = 79 /\ 0 <= tty_y (tty_back a) < 24) as Hc.
  { destruct Hb as [?|[[-> ->]|?]]; [by left|left; simpl; lia|by right]. }
  clear Hb. destruct (tty_back a) as [x y f]. simpl in Hc.
  unfold tty_put, tty_scroll, tty_advance, tty_write, tty_back, NUM_COLS, NUM_ROWS. simpl.
  destruct Hc as [Hc|[-> Hc]].
  - destruct (Z.eqb_spec x (80 - 1)); [lia|]. simpl. destruct (Z.leb_spec 25 y); [lia|]. simpl.
    destruct (Z.eqb_spec (x + 1) 0); [lia|]. simpl. f_equal; lia.
  - change (79 =? 80 - 1) with true. cbn [tty_x tty_y tty_cell].
    rewrite (proj2 (Z.leb_gt 25 (y + 1))) by lia. simpl.
    destruct (Z.eqb_spec (y + 1) 0); [lia|]. simpl. f_equal; lia.
Qed.

Section echo.
Context (s0 : machine).
Hypothesis Hvid : video_mapped s0.
Hypothesis Hct : 0 <= get currentTerminal s0 < NUM_TERMINALS.

(** The display of the shown terminal, during echo started in [s0]. *)
Definition on_display (a : tty) (s : machine) : Prop := on_tty (get currentTerminal s0) s0 VIDEO a s.

Lemma display_page : page_of s0 (get currentTerminal s0) VIDEO.
Proof using Type. by right. Qed.

Lemma display_current a s : on_display a s -> get currentTerminal s = get currentTerminal s0.
Proof using Type. intros [Hinv _]. apply (oi_frame _ _ _ _ _ Hinv). Qed.

Lemma KBputc_next c a s (Q : unit -> machine -> Prop) :
  tty_ok a -> on_display a s -> (forall s', on_display (tty_put c a) s' -> Q tt s') -> wp (KBputc c) Q s.
Proof using Hvid Hct.
  intros Ha Hd HQ. pose proof (display_current a s Hd) as Ec. destruct Hd as [Hinv Hs].
  pose proof (oi_frame _ _ _ _ _ Hinv) as Hf.
  eapply wp_mono; [apply (KBputc_tty c s a)|].
  - by eapply video_mapped_frame.
  - by rewrite Ec.
  - done.
  - rewrite Ec. split; [|done]. destruct Hinv. split; try done.
  - rewrite Ec. intros [] s' [Hinv' Hs']. apply HQ. split; [|done]. by eapply output_inv_trans.
Qed.

Lemma back_char_next a s (Q : unit -> machine -> Prop) :
  tty_ok a -> on_display a s -> (forall s', on_display (tty_back a) s' -> Q tt s') -> wp back_char Q s.
Proof using Hct.
  intros [Hx Hy] Hd HQ. pose proof (display_current a s Hd) as Ec. destruct Hd as [Hinv Hs].
  unfold back_char. rewrite wp_bind, wp_rd, Ec. apply wp_bind. eapply output_rd_x; [exact Hinv|].
  unfold tty_back in HQ. destruct (tty_x a =? 0).
  - apply wp_bind. eapply output_rd_y; [exact Hinv|]. destruct (tty_y a =? 0); [by apply wp_ret, HQ|].
    unfold decr_at. rewrite !wp_bind. eapply output_rd_y; [exact Hinv|].
    eapply (output_wr_y _ s0 Hct); [exact Hinv|]. intros s1 Hinv1 Hb1.
    eapply (output_wr_x _ s0 Hct); [exact Hinv1|]. intros s2 Hinv2 Hb2.
    apply HQ. split; [exact Hinv2|]. simpl. do 2 (eapply shows_same; [|eassumption]). exact Hs.
  - unfold decr_at. rewrite !wp_bind. eapply output_rd_x; [exact Hinv|].
    eapply (output_wr_x _ s0 Hct); [exact Hinv|]. intros s1 Hinv1 Hb1.
    rewrite wp_bind. eapply output_rd_x; [exact Hinv1|].
    rewrite wp_bind. eapply output_rd_y; [exact Hinv1|].
    eapply output_set_cursor; [exact Hinv1|]. intros s2 Hinv2 Hb2.
    apply HQ. split; [exact Hinv2|]. simpl. do 2 (eapply shows_same; [|eassumption]). exact Hs.
Qed.

Lemma erase_char_next a s (Q : unit -> machine -> Prop) :
  tty_ok a -> on_display a s -> (forall s', on_display (tty_erase a) s' -> Q tt s') -> wp erase_char Q s.
Proof using Hvid Hct.
  intros Ha Hd HQ. unfold erase_char. apply wp_bind.
  apply (back_char_next a); [done..|]. intros s1 H1. apply wp_bind.
  apply (KBputc_next _ (tty_back a)); [by apply tty_back_ok|done|]. intros s2 H2.
  apply (back_char_next (tty_put ch_space (tty_back a))); [by apply tty_put_ok, tty_back_ok|done|].
  rewrite tty_back_put by done. exact HQ.
Qed.

Lemma clear_next a s (Q : unit -> machine -> Prop) :
  on_display a s -> (forall s', on_display tty_clear s' -> Q tt s') -> wp clear Q s.
Proof using Hvid Hct.
  intros Hd HQ. pose proof (display_current a s Hd) as Ec. destruct Hd as [Hinv Hs].
  unfold clear. rewrite wp_bind, wp_rd, Ec. set (t := get currentTerminal s0) in *.
  apply wp_bind. eapply (output_wr_y t s0 Hct); [exact Hinv|]. intros s1 Hinv1 Hb1.
  apply wp_bind. eapply (output_wr_x t s0 Hct); [exact Hinv1|]. intros s2 Hinv2 Hb2.
  assert (shows s2 VIDEO (tty_cell a)) as Hs2 by (do 2 (eapply shows_same; [|eassumption]); exact Hs).
  apply wp_bind. eapply wp_mono; [apply (wp_for (fun k s' => output_inv t s0 0 0 s' /\
    shows s' VIDEO (fun pos => if decide (pos < k) then ch_space else tty_cell a pos)))|].
  - split; [done|]. eapply shows_ext; [exact Hs2|]. intros pos ?. by rewrite decide_False by lia.
  - intros k s3 Hk [Hinv3 Hs3].
    eapply (output_glyph t s0 Hvid Hct VIDEO VIDEO);
      [apply display_page|apply display_page|exact Hinv3|exact Hs3|unfold NUM_COLS, NUM_ROWS; lia|].
    intros s4 Hinv4 Hs4. split; [done|]. eapply shows_ext; [exact Hs4|]. intros pos ?. simpl.
    repeat case_decide; try done; lia.
  - intros [] s3 [Hinv3 Hs3]. rewrite wp_bind. eapply output_rd_x; [exact Hinv3|].
    rewrite wp_bind. eapply output_rd_y; [exact Hinv3|]. eapply output_set_cursor; [exact Hinv3|].
    intros s4 Hinv4 Hb4. apply HQ. split; [exact Hinv4|]. eapply shows_same; [|exact Hb4].
    eapply shows_ext; [exact Hs3|]. intros pos ?. simpl. unfold NUM_COLS, NUM_ROWS in *.
    by rewrite decide_True by lia.
Qed.
End echo.

(** The terminals are as [screen_ok] says after output. *)
Lemma output_inv_ok t s0 x y s :
  screen_ok s0 -> output_inv t s0 x y s -> 0 <= x < NUM_COLS -> 0 <= y < NUM_ROWS -> screen_ok s.
Proof.
  intros [Hx Hy Hct Hxr Hyr] [Hf ? ? Hx' Hy' Hox Hoy] ? ?. split; try done.
  - by rewrite (sf_ct _ _ _ Hf).
  - intros i v Hv. destruct (decide (i = t)) as [->|]; [congruence|]. rewrite Hox in Hv by done. eauto.
  - intros i v Hv. destruct (decide (i = t)) as [->|]; [congruence|]. rewrite Hoy in Hv by done. eauto.
Qed.

Lemma screen_ok_tty s t : screen_ok s -> 0 <= t < NUM_TERMINALS ->
  exists x y, at_ (get screen_x s) t = Some x /\ at_ (get screen_y s) t = Some y /\
    0 <= x < NUM_COLS /\ 0 <= y < NUM_ROWS.
Proof.
  intros [Hx Hy Hct Hxr Hyr] Ht. unfold NUM_TERMINALS in Ht.
  destruct (at_Some (get screen_x s) t) as [x ?]; [lia|].
  destruct (at_Some (get screen_y s) t) as [y ?]; [lia|]. eauto 10.
Qed.

(** ** The alternate hexadecimal format *)

Lemma local_cell (m : vmem) a : 2 ^ 32 <= a -> cell m a = Some a.
Proof. intros Ha. unfold cell. simpl. unfold translate. by destruct (Z.leb_spec (2 ^ 32) a); [|lia]. Qed.

Lemma local_mapped (m : vmem) a n : 2 ^ 32 <= a -> mapped m a n.
Proof. intros Ha i Hi. exists (a + i). apply local_cell. lia. Qed.

Lemma local_injective (m : vmem) a n : 2 ^ 32 <= a -> injective m a n.
Proof. intros Ha i j c Hi Hj. rewrite !local_cell by lia. intros [= <-] [= ?]. lia. Qed.

(** A store into a local array, for the bytes laid out in it. *)
Lemma local_store s a v (Q : unit -> machine -> Prop) :
  2 ^ 32 <= a ->
  (forall m, vm_paging m = get pag s ->
     (forall b, 2 ^ 32 <= b -> load m b = if decide (a = b) then Some (u8 v) else load (view s) b) ->
     (forall c, c <> a -> peek m c = peek (view s) c) -> Q tt (set mem (vm_phys m) s)) ->
  wp (store a v) Q s.
Proof.
  intros Ha HQ. unfold store. rewrite wp_vm. eapply wp_run; [apply st8_run, local_cell, Ha|].
  assert (forall c, c <> a -> peek (poke (view s) a (u8 v)) c = peek (view s) c) as Hne
    by (intros; by apply peek_poke_ne).
  apply HQ; [done| |exact Hne].
  intros b Hb. case_decide as E.
  - subst b. rewrite (load_poke_eq _ a a) by (by apply local_cell). by rewrite (u8_small (u8 v)) by apply u8_range.
  - unfold load. rewrite cell_poke, local_cell by lia.
    change (Some (peek (poke (view s) a (u8 v)) b) = Some (peek (view s) b)). by rewrite Hne by congruence.
Qed.

Lemma digits_no_nul radix v : 2 <= radix <= 36 -> 0 ∉ digits radix v.
Proof. intros Hr Hin. apply digits_range in Hin; lia. Qed.

Section hex.
Context (v : Z) (s : machine).
Hypothesis Hv : 0 <= v < 2 ^ 32.

(** The digits in the second half of the array, zeros from [L] to [i]. *)
Record padding (L : nat) (i : Z) (s' : machine) : Prop := {
  pad_state : s' = set mem (get mem s') s;
  pad_zeros : forall j, conv_buf + Z.of_nat L <= j < conv_buf + i -> load (view s') j = Some 48;
  pad_digits : bytes_at (view s') (conv_buf + 8) (digits 16 v ++ [0]);
  pad_others : forall c, ~ (conv_buf <= c < conv_buf + 64) -> peek (get mem s') c = peek (get mem s) c
}.

Lemma hex_digits_length : (1 <= length (digits 16 v) <= 8)%nat.
Proof using Hv.
  split; [apply length_digits; lia|]. apply digits_bound; [lia| |lia]. exact Hv.
Qed.

Lemma pad_run L s1 : (L <= 8)%nat -> padding L (Z.of_nat L) s1 ->
  wp (loop pad_step (Z.of_nat L)) (fun _ => padding L 8) s1.
Proof using Hv.
  intros HL Hs1. apply (wp_loop _ (fun i s' => Z.of_nat L <= i <= 8 /\ padding L i s') (fun i _ => 8 - i)); [| |lia].
  - intros i s2 [Hi [Hst Hz Hd Ho]]. unfold pad_step. destruct (Z.ltb_spec i 8).
    + apply wp_bind. unfold conv_buf, local_array in *. apply local_store; [lia|].
      intros m Hpag Hload Hpeek. apply wp_ret. split; [|lia]. split; [lia|].
      assert (view (set mem (vm_phys m) s2) = m) as Hview.
      { unfold view. lsimpl. rewrite <- Hpag. by destruct m. }
      split.
      * rewrite Hst. done.
      * intros j Hj. unfold conv_buf, local_array in *. rewrite Hview, Hload by lia.
        case_decide; [done|]. apply Hz. unfold conv_buf, local_array. lia.
      * intros k c Hk. unfold conv_buf, local_array. rewrite Hview, Hload by lia. rewrite decide_False by lia. by apply Hd.
      * intros c Hc. lsimpl. change (peek (vm_phys m) c) with (peek m c).
        rewrite Hpeek by (unfold conv_buf, local_array in Hc; lia). by apply Ho.
    + apply wp_ret. replace 8 with i by lia. done.
  - split; [lia|done].
Qed.

Lemma format_hex_run :
  wp (format_hex_alternate v) (fun p s' => s' = set mem (get mem s') s /\
    (exists k, bytes_at (view s') p (replicate k 48 ++ digits 16 v ++ [0]) /\
       (k + length (digits 16 v) = 8)%nat) /\
    forall c, ~ (conv_buf <= c < conv_buf + 64) -> peek (get mem s') c = peek (get mem s) c) s.
Proof using Hv.
  pose proof hex_digits_length as Hlen. unfold format_hex_alternate.
  destruct (itoa_run (view s) v (conv_buf + 8) 16) as (m & Hrun & Hb & Hf); [lia|done| | |].
  { apply local_mapped. unfold conv_buf, local_array. lia. }
  { apply local_injective. unfold conv_buf, local_array. lia. }
  apply wp_bind. eapply wp_run; [apply vm_run, Hrun|].
  set (s1 := set mem (vm_phys m) s).
  assert (forall b, load (view s1) b = load m b) as Hload.
  { intros b. unfold load. by rewrite (proj1 Hf b). }
  apply wp_bind. eapply wp_run.
  { apply vm_pure. apply (strlen_run _ _ (digits 16 v)); [|by apply digits_no_nul|lia].
    intros i c Hi. rewrite Hload. by apply Hb. }
  apply wp_bind. eapply wp_mono; [apply pad_run; [lia|]|].
  - split; [done|lia| |].
    + intros i c Hi. rewrite Hload. by apply Hb.
    + intros c Hc. change (peek m c = peek (view s) c). apply (proj2 Hf). intros i Hi.
      rewrite local_cell by (unfold conv_buf, local_array; lia). intros [= <-]. lia.
  - intros [] s2 [Hst Hz Hd Ho]. apply wp_ret. split_and!; [|exists (8 - length (digits 16 v))%nat; split; [|lia]|].
    + rewrite Hst. done.
    + apply bytes_at_app. split.
      * intros i c [-> Hi]%lookup_replicate. apply Hz. lia.
      * rewrite length_replicate.
        replace (conv_buf + Z.of_nat (length (digits 16 v)) + Z.of_nat (8 - length (digits 16 v)))
          with (conv_buf + 8) by lia. exact Hd.
    + intros c Hc. by apply Ho.
Qed.
End hex.

(** ** Properties *)

(** What output of the characters that lead from [a] to [a'] on terminal [t] does. *)
Record wrote (t p : Z) (a' : tty) (s s' : machine) : Prop := {
  wrote_x : at_ (get screen_x s') t = Some (tty_x a');
  wrote_y : at_ (get screen_y s') t = Some (tty_y a');
  wrote_page : shows s' p (tty_cell a');
  wrote_ok : screen_ok s';
  wrote_frame : screen_frame (screen_cells s t) s s';
  wrote_others : forall i, i <> t ->
    at_ (get screen_x s') i = at_ (get screen_x s) i /\ at_ (get screen_y s') i = at_ (get screen_y s) i
}.

Lemma on_tty_wrote t s p a s' :
  screen_ok s -> tty_ok a -> on_tty t s p a s' -> wrote t p a s s'.
Proof.
  intros Hok [Hx Hy] [Hinv Hs]. pose proof (output_inv_ok _ _ _ _ _ Hok Hinv Hx Hy).
  destruct Hinv. split; auto.
Qed.

(** C23: [putc] of lib.c refines an abstract teletype on every page that its
    terminal owns (the saved page, and the display when it is shown): cursor,
    characters and scrolling are those of [tty_put]; nothing else changes. *)
Theorem putc_refines_teletype c t s p x y f :
  video_mapped s -> screen_ok s -> 0 <= t < NUM_TERMINALS -> cur_terminal s = Ok (t, s) ->
  page_of s t p -> at_ (get screen_x s) t = Some x -> at_ (get screen_y s) t = Some y ->
  shows s p f ->
  exists s', putc c s = Ok (tt, s') /\ wrote t p (tty_put c (Tty x y f)) s s'.
Proof.
  intros Hvid Hok Ht Hcur Hp Hx Hy Hs.
  assert (tty_ok (Tty x y f)) as Ha by (destruct Hok; split; simpl; eauto).
  destruct (wp_inv _ _ _ (putc_tty c t s p _ Hvid Ht Hcur Hp Ha (conj (output_start t s Hok x y Hx Hy) Hs)))
    as ([] & s' & Hrun & Hs'). exists s'. split; [done|]. apply on_tty_wrote; [done|by apply tty_put_ok|done].
Qed.

(** The alternate hexadecimal format of [printf] builds a string of exactly
    eight characters, zeros before the digits, whose value is the number; only
    the local array of [printf] changes. *)
Theorem printf_hex_pads_to_eight v s :
  0 <= v < 2 ^ 32 ->
  exists p s' l, format_hex_alternate v s = Ok (p, s') /\
    bytes_at (view s') p (l ++ [0]) /\ length l = 8%nat /\ digits_value 16 l = v /\
    s' = set mem (get mem s') s /\
    forall c, ~ (conv_buf <= c < conv_buf + 64) -> byte s' c = byte s c.
Proof.
  intros Hv. destruct (wp_inv _ _ _ (format_hex_run v s Hv)) as (p & s' & Hrun & Hst & (k & Hb & Hk) & Ho).
  exists p, s', (replicate k 48 ++ digits 16 v). split_and!; try done.
  - by rewrite <- app_assoc.
  - rewrite length_app, length_replicate. lia.
  - rewrite digits_value_zeros. apply digits_value_digits; [lia|done].
Qed.

Lemma printf_hex_pads_to_eight_witness :
  exists p s' l, format_hex_alternate 0x2BADB002 (boot_state ∅ [] demo_layout (fun _ _ => 0) [] 0 0) = Ok (p, s') /\
    bytes_at (view s') p (l ++ [0]) /\ length l = 8%nat /\ digits_value 16 l = 0x2BADB002.
Proof.
  destruct (printf_hex_pads_to_eight 0x2BADB002 (boot_state ∅ [] demo_layout (fun _ _ => 0) [] 0 0))
    as (p & s' & l & Hrun & Hb & Hl & Hval & _); [lia|].
  exists p, s', l. exact (conj Hrun (conj Hb (conj Hl Hval))).
Defined.

(** [KBputc] echoes a character on the display of the shown terminal as the
    teletype does, [erase_char] blanks the last character and moves the cursor
    back on it (also across the start of a row), and [clear] leaves a blank
    screen with the cursor in its corner; nothing else changes. *)
Theorem echo_refines_teletype c s x y f :
  video_mapped s -> screen_ok s ->
  let t := get currentTerminal s in
  at_ (get screen_x s) t = Some x -> at_ (get screen_y s) t = Some y -> shows s VIDEO f ->
  (exists s', KBputc c s = Ok (tt, s') /\ wrote t VIDEO (tty_put c (Tty x y f)) s s') /\
  (exists s', erase_char s = Ok (tt, s') /\ wrote t VIDEO (tty_erase (Tty x y f)) s s') /\
  (exists s', clear s = Ok (tt, s') /\ wrote t VIDEO tty_clear s s').
Proof.
  intros Hvid Hok t Hx Hy Hs. pose proof (so_ct _ Hok) as Hct.
  assert (tty_ok (Tty x y f)) as Ha by (destruct Hok; split; simpl; eauto).
  assert (on_display s (Tty x y f) s) as Hd.
  { split; [|exact Hs]. by apply (output_start t s Hok). }
  assert (forall (op : K unit) a, tty_ok a -> wp op (fun _ => on_display s a) s ->
    exists s', op s = Ok (tt, s') /\ wrote t VIDEO a s s') as Hlift.
  { intros op a Hta ([] & s' & Hrun & Hs')%wp_inv. exists s'. split; [done|]. by apply on_tty_wrote. }
  split_and!; apply Hlift.
  - by apply tty_put_ok.
  - by apply (KBputc_next s Hvid Hct c (Tty x y f)).
  - by apply tty_erase_ok.
  - by apply (erase_char_next s Hvid Hct (Tty x y f)).
  - done.
  - by apply (clear_next s Hvid Hct (Tty x y f)).
Qed.

(** [puts] of lib.c writes exactly the characters before the terminator, in
    order, on the pages of its terminal, and returns their number. *)
Theorem puts_writes_string t s p x y f b l :
  video_mapped s -> screen_ok s -> 0 <= t < NUM_TERMINALS -> cur_terminal s = Ok (t, s) ->
  page_of s t p -> at_ (get screen_x s) t = Some x -> at_ (get screen_y s) t = Some y ->
  shows s p f ->
  safe_bytes t b (l ++ [0]) s -> (forall i c, l !! i = Some c -> c <> 0) ->
  Z.of_nat (length l) < 2 ^ 32 - 1 ->
  exists s', puts b s = Ok (Z.of_nat (length l), s') /\ wrote t p (tty_puts l (Tty x y f)) s s'.
Proof.
  intros Hvid Hok Ht Hcur Hp Hx Hy Hs Hl Hnz Hlen.
  assert (tty_ok (Tty x y f)) as Ha by (destruct Hok; split; simpl; eauto).
  destruct (wp_inv _ _ _ (puts_run t s p _ b l Hvid Ht Hcur Hp Ha
    (conj (output_start t s Hok x y Hx Hy) Hs) Hl Hnz Hlen)) as (n & s' & Hrun & -> & Hs').
  exists s'. split; [done|]. apply on_tty_wrote; [done|by apply tty_puts_ok|done].
Qed.

Lemma one_process_byte ram a : byte (one_process ram) a = u8 (default 0 (ram !! a)).
Proof. done. Qed.

Lemma one_process_video ram : video_mapped (one_process ram).
Proof.
  intros a Ha. unfold VIDEO, FOUR_KB in Ha. unfold translate.
  destruct (Z.leb_spec (2 ^ 32) a); [lia|]. simpl. by rewrite u32_small by lia.
Qed.

Lemma one_process_screen ram : screen_ok (one_process ram).
Proof.
  split; try done; intros i v Hv; pose proof (at_inv _ _ _ Hv) as Hi;
    assert (i = 0 \/ i = 1 \/ i = 2) as [->|[->| ->]] by (simpl in Hi; lia);
    injection Hv as <-; done.
Qed.

Lemma putc_refines_teletype_witness :
  exists s', putc 65 (one_process ∅) = Ok (tt, s') /\
    wrote 0 VIDEO (tty_put 65 (Tty 0 0 (fun _ => 0))) (one_process ∅) s'.
Proof.
  apply putc_refines_teletype; try reflexivity.
  - apply one_process_video.
  - apply one_process_screen.
  - split; [lia|reflexivity].
  - right. split; reflexivity.
  - intros pos Hpos. reflexivity.
Defined.

(** The string "Hi" at 4096. *)
Lemma puts_writes_string_witness :
  exists s', puts 4096 (one_process (<[4096 := 72]> (<[4097 := 105]> ∅))) = Ok (2, s') /\
    wrote 0 VIDEO (tty_puts [72; 105] (Tty 0 0 (fun _ => 0)))
      (one_process (<[4096 := 72]> (<[4097 := 105]> ∅))) s'.
Proof.
  apply (puts_writes_string 0 _ VIDEO 0 0 (fun _ => 0) 4096 [72; 105]); try reflexivity.
  - apply one_process_video.
  - apply one_process_screen.
  - split; [lia|reflexivity].
  - right. split; reflexivity.
  - intros pos [Hpos _]. rewrite one_process_byte. unfold VIDEO.
    rewrite !lookup_insert_ne by lia. reflexivity.
  - intros i c Hi. exists (4096 + Z.of_nat i). unfold screen_cells, terminal_page, VIDEO, FOUR_KB.
    destruct i as [|[|[|i]]]; simpl in Hi; try discriminate; injection Hi as <-;
      (split; [reflexivity|split; [intros [H|[_ H]]; cbn in H; lia|reflexivity]]).
  - intros i c Hi. destruct i as [|[|i]]; simpl in Hi; try discriminate; injection Hi as <-; discriminate.
Defined.

Lemma echo_refines_teletype_witness :
  (exists s', KBputc 65 (one_process ∅) = Ok (tt, s') /\
     wrote 0 VIDEO (tty_put 65 (Tty 0 0 (fun _ => 0))) (one_process ∅) s') /\
  (exists s', clear (one_process ∅) = Ok (tt, s') /\ wrote 0 VIDEO tty_clear (one_process ∅) s').
Proof.
  destruct (echo_refines_teletype 65 (one_process ∅) 0 0 (fun _ => 0)) as (Hput & _ & Hclear).
  - apply one_process_video.
  - apply one_process_screen.
  - reflexivity.
  - reflexivity.
  - intros pos Hpos. reflexivity.
  - exact (conj Hput Hclear).
Defined.
