(* ===== verification/Paging.v ===== *)
(** * paging.c: the page directory and the page tables

    [init_paging] and the per-process part of it ([init_process_paging] of
    systemcall.c).  The theorems are about the x86 walk of file Machine: what a
    supervisor and a user access reach after the initialisation. *)

From S2P Require Import Prelude Memory Lib Filesystem Machine Pic Screen.

(** ** Constants of paging.h and systemcall.h *)

Definition KERNEL_PAGE_TABLE_INDEX : Z := 0.
Definition VIDEO_MEM_INDEX : Z := 184.
Definition KERNEL_MEM_INDEX : Z := 1.
Definition KERNEL_4KB_ALIGNED_ADDRESS : Z := 0x00400000.
Definition USER_PAGE_TABLE_INDEX : Z := 128.
Definition USER_VIDEO_MEM_INDEX : Z := 0.
Definition VIDEO_4KB_ALIGNED_ADDRESS : Z := 0xB8000.
Definition PROCESS_PAGING_INDEX : Z := 32.
Definition PROCESS_BASE_4KB_ALIGNED_ADDRESS : Z := EIGHT_MB.

(** A value stored in a 20-bit field. *)
Definition u20 (x : Z) : Z := x `mod` 2 ^ 20.

(** ** Operations *)

(** The field assignments of a page directory entry, in the order of the code. *)
Definition init_pde (i address page_size_ user : Z) : K unit :=
  wr_field page_directory i page_table_address (u20 address) ;;;
  wr_field page_directory i open_bits 0 ;;;
  wr_field page_directory i reserved_1 0 ;;;
  wr_field page_directory i page_size page_size_ ;;;
  wr_field page_directory i reserved_2 0 ;;;
  wr_field page_directory i accessed 0 ;;;
  wr_field page_directory i cache_disable 0 ;;;
  wr_field page_directory i write_through 0 ;;;
  wr_field page_directory i user_supervisor user ;;;
  wr_field page_directory i read_write_permissions 1 ;;;
  wr_field page_directory i present 1.

(** The field assignments of a page table entry. *)
Definition init_pte (table : lens machine (list pte_desc_t)) (i address user : Z) : K unit :=
  wr_field table i physical_address (u20 address) ;;;
  wr_field table i pt_open_bits 0 ;;;
  wr_field table i pt_global 1 ;;;
  wr_field table i pt_reserved_1 0 ;;;
  wr_field table i pt_dirty 0 ;;;
  wr_field table i pt_accessed 0 ;;;
  wr_field table i pt_cache_disable 0 ;;;
  wr_field table i pt_write_through 0 ;;;
  wr_field table i pt_user_supervisor user ;;;
  wr_field table i pt_read_write_permissions 1 ;;;
  wr_field table i pt_present 1.

Definition loadPageDirectory (address : Z) : K unit := wr cr3 address.
Definition enableMixedSizes : K unit := wr mixed_sizes true.
Definition enablePaging : K unit := wr paging_enabled true.

Definition init_paging : K unit :=
  pd ← rd page_directory_addr;
  loadPageDirectory pd ;;;
  enableMixedSizes ;;;
  clearTLB ;;;
  for_ 1024 0 (fun i => wr_field page_directory i present 0) ;;;
  kpt ← rd kernel_page_table_addr;
  init_pde KERNEL_PAGE_TABLE_INDEX (Z.shiftr kpt PDE_PTE_ADDRESS_SHIFT) 0 0 ;;;
  init_pde KERNEL_MEM_INDEX (Z.shiftr KERNEL_4KB_ALIGNED_ADDRESS PDE_PTE_ADDRESS_SHIFT) 1 0 ;;;
  for_ 1024 0 (fun i => wr_field kernel_page_table i pt_present 0) ;;;
  for_ 4 0 (fun i =>
    init_pte kernel_page_table (VIDEO_MEM_INDEX + i)
      (Z.shiftr (VIDEO_4KB_ALIGNED_ADDRESS + i * FOUR_KB) PDE_PTE_ADDRESS_SHIFT) 0) ;;;
  upt ← rd user_page_table_addr;
  init_pde USER_PAGE_TABLE_INDEX (Z.shiftr upt PDE_PTE_ADDRESS_SHIFT) 0 1 ;;;
  for_ 1024 0 (fun i => wr_field user_page_table i pt_present 0) ;;;
  init_pte user_page_table USER_VIDEO_MEM_INDEX
    (Z.shiftr VIDEO_4KB_ALIGNED_ADDRESS PDE_PTE_ADDRESS_SHIFT) 1 ;;;
  for_ 2 1 (fun i =>
    init_pte user_page_table (USER_VIDEO_MEM_INDEX + i)
      (Z.shiftr (VIDEO_4KB_ALIGNED_ADDRESS + (i + 1) * FOUR_KB) PDE_PTE_ADDRESS_SHIFT) 1) ;;;
  enablePaging.

Definition init_process_paging (pid : Z) : K unit :=
  init_pde PROCESS_PAGING_INDEX
    (Z.shiftr (PROCESS_BASE_4KB_ALIGNED_ADDRESS + pid * FOUR_MB) PDE_PTE_ADDRESS_SHIFT) 1 1 ;;;
  clearTLB.

(** ** Lemmas *)

(** Assignments of fields of an array element, one after the other. *)
Section fields.
Context {A : Type} (a : lens machine (list A)) (l : list A) (i : Z) (s : machine).
Hypothesis Ha : lens_ok a.
Hypothesis Hi : 0 <= i < Z.of_nat (length l).

Lemma wr_field_run {B} (f : lens A B) v x :
  wr_field a i f v (set a (upd l i x) s) = Ok (tt, set a (upd l i (set f v x)) s).
Proof using Ha Hi.
  destruct Ha as [Hgs Hss _]. unfold wr_field.
  rewrite (bind_ok _ _ _ x (set a (upd l i x) s)).
  - rewrite wr_at_run by (rewrite Hgs, length_upd; exact Hi). by rewrite Hgs, upd_upd, Hss.
  - apply rd_at_run. rewrite Hgs. by apply at_upd_eq.
Qed.

Lemma wr_field_next {B C} (f : lens A B) v x (k : K C) :
  (wr_field a i f v ;;; k) (set a (upd l i x) s) = k (set a (upd l i (set f v x)) s).
Proof using Ha Hi. by rewrite (bind_ok _ _ _ _ _ (wr_field_run f v x)). Qed.

Lemma wr_field_start : exists x, at_ l i = Some x /\ (l = get a s -> s = set a (upd l i x) s).
Proof using Ha Hi.
  destruct (at_Some l i Hi) as [x Hx]. exists x. split; [done|]. intros El.
  rewrite upd_same by done. rewrite El. symmetry. apply (set_get _ Ha).
Qed.
End fields.

Definition new_pde (address page_size_ user : Z) : pde_desc_t :=
  Pde 1 1 user 0 0 0 0 page_size_ 0 0 (u20 address).

Definition new_pte (address user : Z) : pte_desc_t :=
  Pte 1 1 user 0 0 0 0 0 1 0 (u20 address).

Lemma pag_ok : lens_ok pag.
Proof. split; [done..|]. by intros []. Qed.

Lemma page_directory_ok : lens_ok page_directory.
Proof. apply lcomp_ok; [apply pag_ok|]. split; [done..|]. by intros []. Qed.

Lemma kernel_page_table_ok : lens_ok kernel_page_table.
Proof. apply lcomp_ok; [apply pag_ok|]. split; [done..|]. by intros []. Qed.

Lemma user_page_table_ok : lens_ok user_page_table.
Proof. apply lcomp_ok; [apply pag_ok|]. split; [done..|]. by intros []. Qed.

Lemma init_pde_run i address ps us s :
  0 <= i < Z.of_nat (length (get page_directory s)) ->
  init_pde i address ps us s =
  Ok (tt, set page_directory (upd (get page_directory s) i (new_pde address ps us)) s).
Proof.
  intros Hi. destruct (wr_field_start page_directory _ i s page_directory_ok Hi) as (x & _ & Hs).
  specialize (Hs eq_refl). rewrite Hs at 1. unfold init_pde.
  rewrite !(wr_field_next _ _ _ _ page_directory_ok Hi).
  rewrite (wr_field_run _ _ _ _ page_directory_ok Hi). reflexivity.
Qed.

Lemma init_pte_run table i address us s :
  lens_ok table -> 0 <= i < Z.of_nat (length (get table s)) ->
  init_pte table i address us s = Ok (tt, set table (upd (get table s) i (new_pte address us)) s).
Proof.
  intros Ht Hi. destruct (wr_field_start table _ i s Ht Hi) as (x & _ & Hs).
  specialize (Hs eq_refl). rewrite Hs at 1. unfold init_pte.
  rewrite !(wr_field_next _ _ _ _ Ht Hi). rewrite (wr_field_run _ _ _ _ Ht Hi). reflexivity.
Qed.

(** A loop that assigns one field of every element. *)
Lemma for_field_run {A B} (a : lens machine (list A)) (f : lens A B) v n i l s :
  lens_ok a -> 0 <= i -> i + Z.of_nat n <= Z.of_nat (length l) ->
  for_ n i (fun k => wr_field a k f v) (set a l s) =
  Ok (tt, set a (take (Z.to_nat i) l ++ map (set f v) (take n (drop (Z.to_nat i) l)) ++
                 drop (Z.to_nat i + n) l) s).
Proof.
  intros Ha. revert i l. induction n as [|n IH]; intros i l Hi Hn; simpl.
  { by rewrite Nat.add_0_r, take_drop. }
  destruct (at_Some l i) as [x Hx]; [lia|].
  assert (l !! Z.to_nat i = Some x) as Hl by (unfold at_ in Hx; destruct (Z.leb_spec 0 i); [done|lia]).
  rewrite <- (upd_same l i x Hx) at 1.
  rewrite (wr_field_next a l i s Ha) by lia.
  rewrite IH by (rewrite ?length_upd; lia). do 3 f_equal. unfold upd.
  replace (Z.to_nat (i + 1)) with (S (Z.to_nat i)) by lia.
  rewrite (take_S_r _ _ (set f v x)) by (apply list_lookup_insert_eq; lia).
  rewrite take_insert_ge by lia. rewrite <- app_assoc. f_equal.
  rewrite (drop_S l x (Z.to_nat i)) by done. simpl. rewrite drop_insert_lt by lia. f_equal. f_equal.
  rewrite drop_insert_lt by lia. f_equal. lia.
Qed.

Lemma clear_present_run {A} (a : lens machine (list A)) (f : lens A Z) s :
  lens_ok a -> length (get a s) = 1024%nat ->
  for_ 1024 0 (fun k => wr_field a k f 0) s = Ok (tt, set a (map (set f 0) (get a s)) s).
Proof.
  intros Ha Hl. rewrite <- (set_get _ Ha s) at 1.
  rewrite (for_field_run a f 0 1024 0 _ s Ha) by (rewrite ?Hl; lia).
  do 3 f_equal. change (Z.to_nat 0) with 0%nat. rewrite take_0, drop_0, (take_ge _ 1024) by lia.
  rewrite (drop_ge _ (0 + 1024)) by lia. by rewrite app_nil_r.
Qed.

(** The state after [init_paging]. *)
Definition boot_directory (s : machine) : list pde_desc_t :=
  upd (upd (upd (map (set present 0) (get page_directory s))
    0 (new_pde (Z.shiftr (get kernel_page_table_addr s) 12) 0 0))
    1 (new_pde (Z.shiftr KERNEL_4KB_ALIGNED_ADDRESS 12) 1 0))
    128 (new_pde (Z.shiftr (get user_page_table_addr s) 12) 0 1).

Definition video_pte (page user : Z) : pte_desc_t := new_pte (0xB8 + page) user.

Definition boot_kernel_table (s : machine) : list pte_desc_t :=
  upd (upd (upd (upd (map (set pt_present 0) (get kernel_page_table s))
    184 (video_pte 0 0)) 185 (video_pte 1 0)) 186 (video_pte 2 0)) 187 (video_pte 3 0).

Definition boot_user_table (s : machine) : list pte_desc_t :=
  upd (upd (upd (map (set pt_present 0) (get user_page_table s))
    0 (video_pte 0 1)) 1 (video_pte 2 1)) 2 (video_pte 3 1).

Definition paged (s : machine) : machine :=
  set pag (Paging (boot_directory s) (boot_kernel_table s) (boot_user_table s)
    (get kernel_page_table_addr s) (get page_directory_addr s) (get user_page_table_addr s)
    (get page_directory_addr s) true true)
    (set trace (FlushTLB :: get trace s) s).

Record tables_sized (s : machine) : Prop := {
  ts_pd : length (get page_directory s) = 1024%nat;
  ts_kt : length (get kernel_page_table s) = 1024%nat;
  ts_ut : length (get user_page_table s) = 1024%nat
}.

(** The length of a table through updates. *)
Ltac table_length H :=
  lsimpl; rewrite ?length_upd, ?length_map; lsimpl; rewrite ?length_upd, ?length_map, H; done.

Lemma kernel_video_run s :
  length (get kernel_page_table s) = 1024%nat ->
  for_ 4 0 (fun i =>
    init_pte kernel_page_table (VIDEO_MEM_INDEX + i)
      (Z.shiftr (VIDEO_4KB_ALIGNED_ADDRESS + i * FOUR_KB) PDE_PTE_ADDRESS_SHIFT) 0) s =
  Ok (tt, set kernel_page_table
    (upd (upd (upd (upd (get kernel_page_table s) 184 (video_pte 0 0)) 185 (video_pte 1 0))
       186 (video_pte 2 0)) 187 (video_pte 3 0)) s).
Proof.
  intros Hl. cbn [for_].
  do 4 (erewrite bind_ok; [|apply init_pte_run; [apply kernel_page_table_ok|table_length Hl]]).
  reflexivity.
Qed.

Lemma user_video_run s :
  length (get user_page_table s) = 1024%nat ->
  (init_pte user_page_table USER_VIDEO_MEM_INDEX
     (Z.shiftr VIDEO_4KB_ALIGNED_ADDRESS PDE_PTE_ADDRESS_SHIFT) 1 ;;;
   for_ 2 1 (fun i =>
     init_pte user_page_table (USER_VIDEO_MEM_INDEX + i)
       (Z.shiftr (VIDEO_4KB_ALIGNED_ADDRESS + (i + 1) * FOUR_KB) PDE_PTE_ADDRESS_SHIFT) 1)) s =
  Ok (tt, set user_page_table
    (upd (upd (upd (get user_page_table s) 0 (video_pte 0 1)) 1 (video_pte 2 1)) 2 (video_pte 3 1)) s).
Proof.
  intros Hl. cbn [for_].
  do 3 (erewrite bind_ok; [|apply init_pte_run; [apply user_page_table_ok|table_length Hl]]).
  reflexivity.
Qed.

Lemma init_paging_run s : tables_sized s -> init_paging s = Ok (tt, paged s).
Proof.
  intros [Hpd Hkt Hut]. unfold init_paging, loadPageDirectory, enableMixedSizes, enablePaging.
  rewrite (bind_ok _ _ _ _ _ (rd_run _ _)), !(bind_ok _ _ _ _ _ (wr_run _ _ _)),
    (bind_ok _ _ _ _ _ (clearTLB_run _)).
  erewrite bind_ok; [|apply clear_present_run; [apply page_directory_ok|exact Hpd]].
  rewrite (bind_ok _ _ _ _ _ (rd_run _ _)).
  do 2 (erewrite bind_ok; [|apply init_pde_run; table_length Hpd]).
  erewrite bind_ok; [|apply clear_present_run; [apply kernel_page_table_ok|exact Hkt]].
  erewrite bind_ok; [|apply kernel_video_run; table_length Hkt].
  rewrite (bind_ok _ _ _ _ _ (rd_run _ _)).
  erewrite bind_ok; [|apply init_pde_run; table_length Hpd].
  erewrite bind_ok; [|apply clear_present_run; [apply user_page_table_ok|exact Hut]].
  rewrite run_assoc. erewrite bind_ok; [|apply user_video_run; table_length Hut].
  reflexivity.
Qed.

(** ** What the processor reaches *)

(** The physical address of an access, and whether user code may make it. *)
Definition access (g : paging_t) (a : Z) : option (Z * bool) :=
  (fun r : Z * pde_desc_t * option pte_desc_t =>
     let '(p, d, t) := r in
     (p, (pde_user_supervisor d =? 1) &&
         match t with Some t => pte_pt_user_supervisor t =? 1 | None => true end)) <$> walk g a.

(** The specified map: the text pages and the kernel at their own addresses, for
    the kernel only; at 512 MB one page per terminal, the display for the
    terminal [shown]; at 128 MB the 4 MB of the running process. *)
Definition USER_VIDEO : Z := 0x20000000.

Definition PROCESS_VIRTUAL : Z := 0x8000000.

Definition video_page (shown t : Z) : Z := if t =? shown then 0 else t + 1.

Definition process_frame (pid : Z) : Z := PROCESS_BASE_4KB_ALIGNED_ADDRESS + pid * FOUR_MB.

Definition address_map (shown : Z) (proc : option Z) (a : Z) : option (Z * bool) :=
  if (VIDEO <=? a) && (a <? VIDEO + 4 * FOUR_KB) then Some (a, false)
  else if (FOUR_MB <=? a) && (a <? EIGHT_MB) then Some (a, false)
  else if (USER_VIDEO <=? a) && (a <? USER_VIDEO + 3 * FOUR_KB) then
    Some (VIDEO + video_page shown ((a - USER_VIDEO) / FOUR_KB) * FOUR_KB + a `mod` FOUR_KB, true)
  else if (PROCESS_VIRTUAL <=? a) && (a <? PROCESS_VIRTUAL + FOUR_MB) then
    pid ← proc; Some (process_frame pid + (a - PROCESS_VIRTUAL), true)
  else None.

(** The linker aligns the tables and gives them distinct addresses. *)
Record layout_ok (g : paging_t) : Prop := {
  lo_k : 0 <= g_kernel_page_table_addr g < 2 ^ 32 /\ g_kernel_page_table_addr g `mod` 4096 = 0;
  lo_u : 0 <= g_user_page_table_addr g < 2 ^ 32 /\ g_user_page_table_addr g `mod` 4096 = 0;
  lo_ne : g_user_page_table_addr g <> g_kernel_page_table_addr g
}.

(** The contents of the paging structures while the kernel runs. *)
Record paging_inv (shown : Z) (proc : option Z) (g : paging_t) : Prop := {
  pi_layout : layout_ok g;
  pi_cr3 : g_cr3 g = g_page_directory_addr g;
  pi_pse : g_mixed_sizes g = true;
  pi_on : g_paging_enabled g = true;
  pi_pd : length (g_page_directory g) = 1024%nat;
  pi_kt : length (g_kernel_page_table g) = 1024%nat;
  pi_ut : length (g_user_page_table g) = 1024%nat;
  pi_0 : at_ (g_page_directory g) 0 = Some (new_pde (Z.shiftr (g_kernel_page_table_addr g) 12) 0 0);
  pi_1 : at_ (g_page_directory g) 1 = Some (new_pde (Z.shiftr FOUR_MB 12) 1 0);
  pi_128 : at_ (g_page_directory g) 128 = Some (new_pde (Z.shiftr (g_user_page_table_addr g) 12) 0 1);
  pi_32 : forall d, at_ (g_page_directory g) 32 = Some d ->
    match proc with
    | Some pid => 0 <= pid < MAX_PROCESSES /\ d = new_pde (Z.shiftr (process_frame pid) 12) 1 1
    | None => pde_present d = 0
    end;
  pi_other : forall i d, i <> 0 -> i <> 1 -> i <> 32 -> i <> 128 ->
    at_ (g_page_directory g) i = Some d -> pde_present d = 0;
  pi_video : forall j, 0 <= j < 4 -> at_ (g_kernel_page_table g) (184 + j) = Some (video_pte j 0);
  pi_kernel : forall j t, ~ (184 <= j < 188) -> at_ (g_kernel_page_table g) j = Some t -> pte_pt_present t = 0;
  pi_user : forall j, 0 <= j < 3 -> at_ (g_user_page_table g) j = Some (video_pte (video_page shown j) 1);
  pi_rest : forall j t, ~ (0 <= j < 3) -> at_ (g_user_page_table g) j = Some t -> pte_pt_present t = 0
}.

Lemma frame_base x : 0 <= x < 2 ^ 32 -> x `mod` 4096 = 0 -> Z.shiftl (u20 (Z.shiftr x 12)) 12 = x.
Proof.
  intros Hx Hm. rewrite Z.shiftl_mul_pow2, Z.shiftr_div_pow2 by lia. unfold u20.
  change (2 ^ 12) with 4096. rewrite Z.mod_small; [|split; [apply Z.div_pos; lia|apply Z.div_lt_upper_bound; lia]].
  pose proof (Z.div_mod x 4096). lia.
Qed.

Lemma big_frame_base x : 0 <= x < 2 ^ 32 -> x `mod` 2 ^ 22 = 0 ->
  Z.shiftl (Z.shiftr (u20 (Z.shiftr x 12)) 10) 22 = x.
Proof.
  intros Hx Hm. rewrite Z.shiftl_mul_pow2, !Z.shiftr_div_pow2 by lia. unfold u20.
  rewrite Z.mod_small; [|split; [apply Z.div_pos; lia|apply Z.div_lt_upper_bound; lia]].
  rewrite Z.div_div by lia. change (2 ^ 12 * 2 ^ 10) with (2 ^ 22).
  pose proof (Z.div_mod x (2 ^ 22)). lia.
Qed.

Lemma at_upd {A} (l : list A) i j x :
  0 <= i < Z.of_nat (length l) -> at_ (upd l i x) j = if decide (i = j) then Some x else at_ l j.
Proof. intros. case_decide as E; [subst; by apply at_upd_eq|by apply at_upd_ne; [|lia]]. Qed.

Lemma at_map {A B} (f : A -> B) l i : at_ (map f l) i = f <$> at_ l i.
Proof. unfold at_. destruct (0 <=? i); [|done]. apply list_lookup_fmap. Qed.

(** The page of an address, by its two indices. *)
Lemma page_index a i : 0 <= a -> Z.shiftr a 12 = i <-> i * 4096 <= a < (i + 1) * 4096.
Proof.
  intros Ha. rewrite Z.shiftr_div_pow2 by lia. change (2 ^ 12) with 4096. split.
  - intros <-. pose proof (Z.div_mod a 4096). pose proof (Z.mod_pos_bound a 4096). lia.
  - intros. symmetry. apply (Z.div_unique_pos _ _ _ (a - i * 4096)); lia.
Qed.

Lemma big_page_index a i : 0 <= a -> Z.shiftr a 22 = i <-> i * 0x400000 <= a < (i + 1) * 0x400000.
Proof.
  intros Ha. rewrite Z.shiftr_div_pow2 by lia. change (2 ^ 22) with 0x400000. split.
  - intros <-. pose proof (Z.div_mod a 0x400000). pose proof (Z.mod_pos_bound a 0x400000). lia.
  - intros. symmetry. apply (Z.div_unique_pos _ _ _ (a - i * 0x400000)); lia.
Qed.

Section walk.
Context (g : paging_t) (a : Z).
Hypothesis Hcr3 : g_cr3 g = g_page_directory_addr g.
Hypothesis Hpse : g_mixed_sizes g = true.
Hypothesis Ha : 0 <= a < 2 ^ 32.

Lemma access_absent d :
  at_ (g_page_directory g) (Z.shiftr a 22) = Some d -> pde_present d = 0 -> access g a = None.
Proof using Hcr3.
  intros Hd Hp. unfold access, walk. rewrite Hcr3, Z.eqb_refl. cbn [negb]. by rewrite Hd; unfold mbind, option_bind; rewrite Hp.
Qed.

Lemma access_big x us :
  at_ (g_page_directory g) (Z.shiftr a 22) = Some (new_pde (Z.shiftr x 12) 1 us) ->
  0 <= x < 2 ^ 32 -> x `mod` 2 ^ 22 = 0 ->
  access g a = Some (x + a `mod` 0x400000, us =? 1).
Proof using Hcr3 Hpse.
  intros Hd Hx Hm. unfold access, walk. rewrite Hcr3, Z.eqb_refl. cbn [negb].
  rewrite Hd, Hpse. unfold mbind, option_bind. cbn [new_pde pde_present pde_page_size pde_user_supervisor pde_page_table_address Z.eqb Pos.eqb andb].
  rewrite big_frame_base by done. cbn [fmap option_fmap option_map]. by rewrite andb_true_r.
Qed.

(** An access through one of the two page tables. *)
Lemma access_small x us table :
  at_ (g_page_directory g) (Z.shiftr a 22) = Some (new_pde (Z.shiftr x 12) 0 us) ->
  0 <= x < 2 ^ 32 -> x `mod` 4096 = 0 ->
  (x = g_kernel_page_table_addr g /\ table = g_kernel_page_table g \/
   x <> g_kernel_page_table_addr g /\ x = g_user_page_table_addr g /\ table = g_user_page_table g) ->
  access g a =
    t ← at_ table (Z.shiftr a 12 `mod` 2 ^ 10);
    if pte_pt_present t =? 0 then None
    else Some (Z.shiftl (pte_physical_address t) 12 + a `mod` 4096, (us =? 1) && (pte_pt_user_supervisor t =? 1)).
Proof using Hcr3.
  intros Hd Hx Hm Htab. unfold access, walk. rewrite Hcr3, Z.eqb_refl. cbn [negb].
  rewrite Hd. unfold mbind, option_bind. cbn [new_pde pde_present pde_page_size pde_user_supervisor pde_page_table_address Z.eqb Pos.eqb andb].
  unfold PDE_PTE_ADDRESS_SHIFT.
  rewrite frame_base by done.
  assert ((if x =? g_kernel_page_table_addr g then g_kernel_page_table g
           else if x =? g_user_page_table_addr g then g_user_page_table g else []) = table) as ->.
  { destruct Htab as [[-> ->]|(? & -> & ->)]; [by rewrite Z.eqb_refl|].
    destruct (Z.eqb_spec (g_user_page_table_addr g) (g_kernel_page_table_addr g)); [done|]. by rewrite Z.eqb_refl. }
  destruct (at_ table _) as [t|]; [|done]. by destruct (pte_pt_present t =? 0).
Qed.
End walk.

(** The index into a page table. *)
Lemma table_index a i : 0 <= a -> Z.shiftr a 22 = i -> Z.shiftr a 12 `mod` 2 ^ 10 = Z.shiftr a 12 - i * 1024.
Proof.
  intros Ha <-. rewrite !Z.shiftr_div_pow2 by lia. change (2 ^ 22) with (2 ^ 12 * 2 ^ 10).
  rewrite <- Z.div_div by lia. pose proof (Z.div_mod (a / 2 ^ 12) (2 ^ 10)). lia.
Qed.

Lemma video_pte_frame k : 0 <= k < 4 -> Z.shiftl (pte_physical_address (video_pte k 0)) 12 = VIDEO + k * FOUR_KB.
Proof.
  intros. unfold video_pte, new_pte, u20, VIDEO, FOUR_KB. cbn [pte_physical_address].
  rewrite Z.mod_small by lia. rewrite Z.shiftl_mul_pow2 by lia. lia.
Qed.

Section map.
Context (shown : Z) (proc : option Z) (g : paging_t) (a : Z).
Hypothesis Hinv : paging_inv shown proc g.
Hypothesis Ha : 0 <= a < 2 ^ 32.

Lemma mod_page n i : 0 < n -> i * n <= a < (i + 1) * n -> a `mod` n = a - i * n.
Proof using Type. intros. symmetry. apply (Z.mod_unique_pos _ _ i); lia. Qed.

Lemma access_page0 : a < 0x400000 ->
  access g a = if (VIDEO <=? a) && (a <? VIDEO + 4 * FOUR_KB) then Some (a, false) else None.
Proof using Hinv Ha.
  intros Hlt. destruct Hinv as [[[Hk1 Hk2] _ _] Hcr3 Hpse _ _ Hkt _ H0 _ _ _ _ Hv Hk _ _].
  assert (Z.shiftr a 22 = 0) as Hi by (apply big_page_index; lia).
  rewrite (access_small g a Hcr3 (g_kernel_page_table_addr g) 0 (g_kernel_page_table g));
    [|by rewrite Hi|done|done|by left].
  rewrite (table_index a 0) by (lia || done). rewrite Z.mul_0_l, Z.sub_0_r.
  set (j := Z.shiftr a 12). pose proof (proj1 (page_index a j ltac:(lia)) eq_refl) as Hj.
  unfold VIDEO, FOUR_KB. destruct (decide (184 <= j < 188)) as [Hin|Hout].
  - replace j with (184 + (j - 184)) at 1 by lia. rewrite Hv by lia.
    unfold mbind, option_bind. rewrite (mod_page 4096 j) by lia.
    replace (Z.shiftl (pte_physical_address (video_pte (j - 184) 0)) 12) with (VIDEO + (j - 184) * FOUR_KB)
      by (symmetry; apply video_pte_frame; lia).
    destruct (Z.leb_spec 0xB8000 a), (Z.ltb_spec a (0xB8000 + 4 * 0x1000)); try lia.
    cbn [video_pte new_pte pte_pt_present Z.eqb andb]. do 2 f_equal. unfold VIDEO, FOUR_KB. lia.
  - destruct (at_Some (g_kernel_page_table g) j) as [t Ht]; [lia|].
    rewrite Ht. unfold mbind, option_bind. rewrite (Hk j t Hout Ht).
    destruct (Z.leb_spec 0xB8000 a), (Z.ltb_spec a (0xB8000 + 4 * 0x1000)); try done; lia.
Qed.

Lemma access_page128 : USER_VIDEO <= a < USER_VIDEO + 0x400000 ->
  access g a =
    if a <? USER_VIDEO + 3 * FOUR_KB then
      Some (VIDEO + video_page shown ((a - USER_VIDEO) / FOUR_KB) * FOUR_KB + a `mod` FOUR_KB, true)
    else None.
Proof using Hinv Ha.
  intros Hlt. destruct Hinv as [[_ [Hu1 Hu2] Hne] Hcr3 Hpse _ _ _ Hut _ _ H128 _ _ _ _ Hv Hk].
  unfold USER_VIDEO, FOUR_KB in *.
  assert (Z.shiftr a 22 = 128) as Hi by (apply big_page_index; lia).
  rewrite (access_small g a Hcr3 (g_user_page_table_addr g) 1 (g_user_page_table g));
    [|by rewrite Hi|done|done|by right].
  rewrite (table_index a 128) by (lia || done).
  set (j := Z.shiftr a 12 - 128 * 1024).
  assert ((j + 131072) * 4096 <= a < (j + 131072 + 1) * 4096) as Hj
    by (apply page_index; [lia|unfold j; lia]).
  assert ((a - 0x20000000) / 4096 = j) as ->
    by (symmetry; apply (Z.div_unique_pos _ _ _ (a - (j + 131072) * 4096)); lia).
  destruct (Z.ltb_spec a (0x20000000 + 3 * 0x1000)).
  - rewrite Hv by lia. unfold mbind, option_bind, video_page.
    cbn [video_pte new_pte pte_pt_present pte_pt_user_supervisor pte_physical_address Z.eqb Pos.eqb andb].
    do 2 f_equal. f_equal. unfold u20, VIDEO.
    destruct (j =? shown); rewrite Z.mod_small, Z.shiftl_mul_pow2 by lia; lia.
  - destruct (at_Some (g_user_page_table g) j) as [t Ht]; [lia|].
    rewrite Ht. unfold mbind, option_bind. rewrite (Hk j t); [done|lia|done].
Qed.

(** Comparison of an address with the bounds of the map. *)
Ltac bounds_case :=
  unfold address_map, VIDEO, USER_VIDEO, FOUR_KB, FOUR_MB, EIGHT_MB, PROCESS_VIRTUAL;
  repeat match goal with
  | |- context [?x <=? ?y] => destruct (Z.leb_spec x y)
  | |- context [?x <? ?y] => destruct (Z.ltb_spec x y)
  end; cbn [andb]; try done; try lia.

(** The big pages: an absent entry, the kernel, and the process. *)
Lemma access_absent_map d : let i := Z.shiftr a 22 in
  i <> 0 -> i <> 1 -> i <> 128 -> (i = 32 -> proc = None) ->
  at_ (g_page_directory g) i = Some d -> access g a = address_map shown proc a.
Proof using Hinv Ha.
  intros i H0 H1 H128 H32 Hd. pose proof (proj1 (big_page_index a i ltac:(lia)) eq_refl) as Hi.
  destruct Hinv as [_ Hcr3 Hpse _ _ _ _ _ _ _ Hp32 Hoth _ _ _ _].
  assert (pde_present d = 0) as Hpd.
  { destruct (decide (i = 32)) as [E|]; [|by eapply Hoth].
    specialize (H32 E). subst proc. apply (Hp32 d). by rewrite <- E. }
  rewrite (access_absent g a Hcr3 d Hd Hpd).
  bounds_case.
  rewrite H32 by lia. done.
Qed.

Lemma access_kernel_map : Z.shiftr a 22 = 1 -> access g a = address_map shown proc a.
Proof using Hinv Ha.
  intros E. pose proof (proj1 (big_page_index a 1 ltac:(lia)) E) as Hi.
  destruct Hinv as [_ Hcr3 Hpse _ _ _ _ _ H1 _ _ _ _ _ _ _].
  rewrite (access_big g a Hcr3 Hpse FOUR_MB 0) by (rewrite ?E; done).
  rewrite (mod_page 0x400000 1) by lia.
  bounds_case.
  all: do 2 f_equal; lia.
Qed.

Lemma access_process_map pid :
  Z.shiftr a 22 = 32 -> proc = Some pid -> access g a = address_map shown proc a.
Proof using Hinv Ha.
  intros E ->. pose proof (proj1 (big_page_index a 32 ltac:(lia)) E) as Hi.
  destruct Hinv as [_ Hcr3 Hpse _ Hpd _ _ _ _ _ H32 _ _ _ _ _].
  destruct (at_Some (g_page_directory g) 32) as [d Hd]; [lia|].
  destruct (H32 d Hd) as [Hp ->]. unfold MAX_PROCESSES in Hp.
  rewrite (access_big g a Hcr3 Hpse (process_frame pid) 1).
  - rewrite (mod_page 0x400000 32) by lia.
    bounds_case.
  - by rewrite E.
  - unfold process_frame, PROCESS_BASE_4KB_ALIGNED_ADDRESS, EIGHT_MB, FOUR_MB. lia.
  - unfold process_frame, PROCESS_BASE_4KB_ALIGNED_ADDRESS, EIGHT_MB, FOUR_MB.
    replace (0x800000 + pid * 0x400000) with ((2 + pid) * 2 ^ 22) by lia. apply Z.mod_mul. lia.
Qed.

Lemma access_map : access g a = address_map shown proc a.
Proof using Hinv Ha.
  set (i := Z.shiftr a 22). pose proof (proj1 (big_page_index a i ltac:(lia)) eq_refl) as Hi.
  assert (length (g_page_directory g) = 1024%nat) as Hpd by apply Hinv.
  destruct (decide (i = 0)).
  { rewrite access_page0 by lia.
    bounds_case. }
  destruct (decide (i = 128)).
  { rewrite access_page128 by (unfold USER_VIDEO; lia).
    bounds_case. }
  destruct (decide (i = 1)); [by apply access_kernel_map|].
  destruct (at_Some (g_page_directory g) i) as [d Hd]; [lia|].
  destruct (decide (i = 32)) as [E32|]; [|by apply (access_absent_map d)].
  assert ((exists pid, proc = Some pid) \/ proc = None) as [[pid Ep]|Ep] by (destruct proc; eauto).
  - by apply (access_process_map pid).
  - by apply (access_absent_map d).
Qed.
End map.

(** The frames that user code can reach. *)
Lemma address_map_user shown proc a p :
  address_map shown proc a = Some (p, true) -> 0 <= shown < NUM_TERMINALS ->
  VIDEO <= p < VIDEO + 4 * FOUR_KB \/
  exists pid, proc = Some pid /\ process_frame pid <= p < process_frame pid + FOUR_MB.
Proof.
  intros Hm Hs. unfold address_map in Hm.
  destruct (_ && _); [done|]. destruct (_ && _); [done|].
  destruct (_ && _) eqn:E1 in Hm.
  - left. injection Hm as <-. apply andb_true_iff in E1 as [E1%Z.leb_le E2%Z.ltb_lt].
    unfold video_page, USER_VIDEO, FOUR_KB, VIDEO, NUM_TERMINALS in *.
    pose proof (Z.mod_pos_bound a 0x1000). pose proof (Z.div_mod (a - 0x20000000) 0x1000).
    pose proof (Z.mod_pos_bound (a - 0x20000000) 0x1000).
    destruct (_ =? _); lia.
  - right. destruct (_ && _) eqn:E2 in Hm; [|done].
    apply andb_true_iff in E2 as [E2%Z.leb_le E3%Z.ltb_lt].
    destruct proc as [pid|]; [|done]. injection Hm as <-. exists pid. split; [done|]. lia.
Qed.

Lemma translate_access g a :
  g_paging_enabled g = true -> 0 <= a < 2 ^ 32 -> translate g a = fst <$> access g a.
Proof.
  intros Hon Ha. unfold translate. destruct (Z.leb_spec (2 ^ 32) a); [lia|].
  rewrite Hon, u32_small by done. unfold access. by destruct (walk g a) as [[[p d] t]|].
Qed.

Lemma paging_inv_video shown proc s : paging_inv shown proc (get pag s) -> video_mapped s.
Proof.
  intros Hinv a Ha. assert (0 <= a < 2 ^ 32) by (unfold VIDEO, FOUR_KB in Ha; lia).
  rewrite translate_access by (apply Hinv || done). erewrite access_map by eauto.
  unfold address_map. destruct (Z.leb_spec VIDEO a), (Z.ltb_spec a (VIDEO + 4 * FOUR_KB)); try lia. done.
Qed.

Lemma paging_inv_pid shown pid g : paging_inv shown (Some pid) g -> 0 <= pid < MAX_PROCESSES.
Proof.
  intros Hinv. destruct (at_Some (g_page_directory g) 32) as [d Hd]; [rewrite (pi_pd _ _ _ Hinv); lia|].
  by destruct (pi_32 _ _ _ Hinv d Hd).
Qed.

Lemma address_map_bound shown proc g a p u :
  paging_inv shown proc g -> address_map shown proc a = Some (p, u) -> p < 2 ^ 32.
Proof.
  intros Hinv. unfold address_map, VIDEO, FOUR_KB, FOUR_MB, EIGHT_MB, USER_VIDEO, PROCESS_VIRTUAL.
  destruct (_ && _) eqn:E1; [apply andb_true_iff in E1 as [?%Z.leb_le ?%Z.ltb_lt]; intros [= <- <-]; lia|].
  destruct (_ && _) eqn:E2 in |- *; [apply andb_true_iff in E2 as [?%Z.leb_le ?%Z.ltb_lt]; intros [= <- <-]; lia|].
  destruct (_ && _) eqn:E3 in |- *.
  { apply andb_true_iff in E3 as [?%Z.leb_le ?%Z.ltb_lt]; intros [= <- <-].
    pose proof (Z.mod_pos_bound a 0x1000 ltac:(lia)).
    assert (0 <= (a - 0x20000000) / 0x1000 < 3) by (split; [apply Z.div_pos; lia|apply Z.div_lt_upper_bound; lia]).
    unfold video_page. destruct (_ =? _); lia. }
  destruct (_ && _) eqn:E4 in |- *; [|done]. destruct proc as [pid|]; [|done].
  apply andb_true_iff in E4 as [?%Z.leb_le ?%Z.ltb_lt]. intros [= <- <-].
  pose proof (paging_inv_pid _ _ _ Hinv).
  unfold process_frame, PROCESS_BASE_4KB_ALIGNED_ADDRESS, EIGHT_MB, FOUR_MB, MAX_PROCESSES in *. lia.
Qed.

Lemma paging_inv_apart shown proc s : paging_inv shown proc (get pag s) -> locals_apart s.
Proof.
  intros Hinv a c Ha Hc. pose proof (u32_range a) as Hu.
  assert (translate (get pag s) (u32 a) = Some c) as Hc'.
  { rewrite <- Hc. unfold translate. destruct (Z.leb_spec (2 ^ 32) (u32 a)), (Z.leb_spec (2 ^ 32) a); try lia.
    by rewrite (u32_small (u32 a)). }
  rewrite translate_access in Hc' by (apply Hinv || done). erewrite access_map in Hc' by eauto.
  destruct (address_map shown proc (u32 a)) as [[p u]|] eqn:E; [|done]. injection Hc' as ->.
  by eapply address_map_bound.
Qed.

Lemma at_cleared (l : list pde_desc_t) i d : at_ (map (set present 0) l) i = Some d -> pde_present d = 0.
Proof. rewrite at_map. destruct (at_ l i); [|done]. by intros [= <-]. Qed.

Lemma at_cleared_pte (l : list pte_desc_t) i d :
  at_ (map (set pt_present 0) l) i = Some d -> pte_pt_present d = 0.
Proof. rewrite at_map. destruct (at_ l i); [|done]. by intros [= <-]. Qed.

Ltac paging_fields :=
  cbn [g_page_directory g_kernel_page_table g_user_page_table g_kernel_page_table_addr
       g_page_directory_addr g_user_page_table_addr g_cr3 g_mixed_sizes g_paging_enabled].

(** Reads of an updated table. *)
Ltac table_read :=
  repeat (rewrite at_upd by (rewrite ?length_upd, ?length_map; lia)).

Lemma boot_paging_inv s :
  tables_sized s -> layout_ok (get pag s) -> paging_inv 0 None (get pag (paged s)).
Proof.
  intros [Hpd Hkt Hut] Hlo.
  change (get pag (paged s)) with (Paging (boot_directory s) (boot_kernel_table s) (boot_user_table s)
    (get kernel_page_table_addr s) (get page_directory_addr s) (get user_page_table_addr s)
    (get page_directory_addr s) true true).
  split; paging_fields; unfold boot_directory, boot_kernel_table, boot_user_table; try done.
  - destruct Hlo. by split.
  - by rewrite !length_upd, length_map.
  - by rewrite !length_upd, length_map.
  - by rewrite !length_upd, length_map.
  - table_read. done.
  - table_read. done.
  - table_read. done.
  - intros d. table_read. simpl. apply at_cleared.
  - intros i d ? ? ? ?. table_read. rewrite !decide_False by congruence. apply at_cleared.
  - intros j Hj. assert (j = 0 \/ j = 1 \/ j = 2 \/ j = 3) as [->|[->|[->| ->]]] by lia; table_read; done.
  - intros j t Hj. table_read. rewrite !decide_False by lia. apply at_cleared_pte.
  - intros j Hj. assert (j = 0 \/ j = 1 \/ j = 2) as [->|[->| ->]] by lia; table_read; done.
  - intros j t Hj. table_read. rewrite !decide_False by lia. apply at_cleared_pte.
Qed.

(** The state after the process page of [pid] is set. *)
Definition process_paged (pid : Z) (s : machine) : machine :=
  set trace (FlushTLB :: get trace s)
    (set page_directory
       (upd (get page_directory s) 32 (new_pde (Z.shiftr (process_frame pid) 12) 1 1)) s).

Lemma init_process_paging_run pid s :
  length (get page_directory s) = 1024%nat ->
  init_process_paging pid s = Ok (tt, process_paged pid s).
Proof.
  intros Hl. unfold init_process_paging.
  erewrite bind_ok; [|apply init_pde_run; unfold PROCESS_PAGING_INDEX; rewrite Hl; done]. done.
Qed.

(** Another process page in the directory. *)
Lemma paging_inv_process shown proc pid g d :
  paging_inv shown proc g -> 0 <= pid < MAX_PROCESSES ->
  d = new_pde (Z.shiftr (process_frame pid) 12) 1 1 ->
  paging_inv shown (Some pid)
    (Paging (upd (g_page_directory g) 32 d) (g_kernel_page_table g) (g_user_page_table g)
       (g_kernel_page_table_addr g) (g_page_directory_addr g) (g_user_page_table_addr g)
       (g_cr3 g) (g_mixed_sizes g) (g_paging_enabled g)).
Proof.
  intros [] Hp ->. assert (Z.of_nat (length (g_page_directory g)) = 1024) by lia.
  split; paging_fields; try done.
  - destruct pi_layout0. by split.
  - by rewrite length_upd.
  - rewrite at_upd by lia. done.
  - rewrite at_upd by lia. done.
  - rewrite at_upd by lia. done.
  - intros d. rewrite at_upd by lia. simpl. by intros [= <-].
  - intros i d ? ? ? ?. rewrite at_upd, decide_False by (congruence || lia). eauto.
Qed.

(** ** Properties *)

(** [init_paging] sets up exactly the boot map: the four text pages and the
    kernel page at their own addresses for supervisor code, three user pages
    with the video memory of the terminals at 512 MB, and nothing else. *)
Theorem init_paging_map s a :
  tables_sized s -> layout_ok (get pag s) -> 0 <= a < 2 ^ 32 ->
  exists s', init_paging s = Ok (tt, s') /\ g_paging_enabled (get pag s') = true /\
    access (get pag s') a = address_map 0 None a.
Proof.
  intros Hs Hlo Ha. exists (paged s). split; [by apply init_paging_run|].
  split; [done|]. apply access_map; [by apply boot_paging_inv|done].
Qed.

(** C22: after [init_process_paging pid] user code reaches exactly the 4 MB frame of
    [pid] (at 128 MB) and the video pages: no kernel memory and no frame of
    another process. *)
Theorem init_process_paging_isolates shown proc pid s :
  paging_inv shown proc (get pag s) -> 0 <= pid < MAX_PROCESSES -> 0 <= shown < NUM_TERMINALS ->
  exists s', init_process_paging pid s = Ok (tt, s') /\
    (forall a, 0 <= a < 2 ^ 32 -> access (get pag s') a = address_map shown (Some pid) a) /\
    (forall a p, 0 <= a < 2 ^ 32 -> access (get pag s') a = Some (p, true) ->
       (VIDEO <= p < VIDEO + 4 * FOUR_KB \/ process_frame pid <= p < process_frame pid + FOUR_MB) /\
       forall other, 0 <= other < MAX_PROCESSES -> other <> pid ->
         ~ (process_frame other <= p < process_frame other + FOUR_MB)).
Proof.
  intros Hinv Hp Hs.
  exists (process_paged pid s). split; [apply init_process_paging_run, Hinv|].
  assert (forall a, 0 <= a < 2 ^ 32 ->
    access (get pag (process_paged pid s)) a = address_map shown (Some pid) a) as Hacc.
  { intros a Ha. apply access_map; [|done].
    by apply (paging_inv_process shown proc pid (get pag s) _ Hinv Hp). }
  split; [exact Hacc|]. intros a p Ha Hap. rewrite Hacc in Hap by done.
  unfold VIDEO, FOUR_KB, process_frame, PROCESS_BASE_4KB_ALIGNED_ADDRESS, EIGHT_MB, FOUR_MB, MAX_PROCESSES in *.
  destruct (address_map_user _ _ _ _ Hap Hs) as [Hv|(q & [= <-] & Hq)];
    unfold VIDEO, FOUR_KB, process_frame, PROCESS_BASE_4KB_ALIGNED_ADDRESS, EIGHT_MB, FOUR_MB in *;
    (split; [lia|intros; lia]).
Qed.

Lemma demo_layout_ok : layout_ok (get pag (one_process ∅)).
Proof. split; vm_compute; done. Qed.

Lemma init_paging_map_witness :
  exists s', init_paging (one_process ∅) = Ok (tt, s') /\ g_paging_enabled (get pag s') = true /\
    access (get pag s') 0x400000 = Some (0x400000, false).
Proof.
  apply (init_paging_map (one_process ∅) 0x400000); [split; reflexivity|apply demo_layout_ok|lia].
Defined.

Lemma init_process_paging_isolates_witness :
  exists s', init_process_paging 1 (paged (one_process ∅)) = Ok (tt, s') /\
    access (get pag s') 0x8000004 = Some (0xC00004, true).
Proof.
  destruct (init_process_paging_isolates 0 None 1 (paged (one_process ∅))) as (s' & Hrun & Hacc & _).
  - apply boot_paging_inv; [split; reflexivity|apply demo_layout_ok].
  - done.
  - done.
  - exists s'. split; [exact Hrun|]. rewrite Hacc by lia. reflexivity.
Defined.
