(* ===== verification/Rtc.v ===== *)
(** * RTC.c: the real-time clock driver

    Opening, reading (waiting for the next tick), writing (setting the rate),
    initialisation and the interrupt handler.  The interrupts that end the wait
    of [RTCRead] are served by an argument of the definitions, which file Syscall
    instantiates. *)

From S2P Require Import Prelude Memory Lib Filesystem Machine Pic.

(** ** Constants of RTC.h *)

Definition INIT_FREQ : Z := 2.
Definition MIN_FREQ : Z := 2.
Definition MAX_FREQ : Z := 1024.
Definition BASE_FREQ : Z := 32768.
Definition RTC_IRQ : Z := 8.
Definition RTC_PORT : Z := 0x70.
Definition RTC_DATA : Z := 0x71.
Definition BIT6_MASK : Z := 0x40.
Definition LOW4 : Z := 0x0f.
Definition HI4 : Z := 0xf0.
Definition RTC_A : Z := 0x0a.
Definition RTC_B : Z := 0x0b.
Definition RTC_C : Z := 0x0c.
Definition BIT8 : Z := 0x80.

(** ** Operations *)

(** The loop [for (i = 1; i != 0; i = i << 1)] that counts the bits of [freq];
    the single bit leaves a 32-bit word after 32 shifts. *)
Fixpoint count_bits (fuel : nat) (freq i bitFlag : Z) : Z :=
  match fuel with
  | O => bitFlag
  | S fuel' =>
      if i =? 0 then bitFlag
      else count_bits fuel' freq (u32 (Z.shiftl i 1))
             (if Z.land freq i =? 0 then bitFlag else bitFlag + 1)
  end.

(** The loop [for (i = BASE_FREQ; i > freq; i = i >> 1) rate++]; a 16-bit word
    is zero after 16 shifts. *)
Fixpoint rate_for (fuel : nat) (freq i rate : Z) : Z :=
  match fuel with
  | O => rate
  | S fuel' =>
      if freq <? i then rate_for fuel' freq (u16 (Z.shiftr i 1)) (u8 (rate + 1)) else rate
  end.

#[global] Arguments count_bits : simpl never.
#[global] Arguments rate_for : simpl never.

(** [outb(inb(RTC_PORT) & (~BIT8), RTC_PORT)] *)
Definition enable_nmi : K unit :=
  v ← inb RTC_PORT; outb (Z.land v (Z.lnot BIT8)) RTC_PORT.

Definition RTCWrite (fd buf nbytes : Z) : K Z :=
  freq ← vm (ld32 buf);
  if (MIN_FREQ <=? freq) && (freq <=? MAX_FREQ) then
    let bitFlag := count_bits 33 freq 1 0 in
    if bitFlag =? 1 then
      let rate := rate_for 17 freq BASE_FREQ 1 in
      outb (BIT8 + RTC_A) RTC_PORT ;;;
      prev ← inb RTC_DATA;
      outb (BIT8 + RTC_A) RTC_PORT ;;;
      outb (Z.lor (Z.land (s8 prev) HI4) rate) RTC_DATA ;;;
      enable_nmi ;;;
      mret 0
    else mret ERROR_VAL
  else mret ERROR_VAL.

Definition RTCOpen (filename : Z) : K Z :=
  let freq := local_array 0 in
  vm (st32 freq INIT_FREQ) ;;;
  t ← cur_terminal;
  wr_at RTC_read_flag t 0 ;;;
  RTCWrite 0 freq 0.

Definition RTCRead (serve : irq -> K unit) (fd buf nbytes : Z) : K Z :=
  t ← cur_terminal;
  wr_at RTC_read_flag t 1 ;;;
  spin serve (t ← cur_terminal; v ← rd_at RTC_read_flag t; mret (v =? 0)) ;;;
  mret 0.

Definition RTCClose (fd : Z) : K Z := mret 0.

Definition RTC_init : K unit :=
  outb (BIT8 + RTC_B) RTC_PORT ;;;
  prev ← inb RTC_DATA;
  outb (BIT8 + RTC_B) RTC_PORT ;;;
  outb (Z.lor (s8 prev) BIT6_MASK) RTC_DATA ;;;
  outb (BIT8 + RTC_A) RTC_PORT ;;;
  prev ← inb RTC_DATA;
  outb (BIT8 + RTC_A) RTC_PORT ;;;
  outb (Z.lor (Z.land (s8 prev) HI4) LOW4) RTC_DATA ;;;
  enable_nmi ;;;
  outb RTC_C RTC_PORT ;;;
  inb RTC_DATA ≫= fun _ => mret tt.

Definition RTChandler : K unit :=
  outb RTC_C RTC_PORT ;;;
  inb RTC_DATA ≫= fun _ =>
  for_ 3 0 (fun i => wr_at RTC_read_flag i 0) ;;;
  send_eoi RTC_IRQ.

(** ** Lemmas *)

(** Computation over a finite range of integers. *)
Lemma forallb_range (f : Z -> bool) lo n :
  forallb f (seqZ lo n) = true -> forall x, lo <= x < lo + n -> f x = true.
Proof.
  intros Hf x Hx. rewrite forallb_forall in Hf. apply Hf, list_elem_of_In, elem_of_seqZ. lia.
Qed.

Lemma count_bits_S m freq i b :
  count_bits (S m) freq i b =
  if i =? 0 then b
  else count_bits m freq (u32 (Z.shiftl i 1)) (if Z.land freq i =? 0 then b else b + 1).
Proof. done. Qed.

(** More fuel changes nothing: the bit leaves the word before it runs out. *)
Lemma count_bits_stop m n freq i b :
  (m <= 32)%nat -> i = u32 (2 ^ (32 - Z.of_nat m)) ->
  count_bits (S m + n) freq i b = count_bits (S m) freq i b.
Proof.
  revert i b. induction m as [|m IH]; intros i b Hm ->; [done|].
  rewrite Nat.add_succ_l, !(count_bits_S _ freq (u32 _)). destruct (_ =? 0); [done|]. apply IH; [lia|].
  rewrite (u32_small (2 ^ (32 - Z.of_nat (S m)))).
  - rewrite Z.shiftl_mul_pow2, <- Z.pow_add_r by lia. do 2 f_equal. lia.
  - split; [apply Z.pow_nonneg; lia|apply Z.pow_lt_mono_r; lia].
Qed.

Lemma count_bits_fuel freq n : count_bits (33 + n) freq 1 0 = count_bits 33 freq 1 0.
Proof. by apply (count_bits_stop 32). Qed.

Definition power_of_two (freq : Z) : bool :=
  existsb (fun k => freq =? 2 ^ k) (seqZ 1 10).

Lemma power_of_two_spec freq :
  power_of_two freq = true <-> exists k, 1 <= k <= 10 /\ freq = 2 ^ k.
Proof.
  unfold power_of_two. rewrite existsb_exists. split.
  - intros (k & Hk & ->%Z.eqb_eq). rewrite <- list_elem_of_In, elem_of_seqZ in Hk. exists k. split; [lia|done].
  - intros (k & Hk & ->). exists k. rewrite <- list_elem_of_In, elem_of_seqZ, Z.eqb_refl. split; [lia|done].
Qed.

Lemma count_bits_power freq :
  MIN_FREQ <= freq <= MAX_FREQ -> (count_bits 33 freq 1 0 =? 1) = power_of_two freq.
Proof.
  intros Hf. apply eqb_prop. revert freq Hf.
  assert (forall x, 2 <= x < 2 + 1023 ->
    Bool.eqb (count_bits 33 x 1 0 =? 1) (power_of_two x) = true) as Hall
    by (apply forallb_range; vm_compute; reflexivity).
  intros freq ?. apply Hall. unfold MIN_FREQ, MAX_FREQ in *. lia.
Qed.

Lemma rate_for_power k : 1 <= k <= 10 -> rate_for 17 (2 ^ k) BASE_FREQ 1 = 16 - k.
Proof.
  intros Hk. apply Z.eqb_eq. revert k Hk.
  assert (forall x, 1 <= x < 1 + 10 -> (rate_for 17 (2 ^ x) BASE_FREQ 1 =? 16 - x) = true) as Hall
    by (apply forallb_range; vm_compute; reflexivity).
  intros k ?. apply Hall. lia.
Qed.

(** The byte written to register A: the high bits read, the rate below. *)
Definition register_a (prev rate : Z) : Z := 16 * (prev / 16) + rate.

Lemma register_a_bits prev k :
  0 <= prev < 256 -> 1 <= k <= 10 ->
  u8 (Z.lor (Z.land (s8 prev) HI4) (16 - k)) = register_a prev (16 - k).
Proof.
  intros Hp Hk. apply Z.eqb_eq.
  assert (forall p, 0 <= p < 0 + 256 -> forallb (fun k =>
    u8 (Z.lor (Z.land (s8 p) HI4) (16 - k)) =? register_a p (16 - k)) (seqZ 1 10) = true) as Hall
    by (apply forallb_range; vm_compute; reflexivity).
  apply (forallb_range (fun k => u8 (Z.lor (Z.land (s8 prev) HI4) (16 - k)) =? register_a prev (16 - k)) 1 10);
    [apply Hall|]; lia.
Qed.

(** The effect of an accepted [RTCWrite] on the ports: register A gets [rate]
    with its high bits kept, and non-maskable interrupts are enabled again. *)
Definition set_rate (rate : Z) (s : machine) : machine :=
  let t1 := Outb RTC_PORT 0x8A :: get trace s in
  let prev := u8 (get device s t1 RTC_DATA) in
  let t2 := Outb RTC_DATA (register_a prev rate) :: Outb RTC_PORT 0x8A :: Inb RTC_DATA prev :: t1 in
  let v := u8 (get device s t2 RTC_PORT) in
  set trace (Outb RTC_PORT (u8 (Z.land v (Z.lnot BIT8))) :: Inb RTC_PORT v :: t2) s.

Lemma RTCWrite_accept fd buf nbytes s k :
  vm (ld32 buf) s = Ok (2 ^ k, s) -> 1 <= k <= 10 ->
  RTCWrite fd buf nbytes s = Ok (0, set_rate (16 - k) s).
Proof.
  intros Hbuf Hk. assert (MIN_FREQ <= 2 ^ k <= MAX_FREQ) as Hr.
  { unfold MIN_FREQ, MAX_FREQ. change 2 with (2 ^ 1) at 1. change 1024 with (2 ^ 10).
    split; apply Z.pow_le_mono_r; lia. }
  unfold RTCWrite. rewrite (bind_ok _ _ _ _ _ Hbuf).
  destruct (Z.leb_spec MIN_FREQ (2 ^ k)); [|lia]. destruct (Z.leb_spec (2 ^ k) MAX_FREQ); [|lia]. cbn [andb].
  rewrite count_bits_power by done. rewrite (proj2 (power_of_two_spec _)) by eauto.
  rewrite rate_for_power by done. unfold outb, inb, enable_nmi, mbind, ST_bind, modify. cbv beta iota zeta.
  unfold set_rate. lsimpl. rewrite register_a_bits; [reflexivity|apply u8_range|done].
Qed.

Lemma RTCWrite_reject fd buf nbytes s freq :
  vm (ld32 buf) s = Ok (freq, s) -> (forall k, 1 <= k <= 10 -> freq <> 2 ^ k) ->
  RTCWrite fd buf nbytes s = Ok (ERROR_VAL, s).
Proof.
  intros Hbuf Hk. unfold RTCWrite. rewrite (bind_ok _ _ _ _ _ Hbuf).
  destruct (Z.leb_spec MIN_FREQ freq), (Z.leb_spec freq MAX_FREQ); try done. cbn [andb].
  rewrite count_bits_power by done.
  destruct (power_of_two freq) eqn:E; [|done].
  apply power_of_two_spec in E as (k & ? & ->). by edestruct Hk.
Qed.

Lemma RTChandler_run s :
  length (get RTC_read_flag s) = 3%nat ->
  wp RTChandler (fun _ s' => exists evs,
    s' = set trace (evs ++ get trace s) (set RTC_read_flag [0; 0; 0] s)) s.
Proof.
  intros Hl. destruct (get RTC_read_flag s) as [|a [|b [|c [|]]]] eqn:E; try done.
  unfold RTChandler. rewrite !wp_bind. unfold outb, inb.
  eapply wp_run; [reflexivity|]. rewrite wp_bind. eapply wp_run; [reflexivity|].
  rewrite wp_bind. set (s1 := set trace _ (set trace _ s)).
  eapply (wp_run _ _ _ tt (set RTC_read_flag [0; 0; 0] s1)).
  { cbn [for_]. unfold wr_at, rd, gets, mbind, ST_bind. change (get RTC_read_flag s1) with (get RTC_read_flag s).
    rewrite E. reflexivity. }
  destruct (send_eoi_run RTC_IRQ (set RTC_read_flag [0; 0; 0] s1)) as [evs Hrun].
  eapply wp_run; [exact Hrun|]. exists (evs ++ [Inb RTC_DATA (u8 (get device (set trace (Outb RTC_PORT (u8 RTC_C) :: get trace s) s)
    (Outb RTC_PORT (u8 RTC_C) :: get trace s) RTC_DATA)); Outb RTC_PORT (u8 RTC_C)]).
  rewrite <- app_assoc. reflexivity.
Qed.

(** ** Properties *)

(** C35: [RTCWrite] accepts exactly the powers of two from 2 to 1024.  For [2 ^ k]
    it stores the rate [16 - k] in the low bits of register A, keeps the high
    bits, and returns 0; the oscillator divided by that rate is the frequency
    asked for.  Any other value is refused with -1 and no port is touched. *)
Theorem RTCWrite_powers_of_two fd buf nbytes s freq :
  vm (ld32 buf) s = Ok (freq, s) ->
  (forall k, 1 <= k <= 10 -> freq = 2 ^ k ->
     RTCWrite fd buf nbytes s = Ok (0, set_rate (16 - k) s) /\
     Z.shiftr BASE_FREQ (16 - k - 1) = freq) /\
  ((forall k, 1 <= k <= 10 -> freq <> 2 ^ k) -> RTCWrite fd buf nbytes s = Ok (ERROR_VAL, s)).
Proof.
  intros Hbuf. split; [|by apply RTCWrite_reject].
  intros k Hk ->. split; [by apply RTCWrite_accept|].
  rewrite Z.shiftr_div_pow2 by lia. unfold BASE_FREQ. change 32768 with (2 ^ 15).
  rewrite <- Z.pow_sub_r by lia. f_equal. lia.
Qed.

Lemma RTCWrite_powers_of_two_witness :
  let s := one_process (<[4096 := 64]> ∅) in
  RTCWrite 0 4096 4 s = Ok (0, set_rate 10 s) /\ Z.shiftr BASE_FREQ 9 = 64.
Proof.
  intros s. apply (proj1 (RTCWrite_powers_of_two 0 4096 4 s 64 eq_refl) 6); [lia|reflexivity].
Defined.
