(* ===== verification/Terminal.v ===== *)
(** * terminal.c: the keyboard driver and the terminals

    The keyboard interrupt handler (line editing, modifiers, switching and
    clearing the screen), and the operations of the terminal file: open, close,
    read (waiting for a line) and write.  [switchTerminal] of systemcall.c is
    here, next to its only caller. *)

From S2P Require Import Prelude Memory Lib Filesystem Machine Pic Screen Paging Rtc.

(** ** Constants of terminal.h *)

Definition KB_IRQ : Z := 1.
Definition KB_DATA_PORT : Z := 0x60.
Definition SIZE_SCODES : Z := 64.
Definition BUF_SIZE : Z := 128.
Definition READ_AGAIN : Z := 0xe0.
Definition CTM : Z := 0x1d.
Definition CTB : Z := 0x9d.
Definition CLEAR : Z := 0x26.
Definition ALTM : Z := 0x38.
Definition ALTB : Z := 0xb8.
Definition TERMINAL_0_SCANCODE : Z := 0x3b.
Definition TERMINAL_1_SCANCODE : Z := 0x3c.
Definition TERMINAL_2_SCANCODE : Z := 0x3d.
Definition CAPS : Z := 0x3a.
Definition SLM : Z := 0x2a.
Definition SLB : Z := 0xaa.
Definition SRM : Z := 0x36.
Definition SRB : Z := 0xb6.
Definition ENTER : Z := 0x1c.
Definition BKSP : Z := 0x0e.
Definition MOD2 : Z := 2.
Definition CAPS_OFF : Z := 64.
Definition SHIFT_OFF : Z := 128.
Definition TERMINAL_0 : Z := 0.
Definition TERMINAL_1 : Z := 1.
Definition TERMINAL_2 : Z := 2.

(** The scan code table. *)
Definition ascii_scan : list Z :=
  [
   (* No shift, no capsLock *)
   0; 0; 49; 50; 51; 52; 53; 54; 55; 56; 57; 48; 45; 61; 0; 0;
   113; 119; 101; 114; 116; 121; 117; 105; 111; 112; 91; 93; 10; 0; 97; 115;
   100; 102; 103; 104; 106; 107; 108; 59; 39; 96; 0; 92; 122; 120; 99; 118;
   98; 110; 109; 44; 46; 47; 0; 0; 0; 32; 0; 0; 0; 0; 0; 0;
   (* Only capsLock *)
   0; 0; 49; 50; 51; 52; 53; 54; 55; 56; 57; 48; 45; 61; 0; 0;
   81; 87; 69; 82; 84; 89; 85; 73; 79; 80; 91; 93; 10; 0; 65; 83;
   68; 70; 71; 72; 74; 75; 76; 59; 39; 96; 0; 92; 90; 88; 67; 86;
   66; 78; 77; 44; 46; 47; 0; 0; 0; 32; 0; 0; 0; 0; 0; 0;
   (* Only shift *)
   0; 0; 33; 64; 35; 36; 37; 94; 38; 42; 40; 41; 95; 43; 0; 0;
   81; 87; 69; 82; 84; 89; 85; 73; 79; 80; 123; 125; 10; 0; 65; 83;
   68; 70; 71; 72; 74; 75; 76; 58; 34; 126; 0; 124; 90; 88; 67; 86;
   66; 78; 77; 60; 62; 63; 0; 0; 0; 32; 0; 0; 0; 0; 0; 0;
   (* Shift and capsLock *)
   0; 0; 33; 64; 35; 36; 37; 94; 38; 42; 40; 41; 95; 43; 0; 0;
   113; 119; 101; 114; 116; 121; 117; 105; 111; 112; 123; 125; 10; 0; 97; 115;
   100; 102; 103; 104; 106; 107; 108; 58; 34; 126; 0; 124; 122; 120; 99; 118;
   98; 110; 109; 60; 62; 63; 0; 0; 0; 32; 0; 0; 0; 0; 0; 0
  ].

(** ** switchTerminal *)

Definition switchTerminal (previousTerminal : Z) : K Z :=
  ct ← rd currentTerminal;
  if (TERMINAL_2 <? previousTerminal) || (TERMINAL_2 <? ct) then mret ERROR_VAL
  else
    flags ← cli_and_save;
    vm (memcpy (VIDEO + (previousTerminal + 1) * FOUR_KB) VIDEO FOUR_KB) ≫= fun _ =>
    vm (memcpy VIDEO (VIDEO + (ct + 1) * FOUR_KB) FOUR_KB) ≫= fun _ =>
    x ← rd_at screen_x ct; y ← rd_at screen_y ct;
    set_cursor x y ;;;
    wr_field user_page_table (USER_VIDEO_MEM_INDEX + previousTerminal) physical_address
      (Z.shiftr (VIDEO_4KB_ALIGNED_ADDRESS + (previousTerminal + 1) * FOUR_KB) PDE_PTE_ADDRESS_SHIFT) ;;;
    wr_field user_page_table (USER_VIDEO_MEM_INDEX + ct) physical_address
      (Z.shiftr VIDEO_4KB_ALIGNED_ADDRESS PDE_PTE_ADDRESS_SHIFT) ;;;
    clearTLB ;;;
    restore_flags flags ;;;
    mret 0.

(** ** The keyboard handler *)

(** [KBbuf[t][i]] and its assignment. *)
Definition rd_kb (t i : Z) : K Z := row ← rd_at KBbuf t; of_option OutOfBounds (at_ row i).

Definition wr_kb (t i v : Z) : K unit :=
  row ← rd_at KBbuf t;
  if in_range row i then wr_at KBbuf t (upd row i v) else fail OutOfBounds.

(** [flag = (flag + 1) % MOD2] *)
Definition toggle (flag : lens machine Z) : K unit :=
  v ← rd flag; wr flag (Z.rem (v + 1) MOD2).

(** Control-L: the screen is cleared and the line being edited is shown again. *)
Definition redraw_step (i : Z) : K (Z + unit) :=
  ct ← rd currentTerminal;
  n ← rd_at buf_loc ct;
  if i <? n then c ← rd_kb ct i; KBputc c ;;; mret (inl (i + 1)) else mret (inr tt).

Definition clear_buffer_step (_ : unit) : K (unit + unit) :=
  ct ← rd currentTerminal;
  n ← rd_at buf_loc ct;
  if 0 <? n then
    decr_at buf_loc ct ;;;
    n ← rd_at buf_loc ct;
    wr_kb ct n 0 ;;; mret (inl tt)
  else mret (inr tt).

(** The keys F1, F2 and F3 with Alt. *)
Definition switch_key (scode : Z) : K unit :=
  previousTerminal ← rd currentTerminal;
  validTerminal ←
    (if (scode =? TERMINAL_0_SCANCODE) && negb (previousTerminal =? TERMINAL_0) then
       wr currentTerminal TERMINAL_0 ;;; mret true
     else if (scode =? TERMINAL_1_SCANCODE) && negb (previousTerminal =? TERMINAL_1) then
       wr currentTerminal TERMINAL_1 ;;; mret true
     else if (scode =? TERMINAL_2_SCANCODE) && negb (previousTerminal =? TERMINAL_2) then
       wr currentTerminal TERMINAL_2 ;;; mret true
     else mret false);
  if (validTerminal : bool) then switchTerminal (u8 previousTerminal) ≫= fun _ => mret tt
  else mret tt.

Definition backspace_key : K unit :=
  ct ← rd currentTerminal;
  n ← rd_at buf_loc ct;
  if negb (n =? 0) then
    decr_at buf_loc ct ;;;
    n ← rd_at buf_loc ct;
    wr_kb ct n 0 ;;;
    erase_char
  else mret tt.

(** The condition of the last branch: a key of the table that fits the buffer. *)
Definition printable_key (scode : Z) : K bool :=
  if negb (Z.land scode BIT8 =? 0) then mret false
  else
    a ← of_option OutOfBounds (at_ ascii_scan scode);
    if negb ((a : Z) =? 0) && (scode <? SIZE_SCODES) then
      ct ← rd currentTerminal;
      n ← rd_at buf_loc ct;
      mret ((n <? BUF_SIZE - 1) || (scode =? ENTER))
    else mret false.

Definition character_key (scode : Z) : K unit :=
  caps ← rd capsFlag; sl ← rd shiftFlagL; sr ← rd shiftFlagR;
  c ← of_option OutOfBounds (at_ ascii_scan (scode + caps * CAPS_OFF + Z.lor sl sr * SHIFT_OFF));
  KBputc c ;;;
  ct ← rd currentTerminal;
  if c =? ch_newline then
    w ← rd_at readWaiting ct;
    if negb (w =? 0) then
      n ← rd_at buf_loc ct;
      wr_kb ct n c ;;;
      incr_at buf_loc ct ;;;
      wr_at readReady ct 1
    else loop clear_buffer_step tt
  else
    n ← rd_at buf_loc ct;
    wr_kb ct n c ;;;
    incr_at buf_loc ct.

Definition is_set (f g : lens machine Z) : K bool :=
  a ← rd f; b ← rd g; mret (negb (a =? 0) || negb (b =? 0)).

(** What a scan code does. *)
Definition scan_code (scode : Z) : K unit :=
  if scode =? READ_AGAIN then
    scode ← inb KB_DATA_PORT;
    when ((scode =? CTM) || (scode =? CTB)) (toggle ctrlFlagR) ;;;
    when ((scode =? ALTM) || (scode =? ALTB)) (toggle altFlagR)
  else if (scode =? CTM) || (scode =? CTB) then toggle ctrlFlagL
  else if (scode =? ALTM) || (scode =? ALTB) then toggle altFlagL
  else
    ctrl ← is_set ctrlFlagL ctrlFlagR;
    if (ctrl : bool) then
      when (scode =? CLEAR) (clear ;;; loop redraw_step 0)
    else
      alt ← is_set altFlagL altFlagR;
      if (alt : bool) then switch_key scode
      else if scode =? CAPS then toggle capsFlag
      else if (scode =? SLM) || (scode =? SLB) then toggle shiftFlagL
      else if (scode =? SRM) || (scode =? SRB) then toggle shiftFlagR
      else if scode =? BKSP then backspace_key
      else
        p ← printable_key scode;
        if (p : bool) then character_key scode else mret tt.

Definition KBhandler : K unit :=
  scode ← inb KB_DATA_PORT;
  scan_code scode ;;;
  send_eoi KB_IRQ.

(** ** The terminal file *)

Definition terminalOpen (filename : Z) : K Z :=
  wr currentTerminal TERMINAL_0 ;;;
  wr capsFlag 0 ;;;
  wr shiftFlagL 0 ;;; wr shiftFlagR 0 ;;;
  wr ctrlFlagL 0 ;;; wr ctrlFlagR 0 ;;;
  wr altFlagL 0 ;;; wr altFlagR 0 ;;;
  for_ 3 0 (fun j =>
    wr_at readWaiting j 0 ;;;
    wr_at readReady j 0 ;;;
    wr_at buf_loc j 0 ;;;
    for_ 128 0 (fun i => wr_kb j i 0)) ;;;
  mret 0.

Definition terminalClose (fd : Z) : K Z := mret 0.

(** The copy loop: until a new line is copied or the buffer is full. *)
Definition terminalRead_step (buf nbytes bytes : Z) : K (Z + Z) :=
  if bytes <? nbytes then
    t ← cur_terminal;
    c ← rd_kb t bytes;
    store (buf + bytes) c ;;;
    c ← load8 (buf + bytes);
    if c =? ch_newline then mret (inr (bytes + 1)) else mret (inl (bytes + 1))
  else mret (inr bytes).

Definition terminalRead (serve : irq -> K unit) (fd buf nbytes : Z) : K Z :=
  if nbytes <? 0 then mret (-1)
  else
    t ← cur_terminal;
    wr_at readWaiting t 1 ;;;
    spin serve (t ← cur_terminal; r ← rd_at readReady t; mret (negb (r =? 0))) ;;;
    flags ← cli_and_save;
    bytes ← loop (terminalRead_step buf nbytes) 0;
    t ← cur_terminal;
    wr_at KBbuf t (replicate 128 0) ;;;
    wr_at readReady t 0 ;;;
    wr_at readWaiting t 0 ;;;
    wr_at buf_loc t 0 ;;;
    restore_flags flags ;;;
    mret bytes.

Definition terminalWrite (fd buf nbytes : Z) : K Z :=
  flags ← cli_and_save;
  for_ (Z.to_nat nbytes) 0 (fun i => c ← load8 (buf + i); putc c) ;;;
  restore_flags flags ;;;
  mret nbytes.

(** ** Lemmas: writing *)

Lemma wrote_masked t p a s s' :
  wrote t p a (set eflags_if false s) s' -> wrote t p a s (set eflags_if (get eflags_if s) s').
Proof. intros [Hx Hy Hp [] [] Ho]. split; try done; split; done. Qed.

Lemma terminalWrite_run fd buf l t s p a :
  video_mapped s -> screen_ok s -> 0 <= t < NUM_TERMINALS -> cur_terminal s = Ok (t, s) ->
  page_of s t p -> tty_ok a -> on_tty t s p a s -> safe_bytes t buf l s ->
  exists s', terminalWrite fd buf (Z.of_nat (length l)) s = Ok (Z.of_nat (length l), s') /\
    wrote t p (tty_puts l a) s s'.
Proof.
  intros Hvid Hok Ht Hcur Hp Ha [Hinv Hs] Hl. set (s1 := set eflags_if false s).
  assert (on_tty t s1 p a s1) as H1.
  { split; [|exact Hs]. destruct Hinv. split; done. }
  assert (screen_ok s1) as Hok1 by (destruct Hok; by split).
  assert (cur_terminal s1 = Ok (t, s1)) as Hcur1 by (by apply (cur_terminal_prc s1 s)).
  assert (wp (for_ (length l) 0 (fun i => c ← load8 (buf + i); putc c))
    (fun _ => on_tty t s1 p (tty_puts l a)) s1) as Hloop.
  { eapply wp_mono; [apply (wp_for (fun k s2 => exists i, k = Z.of_nat i /\
      on_tty t s1 p (tty_puts (take i l) a) s2))|].
    - exists 0%nat. split; [done|exact H1].
    - intros k s2 Hk (i & -> & H2). destruct (lookup_lt_is_Some_2 l i ltac:(lia)) as [c Hc].
      apply wp_bind. eapply wp_run; [by eapply (safe_load t p s1); [exact H2|exact Hl|exact Hc]|].
      eapply (putc_next t s1 p Hvid Ht Hcur1 Hp); [by apply tty_puts_ok|exact H2|].
      intros s3 H3. exists (S i). split; [lia|]. by rewrite (tty_puts_take_S _ _ _ _ Hc).
    - intros [] s2 (i & Hi & H2). rewrite take_ge in H2 by lia. exact H2. }
  apply wp_inv in Hloop as ([] & s2 & Hrun & H2).
  exists (set eflags_if (get eflags_if s) s2). split.
  - unfold terminalWrite, cli_and_save. rewrite Nat2Z.id.
    change (((f ← rd eflags_if; wr eflags_if false ;;; mret f) ≫= fun flags =>
      for_ (length l) 0 (fun i => c ← load8 (buf + i); putc c) ;;;
      restore_flags flags ;;; mret (Z.of_nat (length l))) s)
      with ((for_ (length l) 0 (fun i => c ← load8 (buf + i); putc c) ;;;
        restore_flags (get eflags_if s) ;;; mret (Z.of_nat (length l))) s1).
    by rewrite (bind_ok _ _ _ _ _ Hrun).
  - apply wrote_masked. apply on_tty_wrote; [done|by apply tty_puts_ok|done].
Qed.

(** ** Lemmas: switching terminals *)

(** A copy between two blocks mapped at their own addresses. *)
Lemma block_copy s p q n (Q : Z -> machine -> Prop) :
  0 <= n < 2 ^ 32 ->
  (forall k, 0 <= k < n -> translate (get pag s) (p + k) = Some (p + k)) ->
  (forall k, 0 <= k < n -> translate (get pag s) (q + k) = Some (q + k)) ->
  p + n <= q \/ q + n <= p ->
  (forall s', s' = set mem (get mem s') s ->
     (forall b, byte s' b = if decide (p <= b < p + n) then byte s (q + (b - p)) else byte s b) -> Q p s') ->
  wp (vm (memcpy p q n)) Q s.
Proof.
  intros Hn Hcp Hcq Hsep HQ.
  assert (mapped (view s) p n) as Hmp by (intros k Hk; eexists; by apply Hcp).
  assert (mapped (view s) q n) as Hmq by (intros k Hk; eexists; by apply Hcq).
  assert (forall k c, 0 <= k < n -> cell (view s) (p + k) = Some c -> c = p + k) as Hp
    by (intros k c Hk; change (cell (view s) (p + k)) with (translate (get pag s) (p + k)); rewrite Hcp by done; congruence).
  assert (forall k c, 0 <= k < n -> cell (view s) (q + k) = Some c -> c = q + k) as Hq
    by (intros k c Hk; change (cell (view s) (q + k)) with (translate (get pag s) (q + k)); rewrite Hcq by done; congruence).
  assert (injective (view s) p n) as Hinj.
  { intros k k' c Hk Hk' E1%Hp E2%Hp; lia. }
  set (l := read_bytes (view s) q (Z.to_nat n)).
  assert (Z.of_nat (length l) = n) as Hlen by (unfold l; rewrite length_read_bytes; lia).
  assert (memcpy p q n (view s) = Ok (p, write_bytes (view s) p l)) as Hrun.
  { apply memcpy_run; [done|exact Hmp|exact Hmq|].
    intros k k' c Hk Hk' E1 E2. apply Hp in E1; [|done]. apply Hq in E2; [|done]. lia. }
  assert (forall b, peek (write_bytes (view s) p l) b =
    if decide (p <= b < p + n) then byte s (q + (b - p)) else byte s b) as Hpeek.
  { intros b. case_decide as Hb.
    - apply (peek_write_bytes (view s) p l (Z.to_nat (b - p))); rewrite ?Hlen; [exact Hmp|exact Hinj| | |].
      + apply read_bytes_range.
      + unfold l. rewrite read_bytes_lookup, Z2Nat.id by lia. unfold load.
        change (cell (view s) (q + (b - p))) with (translate (get pag s) (q + (b - p))). by rewrite Hcq by lia.
      + rewrite Z2Nat.id by lia. change (translate (get pag s) (p + (b - p)) = Some b).
        rewrite Hcp by lia. f_equal. lia.
    - rewrite (proj2 (write_bytes_frame (view s) p l)); [done|]. intros k Hk E.
      rewrite Hlen in Hk. apply Hp in E; [|done]. lia. }
  eapply wp_run; [apply vm_run, Hrun|]. apply HQ; [done|exact Hpeek].
Qed.

(** A copy of one text page to another. *)
Lemma page_copy s p q (Q : Z -> machine -> Prop) :
  video_mapped s ->
  (exists i, 0 <= i < 4 /\ p = VIDEO + i * FOUR_KB) -> (exists j, 0 <= j < 4 /\ q = VIDEO + j * FOUR_KB) ->
  p <> q ->
  (forall s', s' = set mem (get mem s') s ->
     (forall b, byte s' b = if decide (p <= b < p + FOUR_KB) then byte s (q + (b - p)) else byte s b) -> Q p s') ->
  wp (vm (memcpy p q FOUR_KB)) Q s.
Proof.
  intros Hvid (i & Hi & Ep) (j & Hj & Eq) Hne HQ. apply block_copy; [| | | |exact HQ].
  - unfold FOUR_KB. lia.
  - intros k Hk. apply Hvid. unfold FOUR_KB in *. lia.
  - intros k Hk. apply Hvid. unfold FOUR_KB in *. lia.
  - unfold FOUR_KB in *. lia.
Qed.

(** Moving the display in the user page table. *)
Definition switched_paging (prev ct : Z) (g : paging_t) : paging_t :=
  Paging (g_page_directory g) (g_kernel_page_table g)
    (upd (upd (g_user_page_table g) prev (video_pte (prev + 1) 1)) ct (video_pte 0 1))
    (g_kernel_page_table_addr g) (g_page_directory_addr g) (g_user_page_table_addr g)
    (g_cr3 g) (g_mixed_sizes g) (g_paging_enabled g).

Lemma paging_inv_switch prev ct proc g :
  paging_inv prev proc g -> 0 <= prev < NUM_TERMINALS -> 0 <= ct < NUM_TERMINALS -> prev <> ct ->
  paging_inv ct proc (switched_paging prev ct g).
Proof.
  intros Hinv Hp Hc Hne. destruct Hinv as [[Hk Hu Hd] ? ? ? ? ? Hut ? ? ? ? ? ? ? Huser Hrest].
  unfold NUM_TERMINALS in *.
  split; unfold switched_paging; paging_fields; try done.
  - by rewrite !length_upd.
  - intros j Hj. rewrite !at_upd by (rewrite ?length_upd; lia). unfold video_page in *.
    case_decide as E1; [subst j; by rewrite Z.eqb_refl|].
    case_decide as E2; [subst j; by destruct (Z.eqb_spec prev ct)|].
    specialize (Huser j Hj). destruct (Z.eqb_spec j prev); [congruence|].
    destruct (Z.eqb_spec j ct); [congruence|done].
  - intros j t Hj. rewrite !at_upd, !decide_False by (rewrite ?length_upd; lia). eauto.
Qed.

(** What switching to the shown terminal [ct] from [prev] leaves. *)
Record switched (prev : Z) (s s' : machine) : Prop := {
  sw_saved : forall k, 0 <= k < FOUR_KB -> byte s' (terminal_page prev + k) = byte s (VIDEO + k);
  sw_shown : forall k, 0 <= k < FOUR_KB ->
    byte s' (VIDEO + k) = byte s (terminal_page (get currentTerminal s) + k);
  sw_other : forall b, ~ (VIDEO <= b < VIDEO + FOUR_KB) ->
    ~ (terminal_page prev <= b < terminal_page prev + FOUR_KB) -> byte s' b = byte s b;
  sw_pag : get pag s' = switched_paging prev (get currentTerminal s) (get pag s);
  sw_scr : get scr s' = get scr s;
  sw_kbd : get kbd s' = get kbd s;
  sw_prc : get prc s' = get prc s;
  sw_sch : get sch s' = get sch s;
  sw_irqc : get irqc s' = get irqc s;
  sw_if : get eflags_if s' = get eflags_if s;
  sw_device : get device s' = get device s;
  sw_pending : get pending s' = get pending s;
  sw_fs : get fs_ptrs s' = get fs_ptrs s
}.

(** The tail of [switchTerminal]: the cursor, the page table, the interrupt flag. *)
Lemma wr_field_at {A B} (a : lens machine (list A)) i (f : lens A B) v x s :
  at_ (get a s) i = Some x -> wr_field a i f v s = Ok (tt, set a (upd (get a s) i (set f v x)) s).
Proof.
  intros Hx. unfold wr_field. rewrite (bind_ok _ _ _ _ _ (rd_at_run _ _ _ _ Hx)).
  apply wr_at_run. by apply at_inv in Hx.
Qed.

Lemma video_pte_moved u page page' : 0 <= page' < 4 ->
  set physical_address (Z.shiftr (VIDEO + page' * FOUR_KB) PDE_PTE_ADDRESS_SHIFT) (video_pte page u) =
  video_pte page' u.
Proof.
  intros Hp. unfold video_pte, new_pte. assert (page' = 0 \/ page' = 1 \/ page' = 2 \/ page' = 3) as Hc by lia.
  by destruct Hc as [->|[->|[->| ->]]].
Qed.

Lemma set_cursor_run x y s : exists tr, set_cursor x y s = Ok (tt, set trace tr s).
Proof. eexists. unfold set_cursor, outb. reflexivity. Qed.

Lemma switch_tables prev ct proc f s :
  paging_inv prev proc (get pag s) -> 0 <= prev < NUM_TERMINALS -> 0 <= ct < NUM_TERMINALS -> prev <> ct ->
  exists tr, (wr_field user_page_table (USER_VIDEO_MEM_INDEX + prev) physical_address
      (Z.shiftr (VIDEO_4KB_ALIGNED_ADDRESS + (prev + 1) * FOUR_KB) PDE_PTE_ADDRESS_SHIFT) ;;;
    wr_field user_page_table (USER_VIDEO_MEM_INDEX + ct) physical_address
      (Z.shiftr VIDEO_4KB_ALIGNED_ADDRESS PDE_PTE_ADDRESS_SHIFT) ;;;
    clearTLB ;;; restore_flags f ;;; mret 0) s =
  Ok (0, set eflags_if f (set trace tr (set pag (switched_paging prev ct (get pag s)) s))).
Proof.
  intros Hinv Hp Hc Hne. pose proof (pi_ut _ _ _ Hinv) as Hl. pose proof (pi_user _ _ _ Hinv) as Hu.
  unfold NUM_TERMINALS, USER_VIDEO_MEM_INDEX in *. rewrite !Z.add_0_l.
  assert (at_ (get user_page_table s) prev = Some (video_pte 0 1)) as H1.
  { pose proof (Hu prev Hp) as H. unfold video_page in H. by rewrite Z.eqb_refl in H. }
  rewrite (bind_ok _ _ _ _ _ (wr_field_at _ _ _ _ _ _ H1)).
  change VIDEO_4KB_ALIGNED_ADDRESS with VIDEO.
  rewrite (video_pte_moved 1 0 (prev + 1)) by lia.
  assert (at_ (get user_page_table (set user_page_table
    (upd (get user_page_table s) prev (video_pte (prev + 1) 1)) s)) ct = Some (video_pte (ct + 1) 1)) as H2.
  { rewrite (get_set _ user_page_table_ok). rewrite at_upd_ne by lia.
    pose proof (Hu ct Hc) as H. unfold video_page in H. by destruct (Z.eqb_spec ct prev); [congruence|]. }
  rewrite (bind_ok _ _ _ _ _ (wr_field_at _ _ _ _ _ _ H2)).
  rewrite (get_set _ user_page_table_ok), (set_set _ user_page_table_ok).
  replace VIDEO with (VIDEO + 0 * FOUR_KB) by (unfold VIDEO; lia).
  rewrite (video_pte_moved 1 (ct + 1) 0) by lia. eexists. reflexivity.
Qed.

Lemma switchTerminal_run prev proc s :
  screen_ok s -> paging_inv prev proc (get pag s) -> 0 <= prev < NUM_TERMINALS ->
  prev <> get currentTerminal s ->
  wp (switchTerminal prev) (fun r s' => r = 0 /\ switched prev s s') s.
Proof.
  intros Hok Hinv Hp Hne. pose proof (so_ct _ Hok) as Hct. pose proof (paging_inv_video _ _ _ Hinv) as Hvid.
  destruct (screen_ok_tty s (get currentTerminal s) Hok Hct) as (x & y & Hx & Hy & _).
  remember (get currentTerminal s) as ct eqn:Ect. unfold NUM_TERMINALS in *.
  unfold switchTerminal. rewrite wp_bind, wp_rd, <- Ect. unfold TERMINAL_2.
  destruct (Z.ltb_spec 2 prev); [lia|]. destruct (Z.ltb_spec 2 ct); [lia|]. cbn [orb].
  unfold cli_and_save. rewrite !wp_bind, wp_rd, wp_bind, wp_wr, wp_ret.
  set (s1 := set eflags_if false s).
  assert (video_mapped s1) as Hvid1 by exact Hvid.
  rewrite wp_bind. apply (page_copy s1); [exact Hvid1|exists (prev + 1); split; [lia|done]|exists 0; split; [lia|done]|
    unfold VIDEO, FOUR_KB; lia|].
  intros s2 Hs2 Hb2. rewrite wp_bind.
  assert (video_mapped s2) as Hvid2 by (intros a Ha; rewrite Hs2; exact (Hvid a Ha)).
  apply (page_copy s2); [exact Hvid2|exists 0; split; [lia|done]|exists (ct + 1); split; [lia|done]|
    unfold VIDEO, FOUR_KB; lia|].
  intros s3 Hs3 Hb3.
  assert (s3 = set mem (get mem s3) s1) as E3 by (rewrite Hs3, Hs2; reflexivity).
  assert (get screen_x s3 = get screen_x s /\ get screen_y s3 = get screen_y s /\ get pag s3 = get pag s) as (Ex & Ey & Eg)
    by (rewrite E3; done).
  rewrite wp_bind. eapply wp_run; [apply rd_at_run; rewrite Ex; exact Hx|].
  rewrite wp_bind. eapply wp_run; [apply rd_at_run; rewrite Ey; exact Hy|].
  rewrite wp_bind. destruct (set_cursor_run x y s3) as [tr Hcur]. eapply wp_run; [exact Hcur|].
  destruct (switch_tables prev ct proc (get eflags_if s) (set trace tr s3)) as [tr' Htab];
    [by rewrite <- Eg in Hinv|done|done|done|].
  eapply wp_run; [exact Htab|]. split; [done|].
  set (s' := set eflags_if _ _). assert (forall b, byte s' b = byte s3 b) as Hb by done.
  assert (forall b, byte s1 b = byte s b) as Hb1 by done.
  clear Htab Hcur Hvid1 Hvid2 Hx Hy Hinv Hok.
  split; rewrite <- ?Ect; [| | |unfold s'; rewrite E3; done..];
    unfold terminal_page, VIDEO, FOUR_KB in *.
  - intros k Hk. rewrite Hb, Hb3, decide_False, Hb2, decide_True by lia. rewrite Hb1. f_equal. lia.
  - intros k Hk. rewrite Hb, Hb3, decide_True, Hb2, decide_False by lia. rewrite Hb1. f_equal. lia.
  - intros k Hk Hk'. rewrite Hb, Hb3, decide_False, Hb2, decide_False by lia. apply Hb1.
Qed.

(** ** Properties *)

(** terminalWrite prints exactly the given bytes, in order, on every page of
    the writing process's terminal, returns their number, and leaves the
    interrupt flag and everything else as it was. *)
Theorem terminalWrite_prints fd buf l t s p x y f :
  video_mapped s -> screen_ok s -> 0 <= t < NUM_TERMINALS -> cur_terminal s = Ok (t, s) ->
  page_of s t p -> at_ (get screen_x s) t = Some x -> at_ (get screen_y s) t = Some y ->
  shows s p f -> safe_bytes t buf l s ->
  exists s', terminalWrite fd buf (Z.of_nat (length l)) s = Ok (Z.of_nat (length l), s') /\
    wrote t p (tty_puts l (Tty x y f)) s s'.
Proof.
  intros Hvid Hok Ht Hcur Hp Hx Hy Hs Hl. apply terminalWrite_run; try done.
  - destruct Hok; split; simpl; eauto.
  - split; [by apply (output_start t s Hok)|done].
Qed.

Lemma terminalWrite_prints_witness :
  exists s', terminalWrite 1 4096 2 (one_process (<[4096 := 72]> (<[4097 := 10]> ∅))) = Ok (2, s') /\
    wrote 0 VIDEO (tty_puts [72; 10] (Tty 0 0 (fun _ => 0)))
      (one_process (<[4096 := 72]> (<[4097 := 10]> ∅))) s'.
Proof.
  apply (terminalWrite_prints 1 4096 [72; 10] 0 _ VIDEO 0 0 (fun _ => 0)); try reflexivity.
  - apply one_process_video.
  - apply one_process_screen.
  - split; [lia|reflexivity].
  - right. split; reflexivity.
  - intros pos [Hpos _]. rewrite one_process_byte. unfold VIDEO.
    rewrite !lookup_insert_ne by lia. reflexivity.
  - intros i c Hi. exists (4096 + Z.of_nat i). unfold screen_cells, terminal_page, VIDEO, FOUR_KB.
    destruct i as [|[|i]]; simpl in Hi; try discriminate; injection Hi as <-;
      (split; [reflexivity|split; [intros [H|[_ H]]; cbn in H; lia|reflexivity]]).
Defined.

(** C24: when Alt and a function key have selected another terminal, switchTerminal
    exchanges the display: every terminal keeps the contents of its screen (the
    one that was shown moves to its own page, the selected one moves to the
    display), the video pages that user programs write to follow their terminals,
    and the interrupt flag, the cursors, the keyboard and the processes keep
    their values. *)
Theorem switchTerminal_keeps_screens prev proc s :
  screen_ok s -> paging_inv prev proc (get pag s) -> 0 <= prev < NUM_TERMINALS ->
  prev <> get currentTerminal s ->
  exists s', switchTerminal prev s = Ok (0, s') /\
    (forall t k, 0 <= t < NUM_TERMINALS -> 0 <= k < FOUR_KB ->
       byte s' (VIDEO + video_page (get currentTerminal s) t * FOUR_KB + k) =
       byte s (VIDEO + video_page prev t * FOUR_KB + k)) /\
    (forall a, 0 <= a < 2 ^ 32 -> access (get pag s') a = address_map (get currentTerminal s) proc a) /\
    (forall b, ~ (VIDEO <= b < VIDEO + 4 * FOUR_KB) -> byte s' b = byte s b) /\
    get scr s' = get scr s /\ get kbd s' = get kbd s /\ get prc s' = get prc s /\
    get eflags_if s' = get eflags_if s.
Proof.
  intros Hok Hinv Hp Hne. pose proof (so_ct _ Hok) as Hct.
  destruct (wp_inv _ _ _ (switchTerminal_run prev proc s Hok Hinv Hp Hne)) as (r & s' & Hrun & -> & H).
  exists s'. split; [done|]. split; [|split; [|split]].
  - intros t k Ht Hk. unfold video_page, NUM_TERMINALS in *.
    pose proof (sw_saved _ _ _ H k Hk) as H1. pose proof (sw_shown _ _ _ H k Hk) as H2.
    pose proof (sw_other _ _ _ H) as H3. unfold terminal_page, VIDEO, FOUR_KB in *.
    destruct (Z.eqb_spec t (get currentTerminal s)) as [->|Hn1].
    + destruct (Z.eqb_spec (get currentTerminal s) prev); [congruence|].
      rewrite <- H2. by f_equal.
    + destruct (Z.eqb_spec t prev) as [->|Hn2].
      * rewrite H1. by f_equal.
      * apply H3; lia.
  - intros a Ha. apply access_map; [|done]. rewrite (sw_pag _ _ _ H). by apply paging_inv_switch.
  - intros b Hb. apply (sw_other _ _ _ H); unfold terminal_page, NUM_TERMINALS, VIDEO, FOUR_KB in *; lia.
  - by destruct H.
Qed.

Lemma switchTerminal_keeps_screens_witness :
  exists s', switchTerminal 0 (set currentTerminal 1 (paged (one_process ∅))) = Ok (0, s') /\
    access (get pag s') 0x20000000 = Some (0xB9000, true) /\
    access (get pag s') 0x20001000 = Some (0xB8000, true).
Proof.
  destruct (switchTerminal_keeps_screens 0 None (set currentTerminal 1 (paged (one_process ∅))))
    as (s' & Hrun & _ & Hmap & _).
  - destruct (one_process_screen ∅) as [H1 H2 H3 H4 H5]. split; try done.
  - assert (forall s, get pag (set currentTerminal 1 s) = get pag s) as -> by done.
    apply boot_paging_inv; [split; reflexivity|apply demo_layout_ok].
  - done.
  - done.
  - exists s'. split; [exact Hrun|]. rewrite !Hmap by lia.
    assert (forall s, get currentTerminal (set currentTerminal 1 s) = 1) as -> by done.
    split; vm_compute; reflexivity.
Defined.
