(* ===== verification/LineEditor.v ===== *)
(** * Line editing: the keyboard handler against an abstract line editor

    A terminal collects the characters typed since the last line was taken: the
    editor is that line, the teletype that echoes it, and the flag that tells the
    reader that a line is complete.  The theorems show that [KBhandler] and
    [terminalRead] of terminal.c implement this editor. *)

From S2P Require Import Prelude Memory Lib Filesystem Machine Pic Screen Paging Rtc Terminal.

(** ** Specification *)

(** The keys of the line editor. *)
Inductive key :=
| KeyChar (c : Z)
| KeyBackspace
| KeyEnter
| KeyRedraw.

Record editor := Editor { ed_line : list Z; ed_tty : tty; ed_ready : Z }.

(** One key; [waiting] tells that a process waits for a line.  A line has at most
    127 characters, and what is typed after that is dropped. *)
Definition edit_key (waiting : bool) (k : key) (e : editor) : editor :=
  match k with
  | KeyChar c =>
      if (length (ed_line e) <? 127)%nat
      then Editor (ed_line e ++ [c]) (tty_put c (ed_tty e)) (ed_ready e) else e
  | KeyBackspace =>
      match ed_line e with
      | [] => e
      | _ => Editor (removelast (ed_line e)) (tty_erase (ed_tty e)) (ed_ready e)
      end
  | KeyEnter =>
      if waiting then Editor (ed_line e ++ [ch_newline]) (tty_put ch_newline (ed_tty e)) 1
      else Editor [] (tty_put ch_newline (ed_tty e)) (ed_ready e)
  | KeyRedraw => Editor (ed_line e) (tty_puts (ed_line e) tty_clear) (ed_ready e)
  end.

(** The modifier keys that are down. *)
Definition ctrl_down (k : keyboard_t) : bool := negb (k_ctrlFlagL k =? 0) || negb (k_ctrlFlagR k =? 0).
Definition alt_down (k : keyboard_t) : bool := negb (k_altFlagL k =? 0) || negb (k_altFlagR k =? 0).

(** The table row of the modifiers, and the key of a scan code. *)
Definition shifted (k : keyboard_t) (scode : Z) : Z :=
  scode + 64 * k_capsFlag k + 128 * Z.lor (k_shiftFlagL k) (k_shiftFlagR k).

Definition key_of (k : keyboard_t) (scode : Z) : option key :=
  if ctrl_down k then (if scode =? CLEAR then Some KeyRedraw else None)
  else if alt_down k then None
  else if scode =? BKSP then Some KeyBackspace
  else if scode =? ENTER then Some KeyEnter
  else if (0 <=? scode) && (scode <? 64) && negb (default 0 (at_ ascii_scan scode) =? 0)
  then KeyChar <$> at_ ascii_scan (shifted k scode)
  else None.

(** The buffer of a terminal that holds [l]. *)
Definition pad_line (l : list Z) : list Z := l ++ replicate (128 - length l) 0.

Record holds (t : Z) (l : list Z) (s : machine) : Prop := {
  h_row : at_ (get KBbuf s) t = Some (pad_line l);
  h_loc : at_ (get buf_loc s) t = Some (Z.of_nat (length l));
  h_len : (length l <= 128)%nat
}.

Definition put_line (t : Z) (l : list Z) (s : machine) : machine :=
  set KBbuf (upd (get KBbuf s) t (pad_line l)) (set buf_loc (upd (get buf_loc s) t (Z.of_nat (length l))) s).

Definition put_ready (t v : Z) (s : machine) : machine := set readReady (upd (get readReady s) t v) s.

(** The shown terminal is the editor [e]. *)
Record editing (e : editor) (s : machine) : Prop := {
  e_line : holds (get currentTerminal s) (ed_line e) s;
  e_ready : at_ (get readReady s) (get currentTerminal s) = Some (ed_ready e);
  e_x : at_ (get screen_x s) (get currentTerminal s) = Some (tty_x (ed_tty e));
  e_y : at_ (get screen_y s) (get currentTerminal s) = Some (tty_y (ed_tty e));
  e_shows : shows s VIDEO (tty_cell (ed_tty e))
}.

(** What a key does: the line, the flag and the screen of the shown terminal
    are those of [e'], the key is acknowledged, and nothing else changes. *)
Record edited (e' : editor) (s s' : machine) : Prop := {
  ed_kbd : get kbd s' =
    get kbd (put_ready (get currentTerminal s) (ed_ready e') (put_line (get currentTerminal s) (ed_line e') s));
  ed_wrote : wrote (get currentTerminal s) VIDEO (ed_tty e') (set kbd (get kbd s') s) s'
}.

(** ** Lemmas: the buffer *)

Lemma length_pad_line l : (length l <= 128)%nat -> length (pad_line l) = 128%nat.
Proof. intros H. unfold pad_line. rewrite length_app, length_replicate. lia. Qed.

Lemma pad_line_snoc l c : (length l < 128)%nat -> upd (pad_line l) (Z.of_nat (length l)) c = pad_line (l ++ [c]).
Proof.
  intros H. unfold pad_line, upd. rewrite Nat2Z.id, insert_app_r_alt, Nat.sub_diag, length_app by lia. simpl.
  replace (128 - length l)%nat with (S (128 - (length l + 1))) by lia. simpl. by rewrite <- app_assoc.
Qed.

Lemma pad_line_drop l c : (length l < 128)%nat -> upd (pad_line (l ++ [c])) (Z.of_nat (length l)) 0 = pad_line l.
Proof.
  intros H. unfold pad_line, upd. rewrite Nat2Z.id, length_app, <- app_assoc, insert_app_r_alt, Nat.sub_diag by lia.
  simpl. by replace (128 - length l)%nat with (S (128 - (length l + 1))) by lia.
Qed.

Lemma set_kbd_get s1 s2 : s1 = set kbd (get kbd s1) s2 <-> exists k, s1 = set kbd k s2.
Proof. split; [intros H; by eexists|]. by intros [k ->]. Qed.

Lemma put_line_kbd t l s : put_line t l s = set kbd (get kbd (put_line t l s)) s.
Proof. done. Qed.

Lemma put_ready_kbd t v s : put_ready t v s = set kbd (get kbd (put_ready t v s)) s.
Proof. done. Qed.

Lemma put_line_same t l s : holds t l s -> put_line t l s = s.
Proof.
  intros [Hr Hl _]. unfold put_line. rewrite (upd_same _ _ _ Hr), (upd_same _ _ _ Hl).
  by destruct s as [? ? ? [] ? ? ? ? ? ?].
Qed.

Lemma put_ready_same t v s : at_ (get readReady s) t = Some v -> put_ready t v s = s.
Proof.
  intros Hr. unfold put_ready. rewrite (upd_same _ _ _ Hr). by destruct s as [? ? ? [] ? ? ? ? ? ?].
Qed.

Lemma put_line_holds t l l' s : holds t l s -> (length l' <= 128)%nat -> holds t l' (put_line t l' s).
Proof.
  intros [Hr Hl _] Hlen. apply at_inv in Hr, Hl. split; [| |done].
  - unfold put_line. change (at_ (upd (get KBbuf s) t (pad_line l')) t = Some (pad_line l')). by apply at_upd_eq.
  - unfold put_line. lsimpl. by apply at_upd_eq.
Qed.

Lemma put_line_twice t l l' s : put_line t l' (put_line t l s) = put_line t l' s.
Proof.
  unfold put_line. lsimpl. rewrite !upd_upd. reflexivity.
Qed.

Lemma wr_kb_run t i v row s :
  at_ (get KBbuf s) t = Some row -> 0 <= i < Z.of_nat (length row) ->
  wr_kb t i v s = Ok (tt, set KBbuf (upd (get KBbuf s) t (upd row i v)) s).
Proof.
  intros Hr Hi. unfold wr_kb. rewrite (bind_ok _ _ _ _ _ (rd_at_run _ _ _ _ Hr)).
  rewrite (proj2 (in_range_spec _ _) Hi). apply wr_at_run. by apply at_inv in Hr.
Qed.

Lemma rd_kb_run t i c row s :
  at_ (get KBbuf s) t = Some row -> at_ row i = Some c -> rd_kb t i s = Ok (c, s).
Proof.
  intros Hr Hc. unfold rd_kb. rewrite (bind_ok _ _ _ _ _ (rd_at_run _ _ _ _ Hr)). by rewrite Hc.
Qed.

Lemma incr_run (a : lens machine (list Z)) t n s :
  at_ (get a s) t = Some n -> incr_at a t s = Ok (tt, set a (upd (get a s) t (n + 1)) s).
Proof.
  intros Hn. unfold incr_at. rewrite (bind_ok _ _ _ _ _ (rd_at_run _ _ _ _ Hn)).
  apply wr_at_run. by apply at_inv in Hn.
Qed.

Lemma decr_run (a : lens machine (list Z)) t n s :
  at_ (get a s) t = Some n -> decr_at a t s = Ok (tt, set a (upd (get a s) t (n - 1)) s).
Proof.
  intros Hn. unfold decr_at. rewrite (bind_ok _ _ _ _ _ (rd_at_run _ _ _ _ Hn)).
  apply wr_at_run. by apply at_inv in Hn.
Qed.

(** A character at the end of the line. *)
Lemma append_run t l c s :
  holds t l s -> (length l < 128)%nat ->
  exists s1, rd_at buf_loc t s = Ok (Z.of_nat (length l), s) /\ wr_kb t (Z.of_nat (length l)) c s = Ok (tt, s1) /\
    incr_at buf_loc t s1 = Ok (tt, put_line t (l ++ [c]) s).
Proof.
  intros [Hr Hl _] Hlen. eexists. split_and!; [by apply rd_at_run| |].
  - apply (wr_kb_run t _ c _ s Hr). rewrite length_pad_line; lia.
  - rewrite pad_line_snoc by done. rewrite (incr_run buf_loc t (Z.of_nat (length l))) by exact Hl.
    do 2 f_equal. unfold put_line. rewrite length_app, Nat2Z.inj_add. reflexivity.
Qed.

(** The last character off the line. *)
Lemma remove_run {A} t l c s (k : K A) :
  holds t (l ++ [c]) s ->
  (decr_at buf_loc t ;;; n ← rd_at buf_loc t; wr_kb t n 0 ;;; k) s = k (put_line t l s).
Proof.
  intros [Hr Hl Hlen]. rewrite length_app in Hlen, Hl. simpl in Hlen, Hl.
  rewrite (bind_ok _ _ _ _ _ (decr_run _ _ _ _ Hl)).
  replace (Z.of_nat (length l + 1) - 1) with (Z.of_nat (length l)) by lia.
  set (s1 := set buf_loc _ s).
  assert (at_ (get buf_loc s1) t = Some (Z.of_nat (length l))) as Hl1
    by (unfold s1; lsimpl; apply at_upd_eq; by apply at_inv in Hl).
  rewrite (bind_ok _ _ _ _ _ (rd_at_run _ _ _ _ Hl1)).
  erewrite bind_ok; [|apply (wr_kb_run t _ 0 (pad_line (l ++ [c])));
    [exact Hr|rewrite length_pad_line; [lia|rewrite length_app; simpl; lia]]].
  by rewrite pad_line_drop by lia.
Qed.

(** ** Lemmas: the screen and the keyboard state *)

Lemma wrote_kbd t p a k s s' : wrote t p a s s' -> wrote t p a (set kbd k s) (set kbd k s').
Proof. intros [? ? ? [] [] ?]. split; try done; split; done. Qed.

Lemma wrote_trace t p a tr s s' :
  inputs tr = inputs (get trace s') -> wrote t p a s s' -> wrote t p a s (set trace tr s').
Proof. intros Htr [? ? ? [] [] ?]. split; try done; split; try done. by etrans. Qed.

(** After a key, the handler is again in the relation. *)
Lemma edited_editing e e' s s' :
  editing e s -> (length (ed_line e') <= 128)%nat -> edited e' s s' -> editing e' s'.
Proof.
  intros [Hh Hr Hx Hy Hs] Hlen [Hk [Wx Wy Ws Wok Wf _]].
  assert (get currentTerminal s' = get currentTerminal s) as Ec by apply (sf_ct _ _ _ Wf).
  set (t := get currentTerminal s) in *.
  pose proof (put_line_holds t _ (ed_line e') s Hh Hlen) as [H1 H2 _].
  split; rewrite ?Ec; [|change (at_ (k_readReady (get kbd s')) t = Some (ed_ready e'))|done..].
  - split; [change (at_ (k_KBbuf (get kbd s')) t = Some (pad_line (ed_line e')))|
            change (at_ (k_buf_loc (get kbd s')) t = Some (Z.of_nat (length (ed_line e'))))|done];
      rewrite Hk; done.
  - rewrite Hk. apply at_inv in Hr. by apply at_upd_eq.
Qed.

Lemma edited_refl e s : screen_ok s -> editing e s -> edited e s s.
Proof.
  intros Hok [Hh Hr Hx Hy Hs]. split.
  - by rewrite (put_line_same _ _ _ Hh), (put_ready_same _ _ _ Hr).
  - assert (set kbd (get kbd s) s = s) as -> by (by destruct s).
    by split.
Qed.

Definition put_kbd (t : Z) (l : list Z) (v : Z) (k : keyboard_t) : keyboard_t :=
  Keyboard (upd (k_KBbuf k) t (pad_line l)) (upd (k_buf_loc k) t (Z.of_nat (length l))) (k_capsFlag k)
    (k_shiftFlagL k) (k_shiftFlagR k) (k_ctrlFlagL k) (k_ctrlFlagR k) (k_altFlagL k) (k_altFlagR k)
    (k_readWaiting k) (upd (k_readReady k) t v).

Lemma put_kbd_eq t l v s : get kbd (put_ready t v (put_line t l s)) = put_kbd t l v (get kbd s).
Proof. done. Qed.

(** Another line in the buffer. *)
Lemma editing_put e l s :
  editing e s -> (length l <= 128)%nat ->
  editing (Editor l (ed_tty e) (ed_ready e)) (put_line (get currentTerminal s) l s).
Proof. intros [Hh Hr Hx Hy Hs] Hl. split; try done. by eapply put_line_holds. Qed.

(** Output first, then the line; or the line first, then output. *)
Lemma edited_after e' s s1 s' :
  wrote (get currentTerminal s) VIDEO (ed_tty e') s s1 ->
  s' = put_ready (get currentTerminal s) (ed_ready e') (put_line (get currentTerminal s) (ed_line e') s1) ->
  edited e' s s'.
Proof.
  intros W ->. pose proof (sf_kbd _ _ _ (wrote_frame _ _ _ _ _ W)) as Ek. split.
  - by rewrite !put_kbd_eq, Ek.
  - set (s' := put_ready _ _ _). change s' with (set kbd (get kbd s') s1) at 2. by apply wrote_kbd.
Qed.

Lemma edited_before e' s s2 :
  wrote (get currentTerminal s) VIDEO (ed_tty e')
    (put_ready (get currentTerminal s) (ed_ready e') (put_line (get currentTerminal s) (ed_line e') s)) s2 ->
  edited e' s s2.
Proof.
  intros W. pose proof (sf_kbd _ _ _ (wrote_frame _ _ _ _ _ W)) as Ek. split; [exact Ek|]. by rewrite Ek.
Qed.

Lemma editing_display e s : editing e s -> screen_ok s -> on_display s (ed_tty e) s /\ tty_ok (ed_tty e).
Proof.
  intros [_ _ Hx Hy Hs] Hok. split.
  - split; [by apply (output_start _ s Hok)|done].
  - destruct Hok. split; eauto.
Qed.

(** An echoing operation of the screen. *)
Lemma echo_wrote (c : K unit) a' s :
  screen_ok s -> tty_ok a' -> wp c (fun _ => on_display s a') s ->
  exists s1, c s = Ok (tt, s1) /\ wrote (get currentTerminal s) VIDEO a' s s1.
Proof.
  intros Hok Ha ([] & s1 & Hrun & H1)%wp_inv. exists s1. split; [done|]. by apply on_tty_wrote.
Qed.

Section keys.
Context (e : editor) (s : machine).
Hypothesis Hvid : video_mapped s.
Hypothesis Hok : screen_ok s.
Hypothesis He : editing e s.
Let t := get currentTerminal s.

Lemma KBputc_wrote c : exists s1, KBputc c s = Ok (tt, s1) /\ wrote t VIDEO (tty_put c (ed_tty e)) s s1.
Proof using Hvid Hok He.
  destruct (editing_display e s He Hok) as [Hd Ha]. apply echo_wrote; [done|by apply tty_put_ok|].
  eapply KBputc_next; [done|apply (so_ct _ Hok)|exact Ha|exact Hd|done].
Qed.

Lemma wrote_holds a' s1 l : wrote t VIDEO a' s s1 -> holds t l s -> holds t l s1.
Proof using Type.
  intros W [H1 H2 H3]. pose proof (sf_kbd _ _ _ (wrote_frame _ _ _ _ _ W)) as Ek.
  split; [change (at_ (k_KBbuf (get kbd s1)) t = Some (pad_line l))|
          change (at_ (k_buf_loc (get kbd s1)) t = Some (Z.of_nat (length l)))|done]; by rewrite Ek.
Qed.

Lemma wrote_ready a' s1 : wrote t VIDEO a' s s1 -> get readReady s1 = get readReady s.
Proof using Type.
  intros W. pose proof (sf_kbd _ _ _ (wrote_frame _ _ _ _ _ W)) as Ek.
  change (k_readReady (get kbd s1) = k_readReady (get kbd s)). by rewrite Ek.
Qed.

(** The start of [character_key]: the character is decoded and echoed. *)
Lemma character_echo scode c :
  at_ ascii_scan (shifted (get kbd s) scode) = Some c ->
  exists s1, wrote t VIDEO (tty_put c (ed_tty e)) s s1 /\ holds t (ed_line e) s1 /\
    get kbd s1 = get kbd s /\
    character_key scode s =
      (if c =? ch_newline then
         w ← rd_at readWaiting t;
         if negb (w =? 0) then
           n ← rd_at buf_loc t; wr_kb t n c ;;; incr_at buf_loc t ;;; wr_at readReady t 1
         else loop clear_buffer_step tt
       else n ← rd_at buf_loc t; wr_kb t n c ;;; incr_at buf_loc t) s1.
Proof using Hvid Hok He.
  intros Hc. destruct (KBputc_wrote c) as (s1 & Hrun & W). exists s1.
  split_and!; [done|by eapply wrote_holds, (e_line _ _ He)|apply (sf_kbd _ _ _ (wrote_frame _ _ _ _ _ W))|].
  unfold character_key. rewrite !(bind_ok _ _ _ _ _ (rd_run _ _)). unfold CAPS_OFF, SHIFT_OFF.
  replace (scode + get capsFlag s * 64 + Z.lor (get shiftFlagL s) (get shiftFlagR s) * 128)
    with (shifted (get kbd s) scode).
  - rewrite Hc. erewrite bind_ok by reflexivity. rewrite (bind_ok _ _ _ _ _ Hrun), (bind_ok _ _ _ _ _ (rd_run _ _)).
    by rewrite (sf_ct _ _ _ (wrote_frame _ _ _ _ _ W)).
  - unfold shifted. change (k_capsFlag (get kbd s)) with (get capsFlag s).
    change (k_shiftFlagL (get kbd s)) with (get shiftFlagL s).
    change (k_shiftFlagR (get kbd s)) with (get shiftFlagR s). lia.
Qed.

Lemma ready_same s1 : get kbd s1 = get kbd s -> put_ready t (ed_ready e) s1 = s1.
Proof using He.
  intros Ek. apply put_ready_same. change (at_ (k_readReady (get kbd s1)) t = Some (ed_ready e)).
  rewrite Ek. apply (e_ready _ _ He).
Qed.

Lemma character_key_run scode c :
  at_ ascii_scan (shifted (get kbd s) scode) = Some c -> c <> ch_newline ->
  (length (ed_line e) < 128)%nat ->
  wp (character_key scode)
    (fun _ => edited (Editor (ed_line e ++ [c]) (tty_put c (ed_tty e)) (ed_ready e)) s) s.
Proof using Hvid Hok He.
  intros Hc Hne Hlen. destruct (character_echo scode c Hc) as (s1 & W & Hh & Ek & Hrun).
  destruct (append_run t _ c s1 Hh Hlen) as (s2 & H1 & H2 & H3).
  eapply wp_run; [|eapply edited_after; [exact W|reflexivity]].
  rewrite Hrun. destruct (Z.eqb_spec c ch_newline); [done|].
  rewrite (bind_ok _ _ _ _ _ H1), (bind_ok _ _ _ _ _ H2), H3. do 2 f_equal. symmetry.
  apply put_ready_same. change (at_ (get readReady s1) t = Some (ed_ready e)).
  change (at_ (k_readReady (get kbd s1)) t = Some (ed_ready e)). rewrite Ek. apply (e_ready _ _ He).
Qed.

Lemma enter_waiting w :
  at_ ascii_scan (shifted (get kbd s) ENTER) = Some ch_newline ->
  at_ (get readWaiting s) t = Some w -> w <> 0 -> (length (ed_line e) < 128)%nat ->
  wp (character_key ENTER)
    (fun _ => edited (Editor (ed_line e ++ [ch_newline]) (tty_put ch_newline (ed_tty e)) 1) s) s.
Proof using Hvid Hok He.
  intros Hc Hw Hne Hlen. destruct (character_echo ENTER _ Hc) as (s1 & W & Hh & Ek & Hrun).
  destruct (append_run t _ ch_newline s1 Hh Hlen) as (s2 & H1 & H2 & H3).
  eapply wp_run; [|eapply edited_after; [exact W|reflexivity]].
  rewrite Hrun. assert (at_ (get readWaiting s1) t = Some w) as Hw1
    by (change (at_ (k_readWaiting (get kbd s1)) t = Some w); by rewrite Ek).
  rewrite Z.eqb_refl, (bind_ok _ _ _ _ _ (rd_at_run _ _ _ _ Hw1)).
  destruct (Z.eqb_spec w 0); [done|]. cbn [negb].
  rewrite (bind_ok _ _ _ _ _ H1), (bind_ok _ _ _ _ _ H2), (bind_ok _ _ _ _ _ H3).
  rewrite wr_at_run; [done|]. change (0 <= t < Z.of_nat (length (k_readReady (get kbd s1)))).
  rewrite Ek. apply (at_inv _ _ _ (e_ready _ _ He)).
Qed.

Lemma clear_buffer_run s1 :
  get kbd s1 = get kbd s -> get currentTerminal s1 = t -> holds t (ed_line e) s1 ->
  loop clear_buffer_step tt s1 = Ok (tt, put_line t [] s1).
Proof using Type.
  intros Ek Ec Hh.
  assert (wp (loop clear_buffer_step tt) (fun _ s' => s' = put_line t [] s1) s1) as H.
  { apply (wp_loop _ (fun _ s' => exists l, s' = put_line t l s1 /\ holds t l s')
      (fun _ s' => default 0 (at_ (get buf_loc s') t))).
    - intros [] s' (l & -> & Hl). pose proof (h_loc _ _ _ Hl) as Hn.
      unfold clear_buffer_step. rewrite wp_bind, wp_rd.
      assert (get currentTerminal (put_line t l s1) = t) as -> by done.
      rewrite wp_bind. eapply wp_run; [by apply rd_at_run|].
      destruct l as [|c l] using rev_ind; [by apply wp_ret|]. clear IHl.
      rewrite length_app in Hn |- *. cbn [length] in Hn |- *. destruct (Z.ltb_spec 0 (Z.of_nat (length l + 1))); [|lia].
      unfold wp. rewrite (remove_run t l c) by done. rewrite put_line_twice. apply wp_ret.
      pose proof (put_line_holds t _ l s1 Hh ltac:(pose proof (h_len _ _ _ Hl) as H1; rewrite length_app in H1; lia)) as Hl'.
      split; [by exists l|]. rewrite Hn, (h_loc _ _ _ Hl'). simpl. lia.
    - exists (ed_line e). by rewrite put_line_same.
    - rewrite (h_loc _ _ _ Hh). simpl. pose proof (h_len _ _ _ Hh). lia. }
  apply wp_inv in H as ([] & s' & Hrun & ->). exact Hrun.
Qed.

Lemma enter_ignored :
  at_ ascii_scan (shifted (get kbd s) ENTER) = Some ch_newline ->
  at_ (get readWaiting s) t = Some 0 ->
  wp (character_key ENTER)
    (fun _ => edited (Editor [] (tty_put ch_newline (ed_tty e)) (ed_ready e)) s) s.
Proof using Hvid Hok He.
  intros Hc Hw. destruct (character_echo ENTER _ Hc) as (s1 & W & Hh & Ek & Hrun).
  eapply wp_run; [|eapply edited_after; [exact W|reflexivity]].
  rewrite Hrun. assert (at_ (get readWaiting s1) t = Some 0) as Hw1
    by (change (at_ (k_readWaiting (get kbd s1)) t = Some 0); by rewrite Ek).
  rewrite Z.eqb_refl, (bind_ok _ _ _ _ _ (rd_at_run _ _ _ _ Hw1)). cbn [negb Z.eqb].
  rewrite clear_buffer_run; [|done|apply (sf_ct _ _ _ (wrote_frame _ _ _ _ _ W))|done].
  do 2 f_equal. symmetry. apply put_ready_same.
  change (at_ (k_readReady (get kbd s1)) t = Some (ed_ready e)). rewrite Ek. apply (e_ready _ _ He).
Qed.

Lemma backspace_run l c :
  ed_line e = l ++ [c] ->
  wp backspace_key (fun _ => edited (Editor l (tty_erase (ed_tty e)) (ed_ready e)) s) s.
Proof using Hvid Hok He.
  intros El. destruct He as [Hh Hr Hx Hy Hs]. rewrite El in Hh. pose proof (h_len _ _ _ Hh) as Hlen.
  rewrite length_app in Hlen. unfold backspace_key. rewrite wp_bind, wp_rd.
  fold t. rewrite wp_bind. eapply wp_run; [apply rd_at_run, (h_loc _ _ _ Hh)|].
  rewrite length_app. destruct (Z.eqb_spec (Z.of_nat (length l + length [c])) 0); [simpl in *; lia|]. cbn [negb].
  unfold wp. rewrite (remove_run t l c) by done. set (s1 := put_line t l s).
  assert (put_ready t (ed_ready e) s1 = s1) as E1 by (by apply put_ready_same).
  assert (editing (Editor l (ed_tty e) (ed_ready e)) s1) as He1 by (apply editing_put; [done|lia]).
  assert (screen_ok s1) as Hok1 by (destruct Hok; by split).
  destruct (editing_display _ _ He1 Hok1) as [Hd Ha].
  destruct (echo_wrote erase_char (tty_erase (ed_tty e)) s1 Hok1) as (s2 & Hrun & W).
  - by apply tty_erase_ok.
  - apply (erase_char_next s1 Hvid (so_ct _ Hok1) (ed_tty e)); done.
  - rewrite Hrun. apply edited_before. cbn [ed_ready ed_line]. fold t s1. by rewrite E1.
Qed.

Lemma redraw_run :
  wp (clear ;;; loop redraw_step 0)
    (fun _ => edited (Editor (ed_line e) (tty_puts (ed_line e) tty_clear) (ed_ready e)) s) s.
Proof using Hvid Hok He.
  destruct (editing_display e s He Hok) as [Hd Ha]. pose proof (so_ct _ Hok) as Hct.
  assert (tty_ok tty_clear) as Hc by done.
  assert (wp (clear ;;; loop redraw_step 0) (fun _ => on_display s (tty_puts (ed_line e) tty_clear)) s) as H.
  { apply wp_bind. eapply (clear_next s Hvid Hct); [exact Hd|]. intros s1 H1.
    apply (wp_loop _ (fun i s' => exists k, i = Z.of_nat k /\ (k <= length (ed_line e))%nat /\
      on_display s (tty_puts (take k (ed_line e)) tty_clear) s') (fun i _ => Z.of_nat (length (ed_line e)) - i)).
    - intros _ s' (k & -> & Hk & Hs'). unfold redraw_step. rewrite wp_bind, wp_rd, (display_current _ _ _ Hs').
      fold t. assert (holds t (ed_line e) s') as Hh.
      { eapply wrote_holds; [apply on_tty_wrote; [done| |exact Hs']|apply (e_line _ _ He)]. by apply tty_puts_ok. }
      rewrite wp_bind. eapply wp_run; [apply rd_at_run, (h_loc _ _ _ Hh)|].
      destruct (Z.ltb_spec (Z.of_nat k) (Z.of_nat (length (ed_line e)))) as [Hlt|Hge].
      + destruct (lookup_lt_is_Some_2 (ed_line e) k ltac:(lia)) as [c Hk1].
        assert (at_ (pad_line (ed_line e)) (Z.of_nat k) = Some c) as Hk2.
        { unfold at_, pad_line. destruct (Z.leb_spec 0 (Z.of_nat k)); [|lia].
          rewrite Nat2Z.id. by apply lookup_app_l_Some. }
        rewrite wp_bind. eapply wp_run; [eapply rd_kb_run; [apply (h_row _ _ _ Hh)|exact Hk2]|].
        rewrite wp_bind. eapply (KBputc_next s Hvid Hct); [by apply tty_puts_ok|exact Hs'|].
        intros s2 H2. apply wp_ret. split; [|lia]. exists (S k). split_and!; [lia..|].
        by rewrite (tty_puts_take_S _ _ _ _ Hk1).
      + apply wp_ret. rewrite take_ge in Hs' by lia. done.
    - exists 0%nat. split_and!; [done|lia|done].
    - pose proof (h_len _ _ _ (e_line _ _ He)). lia. }
  destruct (echo_wrote _ _ _ Hok (tty_puts_ok _ _ Hc) H) as (s1 & Hrun & W).
  eapply wp_run; [exact Hrun|]. eapply edited_after; [exact W|]. cbn [ed_line ed_ready].
  rewrite put_line_same by (eapply wrote_holds; [exact W|apply (e_line _ _ He)]).
  symmetry. apply put_ready_same. rewrite (wrote_ready _ _ W). apply (e_ready _ _ He).
Qed.
End keys.

(** ** Lemmas: decoding *)

(** The flags that select the row of the table. *)
Record modifiers_ok (k : keyboard_t) : Prop := {
  mo_caps : k_capsFlag k = 0 \/ k_capsFlag k = 1;
  mo_sl : k_shiftFlagL k = 0 \/ k_shiftFlagL k = 1;
  mo_sr : k_shiftFlagR k = 0 \/ k_shiftFlagR k = 1
}.

Lemma shifted_row k scode : modifiers_ok k -> exists r, 0 <= r < 4 /\ shifted k scode = scode + 64 * r.
Proof.
  intros [Hc Hl Hr]. unfold shifted.
  exists (k_capsFlag k + 2 * Z.lor (k_shiftFlagL k) (k_shiftFlagR k)).
  assert (0 <= Z.lor (k_shiftFlagL k) (k_shiftFlagR k) <= 1) by (by destruct Hl as [->| ->], Hr as [->| ->]).
  destruct Hc as [->| ->]; lia.
Qed.

(** The keys that the handler looks at before the table. *)
Definition command_keys : list Z := [READ_AGAIN; CTM; CTB; ALTM; ALTB; CAPS; SLM; SLB; SRM; SRB].

Definition table_row_ok (scode : Z) : bool :=
  (default 0 (at_ ascii_scan scode) =? 0) ||
  forallb (fun r =>
    match at_ ascii_scan (scode + 64 * r) with
    | Some c => if scode =? ENTER then c =? ch_newline else (32 <=? c) && (c <? 127)
    | None => false
    end) [0; 1; 2; 3] &&
  negb (existsb (Z.eqb scode) (BKSP :: command_keys)) && (Z.land scode BIT8 =? 0).

(** Every key of the table has a character in each of its four rows. *)
Lemma table_complete k scode :
  modifiers_ok k -> 0 <= scode < 64 -> default 0 (at_ ascii_scan scode) <> 0 ->
  exists c, at_ ascii_scan (shifted k scode) = Some c /\
    (if scode =? ENTER then c = ch_newline else 32 <= c < 127) /\
    existsb (Z.eqb scode) (BKSP :: command_keys) = false /\ Z.land scode BIT8 = 0.
Proof.
  intros Hm Hs Hne. assert (forallb table_row_ok (seqZ 0 64) = true) as Hall by (vm_compute; reflexivity).
  pose proof (forallb_range _ _ _ Hall scode ltac:(lia)) as H.
  unfold table_row_ok in H. rewrite (proj2 (Z.eqb_neq _ _) Hne) in H.
  apply andb_prop in H as [H Hb]. apply andb_prop in H as [Hf Hc].
  apply Z.eqb_eq in Hb. apply negb_true_iff in Hc.
  destruct (shifted_row k scode Hm) as (r & Hr & ->). rewrite forallb_forall in Hf.
  assert (In r [0; 1; 2; 3]) as Hin.
  { assert (r = 0 \/ r = 1 \/ r = 2 \/ r = 3) as Hr' by lia. simpl. intuition congruence. }
  specialize (Hf r Hin). destruct (at_ ascii_scan (scode + 64 * r)) as [c|]; [|done].
  exists c. split_and!; [done| |done|done]. destruct (scode =? ENTER).
  - by apply Z.eqb_eq in Hf.
  - apply andb_prop in Hf as [?%Z.leb_le ?%Z.ltb_lt]. done.
Qed.

Lemma is_set_run f g s :
  is_set f g s = Ok (negb (get f s =? 0) || negb (get g s =? 0), s).
Proof. done. Qed.

(** A key that is no command, without Control and Alt. *)
Lemma scan_code_plain scode s :
  ctrl_down (get kbd s) = false -> alt_down (get kbd s) = false ->
  existsb (Z.eqb scode) command_keys = false ->
  scan_code scode s =
    (if scode =? BKSP then backspace_key
     else p ← printable_key scode; if (p : bool) then character_key scode else mret tt) s.
Proof.
  intros Hc Ha Hk. unfold command_keys in Hk. cbn [existsb] in Hk.
  repeat (apply orb_false_iff in Hk as [? Hk]). unfold scan_code.
  repeat match goal with H : (scode =? _) = false |- _ => rewrite H; clear H end. cbn [orb].
  rewrite (bind_ok _ _ _ _ _ (is_set_run _ _ _)).
  change (negb (get ctrlFlagL s =? 0) || negb (get ctrlFlagR s =? 0)) with (ctrl_down (get kbd s)). rewrite Hc.
  rewrite (bind_ok _ _ _ _ _ (is_set_run _ _ _)).
  change (negb (get altFlagL s =? 0) || negb (get altFlagR s =? 0)) with (alt_down (get kbd s)). by rewrite Ha.
Qed.

Lemma printable_key_run scode a n s :
  Z.land scode BIT8 = 0 -> at_ ascii_scan scode = Some a -> a <> 0 -> scode < 64 ->
  at_ (get buf_loc s) (get currentTerminal s) = Some n ->
  printable_key scode s = Ok ((n <? BUF_SIZE - 1) || (scode =? ENTER), s).
Proof.
  intros Hb Ha Hne Hs Hn. unfold printable_key. rewrite Hb. cbn [Z.eqb negb].
  rewrite Ha. erewrite bind_ok by reflexivity. destruct (Z.eqb_spec a 0); [done|].
  destruct (Z.ltb_spec scode SIZE_SCODES); [|unfold SIZE_SCODES in *; lia]. cbn [negb andb].
  rewrite (bind_ok _ _ _ _ _ (rd_run _ _)). by rewrite (bind_ok _ _ _ _ _ (rd_at_run _ _ _ _ Hn)).
Qed.

(** Every key of the editor is handled as the editor says. *)
Lemma scan_code_edits e k w scode s :
  video_mapped s -> screen_ok s -> modifiers_ok (get kbd s) -> editing e s ->
  at_ (get readWaiting s) (get currentTerminal s) = Some w ->
  key_of (get kbd s) scode = Some k ->
  (k = KeyEnter -> w <> 0 -> (length (ed_line e) < 128)%nat) ->
  wp (scan_code scode) (fun _ => edited (edit_key (negb (w =? 0)) k e) s) s.
Proof.
  intros Hvid Hok Hm He Hw Hk Hroom. unfold key_of in Hk.
  destruct (ctrl_down (get kbd s)) eqn:Ec.
  { destruct (Z.eqb_spec scode CLEAR) as [->|]; [|done]. injection Hk as <-.
    unfold wp. change (scan_code CLEAR s) with
      ((ctrl ← is_set ctrlFlagL ctrlFlagR; if (ctrl : bool) then clear ;;; loop redraw_step 0 else
        alt ← is_set altFlagL altFlagR;
        if (alt : bool) then switch_key CLEAR else p ← printable_key CLEAR; if (p : bool) then character_key CLEAR else mret tt) s).
    rewrite (bind_ok _ _ _ _ _ (is_set_run _ _ _)).
    change (negb (get ctrlFlagL s =? 0) || negb (get ctrlFlagR s =? 0)) with (ctrl_down (get kbd s)). rewrite Ec.
    by apply (redraw_run e s). }
  destruct (alt_down (get kbd s)) eqn:Ea; [done|].
  destruct (Z.eqb_spec scode BKSP) as [->|Hb].
  { injection Hk as <-. unfold wp. rewrite scan_code_plain by done. cbn [Z.eqb BKSP Pos.eqb].
    destruct e as [l a v]. destruct l as [|c l _] using rev_ind; cbn [edit_key ed_line].
    - unfold backspace_key. rewrite (bind_ok _ _ _ _ _ (rd_run _ _)).
      rewrite (bind_ok _ _ _ _ _ (rd_at_run _ _ _ _ (h_loc _ _ _ (e_line _ _ He)))). by apply edited_refl.
    - pose proof (backspace_run _ _ Hvid Hok He l c eq_refl) as H. rewrite removelast_last.
      by destruct l. }
  pose proof (h_loc _ _ _ (e_line _ _ He)) as Hn.
  destruct (Z.eqb_spec scode ENTER) as [->|Hne].
  { injection Hk as <-. destruct (table_complete _ ENTER Hm ltac:(unfold ENTER; lia) ltac:(done)) as (c & Hc & -> & _ & _).
    unfold wp. rewrite scan_code_plain by done. cbn [Z.eqb BKSP ENTER Pos.eqb].
    rewrite (bind_ok _ _ _ _ _ (printable_key_run ENTER 10 _ s eq_refl eq_refl ltac:(done) ltac:(unfold ENTER; lia) Hn)).
    rewrite orb_true_r. destruct (Z.eqb_spec w 0) as [->|Hw0]; cbn [negb edit_key].
    - by apply (enter_ignored e s).
    - eapply (enter_waiting e s); eauto. }
  destruct ((0 <=? scode) && (scode <? 64) && negb (default 0 (at_ ascii_scan scode) =? 0)) eqn:E; [|done].
  apply andb_prop in E as [E E3]. apply andb_prop in E as [?%Z.leb_le ?%Z.ltb_lt].
  apply negb_true_iff, Z.eqb_neq in E3.
  destruct (table_complete _ scode Hm ltac:(lia) E3) as (c & Hc & Hr & Hcmd & Hbit).
  rewrite Hc in Hk. injection Hk as <-. rewrite (proj2 (Z.eqb_neq _ _) Hne) in Hr.
  cbn [existsb] in Hcmd. apply orb_false_iff in Hcmd as [_ Hcmd].
  unfold wp. rewrite scan_code_plain by done. rewrite (proj2 (Z.eqb_neq _ _) Hb).
  destruct (at_ ascii_scan scode) as [a|] eqn:Hat; [|done]. simpl in E3.
  rewrite (bind_ok _ _ _ _ _ (printable_key_run scode a _ s Hbit Hat E3 ltac:(lia) Hn)).
  rewrite (proj2 (Z.eqb_neq _ _) Hne), orb_false_r. unfold BUF_SIZE. cbn [edit_key].
  destruct (Z.ltb_spec (Z.of_nat (length (ed_line e))) (128 - 1)), (Nat.ltb_spec (length (ed_line e)) 127); try lia.
  - apply (character_key_run e s); try done; [unfold ch_newline; lia|lia].
  - by apply edited_refl.
Qed.

Lemma edited_trace e s s' tr :
  inputs tr = inputs (get trace s') -> edited e s s' -> edited e s (set trace tr s').
Proof. intros Htr [Hk W]. split; [done|]. by apply wrote_trace. Qed.

(** The scan code that the keyboard controller holds, and the state after it is
    read from the controller. *)
Definition scan_code_of (s : machine) : Z := u8 (get device s (get trace s) KB_DATA_PORT).

Definition received (s : machine) : machine := set trace (Inb KB_DATA_PORT (scan_code_of s) :: get trace s) s.

Lemma KBhandler_run (Q : machine -> Prop) s :
  wp (scan_code (scan_code_of s))
    (fun _ s' => Q (set trace (Outb 0x20 0x61 :: get trace s') s')) (received s) ->
  wp KBhandler (fun _ => Q) s.
Proof.
  intros H. unfold KBhandler. rewrite wp_bind. eapply wp_run; [reflexivity|].
  rewrite wp_bind. eapply wp_mono; [exact H|]. intros [] s' HQ.
  by apply (wp_run _ _ _ tt (set trace (Outb 0x20 0x61 :: get trace s') s')).
Qed.

Lemma edit_key_length waiting k e :
  (length (ed_line e) <= 128)%nat -> (k = KeyEnter -> waiting = true -> (length (ed_line e) < 128)%nat) ->
  (length (ed_line (edit_key waiting k e)) <= 128)%nat.
Proof.
  destruct k, e as [l a v]; cbn [edit_key ed_line]; intros Hl Hroom; try done.
  - destruct (Nat.ltb_spec (length l) 127); cbn [ed_line]; [rewrite length_app; simpl; lia|done].
  - destruct l as [|c l]; [done|]. cbn [ed_line]. rewrite removelast_firstn_len, length_firstn. lia.
  - destruct waiting; [|simpl; lia]. cbn [ed_line]. rewrite length_app. specialize (Hroom eq_refl eq_refl). simpl. lia.
Qed.

Lemma KBhandler_edits e k w s :
  video_mapped s -> screen_ok s -> modifiers_ok (get kbd s) -> editing e s ->
  at_ (get readWaiting s) (get currentTerminal s) = Some w ->
  key_of (get kbd s) (scan_code_of s) = Some k ->
  (k = KeyEnter -> w <> 0 -> (length (ed_line e) < 128)%nat) ->
  wp KBhandler (fun _ s' => edited (edit_key (negb (w =? 0)) k e) (received s) s' /\
    editing (edit_key (negb (w =? 0)) k e) s' /\ exists tr, get trace s' = Outb 0x20 0x61 :: tr) s.
Proof.
  intros Hvid Hok Hm He Hw Hk Hroom. apply KBhandler_run. set (s0 := received s).
  assert (editing e s0) as He0 by (destruct He as [[] ? ? ? ?]; by repeat split).
  assert (screen_ok s0) as Hok0 by (destruct Hok; by split).
  eapply wp_mono; [exact (scan_code_edits e k w _ s0 Hvid Hok0 Hm He0 Hw Hk Hroom)|].
  intros [] s' H. apply (edited_trace _ _ _ (Outb 0x20 0x61 :: get trace s')) in H; [|done].
  split_and!; [done| |by eexists]. eapply edited_editing; [exact He0| |exact H].
  apply edit_key_length; [apply (h_len _ _ _ (e_line _ _ He))|].
  intros Ek Ew. apply Hroom; [done|]. by apply negb_true_iff, Z.eqb_neq in Ew.
Qed.

(** ** Lemmas: taking a line *)

(** A line up to its new line. *)
Fixpoint first_line (l : list Z) : list Z :=
  match l with
  | [] => []
  | c :: l' => if c =? ch_newline then [c] else c :: first_line l'
  end.

Definition no_newline (l : list Z) : Prop := forall i c, l !! i = Some c -> c <> ch_newline.

Lemma first_line_stop l k :
  no_newline (take k l) -> l !! k = Some ch_newline -> first_line l = take (S k) l.
Proof.
  revert k. induction l as [|c l IH]; intros k Hn Hk; [done|]. destruct k as [|k]; simpl in *.
  - injection Hk as ->. by rewrite Z.eqb_refl, take_0.
  - destruct (Z.eqb_spec c ch_newline) as [->|]; [by destruct (Hn 0%nat _ eq_refl)|].
    f_equal. apply IH; [|done]. intros i v Hi. by apply (Hn (S i)).
Qed.

Lemma first_line_take l k : no_newline (take k l) -> take k (first_line l) = take k l.
Proof.
  revert k. induction l as [|c l IH]; intros k Hn; [done|]. destruct k as [|k]; [done|]. simpl in *.
  destruct (Z.eqb_spec c ch_newline) as [->|]; [by destruct (Hn 0%nat _ eq_refl)|].
  simpl. f_equal. apply IH. intros i v Hi. by apply (Hn (S i)).
Qed.

Section take_line.
Context (t : Z) (row : list Z) (buf nbytes : Z) (s : machine).
Hypothesis Hcur : cur_terminal s = Ok (t, s).
Hypothesis Hrow : at_ (get KBbuf s) t = Some row.
Hypothesis Hbytes : forall i c, row !! i = Some c -> 0 <= c < 256.
Hypothesis Hlen : length row = 128%nat.
Hypothesis Hn : 0 <= nbytes.
Hypothesis Hend : nbytes <= 128 \/ In ch_newline row.
Hypothesis Hmap : mapped (view s) buf nbytes.

Lemma terminalRead_step_run k :
  (k < 128)%nat -> Z.of_nat k < nbytes -> no_newline (take k row) ->
  exists c, row !! k = Some c /\
    terminalRead_step buf nbytes (Z.of_nat k) (write_out buf (take k row) s) =
    Ok ((if c =? ch_newline then inr (Z.of_nat k + 1) else inl (Z.of_nat k + 1)), write_out buf (take (S k) row) s).
Proof using Hcur Hrow Hbytes Hlen Hmap.
  intros Hk Hkn Hno. destruct (lookup_lt_is_Some_2 row k ltac:(lia)) as [c Hc]. exists c. split; [done|].
  set (s1 := write_out buf (take k row) s).
  assert (cur_terminal s1 = Ok (t, s1)) as Hcur1 by (by apply (cur_terminal_prc s1 s)).
  assert (at_ row (Z.of_nat k) = Some c) as Hc'.
  { unfold at_. destruct (Z.leb_spec 0 (Z.of_nat k)); [|lia]. by rewrite Nat2Z.id. }
  assert (Z.of_nat k = Z.of_nat (length (take k row))) as Ek by (rewrite length_take; lia).
  assert (mapped (view s1) (buf + Z.of_nat k) 1) as Hm1 by (apply mapped_write_out, (mapped_sub _ _ nbytes); [done|lia..]).
  unfold terminalRead_step. destruct (Z.ltb_spec (Z.of_nat k) nbytes); [|lia].
  rewrite (bind_ok _ _ _ _ _ Hcur1), (bind_ok _ _ _ _ _ (rd_kb_run t _ c row s1 Hrow Hc')).
  rewrite (bind_ok _ _ _ _ _ (store_out _ c s1 Hm1)), (bind_ok _ _ _ _ _ (store_read _ c s1 Hm1 (Hbytes _ _ Hc))).
  assert (write_out (buf + Z.of_nat k) [c] s1 = write_out buf (take (S k) row) s) as ->
    by (unfold s1; rewrite Ek at 1; rewrite write_out_snoc; by rewrite (take_S_r _ _ _ Hc)).
  by destruct (c =? ch_newline).
Qed.

(** What is read: at most [nbytes] bytes of the row, up to its first new line. *)
Definition line_read : list Z := take (Z.to_nat nbytes) (first_line row).

Lemma terminalRead_loop_run :
  loop (terminalRead_step buf nbytes) 0 s = Ok (Z.of_nat (length line_read), write_out buf line_read s).
Proof using Hcur Hrow Hbytes Hlen Hn Hend Hmap.
  assert (wp (loop (terminalRead_step buf nbytes) 0)
    (fun n s' => n = Z.of_nat (length line_read) /\ s' = write_out buf line_read s) s) as H.
  { apply (wp_loop _ (fun b s' => exists k, b = Z.of_nat k /\ (k <= 128)%nat /\ b <= nbytes /\
      no_newline (take k row) /\ s' = write_out buf (take k row) s) (fun b _ => 129 - b)).
    - intros _ s' (k & -> & Hk & Hkn & Hno & ->). destruct (decide (Z.of_nat k = nbytes)) as [E|Hne].
      + unfold terminalRead_step, line_read. rewrite E, Z.ltb_irrefl. apply wp_ret.
        replace (Z.to_nat nbytes) with k by lia. rewrite first_line_take by done.
        rewrite length_take. split; [lia|done].
      + assert (k < 128)%nat as Hk'.
        { destruct Hend as [?|Hin]; [lia|]. apply list_elem_of_In, list_elem_of_lookup in Hin as [j Hj].
          pose proof (lookup_lt_Some _ _ _ Hj). destruct (decide (j < k)%nat) as [Hjk|]; [|lia].
          exfalso. apply (Hno j ch_newline); [by rewrite lookup_take_lt|done]. }
        destruct (terminalRead_step_run k Hk' ltac:(lia) Hno) as (c & Hc & Hstep).
        eapply wp_run; [exact Hstep|]. destruct (Z.eqb_spec c ch_newline) as [->|Hnc].
        * unfold line_read. rewrite (first_line_stop _ _ Hno Hc), take_take, Nat.min_r by lia.
          split; [|done]. rewrite length_take. lia.
        * split; [|lia]. exists (S k). split_and!; try done; [lia..|].
          intros i v Hi. destruct (decide (i = k)) as [->|].
          { rewrite lookup_take_lt in Hi by lia. congruence. }
          apply (Hno i). apply lookup_take_Some in Hi as [? ?]. rewrite lookup_take_lt by lia. done.
    - exists 0%nat. rewrite take_0. split_and!; [done|lia|lia|by intros i v|by destruct s].
    - lia. }
  apply wp_inv in H as (n & s' & Hrun & -> & ->). exact Hrun.
Qed.
End take_line.

(** The state after a line was taken from terminal [t]. *)
Definition line_taken (t buf : Z) (out : list Z) (s : machine) : machine :=
  set readWaiting (upd (get readWaiting s) t 0) (put_ready t 0 (put_line t [] (write_out buf out s))).

(** [terminalRead] from the end of its wait on. *)
Definition read_tail (buf nbytes : Z) : K Z :=
  flags ← cli_and_save;
  bytes ← loop (terminalRead_step buf nbytes) 0;
  t ← cur_terminal;
  wr_at KBbuf t (replicate 128 0) ;;;
  wr_at readReady t 0 ;;;
  wr_at readWaiting t 0 ;;;
  wr_at buf_loc t 0 ;;;
  restore_flags flags ;;;
  mret bytes.

Record terminal_arrays (t : Z) (s : machine) : Prop := {
  ta_kb : 0 <= t < Z.of_nat (length (get KBbuf s));
  ta_ready : 0 <= t < Z.of_nat (length (get readReady s));
  ta_waiting : 0 <= t < Z.of_nat (length (get readWaiting s));
  ta_loc : 0 <= t < Z.of_nat (length (get buf_loc s))
}.

(** The buffer that a program gives to [terminalRead], and the line it reads. *)
Record readable (t : Z) (row : list Z) (buf nbytes : Z) (s : machine) : Prop := {
  rl_row : at_ (get KBbuf s) t = Some row;
  rl_len : length row = 128%nat;
  rl_bytes : forall i c, row !! i = Some c -> 0 <= c < 256;
  rl_n : 0 <= nbytes;
  rl_end : nbytes <= 128 \/ In ch_newline row;
  rl_map : mapped (view s) buf nbytes
}.

Lemma read_tail_run t row buf nbytes s :
  cur_terminal s = Ok (t, s) -> terminal_arrays t s -> readable t row buf nbytes s ->
  read_tail buf nbytes s =
    Ok (Z.of_nat (length (line_read row nbytes)), line_taken t buf (line_read row nbytes) s).
Proof.
  intros Hcur [Hk Hr Hw Hl] [Hrow Hlen Hbytes Hn Hend Hmap]. set (out := line_read row nbytes).
  set (s1 := set eflags_if false s).
  assert (cur_terminal s1 = Ok (t, s1)) as Hcur1 by (by apply (cur_terminal_prc s1 s)).
  pose proof (terminalRead_loop_run t row buf nbytes s1 Hcur1 Hrow Hbytes Hlen Hn Hend Hmap) as Hloop.
  fold out in Hloop. set (s2 := write_out buf out s1) in Hloop.
  assert (cur_terminal s2 = Ok (t, s2)) as Hcur2 by (by apply (cur_terminal_prc s2 s)).
  unfold read_tail. rewrite (bind_ok _ _ _ (get eflags_if s) s1) by done.
  rewrite (bind_ok _ _ _ _ _ Hloop), (bind_ok _ _ _ _ _ Hcur2).
  rewrite (bind_ok _ _ _ _ _ (wr_at_run KBbuf t _ s2 Hk)). set (s3 := set KBbuf _ s2).
  rewrite (bind_ok _ _ _ _ _ (wr_at_run readReady t 0 s3 Hr)). set (s4 := set readReady _ s3).
  rewrite (bind_ok _ _ _ _ _ (wr_at_run readWaiting t 0 s4 Hw)). set (s5 := set readWaiting _ s4).
  rewrite (bind_ok _ _ _ _ _ (wr_at_run buf_loc t 0 s5 Hl)). by destruct s as [? ? ? [] ? ? ? ? ? []].
Qed.

(** Waiting is over when the line is complete. *)
Lemma spin_done serve cond s : cond s = Ok (true, s) -> spin serve cond s = Ok (tt, s).
Proof.
  intros Hc. unfold spin. rewrite (bind_ok _ _ _ _ _ (rd_run _ _)).
  destruct (get pending s); cbn [spin_on]; by rewrite (bind_ok _ _ _ _ _ Hc).
Qed.

Lemma ready_cond t r s :
  cur_terminal s = Ok (t, s) -> at_ (get readReady s) t = Some r ->
  (t ← cur_terminal; r ← rd_at readReady t; mret (negb (r =? 0))) s = Ok (negb (r =? 0), s).
Proof. intros Hcur Hr. rewrite (bind_ok _ _ _ _ _ Hcur). by rewrite (bind_ok _ _ _ _ _ (rd_at_run _ _ _ _ Hr)). Qed.

(** The start of [terminalRead]. *)
Lemma terminalRead_start serve fd buf nbytes t s s2 :
  cur_terminal s = Ok (t, s) -> terminal_arrays t s -> 0 <= nbytes ->
  spin serve (t ← cur_terminal; r ← rd_at readReady t; mret (negb (r =? 0)))
    (set readWaiting (upd (get readWaiting s) t 1) s) = Ok (tt, s2) ->
  terminalRead serve fd buf nbytes s = read_tail buf nbytes s2.
Proof.
  intros Hcur [_ _ Hw _] Hn Hspin. unfold terminalRead. destruct (Z.ltb_spec nbytes 0); [lia|].
  rewrite (bind_ok _ _ _ _ _ Hcur), (bind_ok _ _ _ _ _ (wr_at_run readWaiting t 1 s Hw)).
  exact (bind_ok _ _ _ _ _ Hspin).
Qed.

Lemma terminalRead_ready serve fd buf nbytes t row r s :
  cur_terminal s = Ok (t, s) -> terminal_arrays t s -> readable t row buf nbytes s ->
  at_ (get readReady s) t = Some r -> r <> 0 ->
  terminalRead serve fd buf nbytes s =
    Ok (Z.of_nat (length (line_read row nbytes)), line_taken t buf (line_read row nbytes) s).
Proof.
  intros Hcur Harr Hrd Hr Hr0. set (s1 := set readWaiting (upd (get readWaiting s) t 1) s).
  assert (cur_terminal s1 = Ok (t, s1)) as Hcur1 by (by apply (cur_terminal_prc s1 s)).
  pose proof (ready_cond t r s1 Hcur1 Hr) as Hc. rewrite (proj2 (Z.eqb_neq _ _) Hr0) in Hc.
  rewrite (terminalRead_start _ _ _ _ t s s1); [|done|done|apply (rl_n _ _ _ _ _ Hrd)|by apply spin_done].
  rewrite (read_tail_run t row buf nbytes s1); [|done| |by destruct Hrd].
  - do 2 f_equal. unfold line_taken, s1. lsimpl. rewrite upd_upd. reflexivity.
  - destruct Harr. split; try done. unfold s1. lsimpl. by rewrite length_upd.
Qed.

(** ** Lemmas: typing a line *)

(** The bytes read from the keyboard controller. *)
Definition is_kb_read (ev : io_event) : bool := match ev with Inb port _ => port =? KB_DATA_PORT | _ => false end.

Definition kb_reads (tr : list io_event) : nat := length (List.filter is_kb_read (inputs tr)).

(** The controller delivers [codes] next, whatever happens on other ports. *)
Definition delivers (codes : list Z) (s : machine) : Prop :=
  forall i c tr, codes !! i = Some c -> kb_reads tr = (kb_reads (get trace s) + i)%nat ->
    u8 (get device s tr KB_DATA_PORT) = c.

(** Keys typed on the shown terminal, from state [s] on. *)
Record typed (e : editor) (n : nat) (s s' : machine) : Prop := {
  ty_kbd : get kbd s' = put_kbd (get currentTerminal s) (ed_line e) (ed_ready e) (get kbd s);
  ty_editing : editing e s';
  ty_ok : screen_ok s';
  ty_ct : get currentTerminal s' = get currentTerminal s;
  ty_prc : get prc s' = get prc s;
  ty_sch : get sch s' = get sch s;
  ty_pag : get pag s' = get pag s;
  ty_irqc : get irqc s' = get irqc s;
  ty_fs : get fs_ptrs s' = get fs_ptrs s;
  ty_device : get device s' = get device s;
  ty_if : get eflags_if s' = get eflags_if s;
  ty_reads : kb_reads (get trace s') = (kb_reads (get trace s) + n)%nat;
  ty_mem : forall a, ~ screen_cells s (get currentTerminal s) a -> byte s' a = byte s a
}.

Lemma put_kbd_twice t l v l' v' k : put_kbd t l' v' (put_kbd t l v k) = put_kbd t l' v' k.
Proof. unfold put_kbd. cbn [k_KBbuf k_buf_loc k_readReady]. by rewrite !upd_upd. Qed.

Lemma typed_trans e e' n m s1 s2 s3 : typed e n s1 s2 -> typed e' m s2 s3 -> typed e' (n + m) s1 s3.
Proof.
  intros [Hk1 _ _ Hc1 Hp1 Hs1 Hg1 Hq1 Hf1 Hd1 Hi1 Hr1 Hm1] [Hk2 He2 Ho2 Hc2 Hp2 Hs2 Hg2 Hq2 Hf2 Hd2 Hi2 Hr2 Hm2].
  split; try done; try congruence.
  - by rewrite Hk2, Hc1, Hk1, put_kbd_twice.
  - rewrite Hr2, Hr1. lia.
  - intros a Ha. rewrite Hm2, Hm1; try done. unfold screen_cells in *. by rewrite !Hc1.
Qed.

Lemma typed_pending e n q s s' : typed e n (set pending q s) s' -> typed e n s s'.
Proof. by intros [? ? ? ? ? ? ? ? ? ? ? ? ?]. Qed.

(** One key. *)
Lemma type_key e k w s :
  video_mapped s -> screen_ok s -> modifiers_ok (get kbd s) -> editing e s ->
  at_ (get readWaiting s) (get currentTerminal s) = Some w -> w <> 0 ->
  key_of (get kbd s) (scan_code_of s) = Some k ->
  (k = KeyEnter -> (length (ed_line e) < 128)%nat) ->
  wp KBhandler (fun _ s' => typed (edit_key true k e) 1 s s' /\ get pending s' = get pending s) s.
Proof.
  intros Hvid Hok Hm He Hw Hw0 Hk Hroom.
  eapply wp_mono; [apply (KBhandler_edits e k w s Hvid Hok Hm He Hw Hk); intros E _; by apply Hroom|].
  rewrite (proj2 (Z.eqb_neq _ _) Hw0). cbn [negb]. intros [] s' ([Ek [_ _ _ Wok [] _]] & He' & _).
  split; [|done]. split; try done. unfold kb_reads.
  assert (inputs (get trace s') = Inb KB_DATA_PORT (scan_code_of s) :: inputs (get trace s)) as -> by done.
  simpl. lia.
Qed.
(** A process waits for a line of the shown terminal [t]. *)
Record awaits (t : Z) (s : machine) : Prop := {
  aw_vid : video_mapped s;
  aw_ok : screen_ok s;
  aw_mod : modifiers_ok (get kbd s);
  aw_cur : cur_terminal s = Ok (t, s);
  aw_ct : get currentTerminal s = t;
  aw_wait : at_ (get readWaiting s) t = Some 1;
  aw_if : get eflags_if s = true
}.

Lemma awaits_typed t e n s s' : awaits t s -> typed e n s s' -> awaits t s'.
Proof.
  intros [Hvid Hok [? ? ?] Hcur Hct Hw Hif] [Hk _ Ho Hc Hp _ Hg _ _ _ Hi _ _]. split.
  - intros a Ha. rewrite Hg. by apply Hvid.
  - done.
  - by rewrite Hk.
  - by apply (cur_terminal_prc s' s).
  - by rewrite Hc.
  - change (at_ (k_readWaiting (get kbd s')) t = Some 1). by rewrite Hk.
  - by rewrite Hi.
Qed.

Lemma awaits_pending t q s : awaits t s -> awaits t (set pending q s).
Proof.
  intros [? [] [] ? ? ? ?]. split; try done. by apply (cur_terminal_prc (set pending q s) s).
Qed.

Lemma editing_pending e q s : editing e s -> editing e (set pending q s).
Proof. intros [[] ? ? ? ?]. by repeat split. Qed.

Lemma delivers_next c codes s s' :
  delivers (c :: codes) s -> get device s' = get device s ->
  kb_reads (get trace s') = (kb_reads (get trace s) + 1)%nat -> delivers codes s'.
Proof.
  intros H Hd Hr i v tr Hi Htr. rewrite Hd. apply (H (S i)); [done|]. rewrite Htr, Hr. lia.
Qed.

Lemma delivers_first c codes s : delivers (c :: codes) s -> scan_code_of s = c.
Proof. intros H. apply (H 0%nat); [done|lia]. Qed.

(** Keys before the end of the line leave room for it. *)
Lemma edit_key_room k e :
  k <> KeyEnter -> (length (ed_line e) < 128)%nat -> (length (ed_line (edit_key true k e)) < 128)%nat.
Proof.
  intros Hk Hl. destruct k, e as [l a v]; cbn [edit_key ed_line] in *; try done.
  - destruct (Nat.ltb_spec (length l) 127); cbn [ed_line]; [rewrite length_app; simpl; lia|done].
  - destruct l as [|c l]; [done|]. cbn [ed_line]. rewrite removelast_firstn_len, length_firstn. lia.
Qed.

Lemma edit_key_ready k e : k <> KeyEnter -> ed_ready (edit_key true k e) = ed_ready e.
Proof.
  intros Hk. destruct k, e as [l a v]; cbn [edit_key ed_ready ed_line]; try done.
  - by destruct (_ <? _)%nat.
  - by destruct l.
Qed.

Definition edit_keys (ks : list key) (e : editor) : editor := fold_left (fun e k => edit_key true k e) ks e.

Section typing.
Context (serve : irq -> K unit) (t : Z).
Hypothesis Hserve : serve IrqKeyboard = KBhandler.

Let cond : K bool := t ← cur_terminal; r ← rd_at readReady t; mret (negb (r =? 0)).

(** One key during the wait. *)
Lemma spin_key irqs c codes k e s :
  awaits t s -> editing e s -> ed_ready e = 0 -> delivers (c :: codes) s -> key_of (get kbd s) c = Some k ->
  (k = KeyEnter -> (length (ed_line e) < 128)%nat) ->
  exists s', spin_on (IrqKeyboard :: irqs) serve cond s = spin_on irqs serve cond s' /\
    typed (edit_key true k e) 1 s s' /\ awaits t s' /\ delivers codes s' /\ get pending s' = irqs.
Proof using Hserve.
  intros Haw He Hr0 Hdel Hk Hroom. pose proof (aw_ct _ _ Haw) as Hct.
  pose proof (e_ready _ _ He) as Hr. rewrite Hct, Hr0 in Hr.
  set (s0 := set pending irqs s).
  assert (awaits t s0) as [Hvid Hok Hm Hcur Hct0 Hw Hif] by by apply awaits_pending.
  destruct (wp_inv _ _ _ (type_key e k 1 s0 Hvid Hok Hm (editing_pending _ _ _ He)
    ltac:(by rewrite Hct0) ltac:(done) ltac:(change (key_of (get kbd s) (scan_code_of s) = Some k);
      by rewrite (delivers_first _ _ _ Hdel)) Hroom)) as ([] & s' & Hrun & Hty & Hpend).
  exists s'. apply typed_pending in Hty. split_and!.
  - cbn [spin_on]. rewrite (bind_ok _ _ _ _ _ (ready_cond t 0 s (aw_cur _ _ Haw) Hr)). cbn [Z.eqb negb].
    rewrite (bind_ok _ _ _ _ _ (rd_run _ _)), (aw_if _ _ Haw), (bind_ok _ _ _ _ _ (wr_run _ _ _)).
    rewrite Hserve. by rewrite (bind_ok _ _ _ _ _ Hrun).
  - done.
  - by eapply awaits_typed.
  - eapply delivers_next; [exact Hdel|apply (ty_device _ _ _ _ Hty)|apply (ty_reads _ _ _ _ Hty)].
  - exact Hpend.
Qed.

Lemma key_of_typed e n s s' c : typed e n s s' -> key_of (get kbd s') c = key_of (get kbd s) c.
Proof using Type. intros H. by rewrite (ty_kbd _ _ _ _ H). Qed.

(** The wait serves the keys up to the end of the line. *)
Lemma spin_types rest codes ks : Forall (fun k => k <> KeyEnter) ks -> forall e s,
  awaits t s -> editing e s -> ed_ready e = 0 -> (length (ed_line e) < 128)%nat ->
  delivers codes s -> Forall2 (fun c k => key_of (get kbd s) c = Some k) codes (ks ++ [KeyEnter]) ->
  exists s', spin_on (replicate (length ks) IrqKeyboard ++ IrqKeyboard :: rest) serve cond s = Ok (tt, s') /\
    typed (edit_keys (ks ++ [KeyEnter]) e) (length ks + 1) s s' /\ awaits t s' /\ get pending s' = rest.
Proof using Hserve.
  intros Hks. revert codes. induction Hks as [|k ks Hk Hks IH];
    intros codes e s Haw He Hr0 Hlen Hdel Hall; simpl in Hall; inversion Hall as [|c k' codes' ks' Hc Hall']; subst.
  - destruct (spin_key rest c codes' KeyEnter e s Haw He Hr0 Hdel Hc ltac:(done)) as (s' & Hspin & Hty & Haw' & _ & Hpend).
    exists s'. split_and!; [|done|done|done]. cbn [replicate length app]. rewrite Hspin.
    pose proof (e_ready _ _ (ty_editing _ _ _ _ Hty)) as Hr. rewrite (aw_ct _ _ Haw') in Hr.
    pose proof (ready_cond t _ s' (aw_cur _ _ Haw') Hr) as Hcond.
    by destruct rest; cbn [spin_on]; rewrite (bind_ok _ _ _ _ _ Hcond).
  - destruct (spin_key (replicate (length ks) IrqKeyboard ++ IrqKeyboard :: rest) c codes' k e s
      Haw He Hr0 Hdel Hc ltac:(done)) as (s1 & Hspin & Hty & Haw1 & Hdel1 & _).
    destruct (IH codes' (edit_key true k e) s1) as (s' & Hrun & Hty' & Haw' & Hpend); try done.
    + apply (ty_editing _ _ _ _ Hty).
    + by rewrite edit_key_ready.
    + by apply edit_key_room.
    + eapply Forall2_impl; [|exact Hall']. intros c' k' H. by rewrite (key_of_typed _ _ _ _ _ Hty).
    + exists s'. split_and!; [|by eapply (typed_trans _ _ 1 (length ks + 1))|done|done].
      cbn [replicate length app]. by rewrite Hspin.
Qed.
End typing.

(** Characters of a line before its end. *)
Definition line_char (c : Z) : Prop := 0 <= c < 256 /\ c <> ch_newline.

Lemma key_of_char k scode c : modifiers_ok k -> key_of k scode = Some (KeyChar c) -> line_char c.
Proof.
  intros Hm. unfold key_of. destruct (ctrl_down k); [by destruct (_ =? _)|]. destruct (alt_down k); [done|].
  destruct (_ =? BKSP); [done|]. destruct (scode =? ENTER) eqn:Ee; [done|].
  destruct ((0 <=? scode) && (scode <? 64) && negb (default 0 (at_ ascii_scan scode) =? 0)) eqn:E; [|done].
  apply andb_prop in E as [E E3]. apply andb_prop in E as [?%Z.leb_le ?%Z.ltb_lt].
  apply negb_true_iff, Z.eqb_neq in E3.
  destruct (table_complete _ scode Hm ltac:(lia) E3) as (c' & Hc & Hr & _). rewrite Hc, Ee in *.
  intros [= ->]. unfold line_char, ch_newline. lia.
Qed.

Lemma edit_key_chars k e :
  k <> KeyEnter -> (forall c, k = KeyChar c -> line_char c) -> Forall line_char (ed_line e) ->
  Forall line_char (ed_line (edit_key true k e)).
Proof.
  intros Hk Hc Hl. destruct k, e as [l a v]; cbn [edit_key ed_line] in *; try done.
  - destruct (_ <? _)%nat; cbn [ed_line]; [|done]. apply Forall_app. split; [done|]. constructor; [by apply Hc|done].
  - destruct l as [|c l]; [done|]. cbn [ed_line]. rewrite removelast_firstn_len. by apply Forall_take.
Qed.

Lemma edit_keys_chars ks : Forall (fun k => k <> KeyEnter) ks -> (forall c, In (KeyChar c) ks -> line_char c) ->
  forall e, Forall line_char (ed_line e) -> (length (ed_line e) < 128)%nat ->
  Forall line_char (ed_line (edit_keys ks e)) /\ (length (ed_line (edit_keys ks e)) < 128)%nat.
Proof.
  induction 1 as [|k ks Hk Hks IH]; intros Hc e Hl Hn; [done|]. cbn [edit_keys fold_left].
  apply IH; [intros; apply Hc; by right| |by apply edit_key_room].
  apply edit_key_chars; [done| |done]. intros c ->. apply Hc. by left.
Qed.

Lemma edit_keys_enter ks e :
  ed_line (edit_keys (ks ++ [KeyEnter]) e) = ed_line (edit_keys ks e) ++ [ch_newline] /\
  ed_ready (edit_keys (ks ++ [KeyEnter]) e) = 1.
Proof. unfold edit_keys. by rewrite fold_left_app. Qed.

(** A line with one new line, its last character. *)
Lemma first_line_whole l r : Forall line_char l -> first_line ((l ++ [ch_newline]) ++ r) = l ++ [ch_newline].
Proof.
  induction 1 as [|c l [_ Hc] _ IH]; [done|]. cbn [app first_line].
  by rewrite (proj2 (Z.eqb_neq _ _) Hc), IH.
Qed.

Lemma keys_chars k codes ks :
  modifiers_ok k -> Forall2 (fun c x => key_of k c = Some x) codes (ks ++ [KeyEnter]) ->
  forall c, In (KeyChar c) ks -> line_char c.
Proof.
  intros Hm Hall c [i Hi]%list_elem_of_In%list_elem_of_lookup.
  destruct (Forall2_lookup_r _ _ _ i (KeyChar c) Hall) as (code & _ & Hk); [by apply lookup_app_l_Some|].
  by eapply key_of_char.
Qed.

(** A typed line is ready to be read. *)
Lemma typed_arrays e n t s s1 : get currentTerminal s = t -> terminal_arrays t s -> typed e n s s1 -> terminal_arrays t s1.
Proof.
  intros Hct [H1 H2 H3 H4] Hty. pose proof (ty_kbd _ _ _ _ Hty) as Ek.
  split; [change (0 <= t < Z.of_nat (length (k_KBbuf (get kbd s1))))|
          change (0 <= t < Z.of_nat (length (k_readReady (get kbd s1))))|
          change (0 <= t < Z.of_nat (length (k_readWaiting (get kbd s1))))|
          change (0 <= t < Z.of_nat (length (k_buf_loc (get kbd s1))))];
    rewrite Ek; unfold put_kbd; cbn; rewrite ?length_upd; done.
Qed.

Lemma typed_readable e n t l buf nbytes s s1 :
  get currentTerminal s = t -> typed e n s s1 -> ed_line e = l ++ [ch_newline] -> Forall line_char l ->
  0 <= nbytes -> mapped (view s) buf nbytes -> readable t (pad_line (ed_line e)) buf nbytes s1.
Proof.
  intros Hct Hty El Hl Hn Hmap. destruct (e_line _ _ (ty_editing _ _ _ _ Hty)) as [Hrow _ Hlen].
  rewrite (ty_ct _ _ _ _ Hty), Hct in Hrow. split; try done.
  - by apply length_pad_line.
  - apply Forall_lookup. unfold pad_line. rewrite El, !Forall_app. split_and!; [|by repeat constructor|].
    + eapply Forall_impl; [|exact Hl]. by intros c [? _].
    + by apply Forall_replicate.
  - right. unfold pad_line. rewrite El, <- app_assoc. apply in_or_app. right. by left.
  - unfold view. by rewrite (ty_pag _ _ _ _ Hty).
Qed.

(** Enter when the buffer is full. *)
Lemma enter_full e w s :
  video_mapped s -> screen_ok s -> modifiers_ok (get kbd s) -> editing e s ->
  ctrl_down (get kbd s) = false -> alt_down (get kbd s) = false ->
  at_ (get readWaiting s) (get currentTerminal s) = Some w -> w <> 0 -> length (ed_line e) = 128%nat ->
  scan_code ENTER s = Fail OutOfBounds.
Proof.
  intros Hvid Hok Hm He Hc Ha Hw Hw0 Hlen. pose proof (h_loc _ _ _ (e_line _ _ He)) as Hn.
  rewrite scan_code_plain by done. cbn [Z.eqb BKSP ENTER Pos.eqb].
  rewrite (bind_ok _ _ _ _ _ (printable_key_run ENTER 10 _ s eq_refl eq_refl ltac:(done) ltac:(unfold ENTER; lia) Hn)).
  rewrite orb_true_r.
  destruct (table_complete _ ENTER Hm ltac:(unfold ENTER; lia) ltac:(done)) as (c & Hch & -> & _ & _).
  destruct (character_echo e s Hvid Hok He ENTER _ Hch) as (s1 & W & Hh & Ek & Hrun). rewrite Hrun.
  assert (at_ (get readWaiting s1) (get currentTerminal s) = Some w) as Hw1
    by (change (at_ (k_readWaiting (get kbd s1)) (get currentTerminal s) = Some w); by rewrite Ek).
  rewrite Z.eqb_refl, (bind_ok _ _ _ _ _ (rd_at_run _ _ _ _ Hw1)), (proj2 (Z.eqb_neq _ _) Hw0). cbn [negb].
  rewrite (bind_ok _ _ _ _ _ (rd_at_run _ _ _ _ (h_loc _ _ _ Hh))), Hlen. apply bind_fail.
  unfold wr_kb. rewrite (bind_ok _ _ _ _ _ (rd_at_run _ _ _ _ (h_row _ _ _ Hh))).
  unfold in_range. by rewrite length_pad_line by lia.
Qed.

(** ** Properties *)

(** C19: the keyboard handler refines the line editor: for the key of the scan
    code that the controller holds, the line, the line-complete flag and the
    display of the shown terminal become those of [edit_key], the interrupt is
    acknowledged, and the other terminals, the processes, the paging structures
    and the memory outside the terminal's text pages keep their values. *)
Theorem KBhandler_refines_editor e k w s :
  video_mapped s -> screen_ok s -> modifiers_ok (get kbd s) -> editing e s ->
  at_ (get readWaiting s) (get currentTerminal s) = Some w ->
  key_of (get kbd s) (scan_code_of s) = Some k ->
  (k = KeyEnter -> w <> 0 -> (length (ed_line e) < 128)%nat) ->
  exists s', KBhandler s = Ok (tt, s') /\ edited (edit_key (negb (w =? 0)) k e) (received s) s' /\
    editing (edit_key (negb (w =? 0)) k e) s' /\
    exists tr, get trace s' = Outb 0x20 0x61 :: tr.
Proof.
  intros Hvid Hok Hm He Hw Hk Hroom.
  destruct (wp_inv _ _ _ (KBhandler_edits e k w s Hvid Hok Hm He Hw Hk Hroom)) as ([] & s' & Hrun & H). eauto.
Qed.

(** The read of a typed line, and the interrupts it leaves. *)
Lemma terminalRead_types serve fd buf nbytes t e ks codes rest s :
  serve IrqKeyboard = KBhandler ->
  video_mapped s -> screen_ok s -> modifiers_ok (get kbd s) ->
  cur_terminal s = Ok (t, s) -> get currentTerminal s = t -> get eflags_if s = true ->
  terminal_arrays t s -> editing e s -> ed_ready e = 0 ->
  Forall line_char (ed_line e) -> (length (ed_line e) < 128)%nat ->
  Forall (fun k => k <> KeyEnter) ks ->
  Forall2 (fun c k => key_of (get kbd s) c = Some k) codes (ks ++ [KeyEnter]) ->
  delivers codes s -> get pending s = replicate (length ks) IrqKeyboard ++ IrqKeyboard :: rest ->
  0 <= nbytes -> mapped (view s) buf nbytes ->
  let e' := edit_keys (ks ++ [KeyEnter]) e in
  let out := take (Z.to_nat nbytes) (ed_line e') in
  exists s1, typed e' (length ks + 1) (set readWaiting (upd (get readWaiting s) t 1) s) s1 /\
    terminalRead serve fd buf nbytes s = Ok (Z.of_nat (length out), line_taken t buf out s1) /\ get pending s1 = rest /\
    (injective (view s) buf nbytes -> bytes_at (view (line_taken t buf out s1)) buf out).
Proof.
  intros Hserve Hvid Hok Hm Hcur Hct Hif Harr He Hr0 Hl Hlen Hks Hall Hdel Hpend Hn Hmap e' out.
  set (s0 := set readWaiting (upd (get readWaiting s) t 1) s).
  assert (awaits t s0) as Haw.
  { split; [exact Hvid|by destruct Hok|by destruct Hm|by apply (cur_terminal_prc s0 s)|exact Hct| |exact Hif].
    unfold s0. lsimpl. apply at_upd_eq, Harr. }
  assert (editing e s0) as He0 by (destruct He as [[] ? ? ? ?]; by repeat split).
  destruct (spin_types serve t Hserve rest codes ks Hks e s0 Haw He0 Hr0 Hlen Hdel Hall) as (s1 & Hspin & Hty & Haw1 & Hpend1).
  fold e' in Hty. exists s1. split; [done|].
  destruct (edit_keys_chars ks Hks (keys_chars _ _ _ Hm Hall) e Hl Hlen) as [Hch Hlen'].
  destruct (edit_keys_enter ks e) as [El _]. fold e' in El.
  assert (line_read (pad_line (ed_line e')) nbytes = out) as Eout.
  { unfold line_read, out, pad_line. rewrite El. by rewrite first_line_whole. }
  pose proof (typed_readable e' _ t _ buf nbytes s0 s1 Hct Hty El Hch Hn Hmap) as Hrd.
  split_and!; [|done|].
  - rewrite (terminalRead_start _ _ _ _ t s s1); [|done|done|done|].
    + rewrite (read_tail_run t (pad_line (ed_line e')) buf nbytes s1); [by rewrite Eout|apply (aw_cur _ _ Haw1)| |done].
      apply (typed_arrays e' (length ks + 1) t s0); [done| |done]. destruct Harr.
      split; unfold s0; lsimpl; by rewrite ?length_upd.
    + unfold spin. rewrite (bind_ok _ _ _ _ _ (rd_run _ _)). change (get pending _) with (get pending s).
      by rewrite Hpend.
  - intros Hinj. change (bytes_at (view (write_out buf out s1)) buf out). rewrite write_out_view.
    assert (Z.of_nat (length out) <= nbytes) as Hle by (unfold out; rewrite length_take; lia).
    assert (view s1 = VMem (get mem s1) (get pag s)) as Ev by (unfold view; by rewrite (ty_pag _ _ _ _ Hty)).
    rewrite Ev. apply bytes_at_write.
    + intros i Hi. apply Hmap. lia.
    + intros i j c Hi Hj. apply Hinj; lia.
    + intros i v Hi. apply lookup_take_Some in Hi as [Hi _]. rewrite El in Hi.
      assert (Forall (fun c => 0 <= c < 256) (ed_line (edit_keys ks e) ++ [ch_newline])) as Hb.
      { apply Forall_app. split; [|by repeat constructor]. eapply Forall_impl; [|exact Hch]. by intros c [? _]. }
      by eapply (proj1 (Forall_lookup _ _) Hb).
Qed.

(** C18: a process that waits in [terminalRead] for a line of the shown terminal
    receives the line that the user types: after the keys up to Enter, in which
    Backspace and the 127-character limit act as in the line editor, it returns
    the edited line with its new line, cut to the number of bytes asked for; the
    bytes are in its buffer, the terminal's line, flags and waiting mark are
    cleared, and the keys were echoed. *)
Theorem terminalRead_returns_typed_line serve fd buf nbytes t e ks codes rest s :
  serve IrqKeyboard = KBhandler ->
  video_mapped s -> screen_ok s -> modifiers_ok (get kbd s) ->
  cur_terminal s = Ok (t, s) -> get currentTerminal s = t -> get eflags_if s = true ->
  terminal_arrays t s -> editing e s -> ed_ready e = 0 ->
  Forall line_char (ed_line e) -> (length (ed_line e) < 128)%nat ->
  Forall (fun k => k <> KeyEnter) ks ->
  Forall2 (fun c k => key_of (get kbd s) c = Some k) codes (ks ++ [KeyEnter]) ->
  delivers codes s -> get pending s = replicate (length ks) IrqKeyboard ++ IrqKeyboard :: rest ->
  0 <= nbytes -> mapped (view s) buf nbytes ->
  let e' := edit_keys (ks ++ [KeyEnter]) e in
  let out := take (Z.to_nat nbytes) (ed_line e') in
  exists s1, typed e' (length ks + 1) (set readWaiting (upd (get readWaiting s) t 1) s) s1 /\
    terminalRead serve fd buf nbytes s = Ok (Z.of_nat (length out), line_taken t buf out s1) /\
    (injective (view s) buf nbytes -> bytes_at (view (line_taken t buf out s1)) buf out).
Proof.
  intros. destruct (terminalRead_types serve fd buf nbytes t e ks codes rest s) as (s1 & Hty & Hrun & _ & Hb); try done.
  by exists s1.
Qed.

(** A process on terminal 0 and a user who types "hj", Backspace, "i", Enter. *)
Definition typing_state (codes : list Z) : machine :=
  set device (fun tr port => if port =? KB_DATA_PORT then nth (kb_reads tr) codes 0 else 0)
    (set pending (replicate (length codes) IrqKeyboard) (set eflags_if true (one_process ∅))).

Lemma typing_state_ok codes :
  screen_ok (typing_state codes) /\ video_mapped (typing_state codes) /\
  editing (Editor [] (Tty 0 0 (fun _ => 0)) 0) (typing_state codes).
Proof.
  split; [|split].
  - destruct (one_process_screen ∅). by split.
  - assert (forall d p s, get pag (set device d (set pending p (set eflags_if true s))) = get pag s) as E by done.
    intros a Ha. unfold typing_state. rewrite E. by apply one_process_video.
  - repeat constructor.
Qed.

Lemma typing_state_delivers codes : Forall (fun c => 0 <= c < 256) codes -> delivers codes (typing_state codes).
Proof.
  intros Hc i c tr Hi Htr. change (kb_reads (get trace (typing_state codes))) with 0%nat in Htr.
  change (u8 (nth (kb_reads tr) codes 0) = c). rewrite Htr. simpl.
  rewrite nth_lookup, Hi. simpl. apply u8_small. by apply (proj1 (Forall_lookup _ _) Hc i).
Qed.

Lemma terminalRead_returns_typed_line_witness :
  exists s1, terminalRead (fun _ => KBhandler) 0 4096 128 (typing_state [35; 36; 14; 23; 28]) =
    Ok (3, line_taken 0 4096 [104; 105; 10] s1).
Proof.
  pose proof (typing_state_ok [35; 36; 14; 23; 28]) as (Hok & Hvid & He).
  destruct (terminalRead_returns_typed_line (fun _ => KBhandler) 0 4096 128 0
    (Editor [] (Tty 0 0 (fun _ => 0)) 0) [KeyChar 104; KeyChar 106; KeyBackspace; KeyChar 105]
    [35; 36; 14; 23; 28] [] (typing_state [35; 36; 14; 23; 28])) as (s1 & _ & Hrun & _).
  - reflexivity.
  - exact Hvid.
  - exact Hok.
  - split; by left.
  - reflexivity.
  - reflexivity.
  - reflexivity.
  - split; vm_compute; split; (congruence || reflexivity).
  - exact He.
  - reflexivity.
  - constructor.
  - simpl. lia.
  - repeat constructor; discriminate.
  - repeat constructor.
  - apply typing_state_delivers. repeat constructor; lia.
  - reflexivity.
  - lia.
  - intros i Hi. exists (u32 (4096 + i)).
    change (translate (get pag (one_process ∅)) (4096 + i) = Some (u32 (4096 + i))). unfold translate.
    destruct (Z.leb_spec (2 ^ 32) (4096 + i)); [lia|]. reflexivity.
  - exists s1. exact Hrun.
Defined.

Lemma KBhandler_refines_editor_witness :
  exists s', KBhandler (typing_state [30]) = Ok (tt, s') /\
    editing (Editor [97] (tty_put 97 (Tty 0 0 (fun _ => 0))) 0) s'.
Proof.
  pose proof (typing_state_ok [30]) as (Hok & Hvid & He).
  destruct (KBhandler_refines_editor (Editor [] (Tty 0 0 (fun _ => 0)) 0) (KeyChar 97) 0 (typing_state [30]))
    as (s' & Hrun & _ & He' & _); [exact Hvid|exact Hok|split; by left|exact He|reflexivity|reflexivity|discriminate|].
  exists s'. exact (conj Hrun He').
Defined.

(** C36: the keyboard handler does not bound the line at Enter: when a process
    waits for a line and 127 characters are typed, a first Enter completes the
    line of 128 bytes, and a second Enter before the line is taken writes past
    the end of the terminal's buffer. *)
Theorem KBhandler_second_enter_overflows e w s :
  video_mapped s -> screen_ok s -> modifiers_ok (get kbd s) -> editing e s ->
  at_ (get readWaiting s) (get currentTerminal s) = Some w -> w <> 0 ->
  ctrl_down (get kbd s) = false -> alt_down (get kbd s) = false ->
  delivers [ENTER; ENTER] s -> length (ed_line e) = 127%nat ->
  exists s1, KBhandler s = Ok (tt, s1) /\ KBhandler s1 = Fail OutOfBounds.
Proof.
  intros Hvid Hok Hm He Hw Hw0 Hc Ha Hdel Hlen.
  assert (key_of (get kbd s) (scan_code_of s) = Some KeyEnter) as Hk
    by (rewrite (delivers_first _ _ _ Hdel); unfold key_of; by rewrite Hc, Ha).
  destruct (wp_inv _ _ _ (type_key e KeyEnter w s Hvid Hok Hm He Hw Hw0 Hk ltac:(lia))) as ([] & s1 & Hrun & Hty & _).
  exists s1. split; [done|].
  assert (delivers [ENTER] s1) as Hdel1
    by (eapply delivers_next; [exact Hdel|apply (ty_device _ _ _ _ Hty)|apply (ty_reads _ _ _ _ Hty)]).
  pose proof (delivers_first _ _ _ Hdel1) as Hcode.
  assert (length (ed_line (edit_key true KeyEnter e)) = 128%nat) as Hlen1
    by (cbn [edit_key ed_line]; rewrite length_app, Hlen; done).
  pose proof (ty_kbd _ _ _ _ Hty) as Ek.
  unfold KBhandler. rewrite (bind_ok _ _ _ ENTER (received s1)).
  - apply bind_fail, (enter_full (edit_key true KeyEnter e) w); try done.
    + intros a Hx. change (translate (get pag s1) a = Some a). rewrite (ty_pag _ _ _ _ Hty). by apply Hvid.
    + by destruct (ty_ok _ _ _ _ Hty).
    + change (modifiers_ok (get kbd s1)). rewrite Ek. by destruct Hm.
    + by destruct (ty_editing _ _ _ _ Hty) as [[] ? ? ? ?].
    + change (ctrl_down (get kbd s1) = false). by rewrite Ek.
    + change (alt_down (get kbd s1) = false). by rewrite Ek.
    + change (at_ (k_readWaiting (get kbd s1)) (get currentTerminal s1) = Some w). by rewrite Ek, (ty_ct _ _ _ _ Hty).
  - unfold inb, received. by rewrite <- Hcode.
Qed.

(** A terminal with a line typed and a process waiting. *)
Definition waiting_line (l : list Z) (s : machine) : machine := put_line 0 l (set readWaiting [1; 0; 0] s).

Lemma waiting_line_ok codes e l s :
  screen_ok s -> video_mapped s -> editing e s -> delivers codes s -> get currentTerminal s = 0 ->
  (length l <= 128)%nat ->
  screen_ok (waiting_line l s) /\ video_mapped (waiting_line l s) /\ delivers codes (waiting_line l s) /\
  editing (Editor l (ed_tty e) (ed_ready e)) (waiting_line l s) /\
  at_ (get readWaiting (waiting_line l s)) (get currentTerminal (waiting_line l s)) = Some 1.
Proof.
  intros Hok Hvid He Hdel Hct Hl.
  assert (editing e (set readWaiting [1; 0; 0] s)) as He1 by (destruct He as [[] ? ? ? ?]; by repeat split).
  split_and!; [by destruct Hok|exact Hvid|exact Hdel| |].
  - pose proof (editing_put e l _ He1 Hl) as H. change (get currentTerminal (set readWaiting [1; 0; 0] s))
      with (get currentTerminal s) in H. by rewrite Hct in H.
  - change (at_ [1; 0; 0] (get currentTerminal s) = Some 1). by rewrite Hct.
Qed.

Lemma waiting_line_flags l s :
  modifiers_ok (get kbd s) -> ctrl_down (get kbd s) = false -> alt_down (get kbd s) = false ->
  modifiers_ok (get kbd (waiting_line l s)) /\ ctrl_down (get kbd (waiting_line l s)) = false /\
  alt_down (get kbd (waiting_line l s)) = false.
Proof. by intros []. Qed.

Lemma KBhandler_second_enter_overflows_witness :
  exists s1, KBhandler (waiting_line (replicate 127 97) (typing_state [ENTER; ENTER])) = Ok (tt, s1) /\
    KBhandler s1 = Fail OutOfBounds.
Proof.
  pose proof (typing_state_ok [ENTER; ENTER]) as (Hok & Hvid & He).
  pose proof (typing_state_delivers [ENTER; ENTER] ltac:(repeat constructor; unfold ENTER; lia)) as Hdel.
  destruct (waiting_line_flags (replicate 127 97) (typing_state [ENTER; ENTER])) as (Hm & Hc & Ha);
    [split; by left|reflexivity|reflexivity|].
  destruct (waiting_line_ok _ _ (replicate 127 97) _ Hok Hvid He Hdel eq_refl ltac:(rewrite length_replicate; lia))
    as (Hok' & Hvid' & Hdel' & He' & Hw').
  exact (KBhandler_second_enter_overflows _ 1 _ Hvid' Hok' Hm He' Hw' ltac:(discriminate) Hc Ha Hdel' (length_replicate 127 97)).
Defined.
