(* ===== verification/Syscall.v ===== *)
(** * systemcall.c: processes, file descriptors and the system calls

    The ten system calls, the functions they call, and the dispatcher of
    systemcall_asm.S.  A system call that does not return to its caller
    ([sys_execute] on success, [sys_halt]) ends in an [outcome]. *)

From S2P Require Import Prelude Memory Lib Filesystem Machine Pic Screen Paging Rtc Terminal.

(** ** Constants of systemcall.h *)

Definition RTC_DEVICE_FILETYPE : Z := 0.
Definition DIRECTORY_FILETYPE : Z := 1.
Definition REGULAR_FILE_FILETYPE : Z := 2.
Definition STDIN_INDEX_IN_FDT : Z := 0.
Definition STDOUT_INDEX_IN_FDT : Z := 1.
Definition EXECUTABLE_CHECK_BUFFER_SIZE : Z := 4.
Definition FIVE_HUNDRED_TWELVE_MB : Z := EIGHT_MB * 64.
Definition ONE_HUNDRED_TWENTY_EIGHT_MB : Z := FIVE_HUNDRED_TWELVE_MB / 4.
Definition ONE_HUNDRED_THIRTY_TWO_MB : Z := ONE_HUNDRED_TWENTY_EIGHT_MB + FOUR_MB.
Definition PROGRAM_INIT_VIRTUAL_ADDR : Z := 0x08048000.
Definition USER_VIDMAP_ADDR : Z := FIVE_HUNDRED_TWELVE_MB.
Definition FNAME_SIZE : Z := 32.
Definition ARG_SIZE_WITHOUT_NULL_TERMINATOR : Z := 127.
Definition ARG_NULL_TERMINATOR_INDEX : Z := 127.
Definition NOT_IN_OUT : Z := 2.
Definition LONG_BYTES : Z := 4.
Definition UNUSED_FLAG : Z := 0.
Definition STDIN_FLAG : Z := 1.
Definition STDOUT_FLAG : Z := 2.
Definition RTC_FLAG : Z := 3.
Definition DIRECTORY_FLAG : Z := 4.
Definition REGFILE_FLAG : Z := 5.
Definition EXECUTABLE_FIRST_BYTE : Z := 0x7F.
Definition EXECUTABLE_SECOND_BYTE : Z := 0x45.
Definition EXECUTABLE_THIRD_BYTE : Z := 0x4C.
Definition EXECUTABLE_FOURTH_BYTE : Z := 0x46.
Definition EXECUTABLE_INSTRUCTION_START_BYTE : Z := 24.
Definition MAX_SYSCALL_NUM : Z := 10.
Definition USER_CS : Z := 0x0023.
Definition USER_DS : Z := 0x002B.
Definition USER_ESP : Z := 0x83FFFFC.

(** How a system call ends: it returns a value; it enters user code; it resumes
    the [sys_execute] of the parent with a value; or it waits for the scheduler. *)
Inductive outcome :=
| Return (eax : Z)
| EnterUser (eip esp cs ds : Z)
| Resume (esp ebp eax : Z)
| WaitForScheduler.

#[export] Instance outcome_eq_dec : EqDecision outcome.
Proof. solve_decision. Defined.

(** The interrupts served during a busy wait. *)
Definition serve (i : irq) : K unit :=
  match i with
  | IrqKeyboard => KBhandler
  | IrqRTC => RTChandler
  end.

(** ** File operations *)

(** The address of [PCB_ptrs[j]->arg_ptr]. *)
Definition pcb_address (j : Z) : Z := EIGHT_MB - (j + 1) * EIGHT_KB.
Definition pcb_arg_ptr (j : Z) : Z := pcb_address j + 22.

Definition fileRead (fd buf nbytes : Z) : K Z :=
  if (fd <? 0) || (MAX_NUM_FDT_ENTRIES <? fd) then mret ERROR_VAL
  else
    g ← rd fs_ptrs;
    ino ← rd_fdt fd fd_inodeNum;
    pos ← rd_fdt fd file_position;
    bytesRead ← vm (read_data g ino (u32 pos) buf (u32 nbytes));
    if bytesRead =? ERROR_VAL then mret ERROR_VAL
    else
      pos ← rd_fdt fd file_position;
      wr_fdt fd file_position (s32 (pos + bytesRead)) ;;;
      mret bytesRead.

(** The bytes of a directory entry from its name on: [strcpyFile] looks at one
    byte after the name when the name fills its field. *)
Definition dentry_bytes (d : dentry_t) : list Z :=
  fileName d ++ le32 (fileType d) ++ le32 (inodeNum d).

Definition directoryRead (fd buf nbytes : Z) : K Z :=
  if (fd <? 0) || (MAX_NUM_FDT_ENTRIES <? fd) then mret ERROR_VAL
  else
    g ← rd fs_ptrs;
    pos ← rd_fdt fd file_position;
    nd ← vm (numDirectories g);
    if u32 pos =? nd then wr_fdt fd file_position 0 ;;; mret 0
    else
      r ← vm (read_dentry_by_index g (u32 pos) false);
      match r with
      | (0, Some dentry) =>
          bytesCopied ← vm (strcpyFile buf
            (fun i => of_option OutOfBounds (at_ (dentry_bytes dentry) i)) MAX_FILENAME_LENGTH);
          pos ← rd_fdt fd file_position;
          wr_fdt fd file_position (s32 (pos + 1)) ;;;
          mret bytesCopied
      | _ => mret ERROR_VAL
      end.

Definition dummy_read (fd buf nbytes : Z) : K Z := mret ERROR_VAL.
Definition dummy_write (fd buf nbytes : Z) : K Z := mret ERROR_VAL.
Definition dummy_open (filename : Z) : K Z := mret ERROR_VAL.
Definition dummy_close (fd : Z) : K Z := mret ERROR_VAL.

(** The tables, in the order of their declarations. *)
Definition fops_index (p : fops_ptr) : option Z :=
  match p with
  | FOPS_NULL => None
  | STDIN_FOPS => Some 0
  | STDOUT_FOPS => Some 1
  | REGFILE_FOPS => Some 2
  | DIRECTORY_FOPS => Some 3
  | RTC_FOPS => Some 4
  end.

Definition deref_fops (p : fops_ptr) : K fops_table_t :=
  i ← of_option NullDeref (fops_index p); rd_at fops_tables i.

(** Calls through the function pointers of a table. *)
Definition call_open (p : fops_ptr) (filename : Z) : K Z :=
  t ← deref_fops p;
  match ft_open t with
  | OPEN_NULL => fail NullDeref
  | OPEN_terminal => terminalOpen filename
  | OPEN_file => mret (fileOpen filename)
  | OPEN_directory => mret (directoryOpen filename)
  | OPEN_RTC => RTCOpen filename
  end.

Definition call_close (p : fops_ptr) (fd : Z) : K Z :=
  t ← deref_fops p;
  match ft_close t with
  | CLOSE_NULL => fail NullDeref
  | CLOSE_terminal => terminalClose fd
  | CLOSE_file => mret (fileClose fd)
  | CLOSE_directory => mret (directoryClose fd)
  | CLOSE_RTC => RTCClose fd
  end.

Definition call_read (p : fops_ptr) (fd buf nbytes : Z) : K Z :=
  t ← deref_fops p;
  match ft_read t with
  | READ_NULL => fail NullDeref
  | READ_terminal => terminalRead serve fd buf nbytes
  | READ_dummy => dummy_read fd buf nbytes
  | READ_file => fileRead fd buf nbytes
  | READ_directory => directoryRead fd buf nbytes
  | READ_RTC => RTCRead serve fd buf nbytes
  end.

Definition call_write (p : fops_ptr) (fd buf nbytes : Z) : K Z :=
  t ← deref_fops p;
  match ft_write t with
  | WRITE_NULL => fail NullDeref
  | WRITE_terminal => terminalWrite fd buf nbytes
  | WRITE_dummy => dummy_write fd buf nbytes
  | WRITE_file => mret (fileWrite fd buf nbytes)
  | WRITE_directory => mret (directoryWrite fd buf nbytes)
  | WRITE_RTC => RTCWrite fd buf nbytes
  end.

(** ** Initialisation *)

Definition stdin_fops : fops_table_t := FopsTable OPEN_terminal CLOSE_terminal READ_terminal WRITE_dummy.
Definition stdout_fops : fops_table_t := FopsTable OPEN_terminal CLOSE_terminal READ_dummy WRITE_terminal.
Definition regfile_fops : fops_table_t := FopsTable OPEN_file CLOSE_file READ_file WRITE_file.
Definition directory_fops : fops_table_t :=
  FopsTable OPEN_directory CLOSE_directory READ_directory WRITE_directory.
Definition RTC_fops : fops_table_t := FopsTable OPEN_RTC CLOSE_RTC READ_RTC WRITE_RTC.

Definition initialize_fops : K unit :=
  wr fops_tables [stdin_fops; stdout_fops; regfile_fops; directory_fops; RTC_fops] ;;;
  wr cur_pid (-1).

Definition initialize_PCB_pointers : K unit := for_ 6 0 (fun index => wr_at PCB_ptrs index None).

Definition initialize_FDT (pid : Z) : K unit :=
  j ← pcb_slot pid;
  wr fdt (Some j) ;;;
  for_ 8 0 (fun index =>
    wr_fdt index fops_pointer FOPS_NULL ;;;
    wr_fdt index fd_inodeNum 0 ;;;
    wr_fdt index file_position (-1) ;;;
    wr_fdt index flags UNUSED_FLAG) ;;;
  wr_fdt STDIN_INDEX_IN_FDT fops_pointer STDIN_FOPS ;;;
  wr_fdt STDIN_INDEX_IN_FDT flags STDIN_FLAG ;;;
  wr_fdt STDIN_INDEX_IN_FDT file_position 0 ;;;
  wr_fdt STDOUT_INDEX_IN_FDT fops_pointer STDOUT_FOPS ;;;
  wr_fdt STDOUT_INDEX_IN_FDT flags STDOUT_FLAG ;;;
  wr_fdt STDOUT_INDEX_IN_FDT file_position 0.

(** ** Processes *)

(** The end of [sys_execute], where [sys_halt] jumps: the frame of the parent's
    call is left with [eax_val] as its result. *)
Definition jump_point (sp bp : Z) : K outcome := v ← rd eax_val; mret (Resume sp bp v).

Definition sys_halt (status : Z) : K outcome :=
  cp ← rd cur_pid;
  let current_pid := u32 cp in
  ef ← rd_pcb current_pid exception_flag;
  wr eax_val (u32 (status + ef)) ;;;
  j ← pcb_slot current_pid;
  wr fdt (Some j) ;;;
  pp ← rd_pcb current_pid parent_pid;
  let parents_pid := u32 pp in
  for_ 8 0 (fun index =>
    f ← rd_fdt index flags;
    when (negb (f =? UNUSED_FLAG))
      (p ← rd_fdt index fops_pointer; call_close p index ≫= fun _ => mret tt)) ;;;
  if parents_pid =? u32 (-1) then
    wr_at PCB_ptrs current_pid None ;;;
    t ← rd curThread; wr_at shellStarted t 0 ;;;
    mret WaitForScheduler
  else
    register_val_esp ← rd_pcb current_pid esp;
    register_val_ebp ← rd_pcb current_pid ebp;
    d ← rd_pcb parents_pid pde;
    wr_at page_directory PROCESS_PAGING_INDEX d ;;;
    clearTLB ;;;
    j ← pcb_slot parents_pid;
    wr fdt (Some j) ;;;
    wr_at PCB_ptrs current_pid None ;;;
    wr cur_pid (s32 parents_pid) ;;;
    wr tss_esp0 (u32 (PROCESS_BASE_4KB_ALIGNED_ADDRESS - parents_pid * EIGHT_KB - LONG_BYTES)) ;;;
    jump_point register_val_esp register_val_ebp.

Definition switch_to_user_mode (program_eip : Z) : K outcome :=
  wr eflags_if true ;;; mret (EnterUser program_eip USER_ESP USER_CS USER_DS).

Definition find_pid_step (pid : Z) : K (Z + Z) :=
  if pid <? MAX_PROCESSES then
    p ← rd_at PCB_ptrs pid;
    match p with Some _ => mret (inl (pid + 1)) | None => mret (inr pid) end
  else mret (inr pid).

(** The local arrays of [sys_execute]. *)
Definition exec_args : Z := local_array 1.
Definition exec_fname : Z := local_array 2.
Definition exec_testBuffer : Z := local_array 3.
Definition exec_program_eip : Z := local_array 4.

Definition fname_step (command i : Z) : K (Z + Z) :=
  c ← load8 (command + i);
  if negb (c =? 0) && negb (c =? ch_space) && (i <? FNAME_SIZE)
  then store (exec_fname + i) c ;;; mret (inl (i + 1))
  else mret (inr i).

Definition skip_step (command i : Z) : K (Z + Z) :=
  c ← load8 (command + i);
  if c =? ch_space then mret (inl (i + 1)) else mret (inr i).

(** The first part of [sys_execute]: the program name and the arguments. *)
Definition parse_command (command : Z) : K unit :=
  for_ 32 0 (fun i => store (exec_fname + i) 0) ;;;
  i ← loop (fname_step command) 0;
  i ← loop (skip_step command) i;
  c ← load8 (command + i);
  if negb (c =? 0) then
    vm (strncpy exec_args (command + i) ARG_SIZE_WITHOUT_NULL_TERMINATOR) ≫= fun _ =>
    store (exec_args + ARG_NULL_TERMINATOR_INDEX) 0
  else mret tt.

(** The second part: the program file, its magic number and its entry point.
    The result is the inode, or nothing when the call fails. *)
Definition check_program : K (option Z) :=
  g ← rd fs_ptrs;
  r ← vm (read_dentry_by_name g exec_fname false);
  match r with
  | (0, Some new_dentry) =>
      let ino := inodeNum new_dentry in
      n ← vm (read_data g ino 0 exec_testBuffer EXECUTABLE_CHECK_BUFFER_SIZE);
      if n =? -1 then mret None
      else
        b0 ← load8 exec_testBuffer; b1 ← load8 (exec_testBuffer + 1);
        b2 ← load8 (exec_testBuffer + 2); b3 ← load8 (exec_testBuffer + 3);
        if negb (b0 =? EXECUTABLE_FIRST_BYTE) || negb (b1 =? EXECUTABLE_SECOND_BYTE) ||
           negb (b2 =? EXECUTABLE_THIRD_BYTE) || negb (b3 =? EXECUTABLE_FOURTH_BYTE)
        then mret None
        else
          n ← vm (read_data g ino EXECUTABLE_INSTRUCTION_START_BYTE exec_program_eip
                    EXECUTABLE_CHECK_BUFFER_SIZE);
          if n =? -1 then mret None else mret (Some ino)
  | _ => mret None
  end.

(** The third part: the process control block of the new process. *)
Definition populate_pcb (pid_ : Z) : K unit :=
  wr_at PCB_ptrs pid_ (Some pid_) ;;;
  wr_pcb pid_ pid pid_ ;;;
  cp ← rd cur_pid;
  wr_pcb pid_ parent_pid cp ;;;
  pp ← rd_pcb pid_ parent_pid;
  (if pp =? -1 then t ← rd curThread; wr_pcb pid_ parent_terminal (u8 t)
   else t ← rd_pcb pp parent_terminal; wr_pcb pid_ parent_terminal t) ;;;
  wr cur_pid pid_ ;;;
  wr_pcb pid_ exception_flag 0 ;;;
  d ← rd_at page_directory PROCESS_PAGING_INDEX;
  wr_pcb pid_ pde d ;;;
  vm (strncpy (pcb_arg_ptr pid_) exec_args ARG_SIZE) ≫= fun _ =>
  initialize_FDT pid_.

Definition sys_execute (command : Z) : K outcome :=
  if command =? 0 then mret (Return ERROR_VAL)
  else
    pid_ ← loop find_pid_step 0;
    if pid_ =? MAX_PROCESSES then mret (Return ERROR_VAL)
    else
      parse_command command ;;;
      r ← check_program;
      match r with
      | None => mret (Return ERROR_VAL)
      | Some ino =>
          init_process_paging pid_ ;;;
          populate_pcb pid_ ;;;
          g ← rd fs_ptrs;
          n ← vm (read_data g ino 0 PROGRAM_INIT_VIRTUAL_ADDR FOUR_MB);
          if n =? -1 then mret (Return ERROR_VAL)
          else
            wr tss_esp0 (PROCESS_BASE_4KB_ALIGNED_ADDRESS - pid_ * EIGHT_KB - LONG_BYTES) ;;;
            ptr ← rd cpu_esp;
            wr_pcb pid_ esp ptr ;;;
            ptr ← rd cpu_ebp;
            wr_pcb pid_ ebp ptr ;;;
            eip ← vm (ld32 exec_program_eip);
            switch_to_user_mode eip
      end.

(** ** Files *)

Definition sys_read (fd buf nbytes : Z) : K Z :=
  if (fd =? STDIN_FLAG) || (MAX_NUM_FDT_ENTRIES <? fd) || (fd <? 0) then mret ERROR_VAL
  else if (buf =? 0) || (nbytes <? 0) then mret ERROR_VAL
  else
    f ← rd_fdt fd flags;
    if f =? UNUSED_FLAG then mret ERROR_VAL
    else p ← rd_fdt fd fops_pointer; call_read p fd buf nbytes.

Definition sys_write (fd buf nbytes : Z) : K Z :=
  if (fd <=? 0) || (MAX_NUM_FDT_ENTRIES <? fd) then mret ERROR_VAL
  else if (buf =? 0) || (nbytes <? 0) then mret ERROR_VAL
  else
    f ← rd_fdt fd flags;
    if f =? UNUSED_FLAG then mret ERROR_VAL
    else p ← rd_fdt fd fops_pointer; call_write p fd buf nbytes.

(** A string literal of the kernel, in a local array. *)
Definition literal (n : Z) (l : list Z) : K Z :=
  let a := local_array n in
  for_ (length l) 0 (fun i => c ← of_option OutOfBounds (at_ l i); store (a + i) c) ;;;
  store (a + Z.of_nat (length l)) 0 ;;; mret a.

Definition str_stdin : list Z := [115; 116; 100; 105; 110].
Definition str_stdout : list Z := [115; 116; 100; 111; 117; 116].

Definition find_fd_step (index : Z) : K (Z + Z) :=
  if index <? MAX_NUM_FDT_ENTRIES then
    f ← rd_fdt index flags;
    if negb (f =? UNUSED_FLAG) then mret (inl (index + 1)) else mret (inr index)
  else mret (inr index).

Definition set_open_file (index : Z) (p : fops_ptr) (flag : Z) : K unit :=
  wr_fdt index fops_pointer p ;;; wr_fdt index flags flag.

(** Opening a file of the directory. *)
Definition open_named (filename : Z) : K Z :=
  index ← loop find_fd_step NOT_IN_OUT;
  if index =? MAX_NUM_FDT_ENTRIES then mret ERROR_VAL
  else
    g ← rd fs_ptrs;
    r ← vm (read_dentry_by_name g filename false);
    match r with
    | (0, Some new_dentry) =>
        let filetype := s32 (fileType new_dentry) in
        wr_fdt index fd_inodeNum
          (if filetype =? REGULAR_FILE_FILETYPE then inodeNum new_dentry else 0) ;;;
        wr_fdt index file_position 0 ;;;
        if filetype =? RTC_DEVICE_FILETYPE then
          set_open_file index RTC_FOPS RTC_FLAG ;;;
          p ← rd_fdt index fops_pointer;
          call_open p filename ≫= fun _ => mret index
        else if filetype =? DIRECTORY_FILETYPE then
          set_open_file index DIRECTORY_FOPS DIRECTORY_FLAG ;;;
          p ← rd_fdt index fops_pointer;
          call_open p filename ≫= fun _ => mret index
        else if filetype =? REGULAR_FILE_FILETYPE then
          set_open_file index REGFILE_FOPS REGFILE_FLAG ;;;
          p ← rd_fdt index fops_pointer;
          call_open p filename ≫= fun _ => mret index
        else mret ERROR_VAL
    | _ => mret ERROR_VAL
    end.

Definition sys_open (filename : Z) : K Z :=
  p ← rd cur_pid;
  j ← pcb_slot p;
  wr fdt (Some j) ;;;
  if filename =? 0 then mret ERROR_VAL
  else
    a ← literal 5 str_stdin;
    r ← vm (strncmp filename a 5);
    if r =? 0 then mret 0
    else
      a ← literal 6 str_stdout;
      r ← vm (strncmp filename a 6);
      if r =? 0 then mret 1 else open_named filename.

(** The table of the current process, whatever the global [fdt] points to. *)
Definition rd_own_fdt {B} (fd : Z) (f : lens file_descriptor_entry_t B) : K B :=
  p ← rd cur_pid;
  l ← rd_pcb p process_fdt;
  e ← of_option OutOfBounds (at_ l fd); mret (get f e).

Definition wr_own_fdt {B} (fd : Z) (f : lens file_descriptor_entry_t B) (v : B) : K unit :=
  p ← rd cur_pid;
  l ← rd_pcb p process_fdt;
  e ← of_option OutOfBounds (at_ l fd);
  wr_pcb p process_fdt (upd l fd (set f v e)).

Definition sys_close (fd : Z) : K Z :=
  p ← rd cur_pid;
  pcb_slot p ≫= fun _ =>
  if (fd <? NOT_IN_OUT) || (MAX_NUM_FDT_ENTRIES <? fd) then mret ERROR_VAL
  else
    f ← rd_own_fdt fd flags;
    if f =? UNUSED_FLAG then mret ERROR_VAL
    else
      p ← rd_own_fdt fd fops_pointer;
      call_close p fd ≫= fun _ =>
      wr_own_fdt fd flags UNUSED_FLAG ;;;
      mret 0.

(** ** Arguments, video memory, signals *)

Definition sys_getargs (buf nbytes : Z) : K Z :=
  if (buf =? 0) || (nbytes <? 0) then mret ERROR_VAL
  else
    p ← rd cur_pid;
    j ← pcb_slot p;
    vm (strncpy buf (pcb_arg_ptr j) ARG_SIZE) ≫= fun _ =>
    c ← load8 (buf + ARG_NULL_TERMINATOR_INDEX);
    if negb (c =? 0) then mret ERROR_VAL else mret 0.

Definition sys_vidmap (screen_start : Z) : K Z :=
  if screen_start =? 0 then mret ERROR_VAL
  else if screen_start <? EIGHT_MB then mret ERROR_VAL
  else if (screen_start <? ONE_HUNDRED_TWENTY_EIGHT_MB) || (ONE_HUNDRED_THIRTY_TWO_MB <=? screen_start)
  then mret ERROR_VAL
  else
    t ← cur_terminal;
    let new_address := USER_VIDMAP_ADDR + t * FOUR_KB in
    vm (st32 screen_start new_address) ;;;
    mret 0.

Definition sys_sethandler (signum handler_address : Z) : K Z := mret ERROR_VAL.
Definition sys_sigreturn : K Z := mret ERROR_VAL.

(** ** The dispatcher *)

Definition returns (c : K Z) : K outcome := v ← c; mret (Return v).

Definition syscall (eax ebx ecx edx : Z) : K outcome :=
  if (MAX_SYSCALL_NUM <? u32 eax) || (u32 eax =? 0) then mret (Return ERROR_VAL)
  else
    match u32 eax with
    | 1 => sys_halt (u8 ebx)
    | 2 => sys_execute (u32 ebx)
    | 3 => returns (sys_read (s32 ebx) (u32 ecx) (s32 edx))
    | 4 => returns (sys_write (s32 ebx) (u32 ecx) (s32 edx))
    | 5 => returns (sys_open (u32 ebx))
    | 6 => returns (sys_close (s32 ebx))
    | 7 => returns (sys_getargs (u32 ebx) (s32 ecx))
    | 8 => returns (sys_vidmap (u32 ebx))
    | 9 => returns (sys_sethandler (s32 ebx) (u32 ecx))
    | _ => returns sys_sigreturn
    end.
