(* ===== verification/FileTable.v ===== *)
(** * File descriptors: the system calls on files against an abstract table

    The descriptor table of the running process is a list of eight entries.  The
    theorems show which entries [sys_open], [sys_close], [sys_read] and
    [sys_write] of systemcall.c use and change, and that reading a file or the
    directory through a descriptor enumerates its contents. *)

From S2P Require Import Prelude Memory Lib Filesystem Machine Pic Screen Paging Rtc Terminal LineEditor Syscall.

(** ** Specification *)

(** The tables that [initialize_fops] sets up. *)
Definition std_fops : list fops_table_t := [stdin_fops; stdout_fops; regfile_fops; directory_fops; RTC_fops].

(** Process [j] runs, with the descriptor table [l]. *)
Record running (j : Z) (l : list file_descriptor_entry_t) (s : machine) : Prop := {
  ru_cur : get cur_pid s = j;
  ru_ptr : at_ (get PCB_ptrs s) j = Some (Some j);
  ru_fdt : get fdt s = Some j;
  ru_pcb : exists p, at_ (get pcbs s) j = Some p /\ pcb_process_fdt p = l /\
    0 <= pcb_parent_terminal p < NUM_TERMINALS;
  ru_len : length l = 8%nat;
  ru_fops : get fops_tables s = std_fops
}.

(** The same state with another descriptor table for process [j]. *)
Definition put_files (j : Z) (l : list file_descriptor_entry_t) (s : machine) : machine :=
  match at_ (get pcbs s) j with
  | Some p => set pcbs (upd (get pcbs s) j (set process_fdt l p)) s
  | None => s
  end.

(** The descriptors of a new process: terminal input and output. *)
Definition initial_files : list file_descriptor_entry_t :=
  FdEntry STDIN_FOPS 0 0 STDIN_FLAG :: FdEntry STDOUT_FOPS 0 0 STDOUT_FLAG ::
  replicate 6 (FdEntry FOPS_NULL 0 (-1) UNUSED_FLAG).

(** The lowest free entry from 2 on. *)
Fixpoint lowest_free (n : nat) (i : Z) (l : list file_descriptor_entry_t) : option Z :=
  match n with
  | O => None
  | S n' =>
      match at_ l i with
      | Some e => if fd_flg e =? UNUSED_FLAG then Some i else lowest_free n' (i + 1) l
      | None => None
      end
  end.

Definition free_fd (l : list file_descriptor_entry_t) : option Z := lowest_free 6 2 l.

(** The entry of a newly opened file. *)
Definition open_entry (d : dentry_t) : option file_descriptor_entry_t :=
  match fileType d with
  | 0 => Some (FdEntry RTC_FOPS 0 0 RTC_FLAG)
  | 1 => Some (FdEntry DIRECTORY_FOPS 0 0 DIRECTORY_FLAG)
  | 2 => Some (FdEntry REGFILE_FOPS (inodeNum d) 0 REGFILE_FLAG)
  | _ => None
  end.

(** ** Lemmas: entries *)

Lemma put_files_running j l l' s :
  running j l s -> length l' = 8%nat -> running j l' (put_files j l' s).
Proof.
  intros [Hc Hp Hf (p & Hq & Hl & Ht) Hlen Ho] Hl'. unfold put_files. rewrite Hq. split; try done.
  exists (set process_fdt l' p). split; [lsimpl; apply at_upd_eq; by apply at_inv in Hq|by split].
Qed.

Lemma put_files_twice j l l' s : put_files j l' (put_files j l s) = put_files j l' s.
Proof.
  unfold put_files. destruct (at_ (get pcbs s) j) as [p|] eqn:E; [|by rewrite E].
  lsimpl. rewrite at_upd_eq by (by apply at_inv in E). rewrite upd_upd. reflexivity.
Qed.

Lemma put_files_same j l s : running j l s -> put_files j l s = s.
Proof.
  intros [_ _ _ (p & Hq & <- & _) _ _]. unfold put_files. rewrite Hq.
  replace (set process_fdt (pcb_process_fdt p) p) with p by (by destruct p).
  rewrite (upd_same _ _ _ Hq). by destruct s as [? ? ? ? [] ? ? ? ? ?].
Qed.

Lemma pcb_slot_run i k s : at_ (get PCB_ptrs s) i = Some (Some k) -> pcb_slot i s = Ok (k, s).
Proof. intros H. unfold pcb_slot. by rewrite (bind_ok _ _ _ _ _ (rd_at_run _ _ _ _ H)). Qed.

Lemma rd_fdt_run {B} j l i (f : lens file_descriptor_entry_t B) e s :
  running j l s -> at_ l i = Some e -> rd_fdt i f s = Ok (get f e, s).
Proof.
  intros [_ _ Hf (p & Hq & <- & _) _ _] He. unfold rd_fdt. rewrite (bind_ok _ _ _ _ _ (rd_run _ _)), Hf.
  unfold mbind, ST_bind, of_option, mret, ST_ret, rd_field. rewrite (bind_ok _ _ _ _ _ (rd_at_run _ _ _ _ Hq)).
  change (get process_fdt p) with (pcb_process_fdt p). unfold mret, ST_ret. by rewrite He.
Qed.

Lemma wr_fdt_run {B} j l i (f : lens file_descriptor_entry_t B) v e s :
  running j l s -> at_ l i = Some e -> wr_fdt i f v s = Ok (tt, put_files j (upd l i (set f v e)) s).
Proof.
  intros [_ _ Hf (p & Hq & <- & _) _ _] He. unfold wr_fdt. rewrite (bind_ok _ _ _ _ _ (rd_run _ _)), Hf.
  unfold mbind, ST_bind, of_option, mret, ST_ret, rd_field. rewrite (bind_ok _ _ _ _ _ (rd_at_run _ _ _ _ Hq)).
  change (get process_fdt p) with (pcb_process_fdt p). unfold mret, ST_ret. rewrite He.
  rewrite (wr_field_at _ _ _ _ _ _ Hq). unfold put_files. by rewrite Hq.
Qed.

(** An index past the table. *)
Lemma rd_fdt_oob {B} j l i (f : lens file_descriptor_entry_t B) s :
  running j l s -> at_ l i = None -> rd_fdt i f s = Fail OutOfBounds.
Proof.
  intros [_ _ Hf (p & Hq & <- & _) _ _] He. unfold rd_fdt. rewrite (bind_ok _ _ _ _ _ (rd_run _ _)), Hf.
  unfold mbind, ST_bind, of_option, mret, ST_ret, rd_field. rewrite (bind_ok _ _ _ _ _ (rd_at_run _ _ _ _ Hq)).
  change (get process_fdt p) with (pcb_process_fdt p). unfold mret, ST_ret. by rewrite He.
Qed.

Lemma running_entry j l s i : running j l s -> 0 <= i < 8 -> exists e, at_ l i = Some e.
Proof. intros H Hi. apply at_Some. rewrite (ru_len _ _ _ H). lia. Qed.

(** The table with entry [i] replaced. *)
Lemma put_entry_running j l i e s : running j l s -> running j (upd l i e) (put_files j (upd l i e) s).
Proof. intros H. eapply put_files_running; [exact H|]. by rewrite length_upd, (ru_len _ _ _ H). Qed.

Lemma wr_fdt_put {B} j l i (f : lens file_descriptor_entry_t B) v e s :
  running j l s -> 0 <= i < 8 ->
  wr_fdt i f v (put_files j (upd l i e) s) = Ok (tt, put_files j (upd l i (set f v e)) s).
Proof.
  intros H Hi. rewrite (wr_fdt_run j (upd l i e) i f v e).
  - by rewrite put_files_twice, upd_upd.
  - by apply put_entry_running.
  - apply at_upd_eq. rewrite (ru_len _ _ _ H). lia.
Qed.

Lemma rd_fdt_put {B} j l i (f : lens file_descriptor_entry_t B) e s :
  running j l s -> 0 <= i < 8 ->
  rd_fdt i f (put_files j (upd l i e) s) = Ok (get f e, put_files j (upd l i e) s).
Proof.
  intros H Hi. apply (rd_fdt_run j (upd l i e)); [by apply put_entry_running|].
  apply at_upd_eq. rewrite (ru_len _ _ _ H). lia.
Qed.

Lemma deref_fops_run j l p t s :
  running j l s -> of_option NullDeref (fops_index p) s = Ok (t, s) ->
  forall tab, at_ std_fops t = Some tab -> deref_fops p s = Ok (tab, s).
Proof.
  intros H Ht tab Htab. unfold deref_fops. rewrite (bind_ok _ _ _ _ _ Ht).
  apply rd_at_run. by rewrite (ru_fops _ _ _ H).
Qed.

(** ** Lemmas: string literals *)

Lemma literal_run n l s :
  (forall i c, l !! i = Some c -> 0 <= c < 256) -> 0 <= n < 0x1000 -> Z.of_nat (length l) < 0x10000 ->
  exists s', literal n l s = Ok (local_array n, s') /\ locals_only s s' /\
    bytes_at (view s') (local_array n) (l ++ [0]).
Proof.
  intros Hl Hn Hlen. set (a := local_array n).
  assert (2 ^ 32 <= a /\ a + Z.of_nat (length l) + 1 <= 2 ^ 33) as [Ha Hb] by (unfold a, local_array; lia).
  assert (forall b, 2 ^ 32 <= b -> forall s, mapped (view s) b 1) as Hm by (intros; by apply local_mapped).
  assert (wp (for_ (length l) 0 (fun i => c ← of_option OutOfBounds (at_ l i); store (a + i) c))
    (fun _ s' => s' = write_out a l s) s) as Hloop.
  { eapply wp_mono; [apply (wp_for (fun k s' => exists i, k = Z.of_nat i /\ s' = write_out a (take i l) s))|].
    - exists 0%nat. split; [done|]. by destruct s.
    - intros k s' Hk (i & -> & ->). destruct (lookup_lt_is_Some_2 l i ltac:(lia)) as [c Hc].
      assert (at_ l (Z.of_nat i) = Some c) as Hc' by (unfold at_; destruct (Z.leb_spec 0 (Z.of_nat i)); [by rewrite Nat2Z.id|lia]).
      rewrite Hc'. apply wp_bind. eapply wp_run; [reflexivity|].
      assert (Z.of_nat i = Z.of_nat (length (take i l))) as Ei by (rewrite length_take; lia).
      eapply wp_run; [apply store_out, Hm; lia|]. exists (S i). split; [lia|].
      rewrite Ei, write_out_snoc. by rewrite (take_S_r _ _ _ Hc).
    - intros [] s' (i & Hi & ->). by rewrite take_ge by lia. }
  apply wp_inv in Hloop as ([] & s1 & Hrun & ->).
  exists (write_out a (l ++ [0]) s). split_and!.
  - unfold literal. fold a. rewrite (bind_ok _ _ _ _ _ Hrun).
    rewrite (bind_ok _ _ _ _ _ (store_out _ 0 _ (Hm (a + Z.of_nat (length l)) ltac:(lia) _))).
    by rewrite write_out_snoc.
  - apply write_out_locals; [done|]. rewrite length_app. simpl. lia.
  - rewrite write_out_view. apply bytes_at_write; [by apply local_mapped|by apply local_injective|].
    intros i v [Hi|[_ Hi]]%lookup_app_Some; [eauto|].
    apply list_lookup_singleton_Some in Hi as [_ <-]. lia.
Qed.

(** ** Lemmas: opening *)

Lemma find_fd_run j l s :
  running j l s -> loop find_fd_step NOT_IN_OUT s = Ok (default 8 (free_fd l), s).
Proof.
  intros Hr.
  assert (wp (loop find_fd_step NOT_IN_OUT) (fun r s' => r = default 8 (free_fd l) /\ s' = s) s) as H.
  { apply (wp_loop _ (fun i s' => s' = s /\ 2 <= i <= 8 /\ lowest_free (Z.to_nat (8 - i)) i l = free_fd l)
      (fun i _ => 8 - i)).
    - intros i _ (-> & Hi & Hlow). unfold find_fd_step, MAX_NUM_FDT_ENTRIES.
      destruct (Z.ltb_spec i 8).
      + destruct (running_entry j l s i Hr) as [e He]; [lia|].
        apply wp_bind. eapply wp_run; [by apply (rd_fdt_run j l)|].
        replace (Z.to_nat (8 - i)) with (S (Z.to_nat (8 - (i + 1)))) in Hlow by lia.
        cbn [lowest_free] in Hlow. rewrite He in Hlow. change (get flags e) with (fd_flg e).
        destruct (fd_flg e =? UNUSED_FLAG); cbn [negb]; apply wp_ret.
        * by rewrite <- Hlow.
        * split; [|lia]. split_and!; [done|lia|lia|done].
      + apply wp_ret. replace i with 8 in * by lia. by rewrite <- Hlow.
    - unfold NOT_IN_OUT. split_and!; [done|lia|lia|done].
    - unfold NOT_IN_OUT. lia. }
  apply wp_inv in H as (r & s' & Hrun & -> & ->). exact Hrun.
Qed.

Lemma lowest_free_spec n i l fd :
  0 <= i -> lowest_free n i l = Some fd ->
  i <= fd < i + Z.of_nat n /\ (exists e, at_ l fd = Some e /\ fd_flg e = UNUSED_FLAG) /\
  forall k e, i <= k < fd -> at_ l k = Some e -> fd_flg e <> UNUSED_FLAG.
Proof.
  revert i. induction n as [|n IH]; intros i Hi H; [done|]. cbn [lowest_free] in H.
  destruct (at_ l i) as [e|] eqn:He; [|done]. destruct (Z.eqb_spec (fd_flg e) UNUSED_FLAG) as [E|E].
  - injection H as <-. split_and!; [lia|lia|eauto|lia].
  - destruct (IH (i + 1) ltac:(lia) H) as (H1 & H2 & H3). split_and!; [lia|lia|done|].
    intros k e' Hk He'. destruct (decide (k = i)) as [->|]; [congruence|]. apply (H3 k); [lia|done].
Qed.

(** The lowest free entry, from the entries around it. *)
Lemma lowest_free_is n i l fd :
  0 <= i <= fd ->
  (forall k, i <= k < Z.min fd (i + Z.of_nat n) -> exists e, at_ l k = Some e /\ fd_flg e <> UNUSED_FLAG) ->
  (fd < i + Z.of_nat n -> exists e, at_ l fd = Some e /\ fd_flg e = UNUSED_FLAG) ->
  lowest_free n i l = if fd <? i + Z.of_nat n then Some fd else None.
Proof.
  revert i. induction n as [|n IH]; intros i Hi Hused Hfree; cbn [lowest_free].
  - by destruct (Z.ltb_spec fd (i + Z.of_nat 0)); [lia|].
  - destruct (Z.eq_dec i fd) as [->|Hne].
    + destruct (Hfree ltac:(lia)) as (e & -> & ->). cbn [Z.eqb]. by destruct (Z.ltb_spec fd (fd + Z.of_nat (S n))); [|lia].
    + destruct (Hused i ltac:(lia)) as (e & -> & He). rewrite (proj2 (Z.eqb_neq _ _) He), IH.
      * by replace (i + 1 + Z.of_nat n) with (i + Z.of_nat (S n)) by lia.
      * lia.
      * intros k Hk. apply Hused. lia.
      * intros Hk. apply Hfree. lia.
Qed.

(** [sys_open] keeps everything but the table, the locals, and the clock's state. *)
Record opened (j : Z) (l' : list file_descriptor_entry_t) (s s' : machine) : Prop := {
  op_running : running j l' s';
  op_prc : get prc s' = get prc (put_files j l' (set fdt (Some j) s));
  op_mem : forall c, ~ (2 ^ 32 <= c < 2 ^ 33) -> byte s' c = byte s c;
  op_pag : get pag s' = get pag s;
  op_scr : get scr s' = get scr s;
  op_kbd : get kbd s' = get kbd s;
  op_sch : get sch s' = get sch s;
  op_fs : get fs_ptrs s' = get fs_ptrs s;
  op_if : get eflags_if s' = get eflags_if s;
  op_clock : length (get RTC_read_flag s') = length (get RTC_read_flag s)
}.

Lemma running_locals j l s s' : running j l s -> locals_only s s' -> running j l s'.
Proof. intros H [-> _]. by destruct H. Qed.

Lemma put_files_mem j l m s : put_files j l (set mem m s) = set mem m (put_files j l s).
Proof. unfold put_files. change (get pcbs (set mem m s)) with (get pcbs s). by destruct (at_ (get pcbs s) j). Qed.

Lemma locals_opened j l l' s s1 :
  running j l (set fdt (Some j) s) -> length l' = 8%nat ->
  locals_only (set fdt (Some j) s) s1 -> opened j l' s (put_files j l' s1).
Proof.
  intros Hr Hl' Hlo. pose proof (running_locals _ _ _ _ Hr Hlo) as Hr1. destruct Hlo as [E Hb].
  assert (put_files j l' s1 = set mem (get mem s1) (put_files j l' (set fdt (Some j) s))) as Ep
    by (rewrite <- put_files_mem, <- E; done).
  split; [by eapply put_files_running|by rewrite Ep| | | | | | | |];
    unfold put_files; destruct (at_ (get pcbs s1) j); try (by rewrite E); intros c Hc; exact (Hb c Hc).
Qed.

Lemma running_terminal j l s :
  running j l s -> exists t, 0 <= t < NUM_TERMINALS /\ cur_terminal s = Ok (t, s).
Proof.
  intros [Hc Hp _ (p & Hq & _ & Ht) _ _]. exists (pcb_parent_terminal p). split; [done|].
  unfold cur_terminal. rewrite (bind_ok _ _ _ _ _ (rd_run _ _)), Hc. by rewrite (rd_pcb_run s j _ p).
Qed.

(** Opening the clock sets its lowest rate. *)
Lemma RTCOpen_run filename j l s0 s :
  opened j l s0 s -> length (get RTC_read_flag s) = 3%nat ->
  exists s', RTCOpen filename s = Ok (0, s') /\ opened j l s0 s'.
Proof.
  intros Ho Hlen. pose proof (op_running _ _ _ _ Ho) as Hr.
  destruct (running_terminal _ _ _ Hr) as (t & Ht & Hcur). unfold NUM_TERMINALS in Ht.
  set (a := local_array 0). assert (2 ^ 32 <= a) as Ha by done.
  pose proof (st32_write (view s) a INIT_FREQ (local_mapped _ _ _ Ha)) as Hst.
  change [INIT_FREQ; Z.shiftr INIT_FREQ 8; Z.shiftr INIT_FREQ 16; Z.shiftr INIT_FREQ 24] with [2; 0; 0; 0] in Hst.
  set (s1 := write_out a [2; 0; 0; 0] s).
  assert (cur_terminal s1 = Ok (t, s1)) as Hcur1 by (by apply (cur_terminal_prc s1 s)).
  set (s2 := set RTC_read_flag (upd (get RTC_read_flag s1) t 0) s1).
  assert (bytes_at (view s1) a [2; 0; 0; 0]) as Hb.
  { unfold s1. rewrite write_out_view. apply bytes_at_write; [by apply local_mapped|by apply local_injective|].
    intros i v Hi. assert (v ∈ [2; 0; 0; 0]) as Hin by (by eapply list_elem_of_lookup_2). set_unfold in Hin. lia. }
  assert (vm (ld32 a) s2 = Ok (2 ^ 1, s2)) as Hld.
  { rewrite (vm_pure _ _ (2 ^ 1)); [done|]. by rewrite (ld32_run (view s2) a 2 0 0 0). }
  exists (set_rate 15 s2). split.
  - unfold RTCOpen. fold a. rewrite (bind_ok _ _ _ tt s1) by (by apply vm_run).
    rewrite (bind_ok _ _ _ _ _ Hcur1).
    rewrite (bind_ok _ _ _ _ _ (wr_at_run RTC_read_flag t 0 s1 ltac:(change (get RTC_read_flag s1) with (get RTC_read_flag s); lia))).
    by apply (RTCWrite_accept 0 a 0 s2 1).
  - destruct Ho as [[] ? Hm ? ? ? ? ? ? Hl]. split; try done; [|rewrite <- Hl; apply length_upd].
    intros c Hc. rewrite <- (Hm c Hc). apply (lo_byte _ _ (write_out_locals a [2; 0; 0; 0] s Ha ltac:(unfold a, local_array; simpl; lia))). done.
Qed.

(** ** Specification of [sys_open] *)

Definition starts_with (lit name : list Z) : bool := bool_decide (take (length lit) (cstr name) = take (length lit) (cstr lit)).

(** The result and the descriptor table of [sys_open] on a name. *)
Definition open_spec (name : list Z) (dir : list dentry_t) (l : list file_descriptor_entry_t) :
    Z * list file_descriptor_entry_t :=
  if starts_with str_stdin name then (0, l)
  else if starts_with str_stdout name then (1, l)
  else
    match free_fd l, dir_find name dir with
    | Some fd, Some d =>
        match open_entry d with
        | Some e => (fd, upd l fd e)
        | None =>
            let e := default zero_fd (at_ l fd) in
            (ERROR_VAL, upd l fd (FdEntry (fd_fops e) 0 0 UNUSED_FLAG))
        end
    | _, _ => (ERROR_VAL, l)
    end.

(** The functions that the new entry's table names. *)
Lemma call_open_run p d filename j l s0 s e :
  opened j l s0 s -> open_entry d = Some e -> p = fd_fops e -> length (get RTC_read_flag s) = 3%nat ->
  exists s' r, call_open p filename s = Ok (r, s') /\ opened j l s0 s'.
Proof.
  intros Ho He -> Hlen. pose proof (op_running _ _ _ _ Ho) as Hr. unfold open_entry in He.
  destruct (fileType d) as [|[?|[?|?|]|]|]; try done; injection He as <-; cbn [fd_fops].
  - destruct (RTCOpen_run filename j l s0 s Ho Hlen) as (s' & Hrun & Ho').
    exists s', 0. split; [|done]. unfold call_open. by rewrite (bind_ok _ _ _ RTC_fops s) by (by eapply deref_fops_run).
  - exists s, 0. split; [|done]. unfold call_open. by rewrite (bind_ok _ _ _ regfile_fops s) by (by eapply deref_fops_run).
  - exists s, 0. split; [|done]. unfold call_open. by rewrite (bind_ok _ _ _ directory_fops s) by (by eapply deref_fops_run).
Qed.

Lemma s32_eqb v k : 0 <= v < 2 ^ 32 -> 0 <= k < 2 ^ 31 -> (s32 v =? k) = (v =? k).
Proof.
  intros Hv Hk. unfold s32. rewrite u32_small by done. destruct (Z.ltb_spec v (2 ^ 31)); [done|].
  destruct (Z.eqb_spec (v - 2 ^ 32) k), (Z.eqb_spec v k); lia.
Qed.

Lemma dir_find_range {M} `{ByteMemLaws M} (m : M) g size im name d :
  fs_rep m g size im -> dir_find name (im_dir im) = Some d -> 0 <= fileType d < 2 ^ 32.
Proof.
  intros Hrep Hd. unfold dir_find in Hd. destruct (list_find _ _) as [[i d']|] eqn:E; [|done].
  injection Hd as ->. apply list_find_Some in E as [Hi _]. apply (da_type _ _ _ (fr_dir _ _ _ _ Hrep _ _ Hi)).
Qed.

Section opening.
Context (filename size : Z) (name : list Z) (im : fs_image) (j : Z) (l : list file_descriptor_entry_t) (s0 s : machine).
Hypothesis Hrun0 : running j l (set fdt (Some j) s0).
Hypothesis Hlo : locals_only (set fdt (Some j) s0) s.
Hypothesis Hname : bytes_at (view s) filename name.
Hypothesis Hcov : covers name 32.
Hypothesis Hrep : fs_rep (view s) (get fs_ptrs s) size im.
Hypothesis Hclock : length (get RTC_read_flag s) = 3%nat.

Let Hr : running j l s := running_locals _ _ _ _ Hrun0 Hlo.

Lemma by_name_run :
  vm (read_dentry_by_name (get fs_ptrs s) filename false) s =
  Ok (match dir_find name (im_dir im) with Some d => (0, Some d) | None => (ERROR_VAL, None) end, s).
Proof using Hname Hcov Hrep. apply vm_pure. by apply (by_name_loop (view s) (get fs_ptrs s) size im Hrep). Qed.

(** The entry is filled in and the file's own open function called. *)
Lemma open_call_run fd p flag e d :
  2 <= fd < 8 -> open_entry d = Some e -> fd_fops e = p -> fd_flg e = flag ->
  exists s', (set_open_file fd p flag ;;;
    p ← rd_fdt fd fops_pointer; call_open p filename ≫= fun _ => mret fd)
      (put_files j (upd l fd (FdEntry (fd_fops (default zero_fd (at_ l fd))) (fd_inodeNum_ e) (fd_pos e)
        (fd_flg (default zero_fd (at_ l fd))))) s) = Ok (fd, s') /\ opened j (upd l fd e) s0 s'.
Proof using Hrun0 Hlo Hclock.
  intros Hfd He Hp Hflag. unfold set_open_file.
  rewrite (bind_ok _ _ _ tt (put_files j (upd l fd e) s)).
  - rewrite (bind_ok _ _ _ _ _ (rd_fdt_put j l fd fops_pointer e s Hr ltac:(lia))).
    destruct (call_open_run (fd_fops e) d filename j (upd l fd e) s0 (put_files j (upd l fd e) s) e)
      as (s' & r & Hcall & Ho); [|done|done| |].
    + apply (locals_opened j l); [done|by rewrite length_upd, (ru_len _ _ _ Hr)|done].
    + unfold put_files. by destruct (at_ (get pcbs s) j).
    + exists s'. split; [|done]. change (get fops_pointer e) with (fd_fops e). by rewrite (bind_ok _ _ _ _ _ Hcall).
  - rewrite (bind_ok _ _ _ _ _ (wr_fdt_put j l fd fops_pointer p _ s Hr ltac:(lia))).
    rewrite (wr_fdt_put j l fd flags flag _ s Hr) by lia. do 4 f_equal. subst. by destruct e.
Qed.

Lemma open_named_run :
  (starts_with str_stdin name = false) -> (starts_with str_stdout name = false) ->
  exists s', open_named filename s = Ok (fst (open_spec name (im_dir im) l), s') /\
    opened j (snd (open_spec name (im_dir im) l)) s0 s'.
Proof using Hrun0 Hlo Hname Hcov Hrep Hclock.
  intros Hin Hout. pose proof (ru_len _ _ _ Hr) as Hlen.
  assert (opened j l s0 s) as Hsame.
  { rewrite <- (put_files_same j l s Hr). by apply (locals_opened j l). }
  unfold open_named. rewrite (bind_ok _ _ _ _ _ (find_fd_run j l s Hr)).
  unfold open_spec. rewrite Hin, Hout.
  destruct (free_fd l) as [fd|] eqn:Hfree; cbn [default id]; [|by exists s].
  destruct (lowest_free_spec 6 2 l fd ltac:(lia) Hfree) as (Hfd & (e0 & He0 & Hfl) & _).
  destruct (Z.eqb_spec fd MAX_NUM_FDT_ENTRIES); [unfold MAX_NUM_FDT_ENTRIES in *; lia|].
  rewrite (bind_ok _ _ _ _ _ (rd_run _ _)), (bind_ok _ _ _ _ _ by_name_run).
  destruct (dir_find name (im_dir im)) as [d|] eqn:Hd; [|by exists s].
  pose proof (dir_find_range _ _ _ _ _ _ Hrep Hd) as Htype.
  rewrite !s32_eqb by (unfold REGULAR_FILE_FILETYPE, RTC_DEVICE_FILETYPE, DIRECTORY_FILETYPE; lia).
  unfold REGULAR_FILE_FILETYPE, RTC_DEVICE_FILETYPE, DIRECTORY_FILETYPE.
  rewrite (bind_ok _ _ _ tt (put_files j (upd l fd (set fd_inodeNum (if fileType d =? 2 then inodeNum d else 0) e0)) s))
    by (by apply wr_fdt_run).
  rewrite (bind_ok _ _ _ _ _ (wr_fdt_put j l fd file_position 0 _ s Hr ltac:(lia))).
  pose proof (fun p flag e => open_call_run fd p flag e d ltac:(lia)) as Hopen. rewrite He0 in *. cbn [default id] in *.
  destruct (open_entry d) as [e|] eqn:He.
  - unfold open_entry in He. destruct (fileType d) as [|[?|[?|?|]|]|] eqn:Et; try done; injection He as <-; cbn [Z.eqb Pos.eqb].
    + exact (Hopen RTC_FOPS RTC_FLAG _ eq_refl eq_refl eq_refl).
    + exact (Hopen REGFILE_FOPS REGFILE_FLAG _ eq_refl eq_refl eq_refl).
    + exact (Hopen DIRECTORY_FOPS DIRECTORY_FLAG _ eq_refl eq_refl eq_refl).
  - assert (fileType d <> 0 /\ fileType d <> 1 /\ fileType d <> 2) as (H0 & H1 & H2)
      by (unfold open_entry in He; split_and!; intros E; by rewrite E in He).
    rewrite (proj2 (Z.eqb_neq _ _) H0), (proj2 (Z.eqb_neq _ _) H1), (proj2 (Z.eqb_neq _ _) H2).
    eexists. split; [reflexivity|]. cbn [snd]. rewrite <- Hfl. destruct e0 as [f0 i0 p0 g0].
    apply (locals_opened j l); [done|by rewrite length_upd|done].
Qed.
End opening.

(** Comparing with a literal. *)
Lemma starts_with_run n lit filename name s :
  bytes_at (view s) (local_array n) (lit ++ [0]) -> bytes_at (view s) filename name -> covers name 32 ->
  (length lit <= 32)%nat -> (forall i c, lit !! i = Some c -> 0 < c < 256) ->
  exists r, vm (strncmp filename (local_array n) (Z.of_nat (length lit))) s = Ok (r, s) /\
    (r =? 0) = starts_with lit name.
Proof.
  intros Hlit Hn Hc Hl Hr.
  assert (covers name (length lit)) as Hc1 by (destruct Hc; [by left|right; lia]).
  assert (covers (lit ++ [0]) (length lit)) as Hc2 by (right; rewrite length_app; lia).
  eexists. split; [apply vm_pure; by apply strncmp_run|]. unfold starts_with.
  assert (cstr (lit ++ [0]) = cstr lit) as <-.
  { clear -Hr. induction lit as [|c lit IH]; [done|]. simpl. pose proof (Hr 0%nat c eq_refl).
    destruct (Z.eqb_spec c 0); [lia|]. f_equal. apply IH. intros i v Hi. by apply (Hr (S i)). }
  apply eq_true_iff_eq. rewrite Z.eqb_eq, bool_decide_eq_true. apply compare_bytes_0; try done;
    intros v [k Hk]%list_elem_of_lookup_1; eapply load_range; eauto.
Qed.

Lemma str_stdin_chars i c : str_stdin !! i = Some c -> 0 < c < 256.
Proof. intros Hi. assert (c ∈ str_stdin) as Hin by (by eapply list_elem_of_lookup_2). unfold str_stdin in Hin. set_unfold in Hin. lia. Qed.

Lemma str_stdout_chars i c : str_stdout !! i = Some c -> 0 < c < 256.
Proof. intros Hi. assert (c ∈ str_stdout) as Hin by (by eapply list_elem_of_lookup_2). unfold str_stdout in Hin. set_unfold in Hin. lia. Qed.

(** A literal is stored and the argument compared with it. *)
Lemma compare_literal n lit filename name s :
  locals_apart s -> 0 <= n < 0x1000 -> (length lit <= 32)%nat -> (forall i c, lit !! i = Some c -> 0 < c < 256) ->
  filename + Z.of_nat (length name) <= 2 ^ 32 -> bytes_at (view s) filename name -> covers name 32 ->
  exists s' r, literal n lit s = Ok (local_array n, s') /\ locals_only s s' /\
    vm (strncmp filename (local_array n) (Z.of_nat (length lit))) s' = Ok (r, s') /\
    (r =? 0) = starts_with lit name /\ bytes_at (view s') filename name.
Proof.
  intros Hap Hn Hl Hc Hf Hname Hcov.
  destruct (literal_run n lit s) as (s' & Hlit & Hlo & Hb); [intros i c Hi; pose proof (Hc i c Hi); lia|done|lia|].
  assert (bytes_at (view s') filename name) as Hname' by (by eapply locals_bytes).
  destruct (starts_with_run n lit filename name s' Hb Hname' Hcov Hl Hc) as (r & Hr & Heq).
  exists s', r. done.
Qed.

Lemma sys_open_run filename name j l size im s :
  running j l (set fdt (Some j) s) -> locals_apart s ->
  fs_rep (view s) (get fs_ptrs s) size im -> length (get RTC_read_flag s) = 3%nat ->
  0 < filename -> filename + Z.of_nat (length name) <= 2 ^ 32 ->
  bytes_at (view s) filename name -> covers name 32 ->
  exists s', sys_open filename s = Ok (fst (open_spec name (im_dir im) l), s') /\
    opened j (snd (open_spec name (im_dir im) l)) s s'.
Proof.
  intros Hr Hap Hrep Hclock Hf0 Hfl Hname Hcov. set (s0 := set fdt (Some j) s) in *.
  destruct (compare_literal 5 str_stdin filename name s0) as (s1 & r1 & Hl1 & Hlo1 & Hr1 & E1 & Hn1);
    [done|lia|simpl; lia|apply str_stdin_chars|done..|].
  destruct (compare_literal 6 str_stdout filename name s1) as (s2 & r2 & Hl2 & Hlo2 & Hr2 & E2 & Hn2);
    [by intros a c; rewrite (locals_pag _ _ Hlo1); apply Hap|lia|simpl; lia|apply str_stdout_chars|done..|].
  assert (forall s', locals_only s0 s' -> opened j l s s') as Hsame.
  { intros s' Hlo. rewrite <- (put_files_same j l s') by (by eapply running_locals).
    by apply (locals_opened j l); [|apply (ru_len _ _ _ Hr)|]. }
  unfold sys_open. rewrite (bind_ok _ _ _ _ _ (rd_run _ _)).
  change (get cur_pid s) with (get cur_pid s0). rewrite (ru_cur _ _ _ Hr).
  rewrite (bind_ok _ _ _ _ _ (pcb_slot_run _ _ s (ru_ptr _ _ _ Hr))).
  rewrite (bind_ok _ _ _ _ _ (wr_run _ _ _)). fold s0. destruct (Z.eqb_spec filename 0); [lia|].
  rewrite (bind_ok _ _ _ _ _ Hl1), (bind_ok _ _ _ _ _ Hr1), E1. unfold open_spec at 1 2.
  destruct (starts_with str_stdin name) eqn:Ein; [exists s1; split; [done|by apply Hsame]|].
  rewrite (bind_ok _ _ _ _ _ Hl2), (bind_ok _ _ _ _ _ Hr2), E2.
  assert (locals_only s0 s2) as Hlo by (by eapply locals_trans).
  destruct (starts_with str_stdout name) eqn:Eout; [exists s2; split; [done|by apply Hsame]|].
  assert (get RTC_read_flag s2 = get RTC_read_flag s) as Ef by (by destruct Hlo as [-> _]).
  destruct (open_named_run filename size name im j l s s2 Hr Hlo Hn2 Hcov) as (s3 & Hrun & Ho);
    [by apply (locals_fs s0)|by rewrite Ef|done|done|].
  unfold open_spec in Hrun, Ho. rewrite Ein, Eout in Hrun, Ho. exists s3. by split.
Qed.

(** ** Lemmas: closing *)

Lemma rd_own_run {B} j l i (f : lens file_descriptor_entry_t B) s :
  running j l s -> rd_own_fdt i f s =
    match at_ l i with Some e => Ok (get f e, s) | None => Fail OutOfBounds end.
Proof.
  intros [Hc Hp _ (p & Hq & <- & _) _ _]. unfold rd_own_fdt. rewrite (bind_ok _ _ _ _ _ (rd_run _ _)), Hc.
  rewrite (bind_ok _ _ _ _ _ (rd_pcb_run s j process_fdt p Hp Hq)). change (get process_fdt p) with (pcb_process_fdt p).
  by destruct (at_ (pcb_process_fdt p) i).
Qed.

Lemma wr_own_run {B} j l i (f : lens file_descriptor_entry_t B) v e s :
  running j l s -> at_ l i = Some e -> wr_own_fdt i f v s = Ok (tt, put_files j (upd l i (set f v e)) s).
Proof.
  intros [Hc Hp _ (p & Hq & <- & _) _ _] He. unfold wr_own_fdt. rewrite (bind_ok _ _ _ _ _ (rd_run _ _)), Hc.
  rewrite (bind_ok _ _ _ _ _ (rd_pcb_run s j process_fdt p Hp Hq)). change (get process_fdt p) with (pcb_process_fdt p).
  rewrite He. cbn [of_option]. erewrite bind_ok by reflexivity. unfold wr_pcb.
  rewrite (bind_ok _ _ _ _ _ (pcb_slot_run _ _ s Hp)). rewrite (wr_field_at _ _ _ _ _ _ Hq).
  unfold put_files. by rewrite Hq.
Qed.

(** An entry in use names one of the tables. *)
Definition entry_ok (e : file_descriptor_entry_t) : Prop := fd_flg e <> UNUSED_FLAG -> fd_fops e <> FOPS_NULL.

Lemma call_close_run p fd j l s : running j l s -> p <> FOPS_NULL -> call_close p fd s = Ok (0, s).
Proof.
  intros Hr Hp. unfold call_close.
  destruct p; [done| | | | |]; by erewrite bind_ok by (eapply deref_fops_run; [exact Hr|reflexivity|reflexivity]).
Qed.

Lemma sys_close_run fd j l e s :
  running j l s -> 2 <= fd < 8 -> at_ l fd = Some e -> entry_ok e ->
  sys_close fd s =
    if fd_flg e =? UNUSED_FLAG then Ok (ERROR_VAL, s)
    else Ok (0, put_files j (upd l fd (set flags UNUSED_FLAG e)) s).
Proof.
  intros Hr Hfd He Hok. unfold sys_close. rewrite (bind_ok _ _ _ _ _ (rd_run _ _)), (ru_cur _ _ _ Hr).
  rewrite (bind_ok _ _ _ _ _ (pcb_slot_run _ _ s (ru_ptr _ _ _ Hr))). unfold NOT_IN_OUT, MAX_NUM_FDT_ENTRIES.
  destruct (Z.ltb_spec fd 2); [lia|]. destruct (Z.ltb_spec 8 fd); [lia|]. cbn [orb].
  pose proof (rd_own_run j l fd flags s Hr) as H1. pose proof (rd_own_run j l fd fops_pointer s Hr) as H2.
  rewrite He in H1, H2. rewrite (bind_ok _ _ _ _ _ H1). change (get flags e) with (fd_flg e).
  destruct (Z.eqb_spec (fd_flg e) UNUSED_FLAG) as [E|E]; [done|].
  rewrite (bind_ok _ _ _ _ _ H2), (bind_ok _ _ _ _ _ (call_close_run _ fd j l s Hr (Hok E))).
  by rewrite (bind_ok _ _ _ _ _ (wr_own_run j l fd flags UNUSED_FLAG e s Hr He)).
Qed.

Lemma sys_close_outside fd j l s : running j l s -> fd < 2 \/ 8 < fd -> sys_close fd s = Ok (ERROR_VAL, s).
Proof.
  intros Hr Hfd. unfold sys_close. rewrite (bind_ok _ _ _ _ _ (rd_run _ _)), (ru_cur _ _ _ Hr).
  rewrite (bind_ok _ _ _ _ _ (pcb_slot_run _ _ s (ru_ptr _ _ _ Hr))). unfold NOT_IN_OUT, MAX_NUM_FDT_ENTRIES.
  destruct (Z.ltb_spec fd 2), (Z.ltb_spec 8 fd); try lia; done.
Qed.

Lemma sys_close_past_end j l s : running j l s -> sys_close 8 s = Fail OutOfBounds.
Proof.
  intros Hr. unfold sys_close. rewrite (bind_ok _ _ _ _ _ (rd_run _ _)), (ru_cur _ _ _ Hr).
  rewrite (bind_ok _ _ _ _ _ (pcb_slot_run _ _ s (ru_ptr _ _ _ Hr))). cbn [Z.ltb Z.compare NOT_IN_OUT MAX_NUM_FDT_ENTRIES orb].
  apply bind_fail. rewrite (rd_own_run j l 8 flags s Hr). by rewrite at_None by (rewrite (ru_len _ _ _ Hr); lia).
Qed.

(** ** Lemmas: reading through a descriptor *)

(** The name that a directory entry shows. *)
Definition entry_name (d : dentry_t) : list Z := take 32 (cstr (fileName d)).

Lemma at_nat {A} (l : list A) k : at_ l (Z.of_nat k) = l !! k.
Proof. unfold at_. destruct (Z.leb_spec 0 (Z.of_nat k)); [by rewrite Nat2Z.id|lia]. Qed.

Lemma entry_name_char d k :
  (k < length (entry_name d))%nat ->
  exists c, entry_name d !! k = Some c /\ at_ (dentry_bytes d) (Z.of_nat k) = Some c /\ c <> 0.
Proof.
  intros Hk. destruct (lookup_lt_is_Some_2 _ k Hk) as [c Hc]. exists c. split; [done|].
  unfold entry_name in Hc. apply lookup_take_Some in Hc as [Hc _]. split.
  - rewrite at_nat. unfold dentry_bytes. apply lookup_app_l_Some.
    rewrite cstr_lookup in Hc by (by eapply lookup_lt_Some). done.
  - intros ->. by apply (cstr_no_nul (fileName d)), list_elem_of_lookup; exists k.
Qed.

Lemma entry_name_end d :
  length (fileName d) = 32%nat ->
  exists c, at_ (dentry_bytes d) (Z.of_nat (length (entry_name d))) = Some c /\
    (length (entry_name d) = 32%nat \/ c = 0).
Proof.
  intros Hlen. pose proof (length_cstr (fileName d)) as Hle.
  unfold entry_name. rewrite length_take, at_nat. unfold dentry_bytes.
  destruct (decide (length (cstr (fileName d)) = 32)%nat) as [E|Hne].
  - rewrite E. eexists. split; [|left; lia]. rewrite lookup_app_r by lia. by rewrite Hlen.
  - exists 0. split; [|by right]. rewrite Nat.min_r by lia. apply lookup_app_l_Some, cstr_end. lia.
Qed.

Lemma strcpyFile_run {M} `{ByteMemLaws M} (m : M) dest d :
  length (fileName d) = 32%nat -> mapped m dest (Z.of_nat (length (entry_name d))) ->
  strcpyFile dest (fun i => of_option OutOfBounds (at_ (dentry_bytes d) i)) MAX_FILENAME_LENGTH m =
  Ok (Z.of_nat (length (entry_name d)), write_bytes m dest (entry_name d)).
Proof.
  intros Hlen Hmap. pose proof (entry_name_char d) as Hchar. destruct (entry_name_end d Hlen) as (ce & Hce & Hend).
  set (nm := entry_name d) in *.
  assert (length nm <= 32)%nat as Hnm by (unfold nm, entry_name; rewrite length_take; lia).
  assert (wp (strcpyFile dest (fun i => of_option OutOfBounds (at_ (dentry_bytes d) i)) MAX_FILENAME_LENGTH)
    (fun n m' => n = Z.of_nat (length nm) /\ m' = write_bytes m dest nm) m) as Hwp.
  { apply (wp_loop _ (fun i m' => exists k, i = Z.of_nat k /\ (k <= length nm)%nat /\
      m' = write_bytes m dest (take k nm)) (fun i _ => Z.of_nat (length nm) - i)).
    - intros _ m' (k & -> & Hk & ->). unfold strcpyFile_step, MAX_FILENAME_LENGTH.
      destruct (decide (k = length nm)) as [->|Hne].
      + rewrite Hce. apply wp_bind. eapply wp_run; [reflexivity|]. rewrite take_ge by lia.
        assert (negb (ce =? 0) && (Z.of_nat (length nm) <? 32) = false) as ->; [|by apply wp_ret].
        destruct Hend as [->| ->]; [by rewrite andb_false_r|done].
      + destruct (Hchar k ltac:(lia)) as (c & Hc & Hat & Hc0). rewrite Hat.
        apply wp_bind. eapply wp_run; [reflexivity|]. rewrite (proj2 (Z.eqb_neq _ _) Hc0).
        destruct (Z.ltb_spec (Z.of_nat k) 32); [|lia]. cbn [negb andb].
        assert (Z.of_nat k = Z.of_nat (length (take k nm))) as Ek by (rewrite length_take; lia).
        rewrite Ek at 1. apply wp_bind. eapply wp_run.
        { apply write_bytes_snoc. rewrite <- Ek. apply (mapped_sub _ _ (Z.of_nat (length nm))); [done|lia|lia]. }
        apply wp_ret. split; [|lia]. exists (S k). split_and!; [lia|lia|]. by rewrite (take_S_r _ _ _ Hc).
    - exists 0%nat. split_and!; [done|lia|done].
    - lia. }
  apply wp_inv in Hwp as (n & m' & Hrun & -> & ->). exact Hrun.
Qed.

(** The guards of [sys_read]. *)
Lemma sys_read_enter fd buf nbytes j l e s :
  running j l s -> at_ l fd = Some e -> fd <> 1 -> fd_flg e <> UNUSED_FLAG -> buf <> 0 -> 0 <= nbytes ->
  sys_read fd buf nbytes s = call_read (fd_fops e) fd buf nbytes s.
Proof.
  intros Hr He Hfd Hflag Hb Hn. pose proof (at_inv _ _ _ He) as Hi. rewrite (ru_len _ _ _ Hr) in Hi.
  unfold sys_read, STDIN_FLAG, MAX_NUM_FDT_ENTRIES. rewrite (proj2 (Z.eqb_neq _ _) Hfd).
  destruct (Z.ltb_spec 8 fd); [lia|]. destruct (Z.ltb_spec fd 0); [lia|].
  rewrite (proj2 (Z.eqb_neq _ _) Hb). destruct (Z.ltb_spec nbytes 0); [lia|]. cbn [orb].
  rewrite (bind_ok _ _ _ _ _ (rd_fdt_run j l fd flags e s Hr He)). change (get flags e) with (fd_flg e).
  rewrite (proj2 (Z.eqb_neq _ _) Hflag). by rewrite (bind_ok _ _ _ _ _ (rd_fdt_run j l fd fops_pointer e s Hr He)).
Qed.

(** The descriptor of a regular file at a position of it. *)
Definition file_entry (ino pos : Z) : file_descriptor_entry_t := FdEntry REGFILE_FOPS ino pos REGFILE_FLAG.

Definition directory_entry (pos : Z) : file_descriptor_entry_t := FdEntry DIRECTORY_FOPS 0 pos DIRECTORY_FLAG.

(** A user buffer that can be filled without touching the file system. *)
Record user_buffer (buf n size : Z) (s : machine) : Prop := {
  ub_pos : 0 < buf;
  ub_map : mapped (view s) buf n;
  ub_inj : injective (view s) buf n;
  ub_sep : separate (view s) buf n (bootMemAddr (get fs_ptrs s)) size
}.

Lemma separate_le {M} `{ByteMem M} (m : M) a n n' b k : separate m a n b k -> n' <= n -> separate m a n' b k.
Proof. intros Hs Hle i i' c Hi Hi'. apply Hs; lia. Qed.

Lemma length_slice_le c pos n : 0 <= n -> Z.of_nat (length (file_slice c pos n)) <= n.
Proof. intros Hn. unfold file_slice. rewrite length_take. lia. Qed.

Lemma file_length {M} `{ByteMem M} (m : M) g size im ino c :
  fs_rep m g size im -> at_ (im_files im) ino = Some c -> Z.of_nat (length c) <= 4190208.
Proof.
  intros Hrep Hat. unfold at_ in Hat. destruct (0 <=? ino); [|done].
  destruct (fr_file _ _ _ _ Hrep _ _ Hat) as (b & _ & Hlen & _). exact Hlen.
Qed.

Lemma write_out_running j l buf out s : running j l s -> running j l (write_out buf out s).
Proof. by intros []. Qed.

Lemma fileRead_run fd buf nbytes j l ino pos c size im s :
  running j l s -> at_ l fd = Some (file_entry ino pos) -> fd <> 1 ->
  fs_rep (view s) (get fs_ptrs s) size im -> at_ (im_files im) ino = Some c ->
  0 <= pos <= Z.of_nat (length c) -> 0 <= nbytes < 2 ^ 31 -> user_buffer buf nbytes size s ->
  let out := file_slice c pos nbytes in
  sys_read fd buf nbytes s =
    Ok (Z.of_nat (length out),
        put_files j (upd l fd (file_entry ino (pos + Z.of_nat (length out)))) (write_out buf out s)).
Proof.
  intros Hr He Hfd Hrep Hat Hpos Hn [Hb Hmap Hinj Hsep] out.
  pose proof (length_slice_le c pos nbytes ltac:(lia)) as Hle. fold out in Hle.
  pose proof (file_length _ _ _ _ _ _ Hrep Hat) as Hmax.
  pose proof (at_inv _ _ _ He) as Hi. rewrite (ru_len _ _ _ Hr) in Hi.
  assert (Z.of_nat (length out) <= Z.of_nat (length c) - pos) as Hle'
    by (unfold out; rewrite length_file_slice by lia; lia).
  rewrite (sys_read_enter fd buf nbytes j l _ s Hr He Hfd) by (done || lia).
  unfold call_read. rewrite (bind_ok _ _ _ regfile_fops s) by (by eapply deref_fops_run).
  unfold fileRead, MAX_NUM_FDT_ENTRIES. cbn [regfile_fops ft_read].
  destruct (Z.ltb_spec fd 0); [lia|]. destruct (Z.ltb_spec 8 fd); [lia|]. cbn [orb].
  rewrite (bind_ok _ _ _ _ _ (rd_run _ _)), (bind_ok _ _ _ _ _ (rd_fdt_run j l fd fd_inodeNum _ s Hr He)).
  rewrite (bind_ok _ _ _ _ _ (rd_fdt_run j l fd file_position _ s Hr He)).
  change (get fd_inodeNum (file_entry ino pos)) with ino. change (get file_position (file_entry ino pos)) with pos.
  rewrite !u32_small by lia.
  assert (vm (read_data (get fs_ptrs s) ino pos buf nbytes) s = Ok (Z.of_nat (length out), write_out buf out s)) as Hread.
  { apply vm_run. apply (read_data_run _ _ _ _ Hrep ino c pos buf nbytes); try done; try lia.
    - intros i Hii. apply Hmap. fold out in Hii. lia.
    - by eapply separate_le. }
  rewrite (bind_ok _ _ _ _ _ Hread). unfold ERROR_VAL. rewrite (proj2 (Z.eqb_neq _ _)) by lia.
  pose proof (write_out_running j l buf out s Hr) as Hr1.
  rewrite (bind_ok _ _ _ _ _ (rd_fdt_run j l fd file_position _ _ Hr1 He)).
  change (get file_position (file_entry ino pos)) with pos.
  rewrite (bind_ok _ _ _ _ _ (wr_fdt_run j l fd file_position _ _ _ Hr1 He)).
  by rewrite s32_small by lia.
Qed.

(** The entries of the directory, one per call, then 0 and again from the start. *)
Definition directory_step (dir : list dentry_t) (pos : Z) : list Z * Z :=
  match at_ dir pos with Some d => (entry_name d, pos + 1) | None => ([], 0) end.

Lemma directoryRead_run fd buf nbytes j l pos size im s :
  running j l s -> at_ l fd = Some (directory_entry pos) -> fd <> 1 ->
  fs_rep (view s) (get fs_ptrs s) size im -> 0 <= pos <= Z.of_nat (length (im_dir im)) ->
  0 <= nbytes -> user_buffer buf 32 size s ->
  let r := directory_step (im_dir im) pos in
  sys_read fd buf nbytes s =
    Ok (Z.of_nat (length (fst r)), put_files j (upd l fd (directory_entry (snd r))) (write_out buf (fst r) s)).
Proof.
  intros Hr He Hfd Hrep Hpos Hn [Hb Hmap Hinj Hsep] r.
  pose proof (fr_ndir_max _ _ _ _ Hrep) as Hmax. unfold MAX_NUM_DIRECTORY_ENTRIES in Hmax.
  pose proof (at_inv _ _ _ He) as Hi. rewrite (ru_len _ _ _ Hr) in Hi.
  rewrite (sys_read_enter fd buf nbytes j l _ s Hr He Hfd) by (done || lia).
  unfold call_read. rewrite (bind_ok _ _ _ directory_fops s) by (by eapply deref_fops_run).
  unfold directoryRead, MAX_NUM_FDT_ENTRIES. cbn [directory_fops ft_read].
  destruct (Z.ltb_spec fd 0); [lia|]. destruct (Z.ltb_spec 8 fd); [lia|]. cbn [orb].
  rewrite (bind_ok _ _ _ _ _ (rd_run _ _)), (bind_ok _ _ _ _ _ (rd_fdt_run j l fd file_position _ s Hr He)).
  change (get file_position (directory_entry pos)) with pos. rewrite u32_small by lia.
  rewrite (bind_ok _ _ _ _ _ (vm_pure _ _ _ (numDirectories_run _ _ _ _ Hrep))).
  destruct (Z.eqb_spec pos (Z.of_nat (length (im_dir im)))) as [E|E].
  - unfold r, directory_step. rewrite at_None by lia. cbn [fst snd length].
    rewrite (bind_ok _ _ _ _ _ (wr_fdt_run j l fd file_position 0 _ s Hr He)).
    do 2 f_equal. by destruct s.
  - rewrite (bind_ok _ _ _ _ _ (vm_pure _ _ _ (read_dentry_by_index_run _ _ _ _ Hrep pos ltac:(lia)))).
    unfold r, directory_step. destruct (at_Some (im_dir im) pos) as [d Hd]; [lia|]. rewrite Hd. cbn [fst snd].
    assert (length (entry_name d) <= 32)%nat as Hnm by (unfold entry_name; rewrite length_take; lia).
    assert (length (fileName d) = 32%nat) as Hname.
    { unfold at_ in Hd. destruct (0 <=? pos); [|done]. apply (da_length _ _ _ (fr_dir _ _ _ _ Hrep _ _ Hd)). }
    rewrite (bind_ok _ _ _ (Z.of_nat (length (entry_name d))) (write_out buf (entry_name d) s)).
    + pose proof (write_out_running j l buf (entry_name d) s Hr) as Hr1.
      rewrite (bind_ok _ _ _ _ _ (rd_fdt_run j l fd file_position _ _ Hr1 He)).
      change (get file_position (directory_entry pos)) with pos. rewrite s32_small by lia.
      by rewrite (bind_ok _ _ _ _ _ (wr_fdt_run j l fd file_position _ _ _ Hr1 He)).
    + apply vm_run, strcpyFile_run; [done|]. intros i Hii. apply Hmap. lia.
Qed.

(** ** Properties *)

(** C25: [sys_open] gives the lowest free descriptor from 2 on to the first
    directory entry with the name, sets its table, inode, position and flag by the
    file type, and leaves every other descriptor as it was; a full table, an
    unknown name or an unknown type is refused with -1; a name that starts with
    stdin or stdout gives 0 or 1.  Only kernel locals and, for the clock, its rate
    change besides the table. *)
Theorem sys_open_refines_spec filename name j l size im s :
  running j l (set fdt (Some j) s) -> locals_apart s ->
  fs_rep (view s) (get fs_ptrs s) size im -> length (get RTC_read_flag s) = 3%nat ->
  0 < filename -> filename + Z.of_nat (length name) <= 2 ^ 32 ->
  bytes_at (view s) filename name -> covers name 32 ->
  exists s', sys_open filename s = Ok (fst (open_spec name (im_dir im) l), s') /\
    opened j (snd (open_spec name (im_dir im) l)) s s' /\
    (forall fd, fst (open_spec name (im_dir im) l) = fd -> 2 <= fd ->
       (exists e, at_ l fd = Some e /\ fd_flg e = UNUSED_FLAG) /\
       (forall k e, 2 <= k < fd -> at_ l k = Some e -> fd_flg e <> UNUSED_FLAG)).
Proof.
  intros Hr Hap Hrep Hclock Hf0 Hfl Hname Hcov.
  destruct (sys_open_run filename name j l size im s) as (s' & Hrun & Ho); try done.
  exists s'. split_and!; [done|done|]. intros fd Hfd H2. unfold open_spec in Hfd.
  destruct (starts_with str_stdin name); [simpl in Hfd; lia|].
  destruct (starts_with str_stdout name); [simpl in Hfd; lia|].
  destruct (free_fd l) as [k|] eqn:Hk; [|simpl in Hfd; unfold ERROR_VAL in *; lia].
  destruct (dir_find name (im_dir im)) as [d|]; [|simpl in Hfd; unfold ERROR_VAL in *; lia].
  destruct (open_entry d); simpl in Hfd; [subst k|unfold ERROR_VAL in *; lia].
  by destruct (lowest_free_spec 6 2 l fd ltac:(lia) Hk) as (_ & ? & ?).
Qed.

(** A concrete state: process 0 with its standard descriptors and the file system
    of the concrete image. *)
Definition files_state (l : list file_descriptor_entry_t) : machine :=
  put_files 0 l (set fs_ptrs hi_globals (set fops_tables std_fops (one_process hi_memory))).

Lemma files_state_running l : length l = 8%nat -> running 0 l (files_state l).
Proof.
  intros Hl. apply (put_files_running 0 (replicate 8 zero_fd)); [|done]. split; try done.
  exists zero_pcb. split_and!; [done|done|simpl; lia|unfold NUM_TERMINALS; simpl; lia].
Qed.

Lemma files_state_pag l : get pag (files_state l) = get pag (one_process hi_memory).
Proof. unfold files_state, put_files. by destruct (at_ _ 0). Qed.

Lemma files_state_translate l a : 0 <= a < 2 ^ 32 -> translate (get pag (files_state l)) a = Some a.
Proof.
  intros Ha. rewrite files_state_pag. unfold translate. destruct (Z.leb_spec (2 ^ 32) a); [lia|].
  change (Some (u32 a) = Some a). by rewrite u32_small.
Qed.

Lemma files_state_load l a : 0 <= a < 2 ^ 32 -> load (view (files_state l)) a = load hi_memory a.
Proof.
  intros Ha. unfold load. change (cell (view (files_state l)) a) with (translate (get pag (files_state l)) a).
  rewrite files_state_translate by done. unfold files_state, put_files. by destruct (at_ _ 0).
Qed.

Lemma files_state_apart l : locals_apart (files_state l).
Proof.
  intros a c Ha. rewrite files_state_pag. unfold translate. destruct (Z.leb_spec (2 ^ 32) a); [lia|].
  intros [= <-]. apply u32_range.
Qed.

Lemma files_state_rep l : fs_rep (view (files_state l)) (get fs_ptrs (files_state l)) 0x3000 hi_image.
Proof.
  assert (get fs_ptrs (files_state l) = hi_globals) as -> by (unfold files_state, put_files; by destruct (at_ _ 0)).
  apply (fs_rep_transfer hi_memory); [|apply hi_rep]. intros a Ha. apply files_state_load. simpl in Ha. lia.
Qed.

Lemma files_state_buffer l n : 0 <= n <= 0x1000 -> user_buffer 0x20000 n 0x3000 (files_state l).
Proof.
  intros Hn. assert (get fs_ptrs (files_state l) = hi_globals) as E by (unfold files_state, put_files; by destruct (at_ _ 0)).
  assert (forall a, 0 <= a < 2 ^ 32 -> cell (view (files_state l)) a = Some a) as Hc by apply files_state_translate.
  split; rewrite ?E; simpl.
  - lia.
  - intros i Hi. eexists. apply Hc. lia.
  - intros i i' c Hi Hi'. rewrite !Hc by lia. intros. simplify_eq. lia.
  - intros i i' c Hi Hi'. rewrite !Hc by lia. intros [= <-] [= ?]. lia.
Qed.

Lemma sys_open_refines_spec_witness :
  exists s', sys_open 0x10040 (files_state initial_files) = Ok (2, s') /\
    running 0 (upd initial_files 2 (file_entry 0 0)) s'.
Proof.
  destruct (sys_open_refines_spec 0x10040 (fileName hi_dentry) 0 initial_files 0x3000 hi_image (files_state initial_files))
    as (s' & Hrun & Ho & _).
  - by destruct (files_state_running initial_files eq_refl).
  - apply files_state_apart.
  - apply files_state_rep.
  - unfold files_state, put_files. by destruct (at_ _ 0).
  - lia.
  - simpl. lia.
  - intros i v Hi. pose proof (lookup_lt_Some _ _ _ Hi) as Hlt. simpl in Hlt.
    rewrite files_state_load by lia. revert i v Hi Hlt. intros i v Hi _. revert i v Hi.
    apply (flat_bytes hi_memory). vm_compute. reflexivity.
  - right. simpl. lia.
  - exists s'. exact (conj Hrun (op_running _ _ _ _ Ho)).
Defined.

(** C37: [sys_close] gives back an open descriptor from 2 to 7: it returns 0, the
    entry's flag is free and nothing else changes; a free descriptor, 0 and 1,
    and every number below 0 or above 8 are refused with -1 and change nothing.
    The guard lets 8 pass, which is outside the table. *)
Theorem sys_close_frees_entry fd j l s :
  running j l s -> Forall entry_ok l ->
  (forall e, 2 <= fd < 8 -> at_ l fd = Some e -> fd_flg e <> UNUSED_FLAG ->
     sys_close fd s = Ok (0, put_files j (upd l fd (set flags UNUSED_FLAG e)) s)) /\
  (forall e, 2 <= fd < 8 -> at_ l fd = Some e -> fd_flg e = UNUSED_FLAG -> sys_close fd s = Ok (ERROR_VAL, s)) /\
  (fd < 2 \/ 8 < fd -> sys_close fd s = Ok (ERROR_VAL, s)) /\
  (fd = 8 -> sys_close fd s = Fail OutOfBounds).
Proof.
  intros Hr Hok. assert (forall e, at_ l fd = Some e -> entry_ok e) as Hoke.
  { intros e He. unfold at_ in He. destruct (0 <=? fd); [|done]. by eapply (proj1 (Forall_lookup _ _) Hok). }
  split_and!.
  - intros e Hfd He Hf. rewrite (sys_close_run fd j l e) by eauto. by rewrite (proj2 (Z.eqb_neq _ _) Hf).
  - intros e Hfd He Hf. rewrite (sys_close_run fd j l e) by eauto. by rewrite Hf.
  - by apply (sys_close_outside fd j l).
  - intros ->. by apply (sys_close_past_end j l).
Qed.

Lemma sys_close_frees_entry_witness :
  let l := upd initial_files 3 (file_entry 0 1) in
  sys_close 3 (files_state l) = Ok (0, put_files 0 (upd l 3 (FdEntry REGFILE_FOPS 0 1 UNUSED_FLAG)) (files_state l)) /\
  sys_close 8 (files_state l) = Fail OutOfBounds.
Proof.
  intros l. pose proof (files_state_running l eq_refl) as Hr.
  assert (Forall entry_ok l) as Hok by (repeat constructor; unfold entry_ok; simpl; congruence).
  split.
  - apply (proj1 (sys_close_frees_entry 3 0 l (files_state l) Hr Hok) (file_entry 0 1)); [lia|reflexivity|discriminate].
  - apply (proj2 (proj2 (proj2 (sys_close_frees_entry 8 0 l (files_state l) Hr Hok)))). reflexivity.
Defined.

(** A program that reads a file piece by piece into one buffer, and what it sees. *)
Fixpoint read_pieces (fd buf : Z) (ns : list Z) : K (list (list Z)) :=
  match ns with
  | [] => mret []
  | n :: ns' =>
      r ← sys_read fd buf n;
      piece ← gets (fun s => read_bytes (view s) buf (Z.to_nat r));
      rest ← read_pieces fd buf ns';
      mret (piece :: rest)
  end.

Lemma put_files_view j l s : view (put_files j l s) = view s.
Proof. unfold put_files. by destruct (at_ (get pcbs s) j). Qed.

Lemma put_files_fs j l s : get fs_ptrs (put_files j l s) = get fs_ptrs s.
Proof. unfold put_files. by destruct (at_ (get pcbs s) j). Qed.

(** The file system and the buffer after a read. *)
Lemma buffer_written buf n size im out s :
  user_buffer buf n size s -> fs_rep (view s) (get fs_ptrs s) size im -> Z.of_nat (length out) <= n ->
  user_buffer buf n size (write_out buf out s) /\
  fs_rep (view (write_out buf out s)) (get fs_ptrs s) size im.
Proof.
  intros [Hb Hmap Hinj Hsep] Hrep Hle.
  assert (forall a, cell (view (write_out buf out s)) a = cell (view s) a) as Hcell
    by (intros a; by rewrite write_out_view, cell_write_bytes).
  split.
  - split; [done|intros i Hi; rewrite Hcell; by apply Hmap| |].
    + intros i i' c Hi Hi'. rewrite !Hcell. by apply Hinj.
    + intros i i' c Hi Hi'. rewrite !Hcell. by apply Hsep.
  - rewrite write_out_view. eapply fs_rep_frame; [exact Hrep|apply write_bytes_frame|by eapply separate_le].
Qed.

Lemma write_out_read buf n out s :
  mapped (view s) buf n -> injective (view s) buf n -> Z.of_nat (length out) <= n ->
  (forall v, v ∈ out -> 0 <= v < 256) -> read_bytes (view (write_out buf out s)) buf (length out) = out.
Proof.
  intros Hmap Hinj Hle Hr. apply read_bytes_eq. rewrite write_out_view. apply bytes_at_write.
  - intros i Hi. apply Hmap. lia.
  - intros i i' c Hi Hi'. apply Hinj; lia.
  - intros i v Hi. apply Hr. by eapply list_elem_of_lookup_2.
Qed.

Lemma file_slice_app c pos n m :
  0 <= pos -> 0 <= n -> 0 <= m ->
  file_slice c pos n ++ file_slice c (pos + Z.of_nat (length (file_slice c pos n))) m = file_slice c pos (n + m).
Proof.
  intros Hp Hn Hm. unfold file_slice. rewrite length_take, length_drop.
  replace (Z.to_nat (n + m)) with (Z.to_nat n + Z.to_nat m)%nat by lia.
  rewrite <- (take_take_drop (drop (Z.to_nat pos) c) (Z.to_nat n) (Z.to_nat m)). f_equal. rewrite drop_drop.
  destruct (decide (Z.to_nat n <= length c - Z.to_nat pos)%nat).
  - do 2 f_equal. lia.
  - rewrite !drop_ge by lia. done.
Qed.

Lemma read_pieces_run fd buf ns n size im ino c j l :
  fd <> 1 -> 0 <= n < 2 ^ 31 -> (forall v, v ∈ c -> 0 <= v < 256) -> at_ (im_files im) ino = Some c ->
  Forall (fun k => 0 <= k <= n) ns -> forall pos s,
  0 <= fd < 8 -> running j l s -> at_ l fd = Some (file_entry ino pos) -> 0 <= pos <= Z.of_nat (length c) ->
  fs_rep (view s) (get fs_ptrs s) size im -> user_buffer buf n size s ->
  exists pieces s', read_pieces fd buf ns s = Ok (pieces, s') /\ concat pieces = file_slice c pos (foldr Z.add 0 ns) /\
    exists pos', running j (upd l fd (file_entry ino pos')) s'.
Proof.
  intros Hfd Hn Hc Hat Hns. revert l. induction Hns as [|k ns Hk Hns IH]; intros l pos s Hi Hr He Hpos Hrep Hbuf.
  { exists [], s. split_and!; [done|by unfold file_slice; rewrite take_0|]. exists pos. by rewrite (upd_same _ _ _ He). }
  cbn [read_pieces foldr].
  assert (user_buffer buf k size s) as Hbuf'.
  { destruct Hbuf as [? Hm Hin Hs]. split; [done| | |by eapply separate_le; [|apply Hk]].
    - intros i Hii. apply Hm. lia.
    - intros i i' x Hii Hii'. apply Hin; lia. }
  pose proof (fileRead_run fd buf k j l ino pos c size im s Hr He Hfd Hrep Hat Hpos ltac:(lia) Hbuf') as Hrd.
  cbv zeta in Hrd. set (out := file_slice c pos k) in *.
  set (s1 := put_files j _ (write_out buf out s)) in Hrd.
  pose proof (length_slice_le c pos k ltac:(lia)) as Hle. fold out in Hle.
  assert (Z.of_nat (length out) <= Z.of_nat (length c) - pos) as Hle'
    by (unfold out; rewrite length_file_slice by lia; lia).
  destruct (buffer_written buf n size im out s Hbuf Hrep ltac:(lia)) as [Hbuf1 Hrep1].
  assert (forall v, v ∈ out -> 0 <= v < 256) as Hout.
  { intros v [i Hv]%list_elem_of_lookup. unfold out, file_slice in Hv. apply lookup_take_Some in Hv as [Hv _].
    rewrite lookup_drop in Hv. by eapply Hc, list_elem_of_lookup_2. }
  assert (0 <= pos + Z.of_nat (length out) <= Z.of_nat (length c)) as Hpos1 by lia.
  destruct (IH (upd l fd (file_entry ino (pos + Z.of_nat (length out)))) (pos + Z.of_nat (length out)) s1)
    as (pieces & s2 & Hrun & Hcat & pos' & Hr2); try done.
  - unfold s1. by apply put_entry_running, write_out_running.
  - apply at_upd_eq. rewrite (ru_len _ _ _ Hr). lia.
  - unfold s1. rewrite put_files_view, put_files_fs. exact Hrep1.
  - unfold s1. destruct Hbuf1 as [? Hm1 Hin1 Hs1]. by split; rewrite ?put_files_view, ?put_files_fs.
  - exists (out :: pieces), s2. split_and!.
    + rewrite (bind_ok _ _ _ _ _ Hrd). rewrite (bind_ok _ _ _ out s1).
      * by rewrite (bind_ok _ _ _ _ _ Hrun).
      * unfold gets, s1. rewrite put_files_view, Nat2Z.id. destruct Hbuf' as [_ Hm1 Hin1 _].
        by rewrite (write_out_read buf k).
    + cbn [concat]. rewrite Hcat. apply file_slice_app; [lia|lia|].
      clear -Hns. induction Hns; simpl; lia.
    + exists pos'. by rewrite upd_upd in Hr2.
Qed.

(** C26: reading a regular file through its descriptor piece by piece returns its
    contents in order, whatever the sizes asked for: the pieces put together are
    the bytes from the descriptor's position on, as many as were asked for in all
    or up to the end of the file. *)
Theorem sys_read_pieces_reassemble fd buf ns n size im ino c j l pos s :
  running j l s -> 0 <= fd < 8 -> fd <> 1 -> at_ l fd = Some (file_entry ino pos) ->
  fs_rep (view s) (get fs_ptrs s) size im -> at_ (im_files im) ino = Some c -> (forall v, v ∈ c -> 0 <= v < 256) ->
  0 <= pos <= Z.of_nat (length c) -> user_buffer buf n size s -> 0 <= n < 2 ^ 31 ->
  Forall (fun k => 0 <= k <= n) ns ->
  exists pieces s', read_pieces fd buf ns s = Ok (pieces, s') /\
    concat pieces = file_slice c pos (foldr Z.add 0 ns) /\
    exists pos', running j (upd l fd (file_entry ino pos')) s'.
Proof. intros. by eapply read_pieces_run. Qed.

Lemma sys_read_pieces_reassemble_witness :
  exists pieces s', read_pieces 2 0x20000 [1; 5; 1] (files_state (upd initial_files 2 (file_entry 0 0))) = Ok (pieces, s') /\
    concat pieces = [72; 105].
Proof.
  destruct (sys_read_pieces_reassemble 2 0x20000 [1; 5; 1] 5 0x3000 hi_image 0 [72; 105] 0
    (upd initial_files 2 (file_entry 0 0)) 0 (files_state (upd initial_files 2 (file_entry 0 0))))
    as (pieces & s' & Hrun & Hcat & _).
  - by apply files_state_running.
  - lia.
  - lia.
  - reflexivity.
  - apply files_state_rep.
  - reflexivity.
  - set_unfold. lia.
  - simpl. lia.
  - apply files_state_buffer. lia.
  - lia.
  - repeat constructor; lia.
  - exists pieces, s'. exact (conj Hrun Hcat).
Defined.

(** A program that reads the directory until it gets an empty name. *)
Fixpoint read_names (fuel : nat) (fd buf : Z) : K (list (list Z)) :=
  match fuel with
  | O => fail Diverges
  | S fuel' =>
      r ← sys_read fd buf 32;
      if r =? 0 then mret []
      else
        name ← gets (fun s => read_bytes (view s) buf (Z.to_nat r));
        rest ← read_names fuel' fd buf;
        mret (name :: rest)
  end.

Lemma entry_name_range {M} `{ByteMemLaws M} (m : M) g size im d v :
  fs_rep m g size im -> d ∈ im_dir im -> v ∈ entry_name d -> 0 <= v < 256.
Proof.
  intros Hrep [i Hd]%list_elem_of_lookup [k Hv]%list_elem_of_lookup.
  unfold entry_name in Hv. apply lookup_take_Some in Hv as [Hv _].
  rewrite cstr_lookup in Hv by (by eapply lookup_lt_Some).
  eapply load_range, (da_name _ _ _ (fr_dir _ _ _ _ Hrep i d Hd)). exact Hv.
Qed.

Lemma read_names_run fd buf size im j :
  fd <> 1 -> (forall d, d ∈ im_dir im -> entry_name d <> []) -> forall k l s,
  0 <= fd < 8 -> running j l s -> at_ l fd = Some (directory_entry (Z.of_nat k)) -> (k <= length (im_dir im))%nat ->
  fs_rep (view s) (get fs_ptrs s) size im -> user_buffer buf 32 size s ->
  exists s', read_names (S (length (im_dir im) - k)) fd buf s = Ok (entry_name <$> drop k (im_dir im), s') /\
    running j (upd l fd (directory_entry 0)) s'.
Proof.
  intros Hfd Hne k. remember (length (im_dir im) - k)%nat as m eqn:Em. revert k Em.
  induction m as [|m IH]; intros k Em l s Hi Hr He Hk Hrep Hbuf;
    pose proof (directoryRead_run fd buf 32 j l (Z.of_nat k) size im s Hr He Hfd Hrep ltac:(lia) ltac:(lia) Hbuf) as Hrd;
    unfold directory_step in Hrd; rewrite at_nat in Hrd.
  - rewrite lookup_ge_None_2, drop_ge in * by lia. cbn [fst snd length fmap list_fmap] in *. eexists. split.
    + cbn [read_names]. rewrite (bind_ok _ _ _ _ _ Hrd). reflexivity.
    + by apply put_entry_running, write_out_running.
  - destruct (lookup_lt_is_Some_2 (im_dir im) k ltac:(lia)) as [d Hd]. rewrite Hd in Hrd. cbn [fst snd] in Hrd.
    assert (d ∈ im_dir im) as Hin by (by eapply list_elem_of_lookup_2).
    assert (length (entry_name d) <= 32)%nat as Hlen by (unfold entry_name; rewrite length_take; lia).
    set (s1 := put_files j _ (write_out buf (entry_name d) s)) in Hrd.
    destruct (buffer_written buf 32 size im (entry_name d) s Hbuf Hrep ltac:(lia)) as [Hbuf1 Hrep1].
    destruct (IH (S k) ltac:(lia) (upd l fd (directory_entry (Z.of_nat k + 1))) s1) as (s2 & Hrun & Hr2); try done.
    + unfold s1. by apply put_entry_running, write_out_running.
    + replace (Z.of_nat (S k)) with (Z.of_nat k + 1) by lia. apply at_upd_eq. rewrite (ru_len _ _ _ Hr). lia.
    + lia.
    + unfold s1. rewrite put_files_view, put_files_fs. exact Hrep1.
    + unfold s1. destruct Hbuf1 as [? Hm1 Hin1 Hs1]. by split; rewrite ?put_files_view, ?put_files_fs.
    + exists s2. rewrite upd_upd in Hr2. split; [|done]. cbn [read_names].
      rewrite (bind_ok _ _ _ _ _ Hrd). destruct (Z.eqb_spec (Z.of_nat (length (entry_name d))) 0) as [E|_].
      { exfalso. apply (Hne d Hin), nil_length_inv. lia. }
      rewrite (bind_ok _ _ _ (entry_name d) s1).
      * rewrite (bind_ok _ _ _ _ _ Hrun). by rewrite (drop_S _ _ _ Hd).
      * unfold gets, s1. rewrite put_files_view, Nat2Z.id. destruct Hbuf as [_ Hm1 Hin1 _].
        rewrite (write_out_read buf 32); [done|done|done|lia|]. intros v. by eapply entry_name_range.
Qed.

(** Reading the directory through a descriptor lists the names of its entries,
    each once and in order, one per call; the call after the last returns 0 and
    the descriptor starts again. *)
Theorem directory_reads_list_names fd buf size im j l s :
  running j l s -> 0 <= fd < 8 -> fd <> 1 -> at_ l fd = Some (directory_entry 0) ->
  fs_rep (view s) (get fs_ptrs s) size im -> (forall d, d ∈ im_dir im -> entry_name d <> []) ->
  user_buffer buf 32 size s ->
  exists s', read_names (S (length (im_dir im))) fd buf s = Ok (entry_name <$> im_dir im, s') /\
    running j (upd l fd (directory_entry 0)) s'.
Proof.
  intros Hr Hi Hfd He Hrep Hne Hbuf.
  destruct (read_names_run fd buf size im j Hfd Hne 0 l s Hi Hr He ltac:(lia) Hrep Hbuf) as (s' & Hrun & Hr').
  exists s'. by rewrite Nat.sub_0_r in Hrun.
Qed.

Lemma directory_reads_list_names_witness :
  exists s', read_names 2 2 0x20000 (files_state (upd initial_files 2 (directory_entry 0))) = Ok ([[104; 105]], s').
Proof.
  destruct (directory_reads_list_names 2 0x20000 0x3000 hi_image 0 (upd initial_files 2 (directory_entry 0))
    (files_state (upd initial_files 2 (directory_entry 0)))) as (s' & Hrun & _).
  - by apply files_state_running.
  - lia.
  - lia.
  - reflexivity.
  - apply files_state_rep.
  - intros d Hd. apply list_elem_of_singleton in Hd as ->. discriminate.
  - apply files_state_buffer. lia.
  - exists s'. exact Hrun.
Defined.

(** C38: [sys_read] refuses descriptor 1 and [sys_write] descriptor 0, both refuse
    numbers outside the table, a null buffer, a negative count and a free entry,
    with -1 and without any change; but both let 8 pass their guard, one past the
    end of the table. *)
Theorem descriptor_guards fd buf nbytes j l s :
  running j l s ->
  (fd = 1 \/ fd < 0 \/ 8 < fd \/ buf = 0 \/ nbytes < 0 -> sys_read fd buf nbytes s = Ok (ERROR_VAL, s)) /\
  (fd <= 0 \/ 8 < fd \/ buf = 0 \/ nbytes < 0 -> sys_write fd buf nbytes s = Ok (ERROR_VAL, s)) /\
  (forall e, at_ l fd = Some e -> fd_flg e = UNUSED_FLAG ->
     sys_read fd buf nbytes s = Ok (ERROR_VAL, s) /\ sys_write fd buf nbytes s = Ok (ERROR_VAL, s)) /\
  (fd = 8 -> buf <> 0 -> 0 <= nbytes ->
     sys_read fd buf nbytes s = Fail OutOfBounds /\ sys_write fd buf nbytes s = Fail OutOfBounds).
Proof.
  intros Hr. unfold sys_read, sys_write, STDIN_FLAG, MAX_NUM_FDT_ENTRIES. split_and!.
  - intros H. destruct (Z.eqb_spec fd 1), (Z.ltb_spec 8 fd), (Z.ltb_spec fd 0), (Z.eqb_spec buf 0), (Z.ltb_spec nbytes 0);
      try done; lia.
  - intros H. destruct (Z.leb_spec fd 0), (Z.ltb_spec 8 fd), (Z.eqb_spec buf 0), (Z.ltb_spec nbytes 0); try done; lia.
  - intros e He Hf. pose proof (rd_fdt_run j l fd flags e s Hr He) as Hrd. change (get flags e) with (fd_flg e) in Hrd.
    rewrite Hf in Hrd. split; (destruct (_ || _); [done|]); (destruct (_ || _); [done|]);
      by rewrite (bind_ok _ _ _ _ _ Hrd).
  - intros -> Hb Hn. rewrite (proj2 (Z.eqb_neq _ _) Hb). destruct (Z.ltb_spec nbytes 0); [lia|]. cbn [orb Z.eqb Z.ltb Z.leb Z.compare Pos.eqb].
    assert (rd_fdt 8 flags s = Fail OutOfBounds) as Hrd
      by (apply (rd_fdt_oob j l); [done|apply at_None; rewrite (ru_len _ _ _ Hr); lia]).
    split; by apply bind_fail.
Qed.

Lemma descriptor_guards_witness :
  sys_read 8 0x20000 1 (files_state initial_files) = Fail OutOfBounds /\
  sys_write 0 0x20000 1 (files_state initial_files) = Ok (ERROR_VAL, files_state initial_files).
Proof.
  pose proof (files_state_running initial_files eq_refl) as Hr. split.
  - apply (proj2 (proj2 (proj2 (descriptor_guards 8 0x20000 1 0 initial_files _ Hr)))); [reflexivity|discriminate|lia].
  - apply (proj1 (proj2 (descriptor_guards 0 0x20000 1 0 initial_files _ Hr))). left. lia.
Defined.
