(* ===== verification/Processes.v ===== *)
(** * Processes: sys_execute, sys_halt and the invariant of the process table

    A live process is a slot of [PCB_ptrs] that points to its own structure.  The
    theorems give the complete effect of [sys_execute] and [sys_halt] of
    systemcall.c on the process table, the page map, the file descriptors and
    memory, and the invariant that both keep. *)

From S2P Require Import Prelude Memory Lib Filesystem Machine Pic Screen Paging Rtc Terminal LineEditor Syscall FileTable.

(** ** Specification *)

(** The page of process [pid] in the page directory. *)
Definition process_pde (pid : Z) : pde_desc_t := new_pde (Z.shiftr (process_frame pid) 12) 1 1.

(** A command is a program name, up to 32 characters before a space, and what
    follows the spaces after it. *)
Fixpoint word (n : nat) (cmd : list Z) : list Z :=
  match n, cmd with
  | S n', c :: cmd' => if c =? ch_space then [] else c :: word n' cmd'
  | _, _ => []
  end.

Fixpoint skip_spaces (cmd : list Z) : list Z :=
  match cmd with
  | c :: cmd' => if c =? ch_space then skip_spaces cmd' else cmd
  | [] => []
  end.

Definition program_name (cmd : list Z) : list Z := word 32 cmd.

Definition program_args (cmd : list Z) : list Z := skip_spaces (drop (length (program_name cmd)) cmd).

(** The fields that [sys_execute] fills: the name in 32 bytes, the arguments in 128. *)
Definition fname_field (cmd : list Z) : list Z :=
  program_name cmd ++ replicate (32 - length (program_name cmd)) 0.

Definition args_field (cmd : list Z) : list Z :=
  let str := take 127 (program_args cmd) in str ++ replicate (128 - length str) 0.

(** The program that a command names: an inode and its contents. *)
Definition program_file (im : fs_image) (cmd : list Z) : option (Z * list Z) :=
  match dir_find (fname_field cmd) (im_dir im) with
  | Some d => pair (inodeNum d) <$> at_ (im_files im) (inodeNum d)
  | None => None
  end.

Definition elf_magic : list Z :=
  [EXECUTABLE_FIRST_BYTE; EXECUTABLE_SECOND_BYTE; EXECUTABLE_THIRD_BYTE; EXECUTABLE_FOURTH_BYTE].

(** The little-endian word in bytes 24 to 27. *)
Definition entry_point (c : list Z) : Z :=
  match file_slice c EXECUTABLE_INSTRUCTION_START_BYTE 4 with
  | [b0; b1; b2; b3] => b0 + 2 ^ 8 * b1 + 2 ^ 16 * b2 + 2 ^ 24 * b3
  | _ => 0
  end.

(** The lowest free slot of the process table. *)
Fixpoint lowest_slot (n : nat) (i : Z) (l : list (option Z)) : option Z :=
  match n with
  | O => None
  | S n' =>
      match at_ l i with
      | Some None => Some i
      | Some (Some _) => lowest_slot n' (i + 1) l
      | None => None
      end
  end.

Definition free_pid (l : list (option Z)) : option Z := lowest_slot 6 0 l.

(** ** Lemmas: control blocks *)

Definition put_pcb (j : Z) (p : PCB_t) (s : machine) : machine := set pcbs (upd (get pcbs s) j p) s.

(** The slot of [j] is taken and its structure exists. *)
Record slot (j : Z) (s : machine) : Prop := {
  sl_ptr : at_ (get PCB_ptrs s) j = Some (Some j);
  sl_pcb : 0 <= j < Z.of_nat (length (get pcbs s))
}.

Lemma put_pcb_at j p s : slot j s -> at_ (get pcbs (put_pcb j p s)) j = Some p.
Proof. intros [_ H]. unfold put_pcb. lsimpl. by apply at_upd_eq. Qed.

Lemma put_pcb_twice j p q s : put_pcb j q (put_pcb j p s) = put_pcb j q s.
Proof. unfold put_pcb. lsimpl. by rewrite upd_upd. Qed.

Lemma put_pcb_slot j p s : slot j s -> slot j (put_pcb j p s).
Proof. intros [H1 H2]. split; [done|]. unfold put_pcb. lsimpl. by rewrite length_upd. Qed.

Lemma put_pcb_start j s : slot j s -> exists p, at_ (get pcbs s) j = Some p /\ s = put_pcb j p s.
Proof.
  intros [_ H]. destruct (at_Some _ _ H) as [p Hp]. exists p. split; [done|]. unfold put_pcb.
  rewrite (upd_same _ _ _ Hp). by destruct s as [? ? ? ? [] ? ? ? ? ?].
Qed.

Lemma wr_pcb_put {B} j (f : lens PCB_t B) v p s :
  slot j s -> wr_pcb j f v (put_pcb j p s) = Ok (tt, put_pcb j (set f v p) s).
Proof.
  intros Hs. unfold wr_pcb. rewrite (bind_ok _ _ _ _ _ (pcb_slot_run j j (put_pcb j p s) (sl_ptr _ _ Hs))).
  rewrite (wr_field_at _ _ _ _ _ _ (put_pcb_at j p s Hs)). do 2 f_equal.
  exact (put_pcb_twice j p (set f v p) s).
Qed.

Lemma rd_pcb_put {B} j (f : lens PCB_t B) p s :
  slot j s -> rd_pcb j f (put_pcb j p s) = Ok (get f p, put_pcb j p s).
Proof. intros Hs. apply rd_pcb_run; [apply Hs|by apply put_pcb_at]. Qed.

Lemma put_files_pcb j p l s : slot j s -> put_files j l (put_pcb j p s) = put_pcb j (set process_fdt l p) s.
Proof. intros Hs. unfold put_files. rewrite (put_pcb_at j p s Hs). apply put_pcb_twice. Qed.

(** ** Lemmas: the initial descriptors *)

Definition unused_entry : file_descriptor_entry_t := FdEntry FOPS_NULL 0 (-1) UNUSED_FLAG.

Lemma clear_entry_run j l i s :
  running j l s -> 0 <= i < 8 ->
  (wr_fdt i fops_pointer FOPS_NULL ;;; wr_fdt i fd_inodeNum 0 ;;;
   wr_fdt i file_position (-1) ;;; wr_fdt i flags UNUSED_FLAG) s =
  Ok (tt, put_files j (upd l i unused_entry) s).
Proof.
  intros Hr Hi. destruct (running_entry j l s i Hr Hi) as [e He].
  rewrite (bind_ok _ _ _ _ _ (wr_fdt_run j l i fops_pointer FOPS_NULL e s Hr He)).
  rewrite (bind_ok _ _ _ _ _ (wr_fdt_put j l i fd_inodeNum 0 _ s Hr Hi)).
  rewrite (bind_ok _ _ _ _ _ (wr_fdt_put j l i file_position (-1) _ s Hr Hi)).
  rewrite (wr_fdt_put j l i flags UNUSED_FLAG _ s Hr Hi). by destruct e.
Qed.

Lemma upd_fill {A} (e : A) k l :
  (k < length l)%nat -> upd (replicate k e ++ drop k l) (Z.of_nat k) e = replicate (S k) e ++ drop (S k) l.
Proof.
  intros Hk. unfold upd. rewrite Nat2Z.id, insert_app_r_alt by (rewrite length_replicate; lia).
  rewrite length_replicate, Nat.sub_diag. destruct (lookup_lt_is_Some_2 l k Hk) as [x Hx].
  rewrite (drop_S _ _ _ Hx). by rewrite replicate_S_end, <- app_assoc.
Qed.

Lemma wr_fdt_over {B} j l l' i (f : lens file_descriptor_entry_t B) v e s :
  running j l s -> length l' = 8%nat -> at_ l' i = Some e ->
  wr_fdt i f v (put_files j l' s) = Ok (tt, put_files j (upd l' i (set f v e)) s).
Proof.
  intros Hr Hl He. rewrite (wr_fdt_run j l' i f v e); [by rewrite put_files_twice|by eapply put_files_running|done].
Qed.

Lemma initialize_FDT_run j l s :
  running j l (set fdt (Some j) s) ->
  initialize_FDT j s = Ok (tt, put_files j initial_files (set fdt (Some j) s)).
Proof.
  intros Hr. set (s0 := set fdt (Some j) s) in *. pose proof (ru_len _ _ _ Hr) as Hlen.
  assert (wp (for_ 8 0 (fun index => wr_fdt index fops_pointer FOPS_NULL ;;; wr_fdt index fd_inodeNum 0 ;;;
    wr_fdt index file_position (-1) ;;; wr_fdt index flags UNUSED_FLAG))
    (fun _ s' => s' = put_files j (replicate 8 unused_entry) s0) s0) as Hloop.
  { eapply wp_mono; [apply (wp_for (fun i s' => exists k, i = Z.of_nat k /\
      s' = put_files j (replicate k unused_entry ++ drop k l) s0))|].
    - exists 0%nat. split; [done|]. simpl. by rewrite (put_files_same j l).
    - intros i s' Hi (k & -> & ->). assert (length (replicate k unused_entry ++ drop k l) = 8%nat) as Hl
        by (rewrite length_app, length_replicate, length_drop; lia).
      eapply wp_run; [eapply clear_entry_run; [by eapply put_files_running|lia]|].
      exists (S k). split; [lia|]. rewrite put_files_twice. by rewrite upd_fill by lia.
    - intros [] s' (k & Hk & ->). replace k with 8%nat by lia. by rewrite drop_ge, app_nil_r by lia. }
  apply wp_inv in Hloop as ([] & s' & Hrun & ->).
  unfold initialize_FDT. rewrite (bind_ok _ _ _ _ _ (pcb_slot_run j j s (ru_ptr _ _ _ Hr))).
  rewrite (bind_ok _ _ _ _ _ (wr_run _ _ _)). fold s0. rewrite (bind_ok _ _ _ _ _ Hrun).
  unfold STDIN_INDEX_IN_FDT, STDOUT_INDEX_IN_FDT.
  do 5 (erewrite bind_ok; [|apply (wr_fdt_over j l); [exact Hr|reflexivity|reflexivity]]).
  by rewrite (wr_fdt_over j l _ 1 file_position 0 (FdEntry STDOUT_FOPS 0 (-1) STDOUT_FLAG)).
Qed.

(** ** Lemmas: the command line *)

(** Only the local arrays of [sys_execute] differ. *)
Record exec_only (s s' : machine) : Prop := {
  eo_mem : s' = set mem (get mem s') s;
  eo_byte : forall c, ~ (local_array 1 <= c < local_array 5) -> byte s' c = byte s c
}.

Lemma exec_locals s s' : exec_only s s' -> locals_only s s'.
Proof.
  intros [E Hb]. split; [done|]. intros c Hc. apply Hb. intros H. apply Hc. unfold local_array in H. lia.
Qed.

Lemma exec_trans s1 s2 s3 : exec_only s1 s2 -> exec_only s2 s3 -> exec_only s1 s3.
Proof.
  intros [E1 H1] [E2 H2]. split; [rewrite E2, E1; reflexivity|]. intros c Hc. by rewrite H2, H1.
Qed.

Lemma write_out_exec a l s :
  local_array 1 <= a -> a + Z.of_nat (length l) <= local_array 5 -> exec_only s (write_out a l s).
Proof.
  intros Ha Hl. split; [done|]. intros c Hc. unfold byte, write_out. lsimpl.
  change (peek (write_bytes (view s) a l) c = peek (view s) c).
  apply (write_bytes_frame (view s) a l). intros i Hi. rewrite local_cell by (unfold local_array in *; lia).
  intros [= ?]. lia.
Qed.

(** A C string of the caller, with its terminator: below the local arrays, or a
    string literal of the kernel. *)
Record command_at (a : Z) (cmd : list Z) (s : machine) : Prop := {
  cm_bytes : bytes_at (view s) a (cmd ++ [0]);
  cm_bound : 0 < a /\ Z.of_nat (length cmd) < 2 ^ 31 /\
    (a + Z.of_nat (length cmd) + 1 <= 2 ^ 32 \/ local_array 5 <= a);
  cm_nul : forall i c, cmd !! i = Some c -> c <> 0
}.

Lemma command_cell a cmd s i c :
  command_at a cmd s -> locals_apart s -> 0 <= i <= Z.of_nat (length cmd) -> cell (view s) (a + i) = Some c ->
  ~ (local_array 1 <= c < local_array 5).
Proof.
  intros [_ (Ha & _ & Hb) _] Hap Hi Hc. destruct Hb as [Hb|Hb].
  - apply Hap in Hc; [unfold local_array; lia|lia].
  - rewrite local_cell in Hc by (unfold local_array in *; lia). injection Hc. lia.
Qed.

Lemma command_exec a cmd s s' : command_at a cmd s -> exec_only s s' -> locals_apart s -> command_at a cmd s'.
Proof.
  intros Hcm Heo Hap. pose proof Hcm as [Hb Hn Hz]. split; try done. intros i v Hi.
  pose proof (lookup_lt_Some _ _ _ Hi) as Hl. rewrite length_app in Hl. simpl in Hl. specialize (Hb i v Hi).
  pose proof (command_cell a cmd s (Z.of_nat i)) as Hcell. unfold load in *.
  change (cell (view s') (a + Z.of_nat i)) with (translate (get pag s') (a + Z.of_nat i)).
  rewrite (locals_pag _ _ (exec_locals _ _ Heo)). change (translate (get pag s) ?x) with (cell (view s) x).
  destruct (cell (view s) (a + Z.of_nat i)) as [c|]; [|done]. rewrite <- Hb. simpl. f_equal.
  change (byte s' c = byte s c). apply (eo_byte _ _ Heo). apply Hcell; [done|done|lia|done].
Qed.

Lemma command_load a cmd s i c :
  command_at a cmd s -> (cmd ++ [0]) !! i = Some c -> load8 (a + Z.of_nat i) s = Ok (c, s).
Proof. intros [Hb _ _] Hi. apply vm_pure, ld8_run. by apply Hb. Qed.

Lemma locals_apart_pag s s' : locals_apart s -> get pag s' = get pag s -> locals_apart s'.
Proof. intros H E a c. rewrite E. apply H. Qed.

Lemma word_length n cmd : (length (word n cmd) <= n /\ length (word n cmd) <= length cmd)%nat.
Proof.
  revert cmd. induction n as [|n IH]; intros [|c cmd]; simpl; try lia.
  destruct (c =? ch_space); simpl; [lia|]. destruct (IH cmd). lia.
Qed.

Lemma word_prefix n cmd : word n cmd = take (length (word n cmd)) cmd.
Proof.
  revert cmd. induction n as [|n IH]; intros [|c cmd]; simpl; try done.
  destruct (c =? ch_space); simpl; [done|]. by rewrite <- IH.
Qed.

Lemma word_chars n cmd i c : word n cmd !! i = Some c -> c <> ch_space.
Proof.
  revert cmd i. induction n as [|n IH]; intros [|c' cmd] i; simpl; try done.
  destruct (Z.eqb_spec c' ch_space); [done|]. destruct i as [|i]; simpl; [by intros [= ->]|apply IH].
Qed.

(** The character that ends the word. *)
Lemma word_end n cmd :
  length (word n cmd) = n \/
  exists c, (cmd ++ [0]) !! length (word n cmd) = Some c /\ (c = ch_space \/ c = 0).
Proof.
  revert cmd. induction n as [|n IH]; intros cmd; [by left|]. destruct cmd as [|c cmd]; simpl.
  - right. exists 0. split; [done|by right].
  - destruct (Z.eqb_spec c ch_space) as [->|]; simpl; [right; exists ch_space; split; [done|by left]|].
    destruct (IH cmd) as [E|H]; [left; by f_equal|by right].
Qed.

Lemma skip_spaces_drop cmd :
  exists k, skip_spaces cmd = drop k cmd /\ (forall i, (i < k)%nat -> cmd !! i = Some ch_space) /\
    (k <= length cmd)%nat /\ (forall c, (cmd ++ [0]) !! k = Some c -> c <> ch_space).
Proof.
  induction cmd as [|c cmd (k & E & Hs & Hk & He)]; simpl.
  - exists 0%nat. split_and!; [done|lia|done|]. intros c [= <-]. done.
  - destruct (Z.eqb_spec c ch_space) as [->|Hne].
    + exists (S k). split_and!; [done| |lia|done]. intros [|i] Hi; [done|]. simpl. apply Hs. lia.
    + exists 0%nat. split_and!; [done|lia|lia|]. intros c' [= <-]. done.
Qed.

(** *** Arrays on the kernel stack *)

Lemma local_m1 a s : 2 ^ 32 <= a -> mapped (view s) a 1.
Proof. intros Ha. by apply local_mapped. Qed.

Lemma fill_run n a v s :
  2 ^ 32 <= a -> for_ n 0 (fun i => store (a + i) v) s = Ok (tt, write_out a (replicate n v) s).
Proof.
  intros Ha.
  assert (wp (for_ n 0 (fun i => store (a + i) v)) (fun _ s' => s' = write_out a (replicate n v) s) s) as H.
  { eapply wp_mono; [apply (wp_for (fun i s' => exists k, i = Z.of_nat k /\ s' = write_out a (replicate k v) s))|].
    - exists 0%nat. split; [done|]. by destruct s.
    - intros i s' Hi (k & -> & ->). eapply wp_run; [apply store_out, local_m1; lia|].
      exists (S k). split; [lia|]. rewrite replicate_S_end, <- write_out_snoc. by rewrite length_replicate.
    - intros [] s' (k & Hk & ->). by replace k with n by lia. }
  apply wp_inv in H as ([] & s' & Hrun & ->). exact Hrun.
Qed.

(** A block stored over the start of a block of zeros. *)
Lemma write_out_over a l n s :
  2 ^ 32 <= a -> (forall i c, l !! i = Some c -> 0 <= c < 256) -> (length l <= n)%nat ->
  bytes_at (view (write_out a l (write_out a (replicate n 0) s))) a (l ++ replicate (n - length l) 0).
Proof.
  intros Ha Hl Hn. rewrite !write_out_view. set (m := write_bytes (view s) a (replicate n 0)).
  assert (bytes_at m a (replicate (length l) 0 ++ replicate (n - length l) 0)) as Hz.
  { rewrite <- replicate_add. replace (length l + (n - length l))%nat with n by lia.
    apply bytes_at_write; [by apply local_mapped|by apply local_injective|].
    intros i v [-> _]%lookup_replicate. lia. }
  apply bytes_at_app in Hz as [_ Hz]. rewrite length_replicate in Hz. apply bytes_at_app. split.
  - apply bytes_at_write; [|intros i i' c Hi Hi'|done].
    + intros i Hi. unfold m. rewrite cell_write_bytes. by apply local_mapped with (n := Z.of_nat (length l)).
    + unfold m. rewrite !cell_write_bytes. by apply (local_injective (view s) a (Z.of_nat (length l))).
  - eapply frame_bytes_at; [apply write_bytes_frame| |exact Hz].
    intros i i' c Hi Hi'. unfold m. rewrite !cell_write_bytes.
    rewrite (local_cell (view s) (a + i)), (local_cell (view s)) by lia. intros [= <-] [= ?]. lia.
Qed.

Section parsing.
Context (command : Z) (cmd : list Z) (s : machine).
Hypothesis Hcmd : command_at command cmd s.
Hypothesis Hap : locals_apart s.

Lemma cmd_chars i c : cmd !! i = Some c -> 0 <= c < 256.
Proof using Hcmd.
  intros Hi. eapply load_range, (cm_bytes _ _ _ Hcmd i). by apply lookup_app_l_Some.
Qed.

(** The copy of the program name. *)
Lemma fname_loop_run s1 :
  command_at command cmd s1 -> locals_apart s1 ->
  loop (fname_step command) 0 s1 =
  Ok (Z.of_nat (length (program_name cmd)), write_out exec_fname (program_name cmd) s1).
Proof using Hcmd.
  intros Hc1 Hap1. set (nm := program_name cmd).
  assert (length nm <= 32 /\ length nm <= length cmd)%nat as [Hn32 Hncmd] by apply word_length.
  assert (forall k, exec_only s1 (write_out exec_fname (take k nm) s1)) as Hlo.
  { intros k. apply write_out_exec; [done|]. rewrite length_take. unfold exec_fname, local_array. lia. }
  assert (wp (loop (fname_step command) 0) (fun i s' => i = Z.of_nat (length nm) /\ s' = write_out exec_fname nm s1) s1) as H.
  { apply (wp_loop _ (fun i s' => exists k, i = Z.of_nat k /\ (k <= length nm)%nat /\
      s' = write_out exec_fname (take k nm) s1) (fun i _ => Z.of_nat (length nm) - i)).
    - intros _ s' (k & -> & Hk & ->). pose proof (command_exec _ _ _ _ Hc1 (Hlo k) Hap1) as Hck.
      unfold fname_step. destruct (decide (k = length nm)) as [->|Hne].
      + rewrite take_ge by lia. rewrite take_ge in Hck by lia.
        destruct (lookup_lt_is_Some_2 (cmd ++ [0]) (length nm)) as [c Hc]; [rewrite length_app; simpl; lia|].
        apply wp_bind. eapply wp_run; [by eapply command_load|].
        assert (negb (c =? 0) && negb (c =? ch_space) && (Z.of_nat (length nm) <? FNAME_SIZE) = false) as ->;
          [|by apply wp_ret].
        destruct (word_end 32 cmd) as [E|(c' & Hc' & Hor)].
        * unfold nm, program_name. rewrite E. by rewrite andb_false_r.
        * unfold nm, program_name in Hc. rewrite Hc in Hc'. injection Hc' as <-. by destruct Hor as [->| ->].
      + destruct (lookup_lt_is_Some_2 nm k ltac:(lia)) as [c Hc].
        assert (cmd !! k = Some c) as Hcc.
        { rewrite <- Hc. unfold nm, program_name. rewrite (word_prefix 32 cmd).
          by rewrite lookup_take_lt by (unfold nm, program_name in *; lia). }
        apply wp_bind. eapply wp_run; [eapply command_load; [exact Hck|by apply lookup_app_l_Some]|].
        rewrite (proj2 (Z.eqb_neq c 0)) by (by eapply (cm_nul _ _ _ Hcmd)).
        rewrite (proj2 (Z.eqb_neq c ch_space)) by (by eapply word_chars).
        destruct (Z.ltb_spec (Z.of_nat k) FNAME_SIZE); [|unfold FNAME_SIZE in *; lia]. cbn [negb andb].
        apply wp_bind. eapply wp_run; [apply store_out, local_m1; unfold exec_fname, local_array; lia|].
        apply wp_ret. split; [|lia]. exists (S k). split_and!; [lia|lia|].
        rewrite (take_S_r _ _ _ Hc), <- write_out_snoc. rewrite length_take. do 2 f_equal. lia.
    - exists 0%nat. split_and!; [done|lia|]. by destruct s1.
    - lia. }
  apply wp_inv in H as (i & s' & Hrun & -> & ->). exact Hrun.
Qed.

(** The spaces between the name and the arguments. *)
Lemma skip_loop_run s1 :
  command_at command cmd s1 ->
  exists i, loop (skip_step command) (Z.of_nat (length (program_name cmd))) s1 = Ok (Z.of_nat i, s1) /\
    drop i cmd = program_args cmd /\ (i <= length cmd)%nat.
Proof using Type.
  intros Hc1. set (nm := program_name cmd).
  assert (length nm <= 32 /\ length nm <= length cmd)%nat as [Hn32 Hncmd] by apply word_length.
  destruct (skip_spaces_drop (drop (length nm) cmd)) as (k & E & Hs & Hk & He). rewrite length_drop in Hk.
  exists (length nm + k)%nat. split; [|split; [unfold program_args; fold nm; by rewrite E, drop_drop|lia]].
  assert (forall i, (cmd ++ [0]) !! (length nm + i)%nat = (drop (length nm) cmd ++ [0]) !! i) as Hshift.
  { intros i. rewrite <- lookup_drop, drop_app. by replace (length nm - length cmd)%nat with 0%nat by lia. }
  assert (wp (loop (skip_step command) (Z.of_nat (length nm))) (fun r s' => r = Z.of_nat (length nm + k) /\ s' = s1) s1) as H.
  { apply (wp_loop _ (fun i s' => s' = s1 /\ exists j, i = Z.of_nat (length nm + j) /\ (j <= k)%nat)
      (fun i _ => Z.of_nat (length nm + k) - i)).
    - intros _ s' (-> & j & -> & Hj). unfold skip_step.
      destruct (lookup_lt_is_Some_2 (cmd ++ [0]) (length nm + j)) as [c Hc]; [rewrite length_app; simpl; lia|].
      apply wp_bind. eapply wp_run; [by eapply command_load|]. rewrite Hshift in Hc.
      destruct (decide (j = k)) as [->|Hne].
      + rewrite (proj2 (Z.eqb_neq _ _) (He c Hc)). by apply wp_ret.
      + rewrite lookup_app_l, Hs in Hc by (rewrite ?length_drop; lia). injection Hc as <-. rewrite Z.eqb_refl.
        apply wp_ret. split; [|lia]. split; [done|]. exists (S j). split; lia.
    - split; [done|]. exists 0%nat. split; [f_equal; lia|lia].
    - pose proof (cm_bound _ _ _ Hc1). lia. }
  apply wp_inv in H as (r & s' & Hrun & -> & ->). exact Hrun.
Qed.

Lemma no_nul_cstr l : (forall i c, l !! i = Some c -> c <> 0) -> cstr (l ++ [0]) = l.
Proof using Type.
  induction l as [|c l IH]; intros Hz; [done|]. cbn [app cstr].
  rewrite (proj2 (Z.eqb_neq c 0)) by (by apply (Hz 0%nat)). f_equal. apply IH. intros i. apply (Hz (S i)).
Qed.

(** The whole first part of [sys_execute]: the name is padded with NULs; the
    arguments, if any, are cut to 127 characters and padded too. *)
Lemma parse_command_run :
  exists s1, parse_command command s = Ok (tt, s1) /\ exec_only s s1 /\
    bytes_at (view s1) exec_fname (fname_field cmd) /\
    (program_args cmd <> [] -> bytes_at (view s1) exec_args (args_field cmd)).
Proof using Hcmd Hap.
  set (nm := program_name cmd). set (args := program_args cmd).
  assert (length nm <= 32)%nat as Hn by apply word_length.
  set (s0 := write_out exec_fname (replicate 32 0) s).
  assert (exec_only s s0) as Hlo0 by (apply write_out_exec; [done|rewrite length_replicate; done]).
  set (s1 := write_out exec_fname nm s0).
  assert (exec_only s s1) as Hlo1.
  { eapply exec_trans; [exact Hlo0|]. apply write_out_exec; [done|]. unfold exec_fname, local_array. lia. }
  pose proof (command_exec _ _ _ _ Hcmd Hlo0 Hap) as Hc0. pose proof (command_exec _ _ _ _ Hcmd Hlo1 Hap) as Hc1.
  pose proof (locals_apart_pag _ _ Hap (locals_pag _ _ (exec_locals _ _ Hlo0))) as Hap0.
  destruct (skip_loop_run s1 Hc1) as (i & Hskip & Hargs & Hi). fold args in Hargs.
  assert (bytes_at (view s1) exec_fname (fname_field cmd)) as Hname.
  { unfold s1, s0, fname_field. fold nm. apply write_out_over; [done| |done]. intros k c Hk.
    apply (cmd_chars k). unfold nm, program_name in Hk. rewrite (word_prefix 32 cmd) in Hk.
    by apply lookup_take_Some in Hk as [Hk _]. }
  destruct (lookup_lt_is_Some_2 (cmd ++ [0]) i) as [c Hc]; [rewrite length_app; simpl; lia|].
  unfold parse_command. rewrite (bind_ok _ _ _ _ _ (fill_run 32 exec_fname 0 s ltac:(done))).
  rewrite (bind_ok _ _ _ _ _ (fname_loop_run s0 Hc0 Hap0)). rewrite (bind_ok _ _ _ _ _ Hskip).
  rewrite (bind_ok _ _ _ _ _ (command_load _ _ _ _ _ Hc1 Hc)).
  assert (args = [] -> c = 0) as Hc_nil.
  { intros E. rewrite E in Hargs. assert (i = length cmd) as ->.
    { pose proof (length_drop cmd i) as Hl. rewrite Hargs in Hl. simpl in Hl. lia. }
    rewrite lookup_app_r, Nat.sub_diag in Hc by lia. by injection Hc. }
  assert (args <> [] -> c <> 0) as Hc_ne.
  { intros Hne. assert (i < length cmd)%nat.
    { destruct (decide (i < length cmd)%nat); [done|]. destruct Hne. rewrite <- Hargs. by apply drop_ge; lia. }
    rewrite lookup_app_l in Hc by done. by eapply (cm_nul _ _ _ Hcmd). }
  destruct (Z.eqb_spec c 0) as [Ec|Ec]; cbn [negb].
  { exists s1. split_and!; [done|done|done|]. intros Hne. by destruct (Hc_ne Hne). }
  assert (forall k v, args !! k = Some v -> 0 <= v < 256 /\ v <> 0) as Hav.
  { intros k v Hk. rewrite <- Hargs, lookup_drop in Hk. split; [by eapply cmd_chars|by eapply (cm_nul _ _ _ Hcmd)]. }
  assert (bytes_at (view s1) (command + Z.of_nat i) (args ++ [0])) as Hsrc.
  { pose proof (cm_bytes _ _ _ Hc1) as Hb. rewrite <- (take_drop i cmd), <- app_assoc in Hb.
    apply bytes_at_app in Hb as [_ Hb]. rewrite length_take in Hb. rewrite <- Hargs.
    by replace (Z.of_nat i) with (Z.of_nat (i `min` length cmd)) by lia. }
  pose proof (strncpy_run (view s1) exec_args (command + Z.of_nat i) 127 (args ++ [0]) Hsrc) as Hcpy.
  cbv zeta in Hcpy. rewrite no_nul_cstr in Hcpy by (intros k v Hk; by apply (Hav k v)).
  set (str := take 127 args) in *. assert (length str <= 127)%nat as Hstr by (unfold str; rewrite length_take; lia).
  set (s2 := write_out exec_args (str ++ replicate (127 - length str) 0) s1).
  assert (vm (strncpy exec_args (command + Z.of_nat i) ARG_SIZE_WITHOUT_NULL_TERMINATOR) s1 = Ok (exec_args, s2)) as Hrun2.
  { apply vm_run. apply Hcpy; [left; apply elem_of_app; right; by apply list_elem_of_singleton|by apply local_mapped| |done].
    intros x y cc Hx Hy H1 H2. rewrite local_cell in H1 by (unfold exec_args, local_array; lia). injection H1 as <-.
    assert (length args = length cmd - i)%nat as Hla by (rewrite <- Hargs; apply length_drop).
    rewrite length_app in Hy. simpl in Hy. rewrite <- Z.add_assoc in H2.
    apply (command_cell command cmd s1) in H2;
      [|done|exact (locals_apart_pag _ _ Hap (locals_pag _ _ (exec_locals _ _ Hlo1)))|lia].
    unfold exec_args, local_array in *. lia. }
  rewrite (bind_ok _ _ _ _ _ Hrun2).
  assert (Z.of_nat (length (str ++ replicate (127 - length str) 0)) = 127) as Hlen
    by (rewrite length_app, length_replicate; lia).
  exists (write_out exec_args (args_field cmd) s1).
  assert (args_field cmd = (str ++ replicate (127 - length str) 0) ++ [0]) as Ea.
  { unfold args_field. fold args. fold str. rewrite <- app_assoc. f_equal.
    rewrite <- replicate_S_end. f_equal. lia. }
  split_and!.
  - unfold ARG_NULL_TERMINATOR_INDEX. rewrite store_out by (by apply local_mapped).
    rewrite Ea, <- write_out_snoc, Hlen. reflexivity.
  - eapply exec_trans; [exact Hlo1|]. apply write_out_exec; [done|]. rewrite Ea, length_app. simpl.
    unfold exec_args, local_array. lia.
  - rewrite write_out_view. eapply frame_bytes_at; [apply write_bytes_frame| |exact Hname].
    intros x y cc Hx Hy. rewrite !local_cell by (unfold exec_args, exec_fname, local_array; lia).
    rewrite Ea, length_app, Nat2Z.inj_add, Hlen in Hx. simpl in Hx.
    unfold fname_field in Hy. fold nm in Hy. rewrite length_app, length_replicate in Hy.
    unfold exec_args, exec_fname, local_array. intros [= <-] [= ?]. lia.
  - intros _. rewrite write_out_view. apply bytes_at_write; [by apply local_mapped|by apply local_injective|].
    intros k v. rewrite Ea, <- app_assoc. intros [Hk|[_ [Hk|[_ Hk]]%lookup_app_Some]]%lookup_app_Some.
    + unfold str in Hk. apply lookup_take_Some in Hk as [Hk _]. by destruct (Hav k v Hk).
    + apply lookup_replicate in Hk as [-> _]. lia.
    + apply list_lookup_singleton_Some in Hk as [_ <-]. lia.
Qed.
End parsing.

(** *** The program file *)

Section program.
Context (size : Z) (im : fs_image) (cmd : list Z) (s : machine).
Hypothesis Hrep : fs_rep (view s) (get fs_ptrs s) size im.
Hypothesis Hap : locals_apart s.

(** Reading a file into a local array. *)
Lemma read_local_run ino c off a n :
  at_ (im_files im) ino = Some c -> 0 <= off <= Z.of_nat (length c) -> 2 ^ 32 <= a -> 0 <= n ->
  let out := file_slice c off n in
  vm (read_data (get fs_ptrs s) ino off a n) s = Ok (Z.of_nat (length out), write_out a out s).
Proof using Hrep Hap.
  intros Hat Ho Ha Hn out. apply vm_run. apply (read_data_run _ _ size im Hrep); try done.
  - unfold exec_fname in *. lia.
  - by apply local_mapped.
  - intros i k c' Hi Hk H1 H2. rewrite local_cell in H1 by lia. injection H1 as <-.
    pose proof (fr_bounds _ _ _ _ Hrep). pose proof (fr_base _ _ _ _ Hrep).
    change (translate (get pag s) (bootMemAddr (get fs_ptrs s) + k) = Some (a + i)) in H2.
    apply Hap in H2; lia.
Qed.

Lemma lookup_name_run :
  bytes_at (view s) exec_fname (fname_field cmd) ->
  vm (read_dentry_by_name (get fs_ptrs s) exec_fname false) s =
  Ok (match dir_find (fname_field cmd) (im_dir im) with Some d => (0, Some d) | None => (ERROR_VAL, None) end, s).
Proof using Hrep.
  intros Hb. apply vm_pure. apply (by_name_loop _ _ size); try done. right.
  unfold fname_field. rewrite length_app, length_replicate. pose proof (word_length 32 cmd). lia.
Qed.
End program.

(** What [check_program] does with the contents of the file. *)
Definition check_spec (ino : Z) (c : list Z) (s : machine) : option Z * machine :=
  let s1 := write_out exec_testBuffer (take 4 c) s in
  if negb (bool_decide (take 4 c = elf_magic)) || (Z.of_nat (length c) <? 24) then (None, s1)
  else (Some ino, write_out exec_program_eip (file_slice c 24 4) s1).

Lemma check_program_run size im cmd s :
  fs_rep (view s) (get fs_ptrs s) size im -> locals_apart s ->
  bytes_at (view s) exec_fname (fname_field cmd) ->
  (forall ino c, program_file im cmd = Some (ino, c) -> (4 <= length c)%nat /\ forall v, v ∈ c -> 0 <= v < 256) ->
  (forall d, dir_find (fname_field cmd) (im_dir im) = Some d -> 0 <= inodeNum d) ->
  check_program s = Ok (match program_file im cmd with Some (ino, c) => check_spec ino c s | None => (None, s) end).
Proof.
  intros Hrep Hap Hname Hc Hi. unfold check_program. rewrite (bind_ok _ _ _ _ _ (rd_run _ _)).
  rewrite (bind_ok _ _ _ _ _ (lookup_name_run size im cmd s Hrep Hname)).
  unfold program_file in *. destruct (dir_find _ _) as [d|]; [|done]. specialize (Hi d eq_refl).
  destruct (at_ (im_files im) (inodeNum d)) as [c|] eqn:Hat; cbn [fmap option_fmap option_map] in *.
  2: { erewrite (bind_ok (vm _)); [|apply vm_pure; by eapply read_data_no_inode]. done. }
  destruct (Hc _ _ eq_refl) as [Hlen Hr]. clear Hc.
  rewrite (bind_ok _ _ _ _ _ (read_local_run size im s Hrep Hap _ c 0 exec_testBuffer 4 Hat ltac:(lia) ltac:(done) ltac:(lia))).
  destruct c as [|b0 [|b1 [|b2 [|b3 c']]]]; simpl in Hlen; try lia.
  change (file_slice (b0 :: b1 :: b2 :: b3 :: c') 0 4) with [b0; b1; b2; b3].
  set (s1 := write_out exec_testBuffer [b0; b1; b2; b3] s).
  assert (locals_only s s1) as Hlo by (apply write_out_locals; done).
  assert (bytes_at (view s1) exec_testBuffer [b0; b1; b2; b3]) as Hb.
  { unfold s1. rewrite write_out_view. apply bytes_at_write; [by apply local_mapped|by apply local_injective|].
    intros i v Hv. apply Hr. apply (list_elem_of_lookup_2 _ i). change (take 4 (b0 :: b1 :: b2 :: b3 :: c') !! i = Some v) in Hv.
    by apply lookup_take_Some in Hv as [? _]. }
  assert (forall k v, [b0; b1; b2; b3] !! k = Some v -> load8 (exec_testBuffer + Z.of_nat k) s1 = Ok (v, s1)) as Hld.
  { intros k v Hv. apply vm_pure, ld8_run. by apply Hb. }
  change (Z.of_nat (length [b0; b1; b2; b3]) =? -1) with false. cbv iota.
  rewrite (bind_ok _ _ _ _ _ (Hld 0%nat b0 eq_refl)), (bind_ok _ _ _ _ _ (Hld 1%nat b1 eq_refl)),
    (bind_ok _ _ _ _ _ (Hld 2%nat b2 eq_refl)), (bind_ok _ _ _ _ _ (Hld 3%nat b3 eq_refl)).
  unfold check_spec. change (take 4 (b0 :: b1 :: b2 :: b3 :: c')) with [b0; b1; b2; b3]. cbv zeta. fold s1.
  assert (negb (b0 =? EXECUTABLE_FIRST_BYTE) || negb (b1 =? EXECUTABLE_SECOND_BYTE) ||
          negb (b2 =? EXECUTABLE_THIRD_BYTE) || negb (b3 =? EXECUTABLE_FOURTH_BYTE) =
          negb (bool_decide ([b0; b1; b2; b3] = elf_magic))) as ->.
  { unfold elf_magic. case_bool_decide as E.
    - injection E as -> -> -> ->. done.
    - destruct (Z.eqb_spec b0 EXECUTABLE_FIRST_BYTE), (Z.eqb_spec b1 EXECUTABLE_SECOND_BYTE),
        (Z.eqb_spec b2 EXECUTABLE_THIRD_BYTE), (Z.eqb_spec b3 EXECUTABLE_FOURTH_BYTE); try done. congruence. }
  set (c := b0 :: b1 :: b2 :: b3 :: c') in *.
  destruct (negb _); [done|]. cbn [orb].
  pose proof (locals_fs _ _ _ _ Hlo Hap Hrep) as Hrep1. pose proof (locals_apart_pag _ _ Hap (locals_pag _ _ Hlo)) as Hap1.
  destruct (Z.ltb_spec (Z.of_nat (length c)) 24) as [Hlt|Hge].
  - erewrite (bind_ok (vm _)); [|apply vm_pure; by apply (read_data_beyond _ _ size im Hrep1 _ c)]. done.
  - rewrite (bind_ok _ _ _ _ _ (read_local_run size im s1 Hrep1 Hap1 _ c 24 exec_program_eip 4 Hat ltac:(lia) ltac:(done) ltac:(lia))).
    rewrite (proj2 (Z.eqb_neq _ (-1))) by lia. done.
Qed.

(** *** The process table *)

Lemma find_pid_run s :
  length (get PCB_ptrs s) = 6%nat -> loop find_pid_step 0 s = Ok (default 6 (free_pid (get PCB_ptrs s)), s).
Proof.
  intros Hlen. set (l := get PCB_ptrs s) in *.
  assert (wp (loop find_pid_step 0) (fun r s' => r = default 6 (free_pid l) /\ s' = s) s) as H.
  { apply (wp_loop _ (fun i s' => s' = s /\ 0 <= i <= 6 /\ lowest_slot (Z.to_nat (6 - i)) i l = free_pid l)
      (fun i _ => 6 - i)).
    - intros i _ (-> & Hi & Hlow). unfold find_pid_step, MAX_PROCESSES.
      destruct (Z.ltb_spec i 6).
      + destruct (at_Some l i) as [e He]; [lia|].
        apply wp_bind. eapply wp_run; [by apply rd_at_run|].
        replace (Z.to_nat (6 - i)) with (S (Z.to_nat (6 - (i + 1)))) in Hlow by lia.
        cbn [lowest_slot] in Hlow. rewrite He in Hlow. destruct e; apply wp_ret.
        * split; [|lia]. split_and!; [done|lia|lia|done].
        * by rewrite <- Hlow.
      + apply wp_ret. replace i with 6 in * by lia. by rewrite <- Hlow.
    - split_and!; [done|lia|lia|done].
    - lia. }
  apply wp_inv in H as (r & s' & Hrun & -> & ->). exact Hrun.
Qed.

Lemma lowest_slot_spec n i l j :
  lowest_slot n i l = Some j ->
  i <= j < i + Z.of_nat n /\ at_ l j = Some None /\ forall k, i <= k < j -> exists q, at_ l k = Some (Some q).
Proof.
  revert i. induction n as [|n IH]; intros i H; [done|]. cbn [lowest_slot] in H.
  destruct (at_ l i) as [[q|]|] eqn:He; [|injection H as <-|done].
  - destruct (IH (i + 1) H) as (H1 & H2 & H3). split_and!; [lia|lia|done|].
    intros k Hk. destruct (decide (k = i)) as [->|]; [by exists q|]. apply H3. lia.
  - split_and!; [lia|lia|done|lia].
Qed.

Lemma free_pid_full l :
  length l = 6%nat -> free_pid l = None -> forall k, 0 <= k < 6 -> exists q, at_ l k = Some (Some q).
Proof.
  intros Hl H k Hk. do 6 (destruct l as [|[?|] l]; [done|simpl in H|done]). destruct l; [|done].
  assert (k = 0 \/ k = 1 \/ k = 2 \/ k = 3 \/ k = 4 \/ k = 5) as [->|[->|[->|[->|[->| ->]]]]] by lia; by eexists.
Qed.

(** The terminal of a new process: the thread's for a first shell, the parent's otherwise. *)
Definition inherits (s : machine) (parent term : Z) : Prop :=
  if parent =? -1 then term = get curThread s
  else at_ (get PCB_ptrs s) parent = Some (Some parent) /\
       exists q, at_ (get pcbs s) parent = Some q /\ pcb_parent_terminal q = term.

(** The 128 bytes that a copy of the argument array stores. *)
Definition args_copied (s : machine) : list Z :=
  let str := take 128 (cstr (read_bytes (view s) exec_args 129)) in str ++ replicate (128 - length str) 0.

Lemma args_copied_field cmd s :
  (forall i c, cmd !! i = Some c -> c <> 0) -> bytes_at (view s) exec_args (args_field cmd) ->
  args_copied s = args_field cmd.
Proof.
  intros Hz Hb. unfold args_copied. set (str := take 127 (program_args cmd)).
  assert (length str <= 127)%nat as Hlen by (unfold str; rewrite length_take; lia).
  assert (length (args_field cmd) = 128%nat) as Hl
    by (unfold args_field; rewrite length_app, length_replicate; fold str; lia).
  assert (cstr (read_bytes (view s) exec_args 129) = str) as ->.
  { change 129%nat with (128 + 1)%nat. rewrite read_bytes_app. rewrite <- Hl at 1. rewrite (read_bytes_eq _ _ _ Hb).
    unfold args_field. fold str. replace (128 - length str)%nat with (S (127 - length str)) by lia.
    cbn [replicate]. rewrite <- app_assoc. cbn [app].
    assert (forall i c, str !! i = Some c -> c <> 0) as Hs.
    { intros i c Hi. unfold str in Hi. apply lookup_take_Some in Hi as [Hi _]. unfold program_args in Hi.
      destruct (skip_spaces_drop (drop (length (program_name cmd)) cmd)) as (k & E & _).
      rewrite E, !lookup_drop in Hi. by eapply Hz. }
    generalize (replicate (127 - length str) 0 ++ read_bytes (view s) (exec_args + Z.of_nat 128) 1). intros tl.
    clear -Hs. induction str as [|c str IH]; [done|]. cbn [app cstr].
    rewrite (proj2 (Z.eqb_neq c 0)) by (by apply (Hs 0%nat)). f_equal. apply IH. intros i. apply (Hs (S i)). }
  rewrite take_ge by lia. reflexivity.
Qed.

(** The state after [populate_pcb]. *)
Definition populated (pid_ parent term : Z) (d : pde_desc_t) (p : PCB_t) (s : machine) : machine :=
  put_pcb pid_ (Pcb pid_ parent d (pcb_esp p) (pcb_ebp p) 0 term initial_files)
    (set fdt (Some pid_) (write_out (pcb_arg_ptr pid_) (args_copied s)
       (set cur_pid pid_ (set PCB_ptrs (upd (get PCB_ptrs s) pid_ (Some pid_)) s)))).

Lemma copy_args_run pid_ s :
  mapped (view s) (pcb_arg_ptr pid_) 128 -> separate (view s) (pcb_arg_ptr pid_) 128 exec_args 129 ->
  vm (strncpy (pcb_arg_ptr pid_) exec_args ARG_SIZE) s =
  Ok (pcb_arg_ptr pid_, write_out (pcb_arg_ptr pid_) (args_copied s) s).
Proof.
  intros Hm Hs. apply vm_run. unfold ARG_SIZE. change 128 with (Z.of_nat 128).
  assert (length (read_bytes (view s) exec_args 129) = 129%nat) as Hl by apply length_read_bytes.
  apply (strncpy_run (view s) (pcb_arg_ptr pid_) exec_args 128 (read_bytes (view s) exec_args 129)).
  - apply bytes_at_read. by apply local_mapped.
  - right. by rewrite Hl.
  - done.
  - by rewrite Hl.
  - done.
Qed.

Section populate.
Context (pid_ parent term : Z) (d : pde_desc_t) (p : PCB_t) (s : machine).
Hypothesis Hfree : at_ (get PCB_ptrs s) pid_ = Some None.
Hypothesis Hpcb : at_ (get pcbs s) pid_ = Some p.
Hypothesis Hcur : get cur_pid s = parent.
Hypothesis Hterm : inherits s parent term.
Hypothesis Hterm3 : 0 <= term < NUM_TERMINALS.
Hypothesis Hpde : at_ (get page_directory s) PROCESS_PAGING_INDEX = Some d.
Hypothesis Hmap : mapped (view s) (pcb_arg_ptr pid_) 128.
Hypothesis Hsep : separate (view s) (pcb_arg_ptr pid_) 128 exec_args 129.
Hypothesis Hfiles : length (pcb_process_fdt p) = 8%nat.
Hypothesis Hfops : get fops_tables s = std_fops.

Let s1 : machine := set PCB_ptrs (upd (get PCB_ptrs s) pid_ (Some pid_)) s.

Lemma populate_slot : slot pid_ s1.
Proof using Hfree Hpcb.
  split; [unfold s1; lsimpl; apply at_upd_eq; by apply at_inv in Hfree|]. by apply at_inv in Hpcb.
Qed.

(** The terminal of the new process. *)
Lemma inherit_run q :
  (if parent =? -1 then t ← rd curThread; wr_pcb pid_ parent_terminal (u8 t)
   else t ← rd_pcb parent parent_terminal; wr_pcb pid_ parent_terminal t) (put_pcb pid_ q s1) =
  Ok (tt, put_pcb pid_ (set parent_terminal term q) s1).
Proof using Hfiles Hfree Hpcb Hterm Hterm3.
  pose proof populate_slot as Hsl. unfold inherits in Hterm. destruct (parent =? -1).
  - rewrite (bind_ok _ _ _ _ _ (rd_run _ _)). change (get curThread (put_pcb pid_ q s1)) with (get curThread s).
    rewrite <- Hterm, u8_small by (unfold NUM_TERMINALS in *; lia). by apply wr_pcb_put.
  - destruct Hterm as [Hp (r & Hr & <-)].
    assert (parent <> pid_) as Hne by congruence. pose proof (at_inv _ _ _ Hfree). pose proof (at_inv _ _ _ Hpcb).
    rewrite (bind_ok _ _ _ (pcb_parent_terminal r) (put_pcb pid_ q s1)); [by apply wr_pcb_put|].
    apply (rd_pcb_run _ _ parent_terminal r).
    + change (get PCB_ptrs (put_pcb pid_ q s1)) with (upd (get PCB_ptrs s) pid_ (Some pid_)).
      by rewrite at_upd_ne by (congruence || lia).
    + change (get pcbs (put_pcb pid_ q s1)) with (upd (get pcbs s) pid_ q). by rewrite at_upd_ne by (congruence || lia).
Qed.

Lemma populate_pcb_run : populate_pcb pid_ s = Ok (tt, populated pid_ parent term d p s).
Proof using All.
  pose proof populate_slot as Hsl. pose proof (at_inv _ _ _ Hfree) as Hi.
  assert (s1 = put_pcb pid_ p s1) as E.
  { destruct (put_pcb_start _ _ Hsl) as (p' & Hp' & ->). rewrite put_pcb_twice. do 2 f_equal. symmetry.
    change (at_ (get pcbs s) pid_ = Some p') in Hp'. congruence. }
  unfold populate_pcb. rewrite (bind_ok _ _ _ _ _ (wr_at_run PCB_ptrs pid_ (Some pid_) s Hi)). fold s1. rewrite E.
  rewrite (bind_ok _ _ _ _ _ (wr_pcb_put pid_ pid pid_ p s1 Hsl)), (bind_ok _ _ _ _ _ (rd_run _ _)).
  change (get cur_pid (put_pcb pid_ (set pid pid_ p) s1)) with (get cur_pid s). rewrite Hcur.
  rewrite (bind_ok _ _ _ _ _ (wr_pcb_put pid_ parent_pid parent _ s1 Hsl)).
  rewrite (bind_ok _ _ _ _ _ (rd_pcb_put pid_ parent_pid _ s1 Hsl)).
  change (get parent_pid (set parent_pid parent (set pid pid_ p))) with parent.
  rewrite (bind_ok _ _ _ _ _ (inherit_run _)), (bind_ok _ _ _ _ _ (wr_run _ _ _)).
  set (s2 := set cur_pid pid_ s1). assert (slot pid_ s2) as Hsl2 by (destruct Hsl; by split).
  change (set cur_pid pid_ (put_pcb pid_ ?q s1)) with (put_pcb pid_ q s2).
  rewrite (bind_ok _ _ _ _ _ (wr_pcb_put pid_ exception_flag 0 _ s2 Hsl2)).
  rewrite (bind_ok _ _ _ _ _ (rd_at_run page_directory PROCESS_PAGING_INDEX (put_pcb pid_ _ s2) d Hpde)).
  rewrite (bind_ok _ _ _ _ _ (wr_pcb_put pid_ pde d _ s2 Hsl2)).
  set (q := set pde d _). set (s3 := put_pcb pid_ q s2).
  rewrite (bind_ok _ _ _ _ _ (copy_args_run pid_ s3 Hmap Hsep)).
  change (args_copied s3) with (args_copied s).
  set (s4 := write_out (pcb_arg_ptr pid_) (args_copied s) s2).
  change (write_out (pcb_arg_ptr pid_) (args_copied s) s3) with (put_pcb pid_ q s4).
  rewrite (initialize_FDT_run pid_ (pcb_process_fdt p)).
  - change (set fdt (Some pid_) (put_pcb pid_ q s4)) with (put_pcb pid_ q (set fdt (Some pid_) s4)).
    rewrite put_files_pcb by (destruct Hsl; by split). unfold populated. by destruct p.
  - split; try done.
    + change (at_ (upd (get PCB_ptrs s) pid_ (Some pid_)) pid_ = Some (Some pid_)). by apply at_upd_eq.
    + exists q. split; [|split; [reflexivity|exact Hterm3]]. change (at_ (upd (get pcbs s) pid_ q) pid_ = Some q).
      apply at_upd_eq. by apply at_inv in Hpcb.
Qed.
End populate.
