(* ===== verification/ProcessTable.v ===== *)
(** * ProcessTable: the effect of sys_execute and sys_halt

    The complete effect of [sys_execute] and [sys_halt] of systemcall.c on the
    process table, the page map, the descriptors and memory: a new process gets
    the lowest free slot, its own 4 MB frame with the program in it, and the
    standard descriptors; when it halts, its parent runs again. *)

From S2P Require Import Prelude Memory Lib Filesystem Machine Pic Screen Paging Rtc Terminal LineEditor Syscall FileTable Processes.

(** ** Specification *)

(** The file system in the kernel's page, below the kernel stacks. *)
Record disk (size : Z) (im : fs_image) (s : machine) : Prop := {
  dk_rep : fs_rep (view s) (get fs_ptrs s) size im;
  dk_place : FOUR_MB <= bootMemAddr (get fs_ptrs s) /\
    bootMemAddr (get fs_ptrs s) + size <= EIGHT_MB - MAX_PROCESSES * EIGHT_KB;
  dk_bytes : forall ino c, at_ (im_files im) ino = Some c -> forall v, v ∈ c -> 0 <= v < 256
}.

(** A file that runs: it starts with the magic number, has an entry point, and
    fits between the load address and the end of the process's page. *)
Record runnable (c : list Z) : Prop := {
  rn_magic : take 4 c = elf_magic;
  rn_size : 28 <= Z.of_nat (length c) <= FOUR_MB - (PROGRAM_INIT_VIRTUAL_ADDR - PROCESS_VIRTUAL)
}.

(** A command that [sys_execute] refuses when a slot is free. *)
Definition refused (im : fs_image) (cmd : list Z) : Prop :=
  match program_file im cmd with
  | None => True
  | Some (_, c) => (4 <= length c)%nat /\ (take 4 c <> elf_magic \/ (length c < 24)%nat)
  end.

(** Process [pid_] starts on the file [c] with the arguments of [cmd]. *)
Record started (shown pid_ parent term : Z) (cmd c : list Z) (s s' : machine) : Prop := {
  st_ptrs : get PCB_ptrs s' = upd (get PCB_ptrs s) pid_ (Some pid_);
  st_pcbs : get pcbs s' = upd (get pcbs s) pid_
    (Pcb pid_ parent (process_pde pid_) (get cpu_esp s) (get cpu_ebp s) 0 term initial_files);
  st_cur : get cur_pid s' = pid_;
  st_fdt : get fdt s' = Some pid_;
  st_esp0 : get tss_esp0 s' = EIGHT_MB - pid_ * EIGHT_KB - 4;
  st_if : get eflags_if s' = true;
  st_paging : paging_inv shown (Some pid_) (get pag s');
  st_program : bytes_at (view s') PROGRAM_INIT_VIRTUAL_ADDR c;
  st_args : program_args cmd <> [] -> bytes_at (view s') (pcb_arg_ptr pid_) (args_field cmd);
  st_mem : forall a, ~ (2 ^ 32 <= a < 2 ^ 33) -> ~ (pcb_arg_ptr pid_ <= a < pcb_arg_ptr pid_ + 128) ->
    (let load_addr := process_frame pid_ + (PROGRAM_INIT_VIRTUAL_ADDR - PROCESS_VIRTUAL) in
     ~ (load_addr <= a < load_addr + Z.of_nat (length c))) -> byte s' a = byte s a;
  st_scr : get scr s' = get scr s;
  st_kbd : get kbd s' = get kbd s;
  st_sch : get sch s' = get sch s;
  st_fs : get fs_ptrs s' = get fs_ptrs s;
  st_fops : get fops_tables s' = get fops_tables s;
  st_irqc : get irqc s' = get irqc s
}.

(** The process structure of a live process. *)
Definition live (s : machine) (i : Z) (p : PCB_t) : Prop :=
  at_ (get PCB_ptrs s) i = Some (Some i) /\ at_ (get pcbs s) i = Some p.

(** *** The abstract process table: a stack of processes for each terminal

    A terminal's stack is the running program, the program that started it, and so
    on down to the shell.  [sys_execute] pushes and [sys_halt] pops. *)

Definition top (l : list Z) : Z := match l with [] => -1 | i :: _ => i end.

Record process_ok (t i parent : Z) (p : PCB_t) : Prop := {
  po_pid : pcb_pid p = i;
  po_parent : pcb_parent_pid p = parent;
  po_pde : pcb_pde p = process_pde i;
  po_term : pcb_parent_terminal p = t;
  po_flag : 0 <= pcb_exception_flag p <= 1;
  po_files : Forall entry_ok (pcb_process_fdt p)
}.

Fixpoint stack (s : machine) (t : Z) (l : list Z) : Prop :=
  match l with
  | [] => True
  | i :: l' => (exists p, live s i p /\ process_ok t i (top l') p) /\ stack s t l'
  end.

Record process_table (st : list (list Z)) (s : machine) : Prop := {
  pt_terms : length st = 3%nat;
  pt_ptrs : length (get PCB_ptrs s) = 6%nat;
  pt_pcbs : length (get pcbs s) = 6%nat;
  pt_lens : forall i p, at_ (get pcbs s) i = Some p -> length (pcb_process_fdt p) = 8%nat;
  pt_stack : forall t l, at_ st t = Some l -> stack s t l /\ NoDup l;
  pt_own : forall i j, at_ (get PCB_ptrs s) i = Some (Some j) -> j = i /\ exists t l, at_ st t = Some l /\ i ∈ l;
  pt_fops : get fops_tables s = std_fops
}.

(** ** Lemmas: stacks *)

Lemma stack_in s t l i : stack s t l -> i ∈ l -> exists p parent, live s i p /\ process_ok t i parent p.
Proof.
  induction l as [|j l IH]; intros Hs Hin; [by apply not_elem_of_nil in Hin|]. destruct Hs as [(p & Hl & Hok) Hs].
  apply elem_of_cons in Hin as [->|Hin]; [by exists p, (top l)|by apply IH].
Qed.

(** A stack through a change of the state. *)
Lemma stack_mono s s' t l :
  (forall i p parent, i ∈ l -> live s i p -> process_ok t i parent p ->
     exists p', live s' i p' /\ process_ok t i parent p') ->
  stack s t l -> stack s' t l.
Proof.
  induction l as [|j l IH]; intros Hm; [done|]. intros [(p & Hl & Hok) Hs]. split.
  - by apply (Hm j p (top l) ltac:(left)).
  - apply IH; [|done]. intros i q parent Hi. apply Hm. by right.
Qed.

Lemma live_inj s i p q : live s i p -> live s i q -> p = q.
Proof. intros [_ H1] [_ H2]. congruence. Qed.

(** A process is on one stack only. *)
Lemma stack_terminal st s t t' l l' i :
  process_table st s -> at_ st t = Some l -> at_ st t' = Some l' -> i ∈ l -> i ∈ l' -> t = t'.
Proof.
  intros Hpt Ht Ht' Hi Hi'.
  destruct (stack_in s t l i (proj1 (pt_stack _ _ Hpt _ _ Ht)) Hi) as (p & ? & Hl & Hok).
  destruct (stack_in s t' l' i (proj1 (pt_stack _ _ Hpt _ _ Ht')) Hi') as (q & ? & Hq & Hokq).
  rewrite (live_inj _ _ _ _ Hl Hq) in Hok. destruct Hok, Hokq. congruence.
Qed.

(** The running process, when its terminal has one. *)
Lemma table_top st s t i l :
  process_table st s -> at_ st t = Some (i :: l) ->
  exists p, live s i p /\ process_ok t i (top l) p /\ 0 <= i < MAX_PROCESSES /\ length (pcb_process_fdt p) = 8%nat.
Proof.
  intros Hpt Ht. destruct (pt_stack _ _ Hpt _ _ Ht) as [[(p & Hl & Hok) _] _]. exists p. split_and!; try done.
  - destruct Hl as [Hl _]. apply at_inv in Hl. lia.
  - destruct Hl as [Hl _]. apply at_inv in Hl. rewrite (pt_ptrs _ _ Hpt) in Hl. unfold MAX_PROCESSES. lia.
  - eapply (pt_lens _ _ Hpt), Hl.
Qed.

(** Another process on the stack of a terminal. *)
Lemma table_push st s s' t l i p :
  process_table st s -> at_ st t = Some l -> at_ (get PCB_ptrs s) i = Some None ->
  get PCB_ptrs s' = upd (get PCB_ptrs s) i (Some i) -> get pcbs s' = upd (get pcbs s) i p ->
  get fops_tables s' = get fops_tables s ->
  process_ok t i (top l) p -> length (pcb_process_fdt p) = 8%nat -> process_table (upd st t (i :: l)) s'.
Proof.
  intros [Hst Hpp Hpc Hlens Hstack Hown Hfo] Ht Hfree Ep Ec Ef Hok Hlen.
  pose proof (at_inv _ _ _ Hfree) as Hi. pose proof (at_inv _ _ _ Ht) as Hti.
  assert (forall k q, k <> i -> live s k q -> live s' k q) as Hkeep.
  { intros k q Hk [H1 H2]. split; [rewrite Ep|rewrite Ec]; by rewrite at_upd_ne by (congruence || lia). }
  assert (forall t' l', at_ st t' = Some l' -> i ∉ l') as Hnot.
  { intros t' l' Ht' Hin. destruct (stack_in s t' l' i (proj1 (Hstack _ _ Ht')) Hin) as (q & ? & [Hq _] & _). congruence. }
  assert (forall t' l', at_ st t' = Some l' -> stack s' t' l') as Hold.
  { intros t' l' Ht'. apply (stack_mono s); [|by apply Hstack]. intros k q parent Hk Hq Hokq.
    exists q. split; [|done]. apply Hkeep; [|done]. intros ->. by apply (Hnot _ _ Ht'). }
  split; rewrite ?length_upd, ?Ep, ?Ec, ?Ef; rewrite ?length_upd; try done.
  - intros k q. destruct (decide (k = i)) as [->|].
    + rewrite at_upd_eq by lia. by intros [= <-].
    + rewrite at_upd_ne by (congruence || lia). apply Hlens.
  - intros t' l'. destruct (decide (t' = t)) as [->|].
    + rewrite at_upd_eq by lia. intros [= <-]. split.
      * split; [|by apply Hold]. exists p. split; [|done].
        split; [rewrite Ep|rewrite Ec]; apply at_upd_eq; lia.
      * constructor; [by eapply Hnot|]. by apply (Hstack t).
    + rewrite at_upd_ne by (congruence || lia). intros Ht'. split; [by apply Hold|by apply (Hstack t')].
  - intros k j. destruct (decide (k = i)) as [->|].
    + rewrite at_upd_eq by lia. intros [= <-]. split; [done|]. exists t, (i :: l). split; [apply at_upd_eq; lia|by left].
    + rewrite at_upd_ne by (congruence || lia). intros Hk. destruct (Hown _ _ Hk) as (-> & t' & l' & Ht' & Hin).
      split; [done|]. destruct (decide (t' = t)) as [->|].
      * exists t, (i :: l). split; [apply at_upd_eq; lia|]. right. congruence.
      * exists t', l'. split; [by rewrite at_upd_ne by (congruence || lia)|done].
Qed.

(** The end of the process on top of a stack. *)
Lemma table_pop st s s' t i l :
  process_table st s -> at_ st t = Some (i :: l) ->
  get PCB_ptrs s' = upd (get PCB_ptrs s) i None -> get pcbs s' = get pcbs s ->
  get fops_tables s' = get fops_tables s -> process_table (upd st t l) s'.
Proof.
  intros Hpt Ht Ep Ec Ef. pose proof Hpt as [Hst Hpp Hpc Hlens Hstack Hown Hfo].
  pose proof (at_inv _ _ _ Ht) as Hti. destruct (table_top st s t i l Hpt Ht) as (p & Hl & Hok & Hi & _).
  unfold MAX_PROCESSES in Hi.
  assert (forall k q, k <> i -> live s k q -> live s' k q) as Hkeep.
  { intros k q Hk [H1 H2]. split; [rewrite Ep|by rewrite Ec]. by rewrite at_upd_ne by (congruence || lia). }
  destruct (Hstack _ _ Ht) as [[_ Hsl] Hnd']. inversion_clear Hnd' as [|? ? Hnin Hnd].
  assert (forall t' l', (forall k, k ∈ l' -> k <> i) -> stack s t' l' -> stack s' t' l') as Hold.
  { intros t' l' Hne. apply stack_mono. intros k q parent Hk Hq Hokq. exists q. split; [|done]. apply Hkeep; [|done].
    by apply Hne. }
  split; rewrite ?length_upd, ?Ep, ?Ec, ?Ef; rewrite ?length_upd; try done.
  - intros t' l'. destruct (decide (t' = t)) as [->|].
    + rewrite at_upd_eq by lia. intros [= <-]. split; [|done]. apply Hold; [|done]. by intros k Hk ->.
    + rewrite at_upd_ne by (congruence || lia). intros Ht'. split; [|by apply (Hstack t')].
      apply Hold; [|by apply (Hstack t')]. intros k Hk ->. assert (t' = t); [|done].
      eapply (stack_terminal st s); [exact Hpt|exact Ht'|exact Ht|done|by left].
  - intros k j. destruct (decide (k = i)) as [->|].
    + rewrite at_upd_eq by lia. done.
    + rewrite at_upd_ne by (congruence || lia). intros Hk. destruct (Hown _ _ Hk) as (-> & t' & l' & Ht' & Hin).
      split; [done|]. destruct (decide (t' = t)) as [->|].
      * exists t, l. split; [apply at_upd_eq; lia|]. rewrite Ht in Ht'. injection Ht' as <-.
        by apply elem_of_cons in Hin as [->|].
      * exists t', l'. split; [by rewrite at_upd_ne by (congruence || lia)|done].
Qed.

(** ** Lemmas: memory through the map *)

Lemma paged_cell shown proc s a :
  paging_inv shown proc (get pag s) -> 0 <= a < 2 ^ 32 -> cell (view s) a = fst <$> address_map shown proc a.
Proof.
  intros Hinv Ha. change (translate (get pag s) a = fst <$> address_map shown proc a).
  rewrite translate_access by (apply Hinv || done). by erewrite access_map.
Qed.

Lemma kernel_cell shown proc s a :
  paging_inv shown proc (get pag s) -> FOUR_MB <= a < EIGHT_MB -> cell (view s) a = Some a.
Proof.
  intros Hinv Ha. unfold FOUR_MB, EIGHT_MB in *. rewrite (paged_cell shown proc) by (done || lia).
  unfold address_map, VIDEO, FOUR_KB, FOUR_MB, EIGHT_MB.
  destruct (Z.leb_spec 0xB8000 a), (Z.ltb_spec a (0xB8000 + 4 * 0x1000)); try lia.
  destruct (Z.leb_spec 0x400000 a), (Z.ltb_spec a 0x800000); try lia. done.
Qed.

Lemma process_cell shown pid_ s a :
  paging_inv shown (Some pid_) (get pag s) -> PROCESS_VIRTUAL <= a < PROCESS_VIRTUAL + FOUR_MB ->
  cell (view s) a = Some (process_frame pid_ + (a - PROCESS_VIRTUAL)).
Proof.
  intros Hinv Ha. unfold PROCESS_VIRTUAL, FOUR_MB in *. rewrite (paged_cell shown (Some pid_)) by (done || lia).
  unfold address_map, VIDEO, FOUR_KB, FOUR_MB, EIGHT_MB, USER_VIDEO, PROCESS_VIRTUAL.
  destruct (Z.leb_spec 0xB8000 a), (Z.ltb_spec a (0xB8000 + 4 * 0x1000)); try lia.
  destruct (Z.leb_spec 0x400000 a), (Z.ltb_spec a 0x800000); try lia.
  destruct (Z.leb_spec 0x20000000 a), (Z.ltb_spec a (0x20000000 + 3 * 0x1000)); try lia.
  destruct (Z.leb_spec 0x8000000 a), (Z.ltb_spec a (0x8000000 + 0x400000)); try lia. done.
Qed.

Lemma process_paged_inv shown proc pid_ s :
  paging_inv shown proc (get pag s) -> 0 <= pid_ < MAX_PROCESSES ->
  paging_inv shown (Some pid_) (get pag (process_paged pid_ s)).
Proof. intros Hinv Hp. by apply (paging_inv_process shown proc pid_ (get pag s) _ Hinv Hp). Qed.

(** A cell that no stored address reaches. *)
Lemma write_out_byte a l s c :
  (forall i, 0 <= i < Z.of_nat (length l) -> cell (view s) (a + i) <> Some c) ->
  byte (write_out a l s) c = byte s c.
Proof.
  intros H. unfold byte, write_out. lsimpl.
  change (peek (write_bytes (view s) a l) c = peek (view s) c). by apply (write_bytes_frame (view s) a l).
Qed.

(** Blocks in local arrays are bytes of the state. *)
Lemma local_bytes s a l :
  2 ^ 32 <= a -> bytes_at (view s) a l <-> forall i v, l !! i = Some v -> byte s (a + Z.of_nat i) = v.
Proof.
  intros Ha. split; intros Hb i v Hi.
  - specialize (Hb i v Hi). rewrite (load_cell _ _ (a + Z.of_nat i)) in Hb by (by apply local_cell; lia). by injection Hb.
  - rewrite (load_cell _ _ (a + Z.of_nat i)) by (by apply local_cell; lia). f_equal. by apply Hb.
Qed.

Lemma dir_find_in {M} `{ByteMemLaws M} (m : M) g size im name d :
  fs_rep m g size im -> dir_find name (im_dir im) = Some d -> 0 <= inodeNum d.
Proof.
  intros Hrep Hd. unfold dir_find in Hd. destruct (list_find _ _) as [[i d']|] eqn:E; [|done].
  injection Hd as ->. apply list_find_Some in E as [Hi _].
  destruct (da_inode _ _ _ (fr_dir _ _ _ _ Hrep _ _ Hi)). lia.
Qed.

(** ** Lemmas: sys_execute *)

Lemma write_out_frame_locals b l a out s :
  2 ^ 32 <= b -> locals_apart s -> a + Z.of_nat (length out) <= 2 ^ 32 ->
  bytes_at (view s) b l -> bytes_at (view (write_out a out s)) b l.
Proof.
  intros Hb Hap Ha Hl. rewrite write_out_view. eapply frame_bytes_at; [apply write_bytes_frame| |exact Hl].
  intros x y c Hx Hy H1. rewrite local_cell by lia. intros [= <-].
  change (translate (get pag s) (a + x) = Some (b + y)) in H1. apply Hap in H1; lia.
Qed.

(** The state in which the new process starts: [s1] is the state after the checks. *)
Definition started_process (pid_ parent term : Z) (c : list Z) (p : PCB_t) (s1 : machine) : machine :=
  let s2 := process_paged pid_ s1 in
  let s3 := write_out PROGRAM_INIT_VIRTUAL_ADDR c (write_out (pcb_arg_ptr pid_) (args_copied s2)
              (set cur_pid pid_ (set PCB_ptrs (upd (get PCB_ptrs s2) pid_ (Some pid_)) s2))) in
  set eflags_if true
    (put_pcb pid_ (Pcb pid_ parent (process_pde pid_) (get cpu_esp s1) (get cpu_ebp s1) 0 term initial_files)
       (set tss_esp0 (PROCESS_BASE_4KB_ALIGNED_ADDRESS - pid_ * EIGHT_KB - LONG_BYTES)
          (set fdt (Some pid_) s3))).

Section execute.
Context (command : Z) (cmd : list Z) (shown : Z) (proc : option Z) (size : Z) (im : fs_image) (s : machine).
Hypothesis Hcmd : command_at command cmd s.
Hypothesis Hpag : paging_inv shown proc (get pag s).
Hypothesis Hdisk : disk size im s.
Hypothesis Hptrs : length (get PCB_ptrs s) = 6%nat.

Lemma exec_apart : locals_apart s.
Proof using Hpag. by eapply paging_inv_apart. Qed.

(** The beginning of the call, up to the check of the program. *)
Lemma exec_prefix :
  (forall ino c, program_file im cmd = Some (ino, c) -> (4 <= length c)%nat) ->
  exists s1, locals_only s s1 /\
    (program_args cmd <> [] -> bytes_at (view s1) exec_args (args_field cmd)) /\
    forall k : option Z -> K outcome,
    (parse_command command ;;; r ← check_program; k r) s =
      let '(r, s2) := match program_file im cmd with Some (ino, c) => check_spec ino c s1 | None => (None, s1) end in k r s2.
Proof using Hcmd Hpag Hdisk.
  intros Hc. pose proof exec_apart as Hap.
  destruct (parse_command_run command cmd s Hcmd Hap) as (s1 & Hrun & Heo & Hname & Hargs).
  pose proof (exec_locals _ _ Heo) as Hlo.
  exists s1. split_and!; [done|done|]. intros k. rewrite (bind_ok _ _ _ _ _ Hrun).
  pose proof (locals_fs _ _ _ _ Hlo Hap (dk_rep _ _ _ Hdisk)) as Hrep1.
  pose proof (locals_apart_pag _ _ Hap (locals_pag _ _ Hlo)) as Hap1.
  pose proof (check_program_run size im cmd s1 Hrep1 Hap1 Hname) as Hchk.
  destruct (match program_file im cmd with Some (ino, c) => check_spec ino c s1 | None => (None, s1) end) as [r s2].
  apply bind_ok, Hchk.
  - intros ino c H. split; [by apply (Hc ino)|]. apply (dk_bytes _ _ _ Hdisk ino). unfold program_file in H.
    destruct (dir_find _ _); [|done]. destruct (at_ _ _) eqn:E; [|done]. by injection H as <- <-.
  - intros d. by apply (dir_find_in _ _ _ _ _ _ Hrep1).
Qed.

Lemma execute_refused_run :
  (free_pid (get PCB_ptrs s) = None -> sys_execute command s = Ok (Return ERROR_VAL, s)) /\
  (refused im cmd -> exists s', sys_execute command s = Ok (Return ERROR_VAL, s') /\ locals_only s s').
Proof using All.
  pose proof (cm_bound _ _ _ Hcmd) as [Hc0 _].
  assert (free_pid (get PCB_ptrs s) = None -> sys_execute command s = Ok (Return ERROR_VAL, s)) as Hfull.
  { intros Hf. unfold sys_execute. rewrite (proj2 (Z.eqb_neq command 0)) by lia.
    by rewrite (bind_ok _ _ _ _ _ (find_pid_run s Hptrs)), Hf. }
  split; [exact Hfull|]. intros Href. destruct (free_pid (get PCB_ptrs s)) as [pid_|] eqn:Hpid.
  2: { exists s. split; [by apply Hfull|apply locals_refl]. }
  unfold refused in Href. destruct exec_prefix as (s1 & Hlo & _ & Hrun).
  { intros ino c E. rewrite E in Href. apply Href. }
  pose proof (lowest_slot_spec _ _ _ _ Hpid) as (Hp & _).
  unfold sys_execute. rewrite (proj2 (Z.eqb_neq command 0)) by lia.
  rewrite (bind_ok _ _ _ _ _ (find_pid_run s Hptrs)), Hpid. cbn [default id from_option].
  rewrite (proj2 (Z.eqb_neq pid_ MAX_PROCESSES)) by (unfold MAX_PROCESSES; lia). rewrite Hrun.
  destruct (program_file im cmd) as [[ino c]|]; [|by exists s1]. destruct Href as [H4 Hbad]. unfold check_spec.
  assert (negb (bool_decide (take 4 c = elf_magic)) || (Z.of_nat (length c) <? 24) = true) as ->.
  { destruct Hbad as [Hm|Hl]; [by rewrite bool_decide_false|]. apply orb_true_iff. right. apply Z.ltb_lt. lia. }
  exists (write_out exec_testBuffer (take 4 c) s1). split; [done|].
  eapply locals_trans; [exact Hlo|]. apply write_out_locals; [done|]. rewrite length_take.
  unfold exec_testBuffer, local_array. lia.
Qed.
End execute.

(** A routine on memory leaves the process structures alone. *)
Lemma vm_put {A} j P f (r : ST vmem A) a s s' :
  vm r s = Ok (a, s') -> vm r (put_pcb j P (set fdt f s)) = Ok (a, put_pcb j P (set fdt f s')).
Proof.
  unfold vm. change (view (put_pcb j P (set fdt f s))) with (view s). destruct (r (view s)) as [[b m]|]; [|done].
  by intros [= -> <-].
Qed.

Lemma args_copied_length s : length (args_copied s) = 128%nat.
Proof. unfold args_copied. rewrite length_app, length_replicate, length_take. lia. Qed.

Section start.
Context (size : Z) (im : fs_image) (shown : Z) (proc : option Z) (pid_ parent term ino : Z) (c : list Z) (p : PCB_t) (s : machine).
Hypothesis Hpag : paging_inv shown proc (get pag s).
Hypothesis Hdisk : disk size im s.
Hypothesis Hptrs : length (get PCB_ptrs s) = 6%nat.
Hypothesis Hpid : free_pid (get PCB_ptrs s) = Some pid_.
Hypothesis Hpcb : at_ (get pcbs s) pid_ = Some p.
Hypothesis Hfiles : length (pcb_process_fdt p) = 8%nat.
Hypothesis Hcur : get cur_pid s = parent.
Hypothesis Hterm : inherits s parent term.
Hypothesis Hterm3 : 0 <= term < NUM_TERMINALS.
Hypothesis Hfops : get fops_tables s = std_fops.
Hypothesis Hc : at_ (im_files im) ino = Some c.
Hypothesis Hrun : runnable c.

Let s2 : machine := process_paged pid_ s.
Let base : machine := write_out (pcb_arg_ptr pid_) (args_copied s2)
  (set cur_pid pid_ (set PCB_ptrs (upd (get PCB_ptrs s2) pid_ (Some pid_)) s2)).

Lemma start_pid : 0 <= pid_ < 6 /\ at_ (get PCB_ptrs s) pid_ = Some None.
Proof using All. destruct (lowest_slot_spec _ _ _ _ Hpid) as (H1 & H2 & _). split; [lia|done]. Qed.

Lemma start_paging : paging_inv shown (Some pid_) (get pag s2).
Proof using All. eapply process_paged_inv; [exact Hpag|]. apply start_pid. Qed.

Lemma start_args_cell i : 0 <= i < 128 -> cell (view s2) (pcb_arg_ptr pid_ + i) = Some (pcb_arg_ptr pid_ + i).
Proof using All.
  intros Hi. pose proof start_pid as [Hp _]. apply (kernel_cell shown (Some pid_)); [apply start_paging|].
  unfold pcb_arg_ptr, pcb_address, FOUR_MB, EIGHT_MB, EIGHT_KB in *. lia.
Qed.

Lemma start_disk : fs_rep (view base) (get fs_ptrs s) size im.
Proof using All.
  destruct Hdisk as [Hrep [Hlo Hhi] _]. unfold base. rewrite write_out_view.
  change (view (set cur_pid pid_ (set PCB_ptrs _ s2))) with (view s2).
  assert (fs_rep (view s2) (get fs_ptrs s) size im) as Hrep2.
  { apply (fs_rep_transfer (view s)); [|done]. intros a Ha.
    unfold MAX_PROCESSES, EIGHT_KB, EIGHT_MB, FOUR_MB in *.
    rewrite !(load_cell _ _ a); [done| |]; eapply kernel_cell; try exact Hpag; try apply start_paging;
      unfold EIGHT_MB, FOUR_MB; lia. }
  eapply fs_rep_frame; [exact Hrep2|apply write_bytes_frame|].
  rewrite args_copied_length. intros i k x Hi Hk. rewrite start_args_cell by lia. intros [= <-].
  rewrite (kernel_cell shown (Some pid_)); [|apply start_paging|unfold MAX_PROCESSES, EIGHT_KB, EIGHT_MB, FOUR_MB in *; lia].
  pose proof start_pid as [Hp _].
  unfold pcb_arg_ptr, pcb_address, MAX_PROCESSES, EIGHT_KB, EIGHT_MB, FOUR_MB in *. intros [= ?]. lia.
Qed.

Lemma program_cell i :
  0 <= i < Z.of_nat (length c) ->
  cell (view base) (PROGRAM_INIT_VIRTUAL_ADDR + i) = Some (process_frame pid_ + (PROGRAM_INIT_VIRTUAL_ADDR - PROCESS_VIRTUAL) + i).
Proof using All.
  intros Hi. destruct Hrun as [_ Hsz]. unfold base. rewrite write_out_view, cell_write_bytes.
  change (view (set cur_pid pid_ (set PCB_ptrs _ s2))) with (view s2).
  unfold PROGRAM_INIT_VIRTUAL_ADDR, PROCESS_VIRTUAL, FOUR_MB in *.
  rewrite (process_cell shown pid_) by (apply start_paging || (unfold PROCESS_VIRTUAL, FOUR_MB; lia)).
  f_equal. unfold PROCESS_VIRTUAL. lia.
Qed.

(** The load of the program. *)
Lemma load_run :
  vm (read_data (get fs_ptrs s) ino 0 PROGRAM_INIT_VIRTUAL_ADDR FOUR_MB) base =
  Ok (Z.of_nat (length c), write_out PROGRAM_INIT_VIRTUAL_ADDR c base).
Proof using All.
  destruct Hrun as [_ Hsz]. destruct Hdisk as [_ [Hlo Hhi] _]. pose proof start_pid as [Hp _].
  assert (file_slice c 0 FOUR_MB = c) as Es.
  { unfold file_slice. rewrite drop_0. apply take_ge. unfold FOUR_MB, PROGRAM_INIT_VIRTUAL_ADDR, PROCESS_VIRTUAL in *. lia. }
  apply vm_run.
  pose proof (read_data_run (view base) (get fs_ptrs s) size im start_disk ino c 0 PROGRAM_INIT_VIRTUAL_ADDR FOUR_MB Hc) as Hrd.
  cbv zeta in Hrd. rewrite Es in Hrd. apply Hrd; try done.
  - lia.
  - intros i Hi. eexists. by apply program_cell.
  - intros i k x Hi Hk. rewrite program_cell by done. intros [= <-].
    unfold base. rewrite write_out_view, cell_write_bytes. change (view (set cur_pid pid_ (set PCB_ptrs _ s2))) with (view s2).
    rewrite (kernel_cell shown (Some pid_)); [|apply start_paging|unfold MAX_PROCESSES, EIGHT_KB, EIGHT_MB, FOUR_MB in *; lia].
    unfold process_frame, PROCESS_BASE_4KB_ALIGNED_ADDRESS, PROGRAM_INIT_VIRTUAL_ADDR, PROCESS_VIRTUAL, MAX_PROCESSES, EIGHT_KB, EIGHT_MB, FOUR_MB in *.
    intros [= ?]. lia.
Qed.

Lemma start_populate : populate_pcb pid_ s2 = Ok (tt, populated pid_ parent term (process_pde pid_) p s2).
Proof using All.
  pose proof start_pid as [Hp Hfree]. apply populate_pcb_run; try done.
  - change (at_ (upd (get page_directory s) 32 (process_pde pid_)) 32 = Some (process_pde pid_)).
    apply at_upd_eq. pose proof (pi_pd _ _ _ Hpag) as Hl. change (length (get page_directory s) = 1024%nat) in Hl. lia.
  - intros i Hi. eexists. by apply start_args_cell.
  - intros i k x Hi Hk. rewrite start_args_cell by done. rewrite local_cell by (unfold exec_args, local_array; lia).
    unfold exec_args, local_array, pcb_arg_ptr, pcb_address, EIGHT_MB, EIGHT_KB. intros [= <-] [= ?]. lia.
Qed.

(** The call from the check of the program on. *)
Lemma start_run :
  bytes_at (view s) exec_program_eip (file_slice c 24 4) ->
  (init_process_paging pid_ ;;; populate_pcb pid_ ;;;
   g ← rd fs_ptrs;
   n ← vm (read_data g ino 0 PROGRAM_INIT_VIRTUAL_ADDR FOUR_MB);
   if n =? -1 then mret (Return ERROR_VAL)
   else
     wr tss_esp0 (PROCESS_BASE_4KB_ALIGNED_ADDRESS - pid_ * EIGHT_KB - LONG_BYTES) ;;;
     ptr ← rd cpu_esp; wr_pcb pid_ esp ptr ;;;
     ptr ← rd cpu_ebp; wr_pcb pid_ ebp ptr ;;;
     eip ← vm (ld32 exec_program_eip);
     switch_to_user_mode eip) s =
  Ok (EnterUser (entry_point c) USER_ESP USER_CS USER_DS, started_process pid_ parent term c p s).
Proof using All.
  intros Heip. pose proof start_pid as [Hp Hfree].
  rewrite (bind_ok _ _ _ _ _ (init_process_paging_run pid_ s (pi_pd _ _ _ Hpag))). fold s2.
  rewrite (bind_ok _ _ _ _ _ start_populate).
  set (P := Pcb pid_ parent (process_pde pid_) (pcb_esp p) (pcb_ebp p) 0 term initial_files).
  change (populated pid_ parent term (process_pde pid_) p s2) with (put_pcb pid_ P (set fdt (Some pid_) base)).
  rewrite (bind_ok _ _ _ _ _ (rd_run _ _)).
  change (get fs_ptrs (put_pcb pid_ P (set fdt (Some pid_) base))) with (get fs_ptrs s).
  set (s3 := write_out PROGRAM_INIT_VIRTUAL_ADDR c base).
  rewrite (bind_ok _ _ _ (Z.of_nat (length c)) (put_pcb pid_ P (set fdt (Some pid_) s3))).
  2: { apply (vm_put pid_ P (Some pid_) _ _ base s3), load_run. }
  rewrite (proj2 (Z.eqb_neq _ (-1))) by lia. rewrite (bind_ok _ _ _ _ _ (wr_run _ _ _)).
  set (esp0 := PROCESS_BASE_4KB_ALIGNED_ADDRESS - _ - _). set (s4 := set tss_esp0 esp0 (set fdt (Some pid_) s3)).
  change (set tss_esp0 esp0 (put_pcb pid_ P (set fdt (Some pid_) s3))) with (put_pcb pid_ P s4).
  assert (slot pid_ s4) as Hsl.
  { split; [|by apply at_inv in Hpcb]. change (at_ (upd (get PCB_ptrs s) pid_ (Some pid_)) pid_ = Some (Some pid_)).
    apply at_upd_eq. lia. }
  rewrite (bind_ok _ _ _ _ _ (rd_run _ _)), (bind_ok _ _ _ _ _ (wr_pcb_put pid_ esp _ P s4 Hsl)).
  change (get cpu_esp (put_pcb pid_ P s4)) with (get cpu_esp s).
  rewrite (bind_ok _ _ _ _ _ (rd_run _ _)), (bind_ok _ _ _ _ _ (wr_pcb_put pid_ ebp _ _ s4 Hsl)).
  change (get cpu_ebp (put_pcb pid_ _ s4)) with (get cpu_ebp s).
  change (set ebp (get cpu_ebp s) (set esp (get cpu_esp s) P))
    with (Pcb pid_ parent (process_pde pid_) (get cpu_esp s) (get cpu_ebp s) 0 term initial_files).
  set (Q := Pcb pid_ _ _ (get cpu_esp s) _ _ _ _). set (s5 := put_pcb pid_ Q s4).
  assert (locals_apart s2) as Hap2 by (eapply paging_inv_apart, start_paging).
  assert (bytes_at (view s5) exec_program_eip (file_slice c 24 4)) as Heip5.
  { change (view s5) with (view s3). destruct Hrun as [_ Hsz].
    apply write_out_frame_locals; [done|by apply (locals_apart_pag s2)| |].
    { unfold PROGRAM_INIT_VIRTUAL_ADDR, FOUR_MB, PROCESS_VIRTUAL in *. lia. }
    apply write_out_frame_locals; [done|by apply (locals_apart_pag s2)| |].
    { rewrite args_copied_length. unfold pcb_arg_ptr, pcb_address, EIGHT_MB, EIGHT_KB. lia. }
    change (view (set cur_pid pid_ (set PCB_ptrs _ s2))) with (view s2).
    apply local_bytes; [done|]. exact (proj1 (local_bytes s exec_program_eip _ ltac:(done)) Heip). }
  assert (vm (ld32 exec_program_eip) s5 = Ok (entry_point c, s5)) as Hld.
  { apply vm_pure. assert (length (file_slice c 24 4) = 4%nat) as Hl4.
    { apply Nat2Z.inj. rewrite length_file_slice by lia. destruct Hrun. lia. }
    unfold entry_point, EXECUTABLE_INSTRUCTION_START_BYTE. revert Heip5 Hl4. generalize (file_slice c 24 4). intros l Hl.
    destruct l as [|b0 [|b1 [|b2 [|b3 []]]]]; try done. intros _. by apply ld32_run. }
  rewrite (bind_ok _ _ _ _ _ Hld). unfold switch_to_user_mode. rewrite (bind_ok _ _ _ _ _ (wr_run _ _ _)).
  unfold started_process. fold s2. fold base. fold s3. fold esp0. fold s4. fold Q. fold s5. reflexivity.
Qed.

Lemma start_base_cell a : cell (view base) a = cell (view s2) a.
Proof using All. unfold base. by rewrite write_out_view, cell_write_bytes. Qed.

Lemma started_facts cmd :
  (forall i x, cmd !! i = Some x -> 0 <= x < 256 /\ x <> 0) ->
  (program_args cmd <> [] -> bytes_at (view s) exec_args (args_field cmd)) ->
  started shown pid_ parent term cmd c s (started_process pid_ parent term c p s).
Proof using All.
  intros Hcmd Hargs. pose proof start_pid as [Hp _]. destruct Hrun as [_ Hsz].
  set (s3 := write_out PROGRAM_INIT_VIRTUAL_ADDR c base).
  change (started_process pid_ parent term c p s) with
    (set eflags_if true (put_pcb pid_ (Pcb pid_ parent (process_pde pid_) (get cpu_esp s) (get cpu_ebp s) 0 term initial_files)
       (set tss_esp0 (PROCESS_BASE_4KB_ALIGNED_ADDRESS - pid_ * EIGHT_KB - LONG_BYTES) (set fdt (Some pid_) s3)))).
  set (s' := set eflags_if _ _). change (view s') with (view s3) in *.
  assert (view s3 = view s') as Ev by done.
  assert (forall i, 0 <= i < Z.of_nat (length c) -> cell (view base) (PROGRAM_INIT_VIRTUAL_ADDR + i) =
    Some (process_frame pid_ + (PROGRAM_INIT_VIRTUAL_ADDR - PROCESS_VIRTUAL) + i)) as Hcell by apply program_cell.
  split; try (exact eq_refl).
  - apply start_paging.
  - rewrite <- Ev. unfold s3. rewrite write_out_view. apply bytes_at_write.
    + intros i Hi. eexists. by apply Hcell.
    + intros i k x Hi Hk. rewrite !Hcell by done. intros [= <-] [= ?]. lia.
    + intros i v Hi. eapply (dk_bytes _ _ _ Hdisk ino c Hc). by eapply list_elem_of_lookup_2.
  - intros Hne. rewrite <- Ev. unfold s3. rewrite write_out_view. eapply frame_bytes_at; [apply write_bytes_frame| |].
    + intros i k x Hi Hk. rewrite Hcell by done. intros [= <-]. rewrite start_base_cell.
      unfold args_field in Hk. rewrite length_app, length_replicate, length_take in Hk.
      rewrite start_args_cell by lia.
      unfold process_frame, PROGRAM_INIT_VIRTUAL_ADDR, PROCESS_VIRTUAL, pcb_arg_ptr, pcb_address,
        PROCESS_BASE_4KB_ALIGNED_ADDRESS, EIGHT_MB, EIGHT_KB, FOUR_MB in *. intros [= ?]. lia.
    + assert (args_copied s2 = args_field cmd) as Ea.
      { apply args_copied_field; [intros i x Hi; by apply (Hcmd i x)|]. apply local_bytes; [done|].
        exact (proj1 (local_bytes s exec_args _ ltac:(done)) (Hargs Hne)). }
      unfold base. rewrite write_out_view, Ea. change (view (set cur_pid pid_ (set PCB_ptrs _ s2))) with (view s2).
      assert (length (args_field cmd) = 128%nat) as Hl by (rewrite <- Ea; apply args_copied_length).
      apply bytes_at_write; rewrite ?Hl.
      * intros i Hi. eexists. by apply start_args_cell.
      * intros i k x Hi Hk. rewrite !start_args_cell by done. intros [= <-] [= ?]. lia.
      * intros i v. unfold args_field. intros [Hi|[_ Hi]]%lookup_app_Some; [|apply lookup_replicate in Hi as [-> _]; lia].
        apply lookup_take_Some in Hi as [Hi _]. unfold program_args in Hi.
        destruct (skip_spaces_drop (drop (length (program_name cmd)) cmd)) as (q & E & _).
        rewrite E, !lookup_drop in Hi. by eapply Hcmd.
  - intros a _ Ha1 Ha2. change (byte s' a) with (byte s3 a). unfold s3. rewrite write_out_byte.
    + unfold base. rewrite write_out_byte; [done|]. rewrite args_copied_length. intros i Hi.
      change (view (set cur_pid pid_ (set PCB_ptrs _ s2))) with (view s2). rewrite start_args_cell by done.
      intros [= E]. lia.
    + intros i Hi. rewrite Hcell by done. intros [= E]. apply Ha2. lia.
Qed.
End start.

Lemma locals_get {A} (l : lens machine A) s s' :
  (forall m, get l (set mem m s) = get l s) -> locals_only s s' -> get l s' = get l s.
Proof. intros Hl [-> _]. apply Hl. Qed.

Lemma started_locals shown pid_ parent term cmd c s s1 s' :
  locals_only s s1 -> started shown pid_ parent term cmd c s1 s' -> started shown pid_ parent term cmd c s s'.
Proof.
  intros [E Hb] []. rewrite E in *. split; try done.
  intros a H1 H2 H3. rewrite (st_mem0 a H1 H2 H3). rewrite <- E. by apply Hb.
Qed.

Lemma disk_locals size im s s1 : locals_only s s1 -> locals_apart s -> disk size im s -> disk size im s1.
Proof.
  intros Hlo Hap [Hrep Hpl Hby]. split; [by apply (locals_fs s)| |done].
  by rewrite (locals_get fs_ptrs s s1).
Qed.

Lemma program_file_at im cmd ino c : program_file im cmd = Some (ino, c) -> at_ (im_files im) ino = Some c.
Proof.
  unfold program_file. destruct (dir_find _ _) as [d|]; [|done].
  destruct (at_ _ _) eqn:E; [|done]. by intros [= <- <-].
Qed.

Lemma execute_started_run command cmd shown proc size im pid_ term ino c p s :
  command_at command cmd s -> paging_inv shown proc (get pag s) -> disk size im s ->
  length (get PCB_ptrs s) = 6%nat -> free_pid (get PCB_ptrs s) = Some pid_ ->
  at_ (get pcbs s) pid_ = Some p -> length (pcb_process_fdt p) = 8%nat ->
  inherits s (get cur_pid s) term -> 0 <= term < NUM_TERMINALS -> get fops_tables s = std_fops ->
  program_file im cmd = Some (ino, c) -> runnable c ->
  exists s', sys_execute command s = Ok (EnterUser (entry_point c) USER_ESP USER_CS USER_DS, s') /\
    started shown pid_ (get cur_pid s) term cmd c s s'.
Proof.
  intros Hcmd Hpag Hdisk Hptrs Hpid Hpcb Hfiles Hterm Ht3 Hfops Hfile Hok.
  pose proof (program_file_at _ _ _ _ Hfile) as Hat. pose proof (exec_apart shown proc s Hpag) as Hap.
  pose proof (cm_bound _ _ _ Hcmd) as [Hc0 _]. pose proof (lowest_slot_spec _ _ _ _ Hpid) as (Hp & _).
  assert (forall i x, cmd !! i = Some x -> 0 <= x < 256 /\ x <> 0) as Hchars.
  { intros i x Hi. split; [by eapply (cmd_chars command cmd s Hcmd)|by eapply (cm_nul _ _ _ Hcmd)]. }
  destruct Hok as [Hmagic Hsz].
  destruct (exec_prefix command cmd shown proc size im s Hcmd Hpag Hdisk) as (s1 & Hlo & Hargs & Hrun).
  { intros ino' c' E. rewrite Hfile in E. injection E as <- <-. lia. }
  rewrite Hfile in Hrun. unfold check_spec in Hrun. rewrite bool_decide_true in Hrun by done.
  destruct (Z.ltb_spec (Z.of_nat (length c)) 24); [lia|]. cbn [negb orb] in Hrun.
  set (t1 := write_out exec_testBuffer (take 4 c) s1) in Hrun. set (t2 := write_out exec_program_eip _ t1) in Hrun.
  assert (locals_only s1 t1) as Hlo1.
  { apply write_out_locals; [done|]. rewrite length_take. unfold exec_testBuffer, local_array. lia. }
  assert (locals_only t1 t2) as Hlo2.
  { apply write_out_locals; [done|]. unfold file_slice. rewrite length_take. unfold exec_program_eip, local_array. lia. }
  pose proof (locals_trans _ _ _ (locals_trans _ _ _ Hlo Hlo1) Hlo2) as Hlo'.
  assert (program_args cmd <> [] -> bytes_at (view t2) exec_args (args_field cmd)) as Hargs2.
  { intros Hne. specialize (Hargs Hne).
    assert (length (args_field cmd) = 128%nat) as Hl
      by (unfold args_field; rewrite length_app, length_replicate, length_take; lia).
    assert (forall a out t, exec_testBuffer <= a -> bytes_at (view t) exec_args (args_field cmd) ->
      bytes_at (view (write_out a out t)) exec_args (args_field cmd)) as Hkeep.
    { intros a out t Ha Hb. rewrite write_out_view. eapply frame_bytes_at; [apply write_bytes_frame| |exact Hb].
      rewrite Hl. intros i k x Hi Hk. rewrite !local_cell by (unfold exec_testBuffer, exec_args, local_array in *; lia).
      unfold exec_testBuffer, exec_args, local_array in *. intros [= <-] [= ?]. lia. }
    apply Hkeep; [done|]. by apply Hkeep. }
  assert (bytes_at (view t2) exec_program_eip (file_slice c 24 4)) as Heip.
  { unfold t2. rewrite write_out_view. apply bytes_at_write; [by apply local_mapped|by apply local_injective|].
    intros i v Hi. apply (dk_bytes _ _ _ Hdisk ino c Hat). unfold file_slice in Hi.
    apply lookup_take_Some in Hi as [Hi _]. rewrite lookup_drop in Hi. by eapply list_elem_of_lookup_2. }
  assert (paging_inv shown proc (get pag t2)) as Hpag2 by (by rewrite (locals_pag _ _ Hlo')).
  pose proof (disk_locals _ _ _ _ Hlo' Hap Hdisk) as Hdisk2.
  assert (forall B (l : lens machine B), (forall m, get l (set mem m s) = get l s) -> get l t2 = get l s) as Hget
    by (intros; by apply locals_get).
  assert (inherits t2 (get cur_pid s) term) as Hterm2.
  { unfold inherits in *. by rewrite (Hget _ curThread), (Hget _ PCB_ptrs), (Hget _ pcbs). }
  eexists. split.
  - unfold sys_execute. rewrite (proj2 (Z.eqb_neq command 0)) by lia.
    rewrite (bind_ok _ _ _ _ _ (find_pid_run s Hptrs)), Hpid. cbn [default id from_option].
    rewrite (proj2 (Z.eqb_neq pid_ MAX_PROCESSES)) by (unfold MAX_PROCESSES; lia). rewrite Hrun.
    apply (start_run size im shown proc pid_ (get cur_pid s) term ino c p t2); try done;
      try (by rewrite (Hget _ PCB_ptrs)); try (by rewrite (Hget _ pcbs)); try (by rewrite (Hget _ cur_pid)); by rewrite (Hget _ fops_tables).
  - eapply started_locals; [exact Hlo'|].
    apply (started_facts size im shown proc pid_ (get cur_pid s) term ino c p t2); try done;
      try (by rewrite (Hget _ PCB_ptrs)); try (by rewrite (Hget _ pcbs)); try (by rewrite (Hget _ cur_pid)); by rewrite (Hget _ fops_tables).
Qed.

(** ** Lemmas: sys_halt *)

(** Closing every descriptor in use leaves the state alone. *)
Lemma close_all_run j l s :
  running j l s -> Forall entry_ok l ->
  for_ 8 0 (fun index =>
    f ← rd_fdt index flags;
    when (negb (f =? UNUSED_FLAG))
      (p ← rd_fdt index fops_pointer; call_close p index ≫= fun _ => mret tt)) s = Ok (tt, s).
Proof.
  intros Hr Hok.
  assert (wp (for_ 8 0 (fun index =>
    f ← rd_fdt index flags;
    when (negb (f =? UNUSED_FLAG))
      (p ← rd_fdt index fops_pointer; call_close p index ≫= fun _ => mret tt))) (fun _ s' => s' = s) s) as H.
  { eapply wp_mono; [apply (wp_for (fun _ s' => s' = s))|done]; [done|].
    intros i _ Hi ->. destruct (running_entry j l s i Hr ltac:(lia)) as [e He].
    apply wp_bind. eapply wp_run; [by apply (rd_fdt_run j l)|]. change (get flags e) with (fd_flg e).
    destruct (Z.eqb_spec (fd_flg e) UNUSED_FLAG) as [|Hne]; cbn [negb when]; [by apply wp_ret|].
    assert (entry_ok e) as Hoke.
    { unfold at_ in He. destruct (0 <=? i); [|done]. by eapply (proj1 (Forall_lookup _ _) Hok). }
    apply wp_bind. eapply wp_run; [by apply (rd_fdt_run j l)|]. apply wp_bind.
    eapply wp_run; [apply (call_close_run _ i j l); [done|by apply Hoke]|]. by apply wp_ret. }
  apply wp_inv in H as ([] & s' & Hrun & ->). exact Hrun.
Qed.

(** The states after the end of process [i], with and without a parent. *)
Definition reaped (i eax : Z) (s : machine) : machine :=
  set PCB_ptrs (upd (get PCB_ptrs s) i None) (set fdt (Some i) (set eax_val eax s)).

Definition resumed (i parent eax : Z) (d : pde_desc_t) (s : machine) : machine :=
  set tss_esp0 (u32 (PROCESS_BASE_4KB_ALIGNED_ADDRESS - parent * EIGHT_KB - LONG_BYTES))
    (set cur_pid parent (set PCB_ptrs (upd (get PCB_ptrs s) i None) (set fdt (Some parent)
       (set trace (FlushTLB :: get trace s)
          (set page_directory (upd (get page_directory s) PROCESS_PAGING_INDEX d)
             (set fdt (Some i) (set eax_val eax s))))))).

(** [sys_halt] from its choice between the two cases on. *)
Local Definition halt_tail (current_pid pp : Z) : K outcome :=
  let parents_pid := u32 pp in
  if parents_pid =? u32 (-1) then
    wr_at PCB_ptrs current_pid None ;;;
    t ← rd curThread; wr_at shellStarted t 0 ;;;
    mret WaitForScheduler
  else
    register_val_esp ← rd_pcb current_pid esp;
    register_val_ebp ← rd_pcb current_pid ebp;
    d ← rd_pcb parents_pid pde;
    wr_at page_directory PROCESS_PAGING_INDEX d ;;;
    clearTLB ;;;
    j ← pcb_slot parents_pid;
    wr fdt (Some j) ;;;
    wr_at PCB_ptrs current_pid None ;;;
    wr cur_pid (s32 parents_pid) ;;;
    wr tss_esp0 (u32 (PROCESS_BASE_4KB_ALIGNED_ADDRESS - parents_pid * EIGHT_KB - LONG_BYTES)) ;;;
    jump_point register_val_esp register_val_ebp.

Section halting.
Context (status i : Z) (p : PCB_t) (s : machine).
Hypothesis Hcur : get cur_pid s = i.
Hypothesis Hlive : live s i p.
Hypothesis Hi : 0 <= i < MAX_PROCESSES.
Hypothesis Hlen : length (pcb_process_fdt p) = 8%nat.
Hypothesis Hok : Forall entry_ok (pcb_process_fdt p).
Hypothesis Hterm : 0 <= pcb_parent_terminal p < NUM_TERMINALS.
Hypothesis Hfops : get fops_tables s = std_fops.

Let eax : Z := u32 (status + pcb_exception_flag p).
Let s1 : machine := set fdt (Some i) (set eax_val eax s).

Lemma halt_running : running i (pcb_process_fdt p) s1.
Proof using Hcur Hlive Hlen Hterm Hfops. destruct Hlive. split; try done. exists p. split; [done|split; [done|exact Hterm]]. Qed.

(** The part of the call that both cases share. *)
Lemma halt_prefix {B} (k : Z -> Z -> K B) :
  (cp ← rd cur_pid;
   let current_pid := u32 cp in
   ef ← rd_pcb current_pid exception_flag;
   wr eax_val (u32 (status + ef)) ;;;
   j ← pcb_slot current_pid;
   wr fdt (Some j) ;;;
   pp ← rd_pcb current_pid parent_pid;
   for_ 8 0 (fun index =>
     f ← rd_fdt index flags;
     when (negb (f =? UNUSED_FLAG))
       (p ← rd_fdt index fops_pointer; call_close p index ≫= fun _ => mret tt)) ;;;
   k current_pid pp) s = k i (pcb_parent_pid p) s1.
Proof using Hcur Hlive Hi Hlen Hok Hterm Hfops.
  destruct Hlive as [Hp Hq]. rewrite (bind_ok _ _ _ _ _ (rd_run _ _)), Hcur. cbv zeta.
  rewrite u32_small by (unfold MAX_PROCESSES in *; lia).
  rewrite (bind_ok _ _ _ _ _ (rd_pcb_run s i exception_flag p Hp Hq)).
  change (get exception_flag p) with (pcb_exception_flag p). fold eax.
  rewrite (bind_ok _ _ _ _ _ (wr_run _ _ _)).
  rewrite (bind_ok _ _ _ _ _ (pcb_slot_run i i (set eax_val eax s) Hp)), (bind_ok _ _ _ _ _ (wr_run _ _ _)). fold s1.
  rewrite (bind_ok _ _ _ _ _ (rd_pcb_run s1 i parent_pid p Hp Hq)).
  by rewrite (bind_ok _ _ _ _ _ (close_all_run i _ s1 halt_running Hok)).
Qed.

Lemma halt_shell_run :
  pcb_parent_pid p = -1 -> 0 <= get curThread s < 3 -> length (get shellStarted s) = 3%nat ->
  sys_halt status s =
  Ok (WaitForScheduler, set shellStarted (upd (get shellStarted s) (get curThread s) 0) (reaped i eax s)).
Proof using Hcur Hlive Hi Hlen Hok Hterm Hfops.
  intros Hpar Ht Hst. etransitivity; [apply (halt_prefix halt_tail)|]. unfold halt_tail. cbv zeta.
  rewrite Hpar, Z.eqb_refl. destruct Hlive as [Hp Hq]. pose proof (at_inv _ _ _ Hp).
  rewrite (bind_ok _ _ _ _ _ (wr_at_run PCB_ptrs i None s1 ltac:(done))), (bind_ok _ _ _ _ _ (rd_run _ _)).
  set (s2 := set PCB_ptrs _ _). change (get curThread s2) with (get curThread s).
  assert (0 <= get curThread s < Z.of_nat (length (get shellStarted s2))) as Hr
    by (change (get shellStarted s2) with (get shellStarted s); lia).
  by rewrite (bind_ok _ _ _ _ _ (wr_at_run shellStarted (get curThread s) 0 s2 Hr)).
Qed.

Lemma halt_child_run q :
  live s (pcb_parent_pid p) q -> pcb_parent_pid p <> i -> length (get page_directory s) = 1024%nat ->
  0 <= pcb_parent_pid p < MAX_PROCESSES ->
  sys_halt status s =
  Ok (Resume (pcb_esp p) (pcb_ebp p) eax, resumed i (pcb_parent_pid p) eax (pcb_pde q) s).
Proof using Hcur Hlive Hi Hlen Hok Hterm Hfops.
  intros [Hqp Hqq] Hne Hpd Hpar. etransitivity; [apply (halt_prefix halt_tail)|]. unfold halt_tail. cbv zeta.
  destruct Hlive as [Hp Hq]. pose proof (at_inv _ _ _ Hp). unfold MAX_PROCESSES in *.
  rewrite (u32_small (pcb_parent_pid p)) by lia. rewrite (proj2 (Z.eqb_neq _ (u32 (-1)))) by (change (u32 (-1)) with 0xFFFFFFFF; lia).
  set (par := pcb_parent_pid p) in *.
  rewrite (bind_ok _ _ _ _ _ (rd_pcb_run s1 i esp p Hp Hq)), (bind_ok _ _ _ _ _ (rd_pcb_run s1 i ebp p Hp Hq)).
  rewrite (bind_ok _ _ _ _ _ (rd_pcb_run s1 par pde q Hqp Hqq)).
  rewrite (bind_ok _ _ _ _ _ (wr_at_run page_directory PROCESS_PAGING_INDEX (get pde q) s1 ltac:(
    change (0 <= 32 < Z.of_nat (length (get page_directory s))); lia))).
  rewrite (bind_ok _ _ _ _ _ (clearTLB_run _)).
  set (s3 := set trace _ _). rewrite (bind_ok _ _ _ _ _ (pcb_slot_run par par s3 Hqp)), (bind_ok _ _ _ _ _ (wr_run _ _ _)).
  set (s4 := set fdt (Some par) s3). rewrite (bind_ok _ _ _ _ _ (wr_at_run PCB_ptrs i None s4 ltac:(done))).
  rewrite (bind_ok _ _ _ _ _ (wr_run _ _ _)), (bind_ok _ _ _ _ _ (wr_run _ _ _)). rewrite s32_small by lia.
  reflexivity.
Qed.
End halting.

(** ** A concrete machine

    The file system holds one program, shell; paging is on and no process runs. *)

Definition shell_dentry : dentry_t := Dentry ([115; 104; 101; 108; 108] ++ replicate 27 0) 2 0 (replicate 6 0).

Definition shell_program : list Z := elf_magic ++ replicate 20 0 ++ [0x00; 0x80; 0x04; 0x08].

Definition shell_image : fs_image := FsImage [shell_dentry] [shell_program].

Definition shell_command : Z := 0x5F0000.

Definition shell_memory : flat :=
  list_to_map ([(0x600000, 1); (0x600004, 1); (0x600060, 2); (0x601000, 28)] ++
    zip (Z.add 0x600040 <$> seqZ 0 5) [115; 104; 101; 108; 108] ++
    zip (Z.add 0x602000 <$> seqZ 0 28) shell_program ++
    zip (Z.add shell_command <$> seqZ 0 5) [115; 104; 101; 108; 108]).

Definition shell_machine : machine :=
  set fs_ptrs (fileSysInit 0x600000) (set fops_tables std_fops (set cur_pid (-1)
    (paged (boot_state shell_memory (replicate 6 zero_pcb) demo_layout (fun _ _ => 0) [] 0x7FFFF0 0x7FFFF8)))).

Lemma shell_rep : fs_rep shell_memory (fileSysInit 0x600000) 0x3000 shell_image.
Proof.
  split; try done; try (simpl; lia).
  - split; [apply flat_bytes; vm_compute; reflexivity|simpl; lia].
  - split; [apply flat_bytes; vm_compute; reflexivity|simpl; lia].
  - intros [|i] d Hd; [|done]. injection Hd as <-.
    split; try done; try (apply flat_bytes; vm_compute; reflexivity).
    + split; [apply flat_bytes; vm_compute; reflexivity|simpl; lia].
    + split; [apply flat_bytes; vm_compute; reflexivity|simpl; lia].
    + apply flat_words. vm_compute. reflexivity.
  - intros [|i] c Hc; [|done]. injection Hc as <-. exists (replicate 1023 0).
    split_and!; [done|done|done| |].
    + split; [split; [apply flat_bytes; vm_compute; reflexivity|simpl; lia]|].
      apply flat_words. vm_compute. reflexivity.
    + intros k b [-> Hk]%lookup_replicate Hlt. unfold FILESYSTEM_BLOCKSIZE in *. simpl in Hlt.
      assert (k = 0%nat) as -> by lia. split_and!; [lia|simpl; lia|].
      apply flat_bytes. vm_compute. reflexivity.
Qed.

Lemma shell_paging : paging_inv 0 None (get pag shell_machine).
Proof. apply (boot_paging_inv (boot_state shell_memory _ _ _ _ _ _)); [split; reflexivity|apply demo_layout_ok]. Qed.

(** The memory of the concrete machine, through any page map of the kernel. *)
Section shell.
Context (shown : Z) (proc : option Z) (s : machine).
Hypothesis Hpag : paging_inv shown proc (get pag s).
Hypothesis Hmem : get mem s = shell_memory.
Hypothesis Hfs : get fs_ptrs s = fileSysInit 0x600000.

Lemma shell_load a : FOUR_MB <= a < EIGHT_MB -> load (view s) a = load shell_memory a.
Proof using Hpag Hmem.
  intros Ha. rewrite (load_cell _ a a) by (by eapply kernel_cell). change (peek (view s) a) with (peek (get mem s) a).
  by rewrite Hmem.
Qed.

Lemma shell_disk : disk 0x3000 shell_image s.
Proof using Hpag Hmem Hfs.
  split; rewrite ?Hfs.
  - apply (fs_rep_transfer shell_memory); [|apply shell_rep]. intros a Ha. apply shell_load.
    simpl in Ha. unfold FOUR_MB, EIGHT_MB. lia.
  - simpl. unfold FOUR_MB, EIGHT_MB, MAX_PROCESSES, EIGHT_KB. lia.
  - intros ino c Hc. unfold at_ in Hc. destruct (0 <=? ino); [|done]. destruct (Z.to_nat ino) as [|[]]; [|done|done].
    injection Hc as <-. intros v Hv. apply list_elem_of_lookup in Hv as [k Hk].
    assert (Forall (fun v => 0 <= v < 256) shell_program) as Hall
      by (refine (bool_decide_eq_true_1 _ _); vm_compute; reflexivity).
    by apply (proj1 (Forall_lookup _ _) Hall k).
Qed.

Lemma shell_command_at : command_at shell_command [115; 104; 101; 108; 108] s.
Proof using Hpag Hmem.
  split.
  - intros i v Hi. pose proof (lookup_lt_Some _ _ _ Hi) as Hl. simpl in Hl.
    rewrite shell_load by (unfold shell_command, FOUR_MB, EIGHT_MB; lia). clear Hl.
    revert i v Hi. apply (flat_bytes shell_memory). vm_compute. reflexivity.
  - unfold shell_command. simpl. lia.
  - intros i c Hi. assert (Forall (fun v => v <> 0) [115; 104; 101; 108; 108]) as Hall by (repeat constructor; lia).
    by apply (proj1 (Forall_lookup _ _) Hall i).
Qed.
End shell.

(** The shell as process 0 of terminal 0. *)
Definition shell_pcb : PCB_t := Pcb 0 (-1) (process_pde 0) 0x7FFF00 0x7FFF08 0 0 initial_files.

Definition shell_running : machine :=
  set shellStarted [1; 0; 0] (set PCB_ptrs (Some 0 :: replicate 5 None)
    (set pcbs (shell_pcb :: replicate 5 zero_pcb) (set cur_pid 0 (process_paged 0 shell_machine)))).

Lemma initial_files_ok : Forall entry_ok initial_files.
Proof. repeat constructor; unfold entry_ok; simpl; congruence. Qed.

Lemma shell_table : process_table [[]; []; []] shell_machine.
Proof.
  split; try done.
  - intros i p Hp. change (at_ (replicate 6 zero_pcb) i = Some p) in Hp. unfold at_ in Hp.
    destruct (0 <=? i); [|done]. by apply lookup_replicate in Hp as [-> _].
  - intros t l Ht. unfold at_ in Ht. destruct (0 <=? t); [|done].
    destruct (Z.to_nat t) as [|[|[|]]]; try done; injection Ht as <-; (split; [done|constructor]).
  - intros i j Hp. change (at_ (replicate 6 None) i = Some (Some j)) in Hp. unfold at_ in Hp.
    destruct (0 <=? i); [|done]. by apply lookup_replicate in Hp as [? _].
Qed.

Lemma at_pcbs l n i p :
  (forall q, q ∈ l -> length (pcb_process_fdt q) = 8%nat) -> at_ (l ++ replicate n zero_pcb) i = Some p ->
  length (pcb_process_fdt p) = 8%nat.
Proof.
  intros Hl Hp. unfold at_ in Hp. destruct (0 <=? i); [|done]. apply lookup_app_Some in Hp as [Hp|[_ Hp]].
  - by eapply Hl, list_elem_of_lookup_2.
  - by apply lookup_replicate in Hp as [-> _].
Qed.

Lemma shell_running_table : process_table [[0]; []; []] shell_running.
Proof.
  split; try done.
  - intros i p. apply (at_pcbs [shell_pcb] 5). intros q Hq. by apply list_elem_of_singleton in Hq as ->.
  - intros t l Ht. unfold at_ in Ht. destruct (0 <=? t) eqn:Et; [|done].
    destruct (Z.to_nat t) as [|[|[|]]] eqn:E; try done; injection Ht as <-; [|split; [done|constructor]..].
    assert (t = 0) as -> by (apply Z.leb_le in Et; lia). split; [|apply NoDup_singleton].
    split; [|done]. exists shell_pcb. split; [done|]. split; try done. apply initial_files_ok.
  - intros i j Hp. unfold at_ in Hp. destruct (0 <=? i) eqn:Ei; [|done]. apply Z.leb_le in Ei.
    change (((Some 0 :: replicate 5 None) : list (option Z)) !! Z.to_nat i = Some (Some j)) in Hp.
    destruct (Z.to_nat i) as [|n] eqn:En; [|by apply lookup_replicate in Hp as [? _]].
    injection Hp as <-. assert (i = 0) as -> by lia. split; [done|]. exists 0, [0]. split; [done|]. by left.
Qed.

Lemma shell_running_paging : paging_inv 0 (Some 0) (get pag shell_running).
Proof. by apply (process_paged_inv 0 None 0 shell_machine shell_paging). Qed.

Lemma shell_runnable : runnable shell_program.
Proof. split; [done|]. unfold FOUR_MB, PROGRAM_INIT_VIRTUAL_ADDR, PROCESS_VIRTUAL. simpl. lia. Qed.

(** ** Properties *)

(** The new process's terminal. *)
Lemma table_inherits st s l :
  process_table st s -> at_ st (get curThread s) = Some l -> get cur_pid s = top l ->
  inherits s (top l) (get curThread s) /\ 0 <= get curThread s < NUM_TERMINALS.
Proof.
  intros Hpt Ht Hcur. pose proof (at_inv _ _ _ Ht) as Hr. rewrite (pt_terms _ _ Hpt) in Hr.
  split; [|unfold NUM_TERMINALS; lia]. unfold inherits. destruct l as [|i l]; [done|].
  destruct (table_top _ _ _ _ _ Hpt Ht) as (p & [Hp Hq] & Hok & Hi & _). cbn [top].
  rewrite (proj2 (Z.eqb_neq i (-1))) by (unfold MAX_PROCESSES in Hi; lia). split; [done|].
  exists p. split; [done|apply Hok].
Qed.

(** The file system is not touched by the start of a process. *)
Lemma started_disk size im shown proc pid_ parent term cmd c s s' :
  paging_inv shown proc (get pag s) -> 0 <= pid_ < MAX_PROCESSES ->
  started shown pid_ parent term cmd c s s' -> disk size im s -> disk size im s'.
Proof.
  intros Hpag Hp Hst [Hrep Hpl Hby]. pose proof (st_fs _ _ _ _ _ _ _ _ Hst) as Ef. split; rewrite ?Ef; try done.
  apply (fs_rep_transfer (view s)); [|done]. intros a Ha.
  unfold MAX_PROCESSES, EIGHT_KB, EIGHT_MB, FOUR_MB in *.
  assert (cell (view s) a = Some a) as Hc by (eapply kernel_cell; [exact Hpag|unfold EIGHT_MB, FOUR_MB; lia]).
  assert (cell (view s') a = Some a) as Hc'
    by (eapply kernel_cell; [apply Hst|unfold EIGHT_MB, FOUR_MB; lia]).
  rewrite (load_cell _ _ _ Hc), (load_cell _ _ _ Hc'). f_equal. change (byte s' a = byte s a).
  apply (st_mem _ _ _ _ _ _ _ _ Hst); cbv zeta;
    unfold pcb_arg_ptr, pcb_address, process_frame, PROCESS_BASE_4KB_ALIGNED_ADDRESS, PROGRAM_INIT_VIRTUAL_ADDR, PROCESS_VIRTUAL,
      EIGHT_MB, EIGHT_KB, FOUR_MB; lia.
Qed.

Lemma started_table st l shown pid_ cmd c s s' :
  process_table st s -> at_ st (get curThread s) = Some l -> free_pid (get PCB_ptrs s) = Some pid_ ->
  started shown pid_ (top l) (get curThread s) cmd c s s' ->
  process_table (upd st (get curThread s) (pid_ :: l)) s'.
Proof.
  intros Hpt Ht Hpid Hst. destruct (lowest_slot_spec _ _ _ _ Hpid) as (_ & Hfree & _).
  eapply table_push; [exact Hpt|exact Ht|exact Hfree|apply Hst|apply Hst|apply Hst| |reflexivity].
  split; try done. apply initial_files_ok.
Qed.

(** C3: [sys_execute] pushes a process on the stack of its terminal: the process in
    the lowest free slot, a child of the caller, with its own page map, the
    standard descriptors and its arguments in its control block; the program lies
    at its load address in the process's own frame, and the call ends in user
    mode at the program's entry point.  No other memory changes, so that the other
    processes, the terminals and the file system are intact. *)
Theorem sys_execute_starts_program command cmd shown proc size im st l pid_ ino c s :
  command_at command cmd s -> paging_inv shown proc (get pag s) -> disk size im s ->
  process_table st s -> at_ st (get curThread s) = Some l -> get cur_pid s = top l ->
  free_pid (get PCB_ptrs s) = Some pid_ -> program_file im cmd = Some (ino, c) -> runnable c ->
  exists s', sys_execute command s = Ok (EnterUser (entry_point c) USER_ESP USER_CS USER_DS, s') /\
    started shown pid_ (top l) (get curThread s) cmd c s s' /\
    process_table (upd st (get curThread s) (pid_ :: l)) s' /\ disk size im s' /\
    (forall k, 0 <= k < pid_ -> exists t l', at_ st t = Some l' /\ k ∈ l').
Proof.
  intros Hcmd Hpag Hdisk Hpt Ht Hcur Hpid Hfile Hok.
  destruct (table_inherits _ _ _ Hpt Ht Hcur) as [Hinh Ht3].
  destruct (lowest_slot_spec _ _ _ _ Hpid) as (Hp & Hfree & Hlow).
  destruct (at_Some (get pcbs s) pid_) as [p Hp']; [rewrite (pt_pcbs _ _ Hpt); lia|].
  destruct (execute_started_run command cmd shown proc size im pid_ (get curThread s) ino c p s) as (s' & Hrun & Hst);
    try done; try apply Hpt.
  - by eapply (pt_lens _ _ Hpt).
  - by rewrite Hcur.
  - rewrite Hcur in Hst. exists s'. split_and!; [done|done|by apply (started_table st l shown pid_ cmd c s)| |].
    + by eapply started_disk.
    + intros k Hk. destruct (Hlow k Hk) as [q Hq]. by destruct (pt_own _ _ Hpt _ _ Hq) as (_ & Hin).
Qed.

Lemma sys_execute_starts_program_witness :
  exists s', sys_execute shell_command shell_machine = Ok (EnterUser 0x8048000 0x83FFFFC 0x23 0x2B, s') /\
    process_table [[0]; []; []] s' /\ bytes_at (view s') 0x8048000 shell_program.
Proof.
  destruct (sys_execute_starts_program shell_command [115; 104; 101; 108; 108] 0 None 0x3000 shell_image
    [[]; []; []] [] 0 0 shell_program shell_machine) as (s' & Hrun & Hst & Hpt & _).
  - apply (shell_command_at 0 None); [apply shell_paging|reflexivity].
  - apply shell_paging.
  - apply (shell_disk 0 None); [apply shell_paging|reflexivity|reflexivity].
  - apply shell_table.
  - reflexivity.
  - reflexivity.
  - reflexivity.
  - reflexivity.
  - apply shell_runnable.
  - exists s'. exact (conj Hrun (conj Hpt (st_program _ _ _ _ _ _ _ _ Hst))).
Defined.

(** C27: [sys_execute] refuses a null command, a full process table, an unknown
    program, a file without the magic number and a file too short to have an entry
    point: it returns -1 and changes nothing but its own local arrays. *)
Theorem sys_execute_refuses command cmd shown proc size im s :
  sys_execute 0 s = Ok (Return ERROR_VAL, s) /\
  (command_at command cmd s -> paging_inv shown proc (get pag s) -> disk size im s ->
   length (get PCB_ptrs s) = 6%nat ->
   (free_pid (get PCB_ptrs s) = None -> sys_execute command s = Ok (Return ERROR_VAL, s)) /\
   (refused im cmd -> exists s', sys_execute command s = Ok (Return ERROR_VAL, s') /\ locals_only s s')).
Proof. split; [done|]. intros Hcmd Hpag Hdisk Hptrs. by eapply execute_refused_run. Qed.

Lemma sys_execute_refuses_witness :
  let s := set PCB_ptrs (Some <$> seqZ 0 6) shell_machine in
  sys_execute shell_command s = Ok (Return ERROR_VAL, s).
Proof.
  intros s. destruct (sys_execute_refuses shell_command [115; 104; 101; 108; 108] 0 None 0x3000 shell_image s) as [_ H].
  apply H; [|apply shell_paging| |reflexivity|reflexivity].
  - apply (shell_command_at 0 None); [apply shell_paging|reflexivity].
  - apply (shell_disk 0 None); [apply shell_paging|reflexivity|reflexivity].
Defined.

(** The structure of the caller of a program. *)
Lemma halt_parent st s t i j l p :
  process_table st s -> at_ st t = Some (i :: j :: l) -> live s i p ->
  pcb_parent_pid p = j /\ i <> j /\ exists q, live s j q /\ pcb_pde q = process_pde j /\ 0 <= j < MAX_PROCESSES.
Proof.
  intros Hpt Ht Hl. destruct (pt_stack _ _ Hpt _ _ Ht) as [[(p' & Hl' & Hok) [(q & Hq & Hokq) _]] Hnd].
  rewrite (live_inj _ _ _ _ Hl' Hl) in Hok. inversion_clear Hnd as [|? ? Hnin _]. split; [apply Hok|].
  split; [intros ->; apply Hnin; by left|]. exists q. split_and!; [done|apply Hokq|..];
    destruct Hq as [Hq _]; apply at_inv in Hq; [lia|]. rewrite (pt_ptrs _ _ Hpt) in Hq. unfold MAX_PROCESSES. lia.
Qed.

Lemma resumed_paging shown proc i j eax s :
  paging_inv shown proc (get pag s) -> 0 <= j < MAX_PROCESSES ->
  paging_inv shown (Some j) (get pag (resumed i j eax (process_pde j) s)).
Proof. intros Hpag Hj. by apply (paging_inv_process shown proc j (get pag s) _ Hpag Hj). Qed.

(** What a halted program leaves to the process [j] that called it. *)
Record returned (shown j : Z) (s s' : machine) : Prop := {
  rt_cur : get cur_pid s' = j;
  rt_fdt : get fdt s' = Some j;
  rt_esp0 : get tss_esp0 s' = EIGHT_MB - j * EIGHT_KB - 4;
  rt_paging : paging_inv shown (Some j) (get pag s');
  rt_mem : get mem s' = get mem s;
  rt_pcbs : get pcbs s' = get pcbs s;
  rt_sch : get sch s' = get sch s;
  rt_fs : get fs_ptrs s' = get fs_ptrs s;
  rt_irqc : get irqc s' = get irqc s
}.

Lemma halt_returns status shown proc st i j l p s :
  process_table st s -> at_ st (get curThread s) = Some (i :: j :: l) -> get cur_pid s = i -> live s i p ->
  paging_inv shown proc (get pag s) ->
  exists s', sys_halt status s = Ok (Resume (pcb_esp p) (pcb_ebp p) (u32 (status + pcb_exception_flag p)), s') /\
    get PCB_ptrs s' = upd (get PCB_ptrs s) i None /\
    process_table (upd st (get curThread s) (j :: l)) s' /\ returned shown j s s'.
Proof.
  intros Hpt Ht Hcur Hl Hpag. destruct (table_top _ _ _ _ _ Hpt Ht) as (p' & Hl' & Hok & Hi & Hlen).
  rewrite (live_inj _ _ _ _ Hl' Hl) in Hok, Hlen. clear p' Hl'.
  destruct (halt_parent _ _ _ _ _ _ _ Hpt Ht Hl) as (Hpar & Hne & q & Hq & Hpde & Hj).
  pose proof (at_inv _ _ _ Ht) as Hr. rewrite (pt_terms _ _ Hpt) in Hr.
  assert (0 <= pcb_parent_terminal p < NUM_TERMINALS) as Hterm by (rewrite (po_term _ _ _ _ Hok); unfold NUM_TERMINALS; lia).
  pose proof (halt_child_run status i p s Hcur Hl Hi Hlen (po_files _ _ _ _ Hok) Hterm (pt_fops _ _ Hpt) q) as Hrun.
  rewrite Hpar, Hpde in Hrun.
  eexists. split; [apply Hrun; [exact Hq|congruence|apply (pi_pd _ _ _ Hpag)|exact Hj]|].
  split; [reflexivity|]. split; [by eapply table_pop|]. split; try done.
  - change (u32 (EIGHT_MB - j * EIGHT_KB - 4) = EIGHT_MB - j * EIGHT_KB - 4).
    unfold EIGHT_MB, EIGHT_KB, MAX_PROCESSES in *. apply u32_small. lia.
  - by eapply resumed_paging.
Qed.

(** C20: [sys_halt] pops the running process from the stack of its terminal.  Under a
    caller, the caller runs again: the call ends in its [sys_execute] frame with the
    status plus the exception flag, its page map and its descriptors are current,
    and no memory changes.  At the bottom of the stack the shell is marked as not
    started and the handler waits for the scheduler. *)
Theorem sys_halt_pops_process status shown proc st i l p s :
  process_table st s -> at_ st (get curThread s) = Some (i :: l) -> get cur_pid s = i -> live s i p ->
  paging_inv shown proc (get pag s) -> length (get shellStarted s) = 3%nat ->
  match l with
  | j :: _ => exists s',
      sys_halt status s = Ok (Resume (pcb_esp p) (pcb_ebp p) (u32 (status + pcb_exception_flag p)), s') /\
      process_table (upd st (get curThread s) l) s' /\ returned shown j s s'
  | [] => exists s', sys_halt status s = Ok (WaitForScheduler, s') /\
      process_table (upd st (get curThread s) []) s' /\
      get shellStarted s' = upd (get shellStarted s) (get curThread s) 0 /\
      get mem s' = get mem s /\ get pag s' = get pag s
  end.
Proof.
  intros Hpt Ht Hcur Hl Hpag Hst. destruct l as [|j l].
  - destruct (table_top _ _ _ _ _ Hpt Ht) as (p' & Hl' & Hok & Hi & Hlen).
    rewrite (live_inj _ _ _ _ Hl' Hl) in Hok, Hlen. pose proof (at_inv _ _ _ Ht) as Hr. rewrite (pt_terms _ _ Hpt) in Hr.
    assert (0 <= pcb_parent_terminal p < NUM_TERMINALS) as Hterm by (rewrite (po_term _ _ _ _ Hok); unfold NUM_TERMINALS; lia).
    eexists. split; [apply (halt_shell_run status i p s); try done; [apply Hok|apply Hpt|apply Hok]|].
    split_and!; [by eapply table_pop|done..].
  - destruct (halt_returns status shown proc st i j l p s Hpt Ht Hcur Hl Hpag) as (s' & Hrun & _ & Hpt' & Hret).
    by exists s'.
Qed.

Lemma sys_halt_pops_process_witness :
  exists s', sys_halt 3 shell_running = Ok (WaitForScheduler, s') /\ get shellStarted s' = [0; 0; 0] /\
    process_table [[]; []; []] s'.
Proof.
  destruct (sys_halt_pops_process 3 0 (Some 0) [[0]; []; []] 0 [] shell_pcb shell_running) as (s' & Hrun & Hpt & Hst & _).
  - apply shell_running_table.
  - reflexivity.
  - reflexivity.
  - split; reflexivity.
  - apply shell_running_paging.
  - reflexivity.
  - exists s'. exact (conj Hrun (conj Hst Hpt)).
Defined.

(** C4: running a program and halting it brings the caller back: its stack of
    processes, the process table, every live control block, its page map, its
    descriptors and its stack registers are those of before the call, and the call
    returns the status of the program. *)
Theorem execute_halt_round_trip command cmd shown proc size im st j l pid_ ino c status s :
  command_at command cmd s -> paging_inv shown proc (get pag s) -> disk size im s ->
  process_table st s -> at_ st (get curThread s) = Some (j :: l) -> get cur_pid s = j ->
  free_pid (get PCB_ptrs s) = Some pid_ -> program_file im cmd = Some (ino, c) -> runnable c -> 0 <= status < 256 ->
  exists s1 s2, sys_execute command s = Ok (EnterUser (entry_point c) USER_ESP USER_CS USER_DS, s1) /\
    sys_halt status s1 = Ok (Resume (get cpu_esp s) (get cpu_ebp s) status, s2) /\
    process_table st s2 /\ get PCB_ptrs s2 = get PCB_ptrs s /\ (forall k p, live s k p -> live s2 k p) /\
    get cur_pid s2 = j /\ get fdt s2 = Some j /\ get tss_esp0 s2 = EIGHT_MB - j * EIGHT_KB - 4 /\
    paging_inv shown (Some j) (get pag s2).
Proof.
  intros Hcmd Hpag Hdisk Hpt Ht Hcur Hpid Hfile Hok Hstatus.
  destruct (table_inherits _ _ _ Hpt Ht Hcur) as [Hinh Ht3].
  destruct (lowest_slot_spec _ _ _ _ Hpid) as (Hp & Hfree & _).
  destruct (at_Some (get pcbs s) pid_) as [p Hp']; [rewrite (pt_pcbs _ _ Hpt); lia|].
  destruct (execute_started_run command cmd shown proc size im pid_ (get curThread s) ino c p s) as (s1 & Hrun & Hst);
    try done; try apply Hpt; try (by rewrite Hcur); try (by eapply (pt_lens _ _ Hpt)).
  rewrite Hcur in Hst. change j with (top (j :: l)) in Hst.
  pose proof (started_table _ _ _ _ _ _ _ _ Hpt Ht Hpid Hst) as Hpt1. destruct Hst as [Eptrs Epcbs Ecur _ _ _ Hpag1 _ _ _ _ _ Esch _ _ _].
  assert (get curThread s1 = get curThread s) as Et by (change (t_curThread (get sch s1) = t_curThread (get sch s)); by rewrite Esch).
  pose proof (at_inv _ _ _ Ht) as Hr.
  set (P := Pcb pid_ (top (j :: l)) (process_pde pid_) (get cpu_esp s) (get cpu_ebp s) 0 (get curThread s) initial_files) in *.
  assert (live s1 pid_ P) as Hl1.
  { split; [rewrite Eptrs|rewrite Epcbs]; apply at_upd_eq; [rewrite (pt_ptrs _ _ Hpt)|rewrite (pt_pcbs _ _ Hpt)]; lia. }
  destruct (halt_returns status shown (Some pid_) (upd st (get curThread s) (pid_ :: j :: l)) pid_ j l P s1) as (s2 & Hrun2 & Ep2 & Hpt2 & Hret);
    try done; [rewrite Et; apply at_upd_eq; lia|].
  exists s1, s2. rewrite Et, upd_upd, (upd_same _ _ _ Ht) in Hpt2.
  assert (get PCB_ptrs s2 = get PCB_ptrs s) as E2 by (rewrite Ep2, Eptrs, upd_upd; by apply upd_same).
  destruct Hret as [Hc2 Hf2 He2 Hpag2 _ Epc2 _ _ _]. change (pcb_exception_flag P) with 0 in Hrun2. rewrite Z.add_0_r, u32_small in Hrun2 by lia.
  split_and!; try done. intros k q [Hk Hq]. split; [by rewrite E2|]. rewrite Epc2, Epcbs.
  rewrite at_upd_ne; [done| |lia]. intros <-. congruence.
Qed.

Lemma execute_halt_round_trip_witness :
  exists s1 s2, sys_execute shell_command shell_running = Ok (EnterUser 0x8048000 0x83FFFFC 0x23 0x2B, s1) /\
    sys_halt 3 s1 = Ok (Resume 0x7FFFF0 0x7FFFF8 3, s2) /\ get PCB_ptrs s2 = Some 0 :: replicate 5 None /\
    get cur_pid s2 = 0.
Proof.
  destruct (execute_halt_round_trip shell_command [115; 104; 101; 108; 108] 0 (Some 0) 0x3000 shell_image
    [[0]; []; []] 0 [] 1 0 shell_program 3 shell_running) as (s1 & s2 & Hrun1 & Hrun2 & _ & Hp & _ & Hc & _).
  - apply (shell_command_at 0 (Some 0)); [apply shell_running_paging|reflexivity].
  - apply shell_running_paging.
  - apply (shell_disk 0 (Some 0)); [apply shell_running_paging|reflexivity|reflexivity].
  - apply shell_running_table.
  - reflexivity.
  - reflexivity.
  - reflexivity.
  - reflexivity.
  - apply shell_runnable.
  - lia.
  - exists s1, s2. exact (conj Hrun1 (conj Hrun2 (conj Hp Hc))).
Defined.
