(* ===== verification/Pit.v ===== *)
(** * pit.c: the scheduler

    The timer interrupt switches between the three terminals round robin and
    starts a shell on a terminal that has none. *)

From S2P Require Import Prelude Memory Lib Filesystem Machine Pic Screen Paging Rtc Terminal Syscall.

(** ** Constants of pit.h *)

Definition PIT_IRQ : Z := 0.
Definition PIT_RATE : Z := 35.
Definition PIT_MODE_REG : Z := 0x43.
Definition PIT_DATA_REG : Z := 0x40.
Definition LOW_8 : Z := 0xff.
Definition PIT_BASE_RATE : Z := 1193182.
Definition PIT_MODE_SET : Z := 0x34.

(** ** Operations *)

(** How the handler ends: the stack of another thread is current and the
    interrupted thread of it continues, or [sys_execute] was called. *)
Inductive tick :=
| Switched (sp bp : Z)
| Executed (o : outcome).

Definition str_shell : list Z := [115; 104; 101; 108; 108].

Definition start_shell : K tick :=
  wr cur_pid (-1) ;;;
  t ← rd curThread; wr_at shellStarted t 1 ;;;
  send_eoi PIT_IRQ ;;;
  a ← literal 7 str_shell;
  o ← sys_execute a;
  mret (Executed o).

Definition PIThandler : K tick :=
  t ← rd curThread;
  started ← rd_at shellStarted t;
  if started =? 0 then start_shell
  else
    sp ← rd cpu_esp; wr_at ESPstore t sp ;;;
    bp ← rd cpu_ebp; wr_at EBPstore t bp ;;;
    p ← rd cur_pid; wr_at PIDstore t (u32 p) ;;;
    wr curThread (Z.rem (t + 1) NUM_THREADS) ;;;
    t ← rd curThread;
    started ← rd_at shellStarted t;
    if started =? 0 then start_shell
    else
      p ← rd_at PIDstore t;
      wr cur_pid (s32 p) ;;;
      p ← rd cur_pid;
      j ← pcb_slot p;
      wr fdt (Some j) ;;;
      wr_field page_directory PROCESS_PAGING_INDEX page_table_address
        (u20 (Z.shiftr (PROCESS_BASE_4KB_ALIGNED_ADDRESS + p * FOUR_MB) PDE_PTE_ADDRESS_SHIFT)) ;;;
      clearTLB ;;;
      wr tss_esp0 (u32 (PROCESS_BASE_4KB_ALIGNED_ADDRESS - p * EIGHT_KB - LONG_BYTES)) ;;;
      send_eoi PIT_IRQ ;;;
      sp ← rd_at ESPstore t; wr cpu_esp sp ;;;
      bp ← rd_at EBPstore t; wr cpu_ebp bp ;;;
      mret (Switched sp bp).

Definition PITinit : K unit :=
  for_ 3 0 (fun i => wr_at shellStarted i 0) ;;;
  wr curThread 0 ;;;
  outb PIT_MODE_SET PIT_MODE_REG ;;;
  let pit_val := PIT_BASE_RATE / PIT_RATE in
  outb (Z.land pit_val LOW_8) PIT_DATA_REG ;;;
  outb (Z.shiftr pit_val 8) PIT_DATA_REG.
