(* ===== verification/Scheduling.v ===== *)
(** * Scheduling: the timer interrupt and the three threads

    Each terminal is a thread whose stack of processes is the abstract table of
    file ProcessTable; the running process of a thread is the top of its stack.
    The theorems show that [PIThandler] of pit.c gives the processor to the threads
    in turn, that a thread continues where it was interrupted, and that system
    calls and timer interrupts keep the invariant of the process table. *)

From S2P Require Import Prelude Memory Lib Filesystem Machine Pic Screen Paging Rtc Terminal LineEditor Syscall FileTable Processes ProcessTable Pit.

(** ** Specification *)

Definition next_thread (t : Z) : Z := if t =? 2 then 0 else t + 1.

(** The threads, with the stacks [st]; [shown] is the terminal on the display. *)
Record threads (shown : Z) (st : list (list Z)) (s : machine) : Prop := {
  tr_table : process_table st s;
  tr_cur : 0 <= get curThread s < 3;
  tr_lens : length (get shellStarted s) = 3%nat /\ length (get ESPstore s) = 3%nat /\
    length (get EBPstore s) = 3%nat /\ length (get PIDstore s) = 3%nat;
  tr_started : forall t l, at_ st t = Some l -> (at_ (get shellStarted s) t = Some 0 <-> l = []);
  tr_pid : forall t i l, at_ st t = Some (i :: l) ->
    if decide (t = get curThread s) then get cur_pid s = i else at_ (get PIDstore s) t = Some i;
  tr_page : exists proc, paging_inv shown proc (get pag s) /\
    forall i l, at_ st (get curThread s) = Some (i :: l) -> proc = Some i;
  tr_fdt : forall i l, at_ st (get curThread s) = Some (i :: l) -> get fdt s = Some i
}.

(** ** Lemmas *)

Lemma next_thread_range t : 0 <= t < 3 -> 0 <= next_thread t < 3 /\ next_thread t <> t.
Proof. unfold next_thread. destruct (Z.eqb_spec t 2); lia. Qed.

Lemma rem_next t : 0 <= t < 3 -> Z.rem (t + 1) NUM_THREADS = next_thread t.
Proof. intros Ht. assert (t = 0 \/ t = 1 \/ t = 2) as [->|[->| ->]] by lia; reflexivity. Qed.

(** The table depends on the process structures only. *)
Lemma table_same st s s' :
  get PCB_ptrs s' = get PCB_ptrs s -> get pcbs s' = get pcbs s -> get fops_tables s' = get fops_tables s ->
  process_table st s -> process_table st s'.
Proof.
  intros Ep Ec Ef [Ht Hp Hc Hl Hst Ho Hf]. split; rewrite ?Ep, ?Ec, ?Ef; try done.
  intros t l Hl'. destruct (Hst t l Hl') as [Hs Hn]. split; [|done].
  apply (stack_mono s); [|done]. intros i p parent _ [H1 H2] Hok. exists p. split; [|done].
  split; [by rewrite Ep|by rewrite Ec].
Qed.

(** The state after the interrupted thread is saved. *)
Definition saved (s : machine) : machine :=
  let t := get curThread s in
  set curThread (next_thread t)
    (set PIDstore (upd (get PIDstore s) t (u32 (get cur_pid s)))
       (set EBPstore (upd (get EBPstore s) t (get cpu_ebp s))
          (set ESPstore (upd (get ESPstore s) t (get cpu_esp s)) s))).

(** [PIThandler] from the check of the next thread on. *)
Local Definition pit_tail : K tick :=
  t ← rd curThread;
  started ← rd_at shellStarted t;
  if started =? 0 then start_shell
  else
    p ← rd_at PIDstore t;
    wr cur_pid (s32 p) ;;;
    p ← rd cur_pid;
    j ← pcb_slot p;
    wr fdt (Some j) ;;;
    wr_field page_directory PROCESS_PAGING_INDEX page_table_address
      (u20 (Z.shiftr (PROCESS_BASE_4KB_ALIGNED_ADDRESS + p * FOUR_MB) PDE_PTE_ADDRESS_SHIFT)) ;;;
    clearTLB ;;;
    wr tss_esp0 (u32 (PROCESS_BASE_4KB_ALIGNED_ADDRESS - p * EIGHT_KB - LONG_BYTES)) ;;;
    send_eoi PIT_IRQ ;;;
    sp ← rd_at ESPstore t; wr cpu_esp sp ;;;
    bp ← rd_at EBPstore t; wr cpu_ebp bp ;;;
    mret (Switched sp bp).

Lemma save_run s v :
  0 <= get curThread s < 3 -> length (get ESPstore s) = 3%nat -> length (get EBPstore s) = 3%nat ->
  length (get PIDstore s) = 3%nat -> at_ (get shellStarted s) (get curThread s) = Some v -> v <> 0 ->
  PIThandler s = pit_tail (saved s).
Proof.
  intros Ht He Hb Hp Hv Hne. unfold PIThandler. rewrite (bind_ok _ _ _ _ _ (rd_run _ _)).
  rewrite (bind_ok _ _ _ _ _ (rd_at_run _ _ _ _ Hv)), (proj2 (Z.eqb_neq v 0) Hne).
  set (t := get curThread s) in *.
  rewrite (bind_ok _ _ _ _ _ (rd_run _ _)), (bind_ok _ _ _ _ _ (wr_at_run ESPstore t _ s ltac:(lia))).
  set (s1 := set ESPstore _ s).
  rewrite (bind_ok _ _ _ _ _ (rd_run _ _)), (bind_ok _ _ _ _ _ (wr_at_run EBPstore t _ s1 ltac:(change (get EBPstore s1) with (get EBPstore s); lia))).
  set (s2 := set EBPstore _ s1).
  rewrite (bind_ok _ _ _ _ _ (rd_run _ _)), (bind_ok _ _ _ _ _ (wr_at_run PIDstore t _ s2 ltac:(change (get PIDstore s2) with (get PIDstore s); lia))).
  rewrite rem_next by done. rewrite (bind_ok _ _ _ _ _ (wr_run _ _ _)). reflexivity.
Qed.

(** Thread [t] continues, with process [j], at the stack registers [sp] and [bp]. *)
Record continues (t j sp bp : Z) (s s' : machine) : Prop := {
  ct_thread : get curThread s' = t;
  ct_pid : get cur_pid s' = j;
  ct_fdt : get fdt s' = Some j;
  ct_esp0 : get tss_esp0 s' = EIGHT_MB - j * EIGHT_KB - 4;
  ct_esp : get cpu_esp s' = sp;
  ct_ebp : get cpu_ebp s' = bp;
  ct_ESP : get ESPstore s' = get ESPstore (saved s);
  ct_EBP : get EBPstore s' = get EBPstore (saved s);
  ct_PID : get PIDstore s' = get PIDstore (saved s);
  ct_shells : get shellStarted s' = get shellStarted s;
  ct_ptrs : get PCB_ptrs s' = get PCB_ptrs s;
  ct_pcbs : get pcbs s' = get pcbs s;
  ct_fops : get fops_tables s' = get fops_tables s;
  ct_mem : get mem s' = get mem s;
  ct_fs : get fs_ptrs s' = get fs_ptrs s;
  ct_irqc : get irqc s' = get irqc s;
  ct_page : exists d, at_ (get page_directory s) 32 = Some d /\
    get pag s' = get pag (set page_directory (upd (get page_directory s) 32
      (set page_table_address (u20 (Z.shiftr (process_frame j) 12)) d)) s)
}.

Lemma switch_run s j v sp bp d :
  let t := get curThread (saved s) in
  at_ (get shellStarted s) t = Some v -> v <> 0 -> at_ (get PIDstore (saved s)) t = Some j -> 0 <= j < 6 ->
  at_ (get PCB_ptrs s) j = Some (Some j) -> at_ (get page_directory s) 32 = Some d ->
  at_ (get ESPstore (saved s)) t = Some sp -> at_ (get EBPstore (saved s)) t = Some bp ->
  exists s', pit_tail (saved s) = Ok (Switched sp bp, s') /\ continues t j sp bp s s'.
Proof.
  intros t Hv Hne Hj Hj6 Hslot Hd Hsp Hbp. set (s1 := saved s) in *. unfold pit_tail.
  rewrite (bind_ok _ _ _ _ _ (rd_run _ _)). fold t.
  rewrite (bind_ok _ _ _ _ _ (rd_at_run shellStarted t s1 v Hv)), (proj2 (Z.eqb_neq v 0) Hne).
  rewrite (bind_ok _ _ _ _ _ (rd_at_run PIDstore t s1 j Hj)), s32_small by lia.
  rewrite (bind_ok _ _ _ _ _ (wr_run _ _ _)), (bind_ok _ _ _ _ _ (rd_run _ _)).
  set (s2 := set cur_pid j s1). change (get cur_pid s2) with j.
  rewrite (bind_ok _ _ _ _ _ (pcb_slot_run j j s2 Hslot)), (bind_ok _ _ _ _ _ (wr_run _ _ _)).
  set (s3 := set fdt (Some j) s2). set (page := u20 _).
  rewrite (bind_ok _ _ _ _ _ (wr_field_at page_directory PROCESS_PAGING_INDEX page_table_address page d s3 Hd)).
  set (s4 := set page_directory _ s3). rewrite (bind_ok _ _ _ _ _ (clearTLB_run _)).
  set (s5 := set trace _ s4). rewrite (bind_ok _ _ _ _ _ (wr_run _ _ _)).
  set (s6 := set tss_esp0 _ s5). destruct (send_eoi_run PIT_IRQ s6) as [evs He].
  rewrite (bind_ok _ _ _ _ _ He). set (s7 := set trace (evs ++ _) s6).
  rewrite (bind_ok _ _ _ _ _ (rd_at_run ESPstore t s7 sp Hsp)), (bind_ok _ _ _ _ _ (wr_run _ _ _)).
  set (s8 := set cpu_esp sp s7).
  rewrite (bind_ok _ _ _ _ _ (rd_at_run EBPstore t s8 bp Hbp)), (bind_ok _ _ _ _ _ (wr_run _ _ _)).
  eexists. split; [reflexivity|]. split; try done.
  - change (u32 (EIGHT_MB - j * EIGHT_KB - 4) = EIGHT_MB - j * EIGHT_KB - 4).
    apply u32_small. unfold EIGHT_MB, EIGHT_KB. lia.
  - by exists d.
Qed.

Lemma saved_length s :
  length (get ESPstore (saved s)) = length (get ESPstore s) /\
  length (get EBPstore (saved s)) = length (get EBPstore s) /\
  length (get PIDstore (saved s)) = length (get PIDstore s).
Proof. split_and!; apply length_upd. Qed.

(** The address field of a process page is all that differs between processes. *)
Lemma retarget_pde i j : set page_table_address (u20 (Z.shiftr (process_frame j) 12)) (process_pde i) = process_pde j.
Proof. reflexivity. Qed.

Lemma threads_saved_pid shown st s t i l :
  threads shown st s -> at_ st t = Some (i :: l) -> at_ (get PIDstore (saved s)) t = Some i /\ 0 <= i < 6.
Proof.
  intros Hth Ht. pose proof (at_inv _ _ _ Ht) as Hr. rewrite (pt_terms _ _ (tr_table _ _ _ Hth)) in Hr.
  destruct (table_top _ _ _ _ _ (tr_table _ _ _ Hth) Ht) as (p & _ & _ & Hi & _). unfold MAX_PROCESSES in Hi.
  pose proof (tr_pid _ _ _ Hth t i l Ht) as Hpid. pose proof (tr_lens _ _ _ Hth) as (_ & _ & _ & Hlen).
  split; [|done]. change (get PIDstore (saved s)) with (upd (get PIDstore s) (get curThread s) (u32 (get cur_pid s))).
  pose proof (tr_cur _ _ _ Hth). destruct (decide (t = get curThread s)) as [->|Hne].
  - rewrite at_upd_eq, Hpid, u32_small by lia. done.
  - by rewrite at_upd_ne by (congruence || lia).
Qed.

Lemma threads_continue shown st s s' i l j l' sp bp :
  threads shown st s -> at_ st (get curThread s) = Some (i :: l) ->
  at_ st (next_thread (get curThread s)) = Some (j :: l') ->
  continues (next_thread (get curThread s)) j sp bp s s' ->
  threads shown st s' /\ paging_inv shown (Some j) (get pag s').
Proof.
  intros Hth Ht Hn []. pose proof (tr_cur _ _ _ Hth) as Hc. destruct (next_thread_range _ Hc) as [Hnr Hne].
  destruct (threads_saved_pid _ _ _ _ _ _ Hth Hn) as [_ Hj].
  assert (paging_inv shown (Some j) (get pag s')) as Hpag'.
  { destruct (tr_page _ _ _ Hth) as (proc & Hpag & Hproc). rewrite (Hproc _ _ Ht) in Hpag.
    destruct ct_page0 as (d & Hd & ->). destruct (pi_32 _ _ _ Hpag d Hd) as [_ ->].
    change (new_pde (Z.shiftr (process_frame i) 12) 1 1) with (process_pde i). rewrite retarget_pde.
    by apply (paging_inv_process shown (Some i) j (get pag s) _ Hpag). }
  split; [|exact Hpag']. destruct (tr_lens _ _ _ Hth) as (L1 & L2 & L3 & L4). split.
  - by eapply table_same; [..|apply Hth].
  - by rewrite ct_thread0.
  - rewrite ct_shells0, ct_ESP0, ct_EBP0, ct_PID0. destruct (saved_length s) as (-> & -> & ->). done.
  - intros t l0. rewrite ct_shells0. apply Hth.
  - intros t k l0 Hk. rewrite ct_thread0, ct_pid0, ct_PID0. destruct (decide (t = _)) as [->|Hne'].
    + rewrite Hn in Hk. by injection Hk.
    + by eapply threads_saved_pid.
  - exists (Some j). split; [done|]. intros k l0. rewrite ct_thread0, Hn. by intros [= <- _].
  - intros k l0. rewrite ct_thread0, Hn. by intros [= <- _].
Qed.

(** A timer interrupt that finds the next thread started. *)
Lemma tick_run shown st s i l j l' sp bp :
  threads shown st s -> at_ st (get curThread s) = Some (i :: l) ->
  at_ st (next_thread (get curThread s)) = Some (j :: l') ->
  at_ (get ESPstore s) (next_thread (get curThread s)) = Some sp ->
  at_ (get EBPstore s) (next_thread (get curThread s)) = Some bp ->
  exists s', PIThandler s = Ok (Switched sp bp, s') /\ continues (next_thread (get curThread s)) j sp bp s s'.
Proof.
  intros Hth Ht Hn Hsp Hbp. pose proof (tr_cur _ _ _ Hth) as Hc. destruct (next_thread_range _ Hc) as [Hnr Hne].
  destruct (tr_lens _ _ _ Hth) as (L1 & L2 & L3 & L4).
  assert (forall t k l0, at_ st t = Some (k :: l0) -> exists v, at_ (get shellStarted s) t = Some v /\ v <> 0) as Hst.
  { intros t k l0 Hk. pose proof (at_inv _ _ _ Hk) as Hr. rewrite (pt_terms _ _ (tr_table _ _ _ Hth)) in Hr.
    destruct (at_Some (get shellStarted s) t) as [v Hv]; [lia|]. exists v. split; [done|]. intros ->.
    by apply (tr_started _ _ _ Hth _ _ Hk) in Hv. }
  destruct (Hst _ _ _ Ht) as (v & Hv & Hv0). destruct (Hst _ _ _ Hn) as (w & Hw & Hw0).
  destruct (threads_saved_pid _ _ _ _ _ _ Hth Hn) as [Hj Hj6].
  destruct (table_top _ _ _ _ _ (tr_table _ _ _ Hth) Hn) as (p & [Hslot _] & _).
  destruct (tr_page _ _ _ Hth) as (proc & Hpag & _).
  destruct (at_Some (get page_directory s) 32) as [d Hd].
  { pose proof (pi_pd _ _ _ Hpag) as Hl. change (length (get page_directory s) = 1024%nat) in Hl. lia. }
  destruct (switch_run s j w sp bp d Hw Hw0 Hj Hj6 Hslot Hd) as (s' & Hrun & Hcont).
  - change (at_ (upd (get ESPstore s) (get curThread s) (get cpu_esp s)) (next_thread (get curThread s)) = Some sp).
    by rewrite at_upd_ne by (congruence || lia).
  - change (at_ (upd (get EBPstore s) (get curThread s) (get cpu_ebp s)) (next_thread (get curThread s)) = Some bp).
    by rewrite at_upd_ne by (congruence || lia).
  - exists s'. split; [|exact Hcont]. by rewrite (save_run s v).
Qed.

(** *** Starting a shell *)

(** The file system has a program named shell. *)
Definition has_shell (im : fs_image) (ino : Z) (c : list Z) : Prop :=
  program_file im str_shell = Some (ino, c) /\ runnable c.

Lemma literal_command n l s :
  5 <= n < 0x1000 -> (forall i c, l !! i = Some c -> 0 <= c < 256 /\ c <> 0) -> Z.of_nat (length l) < 0x10000 ->
  exists s', literal n l s = Ok (local_array n, s') /\ locals_only s s' /\ command_at (local_array n) l s'.
Proof.
  intros Hn Hl Hlen. destruct (literal_run n l s) as (s' & Hrun & Hlo & Hb); [intros i c Hi; by apply (Hl i)|lia|done|].
  exists s'. split_and!; [done|done|]. split; [exact Hb| |intros i c Hi; by apply (Hl i)].
  unfold local_array in *. lia.
Qed.

(** The states that differ in nothing a process depends on. *)
Record same_kernel (s s' : machine) : Prop := {
  sk_ptrs : get PCB_ptrs s' = get PCB_ptrs s;
  sk_pcbs : get pcbs s' = get pcbs s;
  sk_fops : get fops_tables s' = get fops_tables s;
  sk_pag : get pag s' = get pag s;
  sk_mem : get mem s' = get mem s;
  sk_fs : get fs_ptrs s' = get fs_ptrs s
}.

Lemma same_disk size im s s' : same_kernel s s' -> disk size im s -> disk size im s'.
Proof.
  intros [_ _ _ Eg Em Ef] [Hrep Hpl Hby]. assert (view s' = view s) as Ev by (unfold view; by rewrite Eg, Em).
  split; rewrite ?Ef, ?Ev; done.
Qed.

Lemma start_shell_run shown proc st size im pid_ ino c s :
  process_table st s -> at_ st (get curThread s) = Some [] -> length (get shellStarted s) = 3%nat ->
  paging_inv shown proc (get pag s) -> disk size im s -> free_pid (get PCB_ptrs s) = Some pid_ -> has_shell im ino c ->
  exists s' s1, start_shell s = Ok (Executed (EnterUser (entry_point c) USER_ESP USER_CS USER_DS), s') /\
    started shown pid_ (-1) (get curThread s) str_shell c s1 s' /\
    process_table (upd st (get curThread s) [pid_]) s' /\ disk size im s' /\
    get sch s' = get sch (set shellStarted (upd (get shellStarted s) (get curThread s) 1) s) /\
    get irqc s' = get irqc s.
Proof.
  intros Hpt Ht Hlen Hpag Hdisk Hpid [Hfile Hok]. set (t := get curThread s) in *.
  pose proof (at_inv _ _ _ Ht) as Hr. rewrite (pt_terms _ _ Hpt) in Hr. unfold start_shell.
  rewrite (bind_ok _ _ _ _ _ (wr_run _ _ _)), (bind_ok _ _ _ _ _ (rd_run _ _)).
  set (s1 := set cur_pid (-1) s). change (get curThread s1) with t.
  rewrite (bind_ok _ _ _ _ _ (wr_at_run shellStarted t 1 s1 ltac:(change (get shellStarted s1) with (get shellStarted s); lia))).
  set (s2 := set shellStarted _ s1). destruct (send_eoi_run PIT_IRQ s2) as [evs He].
  rewrite (bind_ok _ _ _ _ _ He). set (s3 := set trace _ s2).
  assert (same_kernel s s3) as Hsame by (by split).
  destruct (literal_command 7 str_shell s3) as (s4 & Hlit & Hlo & Hcmd); [lia| |simpl; lia|].
  { intros i x Hi. assert (x ∈ str_shell) as Hin by (by eapply list_elem_of_lookup_2). unfold str_shell in Hin.
    set_unfold in Hin. lia. }
  rewrite (bind_ok _ _ _ _ _ Hlit).
  assert (forall B (l : lens machine B), (forall m, get l (set mem m s3) = get l s3) -> get l s4 = get l s3) as Hget
    by (intros; by apply locals_get).
  assert (process_table st s4) as Hpt4.
  { apply (table_same st s); rewrite ?(Hget _ PCB_ptrs), ?(Hget _ pcbs), ?(Hget _ fops_tables); try done. }
  assert (paging_inv shown proc (get pag s4)) as Hpag4 by (by rewrite (Hget _ pag)).
  assert (disk size im s4) as Hdisk4.
  { eapply disk_locals; [exact Hlo|by apply (paging_inv_apart shown proc)|by apply (same_disk _ _ s)]. }
  assert (get curThread s4 = t) as Et by (by rewrite (Hget _ curThread)).
  assert (at_ st (get curThread s4) = Some []) as Ht4 by (by rewrite Et).
  assert (get cur_pid s4 = top []) as Hcur4 by (by rewrite (Hget _ cur_pid)).
  assert (free_pid (get PCB_ptrs s4) = Some pid_) as Hpid4 by (by rewrite (Hget _ PCB_ptrs)).
  destruct (table_inherits _ _ _ Hpt4 Ht4 Hcur4) as [Hinh Ht3]. rewrite Et in Hinh, Ht3.
  destruct (lowest_slot_spec _ _ _ _ Hpid4) as (Hp & Hfree & _).
  destruct (at_Some (get pcbs s4) pid_) as [p Hp']; [rewrite (pt_pcbs _ _ Hpt4); lia|].
  destruct (execute_started_run (local_array 7) str_shell shown proc size im pid_ t ino c p s4) as (s' & Hrun & Hst);
    try done; try apply Hpt4; try (by rewrite Hcur4); try (by eapply (pt_lens _ _ Hpt4)).
  rewrite (bind_ok _ _ _ _ _ Hrun), Hcur4 in *. exists s', s4. split_and!; [reflexivity|done| | | |].
  - rewrite <- Et. eapply (started_table st []); [done|done|done|]. by rewrite Et.
  - by eapply started_disk.
  - rewrite (st_sch _ _ _ _ _ _ _ _ Hst). rewrite (Hget _ sch) by done. reflexivity.
  - rewrite (st_irqc _ _ _ _ _ _ _ _ Hst). by rewrite (Hget _ irqc).
Qed.

Lemma start_shell_threads shown st size im pid_ ino c s :
  threads shown st s -> at_ st (get curThread s) = Some [] -> disk size im s ->
  free_pid (get PCB_ptrs s) = Some pid_ -> has_shell im ino c ->
  exists s', start_shell s = Ok (Executed (EnterUser (entry_point c) USER_ESP USER_CS USER_DS), s') /\
    threads shown (upd st (get curThread s) [pid_]) s' /\ disk size im s' /\
    get curThread s' = get curThread s /\ get cur_pid s' = pid_ /\ get irqc s' = get irqc s /\
    bytes_at (view s') PROGRAM_INIT_VIRTUAL_ADDR c.
Proof.
  intros Hth Ht Hdisk Hpid Hsh. pose proof Hth as [Hpt Hc (L1 & L2 & L3 & L4) Hst Hpids (proc & Hpag & _) _].
  destruct (start_shell_run shown proc st size im pid_ ino c s Hpt Ht L1 Hpag Hdisk Hpid Hsh)
    as (s' & s1 & Hrun & Hs & Hpt' & Hdisk' & Esch & Eirq).
  exists s'. destruct Hs as [_ _ Ecur Efdt _ _ Hpag' Hprog _ _ _ _ _ _ _ _].
  assert (forall B (l : lens machine B), (forall x y, get sch x = get sch y -> get l x = get l y) ->
    get l s' = get l (set shellStarted (upd (get shellStarted s) (get curThread s) 1) s)) as Hget by (intros B l Hl; by apply Hl).
  assert (get curThread s' = get curThread s) as Et
    by (rewrite (Hget _ curThread) by (intros x y E; exact (f_equal t_curThread E)); reflexivity).
  assert (get PIDstore s' = get PIDstore s) as Ep
    by (rewrite (Hget _ PIDstore) by (intros x y E; exact (f_equal t_PIDstore E)); reflexivity).
  assert (get ESPstore s' = get ESPstore s) as Ee
    by (rewrite (Hget _ ESPstore) by (intros x y E; exact (f_equal t_ESPstore E)); reflexivity).
  assert (get EBPstore s' = get EBPstore s) as Eb
    by (rewrite (Hget _ EBPstore) by (intros x y E; exact (f_equal t_EBPstore E)); reflexivity).
  assert (get shellStarted s' = upd (get shellStarted s) (get curThread s) 1) as Es
    by (rewrite (Hget _ shellStarted) by (intros x y E; exact (f_equal t_shellStarted E)); reflexivity).
  pose proof (at_inv _ _ _ Ht) as Hr.
  split_and!; try done. split; rewrite ?Et, ?Ep, ?Ee, ?Eb, ?Es, ?length_upd; try done.
  - intros t l. destruct (decide (t = get curThread s)) as [->|Hne].
    + rewrite !at_upd_eq by lia. by intros [= <-].
    + rewrite !at_upd_ne by (congruence || lia). apply Hst.
  - intros t i l. destruct (decide (t = get curThread s)) as [->|Hne].
    + rewrite at_upd_eq by lia. by intros [= <- _].
    + rewrite at_upd_ne by (congruence || lia). intros Hi. pose proof (Hpids t i l Hi) as H.
      by destruct (decide (t = get curThread s)).
  - exists (Some pid_). split; [done|]. intros i l. rewrite at_upd_eq by lia. by intros [= <- _].
  - intros i l. rewrite at_upd_eq by lia. by intros [= <- _].
Qed.

(** The saved state, when the next thread has no process. *)
Lemma saved_threads shown st s :
  threads shown st s -> at_ st (next_thread (get curThread s)) = Some [] -> threads shown st (saved s).
Proof.
  intros Hth Hn. pose proof Hth as [Hpt Hc (L1 & L2 & L3 & L4) Hst Hpids (proc & Hpag & _) _].
  destruct (next_thread_range _ Hc) as [Hnr Hne]. destruct (saved_length s) as (E1 & E2 & E3). split.
  - by apply (table_same st s).
  - exact Hnr.
  - split_and!; [exact L1|by rewrite E1|by rewrite E2|by rewrite E3].
  - exact Hst.
  - intros t i l Hi. change (get curThread (saved s)) with (next_thread (get curThread s)).
    destruct (decide (t = _)) as [->|]; [congruence|]. by eapply threads_saved_pid.
  - exists proc. split; [exact Hpag|]. intros i l. change (get curThread (saved s)) with (next_thread (get curThread s)).
    by rewrite Hn.
  - intros i l. change (get curThread (saved s)) with (next_thread (get curThread s)). by rewrite Hn.
Qed.

(** The thread whose shell a timer interrupt starts. *)
Definition shell_due (st : list (list Z)) (s : machine) (t : Z) : Prop :=
  at_ st t = Some [] /\
  (t = get curThread s \/
   t = next_thread (get curThread s) /\ exists i l, at_ st (get curThread s) = Some (i :: l)).

Lemma tick_starts_shell shown st size im pid_ ino c t s :
  threads shown st s -> shell_due st s t -> disk size im s ->
  free_pid (get PCB_ptrs s) = Some pid_ -> has_shell im ino c ->
  exists s', PIThandler s = Ok (Executed (EnterUser (entry_point c) USER_ESP USER_CS USER_DS), s') /\
    threads shown (upd st t [pid_]) s' /\ disk size im s' /\
    get curThread s' = t /\ get cur_pid s' = pid_ /\ get irqc s' = get irqc s /\
    bytes_at (view s') PROGRAM_INIT_VIRTUAL_ADDR c.
Proof.
  intros Hth [Ht Hcase] Hdisk Hpid Hsh. pose proof Hth as [Hpt Hc (L1 & L2 & L3 & L4) Hst Hpids _ _].
  destruct Hcase as [->|[-> (i & l & Hi)]].
  - destruct (start_shell_threads shown st size im pid_ ino c s Hth Ht Hdisk Hpid Hsh) as (s' & Hrun & Hrest).
    exists s'. split; [|exact Hrest]. unfold PIThandler. rewrite (bind_ok _ _ _ _ _ (rd_run _ _)).
    pose proof (proj2 (Hst _ _ Ht) eq_refl) as H0. by rewrite (bind_ok _ _ _ _ _ (rd_at_run _ _ _ _ H0)).
  - destruct (at_Some (get shellStarted s) (get curThread s)) as [v Hv]; [lia|].
    assert (v <> 0) as Hv0 by (intros ->; by apply (Hst _ _ Hi) in Hv).
    pose proof (saved_threads _ _ _ Hth Ht) as Hth'.
    destruct (start_shell_threads shown st size im pid_ ino c (saved s) Hth' Ht) as (s' & Hrun & Hrest); try done.
    { by apply (same_disk _ _ s). }
    exists s'. split; [|exact Hrest]. rewrite (save_run s v) by done. unfold pit_tail.
    rewrite (bind_ok _ _ _ _ _ (rd_run _ _)).
    pose proof (proj2 (Hst _ _ Ht) eq_refl) as H0.
    by rewrite (bind_ok _ _ _ _ _ (rd_at_run shellStarted _ (saved s) _ H0)).
Qed.

(** *** The other steps of the kernel *)

(** A change of the running thread's stack. *)
Lemma threads_update shown st s st' s' i l l0 :
  threads shown st s -> get sch s' = get sch s -> process_table st' s' ->
  at_ st (get curThread s) = Some l0 -> l0 <> [] -> at_ st' (get curThread s) = Some (i :: l) ->
  (forall t, t <> get curThread s -> at_ st' t = at_ st t) ->
  get cur_pid s' = i -> get fdt s' = Some i -> paging_inv shown (Some i) (get pag s') -> threads shown st' s'.
Proof.
  intros [Hpt Hc Hlens Hst Hpids _ _] Esch Hpt' Ht Hne Ht' Hother Hcur Hfdt Hpag.
  assert (get curThread s' = get curThread s) as E1 by exact (f_equal t_curThread Esch).
  assert (get shellStarted s' = get shellStarted s) as E2 by exact (f_equal t_shellStarted Esch).
  assert (get ESPstore s' = get ESPstore s) as E3 by exact (f_equal t_ESPstore Esch).
  assert (get EBPstore s' = get EBPstore s) as E4 by exact (f_equal t_EBPstore Esch).
  assert (get PIDstore s' = get PIDstore s) as E5 by exact (f_equal t_PIDstore Esch).
  split; rewrite ?E1, ?E2, ?E3, ?E4, ?E5; try done.
  - intros t k. destruct (decide (t = get curThread s)) as [->|Hd].
    + rewrite Ht'. intros [= <-]. split; [|done]. intros H0. by apply (Hst _ _ Ht) in H0.
    + rewrite Hother by done. apply Hst.
  - intros t k l1. destruct (decide (t = get curThread s)) as [->|Hd].
    + rewrite Ht'. by intros [= <- _].
    + rewrite Hother by done. intros Hk. pose proof (Hpids t k l1 Hk) as H. by destruct (decide (t = get curThread s)).
  - exists (Some i). split; [done|]. intros k l1. rewrite Ht'. by intros [= <- _].
  - intros k l1. rewrite Ht'. by intros [= <- _].
Qed.

Lemma threads_same shown st s s' :
  threads shown st s -> same_kernel s s' \/ (get prc s' = get prc s /\ get pag s' = get pag s) ->
  get sch s' = get sch s -> get cur_pid s' = get cur_pid s -> get fdt s' = get fdt s -> threads shown st s'.
Proof.
  intros [Hpt Hc Hlens Hst Hpids (proc & Hpag & Hproc) Hfdt] Hk Esch Ecur Efdt.
  assert (get curThread s' = get curThread s) as E1 by exact (f_equal t_curThread Esch).
  assert (get shellStarted s' = get shellStarted s) as E2 by exact (f_equal t_shellStarted Esch).
  assert (get ESPstore s' = get ESPstore s) as E3 by exact (f_equal t_ESPstore Esch).
  assert (get EBPstore s' = get EBPstore s) as E4 by exact (f_equal t_EBPstore Esch).
  assert (get PIDstore s' = get PIDstore s) as E5 by exact (f_equal t_PIDstore Esch).
  assert (get pag s' = get pag s /\ process_table st s') as [Eg Hpt'].
  { destruct Hk as [[]|[Ep Eg]]; (split; [done|]); apply (table_same st s); try done.
    - exact (f_equal p_PCB_ptrs Ep).
    - exact (f_equal p_pcbs Ep).
    - exact (f_equal p_fops_tables Ep). }
  split; rewrite ?E1, ?E2, ?E3, ?E4, ?E5, ?Ecur, ?Efdt; try done. exists proc. by rewrite Eg.
Qed.

(** Another control block [q'] for the running process, with the same identity. *)
Lemma table_pcb st s s' t i l q q' :
  process_table st s -> at_ st t = Some (i :: l) -> live s i q ->
  (forall t parent, process_ok t i parent q -> process_ok t i parent q') -> length (pcb_process_fdt q') = 8%nat ->
  get PCB_ptrs s' = get PCB_ptrs s -> get pcbs s' = upd (get pcbs s) i q' ->
  get fops_tables s' = get fops_tables s -> process_table st s'.
Proof.
  intros Hpt Ht [Hp Hq] Hok Hlen Ep Ec Ef. destruct Hpt as [Ht' Hpp Hpc Hlens Hst Ho Hfo]. pose proof (at_inv _ _ _ Hq) as Hri.
  split; rewrite ?Ep, ?Ec, ?Ef, ?length_upd; try done.
  - intros k r. destruct (decide (k = i)) as [->|].
    + rewrite at_upd_eq by lia. by intros [= <-].
    + rewrite at_upd_ne by (congruence || lia). apply Hlens.
  - intros t' l' Hl'. destruct (Hst _ _ Hl') as [Hs Hn]. split; [|done]. apply (stack_mono s); [|done].
    intros k r parent Hk [H1 H2] Hokr. destruct (decide (k = i)) as [->|].
    + exists q'. rewrite Hq in H2. injection H2 as <-. split; [|by apply Hok].
      split; [by rewrite Ep|]. rewrite Ec. apply at_upd_eq. lia.
    + exists r. split; [|done]. split; [by rewrite Ep|]. rewrite Ec. by rewrite at_upd_ne by (congruence || lia).
Qed.

(** Another descriptor table for the running process. *)
Lemma table_files st s s' t i l fl :
  process_table st s -> at_ st t = Some (i :: l) -> Forall entry_ok fl -> length fl = 8%nat ->
  get PCB_ptrs s' = get PCB_ptrs s -> get pcbs s' = get pcbs (put_files i fl s) ->
  get fops_tables s' = get fops_tables s -> process_table st s'.
Proof.
  intros Hpt Ht Hok Hlen Ep Ec Ef. destruct (table_top _ _ _ _ _ Hpt Ht) as (p & [Hp Hq] & _ & Hi & _).
  apply (table_pcb st s s' t i l p (set process_fdt fl p)); try done; [by intros ? ? []|].
  rewrite Ec. unfold put_files. by rewrite Hq.
Qed.

(** The file system through another page map of the kernel. *)
Lemma disk_remap size im shown proc proc' s s' :
  paging_inv shown proc (get pag s) -> paging_inv shown proc' (get pag s') -> disk size im s ->
  get mem s' = get mem s -> get fs_ptrs s' = get fs_ptrs s -> disk size im s'.
Proof.
  intros Hpag Hpag1 [Hrep Hpl Hby] Em Ef. split; rewrite ?Ef; try done.
  apply (fs_rep_transfer (view s)); [|done]. intros a Ha. unfold MAX_PROCESSES, EIGHT_KB, EIGHT_MB, FOUR_MB in *.
  rewrite !(load_cell _ _ a); [|by eapply kernel_cell; [exact Hpag|unfold EIGHT_MB, FOUR_MB; lia]|
    by eapply kernel_cell; [exact Hpag1|unfold EIGHT_MB, FOUR_MB; lia]].
  change (Some (peek (get mem s') a) = Some (peek (get mem s) a)). by rewrite Em.
Qed.

(** ** The kernel as a transition system *)

(** The disks on which every command either runs or is refused. *)
Definition programs_ok (im : fs_image) : Prop :=
  forall ino c, at_ (im_files im) ino = Some c ->
    (4 <= length c)%nat /\ (runnable c \/ take 4 c <> elf_magic \/ (length c < 24)%nat).

(** Some program runs on the current thread. *)
Definition shell_up (s : machine) : Prop :=
  exists v, at_ (get shellStarted s) (get curThread s) = Some v /\ v <> 0.

(** A thread without a shell finds a free slot. *)
Definition slot_for_shell (s : machine) : Prop :=
  forall t, at_ (get shellStarted s) t = Some 0 -> exists pid_, free_pid (get PCB_ptrs s) = Some pid_.

(** The steps: the timer interrupt, the system calls that change processes or
    descriptor tables, and a store by the running program. *)
Inductive step (s : machine) : machine -> Prop :=
| step_tick k s' : slot_for_shell s -> PIThandler s = Ok (k, s') -> step s s'
| step_execute command cmd o s' :
    shell_up s -> command_at command cmd s -> sys_execute command s = Ok (o, s') -> step s s'
| step_halt status o s' : shell_up s -> sys_halt status s = Ok (o, s') -> step s s'
| step_open filename name r s' :
    shell_up s -> 0 < filename -> filename + Z.of_nat (length name) <= 2 ^ 32 ->
    bytes_at (view s) filename name -> covers name 32 -> sys_open filename s = Ok (r, s') -> step s s'
| step_close fd r s' : shell_up s -> sys_close fd s = Ok (r, s') -> step s s'
| step_store a p v :
    0 <= a < 2 ^ 32 -> access (get pag s) a = Some (p, true) -> step s (set mem (poke (get mem s) p v) s).

Record system (shown size : Z) (im : fs_image) (st : list (list Z)) (s : machine) : Prop := {
  sy_threads : threads shown st s;
  sy_disk : disk size im s;
  sy_clock : length (get RTC_read_flag s) = 3%nat
}.

Section invariant.
Context (shown size : Z) (im : fs_image) (shell_ino : Z) (shell_c : list Z).
Hypothesis Hshown : 0 <= shown < NUM_TERMINALS.
Hypothesis Hshell : has_shell im shell_ino shell_c.
Hypothesis Hprogs : programs_ok im.

Lemma clock_same s s' : get irqc s' = get irqc s -> get RTC_read_flag s' = get RTC_read_flag s.
Proof using Type. intros E. exact (f_equal i_RTC_read_flag E). Qed.

(** The running program, while its thread has one. *)
Lemma system_running st s :
  system shown size im st s -> shell_up s ->
  exists i l p, at_ st (get curThread s) = Some (i :: l) /\ get cur_pid s = i /\ get fdt s = Some i /\ live s i p /\
    process_ok (get curThread s) i (top l) p /\ running i (pcb_process_fdt p) s /\
    paging_inv shown (Some i) (get pag s) /\ 0 <= i < 6.
Proof using Type.
  intros [[Hpt Hc Hlens Hst Hpids (proc & Hpag & Hproc) Hfdt] _ _] (v & Hv & Hv0).
  destruct (at_Some st (get curThread s)) as [l0 Hl0]; [rewrite (pt_terms _ _ Hpt); lia|].
  destruct l0 as [|i l]; [pose proof (proj2 (Hst _ _ Hl0) eq_refl); congruence|].
  destruct (table_top _ _ _ _ _ Hpt Hl0) as (p & Hl & Hok & Hi & Hlen). exists i, l, p.
  pose proof (Hpids _ _ _ Hl0) as Hcur. rewrite decide_True in Hcur by done. rewrite (Hproc _ _ Hl0) in Hpag.
  unfold MAX_PROCESSES in Hi. pose proof Hl as [Hl1 Hl2]. split_and!; try done; [by apply (Hfdt i l)| |lia..].
  split; try done; [by apply (Hfdt i l)| |apply Hpt]. exists p. split_and!; try done;
    rewrite (po_term _ _ _ _ Hok); unfold NUM_TERMINALS; lia.
Qed.

(** The timer interrupt returns, and every step keeps the invariant. *)
Lemma tick_returns st s :
  system shown size im st s -> slot_for_shell s ->
  exists k s' st', PIThandler s = Ok (k, s') /\ system shown size im st' s'.
Proof using Hshell.
  intros [Hth Hdisk Hclk] Hslot. pose proof Hth as [Hpt Hc (L1 & L2 & L3 & L4) Hst Hpids _ _].
  pose proof (pt_terms _ _ Hpt) as Hlen. destruct (next_thread_range _ Hc) as [Hnr Hne].
  assert (forall t, shell_due st s t -> exists k s' st', PIThandler s = Ok (k, s') /\ system shown size im st' s') as Hstart.
  { intros t Hdue. pose proof Hdue as [Ht _]. destruct (Hslot t) as [pid_ Hpid]; [by apply (Hst _ _ Ht)|].
    destruct (tick_starts_shell shown st size im pid_ shell_ino shell_c t s Hth Hdue Hdisk Hpid Hshell)
      as (s1 & Hrun1 & Hth1 & Hdisk1 & _ & _ & Hirq & _).
    eexists _, s1, _. split; [exact Hrun1|]. split; [exact Hth1|exact Hdisk1|]. by rewrite (clock_same _ _ Hirq). }
  destruct (at_Some st (get curThread s)) as [[|i l] Hl]; [lia|by apply (Hstart (get curThread s)); split; [|left]|].
  destruct (at_Some st (next_thread (get curThread s))) as [[|j l'] Hl']; [lia| |].
  { apply (Hstart (next_thread (get curThread s))). split; [done|]. right. by eauto. }
  destruct (at_Some (get ESPstore s) (next_thread (get curThread s))) as [sp Hsp]; [lia|].
  destruct (at_Some (get EBPstore s) (next_thread (get curThread s))) as [bp Hbp]; [lia|].
  destruct (tick_run _ _ _ _ _ _ _ _ _ Hth Hl Hl' Hsp Hbp) as (s1 & Hrun1 & Hcont).
  destruct (threads_continue _ _ _ _ _ _ _ _ _ _ Hth Hl Hl' Hcont) as [Hth1 Hpag1]. eexists _, s1, st.
  split; [exact Hrun1|]. split; [exact Hth1| |by rewrite (clock_same _ _ (ct_irqc _ _ _ _ _ _ Hcont))].
  destruct (tr_page _ _ _ Hth) as (proc & Hpag & _).
  apply (disk_remap size im shown proc (Some j) s); [done..| |]; apply Hcont.
Qed.

Lemma tick_system st s k s' :
  system shown size im st s -> slot_for_shell s -> PIThandler s = Ok (k, s') ->
  exists st', system shown size im st' s'.
Proof using Hshell.
  intros Hsys Hslot Hrun. destruct (tick_returns st s Hsys Hslot) as (k1 & s1 & st' & Hrun1 & Hsys1).
  rewrite Hrun1 in Hrun. injection Hrun as _ <-. by exists st'.
Qed.

Lemma locals_system st s s' : system shown size im st s -> locals_only s s' -> system shown size im st s'.
Proof using Type.
  intros [Hth Hdisk Hclk] Hlo. pose proof (tr_page _ _ _ Hth) as (proc & Hpag & _).
  assert (forall B (l : lens machine B), (forall m, get l (set mem m s) = get l s) -> get l s' = get l s) as Hget
    by (intros; by apply locals_get).
  split.
  - apply (threads_same _ _ s); [done| |by rewrite (Hget _ sch)|by rewrite (Hget _ cur_pid)|by rewrite (Hget _ fdt)].
    right. by rewrite (Hget _ prc), (Hget _ pag).
  - eapply disk_locals; [done|by eapply paging_inv_apart|done].
  - by rewrite (Hget _ RTC_read_flag).
Qed.

Lemma execute_system st s command cmd o s' :
  system shown size im st s -> shell_up s -> command_at command cmd s -> sys_execute command s = Ok (o, s') ->
  exists st', system shown size im st' s'.
Proof using Hprogs.
  intros Hsys Hup Hcmd Hrun. destruct (system_running _ _ Hsys Hup) as (i & l & p & Hl & Hcur & _ & _ & _ & _ & Hpag & _).
  pose proof Hsys as [Hth Hdisk Hclk]. pose proof (tr_table _ _ _ Hth) as Hpt.
  assert (free_pid (get PCB_ptrs s) = None \/ refused im cmd -> exists st', system shown size im st' s') as Hno.
  { intros Hcase. destruct (execute_refused_run command cmd shown (Some i) size im s Hcmd Hpag Hdisk (pt_ptrs _ _ Hpt)) as [Hf Hr].
    destruct Hcase as [Hfull|Href].
    - rewrite (Hf Hfull) in Hrun. injection Hrun as _ <-. by exists st.
    - destruct (Hr Href) as (s1 & Hrun1 & Hlo). rewrite Hrun1 in Hrun. injection Hrun as _ <-. exists st. by eapply locals_system. }
  destruct (free_pid (get PCB_ptrs s)) as [pid_|] eqn:Hpid; [|by apply Hno; left].
  destruct (program_file im cmd) as [[ino c]|] eqn:Hfile; [|by apply Hno; right; unfold refused; rewrite Hfile].
  destruct (Hprogs _ _ (program_file_at _ _ _ _ Hfile)) as [H4 [Hok|Hbad]];
    [|by apply Hno; right; unfold refused; rewrite Hfile].
  destruct (table_inherits _ _ _ Hpt Hl Hcur) as [Hinh Ht3]. destruct (lowest_slot_spec _ _ _ _ Hpid) as (Hp & _).
  destruct (at_Some (get pcbs s) pid_) as [q Hq]; [rewrite (pt_pcbs _ _ Hpt); lia|].
  destruct (execute_started_run command cmd shown (Some i) size im pid_ (get curThread s) ino c q s) as (s1 & Hrun1 & Hst);
    try done; try apply Hpt; try (by rewrite Hcur); try (by eapply (pt_lens _ _ Hpt)).
  rewrite Hrun1 in Hrun. injection Hrun as _ <-. rewrite Hcur in Hst. change i with (top (i :: l)) in Hst.
  exists (upd st (get curThread s) (pid_ :: i :: l)). pose proof (at_inv _ _ _ Hl) as Hr. split.
  - apply (threads_update shown st s _ s1 pid_ (i :: l) (i :: l)); try done; try apply Hst.
    + by eapply started_table.
    + apply at_upd_eq. lia.
    + intros t Ht. apply at_upd_ne; [congruence|lia].
  - by eapply started_disk.
  - by rewrite (clock_same _ _ (st_irqc _ _ _ _ _ _ _ _ Hst)).
Qed.

(** The end of a program leaves the rest of its thread's stack. *)
Lemma halt_pops st s status o s' i l :
  system shown size im st s -> shell_up s -> at_ st (get curThread s) = Some (i :: l) -> sys_halt status s = Ok (o, s') ->
  system shown size im (upd st (get curThread s) l) s'.
Proof using Type.
  intros Hsys Hup Hl Hrun.
  destruct (system_running _ _ Hsys Hup) as (i' & l' & p & Hl' & Hcur & Hfd & Hlive & Hok & Hr & Hpag & Hi).
  rewrite Hl in Hl'. injection Hl' as <- <-.
  pose proof Hsys as [Hth Hdisk Hclk]. pose proof (tr_table _ _ _ Hth) as Hpt. pose proof (at_inv _ _ _ Hl) as Hrg.
  destruct l as [|j l].
  - pose proof Hth as [_ Hc (L1 & L2 & L3 & L4) Hst Hpids _ _].
    rewrite (halt_shell_run status i p s) in Hrun; try done; try apply Hok; try apply Hpt; try apply Hr.
    2: { rewrite (po_term _ _ _ _ Hok). unfold NUM_TERMINALS. lia. }
    injection Hrun as _ <-. set (eax := u32 _).
    set (s1 := reaped i eax s). set (s2 := set shellStarted _ s1).
    split; [|destruct Hdisk as [Hrep Hpl Hby]; by split|done]. split.
    + eapply table_pop; try done.
    + exact Hc.
    + split_and!; try done. change (length (upd (get shellStarted s) (get curThread s) 0) = 3%nat). by rewrite length_upd.
    + intros t k. change (get shellStarted s2) with (upd (get shellStarted s) (get curThread s) 0).
      destruct (decide (t = get curThread s)) as [->|Hne].
      * rewrite !at_upd_eq by lia. by intros [= <-].
      * rewrite !at_upd_ne by (congruence || lia). apply Hst.
    + intros t k l0. change (get curThread s2) with (get curThread s). destruct (decide (t = get curThread s)) as [->|Hne].
      * rewrite at_upd_eq by lia. done.
      * rewrite at_upd_ne by (congruence || lia). intros Hk. pose proof (Hpids t k l0 Hk) as H.
        by destruct (decide (t = get curThread s)).
    + exists (Some i). split; [exact Hpag|]. intros k l0. change (get curThread s2) with (get curThread s).
      by rewrite at_upd_eq by lia.
    + intros k l0. change (get curThread s2) with (get curThread s). by rewrite at_upd_eq by lia.
  - destruct (halt_returns status shown (Some i) st i j l p s Hpt Hl Hcur Hlive Hpag) as (s1 & Hrun1 & _ & Hpt1 & Hret).
    rewrite Hrun1 in Hrun. injection Hrun as _ <-. destruct Hret as [Hc1 Hf1 _ Hp1 Hm1 _ Hs1 Hfs1 Hirq1].
    split.
    + apply (threads_update shown st s _ s1 j l (i :: j :: l)); try done; [apply at_upd_eq; lia|].
      intros t Ht. apply at_upd_ne; [congruence|lia].
    + by apply (disk_remap size im shown (Some i) (Some j) s).
    + by rewrite (clock_same _ _ Hirq1).
Qed.

Lemma halt_system st s status o s' :
  system shown size im st s -> shell_up s -> sys_halt status s = Ok (o, s') ->
  exists st', system shown size im st' s'.
Proof using Type.
  intros Hsys Hup Hrun. destruct (system_running _ _ Hsys Hup) as (i & l & p & Hl & _).
  exists (upd st (get curThread s) l). by eapply halt_pops.
Qed.

Lemma put_files_system st s i l p fl s' :
  system shown size im st s -> at_ st (get curThread s) = Some (i :: l) -> live s i p ->
  Forall entry_ok fl -> length fl = 8%nat -> get prc s' = get prc (put_files i fl s) -> get sch s' = get sch s ->
  get fdt s = Some i -> get cur_pid s = i ->
  get pag s' = get pag s -> paging_inv shown (Some i) (get pag s) -> disk size im s' ->
  length (get RTC_read_flag s') = 3%nat -> system shown size im st s'.
Proof using Type.
  intros [Hth _ _] Hl [Hp Hq] Hok Hlen Eprc Esch Hfd Hcur Epag Hpag Hdisk' Hclk'.
  assert (put_files i fl s = set pcbs (upd (get pcbs s) i (set process_fdt fl p)) s) as Epf by (unfold put_files; by rewrite Hq).
  pose proof (tr_table _ _ _ Hth) as Hpt. split; [|done|done].
  apply (threads_update shown st s st s' i l (i :: l)); try done; rewrite ?Epag; try done.
  - eapply (table_files st s s' _ i l fl); try done.
    + etransitivity; [exact (f_equal p_PCB_ptrs Eprc)|by rewrite Epf].
    + exact (f_equal p_pcbs Eprc).
    + etransitivity; [exact (f_equal p_fops_tables Eprc)|by rewrite Epf].
  - etransitivity; [exact (f_equal p_cur_pid Eprc)|by rewrite Epf].
  - etransitivity; [exact (f_equal p_fdt Eprc)|by rewrite Epf].
Qed.

Lemma close_system st s fd r s' :
  system shown size im st s -> shell_up s -> sys_close fd s = Ok (r, s') -> exists st', system shown size im st' s'.
Proof using Type.
  intros Hsys Hup Hrun. destruct (system_running _ _ Hsys Hup) as (i & l & p & Hl & Hcur & Hfd & Hlive & Hok & Hr & Hpag & Hi).
  exists st. pose proof (po_files _ _ _ _ Hok) as Hfok.
  destruct (decide (fd = 8)) as [->|H8]; [rewrite (sys_close_past_end _ _ _ Hr) in Hrun; done|].
  destruct (decide (2 <= fd < 8)) as [Hin|Hout].
  2: { rewrite (sys_close_outside fd _ _ _ Hr) in Hrun by lia. injection Hrun as _ <-. done. }
  destruct (running_entry _ _ _ fd Hr ltac:(lia)) as [e He].
  assert (entry_ok e) as Hoke.
  { unfold at_ in He. destruct (0 <=? fd); [|done]. by eapply (proj1 (Forall_lookup _ _) Hfok). }
  rewrite (sys_close_run fd _ _ _ _ Hr Hin He Hoke) in Hrun.
  destruct (fd_flg e =? UNUSED_FLAG); injection Hrun as _ <-; [done|].
  pose proof Hsys as [_ Hdisk Hclk]. set (fl := upd _ fd _).
  assert (put_files i fl s = set pcbs (upd (get pcbs s) i (set process_fdt fl p)) s) as Epf
    by (unfold put_files; by rewrite (proj2 Hlive)).
  apply (put_files_system st s i l p fl); try done; rewrite ?Epf; try done.
  - unfold fl, upd. apply Forall_insert; [done|]. unfold entry_ok. simpl. congruence.
  - unfold fl. by rewrite length_upd, (ru_len _ _ _ Hr).
  - destruct Hdisk as [Hrep Hpl Hby]. by split.
Qed.

Lemma open_spec_ok name dir l :
  Forall entry_ok l -> length l = 8%nat ->
  Forall entry_ok (snd (open_spec name dir l)) /\ length (snd (open_spec name dir l)) = 8%nat.
Proof using Type.
  intros Hok Hlen. unfold open_spec. destruct (starts_with _ _); [done|]. destruct (starts_with _ _); [done|].
  destruct (free_fd l) as [fd|]; [|done]. destruct (dir_find name dir) as [d|]; [|done].
  destruct (open_entry d) as [e|] eqn:He; cbn [snd]; rewrite length_upd; (split; [|done]); unfold upd;
    (apply Forall_insert; [done|]).
  - unfold open_entry in He. destruct (fileType d) as [|[?|[?|?|]|]|]; try done; injection He as <-;
      unfold entry_ok; simpl; congruence.
  - unfold entry_ok. simpl. congruence.
Qed.

Lemma open_system st s filename name r s' :
  system shown size im st s -> shell_up s -> 0 < filename -> filename + Z.of_nat (length name) <= 2 ^ 32 ->
  bytes_at (view s) filename name -> covers name 32 -> sys_open filename s = Ok (r, s') ->
  exists st', system shown size im st' s'.
Proof using Type.
  intros Hsys Hup Hf0 Hfl Hname Hcov Hrun.
  destruct (system_running _ _ Hsys Hup) as (i & l & p & Hl & Hcur & Hfd & Hlive & Hok & Hr & Hpag & Hi).
  pose proof Hsys as [_ Hdisk Hclk]. exists st.
  assert (set fdt (Some i) s = s) as Efd by (rewrite <- Hfd; by destruct s as [? ? ? ? [] ? ? ? ? ?]).
  assert (locals_apart s) as Hap by (by apply (paging_inv_apart shown (Some i))).
  destruct (sys_open_run filename name i (pcb_process_fdt p) size im s) as (s1 & Hrun1 & Ho);
    try done; [by rewrite Efd|apply Hdisk|].
  rewrite Hrun1 in Hrun. injection Hrun as _ <-. destruct Ho as [_ Eprc Hmem Epag _ _ Esch Efs _ Eclk]. rewrite Efd in Eprc.
  destruct (open_spec_ok name (im_dir im) _ (po_files _ _ _ _ Hok) (ru_len _ _ _ Hr)) as [Hfok Hflen].
  apply (put_files_system st s i l p _ _ Hsys Hl Hlive Hfok Hflen Eprc); try done; [|by rewrite Eclk].
  destruct Hdisk as [Hrep Hpl Hby]. split; rewrite ?Efs; try done. apply (fs_rep_transfer (view s)); [|done].
  intros a Ha. unfold MAX_PROCESSES, EIGHT_KB, EIGHT_MB, FOUR_MB in *.
  rewrite !(load_cell _ _ a); [|by eapply kernel_cell; [exact Hpag|unfold EIGHT_MB, FOUR_MB; lia]|
    by eapply kernel_cell; [rewrite Epag; exact Hpag|unfold EIGHT_MB, FOUR_MB; lia]].
  f_equal. apply (Hmem a). lia.
Qed.

(** A store by the running program reaches its own frame or the video pages. *)
Lemma store_system st s a p v :
  system shown size im st s -> 0 <= a < 2 ^ 32 -> access (get pag s) a = Some (p, true) ->
  system shown size im st (set mem (poke (get mem s) p v) s).
Proof using Hshown.
  intros [Hth Hdisk Hclk] Ha Hacc. pose proof (tr_page _ _ _ Hth) as (proc & Hpag & _).
  rewrite (access_map shown proc) in Hacc by done. set (s1 := set mem _ s).
  split; [|destruct Hdisk as [Hrep Hpl Hby]; split; try done|done].
  - apply (threads_same shown st s s1); try done. by right.
  - apply (fs_rep_transfer (view s)); [|done]. intros b Hb. unfold MAX_PROCESSES, EIGHT_KB, EIGHT_MB, FOUR_MB in *.
    change (get fs_ptrs s1) with (get fs_ptrs s) in *.
    rewrite !(load_cell _ _ b); [|by eapply kernel_cell; [exact Hpag|unfold EIGHT_MB, FOUR_MB; lia]|
      by eapply (kernel_cell shown proc s1); [exact Hpag|unfold EIGHT_MB, FOUR_MB; lia]].
    f_equal. change (peek (poke (get mem s) p v) b = peek (get mem s) b). apply peek_poke_ne. intros <-.
    destruct (address_map_user _ _ _ _ Hacc Hshown) as [Hv|(q & -> & Hq)]; [unfold VIDEO, FOUR_KB in Hv; lia|].
    pose proof (paging_inv_pid _ _ _ Hpag). unfold process_frame, PROCESS_BASE_4KB_ALIGNED_ADDRESS, EIGHT_MB, FOUR_MB, MAX_PROCESSES in *. lia.
Qed.
End invariant.

(** ** A concrete machine with a shell on every terminal *)

Definition shell_of (i : Z) : PCB_t := Pcb i (-1) (process_pde i) 0 0 0 i initial_files.

Definition three_shells : machine :=
  set shellStarted [1; 1; 1] (set ESPstore [0; 0x7FD000; 0x7FB000] (set EBPstore [0; 0x7FD008; 0x7FB008]
    (set PIDstore [0; 1; 2] (set PCB_ptrs [Some 0; Some 1; Some 2; None; None; None]
      (set pcbs ([shell_of 0; shell_of 1; shell_of 2] ++ replicate 3 zero_pcb)
        (set fdt (Some 0) (set cur_pid 0 (process_paged 0 shell_machine)))))))).

Lemma three_shells_table : process_table [[0]; [1]; [2]] three_shells.
Proof.
  split; try done.
  - intros i p. apply (at_pcbs [shell_of 0; shell_of 1; shell_of 2] 3). intros q Hq.
    repeat (apply elem_of_cons in Hq as [->|Hq]; [done|]). by apply not_elem_of_nil in Hq.
  - intros t l Ht. assert (exists i, l = [i] /\ t = i /\ (i = 0 \/ i = 1 \/ i = 2)) as (i & -> & -> & Hi).
    { pose proof (at_inv _ _ _ Ht) as Hr. simpl in Hr.
      assert (t = 0 \/ t = 1 \/ t = 2) as [->|[->| ->]] by lia; injection Ht as <-; eauto 10. }
    split; [|apply NoDup_singleton]. split; [|done]. exists (shell_of i).
    destruct Hi as [->|[->| ->]]; (split; [done|]; split; try done; apply initial_files_ok).
  - intros i j Hp. change (at_ [Some 0; Some 1; Some 2; None; None; None] i = Some (Some j)) in Hp.
    pose proof (at_inv _ _ _ Hp) as Hr. simpl in Hr.
    assert (i = 0 \/ i = 1 \/ i = 2 \/ i = 3 \/ i = 4 \/ i = 5) as [->|[->|[->|[->|[->| ->]]]]] by lia; try done;
      injection Hp as <-; (split; [done|]); [exists 0, [0]|exists 1, [1]|exists 2, [2]]; (split; [done|by left]).
Qed.

Lemma three_shells_threads : threads 0 [[0]; [1]; [2]] three_shells.
Proof.
  split; try done.
  - apply three_shells_table.
  - intros t l Ht. pose proof (at_inv _ _ _ Ht) as Hr. simpl in Hr.
    assert (t = 0 \/ t = 1 \/ t = 2) as [->|[->| ->]] by lia; injection Ht as <-; done.
  - intros t i l Ht. pose proof (at_inv _ _ _ Ht) as Hr. simpl in Hr.
    assert (t = 0 \/ t = 1 \/ t = 2) as [->|[->| ->]] by lia; injection Ht as <- <-; done.
  - exists (Some 0). split; [by apply (process_paged_inv 0 None 0 shell_machine shell_paging)|]. by intros i l [= <- _].
  - by intros i l [= <- _].
Qed.

Lemma shell_machine_system : system 0 0x3000 shell_image [[]; []; []] shell_machine.
Proof.
  split; [|apply (shell_disk 0 None); [apply shell_paging|done..]|done]. split; try done.
  - apply shell_table.
  - intros t l Ht. pose proof (at_inv _ _ _ Ht) as Hr. simpl in Hr.
    assert (t = 0 \/ t = 1 \/ t = 2) as [->|[->| ->]] by lia; injection Ht as <-; done.
  - intros t i l Ht. pose proof (at_inv _ _ _ Ht) as Hr. simpl in Hr.
    assert (t = 0 \/ t = 1 \/ t = 2) as [->|[->| ->]] by lia; done.
  - exists None. split; [apply shell_paging|]. intros i l Ht. discriminate Ht.
Qed.

Lemma shell_image_programs : programs_ok shell_image.
Proof.
  intros ino c Hc. unfold at_ in Hc. destruct (0 <=? ino); [|done]. destruct (Z.to_nat ino) as [|[]]; [|done|done].
  injection Hc as <-. split; [simpl; lia|]. left. apply shell_runnable.
Qed.

Lemma shell_image_shell : has_shell shell_image 0 shell_program.
Proof. split; [reflexivity|apply shell_runnable]. Qed.

(** ** Properties *)

(** Whatever sequence of the steps above happens after the boot (completed timer
    interrupts that find a slot for a shell that is due, program starts and ends,
    openings and closings of files, and stores by the running programs), the kernel's
    tables are consistent: the live processes are exactly those on the
    stacks of the three terminals, each with its own frame, the running program is
    the top of its thread's stack, its page map and descriptors are current, and
    user code reaches its frame and the video pages only. *)
Theorem kernel_steps_keep_invariant shown size im shell_ino shell_c st s s' :
  0 <= shown < NUM_TERMINALS -> has_shell im shell_ino shell_c -> programs_ok im ->
  system shown size im st s -> rtc step s s' ->
  exists st', system shown size im st' s' /\
    (shell_up s' -> forall a p, 0 <= a < 2 ^ 32 -> access (get pag s') a = Some (p, true) ->
       VIDEO <= p < VIDEO + 4 * FOUR_KB \/
       process_frame (get cur_pid s') <= p < process_frame (get cur_pid s') + FOUR_MB).
Proof.
  intros Hshown Hshell Hprogs Hsys Hsteps.
  assert (exists st', system shown size im st' s') as (st' & Hsys').
  { revert st Hsys. induction Hsteps as [s|s s1 s2 Hstep _ IH]; intros st Hsys; [by exists st|].
    assert (exists st', system shown size im st' s1) as (st1 & Hsys1); [|by apply (IH st1)].
    destruct Hstep; eauto using tick_system, execute_system, halt_system, open_system, close_system, store_system. }
  exists st'. split; [done|]. intros Hup a p Ha Hacc.
  destruct (system_running _ _ _ _ _ Hsys' Hup) as (i & l & q & _ & <- & _ & _ & _ & _ & Hpag & _).
  rewrite (access_map shown (Some (get cur_pid s'))) in Hacc by done.
  destruct (address_map_user _ _ _ _ Hacc Hshown) as [Hv|(k & [= <-] & Hk)]; [by left|by right].
Qed.

Lemma kernel_steps_keep_invariant_witness :
  exists s1 st1, rtc step shell_machine s1 /\ system 0 0x3000 shell_image st1 s1 /\ get cur_pid s1 = 0.
Proof.
  destruct (tick_starts_shell 0 [[]; []; []] 0x3000 shell_image 0 0 shell_program 0 shell_machine)
    as (s1 & Hrun & _ & _ & _ & Hcur & _);
    [apply shell_machine_system|split; [reflexivity|by left]|apply shell_machine_system|reflexivity|apply shell_image_shell|].
  assert (rtc step shell_machine s1) as Hsteps.
  { apply rtc_once. assert (slot_for_shell shell_machine) as Hslot by (intros t _; exists 0; reflexivity).
    exact (step_tick _ _ _ Hslot Hrun). }
  destruct (kernel_steps_keep_invariant 0 0x3000 shell_image 0 shell_program [[]; []; []] shell_machine s1)
    as (st1 & Hsys & _).
  - unfold NUM_TERMINALS. lia.
  - apply shell_image_shell.
  - apply shell_image_programs.
  - apply shell_machine_system.
  - exact Hsteps.
  - exists s1, st1. exact (conj Hsteps (conj Hsys Hcur)).
Defined.

(** Every terminal has a program. *)
Definition busy (st : list (list Z)) : Prop := forall t l, at_ st t = Some l -> l <> [].

(** A tick on a busy machine, whatever the stack registers of the next thread are. *)
Lemma busy_tick shown st s i l :
  threads shown st s -> busy st -> at_ st (get curThread s) = Some (i :: l) ->
  exists j l' sp bp s', at_ st (next_thread (get curThread s)) = Some (j :: l') /\
    at_ (get ESPstore s) (next_thread (get curThread s)) = Some sp /\
    at_ (get EBPstore s) (next_thread (get curThread s)) = Some bp /\
    PIThandler s = Ok (Switched sp bp, s') /\ continues (next_thread (get curThread s)) j sp bp s s' /\
    threads shown st s' /\ paging_inv shown (Some j) (get pag s').
Proof.
  intros Hth Hbusy Hl. pose proof (tr_cur _ _ _ Hth) as Hc. destruct (next_thread_range _ Hc) as [Hnr Hne].
  destruct (tr_lens _ _ _ Hth) as (L1 & L2 & L3 & L4).
  destruct (at_Some st (next_thread (get curThread s))) as [[|j l'] Hl']; [rewrite (pt_terms _ _ (tr_table _ _ _ Hth)); lia| |].
  { by apply Hbusy in Hl'. }
  destruct (at_Some (get ESPstore s) (next_thread (get curThread s))) as [sp Hsp]; [lia|].
  destruct (at_Some (get EBPstore s) (next_thread (get curThread s))) as [bp Hbp]; [lia|].
  destruct (tick_run _ _ _ _ _ _ _ _ _ Hth Hl Hl' Hsp Hbp) as (s' & Hrun & Hcont).
  destruct (threads_continue _ _ _ _ _ _ _ _ _ _ Hth Hl Hl' Hcont) as [Hth' Hpag'].
  exists j, l', sp, bp, s'. by split_and!.
Qed.

(** The registers of a thread that does not run stay in the stores. *)
Lemma stores_keep t j sp bp s s' t' :
  continues t j sp bp s s' -> 0 <= get curThread s -> t' <> get curThread s ->
  at_ (get ESPstore s') t' = at_ (get ESPstore s) t' /\ at_ (get EBPstore s') t' = at_ (get EBPstore s) t'.
Proof.
  intros Hcont Hc Hne. rewrite (ct_ESP _ _ _ _ _ _ Hcont), (ct_EBP _ _ _ _ _ _ Hcont). split.
  - change (at_ (upd (get ESPstore s) (get curThread s) (get cpu_esp s)) t' = at_ (get ESPstore s) t').
    by apply at_upd_ne.
  - change (at_ (upd (get EBPstore s) (get curThread s) (get cpu_ebp s)) t' = at_ (get EBPstore s) t').
    by apply at_upd_ne.
Qed.

Lemma stores_save t j sp bp s s' :
  continues t j sp bp s s' -> 0 <= get curThread s < Z.of_nat (length (get ESPstore s)) ->
  0 <= get curThread s < Z.of_nat (length (get EBPstore s)) ->
  at_ (get ESPstore s') (get curThread s) = Some (get cpu_esp s) /\
  at_ (get EBPstore s') (get curThread s) = Some (get cpu_ebp s).
Proof.
  intros Hcont H1 H2. rewrite (ct_ESP _ _ _ _ _ _ Hcont), (ct_EBP _ _ _ _ _ _ Hcont).
  split; by apply at_upd_eq.
Qed.

(** C5: the timer interrupt serves the three threads in turn: an interrupted thread
    continues at the third tick, with its own stack registers, its process, its
    descriptors and its page map. This is so as long as every terminal has a running
    program at each of the three ticks and nothing but the ticks changes the
    scheduler's variables: the other two threads may run, start and end programs in
    between, but no terminal's last shell ends. (When one does, the next tick starts a
    shell on the same thread without switching, and the interrupted thread waits one
    tick more for each.) *)
Theorem PIThandler_round_robin shown st i l s :
  threads shown st s -> busy st -> at_ st (get curThread s) = Some (i :: l) ->
  exists sp1 bp1 s1, PIThandler s = Ok (Switched sp1 bp1, s1) /\
    get curThread s1 = next_thread (get curThread s) /\ threads shown st s1 /\
  forall shown1 st1 s1', get sch s1' = get sch s1 -> threads shown1 st1 s1' -> busy st1 ->
    at_ st1 (get curThread s) = Some (i :: l) ->
  exists sp2 bp2 s2, PIThandler s1' = Ok (Switched sp2 bp2, s2) /\
    get curThread s2 = next_thread (next_thread (get curThread s)) /\ threads shown1 st1 s2 /\
  forall shown2 st2 s2', get sch s2' = get sch s2 -> threads shown2 st2 s2' -> busy st2 ->
    at_ st2 (get curThread s) = Some (i :: l) ->
  exists s3, PIThandler s2' = Ok (Switched (get cpu_esp s) (get cpu_ebp s), s3) /\
    get curThread s3 = get curThread s /\ get cur_pid s3 = i /\ get fdt s3 = Some i /\
    get cpu_esp s3 = get cpu_esp s /\ get cpu_ebp s3 = get cpu_ebp s /\
    threads shown2 st2 s3 /\ paging_inv shown2 (Some i) (get pag s3).
Proof.
  intros Hth Hbusy Hl. pose proof (tr_cur _ _ _ Hth) as Hc. destruct (tr_lens _ _ _ Hth) as (_ & L2 & L3 & _).
  destruct (busy_tick _ _ _ _ _ Hth Hbusy Hl) as (j1 & l1 & sp1 & bp1 & s1 & _ & _ & _ & Hrun1 & Hc1 & Hth1 & _).
  exists sp1, bp1, s1. split; [done|]. split; [apply Hc1|]. split; [done|].
  destruct (stores_save _ _ _ _ _ _ Hc1 ltac:(lia) ltac:(lia)) as [He1 Hb1].
  intros shown1 st1 s1' Esch1 Hth1' Hbusy1 Hl1. set (t := get curThread s) in *.
  assert (get curThread s1' = next_thread t) as Et1 by (etransitivity; [exact (f_equal t_curThread Esch1)|apply Hc1]).
  destruct (next_thread_range t Hc) as [Hr1 Hn1]. destruct (next_thread_range _ Hr1) as [Hr2 Hn2].
  destruct (at_Some st1 (get curThread s1')) as [[|k lk] Hk]; [rewrite (pt_terms _ _ (tr_table _ _ _ Hth1')), Et1; lia|by apply Hbusy1 in Hk|].
  destruct (busy_tick _ _ _ _ _ Hth1' Hbusy1 Hk) as (j2 & l2 & sp2 & bp2 & s2 & _ & _ & _ & Hrun2 & Hc2 & Hth2 & _).
  exists sp2, bp2, s2. split; [done|]. rewrite Et1 in Hc2. split; [apply Hc2|]. split; [done|].
  destruct (stores_keep _ _ _ _ _ _ t Hc2 ltac:(rewrite Et1; lia) ltac:(rewrite Et1; congruence)) as [He2 Hb2].
  intros shown2 st2 s2' Esch2 Hth2' Hbusy2 Hl2.
  assert (get curThread s2' = next_thread (next_thread t)) as Et2 by (etransitivity; [exact (f_equal t_curThread Esch2)|apply Hc2]).
  assert (next_thread (next_thread (next_thread t)) = t) as E3
    by (assert (t = 0 \/ t = 1 \/ t = 2) as [->|[->| ->]] by lia; reflexivity).
  destruct (at_Some st2 (get curThread s2')) as [[|k2 lk2] Hk2]; [rewrite (pt_terms _ _ (tr_table _ _ _ Hth2')), Et2; lia|by apply Hbusy2 in Hk2|].
  destruct (busy_tick _ _ _ _ _ Hth2' Hbusy2 Hk2) as (j3 & l3 & sp3 & bp3 & s3 & Hj3 & Hsp3 & Hbp3 & Hrun3 & Hc3 & Hth3 & Hpag3).
  rewrite Et2, E3 in *. rewrite Hl2 in Hj3. injection Hj3 as <- <-.
  assert (get ESPstore s2' = get ESPstore s2) as Ee2 by exact (f_equal t_ESPstore Esch2).
  assert (get EBPstore s2' = get EBPstore s2) as Eb2 by exact (f_equal t_EBPstore Esch2).
  assert (get ESPstore s1' = get ESPstore s1) as Ee1 by exact (f_equal t_ESPstore Esch1).
  assert (get EBPstore s1' = get EBPstore s1) as Eb1 by exact (f_equal t_EBPstore Esch1).
  rewrite Ee2, He2, Ee1, He1 in Hsp3. rewrite Eb2, Hb2, Eb1, Hb1 in Hbp3. injection Hsp3 as <-. injection Hbp3 as <-.
  exists s3. destruct Hc3. by split_and!.
Qed.

Lemma PIThandler_round_robin_witness :
  exists sp1 bp1 s1, PIThandler three_shells = Ok (Switched sp1 bp1, s1) /\ get curThread s1 = 1 /\
    exists sp2 bp2 s2, PIThandler s1 = Ok (Switched sp2 bp2, s2) /\
    exists s3, PIThandler s2 = Ok (Switched 0x7FFFF0 0x7FFFF8, s3) /\ get curThread s3 = 0 /\ get cur_pid s3 = 0.
Proof.
  assert (busy [[0]; [1]; [2]]) as Hb.
  { intros t l Ht. pose proof (at_inv _ _ _ Ht) as Hr. simpl in Hr.
    assert (t = 0 \/ t = 1 \/ t = 2) as [->|[->| ->]] by lia; injection Ht as <-; discriminate. }
  destruct (PIThandler_round_robin 0 [[0]; [1]; [2]] 0 [] three_shells three_shells_threads Hb eq_refl)
    as (sp1 & bp1 & s1 & Hrun1 & Ht1 & Hth1 & Hnext1).
  destruct (Hnext1 0 [[0]; [1]; [2]] s1 eq_refl Hth1 Hb eq_refl) as (sp2 & bp2 & s2 & Hrun2 & Ht2 & Hth2 & Hnext2).
  destruct (Hnext2 0 [[0]; [1]; [2]] s2 eq_refl Hth2 Hb eq_refl) as (s3 & Hrun3 & Ht3 & Hp3 & _).
  exists sp1, bp1, s1. split; [exact Hrun1|]. split; [exact Ht1|]. exists sp2, bp2, s2. split; [exact Hrun2|].
  exists s3. exact (conj Hrun3 (conj Ht3 Hp3)).
Defined.

(** C28: a timer interrupt that finds a thread without a program starts the shell
    there: on the current thread, or on the next one after the interrupted program
    is saved.  The shell is the first process of the terminal's stack. *)
Theorem PIThandler_starts_shell shown st size im pid_ ino c t s :
  threads shown st s -> shell_due st s t -> disk size im s ->
  free_pid (get PCB_ptrs s) = Some pid_ -> has_shell im ino c ->
  exists s', PIThandler s = Ok (Executed (EnterUser (entry_point c) USER_ESP USER_CS USER_DS), s') /\
    threads shown (upd st t [pid_]) s' /\ get curThread s' = t /\ get cur_pid s' = pid_ /\
    bytes_at (view s') PROGRAM_INIT_VIRTUAL_ADDR c.
Proof.
  intros Hth Hdue Hdisk Hpid Hsh.
  destruct (tick_starts_shell _ _ _ _ _ _ _ _ _ Hth Hdue Hdisk Hpid Hsh) as (s' & Hrun & Hth' & _ & Ht & Hcur & _ & Hb).
  by exists s'.
Qed.

Lemma PIThandler_starts_shell_witness :
  exists s', PIThandler shell_machine = Ok (Executed (EnterUser 0x8048000 0x83FFFFC 0x23 0x2B), s') /\
    threads 0 [[0]; []; []] s'.
Proof.
  destruct (PIThandler_starts_shell 0 [[]; []; []] 0x3000 shell_image 0 0 shell_program 0 shell_machine)
    as (s' & Hrun & Hth & _);
    [apply shell_machine_system|split; [reflexivity|by left]|apply shell_machine_system|reflexivity|apply shell_image_shell|].
  exists s'. exact (conj Hrun Hth).
Defined.

(** [s0] is [s], or [s] with the interrupted program of the current thread saved: its
    current thread is [t], which has no shell. *)
Definition shell_missing (s : machine) (t : Z) (s0 : machine) : Prop :=
  get curThread s0 = t /\ at_ (get shellStarted s0) t = Some 0 /\
  (s0 = s \/ s0 = saved s /\ exists v, at_ (get shellStarted s) (get curThread s) = Some v /\ v <> 0).

(** Thread [u] has a process that the scheduler can switch to. *)
Definition ready (u j : Z) (s : machine) : Prop :=
  (exists v, at_ (get shellStarted s) u = Some v /\ v <> 0) /\
  at_ (get PIDstore s) u = Some j /\ 0 <= j < 6 /\ at_ (get PCB_ptrs s) j = Some (Some j) /\
  exists d, at_ (get page_directory s) 32 = Some d.

(** The stores of the scheduler. *)
Definition stores (s : machine) : Prop :=
  length (get shellStarted s) = 3%nat /\ length (get ESPstore s) = 3%nat /\ length (get EBPstore s) = 3%nat /\
  length (get PIDstore s) = 3%nat.

Lemma sch_same s s' :
  get sch s' = get sch s ->
  get curThread s' = get curThread s /\ get shellStarted s' = get shellStarted s /\ get PIDstore s' = get PIDstore s /\
  (stores s -> stores s').
Proof.
  intros E. assert (forall A (f : scheduler_t -> A), f (get sch s') = f (get sch s)) as Hf by (by intros; f_equal).
  split_and!; [apply (Hf _ t_curThread)|apply (Hf _ t_shellStarted)|apply (Hf _ t_PIDstore)|].
  intros (L1 & L2 & L3 & L4). split_and!.
  - rewrite <- L1. apply (Hf _ (fun r => length (t_shellStarted r))).
  - rewrite <- L2. apply (Hf _ (fun r => length (t_ESPstore r))).
  - rewrite <- L3. apply (Hf _ (fun r => length (t_EBPstore r))).
  - rewrite <- L4. apply (Hf _ (fun r => length (t_PIDstore r))).
Qed.

(** A shell that finds no slot. *)
Lemma start_shell_full t s :
  get curThread s = t -> 0 <= t < 3 -> stores s -> length (get PCB_ptrs s) = 6%nat -> free_pid (get PCB_ptrs s) = None ->
  exists s', start_shell s = Ok (Executed (Return ERROR_VAL), s') /\ get cur_pid s' = -1 /\
    get sch s' = get sch (set shellStarted (upd (get shellStarted s) t 1) s) /\
    get PCB_ptrs s' = get PCB_ptrs s /\ get pag s' = get pag s.
Proof.
  intros Et Hc (L1 & _) Lp Hfull. unfold start_shell. rewrite (bind_ok _ _ _ _ _ (wr_run _ _ _)), (bind_ok _ _ _ _ _ (rd_run _ _)).
  set (s1 := set cur_pid (-1) s). change (get curThread s1) with (get curThread s). rewrite Et.
  rewrite (bind_ok _ _ _ _ _ (wr_at_run shellStarted t 1 s1 ltac:(change (get shellStarted s1) with (get shellStarted s); lia))).
  set (s3 := set shellStarted _ s1). destruct (send_eoi_run PIT_IRQ s3) as [evs He].
  rewrite (bind_ok _ _ _ _ _ He). set (s4 := set trace _ s3).
  destruct (literal_run 7 str_shell s4) as (s5 & Hlit & Hlo & _); [|lia|simpl; lia|].
  { intros i x Hi. assert (x ∈ str_shell) as Hin by (by eapply list_elem_of_lookup_2). unfold str_shell in Hin.
    set_unfold in Hin. lia. }
  rewrite (bind_ok _ _ _ _ _ Hlit).
  assert (get PCB_ptrs s5 = get PCB_ptrs s) as Ep by (by rewrite (locals_get PCB_ptrs s4)).
  assert (sys_execute (local_array 7) s5 = Ok (Return ERROR_VAL, s5)) as Hex.
  { unfold sys_execute. change (local_array 7 =? 0) with false. cbv iota.
    by rewrite (bind_ok _ _ _ _ _ (find_pid_run s5 ltac:(by rewrite Ep))), Ep, Hfull. }
  rewrite (bind_ok _ _ _ _ _ Hex). exists s5. split; [reflexivity|]. split; [by rewrite (locals_get cur_pid s4)|].
  split; [by rewrite (locals_get sch s4)|]. split; [done|]. by rewrite (locals_get pag s4).
Qed.

(** A tick that switches to a thread that is ready. *)
Lemma ready_tick t j s v :
  get curThread s = t -> 0 <= t < 3 -> stores s -> at_ (get shellStarted s) t = Some v -> v <> 0 -> ready (next_thread t) j s ->
  exists sp bp s', PIThandler s = Ok (Switched sp bp, s') /\ continues (next_thread t) j sp bp s s' /\ stores s'.
Proof.
  intros Et Hc (L1 & L2 & L3 & L4) Hv Hv0 ((w & Hw & Hw0) & Hj & Hj6 & Hp & d & Hd).
  destruct (next_thread_range _ Hc) as [Hr Hne]. destruct (saved_length s) as (S2 & S3 & S4).
  destruct (at_Some (get ESPstore (saved s)) (next_thread t)) as [sp Hsp]; [lia|].
  destruct (at_Some (get EBPstore (saved s)) (next_thread t)) as [bp Hbp]; [lia|].
  assert (get curThread (saved s) = next_thread t) as Ets by (by rewrite <- Et).
  assert (at_ (get PIDstore (saved s)) (next_thread t) = Some j) as Hjs.
  { change (at_ (upd (get PIDstore s) (get curThread s) (u32 (get cur_pid s))) (next_thread t) = Some j).
    by rewrite at_upd_ne by (rewrite Et; (congruence || lia)). }
  destruct (switch_run s j w sp bp d) as (s' & Hrun & Hcont); rewrite ?Ets; try done. rewrite Ets in Hcont.
  exists sp, bp, s'. split; [by rewrite (save_run s v) by (rewrite ?Et; done)|]. split; [done|].
  destruct Hcont. split_and!; congruence.
Qed.

(** The scheduler finds no process for the next thread. *)
Lemma lost_tick t s :
  get curThread s = t -> 0 <= t < 3 -> stores s -> (forall u, u = t \/ u = next_thread t ->
    exists v, at_ (get shellStarted s) u = Some v /\ v <> 0) ->
  at_ (get PIDstore s) (next_thread t) = Some (u32 (-1)) -> PIThandler s = Fail OutOfBounds.
Proof.
  intros Et Hc (_ & L2 & L3 & L4) Hst Hpid. destruct (next_thread_range _ Hc) as [Hr Hne].
  destruct (Hst t) as (v & Hv & Hv0); [by left|]. destruct (Hst (next_thread t)) as (w & Hw & Hw0); [by right|].
  rewrite (save_run s v) by (rewrite ?Et; done). unfold pit_tail. rewrite (bind_ok _ _ _ _ _ (rd_run _ _)).
  change (get curThread (saved s)) with (next_thread (get curThread s)). rewrite Et.
  rewrite (bind_ok _ _ _ _ _ (rd_at_run shellStarted _ (saved s) w Hw)), (proj2 (Z.eqb_neq w 0) Hw0).
  assert (at_ (get PIDstore (saved s)) (next_thread t) = Some (u32 (-1))) as Hp.
  { change (at_ (upd (get PIDstore s) (get curThread s) (u32 (get cur_pid s))) (next_thread t) = Some (u32 (-1))).
    by rewrite at_upd_ne by (rewrite Et; (congruence || lia)). }
  rewrite (bind_ok _ _ _ _ _ (rd_at_run PIDstore _ (saved s) _ Hp)), (bind_ok _ _ _ _ _ (wr_run _ _ _)).
  rewrite (bind_ok _ _ _ _ _ (rd_run _ _)). apply bind_fail. unfold pcb_slot. apply bind_fail. by apply rd_at_oob.
Qed.

(** C40: a tick that should start a shell on thread [t], the current or the next one,
    while all six slots are taken: [sys_execute] returns -1, but the thread is marked
    as started and the current process is -1. The next tick stores this -1 as the
    thread's process and gives the processor to the next thread, the tick after that
    to the third, and the one that comes back to [t] looks up slot -1 of the process
    table. Between the ticks anything may happen that leaves the scheduler's variables
    alone, the current process is still -1 at the second tick, and the other two
    threads have processes. *)
Theorem PIThandler_full_table t j k s s0 :
  shell_missing s t s0 -> 0 <= get curThread s < 3 -> stores s ->
  length (get PCB_ptrs s) = 6%nat -> free_pid (get PCB_ptrs s) = None ->
  exists s1, PIThandler s = Ok (Executed (Return ERROR_VAL), s1) /\ get cur_pid s1 = -1 /\
    get sch s1 = get sch (set shellStarted (upd (get shellStarted s0) t 1) s0) /\
    get PCB_ptrs s1 = get PCB_ptrs s /\ get pag s1 = get pag s /\
  forall s1', get sch s1' = get sch s1 -> get cur_pid s1' = -1 -> ready (next_thread t) j s1' ->
  exists sp2 bp2 s2, PIThandler s1' = Ok (Switched sp2 bp2, s2) /\ continues (next_thread t) j sp2 bp2 s1' s2 /\
  forall s2', get sch s2' = get sch s2 -> ready (next_thread (next_thread t)) k s2' ->
  exists sp3 bp3 s3, PIThandler s2' = Ok (Switched sp3 bp3, s3) /\
    continues (next_thread (next_thread t)) k sp3 bp3 s2' s3 /\
  forall s3', get sch s3' = get sch s3 -> PIThandler s3' = Fail OutOfBounds.
Proof.
  intros (Et & Hst & Hs0) Hc HL Lp Hfull. destruct (next_thread_range _ Hc) as [Hcr _].
  assert (0 <= t < 3 /\ stores s0 /\ get PCB_ptrs s0 = get PCB_ptrs s /\ get pag s0 = get pag s /\
    PIThandler s = start_shell s0) as (Ht & HL0 & Ep & Epag & Hrun).
  { destruct Hs0 as [->|(-> & v & Hv & Hv0)].
    - split_and!; try lia; try done; try apply HL. unfold PIThandler. rewrite (bind_ok _ _ _ _ _ (rd_run _ _)), Et.
      by rewrite (bind_ok _ _ _ _ _ (rd_at_run _ _ _ _ Hst)).
    - pose proof HL as (L1 & L2 & L3 & L4). destruct (saved_length s) as (S2 & S3 & S4).
      assert (t = next_thread (get curThread s)) as E by (by rewrite <- Et).
      split; [lia|]. split; [split_and!; [exact L1|congruence..]|]. split; [done|]. split; [done|].
      rewrite (save_run s v) by done. unfold pit_tail.
      rewrite (bind_ok _ _ _ _ _ (rd_run _ _)), Et. by rewrite (bind_ok _ _ _ _ _ (rd_at_run _ _ _ _ Hst)). }
  rewrite <- Ep in Lp, Hfull. destruct (start_shell_full t s0 Et Ht HL0 Lp Hfull) as (s1 & Hs1 & Hcur & Esch & Ep1 & Epag1).
  exists s1. split; [by rewrite Hrun|]. split; [done|]. split; [done|]. split; [congruence|]. split; [congruence|].
  destruct (next_thread_range _ Ht) as [Hr1 Hn1]. destruct (next_thread_range _ Hr1) as [Hr2 Hn2].
  assert (next_thread (next_thread (next_thread t)) = t /\ next_thread (next_thread t) <> t) as [E3 Hn3]
    by (assert (t = 0 \/ t = 1 \/ t = 2) as [->|[->| ->]] by lia; split; (reflexivity || discriminate)).
  assert (stores (set shellStarted (upd (get shellStarted s0) t 1) s0)) as HLx
    by (destruct HL0 as (L1 & L2 & L3 & L4); split_and!; [rewrite <- L1; apply length_upd|done..]).
  destruct (sch_same _ _ Esch) as (T1 & St1 & _ & L1). specialize (L1 HLx).
  intros s1' Esch1 Hcur1 Hready1. destruct (sch_same _ _ Esch1) as (T1' & St1' & _ & L1'). specialize (L1' L1).
  assert (at_ (get shellStarted s1') t = Some 1) as Hone.
  { rewrite St1', St1. change (at_ (upd (get shellStarted s0) t 1) t = Some 1). apply at_upd_eq. destruct HL0; lia. }
  assert (get curThread s1' = t) as Et1 by (rewrite T1', T1; exact Et).
  destruct (ready_tick t j s1' 1 Et1 Ht L1' Hone ltac:(lia) Hready1) as (sp2 & bp2 & s2 & Hrun2 & Hc2 & L2).
  exists sp2, bp2, s2. split; [done|]. split; [done|].
  assert (at_ (get PIDstore s2) t = Some (u32 (-1))) as Hpid2.
  { rewrite (ct_PID _ _ _ _ _ _ Hc2), <- Hcur1, <- Et1. apply at_upd_eq. rewrite Et1. destruct L1' as (_ & _ & _ & ->). lia. }
  destruct Hready1 as ((v1 & Hv1 & Hv1') & _).
  intros s2' Esch2 Hready2. destruct (sch_same _ _ Esch2) as (T2' & St2' & P2' & L2'). specialize (L2' L2).
  assert (get curThread s2' = next_thread t) as Et2 by (rewrite T2'; apply Hc2).
  assert (get shellStarted s2' = get shellStarted s1') as Est2 by (rewrite St2'; apply Hc2).
  destruct (ready_tick (next_thread t) k s2' v1 Et2 Hr1 L2' ltac:(by rewrite Est2) Hv1' Hready2)
    as (sp3 & bp3 & s3 & Hrun3 & Hc3 & L3).
  exists sp3, bp3, s3. split; [done|]. split; [done|]. destruct Hready2 as ((v2 & Hv2 & Hv2') & _).
  intros s3' Esch3. destruct (sch_same _ _ Esch3) as (T3' & St3' & P3' & L3'). specialize (L3' L3).
  assert (get shellStarted s3' = get shellStarted s2') as Est3 by (rewrite St3'; apply Hc3).
  apply (lost_tick (next_thread (next_thread t))); [rewrite T3'; apply Hc3|done|done| |]; rewrite E3.
  - intros u [->| ->]; [exists v2; by rewrite Est3|exists 1; by rewrite Est3, Est2].
  - rewrite P3', (ct_PID _ _ _ _ _ _ Hc3).
    change (at_ (upd (get PIDstore s2') (get curThread s2') (u32 (get cur_pid s2'))) t = Some (u32 (-1))).
    by rewrite at_upd_ne, P2' by (rewrite Et2; (congruence || lia)).
Qed.

(** Programs in all six slots, and a thread without a shell. *)
Definition full_table : machine :=
  set shellStarted [0; 1; 1] (set PCB_ptrs (Some <$> seqZ 0 6) three_shells).

Lemma PIThandler_full_table_witness :
  exists s1, PIThandler full_table = Ok (Executed (Return ERROR_VAL), s1) /\
  exists sp2 bp2 s2, PIThandler (set cur_pid (-1) (set shellStarted [1; 1; 1] full_table)) = Ok (Switched sp2 bp2, s2) /\
  exists sp3 bp3 s3, PIThandler s2 = Ok (Switched sp3 bp3, s3) /\ PIThandler s3 = Fail OutOfBounds.
Proof.
  destruct (PIThandler_full_table 0 1 2 full_table full_table) as (s1 & Hrun1 & _ & Esch & _ & _ & Hnext1).
  - split; [reflexivity|split; [reflexivity|left; reflexivity]].
  - split; [vm_compute; discriminate|reflexivity].
  - repeat split; reflexivity.
  - reflexivity.
  - reflexivity.
  - exists s1. split; [exact Hrun1|].
    destruct (Hnext1 (set cur_pid (-1) (set shellStarted [1; 1; 1] full_table))) as (sp2 & bp2 & s2 & Hrun2 & Hc2 & Hnext2).
    + rewrite Esch. reflexivity.
    + reflexivity.
    + split; [exists 1; split; [reflexivity|discriminate]|]. split; [reflexivity|]. split; [lia|]. split; [reflexivity|].
      eexists. reflexivity.
    + exists sp2, bp2, s2. split; [exact Hrun2|].
      destruct (Hnext2 s2 eq_refl) as (sp3 & bp3 & s3 & Hrun3 & _ & Hnext3).
      * destruct Hc2 as [_ _ _ _ _ _ _ _ HP HS Hp _ _ _ _ _ (d & Hd & Epag)].
        unfold ready. rewrite HP, HS, Hp. split; [exists 1; split; [reflexivity|discriminate]|]. split; [reflexivity|].
        split; [lia|]. split; [reflexivity|]. eexists.
        change (get page_directory s2) with (g_page_directory (get pag s2)). rewrite Epag. reflexivity.
      * exists sp3, bp3, s3. split; [exact Hrun3|]. apply Hnext3. reflexivity.
Defined.
