(* ===== verification/Idt.v ===== *)
(** * idt_init.c: exceptions and the interrupt descriptor table

    The exception handlers, the initialisation of the 256 descriptors, and what
    the processor does with a vector: the descriptor decides whether a handler
    runs, which one, from which privilege level and with interrupts masked. *)

From Stdlib Require Import String Ascii.
From S2P Require Import Prelude Memory Lib Filesystem Machine Pic Screen Paging Rtc Terminal Syscall Pit.

(** ** Constants of x86_desc.h and idt_init.h *)

Definition KERNEL_CS : Z := 0x0010.
Definition NUM_VEC : Z := 256.
Definition NUM_EXCEPTIONS : Z := 32.
Definition NUM_INTERRUPTS : Z := 16.
Definition SLAVE_IRQ : Z := 2.
Definition SCALL_LOC : Z := 0x80.
Definition RESERVED_1 : Z := 1.
Definition RESERVED_15 : Z := 15.
Definition RESERVED_20 : Z := 20.
Definition USR_DPL : Z := 3.

(** ** Exception handlers *)

(** The bytes of a string literal, a new line last. *)
Definition message (s : string) : list Z :=
  (Z.of_nat ∘ nat_of_ascii <$> list_ascii_of_string s) ++ [ch_newline].

Definition exception_handler (s : string) : K outcome :=
  a ← literal 8 (message s);
  printf a [] ≫= fun _ =>
  p ← rd cur_pid;
  wr_pcb p exception_flag 1 ;;;
  sys_halt 255.

#[global] Arguments exception_handler s%_string.

Definition eh0 : K outcome := exception_handler "EXCEPTION: DIVIDE ERROR".
Definition eh2 : K outcome := exception_handler "EXCEPTION: NMI INTERRUPT".
Definition eh3 : K outcome := exception_handler "EXCEPTION: BREAKPOINT".
Definition eh4 : K outcome := exception_handler "EXCEPTION: OVERFLOW".
Definition eh5 : K outcome := exception_handler "EXCEPTION: BOUND RANGE EXCEEDED".
Definition eh6 : K outcome := exception_handler "EXCEPTION: INVALID OR UNDEFINED OPCODE".
Definition eh7 : K outcome := exception_handler "EXCEPTION: DEVICE NOT AVAILABLE".
Definition eh8 : K outcome := exception_handler "EXCEPTION: DOUBLE FAULT".
Definition eh9 : K outcome := exception_handler "EXCEPTION: COPROCESSOR SEGMENT OVERRUN".
Definition eh10 : K outcome := exception_handler "EXCEPTION: INVALID TSS".
Definition eh11 : K outcome := exception_handler "EXCEPTION: SEGMENT NOT PRESENT".
Definition eh12 : K outcome := exception_handler "EXCEPTION: STACK SEGMENT FAULT".
Definition eh13 : K outcome := exception_handler "EXCEPTION: GENERAL PROTECTION".
Definition eh14 : K outcome := exception_handler "EXCEPTION: PAGE FAULT".
Definition eh16 : K outcome := exception_handler "EXCEPTION: X87 FPU FLOATING POINT ERROR".
Definition eh17 : K outcome := exception_handler "EXCEPTION: ALIGNMENT CHECK".
Definition eh18 : K outcome := exception_handler "EXCEPTION: MACHINE CHECK".
Definition eh19 : K outcome := exception_handler "EXCEPTION: SIMD FLOATING POINT EXCEPTION".

(** ** The descriptor table *)

(** The attribute bytes of a descriptor: type bit [reserved3] (interrupt or trap
    gate), [reserved0], privilege level, present bit. *)
Definition init_gate (i reserved3 reserved0 dpl present_ : Z) : K unit :=
  wr_field idt i idt_seg_selector KERNEL_CS ;;;
  wr_field idt i idt_reserved4 0 ;;;
  wr_field idt i idt_reserved3 reserved3 ;;;
  wr_field idt i idt_reserved2 1 ;;;
  wr_field idt i idt_reserved1 1 ;;;
  wr_field idt i idt_size 1 ;;;
  wr_field idt i idt_reserved0 reserved0 ;;;
  wr_field idt i idt_dpl dpl ;;;
  wr_field idt i idt_present present_.

(** [SET_IDT_ENTRY(idt[i], handler)] *)
Definition set_idt_entry (i : Z) (handler : symbol) : K unit :=
  addr ← gets (fun s => u32 (get sym_addr s handler));
  wr_field idt i idt_offset_31_16 (Z.shiftr (Z.land addr 0xFFFF0000) 16) ;;;
  wr_field idt i idt_offset_15_00 (Z.land addr 0xFFFF).

Definition init_exceptions : K unit :=
  for_ 32 0 (fun i =>
    if negb (i =? RESERVED_1) && (i <? RESERVED_20) && negb (i =? RESERVED_15)
    then init_gate i 0 0 0 1
    else init_gate i 0 1 0 0) ;;;
  set_idt_entry 0 (SYM_eh 0) ;;;
  set_idt_entry 2 (SYM_eh 2) ;;;
  set_idt_entry 3 (SYM_eh 3) ;;;
  set_idt_entry 4 (SYM_eh 4) ;;;
  set_idt_entry 5 (SYM_eh 5) ;;;
  set_idt_entry 6 (SYM_eh 6) ;;;
  set_idt_entry 7 (SYM_eh 7) ;;;
  set_idt_entry 8 (SYM_eh 8) ;;;
  set_idt_entry 9 (SYM_eh 9) ;;;
  set_idt_entry 10 (SYM_eh 10) ;;;
  set_idt_entry 11 (SYM_eh 11) ;;;
  set_idt_entry 12 (SYM_eh 12) ;;;
  set_idt_entry 13 (SYM_eh 13) ;;;
  set_idt_entry 14 (SYM_eh 14) ;;;
  set_idt_entry 16 (SYM_eh 16) ;;;
  set_idt_entry 17 (SYM_eh 17) ;;;
  set_idt_entry 18 (SYM_eh 18) ;;;
  set_idt_entry 19 (SYM_eh 19).

Definition init_interrupts : K unit :=
  for_ 16 32 (fun i => init_gate i 1 0 0 0) ;;;
  set_idt_entry (PIT_IRQ + NUM_EXCEPTIONS) SYM_PITwrapper ;;;
  wr_field idt (PIT_IRQ + NUM_EXCEPTIONS) idt_present 1 ;;;
  set_idt_entry (KB_IRQ + NUM_EXCEPTIONS) SYM_KBhandler ;;;
  wr_field idt (KB_IRQ + NUM_EXCEPTIONS) idt_present 1 ;;;
  set_idt_entry (RTC_IRQ + NUM_EXCEPTIONS) SYM_RTChandler ;;;
  wr_field idt (RTC_IRQ + NUM_EXCEPTIONS) idt_present 1.

Definition init_syscall : K unit :=
  init_gate SCALL_LOC 1 0 USR_DPL 1 ;;;
  set_idt_entry SCALL_LOC SYM_syscall.

Definition init_idt : K unit :=
  init_exceptions ;;; init_interrupts ;;; init_syscall ;;; wr idtr_loaded true.

(** The handler of an exception vector. *)
Definition exception_vector (n : Z) : option (K outcome) :=
  match n with
  | 0 => Some eh0
  | 2 => Some eh2
  | 3 => Some eh3
  | 4 => Some eh4
  | 5 => Some eh5
  | 6 => Some eh6
  | 7 => Some eh7
  | 8 => Some eh8
  | 9 => Some eh9
  | 10 => Some eh10
  | 11 => Some eh11
  | 12 => Some eh12
  | 13 => Some eh13
  | 14 => Some eh14
  | 16 => Some eh16
  | 17 => Some eh17
  | 18 => Some eh18
  | 19 => Some eh19
  | _ => None
  end.
