(* ===== verification/Kernel.v ===== *)
(** * kernel.c: the entry point

    [entry] is called by the boot code with the loader's magic number and the
    address of the multiboot information structure; the layout of that structure
    (multiboot.h) is in the offsets below. *)

From Stdlib Require Import String Ascii.
From S2P Require Import Prelude Memory Lib Filesystem Machine Pic Screen Paging Rtc Terminal LineEditor Syscall FileTable Processes ProcessTable Pit Scheduling Idt.

(** ** Constants *)

Definition MULTIBOOT_BOOTLOADER_MAGIC : Z := 0x2BADB002.
Definition TSS_SIZE : Z := 104.
Definition KERNEL_DS : Z := 0x0018.
Definition KERNEL_TSS : Z := 0x0030.
Definition KERNEL_LDT : Z := 0x0038.
(** The sizes computed by x86_desc.S: 104 bytes of TSS, four LDT entries. *)
Definition tss_size : Z := 103.
Definition ldt_size : Z := 31.

Definition CHECK_FLAG (flags bit : Z) : bool := negb (Z.land flags (Z.shiftl 1 bit) =? 0).

(** Fields of the multiboot structures. *)
Definition mbi_flags (mbi : Z) : K Z := vm (ld32 mbi).
Definition mbi_mem_lower (mbi : Z) : K Z := vm (ld32 (mbi + 4)).
Definition mbi_mem_upper (mbi : Z) : K Z := vm (ld32 (mbi + 8)).
Definition mbi_boot_device (mbi : Z) : K Z := vm (ld32 (mbi + 12)).
Definition mbi_cmdline (mbi : Z) : K Z := vm (ld32 (mbi + 16)).
Definition mbi_mods_count (mbi : Z) : K Z := vm (ld32 (mbi + 20)).
Definition mbi_mods_addr (mbi : Z) : K Z := vm (ld32 (mbi + 24)).
Definition mbi_elf_sec (mbi : Z) : Z := mbi + 28.
Definition mbi_mmap_length (mbi : Z) : K Z := vm (ld32 (mbi + 44)).
Definition mbi_mmap_addr (mbi : Z) : K Z := vm (ld32 (mbi + 48)).
Definition mod_start (mod_ : Z) : K Z := vm (ld32 mod_).
Definition mod_end (mod_ : Z) : K Z := vm (ld32 (mod_ + 4)).
Definition mod_string (mod_ : Z) : K Z := vm (ld32 (mod_ + 8)).
Definition FILE_SYSTEM_STRING : Z := 8201.

(** ** Operations *)

(** The characters of a format string, and [printf] of a literal. *)
Definition chars (s : string) : list Z := Z.of_nat ∘ nat_of_ascii <$> list_ascii_of_string s.

Definition print (l : list Z) (args : list Z) : K unit :=
  a ← literal 9 l; printf a args ≫= fun _ => mret tt.

Definition line (s : string) : list Z := chars s ++ [ch_newline].

#[global] Arguments chars s%_string.
#[global] Arguments line s%_string.

Definition print_module (mod_count mod_ : Z) : K unit :=
  ms ← mod_start mod_;
  print (line "Module %d loaded at address: 0x%#x") [mod_count; ms] ;;;
  me ← mod_end mod_;
  print (line "Module %d ends at address: 0x%#x") [mod_count; me] ;;;
  print (line "First few bytes of module:") [] ;;;
  for_ 16 0 (fun i => c ← load8 (ms + i); print (chars "0x%x ") [u32 (s8 c)]) ;;;
  print (line "") [] ;;;
  str ← mod_string mod_;
  if str =? FILE_SYSTEM_STRING then wr fs_ptrs (fileSysInit ms) else mret tt.

Definition module_step (mbi : Z) (r : Z * Z) : K ((Z * Z) + unit) :=
  let '(mod_count, mod_) := r in
  n ← mbi_mods_count mbi;
  if mod_count <? n then print_module mod_count mod_ ;;; mret (inl (mod_count + 1, u32 (mod_ + 16)))
  else mret (inr tt).

Definition mmap_step (mbi mmap : Z) : K (Z + unit) :=
  a ← mbi_mmap_addr mbi; l ← mbi_mmap_length mbi;
  if mmap <? u32 (a + l) then
    size ← vm (ld32 mmap);
    low ← vm (ld32 (mmap + 4)); high ← vm (ld32 (mmap + 8));
    llow ← vm (ld32 (mmap + 12)); lhigh ← vm (ld32 (mmap + 16));
    type ← vm (ld32 (mmap + 20));
    print (line " size = 0x%x,     base_addr = 0x%#x%#x" ++ line "     type = 0x%x,  length    = 0x%#x%#x")%list
      [size; high; low; type; lhigh; llow] ;;;
    mret (inl (u32 (mmap + size + 4)))
  else mret (inr tt).

(** [CHECK_FLAG (mbi->flags, bit)] *)
Definition mbi_flag (mbi bit : Z) : K bool := f ← mbi_flags mbi; mret (CHECK_FLAG f bit).

(** The messages about the multiboot information; [false] when [entry] returns. *)
Definition boot_messages (magic addr : Z) : K bool :=
  if negb (magic =? MULTIBOOT_BOOTLOADER_MAGIC) then
    print (line "Invalid magic number: 0x%#x") [magic] ;;; mret false
  else
    let mbi := addr in
    f ← mbi_flags mbi;
    print (line "flags = 0x%#x") [f] ;;;
    b0 ← mbi_flag mbi 0;
    when b0
      (lower ← mbi_mem_lower mbi; upper ← mbi_mem_upper mbi;
       print (line "mem_lower = %uKB, mem_upper = %uKB") [lower; upper]) ;;;
    b1 ← mbi_flag mbi 1;
    when b1 (d ← mbi_boot_device mbi; print (line "boot_device = 0x%#x") [d]) ;;;
    b2 ← mbi_flag mbi 2;
    when b2 (c ← mbi_cmdline mbi; print (line "cmdline = %s") [c]) ;;;
    b3 ← mbi_flag mbi 3;
    when b3 (m ← mbi_mods_addr mbi; loop (module_step mbi) (0, m)) ;;;
    b4 ← mbi_flag mbi 4; b5 ← mbi_flag mbi 5;
    if (b4 : bool) && (b5 : bool) then
      print (line "Both bits 4 and 5 are set.") [] ;;; mret false
    else
      b5 ← mbi_flag mbi 5;
      when b5
        (let e := mbi_elf_sec mbi in
         num ← vm (ld32 e); size ← vm (ld32 (e + 4)); ad ← vm (ld32 (e + 8)); shndx ← vm (ld32 (e + 12));
         print (line "elf_sec: num = %u, size = 0x%#x, addr = 0x%#x, shndx = 0x%#x") [num; size; ad; shndx]) ;;;
      b6 ← mbi_flag mbi 6;
      when b6
        (a ← mbi_mmap_addr mbi; l ← mbi_mmap_length mbi;
         print (line "mmap_addr = 0x%#x, mmap_length = 0x%x") [a; l] ;;;
         loop (mmap_step mbi) a) ;;;
      mret true.

(** [SET_LDT_PARAMS] and [SET_TSS_PARAMS] on a descriptor. *)
Definition set_params (d : seg_desc_t) (addr lim : Z) : seg_desc_t :=
  set base_31_24 (Z.shiftr (Z.land addr 0xFF000000) 24)
  (set base_23_16 (Z.shiftr (Z.land addr 0x00FF0000) 16)
  (set base_15_00 (Z.land addr 0x0000FFFF)
  (set seg_lim_19_16 (Z.shiftr (Z.land lim 0x000F0000) 16)
  (set seg_lim_15_00 (Z.land lim 0x0000FFFF) d)))).

(** A local descriptor: what its fields hold before they are set is [junk]. *)
Definition make_ldt_desc (junk : seg_desc_t) (addr : Z) : seg_desc_t :=
  set_params
    (set seg_type 2 (set seg_sys 0 (set seg_dpl 0 (set seg_present 1
    (set seg_avail 0 (set seg_reserved 0 (set seg_opsize 1 (set seg_granularity 0 junk))))))))
    addr ldt_size.

Definition make_tss_desc (junk : seg_desc_t) (addr : Z) : seg_desc_t :=
  set_params
    (set seg_lim_15_00 (Z.land TSS_SIZE 0x0000FFFF)
    (set seg_type 9 (set seg_sys 0 (set seg_dpl 0 (set seg_present 1
    (set seg_lim_19_16 (Z.land TSS_SIZE 0x000F0000)
    (set seg_avail 0 (set seg_reserved 0 (set seg_opsize 0 (set seg_granularity 0 junk))))))))))
    addr tss_size.

Definition setup_descriptors (junk1 junk2 : seg_desc_t) : K unit :=
  l ← gets (fun s => u32 (get sym_addr s SYM_ldt));
  wr ldt_desc_ptr (make_ldt_desc junk1 l) ;;;
  wr ldtr KERNEL_LDT ;;;
  t ← gets (fun s => u32 (get sym_addr s SYM_tss));
  wr tss_desc_ptr (make_tss_desc junk2 t) ;;;
  wr tss_ldt_segment_selector KERNEL_LDT ;;;
  wr tss_ss0 KERNEL_DS ;;;
  wr tss_esp0 0x800000 ;;;
  wr task_register KERNEL_TSS.

Definition setup_devices : K unit :=
  i8259_init ;;;
  RTC_init ;;;
  PITinit ;;;
  enable_irq PIT_IRQ ;;;
  enable_irq KB_IRQ ;;;
  enable_irq SLAVE_IRQ ;;;
  enable_irq RTC_IRQ ;;;
  init_paging ;;;
  sti ;;;
  initialize_fops ;;;
  initialize_PCB_pointers ;;;
  a ← literal 9 [];
  terminalOpen a ≫= fun _ => mret tt.

(** [true] when the kernel reaches its idle loop, [false] when [entry] returns. *)
Definition entry (junk1 junk2 : seg_desc_t) (magic addr : Z) : K bool :=
  clear ;;;
  init_idt ;;;
  go ← boot_messages magic addr;
  if (go : bool) then
    setup_descriptors junk1 junk2 ;;;
    clear ;;;
    setup_devices ;;;
    mret true
  else mret false.

(** ** Lemmas: the initialisation of the devices *)

(** Code that only reads and writes ports. *)
Definition port_io {A} (c : K A) : Prop := forall s, exists a evs, c s = Ok (a, set trace evs s).

Lemma set_trace_trace evs evs' s : set trace evs (set trace evs' s) = set trace evs s.
Proof. by destruct s as [? ? ? ? ? ? ? ? ? []]. Qed.

Lemma port_ret {A} (a : A) : port_io (mret a).
Proof. intros s. exists a, (get trace s). by rewrite set_trace_same. Qed.

Lemma port_outb v p : port_io (outb v p).
Proof. intros s. eauto using outb_run. Qed.

Lemma port_inb p : port_io (inb p).
Proof. intros s. eexists _, _. reflexivity. Qed.

Lemma port_bind {A B} (c : K A) (k : A -> K B) : port_io c -> (forall a, port_io (k a)) -> port_io (c ≫= k).
Proof.
  intros Hc Hk s. destruct (Hc s) as (a & e1 & H1). rewrite (bind_ok _ _ _ _ _ H1).
  destruct (Hk a (set trace e1 s)) as (b & e2 & H2). exists b, e2. by rewrite H2, set_trace_trace.
Qed.

Create HintDb port.
#[local] Hint Resolve port_ret port_outb port_inb port_bind : port.

Lemma port_then {A B} (c : K A) (k : A -> K B) s :
  port_io c -> exists a evs, (c ≫= k) s = k a (set trace evs s).
Proof. intros Hc. destruct (Hc s) as (a & e & H). exists a, e. by apply bind_ok. Qed.

Lemma i8259_init_run s :
  exists evs, i8259_init s = Ok (tt, set trace evs (set slave_mask 0xFF (set master_mask 0xFF s))).
Proof.
  unfold i8259_init. do 8 (match goal with |- context [(?c ≫= ?k) ?s] =>
    destruct (port_then c k s (port_outb _ _)) as ([] & ? & ->); rewrite ?set_trace_trace end).
  rewrite !(bind_ok _ _ _ _ _ (wr_run _ _ _)), (bind_ok _ _ _ _ _ (outb_run _ _ _)), outb_run.
  destruct s as [? ? ? ? ? ? ? [] ? []]. by eexists.
Qed.

Lemma RTC_init_run s : exists evs, RTC_init s = Ok (tt, set trace evs s).
Proof.
  assert (port_io RTC_init) as H by (unfold RTC_init, enable_nmi; auto 30 with port).
  destruct (H s) as ([] & evs & Hrun). eauto.
Qed.

(** A line of a controller whose mask is known. *)
Lemma enable_master_run i m s :
  (i <? 0) || (IRQ_MAX <? i) = false -> (i <? NUM_IRQS_PER_PIC) = true -> get master_mask s = m ->
  exists evs, enable_irq i s = Ok (tt, set trace evs (set master_mask (u8 (Z.land m (Z.lnot (Z.shiftl 1 i)))) s)).
Proof. intros H1 H2 <-. unfold enable_irq. rewrite H1, H2. eexists. reflexivity. Qed.

Lemma enable_slave_run i m s :
  (i <? 0) || (IRQ_MAX <? i) = false -> (i <? NUM_IRQS_PER_PIC) = false -> get slave_mask s = m ->
  exists evs, enable_irq i s =
    Ok (tt, set trace evs (set slave_mask (u8 (Z.land m (Z.lnot (Z.shiftl 1 (i - NUM_IRQS_PER_PIC))))) s)).
Proof. intros H1 H2 <-. unfold enable_irq. rewrite H1, H2. eexists. reflexivity. Qed.

Lemma PITinit_run s :
  length (get shellStarted s) = 3%nat ->
  exists evs, PITinit s = Ok (tt, set trace evs (set curThread 0 (set shellStarted [0; 0; 0] s))).
Proof.
  intros Hl. unfold PITinit. destruct (get shellStarted s) as [|a [|b [|c []]]] eqn:E; try discriminate.
  assert (for_ 3 0 (fun i => wr_at shellStarted i 0) s = Ok (tt, set shellStarted [0; 0; 0] s)) as Hrun.
  { cbn [for_]. do 3 (erewrite bind_ok; [|apply wr_at_run; lsimpl; rewrite ?E; simpl; lia]).
    lsimpl. rewrite E. reflexivity. }
  rewrite (bind_ok _ _ _ _ _ Hrun). eexists. reflexivity.
Qed.

Lemma initialize_PCB_pointers_run s :
  length (get PCB_ptrs s) = 6%nat ->
  initialize_PCB_pointers s = Ok (tt, set PCB_ptrs (replicate 6 None) s).
Proof.
  intros Hl. unfold initialize_PCB_pointers.
  destruct (get PCB_ptrs s) as [|p0 [|p1 [|p2 [|p3 [|p4 [|p5 []]]]]]] eqn:E; try discriminate.
  cbn [for_]. do 6 (erewrite bind_ok; [|apply wr_at_run; lsimpl; rewrite ?E; simpl; lia]).
  lsimpl. rewrite E. reflexivity.
Qed.

(** ** Lemmas: the line buffers *)

Definition rows_ok (s : machine) : Prop :=
  length (get KBbuf s) = 3%nat /\ forall t row, at_ (get KBbuf s) t = Some row -> length row = 128%nat.

(** One row is filled with zeros. *)
Lemma clear_row_run j s :
  rows_ok s -> 0 <= j < 3 ->
  for_ 128 0 (fun i => wr_kb j i 0) s = Ok (tt, set KBbuf (upd (get KBbuf s) j (replicate 128 0)) s).
Proof.
  intros [Hl Hr] Hj. destruct (at_Some (get KBbuf s) j) as [row Hrow]; [lia|].
  pose proof (Hr _ _ Hrow) as Hlen.
  set (st i := set KBbuf (upd (get KBbuf s) j (replicate i 0 ++ drop i row)) s).
  assert (wp (for_ 128 0 (fun i => wr_kb j i 0)) (fun _ s' => s' = st 128%nat) s) as Hwp.
  { eapply wp_mono; [apply (wp_for (fun k s' => exists i, k = Z.of_nat i /\ s' = st i))|].
    - exists 0%nat. split; [done|]. unfold st. cbn [replicate app]. rewrite drop_0, upd_same by done.
      by destruct s as [? ? ? [] ? ? ? ? ? ?].
    - intros k s' Hk (i & -> & ->). unfold wr_kb. autorewrite with wp.
      apply wp_rd_at; [unfold st; lsimpl; rewrite length_upd; lia|]. intros r Hr'.
      unfold st in Hr'. revert Hr'. lsimpl. rewrite at_upd_eq by lia. intros [= <-].
      assert (in_range (replicate i 0 ++ drop i row) (Z.of_nat i) = true) as ->
        by (apply in_range_spec; rewrite length_app, length_replicate, length_drop; lia).
      apply wp_wr_at; [unfold st; lsimpl; rewrite length_upd; lia|].
      exists (S i). split; [lia|]. unfold st. lsimpl. rewrite upd_upd.
      transitivity (set KBbuf (upd (get KBbuf s) j (upd (replicate i 0 ++ drop i row) (Z.of_nat i) 0)) s); [done|].
      do 2 f_equal. unfold upd. rewrite Nat2Z.id, insert_app_r_alt by (rewrite length_replicate; lia).
      rewrite length_replicate, Nat.sub_diag, replicate_S_end.
      destruct (lookup_lt_is_Some_2 row i ltac:(lia)) as [v Hv]. rewrite (drop_S _ _ _ Hv). cbn [insert list_insert].
      by rewrite <- app_assoc.
    - intros [] s' (i & Hi & ->). by replace i with 128%nat by lia. }
  apply wp_inv in Hwp as ([] & s' & Hrun & ->). rewrite Hrun. unfold st. do 4 f_equal.
  by rewrite drop_ge, app_nil_r by lia.
Qed.

(** The keyboard state that [terminalOpen] leaves. *)
Definition idle_keyboard : keyboard_t :=
  Keyboard (replicate 3 (replicate 128 0)) [0; 0; 0] 0 0 0 0 0 0 0 [0; 0; 0] [0; 0; 0].

Record keyboard_sized (s : machine) : Prop := {
  ks_rows : rows_ok s;
  ks_loc : length (get buf_loc s) = 3%nat;
  ks_waiting : length (get readWaiting s) = 3%nat;
  ks_ready : length (get readReady s) = 3%nat
}.

Lemma terminalOpen_run f s :
  keyboard_sized s -> terminalOpen f s = Ok (0, set kbd idle_keyboard (set currentTerminal 0 s)).
Proof.
  intros [Hrows Hb Hw Hr]. set (s1 := set altFlagR 0 (set altFlagL 0 (set ctrlFlagR 0 (set ctrlFlagL 0
    (set shiftFlagR 0 (set shiftFlagL 0 (set capsFlag 0 (set currentTerminal 0 s)))))))).
  set (body j := wr_at readWaiting j 0 ;;; wr_at readReady j 0 ;;; wr_at buf_loc j 0 ;;;
    for_ 128 0 (fun i => wr_kb j i 0)).
  change (terminalOpen f s) with ((for_ 3 0 body ;;; mret 0) s1).
  set (cleared j s := set KBbuf (upd (get KBbuf s) j (replicate 128 0)) (set buf_loc (upd (get buf_loc s) j 0)
    (set readReady (upd (get readReady s) j 0) (set readWaiting (upd (get readWaiting s) j 0) s)))).
  assert (forall j s, keyboard_sized s -> 0 <= j < 3 ->
    body j s = Ok (tt, cleared j s) /\ keyboard_sized (cleared j s)) as Hbody.
  { clear. intros j s [[Hl Hlen] Hb Hw Hr] Hj. split.
    - unfold body. do 3 (erewrite bind_ok; [|apply wr_at_run; lsimpl; lia]).
      erewrite clear_row_run; [reflexivity| |done]. by split.
    - unfold cleared. split; [split| | |]; lsimpl; rewrite ?length_upd; try done.
      intros t row Ht. destruct (decide (t = j)) as [->|Hne].
      + rewrite at_upd_eq in Ht by lia. by injection Ht as <-.
      + rewrite at_upd_ne in Ht by (congruence || lia). by apply (Hlen t). }
  assert (keyboard_sized s1) as Hs1 by by split.
  destruct (Hbody 0 s1 Hs1 ltac:(lia)) as [Hrun0 Hs2]. destruct (Hbody 1 _ Hs2 ltac:(lia)) as [Hrun1 Hs3].
  destruct (Hbody 2 _ Hs3 ltac:(lia)) as [Hrun2 _].
  assert (for_ 3 0 body s1 = Ok (tt, cleared 2 (cleared 1 (cleared 0 s1)))) as Hfor.
  { change ((body 0 ;;; body 1 ;;; body 2 ;;; mret tt) s1 = Ok (tt, cleared 2 (cleared 1 (cleared 0 s1)))).
    by rewrite (bind_ok _ _ _ _ _ Hrun0), (bind_ok _ _ _ _ _ Hrun1), (bind_ok _ _ _ _ _ Hrun2). }
  rewrite (bind_ok _ _ _ _ _ Hfor). change (Ok (0, cleared 2 (cleared 1 (cleared 0 s1))) =
    Ok (0, set kbd idle_keyboard (set currentTerminal 0 s))). do 2 f_equal.
  clear - Hrows Hb Hw Hr. destruct Hrows as [Hk _].
  destruct s as [mem fs scr [K B c0 c1 c2 c3 c4 c5 c6 W R] prc sch pag irqc dsc hw].
  change (length K = 3%nat) in Hk. change (length B = 3%nat) in Hb. change (length W = 3%nat) in Hw.
  change (length R = 3%nat) in Hr.
  destruct K as [|? [|? [|? []]]], B as [|? [|? [|? []]]], W as [|? [|? [|? []]]], R as [|? [|? [|? []]]]; done.
Qed.

(** ** The state that the initialisation leaves *)

(** The kernel's tables before the initialisation, with paging off. *)
Record bootable (size : Z) (im : fs_image) (s : machine) : Prop := {
  bt_off : get paging_enabled s = false;
  bt_tables : tables_sized s;
  bt_layout : layout_ok (get pag s);
  bt_disk : disk size im s;
  bt_keyboard : keyboard_sized s;
  bt_ptrs : length (get PCB_ptrs s) = 6%nat;
  bt_pcbs : length (get pcbs s) = 6%nat;
  bt_fdts : forall i p, at_ (get pcbs s) i = Some p -> length (pcb_process_fdt p) = 8%nat;
  bt_threads : length (get shellStarted s) = 3%nat /\ length (get ESPstore s) = 3%nat /\
    length (get EBPstore s) = 3%nat /\ length (get PIDstore s) = 3%nat;
  bt_clock : length (get RTC_read_flag s) = 3%nat
}.

(** The lines that the kernel listens to: timer, keyboard, slave controller, clock. *)
Definition enabled_lines : list Z := [PIT_IRQ; KB_IRQ; SLAVE_IRQ; RTC_IRQ].

(** The state up to the last local array, without the memory. *)
Definition booted (s : machine) (evs : list io_event) : machine :=
  set PCB_ptrs (replicate 6 None)
    (set cur_pid (-1) (set fops_tables std_fops
      (set eflags_if true (paged (set trace evs
        (set slave_mask 0xFE (set master_mask 0xF8
          (set curThread 0 (set shellStarted [0; 0; 0] s))))))))).

Lemma setup_devices_run size im s :
  bootable size im s ->
  exists evs s1, locals_only (booted s evs) s1 /\
    setup_devices s = Ok (tt, set kbd idle_keyboard (set currentTerminal 0 s1)).
Proof.
  intros [Hoff Htabs Hlay Hdisk Hkb Hptrs Hpcbs Hfdts (L1 & L2 & L3 & L4) Hclk]. unfold setup_devices.
  destruct (i8259_init_run s) as [e1 H1]. rewrite (bind_ok _ _ _ _ _ H1).
  destruct (RTC_init_run (set trace e1 (set slave_mask 0xFF (set master_mask 0xFF s)))) as [e2 H2].
  rewrite (bind_ok _ _ _ _ _ H2). set (s2 := set trace e2 _).
  destruct (PITinit_run s2 L1) as [e3 H3]. rewrite (bind_ok _ _ _ _ _ H3). set (s3 := set trace e3 _).
  destruct (enable_master_run PIT_IRQ 0xFF s3) as [e4 H4]; [reflexivity..|]. rewrite (bind_ok _ _ _ _ _ H4). set (s4 := set trace e4 _).
  destruct (enable_master_run KB_IRQ 0xFE s4) as [e5 H5]; [reflexivity..|]. rewrite (bind_ok _ _ _ _ _ H5). set (s5 := set trace e5 _).
  destruct (enable_master_run SLAVE_IRQ 0xFC s5) as [e6 H6]; [reflexivity..|]. rewrite (bind_ok _ _ _ _ _ H6). set (s6 := set trace e6 _).
  destruct (enable_slave_run RTC_IRQ 0xFF s6) as [e7 H7]; [reflexivity..|]. rewrite (bind_ok _ _ _ _ _ H7). set (s7 := set trace e7 _).
  assert (init_paging s7 = Ok (tt, paged s7)) as H8 by (apply init_paging_run; by destruct Htabs).
  rewrite (bind_ok _ _ _ _ _ H8), (bind_ok _ _ _ _ _ (wr_run eflags_if true _)).
  set (s9 := set eflags_if true _).
  rewrite (bind_ok initialize_fops _ s9 tt (set cur_pid (-1) (set fops_tables std_fops s9)) eq_refl).
  assert (initialize_PCB_pointers (set cur_pid (-1) (set fops_tables std_fops s9)) = Ok (tt, booted s e7)) as H10
    by (rewrite initialize_PCB_pointers_run by exact Hptrs; reflexivity).
  rewrite (bind_ok _ _ _ _ _ H10).
  destruct (literal_run 9 [] (booted s e7)) as (s1 & Hlit & Hlo & _); [by intros i c Hi; rewrite lookup_nil in Hi|lia|simpl; lia|].
  exists e7, s1. split; [exact Hlo|]. rewrite (bind_ok _ _ _ _ _ Hlit).
  assert (get kbd s1 = get kbd s) as Ek by exact (locals_get kbd (booted s e7) s1 (fun _ => eq_refl) Hlo).
  assert (keyboard_sized s1) as Hk1.
  { pose proof (f_equal k_KBbuf Ek : get KBbuf s1 = get KBbuf s) as E1.
    pose proof (f_equal k_buf_loc Ek : get buf_loc s1 = get buf_loc s) as E2.
    pose proof (f_equal k_readWaiting Ek : get readWaiting s1 = get readWaiting s) as E3.
    pose proof (f_equal k_readReady Ek : get readReady s1 = get readReady s) as E4.
    destruct Hkb as [[Ha Hb] Hc Hd He]. split; [split|..]; rewrite ?E1, ?E2, ?E3, ?E4; done. }
  by rewrite (bind_ok _ _ _ _ _ (terminalOpen_run _ _ Hk1)).
Qed.

(** The memory before paging is on, at an address of the kernel's 4 MB. *)
Lemma cell_off s a : get paging_enabled s = false -> 0 <= a < 2 ^ 32 -> cell (view s) a = Some a.
Proof.
  intros Hoff Ha. change (cell (view s) a) with (translate (get pag s) a). unfold translate.
  change (g_paging_enabled (get pag s)) with (get paging_enabled s). rewrite Hoff, u32_small by done.
  destruct (Z.leb_spec (2 ^ 32) a); [lia|done].
Qed.

Lemma booted_paging size im s evs : bootable size im s -> paging_inv 0 None (get pag (booted s evs)).
Proof.
  intros [_ [] Hlay _ _ _ _ _ _ _].
  set (s0 := set trace evs (set slave_mask 0xFE (set master_mask 0xF8 (set curThread 0 (set shellStarted [0; 0; 0] s))))).
  change (get pag (booted s evs)) with (get pag (paged s0)). by apply boot_paging_inv.
Qed.

Lemma booted_disk size im s evs : bootable size im s -> disk size im (booted s evs).
Proof.
  intros Hb. pose proof (booted_paging _ _ _ evs Hb) as Hpag. destruct Hb as [Hoff _ _ [Hrep Hpl Hby] _ _ _ _ _ _].
  split; [|exact Hpl|exact Hby]. apply (fs_rep_transfer (view s)); [|done]. intros a Ha.
  change (get fs_ptrs (booted s evs)) with (get fs_ptrs s) in *.
  assert (FOUR_MB <= a < EIGHT_MB) as Hr by (unfold MAX_PROCESSES, EIGHT_KB, EIGHT_MB, FOUR_MB in *; lia).
  rewrite !(load_cell _ _ a); [done| |by apply (kernel_cell 0 None)].
  apply cell_off; [done|]. unfold EIGHT_MB, FOUR_MB in Hr. lia.
Qed.

Lemma empty_stacks t l : at_ [[]; []; []] t = Some l -> l = ([] : list Z) /\ (t = 0 \/ t = 1 \/ t = 2).
Proof.
  intros Ht. pose proof (at_inv _ _ _ Ht) as Hr. simpl in Hr.
  assert (t = 0 \/ t = 1 \/ t = 2) as [->|[->| ->]] by lia; injection Ht as <-; eauto.
Qed.

Lemma booted_threads size im s evs : bootable size im s -> threads 0 [[]; []; []] (booted s evs).
Proof.
  intros Hb. pose proof (booted_paging _ _ _ evs Hb) as Hpag.
  destruct Hb as [_ _ _ _ _ Hptrs Hpcbs Hfdts (L1 & L2 & L3 & L4) _]. set (b := booted s evs) in *.
  split; [split|..]; try done.
  - intros t l [-> _]%empty_stacks. split; [done|apply NoDup_nil_2].
  - intros i j Hi. change (at_ (replicate 6 (None : option Z)) i = Some (Some j)) in Hi.
    unfold at_ in Hi. destruct (0 <=? i); [|done]. by apply lookup_replicate in Hi as [? _].
  - intros t l [-> [->|[->| ->]]]%empty_stacks; done.
  - by intros t i l [? _]%empty_stacks.
  - exists None. split; [done|]. by intros i l [? _]%empty_stacks.
Qed.

(** The invariant leaves the keyboard, the shown terminal and the local arrays open. *)
Lemma system_reset shown size im st k t m b :
  threads shown st b -> disk size im (set mem m b) -> length (get RTC_read_flag b) = 3%nat ->
  system shown size im st (set kbd k (set currentTerminal t (set mem m b))).
Proof.
  intros [H1 H2 H3 H4 H5 H6 H7] [D1 D2 D3] Hc. split; [|by split|done].
  split; [by apply (table_same st b)|done..].
Qed.

Lemma booted_lines s evs n :
  0 <= n <= IRQ_MAX -> irq_masked (booted s evs) n = false <-> n ∈ enabled_lines.
Proof.
  unfold IRQ_MAX. intros Hn.
  assert (get master_mask (booted s evs) = 0xF8) as Hm by done.
  assert (get slave_mask (booted s evs) = 0xFE) as Hs by done.
  set (masked n := if n <? 8 then Z.testbit 0xF8 n else Z.testbit 0xFE (n - 8)).
  assert (irq_masked (booted s evs) n = masked n) as -> by (unfold irq_masked; by rewrite Hm, Hs).
  set (agrees n := Bool.eqb (masked n) (negb (bool_decide (n ∈ enabled_lines)))).
  assert (agrees n = true) as E%Bool.eqb_prop
    by (apply (forallb_range agrees 0 16); [vm_compute; reflexivity|lia]).
  rewrite E, negb_false_iff. apply bool_decide_eq_true.
Qed.

(** ** Properties *)

(** C7: the initialisation of the devices, [setup_devices], establishes the
    invariant of the kernel: no process and no shell yet, paging on with the boot
    map, the keyboard idle and terminal 0 shown, interrupts on, and exactly the
    timer, keyboard, slave-controller and clock lines unmasked.  The first timer
    interrupt then starts the shell on terminal 0 as process 0. *)
Theorem setup_devices_establishes_system size im s :
  bootable size im s ->
  exists s', setup_devices s = Ok (tt, s') /\ system 0 size im [[]; []; []] s' /\
    get kbd s' = idle_keyboard /\ get currentTerminal s' = 0 /\ get eflags_if s' = true /\
    (forall n, 0 <= n <= IRQ_MAX -> (irq_masked s' n = false <-> n ∈ enabled_lines)) /\
    forall ino c, has_shell im ino c ->
      exists s1, PIThandler s' = Ok (Executed (EnterUser (entry_point c) USER_ESP USER_CS USER_DS), s1) /\
        system 0 size im [[0]; []; []] s1 /\ get cur_pid s1 = 0 /\ bytes_at (view s1) PROGRAM_INIT_VIRTUAL_ADDR c.
Proof.
  intros Hb. destruct (setup_devices_run size im s Hb) as (evs & s1 & Hlo & Hrun).
  set (s' := set kbd idle_keyboard (set currentTerminal 0 s1)) in *.
  exists s'. split; [exact Hrun|]. pose proof (booted_paging _ _ _ evs Hb) as Hpag.
  pose proof (disk_locals _ _ _ _ Hlo (paging_inv_apart _ _ _ Hpag) (booted_disk _ _ _ evs Hb)) as Hdisk.
  pose proof (booted_threads _ _ _ evs Hb) as Hth. pose proof (bt_clock _ _ _ Hb) as Hclk.
  pose proof (lo_mem _ _ Hlo) as E. set (m1 := get mem s1) in E. clearbody m1. subst s1.
  assert (system 0 size im [[]; []; []] s') as Hsys by by apply system_reset.
  split; [exact Hsys|]. split; [reflexivity|]. split; [reflexivity|]. split; [reflexivity|].
  split; [intros n Hn; exact (booted_lines s evs n Hn)|]. intros ino c Hshell.
  destruct (tick_starts_shell 0 [[]; []; []] size im 0 ino c 0 s') as (s2 & Htick & Hth2 & Hd2 & Hrest);
    [apply Hsys|split; [reflexivity|by left]|apply Hsys|reflexivity|done|].
  destruct Hrest as (_ & Hcur & Hirq & Hbytes). exists s2. split; [exact Htick|].
  split; [split; [exact Hth2|exact Hd2|]|by split]. rewrite (clock_same _ _ Hirq). exact Hclk.
Qed.

(** The machine of file ProcessTable before the initialisation. *)
Definition unbooted_machine : machine :=
  set fs_ptrs (fileSysInit 0x600000)
    (boot_state shell_memory (replicate 6 zero_pcb) demo_layout (fun _ _ => 0) [] 0x7FFFF0 0x7FFFF8).

Lemma unbooted_bootable : bootable 0x3000 shell_image unbooted_machine.
Proof.
  assert (disk 0x3000 shell_image shell_machine) as [Hrep Hpl Hby] by (apply (shell_disk 0 None); [apply shell_paging|done..]).
  split; try done.
  - split; [|done|done]. apply (fs_rep_transfer (view shell_machine)); [|exact Hrep].
    intros a Ha. change (get fs_ptrs shell_machine) with (fileSysInit 0x600000) in Ha. simpl in Ha.
    rewrite (load_cell _ a a) by (apply cell_off; [done|lia]).
    by rewrite (load_cell (view shell_machine) a a)
      by (eapply kernel_cell; [apply shell_paging|unfold FOUR_MB, EIGHT_MB; lia]).
  - split; try done. split; [done|]. intros t row Ht. unfold at_ in Ht. destruct (0 <=? t); [|done].
    change (replicate 3 (replicate 128 0) !! Z.to_nat t = Some row) in Ht.
    by apply lookup_replicate in Ht as [-> _].
  - intros i p Hp. unfold at_ in Hp. destruct (0 <=? i); [|done].
    change (replicate 6 zero_pcb !! Z.to_nat i = Some p) in Hp. by apply lookup_replicate in Hp as [-> _].
Qed.

Lemma setup_devices_establishes_system_witness :
  exists s' s1, setup_devices unbooted_machine = Ok (tt, s') /\
    PIThandler s' = Ok (Executed (EnterUser 0x8048000 0x83FFFFC 0x23 0x2B), s1) /\
    system 0 0x3000 shell_image [[0]; []; []] s1.
Proof.
  destruct (setup_devices_establishes_system 0x3000 shell_image unbooted_machine unbooted_bootable)
    as (s' & Hrun & _ & _ & _ & _ & _ & Hshell).
  destruct (Hshell 0 shell_program shell_image_shell) as (s1 & Htick & Hsys & _).
  exists s', s1. exact (conj Hrun (conj Htick Hsys)).
Defined.
