(* ===== verification/User.v ===== *)
(** * User code: memory, the support library and the system call wrappers

    User programs run with the page map of their process and without the
    supervisor's rights: an access that the processor refuses is a page fault.
    The routines of ece391support.c are written over that memory; the wrappers of
    ece391syscall.S enter the kernel through the dispatcher [syscall]. *)

From S2P Require Import Prelude Memory Lib Filesystem Machine Paging Syscall.

(** ** The memory of user code *)

Record umem := UMem { um_phys : flat; um_paging : paging_t }.

(** The cell of a user access: the page is present and marked for users. *)
Definition user_cell (g : paging_t) (a : Z) : option Z :=
  match access g (u32 a) with
  | Some (p, true) => Some p
  | _ => None
  end.

#[export] Instance umem_mem : ByteMem umem := {|
  cell := fun m a => user_cell (um_paging m) a;
  peek := fun m c => peek (um_phys m) c;
  poke := fun m c v => UMem (poke (um_phys m) c v) (um_paging m)
|}.

#[export] Instance umem_laws : ByteMemLaws umem.
Proof.
  split.
  - intros m c. apply (peek_range (M := flat)).
  - intros m c v. apply (peek_poke_eq (M := flat)).
  - intros m c c' v. apply (peek_poke_ne (M := flat)).
  - done.
  - intros [m g] c c' v v' Hne. change (UMem (poke (poke m c v) c' v') g = UMem (poke (poke m c' v') c v) g).
    f_equal. by apply poke_comm.
Qed.

Definition uview (s : machine) : umem := UMem (get mem s) (get pag s).

(** User code that only accesses memory. *)
Definition um {A} (c : ST umem A) : K A := fun s =>
  match c (uview s) with
  | Ok (a, m) => Ok (a, set mem (um_phys m) s)
  | Fail f => Fail f
  end.

(** [*p] and [*p = v] for a byte pointer of a program. *)
Definition uload (a : Z) : K Z := um (ld8 a).
Definition ustore (a v : Z) : K unit := um (st8 a v).

(** ** The support library *)

Section support.
Context {M : Type} `{ByteMem M}.

Definition ece391_strlen_step (r : Z * Z) : ST M ((Z * Z) + Z) :=
  let '(s, len) := r in
  c ← ld8 s; mret (if c =? 0 then inr len else inl (s + 1, len + 1)).

Definition ece391_strlen (s : Z) : ST M Z := loop ece391_strlen_step (s, 0).

Definition ece391_strcpy_step (r : Z * Z) : ST M ((Z * Z) + unit) :=
  let '(dst, src) := r in
  c ← ld8 src; st8 dst c ;;;
  mret (if c =? 0 then inr tt else inl (dst + 1, src + 1)).

Definition ece391_strcpy (dst src : Z) : ST M unit := loop ece391_strcpy_step (dst, src).

Definition ece391_strcmp_step (r : Z * Z) : ST M ((Z * Z) + Z) :=
  let '(s1, s2) := r in
  a ← ld8 s1; b ← ld8 s2;
  mret (if a =? b then if a =? 0 then inr 0 else inl (s1 + 1, s2 + 1) else inr (a - b)).

Definition ece391_strcmp (s1 s2 : Z) : ST M Z := loop ece391_strcmp_step (s1, s2).

Definition ece391_strncmp_step (r : Z * Z * Z) : ST M ((Z * Z * Z) + Z) :=
  let '(s1, s2, n) := r in
  a ← ld8 s1; b ← ld8 s2;
  mret (if a =? b then
          if a =? 0 then inr 0
          else let n := u32 (n - 1) in if n =? 0 then inr 0 else inl (s1 + 1, s2 + 1, n)
        else inr (a - b)).

Definition ece391_strncmp (s1 s2 n : Z) : ST M Z :=
  if n =? 0 then mret 0 else loop ece391_strncmp_step (s1, s2, n).

Definition ece391_strrev_step (s : Z) (r : Z * Z) : ST M ((Z * Z) + unit) :=
  let '(beg, end_) := r in
  if beg <? end_ then
    tmp ← ld8 (s + end_);
    c ← ld8 (s + beg);
    st8 (s + end_) c ;;;
    st8 (s + beg) tmp ;;;
    mret (inl (beg + 1, end_ - 1))
  else mret (inr tt).

Definition ece391_strrev (s : Z) : ST M Z :=
  n ← ece391_strlen s;
  let end_ := s32 (n - 1) in
  if end_ <=? 0 then mret s
  else loop (ece391_strrev_step s) (0, end_) ;;; mret s.

Definition ece391_itoa_step (radix : Z) (r : Z * Z) : ST M ((Z * Z) + Z) :=
  let '(newval, newbuf) := r in
  if 0 <? newval then
    if u32 radix =? 0 then fail DivideError
    else
      d ← of_option OutOfBounds (at_ lookup_table (newval `mod` u32 radix));
      st8 newbuf d ;;;
      mret (inl (newval / u32 radix, newbuf + 1))
  else mret (inr newbuf).

Definition ece391_itoa (value buf radix : Z) : ST M Z :=
  if value =? 0 then st8 buf 48 ;;; st8 (buf + 1) 0 ;;; mret buf
  else
    newbuf ← loop (ece391_itoa_step radix) (value, buf);
    st8 newbuf 0 ;;;
    ece391_strrev buf.
End support.

(** ** The system call wrappers *)

Definition SYS_HALT : Z := 1.
Definition SYS_EXECUTE : Z := 2.
Definition SYS_READ : Z := 3.
Definition SYS_WRITE : Z := 4.
Definition SYS_OPEN : Z := 5.
Definition SYS_CLOSE : Z := 6.
Definition SYS_GETARGS : Z := 7.
Definition SYS_VIDMAP : Z := 8.
Definition SYS_SET_HANDLER : Z := 9.
Definition SYS_SIGRETURN : Z := 10.

(** What a program's text does not fix: what the machine does when a call does not
    return by itself (the new program runs until it halts) and the value with
    which it comes back to the caller; the stack words that a wrapper with fewer
    than three arguments loads; the registers where a program enters the kernel
    without loading them; and the addresses of the program's string literals. *)
Class UserEnv := {
  elsewhere : outcome -> K Z;
  stk1 : Z; stk2 : Z; stk3 : Z;
  reg_ebx : Z; reg_ecx : Z; reg_edx : Z;
  lit : list Z -> Z
}.

Section calls.
Context `{UserEnv}.

Definition returned (o : outcome) : K Z :=
  match o with
  | Return v => mret (s32 v)
  | _ => v ← elsewhere o; mret (s32 v)
  end.

Definition DO_CALL (number a1 a2 a3 : Z) : K Z := o ← syscall number a1 a2 a3; returned o.

Definition ece391_halt (status : Z) : K Z := DO_CALL SYS_HALT status stk2 stk3.
Definition ece391_execute (command : Z) : K Z := DO_CALL SYS_EXECUTE command stk2 stk3.
Definition ece391_read (fd buf nbytes : Z) : K Z := DO_CALL SYS_READ fd buf nbytes.
Definition ece391_write (fd buf nbytes : Z) : K Z := DO_CALL SYS_WRITE fd buf nbytes.
Definition ece391_open (filename : Z) : K Z := DO_CALL SYS_OPEN filename stk2 stk3.
Definition ece391_close (fd : Z) : K Z := DO_CALL SYS_CLOSE fd stk2 stk3.
Definition ece391_getargs (buf nbytes : Z) : K Z := DO_CALL SYS_GETARGS buf nbytes stk3.
Definition ece391_vidmap (screen_start : Z) : K Z := DO_CALL SYS_VIDMAP screen_start stk2 stk3.
Definition ece391_set_handler (signum handler : Z) : K Z := DO_CALL SYS_SET_HANDLER signum handler stk3.
Definition ece391_sigreturn : K Z := DO_CALL SYS_SIGRETURN stk1 stk2 stk3.

Definition ece391_fdputs (fd s : Z) : K unit :=
  n ← um (ece391_strlen s); ece391_write fd s n ≫= fun _ => mret tt.

(** The start of every program: main, then halt with its result. *)
Definition _start (main : K Z) : K Z := v ← main; DO_CALL SYS_HALT v 0 0.
End calls.

(** ** Lemmas: the support library *)

Section support_lemmas.
Context {M : Type} `{ByteMemLaws M}.
Implicit Types (m : M) (s a b : Z) (l : list Z).

Lemma ece391_strlen_kernel s m : ece391_strlen s m = strlen s m.
Proof.
  assert ((loop ece391_strlen_step (s, 0) ≫= mret) m = (loop (strlen_step s) 0 ≫= mret) m) as E.
  { apply (loop_simulation _ _ (fun x len => x = (s + len, len))); [|by rewrite Z.add_0_r].
    intros x len m' ->. unfold ece391_strlen_step, strlen_step, mbind, ST_bind.
    destruct (ld8 (s + len) m') as [[c m1]|f]; [|done]. cbn. destruct (c =? 0); [done|].
    split; [done|]. by rewrite Z.add_assoc. }
  rewrite !bind_ret_r in E. exact E.
Qed.

Lemma ece391_strrev_kernel s m : ece391_strrev s m = strrev s m.
Proof.
  unfold ece391_strrev, strrev. unfold mbind at 1 3, ST_bind at 1 3. rewrite ece391_strlen_kernel.
  destruct (strlen s m) as [[n m1]|f]; [|done].
  destruct (Z.leb_spec (s32 (n - 1)) 0) as [Hle|]; [|done].
  rewrite (bind_ok _ _ _ tt m1); [done|]. apply loop_exit. unfold strrev_step.
  by destruct (Z.ltb_spec 0 (s32 (n - 1))); [lia|].
Qed.

Lemma ece391_itoa_kernel value buf radix m : ece391_itoa value buf radix m = itoa value buf radix m.
Proof.
  unfold ece391_itoa, itoa. destruct (value =? 0); [done|].
  change (loop (ece391_itoa_step radix) (value, buf)) with (@loop M _ _ (itoa_step radix) (value, buf)).
  unfold mbind at 1 3, ST_bind at 1 3. destruct (loop (itoa_step radix) (value, buf) m) as [[e m1]|f]; [|done].
  unfold mbind, ST_bind. destruct (st8 e 0 m1) as [[? m2]|f]; [|done]. apply ece391_strrev_kernel.
Qed.

Lemma ece391_strcpy_kernel dst src m : ece391_strcpy dst src m = (strcpy dst src ≫= fun _ => mret tt) m.
Proof.
  unfold strcpy. rewrite <- run_assoc.
  assert ((loop ece391_strcpy_step (dst, src) ≫= mret) m =
    (loop (strcpy_step dst src) 0 ≫= fun i => (st8 (dst + i) 0 ;;; mret dst) ≫= fun _ => mret tt) m) as E.
  { apply (loop_simulation _ _ (fun x i => x = (dst + i, src + i))); [|by rewrite !Z.add_0_r].
    intros x i m' ->. unfold ece391_strcpy_step, strcpy_step, mbind, ST_bind.
    destruct (ld8 (src + i) m') as [[c m1]|f]; [|done].
    destruct (Z.eqb_spec c 0) as [->|Hc].
    - by destruct (st8 (dst + i) 0 m1) as [[[] m2]|f] eqn:Est; cbn; rewrite Est.
    - destruct (st8 (dst + i) c m1) as [[u m2]|f]; [|done]. cbn. split; [done|]. by rewrite !Z.add_assoc. }
  rewrite bind_ret_r in E. exact E.
Qed.

Lemma ld8_inv a m c m' : ld8 a m = Ok (c, m') -> m' = m /\ 0 <= c < 256.
Proof.
  unfold ld8. destruct (cell m a) as [p|]; [|done]. intros [= <- <-]. split; [done|apply peek_range].
Qed.

(** Copying towards lower addresses: the blocks may overlap. *)
Lemma ece391_strcpy_down m d s str :
  bytes_at m s (str ++ [0]) -> Forall (fun c => c <> 0) str -> Z.of_nat (length str) < 2 ^ 31 ->
  mapped m d (Z.of_nat (length str) + 1) ->
  (forall i k c, 0 <= i < k -> k <= Z.of_nat (length str) -> cell m (d + i) = Some c -> cell m (s + k) <> Some c) ->
  ece391_strcpy d s m = Ok (tt, write_bytes m d (str ++ [0])).
Proof.
  intros Hb Hnz Hlen Hmap Hsep. set (out := str ++ [0]) in *.
  assert (length out = S (length str)) as Hout by (unfold out; rewrite length_app; simpl; lia).
  assert (wp (loop ece391_strcpy_step (d, s)) (fun _ m' => m' = write_bytes m d out) m) as ([] & m' & Hrun & ->)%wp_inv; [|done].
  apply (wp_loop_bound _ (fun k x m' => exists i, (i <= length str)%nat /\ k = Z.of_nat (length str) - Z.of_nat i /\
    x = (d + Z.of_nat i, s + Z.of_nat i) /\ m' = write_bytes m d (take i out)) _) with (k := Z.of_nat (length str)).
  - intros k x m' (i & Hi & -> & -> & ->). unfold ece391_strcpy_step.
    destruct (lookup_lt_is_Some_2 out i) as [c Hc]; [lia|].
    assert (load (write_bytes m d (take i out)) (s + Z.of_nat i) = Some c) as Hld.
    { rewrite (frame_load m _ d (Z.of_nat (length (take i out)))); [by apply Hb|apply write_bytes_frame|].
      rewrite length_take. intros i' c' Hi' Hc'. apply (Hsep i'); [lia|lia|done]. }
    apply wp_bind. eapply wp_run; [by apply ld8_run|].
    assert (st8 (d + Z.of_nat i) c (write_bytes m d (take i out)) = Ok (tt, write_bytes m d (take (S i) out))) as Hst.
    { replace (d + Z.of_nat i) with (d + Z.of_nat (length (take i out))) by (rewrite length_take; lia).
      rewrite write_bytes_snoc; [by rewrite (take_S_r out i c Hc)|]. intros k Hk. rewrite length_take.
      destruct (Hmap (Z.of_nat (i `min` length out) + k)) as [x Hx]; [lia|]. exists x. by rewrite <- Z.add_assoc. }
    apply wp_bind. eapply wp_run; [exact Hst|]. apply wp_ret. destruct (Z.eqb_spec c 0) as [->|Hc0].
    + f_equal. destruct (decide (i < length str)%nat) as [Hlt|].
      * exfalso. unfold out in Hc. rewrite lookup_app_l in Hc by done. by apply (proj1 (Forall_lookup _ _) Hnz i 0 Hc).
      * by rewrite take_ge by lia.
    + assert (i <> length str) as Hne.
      { intros ->. unfold out in Hc. rewrite lookup_app_r, Nat.sub_diag in Hc by lia. by injection Hc as <-. }
      exists (Z.of_nat (length str) - Z.of_nat (S i)). split; [|lia]. exists (S i). split_and!; [lia|done| |done].
      f_equal; lia.
  - exists 0%nat. split_and!; [lia|lia|by rewrite !Z.add_0_r|done].
  - lia.
Qed.

(** One position of the two comparisons. *)
Lemma strncmp_position a b i m :
  0 < i < 2 ^ 32 ->
  match ece391_strncmp_step (a, b, i) m with
  | Fail f => strncmp_loop (Z.to_nat i) a b m = Fail f
  | Ok (inr r', m1) => m1 = m /\ exists r, strncmp_loop (Z.to_nat i) a b m = Ok (r, m) /\
      (r = 0 /\ r' = 0 \/
       exists x y, load m a = Some x /\ load m b = Some y /\ x <> y /\ r = s8 x - s8 y /\ r' = x - y)
  | Ok (inl x', m1) => m1 = m /\ x' = (a + 1, b + 1, i - 1) /\ 1 < i /\ load m a = load m b /\
      strncmp_loop (Z.to_nat i) a b m = strncmp_loop (Z.to_nat (i - 1)) (a + 1) (b + 1) m
  end.
Proof.
  intros Hi. replace (Z.to_nat i) with (S (Z.to_nat (i - 1))) by lia. cbn [strncmp_loop]. unfold ece391_strncmp_step.
  destruct (load m a) as [x|] eqn:Ha; [|by rewrite !(bind_fail _ _ _ _ (ld8_fault _ _ Ha))].
  rewrite !(bind_ok _ _ _ _ _ (ld8_run _ _ _ Ha)).
  destruct (load m b) as [y|] eqn:Hb; [|by rewrite !(bind_fail _ _ _ _ (ld8_fault _ _ Hb))].
  rewrite !(bind_ok _ _ _ _ _ (ld8_run _ _ _ Hb)). pose proof (load_range _ _ _ Ha) as Hx. pose proof (load_range _ _ _ Hb) as Hy.
  assert (s8 x = s8 y <-> x = y) as Hxy by (split; [by apply s8_inj|by intros ->]).
  assert (s8 x = 0 <-> x = 0) as Hx0 by (split; [intros E; apply s8_inj; (done || lia)|by intros ->]).
  destruct (Z.eqb_spec x y) as [<-|Hne].
  - rewrite Z.eqb_refl. cbn [negb orb]. destruct (Z.eqb_spec x 0) as [->|Hne0].
    + split; [done|]. exists 0. split; [done|by left].
    + rewrite (proj2 (Z.eqb_neq (s8 x) 0)), u32_small by (tauto || lia). destruct (Z.eqb_spec (i - 1) 0) as [E|E].
      * rewrite E. split; [done|]. exists 0. split; [done|by left].
      * split_and!; (done || lia).
  - rewrite (proj2 (Z.eqb_neq (s8 x) (s8 y))) by tauto. split; [done|]. exists (s8 x - s8 y). split; [done|]. right.
    by exists x, y.
Qed.

(** What the kernel's strncmp and the library's have in common: they fail alike, and
    leave the memory; either both find the strings equal or they stop at the same
    first difference, whose characters the kernel's compares as signed and the
    library's as unsigned numbers. *)
Definition same_comparison m (s1 s2 n : Z) (k u : result (Z * M)) : Prop :=
  match k, u with
  | Fail f, Fail f' => f = f'
  | Ok (r, m1), Ok (r', m2) => m1 = m /\ m2 = m /\
      (r = 0 /\ r' = 0 \/
       exists i x y, 0 <= i < n /\ (forall j, 0 <= j < i -> load m (s1 + j) = load m (s2 + j)) /\
         load m (s1 + i) = Some x /\ load m (s2 + i) = Some y /\ x <> y /\ r = s8 x - s8 y /\ r' = x - y)
  | _, _ => False
  end.

Lemma strncmp_same_comparison s1 s2 n m :
  0 <= n < 2 ^ 32 -> same_comparison m s1 s2 n (strncmp s1 s2 n m) (ece391_strncmp s1 s2 n m).
Proof.
  intros Hn. unfold ece391_strncmp, strncmp. destruct (Z.eqb_spec n 0) as [->|Hn0].
  { split_and!; [done|done|by left]. }
  apply (loop_result _ (fun k '(a, b, i) m2 => k = i /\ m2 = m /\ 0 < i <= n /\ a = s1 + (n - i) /\ b = s2 + (n - i) /\
    (forall j, 0 <= j < n - i -> load m (s1 + j) = load m (s2 + j)) /\
    strncmp_loop (Z.to_nat n) s1 s2 m = strncmp_loop (Z.to_nat i) a b m) _) with (k := n);
    [|rewrite Z.sub_diag, !Z.add_0_r; split_and!; (done || lia)|lia].
  intros k [[a b] i] m2 (-> & -> & Hi & -> & -> & Heq & ->).
  pose proof (strncmp_position (s1 + (n - i)) (s2 + (n - i)) i m ltac:(lia)) as Hpos. revert Hpos.
  destruct (ece391_strncmp_step _ m) as [[[x'|r'] m1]|f].
  - intros (-> & -> & Hi1 & Hl & Hk). exists (i - 1). split; [|lia]. split_and!; [done|done|lia|lia|lia|lia| |done].
    intros j Hj. destruct (Z.eq_dec j (n - i)) as [->|]; [done|apply Heq; lia].
  - intros (-> & r & -> & Hr). split; [done|]. split; [done|]. destruct Hr as [?|(x & y & ? & ? & ? & ? & ?)]; [by left|right].
    exists (n - i), x, y. split_and!; (done || lia).
  - by intros ->.
Qed.

(** The two are zero alike. *)
Lemma ece391_strncmp_kernel s1 s2 n m r m' :
  0 <= n < 2 ^ 32 -> strncmp s1 s2 n m = Ok (r, m') ->
  exists r', ece391_strncmp s1 s2 n m = Ok (r', m') /\ (r' = 0 <-> r = 0).
Proof.
  intros Hn Hk. pose proof (strncmp_same_comparison s1 s2 n m Hn) as Hs. rewrite Hk in Hs.
  destruct (ece391_strncmp s1 s2 n m) as [[r' m2]|f]; [|done]. destruct Hs as (-> & -> & Hr). exists r'. split; [done|].
  destruct Hr as [[-> ->]|(i & x & y & _ & _ & Hx%load_range & Hy%load_range & Hne & -> & ->)]; [done|].
  split; [lia|]. intros E. assert (s8 x = s8 y) as Hxy%s8_inj by lia; lia.
Qed.

Lemma ece391_strcmp_run m s1 s2 l1 l2 :
  bytes_at m s1 (l1 ++ [0]) -> bytes_at m s2 (l2 ++ [0]) -> Forall (fun c => c <> 0) l1 -> Forall (fun c => c <> 0) l2 ->
  Z.of_nat (length l1) < 2 ^ 31 ->
  exists r, ece391_strcmp s1 s2 m = Ok (r, m) /\ (r = 0 <-> l1 = l2).
Proof.
  intros H1' H2' Hn1 Hn2 Hlen.
  assert (wp (loop ece391_strcmp_step (s1, s2)) (fun r m' => m' = m /\ (r = 0 <-> l1 = l2)) m) as (r & m' & Hrun & -> & ?)%wp_inv;
    [|by exists r].
  apply (wp_loop_bound _ (fun k x m' => m' = m /\ exists pre r1 r2, l1 = pre ++ r1 /\ l2 = pre ++ r2 /\ k = Z.of_nat (length r1) /\
    x = (s1 + Z.of_nat (length pre), s2 + Z.of_nat (length pre))) _) with (k := Z.of_nat (length l1)).
  - intros k x m' (-> & pre & r1 & r2 & -> & -> & -> & ->). rewrite <- app_assoc in H1', H2'.
    apply bytes_at_app in H1' as [_ H1']. apply bytes_at_app in H2' as [_ H2'].
    apply Forall_app in Hn1 as [_ Hn1]. apply Forall_app in Hn2 as [_ Hn2]. unfold ece391_strcmp_step.
    destruct r1 as [|x r1], r2 as [|y r2]; cbn [app] in H1', H2'; apply bytes_at_cons in H1' as [Hx _]; apply bytes_at_cons in H2' as [Hy _];
      (apply wp_bind; eapply wp_run; [by apply ld8_run|]; apply wp_bind; eapply wp_run; [by apply ld8_run|]; apply wp_ret).
    + done.
    + inversion_clear Hn2. rewrite (proj2 (Z.eqb_neq 0 y)) by lia. split; [done|]. split; [lia|].
      intros E%app_inv_head. discriminate.
    + inversion_clear Hn1. rewrite (proj2 (Z.eqb_neq x 0)) by lia. split; [done|]. split; [lia|].
      intros E%app_inv_head. discriminate.
    + inversion_clear Hn1. destruct (Z.eqb_spec x y) as [->|Hne].
      * rewrite (proj2 (Z.eqb_neq y 0)) by lia. exists (Z.of_nat (length r1)). split; [|simpl; lia]. split; [done|].
        exists (pre ++ [y]), r1, r2. rewrite <- !app_assoc, !length_app. split_and!; try done. simpl. f_equal; lia.
      * split; [done|]. split; [lia|]. intros [= E _]%app_inv_head. done.
  - split; [done|]. exists [], l1, l2. by rewrite !Z.add_0_r.
  - lia.
Qed.

(** ** Properties *)

(** C34: the routines of the programs' support library against the kernel's own, on
    every memory and failures included: strlen, strrev and itoa are equal to them,
    strcpy makes the same stores, and strncmp fails as the kernel's does, finds the
    same strings equal and stops at the same first difference; there the kernel's
    result is the difference of signed characters and the library's of unsigned ones,
    so that values and signs may differ while both are nonzero. *)
Theorem support_library_matches_kernel m :
  (forall s, ece391_strlen s m = strlen s m) /\
  (forall s, ece391_strrev s m = strrev s m) /\
  (forall value buf radix, ece391_itoa value buf radix m = itoa value buf radix m) /\
  (forall dst src, ece391_strcpy dst src m = (strcpy dst src ≫= fun _ => mret tt) m) /\
  (forall s1 s2 n, 0 <= n < 2 ^ 32 -> same_comparison m s1 s2 n (strncmp s1 s2 n m) (ece391_strncmp s1 s2 n m)).
Proof.
  split_and!; intros; [apply ece391_strlen_kernel|apply ece391_strrev_kernel|apply ece391_itoa_kernel|
    apply ece391_strcpy_kernel|by apply strncmp_same_comparison].
Qed.
End support_lemmas.

(** A difference with a character above 127: the kernel's comparison is negative and
    the library's positive. *)
Lemma support_library_matches_kernel_witness :
  let m := flat_of 100 [108; 200; 0; 9; 108; 120; 0] in
  same_comparison m 100 104 2 (strncmp 100 104 2 m) (ece391_strncmp 100 104 2 m) /\
  strncmp 100 104 2 m = Ok (-176, m) /\ ece391_strncmp 100 104 2 m = Ok (80, m).
Proof.
  intros m. destruct (support_library_matches_kernel m) as (_ & _ & _ & _ & Hncmp).
  split; [apply Hncmp; lia|split; vm_compute; reflexivity].
Defined.
