(* ===== verification/Session.v ===== *)
(** * Sessions: a program at work on its terminal

    The state in which the program of process [j] runs on terminal [t], and what
    each wrapper of file User does in it: what a program prints appears on the
    pages of its terminal, what it reads arrives in its own page, and the rest of
    its memory stays. *)

From S2P Require Import Prelude Memory Lib Filesystem Machine Pic Screen Paging Rtc Terminal LineEditor Syscall FileTable Processes ProcessTable Pit Scheduling User.

(** ** Specification *)

(** The cell of an address of the process's page. *)
Definition page_cell (j a : Z) : Z := process_frame j + (a - PROCESS_VIRTUAL).

Definition in_page (a n : Z) : Prop := PROCESS_VIRTUAL <= a /\ a + n <= PROCESS_VIRTUAL + FOUR_MB.

(** The bytes [l] from [a] on in the page of process [j]. *)
Definition page_bytes (j : Z) (s : machine) (a : Z) (l : list Z) : Prop :=
  forall i v, l !! i = Some v -> byte s (page_cell j (a + Z.of_nat i)) = v.

(** Only [n] bytes from [b] of the process's page differ. *)
Definition page_kept (j b n : Z) (s s' : machine) : Prop :=
  forall a, in_page a 1 -> ~ (b <= a < b + n) -> byte s' (page_cell j a) = byte s (page_cell j a).

Record session (size : Z) (im : fs_image) (t p j : Z) (l : list file_descriptor_entry_t) (a : tty)
    (s : machine) : Prop := {
  se_run : running j l s;
  se_pag : paging_inv (get currentTerminal s) (Some j) (get pag s);
  se_scr : screen_ok s;
  se_t : 0 <= t < NUM_TERMINALS;
  se_term : cur_terminal s = Ok (t, s);
  se_page : page_of s t p;
  se_x : at_ (get screen_x s) t = Some (tty_x a);
  se_y : at_ (get screen_y s) t = Some (tty_y a);
  se_shows : shows s p (tty_cell a);
  se_disk : disk size im s;
  se_clock : length (get RTC_read_flag s) = 3%nat
}.

(** The keyboard, its controller, the shown terminal and the process slots are as
    they were. *)
Record quiet (s s' : machine) : Prop := {
  q_ptrs : get PCB_ptrs s' = get PCB_ptrs s;
  q_kbd : get kbd s' = get kbd s;
  q_ct : get currentTerminal s' = get currentTerminal s;
  q_device : get device s' = get device s;
  q_pending : get pending s' = get pending s;
  q_if : get eflags_if s' = get eflags_if s;
  q_inputs : inputs (get trace s') = inputs (get trace s)
}.

Definition stdout_entry : file_descriptor_entry_t := FdEntry STDOUT_FOPS 0 0 STDOUT_FLAG.

(** A string of the program: no NUL before its end. *)
Definition text (l : list Z) : Prop := Forall (fun c => c <> 0) l /\ Z.of_nat (length l) < FOUR_MB.

(** ** Lemmas: the calls *)

Section calls.
Context `{UserEnv}.

Lemma return_run n a1 a2 a3 v s s' :
  syscall n a1 a2 a3 s = Ok (Return v, s') -> DO_CALL n a1 a2 a3 s = Ok (s32 v, s').
Proof. intros E. unfold DO_CALL. by rewrite (bind_ok _ _ _ _ _ E). Qed.

Lemma returns_run (c : K Z) v s s' : c s = Ok (v, s') -> returns c s = Ok (Return v, s').
Proof. intros E. unfold returns. by rewrite (bind_ok _ _ _ _ _ E). Qed.

Lemma read_call fd buf n v s s' :
  sys_read (s32 fd) (u32 buf) (s32 n) s = Ok (v, s') -> ece391_read fd buf n s = Ok (s32 v, s').
Proof. intros E. by apply return_run, returns_run. Qed.

Lemma write_call fd buf n v s s' :
  sys_write (s32 fd) (u32 buf) (s32 n) s = Ok (v, s') -> ece391_write fd buf n s = Ok (s32 v, s').
Proof. intros E. by apply return_run, returns_run. Qed.

Lemma open_call f v s s' : sys_open (u32 f) s = Ok (v, s') -> ece391_open f s = Ok (s32 v, s').
Proof. intros E. by apply return_run, returns_run. Qed.

Lemma close_call fd v s s' : sys_close (s32 fd) s = Ok (v, s') -> ece391_close fd s = Ok (s32 v, s').
Proof. intros E. by apply return_run, returns_run. Qed.

Lemma getargs_call buf n v s s' :
  sys_getargs (u32 buf) (s32 n) s = Ok (v, s') -> ece391_getargs buf n s = Ok (s32 v, s').
Proof. intros E. by apply return_run, returns_run. Qed.

Lemma execute_call c v s s' :
  sys_execute (u32 c) s = Ok (Return v, s') -> ece391_execute c s = Ok (s32 v, s').
Proof. intros E. by apply return_run. Qed.

Lemma vidmap_call a v s s' : sys_vidmap (u32 a) s = Ok (v, s') -> ece391_vidmap a s = Ok (s32 v, s').
Proof. intros E. by apply return_run, returns_run. Qed.
End calls.

(** ** Lemmas: the process's page *)

Lemma page_cell_high j a : 0 <= j -> in_page a 1 -> EIGHT_MB <= page_cell j a.
Proof.
  intros Hj [Ha _]. unfold page_cell, process_frame, PROCESS_BASE_4KB_ALIGNED_ADDRESS, EIGHT_MB, FOUR_MB in *. lia.
Qed.

Lemma page_cell_inj j a b : page_cell j a = page_cell j b -> a = b.
Proof. unfold page_cell. lia. Qed.

Lemma in_page_sub a n i k : in_page a n -> 0 <= i -> i + k <= n -> in_page (a + i) k.
Proof. intros [? ?] ? ?. split; lia. Qed.

Lemma page_bytes_app j s a l1 l2 :
  page_bytes j s a (l1 ++ l2) <-> page_bytes j s a l1 /\ page_bytes j s (a + Z.of_nat (length l1)) l2.
Proof.
  split.
  - intros Hb. split; intros i v Hi.
    + by apply Hb, lookup_app_l_Some.
    + rewrite <- Z.add_assoc, <- Nat2Z.inj_add. apply Hb. by rewrite lookup_app_r, Nat.add_comm, Nat.add_sub by lia.
  - intros [H1 H2] i v [Hi|[Hle Hi]]%lookup_app_Some; [by apply H1|]. apply H2 in Hi.
    rewrite <- Z.add_assoc, <- Nat2Z.inj_add in Hi. by replace (length l1 + (i - length l1))%nat with i in Hi by lia.
Qed.

Lemma page_bytes_kept j b n s s' a l :
  page_kept j b n s s' -> in_page a (Z.of_nat (length l)) ->
  (a + Z.of_nat (length l) <= b \/ b + n <= a) -> page_bytes j s a l -> page_bytes j s' a l.
Proof.
  intros Hk Ha Hsep Hb i v Hi. pose proof (lookup_lt_Some _ _ _ Hi).
  rewrite Hk; [by apply Hb|apply (in_page_sub _ _ _ _ Ha); lia|lia].
Qed.

Lemma page_kept_trans j b n s1 s2 s3 :
  page_kept j b n s1 s2 -> page_kept j b n s2 s3 -> page_kept j b n s1 s3.
Proof. intros H1 H2 a Ha Hn. by rewrite (H2 a Ha Hn), (H1 a Ha Hn). Qed.

Lemma page_kept_weaken j b n b' n' s s' :
  page_kept j b n s s' -> (n <= 0 \/ b' <= b /\ b + n <= b' + n') -> page_kept j b' n' s s'.
Proof. intros Hk Hle a Ha Hn. apply Hk; [done|lia]. Qed.

Section session.
Context (size : Z) (im : fs_image) (t p j : Z).
Implicit Types (l : list file_descriptor_entry_t) (a : tty) (s : machine).

Abbreviation session := (session size im t p j).

Lemma session_pid l a s : session l a s -> 0 <= j < 6.
Proof. intros Hs. exact (paging_inv_pid _ _ _ (se_pag _ _ _ _ _ _ _ _ Hs)). Qed.

Lemma session_cell l a s b : session l a s -> in_page b 1 -> cell (view s) b = Some (page_cell j b).
Proof.
  intros Hs [H1 H2]. apply (process_cell _ _ _ _ (se_pag _ _ _ _ _ _ _ _ Hs)). lia.
Qed.

Lemma session_ucell l a s b : session l a s -> in_page b 1 -> cell (uview s) b = Some (page_cell j b).
Proof.
  intros Hs Hb. pose proof (session_cell _ _ _ _ Hs Hb) as Hc. destruct Hb as [H1 H2].
  unfold PROCESS_VIRTUAL, FOUR_MB in H1, H2.
  change (user_cell (get pag s) b = Some (page_cell j b)). unfold user_cell. rewrite u32_small by lia.
  change (translate (get pag s) b = Some (page_cell j b)) in Hc.
  pose proof (se_pag _ _ _ _ _ _ _ _ Hs) as Hpag. rewrite translate_access in Hc by (apply Hpag || lia).
  erewrite access_map in * by (done || lia). unfold address_map, VIDEO, FOUR_KB, FOUR_MB, EIGHT_MB, USER_VIDEO, PROCESS_VIRTUAL in *.
  destruct (Z.leb_spec 0xB8000 b), (Z.ltb_spec b (0xB8000 + 4 * 0x1000)); try lia.
  destruct (Z.leb_spec 0x400000 b), (Z.ltb_spec b 0x800000); try lia.
  destruct (Z.leb_spec 0x20000000 b), (Z.ltb_spec b (0x20000000 + 3 * 0x1000)); try lia.
  destruct (Z.leb_spec 0x8000000 b), (Z.ltb_spec b (0x8000000 + 0x400000)); try lia. done.
Qed.

(** What the kernel and what the program see in the page. *)
Lemma session_bytes l a s b bs :
  session l a s -> in_page b (Z.of_nat (length bs)) ->
  page_bytes j s b bs -> bytes_at (view s) b bs /\ bytes_at (uview s) b bs.
Proof.
  intros Hs Hb Hbs. split; intros i v Hi; pose proof (lookup_lt_Some _ _ _ Hi);
    [rewrite (load_cell _ _ _ (session_cell _ _ _ _ Hs (in_page_sub b _ (Z.of_nat i) 1 Hb ltac:(lia) ltac:(lia))))
    |rewrite (load_cell _ _ _ (session_ucell _ _ _ _ Hs (in_page_sub b _ (Z.of_nat i) 1 Hb ltac:(lia) ltac:(lia))))];
    f_equal; by apply Hbs.
Qed.

Lemma session_mapped l a s b n : session l a s -> in_page b n -> mapped (view s) b n /\ injective (view s) b n.
Proof.
  intros Hs Hb.
  assert (forall i, 0 <= i < n -> cell (view s) (b + i) = Some (page_cell j (b + i))) as Hc
    by (intros i Hi; eapply session_cell; [exact Hs|apply (in_page_sub _ _ _ _ Hb); lia]).
  split; [intros i Hi; rewrite Hc by done; by eexists|].
  intros i i' c Hi Hi'. rewrite !Hc by done. intros [= <-] [= E%page_cell_inj]. lia.
Qed.

Lemma session_safe l a s b bs :
  session l a s -> in_page b (Z.of_nat (length bs)) -> page_bytes j s b bs -> safe_bytes t b bs s.
Proof.
  intros Hs Hb Hbs i c Hi. pose proof (lookup_lt_Some _ _ _ Hi).
  assert (in_page (b + Z.of_nat i) 1) as Hi1 by (apply (in_page_sub _ _ _ _ Hb); lia).
  exists (page_cell j (b + Z.of_nat i)). split_and!; [exact (session_cell _ _ _ _ Hs Hi1)| |by apply Hbs].
  intros Hc. apply screen_cells_range in Hc; [|apply Hs]. pose proof (session_pid _ _ _ Hs).
  pose proof (page_cell_high j _ ltac:(lia) Hi1). unfold VIDEO, FOUR_KB, EIGHT_MB in *. lia.
Qed.

(** *** The state after a call *)

Lemma running_prc l s s' : get prc s' = get prc s -> running j l s -> running j l s'.
Proof.
  intros E [Hc Hp Hf Hq Hl Ho].
  pose proof (f_equal p_cur_pid E : get cur_pid s' = get cur_pid s) as E1.
  pose proof (f_equal p_PCB_ptrs E : get PCB_ptrs s' = get PCB_ptrs s) as E2.
  pose proof (f_equal p_fdt E : get fdt s' = get fdt s) as E3.
  pose proof (f_equal p_pcbs E : get pcbs s' = get pcbs s) as E4.
  pose proof (f_equal p_fops_tables E : get fops_tables s' = get fops_tables s) as E5.
  split; rewrite ?E1, ?E2, ?E3, ?E4, ?E5; done.
Qed.

Lemma disk_kept l a s s' :
  session l a s -> get pag s' = get pag s -> get fs_ptrs s' = get fs_ptrs s ->
  (forall c, FOUR_MB <= c < EIGHT_MB -> byte s' c = byte s c) -> disk size im s'.
Proof.
  intros Hs Epag Efs Hb. pose proof (se_pag _ _ _ _ _ _ _ _ Hs) as Hpag.
  destruct (se_disk _ _ _ _ _ _ _ _ Hs) as [Hrep Hpl Hby]. split; rewrite ?Efs; [|done|done].
  apply (fs_rep_transfer (view s)); [|done]. intros c Hc.
  assert (FOUR_MB <= c < EIGHT_MB) as Hr by (unfold MAX_PROCESSES, EIGHT_KB, EIGHT_MB, FOUR_MB in *; lia).
  rewrite !(load_cell _ _ c); [|by eapply kernel_cell|by eapply kernel_cell; [rewrite Epag|]].
  f_equal. by apply Hb.
Qed.

Lemma running_current k l s pc :
  running k l s -> at_ (get pcbs s) k = Some pc -> cur_terminal s = Ok (pcb_parent_terminal pc, s).
Proof.
  intros [Hc Hp _ _ _ _] Hq. unfold cur_terminal. rewrite (bind_ok _ _ _ _ _ (rd_run _ _)), Hc.
  by rewrite (rd_pcb_run s k _ pc).
Qed.

(** Output on the terminal. *)
Lemma session_wrote l a a' s s' :
  session l a s -> wrote t p a' s s' -> session l a' s' /\ page_kept j 0 0 s s'.
Proof.
  intros Hs [Hx Hy Hsh Hok Hf _]. pose proof (session_pid _ _ _ Hs) as Hj.
  assert (forall c, VIDEO + 4 * FOUR_KB <= c -> byte s' c = byte s c) as Hb.
  { intros c Hc. apply (sf_mem _ _ _ Hf). intros Hin. apply screen_cells_range in Hin; [lia|apply Hs]. }
  unfold VIDEO, FOUR_KB in Hb. destruct Hf as [_ Eprc _ Epag Eirq Efs _ _ _ Ect _ _]. split.
  - pose proof Hs as [H1 H2 H3 H4 H5 H6 H7 H8 H9 H10 H11]. split; try done.
    + by eapply running_prc.
    + by rewrite Ect, Epag.
    + by apply (cur_terminal_prc s' s).
    + unfold page_of in *. by rewrite Ect.
    + eapply disk_kept; [exact Hs|done|done|]. intros c Hc. apply Hb. unfold FOUR_MB in Hc. lia.
    + by rewrite (f_equal i_RTC_read_flag Eirq : get RTC_read_flag s' = get RTC_read_flag s).
  - intros b Hb1 _. apply Hb. pose proof (page_cell_high j b ltac:(lia) Hb1). unfold EIGHT_MB in *. lia.
Qed.

Lemma wrote_quiet a s s' : wrote t p a s s' -> quiet s s'.
Proof.
  intros [_ _ _ _ Hf _]. destruct Hf as [? Eprc]. split; try done. exact (f_equal p_PCB_ptrs Eprc).
Qed.

Lemma quiet_trans s1 s2 s3 : quiet s1 s2 -> quiet s2 s3 -> quiet s1 s3.
Proof. intros [] []. split; congruence. Qed.

(** The cells of a block of the process's page. *)
Lemma write_out_elsewhere l a s b out c :
  session l a s -> in_page b (Z.of_nat (length out)) ->
  (forall k, b <= k < b + Z.of_nat (length out) -> c <> page_cell j k) -> byte (write_out b out s) c = byte s c.
Proof.
  intros Hs Hb Hc. apply write_out_byte. intros i Hi.
  rewrite (session_cell _ _ _ _ Hs (in_page_sub b _ i 1 Hb ltac:(lia) ltac:(lia))).
  intros [= <-]. apply (Hc (b + i)); [lia|done].
Qed.

(** Bytes stored in the page, and another descriptor table. *)
Lemma session_files l l' a s b out :
  session l a s -> length l' = 8%nat -> in_page b (Z.of_nat (length out)) -> Forall (fun c => 0 <= c < 256) out ->
  session l' a (put_files j l' (write_out b out s)) /\
  page_kept j b (Z.of_nat (length out)) s (put_files j l' (write_out b out s)) /\
  page_bytes j (put_files j l' (write_out b out s)) b out.
Proof.
  intros Hs Hl' Hb Hout. pose proof (session_pid _ _ _ Hs) as Hj. set (s1 := write_out b out s).
  assert (forall c, byte (put_files j l' s1) c = byte s1 c) as Hput
    by (intros c; unfold put_files; by destruct (at_ (get pcbs s1) j)).
  assert (forall c, c < EIGHT_MB -> byte s1 c = byte s c) as Hlow.
  { intros c Hc. eapply write_out_elsewhere; [exact Hs|done|]. intros k Hk ->.
    pose proof (page_cell_high j k ltac:(lia)). destruct Hb. unfold in_page in *. lia. }
  assert (running j l s1) as Hr1 by (apply (running_prc l s); [done|apply Hs]).
  pose proof (put_files_running j l l' s1 Hr1 Hl') as Hr. split_and!.
  - pose proof Hs as [H1 H2 H3 H4 H5 H6 H7 H8 H9 H10 H11].
    assert (exists pc, at_ (get pcbs s) j = Some pc /\
      put_files j l' s1 = set pcbs (upd (get pcbs s) j (set process_fdt l' pc)) s1) as (pc & Hpc & Eput).
    { destruct (ru_pcb _ _ _ H1) as (pc & Hpc & _). exists pc. split; [done|]. unfold put_files.
      change (get pcbs s1) with (get pcbs s). by rewrite Hpc. }
    assert (get pag (put_files j l' s1) = get pag s /\ get scr (put_files j l' s1) = get scr s /\
      get fs_ptrs (put_files j l' s1) = get fs_ptrs s /\ get irqc (put_files j l' s1) = get irqc s)
      as (Epag & Escr & Efs & Eirq) by (by rewrite Eput).
    split; try done.
    + rewrite Epag. by rewrite (f_equal s_currentTerminal Escr : get currentTerminal (put_files j l' s1) = get currentTerminal s).
    + pose proof (f_equal s_screen_x Escr : get screen_x (put_files j l' s1) = get screen_x s) as Ex.
      pose proof (f_equal s_screen_y Escr : get screen_y (put_files j l' s1) = get screen_y s) as Ey.
      pose proof (f_equal s_currentTerminal Escr : get currentTerminal (put_files j l' s1) = get currentTerminal s) as Ec.
      destruct H3. split; rewrite ?Ex, ?Ey, ?Ec; done.
    + assert (at_ (get pcbs (put_files j l' s1)) j = Some (set process_fdt l' pc)) as Hq
        by (rewrite Eput; lsimpl; apply at_upd_eq; by apply at_inv in Hpc).
      rewrite (running_current _ _ _ _ Hr Hq). rewrite (running_current _ _ _ _ H1 Hpc) in H5. injection H5 as <-. done.
    + unfold page_of in *. by rewrite (f_equal s_currentTerminal Escr : get currentTerminal (put_files j l' s1) = get currentTerminal s).
    + by rewrite (f_equal s_screen_x Escr : get screen_x (put_files j l' s1) = get screen_x s).
    + by rewrite (f_equal s_screen_y Escr : get screen_y (put_files j l' s1) = get screen_y s).
    + intros pos Hpos. rewrite Hput, Hlow; [by apply H9|].
      destruct H6 as [->|[_ ->]]; unfold terminal_page, NUM_TERMINALS, NUM_COLS, NUM_ROWS, VIDEO, FOUR_KB, EIGHT_MB in *; lia.
    + eapply disk_kept; [exact Hs|done|done|]. intros c Hc. rewrite Hput. apply Hlow. lia.
    + by rewrite (f_equal i_RTC_read_flag Eirq : get RTC_read_flag (put_files j l' s1) = get RTC_read_flag s).
  - intros k Hk Hn. rewrite Hput. eapply write_out_elsewhere; [exact Hs|done|].
    intros k' Hk' E%page_cell_inj. lia.
  - intros i v Hi. rewrite Hput. pose proof (lookup_lt_Some _ _ _ Hi).
    destruct (session_mapped _ _ _ _ _ Hs Hb) as [Hmap Hinj].
    unfold byte, s1, write_out. change (peek (write_bytes (view s) b out) (page_cell j (b + Z.of_nat i)) = v).
    apply (peek_write_bytes (view s) b out i v); [done|done| |done|].
    + intros k w Hk. by apply (proj1 (Forall_lookup _ _) Hout k).
    + eapply session_cell; [exact Hs|]. apply (in_page_sub _ _ _ _ Hb); lia.
Qed.

(** *** Printing *)

Context `{UserEnv}.

Lemma in_page_u32 b n : in_page b n -> 0 <= n -> u32 b = b /\ b <> 0.
Proof. intros [H1 H2] Hn. unfold PROCESS_VIRTUAL, FOUR_MB in *. rewrite u32_small; lia. Qed.

Lemma s32_int n : 0 <= n <= FOUR_MB -> s32 n = n.
Proof. intros Hn. apply s32_small. unfold FOUR_MB in Hn. lia. Qed.

Lemma strlen_session l a s b bs :
  session l a s -> text bs -> in_page b (Z.of_nat (length bs) + 1) -> page_bytes j s b (bs ++ [0]) ->
  um (ece391_strlen b) s = Ok (Z.of_nat (length bs), s).
Proof.
  intros Hs [Hnz Hlen] Hb Hbs. unfold um. rewrite ece391_strlen_kernel, (strlen_run _ _ bs).
  - by destruct s.
  - eapply session_bytes; [exact Hs|by rewrite length_app, Nat2Z.inj_add|done].
  - intros [i Hi]%list_elem_of_lookup. by apply (proj1 (Forall_lookup _ _) Hnz i 0 Hi).
  - unfold FOUR_MB in Hlen. lia.
Qed.

(** [ece391_write(1, b, n)] for the bytes at [b]. *)
Lemma write_stdout_wrote l a s b bs :
  session l a s -> at_ l 1 = Some stdout_entry -> in_page b 1 ->
  in_page b (Z.of_nat (length bs)) -> page_bytes j s b bs ->
  exists s', ece391_write 1 b (Z.of_nat (length bs)) s = Ok (Z.of_nat (length bs), s') /\ wrote t p (tty_puts bs a) s s'.
Proof.
  intros Hs Ho Hb0 Hb Hbs. pose proof Hs as [H1 H2 H3 H4 H5 H6 H7 H8 H9 _ _].
  destruct (in_page_u32 _ _ Hb0 ltac:(lia)) as [Eb Hnz]. pose proof Hb as [Hb1 Hb2].
  assert (0 <= Z.of_nat (length bs) <= FOUR_MB) as Hlen by lia.
  destruct (terminalWrite_run 1 b bs t s p a) as (s' & Hrun & Hw).
  - by eapply paging_inv_video.
  - done.
  - done.
  - done.
  - done.
  - destruct H3; split; eauto.
  - split; [by apply (output_start t s H3)|done].
  - by eapply session_safe.
  - exists s'. split; [|exact Hw].
    rewrite <- (s32_int (Z.of_nat (length bs))) at 2 by done. apply write_call. rewrite Eb, (s32_int (Z.of_nat (length bs))) by done.
    change (s32 1) with 1. unfold sys_write. change ((1 <=? 0) || (MAX_NUM_FDT_ENTRIES <? 1)) with false. cbv iota.
    rewrite (proj2 (Z.eqb_neq _ _) Hnz). destruct (Z.ltb_spec (Z.of_nat (length bs)) 0); [lia|]. cbn [orb].
    rewrite (bind_ok _ _ _ _ _ (rd_fdt_run j l 1 flags stdout_entry s H1 Ho)).
    change (get flags stdout_entry =? UNUSED_FLAG) with false. cbv iota.
    rewrite (bind_ok _ _ _ _ _ (rd_fdt_run j l 1 fops_pointer stdout_entry s H1 Ho)).
    unfold call_write. by rewrite (bind_ok _ _ _ stdout_fops s) by (by eapply deref_fops_run).
Qed.

Lemma write_stdout l a s b bs :
  session l a s -> at_ l 1 = Some stdout_entry -> in_page b 1 ->
  in_page b (Z.of_nat (length bs)) -> page_bytes j s b bs ->
  exists s', ece391_write 1 b (Z.of_nat (length bs)) s = Ok (Z.of_nat (length bs), s') /\
    session l (tty_puts bs a) s' /\ page_kept j 0 0 s s'.
Proof.
  intros Hs Ho Hb0 Hb Hbs. destruct (write_stdout_wrote l a s b bs Hs Ho Hb0 Hb Hbs) as (s' & Hrun & Hw).
  exists s'. split; [done|by eapply session_wrote].
Qed.

(** [ece391_fdputs(1, b)] prints the string at [b]. *)
Lemma fdputs_wrote l a s b bs :
  session l a s -> at_ l 1 = Some stdout_entry -> text bs -> in_page b (Z.of_nat (length bs) + 1) ->
  page_bytes j s b (bs ++ [0]) ->
  exists s', ece391_fdputs 1 b s = Ok (tt, s') /\ wrote t p (tty_puts bs a) s s'.
Proof.
  intros Hs Ho Ht Hb Hbs. unfold ece391_fdputs. rewrite (bind_ok _ _ _ _ _ (strlen_session _ _ _ _ _ Hs Ht Hb Hbs)).
  apply page_bytes_app in Hbs as [Hbs _].
  assert (in_page b 1 /\ in_page b (Z.of_nat (length bs))) as [Hb1 Hb2] by (destruct Hb; split; split; lia).
  destruct (write_stdout_wrote l a s b bs Hs Ho Hb1 Hb2 Hbs) as (s' & Hrun & Hs'). exists s'. split; [|done].
  by rewrite (bind_ok _ _ _ _ _ Hrun).
Qed.

Lemma fdputs_run l a s b bs :
  session l a s -> at_ l 1 = Some stdout_entry -> text bs -> in_page b (Z.of_nat (length bs) + 1) ->
  page_bytes j s b (bs ++ [0]) ->
  exists s', ece391_fdputs 1 b s = Ok (tt, s') /\ session l (tty_puts bs a) s' /\ page_kept j 0 0 s s'.
Proof.
  intros Hs Ho Ht Hb Hbs. destruct (fdputs_wrote l a s b bs Hs Ho Ht Hb Hbs) as (s' & Hrun & Hw).
  exists s'. split; [done|by eapply session_wrote].
Qed.

(** The string literals [L] of the program are in its page, outside the [n] bytes
    from [b]. *)
Definition literals (L : list (list Z)) (b n : Z) (s : machine) : Prop :=
  Forall (fun bs => text bs /\ in_page (lit bs) (Z.of_nat (length bs) + 1) /\
    page_bytes j s (lit bs) (bs ++ [0]) /\ (lit bs + Z.of_nat (length bs) + 1 <= b \/ b + n <= lit bs)) L.

Lemma literals_kept L b n s s' : literals L b n s -> page_kept j b n s s' -> literals L b n s'.
Proof.
  intros HL Hk. eapply Forall_impl; [|exact HL]. intros bs (Ht & Hp & Hb & Hsep). split_and!; try done.
  eapply page_bytes_kept; [exact Hk| | |exact Hb]; rewrite length_app, Nat2Z.inj_add; simpl; [done|lia].
Qed.

Lemma say_run L b n l a s bs :
  session l a s -> at_ l 1 = Some stdout_entry -> literals L b n s -> bs ∈ L ->
  exists s', ece391_fdputs 1 (lit bs) s = Ok (tt, s') /\ session l (tty_puts bs a) s' /\ page_kept j 0 0 s s' /\
    literals L b n s'.
Proof.
  intros Hs Ho HL [i Hi]%list_elem_of_lookup. destruct (proj1 (Forall_lookup _ _) HL i bs Hi) as (Ht & Hp & Hb & Hsep).
  destruct (fdputs_run l a s (lit bs) bs Hs Ho Ht Hp Hb) as (s' & Hrun & Hs' & Hk).
  exists s'. split_and!; try done. eapply literals_kept; [exact HL|]. eapply page_kept_weaken; [exact Hk|lia].
Qed.

(** *** Reading files and the directory *)

Lemma session_buffer l a s b n : session l a s -> in_page b n -> 0 <= n -> user_buffer b n size s.
Proof.
  intros Hs Hb Hn. destruct (session_mapped _ _ _ _ _ Hs Hb) as [Hmap Hinj].
  destruct (dk_place _ _ _ (se_disk _ _ _ _ _ _ _ _ Hs)) as [Hp1 Hp2]. pose proof (session_pid _ _ _ Hs) as Hj.
  split; [destruct Hb; unfold PROCESS_VIRTUAL in *; lia|done|done|].
  intros i k c Hi Hk. rewrite (session_cell _ _ _ _ Hs (in_page_sub _ _ i 1 Hb ltac:(lia) ltac:(lia))). intros [= <-].
  rewrite (kernel_cell _ _ _ _ (se_pag _ _ _ _ _ _ _ _ Hs)) by (unfold MAX_PROCESSES, EIGHT_KB, EIGHT_MB in *; lia).
  intros [= E]. pose proof (page_cell_high j (b + i) ltac:(lia) (in_page_sub _ _ i 1 Hb ltac:(lia) ltac:(lia))).
  unfold MAX_PROCESSES, EIGHT_KB in *. lia.
Qed.

Lemma read_file l a s fd b n ino pos c :
  session l a s -> at_ l fd = Some (file_entry ino pos) -> fd <> 1 -> in_page b n -> 0 <= n ->
  at_ (im_files im) ino = Some c -> 0 <= pos <= Z.of_nat (length c) ->
  let out := file_slice c pos n in
  exists s', ece391_read fd b n s = Ok (Z.of_nat (length out), s') /\
    session (upd l fd (file_entry ino (pos + Z.of_nat (length out)))) a s' /\
    page_kept j b n s s' /\ page_bytes j s' b out.
Proof.
  intros Hs He Hfd Hb Hn Hc Hpos out. pose proof (session_buffer _ _ _ _ _ Hs Hb Hn) as Hbuf.
  destruct (in_page_u32 _ _ Hb Hn) as [Eb _]. pose proof (length_slice_le c pos n ltac:(lia)) as Hle. fold out in Hle.
  pose proof (at_inv _ _ _ He) as Hi. pose proof (se_run _ _ _ _ _ _ _ _ Hs) as Hr. rewrite (ru_len _ _ _ Hr) in Hi.
  assert (0 <= n <= FOUR_MB) as Hn4 by (destruct Hb; lia).
  pose proof (fileRead_run fd b n j l ino pos c size im s Hr He Hfd (dk_rep _ _ _ (se_disk _ _ _ _ _ _ _ _ Hs)) Hc Hpos
    ltac:(unfold FOUR_MB in Hn4; lia) Hbuf) as Hrd. cbv zeta in Hrd. fold out in Hrd.
  assert (Forall (fun v => 0 <= v < 256) out) as Hout.
  { apply Forall_lookup. intros i v Hv. unfold out, file_slice in Hv. apply lookup_take_Some in Hv as [Hv _].
    rewrite lookup_drop in Hv. eapply (dk_bytes _ _ _ (se_disk _ _ _ _ _ _ _ _ Hs)); [exact Hc|].
    by eapply list_elem_of_lookup_2. }
  destruct (session_files l (upd l fd (file_entry ino (pos + Z.of_nat (length out)))) a s b out Hs) as (Hs' & Hk & Hbs).
  - by rewrite length_upd, (ru_len _ _ _ Hr).
  - destruct Hb. split; lia.
  - done.
  - eexists. split_and!; [|exact Hs'| |exact Hbs].
    + rewrite <- (s32_int (Z.of_nat (length out))) at 1 by lia. apply read_call.
      rewrite Eb, (s32_int fd), (s32_int n) by (unfold FOUR_MB in *; lia). exact Hrd.
    + eapply page_kept_weaken; [exact Hk|lia].
Qed.

Lemma read_directory l a s fd b n pos :
  session l a s -> at_ l fd = Some (directory_entry pos) -> fd <> 1 -> in_page b 32 -> 0 <= n <= FOUR_MB ->
  0 <= pos <= Z.of_nat (length (im_dir im)) ->
  let r := directory_step (im_dir im) pos in
  exists s', ece391_read fd b n s = Ok (Z.of_nat (length (fst r)), s') /\
    session (upd l fd (directory_entry (snd r))) a s' /\ page_kept j b 32 s s' /\ page_bytes j s' b (fst r).
Proof.
  intros Hs He Hfd Hb Hn Hpos r. pose proof (session_buffer _ _ _ _ 32 Hs Hb ltac:(lia)) as Hbuf.
  destruct (in_page_u32 _ _ Hb ltac:(lia)) as [Eb _].
  pose proof (at_inv _ _ _ He) as Hi. pose proof (se_run _ _ _ _ _ _ _ _ Hs) as Hr. rewrite (ru_len _ _ _ Hr) in Hi.
  pose proof (dk_rep _ _ _ (se_disk _ _ _ _ _ _ _ _ Hs)) as Hrep.
  pose proof (directoryRead_run fd b n j l pos size im s Hr He Hfd Hrep Hpos ltac:(lia) Hbuf) as Hrd.
  cbv zeta in Hrd. fold r in Hrd.
  assert (Z.of_nat (length (fst r)) <= 32 /\ Forall (fun v => 0 <= v < 256) (fst r)) as [Hle Hout].
  { unfold r, directory_step. destruct (at_ (im_dir im) pos) as [d|] eqn:Hd; [|split; [simpl; lia|constructor]].
    split; [simpl; unfold entry_name; rewrite length_take; lia|]. apply Forall_lookup. intros i v Hv.
    eapply (entry_name_range (view s)); [exact Hrep| |by eapply list_elem_of_lookup_2].
    unfold at_ in Hd. destruct (0 <=? pos); [|done]. by eapply list_elem_of_lookup_2. }
  destruct (session_files l (upd l fd (directory_entry (snd r))) a s b (fst r) Hs) as (Hs' & Hk & Hbs).
  - by rewrite length_upd, (ru_len _ _ _ Hr).
  - destruct Hb. split; lia.
  - done.
  - eexists. split_and!; [|exact Hs'| |exact Hbs].
    + rewrite <- (s32_int (Z.of_nat (length (fst r)))) at 1 by (unfold FOUR_MB; lia). apply read_call.
      rewrite Eb, (s32_int fd), (s32_int n) by (unfold FOUR_MB in *; lia). exact Hrd.
    + eapply page_kept_weaken; [exact Hk|lia].
Qed.

(** *** Stores and loads of the program *)

Lemma ustore_run l a s b c :
  session l a s -> in_page b 1 -> 0 <= c < 256 ->
  exists s', ustore b c s = Ok (tt, s') /\ session l a s' /\ page_kept j b 1 s s' /\ page_bytes j s' b [c].
Proof.
  intros Hs Hb Hc. destruct (session_files l l a s b [c] Hs) as (Hs' & Hk & Hbs); [by apply Hs|done|by constructor|].
  assert (running j l (write_out b [c] s)) as Hr by (apply (running_prc l s); [done|apply Hs]).
  rewrite (put_files_same _ _ _ Hr) in *. eexists. split_and!; [|done..].
  unfold ustore, um, st8. rewrite (session_ucell _ _ _ _ Hs Hb).
  unfold write_out. cbn [write_bytes]. by rewrite (session_cell _ _ _ _ Hs Hb).
Qed.

Lemma uload_run l a s b c :
  session l a s -> in_page b 1 -> page_bytes j s b [c] -> uload b s = Ok (c, s).
Proof.
  intros Hs Hb Hc. unfold uload, um. rewrite (ld8_run (uview s) b c); [by destruct s|].
  destruct (session_bytes _ _ _ _ [c] Hs Hb Hc) as [_ Hu]. pose proof (Hu 0%nat c eq_refl) as E.
  by rewrite Z.add_0_r in E.
Qed.

(** *** Opening and closing *)

Lemma session_opened l l' a s s' :
  session l a s -> opened j l' s s' -> session l' a s' /\ page_kept j 0 0 s s'.
Proof.
  intros Hs [Hr' Eprc Hmem Epag Escr _ _ Efs _ Hclk]. pose proof Hs as [H1 H2 H3 H4 H5 H6 H7 H8 H9 H10 H11].
  pose proof (session_pid _ _ _ Hs) as Hj.
  pose proof (f_equal s_screen_x Escr : get screen_x s' = get screen_x s) as Ex.
  pose proof (f_equal s_screen_y Escr : get screen_y s' = get screen_y s) as Ey.
  pose proof (f_equal s_currentTerminal Escr : get currentTerminal s' = get currentTerminal s) as Ec.
  assert (forall c, c < 2 ^ 32 -> byte s' c = byte s c) as Hb by (intros c Hc; apply Hmem; lia).
  split.
  - split; rewrite ?Ec, ?Epag; try done.
    + destruct H3. split; rewrite ?Ex, ?Ey, ?Ec; done.
    + destruct (ru_pcb _ _ _ H1) as (pc & Hpc & _). rewrite (running_current _ _ _ _ H1 Hpc) in H5. injection H5 as <-.
      assert (at_ (get pcbs s') j = Some (set process_fdt l' pc)) as Hq; [|by apply (running_current _ _ _ _ Hr' Hq)].
      change (get pcbs s') with (p_pcbs (get prc s')). rewrite Eprc. unfold put_files.
      change (get pcbs (set fdt (Some j) s)) with (get pcbs s). rewrite Hpc.
      change (at_ (upd (get pcbs s) j (set process_fdt l' pc)) j = Some (set process_fdt l' pc)).
      apply at_upd_eq. by apply at_inv in Hpc.
    + unfold page_of in *. by rewrite Ec.
    + by rewrite Ex.
    + by rewrite Ey.
    + intros pos Hpos. rewrite Hb; [by apply H9|].
      destruct H6 as [->|[_ ->]]; unfold terminal_page, NUM_TERMINALS, NUM_COLS, NUM_ROWS, VIDEO, FOUR_KB in *; lia.
    + eapply disk_kept; [exact Hs|done|done|]. intros c Hc. apply Hb. unfold EIGHT_MB in Hc. lia.
    + by rewrite Hclk.
  - intros b Hb1 _. apply Hb. destruct Hb1 as [Hb1 Hb2].
    unfold page_cell, process_frame, PROCESS_BASE_4KB_ALIGNED_ADDRESS, EIGHT_MB, FOUR_MB in *. lia.
Qed.

Lemma open_spec_range name l :
  -1 <= fst (open_spec name (im_dir im) l) < 8.
Proof.
  unfold open_spec. destruct (starts_with _ _); [simpl; lia|]. destruct (starts_with _ _); [simpl; lia|].
  destruct (free_fd l) as [fd|] eqn:Hfd; [|simpl; unfold ERROR_VAL; lia].
  destruct (lowest_free_spec 6 2 l fd ltac:(lia) Hfd) as (Hr & _).
  destruct (dir_find _ _) as [d|]; [|simpl; unfold ERROR_VAL; lia].
  destruct (open_entry d); simpl; unfold ERROR_VAL; lia.
Qed.

Lemma open_name l a s b name :
  session l a s -> in_page b (Z.of_nat (length name)) -> page_bytes j s b name -> covers name 32 ->
  exists s', ece391_open b s = Ok (fst (open_spec name (im_dir im) l), s') /\
    session (snd (open_spec name (im_dir im) l)) a s' /\ page_kept j 0 0 s s'.
Proof.
  intros Hs Hb Hbs Hcov. pose proof Hs as [H1 H2 _ _ _ _ _ _ _ H10 H11].
  destruct (in_page_u32 _ _ Hb ltac:(lia)) as [Eb Hnz].
  destruct (sys_open_run b name j l size im s) as (s' & Hrun & Ho).
  - destruct H1. by split.
  - by eapply paging_inv_apart.
  - apply H10.
  - done.
  - destruct Hb. unfold PROCESS_VIRTUAL in *. lia.
  - destruct Hb. unfold PROCESS_VIRTUAL, FOUR_MB in *. lia.
  - by apply (session_bytes l a s).
  - done.
  - exists s'. split; [|by eapply session_opened].
    pose proof (open_spec_range name l). rewrite <- (s32_small (fst _)) by lia.
    apply open_call. by rewrite Eb.
Qed.

Lemma open_run l a s b bs :
  session l a s -> in_page b (Z.of_nat (length bs) + 1) -> page_bytes j s b (bs ++ [0]) ->
  exists s', ece391_open b s = Ok (fst (open_spec (bs ++ [0]) (im_dir im) l), s') /\
    session (snd (open_spec (bs ++ [0]) (im_dir im) l)) a s' /\ page_kept j 0 0 s s'.
Proof.
  intros Hs Hb Hbs. apply open_name; [done|by rewrite length_app, Nat2Z.inj_add|done|].
  left. apply elem_of_app. right. by left.
Qed.

Lemma close_run l a s fd e :
  session l a s -> 2 <= fd < 8 -> at_ l fd = Some e -> entry_ok e -> fd_flg e <> UNUSED_FLAG ->
  exists s', ece391_close fd s = Ok (0, s') /\ session (upd l fd (set flags UNUSED_FLAG e)) a s' /\ page_kept j 0 0 s s'.
Proof.
  intros Hs Hfd He Hok Hne. pose proof (se_run _ _ _ _ _ _ _ _ Hs) as Hr.
  destruct (session_files l (upd l fd (set flags UNUSED_FLAG e)) a s PROCESS_VIRTUAL [] Hs) as (Hs' & Hk & _);
    [by rewrite length_upd, (ru_len _ _ _ Hr)|unfold in_page, FOUR_MB; simpl; lia|constructor|].
  assert (write_out PROCESS_VIRTUAL [] s = s) as E by (by destruct s). rewrite E in *.
  eexists. split_and!; [|exact Hs'|by eapply page_kept_weaken; [exact Hk|left]].
  apply (close_call fd 0). rewrite s32_small by lia. rewrite (sys_close_run fd j l e s Hr Hfd He Hok).
  by rewrite (proj2 (Z.eqb_neq _ _) Hne).
Qed.

(** *** Local arrays of the kernel *)

Lemma session_locals l a s s' :
  session l a s -> locals_only s s' -> session l a s' /\ page_kept j 0 0 s s' /\ quiet s s'.
Proof.
  intros Hs [Es Hb]. pose proof (session_pid _ _ _ Hs) as Hj. pose proof Hs as [H1 H2 H3 H4 H5 H6 H7 H8 H9 H10 H11].
  assert (forall c, c < 2 ^ 32 -> byte s' c = byte s c) as Hlow by (intros c Hc; apply Hb; lia).
  split_and!.
  - split; try done; try (rewrite Es; done).
    + apply (running_prc l s); [by rewrite Es|done].
    + rewrite Es. by destruct H3.
    + apply (cur_terminal_prc s' s); [by rewrite Es|done].
    + intros pos Hpos. rewrite Hlow; [by apply H9|].
      destruct H6 as [->|[_ ->]]; unfold terminal_page, NUM_TERMINALS, NUM_COLS, NUM_ROWS, VIDEO, FOUR_KB in *; lia.
    + eapply disk_kept; [exact Hs|by rewrite Es|by rewrite Es|]. intros c Hc. apply Hlow. unfold EIGHT_MB in Hc. lia.
  - intros b [Hb1 Hb2] _. apply Hlow. unfold page_cell, process_frame, PROCESS_BASE_4KB_ALIGNED_ADDRESS, EIGHT_MB, FOUR_MB in *. lia.
  - split; by rewrite Es.
Qed.

(** *** Refused calls *)

(** Numbers that no open descriptor from 2 on has. *)
Definition unopened l (fd : Z) : Prop :=
  -2 ^ 31 <= fd < 2 ^ 31 /\ fd <> 8 /\ (2 <= fd < 8 -> exists e, at_ l fd = Some e /\ fd_flg e = UNUSED_FLAG).

Lemma read_refused l a s fd b n : session l a s -> unopened l fd -> fd <> 0 -> ece391_read fd b n s = Ok (-1, s).
Proof.
  intros Hs (Hr & H8 & Hu) H0. apply (read_call fd b n (-1)). rewrite s32_small by lia.
  unfold sys_read, STDIN_FLAG, MAX_NUM_FDT_ENTRIES.
  destruct (Z.eqb_spec fd 1), (Z.ltb_spec 8 fd), (Z.ltb_spec fd 0); try done. cbn [orb].
  destruct (Hu ltac:(lia)) as (e & He & Hflg).
  destruct (_ || _); [done|]. rewrite (bind_ok _ _ _ _ _ (rd_fdt_run j l fd flags e s (se_run _ _ _ _ _ _ _ _ Hs) He)).
  change (get flags e) with (fd_flg e). by rewrite Hflg.
Qed.

Lemma write_refused l a s fd b n : session l a s -> unopened l fd -> fd <> 1 -> ece391_write fd b n s = Ok (-1, s).
Proof.
  intros Hs (Hr & H8 & Hu) H1. apply (write_call fd b n (-1)). rewrite s32_small by lia.
  unfold sys_write, MAX_NUM_FDT_ENTRIES. destruct (Z.leb_spec fd 0), (Z.ltb_spec 8 fd); try done. cbn [orb].
  destruct (Hu ltac:(lia)) as (e & He & Hflg).
  destruct (_ || _); [done|]. rewrite (bind_ok _ _ _ _ _ (rd_fdt_run j l fd flags e s (se_run _ _ _ _ _ _ _ _ Hs) He)).
  change (get flags e) with (fd_flg e). by rewrite Hflg.
Qed.

Lemma close_refused l a s fd : session l a s -> unopened l fd -> ece391_close fd s = Ok (-1, s).
Proof.
  intros Hs (Hr & H8 & Hu). pose proof (se_run _ _ _ _ _ _ _ _ Hs) as Hrun. apply (close_call fd (-1)). rewrite s32_small by lia.
  destruct (decide (2 <= fd < 8)) as [Hfd|].
  - destruct (Hu Hfd) as (e & He & Hflg).
    rewrite (sys_close_run fd j l e s Hrun Hfd He); [by rewrite Hflg|]. intros Hne. by rewrite Hflg in Hne.
  - apply (sys_close_outside fd j l); [done|lia].
Qed.

(** *** The arguments *)

Definition padded (args : list Z) : list Z := args ++ replicate (128 - length args) 0.

Lemma cstr_end_nul str tl : Forall (fun c => c <> 0) str -> cstr (str ++ 0 :: tl) = str.
Proof.
  induction 1 as [|c str Hc _ IH]; [done|]. cbn [app cstr]. by rewrite (proj2 (Z.eqb_neq c 0) Hc), IH.
Qed.

Lemma getargs_run l a s b n args :
  session l a s -> in_page b 128 -> 0 <= n <= FOUR_MB -> Forall (fun c => 0 < c < 256) args -> (length args <= 127)%nat ->
  bytes_at (view s) (pcb_arg_ptr j) (padded args) ->
  exists s', ece391_getargs b n s = Ok (0, s') /\ session l a s' /\ page_kept j b 128 s s' /\
    page_bytes j s' b (padded args).
Proof.
  intros Hs Hb Hn Hargs Hlen Harg. pose proof (se_run _ _ _ _ _ _ _ _ Hs) as Hr. pose proof (session_pid _ _ _ Hs) as Hj.
  destruct (in_page_u32 _ _ Hb ltac:(lia)) as [Eb Hnz].
  assert (length (padded args) = 128%nat) as Hl by (unfold padded; rewrite length_app, length_replicate; lia).
  assert (padded args = args ++ 0 :: replicate (127 - length args) 0) as Epad
    by (unfold padded; by replace (128 - length args)%nat with (S (127 - length args)) by lia).
  assert (cstr (padded args) = args) as Ecs
    by (rewrite Epad; apply cstr_end_nul; eapply Forall_impl; [|exact Hargs]; simpl; lia).
  assert (Forall (fun c => 0 <= c < 256) (padded args)) as Hrange.
  { unfold padded. apply Forall_app. split; [eapply Forall_impl; [|exact Hargs]; simpl; lia|].
    apply Forall_lookup. intros i v [-> _]%lookup_replicate. lia. }
  destruct (session_mapped _ _ _ _ _ Hs Hb) as [Hmap Hinj].
  destruct (session_files l l a s b (padded args) Hs) as (Hs' & Hk & Hbs); [by apply Hr|by rewrite Hl|done|].
  assert (running j l (write_out b (padded args) s)) as Hr1 by (apply (running_prc l s); [done|exact Hr]).
  rewrite (put_files_same _ _ _ Hr1), Hl in *.
  eexists. split_and!; [|exact Hs'|exact Hk|exact Hbs].
  apply (getargs_call b n 0). rewrite Eb, (s32_int n) by done. unfold sys_getargs.
  rewrite (proj2 (Z.eqb_neq _ _) Hnz). destruct (Z.ltb_spec n 0); [lia|]. cbn [orb].
  rewrite (bind_ok _ _ _ _ _ (rd_run _ _)), (ru_cur _ _ _ Hr), (bind_ok _ _ _ _ _ (pcb_slot_run _ _ s (ru_ptr _ _ _ Hr))).
  assert (vm (strncpy b (pcb_arg_ptr j) ARG_SIZE) s = Ok (b, write_out b (padded args) s)) as Hcp.
  { apply vm_run. unfold ARG_SIZE. change 128 with (Z.of_nat 128).
    rewrite (strncpy_run (view s) b (pcb_arg_ptr j) 128 (padded args)); try done.
    - rewrite Ecs, take_ge by lia. done.
    - left. rewrite Epad. apply elem_of_app. right. by left.
    - intros i k c Hi Hk'. rewrite (session_cell _ _ _ _ Hs (in_page_sub _ _ i 1 Hb ltac:(lia) ltac:(lia))).
      intros [= <-]. rewrite Hl in Hk'.
      rewrite (kernel_cell _ _ _ _ (se_pag _ _ _ _ _ _ _ _ Hs))
        by (unfold pcb_arg_ptr, pcb_address, EIGHT_KB, EIGHT_MB, FOUR_MB; lia).
      intros [= E]. pose proof (page_cell_high j (b + i) ltac:(lia) (in_page_sub _ _ i 1 Hb ltac:(lia) ltac:(lia))).
      unfold pcb_arg_ptr, pcb_address, EIGHT_KB, EIGHT_MB in *. lia. }
  rewrite (bind_ok _ _ _ _ _ Hcp).
  assert (load8 (b + ARG_NULL_TERMINATOR_INDEX) (write_out b (padded args) s) = Ok (0, write_out b (padded args) s)) as Hld.
  { unfold load8. apply vm_pure, ld8_run.
    destruct (session_bytes _ _ _ _ (padded args) Hs' ltac:(by rewrite Hl) Hbs) as [Hv _].
    apply (Hv 127%nat). rewrite Epad, lookup_app_r by lia. destruct (127 - length args)%nat as [|k] eqn:Ek; [done|].
    cbn [lookup list_lookup]. apply lookup_replicate. split; [done|lia]. }
  by rewrite (bind_ok _ _ _ _ _ Hld).
Qed.
End session.
