(* ===== verification/Sample.v ===== *)
(** * A concrete session

    Process 0 at work on terminal 0: an image with the directory entries "." and
    "hi", string literals in the process's page, and the command line argument
    "hi". The properties of the programs are instantiated with it. *)

From Stdlib Require Import String.
From S2P Require Import Prelude Memory Lib Filesystem Machine Screen Paging Syscall FileTable Processes ProcessTable Kernel User Session.

(** The string literals, in their places. *)
Definition sample_texts : list (list Z) :=
  [chars "."; chars ":"; line ""; line "file not found"; chars "helloo"; chars "shel"; [];
   line "err_neg_fd: PASS"; line "err_big_fd: PASS"; line "err_open_lots: PASS"; line "err_open: PASS";
   line "err_unopened: PASS"; line "err_vidmap: PASS"; line "err_stdin_out: PASS"; line "err_syscall_num: PASS";
   ch_newline :: line "Overall Tests: PASS";
   chars "Hi, what's your name? "; chars "Hello, "; line "Starting 391 Shell"; chars "391OS> "; chars "exit";
   line "no such command"; chars "hi"].

Definition sample_text : Z := 0x8010000.

Definition sample_lit (bs : list Z) : Z :=
  sample_text + 128 * Z.of_nat (default 0%nat (fst <$> list_find (fun x => x = bs) sample_texts)).

#[local] Instance sample_env : UserEnv := {|
  elsewhere := fun _ => mret 0;
  stk1 := 0; stk2 := 0; stk3 := 0;
  reg_ebx := 0; reg_ecx := 0; reg_edx := 0;
  lit := sample_lit
|}.

Definition hi : list Z := [104; 105].

Definition sample_image : fs_image :=
  FsImage [Dentry (46 :: replicate 31 0) 1 0 (replicate 6 0); Dentry (hi ++ replicate 30 0) 2 0 (replicate 6 0)]
    [[104; 105; 10]].

(** Bytes from an address on. *)
Definition placed (a : Z) (l : list Z) : list (Z * Z) := zip (Z.add a <$> seqZ 0 (Z.of_nat (length l))) l.

Definition sample_bytes : list (Z * Z) :=
  [(0x600000, 2); (0x600004, 1); (0x600040, 46); (0x600060, 1); (0x6000A0, 2); (0x601000, 3)] ++
    placed 0x600080 hi ++ placed 0x602000 [104; 105; 10] ++ placed (pcb_arg_ptr 0) hi ++
    concat ((fun bs => placed (page_cell 0 (sample_lit bs)) bs) <$> sample_texts).

Definition sample_memory : flat := list_to_map sample_bytes.

Definition sample : machine := set mem sample_memory (set fdt (Some 0) shell_running).

Definition blank : tty := Tty 0 0 (fun _ => 0).

(** ** Lemmas *)

Lemma sample_rep : fs_rep sample_memory (fileSysInit 0x600000) 0x3000 sample_image.
Proof.
  assert (forall a l, read_bytes sample_memory a (length l) = l -> bytes_at sample_memory a l) as Hb by apply flat_bytes.
  split; try done; try (simpl; lia).
  - split; [apply Hb; vm_compute; reflexivity|simpl; lia].
  - split; [apply Hb; vm_compute; reflexivity|simpl; lia].
  - assert (forall a v, 0 <= v < 2 ^ 32 -> read_bytes sample_memory a 4 = le32 v -> word_at sample_memory a v) as Hw
      by (intros a v Hv E; split; [by apply Hb|done]).
    intros [|[|i]] d Hd; [| |done]; injection Hd as <-;
      (split; [apply Hb; vm_compute; reflexivity|reflexivity|apply Hw; vm_compute; intuition congruence
        |apply Hw; vm_compute; intuition congruence|apply (flat_words _ _ 6); vm_compute; reflexivity|reflexivity]).
  - intros [|i] c Hc; [|done]. injection Hc as <-. exists (replicate 1023 0).
    split_and!; [done|done|done| |].
    + split; [split; [apply Hb; vm_compute; reflexivity|simpl; lia]|].
      apply flat_words. vm_compute. reflexivity.
    + intros k b [-> Hk]%lookup_replicate Hlt. unfold FILESYSTEM_BLOCKSIZE in *. simpl in Hlt.
      assert (k = 0%nat) as -> by lia. split_and!; [lia|simpl; lia|].
      apply Hb. vm_compute. reflexivity.
Qed.

Lemma sample_paging : paging_inv 0 (Some 0) (get pag sample).
Proof. exact shell_running_paging. Qed.

Lemma sample_load a : FOUR_MB <= a < EIGHT_MB -> load (view sample) a = load sample_memory a.
Proof. intros Ha. by rewrite (load_cell _ a a) by (by apply (kernel_cell 0 (Some 0) sample a sample_paging)). Qed.

Lemma sample_disk : disk 0x3000 sample_image sample.
Proof.
  split.
  - apply (fs_rep_transfer sample_memory); [|apply sample_rep]. intros a Ha. apply sample_load.
    unfold FOUR_MB, EIGHT_MB. simpl in Ha. lia.
  - unfold FOUR_MB, EIGHT_MB, MAX_PROCESSES, EIGHT_KB. simpl. lia.
  - intros ino c Hc v Hv. unfold at_ in Hc. destruct (0 <=? ino); [|done]. destruct (Z.to_nat ino) as [|[]]; [|done|done].
    injection Hc as <-. assert (Forall (fun v => 0 <= v < 256) [104; 105; 10]) as Hall by (repeat constructor; lia).
    apply list_elem_of_lookup in Hv as [k Hk]. by apply (proj1 (Forall_lookup _ _) Hall k).
Qed.

Lemma sample_args : bytes_at (view sample) (pcb_arg_ptr 0) (padded hi).
Proof.
  intros i v Hi. pose proof (lookup_lt_Some _ _ _ Hi) as Hl. change (length (padded hi)) with 128%nat in Hl.
  rewrite sample_load by (unfold pcb_arg_ptr, pcb_address, EIGHT_KB, FOUR_MB, EIGHT_MB; lia).
  revert i v Hi Hl. intros i v Hi _. revert i v Hi. apply (flat_bytes sample_memory). vm_compute. reflexivity.
Qed.

Lemma flat_peek (m : flat) a l i v :
  read_bytes m a (length l) = l -> l !! i = Some v -> peek m (a + Z.of_nat i) = v.
Proof.
  intros Hl Hi. pose proof (flat_bytes m a l Hl i v Hi) as E. rewrite (load_cell m _ (a + Z.of_nat i)) in E; [by injection E|done].
Qed.

(** Each literal is where [sample_lit] says. *)
Lemma sample_text_at bs :
  bs ∈ sample_texts ->
  text bs /\ in_page (lit bs) (Z.of_nat (length bs) + 1) /\ page_bytes 0 sample (lit bs) (bs ++ [0]) /\ sample_text <= lit bs.
Proof.
  set (ok := fun bs => bool_decide (Forall (fun c => c <> 0) bs) && (Z.of_nat (length bs) <? 128) &&
    (sample_lit bs <? sample_text + 0x1000) && (sample_text <=? sample_lit bs) &&
    bool_decide (read_bytes sample_memory (page_cell 0 (sample_lit bs)) (length bs + 1) = bs ++ [0])).
  assert (Forall (fun bs => ok bs = true) sample_texts) as Hall
    by (refine (bool_decide_eq_true_1 _ _); vm_compute; reflexivity).
  intros [i Hi]%list_elem_of_lookup. pose proof (proj1 (Forall_lookup _ _) Hall i bs Hi) as Hok.
  unfold ok in Hok. rewrite !andb_true_iff, !bool_decide_eq_true in Hok. destruct Hok as [[[[Hnz Hlen] Hhi] Hlo] Hrd].
  apply Z.ltb_lt in Hlen. apply Z.ltb_lt in Hhi. apply Z.leb_le in Hlo. change (lit bs) with (sample_lit bs).
  unfold sample_text in *. split_and!; [split; [done|unfold FOUR_MB; lia]|unfold in_page, PROCESS_VIRTUAL, FOUR_MB; lia| |done].
  intros k v Hk. unfold byte.
  replace (page_cell 0 (sample_lit bs + Z.of_nat k)) with (page_cell 0 (sample_lit bs) + Z.of_nat k) by (unfold page_cell; lia).
  apply (flat_peek sample_memory _ (bs ++ [0])); [by rewrite length_app|done].
Qed.

Lemma sample_literals L b n :
  forallb (fun bs => bool_decide (bs ∈ sample_texts)) L = true -> b + n <= sample_text -> literals 0 L b n sample.
Proof.
  intros HL Hb. apply Forall_lookup. intros i bs Hi. rewrite forallb_forall in HL.
  destruct (sample_text_at bs) as (Ht & Hp & Hbs & Hlo).
  - apply (bool_decide_eq_true_1 _), HL. by eapply list_elem_of_In, list_elem_of_lookup_2.
  - split_and!; [done|done|done|right; lia].
Qed.

(** Memory that nothing was placed in is zero. *)
Lemma sample_zero lo hi c :
  forallb (fun kv => (fst kv <? lo) || (hi <=? fst kv)) sample_bytes = true -> lo <= c < hi -> byte sample c = 0.
Proof.
  intros Hall Hc. change (u8 (default 0 (sample_memory !! c)) = 0). unfold sample_memory.
  rewrite not_elem_of_list_to_map_1; [done|]. intros ([k v] & -> & Hin)%list_elem_of_fmap. rewrite forallb_forall in Hall.
  apply list_elem_of_In, Hall in Hin. cbn [fst] in *. apply orb_prop in Hin as [?%Z.ltb_lt|?%Z.leb_le]; lia.
Qed.

Lemma sample_running : running 0 initial_files sample.
Proof. split; try done. exists shell_pcb. split_and!; [done|done|simpl; lia|unfold NUM_TERMINALS; simpl; lia]. Qed.

Lemma sample_session : session 0x3000 sample_image 0 VIDEO 0 initial_files blank sample.
Proof.
  split; try done.
  - apply sample_running.
  - apply sample_paging.
  - assert (forall i v, at_ [0; 0; 0] i = Some v -> v = 0) as H0.
    { intros i v. unfold at_. destruct (0 <=? i); [|done]. by destruct (Z.to_nat i) as [|[|[|]]]; intros [= <-]. }
    split; try done.
    + intros i v Hv. rewrite (H0 i v Hv). unfold NUM_COLS. lia.
    + intros i v Hv. rewrite (H0 i v Hv). unfold NUM_ROWS. lia.
  - by right.
  - intros pos Hpos. assert (forallb (fun k => peek sample_memory (VIDEO + 2 * k) =? 0) (seqZ 0 2000) = true) as Hall
      by (vm_compute; reflexivity). rewrite forallb_forall in Hall. apply Z.eqb_eq, Hall, list_elem_of_In, elem_of_seqZ.
    unfold NUM_COLS, NUM_ROWS in Hpos. lia.
  - apply sample_disk.
Qed.
