(* ===== verification/FileCalls.v ===== *)
(** * Sequences of file calls

    Whatever files and directories a program opens, closes, reads and writes, and in
    which order: the kernel answers every call, and the descriptor table keeps its
    types. The calls are those with any descriptor but 8, without reads of the
    keyboard, in a file system without a clock device. *)

From S2P Require Import Prelude Memory Lib Filesystem Machine Screen Paging Syscall FileTable Processes ProcessTable Kernel User Session Sample.

(** ** Specification *)

(** A system call on files, with its arguments as the program passes them. *)
Inductive file_call :=
| Open (filename : Z)
| Close (fd : Z)
| Read (fd buf nbytes : Z)
| Write (fd buf nbytes : Z).

(** The calls considered: the buffers lie in the program's page and the integers fit
    their type. Two calls that a program can make are left out: the descriptor 8,
    which the guards of the kernel accept although the table ends at 7 (file FileTable
    shows what follows), and a read of descriptor 0, which waits for the keyboard. *)
Definition call_ok (c : file_call) : Prop :=
  let int n := - 2 ^ 31 <= n < 2 ^ 31 in
  match c with
  | Open b => in_page b 32
  | Close fd => int fd /\ fd <> 8
  | Read fd b n => int fd /\ fd <> 8 /\ fd <> 0 /\ int n /\ in_page b 32 /\ in_page b n
  | Write fd b n => int fd /\ fd <> 8 /\ int n /\ in_page b 1 /\ in_page b n
  end.

Section program.
Context `{UserEnv}.

Definition file_result (c : file_call) : K Z :=
  match c with
  | Open b => ece391_open b
  | Close fd => ece391_close fd
  | Read fd b n => ece391_read fd b n
  | Write fd b n => ece391_write fd b n
  end.

Fixpoint run_calls (cs : list file_call) : K (list Z) :=
  match cs with
  | [] => mret []
  | c :: cs' => r ← file_result c; rs ← run_calls cs'; mret (r :: rs)
  end.
End program.

Section files.
Context (im : fs_image).

(** An open descriptor: a position in a regular file or in the directory. *)
Definition entry_typed (e : file_descriptor_entry_t) : Prop :=
  (exists ino pos c, e = file_entry ino pos /\ at_ (im_files im) ino = Some c /\ 0 <= pos <= Z.of_nat (length c)) \/
  (exists pos, e = directory_entry pos /\ 0 <= pos <= Z.of_nat (length (im_dir im))).

(** The type of a descriptor table: standard output at 1, and from 2 on free entries
    and open files. *)
Record table_typed (l : list file_descriptor_entry_t) : Prop := {
  tt_length : length l = 8%nat;
  tt_stdout : at_ l 1 = Some stdout_entry;
  tt_files : forall fd e, 2 <= fd < 8 -> at_ l fd = Some e -> fd_flg e <> UNUSED_FLAG -> entry_typed e
}.

(** An image of regular files and directories only (a clock file would make a
    read wait), whose entries name existing inodes. *)
Definition image_ok : Prop :=
  forall d, d ∈ im_dir im -> fileType d <> 0 /\ (fileType d = 2 -> exists c, at_ (im_files im) (inodeNum d) = Some c).

(** ** Lemmas: the table *)

Lemma table_upd l fd e :
  table_typed l -> 2 <= fd < 8 -> (fd_flg e <> UNUSED_FLAG -> entry_typed e) -> table_typed (upd l fd e).
Proof.
  intros [Hlen Ho Hf] Hfd He. split.
  - by rewrite length_upd.
  - by rewrite at_upd_ne by lia.
  - intros k e' Hk Hat Hu. destruct (Z.eq_dec k fd) as [->|Hne].
    + rewrite at_upd_eq in Hat by lia. injection Hat as <-. by apply He.
    + rewrite at_upd_ne in Hat by lia. by apply (Hf k).
Qed.

Lemma dir_find_elem name d : dir_find name (im_dir im) = Some d -> d ∈ im_dir im.
Proof.
  unfold dir_find. destruct (list_find _ _) as [[i d']|] eqn:E; [|done]. intros [= <-].
  apply list_find_Some in E as [Hi _]. by eapply list_elem_of_lookup_2.
Qed.

Lemma open_spec_typed name l : table_typed l -> image_ok -> table_typed (snd (open_spec name (im_dir im) l)).
Proof.
  intros Hl Him. unfold open_spec. destruct (starts_with _ _); [done|]. destruct (starts_with _ _); [done|].
  destruct (free_fd l) as [fd|] eqn:Hfd; [|done]. destruct (dir_find _ _) as [d|] eqn:Hd; [|done].
  destruct (lowest_free_spec 6 2 l fd ltac:(lia) Hfd) as (Hr & _ & _).
  destruct (Him d (dir_find_elem _ _ Hd)) as [H0 H2].
  assert (forall e, open_entry d = Some e -> entry_typed e) as Hty.
  { intros e. unfold open_entry. destruct (fileType d) as [|[q|[q|q|]|]|q] eqn:Ety; try done; intros [= <-].
    - left. destruct (H2 eq_refl) as [c Hc]. exists (inodeNum d), 0, c. split_and!; (done || lia).
    - right. exists 0. split_and!; (done || lia). }
  destruct (open_entry d) as [e|]; cbn [snd]; (apply table_upd; [done|lia|]); [by intros _; apply Hty|done].
Qed.

Lemma typed_unopened l fd :
  table_typed l -> - 2 ^ 31 <= fd < 2 ^ 31 -> fd <> 8 ->
  unopened l fd \/ (2 <= fd < 8 /\ exists e, at_ l fd = Some e /\ fd_flg e <> UNUSED_FLAG /\ entry_typed e).
Proof.
  intros [Hlen Ho Hf] Hr H8. destruct (decide (2 <= fd < 8)) as [Hfd|]; [|left; split_and!; lia].
  destruct (at_Some l fd) as [e He]; [lia|]. destruct (Z.eq_dec (fd_flg e) UNUSED_FLAG) as [E|Hne].
  - left. split_and!; [lia|lia|done|]. intros _. by exists e.
  - right. split; [done|]. exists e. split_and!; [done|done|by apply (Hf fd)].
Qed.
End files.

(** ** Lemmas: one call *)

Section calls.
Context `{UserEnv} (size : Z) (im : fs_image) (t p j : Z).
Implicit Types (l : list file_descriptor_entry_t) (a : tty) (s : machine).

Abbreviation session := (session size im t p j).

(** The state after a call, and its result. *)
Definition answered (r : Z) (s : machine) : Prop := -1 <= r /\ exists l a, session l a s /\ table_typed im l.

(** The bytes of a block of the page. *)
Lemma page_block s b n : 0 <= n -> exists bs, Z.of_nat (length bs) = n /\ page_bytes j s b bs.
Proof.
  intros Hn. exists ((fun i => byte s (page_cell j (b + i))) <$> seqZ 0 n). split.
  - rewrite length_fmap, length_seqZ. lia.
  - intros i v Hi. rewrite list_lookup_fmap in Hi. destruct (seqZ 0 n !! i) as [k|] eqn:E; [|done].
    apply lookup_seqZ in E as [-> _]. injection Hi as <-. by rewrite Z.add_0_l.
Qed.

Lemma open_answered l a s b :
  session l a s -> table_typed im l -> image_ok im -> in_page b 32 -> wp (ece391_open b) answered s.
Proof.
  intros Hs Hl Him Hb. destruct (page_block s b 32 ltac:(lia)) as (name & Hlen & Hname).
  destruct (open_name size im t p j l a s b name Hs) as (s' & Hrun & Hs' & _); [by rewrite Hlen|done|right; lia|].
  eapply wp_run; [exact Hrun|]. pose proof (open_spec_range im name l). split; [lia|].
  eexists _, a. split; [exact Hs'|by apply open_spec_typed].
Qed.

Lemma close_answered l a s fd :
  session l a s -> table_typed im l -> - 2 ^ 31 <= fd < 2 ^ 31 -> fd <> 8 -> wp (ece391_close fd) answered s.
Proof.
  intros Hs Hl Hr H8. destruct (typed_unopened im l fd Hl Hr H8) as [Hu|(Hfd & e & He & Hne & Hty)].
  - eapply wp_run; [by eapply close_refused|]. split; [lia|]. by exists l, a.
  - destruct (close_run size im t p j l a s fd e Hs Hfd He) as (s' & Hrun & Hs' & _); [|done|].
    { destruct Hty as [(? & ? & ? & -> & _)|(? & -> & _)]; by intros _. }
    eapply wp_run; [exact Hrun|]. split; [lia|]. eexists _, a. split; [exact Hs'|]. by apply table_upd.
Qed.

(** A negative count is refused at every descriptor. *)
Lemma read_negative l a s fd b n :
  session l a s -> - 2 ^ 31 <= fd < 2 ^ 31 -> - 2 ^ 31 <= n < 0 -> ece391_read fd b n s = Ok (-1, s).
Proof.
  intros Hs Hr Hn. apply (read_call fd b n (-1)). rewrite !s32_small by lia. unfold sys_read.
  destruct ((fd =? STDIN_FLAG) || _ || _); [done|]. rewrite (proj2 (Z.ltb_lt n 0)) by lia. by rewrite orb_true_r.
Qed.

Lemma write_negative l a s fd b n :
  session l a s -> - 2 ^ 31 <= fd < 2 ^ 31 -> - 2 ^ 31 <= n < 0 -> ece391_write fd b n s = Ok (-1, s).
Proof.
  intros Hs Hr Hn. apply (write_call fd b n (-1)). rewrite !s32_small by lia. unfold sys_write.
  destruct ((fd <=? 0) || _); [done|]. rewrite (proj2 (Z.ltb_lt n 0)) by lia. by rewrite orb_true_r.
Qed.

Lemma read_answered l a s fd b n :
  session l a s -> table_typed im l -> call_ok (Read fd b n) -> wp (ece391_read fd b n) answered s.
Proof.
  intros Hs Hl (Hr & H8 & H0 & Hn & Hb32 & Hbn). pose proof (tt_length _ _ Hl) as Hlen.
  destruct (decide (n < 0)) as [Hneg|]; [eapply wp_run; [eapply read_negative; [exact Hs|lia|lia]|]; split; [lia|by exists l, a]|].
  destruct (typed_unopened im l fd Hl Hr H8) as [Hu|(Hfd & e & He & Hne & Hty)].
  { eapply wp_run; [by eapply read_refused|]. split; [lia|]. by exists l, a. }
  destruct Hty as [(ino & pos & c & -> & Hc & Hpos)|(pos & -> & Hpos)].
  - destruct (read_file size im t p j l a s fd b n ino pos c Hs He) as (s' & Hrun & Hs' & _); [lia|done|lia|done|done|].
    pose proof (length_file_slice c pos n ltac:(lia)) as Hsl.
    eapply wp_run; [exact Hrun|]. split; [lia|]. eexists _, a. split; [exact Hs'|]. apply table_upd; [done|lia|].
    intros _. left. exists ino, (pos + Z.of_nat (length (file_slice c pos n))), c. split_and!; [done|done|lia|lia].
  - destruct (read_directory size im t p j l a s fd b n pos Hs He) as (s' & Hrun & Hs' & _);
      [lia|done|destruct Hbn; unfold PROCESS_VIRTUAL, FOUR_MB in *; lia|done|].
    eapply wp_run; [exact Hrun|]. split; [lia|]. eexists _, a. split; [exact Hs'|]. apply table_upd; [done|lia|].
    intros _. right. eexists. split; [reflexivity|]. unfold directory_step.
    destruct (at_ (im_dir im) pos) as [d|] eqn:Hd; cbn [snd]; [|lia]. apply at_inv in Hd. lia.
Qed.

(** Files and the directory cannot be written. *)
Lemma write_file l a s fd b n e :
  session l a s -> 2 <= fd < 8 -> at_ l fd = Some e -> entry_typed im e -> - 2 ^ 31 <= n < 2 ^ 31 ->
  ece391_write fd b n s = Ok (-1, s).
Proof.
  intros Hs Hfd He Hty Hn. pose proof (se_run _ _ _ _ _ _ _ _ Hs) as Hr. apply (write_call fd b n (-1)).
  rewrite !s32_small by lia. unfold sys_write, MAX_NUM_FDT_ENTRIES. rewrite (proj2 (Z.leb_gt fd 0)), (proj2 (Z.ltb_ge 8 fd)) by lia.
  cbn [orb]. destruct (_ || _); [done|].
  rewrite (bind_ok _ _ _ _ _ (rd_fdt_run j l fd flags e s Hr He)).
  assert ((get flags e =? UNUSED_FLAG) = false) as -> by (by destruct Hty as [(? & ? & ? & -> & _)|(? & -> & _)]).
  destruct Hty as [(ino & pos & c & -> & _)|(pos & -> & _)];
    rewrite (bind_ok _ _ _ _ _ (rd_fdt_run j l fd fops_pointer _ s Hr He)); unfold call_write;
    by erewrite bind_ok by (by eapply deref_fops_run).
Qed.

Lemma write_answered l a s fd b n :
  session l a s -> table_typed im l -> call_ok (Write fd b n) -> wp (ece391_write fd b n) answered s.
Proof.
  intros Hs Hl (Hr & H8 & Hn & Hb1 & Hbn).
  destruct (decide (n < 0)) as [Hneg|]; [eapply wp_run; [eapply write_negative; [exact Hs|lia|lia]|]; split; [lia|by exists l, a]|].
  destruct (Z.eq_dec fd 1) as [->|H1].
  - destruct (page_block s b n ltac:(lia)) as (bs & Hlen & Hbs). rewrite <- Hlen in *.
    destruct (write_stdout size im t p j l a s b bs Hs (tt_stdout _ _ Hl) Hb1 Hbn Hbs) as (s' & Hrun & Hs' & _).
    eapply wp_run; [exact Hrun|]. split; [lia|]. by exists l, (tty_puts bs a).
  - destruct (typed_unopened im l fd Hl Hr H8) as [Hu|(Hfd & e & He & Hne & Hty)].
    + eapply wp_run; [by eapply write_refused|]. split; [lia|]. by exists l, a.
    + eapply wp_run; [eapply write_file; [exact Hs|done|exact He|done|lia]|]. split; [lia|]. by exists l, a.
Qed.

Lemma call_answered l a s c :
  session l a s -> table_typed im l -> image_ok im -> call_ok c -> wp (file_result c) answered s.
Proof.
  intros Hs Hl Him Hc. destruct c; [by eapply open_answered|by destruct Hc; eapply close_answered|by eapply read_answered|by eapply write_answered].
Qed.

(** ** Properties *)

(** C12: no sequence of open, close, read and write calls makes the kernel fail, when
    none has the descriptor 8 and none reads descriptor 0, the buffers lie in the page
    of the process, and the file system's directory has regular files and directories
    only. From a session with a well-typed descriptor table every such call is
    answered, with -1 or a count or descriptor, whatever the names, the counts and the
    other descriptors, negative, too big, closed or open, and the table stays well
    typed: standard output at 1, and from 2 on free entries, positions inside regular
    files and positions inside the directory. *)
Theorem file_calls_keep_types cs l a s :
  session l a s -> table_typed im l -> image_ok im -> Forall call_ok cs ->
  exists rs l' a' s', run_calls cs s = Ok (rs, s') /\ session l' a' s' /\ table_typed im l' /\
    length rs = length cs /\ Forall (fun r => -1 <= r) rs.
Proof.
  intros Hs Hl Him Hcs. revert l a s Hs Hl. induction Hcs as [|c cs Hc _ IH]; intros l a s Hs Hl.
  - by exists [], l, a, s.
  - destruct (wp_inv _ _ _ (call_answered l a s c Hs Hl Him Hc)) as (r & s1 & Hrun & Hr & l1 & a1 & Hs1 & Hl1).
    destruct (IH l1 a1 s1 Hs1 Hl1) as (rs & l2 & a2 & s2 & Hrun2 & Hs2 & Hl2 & Hlen & Hrs).
    exists (r :: rs), l2, a2, s2. cbn [run_calls]. rewrite (bind_ok _ _ _ _ _ Hrun), (bind_ok _ _ _ _ _ Hrun2).
    split_and!; [done|done|done|simpl; lia|by constructor].
Qed.
End calls.

Lemma file_calls_keep_types_witness :
  exists rs l' a' s',
    @run_calls sample_env [Open 0x8010000; Read 2 0x8020000 10; Write 1 0x8020000 1; Write 2 0x8020000 (-5); Close 2; Close 2; Read 7 0x8020000 3]
      sample = Ok (rs, s') /\
    session 0x3000 sample_image 0 VIDEO 0 l' a' s' /\ table_typed sample_image l' /\ length rs = 7%nat /\ Forall (fun r => -1 <= r) rs.
Proof.
  refine (@file_calls_keep_types sample_env 0x3000 sample_image 0 VIDEO 0 _ initial_files blank sample sample_session _ _ _).
  - split; [reflexivity|reflexivity|]. intros fd e Hfd Hat Hu. exfalso. apply Hu. assert (fd = 2 \/ fd = 3 \/ fd = 4 \/ fd = 5 \/ fd = 6 \/ fd = 7) as E by lia.
    intuition (subst fd; by injection Hat as <-).
  - intros d. cbn [sample_image im_dir]. rewrite !elem_of_cons, elem_of_nil. intros [->|[->|[]]]; (split; [discriminate|]).
    + discriminate.
    + intros _. by eexists.
  - unfold call_ok, in_page, PROCESS_VIRTUAL, FOUR_MB. repeat constructor; lia.
Defined.
