(* ===== verification/Programs.v ===== *)
(** * The user programs of src/syscalls

    Each [main] in the order of its statements.  The arguments named like the
    program's local arrays and globals are their addresses in the process's page;
    [lit] gives the addresses of the string literals. *)

From Stdlib Require Import String.
From S2P Require Import Prelude Memory Lib Filesystem Machine Screen Paging Syscall FileTable Processes ProcessTable Kernel User Session Sample.

Definition BUFSIZE : Z := 1024.
Definition SBUFSIZE : Z := 33.

Section programs.
Context `{UserEnv}.

(** [ece391_fdputs(1, "...")] *)
Definition say (l : list Z) : K unit := ece391_fdputs 1 (lit l).

(** ** testprint and hello *)

Definition testprint_main : K Z :=
  say (line "Hello, if this ran, the program was correct. Yay!") ;;; mret 0.

Definition hello_main (buf : Z) : K Z :=
  say (chars "Hi, what's your name? ") ;;;
  cnt ← ece391_read 0 buf (BUFSIZE - 1);
  if cnt =? -1 then say (line "Can't read name from keyboard.") ;;; mret 3
  else
    ustore (buf + cnt) 0 ;;;
    say (chars "Hello, ") ;;;
    ece391_fdputs 1 buf ;;;
    mret 0.

(** ** cat *)

Definition cat_step (fd buf : Z) (_ : unit) : K (unit + Z) :=
  cnt ← ece391_read fd buf 1024;
  if cnt =? 0 then mret (inr 0)
  else if cnt =? -1 then say (line "file read failed") ;;; mret (inr 3)
  else
    r ← ece391_write 1 buf cnt;
    if r =? -1 then mret (inr 3) else mret (inl tt).

Definition cat_main (buf : Z) : K Z :=
  r ← ece391_getargs buf 1024;
  if negb (r =? 0) then say (line "could not read arguments") ;;; mret 3
  else
    fd ← ece391_open buf;
    if fd =? -1 then say (line "file not found") ;;; mret 2
    else loop (cat_step fd buf) tt.

(** ** ls *)

Definition ls_step (fd buf : Z) (_ : unit) : K (unit + Z) :=
  cnt ← ece391_read fd buf (SBUFSIZE - 1);
  if cnt =? 0 then mret (inr 0)
  else if cnt =? -1 then say (line "directory entry read failed") ;;; mret (inr 3)
  else
    ustore (buf + cnt) ch_newline ;;;
    r ← ece391_write 1 buf (cnt + 1);
    if r =? -1 then mret (inr 3) else mret (inl tt).

Definition ls_main (buf : Z) : K Z :=
  fd ← ece391_open (lit (chars "."));
  if fd =? -1 then say (line "directory open failed") ;;; mret 2
  else loop (ls_step fd buf) tt.

(** ** counter *)

Definition counter_main (buf : Z) : K Z :=
  say (line "Enter the Test Number: (0): 100, (1): 10000, (2): 100000") ;;;
  r ← ece391_read 0 buf (BUFSIZE - 1);
  let cnt := u32 r in
  if cnt =? u32 (-1) then say (line "Can't read the number from keyboard.") ;;; mret 3
  else
    ustore (buf + cnt) 0 ;;;
    n ← um (ece391_strlen buf);
    c ← uload buf;
    if (2 <? n) || ((n =? 2) && ((c <? 48) || (50 <? c))) then say (line "Wrong Choice!") ;;; mret 0
    else
      let max := if c =? 48 then 100 else if c =? 49 then 10000 else if c =? 50 then 100000 else 0 in
      for_ (Z.to_nat max) 0 (fun i =>
        um (ece391_itoa (i + 1) buf 10) ≫= fun _ =>
        ece391_fdputs 1 buf ;;;
        say (line "")) ;;;
      mret 0.

(** ** shell *)

Definition shell_step (buf : Z) (_ : unit) : K (unit + Z) :=
  say (chars "391OS> ") ;;;
  cnt ← ece391_read 0 buf (BUFSIZE - 1);
  if cnt =? -1 then say (line "read from keyboard failed") ;;; mret (inr 3)
  else
    cnt ← (if 0 <? cnt then c ← uload (buf + (cnt - 1)); mret (if c =? ch_newline then cnt - 1 else cnt)
           else mret cnt);
    ustore (buf + cnt) 0 ;;;
    r ← um (ece391_strcmp buf (lit (chars "exit")));
    if r =? 0 then mret (inr 0)
    else
      c ← uload buf;
      if c =? 0 then mret (inl tt)
      else
        rval ← ece391_execute buf;
        (if rval =? -1 then say (line "no such command")
         else if rval =? 256 then say (line "program terminated by exception")
         else when (negb (rval =? 0)) (say (line "program terminated abnormally"))) ;;;
        mret (inl tt).

Definition shell_main (buf : Z) : K Z :=
  say (line "Starting 391 Shell") ;;; loop (shell_step buf) tt.

(** ** pingpong *)

Definition BUFMAX : Z := 79 + 2.
Definition STARTLOOP : Z := 1 + 1.
Definition LOOPMAX : Z := BUFMAX - 2 - 1.

(** One position of the character, [j], and the wait for the clock. *)
Definition pingpong_show (buf garbage rtc_fd curchar j : Z) : K unit :=
  for_ (Z.to_nat (LOOPMAX - STARTLOOP)) STARTLOOP (fun i => ustore (buf + i) ch_space) ;;;
  ustore (buf + j) curchar ;;;
  ece391_fdputs 1 buf ;;;
  ece391_read rtc_fd garbage 4 ≫= fun _ => mret tt.

Definition pingpong_step (buf garbage rtc_fd curchar : Z) : K (Z + Z) :=
  for_ (Z.to_nat (LOOPMAX - STARTLOOP)) STARTLOOP (pingpong_show buf garbage rtc_fd curchar) ;;;
  for_ (Z.to_nat (LOOPMAX - STARTLOOP)) 0
    (fun k => pingpong_show buf garbage rtc_fd curchar (LOOPMAX - 1 - k)) ;;;
  mret (inl (if curchar =? 90 then 65 else u8 (curchar + 1))).

Definition pingpong_main (buf ret_val garbage : Z) : K Z :=
  for_ (Z.to_nat BUFMAX) 0 (fun i => ustore (buf + i) ch_space) ;;;
  ustore (buf + (BUFMAX - 1)) 0 ;;;
  ustore (buf + (BUFMAX - 2)) ch_newline ;;;
  ustore (buf + (BUFMAX - 3)) 124 ;;;
  ustore (buf + 1) 124 ;;;
  rtc_fd ← ece391_open (lit (chars "rtc"));
  um (st32 ret_val 32) ;;;
  r ← ece391_write rtc_fd ret_val 4;
  um (st32 ret_val (u32 r)) ;;;
  loop (pingpong_step buf garbage rtc_fd) 65.

(** ** sigtest *)

Definition say_signum (signum : Z) : K unit :=
  if signum =? 0 then say (line "0")
  else if signum =? 1 then say (line "1")
  else if signum =? 2 then say (line "2")
  else if signum =? 3 then say (line "3")
  else say (line "invalid").

Definition segfault_sighandler (buf signum_addr charbuf badbuf signum : Z) : K unit :=
  say (chars "Segfault signal handler called, signum: ") ;;;
  say_signum signum ;;;
  say (line "Press enter to continue...") ;;;
  ece391_read 0 buf 1 ≫= fun _ =>
  um (st32 badbuf charbuf) ;;;
  um (st32 (signum_addr + 4 * 7) charbuf) ;;;
  say (line "Signal handler returning").

Definition alarm_sighandler (signum : Z) : K unit :=
  say (chars "Alarm signal handler called, signum: ") ;;; say_signum signum.

Definition SIG_SEGFAULT : Z := 1.
Definition SIG_ALARM : Z := 3.

Definition sigtest_main (buf charbuf badbuf segfault_addr alarm_addr : Z) : K Z :=
  r ← ece391_getargs buf BUFSIZE;
  if negb (r =? 0) then say (line "could not read argument") ;;; mret 3
  else
    c ← uload buf;
    when (c =? 49)
      (say (line "Installing signal handlers") ;;;
       ece391_set_handler SIG_SEGFAULT segfault_addr ≫= fun _ =>
       ece391_set_handler SIG_ALARM alarm_addr ≫= fun _ => mret tt) ;;;
    say (chars "Hi, what's your name? ") ;;;
    cnt ← ece391_read 0 buf (BUFSIZE - 1);
    if cnt =? -1 then say (line "Can't read name from keyboard.") ;;; mret 3
    else
      p ← um (ld32 badbuf); ustore p 1 ;;;
      ustore (buf + cnt) 0 ;;;
      say (chars "Hello, ") ;;;
      ece391_fdputs 1 buf ;;;
      c ← uload charbuf;
      (if c =? 1 then say (line "success") else say (line "failure")) ;;;
      mret 0.
End programs.

(** ** Specification *)

(** What is left to print of a directory from position [pos] on, each name
    followed by [ending]. *)
Definition listing (dir : list dentry_t) (ending : list Z) (pos : Z) : list Z :=
  concat ((fun d => entry_name d ++ ending) <$> drop (Z.to_nat pos) dir).

(** ** Lemmas: printing what a descriptor delivers *)

Section runs.
Context `{UserEnv} (size : Z) (im : fs_image) (t p j : Z).
Implicit Types (l : list file_descriptor_entry_t) (a : tty) (s : machine).

Abbreviation session := (session size im t p j).

Lemma tty_puts_app xs ys a : tty_puts (xs ++ ys) a = tty_puts ys (tty_puts xs a).
Proof. unfold tty_puts. apply fold_left_app. Qed.

(** A loop whose rounds print the pieces between position 0 and position [last]. *)
Section stream.
Context (step : unit -> K (unit + Z)) (fd : Z) (l : list file_descriptor_entry_t).
Context (entry : Z -> file_descriptor_entry_t) (next : Z -> Z) (piece rest : Z -> list Z) (last : Z).
Hypothesis Hround : forall pos a s, 0 <= pos < last -> session (upd l fd (entry pos)) a s ->
  exists s', step tt s = Ok (inl tt, s') /\ session (upd l fd (entry (next pos))) (tty_puts (piece pos) a) s'.
Hypothesis Hend : forall a s, session (upd l fd (entry last)) a s ->
  exists s', step tt s = Ok (inr 0, s') /\ session (upd l fd (entry (next last))) a s'.
Hypothesis Hnext : forall pos, 0 <= pos < last -> pos < next pos <= last.
Hypothesis Hrest : forall pos, 0 <= pos < last -> rest pos = piece pos ++ rest (next pos).
Hypothesis Hlast : rest last = [].
Hypothesis Hbound : 0 <= last < 2 ^ 32.

Lemma stream_loop a s :
  session (upd l fd (entry 0)) a s ->
  exists s', loop step tt s = Ok (0, s') /\ session (upd l fd (entry (next last))) (tty_puts (rest 0) a) s'.
Proof using Hround Hend Hnext Hrest Hlast Hbound.
  intros Hs.
  destruct (wp_inv (loop step tt) (fun r s' => r = 0 /\
    session (upd l fd (entry (next last))) (tty_puts (rest 0) a) s') s) as (r & s' & Hrun & -> & Hs'); [|by exists s'].
  apply (wp_loop_bound _ (fun k _ s' => exists pos a', k = last - pos /\ 0 <= pos <= last /\
    session (upd l fd (entry pos)) a' s' /\ tty_puts (rest pos) a' = tty_puts (rest 0) a) _) with (k := last).
  - intros k [] s1 (pos & a' & -> & Hpos & Hs1 & E).
    destruct (Z.eq_dec pos last) as [->|Hne].
    + destruct (Hend _ _ Hs1) as (s' & Hrun & Hs'). eapply wp_run; [exact Hrun|]. rewrite Hlast in E.
      split; [done|]. by rewrite <- E.
    + destruct (Hround pos a' s1 ltac:(lia) Hs1) as (s' & Hrun & Hs'). eapply wp_run; [exact Hrun|].
      pose proof (Hnext pos ltac:(lia)). exists (last - next pos). split; [|lia].
      exists (next pos), (tty_puts (piece pos) a'). split_and!; [done|lia|lia|done|].
      by rewrite <- tty_puts_app, <- Hrest by lia.
  - exists 0, a. split_and!; [lia|lia|lia|done|done].
  - lia.
Qed.
End stream.

(** *** cat *)

(** A round of cat prints the bytes that were read. *)
Lemma cat_round fd buf l e out a s s' :
  ece391_read fd buf 1024 s = Ok (Z.of_nat (length out), s') -> session (upd l fd e) a s' ->
  page_bytes j s' buf out -> at_ l 1 = Some stdout_entry -> fd <> 1 -> 0 <= fd ->
  in_page buf 1024 -> (length out <= 1024)%nat -> out <> [] ->
  exists s2, cat_step fd buf tt s = Ok (inl tt, s2) /\ session (upd l fd e) (tty_puts out a) s2.
Proof.
  intros Hrd Hs Hb Ho Hfd Hfd0 [Hb1 Hb2] Hlen Hne.
  destruct (write_stdout size im t p j _ a s' buf out Hs) as (s2 & Hwr & Hs2 & _);
    [by rewrite at_upd_ne by (done || lia)|split; lia|split; lia|done|].
  assert (length out <> 0%nat) by (destruct out; simpl; congruence).
  exists s2. split; [|exact Hs2]. unfold cat_step. rewrite (bind_ok _ _ _ _ _ Hrd).
  rewrite (proj2 (Z.eqb_neq _ 0)), (proj2 (Z.eqb_neq _ (-1))) by lia.
  rewrite (bind_ok _ _ _ _ _ Hwr). by rewrite (proj2 (Z.eqb_neq _ (-1))) by lia.
Qed.

Lemma cat_file fd buf ino c l a s :
  session l a s -> at_ l fd = Some (file_entry ino 0) -> fd <> 1 -> at_ l 1 = Some stdout_entry -> in_page buf 1024 ->
  at_ (im_files im) ino = Some c ->
  exists s', loop (cat_step fd buf) tt s = Ok (0, s') /\
    session (upd l fd (file_entry ino (Z.of_nat (length c)))) (tty_puts c a) s'.
Proof.
  intros Hs He Hfd Ho Hbuf Hc. pose proof (at_inv _ _ _ He) as Hi.
  pose proof (file_length _ _ _ _ _ _ (dk_rep _ _ _ (se_disk _ _ _ _ _ _ _ _ Hs)) Hc) as Hmax.
  assert (forall pos, 0 <= pos <= Z.of_nat (length c) ->
    Z.of_nat (length (file_slice c pos 1024)) = Z.min 1024 (Z.of_nat (length c) - pos)) as Hlen
    by (intros; rewrite length_file_slice by lia; lia).
  assert (forall pos a' s1, 0 <= pos <= Z.of_nat (length c) -> session (upd l fd (file_entry ino pos)) a' s1 ->
    let out := file_slice c pos 1024 in
    exists s', ece391_read fd buf 1024 s1 = Ok (Z.of_nat (length out), s') /\
      session (upd l fd (file_entry ino (pos + Z.of_nat (length out)))) a' s' /\ page_bytes j s' buf out) as Hrd.
  { intros pos a' s1 Hpos Hs1 out.
    destruct (read_file size im t p j _ _ s1 fd buf 1024 ino pos c Hs1) as (s2 & Hrd & Hs2 & _ & Hb);
      [apply at_upd_eq; lia|done|done|lia|done|done|]. rewrite upd_upd in Hs2. eauto. }
  pose proof (stream_loop (cat_step fd buf) fd l (file_entry ino) (fun pos => pos + Z.of_nat (length (file_slice c pos 1024)))
    (fun pos => file_slice c pos 1024) (fun pos => drop (Z.to_nat pos) c) (Z.of_nat (length c))) as Hloop.
  cbv beta in Hloop. rewrite Hlen, Z.sub_diag, Z.add_0_r in Hloop by lia. apply Hloop.
  - intros pos a' s1 Hpos Hs1. destruct (Hrd pos a' s1 ltac:(lia) Hs1) as (s2 & Hr & Hs2 & Hb).
    pose proof (Hlen pos ltac:(lia)). eapply cat_round; try done; [lia|lia|]. intros E. rewrite E in *. simpl in *. lia.
  - intros a' s1 Hs1. destruct (Hrd (Z.of_nat (length c)) a' s1 ltac:(lia) Hs1) as (s2 & Hr & Hs2 & Hb).
    rewrite Hlen, Z.sub_diag in Hr, Hs2 by lia. rewrite Z.add_0_r in Hs2. exists s2. split; [|done].
    unfold cat_step. by rewrite (bind_ok _ _ _ _ _ Hr).
  - intros pos Hpos. rewrite Hlen by lia. lia.
  - intros pos Hpos. unfold file_slice. rewrite <- (take_drop (Z.to_nat 1024) (drop (Z.to_nat pos) c)) at 1. f_equal.
    rewrite drop_drop. pose proof (Hlen pos ltac:(lia)) as E. unfold file_slice in E.
    destruct (decide (Z.to_nat pos + Z.to_nat 1024 <= length c)%nat).
    + f_equal. lia.
    + by rewrite !drop_ge by lia.
  - rewrite drop_ge by lia. done.
  - lia.
  - by rewrite (upd_same _ _ _ He).
Qed.

(** *** The directory *)

(** A loop over the directory that prints each name followed by [ending]. *)
Lemma listing_loop step ending fd l a s :
  session l a s -> at_ l fd = Some (directory_entry 0) ->
  (forall pos d a s, 0 <= pos -> at_ (im_dir im) pos = Some d -> session (upd l fd (directory_entry pos)) a s ->
    exists s', step tt s = Ok (inl tt, s') /\
      session (upd l fd (directory_entry (pos + 1))) (tty_puts (entry_name d ++ ending) a) s') ->
  (forall a s, session (upd l fd (directory_entry (Z.of_nat (length (im_dir im))))) a s ->
    exists s', step tt s = Ok (inr 0, s') /\ session (upd l fd (directory_entry 0)) a s') ->
  exists s', loop step tt s = Ok (0, s') /\ session l (tty_puts (listing (im_dir im) ending 0) a) s'.
Proof.
  intros Hs He Hround Hend. set (last := Z.of_nat (length (im_dir im))).
  pose proof (fr_ndir_max _ _ _ _ (dk_rep _ _ _ (se_disk _ _ _ _ _ _ _ _ Hs))) as Hmax.
  unfold MAX_NUM_DIRECTORY_ENTRIES in Hmax.
  assert (forall pos, 0 <= pos < last -> exists d, at_ (im_dir im) pos = Some d) as Hat
    by (intros pos Hpos; apply at_Some; exact Hpos).
  pose proof (stream_loop step fd l directory_entry (fun pos => if pos =? last then 0 else pos + 1)
    (fun pos => default [] ((fun d => entry_name d ++ ending) <$> at_ (im_dir im) pos)) (listing (im_dir im) ending) last)
    as Hloop. cbv beta in Hloop. rewrite Z.eqb_refl, (upd_same _ _ _ He) in Hloop. apply Hloop.
  - intros pos a' s1 Hpos Hs1. destruct (Hat pos Hpos) as (d & Hd).
    rewrite Hd, (proj2 (Z.eqb_neq _ _)) by lia. apply (Hround pos d); [lia|done|done].
  - intros a' s1 Hs1. destruct (Hend a' s1 Hs1) as (s' & Hrun & Hs'). exists s'. split; [done|].
    by rewrite (upd_same _ _ _ He) in Hs'.
  - intros pos Hpos. rewrite (proj2 (Z.eqb_neq _ _)) by lia. lia.
  - intros pos Hpos. rewrite (proj2 (Z.eqb_neq _ _)) by lia. destruct (Hat pos Hpos) as (d & Hd).
    rewrite Hd. unfold listing. rewrite (drop_S _ d (Z.to_nat pos)) by (by apply at_lookup).
    by replace (Z.to_nat (pos + 1)) with (S (Z.to_nat pos)) by lia.
  - unfold listing. by rewrite drop_ge by lia.
  - lia.
  - exact Hs.
Qed.

(** One read of the directory. *)
Lemma directory_round fd l buf n pos a s :
  session (upd l fd (directory_entry pos)) a s -> 0 <= fd < Z.of_nat (length l) -> fd <> 1 -> in_page buf 32 ->
  0 <= n <= FOUR_MB -> 0 <= pos <= Z.of_nat (length (im_dir im)) ->
  let r := directory_step (im_dir im) pos in
  exists s', ece391_read fd buf n s = Ok (Z.of_nat (length (fst r)), s') /\
    session (upd l fd (directory_entry (snd r))) a s' /\ page_bytes j s' buf (fst r).
Proof.
  intros Hs Hfd Hne Hb Hn Hpos r.
  destruct (read_directory size im t p j _ _ s fd buf n pos Hs) as (s' & Hrd & Hs' & _ & Hbs);
    [by apply at_upd_eq|done|done|done|done|]. rewrite upd_upd in Hs'. by exists s'.
Qed.

Lemma directory_end dir : directory_step dir (Z.of_nat (length dir)) = ([], 0).
Proof. unfold directory_step, at_. rewrite lookup_ge_None_2 by lia. by destruct (0 <=? _). Qed.

Lemma cat_directory fd buf l a s :
  session l a s -> at_ l fd = Some (directory_entry 0) -> fd <> 1 -> at_ l 1 = Some stdout_entry -> in_page buf 1024 ->
  Forall (fun d => entry_name d <> []) (im_dir im) ->
  exists s', loop (cat_step fd buf) tt s = Ok (0, s') /\ session l (tty_puts (listing (im_dir im) [] 0) a) s'.
Proof.
  intros Hs He Hfd Ho Hbuf Hnames. pose proof (at_inv _ _ _ He) as Hi.
  assert (in_page buf 32) as Hb32 by (destruct Hbuf; split; lia).
  apply (listing_loop _ _ fd); [done|done|..].
  - intros pos d a' s1 Hp Hd Hs1. pose proof (at_inv _ _ _ Hd) as Hpos.
    destruct (directory_round fd l buf 1024 pos a' s1 Hs1 Hi Hfd Hb32 ltac:(unfold FOUR_MB; lia) ltac:(lia))
      as (s2 & Hrd & Hs2 & Hbs).
    unfold directory_step in Hrd, Hs2, Hbs. rewrite Hd in Hrd, Hs2, Hbs. cbn [fst snd] in Hrd, Hs2, Hbs. rewrite app_nil_r.
    eapply cat_round; try done; [lia| |].
    + unfold entry_name. rewrite length_take. lia.
    + apply (proj1 (Forall_lookup _ _) Hnames (Z.to_nat pos)). by apply at_lookup.
  - intros a' s1 Hs1.
    destruct (directory_round fd l buf 1024 _ a' s1 Hs1 Hi Hfd Hb32 ltac:(unfold FOUR_MB; lia) ltac:(lia))
      as (s2 & Hrd & Hs2 & _). rewrite directory_end in Hrd, Hs2. exists s2. split; [|done].
    unfold cat_step. by rewrite (bind_ok _ _ _ _ _ Hrd).
Qed.

(** *** ls *)

Lemma ls_round fd buf l pos d a s :
  session (upd l fd (directory_entry pos)) a s -> 0 <= fd < Z.of_nat (length l) -> fd <> 1 -> at_ l 1 = Some stdout_entry ->
  in_page buf 33 -> at_ (im_dir im) pos = Some d -> entry_name d <> [] ->
  exists s', ls_step fd buf tt s = Ok (inl tt, s') /\
    session (upd l fd (directory_entry (pos + 1))) (tty_puts (entry_name d ++ [ch_newline]) a) s'.
Proof.
  intros Hs Hi Hfd Ho [Hb1 Hb2] Hd Hne. pose proof (at_inv _ _ _ Hd) as Hpos. set (name := entry_name d) in *.
  assert (1 <= Z.of_nat (length name) <= 32) as Hlen.
  { assert (length name <= 32)%nat by (unfold name, entry_name; rewrite length_take; lia).
    destruct name; simpl in *; [congruence|lia]. }
  destruct (directory_round fd l buf (SBUFSIZE - 1) pos a s Hs Hi Hfd ltac:(split; lia) ltac:(unfold SBUFSIZE, FOUR_MB; lia)
    ltac:(lia)) as (s1 & Hrd & Hs1 & Hbs).
  unfold directory_step in Hrd, Hs1, Hbs. rewrite Hd in Hrd, Hs1, Hbs. cbn [fst snd] in Hrd, Hs1, Hbs. fold name in Hrd, Hs1, Hbs.
  destruct (ustore_run size im t p j _ _ s1 (buf + Z.of_nat (length name)) ch_newline Hs1) as (s2 & Hst & Hs2 & Hk & Hb);
    [split; lia|unfold ch_newline; lia|].
  apply (page_bytes_kept j _ _ _ _ _ _ Hk) in Hbs; [|split; lia|lia].
  assert (page_bytes j s2 buf (name ++ [ch_newline])) as Hout by (by apply page_bytes_app).
  assert (Z.of_nat (length (name ++ [ch_newline])) = Z.of_nat (length name) + 1) as El by (rewrite length_app; simpl; lia).
  destruct (write_stdout size im t p j _ a s2 buf (name ++ [ch_newline]) Hs2) as (s3 & Hwr & Hs3 & _);
    [by rewrite at_upd_ne by (done || lia)|split; lia|rewrite El; split; lia|done|].
  rewrite El in Hwr. exists s3. split; [|done]. unfold ls_step. rewrite (bind_ok _ _ _ _ _ Hrd).
  rewrite (proj2 (Z.eqb_neq _ 0)), (proj2 (Z.eqb_neq _ (-1))) by lia.
  rewrite (bind_ok _ _ _ _ _ Hst), (bind_ok _ _ _ _ _ Hwr). by rewrite (proj2 (Z.eqb_neq _ (-1))) by lia.
Qed.

Lemma ls_directory fd buf l a s :
  session l a s -> at_ l fd = Some (directory_entry 0) -> fd <> 1 -> at_ l 1 = Some stdout_entry -> in_page buf 33 ->
  Forall (fun d => entry_name d <> []) (im_dir im) ->
  exists s', loop (ls_step fd buf) tt s = Ok (0, s') /\ session l (tty_puts (listing (im_dir im) [ch_newline] 0) a) s'.
Proof.
  intros Hs He Hfd Ho Hbuf Hnames. pose proof (at_inv _ _ _ He) as Hi. apply (listing_loop _ _ fd); [done|done|..].
  - intros pos d a' s1 Hp Hd Hs1. apply ls_round; try done.
    apply (proj1 (Forall_lookup _ _) Hnames (Z.to_nat pos)). by apply at_lookup.
  - intros a' s1 Hs1.
    destruct (directory_round fd l buf (SBUFSIZE - 1) _ a' s1 Hs1 Hi Hfd ltac:(destruct Hbuf; split; lia)
      ltac:(unfold SBUFSIZE, FOUR_MB; lia) ltac:(lia)) as (s2 & Hrd & Hs2 & _).
    rewrite directory_end in Hrd, Hs2. exists s2. split; [|done]. unfold ls_step. by rewrite (bind_ok _ _ _ _ _ Hrd).
Qed.

(** *** Opening by name *)

Lemma open_spec_entry name l d e fd :
  starts_with str_stdin name = false -> starts_with str_stdout name = false -> free_fd l = Some fd ->
  dir_find name (im_dir im) = Some d -> open_entry d = Some e ->
  open_spec name (im_dir im) l = (fd, upd l fd e) /\ 2 <= fd < 8 /\ fd < Z.of_nat (length l).
Proof.
  intros E1 E2 Hfd Hd He. unfold open_spec. rewrite E1, E2, Hfd, Hd, He.
  destruct (lowest_free_spec 6 2 l fd ltac:(lia) Hfd) as (Hr & (e0 & He0 & _) & _). pose proof (at_inv _ _ _ He0). split_and!; (done || lia).
Qed.

Lemma open_spec_missing name l :
  starts_with str_stdin name = false -> starts_with str_stdout name = false -> dir_find name (im_dir im) = None ->
  open_spec name (im_dir im) l = (-1, l).
Proof. intros E1 E2 Hd. unfold open_spec. rewrite E1, E2, Hd. by destruct (free_fd l). Qed.

Lemma padded_args args : (length args <= 127)%nat -> padded args = (args ++ [0]) ++ replicate (127 - length args) 0.
Proof.
  intros Hlen. unfold padded. rewrite <- app_assoc. f_equal. cbn [app].
  by replace (128 - length args)%nat with (S (127 - length args)) by lia.
Qed.

(** The start of cat: its argument is opened. *)
Lemma cat_opens buf args l a s :
  session l a s -> in_page buf 1024 -> Forall (fun c => 0 < c < 256) args -> (length args <= 127)%nat ->
  bytes_at (view s) (pcb_arg_ptr j) (padded args) ->
  exists s1, session (snd (open_spec (args ++ [0]) (im_dir im) l)) a s1 /\ page_kept j buf 128 s s1 /\
    cat_main buf s = (let fd := fst (open_spec (args ++ [0]) (im_dir im) l) in
      if fd =? -1 then say (line "file not found") ;;; mret 2 else loop (cat_step fd buf) tt) s1.
Proof.
  intros Hs [Hb1 Hb2] Hargs Hlen Harg.
  destruct (getargs_run size im t p j l a s buf 1024 args Hs) as (s1 & Hga & Hs1 & Hk1 & Hbs);
    [split; lia|unfold FOUR_MB; lia|done|done|done|].
  rewrite padded_args in Hbs by done. apply page_bytes_app in Hbs as [Hbs _].
  destruct (open_run size im t p j l a s1 buf args Hs1) as (s2 & Hop & Hs2 & Hk2); [split; lia|done|].
  exists s2. split_and!; [exact Hs2| |].
  - eapply page_kept_trans; [exact Hk1|]. eapply page_kept_weaken; [exact Hk2|lia].
  - unfold cat_main. rewrite (bind_ok _ _ _ _ _ Hga). cbn [Z.eqb negb]. by rewrite (bind_ok _ _ _ _ _ Hop).
Qed.

(** ** Properties *)

(** C11: [cat] on the name of a regular file prints exactly the file's contents on
    the terminal of its process, whatever the contents and their length, and
    returns 0; on the directory it prints the names one after the other; when no
    file has that name it prints "file not found" and returns 2.  In each case it
    terminates. *)
Theorem cat_prints_file buf args l a s :
  session l a s -> at_ l 1 = Some stdout_entry -> in_page buf 1024 ->
  Forall (fun c => 0 < c < 256) args -> (length args <= 127)%nat ->
  bytes_at (view s) (pcb_arg_ptr j) (padded args) ->
  starts_with str_stdin (args ++ [0]) = false -> starts_with str_stdout (args ++ [0]) = false ->
  (forall d fd c, dir_find (args ++ [0]) (im_dir im) = Some d -> free_fd l = Some fd -> fileType d = 2 ->
     at_ (im_files im) (inodeNum d) = Some c ->
     exists s', cat_main buf s = Ok (0, s') /\
       session (upd l fd (file_entry (inodeNum d) (Z.of_nat (length c)))) (tty_puts c a) s') /\
  (forall d fd, dir_find (args ++ [0]) (im_dir im) = Some d -> free_fd l = Some fd -> fileType d = 1 ->
     Forall (fun d => entry_name d <> []) (im_dir im) ->
     exists s', cat_main buf s = Ok (0, s') /\
       session (upd l fd (directory_entry 0)) (tty_puts (listing (im_dir im) [] 0) a) s') /\
  (dir_find (args ++ [0]) (im_dir im) = None -> literals j [line "file not found"] buf 1024 s ->
     exists s', cat_main buf s = Ok (2, s') /\ session l (tty_puts (line "file not found") a) s').
Proof.
  intros Hs Ho Hbuf Hargs Hlen Harg E1 E2.
  destruct (cat_opens buf args l a s Hs Hbuf Hargs Hlen Harg) as (s1 & Hs1 & Hk & Hrun). rewrite Hrun. cbv zeta. split_and!.
  - intros d fd c Hd Hfd Hty Hc. assert (open_entry d = Some (file_entry (inodeNum d) 0)) as He by (unfold open_entry; by rewrite Hty).
    destruct (open_spec_entry _ _ _ _ _ E1 E2 Hfd Hd He) as (Eo & Hr & Hfl). rewrite Eo in *. cbn [fst snd] in *.
    rewrite (proj2 (Z.eqb_neq fd (-1))) by lia.
    destruct (cat_file fd buf (inodeNum d) c _ a s1 Hs1) as (s' & Hloop & Hs'); try done;
      [by apply at_upd_eq; lia|lia|by rewrite at_upd_ne by lia|].
    rewrite upd_upd in Hs'. by exists s'.
  - intros d fd Hd Hfd Hty Hnames. assert (open_entry d = Some (directory_entry 0)) as He by (unfold open_entry; by rewrite Hty).
    destruct (open_spec_entry _ _ _ _ _ E1 E2 Hfd Hd He) as (Eo & Hr & Hfl). rewrite Eo in *. cbn [fst snd] in *.
    rewrite (proj2 (Z.eqb_neq fd (-1))) by lia.
    apply cat_directory; try done; [by apply at_upd_eq; lia|lia|by rewrite at_upd_ne by lia].
  - intros Hd HL. rewrite (open_spec_missing _ _ E1 E2 Hd) in *. cbn [fst snd Z.eqb Pos.eqb] in *.
    destruct (say_run size im t p j [line "file not found"] buf 1024 l a s1 (line "file not found") Hs1 Ho) as (s' & Hsay & Hs' & _).
    + eapply literals_kept; [exact HL|]. eapply page_kept_weaken; [exact Hk|lia].
    + by left.
    + exists s'. split; [|done]. unfold say. by rewrite (bind_ok _ _ _ _ _ Hsay).
Qed.

(** C14: [ls] prints the name of every directory entry on a line of its own, in
    the order of the directory, and returns 0. *)
Theorem ls_lists_directory buf d fd l a s :
  session l a s -> at_ l 1 = Some stdout_entry -> in_page buf 33 -> literals j [chars "."] buf 33 s ->
  dir_find (chars "." ++ [0]) (im_dir im) = Some d -> free_fd l = Some fd -> fileType d = 1 ->
  Forall (fun d => entry_name d <> []) (im_dir im) ->
  exists s', ls_main buf s = Ok (0, s') /\
    session (upd l fd (directory_entry 0)) (tty_puts (listing (im_dir im) [ch_newline] 0) a) s'.
Proof.
  intros Hs Ho Hbuf HL Hd Hfd Hty Hnames. inversion_clear HL as [|? ? (_ & Hp & Hb & _) _].
  assert (open_entry d = Some (directory_entry 0)) as He by (unfold open_entry; by rewrite Hty).
  destruct (open_spec_entry (chars "." ++ [0]) l d _ fd eq_refl eq_refl Hfd Hd He) as (Eo & Hr & Hfl).
  destruct (open_run size im t p j l a s _ _ Hs Hp Hb) as (s1 & Hop & Hs1 & _). rewrite Eo in Hop, Hs1.
  unfold ls_main. rewrite (bind_ok _ _ _ _ _ Hop). cbn [fst snd] in *. rewrite (proj2 (Z.eqb_neq fd (-1))) by lia.
  apply ls_directory; try done; [by apply at_upd_eq; lia|lia|by rewrite at_upd_ne by lia].
Qed.
End runs.

Lemma cat_prints_file_witness :
  exists s', @cat_main sample_env 0x8020000 sample = Ok (0, s') /\
    session 0x3000 sample_image 0 VIDEO 0 (upd initial_files 2 (file_entry 0 3)) (tty_puts [104; 105; 10] blank) s'.
Proof.
  destruct (@cat_prints_file sample_env 0x3000 sample_image 0 VIDEO 0 0x8020000 hi initial_files blank sample) as (H1 & _).
  - apply sample_session.
  - reflexivity.
  - unfold in_page, PROCESS_VIRTUAL, FOUR_MB. lia.
  - unfold hi. repeat constructor; lia.
  - unfold hi. simpl. lia.
  - apply sample_args.
  - reflexivity.
  - reflexivity.
  - exact (H1 _ 2 [104; 105; 10] eq_refl eq_refl eq_refl eq_refl).
Defined.

Lemma ls_lists_directory_witness :
  exists s', @ls_main sample_env 0x8000000 sample = Ok (0, s') /\
    session 0x3000 sample_image 0 VIDEO 0 (upd initial_files 2 (directory_entry 0)) (tty_puts [46; 10; 104; 105; 10] blank) s'.
Proof.
  apply (@ls_lists_directory sample_env 0x3000 sample_image 0 VIDEO 0 0x8000000
    (Dentry (46 :: replicate 31 0) 1 0 (replicate 6 0)) 2 initial_files blank sample).
  - apply sample_session.
  - reflexivity.
  - unfold in_page, PROCESS_VIRTUAL, FOUR_MB. lia.
  - apply sample_literals; [vm_compute; reflexivity|unfold sample_text; lia].
  - reflexivity.
  - reflexivity.
  - reflexivity.
  - repeat constructor; discriminate.
Defined.
