(* ===== verification/Blink.v ===== *)
(** * The blinking characters of fish

    The assembly of blink.S and the allocator of fish.c: a list of blinkers, linked
    through the records of an array, and the routines that change it and the
    display. They are written over the memory interface; what they do is stated on
    an abstract list. *)

From S2P Require Import Prelude Memory Lib Filesystem.

(** ** Words of 16 bits *)

Definition s16 (x : Z) : Z := if u16 x <? 2 ^ 15 then u16 x else u16 x - 2 ^ 16.

Section words.
Context {M : Type} `{ByteMem M}.

Definition ld16 (a : Z) : ST M Z := b0 ← ld8 a; b1 ← ld8 (a + 1); mret (b0 + 2 ^ 8 * b1).

Definition st16 (a v : Z) : ST M unit := st8 a v ;;; st8 (a + 1) (Z.shiftr v 8).
End words.

(** ** The record and its fields *)

Definition LOCATION : Z := 0.
Definition ON_CHAR : Z := 2.
Definition OFF_CHAR : Z := 3.
Definition ON_LENGTH : Z := 4.
Definition OFF_LENGTH : Z := 6.
Definition COUNTDOWN : Z := 8.
Definition STATUS : Z := 10.
Definition NEXT : Z := 12.
Definition STRUCT_SIZE : Z := 16.

Definition RTC_ADD : Z := 0.
Definition RTC_REMOVE : Z := 1.
Definition RTC_FIND : Z := 2.
Definition RTC_SYNC : Z := 3.

(** The addresses that the linker and the stack give to the variables. *)
Class FishVars := {
  blink_array : Z; vmem_base_addr : Z; mp1_list_head : Z;
  add_local : Z; find_local : Z
}.

Section blink.
Context {M : Type} `{ByteMem M} `{FishVars}.

(** ** Memory blocks and the allocator *)

Definition ece391_memset (memory c n : Z) : ST M unit := for_ (Z.to_nat n) 0 (fun i => st8 (memory + i) c).

Definition ece391_memcpy (dest src n : Z) : ST M Z :=
  for_ (Z.to_nat n) 0 (fun i => c ← ld8 (src + i); st8 (dest + i) c) ;;; mret 0.

Definition mp1_malloc_step (i : Z) : ST M (Z + Z) :=
  if i <? 80 * 25 then
    location ← ld16 (blink_array + STRUCT_SIZE * i + LOCATION);
    mret (if location =? 0 then inr (blink_array + STRUCT_SIZE * i) else inl (i + 1))
  else mret (inr 0).

Definition mp1_malloc (size : Z) : ST M Z := loop mp1_malloc_step 0.

Definition mp1_free (memory : Z) : ST M unit := ece391_memset memory 0 STRUCT_SIZE.

(** ** The display and the tasklet *)

Definition mp1_poke (cl eax : Z) : ST M unit := edx ← ld32 vmem_base_addr; st8 (edx + eax) cl.

Definition tasklet_loop (ebx : Z) : ST M (Z + unit) :=
  if ebx =? 0 then mret (inr tt)
  else
    c ← ld16 (ebx + COUNTDOWN); st16 (ebx + COUNTDOWN) (c - 1) ;;;
    c ← ld16 (ebx + COUNTDOWN);
    when (negb (0 <? s16 c))
      (location ← ld16 (ebx + LOCATION);
       let eax := Z.shiftl location 1 in
       status ← ld16 (ebx + STATUS);
       dx ← (if negb (Z.land status 1 =? 0) then
               cl ← ld8 (ebx + OFF_CHAR); mp1_poke cl eax ;;; ld16 (ebx + OFF_LENGTH)
             else
               cl ← ld8 (ebx + ON_CHAR); mp1_poke cl eax ;;; ld16 (ebx + ON_LENGTH));
       st16 (ebx + COUNTDOWN) dx ;;;
       status ← ld16 (ebx + STATUS); st16 (ebx + STATUS) (Z.lxor status 1)) ;;;
    next ← ld32 (ebx + NEXT); mret (inl next).

Definition mp1_rtc_tasklet : ST M unit := ebx ← ld32 mp1_list_head; loop tasklet_loop ebx.

(** ** The requests *)

Definition mp1_find_helper_loop (ax ebx : Z) : ST M (Z + Z) :=
  if ebx =? 0 then mret (inr 0)
  else
    location ← ld16 (ebx + LOCATION);
    if location =? ax then mret (inr ebx)
    else next ← ld32 (ebx + NEXT); mret (inl next).

Definition mp1_find_helper (location : Z) : ST M Z :=
  ebx ← ld32 mp1_list_head; loop (mp1_find_helper_loop (u16 location)) ebx.

Definition mp1_ioctl_add (arg : Z) : ST M Z :=
  let ebx := add_local in
  r ← ece391_memcpy ebx arg STRUCT_SIZE;
  if negb (r =? 0) then mret (-1)
  else
    location ← ld16 (ebx + LOCATION);
    if 80 * 25 <=? location then mret (-1)
    else
      st16 (ebx + STATUS) 1 ;;;
      dx ← ld16 (ebx + ON_LENGTH); st16 (ebx + COUNTDOWN) dx ;;;
      edx ← mp1_malloc STRUCT_SIZE;
      if edx =? 0 then mret (-1)
      else
        ece391_memcpy edx ebx STRUCT_SIZE ≫= fun _ =>
        eax ← ld32 mp1_list_head; st32 (edx + NEXT) eax ;;;
        st32 mp1_list_head edx ;;;
        location ← ld16 (edx + LOCATION);
        cl ← ld8 (edx + ON_CHAR); mp1_poke cl (Z.shiftl location 1) ;;;
        mret 0.

Definition remove_find_prev (eax edx : Z) : ST M (Z + Z) :=
  p ← ld32 edx; mret (if p =? eax then inr edx else inl (p + NEXT)).

Definition mp1_ioctl_remove (arg : Z) : ST M Z :=
  eax ← mp1_find_helper arg;
  if eax =? 0 then mret (-1)
  else
    edx ← loop (remove_find_prev eax) mp1_list_head;
    ecx ← ld32 (eax + NEXT); st32 edx ecx ;;;
    mp1_free eax ;;; mret 0.

(** The [cmovl] comes after a [testb], which clears the sign and the overflow flag
    here: it never moves. *)
Definition mp1_ioctl_sync (arg : Z) : ST M Z :=
  esi ← mp1_find_helper (Z.shiftr arg 16);
  if esi =? 0 then mret (-1)
  else
    edi ← mp1_find_helper (Z.land arg 0xFFFF);
    if edi =? 0 then mret (-1)
    else
      ax ← ld16 (esi + ON_LENGTH); st16 (edi + ON_LENGTH) ax ;;;
      ax ← ld16 (esi + OFF_LENGTH); st16 (edi + OFF_LENGTH) ax ;;;
      ax ← ld16 (esi + COUNTDOWN); st16 (edi + COUNTDOWN) ax ;;;
      ax ← ld16 (esi + STATUS); st16 (edi + STATUS) ax ;;;
      location ← ld16 (edi + LOCATION);
      off ← ld8 (edi + OFF_CHAR);
      on ← ld8 (edi + ON_CHAR);
      status ← ld8 (edi + STATUS);
      let sf := Z.testbit (Z.land 1 status) 7 in
      let overflow := false in
      let ecx := if negb (Bool.eqb sf overflow) then on else off in
      mp1_poke ecx (Z.shiftl location 1) ;;;
      mret 0.

Definition mp1_ioctl_find (arg : Z) : ST M Z :=
  r ← ece391_memcpy find_local arg 2;
  if negb (r =? 0) then mret (-1)
  else
    location ← ld16 find_local;
    eax ← mp1_find_helper location;
    if eax =? 0 then mret (-1)
    else
      r ← ece391_memcpy arg eax STRUCT_SIZE;
      mret (if r =? 0 then 0 else -1).

(** The jump through [call_table]. *)
Definition mp1_ioctl (arg cmd : Z) : ST M Z :=
  match cmd with
  | 0 => mp1_ioctl_add arg
  | 1 => mp1_ioctl_remove arg
  | 2 => mp1_ioctl_find arg
  | 3 => mp1_ioctl_sync arg
  | _ => fail OutOfBounds
  end.
End blink.

(** ** Specification *)

Record blinker := Blinker {
  b_location : Z; b_on : Z; b_off : Z;
  b_on_length : Z; b_off_length : Z; b_countdown : Z; b_status : Z
}.

(** Whether the tasklet changes the character of [b], the blinker after the
    tasklet, and the display, by the offset from its start. *)
Definition fires (b : blinker) : bool := negb (0 <? s16 (b_countdown b - 1)).

Definition lit_up (b : blinker) : bool := negb (Z.land (b_status b) 1 =? 0).

Definition tick (b : blinker) : blinker :=
  let '(Blinker loc on off n_on n_off count status) := b in
  if fires b then Blinker loc on off n_on n_off (if lit_up b then n_off else n_on) (Z.lxor status 1)
  else Blinker loc on off n_on n_off (u16 (count - 1)) status.

Definition shown_at (loc c : Z) (v : Z -> Z) : Z -> Z := fun k => if k =? 2 * loc then c else v k.

Definition draw (v : Z -> Z) (b : blinker) : Z -> Z :=
  if fires b then shown_at (b_location b) (if lit_up b then b_off b else b_on b) v else v.

(** A blinker as it is when it joins the list. *)
Definition fresh (b : blinker) : blinker :=
  let '(Blinker loc on off n_on n_off _ _) := b in Blinker loc on off n_on n_off n_on 1.

(** Blinker [b] with the phase of [a]. *)
Definition synced (a b : blinker) : blinker :=
  let '(Blinker loc on off _ _ _ _) := b in
  Blinker loc on off (b_on_length a) (b_off_length a) (b_countdown a) (b_status a).

(** The first blinker at a location, with its position. *)
Definition find_at (loc : Z) (L : list blinker) : option (nat * blinker) :=
  list_find (fun b => b_location b = loc) L.

(** ** The memory of the program, by variables *)

Inductive area := AArray | AHead | ABase | ALocal | AKey | ADisplay | AArg.

#[export] Instance area_eq_dec : EqDecision area.
Proof. solve_decision. Defined.

Definition size (r : area) : Z :=
  match r with
  | AArray => 16 * 2000
  | AHead | ABase => 4
  | ALocal | AArg => 16
  | AKey => 2
  | ADisplay => 4000
  end.

(** What the variables hold: the byte of each at an offset. *)
Definition contents : Type := area -> Z -> Z.

Definition w16 (f : contents) (r : area) (o : Z) : Z := f r o + 2 ^ 8 * f r (o + 1).

Definition w32 (f : contents) (r : area) (o : Z) : Z :=
  f r o + 2 ^ 8 * f r (o + 1) + 2 ^ 16 * f r (o + 2) + 2 ^ 24 * f r (o + 3).

(** The record at an offset. *)
Definition item (f : contents) (r : area) (o : Z) : blinker :=
  Blinker (w16 f r (o + LOCATION)) (f r (o + ON_CHAR)) (f r (o + OFF_CHAR)) (w16 f r (o + ON_LENGTH))
    (w16 f r (o + OFF_LENGTH)) (w16 f r (o + COUNTDOWN)) (w16 f r (o + STATUS)).

(** [n] bytes replaced by those that [g] gives. *)
Definition puts (r : area) (o n : Z) (g : Z -> Z) (f : contents) : contents := fun r' o' =>
  if bool_decide (r' = r) && (o <=? o') && (o' <? o + n) then g (o' - o) else f r' o'.

Definition byte_of (v k : Z) : Z := u8 (Z.shiftr v (8 * k)).

(** The offsets of the fields are numbers. *)
Ltac unfold_fields := unfold LOCATION, ON_CHAR, OFF_CHAR, ON_LENGTH, OFF_LENGTH, COUNTDOWN, STATUS, NEXT, STRUCT_SIZE in *.
Ltac fields := unfold_fields; lia.

Lemma puts_in r o n g f k : 0 <= k < n -> puts r o n g f r (o + k) = g k.
Proof.
  intros Hk. unfold puts. rewrite bool_decide_true by done.
  destruct (Z.leb_spec o (o + k)), (Z.ltb_spec (o + k) (o + n)); try lia. simpl. f_equal. lia.
Qed.

Lemma puts_out r o n g f r' o' : r' <> r \/ o' < o \/ o + n <= o' -> puts r o n g f r' o' = f r' o'.
Proof.
  intros Hk. unfold puts. destruct (bool_decide_reflect (r' = r)); [|done].
  destruct (Z.leb_spec o o'), (Z.ltb_spec o' (o + n)); try done. exfalso. intuition lia.
Qed.

Lemma w16_out r o n g f r' o' : r' <> r \/ o' + 2 <= o \/ o + n <= o' -> w16 (puts r o n g f) r' o' = w16 f r' o'.
Proof. intros Hk. unfold w16. rewrite !puts_out; [done|intuition lia..]. Qed.

Lemma w32_out r o n g f r' o' : r' <> r \/ o' + 4 <= o \/ o + n <= o' -> w32 (puts r o n g f) r' o' = w32 f r' o'.
Proof. intros Hk. unfold w32. rewrite !puts_out; [done|intuition lia..]. Qed.

Lemma item_out r o n g f r' o' : r' <> r \/ o' + 12 <= o \/ o + n <= o' -> item (puts r o n g f) r' o' = item f r' o'.
Proof.
  intros Hk. unfold item. rewrite !w16_out, !puts_out by (fields || (unfold_fields; intuition lia)). done.
Qed.

Lemma byte_of_mod v k : 0 <= k -> byte_of v k = (v `div` 2 ^ (8 * k)) `mod` 2 ^ 8.
Proof. intros ?. unfold byte_of, u8. by rewrite Z.shiftr_div_pow2 by lia. Qed.

Lemma w16_in r o n v f k : 0 <= k -> k + 2 <= n -> w16 (puts r o n (byte_of v) f) r (o + k) = u16 (Z.shiftr v (8 * k)).
Proof.
  intros ? ?. unfold w16. rewrite <- Z.add_assoc, !puts_in by lia. rewrite !byte_of_mod by lia.
  unfold u16. rewrite Z.shiftr_div_pow2 by lia. replace (8 * (k + 1)) with (8 * k + 8) by lia.
  rewrite Z.pow_add_r, <- Z.div_div by lia. change (2 ^ 16) with (2 ^ 8 * 2 ^ 8). by rewrite Z.rem_mul_r by lia.
Qed.

Lemma w16_eq r o v f : w16 (puts r o 2 (byte_of v) f) r o = u16 v.
Proof. pose proof (w16_in r o 2 v f 0 ltac:(lia) ltac:(lia)) as E. by rewrite Z.add_0_r in E. Qed.

Lemma w32_eq r o v f : 0 <= v < 2 ^ 32 -> w32 (puts r o 4 (byte_of v) f) r o = v.
Proof.
  intros Hv. pose proof (puts_in r o 4 (byte_of v) f 0 ltac:(lia)) as E. rewrite Z.add_0_r in E.
  unfold w32. rewrite E, !puts_in by lia. exact (le32_value v Hv).
Qed.

(** Copies of a block, of a record. *)
Lemma w16_copy r o n f r' o' f' k : 0 <= k -> k + 2 <= n ->
  w16 (puts r o n (fun i => f r' (o' + i)) f') r (o + k) = w16 f r' (o' + k).
Proof. intros ? ?. unfold w16. rewrite <- Z.add_assoc, !puts_in by lia. by rewrite Z.add_assoc. Qed.

Lemma item_copy r o f r' o' f' : item (puts r o 16 (fun i => f r' (o' + i)) f') r o = item f r' o'.
Proof. unfold item. rewrite !w16_copy, !puts_in by fields. done. Qed.

Section heap.
Context {M : Type} `{ByteMemLaws M} `{FishVars} (display arg : Z) (m0 : M).

Definition base (r : area) : Z :=
  match r with
  | AArray => blink_array | AHead => mp1_list_head | ABase => vmem_base_addr
  | ALocal => add_local | AKey => find_local | ADisplay => display | AArg => arg
  end.

(** Every byte of the variables has a cell of its own. *)
Definition laid_out : Prop :=
  (forall r o, 0 <= o < size r -> exists c, cell m0 (base r + o) = Some c) /\
  (forall r o r' o' c, 0 <= o < size r -> 0 <= o' < size r' ->
    cell m0 (base r + o) = Some c -> cell m0 (base r' + o') = Some c -> r = r' /\ o = o').

(** [m] is [m0] but for the variables, which hold [f]. *)
Record heap (f : contents) (m : M) : Prop := {
  hp_cell : forall a, cell m a = cell m0 a;
  hp_load : forall r o, 0 <= o < size r -> load m (base r + o) = Some (f r o);
  hp_rest : forall c, (forall r o, 0 <= o < size r -> cell m0 (base r + o) <> Some c) -> peek m c = peek m0 c
}.

Lemma heap_ext f f' m : (forall r o, 0 <= o < size r -> f r o = f' r o) -> heap f m -> heap f' m.
Proof. intros E [H1' H2' H3]. split; [done| |done]. intros r o Ho. by rewrite H2', E. Qed.

Lemma heap_range f m r o : heap f m -> 0 <= o < size r -> 0 <= f r o < 256.
Proof. intros Hh Ho. eapply load_range, (hp_load _ _ Hh _ _ Ho). Qed.

Context (Hlay : laid_out).

Lemma wp_ld8 r o f m a Q : heap f m -> a = base r + o -> 0 <= o /\ o + 1 <= size r -> Q (f r o) m -> wp (ld8 a) Q m.
Proof. intros Hh -> Ho HQ. eapply wp_run; [|exact HQ]. apply ld8_run, Hh. lia. Qed.

Lemma wp_st8 r o v f m a (Q : unit -> M -> Prop) :
  heap f m -> a = base r + o -> 0 <= o /\ o + 1 <= size r ->
  (forall m', heap (puts r o 1 (byte_of v) f) m' -> Q tt m') -> wp (st8 a v) Q m.
Proof.
  intros [H1' H2' H3] -> Ho HQ. destruct Hlay as [Hmap Hinj]. destruct (Hmap r o ltac:(lia)) as [c Hc].
  assert (cell m (base r + o) = Some c) as Hc' by by rewrite H1'.
  eapply wp_run; [by apply st8_run|]. apply HQ. split.
  - intros a. by rewrite cell_poke.
  - intros r' o' Ho'. destruct (decide (r' = r /\ o' = o)) as [[-> ->]|Hne].
    + rewrite (load_poke_eq _ _ c) by done. rewrite <- (Z.add_0_r o) at 2. rewrite puts_in by lia.
      f_equal. rewrite byte_of_mod by lia. by rewrite u8_small, Z.div_1_r by apply u8_range.
    + rewrite puts_out by (destruct (decide (r' = r)); [right|by left]; destruct (decide (o' = o)); [tauto|lia]).
      rewrite load_poke_ne; [by apply H2'|]. rewrite H1'. intros Hx. apply Hne. by eapply Hinj; [done|lia|exact Hx|].
  - intros c' Hn. rewrite peek_poke_ne; [by apply H3|]. intros ->. by apply (Hn r o); [lia|].
Qed.

Lemma wp_ld16 r o f m a Q :
  heap f m -> a = base r + o -> 0 <= o /\ o + 2 <= size r -> Q (w16 f r o) m -> wp (ld16 a) Q m.
Proof.
  intros Hh -> Ho HQ. unfold ld16. apply wp_bind. apply (wp_ld8 r o f); [done|done|lia|].
  apply wp_bind. apply (wp_ld8 r (o + 1) f); [done|lia|lia|]. exact HQ.
Qed.

Lemma wp_ld32 r o f m a Q :
  heap f m -> a = base r + o -> 0 <= o /\ o + 4 <= size r -> Q (w32 f r o) m -> wp (ld32 a) Q m.
Proof.
  intros Hh -> Ho HQ. unfold ld32. apply wp_bind. apply (wp_ld8 r o f); [done|done|lia|].
  do 3 (apply wp_bind; eapply (wp_ld8 r); [exact Hh|rewrite <- Z.add_assoc; reflexivity|lia|]). exact HQ.
Qed.

(** A block of [n + 1] bytes, from one of [n]. *)
Lemma heap_snoc r o n g h f m :
  0 <= n -> h 0 = g n -> heap (puts r (o + n) 1 h (puts r o n g f)) m -> heap (puts r o (n + 1) g f) m.
Proof.
  intros Hn Eg. apply heap_ext. intros r' o' _. unfold puts. destruct (bool_decide (r' = r)); [|done]. simpl.
  destruct (Z.leb_spec (o + n) o'), (Z.ltb_spec o' (o + n + 1)), (Z.leb_spec o o'),
    (Z.ltb_spec o' (o + n)), (Z.ltb_spec o' (o + (n + 1))); try lia; try done. simpl.
  replace o' with (o + n) by lia. by rewrite Z.sub_diag, Z.add_simpl_l.
Qed.

Lemma heap_next r o n v f m :
  0 <= n -> heap (puts r (o + n) 1 (byte_of (Z.shiftr v (8 * n))) (puts r o n (byte_of v) f)) m ->
  heap (puts r o (n + 1) (byte_of v) f) m.
Proof.
  intros Hn. apply heap_snoc; [done|]. unfold byte_of. by rewrite Z.shiftr_shiftr, Z.add_0_r by lia.
Qed.

Lemma wp_st16 r o v f m a (Q : unit -> M -> Prop) :
  heap f m -> a = base r + o -> 0 <= o /\ o + 2 <= size r ->
  (forall m', heap (puts r o 2 (byte_of v) f) m' -> Q tt m') -> wp (st16 a v) Q m.
Proof.
  intros Hh -> Ho HQ. unfold st16. apply wp_bind. apply (wp_st8 r o v f); [done|done|lia|]. intros m1 H1'.
  eapply (wp_st8 r (o + 1)); [exact H1'|lia|lia|]. intros m2 H2'. apply HQ. by apply (heap_next r o 1).
Qed.

Lemma wp_st32 r o v f m a (Q : unit -> M -> Prop) :
  heap f m -> a = base r + o -> 0 <= o /\ o + 4 <= size r ->
  (forall m', heap (puts r o 4 (byte_of v) f) m' -> Q tt m') -> wp (st32 a v) Q m.
Proof.
  intros Hh -> Ho HQ. unfold st32. apply wp_bind. apply (wp_st8 r o v f); [done|done|lia|]. intros m1 H1'.
  apply wp_bind. eapply (wp_st8 r (o + 1)); [exact H1'|lia|lia|]. intros m2 H2'%(heap_next r o 1); [|lia].
  apply wp_bind. eapply (wp_st8 r (o + 2)); [exact H2'|lia|lia|]. intros m3 H3'%(heap_next r o 2); [|lia].
  eapply (wp_st8 r (o + 3)); [exact H3'|lia|lia|]. intros m4 H4'%(heap_next r o 3); [|lia]. by apply HQ.
Qed.

(** *** Blocks *)

Lemma puts_none r o n g f m : n <= 0 -> heap f m -> heap (puts r o n g f) m.
Proof.
  intros Hn. apply heap_ext. intros r' o' _. unfold puts.
  destruct (bool_decide _), (Z.leb_spec o o'), (Z.ltb_spec o' (o + n)); try done; lia.
Qed.

Lemma byte_of_byte v : 0 <= v < 256 -> byte_of v 0 = v.
Proof. intros Hv. rewrite byte_of_mod, Z.div_1_r by lia. by apply u8_small. Qed.

Lemma wp_memcpy r o r' o' n f m dest src (Q : Z -> M -> Prop) :
  heap f m -> dest = base r + o -> src = base r' + o' -> r <> r' -> 0 <= n ->
  0 <= o /\ o + n <= size r -> 0 <= o' /\ o' + n <= size r' ->
  (forall m', heap (puts r o n (fun i => f r' (o' + i)) f) m' -> Q 0 m') -> wp (ece391_memcpy dest src n) Q m.
Proof.
  intros Hh -> -> Hne Hn Ho Ho' HQ. unfold ece391_memcpy. apply wp_bind.
  eapply wp_mono; [apply (wp_for (fun k m' => heap (puts r o k (fun i => f r' (o' + i)) f) m'))|].
  - by apply puts_none.
  - intros k m1 Hk H1'. apply wp_bind. eapply (wp_ld8 r' (o' + k)); [exact H1'|lia|lia|].
    rewrite puts_out by (left; congruence). eapply (wp_st8 r (o + k)); [exact H1'|lia|lia|]. intros m2 H2'.
    eapply heap_snoc; [lia| |exact H2']. apply byte_of_byte. eapply heap_range; [exact Hh|lia].
  - intros [] m1 H1'. apply wp_ret, HQ. by rewrite Z.add_0_l, Z2Nat.id in H1' by lia.
Qed.

Lemma wp_memset r o n c f m a (Q : unit -> M -> Prop) :
  heap f m -> a = base r + o -> 0 <= c < 256 -> 0 <= n -> 0 <= o /\ o + n <= size r ->
  (forall m', heap (puts r o n (fun _ => c) f) m' -> Q tt m') -> wp (ece391_memset a c n) Q m.
Proof.
  intros Hh -> Hc Hn Ho HQ. unfold ece391_memset.
  eapply wp_mono; [apply (wp_for (fun k m' => heap (puts r o k (fun _ => c) f) m'))|].
  - by apply puts_none.
  - intros k m1 Hk H1'. eapply (wp_st8 r (o + k)); [exact H1'|lia|lia|]. intros m2 H2'.
    eapply heap_snoc; [lia| |exact H2']. by apply byte_of_byte.
  - intros [] m1 H1'. apply HQ. by rewrite Z.add_0_l, Z2Nat.id in H1' by lia.
Qed.

(** *** The list *)

Definition slot (f : contents) (i : Z) : blinker := item f AArray (16 * i).

(** From the pointer [p], the list goes through the records [l] of the array. *)
Fixpoint chain (f : contents) (p : Z) (l : list Z) : Prop :=
  match l with
  | [] => p = 0
  | i :: l' => p = blink_array + 16 * i /\ 0 <= i < 2000 /\ chain f (w32 f AArray (16 * i + NEXT)) l'
  end.

Record blinking (f : contents) (l : list Z) : Prop := {
  bk_chain : chain f (w32 f AHead 0) l;
  bk_nodup : NoDup l;
  bk_used : forall i, 0 <= i < 2000 -> (i ∈ l <-> b_location (slot f i) <> 0);
  bk_location : forall i, i ∈ l -> b_location (slot f i) < 2000;
  bk_display : w32 f ABase 0 = display
}.

(** The program's list is [L], the display shows [v], and the argument is [A]. *)
Definition fish (L : list blinker) (v : Z -> Z) (A : blinker) (m : M) : Prop :=
  exists f l, heap f m /\ blinking f l /\ L = slot f <$> l /\ A = item f AArg 0 /\
    forall k, 0 <= k < 4000 -> f ADisplay k = v k.

Lemma chain_range f p l i : chain f p l -> i ∈ l -> 0 <= i < 2000.
Proof.
  revert p. induction l as [|i' l IH]; intros p Hc Hin; [by apply not_elem_of_nil in Hin|].
  destruct Hc as (_ & Hr & Hc). apply elem_of_cons in Hin as [->|Hin]; [done|by eapply IH].
Qed.

Lemma chain_ext f f' p l :
  (forall i, i ∈ l -> w32 f' AArray (16 * i + NEXT) = w32 f AArray (16 * i + NEXT)) -> chain f p l -> chain f' p l.
Proof.
  revert p. induction l as [|i l IH]; intros p E Hc; [done|]. destruct Hc as (Hp & Hr & Hc). split; [done|]. split; [done|].
  rewrite (E i) by apply list_elem_of_here. apply IH; [|done]. intros j Hj. by apply E, list_elem_of_further.
Qed.

Lemma w16_range f m r o : heap f m -> 0 <= o -> o + 2 <= size r -> 0 <= w16 f r o < 2 ^ 16.
Proof.
  intros Hh H1' H2'. pose proof (heap_range f m r o Hh ltac:(lia)). pose proof (heap_range f m r (o + 1) Hh ltac:(lia)).
  unfold w16. lia.
Qed.

(** *** The tasklet *)

Context (Harray : 0 < blink_array /\ blink_array + 16 * 2000 <= 2 ^ 32).

Lemma u16_small x : 0 <= x < 2 ^ 16 -> u16 x = x.
Proof. intros. unfold u16. by apply Z.mod_small. Qed.

Lemma s16_u16 x : s16 (u16 x) = s16 x.
Proof. unfold s16, u16. by rewrite Z.mod_mod by lia. Qed.

Lemma lxor_one x : 0 <= x < 2 ^ 16 -> 0 <= Z.lxor x 1 < 2 ^ 16.
Proof.
  intros Hx. split; [apply Z.lxor_nonneg; lia|]. destruct (Z.eq_dec (Z.lxor x 1) 0) as [->|Hne]; [lia|].
  apply Z.log2_lt_pow2; [pose proof (proj2 (Z.lxor_nonneg x 1)); lia|].
  eapply Z.le_lt_trans; [apply Z.log2_lxor; lia|]. apply Z.max_lub_lt; [|simpl; lia].
  destruct (Z.eq_dec x 0) as [->|]; [simpl; lia|]. apply Z.log2_lt_pow2; lia.
Qed.

(** Reads of a field after stores to others. *)
Ltac other := first [left; discriminate | right; unfold_fields; lia].
Ltac reads := repeat first [rewrite w16_eq | rewrite w16_out by other | rewrite w32_out by other | rewrite puts_out by other].

(** One round of the tasklet: record [i] ticks, and the display follows. *)
Record ticked (i : Z) (f f' : contents) : Prop := {
  tk_slot : slot f' i = tick (slot f i);
  tk_display : forall k, 0 <= k < 4000 -> f' ADisplay k = draw (f ADisplay) (slot f i) k;
  tk_rest : forall r o, r <> ADisplay -> r <> AArray \/ o < 16 * i \/ 16 * i + 12 <= o -> f' r o = f r o
}.

Lemma wp_poke f m loc c (Q : unit -> M -> Prop) :
  heap f m -> w32 f ABase 0 = display -> 0 <= loc < 2000 -> 0 <= c < 256 ->
  (forall m', heap (puts ADisplay (2 * loc) 1 (fun _ => c) f) m' -> Q tt m') -> wp (mp1_poke c (Z.shiftl loc 1)) Q m.
Proof.
  intros Hh Hd Hloc Hc HQ. unfold mp1_poke. apply wp_bind.
  apply (wp_ld32 ABase 0 f); [done|cbn; lia|cbn; lia|]. rewrite Hd.
  apply (wp_st8 ADisplay (2 * loc) c f); [done|rewrite Z.shiftl_mul_pow2 by lia; cbn; lia|cbn; lia|].
  intros m' Hh'. apply HQ. eapply heap_ext; [|exact Hh']. intros r o _. unfold puts.
  destruct (bool_decide (r = ADisplay)), (Z.leb_spec (2 * loc) o), (Z.ltb_spec o (2 * loc + 1)); try done. simpl.
  replace o with (2 * loc) by lia. rewrite Z.sub_diag. by apply byte_of_byte.
Qed.

Lemma shown_puts f loc c k : puts ADisplay (2 * loc) 1 (fun _ => c) f ADisplay k = shown_at loc c (f ADisplay) k.
Proof.
  unfold puts, shown_at. rewrite bool_decide_true by done.
  destruct (Z.leb_spec (2 * loc) k), (Z.ltb_spec k (2 * loc + 1)), (Z.eqb_spec k (2 * loc)); try lia; done.
Qed.

(** The character at offset [oc] is shown, and the length at offset [ol] loaded. *)
Lemma wp_change i f m oc ol (Q : Z -> M -> Prop) :
  heap f m -> 0 <= i < 2000 -> w32 f ABase 0 = display -> b_location (slot f i) < 2000 ->
  0 <= oc < 16 -> 0 <= ol < 15 ->
  (forall m', heap (puts ADisplay (2 * b_location (slot f i)) 1 (fun _ => f AArray (16 * i + oc)) f) m' ->
    Q (w16 f AArray (16 * i + ol)) m') ->
  wp (cl ← ld8 (blink_array + 16 * i + oc); mp1_poke cl (Z.shiftl (b_location (slot f i)) 1) ;;;
      ld16 (blink_array + 16 * i + ol)) Q m.
Proof.
  intros Hh Hi Hd Hloc Hoc Hol HQ.
  apply wp_bind, (wp_ld8 AArray (16 * i + oc) f); [done|cbn; lia|cbn; lia|]. apply wp_bind, (wp_poke f).
  - done.
  - done.
  - split; [|done]. eapply w16_range; [exact Hh|fields|cbn; fields].
  - eapply heap_range; [exact Hh|cbn; lia].
  - intros m1 H1'. eapply (wp_ld16 AArray (16 * i + ol)); [exact H1'|cbn; lia|cbn; lia|]. rewrite w16_out by (by left). by apply HQ.
Qed.

Lemma tasklet_round i f m :
  heap f m -> 0 <= i < 2000 -> w32 f ABase 0 = display -> b_location (slot f i) < 2000 ->
  wp (tasklet_loop (blink_array + 16 * i))
    (fun r m' => r = inl (w32 f AArray (16 * i + NEXT)) /\ exists f', heap f' m' /\ ticked i f f') m.
Proof.
  intros Hh Hi Hd Hloc. unfold tasklet_loop. rewrite (proj2 (Z.eqb_neq _ 0)) by lia.
  assert (forall o, 0 <= o -> o + 2 <= 16 -> 0 <= w16 f AArray (16 * i + o) < 2 ^ 16) as Hr
    by (intros; eapply w16_range; [exact Hh|lia|simpl; lia]).
  assert (forall o, 0 <= o < 16 -> 0 <= f AArray (16 * i + o) < 256) as Hb by (intros; eapply heap_range; [exact Hh|simpl; lia]).
  apply wp_bind, (wp_ld16 AArray (16 * i + COUNTDOWN) f); [done|cbn; lia|cbn; fields|].
  apply wp_bind, (wp_st16 AArray (16 * i + COUNTDOWN) _ f); [done|cbn; lia|cbn; fields|]. intros m1 H1'.
  set (c := w16 f AArray (16 * i + COUNTDOWN)) in *.
  apply wp_bind. eapply (wp_ld16 AArray (16 * i + COUNTDOWN)); [exact H1'|cbn; lia|cbn; fields|].
  rewrite w16_eq, s16_u16. set (f1 := puts _ _ _ _ f) in *.
  assert (forall f2 m2, heap f2 m2 -> w32 f2 AArray (16 * i + NEXT) = w32 f AArray (16 * i + NEXT) -> ticked i f f2 ->
    wp (next ← ld32 (blink_array + 16 * i + NEXT); mret (inl next : Z + unit))
      (fun r m' => r = inl (w32 f AArray (16 * i + NEXT)) /\ exists f', heap f' m' /\ ticked i f f') m2) as Hfinish.
  { intros f2 m2 H2' En Ht. apply wp_bind. eapply (wp_ld32 AArray (16 * i + NEXT)); [exact H2'|cbn; lia|cbn; fields|].
    apply wp_ret. rewrite En. split; [done|by exists f2]. }
  unfold when. apply wp_bind. destruct (0 <? s16 (c - 1)) eqn:Efire; cbn [negb].
  { apply wp_ret. apply (Hfinish f1); [done|unfold f1; by reads|]. split.
    - unfold slot, tick, item, fires. cbn [b_countdown]. fold c. rewrite Efire. cbn [negb]. unfold f1. by reads.
    - intros k _. unfold draw, fires. change (b_countdown (slot f i)) with c. rewrite Efire. unfold f1. by reads.
    - intros r o Hne Ho. unfold f1. apply puts_out. destruct Ho as [|Ho]; [by left|right; fields]. }
  assert (b_location (slot f i) = w16 f AArray (16 * i + LOCATION)) as El by done. rewrite El in Hloc.
  pose proof (Hr LOCATION ltac:(fields) ltac:(fields)) as Hl0.
  apply wp_bind, (wp_ld16 AArray (16 * i + LOCATION) f1); [done|cbn; lia|cbn; fields|].
  apply wp_bind, (wp_ld16 AArray (16 * i + STATUS) f1); [done|cbn; lia|cbn; fields|]. apply wp_bind.
  assert (w16 f1 AArray (16 * i + LOCATION) = b_location (slot f1 i)) as -> by done.
  assert (b_location (slot f1 i) = b_location (slot f i)) as El1 by (cbn; unfold f1; by reads).
  assert (w16 f1 AArray (16 * i + STATUS) = b_status (slot f i)) as -> by (cbn; unfold f1; by reads).
  assert (w32 f1 ABase 0 = display) as Hd1 by (unfold f1; by reads).
  set (b := slot f i) in *.
  set (ol := if lit_up b then OFF_LENGTH else ON_LENGTH). set (oc := if lit_up b then OFF_CHAR else ON_CHAR).
  assert (forall Q, (forall m', heap (puts ADisplay (2 * b_location b) 1 (fun _ => f1 AArray (16 * i + oc)) f1) m' ->
      Q (w16 f1 AArray (16 * i + ol)) m') ->
    wp (if negb (Z.land (b_status b) 1 =? 0) then
          cl ← ld8 (blink_array + 16 * i + OFF_CHAR); mp1_poke cl (Z.shiftl (b_location (slot f1 i)) 1) ;;;
          ld16 (blink_array + 16 * i + OFF_LENGTH)
        else cl ← ld8 (blink_array + 16 * i + ON_CHAR); mp1_poke cl (Z.shiftl (b_location (slot f1 i)) 1) ;;;
          ld16 (blink_array + 16 * i + ON_LENGTH)) Q m1) as Hchange.
  { intros Q HQ. change (negb (Z.land (b_status b) 1 =? 0)) with (lit_up b). rewrite <- El1 in HQ.
    destruct (lit_up b); apply (wp_change i f1); try done; try fields; by rewrite El1. }
  apply Hchange. clear Hchange. intros m2 H2'.
  apply wp_bind. eapply (wp_st16 AArray (16 * i + COUNTDOWN)); [exact H2'|cbn; lia|cbn; fields|]. intros m3 H3'.
  apply wp_bind. eapply (wp_ld16 AArray (16 * i + STATUS)); [exact H3'|cbn; lia|cbn; fields|].
  eapply (wp_st16 AArray (16 * i + STATUS)); [exact H3'|cbn; lia|cbn; fields|]. intros m4 H4'.
  assert (w16 f1 AArray (16 * i + ol) = if lit_up b then b_off_length b else b_on_length b) as Eol
    by (unfold ol, f1; destruct (lit_up b); by reads).
  assert (f1 AArray (16 * i + oc) = if lit_up b then b_off b else b_on b) as Eoc
    by (unfold oc, f1; destruct (lit_up b); by reads).
  rewrite Eol, Eoc in H4'. eapply Hfinish; [exact H4'|unfold f1; by reads|]. split.
  - change (slot f i) with b. assert (tick b = Blinker (b_location b) (b_on b) (b_off b) (b_on_length b) (b_off_length b)
      (if lit_up b then b_off_length b else b_on_length b) (Z.lxor (b_status b) 1)) as ->
      by (unfold tick, b, slot, item, fires; cbn [b_countdown]; fold c; by rewrite Efire).
    unfold slot at 1. unfold item. unfold f1. reads. rewrite !u16_small; [done|apply lxor_one, Hr; fields|].
    destruct (lit_up b); apply Hr; fields.
  - intros k Hk. reads. rewrite shown_puts. unfold draw, fires. change (b_countdown (slot f i)) with c. rewrite Efire. cbn [negb].
    unfold shown_at, f1. by reads.
  - intros r o Hne Ho. assert (r <> AArray \/ o < 16 * i + COUNTDOWN \/ 16 * i + STATUS + 2 <= o) as Ho'
      by (destruct Ho as [|Ho]; [by left|right; fields]).
    unfold f1. rewrite !puts_out; [done|..]; (by left; congruence) || (destruct Ho' as [|]; [by left|right; fields]).
Qed.

(** The rounds over the records [l]. *)
Record ticks (l : list Z) (f f' : contents) : Prop := {
  ts_slot : forall i, i ∈ l -> slot f' i = tick (slot f i);
  ts_display : forall k, 0 <= k < 4000 -> f' ADisplay k = fold_left draw (slot f <$> l) (f ADisplay) k;
  ts_rest : forall r o, r <> ADisplay -> (forall i, i ∈ l -> r <> AArray \/ o < 16 * i \/ 16 * i + 12 <= o) -> f' r o = f r o
}.

Lemma slot_ext f f' i : (forall o, 0 <= o < 12 -> f' AArray (16 * i + o) = f AArray (16 * i + o)) -> slot f' i = slot f i.
Proof.
  intros E. unfold slot, item, w16. rewrite <- !Z.add_assoc. rewrite !E by (unfold_fields; lia). done.
Qed.

Lemma draw_ext v v' b : (forall k, 0 <= k < 4000 -> v k = v' k) -> forall k, 0 <= k < 4000 -> draw v b k = draw v' b k.
Proof. intros E k Hk. unfold draw, shown_at. destruct (fires b); [|by apply E]. destruct (k =? _); [done|by apply E]. Qed.

Lemma draws_ext L v v' : (forall k, 0 <= k < 4000 -> v k = v' k) ->
  forall k, 0 <= k < 4000 -> fold_left draw L v k = fold_left draw L v' k.
Proof. revert v v'. induction L as [|b L IH]; intros v v' E; [done|]. cbn [fold_left]. apply IH. by apply draw_ext. Qed.

Lemma ticks_refl f : ticks [] f f.
Proof. split; [intros i Hi; by apply not_elem_of_nil in Hi|done|done]. Qed.

Lemma ticks_other l f f' i : ticks l f f' -> i ∉ l -> slot f' i = slot f i.
Proof.
  intros [_ _ Hr] Hn. apply slot_ext. intros o Ho. apply Hr; [done|]. intros i' Hi'. right.
  assert (i <> i') by (by intros ->). lia.
Qed.

Lemma ticks_snoc l i f f' f'' : ticks l f f' -> i ∉ l -> ticked i f' f'' -> ticks (l ++ [i]) f f''.
Proof.
  intros Ht Hn [Hs' Hd' Hr']. pose proof (ticks_other l f f' i Ht Hn) as Ei. pose proof Ht as [Hs Hd Hr]. split.
  - intros i' [Hi'| ->%list_elem_of_singleton]%elem_of_app; [|by rewrite Hs', Ei].
    rewrite <- Hs by done. apply slot_ext. intros o Ho. apply Hr'; [done|]. right.
    assert (i <> i') by (by intros ->). lia.
  - intros k Hk. rewrite Hd', fmap_app, fold_left_app, Ei by done. cbn [fmap list_fmap fold_left]. by apply draw_ext.
  - intros r o Hne Ho. rewrite Hr', Hr; [done|done| |done|].
    + intros i' Hi'. apply Ho, elem_of_app. by left.
    + apply Ho, elem_of_app. right. by apply list_elem_of_singleton.
Qed.

Lemma ticks_next l f f' r o : ticks l f f' -> r = AArray /\ (exists i, o = 16 * i + NEXT) \/ r = AHead \/ r = ABase -> w32 f' r o = w32 f r o.
Proof.
  intros [_ _ Hr] Ho. assert (r <> ADisplay) as Hne by (by destruct Ho as [[? _]|[?|?]]; subst).
  assert (forall k i', 0 <= k < 4 -> r <> AArray \/ o + k < 16 * i' \/ 16 * i' + 12 <= o + k) as Hout.
  { intros k i' Hk. destruct Ho as [[? [i ?]]|[?|?]]; subst; [right; fields|by left|by left]. }
  unfold w32. rewrite <- (Z.add_0_r o) at 1 5. rewrite !Hr by (try done; intros; apply Hout; lia). done.
Qed.

Lemma tasklet_chain f l m :
  heap f m -> blinking f l -> Z.of_nat (length l) < 2 ^ 32 ->
  wp mp1_rtc_tasklet (fun _ m' => exists f', heap f' m' /\ ticks l f f') m.
Proof.
  intros Hh [Hc Hnd Hu Hloc Hd] Hlen. unfold mp1_rtc_tasklet.
  apply wp_bind, (wp_ld32 AHead 0 f); [done|cbn; lia|cbn; lia|].
  apply (wp_loop_bound _ (fun k p m' => exists l1 l2 f', l = l1 ++ l2 /\ k = Z.of_nat (length l2) /\
    heap f' m' /\ chain f p l2 /\ ticks l1 f f') _) with (k := Z.of_nat (length l)).
  - intros k p m' (l1 & l2 & f' & -> & -> & Hh' & Hc' & Ht). destruct l2 as [|i l2].
    + cbn in Hc'. subst p. unfold tasklet_loop. cbn. exists f'. by rewrite app_nil_r.
    + destruct Hc' as (-> & Hi & Hc'). assert (i ∉ l1) as Hni
        by (intros Hin; apply list.NoDup_app in Hnd as (_ & Hdis & _); by apply (Hdis i Hin), list_elem_of_here).
      eapply wp_mono; [apply (tasklet_round i f'); [done|done| |]|].
      * rewrite (ticks_next l1 f f') by (done || (by right; right)). done.
      * rewrite (ticks_other l1 f f') by done. apply Hloc, elem_of_app. right. apply list_elem_of_here.
      * intros r m2 (-> & f2 & Hh2 & Ht2). exists (Z.of_nat (length l2)). split; [|simpl; lia].
        exists (l1 ++ [i]), l2, f2. rewrite <- app_assoc. split_and!; try done; [|by eapply ticks_snoc].
        rewrite (ticks_next l1 f f') by (done || (left; eauto)). done.
  - exists [], l, f. split_and!; [done|done|done|done|apply ticks_refl].
  - done.
Qed.

Lemma tick_location b : b_location (tick b) = b_location b.
Proof. destruct b. unfold tick. by destruct (fires _). Qed.

Lemma blinking_ticks f f' l : blinking f l -> ticks l f f' -> blinking f' l.
Proof.
  intros [Hc Hnd Hu Hloc Hd] Ht.
  assert (forall i, b_location (slot f' i) = b_location (slot f i)) as El.
  { intros i. destruct (decide (i ∈ l)) as [Hi|Hi]; [by rewrite (ts_slot _ _ _ Ht), tick_location|].
    by rewrite (ticks_other l f f'). }
  split; [|done|intros i Hi; rewrite El; by apply Hu|intros i Hi; rewrite El; by apply Hloc|].
  - rewrite (ticks_next l f f') by (done || (by right; left)). eapply chain_ext; [|exact Hc].
    intros i _. apply (ticks_next l); [done|]. left. eauto.
  - rewrite (ticks_next l f f') by (done || (by right; right)). done.
Qed.

Lemma nodup_bound l n : NoDup l -> (forall i, i ∈ l -> 0 <= i < Z.of_nat n) -> (length l <= n)%nat.
Proof.
  intros Hnd Hr. rewrite <- (Nat2Z.id n), <- (length_seqZ 0 (Z.of_nat n)).
  apply submseteq_length, NoDup_submseteq; [done|]. intros i Hi%Hr. apply elem_of_seqZ. lia.
Qed.

Lemma blinking_length f l : blinking f l -> Z.of_nat (length l) <= 2000.
Proof.
  intros [Hc Hnd _ _ _]. pose proof (nodup_bound l 2000 Hnd ltac:(intros; by eapply chain_range)). lia.
Qed.

Lemma tasklet_refines L v A m :
  fish L v A m -> exists m', mp1_rtc_tasklet m = Ok (tt, m') /\ fish (tick <$> L) (fold_left draw L v) A m'.
Proof.
  intros (f & l & Hh & Hb & -> & -> & Hv). pose proof (blinking_length f l Hb) as Hlen.
  destruct (wp_inv _ _ _ (tasklet_chain f l m Hh Hb ltac:(lia))) as ([] & m' & Hrun & f' & Hh' & Ht).
  exists m'. split; [done|]. exists f', l. split_and!; [done|by eapply blinking_ticks| | |].
  - rewrite <- list_fmap_compose. apply list_fmap_ext. intros n i Hi. symmetry. apply (ts_slot _ _ _ Ht).
    by eapply list_elem_of_lookup_2.
  - unfold item, w16. rewrite !(ts_rest _ _ _ Ht) by (done || (intros; by left)). done.
  - intros k Hk. rewrite (ts_display _ _ _ Ht) by done. by apply draws_ext.
Qed.

(** *** Searching *)

(** The address of the first record of [l] at a location, or NULL. *)
Definition record_at (f : contents) (loc : Z) (l : list Z) : Z :=
  match list_find (fun i => b_location (slot f i) = loc) l with
  | Some (_, i) => blink_array + 16 * i
  | None => 0
  end.

Lemma record_at_cons f loc i l :
  record_at f loc (i :: l) = if decide (b_location (slot f i) = loc) then blink_array + 16 * i else record_at f loc l.
Proof. unfold record_at. cbn [list_find]. destruct (decide _); [done|]. by destruct (list_find _ l) as [[]|]. Qed.

Lemma wp_find_helper f l m loc (Q : Z -> M -> Prop) :
  heap f m -> blinking f l -> Q (record_at f (u16 loc) l) m -> wp (mp1_find_helper loc) Q m.
Proof.
  intros Hh Hb HQ. pose proof (blinking_length f l Hb) as Hlen. pose proof (bk_chain _ _ Hb) as Hc.
  unfold mp1_find_helper. apply wp_bind, (wp_ld32 AHead 0 f); [done|cbn; lia|cbn; lia|].
  apply (wp_loop_bound _ (fun k p m' => m' = m /\ exists l2, k = Z.of_nat (length l2) /\ chain f p l2 /\
    record_at f (u16 loc) l2 = record_at f (u16 loc) l) _) with (k := Z.of_nat (length l)); [|split; [done|by exists l]|lia].
  intros k p m' (-> & l2 & -> & Hc2 & E). unfold mp1_find_helper_loop. destruct l2 as [|i l2].
  - cbn in Hc2. subst p. apply wp_ret. by rewrite <- E in HQ.
  - destruct Hc2 as (-> & Hi & Hc2). rewrite (proj2 (Z.eqb_neq _ 0)) by lia.
    apply wp_bind, (wp_ld16 AArray (16 * i + LOCATION) f); [done|cbn; lia|cbn; fields|].
    rewrite record_at_cons in E. change (w16 f AArray (16 * i + LOCATION)) with (b_location (slot f i)).
    destruct (Z.eqb_spec (b_location (slot f i)) (u16 loc)) as [El|El].
    + apply wp_ret. rewrite decide_True in E by done. by rewrite E.
    + rewrite decide_False in E by done. apply wp_bind, (wp_ld32 AArray (16 * i + NEXT) f); [done|cbn; lia|cbn; fields|].
      apply wp_ret. exists (Z.of_nat (length l2)). split; [|simpl; lia]. split; [done|]. by exists l2.
Qed.

(** The search on the list of records and on the abstract list. *)
Lemma find_at_slots f loc l :
  find_at loc (slot f <$> l) = match list_find (fun i => b_location (slot f i) = loc) l with
                               | Some (n, i) => Some (n, slot f i) | None => None end.
Proof.
  unfold find_at. induction l as [|i l IH]; [done|]. cbn [fmap list_fmap list_find].
  destruct (decide (b_location (slot f i) = loc)); [done|]. change (list_fmap _ _ (slot f) l) with (slot f <$> l). rewrite IH.
  by destruct (list_find _ l) as [[]|].
Qed.

Lemma record_at_find f p l loc :
  chain f p l ->
  match find_at loc (slot f <$> l) with
  | Some (n, b) => exists i, l !! n = Some i /\ b = slot f i /\ b_location b = loc /\ record_at f loc l = blink_array + 16 * i /\
      record_at f loc l <> 0 /\ 0 <= i < 2000
  | None => record_at f loc l = 0
  end.
Proof.
  intros Hc. rewrite find_at_slots. unfold record_at. destruct (list_find _ l) as [[n i]|] eqn:E; [|done].
  apply list_find_Some in E as (Hi & El & _). exists i.
  pose proof (chain_range f p l i Hc ltac:(by eapply list_elem_of_lookup_2)). split_and!; (done || lia).
Qed.

(** *** The allocator *)

Definition lowest_free (f : contents) (i : Z) : Prop :=
  0 <= i < 2000 /\ b_location (slot f i) = 0 /\ forall k, 0 <= k < i -> b_location (slot f k) <> 0.

Lemma wp_malloc f m n (Q : Z -> M -> Prop) :
  heap f m -> (forall i, lowest_free f i -> Q (blink_array + 16 * i) m) ->
  ((forall i, 0 <= i < 2000 -> b_location (slot f i) <> 0) -> Q 0 m) -> wp (mp1_malloc n) Q m.
Proof.
  intros Hh Hfree Hfull. unfold mp1_malloc.
  apply (wp_loop_bound _ (fun k i m' => m' = m /\ k = 2000 - i /\ 0 <= i <= 2000 /\
    forall k, 0 <= k < i -> b_location (slot f k) <> 0) _) with (k := 2000); [|split_and!; (done || lia)|lia].
  intros k i m' (-> & -> & Hi & Hlow). unfold mp1_malloc_step. destruct (Z.ltb_spec i (80 * 25)).
  - apply wp_bind, (wp_ld16 AArray (16 * i + LOCATION) f); [done|cbn; fields|cbn; fields|]. apply wp_ret.
    change (w16 f AArray (16 * i + LOCATION)) with (b_location (slot f i)).
    destruct (Z.eqb_spec (b_location (slot f i)) 0) as [E|E].
    + apply Hfree. split; [lia|done].
    + exists (2000 - (i + 1)). split_and!; try lia; try done. intros k Hk.
      destruct (Z.eq_dec k i) as [->|]; [done|]. apply Hlow. lia.
  - apply wp_ret, Hfull. intros k Hk. apply Hlow. lia.
Qed.

(** *** Adding *)

Record added (i : Z) (f f' : contents) : Prop := {
  ad_slot : slot f' i = fresh (item f AArg 0);
  ad_next : w32 f' AArray (16 * i + NEXT) = w32 f AHead 0;
  ad_head : w32 f' AHead 0 = blink_array + 16 * i;
  ad_display : forall k, f' ADisplay k = shown_at (b_location (item f AArg 0)) (b_on (item f AArg 0)) (f ADisplay) k;
  ad_rest : forall r o, r <> ALocal -> r <> AHead -> r <> ADisplay -> r <> AArray \/ o < 16 * i \/ 16 * i + 16 <= o ->
    f' r o = f r o
}.

Lemma w32_range f m r o : heap f m -> 0 <= o -> o + 4 <= size r -> 0 <= w32 f r o < 2 ^ 32.
Proof.
  intros Hh H1' H2'. pose proof (heap_range f m r o Hh ltac:(lia)). pose proof (heap_range f m r (o + 1) Hh ltac:(lia)).
  pose proof (heap_range f m r (o + 2) Hh ltac:(lia)). pose proof (heap_range f m r (o + 3) Hh ltac:(lia)). unfold w32. lia.
Qed.

(** The copy of the argument, marked as valid. *)
Definition marked (f : contents) : contents :=
  let f1 := puts ALocal 0 16 (fun k => f AArg (0 + k)) f in
  let f2 := puts ALocal STATUS 2 (byte_of 1) f1 in
  puts ALocal COUNTDOWN 2 (byte_of (w16 f2 ALocal ON_LENGTH)) f2.

Lemma marked_item f m : heap f m -> item (marked f) ALocal 0 = fresh (item f AArg 0).
Proof.
  intros Hh. pose proof (w16_range f m AArg (0 + ON_LENGTH) Hh ltac:(fields) ltac:(cbn; fields)) as Hr.
  set (f1 := puts ALocal 0 16 (fun k => f AArg (0 + k)) f).
  assert (item f1 ALocal 0 = item f AArg 0) as E by (unfold f1; by rewrite item_copy).
  rewrite <- E. assert (w16 f1 ALocal (0 + ON_LENGTH) = w16 f AArg (0 + ON_LENGTH)) as Eon by exact (f_equal b_on_length E).
  unfold marked. cbv zeta. fold f1. unfold fresh, item. rewrite !Z.add_0_l in *. reads.
  rewrite Eon, u16_small by done. done.
Qed.

Lemma add_insert f i m (Q : Z -> M -> Prop) :
  let b := item f ALocal 0 in
  heap f m -> 0 <= i < 2000 -> w32 f ABase 0 = display -> b_location b < 2000 ->
  (forall f' m', heap f' m' -> slot f' i = b -> w32 f' AArray (16 * i + NEXT) = w32 f AHead 0 ->
    w32 f' AHead 0 = blink_array + 16 * i ->
    (forall k, f' ADisplay k = shown_at (b_location b) (b_on b) (f ADisplay) k) ->
    (forall r o, r <> AHead -> r <> ADisplay -> r <> AArray \/ o < 16 * i \/ 16 * i + 16 <= o -> f' r o = f r o) -> Q 0 m') ->
  wp (ece391_memcpy (blink_array + 16 * i) add_local STRUCT_SIZE ≫= fun _ =>
      eax ← ld32 mp1_list_head; st32 (blink_array + 16 * i + NEXT) eax ;;;
      st32 mp1_list_head (blink_array + 16 * i) ;;;
      location ← ld16 (blink_array + 16 * i + LOCATION);
      cl ← ld8 (blink_array + 16 * i + ON_CHAR); mp1_poke cl (Z.shiftl location 1) ;;; mret 0) Q m.
Proof.
  intros b Hh Hi Hd Hloc HQ.
  apply wp_bind, (wp_memcpy AArray (16 * i) ALocal 0 16 f);
    [done|cbn; lia|cbn; lia|done|lia|cbn; lia|cbn; lia|]. intros m1 H1'.
  apply wp_bind. eapply (wp_ld32 AHead 0); [exact H1'|cbn; lia|cbn; lia|]. rewrite w32_out by other.
  pose proof (w32_range f m AHead 0 Hh ltac:(lia) ltac:(cbn; lia)) as Hhead. set (p := w32 f AHead 0) in *.
  apply wp_bind. eapply (wp_st32 AArray (16 * i + NEXT)); [exact H1'|cbn; lia|cbn; fields|]. intros m2 H2'.
  apply wp_bind. eapply (wp_st32 AHead 0); [exact H2'|cbn; lia|cbn; lia|]. intros m3 H3'. revert H3'.
  set (f1 := puts AArray (16 * i) 16 _ f). set (f3 := puts AHead 0 4 _ _). intros H3'.
  assert (slot f3 i = b) as Es by (unfold f3, slot; rewrite !item_out by other; unfold f1; by rewrite item_copy).
  assert (0 <= b_location b < 2 ^ 16) as Hl by (eapply (w16_range f); [exact Hh|fields|cbn; fields]).
  apply wp_bind, (wp_ld16 AArray (16 * i + LOCATION) f3); [done|cbn; lia|cbn; fields|].
  apply wp_bind, (wp_ld8 AArray (16 * i + ON_CHAR) f3); [done|cbn; lia|cbn; fields|].
  change (w16 f3 AArray (16 * i + LOCATION)) with (b_location (slot f3 i)).
  change (f3 AArray (16 * i + ON_CHAR)) with (b_on (slot f3 i)). rewrite Es.
  apply wp_bind, (wp_poke f3); [done|unfold f3, f1; reads; done|lia|eapply (heap_range f); [exact Hh|cbn; fields]|].
  intros m4 H4'. apply wp_ret. eapply HQ; [exact H4'|..].
  - unfold slot. rewrite item_out by other. exact Es.
  - rewrite w32_out by other. unfold f3. rewrite w32_out by other. by rewrite w32_eq.
  - rewrite w32_out by other. unfold f3. apply w32_eq. lia.
  - intros k. rewrite shown_puts. unfold shown_at, f3, f1. by reads.
  - intros r o H5' H6' H7'. unfold f3, f1. rewrite !puts_out; [done|..]; (by left; congruence) ||
      (destruct H7' as [|]; [by left; congruence|right; fields]).
Qed.

(** The contents but for the local copies. *)
Definition locals_differ (f f' : contents) : Prop := forall r o, r <> ALocal -> r <> AKey -> f' r o = f r o.

Lemma wp_add f m (Q : Z -> M -> Prop) :
  let A := item f AArg 0 in
  heap f m -> w32 f ABase 0 = display ->
  (2000 <= b_location A \/ (forall i, 0 <= i < 2000 -> b_location (slot f i) <> 0) ->
    forall f' m', heap f' m' -> locals_differ f f' -> Q (-1) m') ->
  (b_location A < 2000 -> forall i, lowest_free f i -> forall f' m', heap f' m' -> added i f f' -> Q 0 m') ->
  wp (mp1_ioctl_add arg) Q m.
Proof.
  intros A Hh Hd Hfail Hok. unfold mp1_ioctl_add.
  apply wp_bind, (wp_memcpy ALocal 0 AArg 0 16 f); [done|cbn; lia|cbn; lia|done|lia|cbn; lia|cbn; lia|]. intros m1 H1'.
  change (negb (0 =? 0)) with false. cbv iota. set (f1 := puts ALocal 0 16 _ f) in *.
  apply wp_bind, (wp_ld16 ALocal (0 + LOCATION) f1); [done|cbn; lia|cbn; fields|].
  assert (item f1 ALocal 0 = A) as E1 by (unfold f1; by rewrite item_copy).
  change (w16 f1 ALocal (0 + LOCATION)) with (b_location (item f1 ALocal 0)). rewrite E1.
  assert (locals_differ f f1) as Hl1 by (intros r o ? ?; apply puts_out; by left).
  destruct (Z.leb_spec (80 * 25) (b_location A)); [apply wp_ret; by apply (Hfail ltac:(by left) f1)|].
  apply wp_bind, (wp_st16 ALocal STATUS _ f1); [done|cbn; lia|cbn; fields|]. intros m2 H2'.
  apply wp_bind. eapply (wp_ld16 ALocal ON_LENGTH); [exact H2'|cbn; lia|cbn; fields|].
  apply wp_bind. eapply (wp_st16 ALocal COUNTDOWN); [exact H2'|cbn; lia|cbn; fields|]. intros m3 H3'.
  change (heap (marked f) m3) in H3'.
  assert (locals_differ f (marked f)) as Hl3 by (intros r o ? ?; unfold marked; rewrite !puts_out by (by left); done).
  assert (forall i, slot (marked f) i = slot f i) as Es by (intros i; apply slot_ext; intros; by apply Hl3).
  assert (forall r o, r <> ALocal -> r <> AKey -> w32 (marked f) r o = w32 f r o) as Ew
    by (intros; unfold w32; rewrite !Hl3 by done; done).
  apply wp_bind, (wp_malloc (marked f)); [done| |].
  - intros i (Hi & H0' & Hlow). rewrite (proj2 (Z.eqb_neq _ 0)) by lia. apply (add_insert (marked f)).
    + done.
    + done.
    + by rewrite Ew.
    + by rewrite (marked_item f m Hh).
    + rewrite (marked_item f m Hh), Ew by done. intros f' m' Hh' S1 S2 S3 S4 S5.
      assert (b_location (fresh A) = b_location A /\ b_on (fresh A) = b_on A) as [Ea Eb] by (by destruct A).
      fold A in S4. rewrite Ea, Eb in S4. eapply (Hok ltac:(lia) i); [|exact Hh'|split].
      * rewrite Es in H0'. split_and!; [lia|lia|done|]. intros k Hk. rewrite <- Es. by apply Hlow.
      * done.
      * done.
      * done.
      * intros k. rewrite S4. unfold shown_at. by rewrite Hl3.
      * intros r o Hr1 Hr2 Hr3 Hr4. destruct (decide (r = AKey)) as [->|Hk]; [|by rewrite S5, Hl3].
        rewrite S5 by done. unfold marked. by rewrite !puts_out by (by left).
  - intros Hfull. change (0 =? 0) with true. cbv iota. apply wp_ret. apply (Hfail ltac:(right; intros i Hi; rewrite <- Es; by apply Hfull) (marked f)); done.
Qed.

Lemma locals_w32 f f' r o : locals_differ f f' -> r <> ALocal -> r <> AKey -> w32 f' r o = w32 f r o.
Proof. intros E ? ?. unfold w32. by rewrite !E. Qed.

Lemma locals_slot f f' i : locals_differ f f' -> slot f' i = slot f i.
Proof. intros E. apply slot_ext. intros. by apply E. Qed.

Lemma blinking_locals f f' l : blinking f l -> locals_differ f f' -> blinking f' l.
Proof.
  intros [Hc Hnd Hu Hl Hd] E. split.
  - rewrite (locals_w32 f f') by done. eapply chain_ext; [|exact Hc]. intros. by apply locals_w32.
  - done.
  - intros i. rewrite (locals_slot f f') by done. apply Hu.
  - intros i. rewrite (locals_slot f f') by done. apply Hl.
  - by rewrite (locals_w32 f f').
Qed.

Lemma fish_locals f f' l v m' :
  heap f' m' -> blinking f l -> locals_differ f f' -> (forall k, 0 <= k < 4000 -> f ADisplay k = v k) ->
  fish (slot f <$> l) v (item f AArg 0) m'.
Proof.
  intros Hh Hb E Hv. exists f', l. split_and!; [done|by eapply blinking_locals| | |].
  - apply list_fmap_ext. intros n i _. by rewrite (locals_slot f f').
  - unfold item, w16. by rewrite !E.
  - intros k Hk. by rewrite E, Hv.
Qed.

(** The array is full exactly when the list has 2000 records. *)
Lemma blinking_full f l : blinking f l -> (exists i, 0 <= i < 2000 /\ b_location (slot f i) = 0) <-> Z.of_nat (length l) < 2000.
Proof.
  intros [Hc Hnd Hu _ _]. split.
  - intros (i & Hi & E). pose proof (nodup_bound (i :: l) 2000) as Hb. simpl in Hb. assert (i ∉ l) by (rewrite Hu by done; tauto).
    enough (S (length l) <= 2000)%nat by lia. apply Hb; [by apply list.NoDup_cons|].
    intros j [->|Hj]%elem_of_cons; [lia|]. pose proof (chain_range f _ l j Hc Hj). lia.
  - intros Hlen. destruct (decide (Exists (fun i => b_location (slot f i) = 0) (seqZ 0 2000))) as [He|Hn].
    + apply Exists_exists in He as (i & Hi%list_elem_of_In & E). apply elem_of_seqZ in Hi. exists i. split; [lia|done].
    + exfalso. assert (length (seqZ 0 2000) <= length l)%nat as Hle; [|rewrite length_seqZ in Hle; lia].
      apply submseteq_length, NoDup_submseteq; [apply NoDup_seqZ|]. intros i Hi. apply elem_of_seqZ in Hi as Hr. apply Hu; [lia|].
      intros E. apply Hn. apply Exists_exists. exists i. split; [by apply list_elem_of_In|done].
Qed.

Lemma added_slot i f f' k : added i f f' -> k <> i -> slot f' k = slot f k.
Proof. intros Ha Hk. apply slot_ext. intros o Ho. apply (ad_rest _ _ _ Ha); try done. right. lia. Qed.

Lemma added_next i f f' k : added i f f' -> k <> i -> w32 f' AArray (16 * k + NEXT) = w32 f AArray (16 * k + NEXT).
Proof. intros Ha Hk. unfold w32. rewrite !(ad_rest _ _ _ Ha) by (done || (right; fields)). done. Qed.

Lemma blinking_added f f' l i :
  let A := item f AArg 0 in
  blinking f l -> lowest_free f i -> added i f f' -> 0 < b_location A < 2000 -> blinking f' (i :: l).
Proof.
  intros A Hb (Hi & H0' & _) Ha HA. pose proof Hb as [Hc Hnd Hu Hl Hd].
  assert (i ∉ l) as Hni by (rewrite Hu by done; tauto).
  assert (b_location (slot f' i) = b_location A) as Ei by (rewrite (ad_slot _ _ _ Ha); fold A; by destruct A).
  assert (forall k, k ∈ l -> k <> i) as Hne by (by intros k Hk ->).
  split.
  - cbn [chain]. rewrite (ad_head _ _ _ Ha), (ad_next _ _ _ Ha). split; [done|]. split; [done|].
    eapply chain_ext; [|exact Hc]. intros k Hk. by apply (added_next i), Hne.
  - by apply list.NoDup_cons.
  - intros k Hk. rewrite elem_of_cons. destruct (decide (k = i)) as [->|Hki]; [rewrite Ei; split; [lia|tauto]|].
    rewrite (added_slot i f f') by done. rewrite <- Hu by done. tauto.
  - intros k [->|Hk]%elem_of_cons; [lia|]. rewrite (added_slot i f f') by (done || by apply Hne). by apply Hl.
  - unfold w32. rewrite !(ad_rest _ _ _ Ha) by (done || by left). exact Hd.
Qed.

Lemma add_refines L v A m :
  fish L v A m -> b_location A <> 0 ->
  exists r m', mp1_ioctl arg RTC_ADD m = Ok (r, m') /\
    if (2000 <=? b_location A) || (2000 <=? Z.of_nat (length L)) then r = -1 /\ fish L v A m'
    else r = 0 /\ fish (fresh A :: L) (shown_at (b_location A) (b_on A) v) A m'.
Proof.
  intros (f & l & Hh & Hb & -> & -> & Hv) HA. set (A := item f AArg 0) in *. rewrite length_fmap.
  destruct (wp_inv (mp1_ioctl arg RTC_ADD) (fun r m' =>
    if (2000 <=? b_location A) || (2000 <=? Z.of_nat (length l)) then r = -1 /\ fish (slot f <$> l) v A m'
    else r = 0 /\ fish (fresh A :: (slot f <$> l)) (shown_at (b_location A) (b_on A) v) A m') m) as (r & m' & Hrun & HQ); [|by exists r, m'].
  assert (0 <= b_location A) as HA0 by (eapply (w16_range f m AArg); [done|fields|cbn; fields]).
  pose proof (blinking_full f l Hb) as Hfull. apply (wp_add f); [done|apply Hb| |].
  - intros Hno f' m' Hh' Hlo. assert ((2000 <=? b_location A) || (2000 <=? Z.of_nat (length l)) = true) as ->.
    { apply orb_true_iff. destruct Hno as [Hx|Hx]; [left; by apply Z.leb_le|right]. apply Z.leb_le.
      destruct (Z.le_gt_cases 2000 (Z.of_nat (length l))) as [|Hlt]; [done|]. apply Hfull in Hlt as (i & Hi & E). by destruct (Hx i Hi). }
    split; [done|]. by eapply fish_locals.
  - intros HA2 i Hlow f' m' Hh' Ha. assert ((2000 <=? b_location A) || (2000 <=? Z.of_nat (length l)) = false) as ->.
    { apply orb_false_iff. split; apply Z.leb_gt; [done|]. apply Hfull. exists i. by destruct Hlow as (? & ? & _). }
    split; [done|]. exists f', (i :: l). pose proof Hlow as (Hi & H0' & _).
    assert (i ∉ l) as Hni by (rewrite (bk_used _ _ Hb) by done; tauto). split_and!; [done| | | |].
    + eapply blinking_added; [done|done|done|]. fold A. fold A in HA2. split; [|done]. clear -HA HA0. lia.
    + cbn [fmap list_fmap]. rewrite (ad_slot _ _ _ Ha). f_equal. apply list_fmap_ext. intros n k Hk.
      symmetry. apply (added_slot i f f' k Ha). intros ->. by apply Hni, list_elem_of_lookup_2 with n.
    + unfold A, item, w16. rewrite !(ad_rest _ _ _ Ha) by (done || by left). done.
    + intros k Hk. rewrite (ad_display _ _ _ Ha). unfold shown_at. destruct (k =? _); [done|by apply Hv].
Qed.

(** *** Removing *)

(** Where the pointer to the record behind [l] is, from the pointer at [q]. *)
Fixpoint link (q : area * Z) (l : list Z) : area * Z :=
  match l with [] => q | i :: l' => link (AArray, 16 * i + NEXT) l' end.

(** The pointers of the records [l]. *)
Definition points (l : list Z) (q : area * Z) : Prop := exists i, i ∈ l /\ q = (AArray, 16 * i + NEXT).

Lemma points_cons i l q : points (i :: l) q <-> q = (AArray, 16 * i + NEXT) \/ points l q.
Proof.
  unfold points. split.
  - intros (k & [->|Hk]%elem_of_cons & ->); [by left|right; eauto].
  - intros [->|(k & Hk & ->)]; [exists i|exists k]; (split; [|done]); [apply list_elem_of_here|by apply list_elem_of_further].
Qed.

Lemma points_here i l : points l (AArray, 16 * i + NEXT) -> i ∈ l.
Proof. intros (k & Hk & [= E]). by replace i with k by lia. Qed.

Lemma link_points q l : link q l = q \/ points l (link q l).
Proof.
  revert q. induction l as [|i l IH]; intros q; [by left|]. right. cbn [link].
  destruct (IH (AArray, 16 * i + NEXT)) as [->|Hp]; apply points_cons; [by left|by right].
Qed.

Lemma link_range q l f p : chain f p l -> q = (AHead, 0) \/ points l q -> 0 <= q.2 /\ q.2 + 4 <= size q.1.
Proof.
  intros Hc [->|(i & Hi & ->)]; [cbn; lia|]. pose proof (chain_range f p l i Hc Hi). cbn. fields.
Qed.

Lemma chain_link f l1 l2 : forall q, chain f (w32 f q.1 q.2) (l1 ++ l2) -> chain f (w32 f (link q l1).1 (link q l1).2) l2.
Proof. induction l1 as [|i l1 IH]; intros q Hc; [done|]. destruct Hc as (_ & _ & Hc). by apply (IH (AArray, 16 * i + NEXT)). Qed.

(** The pointer to record [i] now points behind it. *)
Lemma unlink f f' i l2 l1 : forall q,
  let q' := link q l1 in
  NoDup (l1 ++ i :: l2) -> ~ points (l1 ++ i :: l2) q ->
  w32 f' q'.1 q'.2 = w32 f AArray (16 * i + NEXT) ->
  (forall p, p = q \/ points (l1 ++ l2) p -> p <> q' -> w32 f' p.1 p.2 = w32 f p.1 p.2) ->
  chain f (w32 f q.1 q.2) (l1 ++ i :: l2) -> chain f' (w32 f' q.1 q.2) (l1 ++ l2).
Proof.
  induction l1 as [|k l1 IH]; intros q q' Hnd Hq Hi Ho Hc.
  - cbn in *. destruct Hc as (_ & _ & Hc). rewrite Hi. eapply chain_ext; [|exact Hc]. intros k Hk.
    apply (Ho (AArray, 16 * k + NEXT)); [right; by exists k|]. intros E. apply Hq. unfold q'. rewrite <- E.
    apply points_cons. right. by exists k.
  - cbn [app] in *. apply list.NoDup_cons in Hnd as [Hk Hnd]. destruct Hc as (Hp & Hr & Hc). cbn [chain].
    assert (q' <> q) as Hne.
    { intros E. apply Hq. rewrite <- E. unfold q'. cbn [link]. apply points_cons.
      destruct (link_points (AArray, 16 * k + NEXT) l1) as [->|(k' & Hk' & ->)]; [by left|right]. exists k'. split; [|done].
      apply elem_of_app. by left. }
    rewrite (Ho q) by (done || by left). split; [done|]. split; [done|]. apply (IH (AArray, 16 * k + NEXT)); try done.
    + intros Hin. by apply Hk, points_here.
    + intros p [->|Hp'] Hne'; apply Ho; try done; right; apply points_cons; [by left|by right].
Qed.

(** The loop that looks for the pointer to record [i]. *)
Lemma wp_find_prev f l1 i l2 m (Q : Z -> M -> Prop) :
  heap f m -> chain f (w32 f AHead 0) (l1 ++ i :: l2) -> NoDup (l1 ++ i :: l2) -> Z.of_nat (length l1) < 2 ^ 32 ->
  Q (base (link (AHead, 0) l1).1 + (link (AHead, 0) l1).2) m ->
  wp (loop (remove_find_prev (blink_array + 16 * i)) mp1_list_head) Q m.
Proof.
  intros Hh Hc Hnd Hlen HQ.
  apply (wp_loop_bound _ (fun k x m' => m' = m /\ exists la lb, l1 = la ++ lb /\ k = Z.of_nat (length lb) /\
    x = base (link (AHead, 0) la).1 + (link (AHead, 0) la).2) _) with (k := Z.of_nat (length l1));
    [|split; [done|]; exists [], l1; cbn; split_and!; (done || lia)|done].
  intros k x m' (-> & la & lb & -> & -> & ->). rewrite <- app_assoc in *.
  pose proof (chain_link f la _ (AHead, 0) Hc) as Hc'. set (q := link (AHead, 0) la) in *.
  assert (0 <= q.2 /\ q.2 + 4 <= size q.1) as Hq.
  { apply (link_range q (la ++ lb ++ i :: l2) f _ Hc). destruct (link_points (AHead, 0) la) as [E|(k & Hk & E)]; [by left|right].
    exists k. split; [apply elem_of_app; by left|done]. }
  unfold remove_find_prev. apply wp_bind, (wp_ld32 q.1 q.2 f); [done|done|done|]. apply wp_ret.
  destruct lb as [|k lb]; cbn [app] in Hc'; destruct Hc' as (Hp & Hr & Hc').
  - rewrite Hp, Z.eqb_refl. rewrite app_nil_r in HQ. exact HQ.
  - rewrite Hp. assert (k <> i) as Hne.
    { intros ->. apply list.NoDup_app in Hnd as (_ & _ & Hnd). cbn [app] in Hnd. apply list.NoDup_cons in Hnd as [Hn _].
      apply Hn, elem_of_app. right. apply list_elem_of_here. }
    rewrite (proj2 (Z.eqb_neq _ _)) by lia. exists (Z.of_nat (length lb)). split; [|simpl; lia]. split; [done|].
    exists (la ++ [k]), lb. rewrite <- app_assoc. split_and!; [done|done|].
    assert (forall q, link q (la ++ [k]) = (AArray, 16 * k + NEXT)) as ->
      by (clear; induction la as [|j la IH]; intros q; [done|apply IH]). cbn. lia.
Qed.

(** The contents after record [i] left the list, with its pointer at [q]. *)
Definition removed (q : area * Z) (i : Z) (f : contents) : contents :=
  puts AArray (16 * i) 16 (fun _ => 0) (puts q.1 q.2 4 (byte_of (w32 f AArray (16 * i + NEXT))) f).

Lemma removed_slot q i f k :
  q = (AHead, 0) \/ (exists j, q = (AArray, 16 * j + NEXT)) -> k <> i -> slot (removed q i f) k = slot f k.
Proof.
  intros Hq Hk. unfold removed, slot. rewrite item_out by (right; fields).
  destruct Hq as [->|[j ->]]; cbn [fst snd]; rewrite item_out; [done|by left|done|right; fields].
Qed.

Lemma removed_here q i f : b_location (slot (removed q i f) i) = 0.
Proof. unfold slot, item, removed, w16. cbn [b_location]. rewrite <- Z.add_assoc, !puts_in by fields. done. Qed.

Lemma blinking_removed f m l1 i l2 :
  heap f m -> blinking f (l1 ++ i :: l2) -> blinking (removed (link (AHead, 0) l1) i f) (l1 ++ l2).
Proof.
  intros Hh [Hc Hnd Hu Hl Hd]. set (q := link (AHead, 0) l1). set (f' := removed q i f).
  assert (q = (AHead, 0) \/ points l1 q) as Hq' by apply link_points.
  assert (q = (AHead, 0) \/ exists j, q = (AArray, 16 * j + NEXT)) as Hq by (destruct Hq' as [?|(j & _ & ?)]; eauto).
  assert ((i ∉ l1) /\ (i ∉ l2)) as [Hi1 Hi2].
  { apply list.NoDup_app in Hnd as (_ & Hdis & Hnd). apply list.NoDup_cons in Hnd as [? _]. split; [|done].
    intros Hin. by apply (Hdis i Hin), list_elem_of_here. }
  assert (forall k, k ∈ l1 ++ l2 <-> k ∈ l1 ++ i :: l2 /\ k <> i) as Hin.
  { intros k. rewrite !elem_of_app, elem_of_cons. split.
    - intros [Hk|Hk]; (split; [tauto|by intros ->]).
    - intros [[Hk|[->|Hk]] Hne]; [by left|done|by right]. }
  assert (0 <= i < 2000) as Hir by (eapply (chain_range f); [exact Hc|apply elem_of_app; right; apply list_elem_of_here]).
  split.
  - apply (unlink f f' i l2 l1 (AHead, 0)); [done|by intros (k & _ & [=])| | |exact Hc].
    + fold q. unfold f', removed. rewrite w32_out.
      * apply w32_eq. eapply w32_range; [exact Hh|fields|cbn; fields].
      * destruct Hq' as [->|(j & Hj & ->)]; [by left|right]. assert (j <> i) by (by intros ->). cbn. fields.
    + fold q. intros p Hp Hne. unfold f', removed. rewrite w32_out, w32_out; [done| |].
      * destruct Hp as [->|(k & Hk & ->)]; destruct Hq as [Eq|[j Eq]]; rewrite Eq in Hne |- *; cbn;
          first [by left|done|right; assert (j <> k) by (by intros ->); fields].
      * destruct Hp as [->|(k & Hk & ->)]; [by left|right]. cbn. assert (k <> i) by (by apply Hin). fields.
  - eapply list.NoDup_app in Hnd as (H1' & H2' & [_ H3']%list.NoDup_cons). apply list.NoDup_app. split_and!; [done| |done].
    intros k Hk Hk2. by apply (H2' k Hk), list_elem_of_further.
  - intros k Hk. rewrite Hin. destruct (decide (k = i)) as [->|Hne]; [unfold f'; rewrite removed_here; tauto|].
    unfold f'. rewrite removed_slot by done. rewrite <- Hu by done. tauto.
  - intros k [Hk Hne]%Hin. unfold f'. rewrite removed_slot by done. by apply Hl.
  - unfold f', removed. rewrite !w32_out; [done|destruct Hq as [Eq|[j Eq]]; rewrite Eq; by left|by left].
Qed.

Lemma remove_refines L v A m loc :
  fish L v A m ->
  exists r m', mp1_ioctl loc RTC_REMOVE m = Ok (r, m') /\
    match find_at (u16 loc) L with
    | Some (n, _) => r = 0 /\ fish (delete n L) v A m'
    | None => r = -1 /\ m' = m
    end.
Proof.
  intros (f & l & Hh & Hb & -> & -> & Hv).
  pose proof (record_at_find f _ l (u16 loc) (bk_chain _ _ Hb)) as Hfind.
  apply (wp_inv (mp1_ioctl loc RTC_REMOVE) (fun r m' => match find_at (u16 loc) (slot f <$> l) with
    | Some (n, _) => r = 0 /\ fish (delete n (slot f <$> l)) v (item f AArg 0) m' | None => r = -1 /\ m' = m end)).
  cbn [mp1_ioctl RTC_REMOVE]. unfold mp1_ioctl_remove. apply wp_bind, (wp_find_helper f l); [done|done|].
  destruct (find_at _ _) as [[n b]|]; [|rewrite Hfind; by apply wp_ret].
  destruct Hfind as (i & Hn & -> & Hloc & Ea & Hne & Hi). rewrite (proj2 (Z.eqb_neq _ 0)) by done. rewrite Ea.
  pose proof (take_drop_middle l n i Hn) as El. set (l1 := take n l) in *. set (l2 := drop (S n) l) in *.
  assert (length l1 = n) as Hl1 by (unfold l1; rewrite length_take; pose proof (lookup_lt_Some _ _ _ Hn); lia).
  pose proof (blinking_length f l Hb) as Hlen. rewrite <- El in Hb. pose proof Hb as [Hc Hnd _ _ _].
  apply wp_bind, (wp_find_prev f l1 i l2);
    [done|done|done|rewrite <- El, length_app in Hlen; lia|]. set (q := link (AHead, 0) l1).
  assert (q = (AHead, 0) \/ points l1 q) as Hq' by apply link_points.
  assert (q = (AHead, 0) \/ exists j, q = (AArray, 16 * j + NEXT)) as Hq by (destruct Hq' as [?|(j & _ & ?)]; eauto).
  apply wp_bind, (wp_ld32 AArray (16 * i + NEXT) f); [done|cbn; lia|cbn; fields|].
  apply wp_bind, (wp_st32 q.1 q.2 _ f); [done|done| |].
  { apply (link_range q (l1 ++ i :: l2) f _ Hc). destruct Hq' as [?|(j & Hj & ?)]; [by left|right]. exists j.
    split; [apply elem_of_app; by left|done]. }
  intros m1 H1'. apply wp_bind. unfold mp1_free. eapply (wp_memset AArray (16 * i) 16 0); [exact H1'|done|lia|lia|cbn; lia|].
  intros m2 H2'. change (heap (removed q i f) m2) in H2'. apply wp_ret. split; [done|]. exists (removed q i f), (l1 ++ l2).
  assert (i ∉ l1 ++ l2) as Hni.
  { apply list.NoDup_app in Hnd as (_ & Hdis & Hnd). apply list.NoDup_cons in Hnd as [? _].
    intros [Hin|Hin]%elem_of_app; [by apply (Hdis i Hin), list_elem_of_here|done]. }
  split_and!; [done|by eapply blinking_removed| | |].
  - rewrite <- El. rewrite <- Hl1, <- (length_fmap (slot f) l1), (fmap_app (slot f)), fmap_cons, delete_middle, <- (fmap_app (slot f)).
    apply list_fmap_ext. intros k j Hk. symmetry. apply (removed_slot q i f j Hq). intros ->. by apply Hni, list_elem_of_lookup_2 with k.
  - unfold removed, item, w16. destruct Hq as [Eq|[j Eq]]; rewrite Eq; cbn [fst snd]; rewrite !puts_out by (by left); done.
  - intros k Hk. unfold removed. rewrite puts_out by (by left).
    destruct Hq as [Eq|[j Eq]]; rewrite Eq; cbn [fst snd]; rewrite puts_out by (by left); by apply Hv.
Qed.

(** *** Synchronising and finding *)

Lemma blinking_slot f f' l i b :
  blinking f l -> i ∈ l -> slot f' i = b -> b_location b = b_location (slot f i) ->
  (forall r o, r <> ADisplay -> r <> AArray \/ o < 16 * i \/ 16 * i + 12 <= o -> f' r o = f r o) ->
  blinking f' l /\ item f' AArg 0 = item f AArg 0 /\ forall k, k <> i -> slot f' k = slot f k.
Proof.
  intros [Hc Hnd Hu Hl Hd] Hi Es Eb Hr.
  assert (forall k, k <> i -> slot f' k = slot f k) as Ho
    by (intros k Hk; apply slot_ext; intros o Hor; apply Hr; [done|right; lia]).
  assert (forall k, b_location (slot f' k) = b_location (slot f k)) as El
    by (intros k; destruct (decide (k = i)) as [->|Hk]; [by rewrite Es|by rewrite Ho]).
  assert (forall k, w32 f' AArray (16 * k + NEXT) = w32 f AArray (16 * k + NEXT)) as En
    by (intros k; unfold w32; rewrite !Hr by (done || (right; fields)); done).
  assert (forall r, r = AHead \/ r = ABase -> w32 f' r 0 = w32 f r 0) as Ew
    by (intros r [->| ->]; unfold w32; rewrite !Hr by (done || by left); done).
  split_and!; [split|unfold item, w16; rewrite !Hr by (done || by left); done|done].
  - rewrite Ew by by left. eapply chain_ext; [|exact Hc]. intros; apply En.
  - done.
  - intros k. rewrite El. apply Hu.
  - intros k. rewrite El. apply Hl.
  - rewrite Ew by by right. done.
Qed.

Lemma slots_insert f f' l n i b :
  NoDup l -> l !! n = Some i -> slot f' i = b -> (forall k, k <> i -> slot f' k = slot f k) ->
  slot f' <$> l = <[n := b]> (slot f <$> l).
Proof.
  intros Hnd Hn Eb Ho. apply list_eq. intros k. destruct (decide (k = n)) as [->|Hk].
  - rewrite list_lookup_insert_eq by (rewrite length_fmap; by eapply lookup_lt_Some). by rewrite list_lookup_fmap, Hn, <- Eb.
  - rewrite list_lookup_insert_ne by done. rewrite !list_lookup_fmap. destruct (l !! k) as [j|] eqn:Hj; [|done].
    cbn. f_equal. apply Ho. intros ->. apply Hk. by eapply NoDup_lookup.
Qed.

Lemma wp_sync f m i1 i2 (Q : Z -> M -> Prop) :
  let b := synced (slot f i1) (slot f i2) in
  heap f m -> 0 <= i1 < 2000 -> 0 <= i2 < 2000 -> w32 f ABase 0 = display -> b_location b < 2000 ->
  (forall f' m', heap f' m' -> slot f' i2 = b ->
    (forall r o, r <> ADisplay -> r <> AArray \/ o < 16 * i2 \/ 16 * i2 + 12 <= o -> f' r o = f r o) ->
    (forall k, f' ADisplay k = shown_at (b_location b) (b_off b) (f ADisplay) k) -> Q 0 m') ->
  wp (ax ← ld16 (blink_array + 16 * i1 + ON_LENGTH); st16 (blink_array + 16 * i2 + ON_LENGTH) ax ;;;
      ax ← ld16 (blink_array + 16 * i1 + OFF_LENGTH); st16 (blink_array + 16 * i2 + OFF_LENGTH) ax ;;;
      ax ← ld16 (blink_array + 16 * i1 + COUNTDOWN); st16 (blink_array + 16 * i2 + COUNTDOWN) ax ;;;
      ax ← ld16 (blink_array + 16 * i1 + STATUS); st16 (blink_array + 16 * i2 + STATUS) ax ;;;
      location ← ld16 (blink_array + 16 * i2 + LOCATION);
      off ← ld8 (blink_array + 16 * i2 + OFF_CHAR);
      on ← ld8 (blink_array + 16 * i2 + ON_CHAR);
      status ← ld8 (blink_array + 16 * i2 + STATUS);
      mp1_poke (if negb (Bool.eqb (Z.testbit (Z.land 1 status) 7) false) then on else off) (Z.shiftl location 1) ;;;
      mret 0) Q m.
Proof.
  intros b Hh Hi1 Hi2 Hd Hloc HQ.
  assert (forall i o, 0 <= i < 2000 -> 0 <= o -> o + 2 <= 16 -> 0 <= w16 f AArray (16 * i + o) < 2 ^ 16) as Hr
    by (intros; eapply w16_range; [exact Hh|lia|simpl; lia]).
  apply wp_bind, (wp_ld16 AArray (16 * i1 + ON_LENGTH) f); [done|cbn; lia|cbn; fields|].
  apply wp_bind, (wp_st16 AArray (16 * i2 + ON_LENGTH) _ f); [done|cbn; lia|cbn; fields|]. intros m1 H1'.
  apply wp_bind. eapply (wp_ld16 AArray (16 * i1 + OFF_LENGTH)); [exact H1'|cbn; lia|cbn; fields|].
  apply wp_bind. eapply (wp_st16 AArray (16 * i2 + OFF_LENGTH)); [exact H1'|cbn; lia|cbn; fields|]. intros m2 H2'.
  apply wp_bind. eapply (wp_ld16 AArray (16 * i1 + COUNTDOWN)); [exact H2'|cbn; lia|cbn; fields|].
  apply wp_bind. eapply (wp_st16 AArray (16 * i2 + COUNTDOWN)); [exact H2'|cbn; lia|cbn; fields|]. intros m3 H3'.
  apply wp_bind. eapply (wp_ld16 AArray (16 * i1 + STATUS)); [exact H3'|cbn; lia|cbn; fields|].
  apply wp_bind. eapply (wp_st16 AArray (16 * i2 + STATUS)); [exact H3'|cbn; lia|cbn; fields|]. intros m4 H4'.
  repeat (rewrite w16_out in H4' by other). revert H4'. set (f4 := puts AArray (16 * i2 + STATUS) 2 _ _). intros H4'.
  assert (slot f4 i2 = b) as Eb.
  { unfold b, synced, slot, item, f4. reads. cbn. by rewrite !u16_small by (apply Hr; fields). }
  assert (b_location b = b_location (slot f i2) /\ b_off b = b_off (slot f i2) /\ b_on b = b_on (slot f i2)) as (Eb1 & Eb2 & Eb3) by done.
  apply wp_bind, (wp_ld16 AArray (16 * i2 + LOCATION) f4); [done|cbn; lia|cbn; fields|].
  apply wp_bind, (wp_ld8 AArray (16 * i2 + OFF_CHAR) f4); [done|cbn; lia|cbn; fields|].
  apply wp_bind, (wp_ld8 AArray (16 * i2 + ON_CHAR) f4); [done|cbn; lia|cbn; fields|].
  apply wp_bind, (wp_ld8 AArray (16 * i2 + STATUS) f4); [done|cbn; lia|cbn; fields|].
  replace (Z.testbit (Z.land 1 (f4 AArray (16 * i2 + STATUS))) 7) with false by (by rewrite Z.land_spec). cbn [Bool.eqb negb].
  change (w16 f4 AArray (16 * i2 + LOCATION)) with (b_location (slot f4 i2)).
  change (f4 AArray (16 * i2 + OFF_CHAR)) with (b_off (slot f4 i2)). rewrite Eb.
  apply wp_bind, (wp_poke f4); [done|unfold f4; by reads| | |].
  - split; [rewrite Eb1; apply Hr; fields|done].
  - rewrite Eb2. eapply heap_range; [exact Hh|cbn; fields].
  - intros m5 H5'. apply wp_ret. eapply HQ; [exact H5'| | |].
    + unfold slot. rewrite item_out by other. exact Eb.
    + intros r o Hne Ho. unfold f4. rewrite !puts_out; [done|..]; (by left; congruence) ||
        (destruct Ho as [|]; [by left; congruence|right; fields]).
    + intros k. rewrite shown_puts. unfold shown_at, f4. by reads.
Qed.

Lemma sync_refines L v A m w :
  fish L v A m ->
  exists r m', mp1_ioctl w RTC_SYNC m = Ok (r, m') /\
    match find_at (u16 (Z.shiftr w 16)) L, find_at (u16 w) L with
    | Some (_, a), Some (n, b) =>
        r = 0 /\ fish (<[n := synced a b]> L) (shown_at (b_location b) (b_off b) v) A m'
    | _, _ => r = -1 /\ m' = m
    end.
Proof.
  intros (f & l & Hh & Hb & -> & -> & Hv).
  pose proof (record_at_find f _ l (u16 (Z.shiftr w 16)) (bk_chain _ _ Hb)) as Hf1.
  pose proof (record_at_find f _ l (u16 w) (bk_chain _ _ Hb)) as Hf2.
  apply (wp_inv (mp1_ioctl w RTC_SYNC) (fun r m' =>
    match find_at (u16 (Z.shiftr w 16)) (slot f <$> l), find_at (u16 w) (slot f <$> l) with
    | Some (_, a), Some (n, b) =>
        r = 0 /\ fish (<[n := synced a b]> (slot f <$> l)) (shown_at (b_location b) (b_off b) v) (item f AArg 0) m'
    | _, _ => r = -1 /\ m' = m end)).
  cbn [mp1_ioctl RTC_SYNC]. unfold mp1_ioctl_sync. apply wp_bind, (wp_find_helper f l); [done|done|].
  destruct (find_at (u16 (Z.shiftr w 16)) _) as [[n1 b1]|]; [|rewrite Hf1; by apply wp_ret].
  destruct Hf1 as (i1 & Hn1 & -> & _ & -> & Hz1 & Hi1). rewrite (proj2 (Z.eqb_neq _ 0)) by lia.
  assert (u16 (Z.land w 0xFFFF) = u16 w) as Ew
    by (change 0xFFFF with (Z.ones 16); rewrite Z.land_ones by lia; unfold u16; by rewrite Z.mod_mod by lia).
  apply wp_bind, (wp_find_helper f l); [done|done|]. rewrite Ew.
  destruct (find_at (u16 w) _) as [[n2 b2]|]; [|rewrite Hf2; by apply wp_ret].
  destruct Hf2 as (i2 & Hn2 & -> & _ & -> & Hz2 & Hi2). rewrite (proj2 (Z.eqb_neq _ 0)) by lia.
  pose proof (list_elem_of_lookup_2 _ _ _ Hn2) as Hin2.
  apply (wp_sync f m i1 i2); [done|done|done|apply Hb|by apply Hb|].
  intros f' m' Hh' Es Hr Hdisp. split; [done|].
  destruct (blinking_slot f f' l i2 _ Hb Hin2 Es eq_refl Hr) as (Hb' & EA & Ho).
  exists f', l. split_and!; [done|done| |done|].
  - symmetry. eapply slots_insert; [apply Hb|done|done|done].
  - intros k Hk. rewrite Hdisp. unfold shown_at. destruct (k =? _); [done|by apply Hv].
Qed.

Lemma find_refines L v A m :
  fish L v A m ->
  exists r m', mp1_ioctl arg RTC_FIND m = Ok (r, m') /\
    match find_at (b_location A) L with
    | Some (_, b) => r = 0 /\ fish L v b m'
    | None => r = -1 /\ fish L v A m'
    end.
Proof.
  intros (f & l & Hh & Hb & -> & -> & Hv). set (A := item f AArg 0).
  apply (wp_inv (mp1_ioctl arg RTC_FIND) (fun r m' => match find_at (b_location A) (slot f <$> l) with
    | Some (_, b) => r = 0 /\ fish (slot f <$> l) v b m' | None => r = -1 /\ fish (slot f <$> l) v A m' end)).
  cbn [mp1_ioctl RTC_FIND]. unfold mp1_ioctl_find.
  apply wp_bind, (wp_memcpy AKey 0 AArg 0 2 f); [done|cbn; lia|cbn; lia|done|lia|cbn; lia|cbn; lia|]. intros m1 H1'.
  change (negb (0 =? 0)) with false. cbv iota. set (f1 := puts AKey 0 2 _ f) in *.
  assert (locals_differ f f1) as Hl1 by (intros r o ? ?; apply puts_out; by left).
  assert (blinking f1 l) as Hb1 by (by eapply blinking_locals).
  assert (slot f1 <$> l = slot f <$> l) as EL by (apply list_fmap_ext; intros; by apply locals_slot).
  apply wp_bind, (wp_ld16 AKey 0 f1); [done|cbn; lia|cbn; lia|].
  assert (w16 f1 AKey 0 = b_location A) as -> by (pose proof (w16_copy AKey 0 2 f AArg 0 f 0 ltac:(lia) ltac:(lia)) as E; exact E).
  assert (u16 (b_location A) = b_location A) as Eu by (apply u16_small; eapply (w16_range f m AArg); [done|fields|cbn; fields]).
  apply wp_bind, (wp_find_helper f1 l); [done|done|]. rewrite Eu.
  pose proof (record_at_find f1 _ l (b_location A) (bk_chain _ _ Hb1)) as Hf. rewrite EL in Hf.
  destruct (find_at _ _) as [[n b]|]; [|rewrite Hf; apply wp_ret; split; [done|by eapply fish_locals]].
  destruct Hf as (i & Hn & Eb & _ & -> & Hz & Hi). rewrite (proj2 (Z.eqb_neq _ 0)) by lia.
  apply wp_bind, (wp_memcpy AArg 0 AArray (16 * i) 16 f1); [done|cbn; lia|cbn; lia|done|lia|cbn; lia|cbn; lia|]. intros m2 H2'.
  apply wp_ret. split; [done|]. set (f2 := puts AArg 0 16 _ f1) in *.
  assert (forall k, slot f2 k = slot f k) as E2 by (intros k; unfold slot, f2; rewrite item_out by (by left); by apply locals_slot).
  exists f2, l. split_and!; [done| | | |].
  - destruct Hb1 as [Hc Hnd Hu Hlo Hd]. split; unfold f2.
    + rewrite w32_out by (by left). eapply chain_ext; [|exact Hc]. intros. by rewrite w32_out by (by left).
    + done.
    + intros k. unfold slot. rewrite item_out by (by left). apply Hu.
    + intros k. unfold slot. rewrite item_out by (by left). apply Hlo.
    + by rewrite w32_out by (by left).
  - apply list_fmap_ext. intros. by rewrite E2.
  - rewrite Eb. unfold f2, slot. by rewrite item_copy.
  - intros k Hk. unfold f2. rewrite puts_out by (by left). rewrite Hl1 by done. by apply Hv.
Qed.

(** *** A blinker at location 0 *)

Lemma added_lowest i f f' :
  lowest_free f i -> added i f f' -> b_location (item f AArg 0) = 0 -> lowest_free f' i /\ item f' AArg 0 = item f AArg 0.
Proof.
  intros (Hi & _ & Hlow) Ha HA.
  split; [|unfold item, w16; rewrite !(ad_rest _ _ _ Ha) by (done || by left); done]. split_and!; [lia|lia| |].
  - rewrite (ad_slot _ _ _ Ha). by destruct (item f AArg 0).
  - intros k Hk. rewrite (added_slot i f f') by (done || lia). by apply Hlow.
Qed.

Lemma wp_add_free f m i (Q : Z -> M -> Prop) :
  heap f m -> w32 f ABase 0 = display -> b_location (item f AArg 0) < 2000 -> lowest_free f i ->
  (forall f' m', heap f' m' -> added i f f' -> w32 f' ABase 0 = display -> Q 0 m') -> wp (mp1_ioctl arg RTC_ADD) Q m.
Proof.
  intros Hh Hd HA (Hi & H0' & Hlow) HQ. apply (wp_add f); [done|done| |].
  - intros [Hx|Hx]; [lia|]. by destruct (Hx i Hi).
  - intros _ i' (Hi' & H0'' & Hlow') f' m' Hh' Ha. assert (i' = i) as ->.
    { destruct (Z.lt_trichotomy i i') as [Hlt|[->|Hlt]]; [by destruct (Hlow' i ltac:(lia))|done|by destruct (Hlow i' ltac:(lia))]. }
    apply (HQ f'); [done|done|]. unfold w32. rewrite !(ad_rest _ _ _ Ha) by (done || by left). exact Hd.
Qed.

(** A record that points to itself holds the tasklet forever. *)
Lemma tasklet_cycle f m i :
  heap f m -> 0 <= i < 2000 -> w32 f ABase 0 = display -> b_location (slot f i) < 2000 ->
  w32 f AHead 0 = blink_array + 16 * i -> w32 f AArray (16 * i + NEXT) = blink_array + 16 * i ->
  mp1_rtc_tasklet m = Fail Diverges.
Proof.
  intros Hh Hi Hd Hloc Hhead Hnext. unfold mp1_rtc_tasklet.
  assert (wp (ld32 mp1_list_head) (fun p m' => p = blink_array + 16 * i /\ m' = m) m) as (p & m' & Hrun & -> & ->)%wp_inv
    by (apply (wp_ld32 AHead 0 f); [done|cbn; lia|cbn; lia|done]).
  rewrite (bind_ok _ _ _ _ _ Hrun). apply (loop_diverges _ (fun p m => p = blink_array + 16 * i /\ exists f, heap f m /\
    w32 f ABase 0 = display /\ b_location (slot f i) < 2000 /\ w32 f AArray (16 * i + NEXT) = blink_array + 16 * i));
    [|split; [done|by exists f]].
  clear -Hlay Harray Hi H0. intros p m (-> & f & Hh & Hd & Hloc & Hnext).
  destruct (wp_inv _ _ _ (tasklet_round i f m Hh Hi Hd Hloc)) as (r & m' & Hrun & -> & f' & Hh' & Ht).
  exists (w32 f AArray (16 * i + NEXT)), m'. split; [done|]. split; [done|]. exists f'. split_and!; [done|..].
  - unfold w32. rewrite !(tk_rest _ _ _ Ht) by (done || by left). exact Hd.
  - rewrite (tk_slot _ _ _ Ht), tick_location. done.
  - rewrite <- Hnext. unfold w32. rewrite !(tk_rest _ _ _ Ht) by (done || (right; fields)). done.
Qed.

Lemma zero_cycles L v A m :
  fish L v A m -> b_location A = 0 -> Z.of_nat (length L) < 2000 ->
  exists m1 m2, mp1_ioctl arg RTC_ADD m = Ok (0, m1) /\ mp1_ioctl arg RTC_ADD m1 = Ok (0, m2) /\
    mp1_rtc_tasklet m2 = Fail Diverges.
Proof.
  intros (f & l & Hh & Hb & -> & -> & Hv) HA Hlen. rewrite length_fmap in Hlen.
  assert (exists i, lowest_free f i) as (i & Hlow).
  { apply (blinking_full f l Hb) in Hlen as (j & Hj & E). clear -Hj E. revert Hj E. pattern j.
    apply (well_founded_induction (Z.lt_wf 0)). clear j. intros j IH Hj E.
    destruct (decide (Exists (fun k => b_location (slot f k) = 0) (seqZ 0 j))) as [He|Hn].
    - apply Exists_exists in He as (k & Hk%list_elem_of_In%elem_of_seqZ & Ek). apply (IH k); [lia|lia|done].
    - exists j. split_and!; [lia|lia|done|]. intros k Hk Ek. apply Hn, Exists_exists. exists k. split; [|done].
      apply list_elem_of_In, elem_of_seqZ. lia. }
  assert (wp (mp1_ioctl arg RTC_ADD) (fun r m1 => r = 0 /\ exists f1, heap f1 m1 /\ w32 f1 ABase 0 = display /\ added i f f1) m)
    as (r & m1 & Hrun1 & -> & f1 & Hh1 & Hd1 & Ha1)%wp_inv.
  { apply (wp_add_free f m i); [done|apply Hb|lia|done|]. intros f1 m1 Hh1 Ha1 Hd1. split; [done|by exists f1]. }
  destruct (added_lowest i f f1 Hlow Ha1 HA) as [Hlow1 EA].
  assert (wp (mp1_ioctl arg RTC_ADD) (fun r m2 => r = 0 /\ exists f2, heap f2 m2 /\ w32 f2 ABase 0 = display /\ added i f1 f2) m1)
    as (r & m2 & Hrun2 & -> & f2 & Hh2 & Hd2 & Ha2)%wp_inv.
  { apply (wp_add_free f1 m1 i); [done|done|rewrite EA; lia|done|]. intros f2 m2 Hh2 Ha2 Hd2. split; [done|by exists f2]. }
  exists m1, m2. split_and!; [done|done|]. apply (tasklet_cycle f2 m2 i); [done|apply Hlow|done| | |].
  - rewrite (ad_slot _ _ _ Ha2), EA. destruct (item f AArg 0). simpl in *. lia.
  - apply Ha2.
  - rewrite (ad_next _ _ _ Ha2). apply Ha1.
Qed.
(** *** Changes beside the list *)

Lemma blinking_ext f f' l :
  (forall r o, r = AArray \/ r = AHead \/ r = ABase -> 0 <= o < size r -> f' r o = f r o) -> blinking f l ->
  blinking f' l /\ slot f' <$> l = slot f <$> l.
Proof.
  clear Harray.
  intros E [Hc Hnd Hu Hl Hd].
  assert (forall i, 0 <= i < 2000 -> slot f' i = slot f i) as Es
    by (intros i Hi; apply slot_ext; intros o Ho; apply E; [by left|cbn; lia]).
  assert (forall i, i ∈ l -> 0 <= i < 2000) as Hr by (intros i; by eapply chain_range).
  split.
  - split; [|done|intros i Hi; rewrite Es by done; by apply Hu|intros i Hi; rewrite Es by (by apply Hr); by apply Hl|].
    + replace (w32 f' AHead 0) with (w32 f AHead 0) by (unfold w32; rewrite !E by (tauto || (cbn; lia)); done).
      eapply chain_ext; [|exact Hc]. intros i Hi%Hr. unfold w32. rewrite !E by (tauto || (cbn; fields)). done.
    + unfold w32. rewrite !E by (tauto || (cbn; lia)). exact Hd.
  - apply list_fmap_ext. intros n i Hi. apply Es, Hr. by eapply list_elem_of_lookup_2.
Qed.

Definition set8 (o c : Z) (A : blinker) : blinker :=
  Blinker (b_location A) (if o =? ON_CHAR then c else b_on A) (if o =? OFF_CHAR then c else b_off A)
    (b_on_length A) (b_off_length A) (b_countdown A) (b_status A).

Definition set16 (o c : Z) (A : blinker) : blinker :=
  Blinker (if o =? LOCATION then u16 c else b_location A) (b_on A) (b_off A)
    (if o =? ON_LENGTH then u16 c else b_on_length A) (if o =? OFF_LENGTH then u16 c else b_off_length A)
    (b_countdown A) (b_status A).

(** Stores to the fields of the argument. *)
Lemma fish_set8 L v A m o c :
  fish L v A m -> o = ON_CHAR \/ o = OFF_CHAR -> 0 <= c < 256 ->
  exists m', st8 (arg + o) c m = Ok (tt, m') /\ fish L v (set8 o c A) m'.
Proof.
  intros (f & l & Hh & Hb & -> & -> & Hv) Ho Hc. destruct (wp_inv (st8 (arg + o) c) (fun _ m' =>
    heap (puts AArg o 1 (byte_of c) f) m') m) as ([] & m' & Hrun & Hh').
  { apply (wp_st8 AArg o c f); [done|done|cbn; destruct Ho; subst; fields|done]. }
  exists m'. split; [done|]. set (f' := puts AArg o 1 (byte_of c) f) in *.
  destruct (blinking_ext f f' l) as [Hb' EL]; [intros r k Hr _; apply puts_out; left; by intuition subst|done|].
  exists f', l. split_and!; [done|done|done| |].
  - unfold f'. pose proof (puts_in AArg o 1 (byte_of c) f 0 ltac:(lia)) as E. rewrite Z.add_0_r, byte_of_byte in E by done.
    unfold set8, item. destruct Ho as [->| ->]; rewrite !Z.add_0_l, !w16_out by other; rewrite E, puts_out by other; done.
  - intros k Hk. unfold f'. rewrite puts_out by (by left). by apply Hv.
Qed.

Lemma fish_set16 L v A m o c :
  fish L v A m -> o = LOCATION \/ o = ON_LENGTH \/ o = OFF_LENGTH ->
  exists m', st16 (arg + o) c m = Ok (tt, m') /\ fish L v (set16 o c A) m'.
Proof.
  intros (f & l & Hh & Hb & -> & -> & Hv) Ho. destruct (wp_inv (st16 (arg + o) c) (fun _ m' =>
    heap (puts AArg o 2 (byte_of c) f) m') m) as ([] & m' & Hrun & Hh').
  { apply (wp_st16 AArg o c f); [done|done|cbn; destruct Ho as [|[|]]; subst; fields|done]. }
  exists m'. split; [done|]. set (f' := puts AArg o 2 (byte_of c) f) in *.
  destruct (blinking_ext f f' l) as [Hb' EL]; [intros r k Hr _; apply puts_out; left; by intuition subst|done|].
  exists f', l. split_and!; [done|done|done| |].
  - unfold f', set16, item. destruct Ho as [->|[->| ->]]; rewrite !Z.add_0_l; reads; done.
  - intros k Hk. unfold f'. rewrite puts_out by (by left). by apply Hv.
Qed.
End heap.

(** *** A concrete state *)

#[local] Instance sample_vars : FishVars := {|
  blink_array := 0x8010000; vmem_base_addr := 0x8000004; mp1_list_head := 0x8000000;
  add_local := 0x83F0000; find_local := 0x83F0100
|}.

(** The empty list, and the argument [b]. *)
Definition sample_fish (location on off : Z) : flat :=
  write_bytes (write_bytes (∅ : flat) 0x8000004 (le32 0x20000000)) 0x83F0200
    [location; 0; on; off; 1; 0; 2; 0; 0; 0; 0; 0].

Definition contents_of (m : flat) : contents := fun r o => peek m (base 0x20000000 0x83F0200 r + o).

Lemma sample_laid_out m : laid_out 0x20000000 0x83F0200 m.
Proof.
  split; [by eexists|]. intros r o r' o' c Ho Ho' [= <-] [= E].
  destruct r, r'; cbn in *; (split; [done || lia|lia]).
Qed.

Lemma sample_fish_empty location on off :
  0 <= location < 256 -> 0 <= on < 256 -> 0 <= off < 256 ->
  let m := sample_fish location on off in
  fish 0x20000000 0x83F0200 m [] (fun _ => 0) (Blinker location on off 1 2 0 0) m.
Proof.
  intros Hl Hon Hoff m. exists (contents_of m), [].
  assert (forall c, (c < 0x8000004 \/ 0x8000008 <= c) -> (c < 0x83F0200 \/ 0x83F020C <= c) -> peek m c = 0) as H0'.
  { intros c H1' H2'. unfold m, sample_fish. cbn [write_bytes le32 cell poke peek flat_mem].
    rewrite !lookup_insert_ne by lia. by rewrite lookup_empty. }
  assert (forall k v, [location; 0; on; off; 1; 0; 2; 0; 0; 0; 0; 0] !! k = Some v -> peek m (0x83F0200 + Z.of_nat k) = v) as HA.
  { intros k v Hk. apply (peek_write_bytes _ _ _ k v); try done; try apply flat_mapped; try apply flat_injective.
    intros j w Hj. revert Hj. do 12 (destruct j as [|j]; [intros [= <-]; lia|]). done. }
  split_and!.
  - split; [done| |done]. intros r o Ho. apply load_cell. done.
  - split.
    + cbn. unfold w32, contents_of. rewrite !H0' by (cbn; lia). done.
    + constructor.
    + intros i Hi. split; [by intros ?%not_elem_of_nil|]. cbn. unfold w16, contents_of.
      rewrite !H0' by (cbn; fields). done.
    + by intros i ?%not_elem_of_nil.
    + unfold w32, contents_of. reflexivity.
  - done.
  - assert (forall k v o, [location; 0; on; off; 1; 0; 2; 0; 0; 0; 0; 0] !! k = Some v -> o = Z.of_nat k ->
      contents_of m AArg o = v) as HA' by (intros k v o Hk ->; by apply HA).
    unfold item, w16.
    rewrite (HA' 0%nat location (0 + LOCATION)), (HA' 1%nat 0 (0 + LOCATION + 1)), (HA' 2%nat on), (HA' 3%nat off),
      (HA' 4%nat 1 (0 + ON_LENGTH)), (HA' 5%nat 0 (0 + ON_LENGTH + 1)), (HA' 6%nat 2 (0 + OFF_LENGTH)),
      (HA' 7%nat 0 (0 + OFF_LENGTH + 1)), (HA' 8%nat 0 (0 + COUNTDOWN)), (HA' 9%nat 0 (0 + COUNTDOWN + 1)),
      (HA' 10%nat 0 (0 + STATUS)), (HA' 11%nat 0 (0 + STATUS + 1)) by done.
    f_equal; lia.
  - intros k Hk. apply H0'; cbn; lia.
Qed.

(** ** Theorems *)

(** C17: the tasklet terminates and makes every blinker of the list tick: its
    countdown goes down, and where it runs out the phase changes, the countdown
    starts again and the character of the new phase is shown at the location; nothing
    else on the display changes. *)
Theorem tasklet_ticks_list {M} `{ByteMemLaws M} `{FishVars} display arg (m0 m : M) L v A :
  laid_out display arg m0 -> 0 < blink_array /\ blink_array + 16 * 2000 <= 2 ^ 32 -> fish display arg m0 L v A m ->
  exists m', mp1_rtc_tasklet m = Ok (tt, m') /\ fish display arg m0 (tick <$> L) (fold_left draw L v) A m'.
Proof. intros. by apply tasklet_refines. Qed.

(** C16: the requests on the linked records are operations on a list of blinkers:
    adding puts the argument in front, in its first phase, and shows it, unless its
    location is off the display or 2000 blinkers are there; removing deletes the first
    blinker at the location; synchronising copies the phase of one blinker to another;
    finding copies a blinker to the argument. Each returns -1 where it cannot. *)
Theorem requests_refine_list {M} `{ByteMemLaws M} `{FishVars} display arg (m0 m : M) L v A :
  laid_out display arg m0 -> 0 < blink_array /\ blink_array + 16 * 2000 <= 2 ^ 32 -> fish display arg m0 L v A m ->
  (b_location A <> 0 -> exists r m', mp1_ioctl arg RTC_ADD m = Ok (r, m') /\
    if (2000 <=? b_location A) || (2000 <=? Z.of_nat (length L)) then r = -1 /\ fish display arg m0 L v A m'
    else r = 0 /\ fish display arg m0 (fresh A :: L) (shown_at (b_location A) (b_on A) v) A m') /\
  (forall loc, exists r m', mp1_ioctl loc RTC_REMOVE m = Ok (r, m') /\
    match find_at (u16 loc) L with
    | Some (n, _) => r = 0 /\ fish display arg m0 (delete n L) v A m'
    | None => r = -1 /\ m' = m
    end) /\
  (forall w, exists r m', mp1_ioctl w RTC_SYNC m = Ok (r, m') /\
    match find_at (u16 (Z.shiftr w 16)) L, find_at (u16 w) L with
    | Some (_, a), Some (n, b) =>
        r = 0 /\ fish display arg m0 (<[n := synced a b]> L) (shown_at (b_location b) (b_off b) v) A m'
    | _, _ => r = -1 /\ m' = m
    end) /\
  (exists r m', mp1_ioctl arg RTC_FIND m = Ok (r, m') /\
    match find_at (b_location A) L with
    | Some (_, b) => r = 0 /\ fish display arg m0 L v b m'
    | None => r = -1 /\ fish display arg m0 L v A m'
    end).
Proof.
  intros Hlay Harr Hf. split_and!; intros; [by apply add_refines|by apply remove_refines|by apply sync_refines|by apply find_refines].
Qed.

(** C39: location 0 marks a free record: after a blinker is added at location 0, the
    next one gets the same record, which then points to itself, and the tasklet does
    not terminate. *)
Theorem location_zero_diverges {M} `{ByteMemLaws M} `{FishVars} display arg (m0 m : M) L v A :
  laid_out display arg m0 -> 0 < blink_array /\ blink_array + 16 * 2000 <= 2 ^ 32 -> fish display arg m0 L v A m ->
  b_location A = 0 -> Z.of_nat (length L) < 2000 ->
  exists m1 m2, mp1_ioctl arg RTC_ADD m = Ok (0, m1) /\ mp1_ioctl arg RTC_ADD m1 = Ok (0, m2) /\
    mp1_rtc_tasklet m2 = Fail Diverges.
Proof. intros. by eapply zero_cycles. Qed.

(** ** Witnesses *)

Lemma requests_refine_list_witness :
  let m := sample_fish 60 73 77 in
  exists m', mp1_ioctl 0x83F0200 RTC_ADD m = Ok (0, m') /\
    fish 0x20000000 0x83F0200 m [Blinker 60 73 77 1 2 1 1] (shown_at 60 73 (fun _ => 0)) (Blinker 60 73 77 1 2 0 0) m'.
Proof.
  intros m. destruct (requests_refine_list 0x20000000 0x83F0200 m m [] (fun _ => 0) (Blinker 60 73 77 1 2 0 0)) as (Hadd & _).
  - apply sample_laid_out.
  - cbn. lia.
  - by apply sample_fish_empty.
  - destruct Hadd as (r & m' & Hrun & -> & Hf); [discriminate|]. exists m'. exact (conj Hrun Hf).
Defined.

Lemma tasklet_ticks_list_witness :
  exists m', mp1_rtc_tasklet (sample_fish 60 73 77) = Ok (tt, m').
Proof.
  destruct (tasklet_ticks_list 0x20000000 0x83F0200 (sample_fish 60 73 77) (sample_fish 60 73 77) [] (fun _ => 0)
    (Blinker 60 73 77 1 2 0 0)) as (m' & Hrun & _).
  - apply sample_laid_out.
  - cbn. lia.
  - by apply sample_fish_empty.
  - exists m'. exact Hrun.
Defined.

Lemma location_zero_diverges_witness :
  exists m1 m2, mp1_ioctl 0x83F0200 RTC_ADD (sample_fish 0 73 77) = Ok (0, m1) /\
    mp1_ioctl 0x83F0200 RTC_ADD m1 = Ok (0, m2) /\ mp1_rtc_tasklet m2 = Fail Diverges.
Proof.
  apply (location_zero_diverges 0x20000000 0x83F0200 (sample_fish 0 73 77) _ [] (fun _ => 0) (Blinker 0 73 77 1 2 0 0)).
  - apply sample_laid_out.
  - cbn. lia.
  - by apply sample_fish_empty.
  - reflexivity.
  - cbn. lia.
Defined.
