(* ===== verification/Fish.v ===== *)
(** * The fish animation

    fish.c: two frames of a picture, read from files, become a list of blinkers, and
    the clock drives them (file Blink). *)

From Stdlib Require Import String.
From S2P Require Import Prelude Memory Lib Filesystem Machine Screen Paging Syscall FileTable Processes ProcessTable Kernel User Session Sample Blink.

Definition WAIT : Z := 200.

Section fish.
Context `{UserEnv} `{FishVars}.

(** ** The frames *)

(** The next character of a frame, unless its line is at the end. *)
Definition frame_char (fd c eof : Z) : K Z :=
  x ← uload c;
  if negb (x =? ch_newline) then
    num_bytes ← ece391_read fd c 1;
    if num_bytes =? 0 then ustore c ch_newline ;;; mret 1 else mret eof
  else mret eof.

Definition frame_column (fd0 fd1 c0 c1 blink_struct row : Z) (r : Z * Z * Z) : K ((Z * Z * Z) + (Z * Z)) :=
  let '(col, eof0, eof1) := r in
  eof0 ← frame_char fd0 c0 eof0;
  eof1 ← frame_char fd1 c1 eof1;
  x0 ← uload c0;
  x1 ← uload c1;
  if (x0 =? ch_newline) && (x1 =? ch_newline) then mret (inr (eof0, eof1))
  else
    when ((negb (x0 =? ch_space) && negb (x0 =? ch_newline)) || (negb (x1 =? ch_space) && negb (x1 =? ch_newline)))
      (ustore (blink_struct + ON_CHAR) (if x0 =? ch_newline then ch_space else x0) ;;;
       ustore (blink_struct + OFF_CHAR) (if x1 =? ch_newline then ch_space else x1) ;;;
       um (st16 (blink_struct + LOCATION) (row * 80 + col + 40)) ;;;
       um (mp1_ioctl blink_struct RTC_ADD) ≫= fun _ => mret tt) ;;;
    mret (inl (col + 1, eof0, eof1)).

Definition frame_end (fd c eof : Z) : K unit :=
  if negb (eof =? 0) then ustore c ch_newline ;;; ece391_close fd ≫= fun _ => mret tt else ustore c 48.

Definition frame_row (fd0 fd1 c0 c1 blink_struct : Z) (r : Z * Z * Z) : K ((Z * Z * Z) + unit) :=
  let '(row, eof0, eof1) := r in
  if (eof0 =? 0) || (eof1 =? 0) then
    '(eof0, eof1) ← loop (frame_column fd0 fd1 c0 c1 blink_struct row) (0, eof0, eof1);
    frame_end fd0 c0 eof0 ;;;
    frame_end fd1 c1 eof1 ;;;
    mret (inl (row + 1, eof0, eof1))
  else mret (inr tt).

Definition add_frames (f0 f1 c0 c1 blink_struct : Z) : K unit :=
  ustore c0 48 ;;; ustore c1 48 ;;;
  um (st16 (blink_struct + ON_LENGTH) 15) ;;; um (st16 (blink_struct + OFF_LENGTH) 15) ;;;
  fd0 ← ece391_open f0;
  when (fd0 <? 0) (ece391_halt (-1) ≫= fun _ => mret tt) ;;;
  fd1 ← ece391_open f1;
  when (fd1 <? 0) (ece391_halt (-1) ≫= fun _ => mret tt) ;;;
  loop (frame_row fd0 fd1 c0 c1 blink_struct) (0, 0, 0).

(** ** main *)

Definition mp1_set_video_mode : K Z :=
  r ← ece391_vidmap vmem_base_addr;
  if r =? -1 then mret 0 else um (ld32 vmem_base_addr).

(** [n] ticks of the clock. *)
Definition wait_ticks (n rtc_fd garbage : Z) : K unit :=
  for_ (Z.to_nat n) 0 (fun _ => ece391_read rtc_fd garbage 4 ≫= fun _ => um mp1_rtc_tasklet).

Definition fish_main (file0 file1 c0 c1 frame_struct blink_struct ret_val garbage : Z) : K Z :=
  um (ece391_memset blink_array 0 (STRUCT_SIZE * 80 * 25)) ;;;
  v ← mp1_set_video_mode;
  if v =? 0 then mret (-1)
  else
    rtc_fd ← ece391_open (lit (chars "rtc"));
    add_frames file0 file1 c0 c1 frame_struct ;;;
    um (st32 ret_val 32) ;;;
    r ← ece391_write rtc_fd ret_val 4; um (st32 ret_val (u32 r)) ;;;
    wait_ticks WAIT rtc_fd garbage ;;;
    ustore (blink_struct + ON_CHAR) 73 ;;;
    ustore (blink_struct + OFF_CHAR) 77 ;;;
    um (st16 (blink_struct + ON_LENGTH) 7) ;;;
    um (st16 (blink_struct + OFF_LENGTH) 6) ;;;
    um (st16 (blink_struct + LOCATION) (6 * 80 + 60)) ;;;
    um (mp1_ioctl blink_struct RTC_ADD) ≫= fun _ =>
    wait_ticks WAIT rtc_fd garbage ;;;
    um (mp1_ioctl (Z.lor (Z.shiftl 40 16) (6 * 80 + 60)) RTC_SYNC) ≫= fun _ =>
    wait_ticks WAIT rtc_fd garbage ;;;
    um (st16 (blink_struct + LOCATION) 60) ;;;
    um (mp1_ioctl WAIT RTC_REMOVE) ≫= fun _ =>
    wait_ticks (80 * 25) rtc_fd garbage ;;;
    ece391_close rtc_fd ≫= fun _ =>
    mret 0.
End fish.

(** ** Specification *)

(** The lines of a frame: what is between its new lines. *)
Fixpoint frame_lines (c : list Z) : list (list Z) :=
  match c with
  | [] => [[]]
  | x :: c' =>
      if x =? ch_newline then [] :: frame_lines c'
      else match frame_lines c' with
           | line :: rest => (x :: line) :: rest
           | [] => [[x]]
           end
  end.

(** The blinker of two characters, unless both are blank. *)
Definition overlay_char (row col x y : Z) : list blinker :=
  if (x =? ch_space) && (y =? ch_space) then [] else [Blinker (row * 80 + col + 40) x y 15 15 15 1].

(** Two lines, one over the other; the shorter one goes on with blanks. *)
Fixpoint overlay_line (n : nat) (row col : Z) (xs ys : list Z) : list blinker :=
  match n with
  | O => []
  | S n' => overlay_char row col (default ch_space (head xs)) (default ch_space (head ys)) ++
      overlay_line n' row (col + 1) (tail xs) (tail ys)
  end.

Definition overlay_lines (row : Z) (xs ys : list Z) : list blinker :=
  overlay_line (length xs `max` length ys) row 0 xs ys.

Fixpoint overlay_rows (n : nat) (row : Z) (ls ls' : list (list Z)) : list blinker :=
  match n with
  | O => []
  | S n' => overlay_lines row (default [] (head ls)) (default [] (head ls')) ++
      overlay_rows n' (row + 1) (tail ls) (tail ls')
  end.

(** The picture of two frames. *)
Definition picture (c c' : list Z) : list blinker :=
  overlay_rows (length (frame_lines c) `max` length (frame_lines c')) 0 (frame_lines c) (frame_lines c').

(** A blinker that is added shows its first character. *)
Definition tty_shown (a : tty) (b : blinker) : tty :=
  Tty (tty_x a) (tty_y a) (fun pos => if pos =? b_location b then b_on b else tty_cell a pos).

(** ** Lemmas: the program at work *)

Section frames.
Context `{UserEnv} `{FishVars} (fsize : Z) (im : fs_image) (t j : Z) (bs : Z).
Implicit Types (l : list file_descriptor_entry_t) (a : tty) (s : machine) (L : list blinker) (A : blinker).

Abbreviation session := (session fsize im t VIDEO j).

Definition display : Z := USER_VIDMAP_ADDR + t * FOUR_KB.

(** The variables of the program are in its page, beside each other. *)
Record placed_vars : Prop := {
  pv_page : forall r, r <> ADisplay -> in_page (base display bs r) (size r);
  pv_apart : forall r r' o o', r <> ADisplay -> r' <> ADisplay -> 0 <= o < size r -> 0 <= o' < size r' ->
    base display bs r + o = base display bs r' + o' -> r = r' /\ o = o'
}.

(** An address that is not one of a variable. *)
Definition off_vars (b : Z) : Prop := forall r o, r <> ADisplay -> 0 <= o < size r -> b <> base display bs r + o.

(** The program works on its terminal, its list is [L] and its argument [A]. *)
Record stage (l : list file_descriptor_entry_t) L a A s : Prop := {
  sg_session : session l a s;
  sg_fish : fish display bs (uview s) L (fun k => byte s (VIDEO + k)) A (uview s)
}.

Context (Hvars : placed_vars).

Lemma session_shown l a s : session l a s -> t = get currentTerminal s.
Proof.
  intros Hs. destruct (se_page _ _ _ _ _ _ _ _ Hs) as [E|[E _]]; [|done]. pose proof (se_t _ _ _ _ _ _ _ _ Hs).
  unfold terminal_page, VIDEO, FOUR_KB in E. lia.
Qed.

Lemma display_cell l a s o : session l a s -> 0 <= o < 4000 -> cell (uview s) (display + o) = Some (VIDEO + o).
Proof.
  intros Hs Ho. pose proof (session_shown l a s Hs) as Et. pose proof (se_t _ _ _ _ _ _ _ _ Hs) as Ht.
  pose proof (se_pag _ _ _ _ _ _ _ _ Hs) as Hpag. change (user_cell (get pag s) (display + o) = Some (VIDEO + o)).
  unfold user_cell, display, USER_VIDMAP_ADDR, FIVE_HUNDRED_TWELVE_MB, EIGHT_MB, FOUR_KB, NUM_TERMINALS in *.
  change (0x800000 * 64) with 0x20000000. rewrite u32_small by lia.
  rewrite (access_map (get currentTerminal s) (Some j)) by (done || lia).
  unfold address_map, VIDEO, FOUR_KB, FOUR_MB, EIGHT_MB, USER_VIDEO, PROCESS_VIRTUAL.
  repeat match goal with |- context [?x <=? ?y] => destruct (Z.leb_spec x y); try lia end.
  repeat match goal with |- context [?x <? ?y] => destruct (Z.ltb_spec x y); try lia end. cbn [andb].
  assert ((0x20000000 + t * 0x1000 + o - 0x20000000) / 0x1000 = t) as ->
    by (symmetry; apply (Z.div_unique _ _ _ o); lia).
  assert ((0x20000000 + t * 0x1000 + o) `mod` 0x1000 = o) as ->
    by (symmetry; apply (Z.mod_unique _ _ (0x20000 + t)); lia).
  unfold video_page. rewrite <- Et, Z.eqb_refl. done.
Qed.

Lemma var_cell l a s r o :
  session l a s -> r <> ADisplay -> 0 <= o < size r ->
  cell (uview s) (base display bs r + o) = Some (page_cell j (base display bs r + o)) /\ in_page (base display bs r + o) 1.
Proof.
  intros Hs Hr Ho. assert (in_page (base display bs r + o) 1) as Hp by (apply (in_page_sub _ _ o 1 (pv_page Hvars r Hr)); lia).
  split; [|done]. by eapply session_ucell.
Qed.

Lemma page_cell_display l a s b o : session l a s -> in_page b 1 -> 0 <= o < 4000 -> page_cell j b <> VIDEO + o.
Proof.
  intros Hs Hb Ho. pose proof (session_pid _ _ _ _ _ _ _ _ Hs). pose proof (page_cell_high j b ltac:(lia) Hb).
  unfold VIDEO, EIGHT_MB in *. lia.
Qed.

Lemma area_cell l a s r o c :
  session l a s -> 0 <= o < size r -> cell (uview s) (base display bs r + o) = Some c ->
  r = ADisplay /\ c = VIDEO + o \/ r <> ADisplay /\ in_page (base display bs r + o) 1 /\ c = page_cell j (base display bs r + o).
Proof.
  intros Hs Ho. destruct (decide (r = ADisplay)) as [->|Hr].
  - cbn [base]. rewrite (display_cell l a s o Hs Ho). intros [= <-]. by left.
  - destruct (var_cell l a s r o Hs Hr Ho) as [-> Hp]. intros [= <-]. by right.
Qed.

Lemma vars_laid_out l a s : session l a s -> laid_out display bs (uview s).
Proof.
  intros Hs. split.
  - intros r o Ho. destruct (decide (r = ADisplay)) as [->|Hr]; [by eexists; eapply display_cell|].
    eexists. by eapply var_cell.
  - intros r o r' o' c Ho Ho' H1 H2. pose proof (area_cell l a s r o c Hs Ho H1) as E1.
    pose proof (area_cell l a s r' o' c Hs Ho' H2) as E2.
    destruct E1 as [[-> ->]|(Hr & Hp & ->)], E2 as [[-> E]|(Hr' & Hp' & E)].
    + split; [done|lia].
    + symmetry in E. by apply (page_cell_display l a s _ o Hs) in E.
    + by apply (page_cell_display l a s _ o' Hs) in E.
    + apply page_cell_inj in E. by apply (pv_apart Hvars).
Qed.

(** The program's list after steps that leave its variables alone. *)
Lemma stage_kept l l' L a a' A s s' :
  stage l L a A s -> session l' a' s' ->
  (forall b, in_page b 1 -> ~ off_vars b -> byte s' (page_cell j b) = byte s (page_cell j b)) -> stage l' L a' A s'.
Proof.
  intros [Hs (f & q & [Hc Hl _] & Hb & -> & -> & Hv)] Hs' Hk. split; [done|].
  set (f' := fun r o => if decide (r = ADisplay) then byte s' (VIDEO + o) else f r o).
  assert (forall r o, r <> ADisplay -> f' r o = f r o) as Ef by (intros r o Hr; unfold f'; by rewrite decide_False).
  destruct (blinking_ext display f f' q) as [Hb' EL]; [intros r o Hr _; apply Ef; intuition congruence|done|].
  exists f', q. split_and!; [|done|done|unfold item, w16; rewrite !Ef by done; done|done].
  split; [done| |done]. intros r o Ho. unfold f'. destruct (decide (r = ADisplay)) as [->|Hr].
  - rewrite (load_cell (uview s') _ (VIDEO + o)); [done|by eapply display_cell].
  - destruct (var_cell l' a' s' r o Hs' Hr Ho) as [Hx Hp]. rewrite (load_cell _ _ _ Hx).
    destruct (var_cell l a s r o Hs Hr Ho) as [Hy _]. rewrite <- (Hl r o Ho), (load_cell _ _ _ Hy). f_equal.
    apply (Hk _ Hp). intros Hoff. by apply (Hoff r o).
Qed.

(** A step of the program on its variables. *)
Lemma stage_um {R} (c : ST umem R) l L L' a a' A A' s v' r m' :
  stage l L a A s -> c (uview s) = Ok (r, m') -> fish display bs (uview s) L' v' A' m' ->
  tty_x a' = tty_x a -> tty_y a' = tty_y a ->
  (forall pos, 0 <= pos < 2000 -> v' (2 * pos) = tty_cell a' pos) ->
  exists s', um c s = Ok (r, s') /\ stage l L' a' A' s' /\
    forall b, in_page b 1 -> off_vars b -> byte s' (page_cell j b) = byte s (page_cell j b).
Proof.
  intros [Hs _] Hrun (f & q & [Hc Hl Hrest] & Hb & -> & -> & Hv) Ex Ey Ea. unfold um. rewrite Hrun.
  set (s' := set mem (um_phys m') s). exists s'. split; [done|].
  assert (forall c, byte s' c = peek m' c) as Eb by done.
  assert (forall c, (forall r o, 0 <= o < size r -> cell (uview s) (base display bs r + o) <> Some c) -> byte s' c = byte s c) as Hout
    by (intros x Hx; by apply Hrest).
  assert (forall o, 0 <= o < 4000 -> byte s' (VIDEO + o) = v' o) as Hdisp.
  { intros o Ho. pose proof (Hl ADisplay o Ho) as E. unfold load in E. rewrite Hc in E. cbn [base] in E.
    rewrite (display_cell l a s o Hs Ho) in E.
    assert (peek m' (VIDEO + o) = f ADisplay o) as E' by (by injection E). rewrite Eb, E'. by apply Hv. }
  assert (forall x, x < EIGHT_MB -> ~ (VIDEO <= x < VIDEO + 4000) -> byte s' x = byte s x) as Hlow.
  { intros x Hx Hn. apply Hout. intros r0 o Ho E. pose proof (session_pid _ _ _ _ _ _ _ _ Hs).
    destruct (area_cell l a s r0 o x Hs Ho E) as [[-> ->]|(_ & Hp & ->)]; [cbn in Ho; lia|].
    pose proof (page_cell_high j _ ltac:(lia) Hp). lia. }
  split.
  - split.
    + pose proof Hs as [H1 H2 H3 H4 H5 H6 H7 H8 H9 H10 H11]. split; try done.
      * by apply (running_prc j l s).
      * by destruct H3.
      * by apply (cur_terminal_prc s' s).
      * by rewrite Ex.
      * by rewrite Ey.
      * intros pos Hpos. unfold NUM_COLS, NUM_ROWS in Hpos. rewrite Hdisp by lia. apply Ea. lia.
      * eapply disk_kept; [exact Hs|done|done|]. intros x Hx. apply Hlow; unfold VIDEO, FOUR_MB, EIGHT_MB in *; lia.
    + exists f, q. split_and!; [|done|done|done|intros k Hk; rewrite Hdisp by done; by apply Hv].
      split; [done| |done]. intros r' o Ho. rewrite <- (Hl r' o Ho). unfold load. by rewrite Hc.
  - intros b Hp Hoff. apply Hout. intros r' o Ho E.
    destruct (area_cell l a s r' o _ Hs Ho E) as [[-> E']|(Hr & _ & E')].
    + by apply (page_cell_display l a s b o Hs Hp Ho).
    + apply page_cell_inj in E'. by apply (Hoff r' o).
Qed.

(** *** A frame that is read *)

(** What is left of the frame, the character that was read last, and whether the
    end was met. *)
Record reader := Reader { rd_rest : list Z; rd_cur : Z; rd_eof : bool }.

(** The next character, unless the line is at its end. *)
Definition pull (r : reader) : reader :=
  if rd_cur r =? ch_newline then r
  else match rd_rest r with
       | [] => Reader [] ch_newline true
       | x :: rest => Reader rest x (rd_eof r)
       end.

(** Descriptor [fd] and the variable at [ca] hold the reader [r] of the file [ino]. *)
Record reading (fd ca ino : Z) (c : list Z) (r : reader) l s : Prop := {
  rg_entry : exists e, at_ l fd = Some e /\
    (fd_flg e = UNUSED_FLAG /\ rd_eof r = true /\ rd_cur r = ch_newline \/
     exists pre, c = pre ++ rd_rest r /\ e = file_entry ino (Z.of_nat (length pre)));
  rg_cur : page_bytes j s ca [rd_cur r];
  rg_byte : 0 <= rd_cur r < 256
}.

(** Where the variables of [add_frames] are. *)
Definition char_var (ca : Z) : Prop := in_page ca 1 /\ off_vars ca.

Lemma reading_kept fd ca ino c r l l' s s' :
  reading fd ca ino c r l s -> at_ l' fd = at_ l fd -> byte s' (page_cell j ca) = byte s (page_cell j ca) ->
  reading fd ca ino c r l' s'.
Proof.
  intros [He Hc Hb] El Es. split; [by rewrite El| |done]. intros [|i] v Hv; [|done].
  rewrite Z.add_0_r, Es. specialize (Hc 0%nat v Hv). by rewrite Z.add_0_r in Hc.
Qed.

Lemma stage_block l l' L a A s s' ca n :
  stage l L a A s -> session l' a s' -> page_kept j ca n s s' -> (forall b, ca <= b < ca + n -> off_vars b) -> stage l' L a A s'.
Proof.
  intros Hst Hs' Hk Hoff. eapply stage_kept; [exact Hst|done|]. intros b Hb Hn. apply Hk; [done|].
  intros Hin. by apply Hn, Hoff.
Qed.

(** A store to a character variable. *)
Lemma char_store l L a A s ca x :
  stage l L a A s -> char_var ca -> 0 <= x < 256 ->
  exists s', ustore ca x s = Ok (tt, s') /\ stage l L a A s' /\ page_kept j ca 1 s s' /\ page_bytes j s' ca [x].
Proof.
  intros Hst [Hp Hoff] Hx. destruct (ustore_run fsize im t VIDEO j l a s ca x (sg_session _ _ _ _ _ Hst) Hp Hx)
    as (s' & Hrun & Hs' & Hk & Hb). exists s'. split_and!; [done| |done|done].
  eapply stage_block; [exact Hst|done|exact Hk|]. intros b Hb'. by replace b with ca by lia.
Qed.

Lemma char_load l L a A s ca x : stage l L a A s -> char_var ca -> page_bytes j s ca [x] -> uload ca s = Ok (x, s).
Proof. intros Hst [Hp _] Hb. eapply uload_run; [apply Hst|done|done]. Qed.

Lemma frame_char_run l L a A s fd ca ino c r :
  stage l L a A s -> reading fd ca ino c r l s -> char_var ca -> 2 <= fd < 8 -> at_ (im_files im) ino = Some c ->
  exists l' s', frame_char fd ca (Z.b2z (rd_eof r)) s = Ok (Z.b2z (rd_eof (pull r)), s') /\ stage l' L a A s' /\
    reading fd ca ino c (pull r) l' s' /\ (forall k, 0 <= k -> k <> fd -> at_ l' k = at_ l k) /\ page_kept j ca 1 s s'.
Proof.
  intros Hst Hrd Hca Hfd Hc. pose proof Hrd as [(e & He & Hcase) Hcur Hbyte]. unfold frame_char.
  rewrite (bind_ok _ _ _ _ _ (char_load l L a A s ca _ Hst Hca Hcur)). unfold pull.
  destruct (Z.eqb_spec (rd_cur r) ch_newline) as [E|E]; cbn [negb].
  { exists l, s. split_and!; done. }
  destruct Hcase as [(_ & _ & ?)|(pre & Ec & ->)]; [done|].
  assert (length c = (length pre + length (rd_rest r))%nat) as Elen by (by rewrite Ec, length_app).
  destruct (read_file fsize im t VIDEO j l a s fd ca 1 ino (Z.of_nat (length pre)) c (sg_session _ _ _ _ _ Hst) He)
    as (s1 & Hrun & Hs1 & Hk & Hb); [lia|apply Hca|lia|done|lia|].
  assert (file_slice c (Z.of_nat (length pre)) 1 = take 1 (rd_rest r)) as Eout
    by (unfold file_slice; by rewrite Nat2Z.id, Ec, drop_app_length). rewrite Eout in *.
  assert (0 <= fd < Z.of_nat (length l)) as Hfdl by (by eapply at_inv).
  assert (stage (upd l fd (file_entry ino (Z.of_nat (length pre) + Z.of_nat (length (take 1 (rd_rest r)))))) L a A s1) as Hst1
    by (eapply stage_block; [exact Hst|done|exact Hk|]; intros b Hb'; replace b with ca by lia; apply Hca).
  rewrite (bind_ok _ _ _ _ _ Hrun). destruct (rd_rest r) as [|x rest] eqn:Er; cbn [take length] in *.
  - destruct (char_store _ L a A s1 ca ch_newline Hst1 Hca) as (s2 & Hrun2 & Hst2 & Hk2 & Hb2); [unfold ch_newline; lia|].
    change (Z.of_nat 0 =? 0) with true. cbv iota. rewrite (bind_ok _ _ _ _ _ Hrun2).
    eexists _, s2. split_and!; [done|exact Hst2| |intros k Hk' Hne; by rewrite at_upd_ne by (done || lia)|by eapply page_kept_trans].
    split; [|done|unfold ch_newline; simpl; lia]. eexists. split; [apply at_upd_eq; lia|]. right. exists pre. cbn [rd_rest].
    split; [done|]. by rewrite Z.add_0_r.
  - change (Z.of_nat 1 =? 0) with false. cbv iota.
    eexists _, s1. split_and!; [done|exact Hst1| |intros k Hk' Hne; by rewrite at_upd_ne by (done || lia)|done].
    split; cbn [rd_cur rd_rest]; [|by rewrite take_0 in Hb|].
    + eexists. split; [apply at_upd_eq; lia|]. right. exists (pre ++ [x]). cbn [rd_rest]. rewrite <- app_assoc. split; [done|].
      rewrite length_app, take_0. cbn [length]. f_equal. lia.
    + eapply (dk_bytes _ _ _ (se_disk _ _ _ _ _ _ _ _ (sg_session _ _ _ _ _ Hst))); [exact Hc|]. rewrite Ec.
      apply elem_of_app. right. apply list_elem_of_here.
Qed.

(** The end of a line: the next line starts, or the file is closed. *)
Definition next_line (r : reader) : reader := Reader (rd_rest r) (if rd_eof r then ch_newline else 48) (rd_eof r).

Lemma frame_end_run l L a A s fd ca ino c r :
  stage l L a A s -> reading fd ca ino c r l s -> char_var ca -> 2 <= fd < 8 ->
  exists l' s', frame_end fd ca (Z.b2z (rd_eof r)) s = Ok (tt, s') /\ stage l' L a A s' /\
    reading fd ca ino c (next_line r) l' s' /\ (forall k, 0 <= k -> k <> fd -> at_ l' k = at_ l k) /\ page_kept j ca 1 s s'.
Proof.
  intros Hst [(e & He & Hcase) Hcur Hbyte] Hca Hfd. unfold frame_end, next_line.
  assert (0 <= fd < Z.of_nat (length l)) as Hfdl by (by eapply at_inv).
  destruct (rd_eof r) eqn:Eeof.
  - change (negb (Z.b2z true =? 0)) with true. cbv iota.
    destruct (char_store l L a A s ca ch_newline Hst Hca) as (s1 & Hrun & Hst1 & Hk & Hb); [unfold ch_newline; lia|].
    rewrite (bind_ok _ _ _ _ _ Hrun). destruct Hcase as [(Hu & _ & _)|(pre & Ec & ->)].
    + exists l, s1. split_and!; [|exact Hst1| |done|done].
      * assert (unopened l fd) as Hun by (split; [lia|split; [lia|]]; intros _; by exists e).
        by rewrite (bind_ok _ _ _ _ _ (close_refused fsize im t VIDEO j l a s1 fd (sg_session _ _ _ _ _ Hst1) Hun)).
      * split; [|done|unfold ch_newline; simpl; lia]. exists e. split; [done|]. by left.
    + destruct (close_run fsize im t VIDEO j l a s1 fd _ (sg_session _ _ _ _ _ Hst1) Hfd He) as (s2 & Hrun2 & Hs2 & Hk2); [done|done|].
      rewrite (bind_ok _ _ _ _ _ Hrun2). eexists _, s2.
      split_and!; [done| | |intros k Hk' Hne; by rewrite at_upd_ne by (done || lia)|
        eapply page_kept_trans; [exact Hk|]; eapply page_kept_weaken; [exact Hk2|lia]].
      * eapply stage_block; [exact Hst1|exact Hs2|exact Hk2|]. intros b Hb'. lia.
      * split; [|eapply page_bytes_kept; [exact Hk2|apply Hca|destruct Hca as [[? _] _]; unfold PROCESS_VIRTUAL in *; simpl; lia|done]|
          unfold ch_newline; simpl; lia]. eexists. split; [apply at_upd_eq; lia|]. by left.
  - change (negb (Z.b2z false =? 0)) with false. cbv iota. destruct Hcase as [(_ & ? & _)|Hopen]; [done|].
    destruct (char_store l L a A s ca 48 Hst Hca) as (s1 & Hrun & Hst1 & Hk & Hb); [lia|].
    exists l, s1. split_and!; [done|done| |done|done]. split; [|done|simpl; lia]. exists e. split; [done|]. by right.
Qed.

(** *** Adding the blinker of two characters *)

Lemma vars_array : 0 < blink_array /\ blink_array + 16 * 2000 <= 2 ^ 32.
Proof.
  destruct (pv_page Hvars AArray) as [H1 H2]; [done|]. cbn in H1, H2. unfold PROCESS_VIRTUAL, FOUR_MB in *. lia.
Qed.

Lemma stage_shows l L a A s pos : stage l L a A s -> 0 <= pos < 2000 -> byte s (VIDEO + 2 * pos) = tty_cell a pos.
Proof. intros [Hs _] Hpos. apply (se_shows _ _ _ _ _ _ _ _ Hs). unfold NUM_COLS, NUM_ROWS. lia. Qed.

(** Bytes of the page beside the variables stay. *)
Definition beside s s' : Prop := forall b, in_page b 1 -> off_vars b -> byte s' (page_cell j b) = byte s (page_cell j b).

Lemma beside_trans s1 s2 s3 : beside s1 s2 -> beside s2 s3 -> beside s1 s3.
Proof. intros E1 E2 b Hb Ho. by rewrite (E2 b Hb Ho), (E1 b Hb Ho). Qed.

Lemma stage_set8 l L a A s o c :
  stage l L a A s -> o = ON_CHAR \/ o = OFF_CHAR -> 0 <= c < 256 ->
  exists s', ustore (bs + o) c s = Ok (tt, s') /\ stage l L a (set8 o c A) s' /\ beside s s'.
Proof.
  intros Hst Ho Hc.
  destruct (fish_set8 display bs (uview s) (vars_laid_out l a s (sg_session _ _ _ _ _ Hst)) vars_array L _ A (uview s) o c
    (sg_fish _ _ _ _ _ Hst) Ho Hc) as (m' & Hrun & Hf).
  apply (stage_um _ l L L a a A _ s _ tt m' Hst Hrun Hf eq_refl eq_refl). intros pos Hpos. by eapply stage_shows.
Qed.

Lemma stage_set16 l L a A s o c :
  stage l L a A s -> o = LOCATION \/ o = ON_LENGTH \/ o = OFF_LENGTH ->
  exists s', um (st16 (bs + o) c) s = Ok (tt, s') /\ stage l L a (set16 o c A) s' /\ beside s s'.
Proof.
  intros Hst Ho.
  destruct (fish_set16 display bs (uview s) (vars_laid_out l a s (sg_session _ _ _ _ _ Hst)) vars_array L _ A (uview s) o c
    (sg_fish _ _ _ _ _ Hst) Ho) as (m' & Hrun & Hf).
  apply (stage_um _ l L L a a A _ s _ tt m' Hst Hrun Hf eq_refl eq_refl). intros pos Hpos. by eapply stage_shows.
Qed.

Lemma stage_add l L a A s :
  stage l L a A s -> 0 < b_location A < 2000 -> Z.of_nat (length L) < 2000 ->
  exists s', um (mp1_ioctl bs RTC_ADD) s = Ok (0, s') /\ stage l (fresh A :: L) (tty_shown a A) A s' /\ beside s s'.
Proof.
  intros Hst HA HL.
  destruct (add_refines display bs (uview s) (vars_laid_out l a s (sg_session _ _ _ _ _ Hst)) vars_array L _ A (uview s)
    (sg_fish _ _ _ _ _ Hst) ltac:(lia)) as (r & m' & Hrun & HQ).
  rewrite (proj2 (Z.leb_gt _ _)), (proj2 (Z.leb_gt _ _)) in HQ by lia. destruct HQ as [-> Hf].
  apply (stage_um _ l L _ a _ A A s _ 0 m' Hst Hrun Hf); [done|done|].
  intros pos Hpos. unfold shown_at, tty_shown. cbn [tty_cell].
  destruct (Z.eqb_spec (2 * pos) (2 * b_location A)), (Z.eqb_spec pos (b_location A)); try lia. by eapply stage_shows.
Qed.

(** The argument as [add_frames] fills it. *)
Definition framed A : Prop := b_on_length A = 15 /\ b_off_length A = 15.

(** Blinkers on the display, with room for them. *)
Definition fits (bl : list blinker) L : Prop :=
  Forall (fun b => 0 < b_location b < 2000) bl /\ Z.of_nat (length bl + length L) <= 2000.

Lemma add_char l L a A s row col x y :
  stage l L a A s -> framed A -> 0 <= x < 256 -> 0 <= y < 256 -> fits (overlay_char row col x y) L ->
  exists A' s', when (negb ((x =? ch_space) && (y =? ch_space)))
      (ustore (bs + ON_CHAR) x ;;; ustore (bs + OFF_CHAR) y ;;;
       um (st16 (bs + LOCATION) (row * 80 + col + 40)) ;;;
       um (mp1_ioctl bs RTC_ADD) ≫= fun _ => mret tt) s = Ok (tt, s') /\
    stage l (rev (overlay_char row col x y) ++ L) (fold_left tty_shown (overlay_char row col x y) a) A' s' /\ framed A' /\ beside s s'.
Proof.
  intros Hst [HA1 HA2] Hx Hy [Hloc Hlen]. unfold overlay_char in *. destruct (_ && _); cbn [negb when]; [by exists A, s|].
  inversion_clear Hloc as [|? ? Hl _]. cbn [b_location length] in *.
  destruct (stage_set8 l L a A s ON_CHAR x Hst ltac:(by left) Hx) as (s1 & R1 & Hst1 & K1).
  destruct (stage_set8 l L a _ s1 OFF_CHAR y Hst1 ltac:(by right) Hy) as (s2 & R2 & Hst2 & K2).
  destruct (stage_set16 l L a _ s2 LOCATION (row * 80 + col + 40) Hst2 ltac:(by left)) as (s3 & R3 & Hst3 & K3).
  set (A3 := set16 LOCATION _ _) in *.
  assert (A3 = Blinker (row * 80 + col + 40) x y 15 15 (b_countdown A) (b_status A)) as EA
    by (unfold A3, set16, set8; cbn; by rewrite HA1, HA2, u16_small by lia).
  destruct (stage_add l L a A3 s3 Hst3) as (s4 & R4 & Hst4 & K4); [by rewrite EA|lia|].
  exists A3, s4. split_and!; [| |by rewrite EA|by repeat (eapply beside_trans; [eassumption|])].
  - by rewrite (bind_ok _ _ _ _ _ R1), (bind_ok _ _ _ _ _ R2), (bind_ok _ _ _ _ _ R3), (bind_ok _ _ _ _ _ R4).
  - rewrite EA in *. exact Hst4.
Qed.

(** *** A line *)

Fixpoint first_line (c : list Z) : list Z :=
  match c with [] => [] | x :: c' => if x =? ch_newline then [] else x :: first_line c' end.

(** What follows the line, and whether the frame ends with it. *)
Fixpoint after_line (c : list Z) : list Z * bool :=
  match c with [] => ([], true) | x :: c' => if x =? ch_newline then (c', false) else after_line c' end.

(** What is left of the line, and the reader at its end. *)
Definition line_of (r : reader) : list Z := if rd_cur r =? ch_newline then [] else first_line (rd_rest r).

Definition finish_line (r : reader) : reader :=
  if rd_cur r =? ch_newline then r
  else let '(rest, e) := after_line (rd_rest r) in Reader rest ch_newline (e || rd_eof r).

(** The first characters: of the lines, and of the readers after a step. *)
Lemma pull_line r :
  finish_line (pull r) = finish_line r /\ line_of (pull r) = tail (line_of r) /\
  rd_cur (pull r) = default ch_newline (head (line_of r)) /\ (forall x, head (line_of r) = Some x -> x <> ch_newline).
Proof.
  unfold pull, line_of, finish_line. destruct (rd_cur r =? ch_newline) eqn:E; [rewrite E; split_and!; try done; by apply Z.eqb_eq|].
  destruct r as [[|x rest] cur eof]; cbn [rd_rest rd_cur rd_eof first_line after_line] in *; [done|].
  destruct (x =? ch_newline) eqn:Ex.
  - apply Z.eqb_eq in Ex as ->. cbn. done.
  - split_and!; [done|done|done|]. intros x' [= <-]. by apply Z.eqb_neq.
Qed.

Lemma overlay_line_S n row col xs ys :
  overlay_line (S n) row col xs ys = overlay_char row col (default ch_space (head xs)) (default ch_space (head ys)) ++
    overlay_line n row (col + 1) (tail xs) (tail ys).
Proof. done. Qed.

Section overlay.
Context (fd0 fd1 c0 c1 ino0 ino1 : Z) (f0 f1 : list Z).
Context (Hc0 : char_var c0) (Hc1 : char_var c1) (Hne : c0 <> c1).
Context (Hfd0 : 2 <= fd0 < 8) (Hfd1 : 2 <= fd1 < 8) (Hfd : fd0 <> fd1).
Context (Hf0 : at_ (im_files im) ino0 = Some f0) (Hf1 : at_ (im_files im) ino1 = Some f1).

(** Both frames, and the list with the screen. *)
Record overlaying (r0 r1 : reader) L a s : Prop := {
  ov_stage : exists l A, stage l L a A s /\ framed A /\ reading fd0 c0 ino0 f0 r0 l s /\ reading fd1 c1 ino1 f1 r1 l s
}.

Lemma frame_chars_run r0 r1 L a s :
  overlaying r0 r1 L a s ->
  exists s1 s', frame_char fd0 c0 (Z.b2z (rd_eof r0)) s = Ok (Z.b2z (rd_eof (pull r0)), s1) /\
    frame_char fd1 c1 (Z.b2z (rd_eof r1)) s1 = Ok (Z.b2z (rd_eof (pull r1)), s') /\ overlaying (pull r0) (pull r1) L a s'.
Proof.
  intros [(l & A & Hst & HA & Hr0 & Hr1)].
  destruct (frame_char_run l L a A s fd0 c0 ino0 f0 r0 Hst Hr0 Hc0 Hfd0 Hf0) as (l1 & s1 & R1 & Hst1 & Hr0' & Hl1 & K1).
  assert (reading fd1 c1 ino1 f1 r1 l1 s1) as Hr1'
    by (eapply reading_kept; [exact Hr1|apply Hl1; (lia || done)|apply K1; [apply Hc1|lia]]).
  destruct (frame_char_run l1 L a A s1 fd1 c1 ino1 f1 r1 Hst1 Hr1' Hc1 Hfd1 Hf1) as (l2 & s2 & R2 & Hst2 & Hr1'' & Hl2 & K2).
  exists s1, s2. split_and!; [done|done|]. split. exists l2, A. split_and!; [done..| |done].
  eapply reading_kept; [exact Hr0'|apply Hl2; (lia || done)|apply K2; [apply Hc0|lia]].
Qed.

Lemma frame_ends_run r0 r1 L a s :
  overlaying r0 r1 L a s ->
  exists s1 s', frame_end fd0 c0 (Z.b2z (rd_eof r0)) s = Ok (tt, s1) /\
    frame_end fd1 c1 (Z.b2z (rd_eof r1)) s1 = Ok (tt, s') /\ overlaying (next_line r0) (next_line r1) L a s'.
Proof.
  intros [(l & A & Hst & HA & Hr0 & Hr1)].
  destruct (frame_end_run l L a A s fd0 c0 ino0 f0 r0 Hst Hr0 Hc0 Hfd0) as (l1 & s1 & R1 & Hst1 & Hr0' & Hl1 & K1).
  assert (reading fd1 c1 ino1 f1 r1 l1 s1) as Hr1'
    by (eapply reading_kept; [exact Hr1|apply Hl1; (lia || done)|apply K1; [apply Hc1|lia]]).
  destruct (frame_end_run l1 L a A s1 fd1 c1 ino1 f1 r1 Hst1 Hr1' Hc1 Hfd1) as (l2 & s2 & R2 & Hst2 & Hr1'' & Hl2 & K2).
  exists s1, s2. split_and!; [done|done|]. split. exists l2, A. split_and!; [done..| |done].
  eapply reading_kept; [exact Hr0'|apply Hl2; (lia || done)|apply K2; [apply Hc0|lia]].
Qed.

(** The two characters that are loaded, and what is made of them. *)
Lemma shown_char r : (forall x, head (line_of r) = Some x -> x <> ch_newline) ->
  let x := default ch_newline (head (line_of r)) in
  let h := default ch_space (head (line_of r)) in
  (x =? ch_newline) = bool_decide (line_of r = []) /\ (if x =? ch_newline then ch_space else x) = h /\
  (negb (x =? ch_space) && negb (x =? ch_newline)) = negb (h =? ch_space).
Proof.
  intros Hx. destruct (line_of r) as [|x ln]; [done|]. specialize (Hx x eq_refl). cbn [head default from_option id].
  rewrite (proj2 (Z.eqb_neq x ch_newline) Hx). rewrite bool_decide_false by done. by rewrite andb_true_r.
Qed.

Lemma column_round bs' row col r0 r1 L a s :
  bs' = bs -> overlaying r0 r1 L a s ->
  let bl := overlay_char row col (default ch_space (head (line_of r0))) (default ch_space (head (line_of r1))) in
  let more := negb (bool_decide (line_of r0 = []) && bool_decide (line_of r1 = [])) in
  fits bl L ->
  exists s', frame_column fd0 fd1 c0 c1 bs' row (col, Z.b2z (rd_eof r0), Z.b2z (rd_eof r1)) s =
      Ok (if more then inl (col + 1, Z.b2z (rd_eof (pull r0)), Z.b2z (rd_eof (pull r1)))
          else inr (Z.b2z (rd_eof (pull r0)), Z.b2z (rd_eof (pull r1))), s') /\
    overlaying (pull r0) (pull r1) (rev bl ++ L) (fold_left tty_shown bl a) s'.
Proof.
  intros -> Hov bl more Hfits. destruct (frame_chars_run r0 r1 L a s Hov) as (s1 & s2 & R1 & R2 & [(l & A & Hst & HA & Hr0 & Hr1)]).
  unfold frame_column. rewrite (bind_ok _ _ _ _ _ R1), (bind_ok _ _ _ _ _ R2).
  rewrite (bind_ok _ _ _ _ _ (char_load l L a A s2 c0 _ Hst Hc0 (rg_cur _ _ _ _ _ _ _ Hr0))).
  rewrite (bind_ok _ _ _ _ _ (char_load l L a A s2 c1 _ Hst Hc1 (rg_cur _ _ _ _ _ _ _ Hr1))).
  pose proof (rg_byte _ _ _ _ _ _ _ Hr0) as Hx. pose proof (rg_byte _ _ _ _ _ _ _ Hr1) as Hy.
  destruct (pull_line r0) as (_ & _ & E0 & Hn0). destruct (pull_line r1) as (_ & _ & E1 & Hn1). rewrite E0 in *. rewrite E1 in *.
  destruct (shown_char r0 Hn0) as (-> & -> & ->). destruct (shown_char r1 Hn1) as (-> & -> & ->).
  set (x := default ch_space (head (line_of r0))) in *. set (y := default ch_space (head (line_of r1))) in *.
  assert (0 <= x < 256 /\ 0 <= y < 256) as [Hx' Hy'].
  { unfold x, y. split; [destruct (line_of r0)|destruct (line_of r1)]; cbn in *; (done || (unfold ch_space; lia)). }
  destruct (bool_decide (line_of r0 = []) && bool_decide (line_of r1 = [])) eqn:Eend; unfold more; cbn [negb].
  - exists s2. split; [done|]. assert (bl = []) as ->.
    { apply andb_prop in Eend as [E0'%bool_decide_eq_true E1'%bool_decide_eq_true]. unfold bl, x, y. by rewrite E0', E1'. }
    split. by exists l, A.
  - rewrite <- negb_andb. destruct (add_char l L a A s2 row col x y Hst HA Hx' Hy' Hfits) as (A' & s3 & R3 & Hst3 & HA' & K3).
    exists s3. rewrite (bind_ok _ _ _ _ _ R3). split; [done|]. split. exists l, A'. split_and!; [done|done|..].
    + eapply reading_kept; [exact Hr0|done|apply K3; apply Hc0].
    + eapply reading_kept; [exact Hr1|done|apply K3; apply Hc1].
Qed.

(** The line. *)
Lemma overlay_line_short n row col xs ys :
  (length xs <= n)%nat -> (length ys <= n)%nat -> overlay_line n row col xs ys = overlay_line (length xs `max` length ys) row col xs ys.
Proof.
  revert col xs ys. induction n as [|n IH]; intros col xs ys Hx Hy; [by destruct xs, ys; simpl in *; try lia|].
  destruct xs as [|x xs], ys as [|y ys]; cbn [length] in *.
  - cbn. rewrite (IH (col + 1) [] []) by (simpl; lia). done.
  - cbn [Nat.max]. rewrite !overlay_line_S. cbn [tail]. rewrite (IH _ [] ys) by (simpl; lia). done.
  - rewrite Nat.max_0_r, !overlay_line_S. cbn [tail]. rewrite (IH _ xs []) by (simpl; lia). by rewrite Nat.max_0_r.
  - cbn [Nat.max]. rewrite !overlay_line_S. cbn [tail]. by rewrite (IH _ xs ys) by lia.
Qed.

Lemma fits_app bl bl' L : fits (bl ++ bl') L -> fits bl L /\ fits bl' (rev bl ++ L).
Proof.
  intros [[H1 H2]%Forall_app Hlen]. rewrite length_app in Hlen. split; split; try done; rewrite ?length_app, ?length_rev; lia.
Qed.

Lemma line_run row r0 r1 L a s :
  overlaying r0 r1 L a s -> Z.of_nat (length (line_of r0)) < 2 ^ 31 -> Z.of_nat (length (line_of r1)) < 2 ^ 31 ->
  let bl := overlay_lines row (line_of r0) (line_of r1) in
  fits bl L ->
  exists s', loop (frame_column fd0 fd1 c0 c1 bs row) (0, Z.b2z (rd_eof r0), Z.b2z (rd_eof r1)) s =
      Ok ((Z.b2z (rd_eof (finish_line r0)), Z.b2z (rd_eof (finish_line r1))), s') /\
    overlaying (finish_line r0) (finish_line r1) (rev bl ++ L) (fold_left tty_shown bl a) s'.
Proof.
  intros Hov Hl0 Hl1 bl Hfits.
  destruct (wp_inv (loop (frame_column fd0 fd1 c0 c1 bs row) (0, Z.b2z (rd_eof r0), Z.b2z (rd_eof r1))) (fun r s' =>
    r = (Z.b2z (rd_eof (finish_line r0)), Z.b2z (rd_eof (finish_line r1))) /\
    overlaying (finish_line r0) (finish_line r1) (rev bl ++ L) (fold_left tty_shown bl a) s') s)
    as (r & s' & Hrun & -> & Hov'); [|by exists s'].
  apply (wp_loop_bound _ (fun k x s' => exists n q0 q1 col L1 a1, k = Z.of_nat n /\
    x = (col, Z.b2z (rd_eof q0), Z.b2z (rd_eof q1)) /\ n = (length (line_of q0) `max` length (line_of q1))%nat /\
    overlaying q0 q1 L1 a1 s' /\ finish_line q0 = finish_line r0 /\ finish_line q1 = finish_line r1 /\
    let bl' := overlay_line n row col (line_of q0) (line_of q1) in
    fits bl' L1 /\ rev bl' ++ L1 = rev bl ++ L /\ fold_left tty_shown bl' a1 = fold_left tty_shown bl a) _)
    with (k := Z.of_nat (length (line_of r0) `max` length (line_of r1))).
  - intros k x s1 (n & q0 & q1 & col & L1 & a1 & -> & -> & En & Hov1 & E0 & E1 & Hf & EL & Ea).
    destruct (pull_line q0) as (P0 & T0 & C0 & _). destruct (pull_line q1) as (P1 & T1 & C1 & _).
    set (ch := overlay_char row col (default ch_space (head (line_of q0))) (default ch_space (head (line_of q1)))).
    destruct n as [|n].
    + assert (line_of q0 = [] /\ line_of q1 = []) as [N0 N1] by (split; apply nil_length_inv; lia).
      destruct (column_round bs row col q0 q1 L1 a1 s1 eq_refl Hov1) as (s2 & Hrun & Hov2); [by rewrite N0, N1|].
      rewrite N0, N1 in Hrun, Hov2. cbn in Hrun, Hov2. eapply wp_run; [exact Hrun|].
      assert (pull q0 = finish_line r0 /\ pull q1 = finish_line r1) as [Q0 Q1].
      { rewrite <- E0, <- E1, <- P0, <- P1. unfold finish_line. by rewrite C0, C1, N0, N1. }
      rewrite Q0, Q1 in *. split; [done|]. cbn in EL, Ea. by rewrite <- EL, <- Ea.
    + rewrite overlay_line_S in Hf, EL, Ea. fold ch in Hf, EL, Ea. apply fits_app in Hf as [Hfa Hfb].
      destruct (column_round bs row col q0 q1 L1 a1 s1 eq_refl Hov1 Hfa) as (s2 & Hrun & Hov2). fold ch in Hov2.
      assert (bool_decide (line_of q0 = []) && bool_decide (line_of q1 = []) = false) as Eend.
      { apply andb_false_iff. destruct (line_of q0); [right|by left]. destruct (line_of q1); [simpl in En; lia|done]. }
      rewrite Eend in Hrun. cbn [negb] in Hrun. eapply wp_run; [exact Hrun|]. exists (Z.of_nat n). split; [|lia].
      exists n, (pull q0), (pull q1), (col + 1), (rev ch ++ L1), (fold_left tty_shown ch a1). cbv zeta. rewrite P0, P1, T0, T1.
      split_and!; try done.
      * destruct (line_of q0), (line_of q1); simpl in *; lia.
      * rewrite <- EL, rev_app_distr, <- app_assoc. done.
      * rewrite <- Ea. by rewrite fold_left_app.
  - exists (length (line_of r0) `max` length (line_of r1))%nat, r0, r1, 0, L, a. done.
  - lia.
Qed.

(** *** The rows *)

(** The lines that a reader at the start of a line has before it. *)
Definition rows_of (r : reader) : list (list Z) := if rd_eof r then [] else frame_lines (rd_rest r).

Definition starts (r : reader) : Prop := rd_cur r = if rd_eof r then ch_newline else 48.

Lemma frame_lines_first c :
  frame_lines c = first_line c :: (let '(rest, e) := after_line c in if e then [] else frame_lines rest).
Proof.
  induction c as [|x c IH]; [done|]. cbn [frame_lines first_line after_line]. destruct (x =? ch_newline); [done|]. by rewrite IH.
Qed.

Lemma rows_step r : starts r ->
  line_of r = default [] (head (rows_of r)) /\ starts (next_line (finish_line r)) /\
  rows_of (next_line (finish_line r)) = tail (rows_of r).
Proof.
  intros Hs. unfold starts, line_of, rows_of, finish_line in *. rewrite Hs. destruct (rd_eof r) eqn:Ee.
  - cbn. unfold next_line. cbn [rd_eof rd_cur]. by rewrite Ee.
  - cbn [Z.eqb]. change (48 =? ch_newline) with false. cbv iota. rewrite frame_lines_first.
    destruct (after_line (rd_rest r)) as [rest e]. cbn. by rewrite orb_false_r.
Qed.

Lemma rows_nil r : rows_of r = [] <-> rd_eof r = true.
Proof. unfold rows_of. destruct (rd_eof r); [done|]. rewrite frame_lines_first. done. Qed.

Lemma length_first_line c : (length (first_line c) <= length c)%nat.
Proof. induction c as [|x c IH]; [done|]. cbn. destruct (_ =? _); simpl; lia. Qed.

Lemma length_frame_lines c : (length (frame_lines c) <= S (length c))%nat.
Proof.
  induction c as [|x c IH]; [done|]. cbn [frame_lines length]. destruct (_ =? _); simpl; [lia|].
  destruct (frame_lines c); simpl in *; lia.
Qed.

Lemma line_bound r0 r1 L a s :
  overlaying r0 r1 L a s -> Z.of_nat (length (line_of r0)) < 2 ^ 31 /\ Z.of_nat (length (line_of r1)) < 2 ^ 31.
Proof.
  intros [(l & A & [Hs _] & _ & Hr0 & Hr1)]. pose proof (dk_rep _ _ _ (se_disk _ _ _ _ _ _ _ _ Hs)) as Hrep.
  assert (forall fd ca ino c r, at_ (im_files im) ino = Some c -> reading fd ca ino c r l s -> Z.of_nat (length (line_of r)) < 2 ^ 31) as Hall.
  { intros fd ca ino c r Hc [(e & _ & Hcase) _ _]. pose proof (file_length _ _ _ _ _ _ Hrep Hc). unfold line_of.
    destruct (rd_cur r =? ch_newline) eqn:E; [simpl; lia|]. pose proof (length_first_line (rd_rest r)).
    destruct Hcase as [(_ & _ & Hx)|(pre & -> & _)]; [by rewrite Hx in E|]. rewrite length_app in *. lia. }
  split; [by apply (Hall fd0 c0 ino0 f0)|by apply (Hall fd1 c1 ino1 f1)].
Qed.

Lemma row_round row r0 r1 L a s :
  overlaying r0 r1 L a s -> starts r0 -> starts r1 -> rd_eof r0 && rd_eof r1 = false ->
  let bl := overlay_lines row (line_of r0) (line_of r1) in
  fits bl L ->
  exists s', frame_row fd0 fd1 c0 c1 bs (row, Z.b2z (rd_eof r0), Z.b2z (rd_eof r1)) s =
      Ok (inl (row + 1, Z.b2z (rd_eof (next_line (finish_line r0))), Z.b2z (rd_eof (next_line (finish_line r1)))), s') /\
    overlaying (next_line (finish_line r0)) (next_line (finish_line r1)) (rev bl ++ L) (fold_left tty_shown bl a) s'.
Proof.
  intros Hov Hs0 Hs1 Heof bl Hf. destruct (line_bound _ _ _ _ _ Hov) as [B0 B1].
  destruct (line_run row r0 r1 L a s Hov B0 B1 Hf) as (s1 & R1 & Hov1). fold bl in Hov1.
  destruct (frame_ends_run _ _ _ _ _ Hov1) as (s2 & s3 & R2 & R3 & Hov3). exists s3. split; [|done].
  unfold frame_row. assert ((Z.b2z (rd_eof r0) =? 0) || (Z.b2z (rd_eof r1) =? 0) = true) as ->
    by (by destruct (rd_eof r0), (rd_eof r1)).
  by rewrite (bind_ok _ _ _ _ _ R1), (bind_ok _ _ _ _ _ R2), (bind_ok _ _ _ _ _ R3).
Qed.

Lemma rows_run r0 r1 L a s :
  overlaying r0 r1 L a s -> starts r0 -> starts r1 ->
  let n := (length (rows_of r0) `max` length (rows_of r1))%nat in
  let bl := overlay_rows n 0 (rows_of r0) (rows_of r1) in
  Z.of_nat n < 2 ^ 32 -> fits bl L ->
  exists q0 q1 s', loop (frame_row fd0 fd1 c0 c1 bs) (0, Z.b2z (rd_eof r0), Z.b2z (rd_eof r1)) s = Ok (tt, s') /\
    overlaying q0 q1 (rev bl ++ L) (fold_left tty_shown bl a) s'.
Proof.
  intros Hov Hs0 Hs1 n bl Hn Hfits.
  destruct (wp_inv (loop (frame_row fd0 fd1 c0 c1 bs) (0, Z.b2z (rd_eof r0), Z.b2z (rd_eof r1))) (fun _ s' =>
    exists q0 q1, overlaying q0 q1 (rev bl ++ L) (fold_left tty_shown bl a) s') s) as ([] & s' & Hrun & q0 & q1 & Hov');
    [|by exists q0, q1, s'].
  apply (wp_loop_bound _ (fun k x s' => exists n q0 q1 row L1 a1, k = Z.of_nat n /\
    x = (row, Z.b2z (rd_eof q0), Z.b2z (rd_eof q1)) /\ n = (length (rows_of q0) `max` length (rows_of q1))%nat /\
    overlaying q0 q1 L1 a1 s' /\ starts q0 /\ starts q1 /\
    let bl' := overlay_rows n row (rows_of q0) (rows_of q1) in
    fits bl' L1 /\ rev bl' ++ L1 = rev bl ++ L /\ fold_left tty_shown bl' a1 = fold_left tty_shown bl a) _)
    with (k := Z.of_nat n); [|by exists n, r0, r1, 0, L, a|done].
  clear Hov Hs0 Hs1 Hn Hfits. intros k x s1 (k' & q0 & q1 & row & L1 & a1 & -> & -> & En & Hov & Hs0 & Hs1 & Hf & EL & Ea).
  destruct (rows_step q0 Hs0) as (E0 & S0 & T0). destruct (rows_step q1 Hs1) as (E1 & S1 & T1).
  destruct k' as [|k'].
  - assert (rd_eof q0 = true /\ rd_eof q1 = true) as [N0 N1] by (split; apply rows_nil, nil_length_inv; lia).
    unfold frame_row. rewrite N0, N1. cbn in EL, Ea. eapply wp_run; [done|]. exists q0, q1. by rewrite <- EL, <- Ea.
  - cbn [overlay_rows] in Hf, EL, Ea. rewrite <- E0, <- E1 in Hf, EL, Ea. apply fits_app in Hf as [Hfa Hfb].
    destruct (row_round row q0 q1 L1 a1 s1 Hov Hs0 Hs1) as (s2 & Hrun & Hov2); [|done|].
    { apply andb_false_iff. destruct (rd_eof q0) eqn:N0; [right|by left]. destruct (rd_eof q1) eqn:N1; [|done].
      apply rows_nil in N0, N1. rewrite N0, N1 in En. done. }
    eapply wp_run; [exact Hrun|]. exists (Z.of_nat k'). split; [|lia].
    do 3 eexists. exists (row + 1). do 2 eexists. cbv zeta.
    split_and!; [done|done| |exact Hov2|done|done| | |].
    + rewrite T0, T1. destruct (rows_of q0), (rows_of q1); simpl in *; lia.
    + by rewrite T0, T1.
    + rewrite T0, T1, <- EL, rev_app_distr, <- app_assoc. done.
    + rewrite T0, T1, <- Ea. by rewrite fold_left_app.
Qed.
End overlay.

(** A name in the page, away from the variables. *)
Record name_at (fa : Z) (name : list Z) (c0 c1 : Z) s : Prop := {
  nm_page : in_page fa (Z.of_nat (length name) + 1);
  nm_bytes : page_bytes j s fa (name ++ [0]);
  nm_off : forall b, fa <= b < fa + Z.of_nat (length name) + 1 -> off_vars b /\ b <> c0 /\ b <> c1
}.

Lemma name_kept fa name c0 c1 s s' :
  name_at fa name c0 c1 s -> (forall b, in_page b 1 -> off_vars b -> b <> c0 -> b <> c1 -> byte s' (page_cell j b) = byte s (page_cell j b)) ->
  name_at fa name c0 c1 s'.
Proof.
  intros [Hp Hb Ho] Hk. split; [done| |done]. intros i v Hi. pose proof (lookup_lt_Some _ _ _ Hi) as Hl.
  rewrite length_app in Hl. simpl in Hl. destruct (Ho (fa + Z.of_nat i)) as (H1 & H2 & H3); [lia|].
  rewrite Hk; [by apply Hb| |done|done|done]. destruct Hp. split; lia.
Qed.

(** Opening a frame. *)
Lemma stage_open l L a A s fa name c0 c1 :
  stage l L a A s -> name_at fa name c0 c1 s ->
  let o := open_spec (name ++ [0]) (im_dir im) l in
  exists s', ece391_open fa s = Ok (fst o, s') /\ stage (snd o) L a A s' /\ page_kept j 0 0 s s'.
Proof.
  intros Hst [Hp Hb _] o. destruct (open_run fsize im t VIDEO j l a s fa name (sg_session _ _ _ _ _ Hst) Hp Hb) as (s' & Hrun & Hs' & Hk).
  exists s'. split_and!; [done| |done]. eapply stage_block; [exact Hst|exact Hs'|exact Hk|]. intros b Hb'. lia.
Qed.

Lemma add_frames_run l L a A s fa fb c0 c1 name0 name1 fd0 fd1 ino0 ino1 p0 p1 :
  let l0 := upd l fd0 (file_entry ino0 0) in
  let l1 := upd l0 fd1 (file_entry ino1 0) in
  stage l L a A s -> char_var c0 -> char_var c1 -> c0 <> c1 ->
  name_at fa name0 c0 c1 s -> name_at fb name1 c0 c1 s ->
  open_spec (name0 ++ [0]) (im_dir im) l = (fd0, l0) -> open_spec (name1 ++ [0]) (im_dir im) l0 = (fd1, l1) ->
  2 <= fd0 < 8 -> 2 <= fd1 < 8 -> fd0 <> fd1 ->
  at_ (im_files im) ino0 = Some p0 -> at_ (im_files im) ino1 = Some p1 -> fits (picture p0 p1) L ->
  exists l' A' s', add_frames fa fb c0 c1 bs s = Ok (tt, s') /\
    stage l' (rev (picture p0 p1) ++ L) (fold_left tty_shown (picture p0 p1) a) A' s'.
Proof.
  intros l0 l1 Hst Hc0 Hc1 Hne Hn0 Hn1 Ho0 Ho1 Hfd0 Hfd1 Hfd Hp0 Hp1 Hfits.
  destruct (char_store l L a A s c0 48 Hst Hc0) as (s1 & R1 & Hst1 & K1 & B1); [lia|].
  destruct (char_store l L a A s1 c1 48 Hst1 Hc1) as (s2 & R2 & Hst2 & K2 & B2); [lia|].
  destruct (stage_set16 l L a A s2 ON_LENGTH 15 Hst2) as (s3 & R3 & Hst3 & K3); [tauto|].
  destruct (stage_set16 l L a _ s3 OFF_LENGTH 15 Hst3) as (s4 & R4 & Hst4 & K4); [tauto|]. set (A4 := set16 OFF_LENGTH _ _) in *.
  assert (forall fa name, name_at fa name c0 c1 s -> name_at fa name c0 c1 s4) as Hname.
  { intros fx name Hn. eapply name_kept; [exact Hn|]. intros b Hb Hoff Hb0 Hb1.
    rewrite (K4 b), (K3 b), (K2 b), (K1 b); (done || lia). }
  destruct (stage_open l L a A4 s4 fa name0 c0 c1 Hst4 (Hname _ _ Hn0)) as (s5 & R5 & Hst5 & K5). rewrite Ho0 in R5, Hst5. cbn in R5, Hst5.
  assert (forall b, in_page b 1 -> byte s5 (page_cell j b) = byte s4 (page_cell j b)) as K5' by (intros b Hb; apply K5; (done || lia)).
  assert (name_at fb name1 c0 c1 s5) as Hn1' by (eapply name_kept; [exact (Hname _ _ Hn1)|]; intros b Hb _ _ _; by apply K5').
  destruct (stage_open l0 L a A4 s5 fb name1 c0 c1 Hst5 Hn1') as (s6 & R6 & Hst6 & K6). rewrite Ho1 in R6, Hst6. cbn in R6, Hst6.
  assert (forall b, in_page b 1 -> byte s6 (page_cell j b) = byte s5 (page_cell j b)) as K6' by (intros b Hb; apply K6; (done || lia)).
  pose proof (ru_len _ _ _ (se_run _ _ _ _ _ _ _ _ (sg_session _ _ _ _ _ Hst))) as Hlen.
  assert (forall ca, char_var ca -> page_bytes j s2 ca [48] -> page_bytes j s6 ca [48]) as Hcur.
  { intros ca [Hp Hoff] Hb [|i] v Hv; [|done]. specialize (Hb 0%nat v Hv). rewrite Z.add_0_r in *.
    rewrite (K6' ca Hp), (K5' ca Hp), (K4 ca Hp Hoff), (K3 ca Hp Hoff). exact Hb. }
  assert (page_bytes j s2 c0 [48]) as B1' by (eapply page_bytes_kept; [exact K2|apply Hc0|simpl; lia|exact B1]).
  assert (overlaying fd0 fd1 c0 c1 ino0 ino1 p0 p1 (Reader p0 48 false) (Reader p1 48 false) L a s6) as Hov.
  { split. exists l1, A4. split_and!; [done|done| |].
    - split; [|by apply Hcur|simpl; lia]. exists (file_entry ino0 0). split; [|right; by exists []].
      unfold l1. rewrite at_upd_ne by lia. unfold l0. apply at_upd_eq. lia.
    - split; [|by apply Hcur|simpl; lia]. exists (file_entry ino1 0). split; [|right; by exists []].
      unfold l1. apply at_upd_eq. unfold l0. rewrite length_upd. lia. }
  pose proof (dk_rep _ _ _ (se_disk _ _ _ _ _ _ _ _ (sg_session _ _ _ _ _ Hst))) as Hrep.
  pose proof (file_length _ _ _ _ _ _ Hrep Hp0). pose proof (file_length _ _ _ _ _ _ Hrep Hp1).
  pose proof (length_frame_lines p0). pose proof (length_frame_lines p1).
  destruct (rows_run fd0 fd1 c0 c1 ino0 ino1 p0 p1 Hc0 Hc1 Hne Hfd0 Hfd1 Hfd Hp0 Hp1 _ _ L a s6 Hov eq_refl eq_refl) as
    (q0 & q1 & s7 & R7 & [(l' & A' & Hst7 & _)]); [unfold rows_of; cbn [rd_eof rd_rest]; lia|exact Hfits|].
  exists l', A', s7. split; [|exact Hst7]. unfold add_frames.
  rewrite (bind_ok _ _ _ _ _ R1), (bind_ok _ _ _ _ _ R2), (bind_ok _ _ _ _ _ R3), (bind_ok _ _ _ _ _ R4), (bind_ok _ _ _ _ _ R5).
  rewrite (proj2 (Z.ltb_ge fd0 0)) by lia. change (when false (ece391_halt (-1) ≫= fun _ => mret tt)) with (@mret (ST machine) _ _ tt).
  rewrite (bind_ok _ _ _ tt s5), (bind_ok _ _ _ _ _ R6) by done.
  rewrite (proj2 (Z.ltb_ge fd1 0)) by lia. change (when false (ece391_halt (-1) ≫= fun _ => mret tt)) with (@mret (ST machine) _ _ tt).
  rewrite (bind_ok _ _ _ tt s6) by done. exact R7.
Qed.
End frames.

(** ** Theorem *)

(** C15: [add_frames] makes the picture of two frame files: each position of their
    lines where one of them has a character other than a blank becomes a blinker of
    the two, in front of the program's list, and shows the first. The line endings
    need not be at the same columns, and the files need not have as many lines. *)
Theorem add_frames_makes_picture `{UserEnv} `{FishVars} fsize im t j bs l L a A s fa fb c0 c1 name0 name1 fd0 fd1 ino0 ino1 p0 p1 :
  let l0 := upd l fd0 (file_entry ino0 0) in
  let l1 := upd l0 fd1 (file_entry ino1 0) in
  placed_vars t bs -> stage fsize im t j bs l L a A s -> char_var t bs c0 -> char_var t bs c1 -> c0 <> c1 ->
  name_at t j bs fa name0 c0 c1 s -> name_at t j bs fb name1 c0 c1 s ->
  open_spec (name0 ++ [0]) (im_dir im) l = (fd0, l0) -> open_spec (name1 ++ [0]) (im_dir im) l0 = (fd1, l1) ->
  2 <= fd0 < 8 -> 2 <= fd1 < 8 -> fd0 <> fd1 ->
  at_ (im_files im) ino0 = Some p0 -> at_ (im_files im) ino1 = Some p1 -> fits (picture p0 p1) L ->
  exists l' A' s', add_frames fa fb c0 c1 bs s = Ok (tt, s') /\
    stage fsize im t j bs l' (rev (picture p0 p1) ++ L) (fold_left tty_shown (picture p0 p1) a) A' s'.
Proof. intros. by eapply add_frames_run. Qed.

(** ** Witness *)

#[local] Instance fish_vars : FishVars := {|
  blink_array := 0x8020000; vmem_base_addr := 0x8000004; mp1_list_head := 0x8000000;
  add_local := 0x83F0000; find_local := 0x83F0100
|}.

(** The display is mapped, and the list is empty. *)
Definition fish_start : machine := write_out 0x8000004 (le32 0x20000000) sample.

Lemma fish_placed : placed_vars 0 0x83F0200.
Proof.
  split.
  - intros r Hr. destruct r; (done || (unfold in_page, PROCESS_VIRTUAL, FOUR_MB; cbn; lia)).
  - intros r r' o o' Hr Hr' Ho Ho' E. destruct r, r'; cbn in *; (done || (split; (done || lia))).
Qed.

Lemma fish_session :
  session 0x3000 sample_image 0 VIDEO 0 initial_files blank fish_start /\ page_kept 0 0x8000004 4 sample fish_start /\
  page_bytes 0 fish_start 0x8000004 (le32 0x20000000).
Proof.
  destruct (session_files 0x3000 sample_image 0 VIDEO 0 initial_files initial_files blank sample 0x8000004 (le32 0x20000000)
    sample_session) as (Hs & Hk & Hb).
  - reflexivity.
  - unfold in_page, PROCESS_VIRTUAL, FOUR_MB. cbn. lia.
  - repeat (constructor; [apply u8_range|]). constructor.
  - rewrite put_files_same in Hs, Hk, Hb by (by apply (running_prc 0 initial_files sample), sample_running). done.
Qed.

Definition fish_contents : contents := fun r o =>
  if decide (r = ADisplay) then byte fish_start (VIDEO + o) else byte fish_start (page_cell 0 (base 0 0x83F0200 r + o)).

Lemma fish_stage :
  stage 0x3000 sample_image 0 0 0x83F0200 initial_files [] blank (item fish_contents AArg 0) fish_start.
Proof.
  destruct fish_session as (Hs & Hk & Hb). split; [exact Hs|].
  assert (forall r o lo hi, r <> ADisplay -> 0 <= o < size r -> lo <= page_cell 0 (base 0 0x83F0200 r + o) < hi ->
    ~ (0x8000004 <= base 0 0x83F0200 r + o < 0x8000008) ->
    forallb (fun kv => (fst kv <? lo) || (hi <=? fst kv)) sample_bytes = true -> fish_contents r o = 0) as Hzero.
  { intros r o lo hi Hr Ho Hc Hn Hall. unfold fish_contents. rewrite decide_False by done.
    rewrite Hk; [by eapply sample_zero| |lia]. pose proof (pv_page _ _ fish_placed r Hr) as [H1 H2].
    destruct r; try done; cbn in *; split; lia. }
  assert (forall o, 0 <= o < 16 * 2000 -> fish_contents AArray o = 0) as Harr.
  { intros o Ho. apply (Hzero AArray o (page_cell 0 0x8020000) (page_cell 0 0x8027D00)); [done|done| | |vm_compute; reflexivity];
      unfold page_cell; cbn; lia. }
  assert (forall o, 0 <= o < 4 -> fish_contents AHead o = 0) as Hhead.
  { intros o Ho. apply (Hzero AHead o (page_cell 0 0x8000000) (page_cell 0 0x8000004)); [done|done| | |vm_compute; reflexivity];
      unfold page_cell; cbn; lia. }
  exists fish_contents, []. split_and!; [|split|done|done|intros k Hk'; unfold fish_contents; by rewrite decide_True by done].
  - split; [done| |done]. intros r o Ho. unfold fish_contents. destruct (decide (r = ADisplay)) as [->|Hr].
    + rewrite (load_cell (uview fish_start) _ (VIDEO + o)); [done|]. by eapply display_cell; [exact Hs|].
    + assert (base (display 0) 0x83F0200 r = base 0 0x83F0200 r) as -> by (by destruct r).
      destruct (var_cell 0x3000 sample_image 0 0 0x83F0200 fish_placed initial_files blank fish_start r o Hs Hr Ho) as [Hx _].
      assert (base (display 0) 0x83F0200 r = base 0 0x83F0200 r) as E by (by destruct r). rewrite E in Hx.
      by rewrite (load_cell _ _ _ Hx).
  - cbn. unfold w32. rewrite !Hhead by lia. done.
  - constructor.
  - intros i Hi. split; [by intros ?%not_elem_of_nil|]. cbn. unfold w16. rewrite !Harr by (unfold LOCATION; lia). done.
  - by intros i ?%not_elem_of_nil.
  - assert (forall k v o, le32 0x20000000 !! k = Some v -> o = Z.of_nat k -> fish_contents ABase o = v) as Hbase
      by (intros k v o Hkv ->; by apply Hb).
    unfold w32. rewrite (Hbase 0%nat 0 0), (Hbase 1%nat 0 (0 + 1)), (Hbase 2%nat 0 (0 + 2)), (Hbase 3%nat 32 (0 + 3)) by reflexivity.
    reflexivity.
Qed.

Lemma fish_name : name_at 0 0 0x83F0200 0x8010B00 hi 0x83F0300 0x83F0301 fish_start.
Proof.
  destruct fish_session as (Hs & Hk & Hb). destruct (sample_text_at hi) as (_ & Hp & Hbs & _).
  { apply (bool_decide_eq_true_1 _). vm_compute. reflexivity. }
  assert (@lit sample_env hi = 0x8010B00) as E by (vm_compute; reflexivity). rewrite E in *. split; [done| |].
  - eapply page_bytes_kept; [exact Hk|exact Hp|simpl; lia|exact Hbs].
  - intros b Hb'. cbn in Hb'. split; [|lia]. intros r o Hr Ho. destruct r; cbn in *; (done || lia).
Qed.

Lemma fish_char c : 0x83F0300 <= c <= 0x83F0301 -> char_var 0 0x83F0200 c.
Proof.
  intros Hc. split; [unfold in_page, PROCESS_VIRTUAL, FOUR_MB; lia|]. intros r o Hr Ho. destruct r; cbn in *; (done || lia).
Qed.

Lemma add_frames_makes_picture_witness :
  let bl := [Blinker 40 104 104 15 15 15 1; Blinker 41 105 105 15 15 15 1] in
  exists l' A' s', @add_frames sample_env fish_vars 0x8010B00 0x8010B00 0x83F0300 0x83F0301 0x83F0200 fish_start = Ok (tt, s') /\
    stage 0x3000 sample_image 0 0 0x83F0200 l' (rev bl) (fold_left tty_shown bl blank) A' s'.
Proof.
  intros bl.
  apply (@add_frames_makes_picture sample_env fish_vars 0x3000 sample_image 0 0 0x83F0200 initial_files [] blank
    (item fish_contents AArg 0) fish_start 0x8010B00 0x8010B00 0x83F0300 0x83F0301 hi hi 2 3 0 0 [104; 105; 10] [104; 105; 10]).
  - exact fish_placed.
  - exact fish_stage.
  - apply fish_char. lia.
  - apply fish_char. lia.
  - lia.
  - exact fish_name.
  - exact fish_name.
  - vm_compute. reflexivity.
  - vm_compute. reflexivity.
  - lia.
  - lia.
  - lia.
  - reflexivity.
  - reflexivity.
  - split; [repeat constructor|]; cbn; lia.
Defined.
