(* ===== verification/Dialog.v ===== *)
(** * Dialogs: programs that read lines from the keyboard

    A program of the shown terminal and the user in front of it: the interrupts
    that arrive while the program waits are those of the keys that the user types. *)

From Stdlib Require Import String.
From S2P Require Import Prelude Memory Lib Filesystem Machine Pic Screen Paging Rtc Terminal LineEditor Syscall FileTable Processes ProcessTable Pit Scheduling Kernel User Session Sample Programs.

(** ** Specification *)

Definition stdin_entry : file_descriptor_entry_t := FdEntry STDIN_FOPS 0 0 STDIN_FLAG.

(** The program of process [j] at the prompt of the shown terminal [t]: the line is
    empty, and the controller delivers [codes], whose keys [keymap] tells, with the
    interrupts [pend]. *)
Record console (size : Z) (im : fs_image) (t j : Z) (keymap : Z -> option key) (l : list file_descriptor_entry_t)
    (a : tty) (codes : list Z) (pend : list irq) (s : machine) : Prop := {
  co_session : session size im t VIDEO j l a s;
  co_shown : get currentTerminal s = t;
  co_stdin : at_ l 0 = Some stdin_entry;
  co_stdout : at_ l 1 = Some stdout_entry;
  co_mod : modifiers_ok (get kbd s);
  co_keys : forall c, key_of (get kbd s) c = keymap c;
  co_arrays : terminal_arrays t s;
  co_line : LineEditor.holds t [] s;
  co_ready : at_ (get readReady s) t = Some 0;
  co_if : get eflags_if s = true;
  co_codes : delivers codes s;
  co_pend : get pending s = pend;
  co_ptrs : length (get PCB_ptrs s) = 6%nat
}.

(** The keys of a line, up to Enter. *)
Definition line_keys (ks : list key) : list key := ks ++ [KeyEnter].

(** The interrupts of [n] keys. *)
Definition key_irqs (n : nat) : list irq := replicate n IrqKeyboard.

(** What the editor makes of the keys, from an empty line on the screen [a]. *)
Definition typed_line (ks : list key) (a : tty) : editor := edit_keys (line_keys ks) (Editor [] a 0).

(** ** Lemmas: the console *)

Section dialog.
Context `{UserEnv} (size : Z) (im : fs_image) (t j : Z) (keymap : Z -> option key).
Implicit Types (l : list file_descriptor_entry_t) (a : tty) (s : machine).

Abbreviation session := (session size im t VIDEO j).
Abbreviation console := (console size im t j keymap).

Lemma console_quiet l a a' codes pend s s' :
  console l a codes pend s -> session l a' s' -> quiet s s' -> console l a' codes pend s'.
Proof.
  intros [Hs Hsh Hin Hout [M1 M2 M3] Hk [A1 A2 A3 A4] [L1 L2 L3] Hr Hif Hc Hp Hq] Hs' [Q0 Q1 Q2 Q3 Q4 Q5 Q6].
  pose proof (f_equal k_KBbuf Q1 : get KBbuf s' = get KBbuf s) as E1.
  pose proof (f_equal k_buf_loc Q1 : get buf_loc s' = get buf_loc s) as E2.
  pose proof (f_equal k_readReady Q1 : get readReady s' = get readReady s) as E3.
  pose proof (f_equal k_readWaiting Q1 : get readWaiting s' = get readWaiting s) as E4.
  split; try done.
  - by rewrite Q2.
  - by split; rewrite Q1.
  - intros c. by rewrite Q1.
  - by split; rewrite ?E1, ?E2, ?E3, ?E4.
  - by split; rewrite ?E1, ?E2.
  - by rewrite E3.
  - by rewrite Q5.
  - intros i c tr Hi Htr. rewrite Q3. apply (Hc i c tr Hi). by unfold kb_reads in *; rewrite Q6 in Htr.
  - by rewrite Q4.
  - by rewrite Q0.
Qed.

Lemma console_wrote l a a' codes pend s s' :
  console l a codes pend s -> wrote t VIDEO a' s s' -> console l a' codes pend s' /\ page_kept j 0 0 s s'.
Proof.
  intros Hc Hw. destruct (session_wrote size im t VIDEO j l a a' s s' (co_session _ _ _ _ _ _ _ _ _ _ Hc) Hw) as [Hs' Hk].
  split; [|done]. eapply console_quiet; [exact Hc|exact Hs'|by eapply wrote_quiet].
Qed.

Lemma console_puts l a codes pend s b bs :
  console l a codes pend s -> text bs -> in_page b (Z.of_nat (length bs) + 1) -> page_bytes j s b (bs ++ [0]) ->
  exists s', ece391_fdputs 1 b s = Ok (tt, s') /\ console l (tty_puts bs a) codes pend s' /\ page_kept j 0 0 s s'.
Proof.
  intros Hc Ht Hb Hbs. destruct (fdputs_wrote size im t VIDEO j l a s b bs) as (s' & Hrun & Hw); try done; [apply Hc|apply Hc|].
  exists s'. split; [done|by eapply console_wrote].
Qed.

Lemma console_say L b n l a codes pend s bs :
  console l a codes pend s -> literals j L b n s -> bs ∈ L ->
  exists s', say bs s = Ok (tt, s') /\ console l (tty_puts bs a) codes pend s' /\ page_kept j 0 0 s s' /\ literals j L b n s'.
Proof.
  intros Hc HL Hin. pose proof Hin as [i Hi]%list_elem_of_lookup.
  destruct (proj1 (Forall_lookup _ _) HL i bs Hi) as (Ht & Hp & Hb & _).
  destruct (console_puts l a codes pend s (lit bs) bs Hc Ht Hp Hb) as (s' & Hrun & Hc' & Hk).
  exists s'. split_and!; try done. eapply literals_kept; [exact HL|]. eapply page_kept_weaken; [exact Hk|lia].
Qed.

(** A store of the program. *)
Lemma console_store l a codes pend s b c :
  console l a codes pend s -> in_page b 1 -> 0 <= c < 256 ->
  exists s', ustore b c s = Ok (tt, s') /\ console l a codes pend s' /\ page_kept j b 1 s s' /\ page_bytes j s' b [c].
Proof.
  intros Hc Hb Hr. destruct (ustore_run size im t VIDEO j l a s b c (co_session _ _ _ _ _ _ _ _ _ _ Hc) Hb Hr) as (s' & Hrun & Hs' & Hk & Hbs).
  exists s'. split_and!; try done. eapply console_quiet; [exact Hc|exact Hs'|].
  unfold ustore, um in Hrun. destruct (st8 b c (uview s)) as [[[] m]|]; [|done]. by injection Hrun as <-.
Qed.

(** *** A line from the keyboard *)

Lemma session_kbd l a k s : session l a s -> session l a (set kbd k s).
Proof.
  intros [H1 H2 H3 H4 H5 H6 H7 H8 H9 [D1 D2 D3] H11]. split; try done.
  - by apply (running_prc j l s).
  - by destruct H3.
  - by apply (cur_terminal_prc (set kbd k s) s).
Qed.

(** The keys were echoed. *)
Lemma session_typed l a e n k s s1 :
  session l a s -> get currentTerminal s = t -> typed e n (set kbd k s) s1 ->
  session l (ed_tty e) s1 /\ page_kept j 0 0 s s1.
Proof.
  intros Hs Hct Hty. pose proof (session_pid size im t VIDEO j l a s Hs) as Hj.
  assert (forall c, VIDEO + 4 * FOUR_KB <= c -> byte s1 c = byte s c) as Hb.
  { intros c Hc. rewrite (ty_mem _ _ _ _ Hty); [done|]. change (get currentTerminal (set kbd k s)) with (get currentTerminal s). rewrite Hct.
    intros Hin. apply screen_cells_range in Hin; [lia|]. apply Hs. }
  unfold VIDEO, FOUR_KB in Hb. destruct Hty as [_ [_ _ Ex Ey Esh] Hok Ect Eprc _ Epag Eirq Efs _ _ _ _].
  change (get currentTerminal (set kbd k s)) with (get currentTerminal s) in Ect. rewrite Ect, Hct in Ex, Ey.
  change (get prc (set kbd k s)) with (get prc s) in Eprc. change (get pag (set kbd k s)) with (get pag s) in Epag. split.
  - pose proof Hs as [H1 H2 H3 H4 H5 H6 H7 H8 H9 H10 H11]. split; try done.
    + by eapply running_prc.
    + by rewrite Ect, Epag.
    + by apply (cur_terminal_prc s1 s).
    + right. by rewrite Ect.
    + eapply disk_kept; [exact Hs|done|done|]. intros c Hc. apply Hb. unfold FOUR_MB in Hc. lia.
    + by rewrite (f_equal i_RTC_read_flag Eirq : get RTC_read_flag s1 = get RTC_read_flag s).
  - intros b Hb1 _. apply Hb. pose proof (page_cell_high j b ltac:(lia) Hb1). unfold EIGHT_MB in *. lia.
Qed.

(** What the typed line is made of. *)
Lemma key_of_printable k scode c : modifiers_ok k -> key_of k scode = Some (KeyChar c) -> 32 <= c < 127.
Proof.
  intros Hm. unfold key_of. destruct (ctrl_down k); [by destruct (_ =? _)|]. destruct (alt_down k); [done|].
  destruct (_ =? BKSP); [done|]. destruct (scode =? ENTER) eqn:Ee; [done|].
  destruct ((0 <=? scode) && (scode <? 64) && negb (default 0 (at_ ascii_scan scode) =? 0)) eqn:E; [|done].
  apply andb_prop in E as [E E3]. apply andb_prop in E as [?%Z.leb_le ?%Z.ltb_lt].
  apply negb_true_iff, Z.eqb_neq in E3.
  destruct (table_complete _ scode Hm ltac:(lia) E3) as (c' & Hc & Hr & _). rewrite Hc, Ee in *. by intros [= ->].
Qed.

Lemma edit_keys_forall (P : Z -> Prop) ks : Forall (fun k => k <> KeyEnter) ks -> (forall c, In (KeyChar c) ks -> P c) ->
  forall e, Forall P (ed_line e) -> Forall P (ed_line (edit_keys ks e)).
Proof.
  induction 1 as [|k ks Hk Hks IH]; intros Hc e Hl; [done|]. cbn [edit_keys fold_left].
  apply IH; [intros; apply Hc; by right|]. destruct k as [c| | |], e as [l a v]; cbn [edit_key ed_line] in *; try done.
  - destruct (_ <? _)%nat; cbn [ed_line]; [|done]. apply Forall_app. split; [done|]. constructor; [apply Hc; by left|done].
  - destruct l as [|c l]; [done|]. cbn [ed_line]. rewrite removelast_firstn_len. by apply Forall_take.
Qed.

(** The user types a line: the keys, the scan codes that give them. *)
Definition types (codes : list Z) (ks : list key) : Prop :=
  Forall (fun k => k <> KeyEnter) ks /\ Forall2 (fun c k => keymap c = Some k) codes (line_keys ks).

Lemma typed_line_shape l a codes pend s ks :
  console l a codes pend s -> (exists rest, types rest ks) ->
  exists ln, ed_line (typed_line ks a) = ln ++ [ch_newline] /\ (length ln < 128)%nat /\ Forall (fun c => 32 <= c < 127) ln.
Proof.
  intros Hc [rest [Hks Hall]]. exists (ed_line (edit_keys ks (Editor [] a 0))).
  assert (forall c, In (KeyChar c) ks -> 32 <= c < 127) as Hch.
  { intros c [i Hi]%list_elem_of_In%list_elem_of_lookup.
    destruct (Forall2_lookup_r _ _ _ i (KeyChar c) Hall) as (code & _ & Hk); [by apply lookup_app_l_Some|].
    rewrite <- (co_keys _ _ _ _ _ _ _ _ _ _ Hc) in Hk. eapply key_of_printable; [|exact Hk]. apply Hc. }
  split_and!.
  - apply edit_keys_enter.
  - apply (edit_keys_chars ks Hks); [|constructor|simpl; lia]. intros c Hin%Hch. unfold line_char, ch_newline. lia.
  - by apply edit_keys_forall.
Qed.

Lemma delivers_split codes codes' s s' :
  delivers (codes ++ codes') s -> get device s' = get device s ->
  kb_reads (get trace s') = (kb_reads (get trace s) + length codes)%nat -> delivers codes s /\ delivers codes' s'.
Proof.
  intros Hd Edev Er. split.
  - intros i c tr Hi Htr. apply (Hd i c tr); [by apply lookup_app_l_Some|done].
  - intros i c tr Hi Htr. rewrite Edev. apply (Hd (length codes + i)%nat); [|lia].
    rewrite lookup_app_r by lia. by replace (length codes + i - length codes)%nat with i by lia.
Qed.

(** The read of standard input reaches the terminal. *)
Lemma read_stdin_run l a s b n v s' :
  session l a s -> at_ l 0 = Some stdin_entry -> in_page b n -> 0 < n ->
  terminalRead serve 0 b n s = Ok (v, s') -> ece391_read 0 b n s = Ok (s32 v, s').
Proof.
  intros Hs Hin Hb Hn Hrun. destruct (in_page_u32 b n Hb ltac:(lia)) as [Eb Hnz].
  pose proof (se_run _ _ _ _ _ _ _ _ Hs) as Hr. apply read_call. rewrite Eb, (s32_int n) by (destruct Hb; lia).
  change (s32 0) with 0. unfold sys_read. change ((0 =? STDIN_FLAG) || (MAX_NUM_FDT_ENTRIES <? 0) || (0 <? 0)) with false.
  cbv iota. rewrite (proj2 (Z.eqb_neq _ _) Hnz). destruct (Z.ltb_spec n 0); [lia|]. cbn [orb].
  rewrite (bind_ok _ _ _ _ _ (rd_fdt_run j l 0 flags stdin_entry s Hr Hin)).
  change (get flags stdin_entry =? UNUSED_FLAG) with false. cbv iota.
  rewrite (bind_ok _ _ _ _ _ (rd_fdt_run j l 0 fops_pointer stdin_entry s Hr Hin)).
  unfold call_read. by rewrite (bind_ok _ _ _ stdin_fops s) by (by eapply deref_fops_run).
Qed.

(** The state after the line is taken. *)
Lemma line_taken_console l a codes codes' pend b n ks s s1 :
  console l a (codes ++ codes') (key_irqs (length codes) ++ pend) s -> types codes ks -> in_page b n -> 128 <= n ->
  let e := typed_line ks a in let out := ed_line e in
  typed e (length ks + 1) (set readWaiting (upd (get readWaiting s) t 1) s) s1 -> get pending s1 = pend ->
  session l (ed_tty e) s1 -> page_kept j 0 0 s s1 ->
  console l (ed_tty e) codes' pend (line_taken t b out s1) /\
  page_kept j b (Z.of_nat (length out)) s (line_taken t b out s1) /\ page_bytes j (line_taken t b out s1) b out.
Proof.
  intros Hc Hty Hb Hn e out Hty1 Hp1 Hs1 K1. pose proof Hc as [Hs Hct Hin Hout [M1 M2 M3] Hk [A1 A2 A3 A4] Hl Hr Hif Hd Hp Hq].
  destruct (typed_line_shape l a _ _ s ks Hc ltac:(by exists codes)) as (ln & El & Hlen & Hln). fold e out in El.
  assert (Z.of_nat (length out) <= 128) as Hout128 by (rewrite El, length_app; simpl; lia).
  assert (Forall (fun c => 0 <= c < 256) out) as Hrange.
  { rewrite El. apply Forall_app. split; [eapply Forall_impl; [|exact Hln]; simpl; lia|]. repeat constructor; unfold ch_newline; lia. }
  destruct (session_files size im t VIDEO j l l (ed_tty e) s1 b out Hs1) as (Hs2 & K2 & Hb2);
    [by apply Hs|destruct Hb; split; lia|done|].
  assert (running j l (write_out b out s1)) as Hr2 by (apply (running_prc j l s1); [done|apply Hs1]).
  rewrite (put_files_same _ _ _ Hr2) in *. pose proof Hty1 as [Ekbd [Hh _ _ _ _] _ Ect Eprc _ _ _ _ Edev Eif Erd _].
  change (get currentTerminal (set readWaiting (upd (get readWaiting s) t 1) s)) with (get currentTerminal s) in *. rewrite Hct in *.
  split_and!.
  - pose proof (f_equal k_KBbuf Ekbd) as E1. pose proof (f_equal k_buf_loc Ekbd) as E2.
    pose proof (f_equal k_readReady Ekbd) as E3. pose proof (f_equal k_readWaiting Ekbd) as E4.
    assert (length codes = (length ks + 1)%nat) as Elen
      by (destruct Hty as [_ Hall]; apply Forall2_length in Hall; unfold line_keys in Hall; by rewrite length_app in Hall).
    split; try done.
    + by apply (session_kbd l _ (get kbd (line_taken t b out s1)) (write_out b out s1)).
    + split; [change (k_capsFlag (get kbd s1) = 0 \/ k_capsFlag (get kbd s1) = 1)|
        change (k_shiftFlagL (get kbd s1) = 0 \/ k_shiftFlagL (get kbd s1) = 1)|
        change (k_shiftFlagR (get kbd s1) = 0 \/ k_shiftFlagR (get kbd s1) = 1)]; by rewrite Ekbd.
    + intros c. change (key_of (get kbd s1) c = keymap c). by rewrite Ekbd, <- Hk.
    + split; [change (0 <= t < Z.of_nat (length (upd (k_KBbuf (get kbd s1)) t (pad_line []))))|
        change (0 <= t < Z.of_nat (length (upd (k_readReady (get kbd s1)) t 0)))|
        change (0 <= t < Z.of_nat (length (upd (k_readWaiting (get kbd s1)) t 0)))|
        change (0 <= t < Z.of_nat (length (upd (k_buf_loc (get kbd s1)) t 0)))];
        rewrite Ekbd; unfold put_kbd; cbn; rewrite !length_upd; try done.
      change (0 <= t < Z.of_nat (length (upd (get readWaiting s) t 1))). by rewrite length_upd.
    + split; [|change (at_ (upd (k_buf_loc (get kbd s1)) t 0) t = Some 0)|simpl; lia].
      * change (at_ (upd (k_KBbuf (get kbd s1)) t (pad_line [])) t = Some (pad_line [])). apply at_upd_eq.
        rewrite Ekbd. unfold put_kbd. cbn. by rewrite length_upd.
      * apply at_upd_eq. rewrite Ekbd. unfold put_kbd. cbn. by rewrite length_upd.
    + change (at_ (upd (k_readReady (get kbd s1)) t 0) t = Some 0). apply at_upd_eq.
      rewrite Ekbd. unfold put_kbd. cbn. by rewrite length_upd.
    + change (get eflags_if s1 = true). by rewrite Eif.
    + apply (delivers_split codes codes' s); [done|exact Edev|]. rewrite Elen. exact Erd.
    + pose proof (f_equal p_PCB_ptrs Eprc) as E. change (length (p_PCB_ptrs (get prc s1)) = 6%nat). rewrite E. exact Hq.
  - eapply page_kept_trans; [eapply page_kept_weaken; [exact K1|lia]|]. exact K2.
  - exact Hb2.
Qed.

(** The program reads the line that the user types. *)
Lemma read_line l a codes codes' pend s b n ks :
  console l a (codes ++ codes') (key_irqs (length codes) ++ pend) s -> types codes ks -> in_page b n -> 128 <= n ->
  let e := typed_line ks a in
  exists s', ece391_read 0 b n s = Ok (Z.of_nat (length (ed_line e)), s') /\
    console l (ed_tty e) codes' pend s' /\ page_kept j b (Z.of_nat (length (ed_line e))) s s' /\ page_bytes j s' b (ed_line e).
Proof.
  intros Hc Hty Hb Hn e. pose proof Hc as [Hs Hct Hin Hout Hm Hk Harr Hl Hr Hif Hd Hp Hq]. pose proof Hty as [Hks Hall].
  destruct (typed_line_shape l a _ _ s ks Hc ltac:(by exists codes)) as (ln & El & Hlen & Hln). fold e in El.
  destruct (session_mapped size im t VIDEO j l a s b n Hs Hb) as [Hmap Hinj].
  assert (editing (Editor [] a 0) s) as Hed.
  { destruct Hs as [_ _ _ _ _ _ Hx Hy Hsh _ _]. split; rewrite ?Hct; done. }
  assert (length codes = (length ks + 1)%nat) as Elen
    by (apply Forall2_length in Hall; unfold line_keys in Hall; by rewrite length_app in Hall).
  assert (forall s', get device s' = get device s -> kb_reads (get trace s') = (kb_reads (get trace s) + (length ks + 1))%nat ->
    delivers codes s /\ delivers codes' s') as Hdel
    by (intros s' E1 E2; eapply delivers_split; [exact Hd|done|by rewrite Elen]).
  destruct (terminalRead_types serve 0 b n t (Editor [] a 0) ks codes pend s) as (s1 & Hty1 & Hrun & Hp1 & Hbs); try done.
  - by eapply paging_inv_video, se_pag.
  - by apply Hs.
  - by apply Hs.
  - simpl. lia.
  - eapply Forall2_impl; [|exact Hall]. intros c k E. by rewrite Hk.
  - intros i c tr Hi Htr. apply (Hd i c tr); [by apply lookup_app_l_Some|done].
  - rewrite Hp, Elen. unfold key_irqs. by rewrite replicate_add, <- app_assoc.
  - lia.
  - change (edit_keys (ks ++ [KeyEnter]) (Editor [] a 0)) with e in *.
    assert (take (Z.to_nat n) (ed_line e) = ed_line e) as Etk by (rewrite El, take_ge by (rewrite length_app; simpl; lia); done).
    rewrite Etk in Hrun, Hbs. set (out := ed_line e) in *.
    assert (Z.of_nat (length out) <= 128) as Hout128 by (rewrite El, length_app; simpl; lia).
    set (s0 := set readWaiting (upd (get readWaiting s) t 1) s) in *.
    destruct (session_typed l a e (length ks + 1) (get kbd s0) s s1 Hs Hct Hty1) as [Hs1 K1].
    exists (line_taken t b out s1). split; [|by eapply line_taken_console].
    rewrite <- (s32_int (Z.of_nat (length out))) at 1 by (unfold FOUR_MB; lia).
    by apply (read_stdin_run l a s b n); [done|done|done|lia|].
Qed.

(** The line in the buffer, closed with a NUL behind its last [cut] characters. *)
Lemma close_line l a codes pend s b ln cut n :
  console l a codes pend s -> in_page b n -> Z.of_nat (length ln) + 1 <= n -> page_bytes j s b ln -> (cut <= length ln)%nat ->
  exists s', ustore (b + Z.of_nat cut) 0 s = Ok (tt, s') /\ console l a codes pend s' /\
    page_kept j b n s s' /\ page_bytes j s' b (take cut ln ++ [0]).
Proof.
  intros Hc [Hb1 Hb2] Hn Hb Hcut. rewrite <- (take_drop cut ln) in Hb. apply page_bytes_app in Hb as [Hb _].
  destruct (console_store l a codes pend s (b + Z.of_nat cut) 0 Hc) as (s' & Hrun & Hc' & Hk & Hz); [split; lia|lia|].
  exists s'. split_and!; [done|done|eapply page_kept_weaken; [exact Hk|lia]|].
  apply page_bytes_app. assert (length (take cut ln) = cut) as El by (rewrite length_take; lia). rewrite El. split; [|done].
  eapply page_bytes_kept; [exact Hk|rewrite El; split; lia|rewrite El; lia|exact Hb].
Qed.

(** ** Lemmas: the shell *)

Definition prompt : list Z := chars "391OS> ".

(** The answer to a command that does not start a program. *)
Definition answer (cmd : list Z) : list Z := match cmd with [] => [] | _ => line "no such command" end.

(** The command of a typed line: the line without its new line. *)
Definition command_of (ks : list key) : list Z := removelast (ed_line (typed_line ks (Tty 0 0 (fun _ => 0)))).

(** The characters of the line do not depend on the screen. *)
Lemma typed_line_chars ks a a' : ed_line (typed_line ks a) = ed_line (typed_line ks a').
Proof.
  unfold typed_line. generalize (line_keys ks), ([] : list Z), 0. clear ks. intros ks.
  revert a a'. induction ks as [|k ks IH]; intros a a' ln v; [done|]. cbn [edit_keys fold_left].
  assert (exists ln' v' b b', edit_key true k (Editor ln a v) = Editor ln' b v' /\ edit_key true k (Editor ln a' v) = Editor ln' b' v')
    as (ln' & v' & b & b' & E1 & E2).
  { destruct k; cbn [edit_key ed_line ed_tty ed_ready]; [destruct (_ <? _)%nat|destruct ln| |]; by do 4 eexists. }
  rewrite E1, E2. apply IH.
Qed.

(** The screen after the prompt, the line that is typed, and the answer. *)
Definition after_command (ks : list key) (a : tty) : tty :=
  tty_puts (answer (command_of ks)) (ed_tty (typed_line ks (tty_puts prompt a))).

(** The prompt and the line: the part of the shell's loop before it acts. *)
Lemma shell_reads L l a codes codes' pend s b ks :
  console l a (codes ++ codes') (key_irqs (length codes) ++ pend) s -> types codes ks -> in_page b 1024 ->
  literals j L b 1024 s -> prompt ∈ L ->
  exists s', shell_step b tt s = (r ← um (ece391_strcmp b (lit (chars "exit")));
      if r =? 0 then mret (inr 0)
      else
        c ← uload b;
        if c =? 0 then mret (inl tt)
        else
          rval ← ece391_execute b;
          (if rval =? -1 then say (line "no such command")
           else if rval =? 256 then say (line "program terminated by exception")
           else when (negb (rval =? 0)) (say (line "program terminated abnormally"))) ;;;
          mret (inl tt)) s' /\
    console l (ed_tty (typed_line ks (tty_puts prompt a))) codes' pend s' /\ literals j L b 1024 s' /\
    page_bytes j s' b (command_of ks ++ [0]) /\ Forall (fun c => 32 <= c < 127) (command_of ks) /\ (length (command_of ks) < 128)%nat.
Proof.
  intros Hc Hty Hb HL Hin. destruct (console_say L b 1024 l a _ _ s prompt Hc HL Hin) as (s1 & R1 & Hc1 & K1 & HL1).
  destruct (read_line l _ codes codes' pend s1 b (BUFSIZE - 1) ks Hc1 Hty) as (s2 & R2 & Hc2 & K2 & Hb2);
    [destruct Hb; split; unfold BUFSIZE; lia|unfold BUFSIZE; lia|].
  destruct (typed_line_shape l _ _ _ s1 ks Hc1 ltac:(by exists codes)) as (ln & El & Hlen & Hln).
  set (e := typed_line ks (tty_puts prompt a)) in *. pose proof Hb as [Hb1 Hb1024].
  assert (command_of ks = ln) as Ecmd
    by (unfold command_of; rewrite (typed_line_chars ks _ (tty_puts prompt a)); fold e; by rewrite El, removelast_last).
  assert (Z.of_nat (length (ed_line e)) = Z.of_nat (length ln) + 1) as Ecnt by (rewrite El, length_app; simpl; lia).
  assert (uload (b + (Z.of_nat (length (ed_line e)) - 1)) s2 = Ok (ch_newline, s2)) as R3.
  { rewrite Ecnt, Z.add_simpl_r. eapply uload_run; [apply Hc2|split; lia|].
    rewrite El in Hb2. by apply page_bytes_app in Hb2 as [_ Hb2]. }
  destruct (close_line l _ _ _ s2 b (ed_line e) (length ln) 1024 Hc2 Hb) as (s3 & R4 & Hc3 & K3 & Hb3);
    [lia|done|rewrite El, length_app; lia|].
  rewrite El, take_app_length in Hb3. exists s3. rewrite Ecmd. split_and!; [|exact Hc3| |exact Hb3|done|done].
  - unfold shell_step. change (say (chars "391OS> ")) with (say prompt). rewrite (bind_ok _ _ _ _ _ R1), (bind_ok _ _ _ _ _ R2).
    rewrite (proj2 (Z.eqb_neq _ (-1))) by lia. rewrite (proj2 (Z.ltb_lt 0 _)) by lia.
    rewrite (bind_ok _ _ _ (Z.of_nat (length ln)) s2).
    + by rewrite (bind_ok _ _ _ _ _ R4).
    + rewrite (bind_ok _ _ _ _ _ R3). cbn [Z.eqb Pos.eqb ch_newline]. unfold mret, ST_ret. do 2 f_equal. lia.
  - eapply literals_kept; [|exact K3]. eapply literals_kept; [exact HL1|]. eapply page_kept_weaken; [exact K2|lia].
Qed.

(** The string comparison of the shell. *)
Lemma shell_compare L l a codes pend s b cmd :
  console l a codes pend s -> literals j L b 1024 s -> chars "exit" ∈ L -> in_page b 1024 ->
  page_bytes j s b (cmd ++ [0]) -> Forall (fun c => 32 <= c < 127) cmd -> (length cmd < 128)%nat ->
  exists r, um (ece391_strcmp b (lit (chars "exit"))) s = Ok (r, s) /\ (r = 0 <-> cmd = chars "exit").
Proof.
  intros Hc HL [i Hi]%list_elem_of_lookup [Hb1 Hb2] Hb Hall Hlen.
  destruct (proj1 (Forall_lookup _ _) HL i _ Hi) as ([Hnz _] & Hp & Hx & _). pose proof (co_session _ _ _ _ _ _ _ _ _ _ Hc) as Hs.
  destruct (ece391_strcmp_run (uview s) b (lit (chars "exit")) cmd (chars "exit")) as (r & Hrun & Hr).
  - eapply session_bytes; [exact Hs|rewrite length_app; simpl; split; lia|exact Hb].
  - eapply session_bytes; [exact Hs|by rewrite length_app, Nat2Z.inj_add|exact Hx].
  - eapply Forall_impl; [|exact Hall]. simpl. lia.
  - exact Hnz.
  - lia.
  - exists r. split; [|done]. unfold um. rewrite Hrun. by destruct s.
Qed.

(** The kernel refuses the command. *)
Lemma shell_refused L l a codes pend s b cmd :
  console l a codes pend s -> literals j L b 1024 s -> in_page b 1024 ->
  page_bytes j s b (cmd ++ [0]) -> Forall (fun c => 32 <= c < 127) cmd -> (length cmd < 128)%nat -> refused im cmd ->
  exists s', ece391_execute b s = Ok (-1, s') /\ console l a codes pend s' /\ literals j L b 1024 s'.
Proof.
  intros Hc HL [Hb1 Hb2] Hb Hall Hlen Href. pose proof (co_session _ _ _ _ _ _ _ _ _ _ Hc) as Hs.
  destruct (in_page_u32 b 1024 (conj Hb1 Hb2) ltac:(lia)) as [Eb _]. unfold PROCESS_VIRTUAL, FOUR_MB in Hb1, Hb2.
  assert (command_at b cmd s) as Hcmd.
  { split; [eapply session_bytes; [exact Hs|rewrite length_app; split; unfold PROCESS_VIRTUAL, FOUR_MB; simpl; lia|exact Hb]| |].
    - split_and!; [lia|lia|]. left. lia.
    - intros i c Hi. pose proof (proj1 (Forall_lookup _ _) Hall i c Hi). simpl in *. lia. }
  destruct (execute_refused_run b cmd _ _ size im s Hcmd (se_pag _ _ _ _ _ _ _ _ Hs) (se_disk _ _ _ _ _ _ _ _ Hs)
    (co_ptrs _ _ _ _ _ _ _ _ _ _ Hc)) as [_ (s' & Hrun & Hlo)%(fun f => f Href)].
  destruct (session_locals size im t VIDEO j l a s s' Hs Hlo) as (Hs' & Hk & Hq). exists s'. split_and!.
  - apply (execute_call b ERROR_VAL s s'). by rewrite Eb.
  - by eapply console_quiet.
  - eapply literals_kept; [exact HL|]. eapply page_kept_weaken; [exact Hk|lia].
Qed.

(** A line that is not "exit" and does not name a program. *)
Definition idle (ks : list key) : Prop :=
  command_of ks <> chars "exit" /\ (command_of ks = [] \/ refused im (command_of ks)).

Definition shell_literals : list (list Z) :=
  [line "Starting 391 Shell"; prompt; chars "exit"; line "no such command"].

Lemma shell_literal i bs : shell_literals !! i = Some bs -> bs ∈ shell_literals.
Proof. apply list_elem_of_lookup_2. Qed.

Lemma shell_round l a codes codes' pend s b ks :
  console l a (codes ++ codes') (key_irqs (length codes) ++ pend) s -> types codes ks -> in_page b 1024 ->
  literals j shell_literals b 1024 s -> idle ks ->
  exists s', shell_step b tt s = Ok (inl tt, s') /\ console l (after_command ks a) codes' pend s' /\ literals j shell_literals b 1024 s'.
Proof.
  intros Hc Hty Hb HL [Hne Hcmd]. destruct (shell_reads shell_literals l a codes codes' pend s b ks Hc Hty Hb HL) as
    (s1 & -> & Hc1 & HL1 & Hbs & Hall & Hlen); [by apply (shell_literal 1)|]. unfold after_command. set (cmd := command_of ks) in *.
  destruct (shell_compare shell_literals l _ _ _ s1 b cmd Hc1 HL1 (shell_literal 2 _ eq_refl) Hb Hbs Hall Hlen) as (r & Hr & Hr0).
  rewrite (bind_ok _ _ _ _ _ Hr), (proj2 (Z.eqb_neq r 0)) by tauto.
  assert (uload b s1 = Ok (default 0 (head cmd), s1)) as Hld.
  { eapply uload_run; [apply Hc1|destruct Hb; split; lia|]. change [default 0 (head cmd)] with ([default 0 (head cmd)]).
    destruct cmd as [|c cmd]; [exact Hbs|]. cbn [app] in Hbs. by apply (page_bytes_app j s1 b [c] (cmd ++ [0])) in Hbs as [Hbs _]. }
  rewrite (bind_ok _ _ _ _ _ Hld). destruct cmd as [|c cmd]; [by exists s1|].
  destruct Hcmd as [?|Href]; [done|]. cbn [head default from_option id].
  rewrite (proj2 (Z.eqb_neq c 0)) by (inversion_clear Hall; lia).
  destruct (shell_refused shell_literals l _ _ _ s1 b (c :: cmd) Hc1 HL1 Hb Hbs Hall Hlen Href) as (s2 & Hx & Hc2 & HL2).
  rewrite (bind_ok _ _ _ _ _ Hx). change (-1 =? -1) with true. cbv iota.
  destruct (console_say shell_literals b 1024 l _ _ _ s2 _ Hc2 HL2 (shell_literal 3 _ eq_refl)) as (s3 & Hsay & Hc3 & _ & HL3).
  exists s3. rewrite (bind_ok _ _ _ _ _ Hsay). split_and!; [done|exact Hc3|exact HL3].
Qed.

Lemma shell_exit l a codes pend s b ks :
  console l a codes (key_irqs (length codes) ++ pend) s -> types codes ks -> in_page b 1024 ->
  literals j shell_literals b 1024 s -> command_of ks = chars "exit" ->
  exists s', shell_step b tt s = Ok (inr 0, s') /\ console l (ed_tty (typed_line ks (tty_puts prompt a))) [] pend s'.
Proof.
  intros Hc Hty Hb HL Hcmd. rewrite <- (app_nil_r codes) in Hc at 1.
  destruct (shell_reads shell_literals l a codes [] pend s b ks Hc Hty Hb HL) as (s1 & -> & Hc1 & HL1 & Hbs & Hall & Hlen);
    [by apply (shell_literal 1)|].
  destruct (shell_compare shell_literals l _ _ _ s1 b _ Hc1 HL1 (shell_literal 2 _ eq_refl) Hb Hbs Hall Hlen) as (r & Hr & Hr0).
  exists s1. split; [|done]. rewrite (bind_ok _ _ _ _ _ Hr). by rewrite (proj2 Hr0 Hcmd).
Qed.

(** The loop of the shell, over the lines that the user types. *)
Lemma shell_lines rounds : Forall (fun '(codes, ks) => types codes ks /\ idle ks) rounds ->
  forall l a codes s b ks, let cs := concat (fst <$> rounds) ++ codes in
  console l a cs (key_irqs (length cs)) s -> types codes ks -> command_of ks = chars "exit" -> in_page b 1024 ->
  literals j shell_literals b 1024 s -> Z.of_nat (length rounds) < 2 ^ 32 ->
  exists s', loop (shell_step b) tt s = Ok (0, s') /\
    console l (ed_tty (typed_line ks (tty_puts prompt (fold_left (fun a r => after_command r.2 a) rounds a)))) [] [] s'.
Proof.
  intros Hall l a codes s b ks cs Hc Hty Hks Hb HL Hn. set (final := fold_left _ rounds a).
  destruct (wp_inv (loop (shell_step b) tt) (fun r s' => r = 0 /\
    console l (ed_tty (typed_line ks (tty_puts prompt final))) [] [] s') s) as (r & s' & Hrun & -> & Hc'); [|by exists s'].
  apply (wp_loop_bound _ (fun k _ s' => exists rest a', let cs := concat (fst <$> rest) ++ codes in
    k = Z.of_nat (length rest) /\ Forall (fun '(codes, ks) => types codes ks /\ idle ks) rest /\
    fold_left (fun a r => after_command r.2 a) rest a' = final /\ console l a' cs (key_irqs (length cs)) s' /\
    literals j shell_literals b 1024 s') _) with (k := Z.of_nat (length rounds)).
  - intros k [] s1 (rest & a' & -> & Hrest & Efin & Hc1 & HL1). destruct rest as [|[cs1 ks1] rest]; cbn [fold_left fmap list_fmap concat app fst snd] in *.
    + rewrite <- (app_nil_r (key_irqs _)) in Hc1. destruct (shell_exit l a' codes [] s1 b ks Hc1 Hty Hb HL1 Hks) as (s2 & Hrun & Hc2).
      eapply wp_run; [exact Hrun|]. split; [done|]. by rewrite <- Efin.
    + apply Forall_cons_1 in Hrest as [[Hty1 Hidle] Hrest'].
      rewrite <- app_assoc in Hc1. unfold key_irqs in Hc1. rewrite length_app, replicate_add in Hc1.
      destruct (shell_round l a' cs1 _ _ s1 b ks1 Hc1 Hty1 Hb HL1 Hidle) as (s2 & Hrun & Hc2 & HL2).
      eapply wp_run; [exact Hrun|]. exists (Z.of_nat (length rest)). split; [|simpl; lia].
      exists rest, (after_command ks1 a'). split_and!; done.
  - exists rounds, a. split_and!; done.
  - exact Hn.
Qed.
End dialog.

Definition hello_literals : list (list Z) := [chars "Hi, what's your name? "; chars "Hello, "].

Lemma hello_literal i bs : hello_literals !! i = Some bs -> bs ∈ hello_literals.
Proof. apply list_elem_of_lookup_2. Qed.

(** *** A concrete console *)

(** A user who types [codes] at the shown terminal. *)
Definition at_keyboard (codes : list Z) (s : machine) : machine :=
  set device (fun tr port => if port =? KB_DATA_PORT then nth (kb_reads tr) codes 0 else 0)
    (set pending (key_irqs (length codes)) (set eflags_if true s)).

Lemma at_keyboard_session size im t p j l a codes s :
  session size im t p j l a s -> session size im t p j l a (at_keyboard codes s).
Proof.
  intros [H1 H2 H3 H4 H5 H6 H7 H8 H9 [D1 D2 D3] H11]. split; try done.
  - by apply (running_prc j l s).
  - by destruct H3.
  - by apply (cur_terminal_prc (at_keyboard codes s) s).
Qed.

Lemma at_keyboard_delivers codes s :
  kb_reads (get trace s) = 0%nat -> Forall (fun c => 0 <= c < 256) codes -> delivers codes (at_keyboard codes s).
Proof.
  intros E Hc i c tr Hi Htr. change (kb_reads (get trace (at_keyboard codes s))) with (kb_reads (get trace s)) in Htr.
  rewrite E in Htr. change (u8 (nth (kb_reads tr) codes 0) = c). rewrite Htr, nth_lookup. simpl. rewrite Hi. simpl.
  apply u8_small. by apply (proj1 (Forall_lookup _ _) Hc i).
Qed.

Definition sample_keys : Z -> option key := key_of (get kbd sample).

Lemma sample_console codes :
  Forall (fun c => 0 <= c < 256) codes ->
  console 0x3000 sample_image 0 0 sample_keys initial_files blank codes (key_irqs (length codes)) (at_keyboard codes sample).
Proof.
  intros Hc. split; try reflexivity.
  - apply at_keyboard_session, sample_session.
  - split; by left.
  - split; vm_compute; split; (congruence || reflexivity).
  - split; [reflexivity|reflexivity|simpl; lia].
  - by apply at_keyboard_delivers.
Qed.

Lemma sample_console_literals codes L :
  forallb (fun bs => bool_decide (bs ∈ sample_texts)) L = true -> @literals 0 sample_env L 0x8000100 1024 (at_keyboard codes sample).
Proof. intros HL. apply (sample_literals L 0x8000100 1024 HL). unfold sample_text. lia. Qed.

(** ** Theorems *)

(** C10: hello greets the user by the line that the user types: it asks, the
    keys appear with the corrections that the user makes, and the greeting ends with the
    line, its new line included. *)
Theorem hello_greets `{UserEnv} size im t j keymap l a codes ks buf s :
  console size im t j keymap l a codes (key_irqs (length codes)) s -> types keymap codes ks -> in_page buf 1024 ->
  literals j hello_literals buf 1024 s ->
  let e := typed_line ks (tty_puts (chars "Hi, what's your name? ") a) in
  exists s', hello_main buf s = Ok (0, s') /\
    console size im t j keymap l (tty_puts (chars "Hello, " ++ ed_line e) (ed_tty e)) [] [] s'.
Proof.
  intros Hc Hty Hb HL e. unfold hello_main.
  destruct (console_say size im t j keymap hello_literals buf 1024 l a _ _ s _ Hc HL (hello_literal 0 _ eq_refl)) as
    (s1 & R1 & Hc1 & _ & HL1).
  rewrite (bind_ok _ _ _ _ _ R1). rewrite <- (app_nil_r codes), <- (app_nil_r (key_irqs _)) in Hc1.
  destruct (typed_line_shape size im t j keymap l _ _ _ s1 ks Hc1 ltac:(by exists codes)) as (ln & El & Hlen & Hln).
  rewrite (app_nil_r codes) in Hc1 at 2.
  destruct (read_line size im t j keymap l _ codes [] [] s1 buf (BUFSIZE - 1) ks Hc1 Hty) as (s2 & R2 & Hc2 & K2 & Hb2);
    [destruct Hb; split; unfold BUFSIZE; lia|unfold BUFSIZE; lia|]. fold e in El, R2, Hc2, K2, Hb2. clearbody e.
  assert (length (ed_line e) = S (length ln)) as Elen by (rewrite El, length_app; simpl; lia).
  rewrite (bind_ok _ _ _ _ _ R2), (proj2 (Z.eqb_neq _ (-1))) by lia.
  destruct (close_line size im t j keymap l _ _ _ s2 buf (ed_line e) (length (ed_line e)) 1024 Hc2 Hb) as (s3 & R3 & Hc3 & K3 & Hb3);
    [lia|done|done|]. rewrite firstn_all in Hb3. rewrite (bind_ok _ _ _ _ _ R3).
  assert (literals j hello_literals buf 1024 s3) as HL3.
  { eapply literals_kept; [|exact K3]. eapply literals_kept; [exact HL1|]. eapply page_kept_weaken; [exact K2|lia]. }
  destruct (console_say size im t j keymap hello_literals buf 1024 l _ _ _ s3 _ Hc3 HL3 (hello_literal 1 _ eq_refl)) as
    (s4 & R4 & Hc4 & K4 & _). rewrite (bind_ok _ _ _ _ _ R4).
  destruct (console_puts size im t j keymap l _ _ _ s4 buf (ed_line e) Hc4) as (s5 & R5 & Hc5 & _).
  - split; [|rewrite Elen; unfold FOUR_MB; lia]. rewrite El. apply Forall_app. split; [|by repeat constructor].
    eapply Forall_impl; [|exact Hln]. simpl. lia.
  - destruct Hb. split; lia.
  - eapply page_bytes_kept; [exact K4| |destruct Hb; unfold PROCESS_VIRTUAL in *; lia|exact Hb3].
    rewrite length_app. destruct Hb. split; simpl; lia.
  - exists s5. rewrite (bind_ok _ _ _ _ _ R5). split; [done|]. by rewrite tty_puts_app.
Qed.

(** C9: the shell prompts for each line that the user types, answers an
    empty line with the next prompt and a line that names no program with "no such command",
    and ends with status 0 at the line "exit". *)
Theorem shell_session `{UserEnv} size im t j keymap l a rounds codes ks buf s :
  let cs := concat (fst <$> rounds) ++ codes in
  console size im t j keymap l a cs (key_irqs (length cs)) s ->
  Forall (fun '(codes, ks) => types keymap codes ks /\ idle im ks) rounds -> Z.of_nat (length rounds) < 2 ^ 32 ->
  types keymap codes ks -> command_of ks = chars "exit" -> in_page buf 1024 -> literals j shell_literals buf 1024 s ->
  exists s', shell_main buf s = Ok (0, s') /\
    console size im t j keymap l
      (ed_tty (typed_line ks (tty_puts prompt
        (fold_left (fun a r => after_command r.2 a) rounds (tty_puts (line "Starting 391 Shell") a))))) [] [] s'.
Proof.
  intros cs Hc Hall Hn Hty Hks Hb HL. unfold shell_main.
  destruct (console_say size im t j keymap shell_literals buf 1024 l a _ _ s _ Hc HL (shell_literal 0 _ eq_refl)) as (s1 & R1 & Hc1 & _ & HL1). rewrite (bind_ok _ _ _ _ _ R1).
  by apply (shell_lines size im t j keymap rounds Hall l _ codes).
Qed.

Lemma hello_greets_witness :
  exists s', @hello_main sample_env 0x8000100 (at_keyboard [35; 36; 14; 23; 28] sample) = Ok (0, s').
Proof.
  destruct (@hello_greets sample_env 0x3000 sample_image 0 0 sample_keys initial_files blank [35; 36; 14; 23; 28]
    [KeyChar 104; KeyChar 106; KeyBackspace; KeyChar 105] 0x8000100 (at_keyboard [35; 36; 14; 23; 28] sample)) as (s' & Hrun & _).
  - apply sample_console. repeat constructor; lia.
  - split; [repeat constructor; discriminate|repeat constructor].
  - unfold in_page, PROCESS_VIRTUAL, FOUR_MB. lia.
  - apply sample_console_literals. vm_compute. reflexivity.
  - exists s'. exact Hrun.
Defined.

Lemma shell_session_witness :
  exists s', @shell_main sample_env 0x8000100 (at_keyboard [28; 37; 28; 18; 45; 23; 20; 28] sample) = Ok (0, s').
Proof.
  destruct (@shell_session sample_env 0x3000 sample_image 0 0 sample_keys initial_files blank [([28], []); ([37; 28], [KeyChar 107])]
    [18; 45; 23; 20; 28] (KeyChar <$> chars "exit") 0x8000100 (at_keyboard [28; 37; 28; 18; 45; 23; 20; 28] sample)) as (s' & Hrun & _).
  - apply sample_console. repeat constructor; lia.
  - apply Forall_cons_2; [|apply Forall_singleton]; (split; [split; repeat constructor; discriminate|split; [discriminate|]]).
    + by left.
    + by right.
  - simpl. lia.
  - split; [repeat constructor; discriminate|repeat constructor].
  - reflexivity.
  - unfold in_page, PROCESS_VIRTUAL, FOUR_MB. lia.
  - apply sample_console_literals. vm_compute. reflexivity.
  - exists s'. exact Hrun.
Defined.
