(* ===== verification/Grep.v ===== *)
(** * grep

    The program ece391grep.c searches the files of the directory line by line.  It
    reads a file in pieces into one buffer of 1024 bytes: an unfinished line at
    the end of the buffer is moved to its start before the next read, and a line
    that fills the buffer is cut there. *)

From Stdlib Require Import String.
From S2P Require Import Prelude Memory Lib Filesystem Machine Screen Paging Syscall FileTable Processes ProcessTable Kernel User Session Sample Programs.

Section program.
Context `{UserEnv}.

Definition line_end_step (data last line_end : Z) : K (Z + Z) :=
  if line_end <? last then
    c ← uload (data + line_end);
    mret (if negb (c =? ch_newline) then inl (line_end + 1) else inr line_end)
  else mret (inr line_end).

(** One position of a line; [s] points to signed characters. *)
Definition check_step (s fname data s_len line_start line_end check : Z) : K (Z + unit) :=
  if check <? line_end then
    c0 ← uload s; c ← uload (data + check);
    found ← (if s8 c0 =? c then r ← um (ece391_strncmp (data + check) s (u32 s_len)); mret (r =? 0)
             else mret false);
    if (found : bool) then
      ece391_fdputs 1 fname ;;;
      say (chars ":") ;;;
      ece391_fdputs 1 (data + line_start) ;;;
      say (line "") ;;;
      mret (inr tt)
    else mret (inl (check + 1))
  else mret (inr tt).

(** The lines of the buffer; the result is the new [last]. *)
Definition lines_step (s fname data s_len last cnt line_start : Z) : K (Z + Z) :=
  line_end ← loop (line_end_step data last) line_start;
  c ← uload (data + line_end);
  if negb (c =? ch_newline) && negb (cnt =? 0) && negb (line_start =? 0) then
    ustore (data + line_end) 0 ;;;
    um (ece391_strcpy data (data + line_start)) ;;;
    mret (inr (last - line_start))
  else
    ustore (data + line_end) 0 ;;;
    loop (check_step s fname data s_len line_start line_end) line_start ;;;
    let line_start := line_end + 1 in
    mret (if last <=? line_start then inr 0 else inl line_start).

(** One read of the file: the new [last], or whether the file was read. *)
Definition grep_read_step (s fname data s_len fd last : Z) : K (Z + bool) :=
  cnt ← ece391_read fd (data + last) (BUFSIZE - last);
  if cnt =? -1 then say (line "file read failed") ;;; mret (inr false)
  else
    last ← loop (lines_step s fname data s_len (last + cnt) cnt) 0;
    mret (if cnt =? 0 then inr true else inl last).

Definition do_one_file (data s fname : Z) : K Z :=
  n ← um (ece391_strlen s);
  let s_len := s32 n in
  fd ← ece391_open fname;
  if fd =? -1 then say (line "file open failed") ;;; mret (-1)
  else
    ok ← loop (grep_read_step s fname data s_len fd) 0;
    if (ok : bool) then
      r ← ece391_close fd;
      if r =? -1 then say (line "file close failed") ;;; mret (-1) else mret 0
    else mret (-1).

Definition grep_step (fd buf search data : Z) (_ : unit) : K (unit + Z) :=
  cnt ← ece391_read fd buf (SBUFSIZE - 1);
  if cnt =? 0 then mret (inr 0)
  else if cnt =? -1 then say (line "directory entry read failed") ;;; mret (inr 3)
  else
    c ← uload buf;
    if c =? 46 then mret (inl tt)
    else
      ustore (buf + cnt) 0 ;;;
      r ← do_one_file data search buf;
      mret (if negb (r =? 0) then inr 3 else inl tt).

Definition grep_main (buf search data : Z) : K Z :=
  r ← ece391_getargs search BUFSIZE;
  if negb (r =? 0) then say (line "could not read argument") ;;; mret 3
  else
    fd ← ece391_open (lit (chars "."));
    if fd =? -1 then say (line "directory open failed") ;;; mret 2
    else loop (grep_step fd buf search data) tt.

End program.

(** ** Specification *)

(** The pieces in which a text is searched: its lines, and lines of 1024
    characters or more cut after every 1024; [cur] is the piece begun. *)
Fixpoint pieces (cur text : list Z) : list (list Z) :=
  match text with
  | [] => [cur]
  | c :: text' =>
      if c =? ch_newline then cur :: pieces [] text'
      else if Z.of_nat (length cur) =? BUFSIZE - 1 then (cur ++ [c]) :: pieces [] text'
      else pieces (cur ++ [c]) text'
  end.

(** [pat] occurs in a line. *)
Fixpoint contains (pat l : list Z) : bool :=
  match l with
  | [] => false
  | _ :: l' => bool_decide (take (length pat) l = pat) || contains pat l'
  end.

(** What is printed of a file. *)
Definition grep_out (pat name : list Z) (ls : list (list Z)) : list Z :=
  concat ((fun l => if contains pat l then name ++ chars ":" ++ l ++ line "" else []) <$> ls).

(** ** Lemmas: the pieces *)

Definition no_newline (l : list Z) : Prop := Forall (fun c => c <> ch_newline) l.

Lemma pieces_line l cur rest :
  no_newline l -> Z.of_nat (length cur) + Z.of_nat (length l) < BUFSIZE ->
  pieces cur (l ++ ch_newline :: rest) = (cur ++ l) :: pieces [] rest.
Proof.
  intros Hl. revert cur. induction Hl as [|c l Hc Hl IH]; intros cur Hlen; cbn [app pieces].
  - by rewrite app_nil_r.
  - rewrite (proj2 (Z.eqb_neq _ _) Hc). simpl in Hlen. rewrite (proj2 (Z.eqb_neq _ _)) by lia.
    rewrite IH by (rewrite length_app; simpl; lia). by rewrite <- app_assoc.
Qed.

Lemma pieces_full l cur rest :
  no_newline l -> Z.of_nat (length cur) + Z.of_nat (length l) = BUFSIZE -> l <> [] ->
  pieces cur (l ++ rest) = (cur ++ l) :: pieces [] rest.
Proof.
  intros Hl. revert cur. induction Hl as [|c l Hc Hl IH]; intros cur Hlen Hne; [done|]. cbn [app pieces].
  rewrite (proj2 (Z.eqb_neq _ _) Hc). simpl in Hlen. destruct l as [|d l].
  - rewrite (proj2 (Z.eqb_eq _ _)) by (simpl in Hlen; lia). done.
  - rewrite (proj2 (Z.eqb_neq _ _)) by (simpl in Hlen; lia).
    rewrite IH by (rewrite ?length_app; simpl in *; lia || done). by rewrite <- app_assoc.
Qed.

Lemma pieces_end l cur :
  no_newline l -> Z.of_nat (length cur) + Z.of_nat (length l) < BUFSIZE -> pieces cur l = [cur ++ l].
Proof.
  intros Hl. revert cur. induction Hl as [|c l Hc Hl IH]; intros cur Hlen; cbn [pieces].
  - by rewrite app_nil_r.
  - rewrite (proj2 (Z.eqb_neq _ _) Hc). simpl in Hlen. rewrite (proj2 (Z.eqb_neq _ _)) by lia.
    rewrite IH by (rewrite length_app; simpl; lia). by rewrite <- app_assoc.
Qed.

Lemma grep_out_cons pat name l ls :
  grep_out pat name (l :: ls) = (if contains pat l then name ++ chars ":" ++ l ++ line "" else []) ++ grep_out pat name ls.
Proof. done. Qed.

(** The search from position [i] on. *)
Lemma contains_drop pat l i x :
  l !! i = Some x -> contains pat (drop i l) = bool_decide (take (length pat) (drop i l) = pat) || contains pat (drop (S i) l).
Proof. intros Hx. by rewrite (drop_S l x i Hx). Qed.

(** ** Lemmas: the program's stores *)

(** What the kernel would store in the same cells. *)
Lemma write_bytes_user (g : paging_t) l : forall (m : flat) b,
  (forall i, 0 <= i < Z.of_nat (length l) -> user_cell g (b + i) = translate g (b + i)) ->
  um_phys (write_bytes (UMem m g) b l) = vm_phys (write_bytes (VMem m g) b l).
Proof.
  induction l as [|v l IH]; intros m b Hc; [done|]. cbn [write_bytes].
  change (cell (UMem m g) b) with (user_cell g b). change (cell (VMem m g) b) with (translate g b).
  pose proof (Hc 0 ltac:(simpl; lia)) as H0. rewrite !Z.add_0_r in H0. rewrite H0.
  assert (forall m', um_phys (write_bytes (UMem m' g) (b + 1) l) = vm_phys (write_bytes (VMem m' g) (b + 1) l)) as Hl.
  { intros m'. apply IH. intros i Hi. rewrite <- Z.add_assoc. apply Hc. simpl. lia. }
  destruct (translate g b) as [c|]; apply Hl.
Qed.

Lemma um_read {A} (c : ST umem A) v s : c (uview s) = Ok (v, uview s) -> um c s = Ok (v, s).
Proof. intros E. unfold um. rewrite E. by destruct s. Qed.

Section runs.
Context `{UserEnv} (size : Z) (im : fs_image) (t p j : Z).
Implicit Types (l : list file_descriptor_entry_t) (a : tty) (s : machine).

Abbreviation session := (session size im t p j).

Lemma page_bytes_range l a s b bs : session l a s -> page_bytes j s b bs -> Forall (fun c => 0 <= c < 256) bs.
Proof. intros _ Hb. apply Forall_lookup. intros i v Hi. rewrite <- (Hb i v Hi). apply (peek_range (M := flat)). Qed.

Lemma strcpy_down_run l a s d src str :
  session l a s -> d < src -> in_page d (Z.of_nat (length str) + 1) -> in_page src (Z.of_nat (length str) + 1) ->
  Forall (fun c => c <> 0) str -> page_bytes j s src (str ++ [0]) ->
  exists s', um (ece391_strcpy d src) s = Ok (tt, s') /\ session l a s' /\
    page_kept j d (Z.of_nat (length str) + 1) s s' /\ page_bytes j s' d (str ++ [0]).
Proof.
  intros Hs Hlt Hd Hsrc Hnz Hb. set (out := str ++ [0]) in *.
  assert (Z.of_nat (length out) = Z.of_nat (length str) + 1) as Hlen by (unfold out; rewrite length_app; simpl; lia).
  destruct (session_files size im t p j l l a s d out Hs) as (Hs' & Hk & Hbs);
    [by apply Hs|by rewrite Hlen|by eapply page_bytes_range|].
  assert (running j l (write_out d out s)) as Hr by (apply (running_prc j l s); [done|apply Hs]).
  rewrite (put_files_same _ _ _ Hr) in *. rewrite Hlen in Hk.
  assert (forall b i, in_page b (Z.of_nat (length str) + 1) -> 0 <= i <= Z.of_nat (length str) ->
    cell (uview s) (b + i) = Some (page_cell j (b + i))) as Hcell.
  { intros b i Hin Hi. eapply session_ucell; [exact Hs|]. apply (in_page_sub _ _ i 1 Hin); lia. }
  eexists. split_and!; [|exact Hs'|exact Hk|exact Hbs]. unfold um.
  rewrite (ece391_strcpy_down (uview s) d src str).
  - unfold write_out. do 2 f_equal. f_equal. apply write_bytes_user. intros i Hi.
    transitivity (Some (page_cell j (d + i))); [by apply Hcell; [|lia]|]. symmetry.
    apply (session_cell size im t p j l a s); [done|]. apply (in_page_sub _ _ i 1 Hd); lia.
  - fold out. eapply session_bytes; [exact Hs|by rewrite Hlen|done].
  - done.
  - destruct Hd. unfold FOUR_MB, PROCESS_VIRTUAL in *. lia.
  - intros i Hi. eexists. apply Hcell; [done|lia].
  - intros i k c Hi Hkl. rewrite !Hcell by (done || lia). intros [= <-] [= E%page_cell_inj]. lia.
Qed.

(** ** Lemmas: one line *)

Lemma page_bytes_lookup s b bs i v : page_bytes j s b bs -> bs !! i = Some v -> page_bytes j s (b + Z.of_nat i) [v].
Proof. intros Hb Hi [|k] w; [intros [= <-]; rewrite Z.add_0_r; by apply Hb|done]. Qed.

(** The loop that looks for the end of the line. *)
Lemma line_end_run l a s data start rest :
  session l a s -> in_page (data + start) (Z.of_nat (length rest)) -> page_bytes j s (data + start) rest ->
  Z.of_nat (length rest) < 2 ^ 31 ->
  exists line, loop (line_end_step data (start + Z.of_nat (length rest))) start s = Ok (start + Z.of_nat (length line), s) /\
    no_newline line /\ (line = rest \/ exists rest', rest = line ++ ch_newline :: rest').
Proof.
  intros Hs Hin Hb Hlen.
  assert (wp (loop (line_end_step data (start + Z.of_nat (length rest))) start) (fun e s' => s' = s /\ exists line,
    e = start + Z.of_nat (length line) /\ no_newline line /\ (line = rest \/ exists rest', rest = line ++ ch_newline :: rest')) s)
    as (e & s' & Hrun & -> & line & -> & Hres)%wp_inv; [|by exists line].
  apply (wp_loop_bound _ (fun k x s' => s' = s /\ exists (l1 l2 : list Z), rest = l1 ++ l2 /\ no_newline l1 /\
    x = start + Z.of_nat (length l1) /\ k = Z.of_nat (length l2)) _) with (k := Z.of_nat (length rest)).
  - intros k x s' (-> & l1 & l2 & -> & Hl1 & -> & ->). rewrite length_app in *. unfold line_end_step.
    destruct l2 as [|c l2].
    + rewrite (proj2 (Z.ltb_ge _ _)) by (simpl; lia). apply wp_ret. split; [done|].
      exists l1. split_and!; [done|done|left; by rewrite app_nil_r].
    + rewrite (proj2 (Z.ltb_lt _ _)) by (simpl; lia). apply wp_bind.
      assert (uload (data + (start + Z.of_nat (length l1))) s = Ok (c, s)) as Hld.
      { rewrite Z.add_assoc. eapply uload_run; [exact Hs|apply (in_page_sub _ _ _ 1 Hin); simpl; lia|].
        eapply page_bytes_lookup; [exact Hb|]. by rewrite lookup_app_r, Nat.sub_diag by lia. }
      eapply wp_run; [exact Hld|]. apply wp_ret. destruct (Z.eqb_spec c ch_newline) as [->|Hc]; cbn [negb].
      * split; [done|]. exists l1. split_and!; [done|done|right; by exists l2].
      * exists (Z.of_nat (length l2)). split; [|simpl; lia]. split; [done|]. exists (l1 ++ [c]), l2.
        split_and!; [by rewrite <- app_assoc| |rewrite length_app; simpl; lia|done].
        apply Forall_app. split; [done|]. by repeat constructor.
  - split; [done|]. exists [], rest. split_and!; [done|constructor|simpl; lia|done].
  - lia.
Qed.

(** A search in the text of the program's buffer. *)
Section search.
Context (data ps pf : Z) (pat name : list Z).

(** Everything that the search reads besides the buffer. *)
Definition search_mem (s : machine) : Prop :=
  page_bytes j s ps (pat ++ [0]) /\ page_bytes j s pf (name ++ [0]) /\ literals j [chars ":"; line ""] data 1025 s.

Hypothesis Hdata : in_page data 1025.
Hypothesis Hpat : exists c pat', pat = c :: pat' /\ c < 128.
Hypothesis Htext : text pat /\ text name.
Hypothesis Hps : in_page ps (Z.of_nat (length pat) + 1) /\ (ps + Z.of_nat (length pat) + 1 <= data \/ data + 1025 <= ps).
Hypothesis Hpf : in_page pf (Z.of_nat (length name) + 1) /\ (pf + Z.of_nat (length name) + 1 <= data \/ data + 1025 <= pf).

Lemma search_mem_kept s s' : search_mem s -> page_kept j data 1025 s s' -> search_mem s'.
Proof using Hps Hpf.
  destruct Hps as [Hps1 Hps2], Hpf as [Hpf1 Hpf2]. intros (H1 & H2 & H3) Hk.
  split_and!; [eapply page_bytes_kept|eapply page_bytes_kept|eapply literals_kept]; try done;
    rewrite length_app; simpl; rewrite ?Nat2Z.inj_add; simpl; lia || done.
Qed.

(** The pattern and the bytes of the line from one position on. *)
Lemma strncmp_prefix l a s b suffix :
  session l a s -> search_mem s -> Forall (fun c => c <> 0) suffix -> in_page b (Z.of_nat (length suffix) + 1) ->
  page_bytes j s b (suffix ++ [0]) ->
  exists r, um (ece391_strncmp b ps (Z.of_nat (length pat))) s = Ok (r, s) /\ (r = 0 <-> take (length pat) suffix = pat).
Proof using Hps Htext.
  intros Hs (Hp & _ & _) Hnz Hb Hbs. destruct Hps as [Hps1 _], Htext as [[Hpnz Hplen] _].
  destruct (session_bytes size im t p j l a s b (suffix ++ [0]) Hs) as [_ Hu1]; [by rewrite length_app, Nat2Z.inj_add|done|].
  destruct (session_bytes size im t p j l a s ps (pat ++ [0]) Hs) as [_ Hu2]; [by rewrite length_app, Nat2Z.inj_add|done|].
  assert (forall bs n, covers (bs ++ [0]) n) as Hcov by (intros bs n; left; apply elem_of_app; right; by left).
  destruct (ece391_strncmp_kernel b ps (Z.of_nat (length pat)) (uview s)
    (compare_bytes (length pat) (suffix ++ [0]) (pat ++ [0])) (uview s)) as (r & Hr & Hiff);
    [unfold FOUR_MB in Hplen; lia|by apply strncmp_run|].
  exists r. split; [by apply um_read|]. rewrite Hiff, compare_bytes_0 by (done || (intros v [i Hi]%list_elem_of_lookup_1;
    eapply load_range; first [by apply Hu1|by apply Hu2])).
  rewrite !cstr_end_nul by done. by rewrite (firstn_all pat).
Qed.

(** One position of the line. *)
Lemma found_at l a s start text i x :
  session l a s -> search_mem s -> Forall (fun c => 0 < c < 256) text -> in_page (data + start) (Z.of_nat (length text) + 1) ->
  page_bytes j s (data + start) (text ++ [0]) -> text !! i = Some x ->
  exists c0, uload ps s = Ok (c0, s) /\ uload (data + (start + Z.of_nat i)) s = Ok (x, s) /\
    (if s8 c0 =? x then r ← um (ece391_strncmp (data + (start + Z.of_nat i)) ps (u32 (Z.of_nat (length pat)))); mret (r =? 0)
     else mret false) s = Ok (bool_decide (take (length pat) (drop i text) = pat), s).
Proof using Hps Hpf Hpat Htext.
  intros Hs Hm Hnz Hin Hb Hx. destruct Hpat as (c & pat' & Epat & Hc). pose proof Hm as (Hp & _ & _). destruct Hps as [Hps1 _].
  destruct Htext as [[Hpnz Hplen] _]. pose proof (lookup_lt_Some _ _ _ Hx) as Hlt.
  pose proof (page_bytes_range _ _ _ _ _ Hs Hp) as Hr. rewrite Epat in Hr, Hpnz.
  inversion_clear Hpnz as [|? ? Hc0 _]. inversion_clear Hr as [|? ? Hcr _].
  exists c. split_and!.
  - eapply uload_run; [exact Hs|destruct Hps1; split; lia|]. intros [|k] v; [intros [= <-]|done].
    apply (Hp 0%nat). by rewrite Epat.
  - rewrite Z.add_assoc. eapply uload_run; [exact Hs|apply (in_page_sub _ _ _ 1 Hin); lia|].
    eapply page_bytes_lookup; [exact Hb|]. by rewrite lookup_app_l.
  - assert (0 < x < 256) as Hxr by (by apply (proj1 (Forall_lookup _ _) Hnz i)). 
    assert (s8 c = c) as -> by (unfold s8; rewrite u8_small by lia; destruct (Z.ltb_spec c (2 ^ 7)); lia).
    rewrite (drop_S text x i Hx). destruct (Z.eqb_spec c x) as [->|Hne].
    + rewrite u32_small by (unfold FOUR_MB in Hplen; lia).
      destruct (strncmp_prefix l a s (data + (start + Z.of_nat i)) (drop i text) Hs Hm) as (r & Hr' & Hiff).
      * apply Forall_drop. eapply Forall_impl; [|exact Hnz]. simpl. lia.
      * rewrite length_drop, Z.add_assoc. apply (in_page_sub _ _ _ _ Hin); lia.
      * rewrite Z.add_assoc. replace (drop i text ++ [0]) with (drop i (text ++ [0])) by (by rewrite drop_app_le by lia).
        intros k v Hk. rewrite lookup_drop in Hk. rewrite <- Z.add_assoc, <- Nat2Z.inj_add. by apply Hb.
      * rewrite (bind_ok _ _ _ _ _ Hr'), <- (drop_S text x i Hx). unfold mret, ST_ret. do 2 f_equal.
        destruct (Z.eqb_spec r 0); symmetry; [apply bool_decide_eq_true|apply bool_decide_eq_false]; tauto.
    + unfold mret, ST_ret. do 2 f_equal. symmetry. apply bool_decide_eq_false. rewrite Epat. simpl. congruence.
Qed.

(** The four calls that print a line. *)
Lemma print_match l a s start text :
  session l a s -> at_ l 1 = Some stdout_entry -> search_mem s -> Forall (fun c => 0 < c < 256) text ->
  in_page (data + start) (Z.of_nat (length text) + 1) -> page_bytes j s (data + start) (text ++ [0]) ->
  exists s', (ece391_fdputs 1 pf ;;; say (chars ":") ;;; ece391_fdputs 1 (data + start) ;;; say (line "") ;;; mret (inr tt)) s =
      Ok ((inr tt : Z + unit), s') /\
    session l (tty_puts (name ++ chars ":" ++ text ++ line "") a) s' /\ page_kept j 0 0 s s'.
Proof using Hpf Htext.
  intros Hs Ho (_ & Hn & HL) Hnz Hin Hb. destruct Hpf as [Hpf1 _], Htext as [_ Hntext].
  assert (Session.text text) as Ht.
  { split; [eapply Forall_impl; [|exact Hnz]; simpl; lia|]. destruct Hin. unfold PROCESS_VIRTUAL, FOUR_MB in *. lia. }
  destruct (fdputs_run size im t p j l a s pf name Hs Ho Hntext Hpf1 Hn) as (s1 & R1 & Hs1 & K1).
  destruct (say_run size im t p j _ _ _ l _ s1 (chars ":") Hs1 Ho (literals_kept j _ _ _ _ _ HL (page_kept_weaken j _ _ data 1025 _ _ K1 ltac:(lia)))
    ltac:(by left)) as (s2 & R2 & Hs2 & K2 & HL2).
  pose proof (page_kept_trans _ _ _ _ _ _ K1 K2) as K12.
  destruct (fdputs_run size im t p j l _ s2 (data + start) text Hs2 Ho Ht Hin) as (s3 & R3 & Hs3 & K3).
  { eapply page_bytes_kept; [exact K12|rewrite length_app, Nat2Z.inj_add; exact Hin| |exact Hb].
    destruct Hin. rewrite length_app. unfold PROCESS_VIRTUAL in *. simpl. lia. }
  destruct (say_run size im t p j _ _ _ l _ s3 (line "") Hs3 Ho (literals_kept j _ _ _ _ _ HL2 (page_kept_weaken j _ _ data 1025 _ _ K3 ltac:(lia)))
    ltac:(right; by left)) as (s4 & R4 & Hs4 & K4 & _).
  exists s4. rewrite <- !tty_puts_app in Hs4. split_and!; [|exact Hs4|by eapply page_kept_trans, page_kept_trans].
  unfold say. by rewrite (bind_ok _ _ _ _ _ R1), (bind_ok _ _ _ _ _ R2), (bind_ok _ _ _ _ _ R3), (bind_ok _ _ _ _ _ R4).
Qed.

(** The search in one line. *)
Lemma check_run l a s start text :
  session l a s -> at_ l 1 = Some stdout_entry -> search_mem s -> Forall (fun c => 0 < c < 256) text ->
  in_page (data + start) (Z.of_nat (length text) + 1) -> page_bytes j s (data + start) (text ++ [0]) ->
  exists s', loop (check_step ps pf data (Z.of_nat (length pat)) start (start + Z.of_nat (length text))) start s = Ok (tt, s') /\
    session l (tty_puts (if contains pat text then name ++ chars ":" ++ text ++ line "" else []) a) s' /\ page_kept j 0 0 s s'.
Proof using Hps Hpf Hpat Htext.
  intros Hs Ho Hm Hnz Hin Hb. set (out := if contains pat text then _ else _).
  assert (wp (loop (check_step ps pf data (Z.of_nat (length pat)) start (start + Z.of_nat (length text))) start)
    (fun _ s' => session l (tty_puts out a) s' /\ page_kept j 0 0 s s') s) as ([] & s' & Hrun & Hres)%wp_inv; [|by exists s'].
  apply (wp_loop_bound _ (fun k x s' => s' = s /\ exists i, x = start + Z.of_nat i /\ (i <= length text)%nat /\
    k = Z.of_nat (length text) - Z.of_nat i /\ contains pat text = contains pat (drop i text)) _) with (k := Z.of_nat (length text)).
  - intros k x s' (-> & i & -> & Hi & -> & Hcon). unfold check_step.
    destruct (decide (i < length text)%nat) as [Hlt|Hge].
    + rewrite (proj2 (Z.ltb_lt _ _)) by lia. destruct (lookup_lt_is_Some_2 text i Hlt) as [x Hx].
      destruct (found_at l a s start text i x Hs Hm Hnz Hin Hb Hx) as (c0 & R1 & R2 & R3).
      apply wp_bind. eapply wp_run; [exact R1|]. apply wp_bind. eapply wp_run; [exact R2|]. apply wp_bind. eapply wp_run; [exact R3|].
      rewrite (contains_drop pat text i x Hx) in Hcon. destruct (bool_decide _).
      * destruct (print_match l a s start text Hs Ho Hm Hnz Hin Hb) as (s' & R4 & Hs' & Hk). eapply wp_run; [exact R4|].
        unfold out. rewrite Hcon. by split.
      * apply wp_ret. exists (Z.of_nat (length text) - Z.of_nat (S i)). split; [|lia]. split; [done|].
        exists (S i). split_and!; [lia|lia|done|exact Hcon].
    + rewrite (proj2 (Z.ltb_ge _ _)) by lia. apply wp_ret. rewrite drop_ge in Hcon by lia. unfold out. rewrite Hcon. by split.
  - split; [done|]. exists 0%nat. split_and!; [lia|lia|lia|done].
  - destruct Hin. unfold PROCESS_VIRTUAL, FOUR_MB in *. lia.
Qed.

(** *** The lines of the buffer *)

(** The buffer holds [text] from address [b] on. *)
Definition held l a b (text : list Z) s : Prop :=
  session l a s /\ search_mem s /\ page_bytes j s b text /\ Forall (fun c => 0 < c < 256) text /\
  byte s (page_cell j (data + 1024)) <> ch_newline.

(** A line is closed with a NUL and searched. *)
Lemma search_line l a s start text :
  session l a s -> at_ l 1 = Some stdout_entry -> search_mem s -> Forall (fun c => 0 < c < 256) text -> 0 <= start ->
  start + Z.of_nat (length text) <= 1024 -> page_bytes j s (data + start) text ->
  let e := start + Z.of_nat (length text) in
  exists s1 s2, ustore (data + e) 0 s = Ok (tt, s1) /\
    loop (check_step ps pf data (Z.of_nat (length pat)) start e) start s1 = Ok (tt, s2) /\
    session l (tty_puts (if contains pat text then name ++ chars ":" ++ text ++ line "" else []) a) s2 /\
    search_mem s2 /\ page_kept j (data + e) 1 s s2 /\ byte s2 (page_cell j (data + e)) = 0.
Proof using Hps Hpf Hpat Htext Hdata.
  intros Hs Ho Hm Hnz Hst Hle Hb e. pose proof Hdata as [Hd1 Hd2].
  destruct (ustore_run size im t p j l a s (data + e) 0 Hs) as (s1 & R1 & Hs1 & K1 & Hb1); [split; lia|lia|].
  assert (search_mem s1) as Hm1 by (eapply search_mem_kept; [exact Hm|]; eapply page_kept_weaken; [exact K1|lia]).
  assert (page_bytes j s1 (data + start) (text ++ [0])) as Hb1'.
  { apply page_bytes_app. split; [|by rewrite <- Z.add_assoc].
    eapply page_bytes_kept; [exact K1|split; lia|lia|exact Hb]. }
  destruct (check_run l a s1 start text Hs1 Ho Hm1 Hnz ltac:(split; lia) Hb1') as (s2 & R2 & Hs2 & K2).
  exists s1, s2. split_and!; [done|exact R2|exact Hs2| | |].
  - eapply search_mem_kept; [exact Hm1|]. eapply page_kept_weaken; [exact K2|lia].
  - eapply page_kept_trans; [exact K1|]. eapply page_kept_weaken; [exact K2|lia].
  - rewrite (K2 (data + e)); [|split; lia|lia]. pose proof (Hb1 0%nat 0 eq_refl) as E. by rewrite Z.add_0_r in E.
Qed.

(** An unfinished line is moved to the start of the buffer. *)
Lemma move_line l a s start text :
  session l a s -> search_mem s -> Forall (fun c => 0 < c < 256) text -> 0 < start ->
  start + Z.of_nat (length text) <= 1024 -> page_bytes j s (data + start) text ->
  byte s (page_cell j (data + 1024)) <> ch_newline ->
  exists s1 s2, ustore (data + (start + Z.of_nat (length text))) 0 s = Ok (tt, s1) /\
    um (ece391_strcpy data (data + start)) s1 = Ok (tt, s2) /\ held l a data text s2.
Proof using Hps Hpf Hdata.
  intros Hs Hm Hnz Hst Hle Hb Hlast. pose proof Hdata as [Hd1 Hd2]. set (e := start + Z.of_nat (length text)) in *.
  destruct (ustore_run size im t p j l a s (data + e) 0 Hs) as (s1 & R1 & Hs1 & K1 & Hb1); [split; lia|lia|].
  assert (page_bytes j s1 (data + start) (text ++ [0])) as Hb1'.
  { apply page_bytes_app. split; [|by rewrite <- Z.add_assoc].
    eapply page_bytes_kept; [exact K1|split; lia|lia|exact Hb]. }
  destruct (strcpy_down_run l a s1 data (data + start) text Hs1) as (s2 & R2 & Hs2 & K2 & Hb2);
    [lia|split; lia|split; lia|eapply Forall_impl; [|exact Hnz]; simpl; lia|exact Hb1'|].
  exists s1, s2. apply page_bytes_app in Hb2 as [Hb2 _]. split_and!; [done|done|]. split_and!; [done| |done|done|].
  - eapply search_mem_kept; [exact Hm|]. eapply page_kept_trans; eapply page_kept_weaken; [exact K1|lia|exact K2|lia].
  - rewrite (K2 (data + 1024)) by (try split; lia). destruct (Z.eq_dec e 1024) as [E|Hne].
    + pose proof (Hb1 0%nat 0 eq_refl) as E0. rewrite Z.add_0_r, E in E0. by rewrite E0.
    + rewrite (K1 (data + 1024)) by (try split; lia). done.
Qed.

Definition printed (text : list Z) : list Z := grep_out pat name (pieces [] text).

(** What is left to print once a line is searched. *)
Lemma printed_line text rest a :
  no_newline text -> Z.of_nat (length text) < BUFSIZE ->
  tty_puts (printed (text ++ ch_newline :: rest)) a =
  tty_puts (printed rest) (tty_puts (if contains pat text then name ++ chars ":" ++ text ++ line "" else []) a).
Proof. intros Hno Hlen. unfold printed. by rewrite pieces_line, grep_out_cons, tty_puts_app. Qed.

Lemma printed_piece text rest a :
  no_newline text -> text <> [] \/ rest = [] ->
  Z.of_nat (length text) = BUFSIZE \/ (Z.of_nat (length text) < BUFSIZE /\ rest = []) ->
  tty_puts (printed (text ++ rest)) a =
  tty_puts (printed rest) (tty_puts (if contains pat text then name ++ chars ":" ++ text ++ line "" else []) a).
Proof.
  intros Hno Hne [Hlen|[Hlen ->]]; unfold printed.
  - destruct Hne as [Hne| ->].
    + by rewrite pieces_full, grep_out_cons, tty_puts_app.
    + rewrite pieces_full, grep_out_cons, tty_puts_app; [done|done|done|]. intros ->. by unfold BUFSIZE in Hlen.
  - rewrite app_nil_r, pieces_end, grep_out_cons, tty_puts_app by done. done.
Qed.

(** One round: a line is searched, or what remains is kept for the next read. *)
Lemma lines_round l a s start text rest cnt :
  held l a (data + start) text s -> at_ l 1 = Some stdout_entry -> 0 <= start -> (text = [] -> start = 0) ->
  start + Z.of_nat (length text) <= 1024 -> (cnt = 0 \/ start + Z.of_nat (length text) < 1024 -> rest = []) ->
  exists r a' text' s', lines_step ps pf data (Z.of_nat (length pat)) (start + Z.of_nat (length text)) cnt start s = Ok (r, s') /\
    tty_puts (printed (text' ++ rest)) a' = tty_puts (printed (text ++ rest)) a /\
    match r with
    | inl start' => held l a' (data + start') text' s' /\ 0 <= start' /\ text' <> [] /\
        (length text' < length text)%nat /\ start' + Z.of_nat (length text') = start + Z.of_nat (length text)
    | inr last' => held l a' data text' s' /\ last' = Z.of_nat (length text') /\ last' < 1024 /\ (cnt = 0 -> text' = [])
    end.
Proof using Hps Hpf Hpat Htext Hdata.
  intros (Hs & Hm & Hb & Hnz & Hlast) Ho Hst Hemp Hle Hrest. pose proof Hdata as [Hd1 Hd2].
  destruct (line_end_run l a s data start text Hs) as (ln & R1 & Hno & Hln); [split; lia|done|lia|].
  unfold lines_step. rewrite (bind_ok _ _ _ _ _ R1).
  set (last := start + Z.of_nat (length text)) in *. set (e := start + Z.of_nat (length ln)).
  assert (exists tl, text = ln ++ tl) as [tl Etl] by (destruct Hln as [->|[rest' ->]]; [exists []; by rewrite app_nil_r|by eexists]).
  assert (page_bytes j s (data + start) ln /\ Forall (fun c => 0 < c < 256) ln /\ e <= last) as (Hbl & Hnzl & Hel).
  { rewrite Etl in Hb, Hnz. apply page_bytes_app in Hb as [? _]. apply Forall_app in Hnz as [? _].
    split_and!; [done|done|]. unfold e, last. rewrite Etl, length_app. lia. }
  set (c := byte s (page_cell j (data + e))).
  assert (uload (data + e) s = Ok (c, s)) as R2.
  { eapply uload_run; [exact Hs|split; lia|]. intros [|k] v; [|done]. intros [= <-]. by rewrite Z.add_0_r. }
  rewrite (bind_ok _ _ _ _ _ R2).
  destruct (negb (c =? ch_newline) && negb (cnt =? 0) && negb (start =? 0)) eqn:Econd.
  - rewrite !andb_true_iff, !negb_true_iff, !Z.eqb_neq in Econd. destruct Econd as [[Hc Hcnt] Hst0].
    destruct Hln as [->|[rest' E]].
    + destruct (move_line l a s start text Hs Hm Hnz ltac:(lia) Hle Hb Hlast) as (s1 & s2 & R3 & R4 & Hh).
      exists (inr (last - start)), a, text, s2. rewrite (bind_ok _ _ _ _ _ R3), (bind_ok _ _ _ _ _ R4). split_and!; [done|done|done|lia|lia|done].
    + exfalso. apply Hc. unfold c, e. rewrite Z.add_assoc. apply Hb. by rewrite E, lookup_app_r, Nat.sub_diag by lia.
  - destruct (search_line l a s start ln Hs Ho Hm Hnzl Hst ltac:(unfold e in Hel; lia) Hbl) as (s1 & s2 & R3 & R4 & Hs2 & Hm2 & K2 & Hz).
    fold e in R3, R4, K2, Hz. rewrite (bind_ok _ _ _ _ _ R3), (bind_ok _ _ _ _ _ R4). set (a2 := tty_puts _ a) in Hs2.
    assert (byte s2 (page_cell j (data + 1024)) <> ch_newline) as Hlast2.
    { destruct (Z.eq_dec e 1024) as [E|Hne]; [rewrite <- E, Hz; done|]. by rewrite (K2 (data + 1024)) by (try split; lia). }
    destruct Hln as [->|[rest' E]].
    + assert (e = last) as Ee by done. destruct (Z.leb_spec last (e + 1)); [|lia]. exists (inr 0), a2, [], s2.
      split_and!; [done| |by split_and!|done|done|done]. cbn [app]. symmetry. apply printed_piece; [done| |].
      * destruct (decide (text = [])) as [E|]; [|by left]. right. apply Hrest. right. unfold last. by rewrite E, (Hemp E).
      * unfold BUFSIZE. destruct (Z.eq_dec last 1024) as [El|Hne]; [|right; split; [lia|apply Hrest; lia]].
        rewrite !andb_false_iff, !negb_false_iff, !Z.eqb_eq in Econd. 
        destruct Econd as [[Hc|Hcnt]|Hst0]; [exfalso; apply Hlast; by rewrite <- El| |left; lia].
        destruct (Z.eq_dec start 0); [left; lia|right; split; [lia|apply Hrest; by left]].
    + assert (last = e + 1 + Z.of_nat (length rest')) as El by (unfold last, e; rewrite E, length_app; simpl; lia).
      assert (page_bytes j s2 (data + (e + 1)) rest') as Hb2.
      { rewrite E in Hb. apply page_bytes_app in Hb as [_ Hb]. apply (page_bytes_app j s _ [ch_newline]) in Hb as [_ Hb].
        change (Z.of_nat (length [ch_newline])) with 1 in Hb. replace (data + start + Z.of_nat (length ln) + 1) with (data + (e + 1)) in Hb by (unfold e; lia).
        eapply page_bytes_kept; [exact K2|split; lia|lia|exact Hb]. }
      assert (Forall (fun c => 0 < c < 256) rest') as Hnz2
        by (rewrite E in Hnz; apply Forall_app in Hnz as [_ Hnz]; by inversion_clear Hnz).
      assert (tty_puts (printed (rest' ++ rest)) a2 = tty_puts (printed (text ++ rest)) a) as Hp.
      { rewrite E, <- app_assoc. symmetry. apply printed_line; [done|unfold BUFSIZE; lia]. }
      destruct (Z.leb_spec last (e + 1)) as [Hend|Hgo].
      * assert (rest' = []) as -> by (destruct rest'; [done|simpl in El; lia]).
        exists (inr 0), a2, [], s2. split_and!; [done|exact Hp|by split_and!|done|done|done].
      * exists (inl (e + 1)), a2, rest', s2. split_and!; [done|exact Hp|by split_and!|lia| | |lia].
        -- intros ->. simpl in El. lia.
        -- rewrite E, length_app. simpl. lia.
Qed.

(** All the lines of the buffer; what is printed and what is kept make up the text. *)
Lemma lines_run l a s text rest cnt :
  held l a data text s -> at_ l 1 = Some stdout_entry -> Z.of_nat (length text) <= 1024 ->
  (cnt = 0 \/ Z.of_nat (length text) < 1024 -> rest = []) ->
  exists pending a' s',
    loop (lines_step ps pf data (Z.of_nat (length pat)) (Z.of_nat (length text)) cnt) 0 s = Ok (Z.of_nat (length pending), s') /\
    held l a' data pending s' /\ Z.of_nat (length pending) < 1024 /\ (cnt = 0 -> pending = []) /\
    tty_puts (printed (pending ++ rest)) a' = tty_puts (printed (text ++ rest)) a.
Proof using Hps Hpf Hpat Htext Hdata.
  intros Hh Ho Hle Hrest. set (last := Z.of_nat (length text)) in *.
  assert (wp (loop (lines_step ps pf data (Z.of_nat (length pat)) last cnt) 0) (fun r s' => exists pending a',
    r = Z.of_nat (length pending) /\ held l a' data pending s' /\ Z.of_nat (length pending) < 1024 /\ (cnt = 0 -> pending = []) /\
    tty_puts (printed (pending ++ rest)) a' = tty_puts (printed (text ++ rest)) a) s)
    as (r & s' & Hrun & pending & a' & -> & Hres)%wp_inv; [|by exists pending, a', s'].
  apply (wp_loop_bound _ (fun k start s' => exists (text' : list Z) a', k = Z.of_nat (length text') /\ 0 <= start /\
    start + Z.of_nat (length text') = last /\ (text' = [] -> start = 0) /\ held l a' (data + start) text' s' /\
    tty_puts (printed (text' ++ rest)) a' = tty_puts (printed (text ++ rest)) a) _) with (k := last).
  - intros k start s1 (text' & a1 & -> & Hst & Elast & Hemp & Hh1 & Hp1).
    destruct (lines_round l a1 s1 start text' rest cnt Hh1 Ho Hst Hemp) as (r & a2 & text2 & s2 & Hrun & Hp2 & Hr);
      [lia|rewrite Elast; exact Hrest|]. rewrite Elast in Hrun. eapply wp_run; [exact Hrun|]. rewrite <- Hp1.
    destruct r as [start2|last2].
    + destruct Hr as (Hh2 & Hst2 & Hne & Hlt & E2). exists (Z.of_nat (length text2)). split; [|lia].
      exists text2, a2. split_and!; try done; try lia.
    + destruct Hr as (Hh2 & -> & Hlt & Hz). by exists text2, a2.
  - exists text, a. rewrite Z.add_0_r. by split_and!.
  - lia.
Qed.

(** *** The reads *)

Lemma slice_rest c pos n :
  0 <= pos -> 0 <= n ->
  file_slice c pos n ++ drop (Z.to_nat (pos + Z.of_nat (length (file_slice c pos n)))) c = drop (Z.to_nat pos) c.
Proof.
  intros Hp Hn. transitivity (file_slice c pos n ++ drop (Z.to_nat n) (drop (Z.to_nat pos) c)); [|apply take_drop]. f_equal.
  rewrite drop_drop. unfold file_slice. rewrite length_take, length_drop.
  destruct (decide (Z.to_nat pos + Z.to_nat n <= length c)%nat); [f_equal; lia|]. by rewrite !drop_ge by lia.
Qed.

Lemma search_mem_page s s' : page_kept j data 1025 s s' -> search_mem s -> search_mem s'.
Proof using Hps Hpf. intros Hk Hm. by eapply search_mem_kept. Qed.

(** One read behind what was kept. *)
Lemma fill_buffer fd l pos ino c a s pending :
  held (upd l fd (file_entry ino pos)) a data pending s -> 0 <= fd < Z.of_nat (length l) -> fd <> 1 ->
  Z.of_nat (length pending) < 1024 -> at_ (im_files im) ino = Some c -> Forall (fun c => 0 < c < 256) c ->
  0 <= pos <= Z.of_nat (length c) ->
  let last := Z.of_nat (length pending) in let out := file_slice c pos (BUFSIZE - last) in
  exists s', ece391_read fd (data + last) (BUFSIZE - last) s = Ok (Z.of_nat (length out), s') /\
    held (upd l fd (file_entry ino (pos + Z.of_nat (length out)))) a data (pending ++ out) s'.
Proof using Hps Hpf Hdata.
  intros (Hs & Hm & Hb & Hnz & Hlast) Hfd Hfd1 Hlen Hc Hcz Hpos last out. unfold BUFSIZE in *. pose proof Hdata as [Hd1 Hd2].
  pose proof (length_slice_le c pos (1024 - last) ltac:(unfold last; lia)) as Hle. fold out in Hle.
  destruct (read_file size im t p j _ a s fd (data + last) (1024 - last) ino pos c Hs) as (s' & Hrd & Hs' & Hk & Hbs);
    [by apply at_upd_eq|done|split; unfold last; lia|unfold last; lia|done|done|]. fold out in Hrd, Hs', Hbs. rewrite upd_upd in Hs'.
  exists s'. split; [exact Hrd|]. split_and!.
  - exact Hs'.
  - eapply search_mem_kept; [exact Hm|]. eapply page_kept_weaken; [exact Hk|unfold last; lia].
  - apply page_bytes_app. split; [|exact Hbs]. eapply page_bytes_kept; [exact Hk|split; lia|unfold last; lia|exact Hb].
  - apply Forall_app. split; [done|]. unfold out, file_slice. by apply Forall_take, Forall_drop.
  - rewrite (Hk (data + 1024)); [done|split; lia|unfold last; lia].
Qed.

Lemma reads_run fd l ino c a s :
  held (upd l fd (file_entry ino 0)) a data [] s -> 0 <= fd < Z.of_nat (length l) -> fd <> 1 ->
  at_ l 1 = Some stdout_entry -> at_ (im_files im) ino = Some c -> Forall (fun c => 0 < c < 256) c ->
  exists s', loop (grep_read_step ps pf data (Z.of_nat (length pat)) fd) 0 s = Ok (true, s') /\
    held (upd l fd (file_entry ino (Z.of_nat (length c)))) (tty_puts (printed c) a) data [] s'.
Proof using Hps Hpf Hpat Htext Hdata.
  intros Hh Hfd Hfd1 Ho Hc Hcz. pose proof Hh as (Hs & _).
  pose proof (file_length _ _ _ _ _ _ (dk_rep _ _ _ (se_disk _ _ _ _ _ _ _ _ Hs)) Hc) as Hmax.
  assert (wp (loop (grep_read_step ps pf data (Z.of_nat (length pat)) fd) 0) (fun r s' => r = true /\
    held (upd l fd (file_entry ino (Z.of_nat (length c)))) (tty_puts (printed c) a) data [] s') s)
    as (r & s' & Hrun & -> & Hres)%wp_inv; [|by exists s'].
  apply (wp_loop_bound _ (fun k last s' => exists (pending : list Z) a' pos, k = Z.of_nat (length c) - pos /\
    0 <= pos <= Z.of_nat (length c) /\ last = Z.of_nat (length pending) /\ last < 1024 /\
    held (upd l fd (file_entry ino pos)) a' data pending s' /\
    tty_puts (printed (pending ++ drop (Z.to_nat pos) c)) a' = tty_puts (printed c) a) _) with (k := Z.of_nat (length c)).
  - intros k last s1 (pending & a1 & pos & -> & Hpos & -> & Hlast & Hh1 & Hp1).
    destruct (fill_buffer fd l pos ino c a1 s1 pending Hh1 Hfd Hfd1 Hlast Hc Hcz Hpos) as (s2 & Hrd & Hh2).
    unfold BUFSIZE in *. set (out := file_slice c pos (1024 - Z.of_nat (length pending))) in *.
    assert (Z.of_nat (length out) = Z.min (1024 - Z.of_nat (length pending)) (Z.of_nat (length c) - pos)) as Hlen
      by (unfold out; rewrite length_file_slice by lia; lia).
    unfold grep_read_step. apply wp_bind. eapply wp_run; [exact Hrd|].
    rewrite (proj2 (Z.eqb_neq _ (-1))) by lia. apply wp_bind.
    set (rest := drop (Z.to_nat (pos + Z.of_nat (length out))) c).
    assert (out ++ rest = drop (Z.to_nat pos) c) as Esplit.
    { apply slice_rest; lia. }
    destruct (lines_run _ a1 s2 (pending ++ out) rest (Z.of_nat (length out)) Hh2) as (pending' & a2 & s3 & Hrun & Hh3 & Hlt & Hz & Hp3).
    + by rewrite at_upd_ne by (lia || done).
    + rewrite length_app. lia.
    + rewrite length_app. intros Hor. unfold rest. apply drop_ge. lia.
    + rewrite length_app, Nat2Z.inj_add in Hrun. eapply wp_run; [exact Hrun|]. apply wp_ret.
      rewrite <- app_assoc, Esplit, Hp1 in Hp3. destruct (Z.eqb_spec (Z.of_nat (length out)) 0) as [E|Hne].
      * rewrite (Hz E) in *. assert (pos = Z.of_nat (length c)) as Epos by lia. split; [done|].
        assert (rest = []) as Er by (unfold rest; apply drop_ge; lia). rewrite Er in Hp3.
        rewrite E, Z.add_0_r, Epos in Hh3. rewrite <- Hp3. exact Hh3.
      * exists (Z.of_nat (length c) - (pos + Z.of_nat (length out))). split; [|lia].
        exists pending', a2, (pos + Z.of_nat (length out)). split_and!; (done || lia).
  - exists [], a, 0. split_and!; (done || lia).
  - lia.
Qed.

Lemma held_kept l l' a a' s s' :
  held l a data [] s -> session l' a' s' -> page_kept j 0 0 s s' -> held l' a' data [] s'.
Proof using Hps Hpf Hdata.
  intros (_ & Hm & _ & _ & Hlast) Hs' Hk. pose proof Hdata as [Hd1 Hd2]. split_and!; [done| |done|done|].
  - eapply search_mem_kept; [exact Hm|]. eapply page_kept_weaken; [exact Hk|lia].
  - by rewrite (Hk (data + 1024)) by (try split; unfold PROCESS_VIRTUAL in *; lia).
Qed.

(** The entry of a file that was read and closed. *)
Definition read_entry (ino : Z) (c : list Z) : file_descriptor_entry_t :=
  FdEntry REGFILE_FOPS ino (Z.of_nat (length c)) UNUSED_FLAG.

Lemma do_one_file_run l a s d fd c :
  held l a data [] s -> at_ l 1 = Some stdout_entry ->
  starts_with str_stdin (name ++ [0]) = false -> starts_with str_stdout (name ++ [0]) = false ->
  free_fd l = Some fd -> dir_find (name ++ [0]) (im_dir im) = Some d -> fileType d = 2 ->
  at_ (im_files im) (inodeNum d) = Some c -> Forall (fun c => 0 < c < 256) c ->
  exists s', do_one_file data ps pf s = Ok (0, s') /\
    held (upd l fd (read_entry (inodeNum d) c)) (tty_puts (printed c) a) data [] s'.
Proof using Hps Hpf Hpat Htext Hdata.
  intros Hh Ho E1 E2 Hfd Hd Hty Hc Hcz. pose proof Hh as (Hs & (Hp & Hn & _) & _). destruct Hps as [Hps1 _], Hpf as [Hpf1 _].
  assert (open_entry d = Some (file_entry (inodeNum d) 0)) as He by (unfold open_entry; by rewrite Hty).
  destruct (open_spec_entry im _ l d _ fd E1 E2 Hfd Hd He) as (Eo & Hr & Hfl).
  pose proof (strlen_session size im t p j l a s ps pat Hs (proj1 Htext) Hps1 Hp) as R0.
  destruct (open_run size im t p j l a s pf name Hs Hpf1 Hn) as (s1 & R1 & Hs1 & K1). rewrite Eo in R1, Hs1.
  cbn [fst snd] in R1, Hs1. pose proof (held_kept _ _ _ _ _ _ Hh Hs1 K1) as Hh1.
  destruct (reads_run fd l (inodeNum d) c a s1 Hh1 ltac:(lia) ltac:(lia) Ho Hc Hcz) as (s2 & R2 & Hh2).
  pose proof Hh2 as (Hs2 & _).
  assert (at_ (upd l fd (file_entry (inodeNum d) (Z.of_nat (length c)))) fd = Some (file_entry (inodeNum d) (Z.of_nat (length c))))
    as Hat by (apply at_upd_eq; lia).
  destruct (close_run size im t p j _ _ s2 fd _ Hs2 Hr Hat) as (s3 & R3 & Hs3 & K3); [by intros _|done|].
  rewrite upd_upd in Hs3. exists s3. split; [|exact (held_kept _ _ _ _ _ _ Hh2 Hs3 K3)].
  unfold do_one_file. rewrite (bind_ok _ _ _ _ _ R0).
  assert (s32 (Z.of_nat (length pat)) = Z.of_nat (length pat)) as ->
    by (apply s32_small; destruct (proj1 Htext); unfold FOUR_MB in *; lia). cbv zeta.
  rewrite (bind_ok _ _ _ _ _ R1). rewrite (proj2 (Z.eqb_neq fd (-1))) by lia.
  by rewrite (bind_ok _ _ _ _ _ R2), (bind_ok _ _ _ _ _ R3).
Qed.
End search.

(** ** Specification: the whole program *)

(** A directory entry that grep skips. *)
Definition hidden (d : dentry_t) : bool := bool_decide (head (entry_name d) = Some 46).

(** The contents that the name of an entry stands for. *)
Definition named_text (d : dentry_t) : list Z :=
  default [] (f ← dir_find (entry_name d ++ [0]) (im_dir im); at_ (im_files im) (inodeNum f)).

(** A regular file with a text, whatever its length: the contents have no NUL, at
    which the program's copying and printing would stop, and the kernel does not take
    the name for one of the terminal's. *)
Record searchable (d : dentry_t) : Prop := {
  sr_stdin : starts_with str_stdin (entry_name d ++ [0]) = false;
  sr_stdout : starts_with str_stdout (entry_name d ++ [0]) = false;
  sr_file : exists f, dir_find (entry_name d ++ [0]) (im_dir im) = Some f /\ fileType f = 2 /\
    at_ (im_files im) (inodeNum f) = Some (named_text d);
  sr_text : Forall (fun c => 0 < c < 256) (named_text d)
}.

(** What grep prints of an entry. *)
Definition grep_entry (pat : list Z) (d : dentry_t) : list Z :=
  if hidden d then [] else grep_out pat (entry_name d) (pieces [] (named_text d)).

(** ** Lemmas: the whole program *)

Lemma cstr_text bs : Forall (fun c => c <> 0) (cstr bs).
Proof. apply Forall_forall. intros c Hc ->. by apply list_elem_of_In, cstr_no_nul in Hc. Qed.

Lemma entry_name_text d : text (entry_name d) /\ (length (entry_name d) <= 32)%nat.
Proof.
  assert (length (entry_name d) <= 32)%nat as Hlen by (unfold entry_name; rewrite length_take; lia).
  split; [|done]. split; [|unfold FOUR_MB; lia]. unfold entry_name. apply Forall_take, cstr_text.
Qed.

Lemma free_fd_kept l l' fd :
  free_fd l = Some fd -> 
  (forall k e, 2 <= k < fd -> at_ l k = Some e -> fd_flg e <> UNUSED_FLAG ->
     exists e', at_ l' k = Some e' /\ fd_flg e' <> UNUSED_FLAG) ->
  (exists e, at_ l' fd = Some e /\ fd_flg e = UNUSED_FLAG) -> free_fd l' = Some fd.
Proof.
  intros Hfd Hused Hfree. destruct (lowest_free_spec 6 2 l fd ltac:(lia) Hfd) as (Hr & (e & He & _) & Hlow).
  unfold free_fd. rewrite (lowest_free_is 6 2 l' fd); [by rewrite (proj2 (Z.ltb_lt _ _)) by lia|lia| |done].
  intros k Hk. pose proof (at_inv _ _ _ He). destruct (at_Some l k) as [e' He']; [lia|].
  apply (Hused k e'); [lia|done|]. apply (Hlow k); [lia|done].
Qed.

(** A store in one of two regions that the literals avoid. *)
Lemma literals_kept_from L b n b' n' s s' :
  literals j L b n s -> literals j L b' n' s -> page_kept j b n s s' -> literals j L b' n' s'.
Proof.
  intros H1 H2 Hk. apply Forall_lookup. intros i bs Hi.
  destruct (proj1 (Forall_lookup _ _) (literals_kept _ _ _ _ _ _ H1 Hk) i bs Hi) as (Ht & Hp & Hb & _).
  destruct (proj1 (Forall_lookup _ _) H2 i bs Hi) as (_ & _ & _ & Hsep). by split_and!.
Qed.

(** *** One directory entry *)

Section directory.
Context (buf search data : Z) (pat : list Z) (fd0 fd1 : Z).
Let texts : list (list Z) := [chars ":"; line ""].

Hypothesis Hbuf : in_page buf 33.
Hypothesis Hsearch : in_page search 128 /\ (search + 128 <= data \/ data + 1025 <= search).
Hypothesis Hdata : in_page data 1025.
Hypothesis Hsep : (buf + 33 <= data \/ data + 1025 <= buf) /\ (buf + 33 <= search \/ search + 128 <= buf).
Hypothesis Hpat : exists c pat', pat = c :: pat' /\ c < 128.
Hypothesis Hpat_text : text pat /\ (length pat <= 127)%nat.

(** The state between two entries. *)
Record between (pos : Z) (a : tty) (s : machine) : Prop := {
  bw_session : exists l, session l a s /\ at_ l 1 = Some stdout_entry /\ at_ l fd0 = Some (directory_entry pos) /\
    free_fd l = Some fd1;
  bw_pat : page_bytes j s search (pat ++ [0]);
  bw_lit : literals j texts data 1025 s /\ literals j texts buf 33 s;
  bw_last : byte s (page_cell j (data + 1024)) <> ch_newline
}.

(** The next name is read into the buffer. *)
Lemma next_entry pos d a s :
  between pos a s -> 2 <= fd0 -> at_ (im_dir im) pos = Some d ->
  exists s', ece391_read fd0 buf (SBUFSIZE - 1) s = Ok (Z.of_nat (length (entry_name d)), s') /\
    between (pos + 1) a s' /\ page_bytes j s' buf (entry_name d).
Proof using Hbuf Hsearch Hdata Hsep Hpat_text.
  intros [(l & Hs & Ho & He & Hfree) Hp [HL1 HL2] Hlast] Hfd0 Hd. pose proof (at_inv _ _ _ Hd) as Hpos. pose proof (at_inv _ _ _ He) as Hi.
  destruct (read_directory size im t p j l a s fd0 buf (SBUFSIZE - 1) pos Hs He) as (s' & Hrd & Hs' & Hk & Hb);
    [lia|destruct Hbuf; split; lia|unfold SBUFSIZE, FOUR_MB; lia|lia|].
  unfold directory_step in Hrd, Hs', Hb. rewrite Hd in Hrd, Hs', Hb. cbn [fst snd] in Hrd, Hs', Hb.
  exists s'. split_and!; [done| |done]. destruct Hsearch as [Hs1 Hs2], Hdata as [Hd1 Hd2], Hsep as [Hsp1 Hsp2].
  assert (page_kept j buf 33 s s') as Hk33 by (eapply page_kept_weaken; [exact Hk|lia]). split.
  - exists (upd l fd0 (directory_entry (pos + 1))). split_and!; [done|by rewrite at_upd_ne by lia|by apply at_upd_eq|].
    destruct (lowest_free_spec 6 2 l fd1 ltac:(lia) Hfree) as (_ & (e1 & He1 & Hu1) & _).
    assert (fd1 <> fd0) by (intros ->; rewrite He in He1; injection He1 as <-; discriminate).
    apply (free_fd_kept l); [done| |exists e1; by rewrite at_upd_ne by lia].
    intros k e Hk' Hat Hu. destruct (Z.eq_dec k fd0) as [->|]; [|by exists e; rewrite at_upd_ne by lia].
    eexists. split; [by apply at_upd_eq|discriminate].
  - eapply page_bytes_kept; [exact Hk33| | |exact Hp]; rewrite length_app, Nat2Z.inj_add; simpl; destruct Hs1, Hpat_text; [split; lia|lia].
  - split; [exact (literals_kept_from _ _ _ _ _ _ _ HL2 HL1 Hk33)|exact (literals_kept _ _ _ _ _ _ HL2 Hk33)].
  - by rewrite (Hk33 (data + 1024)) by (try split; lia).
Qed.

(** The file of that name is searched. *)
Lemma search_entry pos d a s :
  between pos a s -> page_bytes j s buf (entry_name d) -> searchable d ->
  exists s1 s', ustore (buf + Z.of_nat (length (entry_name d))) 0 s = Ok (tt, s1) /\
    do_one_file data search buf s1 = Ok (0, s') /\
    between pos (tty_puts (grep_out pat (entry_name d) (pieces [] (named_text d))) a) s'.
Proof using Hbuf Hsearch Hdata Hsep Hpat Hpat_text.
  intros [(l & Hs & Ho & He & Hfree) Hp [HL1 HL2] Hlast] Hb [E1 E2 (f & Hf & Hty & Hc) Hcz]. set (nm := entry_name d) in *.
  destruct (entry_name_text d) as [Htn Hlen]. fold nm in Htn, Hlen. pose proof Hdata as [Hd1 Hd2].
  destruct Hbuf as [Hb1 Hb2], Hsearch as [[Hs1 Hs2] Hs3], Hsep as [Hsp1 Hsp2].
  destruct (ustore_run size im t p j l a s (buf + Z.of_nat (length nm)) 0 Hs) as (s1 & R1 & Hss1 & K1 & Hz); [split; lia|lia|].
  assert (page_kept j buf 33 s s1) as Hk33 by (eapply page_kept_weaken; [exact K1|lia]).
  assert (held data search buf pat nm l a data [] s1) as Hh.
  { split_and!; [done| |done|done|by rewrite (Hk33 (data + 1024)) by (try split; lia)]. split_and!.
    - eapply page_bytes_kept; [exact Hk33| | |exact Hp]; rewrite length_app, Nat2Z.inj_add; simpl; destruct Hpat_text; [split; lia|lia].
    - apply page_bytes_app. split; [|done]. eapply page_bytes_kept; [exact K1|split; lia|lia|exact Hb].
    - exact (literals_kept_from _ _ _ _ _ _ _ HL2 HL1 Hk33). }
  destruct (do_one_file_run data search buf pat nm Hdata Hpat) with (l := l) (a := a) (s := s1) (d := f) (fd := fd1) (c := named_text d)
    as (s2 & R2 & Hh2); try done; [split; [apply Hpat_text|done]|split; [destruct Hpat_text; split; lia|destruct Hpat_text; lia]|
      split; [split; lia|lia]|].
  destruct (lowest_free_spec 6 2 l fd1 ltac:(lia) Hfree) as (Hr1 & (e1 & He1 & Hu1) & Hlow).
  assert (fd1 <> fd0) by (intros ->; rewrite He in He1; injection He1 as <-; discriminate). pose proof (at_inv _ _ _ He1).
  exists s1, s2. split_and!; [done|done|]. pose proof Hh2 as (Hs2' & (Hp2 & _ & HLd) & _ & _ & Hl2). split; [|done| |done].
  - eexists. split; [exact Hs2'|]. split_and!; [by rewrite at_upd_ne by lia|by rewrite at_upd_ne by lia|].
    apply (free_fd_kept l); [done| |eexists; split; [by apply at_upd_eq|done]].
    intros k e Hk Hat Hu. exists e. by rewrite at_upd_ne by lia.
  - split; [done|]. apply Forall_lookup. intros i bs Hi. destruct (proj1 (Forall_lookup _ _) HLd i bs Hi) as (? & ? & ? & _).
    destruct (proj1 (Forall_lookup _ _) HL2 i bs Hi) as (_ & _ & _ & ?). by split_and!.
Qed.

(** What is printed from position [pos] on. *)
Definition remaining (pos : Z) : list Z := concat (grep_entry pat <$> drop (Z.to_nat pos) (im_dir im)).

Lemma grep_round pos d a s :
  between pos a s -> 2 <= fd0 -> at_ (im_dir im) pos = Some d -> entry_name d <> [] -> (hidden d = false -> searchable d) ->
  exists a' s', grep_step fd0 buf search data tt s = Ok (inl tt, s') /\ between (pos + 1) a' s' /\
    tty_puts (remaining (pos + 1)) a' = tty_puts (remaining pos) a.
Proof using Hbuf Hsearch Hdata Hsep Hpat Hpat_text.
  intros Hw Hfd0 Hd Hne Hsr. pose proof (at_inv _ _ _ Hd) as Hpos.
  destruct (next_entry pos d a s Hw Hfd0 Hd) as (s1 & R1 & Hw1 & Hb1).
  assert (remaining pos = grep_entry pat d ++ remaining (pos + 1)) as Erem.
  { unfold remaining. rewrite (drop_S _ d (Z.to_nat pos)) by (by apply at_lookup).
    by replace (Z.to_nat (pos + 1)) with (S (Z.to_nat pos)) by lia. }
  destruct (entry_name d) as [|c nm] eqn:En; [done|].
  assert (uload buf s1 = Ok (c, s1)) as R2.
  { pose proof Hw1 as [(l & Hs1 & _) _ _ _]. eapply uload_run; [exact Hs1|destruct Hbuf; split; lia|].
    intros [|k] v; [intros [= <-]; by apply Hb1|done]. }
  unfold grep_step. rewrite (bind_ok _ _ _ _ _ R1).
  rewrite (proj2 (Z.eqb_neq _ 0)), (proj2 (Z.eqb_neq _ (-1))) by (simpl; lia). rewrite (bind_ok _ _ _ _ _ R2).
  rewrite Erem. unfold grep_entry, hidden in *. rewrite En in *. cbn [head] in *. destruct (Z.eqb_spec c 46) as [->|Hc].
  - exists a, s1. by rewrite bool_decide_eq_true_2 by done.
  - rewrite bool_decide_eq_false_2 in * by congruence. rewrite <- En in Hb1.
    destruct (search_entry (pos + 1) d a s1 Hw1 Hb1 (Hsr eq_refl)) as (s2 & s3 & R3 & R4 & Hw3). rewrite En in R3, Hw3.
    eexists _, s3. rewrite (bind_ok _ _ _ _ _ R3), (bind_ok _ _ _ _ _ R4). split_and!; [done|exact Hw3|].
    by rewrite <- tty_puts_app.
Qed.

Lemma grep_loop a s :
  between 0 a s -> 2 <= fd0 ->
  Forall (fun d => entry_name d <> [] /\ (hidden d = false -> searchable d)) (im_dir im) ->
  exists l s', loop (grep_step fd0 buf search data) tt s = Ok (0, s') /\ session l (tty_puts (remaining 0) a) s'.
Proof using Hbuf Hsearch Hdata Hsep Hpat Hpat_text.
  intros Hw Hfd0 Hall. set (last := Z.of_nat (length (im_dir im))).
  assert (wp (loop (grep_step fd0 buf search data) tt) (fun r s' => r = 0 /\ exists l, session l (tty_puts (remaining 0) a) s') s)
    as (r & s' & Hrun & -> & l & Hs')%wp_inv; [|by exists l, s'].
  assert (last < 2 ^ 32) as Hmax.
  { pose proof Hw as [(l & Hs & _) _ _ _]. pose proof (fr_ndir_max _ _ _ _ (dk_rep _ _ _ (se_disk _ _ _ _ _ _ _ _ Hs))).
    unfold MAX_NUM_DIRECTORY_ENTRIES, last in *. lia. }
  apply (wp_loop_bound _ (fun k _ s' => exists pos a', k = last - pos /\ 0 <= pos <= last /\ between pos a' s' /\
    tty_puts (remaining pos) a' = tty_puts (remaining 0) a) _) with (k := last); [|exists 0, a; split_and!; (done || lia)|done].
  intros k [] s1 (pos & a1 & -> & Hpos & Hw1 & Hp1). destruct (Z.eq_dec pos last) as [->|Hne].
  - destruct Hw1 as [(l & Hs1 & Ho & He & Hfree) Hp [HL1 HL2] Hlast]. pose proof Hbuf as [Hb1 Hb2].
    destruct (directory_round size im t p j fd0 l buf (SBUFSIZE - 1) last a1 s1) as (s2 & Hrd & Hs2 & _).
    + by rewrite (upd_same _ _ _ He).
    + by apply at_inv in He.
    + lia.
    + split; lia.
    + unfold SBUFSIZE, FOUR_MB. lia.
    + unfold last in *. lia.
    + unfold last in Hrd, Hs2. rewrite directory_end in Hrd, Hs2. cbn [fst snd length] in Hrd, Hs2.
      apply wp_bind. eapply wp_run; [exact Hrd|]. split; [done|].
      assert (remaining last = []) as E by (unfold remaining, last; by rewrite drop_ge by lia).
      rewrite <- Hp1, E. by eexists.
  - destruct (lookup_lt_is_Some_2 (im_dir im) (Z.to_nat pos)) as [d Hd]; [unfold last in *; lia|].
    destruct (proj1 (Forall_lookup _ _) Hall _ _ Hd) as [Hnm Hsr].
    assert (at_ (im_dir im) pos = Some d) as Hat by (unfold at_; by rewrite (proj2 (Z.leb_le 0 pos)) by lia).
    destruct (grep_round pos d a1 s1 Hw1 Hfd0 Hat Hnm Hsr) as (a2 & s2 & Hrun & Hw2 & Hp2).
    eapply wp_run; [exact Hrun|]. exists (last - (pos + 1)). split; [|lia].
    exists (pos + 1), a2. split_and!; [done|lia|lia|done|congruence].
Qed.
End directory.

(** ** Properties *)

(** C8: in a directory of text files (every entry that no dot hides is [searchable]:
    a regular file without NUL bytes, whose name does not begin with stdin or stdout),
    for a pattern of 1 to 127 characters whose first is below 128, [grep] prints of
    every file exactly the lines that contain the pattern, each behind the name of the
    file and a colon, in order; a line of 1024 characters or more is searched and
    printed in pieces of 1024. The byte behind the 1024 that are read, which the
    program never sets and yet inspects, is not a newline.  [grep] terminates and
    returns 0 whatever the number and the length of the files, although it reads them
    through a buffer of 1024 bytes whose unfinished last line it moves to the front. *)
Theorem grep_prints_matching_lines buf search data args d fd0 fd1 l a s :
  session l a s -> at_ l 1 = Some stdout_entry ->
  in_page buf 33 -> in_page search 1024 -> in_page data 1025 ->
  (buf + 33 <= data \/ data + 1025 <= buf) /\ (buf + 33 <= search \/ search + 128 <= buf) /\
    (search + 128 <= data \/ data + 1025 <= search) ->
  (exists c args', args = c :: args' /\ c < 128) -> Forall (fun c => 0 < c < 256) args -> (length args <= 127)%nat ->
  bytes_at (view s) (pcb_arg_ptr j) (padded args) ->
  (let L := [chars "."; chars ":"; line ""] in
   literals j L buf 33 s /\ literals j L search 128 s /\ literals j L data 1025 s) ->
  byte s (page_cell j (data + 1024)) <> ch_newline ->
  dir_find (chars "." ++ [0]) (im_dir im) = Some d -> fileType d = 1 ->
  free_fd l = Some fd0 -> free_fd (upd l fd0 (directory_entry 0)) = Some fd1 ->
  Forall (fun d => entry_name d <> [] /\ (hidden d = false -> searchable d)) (im_dir im) ->
  exists l' s', grep_main buf search data s = Ok (0, s') /\
    session l' (tty_puts (concat (grep_entry args <$> im_dir im)) a) s'.
Proof.
  intros Hs Ho Hbuf [Hse1 Hse2] [Hd1 Hd2] (Hsep1 & Hsep2 & Hsep3) Hpat Hargs Hlen Harg (HLb & HLs & HLd) Hlast Hd Hty Hfd0 Hfd1 Hall.
  destruct (getargs_run size im t p j l a s search BUFSIZE args Hs) as (s1 & R1 & Hs1 & K1 & Hb1);
    [split; lia|unfold BUFSIZE, FOUR_MB; lia|done|done|done|].
  pose proof (literals_kept_from _ _ _ _ _ _ _ HLs HLb K1) as HLb1.
  pose proof (literals_kept_from _ _ _ _ _ _ _ HLs HLd K1) as HLd1.
  assert (open_entry d = Some (directory_entry 0)) as He by (unfold open_entry; by rewrite Hty).
  destruct (open_spec_entry im (chars "." ++ [0]) l d _ fd0 eq_refl eq_refl Hfd0 Hd He) as (Eo & Hr & Hfl).
  destruct (proj1 (Forall_cons_iff _ _ _) HLb1) as [(_ & Hp & Hb & _) HLb2]. destruct (proj1 (Forall_cons_iff _ _ _) HLd1) as [_ HLd2].
  destruct (open_run size im t p j l a s1 _ _ Hs1 Hp Hb) as (s2 & R2 & Hs2 & K2). rewrite Eo in R2, Hs2. cbn [fst snd] in R2, Hs2.
  assert (between buf search data args fd0 fd1 0 a s2) as Hw.
  { split.
    - eexists. split; [exact Hs2|]. split_and!; [by rewrite at_upd_ne by lia|apply at_upd_eq; lia|done].
    - rewrite padded_args in Hb1 by done. apply page_bytes_app in Hb1 as [Hb1 _].
      eapply page_bytes_kept; [exact K2| | |exact Hb1]; rewrite length_app, Nat2Z.inj_add; simpl; [split; lia|unfold PROCESS_VIRTUAL in *; lia].
    - split; (eapply literals_kept; [eassumption|eapply page_kept_weaken; [exact K2|lia]]).
    - rewrite (K2 (data + 1024)), (K1 (data + 1024)) by (try split; lia). done. }
  destruct (grep_loop buf search data args fd0 fd1) with (a := a) (s := s2) as (l' & s' & Hrun & Hs'); try done;
    [split; [split; lia|done]| |lia|].
  - split; [|done]. split; [eapply Forall_impl; [|exact Hargs]; simpl; lia|unfold FOUR_MB; lia].
  - exists l', s'. split; [|exact Hs']. unfold grep_main. rewrite (bind_ok _ _ _ _ _ R1). cbn [Z.eqb negb].
    rewrite (bind_ok _ _ _ _ _ R2). by rewrite (proj2 (Z.eqb_neq fd0 (-1))) by lia.
Qed.
End runs.

Lemma grep_prints_matching_lines_witness :
  exists l' s', @grep_main sample_env 0x8000000 0x8000100 0x8001000 sample = Ok (0, s') /\
    session 0x3000 sample_image 0 VIDEO 0 l' (tty_puts [104; 105; 58; 104; 105; 10] blank) s'.
Proof.
  apply (@grep_prints_matching_lines sample_env 0x3000 sample_image 0 VIDEO 0 0x8000000 0x8000100 0x8001000 hi
    (Dentry (46 :: replicate 31 0) 1 0 (replicate 6 0)) 2 3 initial_files blank sample).
  - apply sample_session.
  - reflexivity.
  - unfold in_page, PROCESS_VIRTUAL, FOUR_MB. lia.
  - unfold in_page, PROCESS_VIRTUAL, FOUR_MB. lia.
  - unfold in_page, PROCESS_VIRTUAL, FOUR_MB. lia.
  - lia.
  - exists 104, [105]. split; [reflexivity|lia].
  - unfold hi. repeat constructor; lia.
  - unfold hi. simpl. lia.
  - apply sample_args.
  - split; [|split]; (apply sample_literals; [vm_compute; reflexivity|unfold sample_text; lia]).
  - intros E. vm_compute in E. discriminate.
  - reflexivity.
  - reflexivity.
  - reflexivity.
  - reflexivity.
  - apply Forall_cons; [split; [discriminate|discriminate]|]. apply Forall_cons; [|apply Forall_nil]. split; [discriminate|].
    intros _. split; [reflexivity|reflexivity|eexists; split; [reflexivity|split; reflexivity]|].
    vm_compute. repeat constructor.
Defined.
