(* ===== verification/Syserr.v ===== *)
(** * syserr: the tests of the system calls

    The program ece391syserr.c calls the kernel with arguments that it must
    refuse, and prints which of its eight tests pass. *)

From Stdlib Require Import String.
From S2P Require Import Prelude Memory Lib Filesystem Machine Screen Paging Syscall FileTable Processes ProcessTable Kernel User Session Sample Programs.

Definition NEG_FD : Z := -1073741823.
Definition BIG_FD : Z := 1073741823.
Definition BIG_NUM : Z := 1073741823.
Definition NEG_NUM : Z := -1073741823.

Section tests.
Context `{UserEnv}.

(** The call number in EAX, the other registers as they are. *)
Definition call_sys (num : Z) : K Z := DO_CALL num reg_ebx reg_ecx reg_edx.

(** [if (-1 != call) { fail = 2; puts(complaint) }] *)
Definition refuses (call : K Z) (complaint : list Z) (fail : Z) : K Z :=
  r ← call; if negb (r =? -1) then say complaint ;;; mret 2 else mret fail.

(** The last lines of a test. *)
Definition verdict (name : list Z) (fail : Z) : K Z :=
  (if negb (fail =? 0) then say (name ++ line ": FAIL") else say (name ++ line ": PASS")) ;;;
  mret fail.

Definition err_neg_fd (buf : Z) : K Z :=
  fail ← refuses (ece391_read NEG_FD buf 31) (line "read fail") 0;
  fail ← refuses (ece391_write NEG_FD buf 31) (line "write fail") fail;
  fail ← refuses (ece391_close NEG_FD) (line "close fail") fail;
  verdict (chars "err_neg_fd") fail.

Definition err_big_fd (buf : Z) : K Z :=
  fail ← refuses (ece391_read BIG_FD buf 31) (line "read fail") 0;
  fail ← refuses (ece391_write BIG_FD buf 31) (line "write fail") fail;
  fail ← refuses (ece391_close BIG_FD) (line "close fail") fail;
  verdict (chars "err_big_fd") fail.

Definition err_open_lots : K Z :=
  cnt ← for_var 7 0 0 (fun _ cnt =>
    r ← ece391_open (lit (chars ".")); mret (if r =? -1 then cnt + 1 else cnt));
  for_ 6 2 (fun i => ece391_close i ≫= fun _ => mret tt) ;;;
  if cnt =? 1 then say (line "err_open_lots: PASS") ;;; mret 0
  else say (line "err_open_lots: FAIL") ;;; mret 2.

Definition err_open : K Z :=
  fail ← refuses (ece391_open (lit (chars "helloo"))) (line "'helloo' fail") 0;
  fail ← refuses (ece391_open (lit (chars "shel"))) (line "'shel' fail") fail;
  fail ← refuses (ece391_open (lit [])) (line "empty string fail") fail;
  verdict (chars "err_open") fail.

Definition err_unopened (buf : Z) : K Z :=
  fail ← for_var 8 0 0 (fun i fail =>
    refuses (ece391_close i) (line "close unopened or invalid fd fail") fail);
  fail ← for_var 6 2 fail (fun i fail =>
    refuses (ece391_read i buf 31) (line "read from unopened fd fail") fail);
  fail ← for_var 6 2 fail (fun i fail =>
    refuses (ece391_write i buf 31) (line "write to unopened fd fail") fail);
  verdict (chars "err_unopened") fail.

Definition err_vidmap : K Z :=
  fail ← refuses (ece391_vidmap 0x0) (line "Null pointer fail") 0;
  fail ← refuses (ece391_vidmap 0x400000) (line "Kernel pointer fail fail") fail;
  verdict (chars "err_vidmap") fail.

Definition err_stdin_out (buf : Z) : K Z :=
  fail ← refuses (ece391_write 0 buf 31) (line "write to stdin fail") 0;
  fail ← refuses (ece391_read 1 buf 31) (line "read from stdout fail") fail;
  verdict (chars "err_stdin_out") fail.

Definition err_syscall_num : K Z :=
  fail ← refuses (call_sys BIG_NUM) (line "syscall 0 fail") 0;
  fail ← refuses (call_sys NEG_NUM) (line "big num syscall fail") fail;
  fail ← refuses (call_sys 0) (line "neg num syscall fail") fail;
  verdict (chars "err_syscall_num") fail.

(** The case 0 of main: every test, and the sum of their results. *)
Definition all_tests (buf32 : Z) : K Z :=
  f1 ← err_neg_fd buf32; f2 ← err_big_fd buf32; f3 ← err_open_lots; f4 ← err_open;
  f5 ← err_unopened buf32; f6 ← err_vidmap; f7 ← err_stdin_out buf32; f8 ← err_syscall_num;
  let fail := f1 + f2 + f3 + f4 + f5 + f6 + f7 + f8 in
  (if negb (fail =? 0) then say (ch_newline :: line "Overall Tests: FAIL")
   else say (ch_newline :: line "Overall Tests: PASS")) ;;;
  mret fail.

Definition syserr_main (buf buf32 : Z) : K Z :=
  say (chars "Choose from tests 1-8. 0 to run all: ") ;;;
  cnt ← ece391_read 0 buf 127;
  if cnt =? -1 then say (line "Can't read test #") ;;; mret 2
  else
    c ← uload buf;
    match c - 48 with
    | 0 => all_tests buf32
    | 1 => err_neg_fd buf32
    | 2 => err_big_fd buf32
    | 3 => err_open_lots
    | 4 => err_open
    | 5 => err_unopened buf32
    | 6 => err_vidmap
    | 7 => err_stdin_out buf32
    | 8 => err_syscall_num
    | _ => say (chars "Invalid test number. Choose from tests 1-8 or 0") ;;; mret 0
    end.
End tests.

(** ** Specification *)

Definition test_names : list (list Z) :=
  [chars "err_neg_fd"; chars "err_big_fd"; chars "err_open_lots"; chars "err_open"; chars "err_unopened";
   chars "err_vidmap"; chars "err_stdin_out"; chars "err_syscall_num"].

Definition passed (name : list Z) : list Z := name ++ line ": PASS".

Definition all_passed : list Z := ch_newline :: line "Overall Tests: PASS".

(** Names that no file has. *)
Definition wrong_names : list (list Z) := [chars "helloo"; chars "shel"; []].

(** The literals that the tests use when the kernel behaves as they expect. *)
Definition test_literals : list (list Z) := chars "." :: wrong_names ++ (passed <$> test_names) ++ [all_passed].

(** Of the descriptors from 2 to 7 those chosen by [used] are the directory, and
    the others are free. *)
Definition holds `{UserEnv} (size : Z) (im : fs_image) (t p j : Z) (used : Z -> bool) (a : tty) (s : machine) : Prop :=
  literals j test_literals PROCESS_VIRTUAL 0 s /\
  exists l, session size im t p j l a s /\ at_ l 1 = Some stdout_entry /\
    forall fd, 2 <= fd < 8 -> exists e, at_ l fd = Some e /\
      if used fd then e = directory_entry 0 else fd_flg e = UNUSED_FLAG.

(** ** Lemmas: refused calls *)

Section refused.
Context `{UserEnv} (size : Z) (im : fs_image) (t p j : Z).
Implicit Types (used : Z -> bool) (a : tty) (s : machine).

Abbreviation holds := (holds size im t p j).

Lemma refuses_run call msg fail s s' : call s = Ok (-1, s') -> refuses call msg fail s = Ok (fail, s').
Proof. intros E. unfold refuses. by rewrite (bind_ok _ _ _ _ _ E). Qed.

Lemma for_refuses n i call msg s :
  (forall k, i <= k < i + Z.of_nat n -> call k s = Ok (-1, s)) ->
  for_var n i 0 (fun k fail => refuses (call k) msg fail) s = Ok (0, s).
Proof.
  intros Hcall. set (body := fun k fail => refuses (call k) msg fail).
  assert (wp (for_var n i 0 body) (fun fail s' => fail = 0 /\ s' = s) s) as (r & s' & Hrun & -> & ->)%wp_inv; [|done].
  apply (wp_for_var (fun _ fail s' => fail = 0 /\ s' = s)); [done|]. intros k x s' Hk [-> ->].
  eapply wp_run; [by apply refuses_run, Hcall|done].
Qed.

(** Numbers that no open descriptor of the table has. *)
Definition not_open used (fd : Z) : Prop := -2 ^ 31 <= fd < 2 ^ 31 /\ (2 <= fd < 8 -> used fd = false) /\ fd <> 8.

Lemma holds_unopened used a s fd :
  holds used a s -> not_open used fd -> exists l, session size im t p j l a s /\ unopened l fd.
Proof.
  intros (_ & l & Hs & _ & Hl) (Hr & Hu & H8). exists l. split; [done|]. split_and!; try lia.
  intros Hfd. destruct (Hl fd Hfd) as (e & He & Hflg). rewrite (Hu Hfd) in Hflg. by exists e.
Qed.

Lemma test_read_refused used a s fd buf n : holds used a s -> not_open used fd -> fd <> 0 -> ece391_read fd buf n s = Ok (-1, s).
Proof. intros Hh Hno H0. destruct (holds_unopened _ _ _ _ Hh Hno) as (l & Hs & Hu). by eapply read_refused. Qed.

Lemma test_write_refused used a s fd buf n : holds used a s -> not_open used fd -> fd <> 1 -> ece391_write fd buf n s = Ok (-1, s).
Proof. intros Hh Hno H1. destruct (holds_unopened _ _ _ _ Hh Hno) as (l & Hs & Hu). by eapply write_refused. Qed.

Lemma test_close_refused used a s fd : holds used a s -> not_open used fd -> ece391_close fd s = Ok (-1, s).
Proof. intros Hh Hno. destruct (holds_unopened _ _ _ _ Hh Hno) as (l & Hs & Hu). by eapply close_refused. Qed.

Lemma vidmap_refused b s : 0 <= b < EIGHT_MB -> ece391_vidmap b s = Ok (-1, s).
Proof.
  intros Hb. apply (vidmap_call b (-1)). rewrite u32_small by (unfold EIGHT_MB in Hb; lia). unfold sys_vidmap.
  destruct (b =? 0); [done|]. by destruct (Z.ltb_spec b EIGHT_MB); [|lia].
Qed.

Lemma number_refused n s : u32 n = 0 \/ 10 < u32 n -> call_sys n s = Ok (-1, s).
Proof.
  intros Hn. apply (return_run n _ _ _ (-1)). unfold syscall, MAX_SYSCALL_NUM.
  destruct (Z.ltb_spec 10 (u32 n)), (Z.eqb_spec (u32 n) 0); (lia || done).
Qed.

(** *** Printing *)

Lemma holds_say used a s bs :
  holds used a s -> bs ∈ test_literals ->
  exists s', say bs s = Ok (tt, s') /\ holds used (tty_puts bs a) s'.
Proof.
  intros (HL & l & Hs & Ho & Hl) Hbs. destruct (say_run size im t p j _ _ _ l a s bs Hs Ho HL Hbs) as (s' & Hrun & Hs' & _ & HL').
  exists s'. split; [done|]. split; [done|]. by exists l.
Qed.

Lemma verdict_passed used a s name :
  holds used a s -> name ∈ test_names ->
  exists s', verdict name 0 s = Ok (0, s') /\ holds used (tty_puts (passed name) a) s'.
Proof.
  intros Hh Hn. destruct (holds_say used a s (passed name) Hh) as (s' & Hrun & Hs').
  - unfold test_literals. right. apply elem_of_app. right. apply elem_of_app. left. by apply list_elem_of_fmap_2.
  - exists s'. split; [|done]. unfold verdict. cbn [Z.eqb negb]. by rewrite (bind_ok _ _ _ _ _ Hrun).
Qed.

(** *** Opening and closing *)

Lemma holds_literal used a s bs :
  holds used a s -> bs ∈ test_literals ->
  in_page (lit bs) (Z.of_nat (length bs) + 1) /\ page_bytes j s (lit bs) (bs ++ [0]).
Proof.
  intros [HL _] [i Hi]%list_elem_of_lookup. by destruct (proj1 (Forall_lookup _ _) HL i bs Hi) as (_ & ? & ? & _).
Qed.

(** A call that changes only the descriptor table. *)
Lemma holds_table used used' l' a s s' :
  holds used a s -> session size im t p j l' a s' -> page_kept j 0 0 s s' -> at_ l' 1 = Some stdout_entry ->
  (forall fd, 2 <= fd < 8 -> exists e, at_ l' fd = Some e /\ if used' fd then e = directory_entry 0 else fd_flg e = UNUSED_FLAG) ->
  holds used' a s'.
Proof.
  intros [HL _] Hs' Hk Ho Hl. split; [|by exists l']. eapply literals_kept; [exact HL|].
  eapply page_kept_weaken; [exact Hk|lia].
Qed.

Lemma open_missing used a s bs :
  holds used a s -> bs ∈ wrong_names -> dir_find (bs ++ [0]) (im_dir im) = None ->
  exists s', ece391_open (lit bs) s = Ok (-1, s') /\ holds used a s'.
Proof.
  intros Hh Hbs Hd. assert (bs ∈ test_literals) as Hin by (right; apply elem_of_app; by left).
  destruct (holds_literal used a s bs Hh Hin) as [Hp Hb]. pose proof Hh as (_ & l & Hs & Ho & Hl).
  destruct (open_run size im t p j l a s _ _ Hs Hp Hb) as (s' & Hrun & Hs' & Hk).
  assert (starts_with str_stdin (bs ++ [0]) = false /\ starts_with str_stdout (bs ++ [0]) = false) as [E1 E2].
  { clear -Hbs. unfold wrong_names in Hbs. rewrite !elem_of_cons, elem_of_nil in Hbs. by destruct Hbs as [->|[->|[->|[]]]]. }
  rewrite (open_spec_missing im _ l E1 E2 Hd) in Hrun, Hs'. exists s'. split; [done|]. by eapply holds_table.
Qed.

(** The directory is opened [k] times, or one of the [6] open descriptors is closed. *)
Definition below (n : Z) : Z -> bool := fun fd => fd <? n.

Lemma open_directory k a s d :
  holds (below k) a s -> 2 <= k <= 8 -> dir_find (chars "." ++ [0]) (im_dir im) = Some d -> fileType d = 1 ->
  exists s', ece391_open (lit (chars ".")) s = Ok (if k <? 8 then k else -1, s') /\ holds (below (Z.min 8 (k + 1))) a s'.
Proof.
  intros Hh Hk Hd Hty. destruct (holds_literal (below k) a s (chars ".") Hh ltac:(by left)) as [Hp Hb].
  pose proof Hh as (_ & l & Hs & Ho & Hl). destruct (open_run size im t p j l a s _ _ Hs Hp Hb) as (s' & Hrun & Hs' & Hkept).
  assert (free_fd l = if k <? 8 then Some k else None) as Hfree.
  { apply (lowest_free_is 6 2); [lia| |].
    - intros i Hi. destruct (Hl i ltac:(lia)) as (e & He & Hu). exists e. split; [done|].
      unfold below in Hu. rewrite (proj2 (Z.ltb_lt _ _)) in Hu by lia. by subst e.
    - intros Hi. destruct (Hl k ltac:(lia)) as (e & He & Hu). exists e. split; [done|].
      unfold below in Hu. by rewrite Z.ltb_irrefl in Hu. }
  assert (open_entry d = Some (directory_entry 0)) as He by (unfold open_entry; by rewrite Hty).
  destruct (Z.ltb_spec k 8) as [Hlt|Hge].
  - destruct (open_spec_entry im (chars "." ++ [0]) l d _ k eq_refl eq_refl Hfree Hd He) as (Eo & Hr & Hlen). rewrite Eo in Hrun, Hs'.
    exists s'. split; [done|]. eapply holds_table; [exact Hh|exact Hs'|exact Hkept| |].
    + cbn [snd]. by rewrite at_upd_ne by lia.
    + intros fd Hfd. unfold below. destruct (Z.eq_dec fd k) as [->|Hne].
      * exists (directory_entry 0). split; [apply at_upd_eq; lia|]. by rewrite (proj2 (Z.ltb_lt _ _)) by lia.
      * destruct (Hl fd Hfd) as (e & Hat & Hu). exists e. cbn [snd]. rewrite at_upd_ne by lia. split; [done|].
        unfold below in Hu. by destruct (Z.ltb_spec fd k), (Z.ltb_spec fd (Z.min 8 (k + 1))); try lia.
  - replace k with 8 in * by lia.
    assert (open_spec (chars "." ++ [0]) (im_dir im) l = (-1, l)) as Eo by (unfold open_spec; by rewrite Hfree).
    rewrite Eo in Hrun, Hs'. exists s'. split; [done|]. by eapply holds_table.
Qed.

Definition from (n : Z) : Z -> bool := fun fd => n <=? fd.

Lemma close_directory k a s :
  holds (from k) a s -> 2 <= k < 8 -> exists s', ece391_close k s = Ok (0, s') /\ holds (from (k + 1)) a s'.
Proof.
  intros Hh Hk. pose proof Hh as (_ & l & Hs & Ho & Hl). destruct (Hl k Hk) as (e & He & Hu).
  unfold from in Hu. rewrite Z.leb_refl in Hu. subst e. pose proof (at_inv _ _ _ He).
  destruct (close_run size im t p j l a s k _ Hs Hk He) as (s' & Hrun & Hs' & Hkept); [by intros ?|done|].
  exists s'. split; [done|]. eapply holds_table; [exact Hh|exact Hs'|exact Hkept| |].
  - by rewrite at_upd_ne by lia.
  - intros fd Hfd. unfold from. destruct (Z.eq_dec fd k) as [->|Hne].
    + eexists. split; [by apply at_upd_eq|]. by rewrite (proj2 (Z.leb_gt _ _)) by lia.
    + destruct (Hl fd Hfd) as (e & Hat & Hu). exists e. rewrite at_upd_ne by lia. split; [done|].
      unfold from in Hu. by destruct (Z.leb_spec k fd), (Z.leb_spec (k + 1) fd); try lia.
Qed.

Lemma holds_ext used used' a s :
  (forall fd, 2 <= fd < 8 -> used fd = used' fd) -> holds used a s -> holds used' a s.
Proof.
  intros E (HL & l & Hs & Ho & Hl). split; [done|]. exists l. split_and!; [done|done|].
  intros fd Hfd. rewrite <- E by done. by apply Hl.
Qed.

(** ** Lemmas: the tests *)

(** No file is open. *)
Definition closed : Z -> bool := fun _ => false.

Lemma not_open_outside fd : -2 ^ 31 <= fd < 2 ^ 31 -> fd <> 8 -> not_open closed fd.
Proof. done. Qed.

(** The name of a test, in the list. *)
Ltac in_names := unfold test_names; rewrite !elem_of_cons; tauto.

(** The call that comes next is refused by the lemma [L]. *)
Ltac refuse L := rewrite (bind_ok _ _ _ _ _ (refuses_run _ _ _ _ _ L)).

Lemma err_neg_fd_passes buf a s :
  holds closed a s ->
  exists s', err_neg_fd buf s = Ok (0, s') /\ holds closed (tty_puts (passed (chars "err_neg_fd")) a) s'.
Proof.
  intros Hh. unfold err_neg_fd.
  assert (not_open closed NEG_FD) as Hno by (apply not_open_outside; by vm_compute).
  refuse (test_read_refused closed a s NEG_FD buf 31 Hh Hno ltac:(done)).
  refuse (test_write_refused closed a s NEG_FD buf 31 Hh Hno ltac:(done)).
  refuse (test_close_refused closed a s NEG_FD Hh Hno). apply (verdict_passed closed a); [done|in_names].
Qed.

Lemma err_big_fd_passes buf a s :
  holds closed a s ->
  exists s', err_big_fd buf s = Ok (0, s') /\ holds closed (tty_puts (passed (chars "err_big_fd")) a) s'.
Proof.
  intros Hh. unfold err_big_fd.
  assert (not_open closed BIG_FD) as Hno by (apply not_open_outside; by vm_compute).
  refuse (test_read_refused closed a s BIG_FD buf 31 Hh Hno ltac:(done)).
  refuse (test_write_refused closed a s BIG_FD buf 31 Hh Hno ltac:(done)).
  refuse (test_close_refused closed a s BIG_FD Hh Hno). apply (verdict_passed closed a); [done|in_names].
Qed.

Lemma err_open_lots_passes d a s :
  holds closed a s -> dir_find (chars "." ++ [0]) (im_dir im) = Some d -> fileType d = 1 ->
  exists s', err_open_lots s = Ok (0, s') /\ holds closed (tty_puts (passed (chars "err_open_lots")) a) s'.
Proof.
  intros Hh Hd Hty. unfold err_open_lots.
  set (opens := for_var 7 0 0 _). set (closes := for_ 6 2 _).
  assert (wp opens (fun cnt s1 => cnt = 1 /\ holds (below 8) a s1) s) as (cnt & s1 & Hopen & -> & Hh1)%wp_inv.
  { eapply wp_mono; [apply (wp_for_var (fun i cnt s1 => cnt = (if i <? 7 then 0 else 1) /\ 0 <= i /\
      holds (below (Z.min 8 (i + 2))) a s1))|].
    - split_and!; [done|done|]. eapply holds_ext; [|exact Hh]. intros fd Hfd. unfold closed, below. symmetry. apply Z.ltb_ge. lia.
    - intros i cnt s1 Hi (-> & _ & Hh1). cbn [Z.of_nat] in Hi.
      destruct (open_directory _ a s1 d Hh1 ltac:(lia) Hd Hty) as (s2 & Hrun & Hh2).
      apply wp_bind. eapply wp_run; [exact Hrun|]. apply wp_ret.
      replace (Z.min 8 (Z.min 8 (i + 2) + 1)) with (Z.min 8 (i + 1 + 2)) in Hh2 by lia.
      split; [|split; [lia|done]].
      destruct (Z.ltb_spec i 7), (Z.ltb_spec (i + 1) 7), (Z.ltb_spec (Z.min 8 (i + 2)) 8); try lia;
        (rewrite (proj2 (Z.eqb_neq _ (-1))) by lia; lia) || done.
    - intros cnt s1 (-> & _ & Hh1). done. }
  assert (wp closes (fun _ => holds closed a) s1) as ([] & s2 & Hclose & Hh2)%wp_inv.
  { eapply wp_mono; [apply (wp_for (fun i s2 => 2 <= i /\ holds (from i) a s2))|].
    - split; [done|]. eapply holds_ext; [|exact Hh1]. intros fd Hfd. unfold below, from.
      by destruct (Z.ltb_spec fd 8), (Z.leb_spec 2 fd); try lia.
    - intros i s2 Hi [_ Hh2]. cbn [Z.of_nat] in Hi. destruct (close_directory i a s2 Hh2 ltac:(lia)) as (s3 & Hrun & Hh3).
      apply wp_bind. eapply wp_run; [exact Hrun|]. apply wp_ret. split; [lia|done].
    - intros _ s2 [_ Hh2]. eapply holds_ext; [|exact Hh2]. intros fd Hfd. unfold closed, from. apply Z.leb_gt. simpl. lia. }
  rewrite (bind_ok _ _ _ _ _ Hopen), (bind_ok _ _ _ _ _ Hclose). cbn [Z.eqb Pos.eqb].
  destruct (holds_say closed a s2 (passed (chars "err_open_lots")) Hh2) as (s' & Hrun & Hs').
  - right. apply elem_of_app. right. apply elem_of_app. left. apply list_elem_of_fmap_2. in_names.
  - exists s'. split; [|done]. by rewrite (bind_ok _ _ _ _ _ Hrun).
Qed.

Lemma err_open_passes a s :
  holds closed a s -> Forall (fun bs => dir_find (bs ++ [0]) (im_dir im) = None) wrong_names ->
  exists s', err_open s = Ok (0, s') /\ holds closed (tty_puts (passed (chars "err_open")) a) s'.
Proof.
  intros Hh Hnone. unfold err_open.
  assert (forall bs s, holds closed a s -> bs ∈ wrong_names ->
    exists s', ece391_open (lit bs) s = Ok (-1, s') /\ holds closed a s') as Hopen.
  { intros bs s1 Hh1 Hin. apply open_missing; [done|done|]. apply list_elem_of_lookup in Hin as [i Hi].
    by apply (proj1 (Forall_lookup _ _) Hnone i). }
  destruct (Hopen (chars "helloo") s Hh) as (s1 & H1 & Hh1); [unfold wrong_names; rewrite !elem_of_cons; tauto|].
  destruct (Hopen (chars "shel") s1 Hh1) as (s2 & H2 & Hh2); [unfold wrong_names; rewrite !elem_of_cons; tauto|].
  destruct (Hopen [] s2 Hh2) as (s3 & H3 & Hh3); [unfold wrong_names; rewrite !elem_of_cons; tauto|].
  refuse H1. refuse H2. refuse H3. apply (verdict_passed closed a); [done|in_names].
Qed.

Lemma err_unopened_passes buf a s :
  holds closed a s ->
  exists s', err_unopened buf s = Ok (0, s') /\ holds closed (tty_puts (passed (chars "err_unopened")) a) s'.
Proof.
  intros Hh. unfold err_unopened.
  rewrite (bind_ok _ _ _ _ _ (for_refuses 8 0 ece391_close _ s (fun k Hk =>
    test_close_refused closed a s k Hh (not_open_outside k ltac:(lia) ltac:(lia))))).
  rewrite (bind_ok _ _ _ _ _ (for_refuses 6 2 (fun i => ece391_read i buf 31) _ s (fun k Hk =>
    test_read_refused closed a s k buf 31 Hh (not_open_outside k ltac:(lia) ltac:(lia)) ltac:(lia)))).
  rewrite (bind_ok _ _ _ _ _ (for_refuses 6 2 (fun i => ece391_write i buf 31) _ s (fun k Hk =>
    test_write_refused closed a s k buf 31 Hh (not_open_outside k ltac:(lia) ltac:(lia)) ltac:(lia)))).
  apply (verdict_passed closed a); [done|in_names].
Qed.

Lemma err_vidmap_passes a s :
  holds closed a s -> exists s', err_vidmap s = Ok (0, s') /\ holds closed (tty_puts (passed (chars "err_vidmap")) a) s'.
Proof.
  intros Hh. unfold err_vidmap.
  refuse (vidmap_refused 0x0 s ltac:(done)). refuse (vidmap_refused 0x400000 s ltac:(done)).
  apply (verdict_passed closed a); [done|in_names].
Qed.

Lemma err_stdin_out_passes buf a s :
  holds closed a s ->
  exists s', err_stdin_out buf s = Ok (0, s') /\ holds closed (tty_puts (passed (chars "err_stdin_out")) a) s'.
Proof.
  intros Hh. unfold err_stdin_out.
  refuse (test_write_refused closed a s 0 buf 31 Hh (not_open_outside 0 ltac:(lia) ltac:(lia)) ltac:(lia)).
  refuse (test_read_refused closed a s 1 buf 31 Hh (not_open_outside 1 ltac:(lia) ltac:(lia)) ltac:(lia)).
  apply (verdict_passed closed a); [done|in_names].
Qed.

Lemma err_syscall_num_passes a s :
  holds closed a s ->
  exists s', err_syscall_num s = Ok (0, s') /\ holds closed (tty_puts (passed (chars "err_syscall_num")) a) s'.
Proof.
  intros Hh. unfold err_syscall_num.
  refuse (number_refused BIG_NUM s ltac:(by right)). refuse (number_refused NEG_NUM s ltac:(by right)).
  refuse (number_refused 0 s ltac:(by left)). apply (verdict_passed closed a); [done|in_names].
Qed.

(** ** Properties *)

(** C13: all eight tests of syserr pass on this kernel: run by a process without
    open files, on a file system that has the directory entry "." and none of the
    misspelled names, the program prints the eight PASS lines and the overall
    verdict, returns 0, and leaves no file open. *)
Theorem syserr_passes_all buf d a s :
  holds closed a s -> dir_find (chars "." ++ [0]) (im_dir im) = Some d -> fileType d = 1 ->
  Forall (fun bs => dir_find (bs ++ [0]) (im_dir im) = None) wrong_names ->
  exists s', all_tests buf s = Ok (0, s') /\
    holds closed (tty_puts (concat (passed <$> test_names) ++ all_passed) a) s'.
Proof.
  intros Hh Hd Hty Hnone. unfold all_tests.
  destruct (err_neg_fd_passes buf _ _ Hh) as (s1 & E1 & H1). destruct (err_big_fd_passes buf _ _ H1) as (s2 & E2 & H2).
  destruct (err_open_lots_passes d _ _ H2 Hd Hty) as (s3 & E3 & H3). destruct (err_open_passes _ _ H3 Hnone) as (s4 & E4 & H4).
  destruct (err_unopened_passes buf _ _ H4) as (s5 & E5 & H5). destruct (err_vidmap_passes _ _ H5) as (s6 & E6 & H6).
  destruct (err_stdin_out_passes buf _ _ H6) as (s7 & E7 & H7). destruct (err_syscall_num_passes _ _ H7) as (s8 & E8 & H8).
  rewrite (bind_ok _ _ _ _ _ E1), (bind_ok _ _ _ _ _ E2), (bind_ok _ _ _ _ _ E3), (bind_ok _ _ _ _ _ E4),
    (bind_ok _ _ _ _ _ E5), (bind_ok _ _ _ _ _ E6), (bind_ok _ _ _ _ _ E7), (bind_ok _ _ _ _ _ E8).
  rewrite <- !tty_puts_app in H8. cbv zeta. cbn [Z.add Z.eqb negb].
  destruct (holds_say closed _ s8 all_passed H8) as (s9 & E9 & H9).
  - right. apply elem_of_app. right. apply elem_of_app. right. by left.
  - exists s9. rewrite <- tty_puts_app in H9. split; [by rewrite (bind_ok _ _ _ _ _ E9)|exact H9].
Qed.
End refused.

Lemma syserr_passes_all_witness :
  exists s', @all_tests sample_env 0x8020000 sample = Ok (0, s') /\
    @holds sample_env 0x3000 sample_image 0 VIDEO 0 closed (tty_puts (concat (passed <$> test_names) ++ all_passed) blank) s'.
Proof.
  apply (@syserr_passes_all sample_env 0x3000 sample_image 0 VIDEO 0 0x8020000 (Dentry (46 :: replicate 31 0) 1 0 (replicate 6 0))).
  - split.
    + apply sample_literals; [vm_compute; reflexivity|unfold sample_text, PROCESS_VIRTUAL; lia].
    + exists initial_files. split_and!; [apply sample_session|reflexivity|].
      intros fd Hfd. exists (FdEntry FOPS_NULL 0 (-1) UNUSED_FLAG). split; [|reflexivity].
      assert (fd = 2 \/ fd = 3 \/ fd = 4 \/ fd = 5 \/ fd = 6 \/ fd = 7) as E by lia. intuition (subst; reflexivity).
  - reflexivity.
  - reflexivity.
  - repeat constructor.
Defined.
