(* ===== verification/Emulate.v ===== *)
(** * The Linux emulation of the system calls (ece391emulate.c)

    The second implementation of the system call interface: programs linked with
    it run under Linux. The directory "." and the arguments of a program are
    emulated over the C library; the other calls enter the Linux kernel, whose
    operations are a parameter. *)

From S2P Require Import Prelude Memory Lib Filesystem User.

(** ** Linux and its C library

    [M] is the memory of the process together with the state of Linux. [fork]
    takes what the child does and gives the parent the child's number; [d_name] is
    the offset of the name in a directory entry; [lit] gives the addresses of
    string literals and [stk2], [stk3] the stack words that a wrapper with fewer
    than three arguments loads. *)
Class Linux (M : Type) := {
  int80 : Z -> Z -> Z -> Z -> ST M Z;
  sys_fork : ST M unit -> ST M Z;
  execv : Z -> Z -> ST M Z;
  getpid : ST M Z;
  kill : Z -> Z -> ST M Z;
  wait : Z -> ST M Z;
  opendir : Z -> ST M Z;
  readdir : Z -> ST M Z;
  closedir : Z -> ST M Z;
  linux_open : Z -> Z -> ST M Z;
  linux_close : Z -> ST M Z;
  mmap : Z -> Z -> Z -> Z -> Z -> Z -> ST M Z;
  perror : Z -> ST M unit;
  d_name : Z;
  literal : list Z -> Z;
  word2 : Z; word3 : Z
}.

(** Constants of the C library's headers. *)
Definition O_RDONLY : Z := 0.
Definition O_RDWR : Z := 2.
Definition PROT_READ : Z := 1.
Definition PROT_WRITE : Z := 2.
Definition MAP_SHARED : Z := 1.
Definition MAP_FAILED : Z := 2 ^ 32 - 1.
Definition WIFEXITED (status : Z) : bool := Z.land status 0x7F =? 0.
Definition WEXITSTATUS (status : Z) : Z := Z.shiftr (Z.land status 0xFF00) 8.
Definition WTERMSIG (status : Z) : Z := Z.land status 0x7F.

(** ** The state of the emulation: the process and the file's static variables *)

Record emulation (M : Type) := Emulation {
  e_space : M; e_start_esp : Z; e_dir_fd : Z; e_dir : Z; e_mem_fd : Z
}.
Arguments Emulation {M} e_space e_start_esp e_dir_fd e_dir e_mem_fd.
Arguments e_space {M} e.
Arguments e_start_esp {M} e.
Arguments e_dir_fd {M} e.
Arguments e_dir {M} e.
Arguments e_mem_fd {M} e.

Section emulate.
Context {M : Type} `{ByteMem M} `{Linux M}.

Abbreviation E := (ST (emulation M)).

Definition space : lens (emulation M) M :=
  Lens e_space (fun v e => Emulation v (e_start_esp e) (e_dir_fd e) (e_dir e) (e_mem_fd e)).
Definition start_esp : lens (emulation M) Z :=
  Lens e_start_esp (fun v e => Emulation (e_space e) v (e_dir_fd e) (e_dir e) (e_mem_fd e)).
Definition dir_fd : lens (emulation M) Z :=
  Lens e_dir_fd (fun v e => Emulation (e_space e) (e_start_esp e) v (e_dir e) (e_mem_fd e)).
Definition dir : lens (emulation M) Z :=
  Lens e_dir (fun v e => Emulation (e_space e) (e_start_esp e) (e_dir_fd e) v (e_mem_fd e)).
Definition mem_fd : lens (emulation M) Z :=
  Lens e_mem_fd (fun v e => Emulation (e_space e) (e_start_esp e) (e_dir_fd e) (e_dir e) v).

(** The variables when a program starts. *)
Definition emulation_start (m : M) : emulation M := Emulation m 0 (-1) 0 (-1).

(** Code on the process and Linux only. *)
Definition on_space {A} (c : ST M A) : E A := fun e =>
  match c (get space e) with
  | Ok (a, m) => Ok (a, set space m e)
  | Fail f => Fail f
  end.

(** ** The raw system calls *)

Definition DO_CALL (number a1 a2 a3 : Z) : ST M Z :=
  eax ← int80 number a1 a2 a3;
  mret (if u32 eax <=? 0xFFFFC000 then s32 eax else -1).

Definition ece391_halt (status w2 w3 : Z) : ST M Z := DO_CALL 1 status w2 w3.
Definition __ece391_read (fd buf nbytes : Z) : ST M Z := DO_CALL 3 fd buf nbytes.
Definition __ece391_write (fd buf nbytes : Z) : ST M Z := DO_CALL 4 fd buf nbytes.
Definition __ece391_close (fd : Z) : ST M Z := DO_CALL 6 fd word2 word3.

(** The entry point: the stack pointer is kept for ece391_getargs; below main's
    result on the stack lie argc and argv[0]. *)
Definition _start (esp : Z) (main : E Z) : E Z :=
  wr start_esp esp ;;;
  eax ← main;
  argc ← on_space (ld32 esp);
  argv0 ← on_space (ld32 (esp + 4));
  on_space (ece391_halt eax argc argv0).

(** ** ece391_execute *)

Definition word_end_step (scan : Z) : ST M (Z + Z) :=
  c ← ld8 scan;
  mret (if negb (c =? 0) && negb (c =? 32) && negb (c =? 10) then inl (scan + 1) else inr scan).

Definition skip_spaces_step (scan : Z) : ST M (Z + Z) :=
  c ← ld8 scan; mret (if c =? 32 then inl (scan + 1) else inr scan).

Definition parse_arguments_step (args : Z) (r : Z * Z) : ST M ((Z * Z) + Z) :=
  let '(scan, n_arg) := r in
  scan ← loop skip_spaces_step scan;
  c ← ld8 scan;
  if (c =? 0) || (c =? 10) then st8 scan 0 ;;; mret (inr n_arg)
  else
    st32 (args + 4 * n_arg) scan ;;;
    let n_arg := u32 (n_arg + 1) in
    scan ← loop word_end_step scan;
    c ← ld8 scan;
    if negb (c =? 0) then st8 scan 0 ;;; mret (inl (scan + 1, n_arg))
    else mret (inl (scan, n_arg)).

(** The command's words in [buf], their addresses in [args]. *)
Definition split_command (buf args command : Z) : ST M unit :=
  st8 buf 46 ;;;
  st8 (buf + 1) 47 ;;;
  ece391_strcpy (buf + 2) command ;;;
  scan ← loop word_end_step (buf + 2);
  st32 args buf ;;;
  c ← ld8 scan;
  n_arg ← (if negb (c =? 0) then
             st8 scan 0 ;;; loop (parse_arguments_step args) (scan + 1, 1)
           else mret 1);
  st32 (args + 4 * n_arg) 0.

(** What the child of the fork does. *)
Definition child (buf args : Z) : ST M unit :=
  _ ← execv buf args;
  pid ← getpid;
  _ ← kill pid 9;
  mret tt.

Definition execute_result (status : Z) : Z :=
  if WIFEXITED status then WEXITSTATUS status
  else if 9 =? WTERMSIG status then -1
  else 256.

Definition run_child (buf args status : Z) : ST M Z :=
  _ ← sys_fork (child buf args);
  _ ← wait status;
  st ← ld32 status;
  mret (execute_result st).

(** [buf], [args] and [status] are the addresses of the local variables. *)
Definition ece391_execute (buf args status command : Z) : ST M Z :=
  len ← ece391_strlen command;
  if 1023 <? u32 len then mret (-1)
  else split_command buf args command ;;; run_child buf args status.

(** ** Opening, reading, writing and closing *)

Definition ece391_open (filename : Z) : E Z :=
  r ← on_space (ece391_strcmp filename (literal [46]));
  if 0 =? r then
    d ← on_space (opendir (literal [46]));
    wr dir d ;;;
    fd ← on_space (linux_open (literal [47; 100; 101; 118; 47; 110; 117; 108; 108]) O_RDONLY);
    wr dir_fd fd ;;;
    rd dir_fd
  else
    eax ← on_space (int80 5 filename O_RDONLY word3);
    let rval := u32 eax in
    mret (if 0xFFFFC000 <? rval then -1 else s32 rval).

(** The name is copied until it ends or the buffer or the 32 bytes are full; the
    loop's result is the call's, or where the padding starts. *)
Definition copy_name_step (nbytes : Z) (r : Z * Z * Z) : ST M ((Z * Z * Z) + (Z + (Z * Z))) :=
  let '(to, from, copied) := r in
  c ← ld8 from;
  if negb (c =? 0) then
    st8 to c ;;;
    let copied := copied + 1 in
    mret (if copied =? nbytes then inr (inl nbytes)
          else if copied =? 32 then inr (inl 32)
          else inl (to + 1, from + 1, copied))
  else mret (inr (inr (to, copied))).

Definition pad_name_step (nbytes : Z) (r : Z * Z) : ST M ((Z * Z) + Z) :=
  let '(to, copied) := r in
  if (copied <? nbytes) && (copied <? 32) then
    st8 to 0 ;;; mret (inl (to + 1, copied + 1))
  else mret (inr copied).

Definition copy_entry (de buf nbytes : Z) : ST M Z :=
  r ← loop (copy_name_step nbytes) (buf, de + d_name, 0);
  match r with
  | inl v => mret v
  | inr (to, copied) => loop (pad_name_step nbytes) (to, copied)
  end.

Definition ece391_read (fd buf nbytes : Z) : E Z :=
  d ← rd dir; f ← rd dir_fd;
  if (d =? 0) || negb (f =? fd) then on_space (__ece391_read fd buf nbytes)
  else
    de ← on_space (readdir d);
    if de =? 0 then mret 0 else on_space (copy_entry de buf nbytes).

Definition ece391_write (fd buf nbytes : Z) : E Z :=
  d ← rd dir; f ← rd dir_fd;
  if (d =? 0) || negb (f =? fd) then on_space (__ece391_write fd buf nbytes)
  else mret (-1).

Definition ece391_close (fd : Z) : E Z :=
  d ← rd dir; f ← rd dir_fd;
  if (d =? 0) || negb (f =? fd) then on_space (__ece391_close fd)
  else
    _ ← on_space (closedir d);
    wr dir 0 ;;;
    f ← rd dir_fd;
    _ ← on_space (linux_close f);
    wr dir_fd (-1) ;;;
    mret 0.

(** ** ece391_getargs *)

(** The loop's result is the rest of the buffer, or nothing when the call fails. *)
Definition getargs_step (argc argv : Z) (r : Z * Z * Z) : ST M ((Z * Z * Z) + option (Z * Z)) :=
  let '(idx, buf, nbytes) := r in
  if idx <? argc then
    p ← ld32 (argv + 4 * idx);
    len ← ece391_strlen p;
    let len := s32 len in
    if nbytes <? len then mret (inr None)
    else
      p ← ld32 (argv + 4 * idx);
      ece391_strcpy buf p ;;;
      let buf := buf + len in
      let nbytes := s32 (nbytes - len) in
      let idx := idx + 1 in
      if argc <=? idx then mret (inr (Some (buf, nbytes)))
      else if nbytes <? 1 then mret (inr None)
      else st8 buf 32 ;;; mret (inl (idx, buf + 1, nbytes - 1))
  else mret (inr (Some (buf, nbytes))).

Definition getargs_from (esp buf nbytes : Z) : ST M Z :=
  argc ← ld32 esp;
  r ← loop (getargs_step (s32 argc) (esp + 4)) (1, buf, nbytes);
  match r with
  | None => mret (-1)
  | Some (buf, nbytes) =>
      if nbytes <? 1 then mret (-1) else st8 buf 0 ;;; mret 0
  end.

Definition ece391_getargs (buf nbytes : Z) : E Z :=
  esp ← rd start_esp; on_space (getargs_from esp buf nbytes).

(** ** ece391_vidmap *)

Definition ece391_vidmap (screen_start : Z) : E Z :=
  f ← rd mem_fd;
  when (f =? -1)
    (fd ← on_space (linux_open (literal [47; 100; 101; 118; 47; 109; 101; 109]) O_RDWR); wr mem_fd fd) ;;;
  f ← rd mem_fd;
  mem_image ← on_space (mmap 0 (1024 * 1024) (Z.lor PROT_READ PROT_WRITE) MAP_SHARED f 0);
  if u32 mem_image =? MAP_FAILED then
    on_space (perror (literal [109; 109; 97; 112; 32; 108; 111; 119; 32; 109; 101; 109; 111; 114; 121])) ;;;
    mret (-1)
  else on_space (st32 screen_start (mem_image + 0xB8000)) ;;; mret 0.
End emulate.

(** ** Specification *)

(** The separators of a command line. *)
Definition separator (c : Z) : bool := (c =? 32) || (c =? 10).

(** The characters before the first separator, and the rest. *)
Fixpoint span_word (l : list Z) : list Z * list Z :=
  match l with
  | [] => ([], [])
  | c :: l' => if separator c then ([], l) else let '(w, r) := span_word l' in (c :: w, r)
  end.

(** The arguments of a line, [cur] being the word begun: words are separated by
    spaces, and a newline ends the line unless it ends a word. *)
Fixpoint arg_words (cur : option (list Z)) (l : list Z) : list (list Z) :=
  match l, cur with
  | [], None => []
  | [], Some w => [w]
  | c :: l', None =>
      if c =? 32 then arg_words None l' else if c =? 10 then [] else arg_words (Some [c]) l'
  | c :: l', Some w =>
      if separator c then w :: arg_words None l' else arg_words (Some (w ++ [c])) l'
  end.

(** The words of a command: the program, looked up in the current directory, and
    its arguments. *)
Definition command_words (l : list Z) : list (list Z) :=
  let '(w, r) := span_word l in (46 :: 47 :: w) :: arg_words None (tail r).

(** Words with a space between them. *)
Fixpoint join_words (ws : list (list Z)) : list Z :=
  match ws with
  | [] => []
  | [w] => w
  | w :: ws' => w ++ 32 :: join_words ws'
  end.

(** What a read of a directory gives for a name: as many bytes as fit, filled up
    with zeros; a request for no bytes or fewer is not a limit. *)
Definition entry_record (name : list Z) (nbytes : Z) : list Z :=
  if nbytes <=? 0 then take 32 name
  else take (Z.to_nat (Z.min nbytes 32)) (name ++ replicate 32 0).

(** How a process ends, and the status that wait reports for it. *)
Inductive child_end := Exited (code : Z) | Killed (signal : Z) (core : bool).

Definition wait_status (o : child_end) : Z :=
  match o with
  | Exited code => 2 ^ 8 * code
  | Killed signal core => signal + (if core then 2 ^ 7 else 0)
  end.

Definition child_end_ok (o : child_end) : Prop :=
  match o with
  | Exited code => 0 <= code < 256
  | Killed signal _ => 0 < signal < 127
  end.

(** The contract of the execute call: the program's status, -1 when it could not be
    run, and 256 when it died of an exception. *)
Definition execute_contract (o : child_end) : Z :=
  match o with
  | Exited code => code
  | Killed 9 _ => -1
  | Killed _ _ => 256
  end.

Section memory_spec.
Context {M : Type} `{ByteMem M}.

(** A string at [p]. *)
Definition string_at (m : M) (p : Z) (w : list Z) : Prop := bytes_at m p (w ++ [0]).

(** The vector of string pointers at [a]. *)
Definition strings_at (m : M) (a : Z) (ws : list (list Z)) : Prop :=
  forall i w, ws !! i = Some w -> exists p, word_at m (a + 4 * Z.of_nat i) p /\ string_at m p w.

(** What execv takes: a path and a vector that ends with NULL. The path is the first
    word, and every entry points to its word within the 1026 bytes from the path. *)
Definition exec_vector (m : M) (path args : Z) (ws : list (list Z)) : Prop :=
  (exists w, head ws = Some w /\ string_at m path w) /\
  (forall i w, ws !! i = Some w -> exists p, word_at m (args + 4 * Z.of_nat i) p /\ string_at m p w /\
    path <= p /\ p + Z.of_nat (length w) + 1 <= path + 1026 /\ (i = 0%nat -> p = path)) /\
  word_at m (args + 4 * Z.of_nat (length ws)) 0.

(** [m'] is [m] except for the bytes of the local buffer and of the local vector. *)
Definition locals_frame (m m' : M) (buf args : Z) : Prop :=
  (forall b, cell m' b = cell m b) /\
  (forall c, (forall i, 0 <= i < 1026 -> cell m (buf + i) <> Some c) ->
    (forall i, 0 <= i < 4096 -> cell m (args + i) <> Some c) -> peek m' c = peek m c).

(** The stack on which a program is entered. *)
Definition entry_stack (m : M) (esp : Z) (ws : list (list Z)) : Prop :=
  word_at m esp (Z.of_nat (length ws)) /\ strings_at m (esp + 4) ws.

(** The local variables of ece391_execute, and a command apart from them. *)
Record execute_frame (m : M) (buf args command : Z) (l : list Z) : Prop := {
  ef_buf : mapped m buf 1026 /\ injective m buf 1026 /\ 0 <= buf /\ buf + 1026 <= 2 ^ 32;
  ef_args : mapped m args 4096 /\ injective m args 4096;
  ef_apart : separate m buf 1026 args 4096;
  ef_command : string_at m command l;
  ef_command_apart : separate m buf 1026 command (Z.of_nat (length l) + 1)
}.

(** [n] bytes from [a] are apart from the entry stack and its strings. *)
Definition apart_from_stack (m : M) (esp : Z) (ws : list (list Z)) (a n : Z) : Prop :=
  separate m a n esp (4 + 4 * Z.of_nat (length ws)) /\
  forall i w p, ws !! i = Some w -> word_at m (esp + 4 + 4 * Z.of_nat i) p ->
    separate m a n p (Z.of_nat (length w) + 1).
End memory_spec.

(** ** Lemmas: words *)

Lemma span_word_spec l w r :
  span_word l = (w, r) ->
  l = w ++ r /\ Forall (fun c => separator c = false) w /\ (r = [] \/ exists c r', r = c :: r' /\ separator c = true).
Proof.
  revert w r. induction l as [|c l IH]; intros w r; simpl.
  - intros [= <- <-]. split_and!; [done|done|by left].
  - destruct (separator c) eqn:Ec.
    + intros [= <- <-]. split_and!; [done|done|right; by exists c, l].
    + destruct (span_word l) as [w' r'] eqn:El. intros [= <- <-].
      destruct (IH w' r' eq_refl) as (-> & Hw & Hr). split_and!; [done|by constructor|done].
Qed.

Lemma arg_words_span w l :
  arg_words (Some w) l = let '(w', r) := span_word l in (w ++ w') :: arg_words None (tail r).
Proof.
  revert w. induction l as [|c l IH]; intros w; simpl; [by rewrite app_nil_r|].
  destruct (separator c) eqn:Ec; [by rewrite app_nil_r|].
  rewrite IH. destruct (span_word l) as [w' r]. by rewrite <- app_assoc.
Qed.

Lemma arg_words_spaces k r : arg_words None (replicate k 32 ++ r) = arg_words None r.
Proof. induction k as [|k IH]; [done|]. simpl. exact IH. Qed.

Lemma arg_words_cons c l :
  separator c = false -> arg_words None (c :: l) = let '(w, r) := span_word (c :: l) in w :: arg_words None (tail r).
Proof.
  intros Hc. pose proof Hc as [Hs Hn]%orb_false_iff. cbn [arg_words span_word]. rewrite Hs, Hn, Hc, arg_words_span.
  by destruct (span_word l).
Qed.

(** Spaces before the first other character. *)
Lemma leading_spaces l : exists k r, l = replicate k 32 ++ r /\ head r <> Some 32.
Proof.
  induction l as [|c l IH]; [by exists 0%nat, []|].
  destruct (Z.eq_dec c 32) as [->|Hc].
  - destruct IH as (k & r & -> & Hr). by exists (S k), r.
  - exists 0%nat, (c :: l). split; [done|]. by intros [= ->].
Qed.

Lemma span_word_app w r :
  Forall (fun c => separator c = false) w -> (r = [] \/ exists c r', r = c :: r' /\ separator c = true) ->
  span_word (w ++ r) = (w, r).
Proof.
  intros Hw Hr. induction Hw as [|c w Hc Hw IH]; simpl.
  - destruct Hr as [->|(c & r' & -> & Hc)]; [done|]. simpl. by rewrite Hc.
  - by rewrite Hc, IH.
Qed.

Definition plain_word (w : list Z) : Prop := w <> [] /\ Forall (fun c => separator c = false) w.

Lemma arg_words_join ws : Forall plain_word ws -> arg_words None (join_words ws) = ws.
Proof.
  induction 1 as [|w ws [Hne Hw] Hws IH]; [done|].
  assert (forall r, (r = [] \/ exists c r', r = c :: r' /\ separator c = true) ->
    arg_words None (w ++ r) = w :: arg_words None (tail r)) as Hone.
  { intros r Hr. pose proof (span_word_app w r Hw Hr) as E. destruct w as [|c w]; [done|].
    rewrite <- app_comm_cons in *. inversion_clear Hw. by rewrite arg_words_cons, E. }
  destruct ws as [|w' ws'].
  - rewrite <- (app_nil_r w) at 1. cbn [join_words]. rewrite Hone by (by left). done.
  - change (join_words (w :: w' :: ws')) with (w ++ 32 :: join_words (w' :: ws')).
    rewrite Hone by (right; by exists 32, (join_words (w' :: ws'))). cbn [tail]. by rewrite IH.
Qed.

Lemma command_words_join prog ws :
  Forall plain_word (prog :: ws) -> command_words (join_words (prog :: ws)) = (46 :: 47 :: prog) :: ws.
Proof.
  intros Hall. inversion_clear Hall as [|? ? [_ Hp] Hws]. unfold command_words. destruct ws as [|w ws].
  - cbn [join_words]. rewrite <- (app_nil_r prog) at 1. by rewrite span_word_app by (done || by left).
  - change (join_words (prog :: w :: ws)) with (prog ++ 32 :: join_words (w :: ws)).
    rewrite span_word_app by (done || (right; by exists 32, (join_words (w :: ws)))). cbn [tail]. by rewrite arg_words_join.
Qed.

(** ** Lemmas: the status of a child *)

Lemma execute_result_ok o : child_end_ok o -> execute_result (wait_status o) = execute_contract o.
Proof.
  unfold execute_result, WIFEXITED, WTERMSIG, WEXITSTATUS. change 0x7F with (Z.ones 7).
  destruct o as [code|signal core]; cbn [child_end_ok wait_status execute_contract]; intros Hr; rewrite Z.land_ones by lia.
  - replace (2 ^ 8 * code) with (0 + 2 * code * 2 ^ 7) by lia. rewrite Z.mod_add by lia. cbn [Z.eqb].
    change (0 mod 2 ^ 7 =? 0) with true. cbn match. rewrite Z.shiftr_land. change (Z.shiftr 0xFF00 8) with (Z.ones 8).
    rewrite Z.land_ones, Z.shiftr_div_pow2 by lia. replace (0 + 2 * code * 2 ^ 7) with (code * 2 ^ 8) by lia.
    rewrite Z.div_mul by lia. apply Z.mod_small. lia.
  - replace ((signal + (if core then 2 ^ 7 else 0)) `mod` 2 ^ 7) with signal
      by (destruct core; [replace (signal + 2 ^ 7) with (signal + 1 * 2 ^ 7) by lia; rewrite Z.mod_add by lia|rewrite Z.add_0_r];
          symmetry; apply Z.mod_small; lia).
    destruct (Z.eqb_spec signal 0), (Z.eqb_spec 9 signal) as [<-|]; [lia|lia|done|].
    destruct signal as [|[[[[]|[]|]|[[]|[]|]|]|[[[]|[]|]|[[]|[]|]|]|]|]; done.
Qed.

(** ** Lemmas: memory *)

Section memory_lemmas.
Context {M : Type} `{ByteMemLaws M}.
Implicit Types (m : M) (a b n v : Z) (l w : list Z) (ws : list (list Z)).

(** A scan stops at the first character without the property. *)
Lemma scan_run (p : Z -> bool) m a l c :
  bytes_at m a (l ++ [c]) -> Forall (fun x => p x = true) l -> p c = false -> Z.of_nat (length l) < 2 ^ 32 ->
  loop (fun scan => x ← ld8 scan; mret (if p x then inl (scan + 1) else inr scan)) a m =
    Ok (a + Z.of_nat (length l), m).
Proof.
  intros Hb Hl Hc Hlen. set (step := fun scan => _).
  assert (wp (loop step a) (fun r m' => r = a + Z.of_nat (length l) /\ m' = m) m) as (r & m' & Hrun & -> & ->)%wp_inv; [|done].
  apply (wp_loop_bound _ (fun k x m' => m' = m /\ exists i, (i <= length l)%nat /\ k = Z.of_nat (length l) - Z.of_nat i /\
    x = a + Z.of_nat i) _) with (k := Z.of_nat (length l)).
  - intros k x m' (-> & i & Hi & -> & ->). unfold step. apply wp_bind.
    destruct (decide (i = length l)) as [->|Hne].
    + eapply wp_run; [apply ld8_run, Hb; by rewrite lookup_app_r, Nat.sub_diag by lia|].
      apply wp_ret. by rewrite Hc.
    + destruct (lookup_lt_is_Some_2 l i) as [x Hx]; [lia|].
      eapply wp_run; [apply ld8_run, Hb; rewrite lookup_app_l by lia; exact Hx|].
      apply wp_ret. rewrite (proj1 (Forall_lookup _ _) Hl i x Hx).
      exists (Z.of_nat (length l) - Z.of_nat (S i)). split; [|lia]. split; [done|]. exists (S i). split_and!; lia.
  - split; [done|]. exists 0%nat. split_and!; lia.
  - lia.
Qed.

Lemma st32_word m a v :
  mapped m a 4 -> injective m a 4 -> 0 <= v < 2 ^ 32 ->
  exists m', st32 a v m = Ok (tt, m') /\ frame m m' a 4 /\ word_at m' a v.
Proof.
  intros Hm Hi Hv. eexists. split; [by apply st32_write|]. rewrite <- write_bytes_u8.
  split; [apply (write_bytes_frame _ _ [_; _; _; _])|]. split; [|done].
  apply bytes_at_write; [done|done|]. intros [|[|[|[|i]]]] x; intros [= <-]; apply u8_range.
Qed.

Lemma st8_byte m a v :
  mapped m a 1 -> 0 <= v < 256 -> exists m', st8 a v m = Ok (tt, m') /\ frame m m' a 1 /\ bytes_at m' a [v].
Proof.
  intros Hm Hv. exists (write_bytes m a [v]). split; [by apply st8_write|]. split; [apply (write_bytes_frame _ _ [v])|].
  apply bytes_at_write; [done| |].
  - intros i j c Hi Hj _ _. cbn [length] in *. lia.
  - intros [|i] x; [by intros [= <-]|done].
Qed.

Lemma separate_sub m a n b k i n' j k' :
  separate m a n b k -> 0 <= i -> i + n' <= n -> 0 <= j -> j + k' <= k -> separate m (a + i) n' (b + j) k'.
Proof.
  intros Hs ? ? ? ? x y c Hx Hy. rewrite <- !Z.add_assoc. apply Hs; lia.
Qed.

Lemma separate_sym m a n b k : separate m a n b k -> separate m b k a n.
Proof. intros Hs i j c Hi Hj Hc Hc'. by apply (Hs j i c). Qed.

Lemma injective_sub m a n i k : injective m a n -> 0 <= i -> i + k <= n -> injective m (a + i) k.
Proof.
  intros Hi ? ? x y c Hx Hy. rewrite <- !Z.add_assoc. intros Hcx Hcy. assert (i + x = i + y); [|lia].
  apply (Hi _ _ c); [lia|lia|done|done].
Qed.

(** Two parts of one block. *)
Lemma injective_separate m a n i k j k' :
  injective m a n -> 0 <= i -> 0 <= j -> i + k <= n -> j + k' <= n -> i + k <= j \/ j + k' <= i ->
  separate m (a + i) k (a + j) k'.
Proof.
  intros Hi ? ? ? ? Hd x y c Hx Hy. rewrite <- !Z.add_assoc. intros Hcx Hcy.
  assert (i + x = j + y); [|lia]. apply (Hi _ _ c); [lia|lia|done|done].
Qed.

Lemma frame_mapped m m' a n b k : frame m m' a n -> mapped m b k -> mapped m' b k.
Proof. intros [Hc _] Hm i Hi. rewrite Hc. by apply Hm. Qed.

Lemma frame_separate m m' a n b k b' k' : frame m m' a n -> separate m b k b' k' -> separate m' b k b' k'.
Proof. intros [Hc _] Hm i j c Hi Hj. rewrite !Hc. by apply Hm. Qed.
Lemma frame_le m m' a n n' : frame m m' a n -> n <= Z.max 0 n' -> frame m m' a n'.
Proof. intros [Hc Hp] Hle. split; [done|]. intros c Hn. apply Hp. intros i Hi. apply Hn. lia. Qed.

(** ** Lemmas: ece391_getargs *)

Definition nul_free (w : list Z) : Prop := Forall (fun c => c <> 0) w /\ Z.of_nat (length w) < 2 ^ 31.

Lemma user_strlen_run m s w : string_at m s w -> nul_free w -> ece391_strlen s m = Ok (Z.of_nat (length w), m).
Proof.
  intros Hb [Hnz Hlen]. rewrite ece391_strlen_kernel. apply strlen_run; [done| |lia].
  intros [i Hi]%list_elem_of_lookup. by apply (proj1 (Forall_lookup _ _) Hnz i 0).
Qed.

Lemma user_strcpy_run m d s w :
  string_at m s w -> nul_free w -> mapped m d (Z.of_nat (length w) + 1) ->
  separate m d (Z.of_nat (length w) + 1) s (Z.of_nat (length w) + 1) ->
  ece391_strcpy d s m = Ok (tt, write_bytes m d (w ++ [0])).
Proof.
  intros Hb [Hnz Hlen] Hm Hs. apply ece391_strcpy_down; [done|done|done|done|].
  intros i k c Hi Hk Hc. by apply (Hs i k c); [lia|lia|].
Qed.

Lemma string_range m p w : string_at m p w -> forall i v, (w ++ [0]) !! i = Some v -> 0 <= v < 256.
Proof. intros Hb i v Hv. by eapply load_range, Hb. Qed.

Lemma join_words_cons w ws : ws <> [] -> join_words (w :: ws) = (w ++ [32]) ++ join_words ws.
Proof. destruct ws as [|w' ws]; [done|]. intros _. rewrite <- app_assoc. done. Qed.

(** The words of a line have its characters and are no longer, nor more, than it is. *)
Lemma arg_words_ok cur l :
  Forall (fun c => c <> 0) l -> Forall (fun c => c <> 0) (default [] cur) ->
  (length (arg_words cur l) <= length l + match cur with Some _ => 1 | None => 0 end)%nat /\
  Forall (fun w => Forall (fun c => c <> 0) w /\ (length w <= length (default [] cur) + length l)%nat) (arg_words cur l).
Proof.
  intros Hl. revert cur. induction Hl as [|c l Hc Hl IH]; intros cur Hcur.
  - destruct cur as [w|]; simpl; [|done]. split; [lia|]. constructor; [|done]. split; [done|lia].
  - assert (forall cur', Forall (fun x => x <> 0) (default [] cur') ->
      (length (default [] cur') <= S (length (default [] cur)))%nat ->
      (length (arg_words cur' l) <= length l + match cur' with Some _ => 1 | None => 0 end)%nat /\
      Forall (fun w => Forall (fun x => x <> 0) w /\ (length w <= length (default [] cur) + S (length l))%nat) (arg_words cur' l)) as Hstep.
    { intros cur' Hnz Hle. destruct (IH cur' Hnz) as [H1' H2']. split; [done|].
      eapply Forall_impl; [|exact H2']. intros w [Hw Hwl]. split; [done|lia]. }
    destruct cur as [w|]; cbn [arg_words default length] in *.
    + destruct (separator c).
      * destruct (Hstep None) as [H1' H2']; [done|simpl; lia|]. cbn [length] in *. split; [lia|].
        constructor; [|done]. split; [done|simpl; lia].
      * destruct (Hstep (Some (w ++ [c]))) as [H1' H2']; cbn [default];
          [apply Forall_app; split; [done|by constructor]|simpl; rewrite ?length_app; simpl in *; lia|split; [lia|done]].
    + destruct (c =? 32); [|destruct (c =? 10)].
      * destruct (Hstep None) as [H1' H2']; [done|simpl; lia|split; [lia|done]].
      * split; [simpl; lia|done].
      * destruct (Hstep (Some [c])) as [H1' H2']; [by constructor|simpl; lia|split; [lia|done]].
Qed.

Lemma command_words_ok l :
  Forall (fun c => c <> 0) l -> Z.of_nat (length l) <= 1023 ->
  Forall nul_free (command_words l) /\ Z.of_nat (length (command_words l)) <= 1024.
Proof.
  intros Hnz Hlen. unfold command_words. destruct (span_word l) as [w r] eqn:E.
  destruct (span_word_spec _ _ _ E) as (-> & _ & _). apply Forall_app in Hnz as [Hw Hr]. rewrite length_app in Hlen.
  assert (Forall (fun c => c <> 0) (tail r) /\ (length (tail r) <= length r)%nat) as [Ht Htl].
  { destruct r; [done|]. inversion_clear Hr. split; [done|simpl; lia]. }
  destruct (arg_words_ok None (tail r) Ht) as [Hn Ha]; [done|]. cbn [length default] in *. split; [|lia].
  constructor; [split; [by repeat constructor|cbn [length]; lia]|].
  eapply Forall_impl; [|exact Ha]. intros v [Hv Hvl]. split; [done|lia].
Qed.

Section getargs.
Context (m0 : M) (esp buf nb : Z) (ws : list (list Z)).
Context (Hstack : entry_stack m0 esp ws) (Hnul : Forall nul_free ws) (Hargc : Z.of_nat (length ws) < 2 ^ 31).
Context (Hnb : - 2 ^ 31 <= nb < 2 ^ 31) (Hmap : mapped m0 buf (nb + 1)) (Hinj : injective m0 buf (nb + 1)).
Context (Hapart : apart_from_stack m0 esp ws buf (nb + 1)).

Let total := join_words (tail ws).

(** An argument, as long as only the buffer has changed. *)
Lemma argument m i w :
  frame m0 m buf (nb + 1) -> ws !! i = Some w ->
  exists p, ld32 (esp + 4 + 4 * Z.of_nat i) m = Ok (p, m) /\ string_at m p w /\
    separate m0 buf (nb + 1) p (Z.of_nat (length w) + 1).
Proof using H H0 Hstack Hapart.
  intros Hf Hw. destruct Hapart as [Hse Hss]. destruct Hstack as [_ Hst]. destruct (Hst i w Hw) as (p & Hp & Hs).
  pose proof (lookup_lt_Some _ _ _ Hw) as Hi. exists p.
  assert (word_at m (esp + 4 + 4 * Z.of_nat i) p) as Hp'.
  { eapply frame_word; [exact Hf| |exact Hp]. rewrite <- Z.add_assoc. rewrite <- (Z.add_0_r buf).
    apply (separate_sub m0 _ (nb + 1) _ (4 + 4 * Z.of_nat (length ws))); [done|lia|lia|lia|lia]. }
  split_and!; [by apply ld32_word| |by eapply Hss].
  eapply frame_bytes_at; [exact Hf| |exact Hs]. rewrite length_app, Nat2Z.inj_add. by eapply Hss.
Qed.

(** The loop with [rest] arguments to go: [out] is written. *)
Definition getargs_inv (rest : Z) (x : Z * Z * Z) (m : M) : Prop :=
  exists i out, rest = Z.of_nat (length ws) - Z.of_nat i /\ (1 <= i < length ws)%nat /\
    x = (Z.of_nat i, buf + Z.of_nat (length out), nb - Z.of_nat (length out)) /\
    total = out ++ join_words (drop i ws) /\ Z.of_nat (length out) <= Z.max 0 nb /\
    bytes_at m buf out /\ frame m0 m buf (Z.of_nat (length out)).

Definition getargs_done (r : option (Z * Z)) (m : M) : Prop :=
  match r with
  | None => nb < Z.of_nat (length total) /\ frame m0 m buf (nb + 1)
  | Some (b, n) => b = buf + Z.of_nat (length total) /\ n = nb - Z.of_nat (length total) /\ Z.of_nat (length total) <= nb /\
      string_at m buf total /\ frame m0 m buf (Z.of_nat (length total) + 1)
  end.

Lemma getargs_step_ok k x m :
  getargs_inv k x m ->
  wp (getargs_step (Z.of_nat (length ws)) (esp + 4) x) (fun r m' =>
    match r with
    | inl x' => exists k', getargs_inv k' x' m' /\ 0 <= k' < k
    | inr v => getargs_done v m'
    end) m.
Proof using All.
  intros (i & out & -> & Hi & -> & Htot & Hout & Hb & Hf).
  destruct (lookup_lt_is_Some_2 ws i) as [w Hw]; [lia|].
  assert (frame m0 m buf (nb + 1)) as Hf1 by (eapply frame_le; [exact Hf|lia]).
  destruct (argument m i w Hf1 Hw) as (p & Hld & Hs & Hsep).
  pose proof (proj1 (Forall_lookup _ _) Hnul i w Hw) as Hnf. pose proof Hnf as [_ Hlen].
  assert (drop i ws = w :: drop (S i) ws) as Hdrop by (by apply drop_S).
  unfold getargs_step. destruct (Z.ltb_spec (Z.of_nat i) (Z.of_nat (length ws))); [|lia].
  apply wp_bind. eapply wp_run; [exact Hld|]. apply wp_bind. eapply wp_run; [by apply user_strlen_run|].
  rewrite s32_small by lia. set (n := nb - Z.of_nat (length out)).
  assert (length total = length out + length (join_words (drop i ws)))%nat as Hlt by (by rewrite Htot, length_app).
  assert (length w <= length (join_words (drop i ws)))%nat as Hwl.
  { rewrite Hdrop. destruct (drop (S i) ws); cbn [join_words]; [done|]. rewrite length_app. lia. }
  destruct (Z.ltb_spec n (Z.of_nat (length w))); [apply wp_ret; split; [lia|done]|].
  apply wp_bind. eapply wp_run; [exact Hld|].
  assert (mapped m (buf + Z.of_nat (length out)) (Z.of_nat (length w) + 1)) as Hm.
  { eapply frame_mapped; [exact Hf|]. apply (mapped_sub m0 _ (nb + 1)); [done|lia|lia]. }
  apply wp_bind. eapply wp_run.
  { apply (user_strcpy_run m _ p w); [done|done|done|]. eapply frame_separate; [exact Hf|].
    rewrite <- (Z.add_0_r p). apply (separate_sub m0 _ (nb + 1) _ (Z.of_nat (length w) + 1)); [done|lia|lia|lia|lia]. }
  set (m1 := write_bytes m (buf + Z.of_nat (length out)) (w ++ [0])).
  assert (frame m m1 (buf + Z.of_nat (length out)) (Z.of_nat (length w) + 1)) as Hf2.
  { pose proof (write_bytes_frame m (buf + Z.of_nat (length out)) (w ++ [0])) as F. by rewrite length_app, Nat2Z.inj_add in F. }
  assert (injective m buf (nb + 1)) as Hinjm by (by eapply frame_injective).
  assert (bytes_at m1 (buf + Z.of_nat (length out)) (w ++ [0])) as Hb1.
  { apply bytes_at_write; rewrite ?length_app, ?Nat2Z.inj_add; [done| |by eapply string_range].
    eapply (injective_sub m _ (nb + 1)); [done|lia|cbn [length]; lia]. }
  assert (bytes_at m1 buf out) as Hb2.
  { eapply frame_bytes_at; [exact Hf2| |exact Hb]. rewrite <- (Z.add_0_r buf) at 2.
    apply (injective_separate m buf (nb + 1)); [done|lia|lia|lia|lia|lia]. }
  assert (frame m0 m1 buf (Z.of_nat (length out) + (Z.of_nat (length w) + 1))) as Hf3.
  { eapply frame_trans; [eapply frame_le; [exact Hf|lia]|]. eapply frame_weaken; [exact Hf2|lia|lia]. }
  rewrite s32_small by lia. rewrite bytes_at_app in Hb1. destruct Hb1 as [Hb1 Hb0].
  assert (bytes_at m1 buf (out ++ w)) as Hbw by (by apply bytes_at_app).
  destruct (Z.leb_spec (Z.of_nat (length ws)) (Z.of_nat i + 1)).
  - apply wp_ret. rewrite Hdrop, (drop_ge ws (S i)) in Htot by lia. cbn [join_words] in Htot. unfold getargs_done.
    rewrite Htot, length_app. split_and!; [lia|lia|lia| |eapply frame_le; [exact Hf3|lia]].
    unfold string_at. apply bytes_at_app. split; [done|]. rewrite length_app, Nat2Z.inj_add, Z.add_assoc. done.
  - assert (drop (S i) ws <> []) as Hne by (intros E%(f_equal length); rewrite length_drop in E; simpl in E; lia).
    assert (total = (out ++ w ++ [32]) ++ join_words (drop (S i) ws)) as Htot'
      by (by rewrite Htot, Hdrop, join_words_cons, <- !app_assoc).
    destruct (Z.ltb_spec (n - Z.of_nat (length w)) 1).
    + apply wp_ret. split; [|eapply frame_le; [exact Hf3|lia]]. rewrite Htot', !length_app. cbn [length]. lia.
    + destruct (st8_byte m1 (buf + Z.of_nat (length out) + Z.of_nat (length w)) 32) as (m2 & Hst & Hf4 & Hb4); [|lia|].
      { apply (frame_mapped m0 _ buf (Z.of_nat (length out) + (Z.of_nat (length w) + 1))); [done|].
        rewrite <- Z.add_assoc. apply (mapped_sub m0 _ (nb + 1)); [done|lia|lia]. }
      apply wp_bind. eapply wp_run; [exact Hst|]. apply wp_ret.
      exists (Z.of_nat (length ws) - Z.of_nat (S i)). split; [|lia]. exists (S i), (out ++ w ++ [32]).
      rewrite !length_app. cbn [length]. split_and!; [lia|lia|lia|f_equal; [f_equal|]; lia|done|lia| |].
      * rewrite app_assoc. apply bytes_at_app. rewrite length_app, Nat2Z.inj_add, Z.add_assoc. split; [|done].
        eapply frame_bytes_at; [exact Hf4| |exact Hbw]. rewrite length_app, <- Z.add_assoc. rewrite <- (Z.add_0_r buf) at 2.
        apply (injective_separate m1 buf (nb + 1)); [|lia|lia|lia|lia|lia].
        by eapply frame_injective.
      * eapply frame_trans; [eapply frame_le; [exact Hf3|lia]|]. rewrite <- Z.add_assoc in Hf4. eapply frame_weaken; [exact Hf4|lia|lia].
Qed.

Lemma getargs_from_ok :
  wp (getargs_from esp buf nb) (fun r m' =>
    if Z.of_nat (length total) <? nb then
      r = 0 /\ string_at m' buf total /\ frame m0 m' buf (Z.of_nat (length total) + 1)
    else
      r = -1 /\ frame m0 m' buf (nb + 1) /\
      ((2 <= length ws)%nat -> nb = Z.of_nat (length total) -> load m' (buf + nb) = Some 0)) m0.
Proof using All.
  unfold getargs_from. apply wp_bind. eapply wp_run; [apply ld32_word, Hstack|]. rewrite s32_small by lia. apply wp_bind.
  destruct (decide (2 <= length ws)%nat) as [Hge|Hlt].
  - eapply wp_mono with (P := getargs_done).
    { eapply (wp_loop_bound _ getargs_inv); [apply getargs_step_ok| |].
      - exists 1%nat, []. rewrite Z.add_0_r, Z.sub_0_r. split_and!; [done|lia|lia|done| |cbn; lia|done|apply frame_refl].
        unfold total. by destruct ws.
      - lia. }
    intros [[b n]|] m.
    + intros (-> & -> & Hle & Hs & Hf). unfold string_at in Hs. pose proof Hs as Hs'.
      apply bytes_at_app in Hs as [Hs Hz]. destruct (Z.ltb_spec (nb - Z.of_nat (length total)) 1).
      * apply wp_ret. destruct (Z.ltb_spec (Z.of_nat (length total)) nb); [lia|]. split_and!; [done|eapply frame_le; [exact Hf|lia]|].
        intros _ ->. apply bytes_at_cons in Hz. apply Hz.
      * destruct (Z.ltb_spec (Z.of_nat (length total)) nb); [|lia].
        destruct (st8_byte m (buf + Z.of_nat (length total)) 0) as (m2 & Hst & Hf2 & Hb2); [|lia|].
        { eapply frame_mapped; [exact Hf|]. apply (mapped_sub m0 _ (nb + 1)); [done|lia|lia]. }
        apply wp_bind. eapply wp_run; [exact Hst|]. apply wp_ret. split_and!; [done| |].
        -- apply bytes_at_app. split; [|done]. eapply frame_bytes_at; [exact Hf2| |exact Hs].
           rewrite <- (Z.add_0_r buf) at 2. apply (injective_separate m buf (nb + 1)); [|lia|lia|lia|lia|lia].
           by eapply frame_injective.
        -- eapply frame_trans; [exact Hf|]. eapply frame_weaken; [exact Hf2|lia|lia].
    + intros [Hlt Hf]. apply wp_ret. destruct (Z.ltb_spec (Z.of_nat (length total)) nb); [lia|]. split_and!; [done|done|lia].
  - eapply wp_run; [apply loop_exit; unfold getargs_step; destruct (Z.ltb_spec 1 (Z.of_nat (length ws))); [lia|done]|].
    assert (total = []) as -> by (unfold total; by destruct ws as [|? []]; [..|simpl in *; lia]). cbn [length].
    destruct (Z.ltb_spec nb 1), (Z.ltb_spec (Z.of_nat 0) nb); try lia.
    + apply wp_ret. split_and!; [done|eapply frame_le; [apply (frame_refl _ _ 0)|lia]|lia].
    + destruct (st8_byte m0 buf 0) as (m2 & Hst & Hf2 & Hb2); [|lia|].
      { rewrite <- (Z.add_0_r buf). apply (mapped_sub m0 _ (nb + 1)); [done|lia|lia]. }
      apply wp_bind. eapply wp_run; [exact Hst|]. by apply wp_ret.
Qed.
End getargs.

(** ** Lemmas: ece391_execute *)

Lemma same_mapped m m' buf args a n : locals_frame m m' buf args -> mapped m a n -> mapped m' a n.
Proof. intros [Hc _] Hm i Hi. rewrite Hc. by apply Hm. Qed.

Lemma same_injective m m' buf args a n : locals_frame m m' buf args -> injective m a n -> injective m' a n.
Proof. intros [Hc _] Hm i j c Hi Hj. rewrite !Hc. by apply Hm. Qed.

Lemma same_separate m m' buf args a n b k : locals_frame m m' buf args -> separate m a n b k -> separate m' a n b k.
Proof. intros [Hc _] Hm i j c Hi Hj. rewrite !Hc. by apply Hm. Qed.

(** A write to one of the two local variables. *)
Lemma buffer_trans m1 m2 m3 buf args k n :
  locals_frame m1 m2 buf args -> frame m2 m3 (buf + k) n -> 0 <= k -> k + n <= 1026 -> locals_frame m1 m3 buf args.
Proof.
  intros [Hc Hp] [Hc' Hp'] ? ?. split; [intros b; by rewrite Hc'|]. intros c Hb Ha. rewrite Hp'; [by apply Hp|].
  intros i Hi. rewrite Hc, <- Z.add_assoc. apply Hb. lia.
Qed.

Lemma vector_trans m1 m2 m3 buf args k n :
  locals_frame m1 m2 buf args -> frame m2 m3 (args + k) n -> 0 <= k -> k + n <= 4096 -> locals_frame m1 m3 buf args.
Proof.
  intros [Hc Hp] [Hc' Hp'] ? ?. split; [intros b; by rewrite Hc'|]. intros c Hb Ha. rewrite Hp'; [by apply Hp|].
  intros i Hi. rewrite Hc, <- Z.add_assoc. apply Ha. lia.
Qed.

Definition word_char (c : Z) : bool := negb (c =? 0) && negb (c =? 32) && negb (c =? 10).

Lemma word_end_run m a l c :
  bytes_at m a (l ++ [c]) -> Forall (fun x => word_char x = true) l -> word_char c = false -> Z.of_nat (length l) < 2 ^ 32 ->
  loop word_end_step a m = Ok (a + Z.of_nat (length l), m).
Proof. apply (scan_run word_char). Qed.

Lemma skip_spaces_run m a k c :
  bytes_at m a (replicate k 32 ++ [c]) -> c <> 32 -> Z.of_nat k < 2 ^ 32 ->
  loop skip_spaces_step a m = Ok (a + Z.of_nat k, m).
Proof.
  intros Hb Hc Hk. replace (Z.of_nat k) with (Z.of_nat (length (replicate k 32))) by (by rewrite length_replicate).
  apply (scan_run (fun x => x =? 32) _ _ _ c); [done| |lia|].
  - apply Forall_lookup. by intros i x [-> _]%lookup_replicate.
  - by rewrite length_replicate.
Qed.

Lemma plain_chars w :
  Forall (fun c => separator c = false) w -> Forall (fun c => c <> 0) w -> Forall (fun c => word_char c = true) w.
Proof.
  intros Hs Hz. rewrite !Forall_lookup in *. intros i c Hi. specialize (Hs i c Hi). specialize (Hz i c Hi).
  apply orb_false_iff in Hs as [H1' H2']. unfold word_char. rewrite H1', H2', (proj2 (Z.eqb_neq c 0) Hz). done.
Qed.

(** What follows a word is no part of it. *)
Lemma after_word l :
  l = [] \/ (exists c l', l = c :: l' /\ separator c = true) -> exists c l', l ++ [0] = c :: l' /\ word_char c = false.
Proof.
  intros [->|(c & l' & -> & Hsp)]; [by exists 0, []|]. exists c, (l' ++ [0]). split; [done|].
  unfold word_char, separator in *. destruct (c =? 32), (c =? 10), (c =? 0); done.
Qed.

Section parse.
Context (m0 : M) (buf args : Z).
Context (Hbuf : mapped m0 buf 1026) (Hbinj : injective m0 buf 1026) (Hrange : 0 <= buf /\ buf + 1026 <= 2 ^ 32).
Context (Hargs : mapped m0 args 4096) (Hainj : injective m0 args 4096) (Hsep : separate m0 buf 1026 args 4096).

(** The vector's entries so far: pointers to strings of the first [o] bytes of the
    buffer, the last of which may end with the byte at [o]. *)
Definition entries m (o : Z) ws : Prop :=
  forall i w, ws !! i = Some w -> exists p,
    word_at m (args + 4 * Z.of_nat i) (buf + p) /\ string_at m (buf + p) w /\ 0 <= p /\ p + Z.of_nat (length w) <= o /\
    (i = 0%nat -> p = 0).

Lemma entries_mono m o o' ws : entries m o ws -> o <= o' -> entries m o' ws.
Proof. intros He Ho i w Hi. destruct (He i w Hi) as (p & ? & ? & ? & ? & ?). exists p. split_and!; (done || lia). Qed.

Lemma buffer_keep m m' k n j l :
  locals_frame m0 m buf args -> frame m m' (buf + k) n -> bytes_at m (buf + j) l -> 0 <= k -> 0 <= j -> k + n <= 1026 ->
  j + Z.of_nat (length l) <= 1026 -> k + n <= j \/ j + Z.of_nat (length l) <= k -> bytes_at m' (buf + j) l.
Proof using Hbinj.
  intros Hc Hf Hb ? ? ? ? Hd. eapply frame_bytes_at; [exact Hf| |exact Hb].
  eapply same_separate; [done|]. apply (injective_separate m0 buf 1026); (done || lia).
Qed.

Lemma vector_keep m m' k j l :
  locals_frame m0 m buf args -> frame m m' (args + k) 4 -> bytes_at m (buf + j) l -> 0 <= k -> k + 4 <= 4096 -> 0 <= j ->
  j + Z.of_nat (length l) <= 1026 -> bytes_at m' (buf + j) l.
Proof using Hsep.
  intros Hc Hf Hb ? ? ? ?. eapply frame_bytes_at; [exact Hf| |exact Hb]. eapply same_separate; [done|].
  apply (separate_sub m0 _ 4096 _ 1026); [by apply separate_sym|lia|lia|lia|lia].
Qed.

Lemma entries_buffer m m' o ws k :
  entries m o ws -> locals_frame m0 m buf args -> frame m m' (buf + k) 1 -> bytes_at m' (buf + k) [0] -> o <= k < 1026 ->
  Z.of_nat (length ws) <= 1024 -> entries m' o ws.
Proof using Hbinj Hsep.
  intros He Hc Hf Hb ? Hlen i w Hi. destruct (He i w Hi) as (p & Hw & Hs & ? & ? & ?).
  pose proof (lookup_lt_Some _ _ _ Hi). exists p. split_and!; [| |done|done|done].
  - eapply frame_word; [exact Hf| |exact Hw]. eapply same_separate; [done|].
    apply (separate_sub m0 _ 1026 _ 4096); [done|lia|lia|lia|lia].
  - apply bytes_at_app in Hs as [Hs H0']. apply bytes_at_app. split.
    + eapply (buffer_keep m m' k 1); (done || lia).
    + rewrite <- Z.add_assoc in *. destruct (Z.eq_dec (p + Z.of_nat (length w)) k) as [->|Hne]; [done|].
      eapply (buffer_keep m m' k 1); try done; cbn [length]; lia.
Qed.

Lemma entries_vector m m' o ws :
  entries m o ws -> locals_frame m0 m buf args -> frame m m' (args + 4 * Z.of_nat (length ws)) 4 ->
  Z.of_nat (length ws) < 1024 -> o <= 1025 -> entries m' o ws.
Proof using Hainj Hsep.
  intros He Hc Hf Hlen ? i w Hi. destruct (He i w Hi) as (p & Hw & Hs & ? & ? & ?).
  pose proof (lookup_lt_Some _ _ _ Hi). exists p. split_and!; [| |done|done|done].
  - eapply frame_word; [exact Hf| |exact Hw]. eapply same_separate; [done|].
    apply (injective_separate m0 args 4096); (done || lia).
  - eapply (vector_keep m m' (4 * Z.of_nat (length ws))); try done; try lia; rewrite length_app; cbn [length]; lia.
Qed.

Lemma entries_snoc m o o' ws p w :
  entries m o ws -> word_at m (args + 4 * Z.of_nat (length ws)) (buf + p) -> string_at m (buf + p) w ->
  0 <= p -> p + Z.of_nat (length w) <= o' -> o <= o' -> (ws = [] -> p = 0) -> entries m o' (ws ++ [w]).
Proof.
  intros He Hw Hs ? ? ? Hp i w' Hi. destruct (decide (i < length ws)%nat).
  - rewrite lookup_app_l in Hi by done. by apply (entries_mono m o o' ws He).
  - apply lookup_app_Some in Hi as [Hi%lookup_lt_Some|[Hge Hi]]; [lia|].
    apply list_lookup_singleton_Some in Hi as [Hi <-]. assert (i = length ws) as -> by lia. exists p. split_and!; [done|done|done|done|]. by intros ->%length_zero_iff_nil%Hp.
Qed.

Lemma vector_store m n v :
  locals_frame m0 m buf args -> 0 <= n < 1024 -> 0 <= v < 2 ^ 32 ->
  exists m', st32 (args + 4 * n) v m = Ok (tt, m') /\ frame m m' (args + 4 * n) 4 /\ word_at m' (args + 4 * n) v /\ locals_frame m0 m' buf args.
Proof using All.
  intros Hc Hn Hv. destruct (st32_word m (args + 4 * n) v) as (m' & Hst & Hf & Hw); [| |done|].
  - eapply same_mapped; [done|]. apply (mapped_sub m0 _ 4096); [done|lia|lia].
  - eapply same_injective; [done|]. apply (injective_sub m0 _ 4096); [done|lia|lia].
  - exists m'. split_and!; [done|done|done|eapply vector_trans; [exact Hc|exact Hf|lia|lia]].
Qed.

Lemma buffer_store m k v :
  locals_frame m0 m buf args -> 0 <= k < 1026 -> 0 <= v < 256 ->
  exists m', st8 (buf + k) v m = Ok (tt, m') /\ frame m m' (buf + k) 1 /\ bytes_at m' (buf + k) [v] /\ locals_frame m0 m' buf args.
Proof using All.
  intros Hc Hk Hv. destruct (st8_byte m (buf + k) v) as (m' & Hst & Hf & Hb); [|done|].
  - eapply same_mapped; [done|]. apply (mapped_sub m0 _ 1026); [done|lia|lia].
  - exists m'. split_and!; [done|done|done|eapply buffer_trans; [exact Hc|exact Hf|lia|lia]].
Qed.

Context (all : list (list Z)).

(** The loop with [rest] characters to go: they lie at offset [o], behind the words found. *)
Definition parse_inv (rest : Z) (x : Z * Z) m : Prop :=
  exists o ws r, x = (buf + o, Z.of_nat (length ws)) /\ rest = Z.of_nat (length r) /\
    o + Z.of_nat (length r) + 1 <= 1026 /\ Z.of_nat (length ws) + 2 <= o /\ ws <> [] /\
    string_at m (buf + o) r /\ Forall (fun c => c <> 0) r /\ entries m o ws /\
    ws ++ arg_words None r = all /\ locals_frame m0 m buf args.

Definition parse_done (n : Z) m : Prop :=
  n = Z.of_nat (length all) /\ entries m 1025 all /\ locals_frame m0 m buf args /\ Z.of_nat (length all) <= 1023.

(** A word at offset [o] is entered and closed. *)
Lemma word_step m o ws w r :
  o + Z.of_nat (length (w ++ r)) + 1 <= 1026 -> Z.of_nat (length ws) + 2 <= o -> ws <> [] ->
  string_at m (buf + o) (w ++ r) -> Forall (fun c => c <> 0) (w ++ r) -> entries m o ws -> locals_frame m0 m buf args ->
  w <> [] -> Forall (fun c => separator c = false) w -> (r = [] \/ exists c r', r = c :: r' /\ separator c = true) ->
  (ws ++ [w]) ++ arg_words None (tail r) = all ->
  wp (st32 (args + 4 * Z.of_nat (length ws)) (buf + o) ;;;
      scan ← loop word_end_step (buf + o); c ← ld8 scan;
      if negb (c =? 0) then st8 scan 0 ;;; mret (inl (scan + 1, u32 (Z.of_nat (length ws) + 1)))
      else mret (inl (scan, u32 (Z.of_nat (length ws) + 1)))) (fun x m' =>
    match x with
    | inl x' => exists k', parse_inv k' x' m' /\ 0 <= k' < Z.of_nat (length (w ++ r))
    | inr v => parse_done v m'
    end) m.
Proof using All.
  intros Hlen Hws Hws0 Hs Hz He Hc Hne Hw Hr Hall. rewrite length_app in *. apply Forall_app in Hz as [Hwz Hrz].
  destruct (vector_store m (Z.of_nat (length ws)) (buf + o)) as (m1 & Hst & Hf & Hword & Hc1); [done|lia|lia|].
  apply wp_bind. eapply wp_run; [exact Hst|]. clear Hst.
  assert (bytes_at m1 (buf + o) ((w ++ r) ++ [0])) as Hs1.
  { eapply (vector_keep m); [done|exact Hf|done|lia|lia|lia|rewrite !length_app; cbn [length]; lia]. }
  assert (entries m1 o ws) as He1 by (eapply entries_vector; [exact He|done|exact Hf|lia|lia]). clear He Hs Hf Hc.
  destruct (after_word r Hr) as (c & r' & Er & Hcw).
  assert (bytes_at m1 (buf + o) (w ++ [c])) as Hscan.
  { rewrite <- app_assoc, Er, cons_middle, app_assoc in Hs1. by apply bytes_at_app in Hs1 as [? _]. }
  pose proof (word_end_run m1 (buf + o) w c Hscan (plain_chars w Hw Hwz) Hcw ltac:(lia)) as Hrun.
  apply wp_bind. eapply wp_run; [exact Hrun|]. clear Hrun.
  rewrite <- app_assoc in Hs1. apply bytes_at_app in Hs1 as [Hsw Hsr]. pose proof Hsr as Hsr'. rewrite Er in Hsr'.
  apply bytes_at_cons in Hsr' as [Hld _].
  apply wp_bind. eapply wp_run; [apply ld8_run, Hld|]. rewrite u32_small by lia.
  assert (0 < Z.of_nat (length w)) by (destruct w; [done|simpl; lia]).
  destruct Hr as [->|(c0 & r0 & -> & Hsp)].
  - injection Er as <- <-. apply wp_ret. exists 0. split; [|simpl; lia].
    exists (o + Z.of_nat (length w)), (ws ++ [w]), []. rewrite length_app in *. cbn [length] in *.
    split_and!; [f_equal; lia|done|lia|lia|by destruct ws|by rewrite Z.add_assoc|done| |done|done].
    (* the word ends with the buffer's own terminator *)
    apply (entries_snoc m1 o _ ws o w); [done|done|by apply bytes_at_app|lia|lia|lia|done].
  - injection Er as <- <-. inversion_clear Hrz. rewrite (proj2 (Z.eqb_neq c0 0)) by done. cbn [negb].
    rewrite <- Z.add_assoc in *. replace (buf + o + Z.of_nat (length w)) with (buf + (o + Z.of_nat (length w))) by lia.
    destruct (buffer_store m1 (o + Z.of_nat (length w)) 0) as (m2 & Hst & Hf & Hb & Hc2); [done|simpl in *; lia|lia|].
    apply wp_bind. eapply wp_run; [exact Hst|]. apply wp_ret. simpl in Hlen.
    exists (Z.of_nat (length r0)). split; [|simpl; lia].
    exists (o + Z.of_nat (length w) + 1), (ws ++ [w]), r0. rewrite length_app. cbn [length].
    split_and!; [f_equal; lia|done|lia|lia|by destruct ws| |done| |done|done].
    + unfold string_at. rewrite <- app_comm_cons in Hsr. apply bytes_at_cons in Hsr as [_ Hsr]. rewrite <- Z.add_assoc in Hsr.
      eapply (buffer_keep m1); [done|exact Hf| |lia|lia|lia|rewrite length_app; simpl; lia|lia].
      exact Hsr.
    + apply (entries_snoc m2 o _ ws o w); [| | |lia|lia|lia|done].
      * eapply entries_buffer; [exact He1|done|exact Hf|done|lia|lia].
      * eapply frame_word; [exact Hf| |exact Hword]. eapply same_separate; [done|].
        apply (separate_sub m0 _ 1026 _ 4096); [done|lia|lia|lia|lia].
      * apply bytes_at_app. split; [|by rewrite <- Z.add_assoc].
        eapply (buffer_keep m1); [done|exact Hf|exact Hsw|lia|lia|lia|lia|lia].
Qed.

Lemma parse_step_ok k x m :
  parse_inv k x m ->
  wp (parse_arguments_step args x) (fun r m' =>
    match r with
    | inl x' => exists k', parse_inv k' x' m' /\ 0 <= k' < k
    | inr v => parse_done v m'
    end) m.
Proof using All.
  intros (o & ws & r & -> & -> & Hlen & Hws & Hws0 & Hs & Hz & He & Hall & Hc).
  destruct (leading_spaces r) as (k & r1 & -> & Hhd). rewrite arg_words_spaces in Hall.
  rewrite length_app, length_replicate in *. unfold string_at in Hs. rewrite <- app_assoc in Hs.
  pose proof Hs as Hs1. apply bytes_at_app in Hs1 as [_ Hs1]. rewrite length_replicate, <- Z.add_assoc in Hs1.
  assert (exists c r2, r1 ++ [0] = c :: r2 /\ c <> 32) as (c & r2 & Er & Hc32).
  { destruct r1 as [|c r1]; [by exists 0, []|]. exists c, (r1 ++ [0]). split; [done|]. by intros ->. }
  unfold parse_arguments_step. apply wp_bind. eapply wp_run.
  { apply (skip_spaces_run m _ k c); [|done|lia]. rewrite Er, cons_middle, app_assoc in Hs. by apply bytes_at_app in Hs as [? _]. }
  rewrite <- Z.add_assoc. pose proof Hs1 as Hld. rewrite Er in Hld. apply bytes_at_cons in Hld as [Hld _].
  apply wp_bind. eapply wp_run; [apply ld8_run, Hld|].
  assert (entries m (o + Z.of_nat k) ws) as He1 by (eapply entries_mono; [exact He|lia]).
  destruct (decide (c = 0 \/ c = 10)) as [Hend|Hmore].
  - assert ((c =? 0) || (c =? 10) = true) as -> by (destruct Hend as [->| ->]; done).
    destruct (buffer_store m (o + Z.of_nat k) 0) as (m2 & Hst & Hf & Hb & Hc2); [done|lia|lia|].
    apply wp_bind. eapply wp_run; [exact Hst|]. apply wp_ret.
    assert (arg_words None r1 = []) as E.
    { destruct r1 as [|c1 r1]; [done|]. injection Er as <- <-. 
      apply Forall_app in Hz as [_ Hz']. inversion_clear Hz'. destruct Hend as [->| ->]; done. }
    rewrite E, app_nil_r in Hall. unfold parse_done. rewrite <- Hall. split_and!; [done| |done|lia].
    apply (entries_mono m2 (o + Z.of_nat k)); [|lia]. eapply entries_buffer; [exact He1|done|exact Hf|done|lia|lia].
  - rewrite (proj2 (Z.eqb_neq c 0)), (proj2 (Z.eqb_neq c 10)) by tauto. cbn [orb].
    destruct r1 as [|c1 r1]; [by injection Er as <- _; tauto|]. injection Er as <- <-.
    assert (separator c1 = false) as Hsp.
    { unfold separator. rewrite (proj2 (Z.eqb_neq c1 32)), (proj2 (Z.eqb_neq c1 10)) by tauto. done. }
    rewrite arg_words_cons in Hall by done. destruct (span_word (c1 :: r1)) as [w r] eqn:Espan.
    destruct (span_word_spec _ _ _ Espan) as (Ew & Hw & Hr). rewrite Ew in *.
    eapply wp_mono; [apply (word_step m (o + Z.of_nat k) ws w r)|]; try done; try lia.
    + by apply Forall_app in Hz as [_ Hz].
    + intros ->. destruct Hr as [->|(c & r' & -> & Hs')]; [done|]. injection Ew as -> ->. congruence.
    + by rewrite <- app_assoc.
    + intros [x|v] m'; [|done]. intros (k' & Hk' & ?). exists k'. split; [done|lia].
Qed.

Hypothesis Hhead : exists w, head all = Some w.

(** The terminating NULL. *)
Lemma finish_vector n m : parse_done n m -> wp (st32 (args + 4 * n) 0) (fun _ m' => exec_vector m' buf args all /\ locals_frame m0 m' buf args) m.
Proof using All.
  intros (-> & He & Hc & Hn). destruct (vector_store m (Z.of_nat (length all)) 0) as (m1 & Hst & Hf & Hz & Hc1); [done|lia|lia|].
  eapply wp_run; [exact Hst|]. pose proof (entries_vector m m1 1025 _ He Hc Hf ltac:(lia) ltac:(lia)) as He1.
  destruct Hhead as [w Hw]. split; [|exact Hc1]. split; [|split; [|done]].
  2: { intros i w' Hi. destruct (He1 i w' Hi) as (p & ? & ? & ? & ? & Hp). exists (buf + p).
       split_and!; [done|done|lia|lia|]. intros Hi0. rewrite Hp by done. lia. }
  exists w. split; [done|]. rewrite head_lookup in Hw. destruct (He1 0%nat w Hw) as (p & _ & Hs & _ & _ & Hp).
  rewrite Hp, Z.add_0_r in Hs; done.
Qed.
End parse.

Section command.
Context (m0 : M) (buf args command : Z) (l : list Z).
Context (Hbuf : mapped m0 buf 1026) (Hbinj : injective m0 buf 1026) (Hrange : 0 <= buf /\ buf + 1026 <= 2 ^ 32).
Context (Hargs : mapped m0 args 4096) (Hainj : injective m0 args 4096) (Hsep : separate m0 buf 1026 args 4096).
Context (Hcommand : string_at m0 command l) (Hl : nul_free l) (Hlen : Z.of_nat (length l) <= 1023).
Context (Hcs : separate m0 buf 1026 command (Z.of_nat (length l) + 1)).

(** The command copied behind the path of the directory. *)
Lemma copy_command_ok {B} (k : ST M B) Q :
  (forall m, locals_frame m0 m buf args -> bytes_at m buf [46; 47] -> string_at m (buf + 2) l -> wp k Q m) ->
  wp (st8 buf 46 ;;; st8 (buf + 1) 47 ;;; ece391_strcpy (buf + 2) command ;;; k) Q m0.
Proof using All.
  intros Hk.
  destruct (buffer_store m0 buf args Hbuf Hbinj Hrange Hargs Hainj Hsep m0 0 46) as (m1 & E1 & F1 & B1 & C1); [done|lia|lia|].
  destruct (buffer_store m0 buf args Hbuf Hbinj Hrange Hargs Hainj Hsep m1 1 47) as (m2 & E2 & F2 & B2 & C2); [done|lia|lia|].
  apply wp_bind. eapply wp_run; [rewrite <- (Z.add_0_r buf) at 1; exact E1|]. apply wp_bind. eapply wp_run; [exact E2|].
  assert (forall m m' j, locals_frame m0 m buf args -> 0 <= j < 1026 -> frame m m' (buf + j) 1 -> string_at m command l -> string_at m' command l) as Hkeep.
  { intros m m' j Hc Hj Hf Hs. eapply frame_bytes_at; [exact Hf| |exact Hs]. eapply same_separate; [exact Hc|].
    rewrite length_app, <- (Z.add_0_r command). cbn [length].
    apply (separate_sub m0 _ 1026 _ (Z.of_nat (length l) + 1)); [done|lia|lia|lia|lia]. }
  assert (string_at m2 command l) as Hs2 by (eapply (Hkeep m1); [done| |exact F2|eapply (Hkeep m0); [done| |exact F1|done]]; lia).
  apply wp_bind. eapply wp_run.
  { apply (user_strcpy_run m2 (buf + 2) command l); [done|done| |].
    - eapply same_mapped; [exact C2|]. apply (mapped_sub m0 _ 1026); [done|lia|lia].
    - eapply same_separate; [exact C2|]. rewrite <- (Z.add_0_r command).
      apply (separate_sub m0 _ 1026 _ (Z.of_nat (length l) + 1)); [done|lia|lia|lia|lia]. }
  pose proof (write_bytes_frame m2 (buf + 2) (l ++ [0])) as F3. apply Hk.
  - eapply buffer_trans; [exact C2|exact F3|lia|rewrite length_app; cbn [length]; lia].
  - assert (bytes_at m2 (buf + 0) [46; 47]) as Hb2.
    { apply bytes_at_cons. rewrite Z.add_0_r. rewrite Z.add_0_r in B1. split; [|exact B2].
      rewrite (frame_load m1 m2 (buf + 1) 1); [by apply bytes_at_cons in B1 as [? _]|exact F2|].
      intros i c Hi Hci Hc0. assert (i = 0) as -> by lia. rewrite !(proj1 C1) in Hci, Hc0. rewrite Z.add_0_r in *.
      assert (1 = 0); [|lia]. apply (Hbinj _ _ c); [lia|lia|done|by rewrite Z.add_0_r]. }
    rewrite <- (Z.add_0_r buf) at 2. eapply (buffer_keep m0 buf args Hbinj m2); [done|exact F3|exact Hb2|..];
      rewrite ?length_app; cbn [length]; lia.
  - apply bytes_at_write; rewrite ?length_app, ?Nat2Z.inj_add; cbn [length]; [..|by eapply string_range].
    + eapply same_mapped; [exact C2|]. apply (mapped_sub m0 _ 1026); [done|lia|lia].
    + eapply same_injective; [exact C2|]. apply (injective_sub m0 _ 1026); [done|lia|lia].
Qed.

(** The word [w], the program's, lies behind the path: the first entry. *)
Lemma first_entry m o w :
  locals_frame m0 m buf args -> 0 <= o <= 1025 -> word_at m args buf ->
  bytes_at m buf (46 :: 47 :: w) -> load m (buf + 2 + Z.of_nat (length w)) = Some 0 ->
  2 + Z.of_nat (length w) <= o -> entries buf args m o [46 :: 47 :: w].
Proof.
  intros Hc Ho Hw Hb Hz Hle. apply (entries_snoc buf args m o o [] 0 (46 :: 47 :: w)).
  - by intros i w' Hi.
  - by rewrite !Z.add_0_r.
  - rewrite Z.add_0_r. apply bytes_at_app. split; [done|]. apply bytes_at_cons. split; [|by intros [|i]].
    cbn [length]. rewrite <- Hz. f_equal. lia.
  - lia.
  - cbn [length]. lia.
  - done.
  - done.
Qed.

Lemma split_command_ok :
  wp (split_command buf args command) (fun _ m' => exec_vector m' buf args (command_words l) /\ locals_frame m0 m' buf args) m0.
Proof using All.
  unfold split_command. apply copy_command_ok. intros m Hc Hdir Hs.
  unfold command_words. destruct (span_word l) as [w r] eqn:Espan. destruct (span_word_spec _ _ _ Espan) as (El & Hw & Hr).
  pose proof Hl as [Hnz _]. rewrite El in Hs, Hnz, Hlen. rewrite length_app in Hlen. apply Forall_app in Hnz as [Hwz Hrz].
  destruct (after_word r Hr) as (c & r' & Er & Hcw).
  unfold string_at in Hs. rewrite <- app_assoc in Hs.
  apply wp_bind. eapply wp_run.
  { apply (word_end_run m (buf + 2) w c); [|by apply plain_chars|done|lia].
    rewrite Er, cons_middle, app_assoc in Hs. by apply bytes_at_app in Hs as [? _]. }
  destruct (vector_store m0 buf args Hbuf Hbinj Hrange Hargs Hainj Hsep m 0 buf) as (m1 & Hst & Hf & Hword & Hc1); [done|lia|lia|].
  rewrite Z.add_0_r in *. apply wp_bind. eapply wp_run; [exact Hst|]. clear Hst.
  assert (forall j bs, bytes_at m (buf + j) bs -> 0 <= j -> j + Z.of_nat (length bs) <= 1026 -> bytes_at m1 (buf + j) bs) as Hkeep.
  { intros j bs Hb ? ?. eapply (vector_keep m0 buf args Hsep m m1 0); try done. by rewrite Z.add_0_r. }
  apply Hkeep in Hs; [|lia|rewrite !length_app; cbn [length]; lia].
  rewrite <- (Z.add_0_r buf) in Hdir at 1. apply Hkeep in Hdir; [|lia|cbn [length]; lia]. rewrite Z.add_0_r in Hdir.
  pose proof Hs as Hs1. apply bytes_at_app in Hs1 as [Hsw Hsr].
  assert (bytes_at m1 buf (46 :: 47 :: w)) as Hprog by (apply (bytes_at_app m1 buf [46; 47] w); done).
  pose proof Hsr as Hld. rewrite Er in Hld. apply bytes_at_cons in Hld as [Hld _].
  apply wp_bind. eapply wp_run; [apply ld8_run, Hld|]. apply wp_bind.
  destruct Hr as [->|(c0 & r0 & -> & Hsp)].
  - injection Er as <- <-. apply wp_ret. eapply finish_vector; try done; [by eexists|]. split_and!; [done| |done|cbn; lia].
    apply (first_entry m1 1025 w); (done || lia).
  - injection Er as <- <-. inversion_clear Hrz. rewrite (proj2 (Z.eqb_neq c0 0)) by done. cbn [negb tail].
    replace (buf + 2 + Z.of_nat (length w)) with (buf + (2 + Z.of_nat (length w))) in * by lia. cbn [length] in Hlen.
    destruct (buffer_store m0 buf args Hbuf Hbinj Hrange Hargs Hainj Hsep m1 (2 + Z.of_nat (length w)) 0)
      as (m2 & Hst & Hf2 & Hb2 & Hc2); [done|lia|lia|].
    apply wp_bind. eapply wp_run; [exact Hst|].
    eapply wp_mono with (P := parse_done m0 buf args ((46 :: 47 :: w) :: arg_words None r0)); [|by intros n m' Hd; eapply finish_vector; try done; eexists].
    eapply (wp_loop_bound _ (parse_inv m0 buf args ((46 :: 47 :: w) :: arg_words None r0))) with (k := Z.of_nat (length r0));
      [by apply parse_step_ok| |lia].
    exists (2 + Z.of_nat (length w) + 1), [46 :: 47 :: w], r0. cbn [length].
    split_and!; [f_equal; lia|done|lia|lia|done| |done| |done|done].
    + rewrite <- app_comm_cons in Hsr. apply bytes_at_cons in Hsr as [_ Hsr]. rewrite <- Z.add_assoc in Hsr.
      eapply (buffer_keep m0 buf args Hbinj m1); [done|exact Hf2|exact Hsr|lia|lia|lia|rewrite length_app; cbn [length]; lia|lia].
    + apply (first_entry m2 _ w); [done|lia| | | |lia].
      * eapply frame_word; [exact Hf2| |exact Hword]. eapply same_separate; [done|]. rewrite <- (Z.add_0_r args).
        apply (separate_sub m0 _ 1026 _ 4096); [done|lia|lia|lia|lia].
      * rewrite <- (Z.add_0_r buf). eapply (buffer_keep m0 buf args Hbinj m1); [done|exact Hf2|by rewrite Z.add_0_r|..]; cbn [length]; lia.
      * replace (buf + 2 + Z.of_nat (length w)) with (buf + (2 + Z.of_nat (length w))) by lia. by apply bytes_at_cons in Hb2 as [? _].
Qed.
End command.

(** ** Lemmas: ece391_read *)

Section entry.
Context `{Linux M} (m : M) (de buf nbytes : Z) (name : list Z).

(** How many bytes a read can give. *)
Let cap : nat := if nbytes <=? 0 then 32 else Z.to_nat (Z.min nbytes 32).
Let record := entry_record name nbytes.

Context (Hname : string_at m (de + d_name) name) (Hnul : nul_free name) (Hn : - 2 ^ 31 <= nbytes < 2 ^ 31).
Context (Hmap : mapped m buf (Z.of_nat (length record))).
Context (Hsep : separate m buf (Z.of_nat (length record)) (de + d_name) (Z.of_nat (length name) + 1)).

Lemma cap_range : (1 <= cap <= 32)%nat.
Proof. unfold cap. destruct (Z.leb_spec nbytes 0); lia. Qed.

Lemma record_long : (cap <= length name)%nat -> record = take cap name.
Proof.
  intros Hle. unfold record, entry_record, cap in *. destruct (nbytes <=? 0); [done|]. by rewrite take_app_le by done.
Qed.

Lemma record_short : (length name < cap)%nat -> record = name ++ replicate (if nbytes <=? 0 then 0 else cap - length name) 0.
Proof.
  intros Hlt. pose proof cap_range. unfold record, entry_record, cap in *.
  destruct (nbytes <=? 0); [by rewrite take_ge, app_nil_r by lia|].
  rewrite take_app_ge by lia. f_equal. rewrite take_replicate. f_equal. lia.
Qed.

Lemma record_take i : (i <= length name)%nat -> (i <= cap)%nat -> (i <= length record)%nat.
Proof.
  intros. destruct (decide (cap <= length name)%nat).
  - rewrite record_long, length_take by done. lia.
  - rewrite record_short, length_app by lia. lia.
Qed.

Definition copied_name (r : Z + (Z * Z)) (m' : M) : Prop :=
  match r with
  | inl v => v = Z.of_nat (length record) /\ m' = write_bytes m buf record
  | inr (to, copied) => (length name < cap)%nat /\ to = buf + Z.of_nat (length name) /\ copied = Z.of_nat (length name) /\
      m' = write_bytes m buf name
  end.

Lemma copy_name_ok : wp (loop (copy_name_step nbytes) (buf, de + d_name, 0)) copied_name m.
Proof using All.
  apply (wp_loop_bound _ (fun k x m' => exists i, (i <= length name)%nat /\ (i < cap)%nat /\ k = Z.of_nat (length name) - Z.of_nat i /\
    x = (buf + Z.of_nat i, de + d_name + Z.of_nat i, Z.of_nat i) /\ m' = write_bytes m buf (take i name)) _)
    with (k := Z.of_nat (length name)).
  - intros k x m' (i & Hi & Hc & -> & -> & ->). pose proof (record_take i Hi ltac:(lia)) as Hrec.
    destruct (lookup_lt_is_Some_2 (name ++ [0]) i) as [c Hci]; [rewrite length_app; simpl; lia|].
    unfold copy_name_step. apply wp_bind. eapply wp_run.
    { apply ld8_run. rewrite (frame_load m _ buf (Z.of_nat i)).
      - apply Hname, Hci.
      - pose proof (write_bytes_frame m buf (take i name)) as F. by rewrite length_take_le in F by done.
      - intros j c' Hj Hc'. apply (Hsep j); [lia|lia|done]. }
    destruct (Z.eqb_spec c 0) as [->|Hc0]; cbn [negb].
    + apply wp_ret. assert (i = length name) as ->.
      { destruct (decide (i < length name)%nat); [|lia]. rewrite lookup_app_l in Hci by done.
        destruct Hnul as [Hnz _]. by destruct (proj1 (Forall_lookup _ _) Hnz i 0 Hci). }
      rewrite take_ge by lia. done.
    + assert (i < length name)%nat as Hlt.
      { destruct (decide (i = length name)) as [->|]; [|lia]. rewrite lookup_app_r, Nat.sub_diag in Hci by lia. by injection Hci as <-. }
      rewrite lookup_app_l in Hci by done. pose proof (record_take (S i) ltac:(lia) ltac:(lia)) as Hrec'.
      assert (st8 (buf + Z.of_nat i) c (write_bytes m buf (take i name)) = Ok (tt, write_bytes m buf (take (S i) name))) as Hst.
      { rewrite (take_S_r name i c Hci). replace (Z.of_nat i) with (Z.of_nat (length (take i name))) by (rewrite length_take; lia).
        apply write_bytes_snoc. apply (mapped_sub m _ (Z.of_nat (length record))); [done|lia|rewrite length_take; lia]. }
      apply wp_bind. eapply wp_run; [exact Hst|]. apply wp_ret.
      assert ((Z.of_nat i + 1 =? nbytes) || (Z.of_nat i + 1 =? 32) = bool_decide (S i = cap)) as Hcap.
      { unfold cap in *. destruct (Z.leb_spec nbytes 0), (Z.eqb_spec (Z.of_nat i + 1) nbytes), (Z.eqb_spec (Z.of_nat i + 1) 32); cbn [orb];
          symmetry; (apply bool_decide_eq_true || apply bool_decide_eq_false); lia. }
      destruct (decide (S i = cap)) as [E|E].
      * rewrite bool_decide_eq_true_2 in Hcap by done. unfold copied_name. rewrite record_long, length_take, E by lia.
        destruct (Z.eqb_spec (Z.of_nat i + 1) nbytes); [split; [lia|done]|]. cbn [orb] in Hcap. rewrite Hcap.
        apply Z.eqb_eq in Hcap. split; [lia|done].
      * rewrite bool_decide_eq_false_2 in Hcap by done. apply orb_false_iff in Hcap as [-> ->].
        exists (Z.of_nat (length name) - Z.of_nat (S i)). split; [|lia]. exists (S i). split_and!; [lia|lia|done| |done].
        f_equal; [f_equal|]; lia.
  - pose proof cap_range. exists 0%nat. rewrite !Z.add_0_r. split_and!; (done || lia).
  - destruct Hnul. lia.
Qed.

Lemma copy_entry_ok :
  wp (copy_entry de buf nbytes) (fun r m' => r = Z.of_nat (length record) /\ m' = write_bytes m buf record) m.
Proof using All.
  unfold copy_entry. apply wp_bind. eapply wp_mono; [apply copy_name_ok|]. intros [v|[to copied]] m1; [done|].
  intros (Hlt & -> & -> & ->). pose proof cap_range as Hcap. pose proof (record_short Hlt) as Hrec.
  set (pad := if nbytes <=? 0 then 0%nat else (cap - length name)%nat) in *.
  assert (length record = length name + pad)%nat as Hlen by (by rewrite Hrec, length_app, length_replicate).
  apply (wp_loop_bound _ (fun k x m' => exists i, (i <= pad)%nat /\ k = Z.of_nat pad - Z.of_nat i /\
    x = (buf + Z.of_nat (length name + i), Z.of_nat (length name + i)) /\
    m' = write_bytes m buf (name ++ replicate i 0)) _) with (k := Z.of_nat pad).
  - intros k x m' (i & Hi & -> & -> & ->). unfold pad_name_step.
    assert ((Z.of_nat (length name + i) <? nbytes) && (Z.of_nat (length name + i) <? 32) = bool_decide (i < pad)%nat) as ->.
    { unfold pad, cap in *. destruct (Z.leb_spec nbytes 0), (Z.ltb_spec (Z.of_nat (length name + i)) nbytes),
        (Z.ltb_spec (Z.of_nat (length name + i)) 32); cbn [andb];
        symmetry; (apply bool_decide_eq_true || apply bool_decide_eq_false); lia. }
    destruct (decide (i < pad)%nat) as [Hip|Hip].
    + rewrite bool_decide_eq_true_2 by done. apply wp_bind. eapply wp_run.
      { replace (Z.of_nat (length name + i)) with (Z.of_nat (length (name ++ replicate i 0)))
          by (rewrite length_app, length_replicate; lia).
        apply write_bytes_snoc. apply (mapped_sub m _ (Z.of_nat (length record))); rewrite ?length_app, ?length_replicate; [done|lia|lia]. }
      apply wp_ret. exists (Z.of_nat pad - Z.of_nat (S i)). split; [|lia]. exists (S i).
      split_and!; [lia|done|f_equal; lia|]. by rewrite <- app_assoc, <- replicate_S_end.
    + rewrite bool_decide_eq_false_2 by done. apply wp_ret. assert (i = pad) as -> by lia. split; [lia|by rewrite Hrec].
  - exists 0%nat. rewrite app_nil_r, Nat.add_0_r. split_and!; (done || lia).
  - unfold pad. destruct (nbytes <=? 0); lia.
Qed.
End entry.
End memory_lemmas.

(** ** Properties *)

Section properties.
Context {M : Type} `{ByteMemLaws M} `{Linux M}.
Implicit Types (m : M) (e : emulation M).

Lemma on_space_run {A} (c : ST M A) e a m : c (get space e) = Ok (a, m) -> on_space c e = Ok (a, set space m e).
Proof. intros E. unfold on_space. by rewrite E. Qed.

(** C31: the arguments of a program, whatever they are: the emulated call gives them
    joined by single spaces and answers 0 exactly when they fit in the buffer with
    their terminator, changing no other byte. Otherwise it answers -1, having changed
    at most the buffer and the byte behind it; when all but the terminator fits, that
    byte is overwritten with zero. *)
Theorem getargs_joins_arguments e buf nbytes ws :
  let m := get space e in
  let esp := get start_esp e in
  let total := join_words (tail ws) in
  entry_stack m esp ws -> Forall nul_free ws -> Z.of_nat (length ws) < 2 ^ 31 ->
  - 2 ^ 31 <= nbytes < 2 ^ 31 -> mapped m buf (nbytes + 1) -> injective m buf (nbytes + 1) ->
  apart_from_stack m esp ws buf (nbytes + 1) ->
  exists r m', ece391_getargs buf nbytes e = Ok (r, set space m' e) /\
    if Z.of_nat (length total) <? nbytes then
      r = 0 /\ string_at m' buf total /\ frame m m' buf (Z.of_nat (length total) + 1)
    else
      r = -1 /\ frame m m' buf (nbytes + 1) /\
      ((2 <= length ws)%nat -> nbytes = Z.of_nat (length total) -> load m' (buf + nbytes) = Some 0).
Proof.
  intros m esp total Hst Hnul Hc Hn Hm Hi Ha.
  destruct (wp_inv _ _ _ (getargs_from_ok m esp buf nbytes ws Hst Hnul Hc Hn Hm Hi Ha)) as (r & m' & Hrun & HQ).
  exists r, m'. split; [|exact HQ]. unfold ece391_getargs. by apply on_space_run.
Qed.

(** C29: executing a command of at most 1023 characters gives execv the program's
    path and the command's words in a vector that ends with NULL: the path is at the
    start of the local buffer, every word is a string within its 1026 bytes, and
    nothing has changed but that buffer and the vector. The call then answers what the
    child's end amounts to: its status, -1 when it killed itself because the program
    could not be run, 256 for any other signal. A longer command is refused at once. *)
Theorem execute_splits_command m buf args status command l :
  execute_frame m buf args command l -> Forall (fun c => c <> 0) l -> Z.of_nat (length l) < 2 ^ 31 ->
  if 1023 <? Z.of_nat (length l) then ece391_execute buf args status command m = Ok (-1, m)
  else exists m', exec_vector m' buf args (command_words l) /\ locals_frame m m' buf args /\
    (forall pid m2 r m3 o, sys_fork (child buf args) m' = Ok (pid, m2) -> wait status m2 = Ok (r, m3) ->
      child_end_ok o -> word_at m3 status (wait_status o) ->
      ece391_execute buf args status command m = Ok (execute_contract o, m3)).
Proof.
  intros [(Hb & Hbi & Hr) (Ha & Hai) Hs Hcmd Hcs] Hnz Hlen. assert (nul_free l) as Hl by done.
  unfold ece391_execute. rewrite (bind_ok _ _ _ _ _ (user_strlen_run _ _ _ Hcmd Hl)), u32_small by lia.
  destruct (Z.ltb_spec 1023 (Z.of_nat (length l))); [done|].
  destruct (wp_inv _ _ _ (split_command_ok m buf args command l Hb Hbi Hr Ha Hai Hs Hcmd Hl ltac:(lia) Hcs))
    as ([] & m' & Hp & Hv & Hk).
  exists m'. split; [done|]. split; [done|]. intros pid m2 r m3 o Hf Hw Ho Hst. rewrite (bind_ok _ _ _ _ _ Hp). unfold run_child.
  rewrite (bind_ok _ _ _ _ _ Hf), (bind_ok _ _ _ _ _ Hw), (bind_ok _ _ _ _ _ (ld32_word _ _ _ Hst)).
  by rewrite execute_result_ok.
Qed.

(** C30: from a command to the arguments and back, for every command of at most 1023
    characters: the parent splits it into a vector, and in the child that Linux starts
    with this vector on its stack the emulated call gives the words behind the
    program's, joined by single spaces. When the command's words stood one space
    apart that is the text of the arguments as it stood; further spaces, and what
    follows a newline between words, are lost. *)
Theorem command_line_roundtrip m buf args command l m1 esp ubuf n :
  let vs := command_words l in
  let answer := join_words (tail vs) in
  execute_frame m buf args command l -> Forall (fun c => c <> 0) l -> Z.of_nat (length l) <= 1023 ->
  Z.of_nat (length answer) < n < 2 ^ 31 ->
  entry_stack m1 esp vs -> apart_from_stack m1 esp vs ubuf (n + 1) -> mapped m1 ubuf (n + 1) -> injective m1 ubuf (n + 1) ->
  (exists m', split_command buf args command m = Ok (tt, m') /\ exec_vector m' buf args vs) /\
  (exists m2, getargs_from esp ubuf n m1 = Ok (0, m2) /\ string_at m2 ubuf answer) /\
  (forall prog ws, Forall plain_word (prog :: ws) -> l = join_words (prog :: ws) -> answer = join_words ws).
Proof.
  intros vs answer [(Hb & Hbi & Hr) (Ha & Hai) Hs Hcmd Hcs] Hnz Hlen Hn Hst Hap Hm1 Hi1.
  assert (nul_free l) as Hl by (split; [done|lia]). split; [|split].
  - destruct (wp_inv _ _ _ (split_command_ok m buf args command l Hb Hbi Hr Ha Hai Hs Hcmd Hl Hlen Hcs))
      as ([] & m' & Hp & Hv & _). by exists m'.
  - destruct (command_words_ok l Hnz Hlen) as [Hnul Hcount].
    destruct (wp_inv _ _ _ (getargs_from_ok m1 esp ubuf n vs Hst Hnul ltac:(fold vs in Hcount; lia) ltac:(lia) Hm1 Hi1 Hap))
      as (r & m2 & Hrun & HQ).
    fold answer in HQ. destruct (Z.ltb_spec (Z.of_nat (length answer)) n); [|lia]. destruct HQ as (-> & Hstr & _). by exists m2.
  - intros prog ws Hplain ->. unfold answer, vs. by rewrite command_words_join.
Qed.

(** C32: reading the emulated directory with room for a record gives the next name of
    the stream, cut or filled up with zeros to exactly the bytes asked for, 32 at most,
    in the caller's buffer and nowhere else; the end of the stream gives 0, and any
    other descriptor enters Linux. A request for no bytes or fewer is not refused: the
    name is written all the same. *)
Theorem directory_read_gives_record e fd buf nbytes d de m1 name :
  let record := entry_record name nbytes in
  - 2 ^ 31 <= nbytes < 2 ^ 31 -> get dir e = d -> d <> 0 -> readdir d (get space e) = Ok (de, m1) ->
  (de <> 0 -> string_at m1 (de + d_name) name /\ mapped m1 buf (Z.of_nat (length record)) /\
    separate m1 buf (Z.of_nat (length record)) (de + d_name) (Z.of_nat (length name) + 1)) ->
  nul_free name -> name <> [] ->
  (1 <= nbytes -> Z.of_nat (length record) = Z.min nbytes 32) /\
  (nbytes <= 0 -> 1 <= Z.of_nat (length record)) /\
  ece391_read fd buf nbytes e =
    if get dir_fd e =? fd then
      if de =? 0 then Ok (0, set space m1 e)
      else Ok (Z.of_nat (length record), set space (write_bytes m1 buf record) e)
    else on_space (__ece391_read fd buf nbytes) e.
Proof.
  intros record Hn Hd Hd0 Hrd Hde Hnul Hne. split_and!.
  - intros Hge. unfold record, entry_record. destruct (Z.leb_spec nbytes 0); [lia|].
    rewrite length_take, length_app, length_replicate. lia.
  - intros Hle. unfold record, entry_record. destruct (Z.leb_spec nbytes 0); [|lia]. rewrite length_take.
    destruct name; [done|simpl; lia].
  - unfold ece391_read. rewrite (bind_ok _ _ _ _ _ (rd_run dir e)), (bind_ok _ _ _ _ _ (rd_run dir_fd e)), Hd.
    rewrite (proj2 (Z.eqb_neq d 0)) by done. cbn [orb]. destruct (get dir_fd e =? fd); cbn [negb]; [|done].
    rewrite (bind_ok _ _ _ _ _ (on_space_run _ _ _ _ Hrd)). destruct (Z.eqb_spec de 0) as [->|H0']; [done|].
    destruct (Hde H0') as (Hname & Hm & Hs).
    destruct (wp_inv _ _ _ (copy_entry_ok m1 de buf nbytes name Hname Hnul Hn Hm Hs)) as (r & m' & Hrun & -> & ->).
    by apply (on_space_run (copy_entry de buf nbytes) (set space m1 e)).
Qed.

(** Without an open directory every descriptor is one of Linux. *)
Lemma no_directory_calls e fd buf n :
  get dir e = 0 ->
  ece391_read fd buf n e = on_space (__ece391_read fd buf n) e /\
  ece391_write fd buf n e = on_space (__ece391_write fd buf n) e /\
  ece391_close fd e = on_space (__ece391_close fd) e.
Proof.
  intros Hd. unfold ece391_read, ece391_write, ece391_close.
  rewrite !(bind_ok _ _ _ _ _ (rd_run dir e)), Hd. by split_and!.
Qed.

(** The life of an emulated directory: opening the name "." gives the descriptor of
    the null device and keeps the stream, writing to that descriptor fails, and closing
    it closes both and leaves no trace: from then on every descriptor enters Linux, as
    it also does when the stream could not be opened. *)
Theorem directory_lifecycle e filename d fd m1 m2 :
  let m := get space e in
  string_at m filename [46] -> string_at m (literal [46]) [46] ->
  opendir (literal [46]) m = Ok (d, m1) ->
  linux_open (literal [47; 100; 101; 118; 47; 110; 117; 108; 108]) O_RDONLY m1 = Ok (fd, m2) ->
  exists e1, ece391_open filename e = Ok (fd, e1) /\ get space e1 = m2 /\
    (d = 0 -> forall fd' buf n, ece391_read fd' buf n e1 = on_space (__ece391_read fd' buf n) e1) /\
    (d <> 0 -> forall buf n, ece391_write fd buf n e1 = Ok (-1, e1)) /\
    forall r m3 r' m4, d <> 0 -> closedir d m2 = Ok (r, m3) -> linux_close fd m3 = Ok (r', m4) ->
      exists e2, ece391_close fd e1 = Ok (0, e2) /\ get space e2 = m4 /\ get dir_fd e2 = -1 /\
        forall fd' buf n,
          ece391_read fd' buf n e2 = on_space (__ece391_read fd' buf n) e2 /\
          ece391_write fd' buf n e2 = on_space (__ece391_write fd' buf n) e2 /\
          ece391_close fd' e2 = on_space (__ece391_close fd') e2.
Proof.
  intros m Hf Hl Hd Hfd. set (e1 := set dir_fd fd (set space m2 (set dir d (set space m1 (set space m e))))).
  assert (Forall (fun c => c <> 0) [46]) as Hnz by (by repeat constructor).
  exists e1. split_and!; [|done|by intros -> fd' buf n; apply no_directory_calls| |].
  - destruct (ece391_strcmp_run m filename (literal [46]) [46] [46] Hf Hl Hnz Hnz ltac:(cbn; lia)) as (r & Hr & Hr0).
    rewrite (proj2 Hr0 eq_refl) in Hr. unfold ece391_open. rewrite (bind_ok _ _ _ _ _ (on_space_run _ e _ _ Hr)). cbn [Z.eqb].
    rewrite (bind_ok _ _ _ _ _ (on_space_run (opendir _) (set space m e) _ _ Hd)), (bind_ok _ _ _ _ _ (wr_run dir d _)).
    by rewrite (bind_ok _ _ _ _ _ (on_space_run (linux_open _ _) (set dir d (set space m1 (set space m e))) _ _ Hfd)).
  - intros Hne buf n. unfold ece391_write. rewrite (bind_ok _ _ _ _ _ (rd_run dir e1)), (bind_ok _ _ _ _ _ (rd_run dir_fd e1)).
    change (get dir e1) with d. change (get dir_fd e1) with fd. by rewrite (proj2 (Z.eqb_neq d 0)), Z.eqb_refl by done.
  - intros r m3 r' m4 Hne Hc Hlc. exists (set dir_fd (-1) (set space m4 (set dir 0 (set space m3 e1)))).
    split_and!; [|done|done|intros; by apply no_directory_calls].
    unfold ece391_close. rewrite (bind_ok _ _ _ _ _ (rd_run dir e1)), (bind_ok _ _ _ _ _ (rd_run dir_fd e1)).
    change (get dir e1) with d. change (get dir_fd e1) with fd. rewrite (proj2 (Z.eqb_neq d 0)), Z.eqb_refl by done. cbn [orb negb].
    rewrite (bind_ok _ _ _ _ _ (on_space_run (closedir d) e1 _ _ Hc)), (bind_ok _ _ _ _ _ (wr_run dir 0 _)).
    rewrite (bind_ok _ _ _ _ _ (rd_run dir_fd _)).
    rewrite (bind_ok _ _ _ _ _ (on_space_run (linux_close fd) (set dir 0 (set space m3 e1)) _ _ Hlc)). reflexivity.
Qed.
End properties.

(** ** A concrete Linux

    Every child exits with the status 3; the directory has one stream, whose next
    entry lies at 0x9100 with its name at offset 11; the literal "." lies at 0x9000. *)

#[local] Instance sample_linux : Linux flat := {|
  int80 := fun _ _ _ _ => mret 0;
  sys_fork := fun _ => mret 42;
  execv := fun _ _ => mret (-1);
  getpid := mret 42;
  kill := fun _ _ => mret 0;
  wait := fun p => st32 p 0x300 ;;; mret 42;
  opendir := fun _ => mret 0x9200;
  readdir := fun _ => mret 0x9100;
  closedir := fun _ => mret 0;
  linux_open := fun _ _ => mret 3;
  linux_close := fun _ => mret 0;
  mmap := fun _ _ _ _ _ _ => mret MAP_FAILED;
  perror := fun _ => mret tt;
  d_name := 11;
  literal := fun _ => 0x9000;
  word2 := 0; word3 := 0
|}.

(** A command, a stack for the vector ./cat, a, b and a directory entry. *)
Definition sample_command : list Z := [99; 97; 116; 32; 97; 32; 32; 98].

Definition sample_process : flat :=
  foldr (fun '(a, l) m => write_bytes m a l) ∅
    [(0x1000, sample_command ++ [0]);
     (0x7000, le32 3 ++ le32 0x7100 ++ le32 0x7110 ++ le32 0x7120);
     (0x7100, [46; 47; 99; 97; 116; 0]); (0x7110, [97; 0]); (0x7120, [98; 0]);
     (0x9000, [46; 0]); (0x910B, [104; 105; 0])].

Definition sample_emulation : emulation flat := Emulation sample_process 0x7000 3 0x9200 (-1).

Definition sample_vector : list (list Z) := [[46; 47; 99; 97; 116]; [97]; [98]].

Lemma word_at_unique {M} `{ByteMemLaws M} (m : M) a v v' : word_at m a v -> word_at m a v' -> v = v'.
Proof. intros E1%ld32_word E2%ld32_word. congruence. Qed.

Lemma sample_words :
  word_at sample_process 0x7000 3 /\ word_at sample_process 0x7004 0x7100 /\
  word_at sample_process 0x7008 0x7110 /\ word_at sample_process 0x700C 0x7120.
Proof. split_and!; (split; [apply flat_bytes; vm_compute; reflexivity|lia]). Qed.

Lemma sample_stack : entry_stack sample_process 0x7000 sample_vector.
Proof.
  destruct sample_words as (W0 & W1 & W2 & W3). split; [exact W0|].
  intros [|[|[|i]]] w Hw; [injection Hw as <-..|done];
    eexists; (split; [exact W1 || exact W2 || exact W3|apply flat_bytes; vm_compute; reflexivity]).
Qed.

Lemma sample_apart n : n <= 256 -> apart_from_stack sample_process 0x7000 sample_vector 0x2000 n.
Proof.
  intros Hn. destruct sample_words as (_ & W1 & W2 & W3). split; [apply flat_separate; cbn; lia|].
  intros [|[|[|i]]] w p Hw Hp; [injection Hw as <-..|done];
    (rewrite (word_at_unique _ _ _ _ Hp W1) || rewrite (word_at_unique _ _ _ _ Hp W2) || rewrite (word_at_unique _ _ _ _ Hp W3));
    apply flat_separate; cbn; lia.
Qed.

Lemma sample_frame command l :
  0x1000 <= command < 0x1200 -> Z.of_nat (length l) <= 256 -> string_at sample_process command l ->
  execute_frame sample_process 0x10000 0x20000 command l.
Proof.
  intros Hc Hl Hs. split; [|split; [apply flat_mapped|apply flat_injective]|apply flat_separate; lia|done|apply flat_separate; lia].
  split_and!; [apply flat_mapped|apply flat_injective|lia|lia].
Qed.

Lemma getargs_joins_arguments_witness :
  exists m', ece391_getargs 0x2000 4 sample_emulation = Ok (0, set space m' sample_emulation) /\
    string_at m' 0x2000 [97; 32; 98].
Proof.
  destruct (getargs_joins_arguments sample_emulation 0x2000 4 sample_vector sample_stack) as (r & m' & Hrun & -> & Hs & _).
  - repeat (constructor; [split; [repeat (constructor; [lia|]); constructor|cbn; lia]|]). constructor.
  - cbn. lia.
  - lia.
  - apply flat_mapped.
  - apply flat_injective.
  - by apply sample_apart.
  - exists m'. split; [exact Hrun|exact Hs].
Defined.

Lemma execute_splits_command_witness :
  exists m' m3, exec_vector m' 0x10000 0x20000 sample_vector /\ locals_frame sample_process m' 0x10000 0x20000 /\
    ece391_execute 0x10000 0x20000 0x30000 0x1000 sample_process = Ok (3, m3).
Proof.
  destruct (execute_splits_command sample_process 0x10000 0x20000 0x30000 0x1000 sample_command) as (m' & Hv & Hk & Hrun).
  - apply sample_frame; [lia|cbn; lia|apply flat_bytes; vm_compute; reflexivity].
  - repeat (constructor; [lia|]); constructor.
  - cbn. lia.
  - destruct (st32_word m' 0x30000 0x300) as (m3 & Hst & _ & Hw); [apply flat_mapped|apply flat_injective|lia|].
    exists m', m3. split; [exact Hv|]. split; [exact Hk|].
    apply (Hrun 42 m' 42 m3 (Exited 3)); [reflexivity| |cbn; lia|exact Hw].
    change ((st32 0x30000 0x300 ;;; mret 42) m' = Ok (42, m3)). by rewrite (bind_ok _ _ _ _ _ Hst).
Defined.

(** The command cat a  b, with two spaces. *)
Lemma command_line_roundtrip_witness :
  (exists m', split_command 0x10000 0x20000 0x1000 sample_process = Ok (tt, m') /\ exec_vector m' 0x10000 0x20000 sample_vector) /\
  exists m2, getargs_from 0x7000 0x2000 10 sample_process = Ok (0, m2) /\ string_at m2 0x2000 [97; 32; 98].
Proof.
  destruct (command_line_roundtrip sample_process 0x10000 0x20000 0x1000 sample_command sample_process 0x7000 0x2000 10) as (Hp & Hc & _).
  - apply sample_frame; [lia|cbn; lia|apply flat_bytes; vm_compute; reflexivity].
  - repeat (constructor; [lia|]); constructor.
  - cbn. lia.
  - cbn. lia.
  - apply sample_stack.
  - by apply sample_apart.
  - apply flat_mapped.
  - apply flat_injective.
  - split; [exact Hp|exact Hc].
Defined.

Lemma directory_read_gives_record_witness :
  ece391_read 3 0x2000 4 sample_emulation =
    Ok (4, set space (write_bytes sample_process 0x2000 [104; 105; 0; 0]) sample_emulation).
Proof.
  destruct (directory_read_gives_record sample_emulation 3 0x2000 4 0x9200 0x9100 sample_process [104; 105]) as (_ & _ & E).
  - lia.
  - reflexivity.
  - lia.
  - reflexivity.
  - intros _. split_and!; [apply flat_bytes; vm_compute; reflexivity|apply flat_mapped|apply flat_separate; left; vm_compute; discriminate].
  - split; [repeat (constructor; [lia|]); constructor|cbn; lia].
  - done.
  - exact E.
Defined.

Lemma directory_lifecycle_witness :
  exists e1, ece391_open 0x9000 sample_emulation = Ok (3, e1) /\ ece391_write 3 0 0 e1 = Ok (-1, e1).
Proof.
  assert (string_at sample_process 0x9000 [46]) as Hs by (apply flat_bytes; vm_compute; reflexivity).
  destruct (directory_lifecycle sample_emulation 0x9000 0x9200 3 sample_process sample_process) as (e1 & Ho & _ & _ & Hw & _);
    [exact Hs|exact Hs|reflexivity|reflexivity|].
  exists e1. split; [exact Ho|]. apply Hw. lia.
Defined.
