(* ===== verification/Invariant.v ===== *)
(** * The invariant of the whole kernel

    The invariant of file Scheduling (processes, page map, threads, disk) together
    with the console: the cursors, the keyboard's modifiers and the typed lines.
    [keeps] and [preserves] are rules for code that leaves a part of the state alone
    and for code that keeps an invariant; with them, the keyboard and the clock
    interrupts keep the invariant in every state, whatever key is pressed. *)

From S2P Require Import Prelude Memory Lib Filesystem Copies Machine Pic Screen Paging Rtc Terminal LineEditor Syscall FileTable Processes ProcessTable Pit Scheduling Idt Kernel User Session.

(** ** Specification *)

(** The console: the cursors lie on the screen, the modifier flags are flags, and
    every terminal's buffer holds a line. *)
Record console (s : machine) : Prop := {
  co_screen : screen_ok s;
  co_modifiers : modifiers_ok (get kbd s);
  co_lines : forall t, 0 <= t < NUM_TERMINALS -> exists l, holds t l s;
  co_waiting : length (get readWaiting s) = 3%nat;
  co_ready : length (get readReady s) = 3%nat
}.

(** The kernel with the stacks [st] of the terminals' processes: the shown terminal
    is the one whose pages are on the display. *)
Record kernel_ok (size : Z) (im : fs_image) (st : list (list Z)) (s : machine) : Prop := {
  ko_system : system (get currentTerminal s) size im st s;
  ko_console : console s
}.

(** ** Lemmas: code that leaves a part of the state alone *)

Definition keeps {X A} (obs : machine -> X) (c : K A) : Prop :=
  forall s a s', c s = Ok (a, s') -> obs s' = obs s.

Section keeps.
Context {X : Type} (obs : machine -> X).

Lemma keeps_ret {A} (a : A) : keeps obs (mret a).
Proof using Type. by intros s b s' [= _ <-]. Qed.

Lemma keeps_fail {A} f : keeps obs (fail f : K A).
Proof using Type. by intros s b s' E. Qed.

Lemma keeps_bind {A B} (c : K A) (k : A -> K B) : keeps obs c -> (forall a, keeps obs (k a)) -> keeps obs (c ≫= k).
Proof using Type.
  intros Hc Hk s b s'' E. apply bind_inv in E as (a & s' & E1 & E2).
  rewrite <- (Hc _ _ _ E1). by eapply Hk.
Qed.

Lemma keeps_gets {A} (g : machine -> A) : keeps obs (gets g).
Proof using Type. by intros s b s' [= _ <-]. Qed.

Lemma keeps_modify (g : machine -> machine) : (forall s, obs (g s) = obs s) -> keeps obs (modify g).
Proof using Type. by intros Hg s b s' [= _ <-]. Qed.

Lemma keeps_of_option {A} f (o : option A) : keeps obs (of_option f o).
Proof using Type. destruct o; [apply keeps_ret|apply keeps_fail]. Qed.

Lemma keeps_vm {A} (c : ST vmem A) : (forall s m, obs (set mem m s) = obs s) -> keeps obs (vm c).
Proof using Type.
  intros Hm s a s' E. unfold vm in E. destruct (c (view s)) as [[b m]|f]; [|done]. by injection E as _ <-.
Qed.

(** A routine that only reads memory. *)
Lemma keeps_vm_read {A} (c : ST vmem A) : (forall m a m', c m = Ok (a, m') -> m' = m) -> keeps obs (vm c).
Proof using Type.
  intros Hc s a s' E. unfold vm in E. destruct (c (view s)) as [[b m]|f] eqn:Ec; [|done].
  apply Hc in Ec as ->. injection E as _ <-. by destruct s.
Qed.

Lemma keeps_ld8 x : keeps obs (vm (ld8 x)).
Proof using Type.
  apply keeps_vm_read. intros m a m' E. unfold ld8 in E. destruct (cell m x); [|done]. by injection E as _ <-.
Qed.

Lemma keeps_loop {Y R} (step : Y -> K (Y + R)) x : (forall x, keeps obs (step x)) -> keeps obs (loop step x).
Proof using Type.
  intros Hs. unfold loop. apply keeps_bind; [|intros [?|?]; [apply keeps_fail|apply keeps_ret]].
  generalize LOOP_BOUND. intros p. revert x. induction p as [q IH|q IH|]; intros x; cbn [loop_n]; [| |apply Hs];
    repeat (apply keeps_bind; [auto|intros [?|?]; [|apply keeps_ret]]); auto.
Qed.

Lemma keeps_for n i (body : Z -> K unit) : (forall i, keeps obs (body i)) -> keeps obs (for_ n i body).
Proof using Type.
  intros Hb. revert i. induction n as [|n IH]; intros i; cbn [for_]; [apply keeps_ret|].
  apply keeps_bind; [apply Hb|intros _; apply IH].
Qed.

Lemma keeps_inb port : (forall s tr, obs (set trace tr s) = obs s) -> keeps obs (inb port).
Proof using Type. intros Ht s v s' [= _ <-]. apply Ht. Qed.
End keeps.

Ltac head_of c := match c with ?f _ => head_of f | _ => c end.

(** Code that only assigns other variables, by its structure. *)
Ltac keeps :=
  repeat (intros; lazymatch goal with
    | |- keeps _ (mret _) => apply keeps_ret
    | |- keeps _ (fail _) => apply keeps_fail
    | |- keeps _ (gets _) => apply keeps_gets
    | |- keeps _ (of_option _ _) => apply keeps_of_option
    | |- keeps _ (vm (ld8 _)) => apply keeps_ld8
    | |- keeps _ (vm _) => apply keeps_vm; intros; reflexivity
    | |- keeps _ (inb _) => apply keeps_inb; intros; reflexivity
    | |- keeps _ (mbind _ _) => apply keeps_bind
    | |- keeps _ (loop _ _) => apply keeps_loop
    | |- keeps _ (for_ _ _ _) => apply keeps_for
    | |- keeps _ (modify _) => apply keeps_modify; intros; reflexivity
    | |- keeps _ (match ?x with _ => _ end) => destruct x
    | |- keeps _ ?c => first [assumption | let h := head_of c in unfold h]
    end).

Definition console_of (s : machine) : screen_t * keyboard_t := (get scr s, get kbd s).

Lemma keeps_execute command : keeps console_of (sys_execute command).
Proof. keeps. Qed.

Lemma keeps_halt status : keeps console_of (sys_halt status).
Proof. keeps. Qed.

Lemma keeps_close fd : keeps console_of (sys_close fd).
Proof. keeps. Qed.

Lemma keeps_PIThandler : keeps console_of PIThandler.
Proof. keeps. Qed.

(** ** Lemmas: code that keeps an invariant *)

Definition preserves {A} (I : machine -> Prop) (c : K A) : Prop := forall s a s', I s -> c s = Ok (a, s') -> I s'.

Section preserves.
Context (I : machine -> Prop).

Lemma preserves_bind_of {A B} (P : A -> Prop) (c : K A) (k : A -> K B) :
  preserves I c -> (forall s a s', I s -> c s = Ok (a, s') -> P a) ->
  (forall a, P a -> preserves I (k a)) -> preserves I (c ≫= k).
Proof using Type.
  intros Hc HP Hk s b s'' H E. apply bind_inv in E as (a & s' & E1 & E2).
  eapply Hk; [by eapply HP|by eapply Hc|done].
Qed.

Lemma preserves_bind {A B} (c : K A) (k : A -> K B) :
  preserves I c -> (forall a, preserves I (k a)) -> preserves I (c ≫= k).
Proof using Type. intros Hc Hk. by apply (preserves_bind_of (fun _ => True)). Qed.

Lemma preserves_same {A} (c : K A) : keeps (fun s => s) c -> preserves I c.
Proof using Type. intros Hc s a s' H E. by rewrite (Hc _ _ _ E). Qed.

Lemma preserves_fail {A} f : preserves I (fail f : K A).
Proof using Type. by intros s a s' H E. Qed.

Lemma preserves_when b (c : K unit) : preserves I c -> preserves I (when b c).
Proof using Type. intros Hc s a s' H. destruct b; [by apply Hc|]. by intros [= _ <-]. Qed.

Lemma preserves_loop {X R} (J : X -> Prop) (step : X -> K (X + R)) x :
  (forall x, J x -> preserves I (step x) /\ forall s x' s', step x s = Ok (inl x', s') -> J x') ->
  J x -> preserves I (loop step x).
Proof using Type.
  intros Hs HJ. unfold loop. apply preserves_bind; [|intros [?|?]; [apply preserves_fail|apply preserves_same, keeps_ret]].
  generalize LOOP_BOUND. intros p.
  assert (forall x, J x -> preserves I (loop_n p step x) /\ forall s x' s', loop_n p step x s = Ok (inl x', s') -> J x')
    as H; [|by apply H].
  clear x HJ. induction p as [q IH|q IH|]; intros x HJ; cbn [loop_n]; [| |by apply Hs].
  - destruct (Hs x HJ) as [H1 H1']. split.
    + apply (preserves_bind_of (fun r => match r with inl x' => J x' | inr _ => True end)); [done| |].
      { intros s [x'|v] s' _ E; [by eapply H1'|done]. }
      intros [x1|v1] HJ1; [|apply preserves_same, keeps_ret]. destruct (IH x1 HJ1) as [H2 H2'].
      apply (preserves_bind_of (fun r => match r with inl x' => J x' | inr _ => True end)); [done| |].
      { intros s [x'|v] s' _ E; [by eapply H2'|done]. }
      intros [x2|v2] HJ2; [by apply IH|apply preserves_same, keeps_ret].
    + intros s x' s' E. apply bind_inv in E as ([x1|v1] & s1 & E1 & E2); [|done]. apply H1' in E1.
      apply bind_inv in E2 as ([x2|v2] & s2 & E2 & E3); [|done]. destruct (IH x1 E1) as [_ H2]. apply H2 in E2.
      destruct (IH x2 E2) as [_ H3]. by eapply H3.
  - destruct (IH x HJ) as [H1 H1']. split.
    + apply (preserves_bind_of (fun r => match r with inl x' => J x' | inr _ => True end)); [done| |].
      { intros s [x'|v] s' _ E; [by eapply H1'|done]. }
      intros [x1|v1] HJ1; [by apply IH|apply preserves_same, keeps_ret].
    + intros s x' s' E. apply bind_inv in E as ([x1|v1] & s1 & E1 & E2); [|done]. apply H1' in E1.
      destruct (IH x1 E1) as [_ H2]. by eapply H2.
Qed.

Lemma preserves_for n i (body : Z -> K unit) : (forall i, preserves I (body i)) -> preserves I (for_ n i body).
Proof using Type.
  intros Hb. revert i. induction n as [|n IH]; intros i; cbn [for_]; [apply preserves_same, keeps_ret|].
  apply preserves_bind; [apply Hb|intros _; apply IH].
Qed.

(** A wait: the interrupts that are served keep the invariant. *)
Lemma preserves_spin cond :
  (forall irqs, preserves I (wr pending irqs)) -> (forall i, preserves I (serve i)) -> preserves I cond ->
  preserves I (spin serve cond).
Proof using Type.
  intros Hp Hs Hc. unfold spin. apply preserves_bind; [apply preserves_same, keeps_gets|]. intros irqs.
  induction irqs as [|i irqs IH]; cbn [spin_on]; (apply preserves_bind; [done|intros [|]]);
    try apply preserves_same, keeps_ret; [apply preserves_fail|].
  apply preserves_bind; [apply preserves_same, keeps_gets|intros [|]; [|apply preserves_fail]].
  apply preserves_bind; [apply Hp|intros _]. by apply preserves_bind; [apply Hs|intros _].
Qed.
End preserves.

(** ** Lemmas: the parts of the invariant *)

Lemma console_same s s' : get scr s' = get scr s -> get kbd s' = get kbd s -> console s -> console s'.
Proof.
  intros Es Ek [[Hx Hy Hc Hxr Hyr] Hm Hl Hw Hr].
  pose proof (f_equal s_screen_x Es : get screen_x s' = get screen_x s) as E1.
  pose proof (f_equal s_screen_y Es : get screen_y s' = get screen_y s) as E2.
  pose proof (f_equal s_currentTerminal Es : get currentTerminal s' = get currentTerminal s) as E3.
  pose proof (f_equal k_KBbuf Ek : get KBbuf s' = get KBbuf s) as E4.
  pose proof (f_equal k_buf_loc Ek : get buf_loc s' = get buf_loc s) as E5.
  pose proof (f_equal k_readWaiting Ek : get readWaiting s' = get readWaiting s) as E6.
  pose proof (f_equal k_readReady Ek : get readReady s' = get readReady s) as E7.
  split; [split; by rewrite ?E1, ?E2, ?E3|by rewrite Ek| |by rewrite E6|by rewrite E7].
  intros t Ht. destruct (Hl t Ht) as (l & [? ? ?]). exists l. split; by rewrite ?E4, ?E5.
Qed.

Section kernel.
Context {size : Z} {im : fs_image}.
Implicit Types (st : list (list Z)) (s : machine).

Abbreviation kernel_ok := (kernel_ok size im).

Lemma kernel_shown st s : kernel_ok st s -> 0 <= get currentTerminal s < NUM_TERMINALS.
Proof using Type. intros [_ [Hs _ _ _ _]]. apply Hs. Qed.

Lemma kernel_paging st s : kernel_ok st s -> exists proc, paging_inv (get currentTerminal s) proc (get pag s).
Proof using Type. intros [[Hth _ _] _]. destruct (tr_page _ _ _ Hth) as (proc & Hp & _). by exists proc. Qed.

(** A step of file Scheduling that leaves the console alone. *)
Lemma kernel_kept st st' s s' :
  kernel_ok st s -> console_of s' = console_of s ->
  system (get currentTerminal s) size im st' s' -> kernel_ok st' s'.
Proof using Type.
  intros [_ Hco] [= Es Ek] Hsys. split; [|by apply (console_same s)].
  by rewrite (f_equal s_currentTerminal Es : get currentTerminal s' = get currentTerminal s).
Qed.

(** The disk through a page map of the same kernel pages. *)
Lemma disk_moved shown shown' proc proc' s s' :
  paging_inv shown proc (get pag s) -> paging_inv shown' proc' (get pag s') -> get fs_ptrs s' = get fs_ptrs s ->
  (forall c, FOUR_MB <= c < EIGHT_MB -> byte s' c = byte s c) -> disk size im s -> disk size im s'.
Proof using Type.
  intros Hp Hp' Ef Hb [Hrep Hpl Hby]. split; rewrite ?Ef; [|done|done].
  apply (fs_rep_transfer (view s)); [|done]. intros a Ha. unfold MAX_PROCESSES, EIGHT_KB, EIGHT_MB, FOUR_MB in *.
  rewrite !(load_cell _ _ a); [|by eapply kernel_cell; [exact Hp|unfold EIGHT_MB, FOUR_MB; lia]|
    by eapply kernel_cell; [exact Hp'|unfold EIGHT_MB, FOUR_MB; lia]].
  f_equal. apply Hb. lia.
Qed.

(** What concerns neither the processes nor the kernel's memory. *)
Lemma kernel_frame st s s' :
  kernel_ok st s -> get prc s' = get prc s -> get sch s' = get sch s -> get pag s' = get pag s ->
  get fs_ptrs s' = get fs_ptrs s -> length (get RTC_read_flag s') = length (get RTC_read_flag s) ->
  get currentTerminal s' = get currentTerminal s ->
  (forall c, FOUR_MB <= c < EIGHT_MB -> byte s' c = byte s c) -> console s' -> kernel_ok st s'.
Proof using Type.
  intros Hk Ep Es Eg Ef Ec Et Hb Hco. destruct (kernel_paging _ _ Hk) as (proc & Hpag). destruct Hk as [[Hth Hd Hclk] _].
  split; [|done]. rewrite Et. split; [| |by rewrite Ec].
  - apply (threads_same _ st s s'); [done|by right|done|exact (f_equal p_cur_pid Ep)|exact (f_equal p_fdt Ep)].
  - eapply disk_moved; [exact Hpag|by rewrite Eg|done|done|done].
Qed.

(** Output on a terminal. *)
Lemma kernel_wrote st s t p a s' : kernel_ok st s -> 0 <= t < NUM_TERMINALS -> wrote t p a s s' -> kernel_ok st s'.
Proof using Type.
  intros Hk Ht Hw. pose proof (kernel_shown _ _ Hk) as Hct. pose proof Hk as [_ [Hsc Hm Hl Hwt Hr]].
  destruct Hw as [_ _ _ Hok Hf _]. destruct Hf as [Ek Ep Es Eg Ei Ef _ _ _ Ec _ Hmem].
  apply (kernel_frame st s s'); try done.
  - by rewrite (f_equal i_RTC_read_flag Ei : get RTC_read_flag s' = get RTC_read_flag s).
  - intros c Hc. apply Hmem. intros Hin. apply screen_cells_range in Hin; [|done]. unfold VIDEO, FOUR_KB, FOUR_MB in *. lia.
  - pose proof (f_equal k_readWaiting Ek : get readWaiting s' = get readWaiting s) as E6.
    pose proof (f_equal k_readReady Ek : get readReady s' = get readReady s) as E7.
    split; [done|by rewrite Ek| |by rewrite E6|by rewrite E7].
    intros t' Ht'. destruct (Hl t' Ht') as (l & [? ? ?]). exists l.
    pose proof (f_equal k_KBbuf Ek : get KBbuf s' = get KBbuf s) as E4.
    pose proof (f_equal k_buf_loc Ek : get buf_loc s' = get buf_loc s) as E5. split; by rewrite ?E4, ?E5.
Qed.

(** *** The keyboard *)

(** Another keyboard state with well-formed modifiers and the same lines. *)
Lemma kernel_flags st s k :
  kernel_ok st s -> modifiers_ok k -> k_KBbuf k = get KBbuf s -> k_buf_loc k = get buf_loc s ->
  k_readWaiting k = get readWaiting s -> k_readReady k = get readReady s -> kernel_ok st (set kbd k s).
Proof using Type.
  intros Hk Hm E1 E2 E3 E4. apply (kernel_frame st s); try done. destruct Hk as [_ [Hsc _ Hl Hw Hr]].
  split; [by destruct Hsc|done| |by rewrite <- E3 in Hw|by rewrite <- E4 in Hr].
  intros t Ht. destruct (Hl t Ht) as (l & [? ? ?]). exists l.
  split; [change (at_ (k_KBbuf k) t = Some (pad_line l)); by rewrite E1|
    change (at_ (k_buf_loc k) t = Some (Z.of_nat (length l))); by rewrite E2|done].
Qed.

(** A step of the machine that only appends to the history of the ports. *)
Lemma kernel_trace st s tr : kernel_ok st s -> kernel_ok st (set trace tr s).
Proof using Type. intros Hk. apply (kernel_frame st s); try done. by apply (console_same s); [..|apply Hk]. Qed.

Lemma preserves_inb st port : preserves (kernel_ok st) (inb port).
Proof using Type. intros s v s' Hk [= _ <-]. by apply kernel_trace. Qed.

Lemma rem_flag v : v = 0 \/ v = 1 -> Z.rem (v + 1) MOD2 = 0 \/ Z.rem (v + 1) MOD2 = 1.
Proof using Type. intros [->| ->]; [by right|by left]. Qed.

(** The modifier keys toggle their flags. *)
Lemma preserves_toggle st f :
  f ∈ [ctrlFlagL; ctrlFlagR; altFlagL; altFlagR; capsFlag; shiftFlagL; shiftFlagR] -> preserves (kernel_ok st) (toggle f).
Proof using Type.
  intros Hf s [] s' Hk [= <-]. destruct (co_modifiers _ (ko_console _ _ _ _ Hk)) as [Hc Hl Hr].
  repeat (apply elem_of_cons in Hf as [->|Hf]; [by apply (kernel_flags st s); [done|split; try done; by apply rem_flag|..]|]).
  by apply not_elem_of_nil in Hf.
Qed.

(** Alt and a function key. *)
Lemma kernel_switched st s ct prev s' :
  kernel_ok st s -> 0 <= ct < NUM_TERMINALS -> prev = get currentTerminal s -> prev <> ct ->
  switched prev (set currentTerminal ct s) s' -> kernel_ok st s'.
Proof using Type.
  intros Hk Hct -> Hne Hsw. pose proof (kernel_shown _ _ Hk) as Hp. destruct Hk as [[Hth Hd Hclk] Hco].
  destruct Hsw as [_ _ Hmem Epag Escr Ekbd Eprc Esch Eirq _ _ _ Efs].
  assert (get currentTerminal s' = ct) as Ect by exact (f_equal s_currentTerminal Escr).
  pose proof (tr_page _ _ _ Hth) as (proc & Hpag & Hproc).
  assert (paging_inv ct proc (get pag s')) as Hpag' by (rewrite Epag; by apply paging_inv_switch).
  assert (console (set currentTerminal ct s)) as Hco1.
  { destruct Hco as [[Hx Hy _ Hxr Hyr] Hm Hl Hw Hr]. split; [by split|done| |done|done].
    intros t Ht. destruct (Hl t Ht) as (l & [? ? ?]). exists l. by split. }
  split; [|by apply (console_same (set currentTerminal ct s))]. rewrite Ect. split.
  - destruct Hth as [Hpt Hc Hlens Hst Hpids _ Hfdt].
    assert (get curThread s' = get curThread s) as E1 by exact (f_equal t_curThread Esch).
    assert (get shellStarted s' = get shellStarted s) as E2 by exact (f_equal t_shellStarted Esch).
    assert (get ESPstore s' = get ESPstore s) as E3 by exact (f_equal t_ESPstore Esch).
    assert (get EBPstore s' = get EBPstore s) as E4 by exact (f_equal t_EBPstore Esch).
    assert (get PIDstore s' = get PIDstore s) as E5 by exact (f_equal t_PIDstore Esch).
    assert (get cur_pid s' = get cur_pid s) as E6 by exact (f_equal p_cur_pid Eprc).
    assert (get fdt s' = get fdt s) as E7 by exact (f_equal p_fdt Eprc).
    split; rewrite ?E1, ?E2, ?E3, ?E4, ?E5, ?E6, ?E7; try done; [|by exists proc].
    apply (table_same st s); [exact (f_equal p_PCB_ptrs Eprc)|exact (f_equal p_pcbs Eprc)|exact (f_equal p_fops_tables Eprc)|done].
  - eapply (disk_moved (get currentTerminal s) ct proc proc s); [done|done|done| |done]. intros c Hc.
    rewrite Hmem; [done|..]; unfold terminal_page, NUM_TERMINALS, VIDEO, FOUR_KB, FOUR_MB in *; lia.
  - by rewrite (f_equal i_RTC_read_flag Eirq : get RTC_read_flag s' = get RTC_read_flag s).
Qed.

Lemma preserves_switch_key st scode : preserves (kernel_ok st) (switch_key scode).
Proof using Type.
  intros s [] s' Hk E. pose proof (kernel_shown _ _ Hk) as Hp. destruct (kernel_paging _ _ Hk) as (proc & Hpag).
  unfold switch_key in E. rewrite (bind_ok _ _ _ _ _ (rd_run _ _)) in E. set (prev := get currentTerminal s) in *.
  assert (forall ct, 0 <= ct < NUM_TERMINALS -> prev <> ct ->
    (switchTerminal (u8 prev) ≫= fun _ => mret tt) (set currentTerminal ct s) = Ok (tt, s') -> kernel_ok st s') as Hswitch.
  { intros ct Hct Hne E1. rewrite u8_small in E1 by (unfold NUM_TERMINALS in *; lia).
    assert (screen_ok (set currentTerminal ct s)) as Hok
      by (destruct (co_screen _ (ko_console _ _ _ _ Hk)) as [Hx Hy _ Hxr Hyr]; by split).
    destruct (wp_inv _ _ _ (switchTerminal_run prev proc _ Hok Hpag Hp Hne)) as (r & s2 & Hrun & _ & Hsw).
    rewrite (bind_ok _ _ _ _ _ Hrun) in E1. injection E1 as <-. by eapply kernel_switched. }
  destruct ((scode =? TERMINAL_0_SCANCODE) && negb (prev =? TERMINAL_0)) eqn:E0.
  { apply andb_prop in E0 as [_ Hn%negb_true_iff%Z.eqb_neq]. apply (Hswitch TERMINAL_0); [done|done|exact E]. }
  destruct ((scode =? TERMINAL_1_SCANCODE) && negb (prev =? TERMINAL_1)) eqn:E1.
  { apply andb_prop in E1 as [_ Hn%negb_true_iff%Z.eqb_neq]. apply (Hswitch TERMINAL_1); [done|done|exact E]. }
  destruct ((scode =? TERMINAL_2_SCANCODE) && negb (prev =? TERMINAL_2)) eqn:E2.
  { apply andb_prop in E2 as [_ Hn%negb_true_iff%Z.eqb_neq]. apply (Hswitch TERMINAL_2); [done|done|exact E]. }
  by injection E as <-.
Qed.

(** The shown terminal is an editor. *)
Lemma kernel_editor st s : kernel_ok st s -> exists e, editing e s.
Proof using Type.
  intros Hk. pose proof (kernel_shown _ _ Hk) as Hct. destruct Hk as [_ [Hsc _ Hl _ Hr]].
  destruct (Hl _ Hct) as (l & Hh). destruct (screen_ok_tty s _ Hsc Hct) as (x & y & Hx & Hy & _).
  destruct (at_Some (get readReady s) (get currentTerminal s)) as [r Hrd]; [unfold NUM_TERMINALS in *; lia|].
  exists (Editor l (Tty x y (fun pos => byte s (VIDEO + 2 * pos))) r). by split.
Qed.

Lemma kernel_edited st s e e' s' :
  kernel_ok st s -> editing e s -> (length (ed_line e') <= 128)%nat -> edited e' s s' -> kernel_ok st s'.
Proof using Type.
  intros Hk [Hh _ _ _ _] Hlen [Ekbd Hw]. pose proof (kernel_shown _ _ Hk) as Hct.
  apply (kernel_wrote st _ _ _ _ s') in Hw; [done| |done]. set (t := get currentTerminal s) in *.
  pose proof Hk as [_ [Hsc Hm Hl Hwt Hr]]. rewrite Ekbd. apply (kernel_frame st s); try done.
  destruct (put_line_holds t _ (ed_line e') s Hh Hlen) as [H1 H2 _].
  split; [by destruct Hsc|by destruct Hm| |done|].
  - intros u Hu. destruct (decide (u = t)) as [->|Hne].
    + exists (ed_line e'). by split.
    + destruct (Hl u Hu) as (l & [? ? ?]). exists l. split; [| |done].
      * change (at_ (upd (get KBbuf s) t (pad_line (ed_line e'))) u = Some (pad_line l)).
        by rewrite at_upd_ne by (congruence || lia).
      * change (at_ (upd (get buf_loc s) t (Z.of_nat (length (ed_line e')))) u = Some (Z.of_nat (length l))).
        by rewrite at_upd_ne by (congruence || lia).
  - change (length (upd (get readReady s) t (ed_ready e')) = 3%nat). by rewrite length_upd.
Qed.

(** A key of the editor. *)
Lemma kernel_key st s scode k s' :
  kernel_ok st s -> key_of (get kbd s) scode = Some k -> scan_code scode s = Ok (tt, s') -> kernel_ok st s'.
Proof using Type.
  intros Hk Hkey Hrun. destruct (kernel_editor _ _ Hk) as (e & He). destruct (kernel_paging _ _ Hk) as (proc & Hpag).
  pose proof (kernel_shown _ _ Hk) as Hct. pose proof (paging_inv_video _ _ _ Hpag) as Hvid.
  pose proof Hk as [_ [Hsc Hm _ Hwt _]].
  destruct (at_Some (get readWaiting s) (get currentTerminal s)) as [w Hw]; [unfold NUM_TERMINALS in *; lia|].
  pose proof (h_len _ _ _ (e_line _ _ He)) as Hlen.
  assert (k = KeyEnter -> w <> 0 -> (length (ed_line e) < 128)%nat) as Hroom.
  { intros -> Hw0. destruct (decide (length (ed_line e) = 128%nat)) as [H128|]; [exfalso|lia].
    unfold key_of in Hkey. destruct (ctrl_down _) eqn:Ec; [by destruct (_ =? CLEAR)|].
    destruct (alt_down _) eqn:Ea; [done|]. destruct (scode =? BKSP); [done|].
    destruct (Z.eqb_spec scode ENTER) as [->|]; [|by destruct (_ && _), (at_ _ _)].
    by rewrite (enter_full e w) in Hrun. }
  destruct (wp_inv _ _ _ (scan_code_edits e k w scode s Hvid Hsc Hm He Hw Hkey Hroom)) as ([] & s1 & Hrun1 & Hed).
  rewrite Hrun1 in Hrun. injection Hrun as <-. eapply kernel_edited; [done|exact He| |exact Hed].
  apply edit_key_length; [done|]. intros Ek Ew. apply Hroom; [done|]. by apply negb_true_iff, Z.eqb_neq in Ew.
Qed.

(** A key that the editor does not have. *)
Lemma printable_key_inv scode s p s' :
  printable_key scode s = Ok (p, s') ->
  s' = s /\ (p = true -> 0 <= scode < 64 /\ default 0 (at_ ascii_scan scode) <> 0).
Proof using Type.
  unfold printable_key. destruct (negb _); [by intros [= <- <-]|]. intros E.
  destruct (at_ ascii_scan scode) as [a|] eqn:Ha; [|done]. rewrite (bind_ok _ _ _ a s) in E by done.
  destruct (Z.eqb_spec a 0), (Z.ltb_spec scode SIZE_SCODES); cbn [negb andb] in E; try by injection E as <- <-.
  rewrite (bind_ok _ _ _ _ _ (rd_run _ _)) in E. apply bind_inv in E as (n' & s1 & E1 & E2).
  injection E2 as <- <-. apply at_inv in Ha. split; [|by intros _; unfold SIZE_SCODES in *; split; [lia|]].
  unfold rd_at, rd, gets, mbind, ST_bind in E1. destruct (at_ (get buf_loc s) _); [|done]. by injection E1 as _ <-.
Qed.

Lemma key_of_table k scode :
  modifiers_ok k -> ctrl_down k = false -> alt_down k = false -> 0 <= scode < 64 ->
  default 0 (at_ ascii_scan scode) <> 0 -> exists x, key_of k scode = Some x.
Proof using Type.
  intros Hm Hc Ha Hs Hd. unfold key_of. rewrite Hc, Ha.
  destruct (scode =? BKSP); [by eexists|]. destruct (scode =? ENTER); [by eexists|].
  destruct (Z.leb_spec 0 scode), (Z.ltb_spec scode 64); try lia. rewrite (proj2 (Z.eqb_neq _ _) Hd). cbn [andb negb].
  destruct (table_complete _ _ Hm Hs Hd) as (c & -> & _). by eexists.
Qed.

Lemma preserves_scan_code st scode : preserves (kernel_ok st) (scan_code scode).
Proof using Type.
  intros s [] s' Hk Hrun. destruct (key_of (get kbd s) scode) as [k|] eqn:Hkey; [by eapply kernel_key|].
  revert Hrun. unfold scan_code. destruct (scode =? READ_AGAIN).
  { apply preserves_bind; [|intros v; apply preserves_bind; [|intros _]|done]; [apply preserves_inb|..];
      apply preserves_when, preserves_toggle; set_solver. }
  destruct (_ || _); [apply preserves_toggle; [set_solver|done]|].
  destruct (_ || _); [apply preserves_toggle; [set_solver|done]|].
  rewrite (bind_ok _ _ _ _ _ (is_set_run _ _ _)).
  change (negb (get ctrlFlagL s =? 0) || negb (get ctrlFlagR s =? 0)) with (ctrl_down (get kbd s)).
  destruct (ctrl_down _) eqn:Ec.
  { unfold key_of in Hkey. rewrite Ec in Hkey. destruct (scode =? CLEAR); [done|]. by intros [= <-]. }
  rewrite (bind_ok _ _ _ _ _ (is_set_run _ _ _)).
  change (negb (get altFlagL s =? 0) || negb (get altFlagR s =? 0)) with (alt_down (get kbd s)).
  destruct (alt_down _) eqn:Ea; [by apply preserves_switch_key|].
  destruct (scode =? CAPS); [apply preserves_toggle; [set_solver|done]|].
  destruct (_ || _); [apply preserves_toggle; [set_solver|done]|].
  destruct (_ || _); [apply preserves_toggle; [set_solver|done]|].
  destruct (scode =? BKSP) eqn:Eb; [unfold key_of in Hkey; by rewrite Ec, Ea, Eb in Hkey|].
  intros E. apply bind_inv in E as (p & s1 & E1 & E2). apply printable_key_inv in E1 as [-> Hp].
  destruct p; [|by injection E2 as <-]. destruct (Hp eq_refl) as [Hs Hd].
  destruct (key_of_table (get kbd s) scode) as [x Hx]; [apply Hk|done..|congruence].
Qed.

(** The keyboard interrupt. *)
Lemma preserves_KBhandler st : preserves (kernel_ok st) KBhandler.
Proof using Type.
  unfold KBhandler. apply preserves_bind; [apply preserves_inb|intros scode].
  apply preserves_bind; [apply preserves_scan_code|intros _]. intros s [] s' Hk Hrun.
  destruct (send_eoi_run KB_IRQ s) as [evs He]. rewrite He in Hrun. injection Hrun as <-. by apply kernel_trace.
Qed.

(** The clock interrupt. *)
Lemma preserves_RTChandler st : preserves (kernel_ok st) RTChandler.
Proof using Type.
  intros s [] s' Hk Hrun. pose proof Hk as [[_ _ Hclk] Hco].
  destruct (wp_inv _ _ _ (RTChandler_run s Hclk)) as ([] & s1 & Hrun1 & evs & ->). rewrite Hrun1 in Hrun.
  injection Hrun as <-. apply (kernel_frame st s); try done. by apply (console_same s).
Qed.

(** *** The interrupts return *)

(** A reader of the shown terminal has room for the end of its line. *)
Definition line_room s : Prop :=
  forall n w, at_ (get buf_loc s) (get currentTerminal s) = Some n ->
    at_ (get readWaiting s) (get currentTerminal s) = Some w -> w <> 0 -> n < 128.

Lemma inb_run port s :
  let v := u8 (get device s (get trace s) port) in inb port s = Ok (v, set trace (Inb port v :: get trace s) s).
Proof using Type. done. Qed.

Lemma switch_key_returns st s scode : kernel_ok st s -> exists s', switch_key scode s = Ok (tt, s').
Proof using Type.
  intros Hk. pose proof (kernel_shown _ _ Hk) as Hp. destruct (kernel_paging _ _ Hk) as (proc & Hpag).
  unfold switch_key. rewrite (bind_ok _ _ _ _ _ (rd_run _ _)). set (prev := get currentTerminal s) in *.
  assert (forall ct, 0 <= ct < NUM_TERMINALS -> prev <> ct ->
    exists s', (switchTerminal (u8 prev) ≫= fun _ => mret tt) (set currentTerminal ct s) = Ok (tt, s')) as Hswitch.
  { intros ct Hct Hne. rewrite u8_small by (unfold NUM_TERMINALS in *; lia).
    assert (screen_ok (set currentTerminal ct s)) as Hok
      by (destruct (co_screen _ (ko_console _ _ _ _ Hk)) as [Hx Hy _ Hxr Hyr]; by split).
    destruct (wp_inv _ _ _ (switchTerminal_run prev proc _ Hok Hpag Hp Hne)) as (r & s2 & Hrun & _ & Hsw).
    rewrite (bind_ok _ _ _ _ _ Hrun). by exists s2. }
  destruct ((scode =? TERMINAL_0_SCANCODE) && negb (prev =? TERMINAL_0)) eqn:E0.
  { apply andb_prop in E0 as [_ Hn%negb_true_iff%Z.eqb_neq]. by apply (Hswitch TERMINAL_0). }
  destruct ((scode =? TERMINAL_1_SCANCODE) && negb (prev =? TERMINAL_1)) eqn:E1.
  { apply andb_prop in E1 as [_ Hn%negb_true_iff%Z.eqb_neq]. by apply (Hswitch TERMINAL_1). }
  destruct ((scode =? TERMINAL_2_SCANCODE) && negb (prev =? TERMINAL_2)) eqn:E2.
  { apply andb_prop in E2 as [_ Hn%negb_true_iff%Z.eqb_neq]. by apply (Hswitch TERMINAL_2). }
  by exists s.
Qed.

Lemma printable_key_returns st s scode :
  kernel_ok st s -> 0 <= scode < 256 -> exists p, printable_key scode s = Ok (p, s).
Proof using Type.
  intros Hk Hs. pose proof (kernel_shown _ _ Hk) as Hct. destruct (co_lines _ (ko_console _ _ _ _ Hk) _ Hct) as (l & [_ Hloc _]).
  unfold printable_key. destruct (negb _); [by exists false|].
  destruct (at_Some ascii_scan scode) as [a Ha]; [change (length ascii_scan) with 256%nat; lia|].
  rewrite Ha, (bind_ok _ _ _ a s) by done. destruct (_ && _); [|by exists false].
  rewrite (bind_ok _ _ _ _ _ (rd_run _ _)), (bind_ok _ _ _ _ _ (rd_at_run _ _ _ _ Hloc)). by eexists.
Qed.

Lemma scan_code_returns st s scode :
  kernel_ok st s -> line_room s -> 0 <= scode < 256 -> exists s', scan_code scode s = Ok (tt, s').
Proof using Type.
  intros Hk Hroom Hs. destruct (key_of (get kbd s) scode) as [k|] eqn:Hkey.
  { destruct (kernel_editor _ _ Hk) as (e & He). destruct (kernel_paging _ _ Hk) as (proc & Hpag).
    pose proof (kernel_shown _ _ Hk) as Hct. pose proof Hk as [_ [Hsc Hm _ Hwt _]].
    destruct (at_Some (get readWaiting s) (get currentTerminal s)) as [w Hw]; [unfold NUM_TERMINALS in *; lia|].
    destruct (wp_inv _ _ _ (scan_code_edits e k w scode s (paging_inv_video _ _ _ Hpag) Hsc Hm He Hw Hkey
      ltac:(intros _ Hw0; pose proof (Hroom _ _ (h_loc _ _ _ (e_line _ _ He)) Hw Hw0); lia))) as ([] & s1 & Hrun & _).
    by exists s1. }
  unfold scan_code. destruct (scode =? READ_AGAIN).
  { rewrite (bind_ok _ _ _ _ _ (inb_run _ _)). unfold when, toggle. repeat destruct (_ || _); by eexists. }
  destruct (_ || _); [by eexists|]. destruct (_ || _); [by eexists|].
  rewrite (bind_ok _ _ _ _ _ (is_set_run _ _ _)).
  change (negb (get ctrlFlagL s =? 0) || negb (get ctrlFlagR s =? 0)) with (ctrl_down (get kbd s)).
  destruct (ctrl_down _) eqn:Ec.
  { unfold key_of in Hkey. rewrite Ec in Hkey. destruct (scode =? CLEAR); [done|]. by eexists. }
  rewrite (bind_ok _ _ _ _ _ (is_set_run _ _ _)).
  change (negb (get altFlagL s =? 0) || negb (get altFlagR s =? 0)) with (alt_down (get kbd s)).
  destruct (alt_down _) eqn:Ea; [by eapply switch_key_returns|].
  destruct (scode =? CAPS); [by eexists|]. destruct (_ || _); [by eexists|]. destruct (_ || _); [by eexists|].
  destruct (scode =? BKSP) eqn:Eb; [unfold key_of in Hkey; by rewrite Ec, Ea, Eb in Hkey|].
  destruct (printable_key_returns st s scode Hk Hs) as [p Hrun]. rewrite (bind_ok _ _ _ _ _ Hrun).
  apply printable_key_inv in Hrun as [_ Hp]. destruct p; [|by eexists]. destruct (Hp eq_refl) as [Hr Hd].
  destruct (key_of_table (get kbd s) scode) as [x Hx]; [apply Hk|done..|congruence].
Qed.

Lemma KBhandler_returns st s : kernel_ok st s -> line_room s -> exists s', KBhandler s = Ok (tt, s').
Proof using Type.
  intros Hk Hroom. unfold KBhandler. rewrite (bind_ok _ _ _ _ _ (inb_run _ _)). set (s1 := set trace _ s).
  destruct (scan_code_returns st s1 (u8 (get device s (get trace s) KB_DATA_PORT))) as (s2 & Hrun);
    [by apply kernel_trace|done|apply u8_range|].
  rewrite (bind_ok _ _ _ _ _ Hrun). destruct (send_eoi_run KB_IRQ s2) as [evs He]. rewrite He. by eexists.
Qed.

Lemma RTChandler_returns st s : kernel_ok st s -> exists s', RTChandler s = Ok (tt, s').
Proof using Type.
  intros [[_ _ Hclk] _]. destruct (wp_inv _ _ _ (RTChandler_run s Hclk)) as ([] & s1 & Hrun & _). by exists s1.
Qed.
End kernel.
