(* ===== verification/UserCalls.v ===== *)
(** * The system calls keep the invariant of the kernel

    The calls that read and write files, the terminal and the clock, that copy the
    arguments and that give the video page to a program, for any descriptor, any data
    and any interrupts served while they wait: only the buffers are constrained. *)

From S2P Require Import Prelude Memory Lib Filesystem Copies Machine Pic Screen Paging Rtc Terminal LineEditor Syscall FileTable Processes ProcessTable Pit Scheduling Idt Kernel User Session Invariant.

(** ** Specification: the calls that wait

    A read of the terminal, or of the clock, asks for an event, waits, and goes on. *)

Definition line_awaited : K unit := t ← cur_terminal; wr_at readWaiting t 1.

Definition line_ready : K bool := t ← cur_terminal; r ← rd_at readReady t; mret (negb (r =? 0)).

Definition tick_awaited : K unit := t ← cur_terminal; wr_at RTC_read_flag t 1.

Definition tick_seen : K bool := t ← cur_terminal; v ← rd_at RTC_read_flag t; mret (v =? 0).

Lemma terminalRead_waits serve fd b n s :
  0 <= n -> terminalRead serve fd b n s = (line_awaited ;;; spin serve line_ready ;;; read_tail b n) s.
Proof.
  intros Hn. unfold terminalRead, line_awaited, line_ready, read_tail. rewrite <- run_assoc. destruct (Z.ltb_spec n 0); [lia|]. reflexivity.
Qed.

Lemma RTCRead_waits serve fd b n s :
  RTCRead serve fd b n s = (tick_awaited ;;; spin serve tick_seen ;;; mret 0) s.
Proof. exact (run_assoc cur_terminal (fun t => wr_at RTC_read_flag t 1) (fun _ => spin serve tick_seen ;;; mret 0) s). Qed.

Section kernel.
Context {size : Z} {im : fs_image}.
Implicit Types (st : list (list Z)) (s : machine).

Abbreviation kernel_ok := (kernel_ok size im).

(** ** Lemmas: the program that runs *)

Definition up st s : Prop := kernel_ok st s /\ shell_up s.

(** It is at work on its terminal, in the sense of file Session. *)
Lemma up_session st s :
  up st s -> exists i rest p a, at_ st (get curThread s) = Some (i :: rest) /\ live s i p /\
    Forall entry_ok (pcb_process_fdt p) /\ get fdt s = Some i /\ get cur_pid s = i /\
    session size im (get curThread s) (terminal_page (get curThread s)) i (pcb_process_fdt p) a s.
Proof using Type.
  intros [[Hsys [Hsc _ _ _ _]] Hup]. destruct (system_running _ _ _ _ _ Hsys Hup) as (i & l & p & Hl & Hcur & Hfd & Hlive & Hok & Hr & Hpag & Hi).
  pose proof Hsys as [Hth Hd Hclk]. pose proof (tr_cur _ _ _ Hth) as Ht.
  assert (0 <= get curThread s < NUM_TERMINALS) as Ht' by (unfold NUM_TERMINALS; lia).
  destruct (screen_ok_tty s _ Hsc Ht') as (x & y & Hx & Hy & _).
  exists i, l, p, (Tty x y (fun pos => byte s (terminal_page (get curThread s) + 2 * pos))). split_and!; try done; [apply Hok|].
  split; try done; [|by left]. rewrite (running_current _ _ _ p Hr) by apply Hlive. by rewrite (po_term _ _ _ _ Hok).
Qed.

Lemma preserves_up {A} st (c : K A) :
  (forall s a s', up st s -> c s = Ok (a, s') -> kernel_ok st s') -> keeps (get sch) c -> preserves (up st) c.
Proof using Type.
  intros Hc Hs s a s' Hup E. split; [by eapply Hc|]. destruct Hup as [_ (v & Hv & Hv0)]. exists v. split; [|done].
  pose proof (Hs _ _ _ E) as Esch. pose proof (f_equal t_shellStarted Esch : get shellStarted s' = get shellStarted s) as ->.
  by pose proof (f_equal t_curThread Esch : get curThread s' = get curThread s) as ->.
Qed.

Lemma preserves_up_kernel {A} st (c : K A) : preserves (kernel_ok st) c -> keeps (get sch) c -> preserves (up st) c.
Proof using Type. intros Hc. apply preserves_up. intros s a s' [Hk _]. by apply Hc. Qed.

(** A routine that writes within a buffer of the program. *)
Lemma up_copy {A} st b n (c : ST vmem A) Q : in_page b n -> writes b n c Q -> preserves (up st) (vm c).
Proof using Type.
  intros Hb Hc. apply preserves_up; [|by apply keeps_vm]. intros s a s' Hup E.
  destruct (up_session _ _ Hup) as (i & rest & p & t & _ & _ & _ & _ & _ & Hs). destruct Hup as [Hk _].
  unfold vm in E. destruct (c (view s)) as [[v m]|f] eqn:Ec; [|done]. injection E as _ <-.
  destruct (Hc _ _ _ Ec) as [[_ Hf] _]. apply (kernel_frame st s); try done; [|by apply (console_same s); [..|apply Hk]].
  intros k Hkr. apply (Hf k). intros x Hx E.
  assert (in_page (b + x) 1) as Hb1 by (apply (in_page_sub _ _ _ _ Hb); lia).
  rewrite (session_cell _ _ _ _ _ _ _ _ _ Hs Hb1) in E. injection E as <-.
  pose proof (session_pid _ _ _ _ _ _ _ _ Hs). pose proof (page_cell_high i (b + x) ltac:(lia) Hb1). lia.
Qed.

(** A store of one byte, in the program's page or in the unmapped page after it. *)
Lemma up_st8 st x v : PROCESS_VIRTUAL <= x < PROCESS_VIRTUAL + FOUR_MB + FOUR_KB -> preserves (up st) (vm (st8 x v)).
Proof using Type.
  intros Hx. destruct (decide (x < PROCESS_VIRTUAL + FOUR_MB)) as [Hlt|Hge].
  - apply (up_copy st x 1 _ (fun _ => True)); [split; lia|apply writes_st8; lia].
  - intros s a s' Hup E. exfalso. destruct (up_session _ _ Hup) as (i & rest & p & t & _ & _ & _ & _ & _ & Hs).
    unfold vm, st8 in E. assert (cell (view s) x = None) as Hc; [|by rewrite Hc in E].
    change (translate (get pag s) x = None). pose proof (se_pag _ _ _ _ _ _ _ _ Hs) as Hpag.
    unfold PROCESS_VIRTUAL, FOUR_MB, FOUR_KB in *.
    rewrite translate_access by (apply Hpag || lia). erewrite access_map by (done || lia).
    unfold address_map, VIDEO, FOUR_KB, FOUR_MB, EIGHT_MB, USER_VIDEO, PROCESS_VIRTUAL.
    destruct (Z.leb_spec 0xB8000 x), (Z.ltb_spec x (0xB8000 + 4 * 0x1000)); try lia.
    destruct (Z.leb_spec 0x400000 x), (Z.ltb_spec x 0x800000); try lia.
    destruct (Z.leb_spec 0x20000000 x), (Z.ltb_spec x (0x20000000 + 3 * 0x1000)); try lia.
    destruct (Z.leb_spec 0x8000000 x), (Z.ltb_spec x (0x8000000 + 0x400000)); try lia. done.
Qed.

(** Output on the program's terminal. *)
Lemma up_putc st c : preserves (up st) (putc c).
Proof using Type.
  apply preserves_up; [|keeps]. intros s [] s' Hup E.
  destruct (up_session _ _ Hup) as (i & rest & p & [x y f] & _ & _ & _ & _ & _ & [_ Hpag Hsc Ht Hcur Hp Hx Hy Hsh _ _]).
  destruct (putc_refines_teletype c _ s _ x y f (paging_inv_video _ _ _ Hpag) Hsc Ht Hcur Hp Hx Hy Hsh) as (s1 & Hrun & Hw).
  rewrite Hrun in E. injection E as <-. by eapply kernel_wrote; [apply Hup|exact Ht|exact Hw].
Qed.

Lemma wr_at_inv {B} (f : lens machine (list B)) i v s a s' :
  wr_at f i v s = Ok (a, s') -> 0 <= i < Z.of_nat (length (get f s)) /\ s' = set f (upd (get f s) i v) s.
Proof using Type.
  unfold wr_at. intros E. apply bind_inv in E as (l & s1 & E1 & E2). injection E1 as <- <-.
  destruct (in_range (get f s) i) eqn:Hr; [|done]. apply in_range_spec in Hr. injection E2 as _ <-. done.
Qed.

(** The position of an open file. *)
Lemma up_position st fd v : preserves (up st) (wr_fdt fd file_position v).
Proof using Type.
  apply preserves_up; [|keeps]. intros s [] s' Hup E.
  destruct (up_session _ _ Hup) as (i & rest & p & t & Hl & Hlive & Hok & Hfd & Hcur & Hs). destruct Hup as [Hk _].
  pose proof (se_run _ _ _ _ _ _ _ _ Hs) as Hr. pose proof Hs as [_ Hpag _ _ _ _ _ _ _ Hdisk Hclk].
  destruct (at_ (pcb_process_fdt p) fd) as [e|] eqn:He.
  2: { exfalso. unfold wr_fdt in E. rewrite (bind_ok _ _ _ _ _ (rd_run _ _)), Hfd in E.
    unfold mbind, ST_bind, of_option, mret, ST_ret, rd_field in E.
    rewrite (bind_ok _ _ _ _ _ (rd_at_run _ _ _ _ (proj2 Hlive))) in E.
    change (get process_fdt p) with (pcb_process_fdt p) in E. unfold mret, ST_ret in E. by rewrite He in E. }
  rewrite (wr_fdt_run i _ fd file_position v e s Hr He) in E. injection E as <-. set (fl := upd _ fd _).
  assert (put_files i fl s = set pcbs (upd (get pcbs s) i (set process_fdt fl p)) s) as Epf
    by (unfold put_files; by rewrite (proj2 Hlive)).
  assert (entry_ok e) as Hoke.
  { unfold at_ in He. destruct (0 <=? fd); [|done]. by eapply (proj1 (Forall_lookup _ _) Hok). }
  apply (kernel_kept st st s); [done|by rewrite Epf|].
  apply (put_files_system _ _ _ st s i rest p fl); try done; rewrite ?Epf; try done; [apply Hk|..].
  - unfold fl, upd. by apply Forall_insert.
  - unfold fl. by rewrite length_upd, (ru_len _ _ _ Hr).
  - destruct Hdisk as [Hrep Hpl Hby]. by split.
Qed.

(** ** Lemmas: waiting for the clock *)

Lemma kernel_pending st irqs : preserves (kernel_ok st) (wr pending irqs).
Proof using Type.
  intros s a s' Hk [= _ <-]. apply (kernel_frame st s); try done. by apply (console_same s); [..|apply Hk].
Qed.

Lemma keeps_serve i : keeps (get sch) (serve i).
Proof using Type. destruct i; keeps. Qed.

Lemma up_serve st i : preserves (up st) (serve i).
Proof using Type.
  apply preserves_up_kernel; [|apply keeps_serve]. destruct i; [apply preserves_KBhandler|apply preserves_RTChandler].
Qed.

Lemma up_spin st cond : keeps (fun s => s) cond -> preserves (up st) (spin serve cond).
Proof using Type.
  intros Hc. apply preserves_spin; [|apply up_serve|by apply preserves_same].
  intros irqs. apply preserves_up_kernel; [apply kernel_pending|keeps].
Qed.

Lemma up_tick_awaited st : preserves (up st) tick_awaited.
Proof using Type.
  apply preserves_bind; [apply preserves_same; keeps|intros t].
  apply preserves_up; [|keeps]. intros s a s' [Hk _] E. apply wr_at_inv in E as [Ht ->].
  apply (kernel_frame st s); try done; [|by apply (console_same s); [..|apply Hk]].
  change (length (upd (get RTC_read_flag s) t 1) = length (get RTC_read_flag s)). by rewrite length_upd.
Qed.

Lemma up_RTCRead st fd b n : preserves (up st) (RTCRead serve fd b n).
Proof using Type.
  intros s r s' Hup E. rewrite RTCRead_waits in E. revert s r s' Hup E.
  apply preserves_bind; [apply up_tick_awaited|intros _].
  apply preserves_bind; [apply up_spin; keeps|intros _; apply preserves_same, keeps_ret].
Qed.

(** ** Lemmas: waiting for a line *)

Lemma kernel_flag st b : preserves (kernel_ok st) (wr eflags_if b).
Proof using Type.
  intros s a s' Hk [= _ <-]. apply (kernel_frame st s); try done. by apply (console_same s); [..|apply Hk].
Qed.

Lemma up_flag st b : preserves (up st) (wr eflags_if b).
Proof using Type. apply preserves_up_kernel; [apply kernel_flag|keeps]. Qed.

Lemma up_waiting st t v : preserves (up st) (wr_at readWaiting t v).
Proof using Type.
  apply preserves_up_kernel; [|keeps]. intros s a s' Hk E. apply wr_at_inv in E as [Ht ->].
  apply (kernel_frame st s); try done. destruct Hk as [_ [Hsc Hm Hl Hw Hr]].
  split; [by destruct Hsc|by destruct Hm| | |done].
  - intros u Hu. destruct (Hl u Hu) as (l & [? ? ?]). by exists l.
  - change (length (upd (get readWaiting s) t v) = 3%nat). by rewrite length_upd.
Qed.

(** The line of a terminal is dropped. *)
Lemma up_drop_line st t {A} (k : K A) :
  preserves (up st) k ->
  preserves (up st) (wr_at KBbuf t (replicate 128 0) ;;; wr_at readReady t 0 ;;; wr_at readWaiting t 0 ;;; wr_at buf_loc t 0 ;;; k).
Proof using Type.
  intros Hk0 s a s' Hup E.
  apply bind_inv in E as (v1 & s1 & E1 & E). apply bind_inv in E as (v2 & s2 & E2 & E).
  apply bind_inv in E as (v3 & s3 & E3 & E). apply bind_inv in E as (v4 & s4 & E4 & E).
  apply wr_at_inv in E1 as [_ E1]. apply wr_at_inv in E2 as [H2 E2].
  apply wr_at_inv in E3 as [_ E3]. apply wr_at_inv in E4 as [_ E4].
  change (0 <= t < Z.of_nat (length (get readReady s1))) in H2. rewrite E1 in H2.
  change (0 <= t < Z.of_nat (length (get readReady s))) in H2.
  refine (Hk0 _ _ _ _ E). clear E Hk0 k. subst s1 s2 s3 s4.
  set (s4 := set buf_loc _ _). destruct Hup as [Hk Hsh]. split; [|exact Hsh].
  apply (kernel_frame st s); try done. destruct Hk as [_ [Hsc Hm Hl Hw Hr]].
  split; [by destruct Hsc|by destruct Hm| | |].
  - intros u Hu. destruct (Hl u Hu) as (l & [Hrow Hloc Hlen]). destruct (decide (u = t)) as [->|Hne].
    + exists []. apply at_inv in Hrow. apply at_inv in Hloc. split; [| |simpl; lia].
      * change (at_ (upd (get KBbuf s) t (replicate 128 0)) t = Some (pad_line [])). by apply at_upd_eq.
      * change (at_ (upd (get buf_loc s) t 0) t = Some 0). by apply at_upd_eq.
    + exists l. split; [| |done].
      * change (at_ (upd (get KBbuf s) t (replicate 128 0)) u = Some (pad_line l)). by rewrite at_upd_ne by (congruence || lia).
      * change (at_ (upd (get buf_loc s) t 0) u = Some (Z.of_nat (length l))). by rewrite at_upd_ne by (congruence || lia).
  - change (length (upd (get readWaiting s) t 0) = 3%nat). by rewrite length_upd.
  - change (length (upd (get readReady s) t 0) = 3%nat). by rewrite length_upd.
Qed.

(** A read up to its wait, and from the end of the wait on. *)
Lemma up_line_awaited st : preserves (up st) line_awaited.
Proof using Type. apply preserves_bind; [apply preserves_same; keeps|intros t; apply up_waiting]. Qed.

Lemma up_read_tail st b n : in_page b n -> preserves (up st) (read_tail b n).
Proof using Type.
  intros Hb. unfold read_tail. apply preserves_bind; [|intros flags].
  { unfold cli_and_save. apply preserves_bind; [apply preserves_same; keeps|intros f].
    apply preserves_bind; [apply up_flag|intros _; apply preserves_same, keeps_ret]. }
  apply preserves_bind; [|intros bytes].
  { apply (preserves_loop _ (fun i => 0 <= i)); [|done]. intros i Hi. unfold terminalRead_step. split.
    - destruct (Z.ltb_spec i n); [|apply preserves_same, keeps_ret].
      apply preserves_bind; [apply preserves_same; keeps|intros u].
      apply preserves_bind; [apply preserves_same; keeps|intros c].
      apply preserves_bind; [|intros _; apply preserves_bind; [apply preserves_same; keeps|intros ?; apply preserves_same; keeps]].
      apply (up_copy st (b + i) 1 _ (fun _ => True)); [apply (in_page_sub _ _ _ _ Hb); lia|apply writes_st8; lia].
    - intros s x' s' E. destruct (i <? n); [|done]. apply bind_inv in E as (? & ? & _ & E).
      apply bind_inv in E as (? & ? & _ & E). apply bind_inv in E as (? & ? & _ & E). apply bind_inv in E as (c & ? & _ & E).
      destruct (c =? ch_newline); [done|]. injection E as <- _. lia. }
  apply preserves_bind; [apply preserves_same; keeps|intros u]. apply up_drop_line.
  apply preserves_bind; [apply up_flag|intros _; apply preserves_same, keeps_ret].
Qed.

Lemma up_terminalRead st fd b n : in_page b n -> preserves (up st) (terminalRead serve fd b n).
Proof using Type.
  intros Hb. destruct (decide (n < 0)) as [Hn|Hn].
  { unfold terminalRead. destruct (Z.ltb_spec n 0); [apply preserves_same, keeps_ret|lia]. }
  intros s r s' Hup E. rewrite terminalRead_waits in E by lia. revert s r s' Hup E.
  apply preserves_bind; [apply up_line_awaited|intros _]. apply preserves_bind; [apply up_spin; keeps|intros _].
  by apply up_read_tail.
Qed.

(** ** Lemmas: reading files and the directory *)

Lemma up_fileRead st fd b n : 0 <= n -> in_page b n -> preserves (up st) (fileRead fd b n).
Proof using Type.
  intros Hn Hb. pose proof Hb as [Hb1 Hb2]. unfold fileRead. destruct (_ || _); [apply preserves_same, keeps_ret|].
  do 3 (apply preserves_bind; [apply preserves_same; keeps|intros ?]).
  apply preserves_bind; [|intros r].
  { apply (up_copy st b n _ (fun _ => True)); [done|].
    assert (0 <= n < 2 ^ 32) by (unfold FOUR_MB in *; lia). rewrite (u32_small n) by done. apply writes_read_data; lia. }
  destruct (r =? ERROR_VAL); [apply preserves_same, keeps_ret|].
  apply preserves_bind; [apply preserves_same; keeps|intros pos].
  apply preserves_bind; [apply up_position|intros _; apply preserves_same, keeps_ret].
Qed.

Lemma up_directoryRead st fd b n : in_page b 32 -> preserves (up st) (directoryRead fd b n).
Proof using Type.
  intros Hb. unfold directoryRead. destruct (_ || _); [apply preserves_same, keeps_ret|].
  do 2 (apply preserves_bind; [apply preserves_same; keeps|intros ?]).
  apply preserves_bind; [|intros nd].
  { apply (up_copy st b 32 _ (fun _ => True)); [done|]. apply writes_ld32. }
  destruct (_ =? _); [apply preserves_bind; [apply up_position|intros _; apply preserves_same, keeps_ret]|].
  apply preserves_bind; [apply (up_copy st b 32 _ (fun _ => True)); [done|apply writes_read_dentry_by_index]|].
  intros [[|?|?] [d|]]; try apply preserves_same, keeps_ret.
  apply preserves_bind; [|intros r].
  { apply (up_copy st b 32 _ (fun _ => True)); [done|]. unfold MAX_FILENAME_LENGTH.
    apply writes_strcpyFile; [lia..|]. intros i. apply writes_of_option. }
  apply preserves_bind; [apply preserves_same; keeps|intros pos].
  apply preserves_bind; [apply up_position|intros _; apply preserves_same, keeps_ret].
Qed.

(** ** Lemmas: arguments and video memory *)

Lemma up_getargs st b n : (b <> 0 -> in_page b 128) -> preserves (up st) (sys_getargs b n).
Proof using Type.
  intros Hb0. unfold sys_getargs. destruct (Z.eqb_spec b 0), (Z.ltb_spec n 0); cbn [orb]; try apply preserves_same, keeps_ret.
  assert (in_page b 128) as Hb by auto.
  do 2 (apply preserves_bind; [apply preserves_same; keeps|intros ?]).
  apply preserves_bind; [apply (up_copy st b 128 _ (fun _ => True)); [done|unfold ARG_SIZE; apply writes_strncpy; lia]|intros _].
  apply preserves_same. keeps.
Qed.

Lemma vm_st8_bind {B} x v (k : unit -> ST vmem B) s :
  vm (st8 x v ≫= k) s = (vm (st8 x v) ≫= fun u => vm (k u)) s.
Proof using Type. unfold vm, mbind, ST_bind, st8. by destruct (cell (view s) x). Qed.

Lemma up_vidmap st a : preserves (up st) (sys_vidmap a).
Proof using Type.
  unfold sys_vidmap. change ONE_HUNDRED_TWENTY_EIGHT_MB with 0x8000000. change ONE_HUNDRED_THIRTY_TWO_MB with 0x8400000.
  destruct (a =? 0); [apply preserves_same, keeps_ret|]. destruct (a <? EIGHT_MB); [apply preserves_same, keeps_ret|].
  destruct (Z.ltb_spec a 0x8000000), (Z.leb_spec 0x8400000 a); cbn [orb]; try apply preserves_same, keeps_ret.
  apply preserves_bind; [apply preserves_same; keeps|intros t]. cbv zeta.
  apply preserves_bind; [|intros _; apply preserves_same, keeps_ret]. generalize (USER_VIDMAP_ADDR + t * FOUR_KB).
  intros v s r s'. unfold st32. rewrite vm_st8_bind. revert s r s'. apply preserves_bind; [|intros _].
  { apply up_st8. unfold PROCESS_VIRTUAL, FOUR_MB, FOUR_KB. lia. }
  intros s r s'. rewrite vm_st8_bind. revert s r s'. apply preserves_bind; [|intros _].
  { apply up_st8. unfold PROCESS_VIRTUAL, FOUR_MB, FOUR_KB. lia. }
  intros s r s'. rewrite vm_st8_bind. revert s r s'. apply preserves_bind; [|intros _];
    apply up_st8; unfold PROCESS_VIRTUAL, FOUR_MB, FOUR_KB; lia.
Qed.

(** ** Lemmas: the calls through the tables of operations *)

Lemma deref_table st p : preserves (up st) (deref_fops p) /\
  forall s a s', up st s -> deref_fops p s = Ok (a, s') -> a ∈ std_fops.
Proof using Type.
  split; [apply preserves_same; keeps|]. intros s a s' Hup E.
  destruct (up_session _ _ Hup) as (i & rest & q & t & _ & _ & _ & _ & _ & Hs).
  pose proof (ru_fops _ _ _ (se_run _ _ _ _ _ _ _ _ Hs)) as Ef. unfold deref_fops, rd_at in E.
  apply bind_inv in E as (n & s1 & E1 & E). assert (s1 = s) as -> by (unfold of_option in E1; destruct (fops_index p); [by injection E1 as _ <-|done]).
  apply bind_inv in E as (l & s2 & E2 & E). injection E2 as <- <-. rewrite Ef in E.
  unfold of_option, at_ in E. destruct (0 <=? n); [|done]. destruct (std_fops !! Z.to_nat n) as [tab|] eqn:Hn; [|done].
  injection E as <- _. by eapply list_elem_of_lookup_2.
Qed.

Lemma up_call_read st p fd b n :
  0 <= n -> in_page b (Z.max n 32) -> preserves (up st) (call_read p fd b n).
Proof using Type.
  intros Hn Hb. unfold call_read. destruct (deref_table st p) as [Hd Hin].
  assert (in_page b n /\ in_page b 32) as [Hbn Hb32] by (destruct Hb; split; split; lia).
  apply (preserves_bind_of _ (fun t => t ∈ std_fops)); [done|exact Hin|]. intros t Ht.
  repeat (apply elem_of_cons in Ht as [->|Ht]); cbn [ft_read stdin_fops stdout_fops regfile_fops directory_fops RTC_fops].
  - by apply up_terminalRead.
  - apply preserves_same, keeps_ret.
  - by apply up_fileRead.
  - by apply up_directoryRead.
  - apply up_RTCRead.
  - by apply not_elem_of_nil in Ht.
Qed.

Lemma up_terminalWrite st fd b n : preserves (up st) (terminalWrite fd b n).
Proof using Type.
  unfold terminalWrite, cli_and_save. apply preserves_bind; [|intros flags; apply preserves_bind; [|intros _]].
  - apply preserves_bind; [apply preserves_same; keeps|intros f].
    apply preserves_bind; [apply up_flag|intros _; apply preserves_same, keeps_ret].
  - apply preserves_for. intros i. apply preserves_bind; [apply preserves_same; keeps|intros c; apply up_putc].
  - apply preserves_bind; [apply up_flag|intros _; apply preserves_same, keeps_ret].
Qed.

Lemma up_outb st v port : preserves (up st) (outb v port).
Proof using Type.
  apply preserves_up_kernel; [|keeps]. intros s a s' Hk [= _ <-]. by apply kernel_trace.
Qed.

Lemma up_inb st port : preserves (up st) (inb port).
Proof using Type. apply preserves_up_kernel; [apply preserves_inb|keeps]. Qed.

Lemma up_RTCWrite st fd b n : preserves (up st) (RTCWrite fd b n).
Proof using Type.
  unfold RTCWrite, enable_nmi. apply preserves_bind; [|intros freq].
  { apply (up_copy st PROCESS_VIRTUAL 0 _ (fun _ => True)); [by split|apply writes_ld32]. }
  destruct (_ && _); [|apply preserves_same, keeps_ret]. destruct (_ =? 1); [|apply preserves_same, keeps_ret].
  repeat first [apply up_outb | apply up_inb | apply preserves_same, keeps_ret | apply preserves_bind; [|intros ?]].
Qed.

Lemma up_call_write st p fd b n : preserves (up st) (call_write p fd b n).
Proof using Type.
  unfold call_write. destruct (deref_table st p) as [Hd Hin].
  apply (preserves_bind_of _ (fun t => t ∈ std_fops)); [done|exact Hin|]. intros t Ht.
  repeat (apply elem_of_cons in Ht as [->|Ht]); cbn [ft_write stdin_fops stdout_fops regfile_fops directory_fops RTC_fops].
  - apply preserves_same, keeps_ret.
  - apply up_terminalWrite.
  - apply preserves_same, keeps_ret.
  - apply preserves_same, keeps_ret.
  - apply up_RTCWrite.
  - by apply not_elem_of_nil in Ht.
Qed.

Lemma up_read st fd b n : (b <> 0 -> 0 <= n -> in_page b (Z.max n 32)) -> preserves (up st) (sys_read fd b n).
Proof using Type.
  intros Hb. unfold sys_read. destruct (_ || _); [apply preserves_same, keeps_ret|].
  destruct (Z.eqb_spec b 0), (Z.ltb_spec n 0); cbn [orb]; try apply preserves_same, keeps_ret.
  apply preserves_bind; [apply preserves_same; keeps|intros f]. destruct (f =? UNUSED_FLAG); [apply preserves_same, keeps_ret|].
  apply preserves_bind; [apply preserves_same; keeps|intros p]. by apply up_call_read; auto.
Qed.

Lemma up_write st fd b n : preserves (up st) (sys_write fd b n).
Proof using Type.
  unfold sys_write. destruct (_ || _); [apply preserves_same, keeps_ret|].
  destruct (_ || _); [apply preserves_same, keeps_ret|].
  apply preserves_bind; [apply preserves_same; keeps|intros f]. destruct (f =? UNUSED_FLAG); [apply preserves_same, keeps_ret|].
  apply preserves_bind; [apply preserves_same; keeps|intros p]. apply up_call_write.
Qed.
End kernel.
