(* ===== verification/System.v ===== *)
(** * The kernel as a whole: calls, interrupts and exceptions in any order

    The system calls, the interrupts of the timer, the keyboard and the clock, the
    exceptions of the programs and their own stores are the steps of one transition
    system.  The boot establishes the invariant of file Invariant and every step
    keeps it; an exception ends the program that raised it with the status 256. *)

From S2P Require Import Prelude Memory Lib Filesystem Copies Machine Pic Screen Paging Rtc Terminal LineEditor Syscall FileTable Processes ProcessTable Pit Scheduling Idt Kernel User Session Invariant UserCalls.

(** ** Specification *)

(** A text without conversions. *)
Definition plain (l : list Z) : bool :=
  forallb (fun c => (0 <? c) && (c <? 256) && negb (c =? ch_percent)) l && (Z.of_nat (length l) <? 0x10000).

(** ** Lemmas: messages of the kernel *)

Lemma plain_char l i c : plain l = true -> l !! i = Some c -> 0 < c < 256 /\ c <> ch_percent.
Proof.
  intros Hp Hi. apply andb_prop in Hp as [Hp _]. rewrite forallb_forall in Hp.
  specialize (Hp c ltac:(by apply list_elem_of_In, list_elem_of_lookup; eauto)).
  apply andb_prop in Hp as [Hp Hn%negb_true_iff%Z.eqb_neq]. apply andb_prop in Hp as [?%Z.ltb_lt ?%Z.ltb_lt]. done.
Qed.

Lemma plain_length l : plain l = true -> Z.of_nat (length l) < 0x10000.
Proof. intros Hp. by apply andb_prop in Hp as [_ H%Z.ltb_lt]. Qed.

(** [printf] without conversions prints its text. *)
Lemma printf_plain_run t s p a b l :
  video_mapped s -> 0 <= t < NUM_TERMINALS -> cur_terminal s = Ok (t, s) -> page_of s t p ->
  tty_ok a -> on_tty t s p a s -> safe_bytes t b (l ++ [0]) s -> plain l = true ->
  wp (printf b []) (fun _ s' => on_tty t s p (tty_puts l a) s') s.
Proof.
  intros Hvid Ht Hcur Hp Ha Hs Hl Hplain. pose proof (plain_length _ Hplain). unfold printf. rewrite wp_bind.
  apply (wp_loop _ (fun r s' => exists i, r = (b + Z.of_nat i, []) /\ (i <= length l)%nat /\
            on_tty t s p (tty_puts (take i l) a) s') (fun r _ => b + Z.of_nat (length l) - fst r)).
  - intros r s1 (i & -> & Hi & Hs1). unfold printf_step. cbn [fst].
    destruct (decide (i = length l)) as [->|Hne].
    + apply wp_bind. eapply wp_run; [eapply safe_load; [exact Hs1|exact Hl|by apply list_lookup_middle]|].
      apply wp_ret. apply wp_ret. by rewrite take_ge in Hs1 by lia.
    + destruct (lookup_lt_is_Some_2 l i ltac:(lia)) as [c Hc]. destruct (plain_char _ _ _ Hplain Hc) as [Hc0 Hc1].
      apply wp_bind. eapply wp_run; [eapply safe_load; [exact Hs1|exact Hl|by apply lookup_app_l_Some]|].
      rewrite (proj2 (Z.eqb_neq _ _)), (proj2 (Z.eqb_neq _ _) Hc1) by lia. apply wp_bind.
      eapply (putc_next t s p Hvid Ht Hcur Hp); [by apply tty_puts_ok|exact Hs1|].
      intros s2 Hs2. apply wp_ret. split; [|cbn [fst]; lia]. exists (S i). split_and!; [f_equal; lia|lia|].
      by rewrite (tty_puts_take_S _ _ _ _ Hc).
  - exists 0%nat. split_and!; [f_equal; lia|lia|done].
  - cbn [fst]. lia.
Qed.

(** The message of an exception, on the terminal of the running program. *)
Lemma message_run t s p a n l :
  video_mapped s -> screen_ok s -> 0 <= t < NUM_TERMINALS -> cur_terminal s = Ok (t, s) -> page_of s t p ->
  at_ (get screen_x s) t = Some (tty_x a) -> at_ (get screen_y s) t = Some (tty_y a) -> shows s p (tty_cell a) ->
  locals_apart s -> plain l = true -> 0 <= n < 0x1000 ->
  exists s1 r s2, (b ← literal n l; printf b []) s = Ok (r, s2) /\ locals_only s s1 /\ wrote t p (tty_puts l a) s1 s2.
Proof.
  intros Hvid Hok Ht Hcur Hp Hx Hy Hsh Hap Hplain Hn. pose proof (plain_length _ Hplain) as Hlen.
  destruct (literal_run n l s) as (s1 & Hlit & Hlo & Hb); [|done|done|].
  { intros i c Hi. apply (plain_char l i c) in Hi; [lia|done]. }
  rewrite (bind_ok _ _ _ _ _ Hlit). exists s1. pose proof (lo_mem _ _ Hlo) as E.
  assert (forall c, c < 2 ^ 32 -> byte s1 c = byte s c) as Hlow by (intros c Hc; apply (lo_byte _ _ Hlo); lia).
  assert (screen_ok s1) as Hok1 by (rewrite E; by destruct Hok; split).
  assert (on_tty t s1 p a s1) as Hon.
  { split; [apply (output_start t s1 Hok1); by rewrite E|]. intros pos Hpos. rewrite Hlow; [by apply Hsh|].
    destruct Hp as [->|[_ ->]]; unfold terminal_page, NUM_TERMINALS, NUM_COLS, NUM_ROWS, VIDEO, FOUR_KB in *; lia. }
  assert (tty_ok a) as Ha by (destruct Hok; split; eauto).
  assert (wp (printf (local_array n) []) (fun _ s' => on_tty t s1 p (tty_puts l a) s') s1) as Hw.
  { apply printf_plain_run; try done; [by rewrite E|by apply (cur_terminal_prc s1 s); [rewrite E|]|by rewrite E|].
    intros i c Hi. exists (local_array n + Z.of_nat i). pose proof (lookup_lt_Some _ _ _ Hi) as Hr.
    rewrite length_app in Hr. simpl in Hr. pose proof (Hb i c Hi) as Hld. unfold load in Hld.
    rewrite (local_cell (view s1)) in Hld by (unfold local_array; lia). injection Hld as Hld. split_and!; [|..|done].
    - apply (local_cell (view s1)). unfold local_array. lia.
    - intros Hc. apply screen_cells_range in Hc; [|done]. unfold local_array, VIDEO, FOUR_KB in *. lia. }
  destruct (wp_inv _ _ _ Hw) as (r & s2 & Hrun & H2). exists r, s2. split_and!; [exact Hrun|done|].
  apply on_tty_wrote; [done|by apply tty_puts_ok|done].
Qed.

(** ** Lemmas: exceptions *)

Section exceptions.
Context {size : Z} {im : fs_image}.
Implicit Types (st : list (list Z)) (s : machine).

Abbreviation kernel_ok := (kernel_ok size im).
Abbreviation up := (@up size im).

(** The exception flag of the running program. *)
Lemma kernel_flagged st s i rest p :
  kernel_ok st s -> at_ st (get curThread s) = Some (i :: rest) -> live s i p ->
  kernel_ok st (set pcbs (upd (get pcbs s) i (set exception_flag 1 p)) s).
Proof using Type.
  intros Hk Hl Hlive. set (s' := set pcbs _ s). pose proof (kernel_paging _ _ Hk) as (proc & Hpag).
  pose proof Hk as [[Hth Hd Hclk] _]. pose proof (tr_table _ _ _ Hth) as Hpt.
  destruct (table_top _ _ _ _ _ Hpt Hl) as (q & Hq & Hok & Hi & Hlen). rewrite (live_inj _ _ _ _ Hq Hlive) in Hok, Hlen.
  apply (kernel_kept st st s s'); [done|done|]. split; [|destruct Hd as [Hrep Hpl Hby]; by split|done].
  pose proof (tr_page _ _ _ Hth) as (proc' & Hpag' & Hproc). rewrite (Hproc _ _ Hl) in Hpag'.
  apply (threads_update _ st s st s' i rest (i :: rest)); try done.
  - apply (table_pcb st s s' (get curThread s) i rest p (set exception_flag 1 p)); try done.
    intros t parent [? ? ? ? ? ?]. by split.
  - pose proof (tr_pid _ _ _ Hth _ _ _ Hl) as Hcur. by rewrite decide_True in Hcur.
  - by apply (tr_fdt _ _ _ Hth i rest).
Qed.

Lemma exception_run st s i rest p a str :
  up st s -> at_ st (get curThread s) = Some (i :: rest) -> live s i p ->
  at_ (get screen_x s) (get curThread s) = Some (tty_x a) -> at_ (get screen_y s) (get curThread s) = Some (tty_y a) ->
  shows s (terminal_page (get curThread s)) (tty_cell a) -> plain (message str) = true ->
  exists s', exception_handler str s = sys_halt 255 s' /\ up st s' /\ get curThread s' = get curThread s /\
    get cur_pid s' = i /\ live s' i (set exception_flag 1 p) /\
    shows s' (terminal_page (get curThread s)) (tty_cell (tty_puts (message str) a)).
Proof using Type.
  intros Hup Hl Hlive Hx Hy Hsh Hplain.
  destruct (up_session _ _ Hup) as (i' & rest' & p' & b & Hl' & Hlive' & _ & _ & Hcur & Hs).
  rewrite Hl in Hl'. injection Hl' as <- <-. rewrite (live_inj _ _ _ _ Hlive' Hlive) in Hs. clear p' Hlive'.
  pose proof Hs as [Hr Hpag Hsc Ht Hct Hp _ _ _ _ _]. set (t := get curThread s) in *.
  destruct (message_run t s (terminal_page t) a 8 (message str)) as (s1 & r & s2 & Hrun & Hlo & Hw); try done.
  { by eapply paging_inv_video. } { by eapply paging_inv_apart. }
  pose proof (lo_mem _ _ Hlo) as Elo. destruct Hup as [Hk Hsh0].
  assert (kernel_ok st s1) as Hk1.
  { apply (kernel_kept st st s s1); [done|by rewrite Elo|]. apply (locals_system _ _ _ st s); [apply Hk|done]. }
  pose proof (kernel_wrote _ _ _ _ _ _ Hk1 Ht Hw) as Hk2. destruct (wrote_frame _ _ _ _ _ Hw) as [_ Eprc Esch _ _ _ _ _ _ _ _ _].
  pose proof (f_equal p_cur_pid Eprc : get cur_pid s2 = get cur_pid s1) as E1.
  pose proof (f_equal p_PCB_ptrs Eprc : get PCB_ptrs s2 = get PCB_ptrs s1) as E2.
  pose proof (f_equal p_pcbs Eprc : get pcbs s2 = get pcbs s1) as E3.
  pose proof (f_equal t_curThread Esch : get curThread s2 = get curThread s1) as E4.
  pose proof (f_equal t_shellStarted Esch : get shellStarted s2 = get shellStarted s1) as E5.
  assert (get cur_pid s1 = i /\ get PCB_ptrs s1 = get PCB_ptrs s /\ get pcbs s1 = get pcbs s /\ get curThread s1 = t /\
    get shellStarted s1 = get shellStarted s) as (F1 & F2 & F3 & F4 & F5) by (rewrite Elo; done).
  assert (live s2 i p) as Hlive2 by (destruct Hlive; split; by rewrite ?E2, ?E3, ?F2, ?F3).
  exists (set pcbs (upd (get pcbs s2) i (set exception_flag 1 p)) s2). pose proof Hlive2 as [HP HQ]. split_and!.
  - unfold exception_handler. rewrite run_assoc, (bind_ok _ _ _ _ _ Hrun), (bind_ok _ _ _ _ _ (rd_run _ _)), E1, F1.
    unfold wr_pcb. rewrite (bind_ok _ _ _ tt (set pcbs (upd (get pcbs s2) i (set exception_flag 1 p)) s2)); [done|].
    rewrite (bind_ok _ _ _ _ _ (pcb_slot_run _ _ s2 HP)). exact (wr_field_at pcbs i exception_flag 1 p s2 HQ).
  - split; [apply (kernel_flagged st s2 i rest p); [done|by rewrite E4, F4|done]|].
    destruct Hsh0 as (v & Hv & Hv0). exists v. split; [|done].
    change (at_ (get shellStarted s2) (get curThread s2) = Some v). by rewrite E4, E5, F4, F5.
  - change (get curThread s2 = t). by rewrite E4.
  - change (get cur_pid s2 = i). by rewrite E1.
  - split; [exact HP|]. apply at_inv in HQ. by apply at_upd_eq.
  - exact (wrote_page _ _ _ _ _ Hw).
Qed.
End exceptions.

(** The handlers of the vectors print a text and raise the flag. *)
Lemma exception_vector_plain n h :
  exception_vector n = Some h -> exists str, h = exception_handler str /\ plain (message str) = true.
Proof.
  assert (forall k str (c : K outcome), Some c = Some k -> c = exception_handler str -> plain (message str) = true ->
    exists str, k = exception_handler str /\ plain (message str) = true) as Hex by (intros k str c [= <-] -> Hp; by exists str).
  intros E. unfold exception_vector in E.
  repeat match type of E with match ?x with _ => _ end = _ => destruct x; try done end;
    (eapply Hex; [exact E|reflexivity|vm_compute; reflexivity]).
Qed.

(** ** The kernel as a transition system *)

(** What a call's arguments must satisfy: the kernel takes the addresses that it is
    given on trust, so the buffers lie in the program's page and the strings end.
    Numbers and counts are any. *)
Definition call_ok (eax ebx ecx edx : Z) (s : machine) : Prop :=
  match u32 eax with
  | 2 => u32 ebx = 0 \/ exists cmd, command_at (u32 ebx) cmd s
  | 3 => u32 ecx <> 0 -> 0 <= s32 edx -> in_page (u32 ecx) (Z.max (s32 edx) 32)
  | 5 => u32 ebx = 0 \/ exists name, u32 ebx + Z.of_nat (length name) <= 2 ^ 32 /\
      bytes_at (view s) (u32 ebx) name /\ covers name 32
  | 7 => u32 ebx <> 0 -> in_page (u32 ebx) 128
  | _ => True
  end.

(** The steps: the three interrupts, the system calls of the running program with
    the interrupts that they serve while they wait, its exceptions and its stores.
    A read that waits is also two steps, up to its wait and from its end on: between
    them the timer gives the processor to the other threads, and back.

    A step is a whole run of a kernel function that returns. The gates of system calls
    and devices leave interrupts enabled, so the processor can also take an interrupt
    in the middle of such a run; these interleavings are no steps of this system. Nor
    is a tick that finds a thread without a shell and no free slot, whose effect is
    the subject of [PIThandler_full_table], nor are runs that fail: calls with the
    descriptor 8 ([descriptor_guards], [sys_close_frees_entry]) and a second Enter on
    a full line ([KBhandler_second_enter_overflows]). *)
Inductive event (s : machine) : machine -> Prop :=
| ev_timer k s' : slot_for_shell s -> PIThandler s = Ok (k, s') -> event s s'
| ev_keyboard s' : KBhandler s = Ok (tt, s') -> event s s'
| ev_clock s' : RTChandler s = Ok (tt, s') -> event s s'
| ev_call eax ebx ecx edx o s' :
    shell_up s -> call_ok eax ebx ecx edx s -> syscall eax ebx ecx edx s = Ok (o, s') -> event s s'
| ev_line_awaited s' : shell_up s -> line_awaited s = Ok (tt, s') -> event s s'
| ev_line_taken b n r s' :
    shell_up s -> in_page b n -> line_ready s = Ok (true, s) -> read_tail b n s = Ok (r, s') -> event s s'
| ev_tick_awaited s' : shell_up s -> tick_awaited s = Ok (tt, s') -> event s s'
| ev_exception n h o s' : shell_up s -> exception_vector n = Some h -> h s = Ok (o, s') -> event s s'
| ev_store a p v :
    0 <= a < 2 ^ 32 -> access (get pag s) a = Some (p, true) -> event s (set mem (poke (get mem s) p v) s).

Section events.
Context {size : Z} {im : fs_image} (shell_ino : Z) (shell_c : list Z).
Hypothesis Hshell : has_shell im shell_ino shell_c.
Hypothesis Hprogs : programs_ok im.

Abbreviation kernel_ok := (kernel_ok size im).

Lemma kernel_halt st s status o s' :
  kernel_ok st s -> shell_up s -> sys_halt status s = Ok (o, s') -> exists st', kernel_ok st' s'.
Proof using Type.
  intros Hk Hup E. destruct (halt_system _ _ _ _ _ _ _ _ (ko_system _ _ _ _ Hk) Hup E) as (st' & Hsys).
  exists st'. by apply (kernel_kept st st' s s'); [|eapply keeps_halt|].
Qed.

Lemma kernel_execute st s command o s' :
  kernel_ok st s -> shell_up s -> command = 0 \/ (exists cmd, command_at command cmd s) ->
  sys_execute command s = Ok (o, s') -> exists st', kernel_ok st' s'.
Proof using Hprogs.
  intros Hk Hup [->|[cmd Hcmd]] E; [injection E as _ <-; by exists st|].
  destruct (execute_system _ _ _ Hprogs _ _ _ _ _ _ (ko_system _ _ _ _ Hk) Hup Hcmd E) as (st' & Hsys).
  exists st'. by apply (kernel_kept st st' s s'); [|eapply keeps_execute|].
Qed.

Lemma kernel_open st s f r s' :
  kernel_ok st s -> shell_up s ->
  f = 0 \/ (exists name, f + Z.of_nat (length name) <= 2 ^ 32 /\ bytes_at (view s) f name /\ covers name 32) ->
  0 <= f -> sys_open f s = Ok (r, s') -> exists st', kernel_ok st' s'.
Proof using Type.
  intros Hk Hup Hf Hf0 E. destruct (decide (f = 0)) as [->|Hne].
  - destruct (up_session (size := size) (im := im) st s) as (i & rest & p & a & _ & [HP _] & _ & Hfd & Hcur & _); [by split|].
    unfold sys_open in E. rewrite (bind_ok _ _ _ _ _ (rd_run _ _)), Hcur in E.
    rewrite (bind_ok _ _ _ _ _ (pcb_slot_run _ _ s HP)), (bind_ok _ _ _ _ _ (wr_run _ _ _)) in E.
    injection E as _ <-. exists st. rewrite <- Hfd. by destruct s as [? ? ? ? [] ? ? ? ? ?].
  - destruct Hf as [?|(name & Hl & Hb & Hc)]; [done|].
    assert (0 < f) as Hf1 by lia.
    destruct (open_system _ _ _ _ _ _ _ _ _ (ko_system _ _ _ _ Hk) Hup Hf1 Hl Hb Hc E) as (st' & Hsys).
    exists st'. apply (kernel_kept st st' s s'); [done| |done].
    destruct (up_session (size := size) (im := im) st s) as (i & rest & p & a & _ & _ & _ & Hfd & _ & Hs); [by split|].
    pose proof Hs as [Hr Hpag _ _ _ _ _ _ _ Hd Hclk].
    assert (set fdt (Some i) s = s) as Efd by (rewrite <- Hfd; by destruct s as [? ? ? ? [] ? ? ? ? ?]).
    destruct (sys_open_run f name i (pcb_process_fdt p) size im s) as (s1 & Hrun & Ho);
      try done; [by rewrite Efd|by eapply paging_inv_apart|apply Hd|].
    rewrite Hrun in E. injection E as _ <-. unfold console_of. by rewrite (op_scr _ _ _ _ Ho), (op_kbd _ _ _ _ Ho).
Qed.

Lemma kernel_close st s fd r s' :
  kernel_ok st s -> shell_up s -> sys_close fd s = Ok (r, s') -> exists st', kernel_ok st' s'.
Proof using Type.
  intros Hk Hup E. destruct (close_system _ _ _ _ _ _ _ _ (ko_system _ _ _ _ Hk) Hup E) as (st' & Hsys).
  exists st'. by apply (kernel_kept st st' s s'); [|eapply keeps_close|].
Qed.

Lemma returns_inv (c : K Z) o s s' : returns c s = Ok (o, s') -> exists v, c s = Ok (v, s').
Proof using Type. intros E. apply bind_inv in E as (v & s1 & E & E1). injection E1 as _ <-. by exists v. Qed.

(** The calls that change only the state of the running program. *)
Lemma kernel_up {A} st (c : K A) s a s' :
  preserves (@up size im st) c -> kernel_ok st s -> shell_up s -> c s = Ok (a, s') -> exists st', kernel_ok st' s'.
Proof using Type. intros Hc Hk Hup E. exists st. by eapply Hc; [split|]. Qed.

Lemma kernel_call st s eax ebx ecx edx o s' :
  kernel_ok st s -> shell_up s -> call_ok eax ebx ecx edx s -> syscall eax ebx ecx edx s = Ok (o, s') ->
  exists st', kernel_ok st' s'.
Proof using Hprogs.
  intros Hk Hup. unfold call_ok, syscall. generalize (u32 eax). intros v. destruct (_ || _); [by intros _ [= _ <-]; exists st|].
  destruct (decide (v = 1)) as [->|]; [intros _ E; by eapply kernel_halt|].
  destruct (decide (v = 2)) as [->|]; [intros Ha E; by eapply kernel_execute|].
  destruct (decide (v = 3)) as [->|]; [intros Ha [? E]%returns_inv; eapply kernel_up; [by apply up_read|done..]|].
  destruct (decide (v = 4)) as [->|]; [intros _ [? E]%returns_inv; eapply kernel_up; [apply up_write|done..]|].
  destruct (decide (v = 5)) as [->|]; [intros Ha [? E]%returns_inv; eapply kernel_open; [done..| |done]; apply u32_range|].
  destruct (decide (v = 6)) as [->|]; [intros _ [? E]%returns_inv; by eapply kernel_close|].
  destruct (decide (v = 7)) as [->|]; [intros Ha [? E]%returns_inv; eapply kernel_up; [by apply up_getargs|done..]|].
  destruct (decide (v = 8)) as [->|]; [intros _ [? E]%returns_inv; eapply kernel_up; [apply up_vidmap|done..]|].
  intros _ E. exists st. assert (s' = s) as ->; [|done].
  destruct v as [|v|v]; [by injection E as _ <-| |by injection E as _ <-].
  repeat (destruct v as [v|v|]; try done; try (by injection E as _ <-)).
Qed.
End events.

(** ** Lemmas: the steps *)

Section steps.
Context {size : Z} {im : fs_image} (shell_ino : Z) (shell_c : list Z).
Hypothesis Hshell : has_shell im shell_ino shell_c.
Hypothesis Hprogs : programs_ok im.

Abbreviation kernel_ok := (kernel_ok size im).

(** An exception of the running program: its message is printed and the program is
    halted with the flag raised. *)
Lemma kernel_exception st s n h i rest p a :
  kernel_ok st s -> shell_up s -> exception_vector n = Some h -> at_ st (get curThread s) = Some (i :: rest) ->
  live s i p -> at_ (get screen_x s) (get curThread s) = Some (tty_x a) ->
  at_ (get screen_y s) (get curThread s) = Some (tty_y a) ->
  shows s (terminal_page (get curThread s)) (tty_cell a) ->
  exists str s1, h = exception_handler str /\ h s = sys_halt 255 s1 /\ kernel_ok st s1 /\ shell_up s1 /\
    get curThread s1 = get curThread s /\ get cur_pid s1 = i /\ live s1 i (set exception_flag 1 p) /\
    shows s1 (terminal_page (get curThread s)) (tty_cell (tty_puts (message str) a)).
Proof using Type.
  intros Hk Hup Hh Hl Hlive Hx Hy Hsh. destruct (exception_vector_plain _ _ Hh) as (str & -> & Hplain).
  destruct (exception_run (size := size) (im := im) st s i rest p a str) as (s1 & Hrun & [Hk1 Hup1] & Ht & Hcur & Hlive1 & Hsh1); try done.
  by exists str, s1.
Qed.

Lemma event_kernel st s s' : kernel_ok st s -> event s s' -> exists st', kernel_ok st' s'.
Proof using Hshell Hprogs.
  intros Hk [k s1 Hslot E|s1 E|s1 E|eax ebx ecx edx o s1 Hup Hok E|s1 Hup E|b n r s1 Hup Hb _ E|s1 Hup E|n h o s1 Hup Hh E|a p v Ha Hacc].
  - destruct (tick_system _ _ _ _ _ Hshell _ _ _ _ (ko_system _ _ _ _ Hk) Hslot E) as (st' & Hsys).
    exists st'. by apply (kernel_kept st st' s s1); [|eapply keeps_PIThandler|].
  - exists st. by eapply preserves_KBhandler.
  - exists st. by eapply preserves_RTChandler.
  - by eapply kernel_call.
  - eapply kernel_up; [apply up_line_awaited|done..].
  - eapply kernel_up; [by apply up_read_tail|done..].
  - eapply kernel_up; [apply up_tick_awaited|done..].
  - destruct (up_session (size := size) (im := im) st s) as (i & rest & p & a & Hl & Hlive & _ & _ & _ & Hs); [by split|].
    destruct Hs as [_ _ _ _ _ _ Hx Hy Hsh _ _].
    destruct (kernel_exception st s n h i rest p a) as (str & s2 & _ & Eh & Hk2 & Hup2 & _); try done.
    rewrite Eh in E. by eapply kernel_halt.
  - exists st. apply (kernel_kept st st s); [done|done|].
    exact (store_system _ _ _ (kernel_shown _ _ Hk) st s a p v (ko_system _ _ _ _ Hk) Ha Hacc).
Qed.

Lemma events_kernel st s s' : kernel_ok st s -> rtc event s s' -> exists st', kernel_ok st' s'.
Proof using Hshell Hprogs.
  intros Hk Hev. revert st Hk. induction Hev as [s|s s1 s2 He _ IH]; intros st Hk; [by exists st|].
  destruct (event_kernel st s s1 Hk He) as (st1 & Hk1). by apply (IH st1).
Qed.

(** User code reaches the video pages and the frame of its process only. *)
Lemma kernel_isolates st s :
  kernel_ok st s -> shell_up s -> forall a p, 0 <= a < 2 ^ 32 -> access (get pag s) a = Some (p, true) ->
  VIDEO <= p < VIDEO + 4 * FOUR_KB \/ process_frame (get cur_pid s) <= p < process_frame (get cur_pid s) + FOUR_MB.
Proof using Type.
  intros Hk Hup a p Ha Hacc. pose proof (kernel_shown _ _ Hk) as Hshown.
  destruct (system_running _ _ _ _ _ (ko_system _ _ _ _ Hk) Hup) as (i & l & q & _ & <- & _ & _ & _ & _ & Hpag & _).
  rewrite (access_map (get currentTerminal s) (Some (get cur_pid s))) in Hacc by done.
  destruct (address_map_user _ _ _ _ Hacc Hshown) as [Hv|(k & [= <-] & Hk')]; [by left|by right].
Qed.
End steps.

(** ** Lemmas: the end of a program *)

Lemma halt_ends {size im} status st s i rest p :
  kernel_ok size im st s -> shell_up s -> at_ st (get curThread s) = Some (i :: rest) -> live s i p ->
  exists s', sys_halt status s =
      Ok (match rest with [] => WaitForScheduler | _ => Resume (pcb_esp p) (pcb_ebp p) (u32 (status + pcb_exception_flag p)) end, s') /\
    kernel_ok size im (upd st (get curThread s) rest) s' /\ get PCB_ptrs s' = upd (get PCB_ptrs s) i None /\
    (forall j l, rest = j :: l -> get cur_pid s' = j) /\ get mem s' = get mem s.
Proof.
  intros Hk Hup Hl Hlive. pose proof (ko_system _ _ _ _ Hk) as Hsys. pose proof Hsys as [Hth _ _].
  pose proof (tr_table _ _ _ Hth) as Hpt. pose proof (tr_pid _ _ _ Hth _ _ _ Hl) as Hcur. rewrite decide_True in Hcur by done.
  assert (forall o s', sys_halt status s = Ok (o, s') -> kernel_ok size im (upd st (get curThread s) rest) s') as Hend.
  { intros o s' E. apply (kernel_kept st _ s s'); [done|by eapply keeps_halt|by eapply halt_pops]. }
  destruct rest as [|j l].
  - destruct (table_top _ _ _ _ _ Hpt Hl) as (q & Hq & Hok & Hi & Hlen). rewrite (live_inj _ _ _ _ Hq Hlive) in Hok, Hlen.
    assert (0 <= pcb_parent_terminal p < NUM_TERMINALS) as Hterm
      by (rewrite (po_term _ _ _ _ Hok); pose proof (tr_cur _ _ _ Hth); unfold NUM_TERMINALS; lia).
    eexists. assert (sys_halt status s = _) as Hrun
      by (apply (halt_shell_run status i p s); try done; [apply Hok|apply Hpt|apply Hok|apply Hth|apply Hth]).
    split_and!; [exact Hrun|by eapply Hend|done..].
  - destruct (tr_page _ _ _ Hth) as (proc & Hpag & _).
    destruct (halt_returns status _ proc st i j l p s Hpt Hl Hcur Hlive Hpag) as (s' & Hrun & Hp & _ & Hret).
    exists s'. split_and!; [exact Hrun|by eapply Hend|done|intros j' l' [= <- _]; apply Hret|apply Hret].
Qed.

(** ** Lemmas: the boot *)

Definition cursors (s : machine) : list Z * list Z := (get screen_x s, get screen_y s).

Lemma keeps_setup_devices : keeps cursors setup_devices.
Proof. keeps. Qed.

Lemma idle_console s :
  screen_ok s -> get kbd s = idle_keyboard -> console s.
Proof.
  intros Hsc Ek.
  assert (get KBbuf s = replicate 3 (replicate 128 0) /\ get buf_loc s = [0; 0; 0] /\ get readWaiting s = [0; 0; 0] /\
    get readReady s = [0; 0; 0]) as (E1 & E2 & E3 & E4)
    by (split_and!; [exact (f_equal k_KBbuf Ek)|exact (f_equal k_buf_loc Ek)|exact (f_equal k_readWaiting Ek)|
      exact (f_equal k_readReady Ek)]).
  split; [done|rewrite Ek; split; by left| |by rewrite E3|by rewrite E4].
  intros t Ht. exists []. unfold NUM_TERMINALS in Ht.
  split; rewrite ?E1, ?E2; [| |simpl; lia]; assert (t = 0 \/ t = 1 \/ t = 2) as [->|[->| ->]] by lia; reflexivity.
Qed.

Lemma boot_kernel size im s :
  bootable size im s -> screen_ok s ->
  exists s0, setup_devices s = Ok (tt, s0) /\ kernel_ok size im [[]; []; []] s0.
Proof.
  intros Hb [Hx Hy _ Hxr Hyr].
  destruct (setup_devices_run size im s Hb) as (evs & s1 & Hlo & Hrun).
  set (s0 := set kbd idle_keyboard (set currentTerminal 0 s1)) in *. exists s0. split; [exact Hrun|].
  pose proof (keeps_setup_devices _ _ _ Hrun) as [= Ex Ey].
  pose proof (booted_paging _ _ _ evs Hb) as Hpag.
  pose proof (disk_locals _ _ _ _ Hlo (paging_inv_apart _ _ _ Hpag) (booted_disk _ _ _ evs Hb)) as Hdisk.
  pose proof (booted_threads _ _ _ evs Hb) as Hth. pose proof (bt_clock _ _ _ Hb) as Hclk.
  split; [|by apply idle_console; [split; rewrite ?Ex, ?Ey|]].
  pose proof (lo_mem _ _ Hlo) as E. set (m1 := get mem s1) in E. clearbody m1. subst s1. by apply system_reset.
Qed.

(** ** Properties *)

(** C1: from the boot on, every sequence of steps of the transition system [event]
    keeps the kernel consistent. A step is a run that returns of the timer's, the
    keyboard's or the clock's handler, of a system call of the running program with
    any arguments whose buffers are the program's own (with the interrupts served
    while it waits, and with the other threads that run meanwhile), of an exception's
    handler, or a store of the program; steps follow each other in any order, but an
    interrupt comes between two steps and not within one, and the timer's only when a
    thread without a shell can get a slot.  The live processes are exactly those on the stacks of the three
    terminals, the running one is the top of its thread's stack with its own frame,
    map and descriptors, the file system in memory is intact, the cursors lie on the
    screen, every terminal's buffer holds a line, the pages of the shown terminal are
    on the display, and user code reaches its frame and the video pages only. *)
Theorem events_keep_kernel_consistent size im shell_ino shell_c s :
  bootable size im s -> screen_ok s -> has_shell im shell_ino shell_c -> programs_ok im ->
  exists s0, setup_devices s = Ok (tt, s0) /\ kernel_ok size im [[]; []; []] s0 /\
    forall s', rtc event s0 s' -> exists st, kernel_ok size im st s' /\
      (shell_up s' -> forall a p, 0 <= a < 2 ^ 32 -> access (get pag s') a = Some (p, true) ->
         VIDEO <= p < VIDEO + 4 * FOUR_KB \/
         process_frame (get cur_pid s') <= p < process_frame (get cur_pid s') + FOUR_MB).
Proof.
  intros Hb Hsc Hshell Hprogs. destruct (boot_kernel size im s Hb Hsc) as (s0 & Hrun & Hk0). exists s0. split_and!; [done..|].
  intros s' Hev. destruct (events_kernel _ _ Hshell Hprogs _ _ _ Hk0 Hev) as (st & Hk). exists st. split; [done|].
  intros Hup. by apply (kernel_isolates (size := size) (im := im) st).
Qed.

(** An empty table has its first slot free. *)
Lemma first_slot s : process_table [[]; []; []] s -> free_pid (get PCB_ptrs s) = Some 0.
Proof.
  intros Hpt. destruct (at_Some (get PCB_ptrs s) 0) as [[j|] Hj]; [rewrite (pt_ptrs _ _ Hpt); lia| |].
  - destruct (pt_own _ _ Hpt _ _ Hj) as (_ & t & l & Hl & Hin). pose proof (at_inv _ _ _ Hl) as Hr. simpl in Hr.
    assert (t = 0 \/ t = 1 \/ t = 2) as [->|[->| ->]] by lia; injection Hl as <-; by apply not_elem_of_nil in Hin.
  - unfold free_pid. cbn [lowest_slot]. by rewrite Hj.
Qed.

Lemma unbooted_screen : screen_ok unbooted_machine.
Proof.
  split; try done; intros i v Hi; change (at_ [0; 0; 0] i = Some v) in Hi; pose proof (at_inv _ _ _ Hi) as Hr; simpl in Hr;
    assert (i = 0 \/ i = 1 \/ i = 2) as [->|[->| ->]] by lia; injection Hi as <-; done.
Qed.

Lemma events_keep_kernel_consistent_witness :
  exists s0 s1 st, setup_devices unbooted_machine = Ok (tt, s0) /\ rtc event s0 s1 /\
    kernel_ok 0x3000 shell_image st s1 /\ get cur_pid s1 = 0.
Proof.
  destruct (events_keep_kernel_consistent 0x3000 shell_image 0 shell_program unbooted_machine
    unbooted_bootable unbooted_screen shell_image_shell shell_image_programs) as (s0 & Hrun & Hk0 & Hall).
  pose proof (ko_system _ _ _ _ Hk0) as [Hth Hd _]. pose proof (first_slot s0 (tr_table _ _ _ Hth)) as Hfree.
  assert (at_ [[]; []; []] (get curThread s0) = Some ([] : list Z)) as Hidle.
  { pose proof (tr_cur _ _ _ Hth) as Hc. assert (get curThread s0 = 0 \/ get curThread s0 = 1 \/ get curThread s0 = 2)
      as [->|[->| ->]] by lia; reflexivity. }
  destruct (tick_starts_shell (get currentTerminal s0) [[]; []; []] 0x3000 shell_image 0 0 shell_program (get curThread s0) s0)
    as (s1 & Htick & _ & _ & _ & Hcur & _); [exact Hth|split; [exact Hidle|by left]|exact Hd|exact Hfree|apply shell_image_shell|].
  assert (rtc event s0 s1) as Hev.
  { apply rtc_once. apply (ev_timer s0 (Executed (EnterUser (entry_point shell_program) USER_ESP USER_CS USER_DS)) s1);
      [|exact Htick]. intros t _. exists 0. exact Hfree. }
  destruct (Hall s1 Hev) as (st & Hk & _). exists s0, s1, st. exact (conj Hrun (conj Hev (conj Hk Hcur))).
Defined.

(** C6: an exception of a program ends it: the handler prints the text of the
    exception on the program's terminal and halts it, its slot is free again, its
    parent continues after its call to execute with the value 256, and the kernel is
    consistent; a shell has no parent, and waits for the scheduler to start it again. *)
Theorem exception_ends_program size im st s n h i rest p a :
  kernel_ok size im st s -> shell_up s -> exception_vector n = Some h ->
  at_ st (get curThread s) = Some (i :: rest) -> live s i p ->
  at_ (get screen_x s) (get curThread s) = Some (tty_x a) -> at_ (get screen_y s) (get curThread s) = Some (tty_y a) ->
  shows s (terminal_page (get curThread s)) (tty_cell a) ->
  exists str s', h = exception_handler str /\
    h s = Ok (match rest with [] => WaitForScheduler | _ => Resume (pcb_esp p) (pcb_ebp p) 256 end, s') /\
    kernel_ok size im (upd st (get curThread s) rest) s' /\ at_ (get PCB_ptrs s') i = Some None /\
    (forall j l, rest = j :: l -> get cur_pid s' = j) /\
    shows s' (terminal_page (get curThread s)) (tty_cell (tty_puts (message str) a)).
Proof.
  intros Hk Hup Hh Hl Hlive Hx Hy Hsh.
  destruct (kernel_exception st s n h i rest p a Hk Hup Hh Hl Hlive Hx Hy Hsh)
    as (str & s1 & -> & Hrun & Hk1 & Hup1 & Et & _ & Hlive1 & Hsh1).
  rewrite <- Et in Hl. destruct (halt_ends 255 st s1 i rest _ Hk1 Hup1 Hl Hlive1) as (s2 & Hrun2 & Hk2 & Hp2 & Hc2 & Hm2).
  exists str, s2. rewrite Et in Hk2. split_and!; [done| |done| |done|].
  - rewrite Hrun, Hrun2. by destruct rest.
  - rewrite Hp2. apply at_upd_eq. by destruct Hlive1 as [H1%at_inv _].
  - intros pos Hpos. rewrite <- (Hsh1 pos Hpos). unfold byte. by rewrite Hm2.
Qed.

(** Shells on the three terminals, and a program started by the first one. *)
Definition child_pcb : PCB_t := Pcb 3 0 (process_pde 3) 0x7FFF00 0x7FFF08 0 0 initial_files.

Definition with_child : machine :=
  set shellStarted [1; 1; 1] (set ESPstore [0; 0x7FD000; 0x7FB000] (set EBPstore [0; 0x7FD008; 0x7FB008]
    (set PIDstore [3; 1; 2] (set PCB_ptrs [Some 0; Some 1; Some 2; Some 3; None; None]
      (set pcbs ([shell_of 0; shell_of 1; shell_of 2; child_pcb] ++ replicate 2 zero_pcb)
        (set fdt (Some 3) (set cur_pid 3 (process_paged 3 shell_machine)))))))).

Lemma with_child_table : process_table [[3; 0]; [1]; [2]] with_child.
Proof.
  split; try done.
  - intros i p. apply (at_pcbs [shell_of 0; shell_of 1; shell_of 2; child_pcb] 2). intros q Hq.
    repeat (apply elem_of_cons in Hq as [->|Hq]; [done|]). by apply not_elem_of_nil in Hq.
  - intros t l Ht. pose proof (at_inv _ _ _ Ht) as Hr. simpl in Hr.
    assert (forall i, i = 0 \/ i = 1 \/ i = 2 -> exists p, live with_child i p /\ process_ok i i (-1) p) as Hshells.
    { intros i Hi. exists (shell_of i). destruct Hi as [->|[->| ->]]; (split; [done|]; split; try done; apply initial_files_ok). }
    assert (t = 0 \/ t = 1 \/ t = 2) as [->|[->| ->]] by lia; injection Ht as <-.
    + split; [|apply NoDup_cons_2; [by rewrite list_elem_of_singleton|apply NoDup_singleton]]. split; [|split; [apply Hshells; auto|done]].
      exists child_pcb. split; [done|]. split; try done; apply initial_files_ok.
    + split; [|apply NoDup_singleton]. split; [apply Hshells; auto|done].
    + split; [|apply NoDup_singleton]. split; [apply Hshells; auto|done].
  - intros i j Hp. change (at_ [Some 0; Some 1; Some 2; Some 3; None; None] i = Some (Some j)) in Hp.
    pose proof (at_inv _ _ _ Hp) as Hr. simpl in Hr.
    assert (i = 0 \/ i = 1 \/ i = 2 \/ i = 3 \/ i = 4 \/ i = 5) as [->|[->|[->|[->|[->| ->]]]]] by lia; try done;
      injection Hp as <-; (split; [done|]); [exists 0, [3; 0]|exists 1, [1]|exists 2, [2]|exists 0, [3; 0]]; (split; [done|apply list_elem_of_In; simpl; auto]).
Qed.

Lemma with_child_kernel : kernel_ok 0x3000 shell_image [[3; 0]; [1]; [2]] with_child.
Proof.
  assert (paging_inv 0 (Some 3) (get pag with_child)) as Hpag
    by (by apply (process_paged_inv 0 None 3 shell_machine shell_paging)).
  split; [split|].
  - split; try done.
    + apply with_child_table.
    + intros t l Ht. pose proof (at_inv _ _ _ Ht) as Hr. simpl in Hr.
      assert (t = 0 \/ t = 1 \/ t = 2) as [->|[->| ->]] by lia; injection Ht as <-; done.
    + intros t i l Ht. pose proof (at_inv _ _ _ Ht) as Hr. simpl in Hr.
      assert (t = 0 \/ t = 1 \/ t = 2) as [->|[->| ->]] by lia; injection Ht as <- <-; done.
    + exists (Some 3). split; [exact Hpag|]. by intros i l [= <- _].
    + by intros i l [= <- _].
  - apply (shell_disk 0 (Some 3)); [exact Hpag|done..].
  - done.
  - apply idle_console; [|done].
    split; try done; intros i v Hi; change (at_ [0; 0; 0] i = Some v) in Hi; pose proof (at_inv _ _ _ Hi) as Hr; simpl in Hr;
      assert (i = 0 \/ i = 1 \/ i = 2) as [->|[->| ->]] by lia; injection Hi as <-; done.
Qed.

(** The program makes a page fault: the shell goes on, with the value 256. *)
Lemma exception_ends_program_witness :
  exists s', eh14 with_child = Ok (Resume 0x7FFF00 0x7FFF08 256, s') /\
    kernel_ok 0x3000 shell_image [[0]; [1]; [2]] s' /\ get cur_pid s' = 0.
Proof.
  destruct (exception_ends_program 0x3000 shell_image [[3; 0]; [1]; [2]] with_child 14 eh14 3 [0] child_pcb
    (Tty 0 0 (fun pos => byte with_child (terminal_page 0 + 2 * pos)))) as (str & s' & _ & Hrun & Hk & _ & Hcur & _).
  - apply with_child_kernel.
  - exists 1. split; [reflexivity|lia].
  - reflexivity.
  - reflexivity.
  - split; reflexivity.
  - reflexivity.
  - reflexivity.
  - intros pos _. reflexivity.
  - exists s'. exact (conj Hrun (conj Hk (Hcur 0 [] eq_refl))).
Defined.

(** C2: in every consistent state the interrupts are served to their end, and the
    state they leave is consistent: the clock's always; the timer's when a thread
    without a shell finds a free slot for it; the keyboard's for every scan code,
    when a reader that waits has room in its line (a full line with a reader is the
    one state in which Enter writes past the buffer). *)
Theorem interrupts_return size im shell_ino shell_c st s :
  kernel_ok size im st s -> has_shell im shell_ino shell_c ->
  (exists s', RTChandler s = Ok (tt, s') /\ kernel_ok size im st s') /\
  (slot_for_shell s -> exists k s' st', PIThandler s = Ok (k, s') /\ kernel_ok size im st' s') /\
  (line_room s -> exists s', KBhandler s = Ok (tt, s') /\ kernel_ok size im st s').
Proof.
  intros Hk Hshell. split_and!.
  - destruct (RTChandler_returns st s Hk) as (s' & Hrun). exists s'. split; [done|by eapply preserves_RTChandler].
  - intros Hslot. destruct (tick_returns _ _ _ _ _ Hshell st s (ko_system _ _ _ _ Hk) Hslot) as (k & s' & st' & Hrun & Hsys).
    exists k, s', st'. split; [done|]. by apply (kernel_kept st st' s s'); [|eapply keeps_PIThandler|].
  - intros Hroom. destruct (KBhandler_returns st s Hk Hroom) as (s' & Hrun). exists s'. split; [done|by eapply preserves_KBhandler].
Qed.

Lemma interrupts_return_witness :
  exists s0 s1 k s2 st, KBhandler with_child = Ok (tt, s0) /\ RTChandler with_child = Ok (tt, s1) /\
    PIThandler with_child = Ok (k, s2) /\ kernel_ok 0x3000 shell_image st s2.
Proof.
  destruct (interrupts_return 0x3000 shell_image 0 shell_program [[3; 0]; [1]; [2]] with_child with_child_kernel shell_image_shell)
    as ((s1 & Hclock & _) & Htimer & Hkey).
  destruct Htimer as (k & s2 & st & Hrun & Hk).
  { intros t _. exists 4. reflexivity. }
  destruct Hkey as (s0 & Hkrun & _).
  { intros n w _ Hw Hw0. exfalso. apply Hw0. change (at_ [0; 0; 0] 0 = Some w) in Hw. by injection Hw as <-. }
  exists s0, s1, k, s2, st. exact (conj Hkrun (conj Hclock (conj Hrun Hk))).
Defined.
